(* ===== verification/_CoqProject ===== *)
-Q . S2P
Prelude.v
Models.v
Json.v
Float.v
Text.v
Base64.v
Unicode.v
CloudflareClient.v
AtomicFile.v
Matching.v
Images.v
Store.v
StoreFacts.v
Relay.v
Actuation.v
ActuationStore.v
ActuationFacts.v
ActuationGuard.v
Telemetry.v
StoreOutbox.v
StoreOutboxFacts.v
HotStream.v
HotStreamFacts.v
HotStreamChild.v
HotStreamChildFacts.v
CommandServer.v
CommandServerFacts.v
Csv.v
Processor.v
ProcessorFacts.v
ProcessorHistory.v
FrameQuality.v
Shutdown.v
Authorisation.v
Worker.v
WorkerFacts.v
WorkerRuns.v
Outbox.v
OutboxFacts.v
OutboxProgress.v
EvidenceFacts.v
Reolink.v
ReolinkFacts.v
ReolinkHistory.v
ReolinkServer.v
ReolinkServerFacts.v
StoreMigration.v
StoreMigrationFacts.v
Settings.v
SettingsFacts.v
MediaToken.v
MediaAuth.v
Ocr.v
OcrFacts.v
TelemetryExport.v
ExportFacts.v
Capabilities.v
CapabilitiesFacts.v
MediaConfig.v
MediaFiles.v
MediaConfigFacts.v
MediaFilesFacts.v
MediaMigration.v
MediaServices.v
TurnRefresh.v
TurnRefreshFacts.v
TurnTransaction.v
UpdatePolicy.v
Status.v
Updater.v
UpdaterFacts.v
UpdaterCommands.v
UpdaterHistory.v
UpdaterOutcomes.v
Identifiers.v
Loops.v
Controller.v
PerformanceHarness.v
