(* ===== verification/Prelude.v ===== *)
(** * Verification of the vehicle gate controller

    The program watches the JPEG uploads of a camera, has the plates recognised,
    decides against a cached list of authorised plates and drives a relay that
    opens a gate.  Around this core it accepts remote commands and camera
    webhooks, delivers its events to a service, keeps itself up to date and runs
    isolated media services.  Paths below are relative to src/; a module
    gate_controller/x.py is written x.py.

    ** How the parts interact

    An upload reaches [CompletedImageHandler] (worker.py), which waits until it is
    a complete JPEG; [BurstCollector] gathers the uploads of one arrival, with
    frames of the hot stream (hot_stream.py), and hands a ranked burst through a
    bounded queue to the processing thread.  The thread resolves the camera
    trigger (reolink_events.py) and calls [GateProcessor.process] (processor.py):
    OCR under a deadline (ocr.py), the decision (matching.py) on the plates of the
    cache (authorisation.py), and the actuation (actuation.py), which claims the
    idempotency key in the SQLite store (store.py), marks the attempt durably and
    then triggers the relay (relay.py).  Events and telemetry are delivered from
    the store's outbox (outbox.py, telemetry.py, cloudflare_client.py).  Remote
    commands (command_server.py) go through the same actuation coordinator.

    Every part below is translated from the source as it is written: the data as
    records and inductive types, each operation as one executable definition in a
    state-and-exception monad ([M] below, and similar ones of the parts that need
    another state), a failing call as a value of [exc].  What the program calls but
    does not define (SHA-256, HMAC, PIL, [json.loads], [fromisoformat], the
    network, systemd, the clocks, the file system) is an argument of the
    definitions: a function, or a stream of answers of which every call consumes
    one index, so that no two calls need agree.

    ** The files

    Shared ground.
    - Prelude.v: exceptions, the monad, its notation, tactics, lemmas on lists.
    - Models.v (models.py), Json.v, Float.v (binary64 with its rounding), Text.v,
      Unicode.v, Csv.v, Base64.v: the data the parts exchange, and what the
      program uses of the language and its standard library.
    - AtomicFile.v: the replacement of a file through a temporary one.

    From image to relay.
    - Matching.v (matching.py): [normalise_plate], [decide_access].
    - Images.v, FrameQuality.v (images.py): validity, ranking, quality measures.
    - Store.v, StoreFacts.v (store.py: events, claims, recovery), StoreOutbox.v,
      StoreOutboxFacts.v (deliveries, telemetry, purges, export pages),
      StoreMigration.v, StoreMigrationFacts.v (opening a file, snapshots).
    - Relay.v (relay.py, relay_safe.py, PiRelay.py): the pulse and the switch-off.
    - Actuation.v, ActuationStore.v, ActuationFacts.v, ActuationGuard.v
      (actuation.py): the coordinator, proved against the classes [StoreOps] and
      [StoreLaws] and instantiated with Store.v.
    - Telemetry.v (telemetry.py): the bounded documents and the trace.
    - Processor.v, ProcessorFacts.v, ProcessorHistory.v (processor.py).
    - Ocr.v, OcrFacts.v (ocr.py): the client and its session shared by threads.
    - Worker.v, WorkerFacts.v, WorkerRuns.v (worker.py): ingest, bursts, the main
      loop.
    - HotStream.v, HotStreamFacts.v, HotStreamChild.v, HotStreamChildFacts.v
      (hot_stream.py): parser, ring and files; the decoder child and its threads.
    - Reolink.v, ReolinkFacts.v, ReolinkHistory.v, ReolinkServer.v,
      ReolinkServerFacts.v (reolink_events.py): triggers; the server's threads.
    - Authorisation.v (authorisation.py): the plate cache and its refresh.

    Commands, delivery and the process itself.
    - CommandServer.v, CommandServerFacts.v (command_server.py, audio.py).
    - Outbox.v, OutboxFacts.v, OutboxProgress.v, EvidenceFacts.v (outbox.py),
      CloudflareClient.v (cloudflare_client.py).
    - TelemetryExport.v, ExportFacts.v (telemetry_export.py).
    - Settings.v, SettingsFacts.v (runtime.py and [__main__.py]: what the environment
      means), Shutdown.v, Status.v ([__main__.py], control_plane.py).
    - Controller.v ([__main__.py]): the constructors and callbacks of [main], the
      bursts as the process handles them, the command telemetry-export; Loops.v: the
      loops of the background workers; Identifiers.v: content digests, trace ids.
    - PerformanceHarness.v (scripts/pi-cloudflare-performance-harness.py).

    Media services and deployment.
    - MediaToken.v, MediaAuth.v, MediaServices.v, Capabilities.v,
      CapabilitiesFacts.v (gate_media_auth/, gate_media_gateway/,
      gate_media_transcoder/, media_capabilities.py).
    - MediaConfig.v, MediaConfigFacts.v, MediaFiles.v, MediaFilesFacts.v,
      MediaMigration.v (gate_media_config.py).
    - TurnRefresh.v, TurnRefreshFacts.v, TurnTransaction.v
      (deployment/gate_media_turn_refresh.py).
    - UpdatePolicy.v, Updater.v, UpdaterFacts.v, UpdaterCommands.v,
      UpdaterHistory.v, UpdaterOutcomes.v (deployment/gate_controller_updater.py).

    A definition has the name of the function, method or constant it models,
    where it models the whole of it; parts of a long function have names of their
    own.  A file X.v holds the model, XFacts.v and the files after it its theorems.

    ** What the theorems show

    The gate.  In every history of calls, failing store operations, crashes and
    restarts one idempotency key drives the pin at most once, activations are a
    cooldown apart, the pin is only driven after a durable mark, and an opened gate
    is recorded ([each_key_energised_once], [energisations_spaced],
    [opened_is_recorded], [trigger_fail_safe], [relay_history_safe]).  It opens for
    a burst only on the observations of that burst and on a check against fresh
    plates ([burst_opens_only_on_evidence], [bursts_act_once]), for a command only
    while the command is valid ([open_only_while_valid], [commands_act_once]).  The
    decision equals a declarative reference ([decide_access_reference]).  The
    cooldown across restarts of the process assumes that the column
    activation_monotonic holds numbers, which [StoreMigrationFacts] proves for a
    file this version created and refutes for one it upgraded.

    The store.  Its tables keep an invariant under every method, recovery after a
    crash is complete and idempotent, opening a file applies each migration once
    ([store_invariant], [recovery_complete], [migration_applied_once]).

    The pipeline.  In every interleaving of the main thread, the observer and the
    processing thread no burst is lost, doubled or reordered, no accepted upload is
    forgotten, the lists keep their limits; the startup walk ends; a stop ends the
    processor ([bursts_conserved], [uploads_accounted], [startup_walk],
    [stop_ends_processing]).  Sessions of the recogniser, children of the hot stream
    and connections of the webhook server are accounted for in every interleaving
    ([no_session_leaks], [children_accounted], [webhook_requests_accounted]).  The
    histories of the process are histories of its processor
    ([controller_refines_history]), the parts [main] builds accept its settings
    ([started_parts_accepted]), and the polling loops end only when they are told to,
    but for the outbox worker's, which a locked database ends ([pollers_survive]).

    Delivery.  A row is completed only after the server confirmed its payload, no
    row is starved, staged evidence survives while it is pending, telemetry is
    bounded, an export is complete or absent ([completed_means_confirmed],
    [no_item_starves], [evidence_survives], [wire_bounded], [export_all_or_nothing]).

    Trust.  Tokens and media requests are accepted exactly when they should be,
    webhooks reach the correlator only with the secret, triggers match once, the
    controller starts only with limits in range and reports its state truthfully,
    the updater runs only releases that earned it, and credentials survive every
    failure of a migration or a refresh ([validate_media_token_exact],
    [allowed_only_local_or_token], [webhook_authenticated], [triggers_matched_once],
    [started_controller_bounded], [heartbeat_truthful], [current_release_earned],
    [activation_outcome], [commands_confined], [migration_keeps_credentials],
    [refresh_transaction]).

    ** Threads, time, numbers and fuel

    A thread is a plan of what it does at the points where another may act, or a
    step relation with one step per section under a lock; which of the two is said
    at the head of the file.  Instants are integers, microseconds since the epoch.
    Python integers are [Z]; floats are [Float.v]'s binary64, rounded where Python
    rounds.  Loops of the source that are not structural carry fuel, more than the
    rounds they can make: the attempts of the switch-off (the source's constant), a
    round for each byte left and one more ([read_rounds_fuel], [read_chunks_fuel],
    [read_exact_ends]), the bytes buffered ([feed_loop_sent]), a page for each row
    and one more ([rows_from]), a round for each queued burst and one more
    ([drain_spec]), a poll at or after the deadline ([wait_terminates]).

    ** Not modelled

    The interpreter's own machinery: argparse, logging and the texts it prints,
    http.server, socketserver and the sockets below the handlers, requests below
    [CloudflareClient.v]'s session, watchdog's observer beyond the events it
    reports, signals beyond the flag they set.  SQLite below the level of
    committed transactions, column affinities and constraints; the pages of an
    online backup.  PIL's decoding, ffmpeg, MediaMTX, systemd and the commands of
    the updater, which answer as arguments.  The signature inspection of
    [_accepts_keyword] decides between two ways to call a collaborator; the
    collaborators of this program accept the keywords, and that way is modelled.
    [_log_completed_trace] only writes a log line and swallows every error.  Not in
    Python, and left aside: the installers and checks in deployment/*.sh, the
    systemd units, the CI workflow and the documentation.  logger.py, test.py and
    test_relay.py are bench scripts that no part of the program imports. *)

From Stdlib Require Export Ascii String ZArith Lia.
From stdpp Require Export base list gmap strings option.

#[global] Set Default Goal Selector "!".

Declare Scope gate_scope.
Delimit Scope gate_scope with gate.
Open Scope gate_scope.

(** ** Exceptions, results and the state-and-exception monad

    A Python call either returns a value or raises.  Exception classes the
    source distinguishes are constructors; the message is kept where the code
    stores or compares it.  [BaseExc] stands for the exceptions that are not
    subclasses of [Exception] (KeyboardInterrupt, SystemExit). *)

Inductive exc :=
| ValueError (msg : string)
| RuntimeError (msg : string)
| TypeError
| KeyError
| IndexError
| OSError
| TimeoutError
| IntegrityError
| OperationalError
| CsvError
| OverflowError
| OcrBusy
| OcrDeadlineExceeded
| HTTPError
| DecompressionBomb
| AuthorisationError (msg : string)
| TurnRefreshError (msg : string)
| UpdateError (msg : string)
| ActivationError (msg : string)
| BaseExc.

Definition is_Exception (e : exc) : bool :=
  match e with BaseExc => false | _ => true end.

Inductive result (A : Type) :=
| Ok (a : A)
| Err (e : exc).
Arguments Ok {A} a.
Arguments Err {A} e.

Definition M (S A : Type) : Type := S -> result A * S.

Definition ret {S A} (a : A) : M S A := fun s => (Ok a, s).
Definition raise {S A} (e : exc) : M S A := fun s => (Err e, s).
Definition bind {S A B} (m : M S A) (k : A -> M S B) : M S B :=
  fun s => match m s with
           | (Ok a, s') => k a s'
           | (Err e, s') => (Err e, s')
           end.
Definition gets {S A} (f : S -> A) : M S A := fun s => (Ok (f s), s).
Definition modify {S} (f : S -> S) : M S unit := fun s => (Ok tt, f s).

(** [try: m  except Exception as e: h e]; effects made before the exception
    was raised are kept. *)
Definition try_except {S A} (m : M S A) (h : exc -> M S A) : M S A :=
  fun s => match m s with
           | (Ok a, s') => (Ok a, s')
           | (Err e, s') => if is_Exception e then h e s' else (Err e, s')
           end.

(** [try: m  finally: f] *)
Definition try_finally {S A} (m : M S A) (f : M S unit) : M S A :=
  fun s => match m s with
           | (r, s') => match f s' with
                        | (Ok _, s'') => (r, s'')
                        | (Err e, s'') => (Err e, s'')
                        end
           end.

Definition is_OSError (e : exc) : bool := match e with OSError | TimeoutError => true | _ => false end.

(** [except OSError as error: raise e] *)
Definition os_error_as {S A} (e : exc) (m : M S A) : M S A := fun s =>
  match m s with
  | (Err x, s') => (Err (if is_OSError x then e else x), s')
  | r => r
  end.

(** [except BaseException: f; raise] *)
Definition on_error {S A} (m : M S A) (f : M S unit) : M S A := fun s =>
  match m s with
  | (Err e, s') => match f s' with (Ok _, s'') => (Err e, s'') | (Err e', s'') => (Err e', s'') end
  | r => r
  end.

(** Sequencing of results. *)
Definition rbind {A B} (r : result A) (k : A -> result B) : result B :=
  match r with Ok a => k a | Err e => Err e end.

Lemma ok_inj {A} (a b : A) : Ok a = Ok b -> a = b.
Proof. congruence. Qed.

Lemma rbind_ok {A B} (r : result A) (k : A -> result B) b : rbind r k = Ok b -> exists a, r = Ok a /\ k a = Ok b.
Proof. destruct r as [a|]; [by exists a|done]. Qed.

Definition of_result {S A} (r : result A) : M S A := fun s => (r, s).

(** Run an action on a component of a larger state. *)
Definition lift {S T A} (get : S -> T) (put : T -> S -> S) (m : M T A) : M S A :=
  fun s => match m (get s) with (r, t) => (r, put t s) end.

Notation "'let!' x ':=' m 'in' k" := (bind m (fun x => k))
  (at level 10, x pattern, m at level 100, k at level 200) : gate_scope.
Notation "m ';!' k" := (bind m (fun _ => k))
  (at level 100, right associativity) : gate_scope.

Lemma bind_ok {S A B} (m : M S A) (k : A -> M S B) s a s' :
  m s = (Ok a, s') -> bind m k s = k a s'.
Proof. intros E. unfold bind. by rewrite E. Qed.

Lemma bind_err {S A B} (m : M S A) (k : A -> M S B) s e s' :
  m s = (Err e, s') -> bind m k s = (Err e, s').
Proof. intros E. unfold bind. by rewrite E. Qed.

Lemma bind_inv {S A B} (m : M S A) (k : A -> M S B) s b s' :
  bind m k s = (Ok b, s') ->
  exists a s1, m s = (Ok a, s1) /\ k a s1 = (Ok b, s').
Proof.
  unfold bind. destruct (m s) as [[a|e] s1] eqn:E; intros H; [eauto|done].
Qed.

Lemma bind_assoc {S A B C} (m : M S A) (f : A -> M S B) (g : B -> M S C) s :
  bind (bind m f) g s = bind m (fun a => bind (f a) g) s.
Proof. unfold bind. by destruct (m s) as [[a|e] s1]. Qed.

(** ** Hoare triples

    [triple P m Q E]: run from a state of [P], the action returns a value and a
    state related by [Q], or raises and leaves a state of [E]. *)

Definition triple {S A} (P : S -> Prop) (m : M S A) (Q : A -> S -> Prop) (E : S -> Prop) : Prop :=
  forall s, P s -> match m s with (Ok a, s') => Q a s' | (Err _, s') => E s' end.

Section Triples.
Context {S : Type}.
Implicit Types (P : S -> Prop) (E : S -> Prop).

Lemma triple_ret {A} P (a : A) (Q : A -> S -> Prop) E :
  (forall s, P s -> Q a s) -> triple P (ret a) Q E.
Proof. intros H s. apply H. Qed.

Lemma triple_raise {A} P e (Q : A -> S -> Prop) E :
  (forall s, P s -> E s) -> triple P (raise e) Q E.
Proof. intros H s. apply H. Qed.

Lemma triple_gets {A} P (f : S -> A) (Q : A -> S -> Prop) E :
  (forall s, P s -> Q (f s) s) -> triple P (gets f) Q E.
Proof. intros H s. apply H. Qed.

Lemma triple_modify P (f : S -> S) (Q : unit -> S -> Prop) E :
  (forall s, P s -> Q tt (f s)) -> triple P (modify f) Q E.
Proof. intros H s. apply H. Qed.

Lemma triple_bind {A B} P (m : M S A) (k : A -> M S B) R Q E :
  triple P m R E -> (forall a, triple (R a) (k a) Q E) -> triple P (bind m k) Q E.
Proof.
  intros Hm Hk s HP. specialize (Hm s HP). unfold bind.
  destruct (m s) as [[a|e] s']; [by apply Hk|done].
Qed.

Lemma triple_try {A} P (m : M S A) h Q E E' :
  triple P m Q E' -> (forall e, triple E' (h e) Q E) -> (forall s, E' s -> E s) ->
  triple P (try_except m h) Q E.
Proof.
  intros Hm Hh HE s HP. specialize (Hm s HP). unfold try_except.
  destruct (m s) as [[a|e] s']; [done|]. destruct (is_Exception e); [by apply Hh|by apply HE].
Qed.

Lemma triple_conseq {A} P P' (m : M S A) (Q Q' : A -> S -> Prop) E E' :
  triple P' m Q' E' -> (forall s, P s -> P' s) -> (forall a s, Q' a s -> Q a s) ->
  (forall s, E' s -> E s) -> triple P m Q E.
Proof.
  intros Hm HP HQ HE s Hs. specialize (Hm s (HP _ Hs)).
  destruct (m s) as [[a|e] s']; auto.
Qed.
End Triples.

(** [m] keeps the invariant [I], whether it returns or raises. *)
Definition keeps {S A} (I : S -> Prop) (m : M S A) : Prop := triple I m (fun _ => I) I.

Lemma triple_of_keeps {S A} (I : S -> Prop) (m : M S A) P (Q : A -> S -> Prop) E :
  keeps I m -> (forall s, P s -> I s) -> (forall a s, I s -> Q a s) -> (forall s, I s -> E s) ->
  triple P m Q E.
Proof. apply triple_conseq. Qed.

Section Keeps.
Context {S : Type} (I : S -> Prop).

Lemma keeps_ret {A} (a : A) : keeps I (ret a).
Proof. by apply triple_ret. Qed.

Lemma keeps_raise {A} e : keeps I (raise (A := A) e).
Proof. by apply triple_raise. Qed.

Lemma keeps_gets {A} (f : S -> A) : keeps I (gets f).
Proof. by apply triple_gets. Qed.

Lemma keeps_modify (f : S -> S) : (forall s, I s -> I (f s)) -> keeps I (modify f).
Proof. intros H s Hs. by apply H. Qed.

Lemma keeps_bind {A B} (m : M S A) (k : A -> M S B) :
  keeps I m -> (forall a, keeps I (k a)) -> keeps I (bind m k).
Proof. intros Hm Hk. by apply (triple_bind _ _ _ (fun _ => I)). Qed.

(** An action that keeps the invariant, then one that starts from it. *)
Lemma keeps_then {A B} (m : M S A) (k : A -> M S B) Q :
  keeps I m -> (forall a, triple I (k a) Q I) -> triple I (bind m k) Q I.
Proof. intros Hm Hk. by apply (triple_bind _ _ _ (fun _ => I)). Qed.

Lemma keeps_try {A} (m : M S A) h :
  keeps I m -> (forall e, keeps I (h e)) -> keeps I (try_except m h).
Proof. intros Hm Hh. by eapply triple_try. Qed.

Lemma keeps_finally {A} (m : M S A) f : keeps I m -> keeps I f -> keeps I (try_finally m f).
Proof.
  intros Hm Hf s Hs. specialize (Hm s Hs). unfold try_finally.
  destruct (m s) as [[a|e] s1]; specialize (Hf s1 Hm); by destruct (f s1) as [[?|?] ?].
Qed.

Lemma keeps_if {A} (b : bool) (m n : M S A) :
  keeps I m -> keeps I n -> keeps I (if b then m else n).
Proof. by destruct b. Qed.

Lemma keeps_state {A} (m : M S A) r s s' : keeps I m -> I s -> m s = (r, s') -> I s'.
Proof. intros Hm Hs E. specialize (Hm s Hs). rewrite E in Hm. by destruct r. Qed.

Lemma keeps_snd {A} (m : M S A) s : keeps I m -> I s -> I (snd (m s)).
Proof. intros Hm Hs. destruct (m s) as [r s'] eqn:E. by eapply keeps_state. Qed.
End Keeps.

Lemma keeps_lift {S T A} (get : S -> T) (put : T -> S -> S) (I : T -> Prop) (m : M T A) :
  (forall t s, get (put t s) = t) -> keeps I m -> keeps (fun s => I (get s)) (lift get put m).
Proof.
  intros Hgp Hm s Hs. specialize (Hm (get s) Hs). unfold lift.
  destruct (m (get s)) as [[a|e] t]; by rewrite Hgp.
Qed.

(** Like a triple, with one postcondition that sees the exception. *)
Definition post {S A} (P : S -> Prop) (m : M S A) (Q : result A -> S -> Prop) : Prop :=
  forall s r s', P s -> m s = (r, s') -> Q r s'.

Section Post.
Context {S : Type}.

Lemma post_ret {A} P (a : A) (Q : result A -> S -> Prop) :
  (forall s, P s -> Q (Ok a) s) -> post P (ret a) Q.
Proof. intros H s r s' Hs [= <- <-]. auto. Qed.

Lemma post_raise {A} P e (Q : result A -> S -> Prop) :
  (forall s, P s -> Q (Err e) s) -> post P (raise e) Q.
Proof. intros H s r s' Hs [= <- <-]. auto. Qed.

Lemma post_gets {A} P (f : S -> A) (Q : result A -> S -> Prop) :
  (forall s, P s -> Q (Ok (f s)) s) -> post P (gets f) Q.
Proof. intros H s r s' Hs [= <- <-]. auto. Qed.

Lemma post_modify P (f : S -> S) (Q : result unit -> S -> Prop) :
  (forall s, P s -> Q (Ok tt) (f s)) -> post P (modify f) Q.
Proof. intros H s r s' Hs [= <- <-]. auto. Qed.

Lemma post_bind {A B} P (m : M S A) (k : A -> M S B) (R : A -> S -> Prop) Q :
  post P m (fun r s => match r with Ok a => R a s | Err e => Q (Err e) s end) ->
  (forall a, post (R a) (k a) Q) -> post P (bind m k) Q.
Proof.
  intros Hm Hk s r s' Hs. unfold bind. destruct (m s) as [[a|e] s1] eqn:E; specialize (Hm _ _ _ Hs E).
  - by apply Hk.
  - by intros [= <- <-].
Qed.

Lemma post_keeps {A} I (m : M S A) (P : S -> Prop) (Q : result A -> S -> Prop) :
  keeps I m -> (forall s, P s -> I s) -> (forall r s, I s -> Q r s) -> post P m Q.
Proof. intros Hm HP HQ s r s' Hs E. eapply HQ, keeps_state; eauto. Qed.

Lemma post_try {A} P (m : M S A) h (Q : result A -> S -> Prop) R :
  post P m (fun r s => match r with Ok a => Q (Ok a) s
                       | Err e => if is_Exception e then R s else Q (Err e) s end) ->
  (forall e, post R (h e) Q) -> post P (try_except m h) Q.
Proof.
  intros Hm Hh s r s' Hs. unfold try_except.
  destruct (m s) as [[a|e] s1] eqn:E; specialize (Hm _ _ _ Hs E); cbn in Hm.
  - by intros [= <- <-].
  - destruct (is_Exception e); [by apply Hh|]. by intros [= <- <-].
Qed.

Lemma post_conseq {A} (P P' : S -> Prop) (m : M S A) (Q Q' : result A -> S -> Prop) :
  post P' m Q' -> (forall s, P s -> P' s) -> (forall r s, Q' r s -> Q r s) -> post P m Q.
Proof. intros Hm HP HQ s r s' Hs E. eapply HQ, Hm; eauto. Qed.
End Post.

(** Monad plumbing unfolded one layer. *)
Ltac unfold_monad :=
  unfold bind, ret, raise, gets, modify, try_except, try_finally, of_result, lift in *; cbn in *.

(** ** Datetimes

    A Python [datetime] is aware (an instant) or naive.  Both are counted in
    microseconds, the resolution of the type; naive values count from the same
    epoch in an unstated zone.  Mixing the two in a comparison or subtraction
    raises TypeError. *)

Inductive datetime :=
| Aware (us : Z)
| Naive (us : Z).

#[global] Instance datetime_eq_dec : EqDecision datetime.
Proof. solve_decision. Defined.

(** [now - other] *)
Definition dt_sub (a b : datetime) : result Z :=
  match a, b with
  | Aware x, Aware y => Ok (x - y)%Z
  | Naive x, Naive y => Ok (x - y)%Z
  | _, _ => Err TypeError
  end.

(** [a < b] *)
Definition dt_lt (a b : datetime) : result bool :=
  match a, b with
  | Aware x, Aware y => Ok (x <? y)%Z
  | Naive x, Naive y => Ok (x <? y)%Z
  | _, _ => Err TypeError
  end.

(** [a - delta] *)
Definition dt_minus (a : datetime) (delta : Z) : datetime :=
  match a with
  | Aware x => Aware (x - delta)
  | Naive x => Naive (x - delta)
  end.

Definition seconds (n : Z) : Z := (n * 1000000)%Z.

(** ** Floating-point numbers

    The values that are only compared (confidences, scores) are kept exactly:
    every finite binary64 number is an integral multiple of 2^-1074. *)

Inductive pyfloat :=
| NaN
| PosInf
| NegInf
| Fin (m : Z).

#[global] Instance pyfloat_eq_dec : EqDecision pyfloat.
Proof. solve_decision. Defined.

Definition fle (a b : pyfloat) : bool :=
  match a, b with
  | NaN, _ | _, NaN => false
  | NegInf, _ | _, PosInf => true
  | PosInf, _ | _, NegInf => false
  | Fin x, Fin y => (x <=? y)%Z
  end.
Definition flt (a b : pyfloat) : bool :=
  match a, b with
  | NaN, _ | _, NaN => false
  | NegInf, NegInf | PosInf, _ | _, NegInf => false
  | NegInf, _ | _, PosInf => true
  | Fin x, Fin y => (x <? y)%Z
  end.
Definition fge (a b : pyfloat) : bool := fle b a.
Definition isfinite (a : pyfloat) : bool :=
  match a with Fin _ => true | _ => false end.

(** Python's [max(a, b)]: the first argument unless the second is greater. *)
Definition pymax (a b : pyfloat) : pyfloat := if flt a b then b else a.

(** The binary64 number with significand [m] and exponent [e >= -1074]. *)
Definition float_lit (m e : Z) : pyfloat := Fin (Z.shiftl m (e + 1074)).
Definition float_0 : pyfloat := Fin 0.
Definition float_1 : pyfloat := float_lit 1 0.

Lemma fle_refl a : a <> NaN -> fle a a = true.
Proof. destruct a; cbn; try done. intros _. lia. Qed.

Lemma fge_not_flt a b : fge a b = true -> flt a b = false.
Proof. unfold fge. destruct a, b; cbn; try done. lia. Qed.

Lemma not_flt_fge a b : a <> NaN -> b <> NaN -> flt a b = false -> fge a b = true.
Proof. unfold fge. destruct a, b; cbn; try done. lia. Qed.

Lemma fle_trans a b c : fle a b = true -> fle b c = true -> fle a c = true.
Proof. destruct a, b, c; cbn; try done. lia. Qed.

Lemma pymax_ge_l a b : a <> NaN -> fle a (pymax a b) = true.
Proof.
  unfold pymax. destruct (flt a b) eqn:E; [|apply fle_refl].
  intros _. destruct a, b; cbn in *; try done. lia.
Qed.

Lemma pymax_not_nan a b : a <> NaN -> pymax a b <> NaN.
Proof. unfold pymax. destruct a, b; cbn; try done. case_match; done. Qed.

Lemma pymax_ge_r a b : a <> NaN -> b <> NaN -> fle b (pymax a b) = true.
Proof.
  unfold pymax. intros Ha Hb. destruct (flt a b) eqn:E; [by apply fle_refl|].
  by apply not_flt_fge.
Qed.

(** ** Python strings

    Text that comes from outside (OCR results, uploaded CSV files) is a
    sequence of Unicode code points; identifiers and reason codes the program
    makes up are ASCII and kept as [string]. *)

Abbreviation pystr := (list Z) (only parsing).

Definition of_ascii (s : string) : pystr :=
  (fun a => Z.of_nat (Ascii.nat_of_ascii a)) <$> String.list_ascii_of_string s.

(** ** Ordered dictionaries

    A Python dict iterates in insertion order; replacing a value keeps the
    position of its key. *)

Abbreviation dict V := (list (string * V)).

Fixpoint dget {V} (k : string) (d : dict V) : option V :=
  match d with
  | [] => None
  | (k', v) :: d' => if decide (k = k') then Some v else dget k d'
  end.

Fixpoint dset {V} (k : string) (v : V) (d : dict V) : dict V :=
  match d with
  | [] => [(k, v)]
  | (k', v') :: d' => if decide (k = k') then (k, v) :: d' else (k', v') :: dset k v d'
  end.

Definition ddel {V} (k : string) (d : dict V) : dict V :=
  filter (fun kv => kv.1 <> k) d.

(** [d.update(e)] *)
Definition dupdate {V} (d e : dict V) : dict V :=
  fold_left (fun acc kv => dset kv.1 kv.2 acc) e d.

Definition dmem {V} (k : string) (d : dict V) : bool := bool_decide (is_Some (dget k d)).

Section Dict.
Context {V : Type}.
Implicit Types (d e : dict V) (k : string) (v : V).

Lemma dget_dset_eq k v d : dget k (dset k v d) = Some v.
Proof.
  induction d as [|[k' v'] d IH]; cbn; [by rewrite decide_True|].
  case_decide; cbn; [by rewrite decide_True|by rewrite decide_False].
Qed.

Lemma dget_dset_ne k k' v d : k <> k' -> dget k (dset k' v d) = dget k d.
Proof.
  intros Hne. induction d as [|[k1 v1] d IH]; cbn; [by rewrite decide_False|].
  case_decide; cbn; repeat case_decide; congruence.
Qed.

Lemma dget_dset k k' v d :
  dget k (dset k' v d) = if decide (k = k') then Some v else dget k d.
Proof. case_decide; subst; [apply dget_dset_eq|by apply dget_dset_ne]. Qed.

Lemma dget_ddel_eq k d : dget k (ddel k d) = None.
Proof.
  unfold ddel. induction d as [|[k' v'] d IH]; [done|].
  destruct (decide (k' = k)) as [->|Hne].
  - rewrite filter_cons_False by naive_solver. done.
  - rewrite filter_cons_True by done. cbn [dget]. by rewrite decide_False.
Qed.

Lemma dget_ddel_ne k k' d : k <> k' -> dget k (ddel k' d) = dget k d.
Proof.
  intros Hne. unfold ddel. induction d as [|[k1 v1] d IH]; [done|].
  destruct (decide (k1 = k')) as [->|Hk].
  - rewrite filter_cons_False by naive_solver. cbn [dget].
    by rewrite (decide_False _ _ Hne).
  - rewrite filter_cons_True by done. cbn [dget]. by case_decide.
Qed.

Lemma dget_In k v d : dget k d = Some v -> (k, v) ∈ d.
Proof.
  induction d as [|[k1 v1] d IH]; cbn; [done|].
  case_decide; intros; simplify_eq; [left|right; auto].
Qed.

Lemma dget_None k d : dget k d = None <-> k ∉ d.*1.
Proof.
  induction d as [|[k1 v1] d IH]; cbn; [split; [intros _ H; inversion H|done]|].
  rewrite not_elem_of_cons. case_decide; [split; [done|tauto]|tauto].
Qed.

Lemma dset_keys k v d :
  (dset k v d).*1 = if decide (k ∈ d.*1) then d.*1 else d.*1 ++ [k].
Proof.
  induction d as [|[k1 v1] d IH]; cbn.
  - rewrite decide_False; [done|]. intros H. inversion H.
  - destruct (decide (k = k1)) as [->|Hk]; cbn.
    { rewrite decide_True by left. done. }
    rewrite IH. destruct (decide (k ∈ d.*1)) as [Hin|Hin].
    + by rewrite decide_True by (by right).
    + by rewrite decide_False by (by rewrite not_elem_of_cons).
Qed.

(** A dictionary whose values are a function of its keys. *)
Definition graph (f : string -> V) (ks : list string) : dict V :=
  (fun k => (k, f k)) <$> ks.

Lemma dget_graph f ks k :
  dget k (graph f ks) = if decide (k ∈ ks) then Some (f k) else None.
Proof.
  induction ks as [|k' ks IH]; cbn.
  - rewrite decide_False; [done|]. intros H. inversion H.
  - fold (graph f ks). rewrite IH. destruct (decide (k = k')) as [->|Hne].
    + by rewrite decide_True by left.
    + destruct (decide (k ∈ ks)) as [Hin|Hin].
      * by rewrite decide_True by (by right).
      * by rewrite decide_False by (by rewrite not_elem_of_cons).
Qed.

Lemma graph_ext f g ks : (forall k, k ∈ ks -> f k = g k) -> graph f ks = graph g ks.
Proof.
  intros H. unfold graph. apply list_fmap_ext. intros i k Hk.
  f_equal. apply H. apply list_elem_of_lookup. eauto.
Qed.

Lemma dset_graph f g ks k v :
  NoDup ks -> g k = v -> (forall k', k' <> k -> g k' = f k') ->
  dset k v (graph f ks) = graph g (if decide (k ∈ ks) then ks else ks ++ [k]).
Proof.
  intros Hnd Hk Hg. induction Hnd as [|k' ks Hnin Hnd IH]; cbn.
  - rewrite decide_False; [cbn; by rewrite Hk|]. intros H. inversion H.
  - fold (graph f ks). destruct (decide (k = k')) as [->|Hne].
    + rewrite decide_True by left. cbn. fold (graph g ks). rewrite Hk. f_equal.
      apply graph_ext. intros k1 Hk1. symmetry. apply Hg. by intros ->.
    + rewrite IH. destruct (decide (k ∈ ks)) as [Hin|Hin].
      * rewrite decide_True by (by right). cbn. by rewrite Hg by done.
      * rewrite decide_False by (by rewrite not_elem_of_cons). cbn. by rewrite Hg by done.
Qed.
End Dict.

(** ** Tables

    A database table is the list of its rows in ascending row id. *)

(** The row id SQLite gives to the next row of an INTEGER PRIMARY KEY table. *)
Definition next_rowid (ids : list Z) : Z := (fold_right Z.max 0 ids + 1)%Z.

Lemma next_rowid_fresh ids : Forall (fun i => i < next_rowid ids)%Z ids.
Proof.
  unfold next_rowid.
  assert (H : Forall (fun i => i <= fold_right Z.max 0 ids)%Z ids).
  { induction ids as [|i ids IH]; constructor; cbn; [lia|].
    eapply Forall_impl; [|exact IH]. cbn. lia. }
  eapply Forall_impl; [|exact H]. cbn. lia.
Qed.

Lemma next_rowid_not_in ids : next_rowid ids ∉ ids.
Proof.
  intros Hin. pose proof (next_rowid_fresh ids) as H.
  rewrite list.Forall_forall in H. specialize (H _ Hin). lia.
Qed.

Lemma next_rowid_pos ids : (0 < next_rowid ids)%Z.
Proof. unfold next_rowid. induction ids; cbn; lia. Qed.

(** First row satisfying a test, as a SELECT on a unique column finds it. *)
Fixpoint find_row {A} (p : A -> bool) (l : list A) : option A :=
  match l with
  | [] => None
  | x :: l' => if p x then Some x else find_row p l'
  end.

Lemma find_row_Some {A} (p : A -> bool) (l : list A) x :
  find_row p l = Some x -> x ∈ l /\ p x = true.
Proof.
  induction l as [|y l IH]; cbn; [done|].
  destruct (p y) eqn:E; [intros [= ->]; split; [left|done]|].
  intros H. destruct (IH H) as [??]. split; [by right|done].
Qed.

Lemma find_row_None {A} (p : A -> bool) (l : list A) :
  find_row p l = None <-> Forall (fun x => p x = false) l.
Proof.
  induction l as [|y l IH]; cbn; [split; [constructor|done]|].
  destruct (p y) eqn:E; rewrite list.Forall_cons; [split; [done|intros [? _]; congruence]|].
  rewrite IH. split; [by split|by intros [_ ?]].
Qed.

Lemma find_row_app {A} (p : A -> bool) (l k : list A) :
  find_row p (l ++ k) =
    match find_row p l with Some x => Some x | None => find_row p k end.
Proof. induction l as [|y l IH]; cbn; [done|]. by destruct (p y). Qed.

Lemma find_row_split {A} (p : A -> bool) (l : list A) x :
  find_row p l = Some x ->
  exists l1 l2, l = l1 ++ x :: l2 /\ p x = true /\ Forall (fun y => p y = false) l1.
Proof.
  induction l as [|y l IH]; cbn; [done|].
  destruct (p y) eqn:E; [intros [= ->]; by exists [], l|].
  intros H. destruct (IH H) as (l1 & l2 & -> & Hx & Hl).
  exists (y :: l1), l2. split; [done|]. split; [done|]. by constructor.
Qed.

Lemma find_row_ext {A} (p q : A -> bool) (l : list A) :
  (forall x, x ∈ l -> p x = q x) -> find_row p l = find_row q l.
Proof.
  induction l as [|y l IH]; cbn; intros H; [done|].
  rewrite (H y) by left. rewrite IH; [done|]. intros x Hx. apply H. by right.
Qed.

(** ** Positions in lists *)

Lemma filter_one {A} (P : A -> Prop) `{!forall x, Decision (P x)} (l : list A) :
  (1 <= length (filter P l))%nat -> exists l1 x l2, l = l1 ++ x :: l2 /\ P x.
Proof.
  induction l as [|a l IH]; cbn [length]; [rewrite filter_nil; cbn; lia|].
  destruct (decide (P a)); [by exists [], a, l|].
  rewrite filter_cons_False by done. intros (l1 & x & l2 & -> & ?)%IH.
  by exists (a :: l1), x, l2.
Qed.

Lemma filter_two {A} (P : A -> Prop) `{!forall x, Decision (P x)} (l : list A) :
  (2 <= length (filter P l))%nat ->
  exists l1 x l2 y l3, l = l1 ++ x :: l2 ++ y :: l3 /\ P x /\ P y.
Proof.
  induction l as [|a l IH]; [rewrite filter_nil; cbn; lia|].
  destruct (decide (P a)).
  - rewrite filter_cons_True by done. cbn [length].
    intros (l1 & x & l2 & -> & ?)%le_S_n%filter_one. by exists [], a, l1, x, l2.
  - rewrite filter_cons_False by done. intros (l1 & x & l2 & y & l3 & -> & ?)%IH.
    by exists (a :: l1), x, l2, y, l3.
Qed.

Lemma filter_none {A} (P : A -> Prop) `{!forall x, Decision (P x)} (l : list A) :
  (forall x, x ∈ l -> ~ P x) -> filter P l = [].
Proof.
  induction l as [|a l IH]; intros Hl; [done|]. rewrite filter_cons_False by (apply Hl; left).
  apply IH. intros x Hx. apply Hl. by right.
Qed.

Lemma omap_split {A B} (f : A -> option B) (l : list A) k1 x k2 :
  omap f l = k1 ++ x :: k2 ->
  exists l1 a l2, l = l1 ++ a :: l2 /\ f a = Some x /\ omap f l2 = k2.
Proof.
  revert k1. induction l as [|a l IH]; intros k1; cbn; [by destruct k1|].
  destruct (f a) as [y|] eqn:E.
  - destruct k1 as [|z k1]; cbn; intros [= -> H]; [by exists [], a, l|].
    destruct (IH _ H) as (l1 & b & l2 & -> & ? & ?). by exists (a :: l1), b, l2.
  - intros H. destruct (IH _ H) as (l1 & b & l2 & -> & ? & ?). by exists (a :: l1), b, l2.
Qed.

(** ** Finite executions of a step relation *)

Section Star.
Context {A L : Type} (R : A -> L -> A -> Prop).

Inductive steps : A -> list L -> A -> Prop :=
| steps_nil a : steps a [] a
| steps_cons a l b ls c : R a l b -> steps b ls c -> steps a (l :: ls) c.

Lemma steps_one a l b : R a l b -> steps a [l] b.
Proof. eauto using steps. Qed.

Lemma steps_app a ls b ks c : steps a ls b -> steps b ks c -> steps a (ls ++ ks) c.
Proof. induction 1; cbn; eauto using steps. Qed.

Lemma steps_invariant (P : A -> Prop) :
  (forall a l b, P a -> R a l b -> P b) ->
  forall a ls b, steps a ls b -> P a -> P b.
Proof. intros HP a ls b H. induction H; eauto. Qed.
End Star.

(** ** Automation shared by the components *)

Create HintDb gate.
#[export] Hint Resolve next_rowid_not_in next_rowid_pos : gate.
#[export] Hint Constructors steps : gate.
#[export] Hint Resolve keeps_ret keeps_raise keeps_gets keeps_bind keeps_try keeps_finally
  keeps_if : gate.

(** Prove that a composed action keeps an invariant its parts keep. *)
Ltac keeps_step :=
  match goal with
  | |- forall _, _ => intros ?
  | |- keeps _ (ret _) => apply keeps_ret
  | |- keeps _ (raise _) => apply keeps_raise
  | |- keeps _ (gets _) => apply keeps_gets
  | |- keeps _ (bind _ _) => apply keeps_bind
  | |- keeps _ (try_except _ _) => apply keeps_try
  | |- keeps _ (try_finally _ _) => apply keeps_finally
  | |- keeps _ (if ?b then _ else _) => destruct b
  | |- keeps _ (match ?x with _ => _ end) => destruct x
  end.
Ltac keeps_tac := repeat (keeps_step || solve [eauto with gate]).

(** Split every match and conditional of the goal, keeping equations. *)
Ltac split_matches := repeat (case_match; try done).

(** Turn boolean tests in the context into propositions. *)
Ltac bool_props :=
  repeat match goal with
  | H : andb _ _ = true |- _ => apply andb_true_iff in H as [? ?]
  | H : negb _ = true |- _ => apply negb_true_iff in H
  | H : negb _ = false |- _ => apply negb_false_iff in H
  | H : bool_decide _ = true |- _ => apply bool_decide_eq_true in H
  | H : bool_decide _ = false |- _ => apply bool_decide_eq_false in H
  | H : (_ <? _)%Z = true |- _ => apply Z.ltb_lt in H
  | H : (_ <? _)%Z = false |- _ => apply Z.ltb_ge in H
  | H : (_ <=? _)%Z = true |- _ => apply Z.leb_le in H
  | H : (_ <=? _)%Z = false |- _ => apply Z.leb_gt in H
  end.
