(* ===== verification/Models.v ===== *)
(** * Data classes of gate_controller/models.py

    The frozen dataclasses the components exchange.  Plates inside decisions
    and events have passed [normalise_plate] and are ASCII strings; the plate
    of an observation is the text the recogniser returned. *)

From S2P Require Import Prelude.

(** models.py: PlateObservation *)
Record PlateObservation := {
  po_plate : option pystr;
  po_confidence : pyfloat;
  po_make : option string;
  po_colour : option string;
}.

(** models.py: MatchDecision *)
Record MatchDecision := {
  md_allowed : bool;
  md_reason : string;
  md_authorised_plate : option string;
  md_observed_plate : option string;
  md_confidence : pyfloat;
}.

(** models.py: GateEvent *)
Record GateEvent := {
  ge_source : string;
  ge_reason : string;
  ge_opened : bool;
  ge_idempotency_key : option string;
  ge_received_at : datetime;
  ge_decision_at : option datetime;
  ge_relay_activated_at : option datetime;
  ge_authorised_plate : option string;
  ge_observed_plate : option string;
  ge_ocr_confidence : pyfloat;
}.

(** models.py: RelayResult *)
Record RelayResult := {
  rr_activated : bool;
  rr_reason : string;
  rr_idempotency_key : option string;
  rr_activated_at : option datetime;
  rr_latched : bool;
}.

(** models.py: ActuationClaim *)
Record ActuationClaim := {
  ac_idempotency_key : string;
  ac_status : string;
  ac_claimed_at : option datetime;
  ac_claim_id : option Z;
}.

(** models.py: TerminalOutcome *)
Record TerminalOutcome := {
  to_status : string;
  to_detail : option string;
  to_event_id : option Z;
}.

(** models.py: ActuationExecution *)
Record ActuationExecution := {
  ae_opened : bool;
  ae_reason : string;
  ae_event_id : option Z;
  ae_terminal_status : string;
  ae_terminal_detail : option string;
}.

#[global] Instance MatchDecision_eq_dec : EqDecision MatchDecision.
Proof. solve_decision. Defined.
#[global] Instance GateEvent_eq_dec : EqDecision GateEvent.
Proof. solve_decision. Defined.
#[global] Instance ActuationExecution_eq_dec : EqDecision ActuationExecution.
Proof. solve_decision. Defined.

(** models.py: the dataclasses' default field values. *)
Definition denied (reason : string) : MatchDecision :=
  {| md_allowed := false; md_reason := reason; md_authorised_plate := None;
     md_observed_plate := None; md_confidence := float_0 |}.
