(* ===== verification/Json.v ===== *)
(** * JSON values and JSON text columns

    [json.dumps] and [json.loads] as the program uses them.  A column that holds
    JSON text is represented by the value the text parses to, or by [Malformed]
    when it does not parse; [dumps] then [loads] is the identity up to the order
    of keys, which no reader of the columns depends on.  A text that
    [_timestamp] produced (ISO format, UTC) is kept as the instant it denotes. *)

From S2P Require Import Prelude.

Inductive json :=
| JNull
| JBool (b : bool)
| JInt (z : Z)
| JFloat (f : pyfloat)
| JStr (s : string)
| JTime (us : Z)
| JList (l : list json)
| JDict (d : list (string * json)).

Inductive text :=
| Json (j : json)
| Malformed.

(** [json.loads]; JSONDecodeError is a ValueError. *)
Definition loads (t : text) : result json :=
  match t with Json j => Ok j | Malformed => Err (ValueError "json") end.
Definition dumps (j : json) : text := Json j.

Definition json_of_option {A} (f : A -> json) (o : option A) : json :=
  match o with Some a => f a | None => JNull end.

Definition is_null (j : json) : bool := match j with JNull => true | _ => false end.

(** [d[key]] *)
Definition dict_item (k : string) (d : dict json) : result json :=
  match dget k d with Some j => Ok j | None => Err KeyError end.

(** [d.get(key)] *)
Definition dict_get (k : string) (d : dict json) : json := default JNull (dget k d).

Lemma loads_dumps j : loads (dumps j) = Ok j.
Proof. done. Qed.

Lemma dict_get_dset k k' j d :
  dict_get k (dset k' j d) = if decide (k = k') then j else dict_get k d.
Proof. unfold dict_get. rewrite dget_dset. by case_decide. Qed.

Lemma dict_get_ddel k k' d :
  dict_get k (ddel k' d) = if decide (k = k') then JNull else dict_get k d.
Proof.
  unfold dict_get. case_decide; subst; [by rewrite dget_ddel_eq|by rewrite dget_ddel_ne].
Qed.
