(* ===== verification/Float.v ===== *)
(** * Binary64 arithmetic

    The operations on floats the program performs, with their rounding: every
    finite float is an integral multiple of 2^-1074, so a sum is exact before it
    is rounded and a quotient of integers is rounded once.  Rounding is to
    nearest, ties to even, with overflow to infinity. *)

From S2P Require Import Prelude.

Definition two1074 : Z := Z.shiftl 1 1074.

(** The nearest integer to [p / q], ties to even, for [q > 0]. *)
Definition round_half_even (p q : Z) : Z :=
  let n := (p / q)%Z in
  let r := (2 * (p mod q))%Z in
  if (r <? q)%Z then n
  else if (q <? r)%Z then (n + 1)%Z
  else if Z.even n then n else (n + 1)%Z.

(** The nearest float to the non-negative [p / q] (in units of 2^-1074). *)
Definition fround_pos (p q : Z) : Z :=
  let drop := (Z.log2 (p / q) - 52)%Z in
  if (drop <=? 0)%Z then round_half_even p q
  else (round_half_even p (q * 2 ^ drop) * 2 ^ drop)%Z.

(** The largest finite float is below 2^1024. *)
Definition overflows (m : Z) : bool := (Z.shiftl 1 2098 <=? Z.abs m)%Z.

Definition fround (p q : Z) : pyfloat :=
  let m := if (p <? 0)%Z then (- fround_pos (- p) q)%Z else fround_pos p q in
  if overflows m then (if (m <? 0)%Z then NegInf else PosInf) else Fin m.

Definition fadd (a b : pyfloat) : pyfloat :=
  match a, b with
  | Fin x, Fin y => fround (x + y) 1
  | NaN, _ | _, NaN => NaN
  | PosInf, NegInf | NegInf, PosInf => NaN
  | PosInf, _ | _, PosInf => PosInf
  | NegInf, _ | _, NegInf => NegInf
  end.

Definition fopp (a : pyfloat) : pyfloat :=
  match a with Fin x => Fin (- x) | PosInf => NegInf | NegInf => PosInf | NaN => NaN end.
Definition fsub (a b : pyfloat) : pyfloat := fadd a (fopp b).

(** Multiplication by a finite constant that is not zero. *)
Definition fmul_const (k : Z) (a : pyfloat) : pyfloat :=
  match a with
  | Fin x => fround (x * k) 1
  | NaN => NaN
  | PosInf => if (0 <? k)%Z then PosInf else NegInf
  | NegInf => if (0 <? k)%Z then NegInf else PosInf
  end.

(** [float(n)] and [n / d] of integers, [d > 0]. *)
Definition float_of_Z (n : Z) : pyfloat := fround (n * two1074) 1.
Definition float_div (n d : Z) : pyfloat := fround (n * two1074) d.

(** [math.floor] of a finite float. *)
Definition floor_of (m : Z) : Z := (m / two1074)%Z.

(** Python's [min(a, b)]: the first argument unless the second is smaller. *)
Definition pymin (a b : pyfloat) : pyfloat := if flt b a then b else a.

Lemma two1074_pos : (0 < two1074)%Z.
Proof. unfold two1074. rewrite Z.shiftl_mul_pow2 by lia. lia. Qed.

Lemma round_half_even_nonneg p q : (0 < q)%Z -> (0 <= p)%Z -> (0 <= round_half_even p q)%Z.
Proof.
  intros Hq Hp. unfold round_half_even. pose proof (Z.div_pos p q Hp Hq).
  repeat case_match; lia.
Qed.

Lemma fround_pos_nonneg p q : (0 < q)%Z -> (0 <= p)%Z -> (0 <= fround_pos p q)%Z.
Proof.
  intros Hq Hp. unfold fround_pos. case_match; [by apply round_half_even_nonneg|].
  apply Z.mul_nonneg_nonneg; [|lia]. apply round_half_even_nonneg; [|done].
  apply Z.mul_pos_pos; [done|]. apply Z.pow_pos_nonneg; lia.
Qed.

(** Clamping with Python's min and max. *)
Definition fclamp (lo hi a : pyfloat) : pyfloat := pymin (pymax a lo) hi.

Lemma fclamp_between lo hi x :
  (lo <= hi)%Z -> exists m, fclamp (Fin lo) (Fin hi) (Fin x) = Fin m /\ (lo <= m <= hi)%Z.
Proof.
  intros H. unfold fclamp, pymin, pymax. cbn.
  destruct (Z.ltb_spec x lo); cbn; [destruct (Z.ltb_spec hi lo)|destruct (Z.ltb_spec hi x)];
    eexists; (split; [reflexivity|lia]).
Qed.

Lemma fadd_nonneg x y m : (0 <= x)%Z -> (0 <= y)%Z -> fadd (Fin x) (Fin y) = Fin m -> (0 <= m)%Z.
Proof.
  intros Hx Hy. cbn. unfold fround. destruct (Z.ltb_spec (x + y) 0); [lia|].
  pose proof (fround_pos_nonneg (x + y) 1 ltac:(lia) ltac:(lia)).
  destruct (overflows _); [by destruct (_ <? _)%Z|]. by intros [= <-].
Qed.

(** Rounding at most doubles, so moderate values stay finite. *)
Lemma fround_pos_le p q : (0 < q)%Z -> (0 <= p)%Z -> (fround_pos p q <= 2 * (p / q) + 1)%Z.
Proof.
  intros Hq Hp. assert (Hr : forall q', (0 < q')%Z -> (round_half_even p q' <= p / q' + 1)%Z).
  { intros q' Hq'. unfold round_half_even. repeat case_match; lia. }
  pose proof (Z.div_pos p q Hp Hq) as Hd. unfold fround_pos. destruct (Z.leb_spec (Z.log2 (p / q) - 52) 0) as [Hn|Hn].
  - specialize (Hr q Hq). lia.
  - set (k := (Z.log2 (p / q) - 52)%Z) in *. assert (Hk : (0 < 2 ^ k)%Z) by (apply Z.pow_pos_nonneg; lia).
    specialize (Hr (q * 2 ^ k)%Z ltac:(nia)). rewrite <- Z.div_div in Hr by lia.
    assert (Hlog : (2 ^ k <= p / q)%Z).
    { assert (Hpq : (0 < p / q)%Z).
      { destruct (decide (p / q = 0)%Z) as [E|]; [unfold k in Hn; rewrite E in Hn; cbn in Hn|]; lia. }
      pose proof (Z.log2_spec (p / q)%Z Hpq) as [Hs _]. etrans; [|exact Hs]. apply Z.pow_le_mono_r; lia. }
    pose proof (Z.mul_div_le (p / q)%Z (2 ^ k)%Z Hk). nia.
Qed.

Lemma fround_finite p q b :
  (0 < q)%Z -> (0 <= p)%Z -> (p / q <= b)%Z -> (2 * b + 1 < 2 ^ 2098)%Z ->
  exists m, fround p q = Fin m /\ (0 <= m <= 2 * b + 1)%Z.
Proof.
  intros Hq Hp Hb Hmax. pose proof (fround_pos_nonneg p q Hq Hp). pose proof (fround_pos_le p q Hq Hp).
  unfold fround. destruct (Z.ltb_spec p 0); [lia|]. exists (fround_pos p q).
  assert (E : overflows (fround_pos p q) = false).
  { unfold overflows. apply Z.leb_gt. rewrite Z.shiftl_mul_pow2 by lia. lia. }
  rewrite E. split; [done|lia].
Qed.
