(* ===== verification/Text.v ===== *)
(** * Numbers and paths in text

    [int(text)] and [float(text)] on ASCII text, and the parts of pathlib paths
    the program reads: last component, suffix, containment. *)

From S2P Require Import Prelude Float.

(** ** Integer literals *)

Definition digit_of (a : ascii) : option Z :=
  let n := Ascii.nat_of_ascii a in
  if ((48 <=? n) && (n <=? 57))%nat then Some (Z.of_nat n - 48)%Z else None.

(** The digits of an integer literal: single underscores may separate them. *)
Fixpoint digits (acc : Z) (after_digit : bool) (l : list ascii) : option Z :=
  match l with
  | [] => if after_digit then Some acc else None
  | a :: l' =>
      match digit_of a with
      | Some d => digits (10 * acc + d) true l'
      | None => if after_digit && bool_decide (a = "_"%char) then
                  match l' with
                  | b :: _ => if bool_decide (is_Some (digit_of b)) then digits acc false l' else None
                  | [] => None
                  end
                else None
      end
  end.

Definition is_space (a : ascii) : bool :=
  let n := Ascii.nat_of_ascii a in ((9 <=? n) && (n <=? 13) || (28 <=? n) && (n <=? 32))%nat.
Fixpoint lstrip (l : list ascii) : list ascii :=
  match l with a :: l' => if is_space a then lstrip l' else l | [] => [] end.
Definition strip (l : list ascii) : list ascii := rev (lstrip (rev (lstrip l))).

(** [int(text)] on ASCII text *)
Definition int_of_text (s : string) : option Z :=
  match strip (String.list_ascii_of_string s) with
  | "-"%char :: l => Z.opp <$> digits 0 false l
  | "+"%char :: l => digits 0 false l
  | l => digits 0 false l
  end.

(** ** Floating-point literals *)

(** Underscores may only stand between two digits. *)
Fixpoint underscores_ok (after_digit : bool) (l : list ascii) : bool :=
  match l with
  | [] => true
  | a :: l' =>
      if bool_decide (a = "_"%char) then
        after_digit && match l' with b :: _ => bool_decide (is_Some (digit_of b)) | [] => false end
        && underscores_ok false l'
      else underscores_ok (bool_decide (is_Some (digit_of a))) l'
  end.

(** The longest run of digits: its value after [acc], its length, the rest. *)
Fixpoint digit_run (acc : Z) (n : nat) (l : list ascii) : Z * nat * list ascii :=
  match l with
  | a :: l' => match digit_of a with
               | Some d => digit_run (10 * acc + d) (S n) l'
               | None => (acc, n, l)
               end
  | [] => (acc, n, [])
  end.

(** The exponent part. *)
Definition exponent (l : list ascii) : option Z :=
  match l with
  | [] => Some 0%Z
  | a :: l' =>
      if bool_decide (a = "e"%char) || bool_decide (a = "E"%char) then
        let '(neg, l'') := match l' with
                           | "-"%char :: r => (true, r)
                           | "+"%char :: r => (false, r)
                           | r => (false, r)
                           end in
        match digit_run 0 0 l'' with
        | (e, S _, []) => Some (if neg then - e else e)%Z
        | _ => None
        end
      else None
  end.

(** A decimal literal as an integer and a power of ten. *)
Definition decimal (l : list ascii) : option (Z * Z) :=
  let '(whole, n, rest) := digit_run 0 0 l in
  let '(all, k, rest) := match rest with
                         | "."%char :: r => digit_run whole 0 r
                         | r => (whole, O, r)
                         end in
  if (n + k =? 0)%nat then None
  else (fun e => (all, e - Z.of_nat k)%Z) <$> exponent rest.

Definition lower_char (a : ascii) : ascii :=
  let n := Ascii.nat_of_ascii a in
  if ((65 <=? n) && (n <=? 90))%nat then Ascii.ascii_of_nat (n + 32) else a.
Definition lower_text (s : string) : string :=
  String.string_of_list_ascii (lower_char <$> String.list_ascii_of_string s).

(** The float nearest to [m * 10^e], for [m >= 0]. *)
Definition scaled (m e : Z) : pyfloat :=
  if (0 <=? e)%Z then fround (m * 10 ^ e * two1074) 1 else fround (m * two1074) (10 ^ (- e)).

(** [float(text)] on ASCII text *)
Definition float_of_text (s : string) : option pyfloat :=
  let l := strip (String.list_ascii_of_string s) in
  let '(neg, l) := match l with
                   | "-"%char :: r => (true, r)
                   | "+"%char :: r => (false, r)
                   | r => (false, r)
                   end in
  let word := String.string_of_list_ascii (lower_char <$> l) in
  let magnitude :=
    if bool_decide (word ∈ ["inf"; "infinity"]) then Some PosInf
    else if bool_decide (word = "nan") then Some NaN
    else if underscores_ok false l
    then (fun me => scaled me.1 me.2) <$> decimal (filter (fun a => a <> "_"%char) l)
    else None in
  (fun f => if neg : bool then fopp f else f) <$> magnitude.

Example float_literals :
  (float_of_text " 1 ", float_of_text "0.5", float_of_text "-1_0e-1", float_of_text "1__0", float_of_text ".")
  = (Some float_1, Some (float_lit 1 (-1)), Some (float_lit (-1) 0), None, None).
Proof. vm_compute. reflexivity. Qed.

(** ** Paths

    A path is its text, as pathlib writes it: no trailing slash, no empty
    component. *)

(** [s.rfind(c)] *)
Fixpoint rfind (c : ascii) (s : string) : option nat :=
  match s with
  | EmptyString => None
  | String a s' => match rfind c s' with
                   | Some i => Some (S i)
                   | None => if bool_decide (a = c) then Some O else None
                   end
  end.

(** [s[n:]] *)
Definition drop_text (n : nat) (s : string) : string := String.substring n (String.length s - n) s.

(** [path.name] *)
Definition path_name (p : string) : string :=
  match rfind "/"%char p with Some i => drop_text (S i) p | None => p end.

(** [path.suffix] *)
Definition path_suffix (p : string) : string :=
  let name := path_name p in
  match rfind "."%char name with
  | Some i => if ((0 <? i) && (S i <? String.length name))%nat then drop_text i name else EmptyString
  | None => EmptyString
  end.

(** [path / name] *)
Definition path_child (p name : string) : string := String.append p (String.append "/" name).

(** The components of a path, outermost first. *)
Fixpoint split_path (component : string) (s : string) : list string :=
  match s with
  | EmptyString => [component]
  | String a s' => if bool_decide (a = "/"%char) then component :: split_path EmptyString s'
                   else split_path (String.append component (String a EmptyString)) s'
  end.
Definition path_parts (p : string) : list string := filter (fun c => c <> EmptyString) (split_path EmptyString p).

(** [p == root or p.is_relative_to(root)], for absolute paths *)
Definition within (root p : string) : bool := bool_decide (path_parts root `prefix_of` path_parts p).

Example path_examples :
  (path_suffix "/home/ftp/cam.1/IMG.JPG", path_suffix "/home/.jpg", path_suffix "a/b.", path_name "x/y/z",
   within "/home/ftp/.hot" "/home/ftp/.hot/f.jpg", within "/home/ftp/.hot" "/home/ftp/.hotter/f.jpg")
  = (".JPG", "", "", "z", true, false).
Proof. vm_compute. reflexivity. Qed.

(** [word in l] *)
Fixpoint contains (word l : list ascii) : bool :=
  bool_decide (word `prefix_of` l) || match l with [] => false | _ :: l' => contains word l' end.
