(* ===== verification/Base64.v ===== *)
(** * Base64

    [base64.b64encode], and a decoder as its specification: three bytes make
    four characters of six bits, the last group is padded. *)

From Stdlib Require Import Strings.Byte.
From S2P Require Import Prelude.

Abbreviation bytes := (list byte).

Definition alphabet : list ascii :=
  list_ascii_of_string "ABCDEFGHIJKLMNOPQRSTUVWXYZabcdefghijklmnopqrstuvwxyz0123456789+/".
Definition pad : ascii := "="%char.

(** The character of a six-bit value, and back. *)
Definition sextet (n : Z) : ascii := nth (Z.to_nat n) alphabet pad.
Fixpoint index_of (a : ascii) (l : list ascii) : option nat :=
  match l with
  | [] => None
  | b :: l' => if bool_decide (a = b) then Some O else S <$> index_of a l'
  end.
Definition unsextet (a : ascii) : option Z := Z.of_nat <$> index_of a alphabet.

Definition octet (b : byte) : Z := Z.of_N (Byte.to_N b).
Definition unoctet (n : Z) : byte := default x00 (Byte.of_N (Z.to_N n)).

Open Scope Z_scope.

Fixpoint b64encode (l : list byte) : string :=
  match l with
  | [] => EmptyString
  | [a] => String (sextet (octet a / 4)) (String (sextet (octet a mod 4 * 16)) (String pad (String pad EmptyString)))
  | [a; b] => String (sextet (octet a / 4)) (String (sextet (octet a mod 4 * 16 + octet b / 16))
                (String (sextet (octet b mod 16 * 4)) (String pad EmptyString)))
  | a :: b :: c :: l' =>
      String (sextet (octet a / 4)) (String (sextet (octet a mod 4 * 16 + octet b / 16))
        (String (sextet (octet b mod 16 * 4 + octet c / 64)) (String (sextet (octet c mod 64)) (b64encode l'))))
  end.

(** The bytes of a group. *)
Definition first_octet (p q : Z) : byte := unoctet (p * 4 + q / 16).
Definition second_octet (q r : Z) : byte := unoctet (q mod 16 * 16 + r / 4).
Definition third_octet (r s : Z) : byte := unoctet (r mod 4 * 64 + s).

Fixpoint b64decode (t : string) : option (list byte) :=
  match t with
  | EmptyString => Some []
  | String a (String b (String c (String d t'))) =>
      p ← unsextet a; q ← unsextet b;
      match unsextet c, unsextet d with
      | None, None => if bool_decide (c = pad /\ d = pad /\ t' = EmptyString) then Some [first_octet p q] else None
      | Some r, None =>
          if bool_decide (d = pad /\ t' = EmptyString) then Some [first_octet p q; second_octet q r] else None
      | Some r, Some s =>
          (fun l => first_octet p q :: second_octet q r :: third_octet r s :: l) <$> b64decode t'
      | None, Some _ => None
      end
  | _ => None
  end.

#[local] Arguments unsextet : simpl never.
#[local] Arguments sextet : simpl never.

Lemma octet_range b : 0 <= octet b < 256.
Proof. pose proof (Byte.to_N_bounded b). unfold octet. lia. Qed.

Lemma unoctet_octet b n : n = octet b -> unoctet n = b.
Proof. intros ->. unfold unoctet, octet. by rewrite N2Z.id, Byte.of_to_N. Qed.

Lemma unsextet_sextet n : 0 <= n < 64 -> unsextet (sextet n) = Some n.
Proof.
  intros H. assert (Hall : forallb (fun k => bool_decide (unsextet (sextet (Z.of_nat k)) = Some (Z.of_nat k)))
    (seq 0 64) = true) by by vm_compute.
  rewrite forallb_forall in Hall. specialize (Hall (Z.to_nat n)). rewrite bool_decide_eq_true, Z2Nat.id in Hall by lia.
  apply Hall, in_seq. lia.
Qed.

Lemma unsextet_pad : unsextet pad = None.
Proof. by vm_compute. Qed.

Ltac octets := Z.to_euclidean_division_equations; lia.

Lemma first_octet_eq a q : 0 <= q < 16 -> first_octet (octet a / 4) (octet a mod 4 * 16 + q) = a.
Proof. intros Hq. apply unoctet_octet. pose proof (octet_range a). octets. Qed.

Lemma second_octet_eq p b r : 0 <= r < 4 -> second_octet (p * 16 + octet b / 16) (octet b mod 16 * 4 + r) = b.
Proof. intros Hr. apply unoctet_octet. pose proof (octet_range b). octets. Qed.

Lemma third_octet_eq q c : third_octet (q * 4 + octet c / 64) (octet c mod 64) = c.
Proof. apply unoctet_octet. pose proof (octet_range c). octets. Qed.

(** Decoding gives the bytes back. *)
Lemma b64_roundtrip l : b64decode (b64encode l) = Some l.
Proof.
  revert l. fix IH 1. intros [|a [|b [|c l]]]; cbn [b64encode b64decode]; [done|..];
    pose proof (octet_range a); rewrite (unsextet_sextet (octet a / 4)) by octets; cbn [mbind option_bind].
  - rewrite unsextet_sextet by octets. cbn. rewrite unsextet_pad. cbn.
    replace (octet a mod 4 * 16) with (octet a mod 4 * 16 + 0) by lia. by rewrite first_octet_eq by lia.
  - pose proof (octet_range b). rewrite unsextet_sextet by octets. cbn.
    rewrite unsextet_sextet by octets. rewrite unsextet_pad. cbn.
    rewrite first_octet_eq by octets. replace (octet b mod 16 * 4) with (octet b mod 16 * 4 + 0) by lia.
    by rewrite second_octet_eq by lia.
  - pose proof (octet_range b). pose proof (octet_range c). rewrite unsextet_sextet by octets. cbn.
    rewrite unsextet_sextet by octets. rewrite unsextet_sextet by octets. rewrite IH. cbn.
    by rewrite first_octet_eq, second_octet_eq, third_octet_eq by octets.
Qed.
