(* ===== verification/Unicode.v ===== *)
(** * Unicode text

    [str] methods on code points and UTF-8: isspace, strip, splitlines,
    partition, split, int(), encode and decode. *)

From Stdlib Require Import Strings.Byte.
From S2P Require Import Prelude Base64.

(** ** Characters *)

(** [str.isspace] of a code point *)
Definition is_space (c : Z) : bool :=
  ((9 <=? c) && (c <=? 13) || (28 <=? c) && (c <=? 32) || (c =? 0x85) || (c =? 0xA0) || (c =? 0x1680)
   || (0x2000 <=? c) && (c <=? 0x200A) || (c =? 0x2028) || (c =? 0x2029) || (c =? 0x202F)
   || (c =? 0x205F) || (c =? 0x3000))%Z.

Fixpoint lstrip (s : pystr) : pystr :=
  match s with c :: s' => if is_space c then lstrip s' else s | [] => [] end.
(** [str.strip()] *)
Definition strip (s : pystr) : pystr := rev (lstrip (rev (lstrip s))).

(** The lower case of an ASCII letter. *)
Definition ascii_lower (c : Z) : Z := if ((65 <=? c) && (c <=? 90))%Z then (c + 32)%Z else c.

Definition is_upper (c : Z) : bool := ((65 <=? c) && (c <=? 90))%Z.
Definition is_lower (c : Z) : bool := ((97 <=? c) && (c <=? 122))%Z.
Definition is_digit (c : Z) : bool := ((48 <=? c) && (c <=? 57))%Z.
Definition is_alnum (c : Z) : bool := is_upper c || is_lower c || is_digit c.
(** [c in "..."] for an ASCII literal *)
Definition in_text (allowed : string) (c : Z) : bool := bool_decide (c ∈ of_ascii allowed).

(** ASCII text as a string. *)
Definition to_string (s : pystr) : string :=
  String.string_of_list_ascii ((fun c => Ascii.ascii_of_nat (Z.to_nat c)) <$> s).

(** ** Lines *)

(** A line boundary of [str.splitlines]. *)
Definition is_break (c : Z) : bool :=
  ((10 <=? c) && (c <=? 13) || (28 <=? c) && (c <=? 30) || (c =? 0x85) || (c =? 0x2028) || (c =? 0x2029))%Z.

(** Lines with their boundaries; CR LF is one. *)
Fixpoint splitlines (s : pystr) : list (pystr * pystr) :=
  match s with
  | [] => []
  | c :: s' =>
      if is_break c then
        match s' with
        | d :: s'' => if ((c =? 13) && (d =? 10))%Z then ([], [c; d]) :: splitlines s'' else ([], [c]) :: splitlines s'
        | [] => [([], [c])]
        end
      else
        match splitlines s' with
        | [] => [([c], [])]
        | (line, ending) :: lines => (c :: line, ending) :: lines
        end
  end.

(** [s.partition(c)]: the text before and after the first [c]. *)
Fixpoint partition_text (c : Z) (s : pystr) : option (pystr * pystr) :=
  match s with
  | [] => None
  | a :: s' => if (a =? c)%Z then Some ([], s') else (fun p => (a :: p.1, p.2)) <$> partition_text c s'
  end.
(** [s.rpartition(c)] *)
Definition rpartition_text (c : Z) (s : pystr) : option (pystr * pystr) :=
  (fun p => (rev p.2, rev p.1)) <$> partition_text c (rev s).

(** [s.split(c)] *)
Fixpoint split_on (c : Z) (s : pystr) : list pystr :=
  match s with
  | [] => [[]]
  | a :: s' =>
      if (a =? c)%Z then [] :: split_on c s'
      else match split_on c s' with part :: parts => (a :: part) :: parts | [] => [[a]] end
  end.

(** ** Integers *)

Section Digits.
(** The value of a decimal digit in the Unicode database. *)
Context (decimal_digit : Z -> option Z).

Fixpoint digits_value (acc : Z) (after_digit : bool) (s : pystr) : option Z :=
  match s with
  | [] => if after_digit then Some acc else None
  | c :: s' =>
      match decimal_digit c with
      | Some d => digits_value (10 * acc + d) true s'
      | None =>
          if after_digit && (c =? 95)%Z then
            match s' with
            | d :: _ => if bool_decide (is_Some (decimal_digit d)) then digits_value acc false s' else None
            | [] => None
            end
          else None
      end
  end.

(** [int(s)] *)
Definition int_of_pystr (s : pystr) : option Z :=
  match strip s with
  | 45%Z :: l => Z.opp <$> digits_value 0 false l
  | 43%Z :: l => digits_value 0 false l
  | l => digits_value 0 false l
  end.
End Digits.

Definition ascii_digit (c : Z) : option Z := if is_digit c then Some (c - 48)%Z else None.

(** ** UTF-8 *)

Open Scope Z_scope.

Definition is_surrogate (c : Z) : bool := (0xD800 <=? c) && (c <=? 0xDFFF).

Definition utf8_char (c : Z) : list byte :=
  if c <? 0x80 then [unoctet c]
  else if c <? 0x800 then [unoctet (0xC0 + c / 64); unoctet (0x80 + c mod 64)]
  else if c <? 0x10000 then [unoctet (0xE0 + c / 4096); unoctet (0x80 + c / 64 mod 64); unoctet (0x80 + c mod 64)]
  else [unoctet (0xF0 + c / 262144); unoctet (0x80 + c / 4096 mod 64); unoctet (0x80 + c / 64 mod 64);
        unoctet (0x80 + c mod 64)].

(** [s.encode("utf-8")]; UnicodeEncodeError is a ValueError. *)
Definition utf8_encode (s : pystr) : result bytes :=
  if existsb is_surrogate s then Err (ValueError "surrogates not allowed") else Ok (s ≫= utf8_char).

(** The six bits of a continuation byte. *)
Definition continuation (b : byte) : option Z :=
  let x := octet b in if (0x80 <=? x) && (x <=? 0xBF) then Some (x - 0x80) else None.

Definition undecodable : result pystr := Err (ValueError "invalid utf-8").
Definition push (c : Z) (r : result pystr) : result pystr := rbind r (fun s => Ok (c :: s)).

(** [b.decode("utf-8")]; UnicodeDecodeError is a ValueError. *)
Fixpoint utf8_decode (l : list byte) : result pystr :=
  match l with
  | [] => Ok []
  | a :: l1 =>
      let x := octet a in
      if x <? 0x80 then push x (utf8_decode l1)
      else
        match l1 with
        | [] => undecodable
        | b :: l2 =>
            match continuation b with
            | None => undecodable
            | Some p =>
                if (0xC2 <=? x) && (x <=? 0xDF) then push ((x - 0xC0) * 64 + p) (utf8_decode l2)
                else
                  match l2 with
                  | [] => undecodable
                  | c :: l3 =>
                      match continuation c with
                      | None => undecodable
                      | Some q =>
                          if (0xE0 <=? x) && (x <=? 0xEF) then
                            let v := (x - 0xE0) * 4096 + p * 64 + q in
                            if (v <? 0x800) || is_surrogate v then undecodable else push v (utf8_decode l3)
                          else
                            match l3 with
                            | [] => undecodable
                            | d :: l4 =>
                                match continuation d with
                                | None => undecodable
                                | Some r =>
                                    let v := (x - 0xF0) * 262144 + p * 4096 + q * 64 + r in
                                    if (0xF0 <=? x) && (0x10000 <=? v) && (v <=? 0x10FFFF)
                                    then push v (utf8_decode l4) else undecodable
                                end
                            end
                      end
                  end
            end
        end
  end.

(** A code point. *)
Definition is_char (c : Z) : Prop := 0 <= c <= 0x10FFFF.

Lemma octet_unoctet n : 0 <= n < 256 -> octet (unoctet n) = n.
Proof.
  intros H. assert (Hall : forallb (fun k => octet (unoctet (Z.of_nat k)) =? Z.of_nat k) (seq 0 256) = true) by by vm_compute.
  rewrite forallb_forall in Hall. specialize (Hall (Z.to_nat n)). rewrite Z.eqb_eq, Z2Nat.id in Hall by lia.
  apply Hall, in_seq. lia.
Qed.

Lemma continuation_unoctet n : 0 <= n < 64 -> continuation (unoctet (0x80 + n)) = Some n.
Proof.
  intros H. unfold continuation. rewrite octet_unoctet by lia.
  destruct (Z.leb_spec 0x80 (0x80 + n)), (Z.leb_spec (0x80 + n) 0xBF); cbn [andb]; try lia. f_equal. lia.
Qed.

Ltac decide_ranges :=
  repeat match goal with
  | |- context [?a <? ?b] => first [rewrite (proj2 (Z.ltb_lt a b)) by octets | rewrite (proj2 (Z.ltb_ge a b)) by octets]
  | |- context [?a <=? ?b] => first [rewrite (proj2 (Z.leb_le a b)) by octets | rewrite (proj2 (Z.leb_gt a b)) by octets]
  end.

Lemma utf8_char_decode c rest : is_char c -> is_surrogate c = false ->
  utf8_decode (utf8_char c ++ rest) = push c (utf8_decode rest).
Proof.
  unfold is_char. intros Hc Hs. unfold utf8_char.
  destruct (Z.ltb_spec c 0x80); [|destruct (Z.ltb_spec c 0x800); [|destruct (Z.ltb_spec c 0x10000)]]; cbn [app utf8_decode].
  - rewrite octet_unoctet by lia. by decide_ranges.
  - rewrite octet_unoctet, continuation_unoctet by octets. decide_ranges. cbn [andb]. f_equal. octets.
  - rewrite octet_unoctet, !continuation_unoctet by octets. decide_ranges. cbn [andb].
    replace ((0xE0 + c / 4096 - 0xE0) * 4096 + c / 64 mod 64 * 64 + c mod 64) with c by octets.
    rewrite Hs. by decide_ranges.
  - rewrite octet_unoctet, !continuation_unoctet by octets. decide_ranges. cbn [andb].
    replace ((0xF0 + c / 262144 - 0xF0) * 262144 + c / 4096 mod 64 * 4096 + c / 64 mod 64 * 64 + c mod 64) with c by octets.
    by decide_ranges.
Qed.

(** Decoding gives the text back. *)
Lemma utf8_roundtrip s body : Forall is_char s -> utf8_encode s = Ok body -> utf8_decode body = Ok s.
Proof.
  unfold utf8_encode. destruct (existsb is_surrogate s) eqn:Es; [done|]. intros Hs [= <-].
  induction Hs as [|c s Hc Hs IH]; [done|]. cbn [existsb] in Es. apply orb_false_iff in Es as [Ec Es].
  change ((c :: s) ≫= utf8_char) with (utf8_char c ++ (s ≫= utf8_char)). rewrite utf8_char_decode by done. by rewrite IH.
Qed.

(** What is decoded has code points that encode back to the same bytes. *)
Definition faithful (body : list byte) (s : pystr) : Prop :=
  Forall is_char s /\ existsb is_surrogate s = false /\ s ≫= utf8_char = body.

Lemma faithful_push c bs rest (r : result pystr) s :
  is_char c -> is_surrogate c = false -> utf8_char c = bs ->
  (forall s', r = Ok s' -> faithful rest s') -> push c r = Ok s -> faithful (bs ++ rest) s.
Proof.
  intros Hc Hs Hb Hr H. apply rbind_ok in H as (s' & Es & H). injection H as <-. destruct (Hr s' Es) as (H1 & H2 & H3).
  split; [by constructor|]. split; [cbn [existsb]; by rewrite Hs|].
  change ((c :: s') ≫= utf8_char) with (utf8_char c ++ (s' ≫= utf8_char)). by rewrite Hb, H3.
Qed.

Lemma continuation_range b p : continuation b = Some p -> 0 <= p < 64 /\ octet b = 0x80 + p.
Proof.
  unfold continuation. destruct (Z.leb_spec 0x80 (octet b)), (Z.leb_spec (octet b) 0xBF); cbn [andb]; try done.
  intros [= <-]. lia.
Qed.

Ltac utf8_bytes := repeat f_equal; apply unoctet_octet; octets.

Lemma utf8_decode_faithful body : forall s, utf8_decode body = Ok s -> faithful body s.
Proof.
  revert body. fix IH 1. intros [|a l1] s; cbn [utf8_decode]; [intros [= <-]; by split; [constructor|]|].
  pose proof (octet_range a) as Ha. destruct (Z.ltb_spec (octet a) 0x80) as [Hx|Hx].
  { apply (faithful_push _ [a] l1); [unfold is_char; lia|unfold is_surrogate; lia| |apply IH].
    unfold utf8_char. rewrite (proj2 (Z.ltb_lt _ _)) by lia. utf8_bytes. }
  destruct l1 as [|b l2]; [done|]. destruct (continuation b) as [p|] eqn:Eb; [|done]. apply continuation_range in Eb as [Hp Hb].
  destruct ((0xC2 <=? octet a) && (octet a <=? 0xDF)) eqn:E2.
  { apply (faithful_push _ [a; b] l2); [unfold is_char; lia|unfold is_surrogate; lia| |apply IH].
    unfold utf8_char. decide_ranges. utf8_bytes. }
  destruct l2 as [|c l3]; [done|]. destruct (continuation c) as [q|] eqn:Ec; [|done]. apply continuation_range in Ec as [Hq Hc].
  destruct ((0xE0 <=? octet a) && (octet a <=? 0xEF)) eqn:E3.
  { cbv zeta. destruct (_ || _) eqn:Ev; [done|]. apply orb_false_iff in Ev as [Ev Es].
    apply (faithful_push _ [a; b; c] l3); [unfold is_char; lia|done| |apply IH].
    unfold utf8_char. decide_ranges. utf8_bytes. }
  destruct l3 as [|d l4]; [done|]. destruct (continuation d) as [r|] eqn:Ed; [|done]. apply continuation_range in Ed as [Hr Hd].
  cbv zeta. destruct ((0xF0 <=? octet a) && (0x10000 <=? _) && (_ <=? 0x10FFFF)) eqn:Ev; [|done].
  apply (faithful_push _ [a; b; c; d] l4); [unfold is_char; lia|unfold is_surrogate; lia| |apply IH].
  unfold utf8_char. decide_ranges. utf8_bytes.
Qed.

(** Lines ended by LF. *)
Definition unlines (lines : list pystr) : pystr := lines ≫= (fun line => line ++ [10]).

Lemma splitlines_line line rest : Forall (fun c => is_break c = false) line ->
  splitlines (line ++ 10 :: rest) = (line, [10]) :: splitlines rest.
Proof.
  induction 1 as [|c line Hc Hline IH]; cbn [app splitlines].
  - by destruct rest as [|d rest].
  - rewrite Hc. cbn [app] in IH. by rewrite IH.
Qed.

Lemma splitlines_unlines lines : Forall (Forall (fun c => is_break c = false)) lines ->
  splitlines (unlines lines) = (fun line => (line, [10])) <$> lines.
Proof.
  induction 1 as [|line lines Hl Hls IH]; [done|].
  change (unlines (line :: lines)) with ((line ++ [10]) ++ unlines lines). rewrite <- app_assoc. cbn [app].
  rewrite splitlines_line by done. by rewrite IH.
Qed.

Lemma partition_text_first c k rest : Forall (fun a => a <> c) k -> partition_text c (k ++ c :: rest) = Some (k, rest).
Proof.
  induction 1 as [|a k Ha Hk IH]; cbn [app partition_text]; [by rewrite Z.eqb_refl|].
  rewrite (proj2 (Z.eqb_neq a c) Ha), IH. done.
Qed.

(** A line boundary is whitespace. *)
Lemma break_is_space c : is_break c = true -> is_space c = true.
Proof. unfold is_break, is_space. lia. Qed.

(** A word has no whitespace. *)
Definition is_word (s : pystr) : bool := forallb (fun c => negb (is_space c)) s.

Lemma word_no_break s : is_word s = true -> Forall (fun c => is_break c = false) s.
Proof.
  unfold is_word. rewrite forallb_forall. intros H. apply list.Forall_forall. intros c Hc%list_elem_of_In.
  specialize (H c Hc). destruct (is_break c) eqn:Eb; [|done]. by rewrite break_is_space in H.
Qed.
