(* ===== verification/CloudflareClient.v ===== *)
(** * The service client: gate_controller/cloudflare_client.py

    What [get_json] and [post_json] make of a reply: redirects and error
    statuses raise, a bounded body is read chunk by chunk up to its limit and
    parsed, the reply is closed.  The session and [json.loads] are arguments;
    [raise_for_status] raises for the statuses requests documents, 400 to 599. *)

From Stdlib Require Import Strings.Byte.
From S2P Require Import Prelude Json Base64.

Record response := {
  rs_status : Z;
  (** What [iter_content] yields, until it raises or ends. *)
  rs_chunks : list (result bytes);
  (** [response.json()] *)
  rs_json : result json;
  (** What [close] raises. *)
  rs_close : result unit;
}.

(** cloudflare_client.py: _raise_for_redirect *)
Definition _raise_for_redirect (r : response) : result unit :=
  if ((300 <=? rs_status r) && (rs_status r <? 400))%Z then Err HTTPError else Ok tt.

(** [response.raise_for_status()] *)
Definition raise_for_status (r : response) : result unit :=
  if ((400 <=? rs_status r) && (rs_status r <? 600))%Z then Err HTTPError else Ok tt.

(** The loop of [_read_bounded] with what was read so far. *)
Fixpoint read_chunks (limit : Z) (chunks : list (result bytes)) (content : bytes) : result bytes :=
  match chunks with
  | [] => Ok content
  | Err e :: _ => Err e
  | Ok chunk :: chunks' =>
      let content := content ++ chunk in
      if (limit <? Z.of_nat (length content))%Z
      then Err (ValueError "Cloudflare response size exceeded the configured limit")
      else read_chunks limit chunks' content
  end.

(** cloudflare_client.py: _read_bounded *)
Definition _read_bounded (r : response) (max_response_bytes : Z) : result bytes :=
  read_chunks max_response_bytes (rs_chunks r) [].

(** [try: m  finally: response.close()] *)
Definition closing {A} (r : response) (m : result A) : result A :=
  match rs_close r with Ok _ => m | Err e => Err e end.

Section Client.
Context (parse : bytes -> result json).

Definition checked (r : response) : result unit :=
  rbind (_raise_for_redirect r) (fun _ => raise_for_status r).

(** cloudflare_client.py: get_json; [max_response_bytes] is a positive limit when
    it is given. *)
Definition get_json (reply : result response) (max_response_bytes : option Z) : result json :=
  match max_response_bytes with
  | None => rbind reply (fun r => rbind (checked r) (fun _ => rs_json r))
  | Some limit =>
      if (limit <=? 0)%Z then Err (ValueError "Cloudflare response size limit must be a positive integer")
      else rbind reply (fun r => closing r (rbind (checked r) (fun _ => rbind (_read_bounded r limit) parse)))
  end.

(** cloudflare_client.py: post_json *)
Definition post_json (reply : result response) (expect_json : bool) (max_response_bytes : Z)
  : result (option json) :=
  if expect_json && (max_response_bytes <=? 0)%Z
  then Err (ValueError "Cloudflare response size limit must be a positive integer")
  else rbind reply (fun r =>
    if expect_json
    then closing r (rbind (checked r) (fun _ =>
           rbind (_read_bounded r max_response_bytes) (fun body => rbind (parse body) (fun j => Ok (Some j)))))
    else rbind (checked r) (fun _ => Ok None)).

(** The whole body of a reply. *)
Fixpoint whole (chunks : list (result bytes)) : result bytes :=
  match chunks with
  | [] => Ok []
  | Err e :: _ => Err e
  | Ok chunk :: chunks' => rbind (whole chunks') (fun rest => Ok (chunk ++ rest))
  end.
Definition body_of (r : response) : result bytes := whole (rs_chunks r).

(** Reading within the limit gives the whole body. *)
Lemma read_chunks_whole limit chunks content body :
  read_chunks limit chunks content = Ok body ->
  exists rest, whole chunks = Ok rest /\ body = content ++ rest /\
    (chunks = [] \/ Z.of_nat (length body) <= limit)%Z.
Proof.
  revert content. induction chunks as [|[chunk|e] chunks IH]; intros content; cbn; [|destruct (_ <? _)%Z eqn:E|done].
  - intros [= <-]. exists []. rewrite app_nil_r. auto.
  - done.
  - intros Hr. pose proof Hr as Hr'. apply IH in Hr as (rest & -> & -> & H). exists (chunk ++ rest). cbn.
    split; [done|]. split; [by rewrite app_assoc|]. right. destruct H as [->|H]; [|done].
    cbn in Hr'. injection Hr' as Hr'. rewrite <- Hr'. lia.
Qed.

Lemma post_json_ok reply limit j :
  post_json reply true limit = Ok (Some j) ->
  exists r body, reply = Ok r /\ ~ (300 <= rs_status r < 600)%Z /\ body_of r = Ok body /\
    (Z.of_nat (length body) <= limit)%Z /\ parse body = Ok j.
Proof.
  unfold post_json. cbn [andb]. destruct (limit <=? 0)%Z eqn:El; [done|]. bool_props.
  destruct reply as [r|]; [|done]. cbn. unfold closing. destruct (rs_close r); [|done].
  unfold checked, _raise_for_redirect, raise_for_status.
  destruct ((300 <=? _)%Z && _) eqn:E1; [done|]. cbn. destruct ((400 <=? _)%Z && _) eqn:E2; [done|]. cbn.
  unfold _read_bounded. destruct (read_chunks _ _ _) as [body|] eqn:Eb; cbn; [|by intros [=]].
  destruct (parse body) as [j'|] eqn:Ep; cbn; [|by intros [=]]. intros [= ->]. exists r, body. unfold body_of.
  apply read_chunks_whole in Eb as (rest & Hw & -> & Hl). split; [done|]. split; [lia|]. split; [done|].
  split; [|done]. destruct Hl as [Hn|?]; [|done]. rewrite Hn in Hw. injection Hw as <-. cbn. lia.
Qed.
End Client.
#[global] Arguments post_json : simpl never.
