(* ===== verification/AtomicFile.v ===== *)
(** * Replacing a file atomically

    The pattern several components share: a temporary file beside the
    destination is written, flushed and synchronised, then renamed over the
    destination, and unlinked in any case (outbox.py: EvidenceSpool.stage;
    telemetry_export.py: _atomic_write; gate_media_auth/capabilities.py:
    write_capabilities).  Every system call may fail, a failing write leaves
    part of the content. *)

From S2P Require Import Prelude.

(** The files of a directory by name, and whether the directory exists; the
    number of answers of the environment consumed. *)
Record directory (C : Type) := {
  sl_reads : nat;
  sl_root : bool;
  sl_files : dict C;
}.
#[global] Arguments sl_reads {C} _.
#[global] Arguments sl_root {C} _.
#[global] Arguments sl_files {C} _.

Definition set_files {C} (f : dict C) (s : directory C) : directory C :=
  {| sl_reads := sl_reads s; sl_root := sl_root s; sl_files := f |}.

Section Calls.
Context {C : Type}.
(** What a system call answers, and what [write] leaves in the file when it
    fails. *)
Context (io : nat -> result unit) (partial : nat -> C -> C) (empty : C).

Definition read {A} (f : nat -> A) : M (directory C) A :=
  fun s => (Ok (f (sl_reads s)), {| sl_reads := S (sl_reads s); sl_root := sl_root s; sl_files := sl_files s |}).
Definition system_call : M (directory C) unit := let! r := read io in of_result r.

Lemma triple_read {A} (P E : directory C -> Prop) (f : nat -> A) :
  (forall s s', sl_files s' = sl_files s -> P s -> P s') ->
  triple P (read f) (fun a s => P s /\ exists k, a = f k) E.
Proof. intros HP s Hs. cbn. split; [by apply (HP s)|by eexists]. Qed.

Definition on_files (f : dict C -> dict C) : M (directory C) unit :=
  modify (fun s => set_files (f (sl_files s)) s).

(** [temporary.unlink(missing_ok=True)] *)
Definition unlink (name : string) : M (directory C) unit := system_call ;! on_files (ddel name).

(** [output.write(content)] *)
Definition write_file (name : string) (content : C) : M (directory C) unit := fun s =>
  match io (sl_reads s) with
  | Ok _ => (system_call ;! on_files (dset name content)) s
  | Err e => (on_files (dset name (partial (sl_reads s) content)) ;! system_call) s
  end.

(** [os.replace(temporary, destination)] *)
Definition replace_file (temporary destination : string) : M (directory C) unit :=
  system_call ;!
  on_files (fun files => ddel temporary (dset destination (default empty (dget temporary files)) files)).

(** The body of the [try] once the descriptor is wrapped: write, flush and fsync
    before it is closed, what comes before the replacement, the replacement, what
    comes after it. *)
Definition publish (before after : M (directory C) unit) (temporary destination : string) (content : C)
  : M (directory C) unit :=
  try_finally (write_file temporary content ;! system_call ;! system_call) system_call ;!
  before ;!
  replace_file temporary destination ;!
  after.

(** The whole [try]; [unwrapped] comes first in the [finally] while the descriptor
    is not wrapped. *)
Definition write_atomically (wrap unwrapped before after : M (directory C) unit) (temporary destination : string)
    (content : C) : M (directory C) unit := fun s =>
  match wrap s with
  | (Ok _, s') => try_finally (publish before after temporary destination content) (unlink temporary) s'
  | (Err e, s') => try_finally (raise e) (unwrapped ;! unlink temporary) s'
  end.

(** An fsync of the directory: open, fsync, close. *)
Definition _fsync_directory : M (directory C) unit := system_call ;! try_finally system_call system_call.

Lemma system_call_reads (P : directory C -> Prop) :
  (forall s s', sl_files s' = sl_files s -> P s -> P s') -> keeps P system_call.
Proof.
  intros HP s Hs. unfold system_call, bind, read, of_result. destruct (io _); by apply (HP s).
Qed.
End Calls.

Lemma triple_finally {S A} (P : S -> Prop) (m : M S A) f (Q : A -> S -> Prop) E :
  triple P m Q E -> (forall a, triple (Q a) f (fun _ => Q a) E) -> keeps E f ->
  triple P (try_finally m f) Q E.
Proof.
  intros Hm HQ HE s Hs. specialize (Hm s Hs). unfold try_finally. destruct (m s) as [[a|x] s'].
  - specialize (HQ a s' Hm). by destruct (f s') as [[]].
  - specialize (HE s' Hm). by destruct (f s') as [[]].
Qed.

Lemma triple_pure {S A} (phi : Prop) (P : S -> Prop) (m : M S A) Q E :
  (phi -> triple P m Q E) -> triple (fun s => P s /\ phi) m Q E.
Proof. intros H s [Hs Hphi]. by apply H. Qed.

Lemma triple_weak {S A} (Q R : S -> Prop) (m : M S A) :
  keeps Q m -> (forall s, Q s -> R s) -> triple Q m (fun _ => Q) R.
Proof. intros Hm HR. by eapply triple_conseq; [exact Hm|..]. Qed.

(** Writing, for any property [P] that the temporary file does not matter to, when the
    replacement makes it [Q]: a normal end leaves [Q], a failure leaves [P]. *)
Section Publishing.
Context {C : Type} (io : nat -> result unit) (partial : nat -> C -> C) (empty : C).
Context (P Q : directory C -> Prop) (temporary destination : string) (content : C).
Let replaced (files : dict C) := ddel temporary (dset destination (default empty (dget temporary files)) files).
Context (wrap unwrapped before after : M (directory C) unit).
Context (HP : forall s s', sl_files s' = sl_files s -> P s -> P s').
Context (HQ : forall s s', sl_files s' = sl_files s -> Q s -> Q s').
Context (HPset : forall c s s', sl_files s' = dset temporary c (sl_files s) -> P s -> P s').
Context (HPdel : forall s s', sl_files s' = ddel temporary (sl_files s) -> P s -> P s').
Context (HQdel : forall s s', sl_files s' = ddel temporary (sl_files s) -> Q s -> Q s').
Context (Hreplaced : forall s s', sl_files s' = replaced (sl_files s) -> dget temporary (sl_files s) = Some content ->
  P s -> Q s').
Context (HQP : forall s, Q s -> P s).

Definition holding (s : directory C) : Prop := P s /\ dget temporary (sl_files s) = Some content.

Context (Hwrap : keeps P wrap) (Hunwrapped : keeps P unwrapped) (Hbefore : triple holding before (fun _ => holding) P) (Hafter : keeps Q after).

Lemma call_holding : triple holding (system_call io) (fun _ => holding) P.
Proof.
  eapply triple_conseq; [apply (system_call_reads io holding)|done|done|by intros ? []].
  intros s s' E [Hs Hd]. split; [by apply (HP s)|by rewrite E].
Qed.

Lemma write_file_holding : triple P (write_file io partial temporary content) (fun _ => holding) P.
Proof.
  intros s Hs. unfold write_file, system_call, read, bind, of_result, on_files, modify.
  destruct (io (sl_reads s)) as [[]|x] eqn:E; cbn.
  - split; [by apply (HPset content s)|apply dget_dset_eq].
  - rewrite E. by apply (HPset (partial (sl_reads s) content) s).
Qed.

Lemma publish_spec : triple P (publish io partial empty before after temporary destination content) (fun _ => Q) P.
Proof.
  unfold publish, replace_file. pose proof call_holding as Hcall.
  apply (triple_bind (A := unit) _ _ _ (fun _ => holding));
    [|intros _; apply (triple_bind (A := unit) _ _ _ (fun _ => holding)); [exact Hbefore|intros _]].
  - apply triple_finally; [|done|by apply system_call_reads].
    apply (triple_bind (A := unit) _ _ _ (fun _ => holding)); [apply write_file_holding|]. intros _.
    by apply (triple_bind (A := unit) _ _ _ (fun _ => holding)).
  - apply (triple_bind (A := unit) _ _ _ (fun _ => Q)).
    + apply (triple_bind (A := unit) _ _ _ (fun _ => holding)); [exact Hcall|]. intros _.
      apply triple_modify. intros s [Hs Hd]. by apply (Hreplaced s).
    + intros _. by apply triple_weak.
Qed.

Lemma unlink_spec (R : directory C -> Prop) :
  (forall s s', sl_files s' = sl_files s -> R s -> R s') ->
  (forall s s', sl_files s' = ddel temporary (sl_files s) -> R s -> R s') -> keeps R (unlink io temporary).
Proof.
  intros H1 H2. unfold unlink. apply keeps_bind; [by apply system_call_reads|]. intros _. apply keeps_modify.
  intros s. by apply H2.
Qed.

Lemma write_atomically_spec :
  triple P (write_atomically io partial empty wrap unwrapped before after temporary destination content)
    (fun _ => Q) P.
Proof.
  intros s Hs. unfold write_atomically. specialize (Hwrap s Hs). destruct (wrap s) as [[[]|x] s'].
  - apply (triple_finally P _ _ (fun _ => Q) P); [apply publish_spec| |by apply unlink_spec|done].
    intros _. apply triple_weak; [by apply unlink_spec|exact HQP].
  - assert (Hf : keeps P (unwrapped ;! unlink io temporary)).
    { apply keeps_bind; [exact Hunwrapped|intros _; by apply unlink_spec]. }
    unfold try_finally, raise. specialize (Hf s' Hwrap). by destruct ((unwrapped ;! unlink io temporary) s') as [[]].
Qed.
End Publishing.

(** ** Replacing one file of a directory

    What an atomic write may change: from [s0] only the destination and the
    temporary files, and the destination becomes the content or stays. *)
Section Replacing.
Context {C : Type} (io : nat -> result unit) (partial : nat -> C -> C) (empty : C).
Context (names : nat -> string) (s0 : directory C) (destination : string).
Context (Hnames : forall k, names k <> destination).

Definition others (s : directory C) : Prop :=
  forall p, p <> destination -> (forall k, p <> names k) -> dget p (sl_files s) = dget p (sl_files s0).
Definition untouched (s : directory C) : Prop :=
  others s /\ dget destination (sl_files s) = dget destination (sl_files s0).
Definition published (content : C) (s : directory C) : Prop :=
  others s /\ dget destination (sl_files s) = Some content.
Definition either (content : C) (s : directory C) : Prop := untouched s \/ published content s.

(** A computation that leaves the files alone. *)
Definition leaves_files {A} (m : M (directory C) A) : Prop :=
  forall I : directory C -> Prop, (forall s s', sl_files s' = sl_files s -> I s -> I s') -> keeps I m.

Lemma others_same s s' : sl_files s' = sl_files s -> others s -> others s'.
Proof. unfold others. by intros ->. Qed.

Lemma others_set k c s s' : sl_files s' = dset (names k) c (sl_files s) -> others s -> others s'.
Proof. unfold others. intros -> H p Hp Hk. rewrite dget_dset_ne by done. by apply H. Qed.

Lemma others_del k s s' : sl_files s' = ddel (names k) (sl_files s) -> others s -> others s'.
Proof. unfold others. intros -> H p Hp Hk. rewrite dget_ddel_ne by done. by apply H. Qed.

Lemma destination_set k c (files : dict C) : dget destination (dset (names k) c files) = dget destination files.
Proof. by apply dget_dset_ne. Qed.
Lemma destination_del k (files : dict C) : dget destination (ddel (names k) files) = dget destination files.
Proof. by apply dget_ddel_ne. Qed.

Ltac preserved :=
  unfold either, untouched, published;
  repeat match goal with
  | E : sl_files ?s' = _ |- context [dget destination (sl_files ?s')] =>
      rewrite E, ?destination_set, ?destination_del
  end;
  intuition eauto using others_same, others_set, others_del.

Lemma untouched_same s s' : sl_files s' = sl_files s -> untouched s -> untouched s'.
Proof. intros E. preserved. Qed.
Lemma published_same content s s' : sl_files s' = sl_files s -> published content s -> published content s'.
Proof. intros E. preserved. Qed.
Lemma either_same content s s' : sl_files s' = sl_files s -> either content s -> either content s'.
Proof. intros E. preserved. Qed.

(** Creating the temporary file and replacing the destination with it. *)
Lemma create_and_replace wrap unwrapped before after k content :
  leaves_files wrap -> leaves_files unwrapped -> leaves_files before -> leaves_files after ->
  triple untouched
    (on_files (dset (names k) empty) ;!
     write_atomically io partial empty wrap unwrapped before after (names k) destination content)
    (fun _ => published content) (either content).
Proof.
  intros Hwrap Hunwrapped Hbefore Hafter. apply (triple_bind (A := unit) _ _ _ (fun _ => untouched)).
  { assert (Hset : forall c s s', sl_files s' = dset (names k) c (sl_files s) -> untouched s -> untouched s')
      by (intros c s s' E; preserved).
    apply triple_modify. intros s Hs. by apply (Hset empty s). }
  intros _. eapply triple_conseq with (P' := either content) (Q' := fun _ => published content) (E' := either content);
    [|by left|done|done].
  apply write_atomically_spec.
  - apply either_same.
  - apply published_same.
  - intros c s s' E. preserved.
  - intros s s' E. preserved.
  - intros s s' E. preserved.
  - intros s s' E Hd Hs. rewrite Hd in E. cbn [default] in E. unfold published.
    rewrite E, destination_del, dget_dset_eq.
    split; [|done]. assert (Ho : others s) by (by destruct Hs as [[]|[]]). unfold others. rewrite E.
    intros p Hpo Hk. rewrite dget_ddel_ne, dget_dset_ne by done. by apply Ho.
  - by right.
  - apply Hwrap, either_same.
  - apply Hunwrapped, either_same.
  - eapply triple_conseq; [apply (Hbefore (holding (either content) (names k) content))|done|done|by intros ? []].
    intros s s' E [Hs Hd]. unfold holding. rewrite E. split; [by apply (either_same _ s)|done].
  - apply Hafter, published_same.
Qed.

Lemma leaves_files_call : leaves_files (system_call io).
Proof. intros I HI. by apply system_call_reads. Qed.
Lemma leaves_files_bind {A B} (m : M (directory C) A) (k : A -> M (directory C) B) :
  leaves_files m -> (forall a, leaves_files (k a)) -> leaves_files (bind m k).
Proof. intros Hm Hk I HI. apply keeps_bind; [by apply Hm|intros a; by apply Hk]. Qed.
Lemma leaves_files_ret {A} (a : A) : leaves_files (ret a).
Proof. intros I HI. apply keeps_ret. Qed.
Lemma leaves_files_finally {A} (m : M (directory C) A) f : leaves_files m -> leaves_files f -> leaves_files (try_finally m f).
Proof. intros Hm Hf I HI. apply keeps_finally; [by apply Hm|by apply Hf]. Qed.
Lemma leaves_files_fsync : leaves_files (_fsync_directory io).
Proof.
  apply leaves_files_bind; [apply leaves_files_call|intros _]. apply leaves_files_finally; apply leaves_files_call.
Qed.
End Replacing.

#[export] Hint Resolve leaves_files_call leaves_files_bind leaves_files_ret leaves_files_finally leaves_files_fsync : gate.
