(* ===== verification/Matching.v ===== *)
(** * Plate matching: gate_controller/matching.py

    [normalise_plate], [_is_one_known_confusion] and [decide_access] as the
    module defines them, a reference decision written without the intermediate
    dictionaries, and the theorems that relate them. *)

From S2P Require Import Prelude Models.

(** 0.90 as the binary64 literal denotes it: 8106479329266893 * 2^-53. *)
Definition MIN_EXACT_CONFIDENCE : pyfloat := float_lit 8106479329266893 (-53).
Definition MIN_FUZZY_CONFIDENCE : pyfloat := float_lit 8106479329266893 (-53).

Definition _CONFUSION_GROUPS : list (list Ascii.ascii) :=
  [ ["0"; "O"]; ["1"; "I"; "L"]; ["2"; "Z"]; ["5"; "S"]; ["8"; "B"] ]%char.

(** ** normalise_plate

    [str.upper] maps a code point to one or more code points.  The ASCII
    alphanumeric part of that expansion is non-empty for ASCII letters and
    digits and for the seventeen other code points listed here (Unicode 14,
    the tables of Python 3.11); every other code point contributes nothing. *)
Definition upper_ascii_alnum (c : Z) : list Ascii.ascii :=
  if (97 <=? c)%Z && (c <=? 122)%Z then [Ascii.ascii_of_nat (Z.to_nat (c - 32))]
  else if ((48 <=? c)%Z && (c <=? 57)%Z) || ((65 <=? c)%Z && (c <=? 90)%Z)
  then [Ascii.ascii_of_nat (Z.to_nat c)]
  else match c with
  | 0xDF => ["S"; "S"]
  | 0x131 => ["I"]
  | 0x149 => ["N"]
  | 0x17F => ["S"]
  | 0x1F0 => ["J"]
  | 0x1E96 => ["H"]
  | 0x1E97 => ["T"]
  | 0x1E98 => ["W"]
  | 0x1E99 => ["Y"]
  | 0x1E9A => ["A"]
  | 0xFB00 => ["F"; "F"]
  | 0xFB01 => ["F"; "I"]
  | 0xFB02 => ["F"; "L"]
  | 0xFB03 => ["F"; "F"; "I"]
  | 0xFB04 => ["F"; "F"; "L"]
  | 0xFB05 => ["S"; "T"]
  | 0xFB06 => ["S"; "T"]
  | _ => []
  end%char%Z.

Definition normalise_plate (value : pystr) : string :=
  String.string_of_list_ascii (value ≫= upper_ascii_alnum).

(** ** decide_access *)

(** The pairs [zip(observed, expected)] that differ. *)
Definition differences (observed expected : string) : list (Ascii.ascii * Ascii.ascii) :=
  filter (fun p => p.1 <> p.2)
    (zip (String.list_ascii_of_string observed) (String.list_ascii_of_string expected)).

Definition _is_one_known_confusion (observed_plate authorised_plate : string) : bool :=
  if negb (String.length observed_plate =? String.length authorised_plate)%nat then false
  else match differences observed_plate authorised_plate with
       | [(a, b)] =>
           existsb (fun group => bool_decide (a ∈ group) && bool_decide (b ∈ group))
             _CONFUSION_GROUPS
       | _ => false
       end.

Definition authorised_set (authorised : list pystr) : gset string :=
  list_to_set (normalise_plate <$> authorised) ∖ {[ EmptyString ]}.

(** [if observation.plate]: neither None nor the empty string. *)
Definition normalised_observations (observations : list PlateObservation)
  : list (string * PlateObservation) :=
  omap (fun o => match po_plate o with
                 | Some (c :: p) => Some (normalise_plate (c :: p), o)
                 | _ => None
                 end) observations.

Definition is_exact (authorised_plates : gset string) (x : string * PlateObservation) : bool :=
  negb (String.eqb x.1 "") && bool_decide (x.1 ∈ authorised_plates)
  && fge (po_confidence x.2) MIN_EXACT_CONFIDENCE.

(** The [continue] guard of the candidate loop, negated. *)
Definition is_candidate (x : string * PlateObservation) : bool :=
  negb (String.eqb x.1 "" || flt (po_confidence x.2) MIN_FUZZY_CONFIDENCE).

Definition confusions (authorised_plates : gset string) (observed_plate : string) : gset string :=
  filter (fun plate => _is_one_known_confusion observed_plate plate = true) authorised_plates.

(** One iteration of the loop that fills [candidates] and [confidences]. *)
Definition collect_candidate (authorised_plates : gset string)
    (acc : dict (gset string) * dict pyfloat) (x : string * PlateObservation)
  : dict (gset string) * dict pyfloat :=
  if is_candidate x then
    let '(candidates, confidences) := acc in
    (dset x.1 (default ∅ (dget x.1 candidates) ∪ confusions authorised_plates x.1) candidates,
     dset x.1 (pymax (default float_0 (dget x.1 confidences)) (po_confidence x.2)) confidences)
  else acc.

Definition frame_count (normalised : list (string * PlateObservation)) (observed_plate : string) : nat :=
  length (filter (fun x : string * PlateObservation =>
      x.1 = observed_plate /\ fge (po_confidence x.2) MIN_FUZZY_CONFIDENCE = true) normalised).

(** The loop over [candidates.items()]; [None] when it runs to its end. *)
Fixpoint decide_candidates (normalised : list (string * PlateObservation))
    (confidences : dict pyfloat) (candidates : dict (gset string)) : option MatchDecision :=
  match candidates with
  | [] => None
  | (observed_plate, matched_plates) :: rest =>
      if (frame_count normalised observed_plate <? 2)%nat
      then decide_candidates normalised confidences rest
      else if decide (size matched_plates = 1)%nat then
        Some {| md_allowed := true; md_reason := "two_frame_ocr_confusion";
                md_authorised_plate := head (elements matched_plates);
                md_observed_plate := Some observed_plate;
                md_confidence := default float_0 (dget observed_plate confidences) |}
      else if decide (1 < size matched_plates)%nat then
        Some {| md_allowed := false; md_reason := "ambiguous_fuzzy_match";
                md_authorised_plate := None;
                md_observed_plate := Some observed_plate;
                md_confidence := default float_0 (dget observed_plate confidences) |}
      else decide_candidates normalised confidences rest
  end.

Definition exact_decision (x : string * PlateObservation) : MatchDecision :=
  {| md_allowed := true; md_reason := "exact_match"; md_authorised_plate := Some x.1;
     md_observed_plate := Some x.1; md_confidence := po_confidence x.2 |}.

Definition decide_access (observations : list PlateObservation) (authorised : list pystr)
  : MatchDecision :=
  let authorised_plates := authorised_set authorised in
  let normalised := normalised_observations observations in
  match find_row (is_exact authorised_plates) normalised with
  | Some x => exact_decision x
  | None =>
      let '(candidates, confidences) :=
        fold_left (collect_candidate authorised_plates) normalised ([], []) in
      match decide_candidates normalised confidences candidates with
      | Some d => d
      | None => denied "no_match"
      end
  end.

(** ** Shape of the normal form *)

Definition plate_char (a : Ascii.ascii) : bool :=
  let n := Ascii.nat_of_ascii a in
  ((48 <=? n) && (n <=? 57))%nat || ((65 <=? n) && (n <=? 90))%nat.

(** Digits and capital letters, by code. *)
Lemma plate_char_of_nat n :
  (48 <= n <= 57 \/ 65 <= n <= 90)%nat -> plate_char (Ascii.ascii_of_nat n) = true.
Proof.
  intros H. unfold plate_char. rewrite Ascii.nat_ascii_embedding by lia.
  apply orb_true_iff. rewrite !andb_true_iff, !Nat.leb_le. lia.
Qed.

Lemma upper_ascii_alnum_char c : Forall (fun a => plate_char a = true) (upper_ascii_alnum c).
Proof.
  unfold upper_ascii_alnum. case_match eqn:E1.
  { apply andb_true_iff in E1 as [??]. repeat constructor. apply plate_char_of_nat. lia. }
  case_match eqn:E2.
  { apply orb_true_iff in E2. rewrite !andb_true_iff, !Z.leb_le in E2.
    repeat constructor. apply plate_char_of_nat. lia. }
  repeat case_match; repeat constructor.
Qed.

(** The upper-casing of an ASCII plate character is that character. *)
Lemma upper_ascii_alnum_id a :
  plate_char a = true -> upper_ascii_alnum (Z.of_nat (Ascii.nat_of_ascii a)) = [a].
Proof. destruct a as [[] [] [] [] [] [] [] []]; vm_compute; done. Qed.

Lemma list_ascii_of_normalise p :
  String.list_ascii_of_string (normalise_plate p) = p ≫= upper_ascii_alnum.
Proof. unfold normalise_plate. by rewrite String.list_ascii_of_string_of_list_ascii. Qed.

Lemma normalise_plate_chars p :
  Forall (fun a => plate_char a = true) (String.list_ascii_of_string (normalise_plate p)).
Proof.
  rewrite list_ascii_of_normalise. induction p as [|c p IH]; cbn; [constructor|].
  apply list.Forall_app. split; [apply upper_ascii_alnum_char|done].
Qed.

Lemma normalise_of_plate_chars s :
  Forall (fun a => plate_char a = true) (String.list_ascii_of_string s) ->
  normalise_plate (of_ascii s) = s.
Proof.
  intros H. unfold normalise_plate, of_ascii.
  rewrite <- (String.string_of_list_ascii_of_string s) at 2. f_equal.
  induction H as [|a l Ha Hl IH]; cbn; [done|]. by rewrite upper_ascii_alnum_id, IH.
Qed.

(** ** One known confusion, characterised *)

(** The two plates agree except at one position, where the two characters
    belong to one OCR confusion group. *)
Definition one_confusion (observed authorised : string) : Prop :=
  exists pre suf a b,
    String.list_ascii_of_string observed = pre ++ a :: suf /\
    String.list_ascii_of_string authorised = pre ++ b :: suf /\
    a <> b /\ exists group, group ∈ _CONFUSION_GROUPS /\ a ∈ group /\ b ∈ group.

Definition list_differences (u v : list Ascii.ascii) : list (Ascii.ascii * Ascii.ascii) :=
  filter (fun p => p.1 <> p.2) (zip u v).

Lemma length_list_ascii s : length (String.list_ascii_of_string s) = String.length s.
Proof. induction s; cbn; auto. Qed.

Lemma list_differences_refl u : list_differences u u = [].
Proof.
  unfold list_differences. induction u as [|a u IH]; [done|]. cbn [zip zip_with].
  by rewrite filter_cons_False by naive_solver.
Qed.

Lemma list_differences_nil u v :
  length u = length v -> list_differences u v = [] -> u = v.
Proof.
  revert v. induction u as [|a u IH]; intros [|b v]; try done.
  unfold list_differences. cbn [zip zip_with length]. intros [= Hl].
  destruct (decide (a = b)) as [->|Hne].
  - rewrite filter_cons_False by naive_solver. intros H. by rewrite (IH v).
  - by rewrite filter_cons_True.
Qed.

Lemma list_differences_one u v a b :
  length u = length v ->
  list_differences u v = [(a, b)] <->
  exists pre suf, u = pre ++ a :: suf /\ v = pre ++ b :: suf /\ a <> b.
Proof.
  revert v. induction u as [|c u IH]; intros [|d v]; try done.
  { intros _. split; [done|]. intros (pre & suf & H & _). by destruct pre. }
  unfold list_differences. cbn [zip zip_with length]. intros [= Hl].
  destruct (decide (c = d)) as [->|Hne].
  - rewrite filter_cons_False by naive_solver. fold (list_differences u v).
    rewrite IH by done. split.
    + intros (pre & suf & -> & -> & ?). by exists (d :: pre), suf.
    + intros ([|x pre] & suf & H1 & H2 & ?); cbn in *; simplify_eq. by exists pre, suf.
  - rewrite filter_cons_True by done. fold (list_differences u v). split.
    + intros [= -> -> H]. apply list_differences_nil in H as ->; [|done].
      by exists [], v.
    + intros ([|x pre] & suf & H1 & H2 & ?); cbn in *; simplify_eq.
      by rewrite list_differences_refl.
Qed.

Lemma confusion_group_test a b :
  existsb (fun group => bool_decide (a ∈ group) && bool_decide (b ∈ group)) _CONFUSION_GROUPS
    = true <->
  exists group, group ∈ _CONFUSION_GROUPS /\ a ∈ group /\ b ∈ group.
Proof.
  rewrite existsb_exists. split.
  - intros (g & Hg & [Ha%bool_decide_eq_true Hb%bool_decide_eq_true]%andb_true_iff).
    exists g. by rewrite list_elem_of_In.
  - intros (g & Hg & Ha & Hb). exists g. rewrite <- list_elem_of_In.
    split; [done|]. by rewrite !bool_decide_true.
Qed.

Lemma one_confusion_length p q : one_confusion p q -> String.length p = String.length q.
Proof.
  intros (pre & suf & a & b & Hp & Hq & _).
  by rewrite <- !length_list_ascii, Hp, Hq, !length_app.
Qed.

Lemma known_confusion_spec (observed authorised : string) :
  _is_one_known_confusion observed authorised = true <-> one_confusion observed authorised.
Proof.
  unfold _is_one_known_confusion, differences.
  destruct (String.length observed =? String.length authorised)%nat eqn:Hl; cbn [negb].
  2: { split; [done|]. intros H%one_confusion_length. apply Nat.eqb_neq in Hl. lia. }
  apply Nat.eqb_eq in Hl. rewrite <- !length_list_ascii in Hl.
  fold (list_differences (String.list_ascii_of_string observed)
          (String.list_ascii_of_string authorised)).
  unfold one_confusion. split.
  - destruct (list_differences _ _) as [|[a b] [|? ?]] eqn:E; try done.
    apply list_differences_one in E as (pre & suf & Ho & Ha & Hne); [|done].
    rewrite confusion_group_test. intros Hg. by exists pre, suf, a, b.
  - intros (pre & suf & a & b & Ho & Ha & Hne & Hg).
    assert (E : list_differences (String.list_ascii_of_string observed)
                  (String.list_ascii_of_string authorised) = [(a, b)]).
    { apply list_differences_one; [done|]. by exists pre, suf. }
    rewrite E. by apply confusion_group_test.
Qed.

Lemma one_confusion_sym observed authorised :
  one_confusion observed authorised -> one_confusion authorised observed.
Proof.
  intros (pre & suf & a & b & Ho & Ha & Hne & g & Hg & H1 & H2).
  exists pre, suf, b, a. repeat split; try done. by exists g.
Qed.

(** [_is_one_known_confusion] answers True exactly when the two plates have
    the same length and differ at exactly one position, where the two
    characters lie in one common OCR confusion group; so the order of the
    plates does not matter. *)
Theorem is_one_known_confusion_iff (observed authorised : string) :
  (_is_one_known_confusion observed authorised = true <-> one_confusion observed authorised) /\
  _is_one_known_confusion observed authorised = _is_one_known_confusion authorised observed.
Proof.
  split; [apply known_confusion_spec|]. apply eq_true_iff_eq.
  rewrite !known_confusion_spec. split; apply one_confusion_sym.
Qed.

(** ** The reference decision *)

(** The plates of the candidate frames, in order of first appearance. *)
Definition add_candidate (ks : list string) (x : string * PlateObservation) : list string :=
  if is_candidate x then (if decide (x.1 ∈ ks) then ks else ks ++ [x.1]) else ks.
Definition candidate_plates (normalised : list (string * PlateObservation)) : list string :=
  fold_left add_candidate normalised [].

(** The best confidence among the candidate frames of a plate. *)
Definition best_confidence (normalised : list (string * PlateObservation)) (plate : string)
  : pyfloat :=
  fold_left (fun best x => if is_candidate x && String.eqb x.1 plate
                           then pymax best (po_confidence x.2) else best) normalised float_0.

(** A plate that the candidate loop decides on. *)
Definition decisive (authorised_plates : gset string)
    (normalised : list (string * PlateObservation)) (plate : string) : bool :=
  (2 <=? frame_count normalised plate)%nat
  && bool_decide (confusions authorised_plates plate <> ∅).

(** The decision on such a plate. *)
Definition fuzzy_decision (authorised_plates : gset string)
    (normalised : list (string * PlateObservation)) (plate : string) : MatchDecision :=
  let unique := bool_decide (size (confusions authorised_plates plate) = 1)%nat in
  {| md_allowed := unique;
     md_reason := if unique then "two_frame_ocr_confusion" else "ambiguous_fuzzy_match";
     md_authorised_plate :=
       if unique then head (elements (confusions authorised_plates plate)) else None;
     md_observed_plate := Some plate;
     md_confidence := best_confidence normalised plate |}.

(** The decision without the intermediate dictionaries: the first exact frame;
    else the first candidate frame whose plate was seen twice and is one
    confusion away from some authorised plate; else a denial. *)
Definition decide_reference (observations : list PlateObservation) (authorised : list pystr)
  : MatchDecision :=
  let auth := authorised_set authorised in
  let normalised := normalised_observations observations in
  match find_row (is_exact auth) normalised with
  | Some x => exact_decision x
  | None =>
      match find_row (fun x => is_candidate x && decisive auth normalised x.1) normalised with
      | Some x => fuzzy_decision auth normalised x.1
      | None => denied "no_match"
      end
  end.

Lemma candidate_plates_snoc l x :
  candidate_plates (l ++ [x]) = add_candidate (candidate_plates l) x.
Proof. unfold candidate_plates. by rewrite fold_left_app. Qed.

Lemma best_confidence_snoc l x plate :
  best_confidence (l ++ [x]) plate =
    if is_candidate x && String.eqb x.1 plate
    then pymax (best_confidence l plate) (po_confidence x.2) else best_confidence l plate.
Proof. unfold best_confidence. by rewrite fold_left_app. Qed.

Lemma candidate_plates_NoDup l : NoDup (candidate_plates l).
Proof.
  induction l as [|x l IH] using rev_ind; [constructor|].
  rewrite candidate_plates_snoc. unfold add_candidate. repeat case_match; try done.
  apply list.NoDup_app. split; [done|]. split; [|apply NoDup_singleton].
  intros k Hk Hk'. apply list_elem_of_singleton in Hk' as ->. done.
Qed.

Lemma best_confidence_absent l plate :
  plate ∉ candidate_plates l -> best_confidence l plate = float_0.
Proof.
  induction l as [|x l IH] using rev_ind; [done|].
  rewrite candidate_plates_snoc, best_confidence_snoc. unfold add_candidate.
  destruct (is_candidate x); cbn; [|done]. destruct (String.eqb_spec x.1 plate) as [<-|Hne].
  - case_decide; [done|]. intros Habs. exfalso. apply Habs, elem_of_app. right. by left.
  - case_decide; [done|]. intros Habs. apply IH. intros Hin. apply Habs, elem_of_app. by left.
Qed.

(** What the dictionary-filling loop computes. *)
Lemma collect_candidates auth l :
  fold_left (collect_candidate auth) l ([], []) =
    (graph (confusions auth) (candidate_plates l), graph (best_confidence l) (candidate_plates l)).
Proof.
  induction l as [|x l IH] using rev_ind; [done|].
  rewrite fold_left_app, IH, candidate_plates_snoc. cbn.
  unfold collect_candidate, add_candidate. destruct (is_candidate x) eqn:Hc.
  2: { f_equal. apply graph_ext. intros k _. by rewrite best_confidence_snoc, Hc. }
  rewrite !dget_graph. f_equal.
  - apply dset_graph; [apply candidate_plates_NoDup| |done].
    case_decide; cbn; [by rewrite (union_idemp_L _)|by rewrite (union_empty_l_L _)].
  - apply dset_graph; [apply candidate_plates_NoDup| |].
    + rewrite best_confidence_snoc, Hc, String.eqb_refl. cbn.
      case_decide; cbn; [done|]. by rewrite best_confidence_absent.
    + intros k Hk. rewrite best_confidence_snoc, Hc.
      by destruct (String.eqb_spec x.1 k).
Qed.

(** The plate loop over the keys is the frame search of the reference. *)
Lemma find_row_candidate_plates (Q : string -> bool) l :
  find_row Q (candidate_plates l) =
    fst <$> find_row (fun x => is_candidate x && Q x.1) l.
Proof.
  induction l as [|x l IH] using rev_ind; [done|].
  rewrite candidate_plates_snoc, find_row_app. unfold add_candidate. cbn [find_row].
  destruct (is_candidate x) eqn:Hc; cbn [andb].
  2: { rewrite IH. by destruct (find_row _ l). }
  destruct (decide (x.1 ∈ candidate_plates l)) as [Hin|Hnin].
  - rewrite IH. destruct (find_row _ l) eqn:E; [done|]. cbn in *.
    destruct (Q x.1) eqn:HQ; [|done]. exfalso.
    assert (Hno : find_row Q (candidate_plates l) = None) by (rewrite IH; done).
    rewrite find_row_None, list.Forall_forall in Hno. specialize (Hno _ Hin). congruence.
  - rewrite find_row_app, IH. cbn [find_row]. destruct (find_row _ l); cbn; [done|].
    by destruct (Q x.1).
Qed.

Lemma size_cases (X : gset string) :
  (X = ∅ /\ size X = 0 \/ X <> ∅ /\ size X = 1 \/ X <> ∅ /\ 1 < size X)%nat.
Proof.
  destruct (decide (X = ∅)) as [->|Hne]; [left; by rewrite size_empty|right].
  assert (Hs : (size X <> 0)%nat) by (intros Hs%size_empty_iff; set_solver).
  destruct (decide (size X = 1)%nat); [left|right]; split; done || lia.
Qed.

Lemma decide_candidates_graph auth n ks0 ks :
  (forall k, k ∈ ks -> k ∈ ks0) ->
  decide_candidates n (graph (best_confidence n) ks0) (graph (confusions auth) ks) =
    fuzzy_decision auth n <$> find_row (decisive auth n) ks.
Proof.
  induction ks as [|p ks IH]; intros Hsub; [done|].
  cbn [graph fmap list_fmap decide_candidates find_row].
  fold (graph (confusions auth) ks). rewrite IH by (intros; apply Hsub; by right).
  rewrite dget_graph, (decide_True (P := p ∈ ks0)) by (apply Hsub; by left).
  unfold decisive, fuzzy_decision. cbn [default].
  destruct (2 <=? frame_count n p)%nat eqn:Hf; cbn [andb].
  2: { rewrite (proj2 (Nat.ltb_lt _ _)); [done|]. apply Nat.leb_gt in Hf. lia. }
  rewrite (proj2 (Nat.ltb_ge _ _)) by (by apply Nat.leb_le).
  destruct (size_cases (confusions auth p)) as [[He Hs]|[[He Hs]|[He Hs]]].
  - rewrite (bool_decide_false (confusions auth p <> ∅)) by naive_solver.
    by rewrite !decide_False by lia.
  - rewrite (bool_decide_true (confusions auth p <> ∅)) by done. cbn.
    by rewrite decide_True, bool_decide_true.
  - rewrite (bool_decide_true (confusions auth p <> ∅)) by done. cbn.
    rewrite decide_False, decide_True by lia. by rewrite bool_decide_false by lia.
Qed.

Lemma decide_access_eq (observations : list PlateObservation) (authorised : list pystr) :
  decide_access observations authorised = decide_reference observations authorised.
Proof.
  unfold decide_access, decide_reference.
  destruct (find_row (is_exact _) _); [done|].
  rewrite collect_candidates, decide_candidates_graph, find_row_candidate_plates by done.
  by destruct (find_row _ _) as [x|].
Qed.

(** C9: the decision loop of [decide_access], with its two dictionaries and its
    early returns, equals the reference decision on every input. *)
Theorem decide_access_reference (observations : list PlateObservation) (authorised : list pystr) :
  decide_access observations authorised = decide_reference observations authorised.
Proof. apply decide_access_eq. Qed.

(** ** What an allowed decision is evidence of *)

(** A frame shows [plate] with at least the confidence [threshold]. *)
Definition shows (o : PlateObservation) (plate : string) (threshold : pyfloat) : Prop :=
  (exists text, po_plate o = Some text /\ text <> [] /\ normalise_plate text = plate) /\
  fge (po_confidence o) threshold = true.

Definition is_authorised (authorised : list pystr) (plate : string) : Prop :=
  plate <> EmptyString /\ exists a, a ∈ authorised /\ normalise_plate a = plate.

(** Two frames (at different positions) of the burst show [plate]. *)
Definition two_frames (observations : list PlateObservation) (plate : string) : Prop :=
  exists l1 o1 l2 o2 l3, observations = l1 ++ o1 :: l2 ++ o2 :: l3 /\
    shows o1 plate MIN_FUZZY_CONFIDENCE /\ shows o2 plate MIN_FUZZY_CONFIDENCE.

Inductive allowed_evidence (observations : list PlateObservation) (authorised : list pystr)
    (d : MatchDecision) : Prop :=
| evidence_exact o plate :
    md_reason d = "exact_match" ->
    md_authorised_plate d = Some plate -> md_observed_plate d = Some plate ->
    o ∈ observations -> shows o plate MIN_EXACT_CONFIDENCE ->
    is_authorised authorised plate ->
    allowed_evidence observations authorised d
| evidence_fuzzy observed plate :
    md_reason d = "two_frame_ocr_confusion" ->
    md_authorised_plate d = Some plate -> md_observed_plate d = Some observed ->
    two_frames observations observed ->
    is_authorised authorised plate -> one_confusion observed plate ->
    (forall other, is_authorised authorised other -> one_confusion observed other ->
       other = plate) ->
    allowed_evidence observations authorised d.

Lemma elem_of_authorised_set authorised plate :
  plate ∈ authorised_set authorised <-> is_authorised authorised plate.
Proof.
  unfold authorised_set, is_authorised.
  rewrite elem_of_difference, elem_of_list_to_set, list_elem_of_fmap, not_elem_of_singleton.
  naive_solver.
Qed.

Lemma elem_of_confusions auth observed plate :
  plate ∈ confusions auth observed <-> plate ∈ auth /\ one_confusion observed plate.
Proof.
  unfold confusions. rewrite elem_of_filter, known_confusion_spec. tauto.
Qed.

(** The normalised form of one observation, [None] when it shows no plate. *)
Definition normalised_observation (o : PlateObservation) : option (string * PlateObservation) :=
  match po_plate o with
  | Some (c :: p) => Some (normalise_plate (c :: p), o)
  | _ => None
  end.

Lemma normalised_observation_shows o x threshold :
  normalised_observation o = Some x -> fge (po_confidence x.2) threshold = true ->
  x.2 = o /\ shows o x.1 threshold.
Proof.
  unfold normalised_observation, shows. destruct (po_plate o) as [[|c t]|]; try done.
  intros [= <-] Hc. split; [done|]. split; [|done]. by exists (c :: t).
Qed.

Lemma frame_positions observations plate :
  (2 <= frame_count (normalised_observations observations) plate)%nat ->
  two_frames observations plate.
Proof.
  intros (k1 & x & k2 & y & k3 & E & [Hx Hcx] & [Hy Hcy])%filter_two.
  apply (omap_split normalised_observation) in E as (l1 & o1 & l2 & -> & H1 & E).
  apply omap_split in E as (l3 & o2 & l4 & -> & H2 & _).
  apply (normalised_observation_shows _ _ _ H1) in Hcx as [_ H1'].
  apply (normalised_observation_shows _ _ _ H2) in Hcy as [_ H2'].
  subst plate. rewrite Hy in H2'. by exists l1, o1, l3, o2, l4.
Qed.

Lemma fuzzy_allowed_evidence observations authorised plate :
  decisive (authorised_set authorised) (normalised_observations observations) plate = true ->
  size (confusions (authorised_set authorised) plate) = 1%nat ->
  allowed_evidence observations authorised
    (fuzzy_decision (authorised_set authorised) (normalised_observations observations) plate).
Proof.
  intros [Hf%Nat.leb_le _]%andb_true_iff Hs.
  apply size_1_elem_of in Hs as Hq. destruct Hq as [q Hq%leibniz_equiv].
  assert (Hall : forall r, r ∈ confusions (authorised_set authorised) plate <-> r = q)
    by (intros r; rewrite Hq; apply elem_of_singleton).
  assert (Hmem : q ∈ confusions (authorised_set authorised) plate) by by apply Hall.
  apply elem_of_confusions in Hmem as [Hauth%elem_of_authorised_set Hconf].
  eapply (evidence_fuzzy _ _ _ plate q); unfold fuzzy_decision; cbn;
    rewrite ?bool_decide_true, ?Hq, ?elements_singleton by done; try done.
  - by apply frame_positions.
  - intros r Hr%elem_of_authorised_set Hc. apply Hall, elem_of_confusions. done.
Qed.

Lemma decide_access_evidence (observations : list PlateObservation) (authorised : list pystr) :
  md_allowed (decide_access observations authorised) = true ->
  allowed_evidence observations authorised (decide_access observations authorised).
Proof.
  rewrite decide_access_eq. unfold decide_reference. cbv zeta.
  destruct (find_row (is_exact _) _) as [x|] eqn:E.
  - intros _. apply find_row_Some in E as [Hin Hex]. unfold is_exact in Hex. bool_props.
    apply list_elem_of_omap in Hin as (o & Ho & Hn).
    destruct (normalised_observation_shows _ _ MIN_EXACT_CONFIDENCE Hn) as [<- Hs]; [done|].
    eapply (evidence_exact _ _ _ x.2 x.1); cbn; try done.
    by rewrite <- elem_of_authorised_set.
  - destruct (find_row (fun x => is_candidate x && _) _) as [x|] eqn:E'; [|discriminate].
    cbn. intros Hs%bool_decide_eq_true. apply find_row_Some in E' as [_ [_ Hd]%andb_true_iff].
    by apply fuzzy_allowed_evidence.
Qed.

(** whenever [decide_access] allows, it is on the evidence the safety model
    asks for: one frame of at least the exact threshold showing an authorised
    plate, or two frames above the fuzzy threshold showing one plate that is
    one recognised confusion away from exactly one authorised plate. *)
Theorem decide_access_sound (observations : list PlateObservation) (authorised : list pystr) :
  md_allowed (decide_access observations authorised) = true ->
  allowed_evidence observations authorised (decide_access observations authorised).
Proof. apply decide_access_evidence. Qed.

(** C13: normalisation yields digits and capital letters only, and is idempotent:
    normalising a normalised plate changes nothing. *)
Theorem normalise_plate_normal (value : pystr) :
  Forall (fun a => plate_char a = true) (String.list_ascii_of_string (normalise_plate value)) /\
  normalise_plate (of_ascii (normalise_plate value)) = normalise_plate value.
Proof.
  split; [apply normalise_plate_chars|].
  apply normalise_of_plate_chars, normalise_plate_chars.
Qed.

Lemma shows_is_exact o plate authorised observations :
  o ∈ observations -> shows o plate MIN_EXACT_CONFIDENCE -> is_authorised authorised plate ->
  exists x, x ∈ normalised_observations observations /\
            is_exact (authorised_set authorised) x = true.
Proof.
  intros Ho [(text & Ht & Hne & Hn) Hc] Ha. exists (plate, o). split.
  - apply list_elem_of_omap. exists o. split; [done|]. rewrite Ht.
    destruct text; [done|]. by rewrite Hn.
  - unfold is_exact. cbn [fst snd]. rewrite Hc, andb_true_r, andb_true_iff. split.
    + apply negb_true_iff, String.eqb_neq, Ha.
    + by apply bool_decide_eq_true, elem_of_authorised_set.
Qed.

(** an exact frame always opens: when some frame shows an authorised plate
    with at least the exact threshold, the decision allows with reason
    [exact_match], whatever the other frames are. *)
Theorem decide_access_exact_complete (observations : list PlateObservation)
    (authorised : list pystr) (o : PlateObservation) (plate : string) :
  o ∈ observations -> shows o plate MIN_EXACT_CONFIDENCE -> is_authorised authorised plate ->
  md_allowed (decide_access observations authorised) = true /\
  md_reason (decide_access observations authorised) = "exact_match".
Proof.
  intros Ho Hs Ha. destruct (shows_is_exact _ _ _ _ Ho Hs Ha) as (x & Hx & He).
  unfold decide_access. cbv zeta. destruct (find_row (is_exact _) _) eqn:E; [done|].
  rewrite find_row_None, list.Forall_forall in E. specialize (E _ Hx). congruence.
Qed.

Section Witnesses.
Definition frame (plate : string) (confidence : pyfloat) : PlateObservation :=
  {| po_plate := Some (of_ascii plate); po_confidence := confidence;
     po_make := None; po_colour := None |}.

(** 0.9375 and 0.5, exactly representable. *)
Definition conf_high : pyfloat := float_lit 15 (-4).
Definition conf_low : pyfloat := float_lit 1 (-1).

Example exact_wins :
  md_reason (decide_access [frame "12-d-3456" conf_high] [of_ascii "12D3456"]) = "exact_match".
Proof. vm_compute. reflexivity. Qed.

Example low_confidence_denied :
  decide_access [frame "12D3456" conf_low] [of_ascii "12D3456"] = denied "no_match".
Proof. vm_compute. reflexivity. Qed.

Example one_fuzzy_frame_denied :
  decide_access [frame "I2D3456" conf_high] [of_ascii "12D3456"] = denied "no_match".
Proof. vm_compute. reflexivity. Qed.

Example ambiguous_denied :
  md_reason (decide_access [frame "I2D" conf_high; frame "I2D" conf_high]
               [of_ascii "12D"; of_ascii "L2D"]) = "ambiguous_fuzzy_match".
Proof. vm_compute. reflexivity. Qed.

(** U+017F LATIN SMALL LETTER LONG S upper-cases to an ASCII letter. *)
Example long_s_normalises : normalise_plate [0x17F; 49; 0xDF]%Z = "S1SS".
Proof. reflexivity. Qed.

Lemma decide_access_sound_witness :
  allowed_evidence [frame "I2D3456" conf_high; frame "I2D3456" conf_high] [of_ascii "12D3456"]
    (decide_access [frame "I2D3456" conf_high; frame "I2D3456" conf_high] [of_ascii "12D3456"]).
Proof. apply decide_access_sound. vm_compute. reflexivity. Defined.

Lemma decide_access_exact_complete_witness :
  md_allowed (decide_access [frame "ZZZ" conf_low; frame "12-d-3456" conf_high]
    [of_ascii "12D3456"]) = true /\
  md_reason (decide_access [frame "ZZZ" conf_low; frame "12-d-3456" conf_high]
    [of_ascii "12D3456"]) = "exact_match".
Proof.
  apply (decide_access_exact_complete _ _ (frame "12-d-3456" conf_high) "12D3456").
  - right. left.
  - split; [|vm_compute; reflexivity].
    exists (of_ascii "12-d-3456"). split; [reflexivity|]. split; [discriminate|reflexivity].
  - split; [discriminate|]. exists (of_ascii "12D3456"). split; [left|reflexivity].
Defined.
End Witnesses.
