(* ===== verification/Images.v ===== *)
(** * Images on disk: gate_controller/images.py

    What the ingest pipeline asks of a file: whether it is a complete JPEG, how
    the frames of a burst rank, what their content digest is.  PIL, hashlib and
    the file system answer through [image_facts]; a probe may raise. *)

From S2P Require Import Prelude Float.

Record image_facts := {
  im_exists : bool;
  (** [path.stat().st_size] *)
  im_size : result Z;
  (** _has_jpeg_signature: the file can be read and starts with the marker. *)
  im_signature : bool;
  (** [Image.open(path).format == "JPEG"] *)
  im_jpeg : result bool;
  (** [image.verify()] *)
  im_verify : result unit;
  (** The edge variance of the decoded image. *)
  im_sharpness : result pyfloat;
  im_digest : result string;
}.

(** [except (OSError, ValueError, DecompressionBombWarning, DecompressionBombError)] *)
Definition image_caught (e : exc) : bool :=
  match e with OSError | TimeoutError | ValueError _ | DecompressionBomb => true | _ => false end.

Definition caught {A} (fallback : A) (r : result A) : result A :=
  match r with
  | Ok a => Ok a
  | Err e => if image_caught e then Ok fallback else Err e
  end.

(** images.py: _is_valid_image *)
Definition _is_valid_image (f : image_facts) : result bool :=
  if im_signature f then
    caught false (rbind (im_jpeg f) (fun jpeg =>
      if jpeg : bool then rbind (im_verify f) (fun _ => Ok true) else Ok false))
  else Ok false.

(** The body of the loop of [rank_images]: [None] when the path is left out. *)
Definition score (max_bytes : option Z) (f : image_facts) : result (option (pyfloat * string)) :=
  caught None
    (rbind (match max_bytes with
            | Some limit => rbind (im_size f) (fun size => Ok (limit <? size)%Z)
            | None => Ok false
            end) (fun too_large =>
     if (too_large : bool) || negb (im_signature f) then Ok None
     else
       rbind (im_jpeg f) (fun jpeg =>
       if negb jpeg then Ok None
       else
         rbind (im_sharpness f) (fun sharpness =>
         rbind (im_digest f) (fun digest => Ok (Some (sharpness, digest))))))).

(** The order of the keys [(-sharpness, digest)]. *)
Definition key_before (a b : pyfloat * string) : bool :=
  if flt b.1 a.1 then true
  else if bool_decide (a.1 = b.1) then String.ltb a.2 b.2 else false.

(** [sorted] is stable: an element stays before those its key does not exceed. *)
Fixpoint insert_scored (x : (pyfloat * string) * string) (l : list ((pyfloat * string) * string))
  : list ((pyfloat * string) * string) :=
  match l with
  | [] => [x]
  | y :: l' => if key_before y.1 x.1 then y :: insert_scored x l' else x :: l
  end.

Fixpoint scored_paths (max_bytes : option Z) (facts : string -> image_facts) (paths : list string)
  : result (list ((pyfloat * string) * string)) :=
  match paths with
  | [] => Ok []
  | p :: paths' =>
      rbind (score max_bytes (facts p)) (fun s =>
      rbind (scored_paths max_bytes facts paths') (fun rest =>
      Ok (match s with Some k => (k, p) :: rest | None => rest end)))
  end.

(** images.py: rank_images *)
Definition rank_images (max_bytes : option Z) (facts : string -> image_facts) (paths : list string)
  : result (list string) :=
  rbind (scored_paths max_bytes facts paths) (fun l => Ok (foldr insert_scored [] l).*2).

(** images.py: content_digest *)
Definition content_digest (f : image_facts) : result string := im_digest f.

Lemma insert_scored_perm x l : insert_scored x l ≡ₚ x :: l.
Proof.
  induction l as [|y l IH]; cbn; [done|]. case_match; [|done]. by rewrite IH, Permutation_swap.
Qed.

Lemma scored_sublist max_bytes facts paths l :
  scored_paths max_bytes facts paths = Ok l -> l.*2 `sublist_of` paths.
Proof.
  revert l. induction paths as [|p paths IH]; intros l; cbn; [by intros [= <-]|].
  destruct (score _ _) as [s|]; [|done]. cbn. destruct (scored_paths _ _ _) as [rest|]; [|done]. cbn.
  intros [= <-]. specialize (IH _ eq_refl). destruct s; cbn; by constructor.
Qed.

(** Ranking keeps a selection of the paths, each as often as it was given. *)
Lemma rank_images_submseteq max_bytes facts paths ranked :
  rank_images max_bytes facts paths = Ok ranked -> ranked ⊆+ paths.
Proof.
  unfold rank_images. destruct (scored_paths _ _ _) as [l|] eqn:E; [|done]. intros [= <-].
  apply scored_sublist in E. etrans; [|by apply sublist_submseteq].
  assert (H : foldr insert_scored [] l ≡ₚ l).
  { clear. induction l as [|x l IH]; [done|]. cbn. by rewrite insert_scored_perm, IH. }
  by rewrite H.
Qed.
