(* ===== verification/Store.v ===== *)
(** * The local store: gate_controller/store.py, events, claims and recovery

    The SQLite tables as lists of rows in row-id order and the [LocalStore]
    methods that record decisions and own the activation claims.  A method that
    runs between BEGIN IMMEDIATE and commit is a [transaction]: when it raises,
    the tables are as before.  Columns that hold timestamps are UTC
    microseconds: the ISO text [_timestamp] writes compares as text in the order
    of the instants.  Connection errors are not part of these definitions; the
    component that calls the store is verified against an interface that allows
    every call to fail. *)

From S2P Require Import Prelude Models Json.

(** ** Tables (store.py: _migrate) *)

Record event_row := {
  ev_id : Z;
  ev_received_at : Z;
  ev_decision_at : option Z;
  ev_relay_activated_at : option Z;
  ev_source : string;
  ev_reason : string;
  ev_opened : bool;
  ev_idempotency_key : option string;
  ev_authorised_plate : option string;
  ev_observed_plate : option string;
  ev_ocr_confidence : pyfloat;
}.

(** The two values of the [state] column. *)
Inductive claim_state := Claimed | Finalized.

Record claim_row := {
  cl_id : Z;
  cl_idempotency_key : string;
  cl_claimed_at : Z;
  cl_state : claim_state;
  cl_event_id : option Z;
  cl_terminal_status : option string;
  cl_terminal_detail : option string;
  cl_activation_attempt_at : option Z;
  cl_activation_monotonic : option Z;
  cl_boot_id : option string;
  cl_pending_event : option text;
  cl_pending_outbox_payload : option text;
  cl_pending_command_id : option string;
  cl_pending_command_created_at : option Z;
}.

(** The values of the [send_state] column. *)
Inductive send_state := Ready | AwaitingTelemetry | TelemetryReady | LocalOnly.

Record outbox_row := {
  ob_id : Z;
  ob_event_id : Z;
  ob_payload : text;
  ob_created_at : Z;
  ob_completed_at : option Z;
  ob_send_state : send_state;
}.

Record ack_row := {
  ack_command_id : string;
  ack_status : string;
  ack_detail : option string;
  ack_created_at : Z;
}.

Record telemetry_row := {
  tl_event_id : Z;
  tl_trace_id : string;
  tl_payload : text;
  tl_created_at : Z;
}.

Record database := {
  db_events : list event_row;
  db_claims : list claim_row;
  db_outbox : list outbox_row;
  db_acks : list ack_row;
  db_telemetry : list telemetry_row;
}.

Definition empty_database : database :=
  {| db_events := []; db_claims := []; db_outbox := []; db_acks := []; db_telemetry := [] |}.

#[global] Instance claim_state_eq_dec : EqDecision claim_state.
Proof. solve_decision. Defined.
#[global] Instance send_state_eq_dec : EqDecision send_state.
Proof. solve_decision. Defined.

Definition set_events (l : list event_row) (d : database) : database :=
  {| db_events := l; db_claims := db_claims d; db_outbox := db_outbox d;
     db_acks := db_acks d; db_telemetry := db_telemetry d |}.
Definition set_claims (l : list claim_row) (d : database) : database :=
  {| db_events := db_events d; db_claims := l; db_outbox := db_outbox d;
     db_acks := db_acks d; db_telemetry := db_telemetry d |}.
Definition set_outbox (l : list outbox_row) (d : database) : database :=
  {| db_events := db_events d; db_claims := db_claims d; db_outbox := l;
     db_acks := db_acks d; db_telemetry := db_telemetry d |}.
Definition set_acks (l : list ack_row) (d : database) : database :=
  {| db_events := db_events d; db_claims := db_claims d; db_outbox := db_outbox d;
     db_acks := l; db_telemetry := db_telemetry d |}.
Definition set_telemetry (l : list telemetry_row) (d : database) : database :=
  {| db_events := db_events d; db_claims := db_claims d; db_outbox := db_outbox d;
     db_acks := db_acks d; db_telemetry := l |}.

(** BEGIN IMMEDIATE ... commit, with rollback when the body raises. *)
Definition transaction {A} (m : M database A) : M database A :=
  fun d => match m d with
           | (Ok a, d') => (Ok a, d')
           | (Err e, _) => (Err e, d)
           end.

(** A transaction establishes its postcondition or leaves the tables alone. *)
Lemma triple_transaction {A} P (m : M database A) Q E :
  triple P m Q (fun _ => True) -> (forall d, P d -> E d) -> triple P (transaction m) Q E.
Proof.
  intros Hm HE d HP. specialize (Hm d HP). unfold transaction.
  destruct (m d) as [[a|e] d']; [done|by apply HE].
Qed.

(** ** Timestamps and JSON of pending events *)

(** store.py: _as_utc (the instant of the aware result) *)
Definition _as_utc (value : datetime) : Z :=
  match value with Aware us => us | Naive us => us end.

(** store.py: _timestamp, _optional_timestamp *)
Definition _timestamp (value : datetime) : Z := _as_utc value.
Definition _optional_timestamp (value : option datetime) : option Z := _timestamp <$> value.

(** [datetime.min] in UTC. *)
Definition DATETIME_MIN : Z := (-62135596800000000)%Z.

(** store.py: _parse_timestamp, on a stored value. *)
Definition _parse_timestamp (value : json) : Z :=
  match value with JTime us => us | _ => DATETIME_MIN end.

(** store.py: _encode_pending_event *)
Definition _encode_pending_event (event : GateEvent) : text :=
  dumps (JDict [
    ("source", JStr (ge_source event));
    ("reason", JStr (ge_reason event));
    ("idempotency_key", json_of_option JStr (ge_idempotency_key event));
    ("received_at", JTime (_timestamp (ge_received_at event)));
    ("decision_at", json_of_option JTime (_optional_timestamp (ge_decision_at event)));
    ("authorised_plate", json_of_option JStr (ge_authorised_plate event));
    ("observed_plate", json_of_option JStr (ge_observed_plate event));
    ("ocr_confidence", JFloat (ge_ocr_confidence event)) ]).

Definition as_str (j : json) : result string :=
  match j with JStr s => Ok s | _ => Err TypeError end.
Definition as_optional_str (j : json) : result (option string) :=
  match j with JStr s => Ok (Some s) | JNull => Ok None | _ => Err TypeError end.
Definition as_float (j : json) : result pyfloat :=
  match j with JFloat f => Ok f | JInt z => Ok (Fin (Z.shiftl z 1074)) | _ => Err TypeError end.

(** store.py: _decode_pending_event *)
Definition _decode_pending_event (encoded : text) : result GateEvent :=
  rbind (loads encoded) (fun payload =>
  match payload with
  | JDict d =>
      rbind (rbind (dict_item "source" d) as_str) (fun source =>
      rbind (rbind (dict_item "reason" d) as_str) (fun reason =>
      rbind (rbind (dict_item "idempotency_key" d) as_optional_str) (fun key =>
      rbind (dict_item "received_at" d) (fun received_at =>
      rbind (as_optional_str (dict_get "authorised_plate" d)) (fun authorised =>
      rbind (as_optional_str (dict_get "observed_plate" d)) (fun observed =>
      rbind (as_float (default (JFloat float_0) (dget "ocr_confidence" d))) (fun confidence =>
      Ok {| ge_source := source; ge_reason := reason; ge_opened := false;
            ge_idempotency_key := key;
            ge_received_at := Aware (_parse_timestamp received_at);
            ge_decision_at :=
              if is_null (dict_get "decision_at" d) then None
              else Some (Aware (_parse_timestamp (dict_get "decision_at" d)));
            ge_relay_activated_at := None;
            ge_authorised_plate := authorised; ge_observed_plate := observed;
            ge_ocr_confidence := confidence |})))))))
  | _ => Err (ValueError "pending event is not an object")
  end).

(** store.py: _encode_optional_json, _decode_optional_json *)
Definition _encode_optional_json (payload : option (dict json)) : option text :=
  (fun p => dumps (JDict p)) <$> payload.
Definition _decode_optional_json (encoded : option text) : result (option (dict json)) :=
  match encoded with
  | None => Ok None
  | Some t => rbind (loads t) (fun payload =>
      match payload with
      | JDict d => Ok (Some d)
      | _ => Err (ValueError "pending payload is not an object")
      end)
  end.

(** ** Statements inside a transaction

    [now] is the reading of [datetime.now(timezone.utc)] that [_ensure_outbox]
    takes for the creation time of a new row. *)

Definition claim_of_key (key : string) (d : database) : option claim_row :=
  find_row (fun c => String.eqb (cl_idempotency_key c) key) (db_claims d).
Definition claim_of_id (id : Z) (d : database) : option claim_row :=
  find_row (fun c => Z.eqb (cl_id c) id) (db_claims d).
Definition event_of_id (id : Z) (d : database) : option event_row :=
  find_row (fun e => Z.eqb (ev_id e) id) (db_events d).
Definition event_of_key (key : string) (d : database) : option event_row :=
  find_row (fun e => bool_decide (ev_idempotency_key e = Some key)) (db_events d).
Definition outbox_of_event (event_id : Z) (d : database) : option outbox_row :=
  find_row (fun o => Z.eqb (ob_event_id o) event_id) (db_outbox d).

(** UPDATE actuation_claims ... WHERE p *)
Definition update_claims (p : claim_row -> bool) (f : claim_row -> claim_row) (d : database)
  : database :=
  set_claims ((fun c => if p c then f c else c) <$> db_claims d) d.

Definition update_outbox (p : outbox_row -> bool) (f : outbox_row -> outbox_row) (d : database)
  : database :=
  set_outbox ((fun o => if p o then f o else o) <$> db_outbox d) d.

(** [column >= ?] on a nullable column. *)
Definition ge_opt (column : option Z) (bound : Z) : bool :=
  match column with Some v => (bound <=? v)%Z | None => false end.

(** Latest activation attempt that names a boot (ORDER BY ... DESC LIMIT 1). *)
Fixpoint latest_boot_attempt (l : list claim_row) : option (Z * string) :=
  match l with
  | [] => None
  | c :: l' =>
      match cl_activation_attempt_at c, cl_boot_id c with
      | Some t, Some b =>
          match latest_boot_attempt l' with
          | Some (t', b') => if (t <? t')%Z then Some (t', b') else Some (t, b)
          | None => Some (t, b)
          end
      | _, _ => latest_boot_attempt l'
      end
  end.

Definition event_opened_since (cutoff : Z) (e : event_row) : bool :=
  ge_opt (ev_relay_activated_at e) cutoff
  || (ev_opened e && bool_decide (ev_relay_activated_at e = None)
      && (cutoff <=? ev_received_at e)%Z).

(** The monotonic half of [_was_opened_since]: an attempt of this boot at or
    after the cutoff, or an attempt of an earlier boot while this boot is
    younger than the cooldown. *)
Definition monotonic_recent (d : database) (monotonic_cutoff : Z) (boot_id : string) : bool :=
  existsb (fun c => bool_decide (cl_boot_id c = Some boot_id)
                    && ge_opt (cl_activation_monotonic c) monotonic_cutoff) (db_claims d)
  || match latest_boot_attempt (db_claims d) with
     | Some (_, b) => negb (String.eqb b boot_id) && (monotonic_cutoff <? 0)%Z
     | None => false
     end.

(** store.py: _was_opened_since *)
Definition _was_opened_since (cutoff : datetime) (monotonic_cutoff : option Z)
    (boot_id : option string) (d : database) : bool :=
  match monotonic_cutoff, boot_id with
  | Some m, Some b => monotonic_recent d m b
  | _, _ => false
  end
  || existsb (event_opened_since (_timestamp cutoff)) (db_events d)
  || existsb (fun c => ge_opt (cl_activation_attempt_at c) (_timestamp cutoff)) (db_claims d).

(** The UNIQUE constraint on events.idempotency_key; NULLs are distinct. *)
Definition duplicate_key (event : GateEvent) (d : database) : bool :=
  match ge_idempotency_key event with
  | Some k => bool_decide (is_Some (event_of_key k d))
  | None => false
  end.

(** store.py: _insert_event; the UNIQUE constraint on idempotency_key raises
    IntegrityError. *)
Definition _insert_event (event : GateEvent) : M database Z :=
  fun d =>
    if duplicate_key event d then (Err IntegrityError, d)
    else
      let id := next_rowid (ev_id <$> db_events d) in
      (Ok id, set_events (db_events d ++ [
         {| ev_id := id;
            ev_received_at := _timestamp (ge_received_at event);
            ev_decision_at := _optional_timestamp (ge_decision_at event);
            ev_relay_activated_at := _optional_timestamp (ge_relay_activated_at event);
            ev_source := ge_source event; ev_reason := ge_reason event;
            ev_opened := ge_opened event;
            ev_idempotency_key := ge_idempotency_key event;
            ev_authorised_plate := ge_authorised_plate event;
            ev_observed_plate := ge_observed_plate event;
            ev_ocr_confidence := ge_ocr_confidence event |}]) d).

(** store.py: _event_payload *)
Definition _event_payload (event_id : Z) (d : database) : option (dict json) :=
  (fun e => [
    ("event_id", JInt (ev_id e));
    ("received_at", JTime (ev_received_at e));
    ("decision_at", json_of_option JTime (ev_decision_at e));
    ("relay_activated_at", json_of_option JTime (ev_relay_activated_at e));
    ("source", JStr (ev_source e));
    ("reason", JStr (ev_reason e));
    ("opened", JBool (ev_opened e));
    ("idempotency_key", json_of_option JStr (ev_idempotency_key e));
    ("authorised_plate", json_of_option JStr (ev_authorised_plate e));
    ("observed_plate", json_of_option JStr (ev_observed_plate e));
    ("ocr_confidence", JFloat (ev_ocr_confidence e));
    ("schema_version", JInt 2)]) <$> event_of_id event_id d.

Definition awaits_telemetry (payload : dict json) : bool :=
  match dget "_awaiting_telemetry" payload with Some (JBool true) => true | _ => false end.

(** The payload [_ensure_outbox] stores. *)
Definition outbox_encoding (event_id : Z) (payload : dict json) (d : database) : dict json :=
  let encoded := dupdate (default [] (_event_payload event_id d))
                   (ddel "_awaiting_telemetry" payload) in
  if is_null (dict_get "event_id" encoded) then dset "event_id" (JInt event_id) encoded
  else encoded.

(** store.py: _ensure_outbox (INSERT OR IGNORE on the unique event_id).  The
    result is the new row id when this connection inserted one. *)
Definition _ensure_outbox (now : Z) (event_id : Z) (payload : option (dict json))
  : M database (option Z) :=
  fun d =>
    match payload with
    | None => (Ok None, d)
    | Some p =>
        match outbox_of_event event_id d with
        | Some _ => (Ok None, d)
        | None =>
            let id := next_rowid (ob_id <$> db_outbox d) in
            (Ok (Some id), set_outbox (db_outbox d ++ [
               {| ob_id := id; ob_event_id := event_id;
                  ob_payload := dumps (JDict (outbox_encoding event_id p d));
                  ob_created_at := now; ob_completed_at := None;
                  ob_send_state := if awaits_telemetry p then AwaitingTelemetry else Ready |}]) d)
        end
    end.

(** store.py: _ensure_command_ack (upsert on command_id) *)
Definition _ensure_command_ack (command_ack : option (string * datetime))
    (status : string) (detail : option string) : M database unit :=
  fun d =>
    match command_ack with
    | None => (Ok tt, d)
    | Some (command_id, created_at) =>
        if existsb (fun a => String.eqb (ack_command_id a) command_id) (db_acks d)
        then (Ok tt, set_acks ((fun a =>
               if String.eqb (ack_command_id a) command_id
               then {| ack_command_id := command_id; ack_status := status;
                       ack_detail := detail; ack_created_at := ack_created_at a |}
               else a) <$> db_acks d) d)
        else (Ok tt, set_acks (db_acks d ++ [
               {| ack_command_id := command_id; ack_status := status; ack_detail := detail;
                  ack_created_at := _timestamp created_at |}]) d)
    end.

(** ** Claiming, attempting, finalizing *)

Definition insert_claim (row : Z -> claim_row) : M database Z :=
  fun d => let id := next_rowid (cl_id <$> db_claims d) in
           (Ok id, set_claims (db_claims d ++ [row id]) d).

(** store.py: claim_actuation *)
Definition claim_actuation (idempotency_key : string) (claimed_at : datetime)
    (cooldown_cutoff : option datetime) (monotonic_cutoff : option Z) (boot_id : option string)
    (event : option GateEvent) (outbox_payload : option (dict json))
    (command_ack : option (string * datetime)) : M database ActuationClaim :=
  transaction (
    let! existing := gets (claim_of_key idempotency_key) in
    match existing with
    | Some c =>
        ret {| ac_idempotency_key := idempotency_key;
               ac_status := match cl_state c with
                            | Claimed => "indeterminate_claim"
                            | Finalized => "duplicate_event"
                            end;
               ac_claimed_at := Some (Aware (cl_claimed_at c));
               ac_claim_id := Some (cl_id c) |}
    | None =>
        let! recent := gets (fun d => match cooldown_cutoff with
                                      | Some cutoff => _was_opened_since cutoff monotonic_cutoff boot_id d
                                      | None => false
                                      end) in
        if recent : bool then
          ret {| ac_idempotency_key := idempotency_key; ac_status := "cooldown";
                 ac_claimed_at := None; ac_claim_id := None |}
        else
          let! id := insert_claim (fun id =>
            {| cl_id := id; cl_idempotency_key := idempotency_key;
               cl_claimed_at := _timestamp claimed_at; cl_state := Claimed;
               cl_event_id := None; cl_terminal_status := None; cl_terminal_detail := None;
               cl_activation_attempt_at := None; cl_activation_monotonic := None;
               cl_boot_id := None;
               cl_pending_event := _encode_pending_event <$> event;
               cl_pending_outbox_payload := _encode_optional_json outbox_payload;
               cl_pending_command_id := fst <$> command_ack;
               cl_pending_command_created_at := (fun a => _timestamp (snd a)) <$> command_ack |}) in
          ret {| ac_idempotency_key := idempotency_key; ac_status := "claimed";
                 ac_claimed_at := Some (Aware (_as_utc claimed_at)); ac_claim_id := Some id |}
    end).

(** store.py: mark_actuation_attempt *)
Definition mark_actuation_attempt (claim : ActuationClaim) (attempted_at : datetime)
    (event : GateEvent) (outbox_payload : option (dict json))
    (command_ack : option (string * datetime)) (attempted_monotonic : option Z)
    (boot_id : option string) : M database unit :=
  match ac_claim_id claim with
  | Some claim_id =>
      if String.eqb (ac_status claim) "claimed" then
        transaction (
          let selected := fun c => Z.eqb (cl_id c) claim_id && bool_decide (cl_state c = Claimed)
                                   && bool_decide (cl_activation_attempt_at c = None) in
          let! rowcount := gets (fun d => length (filter (fun c => selected c = true) (db_claims d))) in
          modify (update_claims selected (fun c =>
            {| cl_id := cl_id c; cl_idempotency_key := cl_idempotency_key c;
               cl_claimed_at := cl_claimed_at c; cl_state := cl_state c;
               cl_event_id := cl_event_id c; cl_terminal_status := cl_terminal_status c;
               cl_terminal_detail := cl_terminal_detail c;
               cl_activation_attempt_at := Some (_timestamp attempted_at);
               cl_activation_monotonic := attempted_monotonic; cl_boot_id := boot_id;
               cl_pending_event := Some (_encode_pending_event event);
               cl_pending_outbox_payload := _encode_optional_json outbox_payload;
               cl_pending_command_id := fst <$> command_ack;
               cl_pending_command_created_at := (fun a => _timestamp (snd a)) <$> command_ack |})) ;!
          if (rowcount =? 1)%nat then ret tt
          else raise (RuntimeError "actuation claim is no longer safe to execute"))
      else raise (ValueError "actuation attempt requires an active claim")
  | None => raise (ValueError "actuation attempt requires an active claim")
  end.

(** The UPDATE of [finalize_actuation]. *)
Definition finalize_claim_row (event_id : Z) (status : string) (detail : option string)
    (keep_attempt : bool) (c : claim_row) : claim_row :=
  {| cl_id := cl_id c; cl_idempotency_key := cl_idempotency_key c;
     cl_claimed_at := cl_claimed_at c; cl_state := Finalized;
     cl_event_id := Some event_id; cl_terminal_status := Some status;
     cl_terminal_detail := detail;
     cl_activation_attempt_at := if keep_attempt then cl_activation_attempt_at c else None;
     cl_activation_monotonic := if keep_attempt then cl_activation_monotonic c else None;
     cl_boot_id := if keep_attempt then cl_boot_id c else None;
     cl_pending_event := None; cl_pending_outbox_payload := None;
     cl_pending_command_id := None; cl_pending_command_created_at := None |}.

(** [terminal_status or ("completed" if event.opened else "failed")] *)
Definition finalize_status (terminal_status : option string) (opened : bool) : string :=
  match terminal_status with
  | Some (String a s) => String a s
  | _ => if opened then "completed" else "failed"
  end.

(** store.py: finalize_actuation *)
Definition finalize_actuation (now : Z) (claim : ActuationClaim) (event : GateEvent)
    (terminal_status terminal_detail : option string) (outbox_payload : option (dict json))
    (command_ack : option (string * datetime)) (retain_activation_attempt : bool)
  : M database Z :=
  if negb (String.eqb (ac_status claim) "claimed")
     || negb (bool_decide (ge_idempotency_key event = Some (ac_idempotency_key claim)))
  then raise (ValueError "event does not match active actuation claim")
  else
    let status := finalize_status terminal_status (ge_opened event) in
    let keep_attempt := retain_activation_attempt && negb (String.eqb status "expired") in
    transaction (
      let! row := gets (fun d => match ac_claim_id claim with
                                 | Some id => claim_of_id id d | None => None end) in
      match row with
      | Some c =>
          if bool_decide (cl_state c = Claimed) then
            let! event_id := _insert_event event in
            _ensure_outbox now event_id outbox_payload ;!
            _ensure_command_ack command_ack status terminal_detail ;!
            modify (update_claims (fun c' => Z.eqb (cl_id c') (cl_id c))
                      (finalize_claim_row event_id status terminal_detail keep_attempt)) ;!
            ret event_id
          else raise (RuntimeError "actuation claim is no longer active")
      | None => raise (RuntimeError "actuation claim is no longer active")
      end).

(** [if not event.idempotency_key] *)
Definition has_key (event : GateEvent) : bool :=
  match ge_idempotency_key event with Some (String _ _) => true | _ => false end.

(** The event insert shared by [record_event_with_outbox] and the recovery: on
    a duplicate key the id of the existing row. *)
Definition insert_or_find_event (event : GateEvent) (find : GateEvent -> option string)
  : M database Z :=
  try_except (_insert_event event) (fun e =>
    match e with
    | IntegrityError =>
        let! row := gets (fun d => match find event with
                                   | Some k => event_of_key k d | None => None end) in
        match row with
        | Some r => ret (ev_id r)
        | None => raise IntegrityError
        end
    | _ => raise e
    end).

(** store.py: record_event_with_outbox *)
Definition record_event_with_outbox (now : Z) (event : GateEvent)
    (outbox_payload : option (dict json)) : M database Z :=
  transaction (
    let! event_id := insert_or_find_event event
      (fun e => if has_key e then ge_idempotency_key e else None) in
    _ensure_outbox now event_id outbox_payload ;!
    ret event_id).

(** store.py: record_event *)
Definition record_event (now : Z) (event : GateEvent) : M database Z :=
  record_event_with_outbox now event None.

(** store.py: record_terminal_outcome *)
Definition record_terminal_outcome (now : Z) (event : GateEvent) (status : string)
    (detail : option string) (outbox_payload : option (dict json))
    (command_ack : option (string * datetime)) : M database (option Z) :=
  if negb (has_key event) then
    let! id := record_event_with_outbox now event outbox_payload in ret (Some id)
  else
    let key := default EmptyString (ge_idempotency_key event) in
    transaction (
      let! existing := gets (claim_of_key key) in
      match existing with
      | Some c =>
          match cl_event_id c with
          | Some event_id => _ensure_outbox now event_id outbox_payload ;! ret tt
          | None => ret tt
          end ;!
          _ensure_command_ack command_ack status detail ;!
          ret (cl_event_id c)
      | None =>
          let! event_id := _insert_event event in
          _ensure_outbox now event_id outbox_payload ;!
          _ensure_command_ack command_ack status detail ;!
          insert_claim (fun id =>
            {| cl_id := id; cl_idempotency_key := key;
               cl_claimed_at := _timestamp (default (ge_received_at event) (ge_decision_at event));
               cl_state := Finalized; cl_event_id := Some event_id;
               cl_terminal_status := Some status; cl_terminal_detail := detail;
               cl_activation_attempt_at := None; cl_activation_monotonic := None;
               cl_boot_id := None; cl_pending_event := None; cl_pending_outbox_payload := None;
               cl_pending_command_id := None; cl_pending_command_created_at := None |}) ;!
          ret (Some event_id)
      end).

(** ** Recovery after a crash *)

(** The [try] block of the recovery loop. *)
Definition decode_pending (c : claim_row)
  : result (GateEvent * option (dict json) * option (string * datetime)) :=
  match cl_pending_event c with
  | None => Err TypeError
  | Some event_text =>
      rbind (_decode_pending_event event_text) (fun event =>
      rbind (_decode_optional_json (cl_pending_outbox_payload c)) (fun outbox_payload =>
      Ok (event, outbox_payload,
          match cl_pending_command_id c, cl_pending_command_created_at c with
          | Some command_id, Some created_at => Some (command_id, Aware created_at)
          | _, _ => None
          end)))
  end.

Definition recovery_reason (c : claim_row) : string :=
  match cl_activation_attempt_at c with
  | Some _ => "indeterminate_claim"
  | None => "interrupted_before_activation"
  end.

Definition recovered_event (event : GateEvent) (reason : string) : GateEvent :=
  {| ge_source := ge_source event; ge_reason := reason; ge_opened := false;
     ge_idempotency_key := ge_idempotency_key event; ge_received_at := ge_received_at event;
     ge_decision_at := ge_decision_at event; ge_relay_activated_at := None;
     ge_authorised_plate := ge_authorised_plate event;
     ge_observed_plate := ge_observed_plate event;
     ge_ocr_confidence := ge_ocr_confidence event |}.

Definition recover_claim_row (event_id : Z) (reason : string) (c : claim_row) : claim_row :=
  {| cl_id := cl_id c; cl_idempotency_key := cl_idempotency_key c;
     cl_claimed_at := cl_claimed_at c; cl_state := Finalized;
     cl_event_id := Some event_id; cl_terminal_status := Some "failed";
     cl_terminal_detail := Some reason;
     cl_activation_attempt_at := cl_activation_attempt_at c;
     cl_activation_monotonic := cl_activation_monotonic c; cl_boot_id := cl_boot_id c;
     cl_pending_event := None; cl_pending_outbox_payload := None;
     cl_pending_command_id := None; cl_pending_command_created_at := None |}.

(** One iteration of the recovery loop; the result counts the claim. *)
Definition recover_one (now : Z) (c : claim_row) : M database Z :=
  match decode_pending c with
  | Err _ => ret 0%Z
  | Ok (event, outbox_payload, command_ack) =>
      let reason := recovery_reason c in
      let! event_id := insert_or_find_event (recovered_event event reason) ge_idempotency_key in
      _ensure_outbox now event_id outbox_payload ;!
      _ensure_command_ack command_ack "failed" (Some reason) ;!
      modify (update_claims
        (fun c' => Z.eqb (cl_id c') (cl_id c) && bool_decide (cl_state c' = Claimed))
        (recover_claim_row event_id reason)) ;!
      ret 1%Z
  end.

Fixpoint recover_rows (now : Z) (rows : list claim_row) : M database Z :=
  match rows with
  | [] => ret 0%Z
  | c :: rows' =>
      let! n := recover_one now c in
      let! m := recover_rows now rows' in
      ret (n + m)%Z
  end.

(** WHERE state = 'claimed' AND pending_event IS NOT NULL *)
Definition interrupted (c : claim_row) : bool :=
  bool_decide (cl_state c = Claimed) && bool_decide (is_Some (cl_pending_event c)).

Definition set_send_state (s : send_state) (o : outbox_row) : outbox_row :=
  {| ob_id := ob_id o; ob_event_id := ob_event_id o; ob_payload := ob_payload o;
     ob_created_at := ob_created_at o; ob_completed_at := ob_completed_at o;
     ob_send_state := s |}.

Definition awaiting_row (o : outbox_row) : bool :=
  bool_decide (ob_completed_at o = None) && bool_decide (ob_send_state o = AwaitingTelemetry).

(** store.py: _recover_interrupted_actuations *)
Definition _recover_interrupted_actuations (now : Z) : M database Z :=
  let! rows := gets (fun d => filter (fun c => interrupted c = true) (db_claims d)) in
  let! recovered_count := recover_rows now rows in
  modify (update_outbox awaiting_row (set_send_state Ready)) ;!
  ret recovered_count.

(** store.py: recover_interrupted_actuations *)
Definition recover_interrupted_actuations (now : Z) : M database Z :=
  transaction (_recover_interrupted_actuations now).

(** ** Queries and single-statement methods *)

(** store.py: was_opened_since *)
Definition was_opened_since (cutoff : datetime) (d : database) : bool :=
  _was_opened_since cutoff None None d.

(** [row[0] or "failed"] *)
Definition or_failed (status : option string) : string :=
  match status with Some (String a s) => String a s | _ => "failed" end.

(** store.py: terminal_outcome *)
Definition terminal_outcome (idempotency_key : string) (d : database) : option TerminalOutcome :=
  match claim_of_key idempotency_key d with
  | None => None
  | Some c =>
      match cl_state c with
      | Claimed => None
      | Finalized => Some {| to_status := or_failed (cl_terminal_status c);
                             to_detail := cl_terminal_detail c;
                             to_event_id := cl_event_id c |}
      end
  end.

(** store.py: actuation_claim_status *)
Definition actuation_claim_status (idempotency_key : string) (d : database) : option string :=
  (fun c => match cl_state c with
            | Claimed => "indeterminate_claim" | Finalized => "duplicate_event" end)
    <$> claim_of_key idempotency_key d.

(** store.py: event_id *)
Definition event_id (idempotency_key : string) (d : database) : option Z :=
  ev_id <$> event_of_key idempotency_key d.

(** store.py: event_exists *)
Definition event_exists (idempotency_key : string) (d : database) : bool :=
  bool_decide (is_Some (actuation_claim_status idempotency_key d))
  || bool_decide (is_Some (event_id idempotency_key d)).

(** store.py: ensure_outbox *)
Definition ensure_outbox (now : Z) (event_id : Z) (payload : dict json) : M database (option Z) :=
  transaction (_ensure_outbox now event_id (Some payload)).

(** store.py: queue_outbox (the subscript on a missing row raises TypeError) *)
Definition queue_outbox (now : Z) (event_id : Z) (payload : dict json) : M database Z :=
  let! id := ensure_outbox now event_id payload in
  match id with
  | Some i => ret i
  | None =>
      let! row := gets (outbox_of_event event_id) in
      match row with Some o => ret (ob_id o) | None => raise TypeError end
  end.

(** store.py: pending_outbox_count *)
Definition pending_outbox_count (d : database) : nat :=
  length (filter (fun o => ob_completed_at o = None /\ ob_send_state o <> LocalOnly) (db_outbox d)).

Definition sendable (o : outbox_row) : bool :=
  bool_decide (ob_completed_at o = None)
  && (bool_decide (ob_send_state o = Ready) || bool_decide (ob_send_state o = TelemetryReady)).

(** The id order of [pending_outbox_items]: rows after [after_id] first. *)
Definition pending_outbox_rows (limit : nat) (after_id : option Z) (d : database)
  : list outbox_row :=
  let rows := filter (fun o => sendable o = true) (db_outbox d) in
  take limit match after_id with
             | None => rows
             | Some a => filter (fun o => a < ob_id o)%Z rows ++ filter (fun o => ~ (a < ob_id o)%Z) rows
             end.

Fixpoint load_rows (rows : list outbox_row) : result (list (Z * json)) :=
  match rows with
  | [] => Ok []
  | o :: rows' =>
      rbind (loads (ob_payload o)) (fun j =>
      rbind (load_rows rows') (fun rest => Ok ((ob_id o, j) :: rest)))
  end.

(** store.py: pending_outbox_items *)
Definition pending_outbox_items (limit : nat) (after_id : option Z) (d : database)
  : result (list (Z * json)) := load_rows (pending_outbox_rows limit after_id d).

(** store.py: release_outbox_without_telemetry *)
Definition release_outbox_without_telemetry (event_id : Z) : M database unit :=
  modify (update_outbox (fun o => Z.eqb (ob_event_id o) event_id && awaiting_row o)
            (set_send_state Ready)).

(** store.py: queue_command_ack *)
Definition queue_command_ack (command_id status : string) (detail : option string)
    (created_at : datetime) : M database unit :=
  transaction (_ensure_command_ack (Some (command_id, created_at)) status detail).

(** store.py: complete_command_ack *)
Definition complete_command_ack (command_id : string) : M database unit :=
  modify (fun d => set_acks (filter (fun a => ack_command_id a <> command_id) (db_acks d)) d).

(** Stable insertion by creation time: ORDER BY created_at. *)
Fixpoint insert_ack (a : ack_row) (l : list ack_row) : list ack_row :=
  match l with
  | [] => [a]
  | b :: l' => if (ack_created_at a <=? ack_created_at b)%Z then a :: l else b :: insert_ack a l'
  end.

(** store.py: pending_command_acks *)
Definition pending_command_acks (limit : nat) (d : database) : list (string * string * option string) :=
  take limit ((fun a => (ack_command_id a, ack_status a, ack_detail a))
                <$> foldr insert_ack [] (db_acks d)).

(** store.py: event_payload *)
Definition event_payload (event_id : Z) (d : database) : result (dict json) :=
  match _event_payload event_id d with Some p => Ok p | None => Err KeyError end.
