(* ===== verification/StoreFacts.v ===== *)
(** * Properties of the local store

    The table invariant and its preservation by every method of Store.v, the
    claim protocol (at most one "claimed" per key, for ever), recovery, and the
    JSON round trip of pending events. *)

From S2P Require Import Prelude Models Json Store.

(** ** The table invariant *)

Definition event_ids (d : database) : list Z := ev_id <$> db_events d.
Definition event_keys (d : database) : list string := omap ev_idempotency_key (db_events d).
Definition claim_ids (d : database) : list Z := cl_id <$> db_claims d.
Definition claim_keys (d : database) : list string := cl_idempotency_key <$> db_claims d.

(** A claim is open, without outcome, or finalized with an outcome that points
    to a recorded event and with no pending data. *)
Definition claim_ok (ids : list Z) (c : claim_row) : Prop :=
  match cl_state c with
  | Claimed => cl_event_id c = None /\ cl_terminal_status c = None
  | Finalized =>
      (exists id, cl_event_id c = Some id /\ id ∈ ids) /\ is_Some (cl_terminal_status c) /\
      cl_pending_event c = None /\ cl_pending_outbox_payload c = None /\
      cl_pending_command_id c = None
  end.

Record db_wf (d : database) : Prop := {
  wf_event_ids : NoDup (event_ids d);
  wf_event_keys : NoDup (event_keys d);
  wf_claim_ids : NoDup (claim_ids d);
  wf_claim_keys : NoDup (claim_keys d);
  wf_claims : Forall (claim_ok (event_ids d)) (db_claims d);
  wf_outbox_ids : NoDup (ob_id <$> db_outbox d);
  wf_outbox_events : NoDup (ob_event_id <$> db_outbox d);
  wf_ack_ids : NoDup (ack_command_id <$> db_acks d);
}.

Lemma db_wf_empty : db_wf empty_database.
Proof. split; cbn; constructor. Qed.

(** ** Rows found by key *)

Lemma claim_of_key_None key d : claim_of_key key d = None <-> key ∉ claim_keys d.
Proof.
  unfold claim_of_key, claim_keys. rewrite find_row_None, list.Forall_forall. split.
  - intros H (c & -> & Hc)%list_elem_of_fmap. specialize (H c Hc). cbn in H.
    by rewrite String.eqb_refl in H.
  - intros H c Hc. apply String.eqb_neq. intros <-. apply H, list_elem_of_fmap_2, Hc.
Qed.

Lemma claim_of_key_Some key d c :
  claim_of_key key d = Some c -> c ∈ db_claims d /\ cl_idempotency_key c = key.
Proof. intros [? ?%String.eqb_eq]%find_row_Some. done. Qed.

Lemma claim_of_key_is_Some key d : is_Some (claim_of_key key d) <-> key ∈ claim_keys d.
Proof.
  destruct (decide (key ∈ claim_keys d)) as [Hin|Hin].
  - split; [done|]. intros _. destruct (claim_of_key key d) eqn:E; [eauto|].
    by apply claim_of_key_None in E.
  - split; [|done]. apply claim_of_key_None in Hin as ->. by intros [? ?].
Qed.

Lemma event_of_key_None key d : event_of_key key d = None <-> key ∉ event_keys d.
Proof.
  unfold event_of_key, event_keys. rewrite find_row_None, list.Forall_forall. split.
  - intros H (e & He & Hk)%list_elem_of_omap. specialize (H e He).
    by apply bool_decide_eq_false in H.
  - intros H e He. apply bool_decide_eq_false. intros Hk. apply H, list_elem_of_omap. eauto.
Qed.

Lemma event_of_key_Some key d e :
  event_of_key key d = Some e -> e ∈ db_events d /\ ev_idempotency_key e = Some key.
Proof. intros [? ?%bool_decide_eq_true]%find_row_Some. done. Qed.

Lemma outbox_of_event_None id d :
  outbox_of_event id d = None <-> id ∉ (ob_event_id <$> db_outbox d).
Proof.
  unfold outbox_of_event. rewrite find_row_None, list.Forall_forall. split.
  - intros H (o & -> & Ho)%list_elem_of_fmap. specialize (H o Ho). by rewrite Z.eqb_refl in H.
  - intros H o Ho. apply Z.eqb_neq. intros <-. apply H, list_elem_of_fmap_2, Ho.
Qed.

(** A row found by a unique column is the row of that column's value. *)
Lemma claim_of_id_Some d c :
  NoDup (claim_ids d) -> c ∈ db_claims d -> claim_of_id (cl_id c) d = Some c.
Proof.
  unfold claim_ids, claim_of_id. intros Hnd Hc. induction (db_claims d) as [|c' l IH]; [inversion Hc|].
  cbn in *. apply list.NoDup_cons in Hnd as [Hnin Hnd]. apply elem_of_cons in Hc as [<-|Hc].
  - by rewrite Z.eqb_refl.
  - destruct (Z.eqb_spec (cl_id c') (cl_id c)) as [E|_]; [|by apply IH].
    exfalso. apply Hnin. rewrite E. by apply list_elem_of_fmap_2.
Qed.

(** ** Statements preserve the invariant *)

Lemma NoDup_snoc {A} (l : list A) x : NoDup l -> x ∉ l -> NoDup (l ++ [x]).
Proof.
  intros Hl Hx. apply list.NoDup_app. split; [done|]. split; [|apply NoDup_singleton].
  intros y Hy Hy'%list_elem_of_singleton. congruence.
Qed.

Lemma claim_ok_mono ids ids' c : ids ⊆ ids' -> claim_ok ids c -> claim_ok ids' c.
Proof.
  unfold claim_ok. destruct (cl_state c); [done|].
  intros Hsub ((id & ? & Hin) & ?). split; [|done]. exists id. split; [done|]. by apply Hsub.
Qed.

(** The invariant with a set of columns pinned: used as the running assertion
    of a transaction that has looked at the claims. *)
Definition wf_with (cs : list claim_row) (d : database) : Prop :=
  db_wf d /\ db_claims d = cs.

Lemma insert_event_spec cs event :
  triple (wf_with cs) (_insert_event event)
    (fun id d => wf_with cs d /\ id ∈ event_ids d) (wf_with cs).
Proof.
  intros d [Hwf Hcs]. unfold _insert_event.
  destruct (duplicate_key event d) eqn:Hdup; [done|]. unfold duplicate_key in Hdup.
  assert (Hnew : next_rowid (event_ids d) ∉ event_ids d) by apply next_rowid_not_in.
  split; [split; [|done]|unfold event_ids; cbn; rewrite fmap_app; apply elem_of_app; right; left].
  destruct Hwf. split; try done; unfold event_ids, event_keys, set_events; cbn.
  - rewrite fmap_app. by apply NoDup_snoc.
  - rewrite omap_app. cbn. destruct (ge_idempotency_key event) as [k|]; cbn.
    2: { by rewrite app_nil_r. }
    apply NoDup_snoc; [done|]. apply event_of_key_None.
    apply bool_decide_eq_false, eq_None_not_Some in Hdup. done.
  - rewrite fmap_app. eapply Forall_impl; [|eassumption]. intros c.
    apply claim_ok_mono. intros x Hx. apply elem_of_app. by left.
Qed.

Lemma ensure_outbox_spec cs now id payload R :
  (forall d l, R d -> R (set_outbox l d)) ->
  triple (fun d => wf_with cs d /\ R d) (_ensure_outbox now id payload)
    (fun _ d => wf_with cs d /\ R d) (fun d => wf_with cs d /\ R d).
Proof.
  intros HR d [[Hwf Hcs] Hr]. unfold _ensure_outbox. destruct payload as [p|]; [|done].
  destruct (outbox_of_event id d) eqn:E; [done|]. split; [|by apply HR].
  split; [|done]. apply outbox_of_event_None in E. destruct Hwf. split; try done; cbn.
  - rewrite fmap_app. apply NoDup_snoc; [done|]. apply next_rowid_not_in.
  - rewrite fmap_app. by apply NoDup_snoc.
Qed.

Lemma ensure_command_ack_spec cs ack status detail R :
  (forall d l, R d -> R (set_acks l d)) ->
  triple (fun d => wf_with cs d /\ R d) (_ensure_command_ack ack status detail)
    (fun _ d => wf_with cs d /\ R d) (fun d => wf_with cs d /\ R d).
Proof.
  intros HR d [[Hwf Hcs] Hr]. unfold _ensure_command_ack.
  destruct ack as [[id created]|]; [|done]. destruct (existsb _ _) eqn:E.
  - split; [|by apply HR]. split; [|done]. destruct Hwf. split; try done; cbn.
    rewrite <- list_fmap_compose. erewrite list_fmap_ext; [eassumption|].
    intros i a _. cbn. destruct (String.eqb_spec (ack_command_id a) id); done.
  - split; [|by apply HR]. split; [|done]. destruct Hwf. split; try done; cbn.
    rewrite fmap_app. apply NoDup_snoc; [done|]. cbn. intros (a & -> & Ha)%list_elem_of_fmap.
    assert (existsb (fun b => String.eqb (ack_command_id b) (ack_command_id a)) (db_acks d) = true).
    { apply existsb_exists. exists a. rewrite <- list_elem_of_In, String.eqb_refl. done. }
    congruence.
Qed.

Lemma update_claims_wf p f d :
  db_wf d ->
  (forall c, p c = true -> cl_id (f c) = cl_id c /\
             cl_idempotency_key (f c) = cl_idempotency_key c) ->
  (forall c, c ∈ db_claims d -> p c = true -> claim_ok (event_ids d) (f c)) ->
  db_wf (update_claims p f d).
Proof.
  intros Hwf Hf Hok. destruct Hwf. unfold update_claims. split; try done; cbn.
  - unfold claim_ids. cbn. rewrite <- list_fmap_compose.
    erewrite list_fmap_ext; [eassumption|]. intros i c _. cbn. destruct (p c) eqn:E; [|done].
    by apply Hf.
  - unfold claim_keys. cbn. rewrite <- list_fmap_compose.
    erewrite list_fmap_ext; [eassumption|]. intros i c _. cbn. destruct (p c) eqn:E; [|done].
    by apply Hf.
  - apply Forall_fmap, list.Forall_forall. intros c Hc. cbn. destruct (p c) eqn:E; [by apply Hok|].
    by eapply list.Forall_forall in Hc.
Qed.

Lemma insert_or_find_event_spec cs event find :
  triple (wf_with cs) (insert_or_find_event event find)
    (fun id d => wf_with cs d /\ id ∈ event_ids d) (wf_with cs).
Proof.
  eapply triple_try; [apply insert_event_spec| |done].
  intros e. destruct e; try (by apply triple_raise).
  apply (triple_bind _ _ _ (fun row d => wf_with cs d /\
    forall r, row = Some r -> ev_id r ∈ event_ids d)).
  - apply triple_gets. intros d Hd. split; [done|]. intros r Hr.
    destruct (find event); [|done]. apply event_of_key_Some in Hr as [Hr _].
    by apply list_elem_of_fmap_2.
  - intros [r|]; [apply triple_ret|apply triple_raise]; intros d [? H]; eauto.
Qed.

Lemma insert_claim_spec cs row R :
  (forall d l, R d -> R (set_claims l d)) ->
  triple (fun d => wf_with cs d /\ R d /\ cl_idempotency_key (row 0%Z) ∉ (cl_idempotency_key <$> cs) /\
            forall id, cl_id (row id) = id /\
                       cl_idempotency_key (row id) = cl_idempotency_key (row 0%Z) /\
                       claim_ok (event_ids d) (row id))
    (insert_claim row) (fun id d => db_wf d /\ R d) db_wf.
Proof.
  intros HR d ([Hwf Hcs] & Hr & Hkey & Hrow). unfold insert_claim. subst cs.
  split; [|by apply HR]. destruct (Hrow (next_rowid (cl_id <$> db_claims d))) as (Hid & Hk & Hok).
  destruct Hwf. split; try done; unfold claim_ids, claim_keys; cbn.
  - rewrite fmap_app. cbn. rewrite Hid. apply NoDup_snoc; [done|]. apply next_rowid_not_in.
  - rewrite fmap_app. cbn. rewrite Hk. by apply NoDup_snoc.
  - apply list.Forall_app. split; [done|]. by repeat constructor.
Qed.

(** [m] keeps the invariant, whether it returns or raises. *)
Definition preserves {A} (m : M database A) : Prop :=
  triple db_wf m (fun _ => db_wf) db_wf.

(** To run a transaction from a well-formed database, fix its claims. *)
Lemma preserves_transaction {A} (m : M database A) :
  (forall cs, triple (wf_with cs) m (fun _ => db_wf) (fun _ => True)) ->
  preserves (transaction m).
Proof.
  intros H. apply triple_transaction; [|done]. intros d Hd. by apply (H (db_claims d)).
Qed.

Lemma claim_actuation_wf key at_ cutoff mono boot event payload ack :
  preserves (claim_actuation key at_ cutoff mono boot event payload ack).
Proof.
  apply preserves_transaction. intros cs.
  apply (triple_bind _ _ _ (fun c d => wf_with cs d /\ c = claim_of_key key d)).
  { by apply triple_gets. }
  intros [c|]; [apply triple_ret; by intros d [[? _] _]|].
  apply (triple_bind _ _ _ (fun _ d => wf_with cs d /\ None = claim_of_key key d)).
  { by apply triple_gets. }
  intros [|]; [apply triple_ret; by intros d [[? _] _]|].
  eapply triple_bind; [|intros id; apply triple_ret; intros d H; apply H].
  eapply triple_conseq; [apply (insert_claim_spec cs _ (fun _ => True))| | |done]; [done| |].
  - cbn. intros d [Hwf Hnone]. split; [done|]. split; [done|]. destruct Hwf as [_ <-].
    split; [by apply (claim_of_key_None key d)|]. done.
  - by intros id d [? _].
Qed.

Lemma mark_actuation_attempt_wf claim at_ event payload ack mono boot :
  preserves (mark_actuation_attempt claim at_ event payload ack mono boot).
Proof.
  unfold mark_actuation_attempt. destruct (ac_claim_id claim); [|by apply triple_raise].
  destruct (String.eqb _ _); [|by apply triple_raise].
  apply preserves_transaction. intros cs.
  apply (triple_bind _ _ _ (fun _ => db_wf)); [by apply triple_gets; intros d []|].
  intros n. apply (triple_bind _ _ _ (fun _ => db_wf)).
  - apply triple_modify. intros d Hwf. apply update_claims_wf; [done|done|].
    intros c Hc H. bool_props. pose proof (wf_claims _ Hwf) as Hok.
    rewrite list.Forall_forall in Hok. specialize (Hok _ Hc).
    unfold claim_ok in *. cbn. destruct (cl_state c); done.
  - intros _. destruct (n =? 1)%nat; [by apply triple_ret|by apply triple_raise].
Qed.

(** The event insertion, outbox insertion and acknowledgement shared by the
    methods that record an outcome. *)
Lemma record_outcome_spec cs now (ins : M database Z) payload ack status detail :
  triple (wf_with cs) ins (fun id d => wf_with cs d /\ id ∈ event_ids d) (wf_with cs) ->
  triple (wf_with cs)
    (let! id := ins in
     _ensure_outbox now id payload ;! _ensure_command_ack ack status detail ;! ret id)
    (fun id d => wf_with cs d /\ id ∈ event_ids d) (fun _ => True).
Proof.
  intros Hins. eapply triple_bind; [eapply triple_conseq; [exact Hins|done|done|done]|].
  intros id. cbn.
  apply (triple_bind _ _ _ (fun _ d => wf_with cs d /\ id ∈ event_ids d)).
  { eapply triple_conseq; [by apply (ensure_outbox_spec cs _ _ _ (fun d => id ∈ event_ids d))|done|done|done]. }
  intros _. apply (triple_bind _ _ _ (fun _ d => wf_with cs d /\ id ∈ event_ids d)).
  { eapply triple_conseq; [by apply (ensure_command_ack_spec cs _ _ _ (fun d => id ∈ event_ids d))|done|done|done]. }
  intros _. by apply triple_ret.
Qed.

Lemma finalize_update_wf cs p id f :
  (forall c, p c = true -> cl_id (f c) = cl_id c /\
             cl_idempotency_key (f c) = cl_idempotency_key c) ->
  (forall ids c, id ∈ ids -> claim_ok ids (f c)) ->
  triple (fun d => wf_with cs d /\ id ∈ event_ids d) (modify (update_claims p f))
    (fun _ d => db_wf d) (fun _ => True).
Proof.
  intros Hf Hok. apply triple_modify. intros d [[Hwf _] Hid].
  apply update_claims_wf; auto.
Qed.

Lemma finalize_row_ok ids id status detail keep c :
  id ∈ ids -> claim_ok ids (finalize_claim_row id status detail keep c).
Proof. intros Hid. unfold claim_ok. cbn. naive_solver. Qed.

Lemma recover_row_ok ids id reason c :
  id ∈ ids -> claim_ok ids (recover_claim_row id reason c).
Proof. intros Hid. unfold claim_ok. cbn. naive_solver. Qed.

(** A recorded outcome followed by an UPDATE of the claims. *)
Lemma record_then_update_wf cs now ins payload ack status detail p f (g : Z -> Z) :
  triple (wf_with cs) ins (fun id d => wf_with cs d /\ id ∈ event_ids d) (wf_with cs) ->
  (forall id c, p c = true -> cl_id (f id c) = cl_id c /\
                cl_idempotency_key (f id c) = cl_idempotency_key c) ->
  (forall id ids c, id ∈ ids -> claim_ok ids (f id c)) ->
  triple (wf_with cs)
    (let! id := ins in
     _ensure_outbox now id payload ;! _ensure_command_ack ack status detail ;!
     modify (update_claims p (f id)) ;! ret (g id))
    (fun _ => db_wf) (fun _ => True).
Proof.
  intros Hins Hf Hok d Hd.
  pose proof (record_outcome_spec cs now ins payload ack status detail Hins d Hd) as H.
  unfold bind, ret, modify in *.
  destruct (ins d) as [[id|e] d1]; [|done].
  destruct (_ensure_outbox now id payload d1) as [[?|e] d2]; [|done].
  destruct (_ensure_command_ack ack status detail d2) as [[?|e] d3]; [|done].
  apply (finalize_update_wf cs p id (f id) (Hf id) (Hok id) d3 H).
Qed.

Lemma finalize_actuation_wf now claim event ts td payload ack retain :
  preserves (finalize_actuation now claim event ts td payload ack retain).
Proof.
  unfold finalize_actuation. destruct (_ || _); [by apply triple_raise|].
  apply preserves_transaction. intros cs.
  apply (triple_bind _ _ _ (fun _ => wf_with cs)); [by apply triple_gets|].
  intros [c|]; [|by apply triple_raise]. destruct (bool_decide _); [|by apply triple_raise].
  apply (record_then_update_wf _ _ _ _ _ _ _ _
    (fun id => finalize_claim_row id _ _ _) (fun id => id)); [apply insert_event_spec|done|].
  intros id ids c'. apply finalize_row_ok.
Qed.

Lemma record_event_with_outbox_wf now event payload :
  preserves (record_event_with_outbox now event payload).
Proof.
  apply preserves_transaction. intros cs d Hd.
  pose proof (record_outcome_spec cs now _ payload None "" None
    (insert_or_find_event_spec cs event
       (fun e => if has_key e then ge_idempotency_key e else None)) d Hd) as H.
  unfold bind, ret in *. destruct (insert_or_find_event _ _ d) as [[id|e] d1]; [|done].
  destruct (_ensure_outbox now id payload d1) as [[?|e] d2]; [|done]. apply H.
Qed.

Lemma record_terminal_outcome_wf now event status detail payload ack :
  preserves (record_terminal_outcome now event status detail payload ack).
Proof.
  unfold record_terminal_outcome. destruct (has_key event) eqn:Hkey; cbn.
  2: { eapply triple_bind; [apply record_event_with_outbox_wf|]. intros id. by apply triple_ret. }
  apply preserves_transaction. intros cs.
  apply (triple_bind _ _ _ (fun c d => wf_with cs d /\ c = claim_of_key (default "" (ge_idempotency_key event)) d)).
  { by apply triple_gets. }
  intros [c|].
  - apply (triple_bind _ _ _ (fun _ d => wf_with cs d /\ True)).
    { destruct (cl_event_id c) as [id|]; [|by apply triple_ret; intros d []].
      eapply triple_bind; [|intros ?; apply triple_ret; intros d Hd; apply Hd].
      eapply triple_conseq; [by apply (ensure_outbox_spec cs _ _ _ (fun _ => True))| |done|done].
      by intros d [? _]. }
    intros _. apply (triple_bind _ _ _ (fun _ d => wf_with cs d /\ True)).
    { eapply triple_conseq; [by apply (ensure_command_ack_spec cs _ _ _ (fun _ => True))|done|done|done]. }
    intros _. apply triple_ret. by intros d [[? _] _].
  - intros d [Hd Hnone].
    pose proof (record_outcome_spec cs now _ payload ack status detail
      (insert_event_spec cs event) d Hd) as H.
    unfold bind, ret in *. destruct (_insert_event event d) as [[id|e] d1]; [|done].
    destruct (_ensure_outbox now id payload d1) as [[?|e] d2]; [|done].
    destruct (_ensure_command_ack ack status detail d2) as [[?|e] d3]; [|done].
    destruct H as [H3 Hid]. unfold insert_claim.
    match goal with |- db_wf (set_claims (_ ++ [?row]) _) => set (new := row) end.
    destruct (insert_claim_spec cs (fun i =>
      {| cl_id := i; cl_idempotency_key := default "" (ge_idempotency_key event);
         cl_claimed_at := cl_claimed_at new; cl_state := Finalized; cl_event_id := Some id;
         cl_terminal_status := Some status; cl_terminal_detail := detail;
         cl_activation_attempt_at := None; cl_activation_monotonic := None; cl_boot_id := None;
         cl_pending_event := None; cl_pending_outbox_payload := None;
         cl_pending_command_id := None; cl_pending_command_created_at := None |})
      (fun _ => True) ltac:(done) d3) as [? _]; [|done].
    split; [done|]. split; [done|]. cbn. split.
    + destruct Hd as [_ <-]. by apply (claim_of_key_None _ d).
    + intros i. split; [done|]. split; [done|]. unfold claim_ok. cbn. naive_solver.
Qed.

Lemma recover_one_wf now c : triple db_wf (recover_one now c) (fun _ => db_wf) (fun _ => True).
Proof.
  intros d Hd. unfold recover_one.
  destruct (decode_pending c) as [[[event payload] ack]|e]; [|done].
  apply (record_then_update_wf (db_claims d) now
    (insert_or_find_event (recovered_event event (recovery_reason c)) ge_idempotency_key)
    payload ack "failed" (Some (recovery_reason c))
    (fun c' => Z.eqb (cl_id c') (cl_id c) && bool_decide (cl_state c' = Claimed))
    (fun id => recover_claim_row id (recovery_reason c)) (fun _ => 1%Z));
    [apply insert_or_find_event_spec|done| |done].
  intros id ids c'. apply recover_row_ok.
Qed.

Lemma recover_rows_wf now rows :
  triple db_wf (recover_rows now rows) (fun _ => db_wf) (fun _ => True).
Proof.
  induction rows as [|c rows IH]; [by apply triple_ret|]. cbn.
  eapply triple_bind; [apply recover_one_wf|]. intros n.
  eapply triple_bind; [apply IH|]. intros m. by apply triple_ret.
Qed.

Lemma update_outbox_wf p s d : db_wf d -> db_wf (update_outbox p (set_send_state s) d).
Proof.
  intros Hd. unfold update_outbox. split; try (by apply Hd); cbn.
  - rewrite <- list_fmap_compose. erewrite list_fmap_ext; [exact (wf_outbox_ids d Hd)|].
    intros i o _. cbn. by destruct (p o).
  - rewrite <- list_fmap_compose. erewrite list_fmap_ext; [exact (wf_outbox_events d Hd)|].
    intros i o _. cbn. by destruct (p o).
Qed.

Lemma recover_interrupted_actuations_wf now : preserves (recover_interrupted_actuations now).
Proof.
  apply triple_transaction; [|done]. unfold _recover_interrupted_actuations.
  apply (triple_bind _ _ _ (fun _ => db_wf)); [by apply triple_gets|]. intros rows.
  eapply triple_bind; [apply recover_rows_wf|]. intros n.
  eapply triple_bind; [|intros ?; apply triple_ret; intros d Hd; apply Hd].
  apply triple_modify. intros d Hd. by apply update_outbox_wf.
Qed.

Lemma ensure_outbox_wf now id payload : preserves (ensure_outbox now id payload).
Proof.
  apply preserves_transaction. intros cs.
  eapply triple_conseq; [by apply (ensure_outbox_spec cs now id (Some payload) (fun _ => True))| | |done].
  - done.
  - by intros ? d [[? _] _].
Qed.

Lemma queue_command_ack_wf id status detail at_ : preserves (queue_command_ack id status detail at_).
Proof.
  apply preserves_transaction. intros cs.
  eapply triple_conseq; [by apply (ensure_command_ack_spec cs (Some (id, at_)) status detail (fun _ => True))| | |done].
  - done.
  - by intros ? d [[? _] _].
Qed.

Lemma complete_command_ack_wf id : preserves (complete_command_ack id).
Proof.
  apply triple_modify. intros d Hd. split; try (by apply Hd); cbn.
  eapply sublist_NoDup; [apply (wf_ack_ids d Hd)|]. apply fmap_sublist, sublist_filter.
Qed.

(** ** Method calls as data *)

Inductive store_call :=
| CallClaim (key : string) (at_ : datetime) (cutoff : option datetime) (mono : option Z)
    (boot : option string) (event : option GateEvent) (payload : option (dict json))
    (ack : option (string * datetime))
| CallMark (claim : ActuationClaim) (at_ : datetime) (event : GateEvent)
    (payload : option (dict json)) (ack : option (string * datetime))
    (mono : option Z) (boot : option string)
| CallFinalize (claim : ActuationClaim) (event : GateEvent) (status detail : option string)
    (payload : option (dict json)) (ack : option (string * datetime)) (retain : bool)
| CallTerminal (event : GateEvent) (status : string) (detail : option string)
    (payload : option (dict json)) (ack : option (string * datetime))
| CallRecord (event : GateEvent) (payload : option (dict json))
| CallRecover
| CallEnsureOutbox (event_id : Z) (payload : dict json)
| CallRelease (event_id : Z)
| CallQueueAck (id status : string) (detail : option string) (at_ : datetime)
| CallCompleteAck (id : string).

(** The effect of a call on the tables and the claim it returns, if any. *)
Definition run_call (now : Z) (c : store_call) (d : database) : option ActuationClaim * database :=
  match c with
  | CallClaim key at_ cutoff mono boot event payload ack =>
      match claim_actuation key at_ cutoff mono boot event payload ack d with
      | (Ok a, d') => (Some a, d') | (Err _, d') => (None, d') end
  | CallMark claim at_ event payload ack mono boot =>
      (None, snd (mark_actuation_attempt claim at_ event payload ack mono boot d))
  | CallFinalize claim event status detail payload ack retain =>
      (None, snd (finalize_actuation now claim event status detail payload ack retain d))
  | CallTerminal event status detail payload ack =>
      (None, snd (record_terminal_outcome now event status detail payload ack d))
  | CallRecord event payload => (None, snd (record_event_with_outbox now event payload d))
  | CallRecover => (None, snd (recover_interrupted_actuations now d))
  | CallEnsureOutbox id payload => (None, snd (ensure_outbox now id payload d))
  | CallRelease id => (None, snd (release_outbox_without_telemetry id d))
  | CallQueueAck id status detail at_ => (None, snd (queue_command_ack id status detail at_ d))
  | CallCompleteAck id => (None, snd (complete_command_ack id d))
  end.

Fixpoint run_calls (calls : list (Z * store_call)) (d : database) : database :=
  match calls with
  | [] => d
  | (now, c) :: calls' => run_calls calls' (snd (run_call now c d))
  end.

Lemma preserves_snd {A} (m : M database A) d : preserves m -> db_wf d -> db_wf (snd (m d)).
Proof. intros Hm Hd. specialize (Hm d Hd). by destruct (m d) as [[?|?] ?]. Qed.

Lemma run_call_wf now c d : db_wf d -> db_wf (snd (run_call now c d)).
Proof.
  intros Hd. destruct c; cbn [run_call snd].
  - pose proof (claim_actuation_wf key at_ cutoff mono boot event payload ack d Hd) as H.
    by destruct (claim_actuation _ _ _ _ _ _ _ _ d) as [[?|?] ?].
  - by apply preserves_snd; [apply mark_actuation_attempt_wf|].
  - by apply preserves_snd; [apply finalize_actuation_wf|].
  - by apply preserves_snd; [apply record_terminal_outcome_wf|].
  - by apply preserves_snd; [apply record_event_with_outbox_wf|].
  - by apply preserves_snd; [apply recover_interrupted_actuations_wf|].
  - by apply preserves_snd; [apply ensure_outbox_wf|].
  - by apply update_outbox_wf.
  - by apply preserves_snd; [apply queue_command_ack_wf|].
  - by apply preserves_snd; [apply complete_command_ack_wf|].
Qed.

Lemma run_calls_wf calls d : db_wf d -> db_wf (run_calls calls d).
Proof.
  revert d. induction calls as [|[now c] calls IH]; intros d Hd; [done|]. cbn. by apply IH, run_call_wf.
Qed.


(** ** The set of claimed keys only grows *)

Lemma keeps_transaction {A} I (m : M database A) : keeps I m -> keeps I (transaction m).
Proof.
  intros Hm. apply triple_transaction; [|done].
  eapply triple_conseq; [exact Hm|done|done|done].
Qed.

(** A predicate of the claims table that survives what the methods do to it. *)
Record claims_closed (P : claim_row -> Prop) (I : list claim_row -> Prop) : Prop := {
  cc_app : forall l c, P c -> I l -> I (l ++ [c]);
  cc_map : forall l (f : claim_row -> claim_row),
    (forall c, cl_id (f c) = cl_id c /\ cl_idempotency_key (f c) = cl_idempotency_key c /\
               (P c -> P (f c))) ->
    I l -> I (f <$> l);
}.

Section ClaimsClosed.
Context (P : claim_row -> Prop) (I : list claim_row -> Prop) (HI : claims_closed P I).
Context (Hclear : forall id at_ cl st s dt a m b k,
  P {| cl_id := id; cl_idempotency_key := k; cl_claimed_at := at_; cl_state := cl;
       cl_event_id := st; cl_terminal_status := s; cl_terminal_detail := dt;
       cl_activation_attempt_at := a; cl_activation_monotonic := m; cl_boot_id := b;
       cl_pending_event := None; cl_pending_outbox_payload := None;
       cl_pending_command_id := None; cl_pending_command_created_at := None |}).
Context (Hpending : forall id at_ cl st s dt a m b k event payload ci cc,
  P {| cl_id := id; cl_idempotency_key := k; cl_claimed_at := at_; cl_state := cl;
       cl_event_id := st; cl_terminal_status := s; cl_terminal_detail := dt;
       cl_activation_attempt_at := a; cl_activation_monotonic := m; cl_boot_id := b;
       cl_pending_event := _encode_pending_event <$> event;
       cl_pending_outbox_payload := _encode_optional_json payload;
       cl_pending_command_id := ci; cl_pending_command_created_at := cc |}).

Definition on_claims (d : database) : Prop := I (db_claims d).

Lemma insert_event_on_claims event : keeps on_claims (_insert_event event).
Proof. intros d Hd. unfold _insert_event. by destruct (duplicate_key event d). Qed.

Lemma ensure_outbox_on_claims now id payload : keeps on_claims (_ensure_outbox now id payload).
Proof. intros d Hd. unfold _ensure_outbox. destruct payload; [|done]. by destruct (outbox_of_event id d). Qed.

Lemma ensure_command_ack_on_claims ack status detail :
  keeps on_claims (_ensure_command_ack ack status detail).
Proof.
  intros d Hd. unfold _ensure_command_ack. destruct ack as [[? ?]|]; [|done].
  by destruct (existsb _ _).
Qed.

Lemma insert_claim_on_claims row : (forall id, P (row id)) -> keeps on_claims (insert_claim row).
Proof. intros HP d Hd. by apply (cc_app _ _ HI). Qed.

Lemma update_claims_on_claims p f :
  (forall c, cl_id (f c) = cl_id c /\ cl_idempotency_key (f c) = cl_idempotency_key c /\ P (f c)) ->
  keeps on_claims (modify (update_claims p f)).
Proof.
  intros Hf. apply keeps_modify. intros d Hd. apply (cc_map _ _ HI); [|done].
  intros c. destruct (p c); [|done]. destruct (Hf c) as (? & ? & ?). done.
Qed.

Lemma insert_or_find_on_claims event find : keeps on_claims (insert_or_find_event event find).
Proof. apply keeps_try; [apply insert_event_on_claims|]. keeps_tac. Qed.

Hint Resolve insert_event_on_claims ensure_outbox_on_claims ensure_command_ack_on_claims
  insert_claim_on_claims insert_or_find_on_claims : gate.

Lemma record_event_on_claims now event payload :
  keeps on_claims (record_event_with_outbox now event payload).
Proof. apply keeps_transaction. keeps_tac. Qed.

Lemma recover_one_on_claims now c : keeps on_claims (recover_one now c).
Proof.
  unfold recover_one. destruct (decode_pending c) as [[[event payload] ack]|]; [|apply keeps_ret].
  cbv zeta. keeps_tac. apply update_claims_on_claims. intros c'. split; [done|]. split; [done|].
  apply Hclear.
Qed.

Lemma recover_rows_on_claims now rows : keeps on_claims (recover_rows now rows).
Proof. induction rows; cbn; keeps_tac. apply recover_one_on_claims. Qed.

Lemma run_call_on_claims now c d : on_claims d -> on_claims (snd (run_call now c d)).
Proof.
  intros Hd. destruct c; cbn [run_call snd].
  - assert (H : keeps on_claims (claim_actuation key at_ cutoff mono boot event payload ack)).
    { apply keeps_transaction. keeps_tac. }
    specialize (H d Hd). by destruct (claim_actuation _ _ _ _ _ _ _ _ d) as [[?|?] ?].
  - apply keeps_snd; [|done]. unfold mark_actuation_attempt.
    destruct (ac_claim_id claim); [|apply keeps_raise].
    destruct (String.eqb _ _); [|apply keeps_raise]. apply keeps_transaction. cbv zeta. keeps_tac.
    apply update_claims_on_claims. intros c. split; [done|]. split; [done|].
    apply (Hpending _ _ _ _ _ _ _ _ _ _ (Some event)).
  - apply keeps_snd; [|done]. unfold finalize_actuation.
    destruct (_ || _); [apply keeps_raise|]. apply keeps_transaction. keeps_tac.
    apply update_claims_on_claims. intros c'. split; [done|]. split; [done|]. apply Hclear.
  - apply keeps_snd; [|done]. unfold record_terminal_outcome. destruct (negb _).
    { apply keeps_bind; [apply record_event_on_claims|]. intros. apply keeps_ret. }
    apply keeps_transaction. keeps_tac.
  - apply keeps_snd; [|done]. apply record_event_on_claims.
  - apply keeps_snd; [|done]. apply keeps_transaction. unfold _recover_interrupted_actuations.
    keeps_tac; [apply recover_rows_on_claims|]. by apply keeps_modify.
  - apply keeps_snd; [|done]. apply keeps_transaction, ensure_outbox_on_claims.
  - done.
  - apply keeps_snd; [|done]. apply keeps_transaction, ensure_command_ack_on_claims.
  - done.
Qed.

Lemma run_calls_on_claims calls d : on_claims d -> on_claims (run_calls calls d).
Proof.
  revert d. induction calls as [|[now c] calls IH]; intros d Hd; [done|].
  by apply IH, run_call_on_claims.
Qed.
End ClaimsClosed.

Lemma has_key_closed key :
  claims_closed (fun _ => True) (fun l => key ∈ (cl_idempotency_key <$> l)).
Proof.
  split.
  - intros l c _ H. rewrite fmap_app. apply elem_of_app. by left.
  - intros l f Hf H. rewrite <- list_fmap_compose. erewrite list_fmap_ext; [exact H|].
    intros i c _. cbn. apply Hf.
Qed.

(** a key that was claimed once is never claimed again: whatever calls
    happen in between (recovery included), a later claim of the same key
    answers that the claim is indeterminate or finalized and changes nothing. *)
Theorem claim_at_most_once key at1 cut1 m1 b1 e1 p1 a1 at2 cut2 m2 b2 e2 p2 a2
    (d d1 : database) (c1 : ActuationClaim) (calls : list (Z * store_call))
    (Hclaim : claim_actuation key at1 cut1 m1 b1 e1 p1 a1 d = (Ok c1, d1))
    (Hstatus : ac_status c1 = "claimed") :
  exists c2,
    claim_actuation key at2 cut2 m2 b2 e2 p2 a2 (run_calls calls d1) =
      (Ok c2, run_calls calls d1) /\
    (ac_status c2 = "indeterminate_claim" \/ ac_status c2 = "duplicate_event").
Proof.
  assert (Hin : key ∈ claim_keys (run_calls calls d1)).
  { apply (run_calls_on_claims _ _ (has_key_closed key)); [done|done|].
    revert Hclaim. unfold claim_actuation, transaction, bind, gets.
    destruct (claim_of_key key d) as [c|] eqn:E; cbn.
    { intros [= <- <-]. destruct (cl_state c); discriminate. }
    destruct (match cut1 with Some _ => _ | None => _ end); cbn.
    { intros [= <- <-]. discriminate. }
    intros [= <- <-]. unfold on_claims. cbn. rewrite fmap_app. apply elem_of_app. right. left. }
  apply claim_of_key_is_Some in Hin as [c Hc].
  unfold claim_actuation, transaction, bind, gets. rewrite Hc. cbn.
  eexists. split; [reflexivity|]. cbn. destruct (cl_state c); auto.
Qed.

Definition sample_event (key : string) : GateEvent :=
  {| ge_source := "camera"; ge_reason := "exact_match"; ge_opened := false;
     ge_idempotency_key := Some key; ge_received_at := Aware 5; ge_decision_at := Some (Aware 6);
     ge_relay_activated_at := None; ge_authorised_plate := Some "AB12CDE";
     ge_observed_plate := Some "AB12CDE"; ge_ocr_confidence := float_1 |}.

Definition sample_claimed : result ActuationClaim * database :=
  claim_actuation "k" (Aware 10) (Some (Aware 0)) (Some 0%Z) (Some "boot")
    (Some (sample_event "k")) None None empty_database.

Lemma claim_at_most_once_witness :
  exists c2, claim_actuation "k" (Aware 99) None None None None None None
               (run_calls [(50%Z, CallRecover)] (snd sample_claimed)) =
             (Ok c2, run_calls [(50%Z, CallRecover)] (snd sample_claimed)) /\
             (ac_status c2 = "indeterminate_claim" \/ ac_status c2 = "duplicate_event").
Proof.
  eapply (claim_at_most_once "k" (Aware 10) (Some (Aware 0)) (Some 0%Z) (Some "boot")
    (Some (sample_event "k")) None None _ _ _ _ _ _ _ empty_database (snd sample_claimed)).
  - reflexivity.
  - reflexivity.
Defined.

(** ** The cooldown a claim respects *)

Lemma existsb_false {A} (p : A -> bool) (l : list A) x : existsb p l = false -> x ∈ l -> p x = false.
Proof.
  intros H Hx. destruct (p x) eqn:E; [|done].
  enough (existsb p l = true) by congruence. apply existsb_exists. exists x.
  by rewrite <- list_elem_of_In.
Qed.

Lemma ge_opt_false column bound v : ge_opt column bound = false -> column = Some v -> (v < bound)%Z.
Proof. intros H ->. cbn in H. lia. Qed.

(** What a new claim says of the tables it was made in. *)
Lemma claim_claimed_inv key at_ cutoff mono boot event payload ack d c d' :
  claim_actuation key at_ cutoff mono boot event payload ack d = (Ok c, d') ->
  ac_status c = "claimed" ->
  key ∉ claim_keys d /\ ac_idempotency_key c = key /\
  match cutoff with Some t => _was_opened_since t mono boot d = false | None => True end /\
  exists row, db_claims d' = db_claims d ++ [row] /\ cl_idempotency_key row = key /\
    cl_state row = Claimed /\ ac_claim_id c = Some (cl_id row) /\ cl_id row ∉ claim_ids d /\
    cl_activation_attempt_at row = None /\ db_events d' = db_events d.
Proof.
  unfold claim_actuation, transaction, bind, gets.
  destruct (claim_of_key key d) as [r|] eqn:E; cbn.
  { intros [= <- <-]. destruct (cl_state r); discriminate. }
  destruct (match cutoff with Some _ => _ | None => _ end) eqn:Hrecent; cbn.
  { intros [= <- <-]. discriminate. }
  intros [= <- <-] _. split; [by apply claim_of_key_None|]. split; [done|].
  split; [by destruct cutoff|]. eexists. split; [reflexivity|]. cbn.
  repeat split; try done. apply next_rowid_not_in.
Qed.

(** a claim is granted only when the gate has not moved within the cooldown:
    no recorded event was activated at or after the cutoff, no claim made an
    attempt at or after it, no attempt of this boot has a monotonic reading at or
    after the monotonic cutoff, and an attempt of an earlier boot is the latest
    one only when this boot is itself older than the cooldown. *)
Theorem claim_respects_cooldown key at_ cutoff mono boot event payload ack
    (d d' : database) (c : ActuationClaim)
    (Hclaim : claim_actuation key at_ (Some cutoff) (Some mono) (Some boot) event payload ack d
              = (Ok c, d'))
    (Hstatus : ac_status c = "claimed") :
  (forall e, e ∈ db_events d ->
     (forall t, ev_relay_activated_at e = Some t -> (t < _timestamp cutoff)%Z) /\
     (ev_opened e = true -> ev_relay_activated_at e = None ->
      (ev_received_at e < _timestamp cutoff)%Z)) /\
  (forall r, r ∈ db_claims d ->
     (forall t, cl_activation_attempt_at r = Some t -> (t < _timestamp cutoff)%Z) /\
     (forall m, cl_boot_id r = Some boot -> cl_activation_monotonic r = Some m -> (m < mono)%Z)) /\
  (forall t b, latest_boot_attempt (db_claims d) = Some (t, b) -> b <> boot -> (0 <= mono)%Z).
Proof.
  destruct (claim_claimed_inv _ _ _ _ _ _ _ _ _ _ _ Hclaim Hstatus) as (_ & _ & Hrecent & _).
  unfold _was_opened_since, monotonic_recent in Hrecent.
  apply orb_false_iff in Hrecent as [Hrecent Hclaims].
  apply orb_false_iff in Hrecent as [Hmono Hevents].
  apply orb_false_iff in Hmono as [Hsame Hother].
  split; [|split].
  - intros e He. pose proof (existsb_false _ _ _ Hevents He) as H.
    unfold event_opened_since in H. apply orb_false_iff in H as [H1 H2].
    split; [intros t Ht; by eapply ge_opt_false|]. intros Ho Hn.
    rewrite Ho, bool_decide_eq_true_2 in H2 by done. cbn in H2. lia.
  - intros r Hr. split.
    + intros t Ht. eapply ge_opt_false; [|done]. by apply (existsb_false _ _ _ Hclaims Hr).
    + intros m Hb Hm. pose proof (existsb_false _ _ _ Hsame Hr) as H. cbn in H.
      rewrite bool_decide_eq_true_2 in H by done. by eapply ge_opt_false.
  - intros t b Hl Hne. rewrite Hl in Hother. apply String.eqb_neq in Hne. rewrite Hne in Hother.
    cbn in Hother. lia.
Qed.

Lemma claim_respects_cooldown_witness :
  Forall (fun r => (forall t, cl_activation_attempt_at r = Some t -> (t < 0)%Z) /\
    (forall m, cl_boot_id r = Some "boot" -> cl_activation_monotonic r = Some m -> (m < 0)%Z))
    (db_claims (snd sample_claimed)).
Proof.
  apply list.Forall_forall.
  refine (proj1 (proj2 (claim_respects_cooldown "k2" (Aware 10) (Aware 0) 0 "boot" None None None
    (snd sample_claimed) _ _ _ _))).
  - reflexivity.
  - reflexivity.
Defined.

(** ** Pending events survive their JSON text *)

(** What the recovery needs of an event: it has not opened the gate. *)
Definition pending_of (event : GateEvent) : GateEvent :=
  {| ge_source := ge_source event; ge_reason := ge_reason event; ge_opened := false;
     ge_idempotency_key := ge_idempotency_key event;
     ge_received_at := Aware (_as_utc (ge_received_at event));
     ge_decision_at := (fun t => Aware (_as_utc t)) <$> ge_decision_at event;
     ge_relay_activated_at := None; ge_authorised_plate := ge_authorised_plate event;
     ge_observed_plate := ge_observed_plate event; ge_ocr_confidence := ge_ocr_confidence event |}.

Lemma pending_event_decodes (event : GateEvent) :
  _decode_pending_event (_encode_pending_event event) = Ok (pending_of event).
Proof.
  destruct event as [source reason opened key received decision relay auth obs conf].
  by destruct decision, key, auth, obs.
Qed.

(** decoding an encoded pending event gives the event back, with its times as
    UTC instants, never opened and without a relay time; what was decoded is
    encoded as it was, so recovering twice loses nothing more. *)
Theorem pending_event_roundtrip (event : GateEvent) :
  _decode_pending_event (_encode_pending_event event) = Ok (pending_of event) /\
  _encode_pending_event (pending_of event) = _encode_pending_event event.
Proof.
  split; [apply pending_event_decodes|].
  destruct event as [source reason opened key received decision relay auth obs conf]. by destruct decision.
Qed.

(** ** Recovery *)

(** The pending columns hold what the store encoded. *)
Definition pending_ok (c : claim_row) : Prop :=
  (exists event, cl_pending_event c = _encode_pending_event <$> event) /\
  exists payload, cl_pending_outbox_payload c = _encode_optional_json payload.

Lemma pending_closed : claims_closed pending_ok (Forall pending_ok).
Proof.
  split.
  - intros l c Hc Hl. apply list.Forall_app. split; [done|]. by apply Forall_singleton.
  - intros l f Hf Hl. apply Forall_fmap. eapply Forall_impl; [|exact Hl]. intros c. apply Hf.
Qed.

Lemma run_calls_pending calls d :
  Forall pending_ok (db_claims d) -> Forall pending_ok (db_claims (run_calls calls d)).
Proof.
  apply (run_calls_on_claims _ _ pending_closed).
  - intros. split; [by exists None|by exists None].
  - intros. split; eexists; reflexivity.
Qed.

Lemma decode_pending_ok c :
  pending_ok c -> interrupted c = true ->
  exists event payload ack, decode_pending c = Ok (event, payload, ack) /\
    ge_opened event = false.
Proof.
  intros [[event He] [payload Hp]] Hi. unfold interrupted in Hi. bool_props.
  unfold decode_pending. rewrite He, Hp.
  destruct event as [event|]; cbn in He; [|rewrite He in *; by destruct H0]. cbn -[_decode_pending_event].
  rewrite pending_event_decodes. cbn. destruct payload as [p|]; cbn; eauto 8.
Qed.

Lemma insert_or_find_total event d :
  exists id d', insert_or_find_event event ge_idempotency_key d = (Ok id, d') /\
    db_claims d' = db_claims d /\
    exists new, db_events d' = db_events d ++ new /\ Forall (fun e => ev_opened e = ge_opened event) new.
Proof.
  unfold insert_or_find_event, try_except, _insert_event.
  destruct (duplicate_key event d) eqn:Hdup; cbn.
  - unfold bind, gets, duplicate_key in *. destruct (ge_idempotency_key event) as [k|]; [|done].
    bool_props. destruct Hdup as [r Hr]. rewrite Hr. cbn. do 2 eexists. split; [reflexivity|].
    split; [done|]. exists []. by rewrite app_nil_r.
  - do 2 eexists. split; [reflexivity|]. split; [done|]. eexists. split; [reflexivity|].
    by repeat constructor.
Qed.

Lemma ensure_outbox_total now id payload d :
  exists r d', _ensure_outbox now id payload d = (Ok r, d') /\
    db_claims d' = db_claims d /\ db_events d' = db_events d.
Proof.
  unfold _ensure_outbox. destruct payload; [destruct (outbox_of_event id d)|]; eauto 8.
Qed.

Lemma ensure_command_ack_total ack status detail d :
  exists d', _ensure_command_ack ack status detail d = (Ok tt, d') /\
    db_claims d' = db_claims d /\ db_events d' = db_events d.
Proof.
  unfold _ensure_command_ack. destruct ack as [[? ?]|]; [destruct (existsb _ _)|]; eauto 8.
Qed.

(** The row of an interrupted claim after recovery. *)
Definition recovered (f : Z -> Z) (c : claim_row) : claim_row :=
  recover_claim_row (f (cl_id c)) (recovery_reason c) c.

Definition selected (ids : list Z) (c : claim_row) : bool :=
  bool_decide (cl_id c ∈ ids) && bool_decide (cl_state c = Claimed).

Lemma recover_one_spec now c d :
  c ∈ db_claims d -> NoDup (claim_ids d) -> pending_ok c -> interrupted c = true ->
  exists d' f, recover_one now c d = (Ok 1%Z, d') /\
    db_claims d' = (fun c' => if selected [cl_id c] c' then recovered f c' else c') <$> db_claims d /\
    exists new, db_events d' = db_events d ++ new /\ Forall (fun e => ev_opened e = false) new.
Proof.
  intros Hc Hnd Hok Hi. destruct (decode_pending_ok c Hok Hi) as (event & payload & ack & Hdec & _).
  unfold recover_one. rewrite Hdec. cbv zeta. unfold bind.
  destruct (insert_or_find_total (recovered_event event (recovery_reason c)) d)
    as (id & d1 & -> & Hc1 & new & He1 & Hnew).
  destruct (ensure_outbox_total now id payload d1) as (r & d2 & -> & Hc2 & He2).
  destruct (ensure_command_ack_total ack "failed" (Some (recovery_reason c)) d2) as (d3 & -> & Hc3 & He3).
  unfold modify, ret. do 2 eexists. split; [reflexivity|]. split.
  - unfold update_claims. cbn. rewrite Hc3, Hc2, Hc1. apply list_fmap_ext. intros i c' Hi'.
    instantiate (1 := fun _ => id). unfold selected, recovered.
    destruct (Z.eqb_spec (cl_id c') (cl_id c)) as [E|E].
    + rewrite (bool_decide_eq_true_2 (_ ∈ _)) by (rewrite E; left). cbn.
      assert (c' = c) as ->; [|done].
      pose proof (claim_of_id_Some d c Hnd Hc) as H1.
      rewrite <- E, (claim_of_id_Some d c' Hnd) in H1 by (apply list_elem_of_lookup; eauto). congruence.
    + rewrite (bool_decide_eq_false_2 (_ ∈ _)); [done|]. by rewrite list_elem_of_singleton.
  - exists new. cbn. by rewrite He3, He2, He1.
Qed.

Lemma selected_cons id ids c f g h :
  (forall i, h i = if decide (i = id) then f i else g i) -> id ∉ ids ->
  (let c1 := if selected [id] c then recovered f c else c in
   if selected ids c1 then recovered g c1 else c1)
  = if selected (id :: ids) c then recovered h c else c.
Proof.
  intros Hh Hnin. cbv zeta. unfold selected.
  destruct (decide (cl_state c = Claimed)) as [Hs|Hs].
  2: { rewrite !(bool_decide_eq_false_2 (cl_state c = Claimed)) by done. rewrite !andb_false_r.
       rewrite (bool_decide_eq_false_2 (cl_state c = Claimed)) by done. by rewrite andb_false_r. }
  rewrite !(bool_decide_eq_true_2 (cl_state c = Claimed)) by done. rewrite !andb_true_r.
  destruct (decide (cl_id c = id)) as [E|E].
  - rewrite (bool_decide_eq_true_2 (cl_id c ∈ [id])) by (rewrite E; left).
    rewrite (bool_decide_eq_true_2 (cl_id c ∈ id :: ids)) by (rewrite E; left).
    cbn. rewrite andb_false_r. unfold recovered. by rewrite Hh, decide_True.
  - rewrite (bool_decide_eq_false_2 (cl_id c ∈ [id])) by (by rewrite list_elem_of_singleton).
    rewrite (bool_decide_eq_true_2 (cl_state c = Claimed)) by done. rewrite andb_true_r.
    unfold recovered. rewrite Hh, decide_False by done.
    destruct (decide (cl_id c ∈ ids)).
    + by rewrite !bool_decide_eq_true_2 by (try right; done).
    + by rewrite !bool_decide_eq_false_2 by (rewrite ?not_elem_of_cons; done).
Qed.

Lemma recover_rows_spec now rows d :
  rows ⊆ db_claims d -> NoDup (cl_id <$> rows) -> NoDup (claim_ids d) ->
  Forall (fun c => pending_ok c /\ interrupted c = true) rows ->
  exists d' f, recover_rows now rows d = (Ok (Z.of_nat (length rows)), d') /\
    db_claims d' = (fun c => if selected (cl_id <$> rows) c then recovered f c else c) <$> db_claims d /\
    exists new, db_events d' = db_events d ++ new /\ Forall (fun e => ev_opened e = false) new.
Proof.
  revert d. induction rows as [|c rows IH]; intros d Hsub Hnd Hids Hall.
  { exists d, (fun _ => 0%Z). split; [done|]. split; [|exists []; by rewrite app_nil_r].
    rewrite <- (list_fmap_id (db_claims d)) at 1. apply list_fmap_ext. intros i c _. unfold selected.
    by rewrite (bool_decide_eq_false_2 (_ ∈ _)) by (by intros ?%elem_of_nil). }
  apply list.Forall_cons in Hall as [[Hok Hi] Hall]. cbn in Hnd. apply list.NoDup_cons in Hnd as [Hnin Hnd].
  destruct (recover_one_spec now c d) as (d1 & f & E1 & Hc1 & new1 & He1 & Hn1);
    [apply Hsub; left|done|done|done|].
  destruct (IH d1) as (d2 & g & E2 & Hc2 & new2 & He2 & Hn2); [|done| |done|].
  - intros x Hx. rewrite Hc1. apply list_elem_of_fmap. exists x. split; [|apply Hsub; by right].
    unfold selected. rewrite (bool_decide_eq_false_2 (_ ∈ _)); [done|].
    rewrite list_elem_of_singleton. intros Heq. apply Hnin. rewrite <- Heq. by apply list_elem_of_fmap_2.
  - unfold claim_ids. rewrite Hc1, <- list_fmap_compose. erewrite list_fmap_ext; [exact Hids|].
    intros i x _. cbn. by destruct (selected _ _).
  - exists d2, (fun i => if decide (i = cl_id c) then f i else g i). split.
    { cbn. unfold bind. rewrite E1, E2. unfold ret. do 2 f_equal. cbn. lia. }
    split.
    + rewrite Hc2, Hc1, <- list_fmap_compose. apply list_fmap_ext. intros i x _. cbn.
      by apply selected_cons.
    + exists (new1 ++ new2). rewrite He2, He1, app_assoc. split; [done|]. by apply list.Forall_app.
Qed.

Lemma selected_interrupted d c :
  NoDup (claim_ids d) -> c ∈ db_claims d ->
  interrupted c = selected (cl_id <$> filter (fun c => interrupted c = true) (db_claims d)) c.
Proof.
  intros Hnd Hc. unfold selected. destruct (interrupted c) eqn:E.
  - rewrite !bool_decide_eq_true_2; [done| |].
    + unfold interrupted in E. by bool_props.
    + apply list_elem_of_fmap_2. by apply list_elem_of_filter.
  - rewrite (bool_decide_eq_false_2 (_ ∈ _)); [done|].
    intros (x & Hid & [Hx Hin]%list_elem_of_filter)%list_elem_of_fmap.
    pose proof (claim_of_id_Some d c Hnd Hc) as H1.
    rewrite Hid, (claim_of_id_Some d x Hnd Hin) in H1. congruence.
Qed.

Lemma update_outbox_same p f d : Forall (fun o => p o = false) (db_outbox d) -> update_outbox p f d = d.
Proof.
  intros H. unfold update_outbox, set_outbox. destruct d as [e c o a t]. cbn in *. f_equal.
  rewrite <- (list_fmap_id o) at 2. apply list_fmap_ext. intros i x Hx. cbn.
  rewrite list.Forall_forall in H. by rewrite H by (apply list_elem_of_lookup; eauto).
Qed.

(** The recovery runs to its end and does exactly this. *)
Lemma recovery_spec now d :
  NoDup (claim_ids d) -> Forall pending_ok (db_claims d) ->
  exists d' f,
    recover_interrupted_actuations now d =
      (Ok (Z.of_nat (length (filter (fun c => interrupted c = true) (db_claims d)))), d') /\
    db_claims d' = (fun c => if interrupted c then recovered f c else c) <$> db_claims d /\
    (exists new, db_events d' = db_events d ++ new /\ Forall (fun e => ev_opened e = false) new) /\
    Forall (fun o => awaiting_row o = false) (db_outbox d').
Proof.
  intros Hnd Hok. set (rows := filter (fun c => interrupted c = true) (db_claims d)).
  destruct (recover_rows_spec now rows d) as (d1 & f & E1 & Hc1 & Hev).
  - intros x [_ Hx]%list_elem_of_filter. done.
  - eapply sublist_NoDup; [exact Hnd|]. apply fmap_sublist, sublist_filter.
  - done.
  - apply list.Forall_forall. intros x [Hi Hx]%list_elem_of_filter.
    rewrite list.Forall_forall in Hok. auto.
  - eexists. exists f. unfold recover_interrupted_actuations, transaction, _recover_interrupted_actuations.
    unfold bind, gets. fold rows. rewrite E1. cbn. split; [reflexivity|]. split; [|split].
    + cbn. rewrite Hc1. apply list_fmap_ext. intros i x Hx. unfold rows.
      rewrite (selected_interrupted d x Hnd); [done|]. apply list_elem_of_lookup. eauto.
    + exact Hev.
    + cbn. apply Forall_fmap, list.Forall_forall. intros o _. cbn.
      destruct (awaiting_row o) eqn:E; [|done]. unfold awaiting_row. cbn. by rewrite andb_false_r.
Qed.

(** The row recovery leaves for an interrupted claim. *)
Record closed_as_failed (c c' : claim_row) : Prop := {
  cf_same : cl_id c' = cl_id c /\ cl_idempotency_key c' = cl_idempotency_key c /\
    cl_claimed_at c' = cl_claimed_at c;
  cf_closed : cl_state c' = Finalized /\ is_Some (cl_event_id c') /\
    cl_terminal_status c' = Some "failed" /\ cl_pending_event c' = None;
  cf_reason : cl_terminal_detail c' =
    Some (if bool_decide (is_Some (cl_activation_attempt_at c)) then "indeterminate_claim"
          else "interrupted_before_activation");
  cf_attempt : cl_activation_attempt_at c' = cl_activation_attempt_at c /\
    cl_activation_monotonic c' = cl_activation_monotonic c /\ cl_boot_id c' = cl_boot_id c;
}.

Lemma recovered_closed f c : closed_as_failed c (recovered f c).
Proof.
  split; cbn; try done.
  unfold recovery_reason. by destruct (cl_activation_attempt_at c).
Qed.

