(* ===== verification/Relay.v ===== *)
(** * The relay controller: gate_controller/relay.py, relay_safe.py, PiRelay.py

    [RelayController.trigger], [begin_shutdown] and the bounded switch-off, over
    a GPIO pin whose calls may fail.

    The relay lives inside a larger world [T] (the coordinator's): the caller's
    inhibition callback and the wall clock act on that world, the controller's
    own steps on its [relay_state] component.  [begin_shutdown] may run from
    another thread: it only takes the activation boundary, so it can act at the
    points of [trigger] where the boundary is not held.  These points are
    explicit ([yield_point]); the plan in the state says at which of them a
    shutdown happens. *)

From S2P Require Import Prelude Models.

(** ** State *)

(** What a hardware call does: it works, or it raises [e] after possibly having
    driven the pin. *)
Inductive hw_outcome :=
| HwOk
| HwRaises (drove : bool) (e : exc).

(** What happened at the pin and to the callbacks, oldest first. *)
Inductive relay_event :=
| PinHigh
| PinLow
| Activated (key : option string)
| Deactivated (key : option string)
| ShutdownBegun.

Record relay_state := {
  rl_latched : bool;
  rl_shutdown_requested : bool;
  (** [_active_deactivation_callback]: of the trigger with this key. *)
  rl_active_callback : option (option string);
  (** A deactivation report waiting for its activation report. *)
  rl_waiting : option (option string);
  rl_last_outcome : string;
  rl_last_outcome_at : datetime;
  rl_pin : bool;
  rl_log : list relay_event;
  (** Behaviour of the environment, consumed from the front. *)
  rl_on_plan : list hw_outcome;
  rl_off_plan : list hw_outcome;
  rl_sleep_plan : list (option exc);
  rl_shutdown_plan : list bool;
}.

#[global] Instance relay_event_eq_dec : EqDecision relay_event.
Proof. solve_decision. Defined.

Definition set_latched (b : bool) (s : relay_state) : relay_state :=
  {| rl_latched := b; rl_shutdown_requested := rl_shutdown_requested s;
     rl_active_callback := rl_active_callback s; rl_waiting := rl_waiting s;
     rl_last_outcome := rl_last_outcome s; rl_last_outcome_at := rl_last_outcome_at s;
     rl_pin := rl_pin s; rl_log := rl_log s; rl_on_plan := rl_on_plan s;
     rl_off_plan := rl_off_plan s; rl_sleep_plan := rl_sleep_plan s;
     rl_shutdown_plan := rl_shutdown_plan s |}.
Definition set_shutdown (s : relay_state) : relay_state :=
  {| rl_latched := rl_latched s; rl_shutdown_requested := true;
     rl_active_callback := rl_active_callback s; rl_waiting := rl_waiting s;
     rl_last_outcome := rl_last_outcome s; rl_last_outcome_at := rl_last_outcome_at s;
     rl_pin := rl_pin s; rl_log := rl_log s ++ [ShutdownBegun]; rl_on_plan := rl_on_plan s;
     rl_off_plan := rl_off_plan s; rl_sleep_plan := rl_sleep_plan s;
     rl_shutdown_plan := rl_shutdown_plan s |}.
Definition set_callbacks (active waiting : option (option string)) (s : relay_state) : relay_state :=
  {| rl_latched := rl_latched s; rl_shutdown_requested := rl_shutdown_requested s;
     rl_active_callback := active; rl_waiting := waiting;
     rl_last_outcome := rl_last_outcome s; rl_last_outcome_at := rl_last_outcome_at s;
     rl_pin := rl_pin s; rl_log := rl_log s; rl_on_plan := rl_on_plan s;
     rl_off_plan := rl_off_plan s; rl_sleep_plan := rl_sleep_plan s;
     rl_shutdown_plan := rl_shutdown_plan s |}.
Definition set_outcome (outcome : string) (at_ : datetime) (s : relay_state) : relay_state :=
  {| rl_latched := rl_latched s; rl_shutdown_requested := rl_shutdown_requested s;
     rl_active_callback := rl_active_callback s; rl_waiting := rl_waiting s;
     rl_last_outcome := outcome; rl_last_outcome_at := at_;
     rl_pin := rl_pin s; rl_log := rl_log s; rl_on_plan := rl_on_plan s;
     rl_off_plan := rl_off_plan s; rl_sleep_plan := rl_sleep_plan s;
     rl_shutdown_plan := rl_shutdown_plan s |}.
Definition log_event (e : relay_event) (s : relay_state) : relay_state :=
  {| rl_latched := rl_latched s; rl_shutdown_requested := rl_shutdown_requested s;
     rl_active_callback := rl_active_callback s; rl_waiting := rl_waiting s;
     rl_last_outcome := rl_last_outcome s; rl_last_outcome_at := rl_last_outcome_at s;
     rl_pin := rl_pin s; rl_log := rl_log s ++ [e]; rl_on_plan := rl_on_plan s;
     rl_off_plan := rl_off_plan s; rl_sleep_plan := rl_sleep_plan s;
     rl_shutdown_plan := rl_shutdown_plan s |}.
Definition drive_pin (level : bool) (s : relay_state) : relay_state :=
  {| rl_latched := rl_latched s; rl_shutdown_requested := rl_shutdown_requested s;
     rl_active_callback := rl_active_callback s; rl_waiting := rl_waiting s;
     rl_last_outcome := rl_last_outcome s; rl_last_outcome_at := rl_last_outcome_at s;
     rl_pin := level; rl_log := rl_log s ++ [if level then PinHigh else PinLow];
     rl_on_plan := rl_on_plan s; rl_off_plan := rl_off_plan s;
     rl_sleep_plan := rl_sleep_plan s; rl_shutdown_plan := rl_shutdown_plan s |}.
Definition set_plans (on off : list hw_outcome) (slp : list (option exc)) (shut : list bool)
    (s : relay_state) : relay_state :=
  {| rl_latched := rl_latched s; rl_shutdown_requested := rl_shutdown_requested s;
     rl_active_callback := rl_active_callback s; rl_waiting := rl_waiting s;
     rl_last_outcome := rl_last_outcome s; rl_last_outcome_at := rl_last_outcome_at s;
     rl_pin := rl_pin s; rl_log := rl_log s; rl_on_plan := on;
     rl_off_plan := off; rl_sleep_plan := slp; rl_shutdown_plan := shut |}.

(** ** Hardware (PiRelay.py: Relay.on after its inhibition check, Relay.off) *)

Definition gpio_on : M relay_state unit := fun s =>
  let s' := set_plans (tail (rl_on_plan s)) (rl_off_plan s) (rl_sleep_plan s) (rl_shutdown_plan s) s in
  match head (rl_on_plan s) with
  | None | Some HwOk => (Ok tt, drive_pin true s')
  | Some (HwRaises drove e) => (Err e, if drove then drive_pin true s' else s')
  end.

Definition gpio_off : M relay_state unit := fun s =>
  let s' := set_plans (rl_on_plan s) (tail (rl_off_plan s)) (rl_sleep_plan s) (rl_shutdown_plan s) s in
  match head (rl_off_plan s) with
  | None | Some HwOk => (Ok tt, drive_pin false s')
  | Some (HwRaises drove e) => (Err e, if drove then drive_pin false s' else s')
  end.

(** ** Switching off *)

(** relay.py: _deenergize_at_boundary: at most [attempts] calls of [off]. *)
Fixpoint _deenergize_at_boundary (attempts : nat) : M relay_state bool :=
  match attempts with
  | O => ret false
  | S n => try_except (gpio_off ;! ret true) (fun _ => _deenergize_at_boundary n)
  end.

(** relay.py: _take_deactivation_callback_at_boundary *)
Definition _take_deactivation_callback_at_boundary : M relay_state (option (option string)) :=
  fun s => (Ok (rl_active_callback s), set_callbacks None (rl_waiting s) s).

(** relay.py: _notify on the callback of a finished activation. *)
Definition _notify (callback : option (option string)) : M relay_state unit :=
  match callback with
  | None => ret tt
  | Some key => modify (log_event (Deactivated key))
  end.

(** relay.py: _deenergize *)
Definition _deenergize (max_off_attempts : nat) : M relay_state bool :=
  let! safe := _deenergize_at_boundary max_off_attempts in
  if safe : bool then
    let! callback := _take_deactivation_callback_at_boundary in
    _notify callback ;! ret true
  else ret false.

(** relay.py: _notify_without_waiting: a report whose activation report is not
    out yet waits for it in its own thread. *)
Definition _notify_without_waiting (ready : bool) (callback : option (option string))
  : M relay_state unit :=
  if ready then _notify callback
  else match callback with
       | None => ret tt
       | Some key => modify (fun s => set_callbacks (rl_active_callback s) (Some key) s)
       end.

(** [activation_notified.set()] releases a waiting report. *)
Definition activation_notified_set : M relay_state unit := fun s =>
  match rl_waiting s with
  | None => (Ok tt, s)
  | Some key => (Ok tt, log_event (Deactivated key) (set_callbacks (rl_active_callback s) None s))
  end.

(** relay.py: begin_shutdown, at the wall-clock time [now]; [ready] says whether
    the pending activation has been reported. *)
Definition begin_shutdown (max_off_attempts : nat) (ready : bool) (now : datetime)
  : M relay_state bool :=
  modify set_shutdown ;!
  modify (set_latched true) ;!
  let! safe := _deenergize_at_boundary max_off_attempts in
  let! callback := (if safe : bool then _take_deactivation_callback_at_boundary else ret None) in
  _notify_without_waiting ready callback ;!
  modify (set_outcome (if safe then "shutdown_safe" else "relay_deenergize_error") now) ;!
  ret safe.

(** relay.py: shutdown *)
Definition shutdown (max_off_attempts : nat) (ready : bool) (now : datetime) : M relay_state bool :=
  begin_shutdown max_off_attempts ready now.

(** relay.py: __init__ (the lines after the parameter check), on a fresh state
    whose pin is in an unknown position. *)
Definition init (max_off_attempts : nat) (now : datetime) : M relay_state unit :=
  let! safe := _deenergize max_off_attempts in
  modify (set_latched (negb safe)) ;!
  modify (set_outcome (if safe : bool then "initialized_safe" else "relay_deenergize_error") now).

(** relay.py: status *)
Definition status (s : relay_state) : bool * string * datetime :=
  (negb (rl_latched s) && negb (rl_shutdown_requested s), rl_last_outcome s, rl_last_outcome_at s).

(** ** trigger *)

Section Trigger.
Context {T : Type} (relay_of : T -> relay_state) (put_relay : relay_state -> T -> T).
Context (max_off_attempts : nat).
(** [self._clock()] *)
Context (clock : M T datetime).
(** Observer of the moment the pin is driven high. *)
Context (on_energise : T -> T).

Definition on_relay {A} (m : M relay_state A) : M T A := lift relay_of put_relay m.

(** A point outside the boundary: another thread may begin the shutdown. *)
Definition yield_point (ready : bool) : M T unit :=
  let! plan := gets (fun t => rl_shutdown_plan (relay_of t)) in
  on_relay (modify (fun s => set_plans (rl_on_plan s) (rl_off_plan s) (rl_sleep_plan s) (tail plan) s)) ;!
  if default false (head plan) then
    let! now := clock in
    on_relay (begin_shutdown max_off_attempts ready now) ;! ret tt
  else ret tt.

(** relay.py: _record_outcome *)
Definition _record_outcome (outcome : string) (observed_at : option datetime) : M T unit :=
  let! at_ := match observed_at with Some t => ret t | None => clock end in
  on_relay (modify (set_outcome outcome at_)).

(** trigger's activation_inhibition *)
Definition activation_inhibition (pre_activation_inhibit : option (M T (option (string * string))))
  : M T (option (string * string)) :=
  let! inhibition := match pre_activation_inhibit with Some f => f | None => ret None end in
  match inhibition with
  | Some i => ret (Some i)
  | None =>
      let! requested := gets (fun t => rl_shutdown_requested (relay_of t)) in
      ret (if requested : bool then Some ("failed", "relay_latched") else None)
  end.

Definition inhibited_result (key : option string) (detail : string) : RelayResult :=
  {| rr_activated := false; rr_reason := detail; rr_idempotency_key := key;
     rr_activated_at := None; rr_latched := String.eqb detail "relay_latched" |}.

(** The pin is driven high and the moment is observed. *)
Definition energise : M T unit := fun t =>
  match on_relay gpio_on t with
  | (Ok _, t') => (Ok tt, on_energise t')
  | (Err e, t') => (Err e, if rl_pin (relay_of t') then on_energise t' else t')
  end.

(** The critical section: check again, switch on, install the callback.  Both
    relay interfaces (with and without the inhibition keyword) evaluate the
    inhibition and then drive the pin without releasing the boundary. *)
Definition boundary_section (pre_activation_inhibit : option (M T (option (string * string))))
    (callback : option (option string)) : M T (option (string * string)) :=
  let! last_moment_inhibition := activation_inhibition pre_activation_inhibit in
  match last_moment_inhibition with
  | Some i => ret (Some i)
  | None =>
      energise ;!
      on_relay (modify (fun s => set_callbacks callback (rl_waiting s) s)) ;!
      ret None
  end.

(** The wait for the end of the pulse: it may raise. *)
Definition pulse_wait : M T unit :=
  let! plan := gets (fun t => rl_sleep_plan (relay_of t)) in
  on_relay (modify (fun s => set_plans (rl_on_plan s) (rl_off_plan s) (tail plan) (rl_shutdown_plan s) s)) ;!
  match head plan with
  | Some (Some e) => raise e
  | _ => ret tt
  end.

(** The body of the outer [try] up to the activation time.  The activation
    report comes between the clock reading and the [finally]. *)
Definition activation_start (key : option string)
    (pre_activation_inhibit : option (M T (option (string * string))))
    (report : bool) (deactivation_callback : option (option string))
  : M T (RelayResult + datetime) :=
  let! stopped := boundary_section pre_activation_inhibit deactivation_callback in
  match stopped with
  | Some (_, detail) => _record_outcome detail None ;! ret (inl (inhibited_result key detail))
  | None =>
      yield_point false ;!
      let! activated_at := try_finally
        (let! at_ := clock in
         (if report then on_relay (modify (log_event (Activated key))) else ret tt) ;! ret at_)
        (on_relay activation_notified_set) in
      ret (inr activated_at)
  end.

(** The rest of the body: the pulse. *)
Definition activation_pulse : M T unit := yield_point true ;! pulse_wait.

(** [self._latched = True; self._record_outcome("relay_deenergize_error")] *)
Definition latch_error : M T unit :=
  on_relay (modify (set_latched true)) ;! _record_outcome "relay_deenergize_error" None.

(** The [except BaseException] clause. *)
Definition activation_failed (key : option string) (activated_at : option datetime) (error : exc)
  : M T RelayResult :=
  let! safe := on_relay (_deenergize max_off_attempts) in
  if safe : bool then
    _record_outcome "relay_error" activated_at ;!
    if is_Exception error then
      ret {| rr_activated := false; rr_reason := "relay_error"; rr_idempotency_key := key;
             rr_activated_at := activated_at; rr_latched := false |}
    else raise error
  else
    latch_error ;!
    if is_Exception error then
      ret {| rr_activated := false; rr_reason := "relay_deenergize_error";
             rr_idempotency_key := key; rr_activated_at := activated_at; rr_latched := true |}
    else raise error.

(** The code after the [try] statement. *)
Definition activation_finished (key : option string) (activated_at : datetime) : M T RelayResult :=
  let! safe := on_relay (_deenergize max_off_attempts) in
  if safe : bool then
    yield_point true ;!
    let! requested := gets (fun t => rl_shutdown_requested (relay_of t)) in
    (if requested : bool then _record_outcome "shutdown_safe" None
     else _record_outcome "activated" (Some activated_at)) ;!
    ret {| rr_activated := true; rr_reason := "activated"; rr_idempotency_key := key;
           rr_activated_at := Some activated_at; rr_latched := false |}
  else
    latch_error ;!
    ret {| rr_activated := false; rr_reason := "relay_deenergize_error";
           rr_idempotency_key := key; rr_activated_at := Some activated_at;
           rr_latched := true |}.

(** relay.py: trigger *)
Definition trigger (key : option string)
    (pre_activation_inhibit : option (M T (option (string * string))))
    (report_activation report_deactivation : bool) : M T RelayResult :=
  let! inhibition := activation_inhibition pre_activation_inhibit in
  match inhibition with
  | Some (_, detail) => _record_outcome detail None ;! ret (inhibited_result key detail)
  | None =>
      let! latched := gets (fun t => rl_latched (relay_of t)) in
      if latched : bool then
        _record_outcome "relay_latched" None ;!
        ret {| rr_activated := false; rr_reason := "relay_latched"; rr_idempotency_key := key;
               rr_activated_at := None; rr_latched := true |}
      else
        yield_point true ;!
        fun t =>
          match activation_start key pre_activation_inhibit report_activation
                  (if report_deactivation then Some key else None) t with
          | (Ok (inl stopped), t') => (Ok stopped, t')
          | (Err error, t') => activation_failed key None error t'
          | (Ok (inr activated_at), t') =>
              match activation_pulse t' with
              | (Ok _, t'') => activation_finished key activated_at t''
              | (Err error, t'') => activation_failed key (Some activated_at) error t''
              end
          end
  end.
End Trigger.

(** ** relay_safe.py *)

(** relay_safe.py: force_relay_off; [adapter] says whether the adapter could be
    constructed. *)
Definition force_relay_off (adapter : bool) (max_attempts : Z) : M relay_state bool :=
  if (max_attempts <? 1)%Z then raise (ValueError "max_attempts must be positive")
  else if adapter then _deenergize_at_boundary (Z.to_nat max_attempts)
  else ret false.

(** relay_safe.py: main, the exit status. *)
Definition relay_safe_main (adapter : bool) : M relay_state Z :=
  let! ok := force_relay_off adapter 3 in
  ret (if ok : bool then 0%Z else 1%Z).

(** ** Predicates the non-energising steps keep

    A predicate is stable when every change of the state other than driving the
    pin high keeps it; each step of the controller other than [gpio_on] keeps
    every stable predicate. *)

Record stable (I : relay_state -> Prop) : Prop := {
  st_outcome : forall o a s, I s -> I (set_outcome o a s);
  st_callbacks : forall a w s, I s -> I (set_callbacks a w s);
  st_log : forall e s, e <> PinHigh -> e <> ShutdownBegun -> I s -> I (log_event e s);
  st_plans : forall on off slp shut s,
    off ⊆ rl_off_plan s -> I s -> I (set_plans on off slp shut s);
  st_low : forall s, I s -> I (drive_pin false s);
  st_latch : forall s, I s -> I (set_latched true s);
  st_shutdown : forall s, I s -> I (set_shutdown s);
}.

Lemma tail_subseteq {A} (l : list A) : tail l ⊆ l.
Proof. destruct l; [done|]. intros x Hx. by right. Qed.

Section Stable.
Context (I : relay_state -> Prop) (HI : stable I).

Lemma gpio_off_keeps : keeps I gpio_off.
Proof.
  intros s Hs. unfold gpio_off.
  assert (I (set_plans (rl_on_plan s) (tail (rl_off_plan s)) (rl_sleep_plan s)
               (rl_shutdown_plan s) s)) as H.
  { apply (st_plans _ HI); [apply tail_subseteq|done]. }
  destruct (list.head _) as [[|[] e]|]; cbn; try done; by apply (st_low _ HI).
Qed.

Lemma take_callback_keeps : keeps I _take_deactivation_callback_at_boundary.
Proof. intros s Hs. by apply (st_callbacks _ HI). Qed.

Lemma log_keeps e : e <> PinHigh -> e <> ShutdownBegun -> keeps I (modify (log_event e)).
Proof. intros ??. apply keeps_modify. intros s. by apply (st_log _ HI). Qed.

Lemma set_outcome_keeps o a : keeps I (modify (set_outcome o a)).
Proof. apply keeps_modify. intros s. by apply (st_outcome _ HI). Qed.

Lemma set_callbacks_keeps f g : keeps I (modify (fun s => set_callbacks (f s) (g s) s)).
Proof. apply keeps_modify. intros s. by apply (st_callbacks _ HI). Qed.

Lemma latch_keeps : keeps I (modify (set_latched true)).
Proof. apply keeps_modify, (st_latch _ HI). Qed.

Lemma set_shutdown_keeps : keeps I (modify set_shutdown).
Proof. apply keeps_modify, (st_shutdown _ HI). Qed.

Hint Resolve gpio_off_keeps take_callback_keeps log_keeps set_outcome_keeps
  set_callbacks_keeps latch_keeps set_shutdown_keeps : gate.

Lemma deenergize_at_boundary_keeps n : keeps I (_deenergize_at_boundary n).
Proof. induction n as [|n IH]; cbn; keeps_tac. Qed.

Lemma notify_keeps c : keeps I (_notify c).
Proof. destruct c; [by apply log_keeps|apply keeps_ret]. Qed.

Hint Resolve deenergize_at_boundary_keeps notify_keeps : gate.

Lemma deenergize_keeps n : keeps I (_deenergize n).
Proof. unfold _deenergize. keeps_tac. Qed.

Lemma activation_notified_keeps : keeps I activation_notified_set.
Proof.
  intros s Hs. unfold activation_notified_set. destruct (rl_waiting s); [|done].
  apply (st_log _ HI); [done|done|]. by apply (st_callbacks _ HI).
Qed.

Lemma notify_without_waiting_keeps ready c : keeps I (_notify_without_waiting ready c).
Proof. unfold _notify_without_waiting. keeps_tac. Qed.

Hint Resolve notify_without_waiting_keeps : gate.

Lemma begin_shutdown_keeps n ready now : keeps I (begin_shutdown n ready now).
Proof. unfold begin_shutdown. keeps_tac. Qed.
End Stable.

(** Off calls raise ordinary exceptions only: no interrupt arrives inside them. *)
Definition off_ordinary (s : relay_state) : Prop :=
  HwRaises true BaseExc ∉ rl_off_plan s /\ HwRaises false BaseExc ∉ rl_off_plan s.

Definition highs (log : list relay_event) : nat := length (filter (eq PinHigh) log).
#[global] Arguments highs : simpl never.

(** No activation after the shutdown has begun. *)
Definition quiet (log : list relay_event) : Prop :=
  forall l1 l2, log = l1 ++ ShutdownBegun :: l2 -> PinHigh ∉ l2.

Record calm (n : nat) (s : relay_state) : Prop := {
  calm_off : off_ordinary s;
  calm_highs : highs (rl_log s) = n;
  calm_quiet : quiet (rl_log s);
  calm_requested : rl_shutdown_requested s = false -> ShutdownBegun ∉ rl_log s;
}.

(** The pin is low or the controller refuses to act. *)
Definition fail_safe (s : relay_state) : Prop := rl_pin s = true -> rl_latched s = true.

Lemma highs_snoc log e : e <> PinHigh -> highs (log ++ [e]) = highs log.
Proof.
  intros He. unfold highs. rewrite list.filter_app, filter_cons_False by congruence.
  rewrite filter_nil, app_nil_r. done.
Qed.

Lemma highs_snoc_high log : highs (log ++ [PinHigh]) = S (highs log).
Proof.
  unfold highs. rewrite list.filter_app, filter_cons_True by done.
  rewrite filter_nil, length_app. cbn. lia.
Qed.

Lemma quiet_snoc log e : (e = PinHigh -> ShutdownBegun ∉ log) -> quiet log -> quiet (log ++ [e]).
Proof.
  intros He Hq l1 l2 H. destruct l2 as [|x l2 _] using rev_ind; [by intros ?%elem_of_nil|].
  rewrite app_comm_cons, app_assoc in H. apply app_inj_tail in H as [Hlog <-].
  rewrite not_elem_of_app, list_elem_of_singleton. split; [by eapply Hq|].
  intros <-. apply He; [done|]. rewrite Hlog. apply elem_of_app. right. left.
Qed.

Lemma calm_stable n : stable (calm n).
Proof.
  split.
  - by intros o a s [????].
  - by intros a w s [????].
  - intros e s Hh Hs [????]. split; cbn; [done|by rewrite highs_snoc| |].
    + apply quiet_snoc; [congruence|done].
    + intros Hr. rewrite not_elem_of_app, list_elem_of_singleton. split; [auto|congruence].
  - intros on off slp shut s Hoff [[? ?]???]. split; try done. split; cbn; eauto.
  - intros s [????]. split; cbn; [done|by rewrite highs_snoc|by apply quiet_snoc|].
    intros Hr. rewrite not_elem_of_app, list_elem_of_singleton. split; [auto|congruence].
  - by intros s [????].
  - intros s [????]. split; cbn; [done|by rewrite highs_snoc|by apply quiet_snoc|done].
Qed.

Lemma stable_and I J : stable I -> stable J -> stable (fun s => I s /\ J s).
Proof.
  intros HI HJ. split.
  - intros o a s [??]. split; by apply st_outcome.
  - intros a w s [??]. split; by apply st_callbacks.
  - intros e s ?? [??]. split; by apply st_log.
  - intros on off slp shut s ? [??]. split; by apply st_plans.
  - intros s [??]. split; by apply st_low.
  - intros s [??]. split; by apply st_latch.
  - intros s [??]. split; by apply st_shutdown.
Qed.

Lemma fail_safe_stable : stable fail_safe.
Proof. unfold fail_safe. split; cbn; auto; done. Qed.

Lemma pin_low_stable : stable (fun s => rl_pin s = false).
Proof. by split. Qed.

Lemma latched_stable : stable (fun s => rl_latched s = true).
Proof. by split. Qed.

Definition near (n : nat) (s : relay_state) : Prop := calm n s \/ calm (S n) s.

Lemma near_stable n : stable (near n).
Proof.
  pose proof (calm_stable n) as H1. pose proof (calm_stable (S n)) as H2.
  split.
  - intros o a s [?|?]; [left|right]; by apply st_outcome.
  - intros a w s [?|?]; [left|right]; by apply st_callbacks.
  - intros e s ?? [?|?]; [left|right]; by apply st_log.
  - intros on off slp shut s ? [?|?]; [left|right]; by apply st_plans.
  - intros s [?|?]; [left|right]; by apply st_low.
  - intros s [?|?]; [left|right]; by apply st_latch.
  - intros s [?|?]; [left|right]; by apply st_shutdown.
Qed.

(** ** The switch-off *)

Definition attempt_outcome (plan : list hw_outcome) (i : nat) : hw_outcome :=
  default HwOk (plan !! i).

Lemma off_ordinary_tail s : off_ordinary s -> forall on slp shut,
  off_ordinary (set_plans on (tail (rl_off_plan s)) slp shut s).
Proof. intros [??] on slp shut. split; cbn; intros ?%tail_subseteq; done. Qed.

(** One call of [off]. *)
Lemma gpio_off_cases s :
  off_ordinary s ->
  exists s', rl_off_plan s' = tail (rl_off_plan s) /\ off_ordinary s' /\
    ((attempt_outcome (rl_off_plan s) 0 = HwOk /\ gpio_off s = (Ok tt, s') /\ rl_pin s' = false) \/
     (attempt_outcome (rl_off_plan s) 0 <> HwOk /\
      exists e, is_Exception e = true /\ gpio_off s = (Err e, s'))).
Proof.
  intros Hs. pose proof (off_ordinary_tail s Hs (rl_on_plan s) (rl_sleep_plan s) (rl_shutdown_plan s)) as Ht.
  destruct Hs as [H1 H2]. unfold gpio_off, attempt_outcome.
  destruct (rl_off_plan s) as [|[|drove e] plan] eqn:E; cbn in *.
  - eexists. split; [|split; [|left; split; [done|split; [reflexivity|done]]]]; done.
  - eexists. split; [|split; [|left; split; [done|split; [reflexivity|done]]]]; done.
  - assert (is_Exception e = true).
    { destruct e; try done. destruct drove; [destruct H1|destruct H2]; left. }
    eexists. split; [|split; [|right; split; [done|exists e; split; [done|reflexivity]]]];
      by destruct drove.
Qed.

Lemma deenergize_spec n s :
  off_ordinary s ->
  exists b s' k, _deenergize_at_boundary n s = (Ok b, s') /\ (k <= n)%nat /\
    rl_off_plan s' = drop k (rl_off_plan s) /\
    (b = true <-> exists i, (i < n)%nat /\ attempt_outcome (rl_off_plan s) i = HwOk) /\
    (b = true -> rl_pin s' = false).
Proof.
  revert s. induction n as [|n IH]; intros s Hs.
  { exists false, s, 0%nat. split; [done|]. split; [lia|]. split; [done|]. split; [|done].
    split; [done|]. intros (i & ? & _). lia. }
  destruct (gpio_off_cases s Hs) as (s1 & Hp & Hs1 & [(Hok & E & Hpin)|(Hno & e & He & E)]).
  - exists true, s1, 1%nat. cbn. unfold try_except, bind. rewrite E. cbn.
    split; [done|]. split; [lia|]. split; [by destruct (rl_off_plan s)|]. split; [|done].
    split; [|done]. intros _. exists 0%nat. split; [lia|done].
  - destruct (IH s1 Hs1) as (b & s' & k & Eb & Hk & Hplan & Hiff & Hlow).
    exists b, s', (S k). cbn. unfold try_except, bind. rewrite E. cbn. rewrite He, Eb.
    split; [done|]. split; [lia|]. rewrite Hplan, Hp.
    split; [by destruct (rl_off_plan s); [rewrite drop_nil|]|]. split; [|done]. rewrite Hiff, Hp.
    assert (Htail : forall i, attempt_outcome (tail (rl_off_plan s)) i
                              = attempt_outcome (rl_off_plan s) (S i)).
    { intros i. unfold attempt_outcome. by destruct (rl_off_plan s). }
    split.
    + intros (i & Hi & H). exists (S i). rewrite <- Htail. split; [lia|done].
    + intros (i & Hi & H). destruct i as [|i]; [done|]. exists i. rewrite Htail. split; [lia|done].
Qed.

(** The switch-off of a calm controller: it returns, keeps every stable
    predicate, and answers true only with the pin low. *)
Lemma deenergize_triple I n :
  stable I -> (forall s, I s -> off_ordinary s) ->
  triple I (_deenergize n) (fun safe s => I s /\ (safe = true -> rl_pin s = false)) (fun _ => False).
Proof.
  intros HI Hoff s Hs.
  destruct (deenergize_spec n s (Hoff s Hs)) as (b & s1 & k & E & _ & _ & _ & Hlow).
  pose proof (deenergize_at_boundary_keeps I HI n s Hs) as H1. rewrite E in H1.
  unfold _deenergize, bind. rewrite E. destruct b; cbn; [|done].
  pose proof (notify_keeps (fun s => I s /\ rl_pin s = false)
    (stable_and _ _ HI pin_low_stable) (rl_active_callback s1)
    (set_callbacks None (rl_waiting s1) s1)) as H2.
  specialize (H2 ltac:(split; [by apply (st_callbacks _ HI)|by apply Hlow])).
  destruct (rl_active_callback s1); cbn in *; [|split; [by destruct H2|intros _; by apply Hlow]].
  destruct H2. by split.
Qed.

(** ** The world around the relay *)

(** The clock, the observer and the caller's inhibition leave the relay alone. *)
Record relay_world {T} (relay_of : T -> relay_state) (put_relay : relay_state -> T -> T)
    (clock : M T datetime) (on_energise : T -> T)
    (pre : option (M T (option (string * string)))) : Prop := {
  rw_get_put : forall r t, relay_of (put_relay r t) = r;
  rw_clock : forall t, relay_of (snd (clock t)) = relay_of t;
  rw_energise : forall t, relay_of (on_energise t) = relay_of t;
  rw_pre : forall f t, pre = Some f -> relay_of (snd (f t)) = relay_of t;
}.

Section TriggerFacts.
Context {T : Type} (relay_of : T -> relay_state) (put_relay : relay_state -> T -> T).
Context (max_off_attempts : nat) (clock : M T datetime) (on_energise : T -> T).
Context (pre : option (M T (option (string * string)))).
Context (W : relay_world relay_of put_relay clock on_energise pre).

Definition onT (I : relay_state -> Prop) : T -> Prop := fun t => I (relay_of t).

Lemma frame_keeps {A} (I : relay_state -> Prop) (m : M T A) :
  (forall t, relay_of (snd (m t)) = relay_of t) -> keeps (onT I) m.
Proof.
  intros H t Ht. specialize (H t). unfold onT in *.
  destruct (m t) as [[a|e] t']; cbn in H; by rewrite H.
Qed.

Lemma on_relay_keeps {A} I (m : M relay_state A) :
  keeps I m -> keeps (onT I) (on_relay relay_of put_relay m).
Proof. apply (keeps_lift relay_of), (rw_get_put _ _ _ _ _ W). Qed.

Lemma clock_keeps I : keeps (onT I) clock.
Proof. apply frame_keeps, (rw_clock _ _ _ _ _ W). Qed.

Hint Resolve on_relay_keeps clock_keeps set_outcome_keeps latch_keeps log_keeps
  begin_shutdown_keeps deenergize_keeps activation_notified_keeps : gate.

Section Stable.
Context (I : relay_state -> Prop) (HI : stable I).

Lemma record_outcome_keeps o a : keeps (onT I) (_record_outcome relay_of put_relay clock o a).
Proof. unfold _record_outcome. keeps_tac. Qed.

Lemma yield_point_keeps ready :
  keeps (onT I) (yield_point relay_of put_relay max_off_attempts clock ready).
Proof.
  unfold yield_point. apply keeps_bind; [apply keeps_gets|]. intros plan.
  apply keeps_bind; [|intros ?; keeps_tac].
  apply on_relay_keeps, keeps_modify. intros s. by apply (st_plans _ HI).
Qed.

Lemma pulse_wait_keeps : keeps (onT I) (pulse_wait relay_of put_relay).
Proof.
  unfold pulse_wait. apply keeps_bind; [apply keeps_gets|]. intros plan.
  apply keeps_bind; [|intros ?; keeps_tac].
  apply on_relay_keeps, keeps_modify. intros s. by apply (st_plans _ HI).
Qed.

Lemma activation_pulse_keeps :
  keeps (onT I) (activation_pulse relay_of put_relay max_off_attempts clock).
Proof. apply keeps_bind; [apply yield_point_keeps|]. intros _. apply pulse_wait_keeps. Qed.

Lemma latch_error_keeps : keeps (onT I) (latch_error relay_of put_relay clock).
Proof. unfold latch_error. apply keeps_bind; [eauto with gate|]. intros _. apply record_outcome_keeps. Qed.
End Stable.

(** The inhibition check: when it lets the activation through, no shutdown
    has begun. *)
Lemma activation_inhibition_spec I :
  triple (onT I) (activation_inhibition relay_of pre)
    (fun i t => onT I t /\ (i = None -> rl_shutdown_requested (relay_of t) = false)) (onT I).
Proof.
  unfold activation_inhibition.
  eapply (triple_bind _ _ _ (fun _ => onT I)).
  - destruct pre as [f|] eqn:E; [|apply keeps_ret]. apply frame_keeps. intros t.
    by apply (rw_pre _ _ _ _ _ W).
  - intros [i|]; [by apply triple_ret|]. intros t Ht. unfold bind, gets, ret.
    destruct (rl_shutdown_requested (relay_of t)) eqn:E; cbn; [done|]. by split.
Qed.

Definition safe_calm (n : nat) (s : relay_state) : Prop := calm n s /\ fail_safe s.
Definition safe_near (n : nat) (s : relay_state) : Prop := near n s /\ fail_safe s.

Lemma safe_calm_stable n : stable (safe_calm n).
Proof. apply stable_and; [apply calm_stable|apply fail_safe_stable]. Qed.

Lemma near_off n s : near n s -> off_ordinary s.
Proof. by intros [[]|[]]. Qed.

(** Driving the pin high. *)
Lemma energise_spec n :
  triple (fun t => calm n (relay_of t) /\ rl_shutdown_requested (relay_of t) = false)
    (energise relay_of put_relay on_energise) (fun _ => onT (calm (S n))) (onT (near n)).
Proof.
  intros t [[Hoff Hhighs Hquiet Hreq] Hr].
  assert (Hhigh : calm (S n) (drive_pin true (set_plans (tail (rl_on_plan (relay_of t)))
    (rl_off_plan (relay_of t)) (rl_sleep_plan (relay_of t)) (rl_shutdown_plan (relay_of t))
    (relay_of t)))).
  { split; cbn; [done|by rewrite highs_snoc_high, Hhighs|apply quiet_snoc; auto|].
    intros _. rewrite not_elem_of_app, list_elem_of_singleton. split; [auto|done]. }
  unfold energise, on_relay, lift, gpio_on, onT.
  destruct (list.head (rl_on_plan (relay_of t))) as [[|[] e]|]; cbn;
    rewrite ?(rw_get_put _ _ _ _ _ W); cbn;
    rewrite ?(rw_energise _ _ _ _ _ W), ?(rw_get_put _ _ _ _ _ W); try done.
  - by right.
  - destruct (rl_pin (relay_of t)); rewrite ?(rw_energise _ _ _ _ _ W), ?(rw_get_put _ _ _ _ _ W);
      left; by split.
Qed.

Lemma boundary_section_spec n callback :
  triple (onT (safe_calm n)) (boundary_section relay_of put_relay on_energise pre callback)
    (fun i t => match i with Some _ => onT (safe_calm n) t | None => onT (calm (S n)) t end)
    (onT (near n)).
Proof.
  unfold boundary_section. eapply triple_bind.
  { eapply triple_conseq; [apply (activation_inhibition_spec (safe_calm n))|done| |].
    - intros i t H. exact H.
    - intros t [H _]. by left. }
  intros [i|]; [apply triple_ret; by intros t [? _]|].
  apply (triple_bind _ _ _ (fun _ => onT (calm (S n)))).
  { eapply triple_conseq; [apply (energise_spec n)|intros t [[? _] ?]; auto|done|done]. }
  intros _. apply (triple_bind _ _ _ (fun _ => onT (calm (S n)))); [|by intros _; apply triple_ret].
  apply (triple_of_keeps (onT (calm (S n)))); [|done|done|by right].
  apply on_relay_keeps, (set_callbacks_keeps _ (calm_stable (S n)) (fun _ => callback)).
Qed.

Lemma activation_start_spec n key report callback :
  triple (onT (safe_calm n))
    (activation_start relay_of put_relay max_off_attempts clock on_energise key pre report callback)
    (fun r t => match r with
                | inl r => onT (safe_calm n) t /\ rr_activated r = false
                | inr _ => onT (calm (S n)) t
                end)
    (onT (near n)).
Proof.
  pose proof (calm_stable (S n)) as HS.
  assert (Hr : forall t, onT (calm (S n)) t -> onT (near n) t) by (by right).
  eapply triple_bind; [apply boundary_section_spec|]. intros [[i detail]|].
  - apply (triple_bind _ _ _ (fun _ => onT (safe_calm n))); [|by intros ?; apply triple_ret].
    eapply triple_conseq; [by apply record_outcome_keeps, safe_calm_stable|done|done|].
    intros t [H _]. by left.
  - apply (triple_bind _ _ _ (fun _ => onT (calm (S n)))).
    { by eapply triple_conseq; [by apply yield_point_keeps|..]. }
    intros _. apply (triple_bind _ _ _ (fun _ => onT (calm (S n)))); [|by intros ?; apply triple_ret].
    apply (triple_of_keeps (onT (calm (S n)))); [|done|done|exact Hr].
    apply keeps_finally; [|by apply on_relay_keeps, activation_notified_keeps].
    apply keeps_bind; [by apply clock_keeps|]. intros a.
    apply keeps_bind; [|intros _; apply keeps_ret].
    destruct report; [|apply keeps_ret]. by apply on_relay_keeps, log_keeps.
Qed.

(** Switching off after an activation: the controller ends fail-safe. *)
Lemma deenergize_world I :
  stable I -> (forall s, I s -> off_ordinary s) ->
  triple (onT I) (on_relay relay_of put_relay (_deenergize max_off_attempts))
    (fun safe t => onT I t /\ (safe = true -> rl_pin (relay_of t) = false)) (fun _ => False).
Proof.
  intros HI Hoff t Ht. pose proof (deenergize_triple I max_off_attempts HI Hoff _ Ht) as H.
  unfold on_relay, lift, onT. destruct (_deenergize _ _) as [[b|e] s]; [|done].
  by rewrite (rw_get_put _ _ _ _ _ W).
Qed.

Lemma latch_error_spec I :
  stable I ->
  triple (onT I) (latch_error relay_of put_relay clock)
    (fun _ t => onT I t /\ fail_safe (relay_of t)) (fun t => onT I t /\ fail_safe (relay_of t)).
Proof.
  intros HI. unfold latch_error.
  apply (triple_bind _ _ _ (fun _ t => onT I t /\ rl_latched (relay_of t) = true)).
  - intros t Ht. unfold on_relay, lift, modify, onT. rewrite (rw_get_put _ _ _ _ _ W).
    split; [by apply st_latch|done].
  - intros _. apply (triple_of_keeps (onT (fun s => I s /\ rl_latched s = true)));
      [apply record_outcome_keeps, stable_and; [done|apply latched_stable]|done|
       intros _ t [? H]; split; [done|by intros _]|intros t [? H]; split; [done|by intros _]].
Qed.

Lemma low_fail_safe I t :
  onT (fun s => I s /\ rl_pin s = false) t -> onT I t /\ fail_safe (relay_of t).
Proof. unfold onT, fail_safe. intros [? H]. split; [done|]. congruence. Qed.

Lemma activation_failed_spec n key activated_at error :
  triple (onT (near n)) (activation_failed relay_of put_relay max_off_attempts clock key activated_at error)
    (fun r t => onT (safe_near n) t /\ rr_activated r = false) (onT (safe_near n)).
Proof.
  eapply triple_bind.
  { eapply triple_conseq; [apply (deenergize_world _ (near_stable n) (near_off n))|done|done|done]. }
  intros [|].
  - apply (triple_bind _ _ _ (fun _ => onT (fun s => near n s /\ rl_pin s = false))).
    + apply (triple_of_keeps (onT (fun s => near n s /\ rl_pin s = false)));
        [apply record_outcome_keeps, stable_and; [apply near_stable|apply pin_low_stable]|
         intros t [? H]; split; auto|done|intros t H; by apply (low_fail_safe (near n))].
    + intros _. destruct (is_Exception error); [apply triple_ret|apply triple_raise];
        intros t H; by apply (low_fail_safe (near n)) in H.
  - apply (triple_bind _ _ _ (fun _ => onT (safe_near n))).
    + eapply triple_conseq; [apply (latch_error_spec _ (near_stable n))|by intros t [? _]|done|done].
    + intros _. destruct (is_Exception error); [by apply triple_ret|by apply triple_raise].
Qed.

Lemma activation_finished_spec n key activated_at :
  triple (onT (calm (S n))) (activation_finished relay_of put_relay max_off_attempts clock key activated_at)
    (fun r t => onT (safe_calm (S n)) t /\ (rr_activated r = true -> rl_pin (relay_of t) = false))
    (onT (safe_calm (S n))).
Proof.
  pose proof (calm_stable (S n)) as HS.
  set (J := fun s => calm (S n) s /\ rl_pin s = false).
  assert (HJ : stable J) by (apply stable_and; [done|apply pin_low_stable]).
  assert (HJE : forall t, onT J t -> onT (safe_calm (S n)) t) by (intros t H; by apply (low_fail_safe (calm (S n)))).
  eapply triple_bind.
  { eapply triple_conseq; [apply (deenergize_world _ HS)|done|done|done]. by intros s []. }
  intros [|].
  - apply (triple_bind _ _ _ (fun _ => onT J)).
    { eapply triple_conseq; [apply (yield_point_keeps _ HJ)|intros t [? H]; split; auto|done|auto]. }
    intros _. apply (triple_bind _ _ _ (fun _ => onT J)); [by apply triple_gets|].
    intros requested. apply (triple_bind _ _ _ (fun _ => onT J)).
    { apply (triple_of_keeps (onT J)); [|done|done|auto]. destruct requested; by apply record_outcome_keeps. }
    intros _. apply triple_ret. intros t Ht. split; [by apply HJE|]. by destruct Ht.
  - apply (triple_bind _ _ _ (fun _ => onT (safe_calm (S n)))).
    { eapply triple_conseq; [apply (latch_error_spec _ HS)|by intros t [? _]|done|done]. }
    intros _. by apply triple_ret.
Qed.

(** The whole trigger. *)
Lemma trigger_spec n key report_activation report_deactivation :
  triple (onT (safe_calm n))
    (trigger relay_of put_relay max_off_attempts clock on_energise key pre
       report_activation report_deactivation)
    (fun r t => onT (safe_near n) t /\
       (rr_activated r = true -> calm (S n) (relay_of t) /\ rl_pin (relay_of t) = false))
    (onT (safe_near n)).
Proof.
  pose proof (safe_calm_stable n) as HS.
  assert (Hn : forall t, onT (safe_calm n) t -> onT (safe_near n) t).
  { intros t [??]. split; [by left|done]. }
  assert (HSn : forall t, onT (safe_calm (S n)) t -> onT (safe_near n) t).
  { intros t [??]. split; [by right|done]. }
  unfold trigger. apply (triple_bind _ _ _ (fun _ => onT (safe_calm n))).
  { eapply triple_conseq; [apply (activation_inhibition_spec (safe_calm n))|done|by intros i t []|auto]. }
  intros [[i detail]|].
  { apply (triple_bind _ _ _ (fun _ => onT (safe_calm n))).
    - eapply triple_conseq; [by apply record_outcome_keeps|done|done|auto].
    - intros _. apply triple_ret. intros t Ht. split; [auto|done]. }
  apply (triple_bind _ _ _ (fun _ => onT (safe_calm n))); [by apply triple_gets|].
  intros [|].
  { apply (triple_bind _ _ _ (fun _ => onT (safe_calm n))).
    - eapply triple_conseq; [by apply record_outcome_keeps|done|done|auto].
    - intros _. apply triple_ret. intros t Ht. split; [auto|done]. }
  apply (triple_bind _ _ _ (fun _ => onT (safe_calm n))).
  { eapply triple_conseq; [by apply yield_point_keeps|done|done|auto]. }
  intros _ t Ht.
  set (callback := if report_deactivation then Some key else None).
  pose proof (activation_start_spec n key report_activation callback t Ht) as H1.
  destruct (activation_start _ _ _ _ _ _ _ _ _ t) as [[[r|a]|e] t1].
  - destruct H1 as [H1 Hr]. split; [auto|]. congruence.
  - pose proof (activation_pulse_keeps _ (calm_stable (S n)) t1 H1) as H2.
    destruct (activation_pulse _ _ _ _ t1) as [[?|e] t2].
    + pose proof (activation_finished_spec n key a t2 H2) as H3.
      destruct (activation_finished _ _ _ _ _ _ t2) as [[r|e] t3]; [|auto].
      destruct H3 as [H3 Hr]. split; [auto|]. intros Ha. split; [apply H3|auto].
    + pose proof (activation_failed_spec n key (Some a) e t2 ltac:(by right)) as H3.
      destruct (activation_failed _ _ _ _ _ _ _ t2) as [[r|e'] t3]; [|done].
      destruct H3 as [H3 Hr]. split; [done|]. congruence.
  - pose proof (activation_failed_spec n key None e t1 H1) as H3.
    destruct (activation_failed _ _ _ _ _ _ _ t1) as [[r|e'] t3]; [|done].
    destruct H3 as [H3 Hr]. split; [done|]. congruence.
Qed.

(** A controller that has begun its shutdown, or is latched, stays as it is. *)
Lemma trigger_refused n key report_activation report_deactivation :
  let refuses := fun s => rl_shutdown_requested s = true \/ rl_latched s = true in
  triple (fun t => safe_calm n (relay_of t) /\ refuses (relay_of t))
    (trigger relay_of put_relay max_off_attempts clock on_energise key pre
       report_activation report_deactivation)
    (fun r t => safe_calm n (relay_of t) /\ rr_activated r = false) (onT (safe_calm n)).
Proof.
  intros refuses. pose proof (safe_calm_stable n) as HS. unfold trigger.
  eapply triple_bind.
  { eapply triple_conseq; [apply (activation_inhibition_spec (fun s => safe_calm n s /\ refuses s))|
      done|intros i t H; exact H|by intros t []]. }
  intros [[i detail]|].
  { apply (triple_bind _ _ _ (fun _ => onT (safe_calm n))); [|by intros _; apply triple_ret].
    eapply triple_conseq; [by apply record_outcome_keeps|by intros t [[? _] _]|done|done]. }
  eapply (triple_bind _ _ _ (fun latched t => safe_calm n (relay_of t) /\ latched = true)).
  { apply triple_gets. intros t [[? [H|H]] Hr]; [|done]. rewrite Hr in H; done. }
  intros latched t [Ht ->]. revert t Ht.
  apply (triple_bind _ _ _ (fun _ => onT (safe_calm n))); [|by intros _; apply triple_ret].
  by apply record_outcome_keeps.
Qed.
End TriggerFacts.

(** ** What a trigger does to the world around it

    [J] holds of the caller's world while the pin has not been driven, [J0] after
    an inhibition check that let the activation through, [K] once the pin has
    been driven.  The three only speak of the part of the world the relay and the
    clock leave alone. *)

Section TriggerWorld.
Context {T : Type} (relay_of : T -> relay_state) (put_relay : relay_state -> T -> T).
Context (max_off_attempts : nat) (clock : M T datetime) (on_energise : T -> T).
Context (pre : option (M T (option (string * string)))).
Context (J J0 K : T -> Prop).

(** The relay and the clock keep the predicate. *)
Definition ignores_relay (I : T -> Prop) : Prop :=
  (forall r t, I t -> I (put_relay r t)) /\ keeps I clock.

Context (HJ : ignores_relay J) (HJ0 : ignores_relay J0) (HK : ignores_relay K).
Context (Hclock : forall t, exists now t', clock t = (Ok now, t')).
Context (Hsub : forall t, J0 t -> J t).
Context (Henergise : forall t, J0 t -> K (on_energise t)).
Context (Hpre : forall f, pre = Some f -> forall t, J t -> forall r t', f t = (r, t') ->
           match r with Ok None => J0 t' | _ => J t' end).
Context (Hnone : pre = None -> forall t, J t -> J0 t).

Section Ignores.
Context (I : T -> Prop) (HI : ignores_relay I).

Lemma on_relay_ignored {A} (m : M relay_state A) : keeps I (on_relay relay_of put_relay m).
Proof.
  intros t Ht. unfold on_relay, lift. destruct (m (relay_of t)) as [[a|e] r]; by apply HI.
Qed.

Lemma clock_ignored : keeps I clock.
Proof. apply HI. Qed.

Hint Resolve on_relay_ignored clock_ignored : gate.

Lemma yield_point_ignored ready :
  keeps I (yield_point relay_of put_relay max_off_attempts clock ready).
Proof. unfold yield_point. keeps_tac. Qed.

Lemma record_outcome_ignored o a : keeps I (_record_outcome relay_of put_relay clock o a).
Proof. unfold _record_outcome. keeps_tac. Qed.

Lemma pulse_ignored : keeps I (activation_pulse relay_of put_relay max_off_attempts clock).
Proof.
  apply keeps_bind; [apply yield_point_ignored|]. intros _. unfold pulse_wait. keeps_tac.
Qed.

Lemma finished_ignored key a :
  keeps I (activation_finished relay_of put_relay max_off_attempts clock key a).
Proof.
  unfold activation_finished, latch_error. keeps_tac;
    (apply yield_point_ignored || apply record_outcome_ignored).
Qed.

Lemma failed_ignored key a e :
  keeps I (activation_failed relay_of put_relay max_off_attempts clock key a e).
Proof. unfold activation_failed, latch_error. keeps_tac; apply record_outcome_ignored. Qed.
End Ignores.

(** The calls on the relay raise BaseException or nothing. *)
Lemma record_outcome_returns o a t :
  exists t', _record_outcome relay_of put_relay clock o a t = (Ok tt, t').
Proof.
  unfold _record_outcome, bind, on_relay, lift, modify. destruct a as [a|]; [eauto|].
  destruct (Hclock t) as (now & t' & ->). eauto.
Qed.

Lemma deenergize_at_boundary_raises n s e s' :
  _deenergize_at_boundary n s = (Err e, s') -> e = BaseExc.
Proof.
  revert s. induction n as [|n IH]; intros s; [done|]. cbn. unfold try_except, bind.
  destruct (gpio_off s) as [[?|e1] s1]; cbn; [done|].
  destruct (is_Exception e1) eqn:E; [apply IH|]. intros [= <- _]. by destruct e1.
Qed.

Lemma deenergize_raises n t e t' :
  on_relay relay_of put_relay (_deenergize n) t = (Err e, t') -> e = BaseExc.
Proof.
  unfold on_relay, lift, _deenergize, bind, _take_deactivation_callback_at_boundary, _notify.
  destruct (_deenergize_at_boundary n (relay_of t)) as [[[|]|e1] s1] eqn:E; cbn; try done.
  - by destruct (rl_active_callback s1).
  - intros [= <- _]. by eapply deenergize_at_boundary_raises.
Qed.

Lemma begin_shutdown_raises n ready now s e s' :
  begin_shutdown n ready now s = (Err e, s') -> e = BaseExc.
Proof.
  unfold begin_shutdown, bind, modify. cbn.
  match goal with |- context [_deenergize_at_boundary n ?x] =>
    destruct (_deenergize_at_boundary n x) as [[[|]|e1] s1] eqn:E end; cbn.
  - unfold _notify_without_waiting, _notify.
    destruct ready, (rl_active_callback s1); cbn; done.
  - unfold _notify_without_waiting, _notify. by destruct ready.
  - intros [= <- _]. by eapply deenergize_at_boundary_raises.
Qed.

Lemma yield_point_raises ready t e t' :
  yield_point relay_of put_relay max_off_attempts clock ready t = (Err e, t') -> e = BaseExc.
Proof.
  unfold yield_point, bind, gets, on_relay, lift, modify. cbn -[begin_shutdown].
  destruct (default _ _); [|done].
  match goal with |- context [clock ?x] => destruct (Hclock x) as (now & t1 & ->) end.
  destruct (begin_shutdown _ _ _ _) as [[?|e1] s1] eqn:E; [done|].
  intros [= <- _]. by eapply begin_shutdown_raises.
Qed.

(** What is left when a trigger ends, on the result of its stages. *)
Definition ended (r : result RelayResult) (t : T) : Prop :=
  match r with
  | Ok res => (J t /\ rr_activated res = false) \/ (K t /\ rr_reason res <> "relay_latched")
  | Err e => J t \/ (K t /\ e = BaseExc)
  end.

Lemma finished_ended key a t r t' :
  K t -> activation_finished relay_of put_relay max_off_attempts clock key a t = (r, t') ->
  ended r t'.
Proof.
  intros Ht E. pose proof (keeps_state _ _ _ _ _ (finished_ignored _ HK key a) Ht E) as HK'.
  revert E. unfold activation_finished, latch_error, bind.
  destruct (on_relay _ _ _ t) as [[[|]|e] t1] eqn:E1.
  - destruct (yield_point _ _ _ _ true t1) as [[?|e] t2] eqn:E2.
    + unfold gets. destruct (rl_shutdown_requested _);
        [destruct (record_outcome_returns "shutdown_safe" None t2) as [t3 ->]
        |destruct (record_outcome_returns "activated" (Some a) t2) as [t3 ->]];
        intros [= <- <-]; by right.
    + intros [= <- <-]. right. split; [done|]. by eapply yield_point_raises.
  - destruct (on_relay _ _ _ t1) as [[?|e] t2] eqn:E2; [|discriminate].
    destruct (record_outcome_returns "relay_deenergize_error" None t2) as [t3 ->].
    intros [= <- <-]. by right.
  - intros [= <- <-]. right. split; [done|]. by eapply deenergize_raises.
Qed.

Lemma failed_ended I key a e t r t' :
  ignores_relay I -> (forall t, I t -> J t \/ K t) -> I t ->
  activation_failed relay_of put_relay max_off_attempts clock key a e t = (r, t') -> ended r t'.
Proof.
  intros HI HJK Ht E.
  pose proof (keeps_state _ _ _ _ _ (failed_ignored _ HI key a e) Ht E) as HI'. apply HJK in HI'.
  revert E. unfold activation_failed, latch_error, bind.
  destruct (on_relay _ _ _ t) as [[[|]|e1] t1] eqn:E1.
  - destruct (record_outcome_returns "relay_error" a t1) as [t2 ->].
    destruct (is_Exception e) eqn:Ee; intros [= <- <-]; cbn; [naive_solver|].
    destruct e; try done. naive_solver.
  - destruct (on_relay _ _ _ t1) as [[?|e2] t2] eqn:E2; [|discriminate].
    destruct (record_outcome_returns "relay_deenergize_error" None t2) as [t3 ->].
    destruct (is_Exception e) eqn:Ee; intros [= <- <-]; cbn; [naive_solver|].
    destruct e; try done. naive_solver.
  - intros [= <- <-]. cbn. apply deenergize_raises in E1 as ->. naive_solver.
Qed.

Lemma inhibition_world t r t' :
  J t -> activation_inhibition relay_of pre t = (r, t') ->
  match r with Ok None => J0 t' | _ => J t' end.
Proof.
  intros Ht. unfold activation_inhibition, bind, gets, ret.
  destruct pre as [f|] eqn:Epre.
  - destruct (f t) as [[[i|]|e] t1] eqn:Ef; specialize (Hpre f eq_refl t Ht _ _ Ef); cbn in Hpre.
    + by intros [= <- <-].
    + destruct (rl_shutdown_requested _); intros [= <- <-]; auto.
    + by intros [= <- <-].
  - destruct (rl_shutdown_requested _); intros [= <- <-]; auto.
Qed.

Lemma start_world key report callback t r t' :
  J t -> activation_start relay_of put_relay max_off_attempts clock on_energise key pre report
           callback t = (r, t') ->
  match r with
  | Ok (inl res) => J t' /\ rr_activated res = false
  | Ok (inr _) => K t'
  | Err _ => J t' \/ K t'
  end.
Proof.
  intros Ht. unfold activation_start, boundary_section, bind.
  destruct (activation_inhibition relay_of pre t) as [[[[i detail]|]|e] t1] eqn:E1;
    pose proof (inhibition_world _ _ _ Ht E1) as H1; cbn in H1.
  - cbn. destruct (record_outcome_returns detail None t1) as [t2 E2].
    pose proof (keeps_state _ _ _ _ _ (record_outcome_ignored _ HJ detail None) H1 E2) as H2.
    rewrite E2. by intros [= <- <-].
  - unfold energise. pose proof (on_relay_ignored _ HJ0 gpio_on t1 H1) as H2.
    destruct (on_relay relay_of put_relay gpio_on t1) as [[?|e] t2].
    2: { intros [= <- <-]. destruct (rl_pin _); auto. }
    pose proof (Henergise _ H2) as H3. cbn -[on_relay yield_point try_finally].
    match goal with |- context [on_relay relay_of put_relay ?m ?t] =>
      pose proof (on_relay_ignored _ HK m t H3) as H4;
      destruct (on_relay relay_of put_relay m t) as [[?|e] t3] end;
      [|intros [= <- <-]; auto]. cbn -[on_relay yield_point try_finally].
    destruct (yield_point _ _ _ _ false t3) as [[?|e] t4] eqn:E4;
      pose proof (keeps_state _ _ _ _ _ (yield_point_ignored _ HK false) H4 E4) as H5;
      [|intros [= <- <-]; auto].
    match goal with |- context [try_finally ?m ?f t4] =>
      assert (Hk : keeps K (try_finally m f));
      [|specialize (Hk t4 H5); destruct (try_finally m f t4) as [[?|e] t5]] end.
    { apply keeps_finally; [|by apply on_relay_ignored]. apply keeps_bind; [by apply clock_ignored|].
      intros ?. apply keeps_bind; [|intros ?; apply keeps_ret].
      destruct report; [by apply on_relay_ignored|apply keeps_ret]. }
    + by intros [= <- <-].
    + intros [= <- <-]. auto.
  - intros [= <- <-]. auto.
Qed.

Lemma trigger_world key ra rd t r t' :
  J t -> trigger relay_of put_relay max_off_attempts clock on_energise key pre ra rd t = (r, t') ->
  ended r t'.
Proof.
  intros Ht. unfold trigger, bind.
  destruct (activation_inhibition relay_of pre t) as [[[[i detail]|]|e] t1] eqn:E1;
    pose proof (inhibition_world _ _ _ Ht E1) as H1; cbn in H1.
  - destruct (record_outcome_returns detail None t1) as [t2 E2].
    pose proof (keeps_state _ _ _ _ _ (record_outcome_ignored _ HJ detail None) H1 E2) as H2.
    rewrite E2. intros [= <- <-]. by left.
  - apply Hsub in H1. unfold gets. destruct (rl_latched _).
    { destruct (record_outcome_returns "relay_latched" None t1) as [t2 E2].
      pose proof (keeps_state _ _ _ _ _ (record_outcome_ignored _ HJ _ None) H1 E2) as H2.
      rewrite E2. intros [= <- <-]. by left. }
    destruct (yield_point _ _ _ _ true t1) as [[?|e] t2] eqn:E2;
      pose proof (keeps_state _ _ _ _ _ (yield_point_ignored _ HJ true) H1 E2) as H2;
      [|intros [= <- <-]; by left].
    destruct (activation_start _ _ _ _ _ _ _ _ _ t2) as [[[res|act]|e] t3] eqn:E3;
      pose proof (start_world _ _ _ _ _ _ H2 E3) as H3; cbn in H3.
    + intros [= <- <-]. by left.
    + destruct (activation_pulse _ _ _ _ t3) as [[?|e] t4] eqn:E4;
        pose proof (keeps_state _ _ _ _ _ (pulse_ignored _ HK) H3 E4) as H4.
      * intros E. by eapply finished_ended.
      * intros E. eapply (failed_ended K); [done|auto|exact H4|exact E].
    + intros E. eapply (failed_ended (fun t => J t \/ K t)); [|auto|exact H3|exact E].
      destruct HJ as [HJ1 HJ2], HK as [HK1 HK2]. split; [naive_solver|].
      intros s [Hs|Hs]; [specialize (HJ2 s Hs)|specialize (HK2 s Hs)];
        destruct (clock s) as [[?|?] ?]; auto.
  - intros [= <- <-]. by left.
Qed.
End TriggerWorld.

(** ** Histories of the controller

    The calls other threads make on one controller: triggers, which the
    controller's lock serialises, and shutdowns. *)

Section Histories.
Context {T : Type} (relay_of : T -> relay_state) (put_relay : relay_state -> T -> T).
Context (max_off_attempts : nat) (clock : M T datetime) (on_energise : T -> T).

Inductive relay_call :=
| CallTrigger (key : option string)
| CallShutdown.

Inductive relay_step : T -> relay_call -> T -> Prop :=
| step_trigger t key pre ra rd r t' :
    relay_world relay_of put_relay clock on_energise pre ->
    trigger relay_of put_relay max_off_attempts clock on_energise key pre ra rd t = (r, t') ->
    relay_step t (CallTrigger key) t'
| step_shutdown t ready now r t' :
    on_relay relay_of put_relay (begin_shutdown max_off_attempts ready now) t = (r, t') ->
    relay_step t CallShutdown t'.

Definition safe_state (s : relay_state) : Prop := exists n, safe_calm n s.

Lemma relay_step_safe t l t' :
  (forall r t, relay_of (put_relay r t) = r) ->
  safe_state (relay_of t) -> relay_step t l t' -> safe_state (relay_of t').
Proof.
  intros Hgp [n Hn] Hstep. destruct Hstep as [t key pre ra rd r t' W E|t ready now r t' E].
  - pose proof (trigger_spec _ _ max_off_attempts _ _ _ W n key ra rd t Hn) as H. rewrite E in H.
    assert (Hnear : onT relay_of (safe_near n) t') by (destruct r; [apply H|exact H]).
    destruct Hnear as [[H1|H1] H2]; [by exists n|by exists (S n)].
  - exists n. apply (keeps_state _ _ r t t' (keeps_lift relay_of put_relay _ _ Hgp
      (begin_shutdown_keeps _ (safe_calm_stable n) max_off_attempts ready now)) Hn E).
Qed.
End Histories.

(** A controller that has just been constructed (relay.py: __init__). *)
Definition constructed (max_off_attempts : nat) (now : datetime) (s0 s : relay_state) : Prop :=
  rl_log s0 = [] /\ off_ordinary s0 /\ init max_off_attempts now s0 = (Ok tt, s).

Lemma constructed_safe max_off_attempts now s0 s :
  constructed max_off_attempts now s0 s -> safe_state s.
Proof.
  intros (Hlog & Hoff & E). exists 0%nat.
  assert (Hc : calm 0 s0).
  { split; rewrite ?Hlog; [done|done| |by intros _ ?%elem_of_nil].
    intros l1 l2 H. destruct l1; discriminate. }
  pose proof (deenergize_triple _ max_off_attempts (calm_stable 0) (calm_off 0) s0 Hc) as H.
  unfold init, bind in E. destruct (_deenergize max_off_attempts s0) as [[safe|e] s1]; [|done].
  destruct H as [H1 H2]. unfold modify in E. injection E as <-. split; [by destruct H1|].
  unfold fail_safe. cbn. destruct safe; [|done]. rewrite (H2 eq_refl). done.
Qed.

(** A world in which the relay is alone: the clock stands still and nothing
    inhibits. *)
Definition alone_clock : M relay_state datetime := ret (Aware 0).
Definition alone_trigger (max_off_attempts : nat) (key : option string) : M relay_state RelayResult :=
  trigger (fun s => s) (fun r _ => r) max_off_attempts alone_clock (fun s => s) key None true true.

Lemma alone_world :
  relay_world (fun s => s) (fun r _ => r) alone_clock (fun s : relay_state => s) None.
Proof. by split. Qed.

Definition fresh_relay : relay_state :=
  {| rl_latched := false; rl_shutdown_requested := false; rl_active_callback := None;
     rl_waiting := None; rl_last_outcome := ""; rl_last_outcome_at := Aware 0; rl_pin := true;
     rl_log := []; rl_on_plan := []; rl_off_plan := []; rl_sleep_plan := [];
     rl_shutdown_plan := [] |}.
Definition ready_relay : relay_state := snd (init 3 (Aware 0) fresh_relay).

Example alone_pulse :
  rl_log (snd (alone_trigger 3 (Some "k") ready_relay)) =
    [PinLow; PinHigh; Activated (Some "k"); PinLow; Deactivated (Some "k")].
Proof. reflexivity. Qed.

(** A shutdown between the energising and the activation report: the pin is low
    at once, and the reports still come out in order. *)
Example pulse_cut_by_shutdown :
  let s := set_plans [] [] [] [false; true] ready_relay in
  rl_log (snd (alone_trigger 3 (Some "k") s)) =
    [PinLow; PinHigh; ShutdownBegun; PinLow; Activated (Some "k"); Deactivated (Some "k"); PinLow].
Proof. reflexivity. Qed.

(** Every switch-off attempt fails: the controller latches. *)
Example stuck_relay :
  let s := set_plans [] (replicate 3 (HwRaises false OSError)) [] [] ready_relay in
  let r := alone_trigger 3 (Some "k") s in
  rl_latched (snd r) = true /\ rl_pin (snd r) = true /\
  fst r = Ok {| rr_activated := false; rr_reason := "relay_deenergize_error";
                rr_idempotency_key := Some "k"; rr_activated_at := Some (Aware 0);
                rr_latched := true |}.
Proof. repeat split. Qed.

Lemma trigger_safe {T} (relay_of : T -> relay_state) put_relay clock on_energise pre
    (W : relay_world relay_of put_relay clock on_energise pre)
    (max_off_attempts : nat) (key : option string) (ra rd : bool) (t t' : T) (r : result RelayResult)
    (Hsafe : safe_state (relay_of t))
    (Hrun : trigger relay_of put_relay max_off_attempts clock on_energise key pre ra rd t = (r, t')) :
  fail_safe (relay_of t') /\
  (highs (rl_log (relay_of t)) <= highs (rl_log (relay_of t')) <= S (highs (rl_log (relay_of t))))%nat /\
  (forall res, r = Ok res -> rr_activated res = true ->
     rl_pin (relay_of t') = false /\
     highs (rl_log (relay_of t')) = S (highs (rl_log (relay_of t)))).
Proof.
  destruct Hsafe as [n Hn].
  pose proof (trigger_spec _ _ max_off_attempts _ _ _ W n key ra rd t Hn) as H. rewrite Hrun in H.
  assert (Hnear : onT relay_of (safe_near n) t') by (destruct r; [apply H|exact H]).
  destruct Hn as [[_ <- _ _] _], Hnear as [Hc Hf]. split; [done|]. split.
  - destruct Hc as [[_ -> _ _]|[_ -> _ _]]; lia.
  - intros res -> Ha. destruct H as [_ H]. destruct (H Ha) as [[_ -> _ _] Hp]. done.
Qed.

(** C7: a trigger, whatever the GPIO calls, the clock, the sleeper and a
    concurrent shutdown do, ends with the pin low or the controller latched,
    whether it returns or raises; it drives the pin high at most once, and a
    result that claims an activation means the pin went high exactly once and is
    low again. *)
Theorem trigger_fail_safe {T} (relay_of : T -> relay_state) put_relay clock on_energise pre
    (W : relay_world relay_of put_relay clock on_energise pre)
    (max_off_attempts : nat) (key : option string) (ra rd : bool) (t t' : T) (r : result RelayResult)
    (Hsafe : safe_state (relay_of t))
    (Hrun : trigger relay_of put_relay max_off_attempts clock on_energise key pre ra rd t = (r, t')) :
  fail_safe (relay_of t') /\
  (highs (rl_log (relay_of t)) <= highs (rl_log (relay_of t')) <= S (highs (rl_log (relay_of t))))%nat /\
  (forall res, r = Ok res -> rr_activated res = true ->
     rl_pin (relay_of t') = false /\
     highs (rl_log (relay_of t')) = S (highs (rl_log (relay_of t)))).
Proof. by eapply trigger_safe. Qed.

Lemma alone_trigger_step n key t :
  relay_step (fun s => s) (fun r _ => r) n alone_clock (fun s => s) t (CallTrigger key)
    (snd (alone_trigger n key t)).
Proof.
  destruct (alone_trigger n key t) as [r t'] eqn:E.
  exact (step_trigger _ _ _ _ _ t key None true true r t' alone_world E).
Qed.

Lemma alone_shutdown_step n ready now t :
  relay_step (fun s => s) (fun r _ => r) n alone_clock (fun s => s) t CallShutdown
    (snd (begin_shutdown n ready now t)).
Proof.
  destruct (begin_shutdown n ready now t) as [r t'] eqn:E.
  apply (step_shutdown _ _ _ _ _ t ready now r t'). unfold on_relay, lift. by rewrite E.
Qed.

Lemma ready_relay_safe : safe_state ready_relay.
Proof.
  apply (constructed_safe 3 (Aware 0) fresh_relay). split; [done|]. split; [|reflexivity].
  split; intros H; inversion H.
Qed.

Lemma alone_trigger_run n key t :
  trigger (fun s => s) (fun r _ => r) n alone_clock (fun s => s) key None true true t =
    (fst (alone_trigger n key t), snd (alone_trigger n key t)).
Proof. apply surjective_pairing. Qed.

Lemma trigger_fail_safe_witness :
  fail_safe (snd (alone_trigger 3 (Some "k") ready_relay)).
Proof.
  exact (proj1 (trigger_fail_safe _ _ _ _ _ alone_world 3 (Some "k") true true ready_relay _ _
    ready_relay_safe (alone_trigger_run 3 (Some "k") ready_relay))).
Defined.

(** C8: in every history of triggers and shutdowns of a constructed controller
    the pin is never driven high after a shutdown has begun, and whenever no
    call is running the pin is low or the controller is latched. *)
Theorem relay_history_safe {T} (relay_of : T -> relay_state) put_relay clock on_energise
    (max_off_attempts : nat) (now : datetime) (s0 : relay_state) (t t' : T) (calls : list relay_call)
    (Hget : forall r t, relay_of (put_relay r t) = r)
    (Hinit : constructed max_off_attempts now s0 (relay_of t))
    (Hrun : steps (relay_step relay_of put_relay max_off_attempts clock on_energise) t calls t') :
  fail_safe (relay_of t') /\ quiet (rl_log (relay_of t')).
Proof.
  assert (Hs : safe_state (relay_of t')).
  { apply (steps_invariant (relay_step relay_of put_relay max_off_attempts clock on_energise)
      (fun t => safe_state (relay_of t))) with (a := t) (ls := calls); [|done|].
    - intros a l b Ha Hstep. by eapply relay_step_safe.
    - by eapply constructed_safe. }
  destruct Hs as [n [[_ _ Hq _] Hf]]. done.
Qed.

Lemma relay_history_safe_witness :
  let t1 := snd (begin_shutdown 3 true (Aware 0) ready_relay) in
  quiet (rl_log (snd (alone_trigger 3 (Some "k") t1))).
Proof.
  cbv zeta.
  refine (proj2 (relay_history_safe (fun s => s) (fun r _ => r) alone_clock (fun s => s) 3 (Aware 0)
    fresh_relay ready_relay _ [CallShutdown; CallTrigger (Some "k")] _ _ _)).
  - done.
  - split; [done|]. split; [|reflexivity]. split; intros H; inversion H.
  - apply steps_cons with (snd (begin_shutdown 3 true (Aware 0) ready_relay)).
    + apply alone_shutdown_step.
    + apply steps_one, alone_trigger_step.
Defined.

(** [force_relay_off] makes at most [max_attempts] calls, answers true
    exactly when one of them worked, and then the pin is low. *)
Theorem force_relay_off_spec (max_attempts : Z) (s : relay_state)
    (Hpositive : (1 <= max_attempts)%Z) (Hordinary : off_ordinary s) :
  exists b s' k,
    force_relay_off true max_attempts s = (Ok b, s') /\
    (k <= Z.to_nat max_attempts)%nat /\ rl_off_plan s' = drop k (rl_off_plan s) /\
    (b = true <-> exists i, (i < Z.to_nat max_attempts)%nat /\
                            attempt_outcome (rl_off_plan s) i = HwOk) /\
    (b = true -> rl_pin s' = false).
Proof.
  unfold force_relay_off. destruct (Z.ltb_spec max_attempts 1); [lia|]. by apply deenergize_spec.
Qed.

Lemma force_relay_off_spec_witness :
  (1 <= 3)%Z /\ exists b s' k, force_relay_off true 3 fresh_relay = (Ok b, s') /\ (k <= 3)%nat.
Proof.
  split; [lia|].
  destruct (force_relay_off_spec 3 fresh_relay ltac:(lia)) as (b & s' & k & E & Hk & _).
  - split; intros H; inversion H.
  - exists b, s', k. by split.
Defined.
