(* ===== verification/Actuation.v ===== *)
(** * The actuation coordinator: gate_controller/actuation.py

    [ActuationCoordinator.actuate] over the store it is given, the relay
    controller of Relay.v and the two clocks.  The store is an interface: its
    operations may fail at any call, before or after their effect, and the laws
    say only what the coordinator relies on.  ActuationStore.v shows that the
    SQLite store satisfies them.

    The world records, as a ghost list, every moment the pin was driven high
    with the store as it was at that moment. *)

From S2P Require Import Prelude Models Json Relay.

(** ** The store the coordinator uses *)

Class StoreOps (St : Type) := {
  so_terminal_outcome : string -> M St (option TerminalOutcome);
  so_claim_actuation : string -> datetime -> datetime -> Z -> option string -> GateEvent ->
    option (dict json) -> option (string * datetime) -> M St ActuationClaim;
  so_mark_actuation_attempt : ActuationClaim -> datetime -> GateEvent -> option (dict json) ->
    option (string * datetime) -> Z -> option string -> M St unit;
  so_finalize_actuation : ActuationClaim -> GateEvent -> string -> option string ->
    option (dict json) -> option (string * datetime) -> bool -> M St Z;
  so_record_terminal_outcome : GateEvent -> string -> option string -> option (dict json) ->
    option (string * datetime) -> M St (option Z);
  so_ensure_outbox : Z -> dict json -> M St (option Z);
  so_queue_command_ack : string -> string -> option string -> datetime -> M St unit;
  so_recover : M St Z;
}.

(** A property of the store that all calls but the finalization keep. *)
Record durable {St} {ops : StoreOps St} (I : St -> Prop) : Prop := {
  du_terminal k : keeps I (so_terminal_outcome k);
  du_claim k t c m b e p a : keeps I (so_claim_actuation k t c m b e p a);
  du_mark c t e p a m b : keeps I (so_mark_actuation_attempt c t e p a m b);
  du_record e s d p a : keeps I (so_record_terminal_outcome e s d p a);
  du_ensure i p : keeps I (so_ensure_outbox i p);
  du_ack i s d t : keeps I (so_queue_command_ack i s d t);
  du_recover : keeps I so_recover;
}.

(** What the coordinator relies on.  [seen key]: a claim for the key exists;
    [attempted key m boot]: the claim of the key carries the durable marker of an
    activation attempt made at the monotonic reading [m] of that boot;
    [issued claim]: the claim was handed out for its key. *)
Class StoreLaws (St : Type) {ops : StoreOps St} := {
  store_ok : St -> Prop;
  seen : string -> St -> Prop;
  attempted : string -> Z -> option string -> St -> Prop;
  issued : ActuationClaim -> St -> Prop;

  law_ok : durable store_ok /\
    forall c e s d p a r, keeps store_ok (so_finalize_actuation c e s d p a r);
  law_seen k : durable (fun s => store_ok s /\ seen k s) /\
    forall c e s d p a r, keeps (fun st => store_ok st /\ seen k st)
                            (so_finalize_actuation c e s d p a r);
  law_issued c : durable (fun s => store_ok s /\ issued c s) /\
    forall c' e s d p a r, keeps (fun st => store_ok st /\ issued c st)
                             (so_finalize_actuation c' e s d p a r);
  (** Only the finalization of the key's own claim may drop a marker, and only
      when it does not retain the attempt. *)
  law_attempted k m b : durable (fun s => store_ok s /\ attempted k m b s) /\
    forall c e s d p a r,
      ac_idempotency_key c <> k \/ (r = true /\ s <> "expired" /\ s <> "") ->
      keeps (fun st => store_ok st /\ issued c st /\ attempted k m b st)
        (so_finalize_actuation c e s d p a r);
  law_claim k t cutoff m b e p a s c s' :
    so_claim_actuation k t cutoff m b e p a s = (Ok c, s') -> store_ok s ->
    ac_status c = "claimed" ->
    ac_idempotency_key c = k /\ ~ seen k s /\ seen k s' /\ issued c s' /\
    forall boot k' m', b = Some boot -> attempted k' m' (Some boot) s -> (m' < m)%Z;
  law_mark c t e p a m b s s' :
    so_mark_actuation_attempt c t e p a m b s = (Ok tt, s') -> store_ok s -> issued c s ->
    attempted (ac_idempotency_key c) m b s';
}.

(** ** The world of one gate *)

Record energisation (St : Type) := {
  en_key : string;
  (** The monotonic reading the claim was made with. *)
  en_claim : Z;
  (** The number of monotonic readings taken before the pin went high. *)
  en_index : nat;
  (** The process that drove the pin. *)
  en_process : nat;
  en_store : St;
}.
Arguments en_key {St} _.
Arguments en_claim {St} _.
Arguments en_index {St} _.
Arguments en_process {St} _.
Arguments en_store {St} _.

Record world (St : Type) := {
  w_store : St;
  w_relay : relay_state;
  (** [_last_attempt_monotonic] *)
  w_last_attempt : option Z;
  (** Readings taken of the two clocks. *)
  w_wall : nat;
  w_mono : nat;
  (** The [inhibition] variable the check writes. *)
  w_inhibition : option (string * string);
  w_process : nat;
  w_energised : list (energisation St);
}.
Arguments w_store {St} _.
Arguments w_relay {St} _.
Arguments w_last_attempt {St} _.
Arguments w_wall {St} _.
Arguments w_mono {St} _.
Arguments w_inhibition {St} _.
Arguments w_process {St} _.
Arguments w_energised {St} _.

Section World.
Context {St : Type}.
Implicit Types w : world St.

Definition put_store (s : St) w : world St :=
  {| w_store := s; w_relay := w_relay w; w_last_attempt := w_last_attempt w;
     w_wall := w_wall w; w_mono := w_mono w; w_inhibition := w_inhibition w;
     w_process := w_process w; w_energised := w_energised w |}.
Definition put_relay (r : relay_state) w : world St :=
  {| w_store := w_store w; w_relay := r; w_last_attempt := w_last_attempt w;
     w_wall := w_wall w; w_mono := w_mono w; w_inhibition := w_inhibition w;
     w_process := w_process w; w_energised := w_energised w |}.
Definition put_last (m : option Z) w : world St :=
  {| w_store := w_store w; w_relay := w_relay w; w_last_attempt := m;
     w_wall := w_wall w; w_mono := w_mono w; w_inhibition := w_inhibition w;
     w_process := w_process w; w_energised := w_energised w |}.
Definition put_wall (n : nat) w : world St :=
  {| w_store := w_store w; w_relay := w_relay w; w_last_attempt := w_last_attempt w;
     w_wall := n; w_mono := w_mono w; w_inhibition := w_inhibition w;
     w_process := w_process w; w_energised := w_energised w |}.
Definition put_mono (n : nat) w : world St :=
  {| w_store := w_store w; w_relay := w_relay w; w_last_attempt := w_last_attempt w;
     w_wall := w_wall w; w_mono := n; w_inhibition := w_inhibition w;
     w_process := w_process w; w_energised := w_energised w |}.
Definition put_inhibition (i : option (string * string)) w : world St :=
  {| w_store := w_store w; w_relay := w_relay w; w_last_attempt := w_last_attempt w;
     w_wall := w_wall w; w_mono := w_mono w; w_inhibition := i;
     w_process := w_process w; w_energised := w_energised w |}.
(** The pin goes high on behalf of the claim of [key] made at [claim]. *)
Definition note_energised (key : string) (claim : Z) w : world St :=
  {| w_store := w_store w; w_relay := w_relay w; w_last_attempt := w_last_attempt w;
     w_wall := w_wall w; w_mono := w_mono w; w_inhibition := w_inhibition w;
     w_process := w_process w;
     w_energised := w_energised w ++
       [{| en_key := key; en_claim := claim; en_index := w_mono w;
           en_process := w_process w; en_store := w_store w |}] |}.
End World.

(** ** ActuationCoordinator *)

Section Coordinator.
Context {St : Type} `{StoreOps St}.
(** The readings of the two clocks, in microseconds. *)
Context (wall_clock : nat -> datetime) (mono_clock : nat -> Z).
(** [_cooldown], [_boot_id] and the relay's [_max_off_attempts]. *)
Context (cooldown : Z) (boot_id : option string) (max_off_attempts : nat).

Definition _clock : M (world St) datetime := fun w =>
  (Ok (wall_clock (w_wall w)), put_wall (S (w_wall w)) w).
Definition _monotonic_clock : M (world St) Z := fun w =>
  (Ok (mono_clock (w_mono w)), put_mono (S (w_mono w)) w).
Definition on_store {A} (m : M St A) : M (world St) A := lift w_store put_store m.

Definition execution (opened : bool) (reason : string) (event_id : option Z) (status : string)
    (detail : option string) : ActuationExecution :=
  {| ae_opened := opened; ae_reason := reason; ae_event_id := event_id;
     ae_terminal_status := status; ae_terminal_detail := detail |}.

(** actuation.py: _reconcile_outbox *)
Definition _reconcile_outbox (event_id : option Z) (payload : option (dict json))
  : M (world St) unit :=
  match event_id, payload with
  | Some i, Some p => on_store (so_ensure_outbox i p) ;! ret tt
  | _, _ => ret tt
  end.

(** [terminal.detail or terminal.status] *)
Definition detail_or_status (t : TerminalOutcome) : string :=
  match to_detail t with Some (String a s) => String a s | _ => to_status t end.

(** The branch for a key that already has a terminal outcome. *)
Definition replay_terminal (terminal : TerminalOutcome) (outbox_payload : option (dict json))
    (command_ack : option (string * datetime)) : M (world St) ActuationExecution :=
  _reconcile_outbox (to_event_id terminal) outbox_payload ;!
  match command_ack with
  | Some (command_id, at_) =>
      on_store (so_queue_command_ack command_id (to_status terminal) (to_detail terminal) at_)
  | None => ret tt
  end ;!
  ret (execution false (detail_or_status terminal) (to_event_id terminal)
         (to_status terminal) (to_detail terminal)).

Definition cooldown_event (event : GateEvent) (key : string) (claim_time : datetime) : GateEvent :=
  {| ge_source := ge_source event; ge_reason := "cooldown"; ge_opened := false;
     ge_idempotency_key := Some key; ge_received_at := ge_received_at event;
     ge_decision_at := Some claim_time; ge_relay_activated_at := None;
     ge_authorised_plate := ge_authorised_plate event;
     ge_observed_plate := ge_observed_plate event;
     ge_ocr_confidence := ge_ocr_confidence event |}.

(** [self._clock() if inhibition is not None else event.decision_at], then the
    finalized event. *)
Definition finalized_event (event : GateEvent) (key : string) (decision_at : option datetime)
    (relay_result : RelayResult) : GateEvent :=
  {| ge_source := ge_source event;
     ge_reason := if rr_activated relay_result then ge_reason event else rr_reason relay_result;
     ge_opened := rr_activated relay_result;
     ge_idempotency_key := Some key; ge_received_at := ge_received_at event;
     ge_decision_at := decision_at; ge_relay_activated_at := rr_activated_at relay_result;
     ge_authorised_plate := ge_authorised_plate event;
     ge_observed_plate := ge_observed_plate event;
     ge_ocr_confidence := ge_ocr_confidence event |}.

Definition terminal_status (inhibition : option (string * string)) (r : RelayResult) : string :=
  match inhibition with
  | Some (status, _) => status
  | None => if rr_activated r then "completed" else "failed"
  end.
Definition terminal_detail (inhibition : option (string * string)) (r : RelayResult)
  : option string :=
  match inhibition with
  | Some (_, detail) => Some detail
  | None => if rr_activated r then None else Some (rr_reason r)
  end.

(** check_inhibition *)
Definition check_inhibition (pre_activation_inhibit : M (world St) (option (string * string)))
  : M (world St) (option (string * string)) :=
  let! i := pre_activation_inhibit in
  modify (put_inhibition i) ;! ret i.

(** The call of [self._relay.trigger] with its keyword arguments. *)
Definition trigger_relay (key : string) (monotonic_now : Z)
    (pre_activation_inhibit : option (M (world St) (option (string * string))))
    (on_activation on_deactivation : bool) : M (world St) RelayResult :=
  modify (put_inhibition None) ;!
  trigger w_relay put_relay max_off_attempts _clock (note_energised key monotonic_now)
    (Some key) (check_inhibition <$> pre_activation_inhibit) on_activation on_deactivation.

(** The code after the relay call. *)
Definition finish (claim : ActuationClaim) (event : GateEvent) (key : string)
    (outbox_payload : option (dict json)) (command_ack : option (string * datetime))
    (relay_result : RelayResult) : M (world St) ActuationExecution :=
  let! inhibition := gets w_inhibition in
  let activation_attempted :=
    bool_decide (inhibition = None) && negb (String.eqb (rr_reason relay_result) "relay_latched") in
  (if activation_attempted then
     let! now := _monotonic_clock in modify (put_last (Some now))
   else ret tt) ;!
  let! decision_at :=
    match inhibition with
    | Some _ => let! now := _clock in ret (Some now)
    | None => ret (ge_decision_at event)
    end in
  let finalized := finalized_event event key decision_at relay_result in
  let status := terminal_status inhibition relay_result in
  let detail := terminal_detail inhibition relay_result in
  try_except
    (let! event_id := on_store (so_finalize_actuation claim finalized status detail
                        outbox_payload command_ack activation_attempted) in
     ret (execution (rr_activated relay_result) (ge_reason finalized) (Some event_id) status detail))
    (fun _ => ret (execution false "indeterminate_claim" None "failed" (Some "indeterminate_claim"))).

(** [self._last_attempt_monotonic is not None and monotonic_now - last < cooldown] *)
Definition in_process_cooldown (monotonic_now : Z) (last : option Z) : bool :=
  match last with Some l => (monotonic_now - l <? cooldown)%Z | None => false end.

(** The claim was granted: check the process memory, mark, trigger, finalize. *)
Definition act_on_claim (claim : ActuationClaim) (claim_time : datetime) (monotonic_now : Z)
    (event : GateEvent) (key : string) (outbox_payload : option (dict json))
    (command_ack : option (string * datetime))
    (pre_activation_inhibit : option (M (world St) (option (string * string))))
    (on_activation on_deactivation : bool) : M (world St) ActuationExecution :=
  let! last := gets w_last_attempt in
  if in_process_cooldown monotonic_now last then
    try_except
      (let! event_id := on_store (so_finalize_actuation claim (cooldown_event event key claim_time)
                          "failed" (Some "cooldown") outbox_payload command_ack false) in
       ret (execution false "cooldown" (Some event_id) "failed" (Some "cooldown")))
      (fun _ => ret (execution false "indeterminate_claim" None "failed" (Some "indeterminate_claim")))
  else
    let! marked := try_except
      (on_store (so_mark_actuation_attempt claim claim_time event outbox_payload command_ack
         monotonic_now boot_id) ;! ret true)
      (fun _ => ret false) in
    if marked : bool then
      let! relay_result := trigger_relay key monotonic_now pre_activation_inhibit
                             on_activation on_deactivation in
      finish claim event key outbox_payload command_ack relay_result
    else ret (execution false "actuation_inhibit_error" None "failed" (Some "actuation_inhibit_error")).

(** actuation.py: actuate *)
Definition actuate (event : GateEvent) (outbox_payload : option (dict json))
    (command_ack : option (string * datetime))
    (pre_activation_inhibit : option (M (world St) (option (string * string))))
    (on_activation on_deactivation : bool) : M (world St) ActuationExecution :=
  match ge_idempotency_key event with
  | None | Some EmptyString => raise (ValueError "actuation events require an idempotency key")
  | Some key =>
      let! terminal := on_store (so_terminal_outcome key) in
      match terminal with
      | Some t => replay_terminal t outbox_payload command_ack
      | None =>
          let! claim_time := match ge_decision_at event with Some t => ret t | None => _clock end in
          let! claimed := try_except
            (let! monotonic_now := _monotonic_clock in
             let! claim := on_store (so_claim_actuation key claim_time
               (dt_minus claim_time cooldown) (monotonic_now - cooldown)%Z boot_id event
               outbox_payload command_ack) in
             ret (Some (monotonic_now, claim)))
            (fun _ => ret None) in
          match claimed with
          | None =>
              ret (execution false "actuation_inhibit_error" None "failed" (Some "actuation_inhibit_error"))
          | Some (monotonic_now, claim) =>
              if String.eqb (ac_status claim) "cooldown" then
                let! event_id := on_store (so_record_terminal_outcome
                  (cooldown_event event key claim_time) "failed" (Some "cooldown")
                  outbox_payload command_ack) in
                ret (execution false "cooldown" event_id "failed" (Some "cooldown"))
              else if negb (String.eqb (ac_status claim) "claimed") then
                ret (execution false (ac_status claim) None "failed" (Some (ac_status claim)))
              else act_on_claim claim claim_time monotonic_now event key outbox_payload
                     command_ack pre_activation_inhibit on_activation on_deactivation
          end
      end
  end.
End Coordinator.

(** ** Histories of a gate *)

Section Histories.
Context {St : Type} `{laws : StoreLaws St}.
Context (wall_clock : nat -> datetime) (mono_clock : nat -> Z).
Context (cooldown : Z) (boot_id : option string) (max_off_attempts : nat).

(** The caller's inhibition check may look at everything and read the wall
    clock; it changes nothing else. *)
Definition only_reads (f : M (world St) (option (string * string))) : Prop :=
  forall w, exists r n, f w = (r, put_wall n w).

Definition reads_option (pre : option (M (world St) (option (string * string)))) : Prop :=
  forall f, pre = Some f -> only_reads f.

Definition run_actuate event payload ack pre ra rd :=
  actuate wall_clock mono_clock cooldown boot_id max_off_attempts event payload ack pre ra rd.

(** A new process on the same boot: the store has been recovered, the process
    memory is empty, the relay has been constructed anew. *)
Record restarted (w w' : world St) : Prop := {
  re_store : w_store w' = snd (so_recover (w_store w));
  re_last : w_last_attempt w' = None;
  re_process : w_process w' = S (w_process w);
  re_energised : w_energised w' = w_energised w;
  re_mono : (w_mono w <= w_mono w')%nat;
}.

Inductive gate_label :=
| LActuate (key : option string)
| LCrash (key : option string)
| LRestart.

(** A call that returns, or raises an ordinary exception, and leaves the process
    running; a call that ends the process; a restart between calls. *)
Inductive gate_step : world St -> gate_label -> world St -> Prop :=
| gs_actuate w event payload ack pre ra rd r w' :
    reads_option pre -> run_actuate event payload ack pre ra rd w = (r, w') ->
    r <> Err BaseExc -> gate_step w (LActuate (ge_idempotency_key event)) w'
| gs_crash w event payload ack pre ra rd r w1 w' :
    reads_option pre -> run_actuate event payload ack pre ra rd w = (r, w1) ->
    restarted w1 w' -> gate_step w (LCrash (ge_idempotency_key event)) w'
| gs_restart w w' : restarted w w' -> gate_step w LRestart w'.

(** ** The invariant *)

(** [e1] came before [e2]. *)
Definition spaced (e1 e2 : energisation St) : Prop :=
  (is_Some boot_id -> (en_claim e1 + cooldown < en_claim e2)%Z) /\
  (en_process e1 = en_process e2 -> (mono_clock (en_index e1) + cooldown <= en_claim e2)%Z).

Fixpoint all_spaced (es : list (energisation St)) : Prop :=
  match es with
  | [] => True
  | e :: es' => Forall (spaced e) es' /\ all_spaced es'
  end.

(** What is known of an energisation, given the store and the world. *)
Definition recorded (w : world St) (e : energisation St) : Prop :=
  seen (en_key e) (w_store w) /\ attempted (en_key e) (en_claim e) boot_id (w_store w) /\
  attempted (en_key e) (en_claim e) boot_id (en_store e) /\
  (en_index e <= w_mono w)%nat /\ (en_process e <= w_process w)%nat.

Definition remembered (w : world St) (e : energisation St) : Prop :=
  en_process e = w_process w ->
  exists j, w_last_attempt w = Some (mono_clock j) /\ (en_index e <= j)%nat.

Record gate_core (w : world St) : Prop := {
  gc_store : store_ok (w_store w);
  gc_recorded : Forall (recorded w) (w_energised w);
  gc_keys : NoDup (en_key <$> w_energised w);
  gc_spaced : all_spaced (w_energised w);
}.

Definition gate_ok (w : world St) : Prop :=
  gate_core w /\ Forall (remembered w) (w_energised w).

Lemma all_spaced_snoc es e :
  all_spaced es -> Forall (fun e' => spaced e' e) es -> all_spaced (es ++ [e]).
Proof.
  induction es as [|e' es IH]; cbn; [by repeat constructor|].
  intros [H1 H2] [H3 H4]%list.Forall_cons. split; [|by apply IH].
  apply list.Forall_app. split; [done|]. by apply Forall_singleton.
Qed.

(** A store call that keeps what is known of every recorded energisation. *)
Lemma on_store_core {A} (m : M St A) (P : St -> Prop) w r w' :
  (forall s, P s -> store_ok s) ->
  keeps P m -> P (w_store w) ->
  (forall k, keeps (fun s => store_ok s /\ seen k s) m) ->
  (forall e, e ∈ w_energised w ->
     triple (fun s => P s /\ attempted (en_key e) (en_claim e) boot_id s) m
       (fun _ => attempted (en_key e) (en_claim e) boot_id)
       (attempted (en_key e) (en_claim e) boot_id)) ->
  on_store m w = (r, w') -> gate_core w ->
  exists s', w' = put_store s' w /\ P s' /\ gate_core w'.
Proof.
  intros HPok HP HPw Hseen Hatt E Hw. unfold on_store, lift in E.
  destruct (m (w_store w)) as [r1 s'] eqn:Em. injection E as <- <-.
  exists s'. split; [done|]. pose proof (keeps_state _ _ _ _ _ HP HPw Em) as HP'.
  split; [done|]. destruct Hw as [Hst Hrec Hkeys Hsp]. split; cbn; [auto| |done|done].
  rewrite list.Forall_forall in Hrec |- *. intros e He. destruct (Hrec e He) as (H1 & H2 & H3 & H4).
  split; [|split; [|done]].
  - destruct (keeps_state _ _ _ _ _ (Hseen (en_key e)) (conj Hst H1) Em). done.
  - specialize (Hatt e He (w_store w) (conj HPw H2)). rewrite Em in Hatt. by destruct r1.
Qed.

(** The remembered part only depends on the process and its memory. *)
Lemma remembered_same w w' es :
  w_process w' = w_process w -> w_last_attempt w' = w_last_attempt w ->
  Forall (remembered w) es -> Forall (remembered w') es.
Proof.
  intros Hp Hl H1. eapply Forall_impl; [|exact H1]. unfold remembered. intros e. by rewrite Hp, Hl.
Qed.

(** A call of which every law says it keeps things. *)
Record harmless {A} (m : M St A) : Prop := {
  ha_ok : keeps store_ok m;
  ha_seen k : keeps (fun s => store_ok s /\ seen k s) m;
  ha_attempted k t b : keeps (fun s => store_ok s /\ attempted k t b s) m;
  ha_issued c : keeps (fun s => store_ok s /\ issued c s) m;
}.

Lemma harmless_of {A} (m : M St A) : (forall I, durable I -> keeps I m) -> harmless m.
Proof.
  intros Hm. split; intros; apply Hm; apply law_ok || apply law_seen || apply law_attempted
    || apply law_issued.
Qed.

Lemma harmless_gate {A} (m : M St A) w r w' :
  harmless m -> gate_ok w -> on_store m w = (r, w') ->
  exists s', w' = put_store s' w /\ gate_ok w' /\
    (forall c, issued c (w_store w) -> issued c s') /\
    (forall k, seen k (w_store w) -> seen k s') /\
    (forall k t b, attempted k t b (w_store w) -> attempted k t b s').
Proof.
  intros Hm [Hw Hrem] E. pose proof (gc_store _ Hw) as Hok.
  destruct (on_store_core m store_ok w r w') as (s' & -> & Hs' & Hcore); try done.
  { apply Hm. }
  { apply Hm. }
  { intros e He. eapply triple_conseq; [apply (ha_attempted _ Hm (en_key e) (en_claim e) boot_id)|done|by intros _ s []|by intros s []]. }
  unfold on_store, lift in E. destruct (m (w_store w)) as [r1 s1] eqn:Em.
  injection E as _ Es. exists s1.
  assert (w_store (put_store s1 w) = s') as Hs1 by (by rewrite Es). cbn in Hs1. subst s1.
  split; [done|]. split; [split; [done|by eapply remembered_same]|].
  split; [|split]; [intros c Hc|intros k Hk|intros k t b Hk].
  - eapply (proj2 (keeps_state _ _ _ _ _ (ha_issued _ Hm c) (conj Hok Hc) Em)).
  - eapply (proj2 (keeps_state _ _ _ _ _ (ha_seen _ Hm k) (conj Hok Hk) Em)).
  - eapply (proj2 (keeps_state _ _ _ _ _ (ha_attempted _ Hm k t b) (conj Hok Hk) Em)).
Qed.

Lemma harmless_keeps {A} (m : M St A) : harmless m -> keeps gate_ok (on_store m).
Proof.
  intros Hm w Hw. destruct (on_store m w) as [r w'] eqn:E.
  destruct (harmless_gate m w r w' Hm Hw E) as (s' & -> & ? & _). by destruct r.
Qed.

Lemma core_wall n w : gate_core w -> gate_core (put_wall n w).
Proof. by intros []. Qed.

Lemma recorded_mono n w e : (w_mono w <= n)%nat -> recorded w e -> recorded (put_mono n w) e.
Proof. intros Hn (?&?&?&?&?). repeat split; try done. cbn. lia. Qed.

Lemma core_mono n w : (w_mono w <= n)%nat -> gate_core w -> gate_core (put_mono n w).
Proof.
  intros Hn [????]. split; try done. eapply Forall_impl; [|done]. intros e. by apply recorded_mono.
Qed.

Lemma clock_keeps_ok : keeps gate_ok (_clock wall_clock).
Proof. intros w [Hw Hrem]. split; [by apply core_wall|by eapply remembered_same]. Qed.

Lemma monotonic_clock_keeps_ok : keeps gate_ok (_monotonic_clock mono_clock).
Proof. intros w [Hw Hrem]. split; [apply core_mono; [lia|done]|by eapply remembered_same]. Qed.

Hint Resolve harmless_keeps clock_keeps_ok monotonic_clock_keeps_ok : gate.

Lemma harmless_terminal k : harmless (so_terminal_outcome k).
Proof. apply harmless_of. intros I HI. apply HI. Qed.
Lemma harmless_record e s d p a : harmless (so_record_terminal_outcome e s d p a).
Proof. apply harmless_of. intros I HI. apply HI. Qed.
Lemma harmless_ensure i p : harmless (so_ensure_outbox i p).
Proof. apply harmless_of. intros I HI. apply HI. Qed.
Lemma harmless_ack i s d t : harmless (so_queue_command_ack i s d t).
Proof. apply harmless_of. intros I HI. apply HI. Qed.
Lemma harmless_claim k t c m b e p a : harmless (so_claim_actuation k t c m b e p a).
Proof. apply harmless_of. intros I HI. apply HI. Qed.
Lemma harmless_mark c t e p a m b : harmless (so_mark_actuation_attempt c t e p a m b).
Proof. apply harmless_of. intros I HI. apply HI. Qed.
Lemma harmless_recover : harmless so_recover.
Proof. apply harmless_of. intros I HI. apply HI. Qed.
Hint Resolve harmless_terminal harmless_record harmless_ensure harmless_ack harmless_claim
  harmless_mark harmless_recover : gate.

Lemma replay_terminal_ok t payload ack : keeps gate_ok (replay_terminal t payload ack).
Proof. unfold replay_terminal, _reconcile_outbox. keeps_tac. Qed.

(** ** From the claim to the pulse *)

(** The claim [c] of [key], made at the monotonic reading [m], is open; the key
    has never been energised, and a pulse now keeps the distance. *)
Record claim_open (c : ActuationClaim) (key : string) (m : Z) (w : world St) : Prop := {
  co_ok : gate_ok w;
  co_key : ac_idempotency_key c = key;
  co_issued : issued c (w_store w);
  co_seen : seen key (w_store w);
  co_fresh : key ∉ (en_key <$> w_energised w);
  co_spaced : Forall (fun e => is_Some boot_id -> (en_claim e + cooldown < m)%Z) (w_energised w);
}.

Definition distant (m : Z) (w : world St) : Prop :=
  Forall (fun e => en_process e = w_process w ->
                   (mono_clock (en_index e) + cooldown <= m)%Z) (w_energised w).

Lemma claim_granted key t event payload ack :
  post gate_ok
    (let! m := _monotonic_clock mono_clock in
     let! c := on_store (so_claim_actuation key t (dt_minus t cooldown) (m - cooldown)%Z boot_id
                           event payload ack) in
     ret (Some (m, c)))
    (fun r w => gate_ok w /\
       forall m c, r = Ok (Some (m, c)) -> ac_status c = "claimed" -> claim_open c key m w).
Proof.
  intros w r w' Hw. unfold bind. cbn [_monotonic_clock].
  set (m := mono_clock (w_mono w)). set (w1 := put_mono (S (w_mono w)) w).
  assert (Hw1 : gate_ok w1) by (exact (monotonic_clock_keeps_ok w Hw)).
  destruct (on_store _ w1) as [[c|e] w2] eqn:E;
    destruct (harmless_gate _ _ _ _ (harmless_claim _ _ _ _ _ _ _ _) Hw1 E)
      as (s' & -> & Hok & _); [|by intros [= <- <-]].
  intros [= <- <-]. split; [done|]. intros m' c' [= <- <-] Hstatus.
  unfold on_store, lift in E.
  destruct (so_claim_actuation _ _ _ _ _ _ _ _ (w_store w1)) as [r1 s1] eqn:Ec.
  injection E as -> E. subst s1.
  destruct Hw1 as [Hcore _]. pose proof (gc_recorded _ Hcore) as Hrec.
  destruct (law_claim _ _ _ _ _ _ _ _ _ _ _ Ec (gc_store _ Hcore) Hstatus)
    as (Hk & Hnew & Hseen & Hiss & Hfar).
  split; try done.
  - intros (e & -> & He)%list_elem_of_fmap. apply Hnew.
    rewrite list.Forall_forall in Hrec. by destruct (Hrec e He).
  - apply list.Forall_forall. intros e He [b Hb]. rewrite list.Forall_forall in Hrec.
    destruct (Hrec e He) as (_ & Hatt & _). rewrite Hb in Hatt.
    specialize (Hfar b (en_key e) (en_claim e) Hb Hatt). lia.
Qed.

Context (Hmono : forall i j, (i <= j)%nat -> (mono_clock i <= mono_clock j)%Z).

(** The process memory puts the new pulse at a distance from its own. *)
Lemma memory_distant w m :
  gate_ok w -> in_process_cooldown cooldown m (w_last_attempt w) = false -> distant m w.
Proof.
  intros [_ Hrem] Hcool. eapply Forall_impl; [|exact Hrem]. intros e He Hp.
  destruct (He Hp) as (j & Hj & Hle). rewrite Hj in Hcool. cbn in Hcool.
  specialize (Hmono _ _ Hle). lia.
Qed.

(** Dropping the marker of a key that was never energised. *)
Lemma finalize_fresh c key m event status detail payload ack retain :
  post (claim_open c key m)
    (on_store (so_finalize_actuation c event status detail payload ack retain))
    (fun _ => gate_ok).
Proof.
  intros w r w' [[Hw Hrem] Hk Hi Hs Hf Hsp] E.
  destruct (on_store_core (so_finalize_actuation c event status detail payload ack retain)
    (fun s => store_ok s /\ issued c s) w r w') as (s' & -> & _ & Hcore); try done.
  - by intros s [].
  - apply (proj2 (law_issued c)).
  - split; [apply Hw|done].
  - intros k. apply (proj2 (law_seen k)).
  - intros e He. eapply triple_conseq;
      [apply (proj2 (law_attempted (en_key e) (en_claim e) boot_id)); left| | |].
    + rewrite Hk. intros ->. apply Hf. by apply list_elem_of_fmap_2.
    + intros s [[??]?]. done.
    + by intros _ s (?&?&?).
    + by intros s (?&?&?).
Qed.

(** ** The relay call *)

Definition armed (c : ActuationClaim) (key : string) (m : Z) (w : world St) : Prop :=
  claim_open c key m w /\ distant m w /\ attempted key m boot_id (w_store w).

(** The pin has been driven for the claim; the process memory does not know. *)
Definition fired (c : ActuationClaim) (key : string) (m : Z) (w : world St) : Prop :=
  gate_core w /\ issued c (w_store w) /\ ac_idempotency_key c = key /\
  w_inhibition w = None.

Lemma armed_ignores c key m : ignores_relay put_relay (_clock wall_clock) (armed c key m).
Proof.
  split.
  - intros r w ([[[????] ?]?????] & ? & ?). split; [|done]. split; done.
  - intros w ([[[????] ?]?????] & ? & ?). split; [|done]. split; done.
Qed.

Lemma armed_open_ignores c key m :
  ignores_relay put_relay (_clock wall_clock) (fun w => armed c key m w /\ w_inhibition w = None).
Proof.
  destruct (armed_ignores c key m) as [H1 H2]. split; [by intros r w [? ?]; split; [apply H1|]|].
  intros w [Hw Hi]. by split; [exact (H2 w Hw)|].
Qed.

Lemma fired_ignores c key m : ignores_relay put_relay (_clock wall_clock) (fired c key m).
Proof.
  split.
  - intros r w ([????] & ? & ? & ?). by split.
  - intros w ([????] & ? & ? & ?). by split.
Qed.

Lemma armed_fires c key m w :
  armed c key m w -> w_inhibition w = None -> fired c key m (note_energised key m w).
Proof.
  intros ([[[Hst Hrec Hkeys Hsp] Hrem] Hk Hi Hs Hf Hfar] & Hd & Ha) Hinh. split; [|done].
  split; cbn; [done| | |].
  - apply list.Forall_app. split; [done|]. apply Forall_singleton. by repeat split; cbn.
  - rewrite fmap_app. apply list.NoDup_app. split; [done|]. split; [|apply NoDup_singleton].
    intros k Hk' ->%list_elem_of_singleton. done.
  - apply all_spaced_snoc; [done|]. apply list.Forall_forall. intros e He.
    rewrite list.Forall_forall in Hfar. unfold distant in Hd. rewrite list.Forall_forall in Hd.
    split; cbn; [by apply Hfar|by apply Hd].
Qed.

Lemma trigger_relay_spec c key m pre ra rd :
  reads_option pre ->
  post (armed c key m)
    (trigger_relay wall_clock max_off_attempts key m pre ra rd)
    (fun r w => match r with
                | Ok res => armed c key m w \/
                    (fired c key m w /\ rr_reason res <> "relay_latched")
                | Err e => armed c key m w \/ (fired c key m w /\ e = BaseExc)
                end).
Proof.
  intros Hpre w r w' Hw. unfold trigger_relay, bind, modify. cbn beta iota.
  assert (Hw1 : (fun w => armed c key m w /\ (pre = None -> w_inhibition w = None))
                  (put_inhibition None w)).
  { split; [|done]. by destruct Hw as ([[[????] ?]?????] & ? & ?); repeat split. }
  intros E.
  pose proof (trigger_world w_relay put_relay max_off_attempts (_clock wall_clock)
    (note_energised key m) (check_inhibition <$> pre)
    (fun w => armed c key m w /\ (pre = None -> w_inhibition w = None))
    (fun w => armed c key m w /\ w_inhibition w = None) (fired c key m)) as H.
  eapply H in E; [|..|exact Hw1].
  - unfold ended in E. destruct r; naive_solver.
  - destruct (armed_ignores c key m) as [H1 H2]. split; [by intros r1 w1 [? ?]; split; [apply H1|]|].
    intros w1 [H3 H4]. by split; [exact (H2 w1 H3)|].
  - apply armed_open_ignores.
  - apply fired_ignores.
  - intros w1. by do 2 eexists.
  - naive_solver.
  - intros w1 [? ?]. by apply armed_fires.
  - intros f Hf w1 [Hw2 Hc] r1 w2. destruct pre as [g|]; [|done]. injection Hf as <-.
    unfold check_inhibition, bind, modify, ret. destruct (Hpre g eq_refl w1) as (r2 & n & ->).
    assert (Hn : forall i, armed c key m (put_inhibition i (put_wall n w1))).
    { intros i. by destruct Hw2 as ([[[????] ?]?????] & ? & ?); repeat split. }
    destruct r2 as [[i|]|e]; intros [= <- <-]; (split; [apply Hn || exact (Hn None)|done]).
  - intros Hnone w1 [? ?]. destruct pre; naive_solver.
Qed.

(** ** After the relay call *)

(** The reading the process remembers covers every energisation so far. *)
Lemma remember_all w :
  gate_core w ->
  gate_ok (put_last (Some (mono_clock (w_mono w))) (put_mono (S (w_mono w)) w)).
Proof.
  intros Hw. pose proof (core_mono (S (w_mono w)) w ltac:(lia) Hw) as [????].
  split; [by split|]. destruct Hw as [_ Hrec _ _].
  eapply Forall_impl; [|exact Hrec]. intros e (_ & _ & _ & Hidx & _) _. cbn. eauto.
Qed.

Lemma remember_open c key m :
  keeps (claim_open c key m)
    (let! now := _monotonic_clock mono_clock in modify (put_last (Some now))).
Proof.
  intros w [[Hw Hrem] Hk Hi Hs Hf Hsp]. split; try done. by apply remember_all.
Qed.

Lemma clock_open c key m : keeps (claim_open c key m) (_clock wall_clock).
Proof. intros w [Hw Hk Hi Hs Hf Hsp]. split; try done. by apply (clock_keeps_ok w). Qed.

(** The end of every path that finalizes a claim. *)
Lemma finalize_end {A} P (m : M (world St) Z) (k : Z -> A) h :
  post P m (fun _ => gate_ok) ->
  post P (try_except (let! id := m in ret (k id)) (fun _ => ret h)) (fun _ => gate_ok).
Proof.
  intros Hm. apply post_try with (R := gate_ok); [|intros e; by apply post_ret].
  apply (post_bind _ _ _ (fun _ => gate_ok)); [|intros id; by apply post_ret].
  eapply post_conseq; [exact Hm|done|]. intros [a|e] s Hs; [done|]. by destruct (is_Exception e).
Qed.

Lemma finish_armed c key m event payload ack res :
  post (claim_open c key m) (finish wall_clock mono_clock c event key payload ack res)
    (fun _ => gate_ok).
Proof.
  unfold finish. apply (post_bind _ _ _ (fun _ => claim_open c key m)); [by apply post_gets|].
  intros inhibition. apply (post_bind _ _ _ (fun _ => claim_open c key m)).
  { destruct (_ && _); [|by apply post_ret].
    eapply post_keeps; [apply remember_open|done|]. intros [?|?] s Hs; [done|apply Hs]. }
  intros _. apply (post_bind _ _ _ (fun _ => claim_open c key m)).
  { destruct inhibition; [|by apply post_ret].
    apply (post_bind _ _ _ (fun _ => claim_open c key m)); [|by intros ?; apply post_ret].
    eapply post_keeps; [apply clock_open|done|]. intros [?|?] s Hs; [done|apply Hs]. }
  intros decision_at. cbv zeta. apply finalize_end. apply (finalize_fresh c key m).
Qed.

(** Finalizing with the attempt retained. *)
Lemma finalize_retained c event status detail payload ack :
  status = "completed" \/ status = "failed" ->
  post (fun w => gate_ok w /\ issued c (w_store w))
    (on_store (so_finalize_actuation c event status detail payload ack true)) (fun _ => gate_ok).
Proof.
  intros Hstatus w r w' [[Hw Hrem] Hi] E.
  destruct (on_store_core (so_finalize_actuation c event status detail payload ack true)
    (fun s => store_ok s /\ issued c s) w r w') as (s' & -> & _ & Hcore); try done.
  - by intros s [].
  - apply (proj2 (law_issued c)).
  - split; [apply Hw|done].
  - intros k. apply (proj2 (law_seen k)).
  - intros e He. eapply triple_conseq;
      [apply (proj2 (law_attempted (en_key e) (en_claim e) boot_id)); right| | |].
    + split; [done|]. by destruct Hstatus as [->| ->].
    + intros s [[??]?]. done.
    + by intros _ s (?&?&?).
    + by intros s (?&?&?).
Qed.

Lemma finish_fired c key m event payload ack res :
  rr_reason res <> "relay_latched" ->
  post (fired c key m) (finish wall_clock mono_clock c event key payload ack res)
    (fun _ => gate_ok).
Proof.
  intros Hres. unfold finish.
  apply (post_bind _ _ _ (fun i w => fired c key m w /\ i = None)).
  { apply post_gets. intros w Hw. split; [done|]. apply Hw. }
  intros inhibition w r w' [Hw ->]. revert w r w' Hw.
  rewrite bool_decide_eq_true_2 by done. apply String.eqb_neq in Hres as ->. cbn [andb negb].
  apply (post_bind _ _ _ (fun _ w => gate_ok w /\ issued c (w_store w))).
  { intros w r w' (Hw & Hi & _ & _) [= <- <-]. split; [by apply remember_all|done]. }
  intros _. apply (post_bind _ _ _ (fun _ w => gate_ok w /\ issued c (w_store w))).
  { by apply post_ret. }
  intros decision_at. cbv zeta. apply finalize_end, finalize_retained. cbn.
  destruct (rr_activated res); auto.
Qed.

(** What a call leaves behind. *)
Definition call_post {A} (r : result A) (w : world St) : Prop :=
  gate_ok w \/ (gate_core w /\ r = Err BaseExc).

Lemma act_on_claim_post c t m event key payload ack pre ra rd :
  reads_option pre ->
  post (claim_open c key m)
    (act_on_claim wall_clock mono_clock cooldown boot_id max_off_attempts c t m event key payload
       ack pre ra rd) call_post.
Proof.
  intros Hpre. unfold act_on_claim.
  apply (post_bind _ _ _ (fun last w => claim_open c key m w /\ last = w_last_attempt w)).
  { by apply post_gets. }
  intros last. destruct (in_process_cooldown cooldown m last) eqn:Hcool.
  { eapply post_conseq; [apply finalize_end, (finalize_fresh c key m)|by intros s []|by left]. }
  apply (post_bind _ _ _ (fun (marked : bool) w =>
    if marked then armed c key m w else gate_ok w)).
  - intros w r w' [Hw ->]. pose proof (memory_distant w m (co_ok _ _ _ _ Hw) Hcool) as Hd.
    unfold try_except, bind, ret.
    destruct (on_store _ w) as [[[]|e] w1] eqn:E;
      destruct (harmless_gate _ _ _ _ (harmless_mark _ _ _ _ _ _ _) (co_ok _ _ _ _ Hw) E)
        as (s' & -> & Hok & Hiss & Hseen & _).
    2: { destruct (is_Exception e); intros [= <- <-]; [done|by left]. }
    intros [= <- <-]. unfold on_store, lift in E.
    destruct (so_mark_actuation_attempt _ _ _ _ _ _ _ (w_store w)) as [r1 s1] eqn:Em.
    injection E as -> ->. destruct Hw as [[Hcore _] Hk Hi Hs Hf Hsp].
    pose proof (law_mark _ _ _ _ _ _ _ _ _ Em (gc_store _ Hcore) Hi) as Ha. rewrite Hk in Ha.
    split; [|done]. split; try done; cbn; auto.
  - intros [|]; [|by apply post_ret; left].
    eapply post_bind.
    + eapply post_conseq; [by apply (trigger_relay_spec c key m)|done|].
      intros [res|e] w H; [exact H|]. destruct H as [H|[H ->]]; [left; apply H|right; split; [apply H|done]].
    + intros res w r w' H E. left. destruct H as [H|[H Hres]].
      * by eapply finish_armed; [apply H|].
      * by eapply finish_fired.
Qed.

Lemma actuate_post event payload ack pre ra rd :
  reads_option pre -> post gate_ok (run_actuate event payload ack pre ra rd) call_post.
Proof.
  intros Hpre. unfold run_actuate, actuate.
  destruct (ge_idempotency_key event) as [[|a s]|]; [by apply post_raise; left| |by apply post_raise; left].
  set (key := String a s).
  apply (post_bind _ _ _ (fun _ => gate_ok)).
  { eapply post_keeps; [apply harmless_keeps, harmless_terminal|done|]. intros [?|?] w Hw; [done|by left]. }
  intros [t|].
  { eapply post_keeps; [apply replay_terminal_ok|done|by left]. }
  apply (post_bind _ _ _ (fun _ => gate_ok)).
  { destruct (ge_decision_at event); [by apply post_ret|].
    eapply post_keeps; [apply clock_keeps_ok|done|]. intros [?|?] w Hw; [done|by left]. }
  intros claim_time.
  apply (post_bind _ _ _ (fun claimed w => gate_ok w /\
    forall m c, claimed = Some (m, c) -> ac_status c = "claimed" -> claim_open c key m w)).
  { apply (post_try _ _ _ _ gate_ok).
    - eapply post_conseq; [apply claim_granted|done|].
      intros [o|e] w [Hw Hc]; [split; [done|]; intros m c ->; auto|].
      destruct (is_Exception e); [done|by left].
    - intros e. by apply post_ret. }
  intros [[m c]|]; [|apply post_ret; by intros w [? _]; left].
  destruct (String.eqb (ac_status c) "cooldown").
  { apply (post_bind _ _ _ (fun _ => gate_ok)); [|intros id; apply post_ret; by left].
    eapply post_keeps; [apply harmless_keeps, harmless_record|by intros w []|].
    intros [?|?] w Hw; [done|by left]. }
  destruct (String.eqb_spec (ac_status c) "claimed") as [Hc|Hc]; cbn.
  - eapply post_conseq; [by apply (act_on_claim_post c)| |done]. intros w [_ H]. by apply H.
  - apply post_ret. by intros w [? _]; left.
Qed.

Lemma restarted_ok w w' : gate_core w -> restarted w w' -> gate_ok w'.
Proof.
  intros Hw [Hst Hl Hp He Hm].
  destruct (so_recover (w_store w)) as [r s'] eqn:E. cbn in Hst.
  destruct (on_store_core so_recover store_ok w r (put_store s' w)) as (s1 & Hs1 & Hok & Hcore); try done.
  { apply harmless_recover. }
  { apply Hw. }
  { apply harmless_recover. }
  { intros e _. eapply triple_conseq;
      [apply (ha_attempted _ harmless_recover (en_key e) (en_claim e) boot_id)|done|by intros _ s []|by intros s []]. }
  { unfold on_store, lift. by rewrite E. }
  destruct Hcore as [H1 H2 H3 H4]. cbn in *. split.
  - split; rewrite ?He, ?Hst; try done. eapply Forall_impl; [|exact H2].
    intros e (?&?&?&?&?). unfold recorded in *. cbn in *. rewrite Hst, Hp. repeat split; try done; lia.
  - rewrite He. eapply Forall_impl; [|exact H2]. intros e (_&_&_&_&Hle) Heq. cbn in Hle.
    rewrite Heq, Hp in Hle. lia.
Qed.

Lemma gate_step_ok w l w' : gate_ok w -> gate_step w l w' -> gate_ok w'.
Proof.
  intros Hw Hstep. destruct Hstep as [w event payload ack pre ra rd r w' Hpre E Hr|
    w event payload ack pre ra rd r w1 w' Hpre E Hre|w w' Hre].
  - by destruct (actuate_post _ _ _ _ _ _ Hpre _ _ _ Hw E) as [?|[_ ->]].
  - eapply restarted_ok; [|exact Hre].
    by destruct (actuate_post _ _ _ _ _ _ Hpre _ _ _ Hw E) as [[??]|[? _]].
  - by eapply restarted_ok; [apply Hw|].
Qed.

(** The start: an empty history on a store that is in order. *)
Definition fresh_gate (w : world St) : Prop := store_ok (w_store w) /\ w_energised w = [].

Lemma fresh_gate_ok w : fresh_gate w -> gate_ok w.
Proof.
  intros [Hs He]. split; [split|]; rewrite ?He; try done; cbn; constructor.
Qed.

Lemma history_ok w ls w' : fresh_gate w -> steps gate_step w ls w' -> gate_ok w'.
Proof.
  intros Hw Hrun. eapply (steps_invariant gate_step gate_ok); [|exact Hrun|by apply fresh_gate_ok].
  intros a l b. apply gate_step_ok.
Qed.
End Histories.
