(* ===== verification/ActuationStore.v ===== *)
(** * The SQLite store implements what the coordinator relies on

    The methods of Store.v as an instance of the interface of Actuation.v.
    Every call may fail before it has had any effect or after its transaction
    has been committed: the faults are consumed from a list in the state, so the
    laws hold whatever fails. *)

From S2P Require Import Prelude Models Json Store StoreFacts Relay Actuation.

Inductive fault :=
| NoFault
| FailBefore (e : exc)
| FailAfter (e : exc).

Record sqlite_store := {
  ls_db : database;
  (** What [datetime.now] answers at the calls that ask. *)
  ls_now : list Z;
  ls_faults : list fault;
}.

(** One call of a method: a connection, the method, its failure. *)
Definition call {A} (m : Z -> M database A) : M sqlite_store A := fun s =>
  let next := fun d => {| ls_db := d; ls_now := tail (ls_now s); ls_faults := tail (ls_faults s) |} in
  match head (ls_faults s) with
  | Some (FailBefore e) => (Err e, next (ls_db s))
  | Some (FailAfter e) =>
      match m (default 0%Z (head (ls_now s))) (ls_db s) with
      | (Ok _, d) => (Err e, next d)
      | (Err e', d) => (Err e', next d)
      end
  | _ => match m (default 0%Z (head (ls_now s))) (ls_db s) with (r, d) => (r, next d) end
  end.

#[global] Instance sqlite_ops : StoreOps sqlite_store := {
  so_terminal_outcome key := call (fun _ => gets (terminal_outcome key));
  so_claim_actuation key at_ cutoff mono boot event payload ack :=
    call (fun _ => claim_actuation key at_ (Some cutoff) (Some mono) boot (Some event) payload ack);
  so_mark_actuation_attempt claim at_ event payload ack mono boot :=
    call (fun _ => mark_actuation_attempt claim at_ event payload ack (Some mono) boot);
  so_finalize_actuation claim event status detail payload ack retain :=
    call (fun now => finalize_actuation now claim event (Some status) detail payload ack retain);
  so_record_terminal_outcome event status detail payload ack :=
    call (fun now => record_terminal_outcome now event status detail payload ack);
  so_ensure_outbox id payload := call (fun now => ensure_outbox now id payload);
  so_queue_command_ack id status detail at_ := call (fun _ => queue_command_ack id status detail at_);
  so_recover := call (fun now => recover_interrupted_actuations now);
}.

Lemma call_keeps {A} I (m : Z -> M database A) :
  (forall now, keeps I (m now)) -> keeps (fun s => I (ls_db s)) (call m).
Proof.
  intros Hm s Hs. specialize (Hm (default 0%Z (list.head (ls_now s))) (ls_db s) Hs). unfold call.
  destruct (list.head (ls_faults s)) as [[|e|e]|]; cbn; try done;
    destruct (m _ (ls_db s)) as [[a|e'] d]; done.
Qed.

Lemma call_ok {A} (m : Z -> M database A) s a s' :
  call m s = (Ok a, s') -> exists now, m now (ls_db s) = (Ok a, ls_db s').
Proof.
  unfold call. destruct (list.head (ls_faults s)) as [[|e|e]|]; cbn; try done;
    destruct (m _ (ls_db s)) as [[a'|e'] d] eqn:E; try done; intros [= <- <-]; eauto.
Qed.

(** ** A row that survives *)

Section ExistsRow.
Context (Q : claim_row -> Prop).

Definition some_row (l : list claim_row) : Prop := exists c, c ∈ l /\ Q c.

Lemma some_row_app l c : some_row l -> some_row (l ++ [c]).
Proof. intros (r & Hr & ?). exists r. split; [|done]. apply elem_of_app. by left. Qed.

Lemma some_row_update p f d :
  (forall c, c ∈ db_claims d -> p c = true -> Q c -> Q (f c)) ->
  on_claims some_row d -> on_claims some_row (update_claims p f d).
Proof.
  intros Hf (c & Hc & HQ). exists (if p c then f c else c). cbn. split.
  - apply list_elem_of_fmap. eauto.
  - destruct (p c) eqn:E; auto.
Qed.

Context (Hrecover : forall c id reason, Q c -> Q (recover_claim_row id reason c)).
Context (Hmark : forall c claim at_ event payload ack mono boot d d',
  mark_actuation_attempt claim at_ event payload ack mono boot d = (Ok tt, d') ->
  c ∈ db_claims d -> Q c -> some_row (db_claims d')).

Hint Resolve insert_event_on_claims ensure_outbox_on_claims ensure_command_ack_on_claims
  insert_or_find_on_claims : gate.

Lemma insert_claim_some row : keeps (on_claims some_row) (insert_claim row).
Proof. intros d Hd. by apply some_row_app. Qed.
Hint Resolve insert_claim_some : gate.

Lemma claim_some key at_ cutoff mono boot event payload ack :
  keeps (on_claims some_row) (claim_actuation key at_ cutoff mono boot event payload ack).
Proof. apply keeps_transaction. keeps_tac. Qed.

Lemma mark_some claim at_ event payload ack mono boot :
  keeps (on_claims some_row) (mark_actuation_attempt claim at_ event payload ack mono boot).
Proof.
  intros d Hd. destruct (mark_actuation_attempt _ _ _ _ _ _ _ d) as [[[]|e] d'] eqn:E.
  - destruct Hd as (c & Hc & HQ). by eapply Hmark.
  - revert E. unfold mark_actuation_attempt. destruct (ac_claim_id claim); [|by intros [= _ <-]].
    destruct (String.eqb _ _); [|by intros [= _ <-]]. unfold transaction.
    destruct (bind _ _ d) as [[?|?] ?]; [done|]. by intros [= _ <-].
Qed.

Lemma record_terminal_some now event status detail payload ack :
  keeps (on_claims some_row) (record_terminal_outcome now event status detail payload ack).
Proof.
  unfold record_terminal_outcome. destruct (negb _).
  - apply keeps_bind; [apply record_event_on_claims|]. intros. apply keeps_ret.
  - apply keeps_transaction. keeps_tac.
Qed.

Lemma recover_some now : keeps (on_claims some_row) (recover_interrupted_actuations now).
Proof.
  apply keeps_transaction. unfold _recover_interrupted_actuations.
  apply keeps_bind; [apply keeps_gets|]. intros rows. apply keeps_bind.
  - induction rows as [|c rows IH]; cbn; keeps_tac. unfold recover_one.
    destruct (decode_pending c) as [[[event payload] ack]|]; [|apply keeps_ret]. cbv zeta. keeps_tac.
    apply keeps_modify. intros d Hd. apply some_row_update; [|done]. auto.
  - intros n. keeps_tac. by apply keeps_modify.
Qed.

Lemma durable_some : durable (fun s => on_claims some_row (ls_db s)).
Proof.
  split; intros; apply (call_keeps (on_claims some_row)); intros now.
  - apply keeps_gets.
  - apply claim_some.
  - apply mark_some.
  - apply record_terminal_some.
  - apply keeps_transaction, ensure_outbox_on_claims.
  - apply keeps_transaction, ensure_command_ack_on_claims.
  - apply recover_some.
Qed.
End ExistsRow.

Lemma keeps_and {S A} (I J : S -> Prop) (m : M S A) :
  keeps I m -> keeps J m -> keeps (fun s => I s /\ J s) m.
Proof.
  intros HI HJ s [Hi Hj]. specialize (HI s Hi). specialize (HJ s Hj). by destruct (m s) as [[?|?] ?].
Qed.

Lemma durable_and {St} {ops : StoreOps St} (I J : St -> Prop) :
  durable I -> durable J -> durable (fun s => I s /\ J s).
Proof. intros HI HJ. split; intros; apply keeps_and; apply HI || apply HJ. Qed.

(** ** The laws *)

Definition sq_ok (s : sqlite_store) : Prop := db_wf (ls_db s).
Definition row_of_key (key : string) (c : claim_row) : Prop := cl_idempotency_key c = key.
Definition row_attempted (key : string) (m : Z) (b : option string) (c : claim_row) : Prop :=
  cl_idempotency_key c = key /\ is_Some (cl_activation_attempt_at c) /\
  cl_activation_monotonic c = Some m /\ cl_boot_id c = b.
Definition row_issued (claim : ActuationClaim) (c : claim_row) : Prop :=
  ac_claim_id claim = Some (cl_id c) /\ cl_idempotency_key c = ac_idempotency_key claim.

Lemma durable_ok : durable sq_ok.
Proof.
  split; intros; apply (call_keeps db_wf); intros now.
  - apply keeps_gets.
  - apply claim_actuation_wf.
  - apply mark_actuation_attempt_wf.
  - apply record_terminal_outcome_wf.
  - apply ensure_outbox_wf.
  - apply queue_command_ack_wf.
  - apply recover_interrupted_actuations_wf.
Qed.

(** The effect of a successful mark on the claims. *)
Lemma mark_claims claim at_ event payload ack mono boot d d' :
  mark_actuation_attempt claim at_ event payload ack mono boot d = (Ok tt, d') ->
  exists id, ac_claim_id claim = Some id /\
    let sel := fun c => Z.eqb (cl_id c) id && bool_decide (cl_state c = Claimed)
                        && bool_decide (cl_activation_attempt_at c = None) in
    length (filter (fun c => sel c = true) (db_claims d)) = 1%nat /\
    exists f, db_claims d' = (fun c => if sel c then f c else c) <$> db_claims d /\
      forall c, cl_id (f c) = cl_id c /\ cl_idempotency_key (f c) = cl_idempotency_key c /\
        is_Some (cl_activation_attempt_at (f c)) /\ cl_activation_monotonic (f c) = mono /\
        cl_boot_id (f c) = boot.
Proof.
  unfold mark_actuation_attempt. destruct (ac_claim_id claim) as [id|]; [|done].
  destruct (String.eqb _ _); [|done]. intros E. exists id. split; [done|]. cbv zeta.
  unfold transaction, bind, gets, modify in E.
  match type of E with context [(?n =? 1)%nat] => destruct (Nat.eqb_spec n 1) as [Hn|]; [|done] end.
  cbn in E. injection E as <-. split; [exact Hn|]. eexists. split; [reflexivity|].
  intros c. cbn. eauto 8.
Qed.

Lemma mark_keeps_row (Q : claim_row -> Prop) claim at_ event payload ack mono boot d d' c :
  (forall c c', cl_id c' = cl_id c -> cl_idempotency_key c' = cl_idempotency_key c ->
     cl_activation_attempt_at c = None -> Q c -> Q c') ->
  mark_actuation_attempt claim at_ event payload ack mono boot d = (Ok tt, d') ->
  c ∈ db_claims d -> Q c -> some_row Q (db_claims d').
Proof.
  intros HQ E Hc Hq. destruct (mark_claims _ _ _ _ _ _ _ _ _ E) as (id & _ & _ & f & -> & Hf).
  eexists. split; [apply list_elem_of_fmap; exists c; split; [reflexivity|done]|].
  case_match eqn:Hsel; [|done]. bool_props. destruct (Hf c) as (? & ? & _). by eapply HQ.
Qed.

(** The effect of a finalization on the claims. *)
Lemma finalize_claims now claim event st detail payload ack retain d r d' :
  finalize_actuation now claim event st detail payload ack retain d = (r, d') ->
  d' = d \/
  exists id ev, ac_claim_id claim = Some id /\
    let status := finalize_status st (ge_opened event) in
    db_claims d' = (fun c => if Z.eqb (cl_id c) id
                             then finalize_claim_row ev status detail
                                    (retain && negb (String.eqb status "expired")) c
                             else c) <$> db_claims d.
Proof.
  unfold finalize_actuation. destruct (_ || _); [intros [= _ <-]; by left|].
  unfold transaction. destruct (bind _ _ d) as [[id|e] d1] eqn:E; [|intros [= _ <-]; by left].
  intros [= _ <-]. right. unfold bind, gets in E.
  destruct (ac_claim_id claim) as [i|]; [|done].
  destruct (claim_of_id i d) as [c|] eqn:Ec; [|done].
  apply find_row_Some in Ec as [_ Hi%Z.eqb_eq].
  destruct (bool_decide _); [|done].
  destruct (_insert_event event d) as [[ev|e] d2] eqn:E2; [|done].
  destruct (_ensure_outbox now ev payload d2) as [[?|e] d3] eqn:E3; [|done].
  destruct (_ensure_command_ack _ _ _ d3) as [[?|e] d4] eqn:E4; [|done].
  injection E as _ <-. exists i, ev. split; [done|]. cbn.
  assert (db_claims d4 = db_claims d) as ->; [|by rewrite Hi].
  pose proof (keeps_state _ _ _ _ _ (insert_event_on_claims (eq (db_claims d)) event)
    (eq_refl : on_claims _ d) E2) as H2.
  pose proof (keeps_state _ _ _ _ _ (ensure_outbox_on_claims (eq (db_claims d)) now ev payload) H2 E3) as H3.
  symmetry. exact (keeps_state _ _ _ _ _ (ensure_command_ack_on_claims (eq (db_claims d)) _ _ _) H3 E4).
Qed.

Lemma finalize_some (Q : claim_row -> Prop) P claim event status detail payload ack retain :
  (forall s c id ev, P s -> c ∈ db_claims (ls_db s) -> ac_claim_id claim = Some id -> cl_id c = id ->
     Q c -> let st := finalize_status (Some status) (ge_opened event) in
     Q (finalize_claim_row ev st detail (retain && negb (String.eqb st "expired")) c)) ->
  triple (fun s => P s /\ on_claims (some_row Q) (ls_db s))
    (so_finalize_actuation claim event status detail payload ack retain)
    (fun _ s => on_claims (some_row Q) (ls_db s)) (fun s => on_claims (some_row Q) (ls_db s)).
Proof.
  intros HQ s [HP (c & Hc & Hq)]. cbn [so_finalize_actuation sqlite_ops].
  assert (Hrun : forall now r d', finalize_actuation now claim event (Some status) detail payload ack
                   retain (ls_db s) = (r, d') -> on_claims (some_row Q) d').
  { intros now r d' E. destruct (finalize_claims _ _ _ _ _ _ _ _ _ _ _ E) as [->|(id & ev & Hid & Hd)].
    - by exists c.
    - unfold on_claims. rewrite Hd. eexists. split.
      + apply list_elem_of_fmap. exists c. split; [reflexivity|done].
      + cbv beta. destruct (Z.eqb_spec (cl_id c) id) as [Heq|]; [|done]. by apply (HQ s c id ev). }
  unfold call. destruct (list.head (ls_faults s)) as [[|e|e]|].
  2: { by exists c. }
  all: destruct (finalize_actuation _ _ _ _ _ _ _ _ _) as [[?|?] d] eqn:E; cbn; by eapply Hrun.
Qed.

Lemma finalize_ok claim event status detail payload ack retain :
  keeps sq_ok (so_finalize_actuation claim event status detail payload ack retain).
Proof. apply (call_keeps db_wf). intros now. apply finalize_actuation_wf. Qed.

(** [m] keeps [sq_ok] and, from there, a row property. *)
Lemma keeps_ok_row {A} Q (m : M sqlite_store A) :
  keeps sq_ok m ->
  triple (fun s => sq_ok s /\ on_claims (some_row Q) (ls_db s)) m
    (fun _ s => on_claims (some_row Q) (ls_db s)) (fun s => on_claims (some_row Q) (ls_db s)) ->
  keeps (fun s => sq_ok s /\ on_claims (some_row Q) (ls_db s)) m.
Proof.
  intros H1 H2 s [Hs Hq]. specialize (H1 s Hs). specialize (H2 s (conj Hs Hq)).
  by destruct (m s) as [[?|?] ?].
Qed.

(** Two rows of one id are the same row. *)
Lemma row_unique d c c' :
  db_wf d -> c ∈ db_claims d -> c' ∈ db_claims d -> cl_id c = cl_id c' -> c = c'.
Proof.
  intros Hwf Hc Hc' E. pose proof (claim_of_id_Some d c (wf_claim_ids d Hwf) Hc) as H1.
  rewrite E, (claim_of_id_Some d c' (wf_claim_ids d Hwf) Hc') in H1. congruence.
Qed.

Lemma issued_kept c claim event status detail payload ack retain :
  keeps (fun s => sq_ok s /\ on_claims (some_row (row_issued c)) (ls_db s))
    (so_finalize_actuation claim event status detail payload ack retain).
Proof. apply keeps_ok_row; [apply finalize_ok|]. by apply finalize_some. Qed.

Lemma seen_kept k claim event status detail payload ack retain :
  keeps (fun s => sq_ok s /\ on_claims (some_row (row_of_key k)) (ls_db s))
    (so_finalize_actuation claim event status detail payload ack retain).
Proof. apply keeps_ok_row; [apply finalize_ok|]. by apply finalize_some. Qed.

Lemma finalize_status_some status opened : status <> "" -> finalize_status (Some status) opened = status.
Proof. by destruct status. Qed.

Lemma attempt_kept claim event status detail payload ack retain k m b :
  ac_idempotency_key claim <> k \/ (retain = true /\ status <> "expired" /\ status <> "") ->
  keeps (fun s => sq_ok s /\ on_claims (some_row (row_issued claim)) (ls_db s) /\
                  on_claims (some_row (row_attempted k m b)) (ls_db s))
    (so_finalize_actuation claim event status detail payload ack retain).
Proof.
  intros Hor s (Hs & Hi & Ha).
  pose proof (issued_kept claim claim event status detail payload ack retain s (conj Hs Hi)) as H1.
  assert (H2 : triple (fun s => (sq_ok s /\ on_claims (some_row (row_issued claim)) (ls_db s)) /\
                                on_claims (some_row (row_attempted k m b)) (ls_db s))
    (so_finalize_actuation claim event status detail payload ack retain)
    (fun _ s => on_claims (some_row (row_attempted k m b)) (ls_db s))
    (fun s => on_claims (some_row (row_attempted k m b)) (ls_db s))).
  { apply finalize_some. intros s1 c id ev [Hok (r & Hr & Hid & Hkey)] Hc Hclaim Hcid (Hk & Hat & Hm & Hb).
    cbv zeta. destruct Hor as [Hne|(-> & Hexp & Hemp)].
    - destruct Hne. rewrite <- Hk, <- Hkey. f_equal. apply (row_unique (ls_db s1)); try done. congruence.
    - rewrite finalize_status_some by done. apply String.eqb_neq in Hexp as ->. by repeat split. }
  specialize (H2 s (conj (conj Hs Hi) Ha)).
  destruct (so_finalize_actuation claim event status detail payload ack retain s) as [[?|?] s']; naive_solver.
Qed.

Lemma some_row_key k d : on_claims (some_row (row_of_key k)) d <-> k ∈ claim_keys d.
Proof.
  unfold on_claims, some_row, row_of_key, claim_keys. rewrite list_elem_of_fmap. naive_solver.
Qed.

Lemma sqlite_claim_law k t cutoff m b e p a s c s' :
  so_claim_actuation k t cutoff m b e p a s = (Ok c, s') -> sq_ok s -> ac_status c = "claimed" ->
  ac_idempotency_key c = k /\ ~ on_claims (some_row (row_of_key k)) (ls_db s) /\
  on_claims (some_row (row_of_key k)) (ls_db s') /\
  on_claims (some_row (row_issued c)) (ls_db s') /\
  forall boot k' m', b = Some boot ->
    on_claims (some_row (row_attempted k' m' (Some boot))) (ls_db s) -> (m' < m)%Z.
Proof.
  intros [now E]%call_ok _ Hst.
  destruct (claim_claimed_inv _ _ _ _ _ _ _ _ _ _ _ E Hst)
    as (Hnew & Hk & Hrecent & row & Hd' & Hrk & _ & Hid & _ & _ & _).
  assert (Hrow : row ∈ db_claims (ls_db s')).
  { rewrite Hd'. apply elem_of_app. right. left. }
  split; [done|]. split; [by rewrite some_row_key|]. split; [by exists row|]. split.
  - exists row. split; [done|]. split; [done|]. congruence.
  - intros boot k' m' -> (r & Hr & Hkr & _ & Hm & Hb). cbn in Hrecent.
    unfold _was_opened_since, monotonic_recent in Hrecent.
    apply orb_false_iff in Hrecent as [[Hmono _]%orb_false_iff _].
    apply orb_false_iff in Hmono as [Hsame _].
    pose proof (existsb_false _ _ _ Hsame Hr) as H. cbn in H.
    rewrite bool_decide_eq_true_2 in H by done. by eapply ge_opt_false.
Qed.

Lemma sqlite_mark_law c t e p a m b s s' :
  so_mark_actuation_attempt c t e p a m b s = (Ok tt, s') -> sq_ok s ->
  on_claims (some_row (row_issued c)) (ls_db s) ->
  on_claims (some_row (row_attempted (ac_idempotency_key c) m b)) (ls_db s').
Proof.
  intros [now E]%call_ok Hok (r & Hr & Hid & Hkey).
  destruct (mark_claims _ _ _ _ _ _ _ _ _ E) as (id & Hid' & Hone & f & Hd & Hf).
  rewrite Hid in Hid'. injection Hid' as <-. cbv zeta in Hone.
  destruct (filter_one (fun c0 => Z.eqb (cl_id c0) (cl_id r) && bool_decide (cl_state c0 = Claimed)
      && bool_decide (cl_activation_attempt_at c0 = None) = true) (db_claims (ls_db s)))
    as (l1 & x & l2 & Hl & Hx); [lia|].
  assert (Hxin : x ∈ db_claims (ls_db s)) by (rewrite Hl; apply elem_of_app; right; left).
  assert (x = r) as ->.
  { apply (row_unique (ls_db s)); try done. bool_props. by apply Z.eqb_eq. }
  unfold on_claims. rewrite Hd. exists (f r). split.
  - apply list_elem_of_fmap. exists r. split; [|done]. cbv beta. by rewrite Hx.
  - destruct (Hf r) as (_ & Hk & Hat & Hm & Hb). by repeat split; try congruence.
Qed.

#[global] Instance sqlite_laws : StoreLaws sqlite_store.
Proof.
  refine {| store_ok := sq_ok;
            seen k s := on_claims (some_row (row_of_key k)) (ls_db s);
            attempted k m b s := on_claims (some_row (row_attempted k m b)) (ls_db s);
            issued c s := on_claims (some_row (row_issued c)) (ls_db s) |}.
  - split; [apply durable_ok|apply finalize_ok].
  - intros k. split; [|apply seen_kept]. apply durable_and; [apply durable_ok|].
    apply durable_some; [done|]. intros. eapply mark_keeps_row; [|done..]. unfold row_of_key. congruence.
  - intros c. split; [|apply issued_kept]. apply durable_and; [apply durable_ok|].
    apply durable_some; [done|]. intros. eapply mark_keeps_row; [|done..].
    unfold row_issued. intros c1 c2 -> ->. done.
  - intros k m b. split; [|intros; by apply attempt_kept]. apply durable_and; [apply durable_ok|].
    apply durable_some; [done|]. intros. eapply mark_keeps_row; [|done..].
    intros c1 c2 _ _ Hnone (_ & [? Hsome] & _). congruence.
  - apply sqlite_claim_law.
  - apply sqlite_mark_law.
Defined.
