(* ===== verification/ActuationFacts.v ===== *)
(** * Properties of the actuation coordinator

    The safety properties of every history of a gate, proved for any store that
    satisfies the interface laws and instantiated for the SQLite store, and what
    an execution that reports an opened gate means. *)

From S2P Require Import Prelude Models Json Store StoreFacts Relay Actuation ActuationStore.

(** ** A concrete gate *)

Definition sample_db (faults : list fault) : sqlite_store :=
  {| ls_db := empty_database; ls_now := []; ls_faults := faults |}.

Definition sample_world (faults : list fault) : world sqlite_store :=
  {| w_store := sample_db faults; w_relay := ready_relay; w_last_attempt := None;
     w_wall := 0; w_mono := 0; w_inhibition := None; w_process := 0; w_energised := [] |}.

(** A wall clock that ticks every thirty seconds and a monotonic clock that ticks every
    half cooldown. *)
Definition sample_wall (n : nat) : datetime := Aware (seconds 30 * Z.of_nat n).
Definition sample_mono (n : nat) : Z := (10000000 * Z.of_nat n + 50000000)%Z.
Definition remote_event (key : string) : GateEvent :=
  {| ge_source := "remote"; ge_reason := "remote_command"; ge_opened := false;
     ge_idempotency_key := Some key; ge_received_at := Aware 0; ge_decision_at := None;
     ge_relay_activated_at := None; ge_authorised_plate := None; ge_observed_plate := None;
     ge_ocr_confidence := float_0 |}.
Definition sample_actuate (key : string) (w : world sqlite_store) :=
  run_actuate sample_wall sample_mono (seconds 20) (Some "boot") 3
    (remote_event key) None None None false false w.

Lemma sample_mono_le i j : (i <= j)%nat -> (sample_mono i <= sample_mono j)%Z.
Proof. unfold sample_mono. lia. Qed.

Lemma sample_fresh faults : fresh_gate (sample_world faults).
Proof. split; [apply db_wf_empty|done]. Qed.

Lemma no_pre_reads : reads_option (St := sqlite_store) None.
Proof. done. Qed.

Definition alive {A} (r : result A) : bool :=
  match r with Err BaseExc => false | _ => true end.

Lemma sample_step key w :
  alive (fst (sample_actuate key w)) = true ->
  gate_step sample_wall sample_mono (seconds 20) (Some "boot") 3 w (LActuate (Some key))
    (snd (sample_actuate key w)).
Proof.
  intros Hr. destruct (sample_actuate key w) as [r w'] eqn:E.
  apply (gs_actuate sample_wall sample_mono (seconds 20) (Some "boot") 3 w (remote_event key) None None
    None false false r w' no_pre_reads E). by intros ->.
Qed.

Example sample_opens :
  fst (sample_actuate "k" (sample_world [])) =
    Ok (execution true "remote_command" (Some 1%Z) "completed" None).
Proof. vm_compute. reflexivity. Qed.

(** The marker could not be written: the pin stays low. *)
Example sample_mark_fails :
  let r := sample_actuate "k" (sample_world [NoFault; NoFault; FailBefore OperationalError]) in
  fst r = Ok (execution false "actuation_inhibit_error" None "failed" (Some "actuation_inhibit_error")) /\
  w_energised (snd r) = [].
Proof. vm_compute. split; reflexivity. Qed.

(** The pulse happened but its outcome could not be stored. *)
Example sample_finalize_fails :
  let r := sample_actuate "k" (sample_world [NoFault; NoFault; NoFault; FailBefore OperationalError]) in
  fst r = Ok (execution false "indeterminate_claim" None "failed" (Some "indeterminate_claim")) /\
  (en_key <$> w_energised (snd r)) = ["k"].
Proof. vm_compute. split; reflexivity. Qed.

(** ** Histories *)

(** in every history of actuation calls, crashes, restarts and store
    failures, whenever the pin was driven high the store already held the
    durable marker of that very attempt, and it still holds it. *)
Theorem energised_only_with_marker {St} {ops : StoreOps St} {laws : StoreLaws St}
    wall_clock mono_clock cooldown boot_id max_off_attempts (w w' : world St) ls
    (Hmono : forall i j, (i <= j)%nat -> (mono_clock i <= mono_clock j)%Z)
    (Hfresh : fresh_gate w)
    (Hrun : steps (gate_step wall_clock mono_clock cooldown boot_id max_off_attempts) w ls w')
    (e : energisation St) (He : e ∈ w_energised w') :
  attempted (en_key e) (en_claim e) boot_id (en_store e) /\
  attempted (en_key e) (en_claim e) boot_id (w_store w').
Proof.
  destruct (history_ok _ _ _ _ _ Hmono _ _ _ Hfresh Hrun) as [[_ H _ _] _].
  rewrite list.Forall_forall in H. by destruct (H e He) as (_ & ? & ? & _).
Qed.

(** C1: one idempotency key drives the pin at most once, across retries, store
    failures, crashes and restarts. *)
Theorem each_key_energised_once {St} {ops : StoreOps St} {laws : StoreLaws St}
    wall_clock mono_clock cooldown boot_id max_off_attempts (w w' : world St) ls
    (Hmono : forall i j, (i <= j)%nat -> (mono_clock i <= mono_clock j)%Z)
    (Hfresh : fresh_gate w)
    (Hrun : steps (gate_step wall_clock mono_clock cooldown boot_id max_off_attempts) w ls w') :
  NoDup (en_key <$> w_energised w').
Proof. by destruct (history_ok _ _ _ _ _ Hmono _ _ _ Hfresh Hrun) as [[_ _ H _] _]. Qed.

Lemma all_spaced_split {St} mono_clock cooldown boot_id (es1 : list (energisation St)) e1 es2 e2 es3 :
  all_spaced mono_clock cooldown boot_id (es1 ++ e1 :: es2 ++ e2 :: es3) ->
  spaced mono_clock cooldown boot_id e1 e2.
Proof.
  induction es1 as [|e es1 IH]; cbn; intros [H1 H2]; [|by apply IH].
  rewrite list.Forall_forall in H1. apply (H1 e2). apply elem_of_app. right. left.
Qed.


Definition two_calls : world sqlite_store :=
  snd (sample_actuate "k2" (snd (sample_actuate "k1" (sample_world [])))).

Definition five_calls : world sqlite_store :=
  snd (sample_actuate "k5" (snd (sample_actuate "k4" (snd (sample_actuate "k3" two_calls))))).

Lemma five_calls_run :
  steps (gate_step sample_wall sample_mono (seconds 20) (Some "boot") 3) (sample_world [])
    ((fun k => LActuate (Some k)) <$> ["k1"; "k2"; "k3"; "k4"; "k5"]) five_calls.
Proof.
  unfold five_calls, two_calls.
  repeat (eapply steps_cons; [apply sample_step; vm_compute; reflexivity|]). constructor.
Qed.

Example five_calls_pulses :
  (fun e => (en_key e, en_claim e)) <$> w_energised five_calls =
    [("k1", 50000000%Z); ("k3", 80000000%Z); ("k5", 110000000%Z)].
Proof. vm_compute. reflexivity. Qed.

Lemma five_calls_nth i :
  match w_energised five_calls !! i with Some e => e ∈ w_energised five_calls | None => True end.
Proof. destruct (_ !! i) eqn:E; [|done]. by eapply list_elem_of_lookup_2. Qed.

Lemma energised_only_with_marker_witness :
  match w_energised five_calls !! 1%nat with
  | Some e => attempted (en_key e) (en_claim e) (Some "boot") (en_store e)
  | None => False
  end.
Proof.
  pose proof (five_calls_nth 1) as He.
  pose proof (energised_only_with_marker sample_wall sample_mono (seconds 20) (Some "boot") 3
    (sample_world []) five_calls _ sample_mono_le (sample_fresh []) five_calls_run) as H.
  assert (Hsome : bool_decide (is_Some (w_energised five_calls !! 1%nat)) = true)
    by (vm_compute; reflexivity).
  destruct (w_energised five_calls !! 1%nat) as [e|]; [|discriminate Hsome].
  exact (proj1 (H e He)).
Defined.

Lemma each_key_energised_once_witness : NoDup (en_key <$> w_energised five_calls).
Proof.
  exact (each_key_energised_once sample_wall sample_mono (seconds 20) (Some "boot") 3
    (sample_world []) five_calls _ sample_mono_le (sample_fresh []) five_calls_run).
Defined.


(** ** What an opened gate means *)

Section Opened.
Context {St : Type} `{laws : StoreLaws St}.
Context (wall_clock : nat -> datetime) (mono_clock : nat -> Z).
Context (cooldown : Z) (boot_id : option string) (max_off_attempts : nat).
Context (event : GateEvent) (payload : option (dict json)) (ack : option (string * datetime)).
Context (pre : option (M (world St) (option (string * string)))) (ra rd : bool).
Context (Hpre : reads_option pre).
Context (es : list (energisation St)) (rl : relay_state) (Hsafe : safe_state rl).

(** Nothing has happened to the relay yet. *)
Definition quiet_world (w : world St) : Prop :=
  store_ok (w_store w) /\ w_energised w = es /\ w_relay w = rl.

Definition claimed_world (c : ActuationClaim) (key : string) (w : world St) : Prop :=
  quiet_world w /\ issued c (w_store w) /\ ac_idempotency_key c = key.

(** The pin went high for [key] exactly once and is low again. *)
Definition pulsed (key : string) (w : world St) : Prop :=
  (exists e, w_energised w = es ++ [e] /\ en_key e = key) /\
  rl_pin (w_relay w) = false /\ highs (rl_log (w_relay w)) = S (highs (rl_log rl)).

(** The execution reports the pulse and the finalization that recorded it. *)
Definition opened_run (ex : ActuationExecution) (w' : world St) : Prop :=
  exists c key s0 id activated_at,
    ge_idempotency_key event = Some key /\ ac_idempotency_key c = key /\
    store_ok s0 /\ issued c s0 /\ pulsed key w' /\
    so_finalize_actuation c
      {| ge_source := ge_source event; ge_reason := ge_reason event; ge_opened := true;
         ge_idempotency_key := Some key; ge_received_at := ge_received_at event;
         ge_decision_at := ge_decision_at event; ge_relay_activated_at := activated_at;
         ge_authorised_plate := ge_authorised_plate event;
         ge_observed_plate := ge_observed_plate event;
         ge_ocr_confidence := ge_ocr_confidence event |}
      "completed" None payload ack true s0 = (Ok id, w_store w') /\
    ex = execution true (ge_reason event) (Some id) "completed" None.

Definition opened_post (r : result ActuationExecution) (w : world St) : Prop :=
  forall ex, r = Ok ex -> ae_opened ex = true -> opened_run ex w.

Lemma not_opened_ret P ex : ae_opened ex = false -> post P (ret ex) opened_post.
Proof. intros Hex. apply post_ret. intros w _ ex' [= <-]. congruence. Qed.

Lemma not_opened_err P (m : M (world St) ActuationExecution) :
  (forall w ex w', m w = (Ok ex, w') -> ae_opened ex = false) -> post P m opened_post.
Proof. intros H w r w' _ E ex -> Ho. apply H in E. congruence. Qed.

Lemma claimed_store {A} (m : M St A) c key w r w' :
  harmless m -> claimed_world c key w -> on_store m w = (r, w') -> claimed_world c key w'.
Proof.
  intros Hm ((Hok & He & Hr) & Hi & Hk). unfold on_store, lift.
  destruct (m (w_store w)) as [r1 s1] eqn:E. intros [= <- <-].
  destruct (keeps_state _ _ _ _ _ (ha_issued _ Hm c) (conj Hok Hi) E). by repeat split.
Qed.

Lemma quiet_store {A} (m : M St A) w r w' :
  harmless m -> quiet_world w -> on_store m w = (r, w') -> quiet_world w'.
Proof.
  intros Hm (Hok & He & Hr). unfold on_store, lift.
  destruct (m (w_store w)) as [r1 s1] eqn:E. intros [= <- <-].
  split; [|done]. exact (keeps_state _ _ _ _ _ (ha_ok _ Hm) Hok E).
Qed.

(** An activated relay result. *)
Definition relay_done (c : ActuationClaim) (key : string) (res : RelayResult) (w : world St) : Prop :=
  rr_activated res = true ->
  store_ok (w_store w) /\ issued c (w_store w) /\ ac_idempotency_key c = key /\ pulsed key w /\
  w_inhibition w = None /\ rr_reason res <> "relay_latched".

Lemma world_relay_world key m :
  relay_world w_relay put_relay (_clock wall_clock) (note_energised key m) (check_inhibition <$> pre).
Proof.
  split; try done. intros f w Hf. destruct pre as [g|]; [|done]. injection Hf as <-.
  unfold check_inhibition, bind. destruct (Hpre g eq_refl w) as (r & n & ->). by destruct r.
Qed.

Lemma trigger_done c key m :
  post (claimed_world c key) (trigger_relay wall_clock max_off_attempts key m pre ra rd)
    (fun r w => match r with Ok res => relay_done c key res w | Err _ => True end).
Proof.
  intros w r w' ((Hok & He & Hr) & Hi & Hk). unfold trigger_relay, bind, modify. cbn beta iota.
  intros E. destruct r as [res|]; [|done]. intros Hact.
  pose proof (trigger_safe _ _ _ _ _ (world_relay_world key m) max_off_attempts (Some key) ra rd
    (put_inhibition None w) w' (Ok res)) as Hfs. cbn [w_relay put_inhibition] in Hfs. rewrite Hr in Hfs.
  destruct (Hfs Hsafe E) as (_ & _ & Hpulse). destruct (Hpulse res eq_refl Hact) as [Hpin Hhigh].
  set (base := fun w1 : world St => store_ok (w_store w1) /\ issued c (w_store w1)).
  pose proof (trigger_world w_relay put_relay max_off_attempts (_clock wall_clock)
    (note_energised key m) (check_inhibition <$> pre)
    (fun w1 => base w1 /\ w_energised w1 = es /\ (pre = None -> w_inhibition w1 = None))
    (fun w1 => base w1 /\ w_energised w1 = es /\ w_inhibition w1 = None)
    (fun w1 => base w1 /\ (exists e, w_energised w1 = es ++ [e] /\ en_key e = key) /\
               w_inhibition w1 = None)) as H.
  eapply H in E; [|..|].
  - unfold ended in E. destruct E as [[_ ?]|[((? & ?) & Hex & Hinh) Hre]]; [congruence|].
    by repeat split.
  - split; [done|]. by intros w1 ([? ?] & ? & ?).
  - split; [done|]. by intros w1 ([? ?] & ? & ?).
  - split; [done|]. by intros w1 ([? ?] & ? & ?).
  - intros w1. by do 2 eexists.
  - naive_solver.
  - intros w1 ([? ?] & Hes & ?). split; [done|]. split; [|done]. cbn. rewrite Hes. eauto.
  - intros f Hf w1 ([? ?] & Hes & Hn) r1 w2. destruct pre as [g|]; [|done]. injection Hf as <-.
    unfold check_inhibition, bind, modify, ret. destruct (Hpre g eq_refl w1) as (r2 & n & ->).
    destruct r2 as [[i|]|e]; by intros [= <- <-].
  - intros Hnone w1 (? & ? & Hn). destruct pre; naive_solver.
  - by split.
Qed.

Lemma finish_done c key res :
  ge_idempotency_key event = Some key ->
  post (relay_done c key res) (finish wall_clock mono_clock c event key payload ack res) opened_post.
Proof.
  intros Hkey w r w' Hw E ex -> Hop. unfold finish, bind at 1, gets in E.
  destruct (rr_activated res) eqn:Hact.
  - destruct (Hw Hact) as (Hok & Hi & Hk & Hp & Hinh & Hre). rewrite Hinh in E.
    rewrite bool_decide_eq_true_2 in E by done. apply String.eqb_neq in Hre. rewrite Hre in E.
    cbn in E. unfold finalized_event in E. rewrite ?Hact in E.
    unfold try_except, bind, on_store, lift, ret in E. cbn in E.
    destruct (so_finalize_actuation _ _ _ _ _ _ _ _) as [[id|e] s1] eqn:Ef.
    2: { destruct (is_Exception e); [|done]. by injection E as <- _. }
    injection E as <- <-. exists c, key, (w_store w), id, (rr_activated_at res).
    by repeat split; try apply Hp.
  - exfalso. apply bind_inv in E as (? & w1 & _ & E). apply bind_inv in E as (? & w2 & _ & E).
    unfold try_except, bind, ret in E. rewrite ?Hact in E.
    destruct (on_store _ w2) as [[?|e] w3]; [by injection E as <- _|].
    destruct (is_Exception e); [|done]. by injection E as <- _.
Qed.

Lemma act_done c t m key :
  ge_idempotency_key event = Some key ->
  post (claimed_world c key)
    (act_on_claim wall_clock mono_clock cooldown boot_id max_off_attempts c t m event key payload
       ack pre ra rd) opened_post.
Proof.
  intros Hkey. unfold act_on_claim.
  apply (post_bind _ _ _ (fun _ => claimed_world c key)); [by apply post_gets|]. intros last.
  destruct (in_process_cooldown _ _ _).
  { apply not_opened_err. intros w ex w'. unfold try_except, bind, ret.
    destruct (on_store _ w) as [[?|e] w1]; [by intros [= <- _]|].
    destruct (is_Exception e); [by intros [= <- _]|done]. }
  apply (post_bind _ _ _ (fun _ => claimed_world c key)).
  { intros w r w' Hw. unfold try_except, bind, ret.
    destruct (on_store _ w) as [[?|e] w1] eqn:E;
      pose proof (claimed_store _ _ _ _ _ _ (harmless_mark _ _ _ _ _ _ _) Hw E).
    - by intros [= <- <-].
    - by destruct (is_Exception e); intros [= <- <-]. }
  intros [|]; [|by apply not_opened_ret].
  apply (post_bind _ _ _ (relay_done c key)); [|intros res; by apply finish_done].
  eapply post_conseq; [apply (trigger_done c key m)|done|]. by intros [?|?].
Qed.

Lemma actuate_opened_post :
  post quiet_world
    (run_actuate wall_clock mono_clock cooldown boot_id max_off_attempts event payload ack pre ra rd)
    opened_post.
Proof.
  unfold run_actuate, actuate.
  destruct (ge_idempotency_key event) as [[|a s]|] eqn:Hkey; [by apply post_raise| |by apply post_raise].
  set (key := String a s) in *.
  apply (post_bind _ _ _ (fun _ => quiet_world)).
  { intros w r w' Hw E. pose proof (quiet_store _ _ _ _ (harmless_terminal _) Hw E). by destruct r. }
  intros [t|].
  { apply not_opened_err. intros w ex w' E. apply bind_inv in E as (? & w1 & _ & E).
    apply bind_inv in E as (? & w2 & _ & E). by injection E as <- _. }
  apply (post_bind _ _ _ (fun _ => quiet_world)).
  { destruct (ge_decision_at event); [by apply post_ret|]. by intros w r w' (?&?&?) [= <- <-]. }
  intros claim_time.
  apply (post_bind _ _ _ (fun claimed w => forall m c, claimed = Some (m, c) ->
    ac_status c = "claimed" -> claimed_world c key w)).
  { intros w r w' Hw. unfold try_except, bind. cbn [_monotonic_clock].
    set (w1 := put_mono (S (w_mono w)) w). assert (Hw1 : quiet_world w1) by exact Hw.
    destruct (on_store _ w1) as [[c|e] w2] eqn:E.
    - intros [= <- <-] m' c' [= <- <-] Hst. split; [by eapply quiet_store; [apply harmless_claim|..]|].
      unfold on_store, lift in E.
      destruct (so_claim_actuation _ _ _ _ _ _ _ _ _) as [r1 s1] eqn:Ec. injection E as -> <-.
      by destruct (law_claim _ _ _ _ _ _ _ _ _ _ _ Ec (proj1 Hw1) Hst) as (? & _ & _ & ? & _).
    - by destruct (is_Exception e); intros [= <- <-]. }
  intros [[m c]|]; [|by apply not_opened_ret].
  destruct (String.eqb (ac_status c) "cooldown").
  { apply not_opened_err. intros w ex w'. unfold bind, ret.
    destruct (on_store _ w) as [[?|?] w1]; [|done]. by intros [= <- _]. }
  destruct (String.eqb_spec (ac_status c) "claimed") as [Hc|Hc]; cbn; [|by apply not_opened_ret].
  eapply post_conseq; [by apply (act_done c claim_time m key)| |done]. intros w Hw. by apply (Hw m c).
Qed.
End Opened.

(** an execution that reports an opened gate means: the pin went high for
    this event's key exactly once during the call and is low again, and the
    outcome was finalized as "completed". *)
Theorem opened_means_pulsed {St} {ops : StoreOps St} {laws : StoreLaws St}
    wall_clock mono_clock cooldown boot_id max_off_attempts event payload ack pre ra rd
    (w w' : world St) (ex : ActuationExecution)
    (Hpre : reads_option pre) (Hstore : store_ok (w_store w)) (Hsafe : safe_state (w_relay w))
    (Hrun : run_actuate wall_clock mono_clock cooldown boot_id max_off_attempts event payload ack
              pre ra rd w = (Ok ex, w'))
    (Hopened : ae_opened ex = true) :
  (exists e, w_energised w' = w_energised w ++ [e] /\ ge_idempotency_key event = Some (en_key e)) /\
  rl_pin (w_relay w') = false /\
  highs (rl_log (w_relay w')) = S (highs (rl_log (w_relay w))) /\
  ae_terminal_status ex = "completed" /\ is_Some (ae_event_id ex).
Proof.
  destruct (actuate_opened_post wall_clock mono_clock cooldown boot_id max_off_attempts event payload ack
    pre ra rd Hpre (w_energised w) (w_relay w) Hsafe w (Ok ex) w' (conj Hstore (conj eq_refl eq_refl))
    Hrun ex eq_refl Hopened) as (c & key & s0 & id & at_ & Hk & _ & _ & _ & ((e & He & Hek) & Hp & Hh) & _ & ->).
  split; [exists e; split; [done|congruence]|]. by repeat split.
Qed.

Lemma sample_run key w ex :
  fst (sample_actuate key w) = Ok ex ->
  run_actuate sample_wall sample_mono (seconds 20) (Some "boot") 3 (remote_event key) None None None
    false false w = (Ok ex, snd (sample_actuate key w)).
Proof. unfold sample_actuate. destruct (run_actuate _ _ _ _ _ _ _ _ _ _ _ w) as [r w']. by intros <-. Qed.

Lemma opened_means_pulsed_witness :
  rl_pin (w_relay (snd (sample_actuate "k" (sample_world [])))) = false.
Proof.
  exact (proj1 (proj2 (opened_means_pulsed _ _ _ _ _ _ _ _ _ _ _ (sample_world []) _ _
    no_pre_reads (db_wf_empty : store_ok (w_store (sample_world []))) ready_relay_safe (sample_run "k" (sample_world []) _ sample_opens) eq_refl))).
Defined.

(** ** The record of an opened gate *)

Lemma event_of_id_last es (e : event_row) id :
  ev_id e = id -> id ∉ (ev_id <$> es) -> find_row (fun x => Z.eqb (ev_id x) id) (es ++ [e]) = Some e.
Proof.
  intros <- Hnin. rewrite find_row_app.
  destruct (find_row _ es) as [x|] eqn:E; [|cbn; by rewrite Z.eqb_refl].
  apply find_row_Some in E as [Hx Hid%Z.eqb_eq]. destruct Hnin. rewrite <- Hid. by apply list_elem_of_fmap_2.
Qed.

Lemma finalize_result now claim event status detail payload ack retain d id d' :
  finalize_actuation now claim event (Some status) detail payload ack retain d = (Ok id, d') ->
  db_wf d -> on_claims (some_row (row_issued claim)) d -> status <> "" ->
  (exists e, event_of_id id d' = Some e /\ ev_opened e = ge_opened event /\
     ev_idempotency_key e = ge_idempotency_key event /\
     ev_relay_activated_at e = _optional_timestamp (ge_relay_activated_at event)) /\
  terminal_outcome (ac_idempotency_key claim) d' =
    Some {| to_status := status; to_detail := detail; to_event_id := Some id |}.
Proof.
  intros E Hwf (r & Hr & Hid & Hkey) Hst. revert E.
  unfold finalize_actuation. destruct (_ || _); [done|].
  rewrite finalize_status_some by done.
  unfold transaction. destruct (bind _ _ d) as [[i|e] d1] eqn:E; [|done]. intros [= -> ->].
  unfold bind, gets in E. rewrite Hid in E.
  rewrite (claim_of_id_Some d r (wf_claim_ids d Hwf) Hr) in E.
  destruct (bool_decide _); [|done].
  destruct (_insert_event event d) as [[ev|e] d2] eqn:E2; [|done].
  destruct (_ensure_outbox now ev payload d2) as [[?|e] d3] eqn:E3; [|done].
  destruct (_ensure_command_ack _ _ _ d3) as [[?|e] d4] eqn:E4; [|done].
  unfold modify, ret in E. injection E as -> <-.
  destruct (ensure_outbox_total now id payload d2) as (? & d3' & E3' & Hc3 & He3).
  rewrite E3 in E3'. injection E3' as _ <-.
  destruct (ensure_command_ack_total ack status detail d3) as (d4' & E4' & Hc4 & He4).
  rewrite E4 in E4'. injection E4' as _ <-.
  unfold _insert_event in E2. destruct (duplicate_key event d); [done|]. injection E2 as Hnew <-.
  cbn in Hc3, He3. split.
  - eexists. split.
    + unfold event_of_id, update_claims. cbn. rewrite He4, He3.
      apply event_of_id_last; [exact Hnew|]. rewrite <- Hnew. apply next_rowid_not_in.
    + done.
  - unfold terminal_outcome, claim_of_key, update_claims. cbn. rewrite Hc4, Hc3.
    assert (Hf : find_row (fun c => String.eqb (cl_idempotency_key c) (ac_idempotency_key claim))
      ((fun c => if Z.eqb (cl_id c) (cl_id r)
         then finalize_claim_row id status detail (retain && negb (String.eqb status "expired")) c
         else c) <$> db_claims d) =
      Some (finalize_claim_row id status detail (retain && negb (String.eqb status "expired")) r)).
    { rewrite <- Hkey. pose proof (wf_claim_ids d Hwf) as Hids. pose proof (wf_claim_keys d Hwf) as Hkeys.
      unfold claim_ids, claim_keys in *. clear - Hr Hids Hkeys.
      induction (db_claims d) as [|c l IH]; [by apply elem_of_nil in Hr|]. cbn in *.
      apply list.NoDup_cons in Hids as [Hni Hids], Hkeys as [Hnk Hkeys].
      apply elem_of_cons in Hr as [->|Hr].
      - by rewrite Z.eqb_refl; cbn; rewrite String.eqb_refl.
      - destruct (Z.eqb_spec (cl_id c) (cl_id r)) as [Heq|_].
        { destruct Hni. rewrite Heq. by apply list_elem_of_fmap_2. }
        destruct (String.eqb_spec (cl_idempotency_key c) (cl_idempotency_key r)) as [Heq|_].
        { destruct Hnk. rewrite Heq. by apply list_elem_of_fmap_2. }
        by apply IH. }
    rewrite Hf. cbn. by destruct status.
Qed.

(** C11: with the SQLite store, an execution that reports an opened gate has left
    the record of it: the event of the returned id says opened, carries the key,
    and the key's terminal outcome is "completed" with that event, so every later
    request with the key is answered from the record. *)
Theorem opened_is_recorded wall_clock mono_clock cooldown boot_id max_off_attempts event payload ack
    pre ra rd (w w' : world sqlite_store) (ex : ActuationExecution)
    (Hpre : reads_option pre) (Hstore : db_wf (ls_db (w_store w))) (Hsafe : safe_state (w_relay w))
    (Hrun : run_actuate wall_clock mono_clock cooldown boot_id max_off_attempts event payload ack
              pre ra rd w = (Ok ex, w'))
    (Hopened : ae_opened ex = true) :
  exists key id e,
    ge_idempotency_key event = Some key /\ ae_event_id ex = Some id /\
    event_of_id id (ls_db (w_store w')) = Some e /\
    ev_opened e = true /\ ev_idempotency_key e = Some key /\
    terminal_outcome key (ls_db (w_store w')) =
      Some {| to_status := "completed"; to_detail := None; to_event_id := Some id |}.
Proof.
  assert (Hq : quiet_world (w_energised w) (w_relay w) w) by (split; [exact Hstore|done]).
  destruct (actuate_opened_post wall_clock mono_clock cooldown boot_id max_off_attempts event payload ack
    pre ra rd Hpre (w_energised w) (w_relay w) Hsafe w (Ok ex) w' Hq
    Hrun ex eq_refl Hopened) as (c & key & s0 & id & at_ & Hk & Hck & Hok & Hi & _ & Ef & ->).
  cbn [so_finalize_actuation sqlite_ops] in Ef. apply call_ok in Ef as [now Ef].
  destruct (finalize_result _ _ _ _ _ _ _ _ _ _ _ Ef Hok Hi ltac:(done)) as [(e & He & Ho & Hek & _) Ht].
  exists key, id, e. rewrite Hck in Ht. done.
Qed.

Lemma opened_is_recorded_witness :
  exists key id e,
    ge_idempotency_key (remote_event "k") = Some key /\ Some 1%Z = Some id /\
    event_of_id id (ls_db (w_store (snd (sample_actuate "k" (sample_world []))))) = Some e /\
    ev_opened e = true /\ ev_idempotency_key e = Some key /\
    terminal_outcome key (ls_db (w_store (snd (sample_actuate "k" (sample_world []))))) =
      Some {| to_status := "completed"; to_detail := None; to_event_id := Some id |}.
Proof.
  exact (opened_is_recorded _ _ _ _ _ _ _ _ _ _ _ (sample_world []) _ _
    no_pre_reads db_wf_empty ready_relay_safe (sample_run "k" (sample_world []) _ sample_opens) eq_refl).
Defined.
