(* ===== verification/ActuationGuard.v ===== *)
(** * The caller's inhibition check guards the pin

    [actuate] drives the pin only after the check its caller passed has
    answered None in the same call, whatever the store does. *)

From S2P Require Import Prelude Models Json Relay Actuation.

Section Guard.
Context {St : Type} `{StoreOps St}.
Context (wall_clock : nat -> datetime) (mono_clock : nat -> Z).
Context (cooldown : Z) (boot_id : option string) (max_off_attempts : nat).
Context (es : list (energisation St)).
(** [ok n]: the check has answered None before the [n]th reading of the wall
    clock. *)
Context (ok : nat -> Prop) (Hok : forall n m, ok n -> (n <= m)%nat -> ok m).
Context (start : nat).
Context (f : M (world St) (option (string * string))).
Context (Hf : forall w, (start <= w_wall w)%nat ->
  exists r n, f w = (r, put_wall n w) /\ (w_wall w <= n)%nat /\ (r = Ok None -> ok n)).

Definition guarded (w : world St) : Prop :=
  (start <= w_wall w)%nat /\ (w_energised w = es \/ ok (w_wall w)).
Definition passed (w : world St) : Prop := (start <= w_wall w)%nat /\ ok (w_wall w).

Lemma passed_guarded w : passed w -> guarded w.
Proof. intros [? ?]. split; [done|by right]. Qed.

Lemma guarded_mono w w' : w_energised w' = w_energised w -> (w_wall w <= w_wall w')%nat -> guarded w -> guarded w'.
Proof. intros He Hw [? [?|?]]; (split; [lia|]); [left; congruence|right; eauto]. Qed.

Lemma on_store_guarded {A} (m : M St A) : keeps guarded (on_store m).
Proof. intros w Hw. unfold on_store, lift. by destruct (m (w_store w)) as [[?|?] ?]. Qed.

Lemma clock_guarded : keeps guarded (_clock wall_clock).
Proof. intros w Hw. eapply guarded_mono; [| |exact Hw]; cbn; [done|lia]. Qed.

Lemma clock_passed : keeps passed (_clock wall_clock).
Proof. intros w [? ?]. split; cbn; [lia|]. eapply Hok; [done|lia]. Qed.

Lemma monotonic_guarded : keeps guarded (_monotonic_clock mono_clock).
Proof. intros w Hw. exact Hw. Qed.

Lemma trigger_relay_guarded key m ra rd :
  keeps guarded (trigger_relay wall_clock max_off_attempts key m (Some f) ra rd).
Proof.
  intros w Hw. unfold trigger_relay, bind, modify. cbn beta iota.
  destruct (trigger _ _ _ _ _ _ _ _ _ (put_inhibition None w)) as [r w'] eqn:E.
  pose proof (trigger_world w_relay put_relay max_off_attempts (_clock wall_clock) (note_energised key m)
    (Some (check_inhibition f)) guarded passed passed) as HT.
  eapply HT in E; [|..|exact Hw].
  - unfold ended in E. destruct r as [res|e].
    + destruct E as [[E _]|[E _]]; [exact E|by apply passed_guarded].
    + destruct E as [E|[E _]]; [exact E|by apply passed_guarded].
  - split; [done|apply clock_guarded].
  - split; [done|apply clock_passed].
  - split; [done|apply clock_passed].
  - intros w1. by do 2 eexists.
  - apply passed_guarded.
  - by intros w1 [? ?].
  - intros g [= <-] w1 Hw1 r1 w2. unfold check_inhibition, bind, modify, ret.
    destruct (Hf w1 (proj1 Hw1)) as (r2 & n & -> & Hn & Hnone).
    assert (Hg : forall i, guarded (put_inhibition i (put_wall n w1)))
      by (intros i; eapply guarded_mono; [| |exact Hw1]; done).
    destruct r2 as [[i|]|e]; intros [= <- <-]; [exact (Hg _)| |exact (Hg None)].
    split; [exact (proj1 (Hg None))|by apply Hnone].
  - done.
Qed.

Hint Resolve on_store_guarded clock_guarded monotonic_guarded trigger_relay_guarded : gate.

Lemma modify_guarded (g : world St -> world St) :
  (forall w, w_energised (g w) = w_energised w) -> (forall w, w_wall (g w) = w_wall w) ->
  keeps guarded (modify g).
Proof. intros He Hw. apply keeps_modify. intros w. apply guarded_mono; [done|]. by rewrite Hw. Qed.

Lemma finish_guarded claim event key payload ack res :
  keeps guarded (finish wall_clock mono_clock claim event key payload ack res).
Proof. unfold finish. cbv zeta. keeps_tac; by apply modify_guarded. Qed.

Lemma act_guarded claim t m event key payload ack ra rd :
  keeps guarded (act_on_claim wall_clock mono_clock cooldown boot_id max_off_attempts claim t m event key
    payload ack (Some f) ra rd).
Proof. unfold act_on_claim. keeps_tac; apply finish_guarded. Qed.

Lemma actuate_guarded event payload ack ra rd :
  keeps guarded (actuate wall_clock mono_clock cooldown boot_id max_off_attempts event payload ack (Some f) ra rd).
Proof.
  unfold actuate, replay_terminal, _reconcile_outbox. keeps_tac; apply act_guarded.
Qed.
End Guard.
