(* ===== verification/Telemetry.v ===== *)
(** * Event telemetry: gate_controller/telemetry.py

    The bounded wire format (FrameTelemetry, OcrAttemptTelemetry,
    TriggerTelemetry, StageTimestamps, StageDurations, EventTelemetry) and the
    trace that collects it (ProcessingTrace).  Readings of the monotonic clock
    are floats, with their arithmetic as in Float.v.  [UUID] and [uuid4] are
    parameters: a trace id is a string the constructor has already accepted. *)

From S2P Require Import Prelude Models Json Float.

Definition MAX_DURATION_MS : Z := 600000.
Definition MAX_ITEMS : nat := 8.
Definition MAX_STRING_LENGTH : nat := 128.
Definition MAX_DIMENSION : Z := 16384.
Definition MAX_DELIVERY_ATTEMPT : Z := 1000.
(** [MAX_DURATION_MS / 1_000] *)
Definition MAX_UPSTREAM_INTERVAL_SECONDS : pyfloat := float_lit 600 0.
(** The float nearest to 0.1. *)
Definition MAX_CLOCK_SKEW_SECONDS : pyfloat := float_lit 3602879701896397 (-55).
Definition float_half : pyfloat := float_lit 1 (-1).

(** ** Values the wire format accepts

    A field may hold any object; the numeric ones are told apart.  [VOther] is
    an object [float] rejects. *)

Inductive pyval :=
| VNone
| VBool (b : bool)
| VInt (z : Z)
| VFloat (f : pyfloat)
| VOther.

(** [float(value)]; None for TypeError and ValueError. *)
Definition to_float (v : pyval) : option pyfloat :=
  match v with
  | VBool b => Some (if b then float_1 else float_0)
  | VInt z => Some (float_of_Z z)
  | VFloat f => Some f
  | VNone | VOther => None
  end.

(** telemetry.py: _rounded_int *)
Definition _rounded_int (value : pyval) (minimum maximum fallback : Z) : Z :=
  match to_float value with
  | None => fallback
  | Some number =>
      if negb (isfinite number) then fallback
      else match fadd number float_half with
           | Fin m => Z.min (Z.max (floor_of m) minimum) maximum
           | _ => fallback
           end
  end.

(** telemetry.py: _duration *)
Definition _duration (value : pyval) : option Z :=
  match value with
  | VNone => None
  | _ => Some (_rounded_int value 0 MAX_DURATION_MS 0)
  end.

(** telemetry.py: _required_duration *)
Definition _required_duration (value : pyval) : option Z :=
  match value with
  | VInt _ | VFloat _ =>
      match to_float value with
      | Some number =>
          if negb (isfinite number) || flt number float_0 then None
          else match fadd number float_half with
               | Fin m => Some (Z.min (floor_of m) MAX_DURATION_MS)
               | _ => None
               end
      | None => None
      end
  | _ => None
  end.

(** telemetry.py: _ratio *)
Definition _ratio (value : pyval) : pyfloat :=
  match to_float value with
  | None => float_0
  | Some number =>
      if negb (isfinite number) then float_0 else pymin (pymax number float_0) float_1
  end.

Definition is_alnum (a : ascii) : bool :=
  let n := Ascii.nat_of_ascii a in
  ((48 <=? n) && (n <=? 57) || (65 <=? n) && (n <=? 90) || (97 <=? n) && (n <=? 122))%nat.
Definition is_token_char (a : ascii) : bool :=
  is_alnum a || bool_decide (a ∈ ["."; "_"; ":"; "-"]%char).

(** The pattern _TOKEN: one alphanumeric, then up to 127 token characters. *)
Definition token_match (s : string) : bool :=
  match String.list_ascii_of_string s with
  | [] => false
  | a :: rest => is_alnum a && forallb is_token_char rest && (length rest <=? 127)%nat
  end.

(** telemetry.py: _token; None is an object that is not a string. *)
Definition _token (value : option string) (fallback : string) : string :=
  match value with
  | Some s => if token_match s then s else fallback
  | None => fallback
  end.
Definition token (value : option string) : string := _token value "unknown".

(** telemetry.py: _optional_string *)
Definition _optional_string (value : option string) : option string :=
  match value with
  | Some (String a s) => Some (String.substring 0 MAX_STRING_LENGTH (String a s))
  | _ => None
  end.

(** The pattern _SHA256. *)
Definition is_lower_hex (a : ascii) : bool :=
  let n := Ascii.nat_of_ascii a in ((48 <=? n) && (n <=? 57) || (97 <=? n) && (n <=? 102))%nat.
Definition sha256_match (s : string) : bool :=
  (String.length s =? 64)%nat && forallb is_lower_hex (String.list_ascii_of_string s).

(** [datetime.max] in UTC. *)
Definition DATETIME_MAX : Z := 253402300799999999.
Definition DATETIME_MIN : Z := (-62135596800000000)%Z.

(** telemetry.py: _wire_timestamp: the instant the ISO text denotes. *)
Definition _wire_timestamp (value : option datetime) : option Z :=
  match value with
  | Some (Aware us) => if (DATETIME_MIN <=? us)%Z && (us <=? DATETIME_MAX)%Z then Some us else None
  | _ => None
  end.

(** ** The wire format *)

(** telemetry.py: FrameTelemetry (after __post_init__) *)
Record FrameTelemetry := {
  ft_sequence : pyval;
  ft_digest : option string;
  ft_width : pyval;
  ft_height : pyval;
  ft_sharpness : pyval;
  ft_brightness : pyval;
  ft_darkness : pyval;
  ft_highlight_clipping : pyval;
  ft_status : option string;
}.

(** telemetry.py: FrameTelemetry.to_wire *)
Definition frame_to_wire (f : FrameTelemetry) : option (dict json) :=
  match ft_digest f with
  | Some digest =>
      if sha256_match digest then
        Some [("sequence", JInt (_rounded_int (ft_sequence f) 0 (Z.of_nat MAX_ITEMS - 1) 0));
              ("digest", JStr digest);
              ("width", JInt (_rounded_int (ft_width f) 1 MAX_DIMENSION 1));
              ("height", JInt (_rounded_int (ft_height f) 1 MAX_DIMENSION 1));
              ("sharpness", JFloat (_ratio (ft_sharpness f)));
              ("brightness", JFloat (_ratio (ft_brightness f)));
              ("darkness", JFloat (_ratio (ft_darkness f)));
              ("highlight_clipping", JFloat (_ratio (ft_highlight_clipping f)));
              ("status", JStr (token (ft_status f)))]
      else None
  | None => None
  end.

(** telemetry.py: OcrAttemptTelemetry *)
Record OcrAttemptTelemetry := {
  oa_frame_sequence : pyval;
  oa_duration_ms : pyval;
  oa_status : option string;
  oa_plate : option string;
  oa_confidence : pyval;
  oa_make : option string;
  oa_colour : option string;
}.

(** telemetry.py: OcrAttemptTelemetry.to_wire *)
Definition attempt_to_wire (a : OcrAttemptTelemetry) : dict json :=
  [("frame_sequence", JInt (_rounded_int (oa_frame_sequence a) 0 (Z.of_nat MAX_ITEMS - 1) 0));
   ("duration_ms", JInt (default 0%Z (_duration (oa_duration_ms a))));
   ("status", JStr (token (oa_status a)));
   ("plate", json_of_option JStr (_optional_string (oa_plate a)));
   ("confidence", match oa_confidence a with VNone => JNull | v => JFloat (_ratio v) end);
   ("make", json_of_option JStr (_optional_string (oa_make a)));
   ("colour", json_of_option JStr (_optional_string (oa_colour a)))].

(** telemetry.py: TriggerTelemetry *)
Record TriggerTelemetry := {
  tt_source : string;
  tt_event_type : string;
  tt_correlation : string;
  tt_rule_id : option string;
  tt_event_at : option datetime;
  tt_delta_ms : pyval;
}.

Definition _MATCHED_TRIGGER_EVENT_TYPES : list string :=
  ["line_crossing"; "vehicle"; "manual_test"; "other"].

Definition fallback_trigger_wire : dict json :=
  [("source", JStr "camera_ftp"); ("event_type", JStr "unverified");
   ("correlation", JStr "unverified")].

(** telemetry.py: TriggerTelemetry.to_wire *)
Definition trigger_to_wire (t : TriggerTelemetry) : dict json :=
  let rule_id := _token (tt_rule_id t) "" in
  match _required_duration (tt_delta_ms t) with
  | Some delta_ms =>
      if String.eqb (tt_source t) "reolink_webhook"
         && bool_decide (tt_event_type t ∈ _MATCHED_TRIGGER_EVENT_TYPES)
         && String.eqb (tt_correlation t) "matched"
         && negb (String.eqb rule_id "")
      then
        [("source", JStr "reolink_webhook"); ("event_type", JStr (tt_event_type t));
         ("rule_id", JStr rule_id); ("correlation", JStr "matched")]
        ++ match _wire_timestamp (tt_event_at t) with
           | Some at_ => [("event_at", JTime at_)]
           | None => []
           end
        ++ [("delta_ms", JInt delta_ms)]
      else fallback_trigger_wire
  | None => fallback_trigger_wire
  end.

(** telemetry.py: ftp_fallback_trigger *)
Definition ftp_fallback_trigger : TriggerTelemetry :=
  {| tt_source := "camera_ftp"; tt_event_type := "unverified"; tt_correlation := "unverified";
     tt_rule_id := None; tt_event_at := None; tt_delta_ms := VNone |}.

(** telemetry.py: StageTimestamps *)
Record StageTimestamps := {
  st_filesystem_ingress_at : option datetime;
  st_burst_processing_started_at : option datetime;
  st_ocr_started_at : option datetime;
  st_ocr_finished_at : option datetime;
  st_decision_at : option datetime;
  st_relay_started_at : option datetime;
  st_relay_finished_at : option datetime;
  st_processing_finished_at : option datetime;
}.

(** telemetry.py: StageTimestamps.to_wire *)
Definition timestamps_to_wire (s : StageTimestamps) : dict json :=
  omap (fun nv => (fun us => (nv.1, JTime us)) <$> _wire_timestamp nv.2)
    [("filesystem_ingress_at", st_filesystem_ingress_at s);
     ("burst_processing_started_at", st_burst_processing_started_at s);
     ("ocr_started_at", st_ocr_started_at s); ("ocr_finished_at", st_ocr_finished_at s);
     ("decision_at", st_decision_at s); ("relay_started_at", st_relay_started_at s);
     ("relay_finished_at", st_relay_finished_at s);
     ("processing_finished_at", st_processing_finished_at s)].

(** telemetry.py: StageDurations *)
Record StageDurations := {
  sd_capture_to_burst_ms : pyval;
  sd_burst_to_ocr_ms : pyval;
  sd_ocr_ms : pyval;
  sd_decision_ms : pyval;
  sd_decision_to_relay_ms : pyval;
  sd_end_to_end_ms : pyval;
  sd_delivery_lag_ms : pyval;
  sd_filesystem_ingress_to_decision_ms : pyval;
  sd_filesystem_ingress_to_relay_ms : pyval;
  sd_relay_ms : pyval;
  sd_cloud_send_to_ack_ms : pyval;
}.

(** telemetry.py: StageDurations.to_wire *)
Definition durations_to_wire (s : StageDurations) : dict json :=
  omap (fun nv => (fun ms => (nv.1, JInt ms)) <$> _duration nv.2)
    [("capture_to_burst_ms", sd_capture_to_burst_ms s); ("burst_to_ocr_ms", sd_burst_to_ocr_ms s);
     ("ocr_ms", sd_ocr_ms s); ("decision_ms", sd_decision_ms s);
     ("decision_to_relay_ms", sd_decision_to_relay_ms s); ("end_to_end_ms", sd_end_to_end_ms s);
     ("delivery_lag_ms", sd_delivery_lag_ms s);
     ("filesystem_ingress_to_decision_ms", sd_filesystem_ingress_to_decision_ms s);
     ("filesystem_ingress_to_relay_ms", sd_filesystem_ingress_to_relay_ms s);
     ("relay_ms", sd_relay_ms s); ("cloud_send_to_ack_ms", sd_cloud_send_to_ack_ms s)].

(** telemetry.py: EventTelemetry *)
Record EventTelemetry := {
  et_trace_id : string;
  et_stage_durations : StageDurations;
  et_frames : list FrameTelemetry;
  et_ocr_attempts : list OcrAttemptTelemetry;
  et_decision_outcome : option string;
  et_decision_reason : option string;
  et_actuation_claim : option string;
  et_actuation_attempted : bool;
  et_relay_outcome : option string;
  et_outbox_attempt : pyval;
  et_delivery_state : option string;
  et_stage_timestamps : StageTimestamps;
  et_trigger : option TriggerTelemetry;
}.

(** telemetry.py: EventTelemetry.__post_init__ *)
Definition post_init (t : EventTelemetry) : EventTelemetry :=
  {| et_trace_id := et_trace_id t; et_stage_durations := et_stage_durations t;
     et_frames := take MAX_ITEMS (et_frames t);
     et_ocr_attempts := take MAX_ITEMS (et_ocr_attempts t);
     et_decision_outcome := et_decision_outcome t; et_decision_reason := et_decision_reason t;
     et_actuation_claim := et_actuation_claim t;
     et_actuation_attempted := et_actuation_attempted t;
     et_relay_outcome := et_relay_outcome t; et_outbox_attempt := et_outbox_attempt t;
     et_delivery_state := et_delivery_state t; et_stage_timestamps := et_stage_timestamps t;
     et_trigger := et_trigger t |}.

(** telemetry.py: EventTelemetry.to_wire *)
Definition to_wire (t : EventTelemetry) : dict json :=
  let timestamps := timestamps_to_wire (et_stage_timestamps t) in
  [("schema_version", JInt 3);
   ("trace_id", JStr (et_trace_id t));
   ("taxonomy_version", JInt 1);
   ("stage_durations", JDict (durations_to_wire (et_stage_durations t)));
   ("frames", JList (JDict <$> take MAX_ITEMS (omap frame_to_wire (et_frames t))));
   ("ocr_attempts", JList (JDict <$> take MAX_ITEMS (attempt_to_wire <$> et_ocr_attempts t)));
   ("decision", JDict [("outcome", JStr (token (et_decision_outcome t)));
                       ("reason", JStr (token (et_decision_reason t)))]);
   ("actuation", JDict [("claim", JStr (token (et_actuation_claim t)));
                        ("attempted", JBool (et_actuation_attempted t));
                        ("relay_outcome", JStr (token (et_relay_outcome t)))]);
   ("delivery", JDict [("outbox_attempt",
                          JInt (_rounded_int (et_outbox_attempt t) 0 MAX_DELIVERY_ATTEMPT 0));
                       ("state", JStr (token (et_delivery_state t)))])]
  ++ match timestamps with [] => [] | _ => [("stage_timestamps", JDict timestamps)] end
  ++ match et_trigger t with Some tr => [("trigger", JDict (trigger_to_wire tr))] | None => [] end.

(** ** Clock conversions *)

(** telemetry.py: _elapsed *)
Definition _elapsed (start end_ : option pyfloat) : pyval :=
  match start, end_ with
  | Some s, Some e => VFloat (pymax float_0 (fmul_const 1000 (fsub e s)))
  | _, _ => VNone
  end.

(** telemetry.py: _wall_to_monotonic.  [total_seconds] divides the microseconds
    by a million. *)
Definition _wall_to_monotonic (received_at : option datetime) (wall_anchor : datetime)
    (monotonic_anchor : pyfloat) : option pyfloat :=
  match received_at with
  | None => None
  | Some received =>
      match dt_sub wall_anchor received with
      | Err _ => None
      | Ok us =>
          let age := float_div us 1000000 in
          if negb (isfinite age) || negb (isfinite monotonic_anchor) then None
          else if flt age (fopp MAX_CLOCK_SKEW_SECONDS) || flt MAX_UPSTREAM_INTERVAL_SECONDS age
          then None
          else Some (fsub monotonic_anchor (pymax age float_0))
      end
  end.

(** telemetry.py: _upstream_monotonic *)
Definition _upstream_monotonic (value : pyval) (anchor : pyfloat) : option pyfloat :=
  match value with
  | VBool _ => None
  | _ =>
      match to_float value with
      | None => None
      | Some timestamp =>
          if negb (isfinite timestamp) || negb (isfinite anchor) then None
          else
            let offset := fsub timestamp anchor in
            if flt MAX_CLOCK_SKEW_SECONDS offset
               || flt offset (fopp MAX_UPSTREAM_INTERVAL_SECONDS)
            then None
            else Some (pymin timestamp anchor)
      end
  end.

(** [timedelta(seconds=offset)] in microseconds: the whole seconds exactly, the
    fraction times a million, the sum rounded to even. *)
Definition timedelta_us (m : Z) : Z :=
  let whole := Z.quot m two1074 in
  match fmul_const 1000000 (Fin (Z.rem m two1074)) with
  | Fin u => (whole * 1000000 + round_half_even u two1074)%Z
  | _ => 0%Z
  end.

(** ** ProcessingTrace *)

Record ProcessingTrace := {
  pt_wall_anchor : datetime;
  pt_monotonic_anchor : pyfloat;
  pt_trace_id : string;
  pt_captured_at : datetime;
  pt_captured : option pyfloat;
  pt_filesystem_ingress_at : option datetime;
  pt_burst : option pyfloat;
  pt_burst_processing_started_at : option datetime;
  pt_first_ocr_start : option pyfloat;
  pt_pending_ocr_start : option pyfloat;
  pt_last_ocr_end : option pyfloat;
  pt_ocr_work_ms : pyfloat;
  pt_decision : option pyfloat;
  pt_actuation : option pyfloat;
  pt_relay_finished : option pyfloat;
  pt_actuation_details_marked : bool;
  pt_frames : list FrameTelemetry;
  pt_ocr_attempts : list OcrAttemptTelemetry;
  pt_decision_outcome : string;
  pt_decision_reason : string;
  pt_actuation_claim : string;
  pt_actuation_attempted : bool;
  pt_relay_outcome : string;
  pt_trigger : option TriggerTelemetry;
  pt_finished_telemetry : option EventTelemetry;
}.

(** telemetry.py: ProcessingTrace.__init__ *)
Definition new_trace (wall : datetime) (mono : pyfloat) (trace_id : string) : ProcessingTrace :=
  {| pt_wall_anchor := wall; pt_monotonic_anchor := mono; pt_trace_id := trace_id;
     pt_captured_at := wall; pt_captured := Some mono; pt_filesystem_ingress_at := None;
     pt_burst := None; pt_burst_processing_started_at := None; pt_first_ocr_start := None;
     pt_pending_ocr_start := None; pt_last_ocr_end := None; pt_ocr_work_ms := float_0;
     pt_decision := None; pt_actuation := None; pt_relay_finished := None;
     pt_actuation_details_marked := false; pt_frames := []; pt_ocr_attempts := [];
     pt_decision_outcome := "unknown"; pt_decision_reason := "unknown";
     pt_actuation_claim := "not_requested"; pt_actuation_attempted := false;
     pt_relay_outcome := "not_attempted"; pt_trigger := None; pt_finished_telemetry := None |}.

(** Updates of the mutable attributes. *)
Definition set_timing (captured burst first pending last decision actuation relay : option pyfloat)
    (t : ProcessingTrace) : ProcessingTrace :=
  {| pt_wall_anchor := pt_wall_anchor t; pt_monotonic_anchor := pt_monotonic_anchor t;
     pt_trace_id := pt_trace_id t; pt_captured_at := pt_captured_at t; pt_captured := captured;
     pt_filesystem_ingress_at := pt_filesystem_ingress_at t; pt_burst := burst;
     pt_burst_processing_started_at := pt_burst_processing_started_at t;
     pt_first_ocr_start := first; pt_pending_ocr_start := pending; pt_last_ocr_end := last;
     pt_ocr_work_ms := pt_ocr_work_ms t; pt_decision := decision; pt_actuation := actuation;
     pt_relay_finished := relay; pt_actuation_details_marked := pt_actuation_details_marked t;
     pt_frames := pt_frames t; pt_ocr_attempts := pt_ocr_attempts t;
     pt_decision_outcome := pt_decision_outcome t; pt_decision_reason := pt_decision_reason t;
     pt_actuation_claim := pt_actuation_claim t;
     pt_actuation_attempted := pt_actuation_attempted t; pt_relay_outcome := pt_relay_outcome t;
     pt_trigger := pt_trigger t; pt_finished_telemetry := pt_finished_telemetry t |}.
Definition set_upstream (captured_at : datetime) (ingress started : option datetime)
    (t : ProcessingTrace) : ProcessingTrace :=
  {| pt_wall_anchor := pt_wall_anchor t; pt_monotonic_anchor := pt_monotonic_anchor t;
     pt_trace_id := pt_trace_id t; pt_captured_at := captured_at; pt_captured := pt_captured t;
     pt_filesystem_ingress_at := ingress; pt_burst := pt_burst t;
     pt_burst_processing_started_at := started; pt_first_ocr_start := pt_first_ocr_start t;
     pt_pending_ocr_start := pt_pending_ocr_start t; pt_last_ocr_end := pt_last_ocr_end t;
     pt_ocr_work_ms := pt_ocr_work_ms t; pt_decision := pt_decision t;
     pt_actuation := pt_actuation t; pt_relay_finished := pt_relay_finished t;
     pt_actuation_details_marked := pt_actuation_details_marked t; pt_frames := pt_frames t;
     pt_ocr_attempts := pt_ocr_attempts t; pt_decision_outcome := pt_decision_outcome t;
     pt_decision_reason := pt_decision_reason t; pt_actuation_claim := pt_actuation_claim t;
     pt_actuation_attempted := pt_actuation_attempted t; pt_relay_outcome := pt_relay_outcome t;
     pt_trigger := pt_trigger t; pt_finished_telemetry := pt_finished_telemetry t |}.
Definition set_items (frames : list FrameTelemetry) (attempts : list OcrAttemptTelemetry)
    (work : pyfloat) (trigger : option TriggerTelemetry) (t : ProcessingTrace) : ProcessingTrace :=
  {| pt_wall_anchor := pt_wall_anchor t; pt_monotonic_anchor := pt_monotonic_anchor t;
     pt_trace_id := pt_trace_id t; pt_captured_at := pt_captured_at t; pt_captured := pt_captured t;
     pt_filesystem_ingress_at := pt_filesystem_ingress_at t; pt_burst := pt_burst t;
     pt_burst_processing_started_at := pt_burst_processing_started_at t;
     pt_first_ocr_start := pt_first_ocr_start t; pt_pending_ocr_start := pt_pending_ocr_start t;
     pt_last_ocr_end := pt_last_ocr_end t; pt_ocr_work_ms := work; pt_decision := pt_decision t;
     pt_actuation := pt_actuation t; pt_relay_finished := pt_relay_finished t;
     pt_actuation_details_marked := pt_actuation_details_marked t; pt_frames := frames;
     pt_ocr_attempts := attempts; pt_decision_outcome := pt_decision_outcome t;
     pt_decision_reason := pt_decision_reason t; pt_actuation_claim := pt_actuation_claim t;
     pt_actuation_attempted := pt_actuation_attempted t; pt_relay_outcome := pt_relay_outcome t;
     pt_trigger := trigger; pt_finished_telemetry := pt_finished_telemetry t |}.
Definition set_outcomes (outcome reason claim : string) (attempted : bool) (relay : string)
    (marked : bool) (finished : option EventTelemetry) (t : ProcessingTrace) : ProcessingTrace :=
  {| pt_wall_anchor := pt_wall_anchor t; pt_monotonic_anchor := pt_monotonic_anchor t;
     pt_trace_id := pt_trace_id t; pt_captured_at := pt_captured_at t; pt_captured := pt_captured t;
     pt_filesystem_ingress_at := pt_filesystem_ingress_at t; pt_burst := pt_burst t;
     pt_burst_processing_started_at := pt_burst_processing_started_at t;
     pt_first_ocr_start := pt_first_ocr_start t; pt_pending_ocr_start := pt_pending_ocr_start t;
     pt_last_ocr_end := pt_last_ocr_end t; pt_ocr_work_ms := pt_ocr_work_ms t;
     pt_decision := pt_decision t; pt_actuation := pt_actuation t;
     pt_relay_finished := pt_relay_finished t; pt_actuation_details_marked := marked;
     pt_frames := pt_frames t; pt_ocr_attempts := pt_ocr_attempts t;
     pt_decision_outcome := outcome; pt_decision_reason := reason; pt_actuation_claim := claim;
     pt_actuation_attempted := attempted; pt_relay_outcome := relay; pt_trigger := pt_trigger t;
     pt_finished_telemetry := finished |}.

(** The arguments for which the conversions look at the anchor. *)
Definition anchor_used (received_at : option datetime) (decision_started_at : pyval)
    (t : ProcessingTrace) : bool :=
  match received_at with
  | Some r => match dt_sub (pt_wall_anchor t) r with Ok _ => true | Err _ => false end
  | None => false
  end
  || match decision_started_at with
     | VBool _ => false
     | v => match to_float v with Some f => isfinite f | None => false end
     end.

(** telemetry.py: ProcessingTrace.seed_upstream.  A capture time that an earlier
    call cleared raises TypeError when it is used as the anchor. *)
Definition seed_upstream (received_at : option datetime) (decision_started_at : pyval)
    (processing_started_at : option datetime) (t : ProcessingTrace) : result ProcessingTrace :=
  if bool_decide (pt_captured t = None) && anchor_used received_at decision_started_at t
  then Err TypeError
  else
  let anchor := default NaN (pt_captured t) in
  let capture := _wall_to_monotonic received_at (pt_wall_anchor t) anchor in
  let burst := _upstream_monotonic decision_started_at anchor in
  let given := match decision_started_at with VNone => false | _ => true end in
  let captured1 :=
    if bool_decide (is_Some received_at) || given then capture else pt_captured t in
  let captured2 :=
    match capture, burst with
    | Some c, Some b =>
        if fle c b then captured1
        else if fle (fsub c b) MAX_CLOCK_SKEW_SECONDS then Some b else None
    | _, _ => captured1
    end in
  let t1 := set_upstream
    (match capture, received_at with Some _, Some r => r | _, _ => pt_captured_at t end)
    (match capture with Some _ => received_at | None => pt_filesystem_ingress_at t end)
    (match _wire_timestamp processing_started_at with
     | Some _ => processing_started_at | None => pt_burst_processing_started_at t end) t in
  Ok (set_timing captured2 (if given then burst else pt_burst t) (pt_first_ocr_start t)
        (pt_pending_ocr_start t) (pt_last_ocr_end t) (pt_decision t) (pt_actuation t)
        (pt_relay_finished t) t1).

(** telemetry.py: ProcessingTrace.mark_burst *)
Definition mark_burst (now : pyfloat) (t : ProcessingTrace) : ProcessingTrace :=
  match pt_burst t with
  | Some _ => t
  | None => set_timing (pt_captured t) (Some now) (pt_first_ocr_start t) (pt_pending_ocr_start t)
              (pt_last_ocr_end t) (pt_decision t) (pt_actuation t) (pt_relay_finished t) t
  end.

(** telemetry.py: ProcessingTrace.set_trigger *)
Definition set_trigger (trigger : option TriggerTelemetry) (t : ProcessingTrace) : ProcessingTrace :=
  set_items (pt_frames t) (pt_ocr_attempts t) (pt_ocr_work_ms t) trigger t.

(** telemetry.py: ProcessingTrace.add_frame *)
Definition add_frame (frame : FrameTelemetry) (t : ProcessingTrace) : ProcessingTrace :=
  if (length (pt_frames t) <? MAX_ITEMS)%nat
  then set_items (pt_frames t ++ [frame]) (pt_ocr_attempts t) (pt_ocr_work_ms t) (pt_trigger t) t
  else t.

(** telemetry.py: ProcessingTrace.mark_ocr_start *)
Definition mark_ocr_start (now : pyfloat) (t : ProcessingTrace) : ProcessingTrace :=
  if (MAX_ITEMS <=? length (pt_ocr_attempts t))%nat || bool_decide (is_Some (pt_pending_ocr_start t))
  then t
  else set_timing (pt_captured t) (pt_burst t)
         (match pt_first_ocr_start t with Some f => Some f | None => Some now end) (Some now)
         (pt_last_ocr_end t) (pt_decision t) (pt_actuation t) (pt_relay_finished t) t.

Definition with_duration (a : OcrAttemptTelemetry) (d : pyval) : OcrAttemptTelemetry :=
  {| oa_frame_sequence := oa_frame_sequence a; oa_duration_ms := d; oa_status := oa_status a;
     oa_plate := oa_plate a; oa_confidence := oa_confidence a; oa_make := oa_make a;
     oa_colour := oa_colour a |}.

(** telemetry.py: ProcessingTrace.add_ocr_attempt *)
Definition add_ocr_attempt (now : pyfloat) (attempt : OcrAttemptTelemetry) (t : ProcessingTrace)
  : result ProcessingTrace :=
  if (MAX_ITEMS <=? length (pt_ocr_attempts t))%nat then Ok t
  else match pt_pending_ocr_start t with
       | None => Err (RuntimeError "mark_ocr_start must be called before add_ocr_attempt")
       | Some started =>
           let duration := match _elapsed (Some started) (Some now) with
                           | VFloat f => f | _ => float_0 end in
           Ok (set_items (pt_frames t) (pt_ocr_attempts t ++ [with_duration attempt (VFloat duration)])
                 (fadd (pt_ocr_work_ms t) duration) (pt_trigger t)
                 (set_timing (pt_captured t) (pt_burst t) (pt_first_ocr_start t) None (Some now)
                    (pt_decision t) (pt_actuation t) (pt_relay_finished t) t))
       end.

(** telemetry.py: ProcessingTrace.add_ocr_rejection *)
Definition add_ocr_rejection (attempt : OcrAttemptTelemetry) (t : ProcessingTrace) : ProcessingTrace :=
  if (length (pt_ocr_attempts t) <? MAX_ITEMS)%nat
  then set_items (pt_frames t) (pt_ocr_attempts t ++ [with_duration attempt (VFloat float_0)])
         (pt_ocr_work_ms t) (pt_trigger t) t
  else t.

(** telemetry.py: ProcessingTrace.mark_decision *)
Definition mark_decision (now : pyfloat) (outcome reason : string) (t : ProcessingTrace)
  : ProcessingTrace :=
  match pt_decision t with
  | Some _ => t
  | None =>
      set_outcomes outcome reason (pt_actuation_claim t) (pt_actuation_attempted t)
        (pt_relay_outcome t) (pt_actuation_details_marked t) (pt_finished_telemetry t)
        (set_timing (pt_captured t) (pt_burst t) (pt_first_ocr_start t) (pt_pending_ocr_start t)
           (pt_last_ocr_end t) (Some now) (pt_actuation t) (pt_relay_finished t) t)
  end.

(** telemetry.py: ProcessingTrace.revise_decision *)
Definition revise_decision (now : pyfloat) (outcome reason : string) (t : ProcessingTrace)
  : ProcessingTrace :=
  match pt_decision t with
  | None => mark_decision now outcome reason t
  | Some _ =>
      set_outcomes outcome reason (pt_actuation_claim t) (pt_actuation_attempted t)
        (pt_relay_outcome t) (pt_actuation_details_marked t) (pt_finished_telemetry t) t
  end.

(** telemetry.py: ProcessingTrace.mark_relay_activation *)
Definition mark_relay_activation (now : pyfloat) (t : ProcessingTrace) : ProcessingTrace :=
  match pt_actuation t with
  | Some _ => t
  | None => set_timing (pt_captured t) (pt_burst t) (pt_first_ocr_start t) (pt_pending_ocr_start t)
              (pt_last_ocr_end t) (pt_decision t) (Some now) (pt_relay_finished t) t
  end.

(** telemetry.py: ProcessingTrace.mark_relay_finished *)
Definition mark_relay_finished (now : pyfloat) (t : ProcessingTrace) : ProcessingTrace :=
  match pt_actuation t, pt_relay_finished t with
  | Some _, None =>
      set_timing (pt_captured t) (pt_burst t) (pt_first_ocr_start t) (pt_pending_ocr_start t)
        (pt_last_ocr_end t) (pt_decision t) (pt_actuation t) (Some now) t
  | _, _ => t
  end.

(** telemetry.py: ProcessingTrace.set_actuation_outcome *)
Definition set_actuation_outcome (claim : string) (attempted : bool) (relay_outcome : string)
    (t : ProcessingTrace) : ProcessingTrace :=
  if pt_actuation_details_marked t then t
  else set_outcomes (pt_decision_outcome t) (pt_decision_reason t) claim attempted relay_outcome
         true (pt_finished_telemetry t) t.

(** telemetry.py: ProcessingTrace.mark_actuation *)
Definition mark_actuation (now : pyfloat) (claim : string) (attempted : bool) (relay_outcome : string)
    (t : ProcessingTrace) : ProcessingTrace :=
  set_actuation_outcome claim attempted relay_outcome (mark_relay_activation now t).

(** telemetry.py: ProcessingTrace._wall_at; the addition raises OverflowError,
    a subclass of Exception, outside the range of datetimes. *)
Definition _wall_at (t : ProcessingTrace) (value : option pyfloat) : result (option datetime) :=
  match value with
  | None => Ok None
  | Some v =>
      match fsub v (pt_monotonic_anchor t) with
      | Fin offset =>
          if flt MAX_UPSTREAM_INTERVAL_SECONDS (Fin (Z.abs offset)) then Ok None
          else
            let us := (match pt_wall_anchor t with Aware u | Naive u => u end + timedelta_us offset)%Z in
            if (DATETIME_MIN <=? us)%Z && (us <=? DATETIME_MAX)%Z
            then Ok (Some (match pt_wall_anchor t with Aware _ => Aware us | Naive _ => Naive us end))
            else Err (ValueError "date value out of range")
      | _ => Ok None
      end
  end.

Definition or_else {A} (a b : option A) : option A := match a with Some x => Some x | None => b end.

(** The telemetry [finish] builds, at the reading [now]. *)
Definition finished_telemetry (now : pyfloat) (t : ProcessingTrace) : result EventTelemetry :=
  let rb {A} (r : result A) (k : A -> result EventTelemetry) :=
    match r with Ok a => k a | Err e => Err e end in
  rb (match pt_burst_processing_started_at t with Some b => Ok (Some b) | None => _wall_at t (pt_burst t) end) (fun burst_at =>
  rb (_wall_at t (pt_first_ocr_start t)) (fun ocr_started =>
  rb (_wall_at t (pt_last_ocr_end t)) (fun ocr_finished =>
  rb (_wall_at t (pt_decision t)) (fun decision_at =>
  rb (_wall_at t (pt_actuation t)) (fun relay_started =>
  rb (_wall_at t (pt_relay_finished t)) (fun relay_finished =>
  rb (_wall_at t (Some now)) (fun finished =>
  let ingress := match pt_filesystem_ingress_at t with Some _ => pt_captured t | None => None end in
  Ok (post_init
    {| et_trace_id := pt_trace_id t;
       et_stage_durations :=
         {| sd_capture_to_burst_ms := _elapsed (pt_captured t) (pt_burst t);
            sd_burst_to_ocr_ms := _elapsed (pt_burst t) (pt_first_ocr_start t);
            sd_ocr_ms := VFloat (pt_ocr_work_ms t);
            sd_decision_ms := _elapsed (pt_last_ocr_end t) (pt_decision t);
            sd_decision_to_relay_ms := _elapsed (pt_decision t) (pt_actuation t);
            sd_end_to_end_ms := _elapsed (pt_captured t) (Some now);
            sd_delivery_lag_ms := VNone;
            sd_filesystem_ingress_to_decision_ms := _elapsed ingress (pt_decision t);
            sd_filesystem_ingress_to_relay_ms := _elapsed ingress (pt_actuation t);
            sd_relay_ms := _elapsed (pt_actuation t) (pt_relay_finished t);
            sd_cloud_send_to_ack_ms := VNone |};
       et_frames := pt_frames t; et_ocr_attempts := pt_ocr_attempts t;
       et_decision_outcome := Some (pt_decision_outcome t);
       et_decision_reason := Some (pt_decision_reason t);
       et_actuation_claim := Some (pt_actuation_claim t);
       et_actuation_attempted := pt_actuation_attempted t;
       et_relay_outcome := Some (pt_relay_outcome t);
       et_outbox_attempt := VInt 0; et_delivery_state := Some "pending";
       et_stage_timestamps :=
         {| st_filesystem_ingress_at := pt_filesystem_ingress_at t;
            st_burst_processing_started_at := burst_at; st_ocr_started_at := ocr_started;
            st_ocr_finished_at := ocr_finished; st_decision_at := decision_at;
            st_relay_started_at := relay_started; st_relay_finished_at := relay_finished;
            st_processing_finished_at := finished |};
       et_trigger := pt_trigger t |})))))))).

(** telemetry.py: ProcessingTrace.finish with its default arguments *)
Definition finish (now : pyfloat) (t : ProcessingTrace)
  : result EventTelemetry * ProcessingTrace :=
  match pt_finished_telemetry t with
  | Some e => (Ok e, t)
  | None =>
      match finished_telemetry now t with
      | Ok e => (Ok e, set_outcomes (pt_decision_outcome t) (pt_decision_reason t)
                         (pt_actuation_claim t) (pt_actuation_attempted t) (pt_relay_outcome t)
                         (pt_actuation_details_marked t) (Some e) t)
      | Err x => (Err x, t)
      end
  end.

(** ** The wire format is bounded *)

Lemma rounded_int_bounds v lo hi fb :
  (lo <= hi)%Z -> (lo <= fb <= hi)%Z -> (lo <= _rounded_int v lo hi fb <= hi)%Z.
Proof.
  intros H1 H2. unfold _rounded_int. destruct (to_float v); [|done].
  destruct (negb _); [done|]. destruct (fadd _ _); try done. lia.
Qed.

Lemma duration_bounds v ms : _duration v = Some ms -> (0 <= ms <= MAX_DURATION_MS)%Z.
Proof.
  unfold _duration. destruct v; intros H; simplify_eq;
    apply rounded_int_bounds; unfold MAX_DURATION_MS; lia.
Qed.

Definition is_ratio (f : pyfloat) : Prop := exists m, f = Fin m /\ (0 <= m <= two1074)%Z.

Lemma ratio_bounds v : is_ratio (_ratio v).
Proof.
  pose proof two1074_pos. unfold _ratio. destruct (to_float v) as [[]|];
    try (exists 0%Z; split; [done|lia]). cbn [negb isfinite].
  apply (fclamp_between 0 two1074). lia.
Qed.

Lemma token_is_token v : token_match (token v) = true.
Proof.
  unfold token, _token. destruct v as [s|]; [|reflexivity].
  destruct (token_match s) eqn:E; [done|reflexivity].
Qed.

Lemma substring_length n s : (String.length (String.substring 0 n s) <= n)%nat.
Proof. revert s. induction n as [|n IH]; intros [|a s]; cbn; try lia. specialize (IH s). lia. Qed.

Lemma optional_string_bound v s : _optional_string v = Some s -> (String.length s <= MAX_STRING_LENGTH)%nat.
Proof.
  unfold _optional_string. destruct v as [[|a v]|]; intros H; simplify_eq. apply substring_length.
Qed.

Definition int_between (lo hi : Z) (j : json) : Prop := exists z, j = JInt z /\ (lo <= z <= hi)%Z.
Definition ratio_json (j : json) : Prop := exists f, j = JFloat f /\ is_ratio f.
Definition token_json (j : json) : Prop := exists s, j = JStr s /\ token_match s = true.
Definition short_json (j : json) : Prop :=
  j = JNull \/ exists s, j = JStr s /\ (String.length s <= MAX_STRING_LENGTH)%nat.

(** Every key of the list is present and its value satisfies the predicate. *)
Definition fields (d : dict json) (spec : list (string * (json -> Prop))) : Prop :=
  Forall (fun kp => exists j, dget kp.1 d = Some j /\ kp.2 j) spec.

Definition frame_bounded (j : json) : Prop := exists d, j = JDict d /\
  fields d [("sequence", int_between 0 7); ("width", int_between 1 MAX_DIMENSION);
            ("height", int_between 1 MAX_DIMENSION); ("sharpness", ratio_json);
            ("brightness", ratio_json); ("darkness", ratio_json);
            ("highlight_clipping", ratio_json); ("status", token_json);
            ("digest", fun j => exists s, j = JStr s /\ sha256_match s = true)].

Definition attempt_bounded (j : json) : Prop := exists d, j = JDict d /\
  fields d [("frame_sequence", int_between 0 7); ("duration_ms", int_between 0 MAX_DURATION_MS);
            ("status", token_json); ("plate", short_json); ("make", short_json);
            ("colour", short_json); ("confidence", fun j => j = JNull \/ ratio_json j)].

Definition list_of (n : nat) (P : json -> Prop) (j : json) : Prop :=
  exists l, j = JList l /\ (length l <= n)%nat /\ Forall P l.
Definition dict_of (spec : list (string * (json -> Prop))) (j : json) : Prop :=
  exists d, j = JDict d /\ fields d spec.

Definition wire_bounded_spec : list (string * (json -> Prop)) :=
  [("schema_version", fun j => j = JInt 3);
   ("stage_durations", fun j => exists d, j = JDict d /\
      Forall (fun kv => int_between 0 MAX_DURATION_MS kv.2) d);
   ("frames", list_of MAX_ITEMS frame_bounded);
   ("ocr_attempts", list_of MAX_ITEMS attempt_bounded);
   ("decision", dict_of [("outcome", token_json); ("reason", token_json)]);
   ("actuation", dict_of [("claim", token_json); ("relay_outcome", token_json)]);
   ("delivery", dict_of [("outbox_attempt", int_between 0 MAX_DELIVERY_ATTEMPT);
                         ("state", token_json)])].

Lemma token_field v : token_json (JStr (token v)).
Proof. eexists. split; [reflexivity|apply token_is_token]. Qed.
Lemma int_field v lo hi fb :
  (lo <= hi)%Z -> (lo <= fb <= hi)%Z -> int_between lo hi (JInt (_rounded_int v lo hi fb)).
Proof. intros. eexists. split; [reflexivity|by apply rounded_int_bounds]. Qed.
Lemma ratio_field v : ratio_json (JFloat (_ratio v)).
Proof. eexists. split; [reflexivity|apply ratio_bounds]. Qed.
Lemma short_field v : short_json (json_of_option JStr (_optional_string v)).
Proof.
  destruct (_optional_string v) as [s|] eqn:E; [right|by left].
  exists s. split; [done|]. by eapply optional_string_bound.
Qed.
#[export] Hint Resolve token_field ratio_field short_field : gate.

(** Prove a [fields] goal of a literal dictionary. *)
Ltac fields_tac :=
  unfold fields;
  repeat match goal with
  | |- Forall _ (_ :: _) => apply list.Forall_cons; split; [eexists; split; [reflexivity|]|]
  | |- Forall _ [] => apply List.Forall_nil
  end.

Lemma frame_wire_bounded f d : frame_to_wire f = Some d -> frame_bounded (JDict d).
Proof.
  unfold frame_to_wire. destruct (ft_digest f) as [digest|]; [|done].
  destruct (sha256_match digest) eqn:E; intros H; simplify_eq. eexists. split; [reflexivity|].
  fields_tac; cbn [snd]; eauto with gate; apply int_field; unfold MAX_DIMENSION, MAX_ITEMS; lia.
Qed.

Lemma attempt_wire_bounded a : attempt_bounded (JDict (attempt_to_wire a)).
Proof.
  eexists. split; [reflexivity|]. fields_tac; cbn [snd]; eauto with gate.
  - apply int_field; unfold MAX_ITEMS; lia.
  - destruct (_duration (oa_duration_ms a)) as [ms|] eqn:E; cbn.
    + eexists. split; [reflexivity|]. by eapply duration_bounds.
    + eexists. split; [reflexivity|]. unfold MAX_DURATION_MS. lia.
  - destruct (oa_confidence a); auto with gate.
Qed.

Lemma durations_wire_bounded s :
  Forall (fun kv => int_between 0 MAX_DURATION_MS kv.2) (durations_to_wire s).
Proof.
  apply list.Forall_forall. intros kv ([k v] & _ & Hkv)%list_elem_of_omap. cbn in Hkv.
  destruct (_duration v) as [ms|] eqn:E; [|done]. injection Hkv as <-.
  eexists. split; [reflexivity|]. by eapply duration_bounds.
Qed.


(** ** The trace *)

(** The calls a processor makes on a trace; a reading of the monotonic clock
    comes with each call that takes one. *)
Inductive trace_op :=
| OpSeed (received : option datetime) (started : pyval) (processing : option datetime)
| OpBurst (now : pyfloat)
| OpTrigger (t : option TriggerTelemetry)
| OpFrame (f : FrameTelemetry)
| OpOcrStart (now : pyfloat)
| OpOcrAttempt (now : pyfloat) (a : OcrAttemptTelemetry)
| OpOcrRejection (a : OcrAttemptTelemetry)
| OpDecision (now : pyfloat) (outcome reason : string)
| OpRevise (now : pyfloat) (outcome reason : string)
| OpActivation (now : pyfloat)
| OpRelayFinished (now : pyfloat)
| OpOutcome (claim : string) (attempted : bool) (relay : string)
| OpFinish (now : pyfloat).

Definition trace_step (op : trace_op) (t : ProcessingTrace) : result ProcessingTrace :=
  match op with
  | OpSeed r s p => seed_upstream r s p t
  | OpBurst now => Ok (mark_burst now t)
  | OpTrigger tr => Ok (set_trigger tr t)
  | OpFrame f => Ok (add_frame f t)
  | OpOcrStart now => Ok (mark_ocr_start now t)
  | OpOcrAttempt now a => add_ocr_attempt now a t
  | OpOcrRejection a => Ok (add_ocr_rejection a t)
  | OpDecision now o r => Ok (mark_decision now o r t)
  | OpRevise now o r => Ok (revise_decision now o r t)
  | OpActivation now => Ok (mark_relay_activation now t)
  | OpRelayFinished now => Ok (mark_relay_finished now t)
  | OpOutcome c a r => Ok (set_actuation_outcome c a r t)
  | OpFinish now => match finish now t with (Ok _, t') => Ok t' | (Err e, _) => Err e end
  end.

(** A failed call leaves the trace as it was. *)
Definition trace_next (op : trace_op) (t : ProcessingTrace) : ProcessingTrace :=
  match trace_step op t with Ok t' => t' | Err _ => t end.

(** What the trace keeps of its first decision, activation and outcome. *)
Record trace_ok (t : ProcessingTrace) : Prop := {
  to_frames : (length (pt_frames t) <= MAX_ITEMS)%nat;
  to_attempts : (length (pt_ocr_attempts t) <= MAX_ITEMS)%nat;
  to_relay : pt_relay_finished t <> None -> pt_actuation t <> None;
  to_decided : pt_decision t = None -> pt_decision_outcome t = "unknown";
}.

Ltac trace_cases :=
  repeat match goal with
  | H : Err _ = Ok _ |- _ => discriminate H
  | H : Ok (match ?x with _ => _ end) = Ok _ |- _ => destruct x eqn:?
  | H : match ?x with _ => _ end = Ok _ |- _ => destruct x eqn:?
  | H : (_, _) = (_, _) |- _ => injection H as <- <-
  | H : Ok _ = Ok _ |- _ => injection H as <-
  | H : match ?x with _ => _ end = (_, _) |- _ => destruct x eqn:?
  end.

Lemma trace_step_ok op t t' : trace_ok t -> trace_step op t = Ok t' -> trace_ok t'.
Proof.
  intros [Hf Ha Hr Hd] E.
  destruct op; cbn [trace_step] in E;
    unfold seed_upstream, mark_burst, set_trigger, add_frame, mark_ocr_start, add_ocr_attempt,
      add_ocr_rejection, revise_decision, mark_decision, mark_relay_activation, mark_relay_finished,
      set_actuation_outcome, finish in E; trace_cases;
    split; cbn; rewrite ?length_app; cbn;
    repeat match goal with
    | H : (_ <? _)%nat = true |- _ => apply Nat.ltb_lt in H
    | H : (_ <=? _)%nat = false |- _ => apply Nat.leb_gt in H
    end; unfold MAX_ITEMS in *; try lia; try done; try congruence; intuition congruence.
Qed.

Lemma trace_next_ok op t : trace_ok t -> trace_ok (trace_next op t).
Proof.
  intros H. unfold trace_next. destruct (trace_step op t) eqn:E; [by eapply trace_step_ok|done].
Qed.

Lemma finished_stays op t e :
  pt_finished_telemetry t = Some e -> pt_finished_telemetry (trace_next op t) = Some e.
Proof.
  intros He. unfold trace_next. destruct (trace_step op t) as [t'|] eqn:E; [|done].
  destruct op; cbn [trace_step] in E;
    unfold seed_upstream, mark_burst, set_trigger, add_frame, mark_ocr_start, add_ocr_attempt,
      add_ocr_rejection, revise_decision, mark_decision, mark_relay_activation, mark_relay_finished,
      set_actuation_outcome, finish in E; trace_cases; cbn; congruence.
Qed.

(** every sequence of calls on a trace keeps it bounded (at most eight
    frames and eight attempts) and consistent (a relay that finished was
    activated, an outcome needs a decision), and once the trace has been finished
    every later finish returns the same telemetry, whatever is called on it. *)
Theorem trace_invariant (wall : datetime) (mono now1 now2 : pyfloat) (id : string)
    (ops ops2 : list trace_op) :
  let t := fold_left (fun t op => trace_next op t) ops (new_trace wall mono id) in
  trace_ok t /\
  forall e t1, finish now1 t = (Ok e, t1) ->
    fst (finish now2 (fold_left (fun t op => trace_next op t) ops2 t1)) = Ok e.
Proof.
  intros t. split.
  - unfold t. assert (H0 : trace_ok (new_trace wall mono id)) by (split; cbn; try done; lia).
    revert H0. generalize (new_trace wall mono id). induction ops as [|op ops IH]; intros t0 H0; [done|].
    cbn. by apply IH, trace_next_ok.
  - intros e t1 E.
    assert (H1 : pt_finished_telemetry t1 = Some e).
    { unfold finish in E. destruct (pt_finished_telemetry t) eqn:Et; [by simplify_eq|].
      destruct (finished_telemetry now1 t); [|done]. by simplify_eq. }
    assert (H2 : pt_finished_telemetry (fold_left (fun t op => trace_next op t) ops2 t1) = Some e).
    { clear E. revert t1 H1. induction ops2 as [|op ops2 IH]; intros t1 H1; [done|].
      cbn. by apply IH, finished_stays. }
    unfold finish. by rewrite H2.
Qed.

(** ** Triggers *)

Lemma required_duration_bounds v ms :
  _required_duration v = Some ms -> (0 <= ms <= MAX_DURATION_MS)%Z.
Proof.
  unfold _required_duration. intros E.
  assert (H : exists number, (if negb (isfinite number) || flt number float_0 then None
    else match fadd number float_half with
         | Fin m => Some (Z.min (floor_of m) MAX_DURATION_MS) | _ => None end) = Some ms).
  { destruct v; try done; destruct (to_float _) as [g|]; try done; by exists g. }
  clear E. destruct H as [[| | |x] E]; try done. cbn [isfinite negb orb] in E.
  destruct (flt (Fin x) float_0) eqn:Hx; [done|]. cbn in Hx. apply Z.ltb_ge in Hx.
  destruct (fadd (Fin x) float_half) as [| | |m] eqn:Ea; try done. injection E as <-.
  assert (0 <= m)%Z.
  { eapply (fadd_nonneg x _ m Hx); [|exact Ea]. rewrite Z.shiftl_mul_pow2 by lia. lia. }
  unfold floor_of, MAX_DURATION_MS. pose proof (Z.div_pos m two1074 ltac:(done) two1074_pos). lia.
Qed.

(** a trigger is reported as a matched webhook exactly when its source, type,
    correlation, rule and delay all say so; otherwise the wire form is the FTP
    fallback, whatever the other fields hold. *)
Theorem trigger_wire_cases (t : TriggerTelemetry) :
  (trigger_to_wire t = fallback_trigger_wire) \/
  (tt_source t = "reolink_webhook" /\ tt_event_type t ∈ _MATCHED_TRIGGER_EVENT_TYPES /\
   tt_correlation t = "matched" /\
   exists rule ms, tt_rule_id t = Some rule /\ token_match rule = true /\
     _required_duration (tt_delta_ms t) = Some ms /\ (0 <= ms <= MAX_DURATION_MS)%Z /\
     dget "rule_id" (trigger_to_wire t) = Some (JStr rule) /\
     dget "delta_ms" (trigger_to_wire t) = Some (JInt ms)).
Proof.
  unfold trigger_to_wire. destruct (_required_duration (tt_delta_ms t)) as [ms|] eqn:Ems; [|by left].
  destruct (_ && _) eqn:E; [right|by left]. bool_props.
  repeat match goal with H : String.eqb _ _ = true |- _ => apply String.eqb_eq in H
                       | H : String.eqb _ _ = false |- _ => apply String.eqb_neq in H end.
  repeat (split; [done|]).
  unfold _token in *. destruct (tt_rule_id t) as [rule|]; [|done].
  destruct (token_match rule) eqn:Er; [|done]. exists rule, ms. split; [done|]. split; [done|].
  split; [done|]. split.
  - by eapply required_duration_bounds.
  - destruct (_wire_timestamp _); split; reflexivity.
Qed.
