(* ===== verification/StoreOutbox.v ===== *)
(** * The local store: outbox delivery and event telemetry

    The methods of gate_controller/store.py that attach a telemetry trace to an
    event, prepare and finish deliveries of outbox rows, and purge delivered
    telemetry. *)

From S2P Require Import Prelude Models Json Store StoreFacts Float Text Telemetry.

(** ** Equality of decoded JSON values

    Numbers compare by value, objects as maps. *)

Definition json_num (j : json) : option pyfloat :=
  match j with
  | JBool b => Some (if b then float_1 else float_0)
  | JInt z => Some (Fin (z * two1074))
  | JFloat f => Some f
  | _ => None
  end.

Fixpoint json_eqb (a b : json) {struct a} : bool :=
  match a, b with
  | JNull, JNull => true
  | JStr s, JStr t => String.eqb s t
  | JTime x, JTime y => Z.eqb x y
  | JList l, JList k =>
      (fix go (l k : list json) : bool :=
         match l, k with
         | [], [] => true
         | x :: l', y :: k' => json_eqb x y && go l' k'
         | _, _ => false
         end) l k
  | JDict d, JDict e =>
      (length d =? length e)%nat &&
      (fix go (d : dict json) : bool :=
         match d with
         | [] => true
         | (k, x) :: d' =>
             match dget k e with Some y => json_eqb x y | None => false end && go d'
         end) d
  | _, _ =>
      match json_num a, json_num b with
      | Some x, Some y => fle x y && fle y x
      | _, _ => false
      end
  end.

Definition is_dict (j : json) : bool := match j with JDict _ => true | _ => false end.
Definition is_str (j : json) : bool := match j with JStr _ | JTime _ => true | _ => false end.

(** [dict(x)] of a decoded value. *)
Definition as_dict (j : json) : result (dict json) :=
  match j with JDict d => Ok d | _ => Err TypeError end.

(** [d.get(key, {})] then [dict(...)] *)
Definition get_dict (key : string) (d : dict json) : result (dict json) :=
  match dget key d with None => Ok [] | Some j => as_dict j end.

(** [d.setdefault(key, v)] *)
Definition dsetdefault (key : string) (v : json) (d : dict json) : dict json :=
  match dget key d with Some _ => d | None => dset key v d end.

(** ** Payload helpers *)

(** A loop that may raise on an element. *)
Fixpoint rmap {A B} (f : A -> result B) (l : list A) : result (list B) :=
  match l with
  | [] => Ok []
  | x :: l' => rbind (f x) (fun y => rbind (rmap f l') (fun rest => Ok (y :: rest)))
  end.

(** store.py: _v2_outbox_payload *)
Definition _v2_outbox_payload (payload : json) : result (dict json) :=
  match payload with
  | JDict d => Ok (dset "schema_version" (JInt 2) (ddel "telemetry" d))
  | _ => Err (ValueError "outbox payload must be an object")
  end.

Definition _TELEMETRY_FRAME_KEYS : list string :=
  ["sequence"; "digest"; "width"; "height"; "sharpness"; "brightness"; "darkness";
   "highlight_clipping"; "status"].
Definition _TELEMETRY_OCR_KEYS : list string :=
  ["frame_sequence"; "duration_ms"; "status"; "plate"; "confidence"; "make"; "colour"].

(** [{key: item[key] for key in keys if key in item}] *)
Definition select_keys (keys : list string) (j : json) : json :=
  match j with
  | JDict d => JDict (omap (fun k => (fun v => (k, v)) <$> dget k d) keys)
  | _ => JDict []
  end.

Definition select_list (keys : list string) (j : json) : json :=
  match j with JList l => JList (select_keys keys <$> l) | _ => JList [] end.

(** store.py: _telemetry_payload *)
Definition _telemetry_payload (telemetry : EventTelemetry) : result (dict json) :=
  let raw := to_wire telemetry in
  match dget "schema_version" raw with
  | Some (JInt 3) =>
      Ok ([("trace_id", dict_get "trace_id" raw);
           ("taxonomy_version", dict_get "taxonomy_version" raw);
           ("stage_durations", dict_get "stage_durations" raw);
           ("frames", select_list _TELEMETRY_FRAME_KEYS (dict_get "frames" raw));
           ("ocr_attempts", select_list _TELEMETRY_OCR_KEYS (dict_get "ocr_attempts" raw));
           ("decision", dict_get "decision" raw);
           ("actuation", dict_get "actuation" raw);
           ("delivery", dict_get "delivery" raw)]
          ++ match dget "stage_timestamps" raw with Some v => [("stage_timestamps", v)] | None => [] end
          ++ match dget "trigger" raw with Some v => [("trigger", v)] | None => [] end)
  | _ => Err (ValueError "telemetry must use schema version 3")
  end.

Definition is_cloud_key (k : string) : bool := String.prefix "cloud_" k.

(** One side of the comparison of [_same_trace]. *)
Definition immutable_trace (p : dict json) : result (dict json) :=
  let p := ddel "delivery" p in
  rbind (get_dict "stage_durations" p) (fun durations =>
  rbind (get_dict "stage_timestamps" p) (fun stamps =>
  let p := dset "stage_durations"
             (JDict (ddel "cloud_send_to_ack_ms" (ddel "delivery_lag_ms" durations))) p in
  let stamps := filter (fun kv => is_cloud_key kv.1 = false) stamps in
  Ok (match stamps with
      | [] => ddel "stage_timestamps" p
      | _ => dset "stage_timestamps" (JDict stamps) p
      end))).

(** store.py: _same_trace *)
Definition _same_trace (left right : dict json) : result bool :=
  rbind (immutable_trace left) (fun l =>
  rbind (immutable_trace right) (fun r => Ok (json_eqb (JDict l) (JDict r)))).

(** The type test of one key in [_decode_telemetry_payload]. *)
Definition contract : list (string * (json -> bool)) :=
  [("trace_id", is_str);
   ("taxonomy_version", fun j => match j with JInt _ | JBool _ => true | _ => false end);
   ("stage_durations", is_dict);
   ("frames", fun j => match j with JList _ => true | _ => false end);
   ("ocr_attempts", fun j => match j with JList _ => true | _ => false end);
   ("decision", is_dict); ("actuation", is_dict); ("delivery", is_dict)].

(** _MalformedTelemetry is a ValueError. *)
Definition malformed {A} : result A := Err (ValueError "telemetry is malformed").

(** store.py: _decode_telemetry_payload *)
Definition _decode_telemetry_payload (encoded : text) : result (dict json) :=
  match loads encoded with
  | Err _ => malformed
  | Ok (JDict telemetry) =>
      if forallb (fun kp => kp.2 (dict_get kp.1 telemetry)) contract then
        match dict_get "stage_timestamps" telemetry with
        | JNull => Ok telemetry
        | JDict stamps => if forallb (fun kv => is_str kv.2) stamps then Ok telemetry else malformed
        | _ => malformed
        end
      else malformed
  | Ok _ => malformed
  end.

(** [int(value)] of a decoded JSON value. *)
Definition int_of_json (j : json) : result Z :=
  match j with
  | JInt z => Ok z
  | JBool b => Ok (if b then 1 else 0)%Z
  | JFloat (Fin m) => Ok (Z.quot m two1074)
  | JFloat _ => Err (ValueError "cannot convert float to integer")
  | JStr s => match int_of_text s with Some z => Ok z | None => malformed end
  | _ => malformed
  end.

(** store.py: _telemetry_attempt *)
Definition _telemetry_attempt (telemetry : dict json) : result Z :=
  rbind (dict_item "delivery" telemetry) (fun delivery =>
  rbind (as_dict delivery) (fun d =>
  rbind (int_of_json (default (JInt 0) (dget "outbox_attempt" d))) (fun attempt =>
  Ok (Z.min (Z.max attempt 0) MAX_DELIVERY_ATTEMPT)))).

(** [int(delta.total_seconds() * 1000)] *)
Definition lag_ms (us : Z) : Z :=
  match fmul_const 1000 (float_div us 1000000) with
  | Fin m => Z.quot m two1074
  | _ => 0%Z
  end.

(** [round(interval * 1_000)] *)
Definition interval_ms (us : Z) : Z :=
  match fmul_const 1000 (float_div us 1000000) with
  | Fin m => round_half_even m two1074
  | _ => 0%Z
  end.

(** store.py: _bounded_interval_ms; other texts than the timestamps the program
    writes are not parsed. *)
Definition _bounded_interval_ms (start : json) (end_ : Z) : option Z :=
  match start with
  | JTime s => if (end_ - s <? 0)%Z then None
               else Some (Z.min (interval_ms (end_ - s)) MAX_DURATION_MS)
  | _ => None
  end.

(** ** Rows *)

Definition outbox_of_id (id : Z) (d : database) : option outbox_row :=
  find_row (fun o => Z.eqb (ob_id o) id) (db_outbox d).
Definition telemetry_of_event (event_id : Z) (d : database) : option telemetry_row :=
  find_row (fun t => Z.eqb (tl_event_id t) event_id) (db_telemetry d).
Definition telemetry_of_trace (trace : string) (d : database) : option telemetry_row :=
  find_row (fun t => String.eqb (tl_trace_id t) trace) (db_telemetry d).

Definition with_payload (p : text) (o : outbox_row) : outbox_row :=
  {| ob_id := ob_id o; ob_event_id := ob_event_id o; ob_payload := p;
     ob_created_at := ob_created_at o; ob_completed_at := ob_completed_at o;
     ob_send_state := ob_send_state o |}.
Definition with_completed (c : option Z) (o : outbox_row) : outbox_row :=
  {| ob_id := ob_id o; ob_event_id := ob_event_id o; ob_payload := ob_payload o;
     ob_created_at := ob_created_at o; ob_completed_at := c; ob_send_state := ob_send_state o |}.

(** store.py: _write_telemetry_payload *)
Definition _write_telemetry_payload (event_id : Z) (telemetry : dict json) (d : database) : database :=
  set_telemetry ((fun t => if Z.eqb (tl_event_id t) event_id
                           then {| tl_event_id := tl_event_id t; tl_trace_id := tl_trace_id t;
                                   tl_payload := dumps (JDict telemetry);
                                   tl_created_at := tl_created_at t |}
                           else t) <$> db_telemetry d) d.

(** store.py: _enrich_outbox_delivery *)
Definition _enrich_outbox_delivery (event_id : Z) (telemetry : dict json) (d : database)
  : result (dict json) :=
  match outbox_of_event event_id d with
  | None => Ok telemetry
  | Some o =>
      rbind (get_dict "stage_timestamps" telemetry) (fun stamps =>
      Ok (dset "stage_timestamps"
            (JDict (dsetdefault "cloud_enqueued_at" (JTime (ob_created_at o)) stamps)) telemetry))
  end.

(** store.py: _promote_outbox *)
Definition _promote_outbox (event_id : Z) (telemetry : dict json) : M database unit := fun d =>
  match outbox_of_event event_id d with
  | None => (Ok tt, d)
  | Some o =>
      match loads (ob_payload o) with
      | Err e => (Err e, d)
      | Ok j =>
          match ob_completed_at o with
          | Some _ => (Ok tt, d)
          | None =>
              match j with
              | JDict payload =>
                  let p := dset "telemetry" (JDict telemetry) (dset "schema_version" (JInt 3) payload) in
                  (Ok tt, update_outbox (fun o' => Z.eqb (ob_id o') (ob_id o))
                            (fun o' => set_send_state TelemetryReady (with_payload (dumps (JDict p)) o')) d)
              | _ => (Err TypeError, d)
              end
          end
      end
  end.

Definition str_of (j : json) : string := match j with JStr s => s | _ => EmptyString end.

(** store.py: attach_event_telemetry *)
Definition attach_event_telemetry (now : Z) (event_id : Z) (telemetry : EventTelemetry)
  : M database bool :=
  let! payload := of_result (_telemetry_payload telemetry) in
  transaction (
    let! event := gets (event_of_id event_id) in
    match event with
    | None => raise KeyError
    | Some _ =>
        let! payload := (fun d => (_enrich_outbox_delivery event_id payload d, d)) in
        let trace := str_of (dict_get "trace_id" payload) in
        let! existing := gets (telemetry_of_event event_id) in
        match existing with
        | Some row =>
            let! stored := of_result (loads (tl_payload row)) in
            let! same := of_result (if String.eqb (tl_trace_id row) trace
                                    then rbind (as_dict stored) (fun s => _same_trace s payload)
                                    else Ok false) in
            if same : bool then
              let! stored := of_result (as_dict stored) in
              _promote_outbox event_id stored ;! ret false
            else raise (ValueError "event already has conflicting telemetry")
        | None =>
            let! owner := gets (telemetry_of_trace trace) in
            match owner with
            | Some _ => raise (ValueError "telemetry trace is already attached to another event")
            | None =>
                modify (fun d => set_telemetry (db_telemetry d ++ [
                  {| tl_event_id := event_id; tl_trace_id := trace;
                     tl_payload := dumps (JDict payload); tl_created_at := now |}]) d) ;!
                _promote_outbox event_id payload ;!
                ret true
            end
        end
    end).

(** store.py: event_telemetry *)
Definition event_telemetry (event_id : Z) (d : database) : result (option json) :=
  match telemetry_of_event event_id d with
  | None => Ok None
  | Some t => rbind (loads (tl_payload t)) (fun j => Ok (Some j))
  end.

(** ** Deliveries *)

(** The telemetry [prepare_outbox_attempt] writes. *)
Definition sending_telemetry (stored : text) (created_at attempted_at : Z) : result (dict json) :=
  rbind (_decode_telemetry_payload stored) (fun telemetry =>
  rbind (_telemetry_attempt telemetry) (fun previous =>
  let attempt := Z.min (previous + 1) MAX_DELIVERY_ATTEMPT in
  let telemetry := dset "delivery" (JDict [("outbox_attempt", JInt attempt); ("state", JStr "sending")])
                     telemetry in
  rbind (get_dict "stage_timestamps" telemetry) (fun stamps =>
  let stamps := dsetdefault "cloud_enqueued_at" (JTime created_at) stamps in
  let stamps := ddel "cloud_acknowledged_at" (dset "cloud_send_started_at" (JTime attempted_at) stamps) in
  let telemetry := dset "stage_timestamps" (JDict stamps) telemetry in
  let lag := Z.max 0 (lag_ms (attempted_at - created_at)) in
  rbind (rbind (dict_item "stage_durations" telemetry) as_dict) (fun durations =>
  Ok (dset "stage_durations"
        (JDict (dset "delivery_lag_ms" (JInt (Z.min lag MAX_DURATION_MS)) durations)) telemetry))))).

(** [json.loads(payload)] then [_v2_outbox_payload] *)
Definition v2_of_text (t : text) : result (dict json) := rbind (loads t) _v2_outbox_payload.

Definition v3_payload (fallback telemetry : dict json) : dict json :=
  dset "telemetry" (JDict telemetry) (dset "schema_version" (JInt 3) fallback).

(** store.py: prepare_outbox_attempt *)
Definition prepare_outbox_attempt (item_id : Z) (attempted_at : datetime)
  : M database (option (dict json)) := fun d =>
  match outbox_of_id item_id d with
  | Some o =>
      if sendable o then
        match v2_of_text (ob_payload o) with
        | Err e => (Err e, d)
        | Ok fallback =>
            match telemetry_of_event (ob_event_id o) d with
            | None => (Ok (Some fallback), d)
            | Some t =>
                match sending_telemetry (tl_payload t) (ob_created_at o) (_timestamp attempted_at) with
                | Err _ => (Ok (Some fallback), d)
                | Ok telemetry =>
                    let payload := v3_payload fallback telemetry in
                    (Ok (Some payload),
                     update_outbox (fun o' => Z.eqb (ob_id o') item_id
                                              && bool_decide (ob_completed_at o' = None))
                       (with_payload (dumps (JDict payload)))
                       (_write_telemetry_payload (ob_event_id o) telemetry d))
                end
            end
        end
      else (Ok None, d)
  | None => (Ok None, d)
  end.

(** The telemetry [_set_outbox_delivery_state] writes. *)
Definition settled_telemetry (source : text) (state : string) (completed_at : option Z)
  : result (dict json) :=
  rbind (_decode_telemetry_payload source) (fun telemetry =>
  rbind (_telemetry_attempt telemetry) (fun attempt =>
  let telemetry := dset "delivery" (JDict [("outbox_attempt", JInt attempt); ("state", JStr state)])
                     telemetry in
  match completed_at with
  | Some at_ =>
      if String.eqb state "delivered" then
        rbind (get_dict "stage_timestamps" telemetry) (fun stamps =>
        let stamps := dset "cloud_acknowledged_at" (JTime at_) stamps in
        let telemetry := dset "stage_timestamps" (JDict stamps) telemetry in
        match _bounded_interval_ms (dict_get "cloud_send_started_at" stamps) at_ with
        | None => Ok telemetry
        | Some ms =>
            rbind (rbind (dict_item "stage_durations" telemetry) as_dict) (fun durations =>
            Ok (dset "stage_durations" (JDict (dset "cloud_send_to_ack_ms" (JInt ms) durations))
                  telemetry))
        end)
      else Ok telemetry
  | None => Ok telemetry
  end)).

(** store.py: _set_outbox_delivery_state *)
Definition _set_outbox_delivery_state (item_id : Z) (state : string) (completed_at : option datetime)
    (prepared_payload : option (dict json)) : M database unit := fun d =>
  match outbox_of_id item_id d with
  | None => (Ok tt, d)
  | Some o =>
      match ob_completed_at o with
      | Some _ => (Ok tt, d)
      | None =>
          let start := match prepared_payload with
                       | Some p => Ok (JDict p) | None => loads (ob_payload o) end in
          match rbind start (fun j => rbind (_v2_outbox_payload j) (fun f => Ok (j, f))) with
          | Err e => (Err e, d)
          | Ok (j, fallback) =>
              let payload := match prepared_payload with Some p => p | None => fallback end in
              let prepared_telemetry := dict_get "telemetry" payload in
              let '(payload, d) :=
                match telemetry_of_event (ob_event_id o) d with
                | Some t =>
                    if bool_decide (prepared_payload = None) || negb (is_null prepared_telemetry) then
                      let source := if is_null prepared_telemetry then tl_payload t
                                    else dumps prepared_telemetry in
                      match settled_telemetry source state (_timestamp <$> completed_at) with
                      | Err _ => (payload, d)
                      | Ok telemetry =>
                          (match prepared_payload with
                           | Some p => p | None => v3_payload fallback telemetry end,
                           _write_telemetry_payload (ob_event_id o) telemetry d)
                      end
                    else (payload, d)
                | None => (payload, d)
                end in
              (Ok tt, update_outbox (fun o' => Z.eqb (ob_id o') item_id
                                               && bool_decide (ob_completed_at o' = None))
                        (fun o' => with_completed (_timestamp <$> completed_at)
                                     (with_payload (dumps (JDict payload)) o')) d)
          end
      end
  end.

(** store.py: mark_outbox_retry, complete_outbox_item *)
Definition mark_outbox_retry (item_id : Z) : M database unit :=
  _set_outbox_delivery_state item_id "retry_pending" None None.
Definition complete_outbox_item (item_id : Z) (completed_at : datetime)
    (prepared_payload : option (dict json)) : M database unit :=
  _set_outbox_delivery_state item_id "delivered" (Some completed_at) prepared_payload.

(** ** Purging *)

(** The rows [purge_delivered_telemetry] selects: event id and outbox row. *)
Definition delivered_rows (cutoff : Z) (d : database) : list (Z * outbox_row) :=
  t ← filter (fun t => tl_created_at t < cutoff)%Z (db_telemetry d);
  o ← filter (fun o => ob_event_id o = tl_event_id t /\ ob_completed_at o <> None) (db_outbox d);
  mret (tl_event_id t, o).

Definition delete_telemetry (event_id : Z) (d : database) : database :=
  set_telemetry (filter (fun t => tl_event_id t <> event_id) (db_telemetry d)) d.

(** One iteration of the loop. *)
Definition purge_row (event_id : Z) (o : outbox_row) (acc : Z * database) : Z * database :=
  match v2_of_text (ob_payload o) with
  | Err _ => acc
  | Ok payload =>
      let d := update_outbox (fun o' => Z.eqb (ob_id o') (ob_id o)
                                        && negb (bool_decide (ob_completed_at o' = None)))
                 (with_payload (dumps (JDict payload))) (snd acc) in
      ((fst acc + Z.of_nat (length (filter (fun t => tl_event_id t = event_id) (db_telemetry d))))%Z,
       delete_telemetry event_id d)
  end.

(** store.py: purge_delivered_telemetry *)
Definition purge_delivered_telemetry (cutoff : datetime) : M database Z := fun d =>
  let '(removed, d') := fold_left (fun acc row => purge_row row.1 row.2 acc)
                          (delivered_rows (_timestamp cutoff) d) (0%Z, d) in
  (Ok removed, d').

(** store.py: purge_unqueued_telemetry *)
Definition unqueued (cutoff : Z) (d : database) (t : telemetry_row) : bool :=
  (tl_created_at t <? cutoff)%Z && bool_decide (outbox_of_event (tl_event_id t) d = None).
Definition purge_unqueued_telemetry (cutoff : datetime) : M database Z := fun d =>
  (Ok (Z.of_nat (length (filter (fun t => unqueued (_timestamp cutoff) d t = true) (db_telemetry d)))),
   set_telemetry (filter (fun t => unqueued (_timestamp cutoff) d t = false) (db_telemetry d)) d).

(** ** Evidence and controller binding *)

(** [json.loads(text).get("image_sha256")] when it is a string *)
Definition image_digest (t : text) : option string :=
  match loads t with
  | Ok (JDict p) => match dict_get "image_sha256" p with JStr s => Some s | _ => None end
  | _ => None
  end.

(** store.py: pending_evidence_digests *)
Definition pending_evidence_digests (d : database) : gset string :=
  list_to_set
    (omap (fun o => image_digest (ob_payload o)) (filter (fun o => ob_completed_at o = None) (db_outbox d))
     ++ omap (fun c => cl_pending_outbox_payload c ≫= image_digest)
          (filter (fun c => cl_state c = Claimed) (db_claims d))).

(** [not payload.get("controller_id")] *)
Definition falsy (j : json) : bool :=
  match j with
  | JNull | JBool false | JInt 0 | JFloat (Fin 0) | JStr EmptyString | JList [] | JDict [] => true
  | _ => false
  end.

(** The payload [bind_pending_outbox_controller] stores, when it changes one. *)
Definition bound_payload (controller_id : string) (payload : dict json) : option (dict json) :=
  let legacy := negb (is_null (dict_get "_local_image_path" payload)) in
  let p := ddel "_local_image_path" payload in
  let p := if legacy && negb (dmem "image_sha256" p)
           then dset "image_status" (JStr "legacy_evidence_unavailable") p else p in
  if falsy (dict_get "controller_id" p) then Some (dset "controller_id" (JStr controller_id) p)
  else if legacy then Some p else None.

(** One row of the loop; a payload that is not an object raises AttributeError
    or TypeError. *)
Definition bind_row (controller_id : string) (o : outbox_row) : result outbox_row :=
  match ob_completed_at o with
  | Some _ => Ok o
  | None =>
      rbind (match loads (ob_payload o) with
             | Err _ => Ok []
             | Ok (JDict p) => Ok p
             | Ok _ => Err TypeError
             end) (fun p =>
      Ok (match bound_payload controller_id p with
          | Some p' => with_payload (dumps (JDict p')) o
          | None => o
          end))
  end.

(** store.py: bind_pending_outbox_controller *)
Definition bind_pending_outbox_controller (controller_id : string) : M database unit := fun d =>
  match rmap (bind_row controller_id) (db_outbox d) with
  | Ok rows => (Ok tt, set_outbox rows d)
  | Err e => (Err e, d)
  end.

(** ** The follow-up migration *)

(** store.py: _is_image_free_v3_telemetry_payload *)
Definition _is_image_free_v3_telemetry_payload (payload : json) : bool :=
  match payload with
  | JDict p => json_eqb (dict_get "schema_version" p) (JInt 3) && is_dict (dict_get "telemetry" p)
               && negb (dmem "image_sha256" p) && negb (dmem "image_status" p)
  | _ => false
  end.

(** store.py: _is_incompatible_v3_followup *)
Definition _is_incompatible_v3_followup (payload : json) (state : send_state) : bool :=
  match payload with
  | JDict p =>
      match dict_get "telemetry" p with
      | JDict telemetry =>
          if negb (json_eqb (dict_get "schema_version" p) (JInt 3)) then false
          else if json_eqb (dict_get "image_status" p) (JStr "delivered_before_telemetry") then true
          else if negb (_is_image_free_v3_telemetry_payload payload) then false
          else bool_decide (state = Ready \/ state = LocalOnly) &&
               match dict_get "delivery" telemetry with
               | JDict delivery => json_eqb (dict_get "state" delivery) (JStr "pending")
               | _ => false
               end
      | _ => false
      end
  | _ => false
  end.

(** One row of the migration loop of [_migrate]. *)
Definition migrate_followup (o : outbox_row) : outbox_row :=
  if bool_decide (ob_completed_at o = None) && negb (bool_decide (ob_send_state o = AwaitingTelemetry)) then
    match loads (ob_payload o) with
    | Err _ => o
    | Ok payload =>
        if _is_incompatible_v3_followup payload (ob_send_state o) then set_send_state LocalOnly o
        else if bool_decide (ob_send_state o = LocalOnly) && _is_image_free_v3_telemetry_payload payload
        then set_send_state Ready o
        else o
    end
  else o.

(** *** The payload migrations of [_migrate]

    The rows are rewritten in place; a payload that is not an object raises and
    the transaction of the migration is rolled back. *)

(** [json.loads(payload_text)], the empty dict when it is not JSON *)
Definition payload_or_empty (t : text) : result (dict json) :=
  match loads t with
  | Err _ => Ok []
  | Ok (JDict p) => Ok p
  | Ok _ => Err TypeError
  end.

(** [event_payload = self._event_payload(...) or {}; event_payload.update(payload)] *)
Definition enriched_payload (d : database) (o : outbox_row) (payload : dict json) : outbox_row :=
  with_payload (dumps (JDict (dupdate (default [] (_event_payload (ob_event_id o) d)) payload))) o.

(** outbox_payload_v1 *)
Definition migrate_payload_v1 (d : database) (o : outbox_row) : result outbox_row :=
  match ob_completed_at o with
  | Some _ => Ok o
  | None => rbind (payload_or_empty (ob_payload o)) (fun p => Ok (enriched_payload d o p))
  end.

(** outbox_evidence_v2 *)
Definition migrate_evidence_v2 (d : database) (o : outbox_row) : result outbox_row :=
  rbind (payload_or_empty (ob_payload o)) (fun p =>
  let legacy := negb (is_null (dict_get "_local_image_path" p)) in
  let p := ddel "_local_image_path" p in
  let p := if legacy && negb (dmem "image_sha256" p)
           then dset "image_status" (JStr "legacy_evidence_unavailable") p else p in
  Ok (enriched_payload d o p)).

(** One named migration: skipped when schema_migrations lists it. *)
Definition migration (name : string) (step : database -> outbox_row -> result outbox_row)
    (applied : list string) : M database (list string) := fun d =>
  if bool_decide (name ∈ applied) then (Ok applied, d)
  else match rmap (step d) (db_outbox d) with
       | Ok rows => (Ok (applied ++ [name]), set_outbox rows d)
       | Err e => (Err e, d)
       end.

(** store.py: the outbox part of _migrate; [applied] is schema_migrations. *)
Definition _migrate_outbox (applied : list string) : M database (list string) :=
  transaction (
    let! applied := migration "outbox_payload_v1" migrate_payload_v1 applied in
    let! applied := migration "outbox_evidence_v2" migrate_evidence_v2 applied in
    migration "outbox_incompatible_followup_v3" (fun _ o => Ok (migrate_followup o)) applied).

(** ** Export pages *)

Definition _MAX_TELEMETRY_PAGE_SIZE : Z := 100.

(** The joined rows of [event_telemetry_page], unordered. *)
Definition telemetry_join (since : Z) (d : database) : list (event_row * telemetry_row) :=
  e ← filter (fun e => since <= ev_received_at e)%Z (db_events d);
  t ← filter (fun t => tl_event_id t = ev_id e) (db_telemetry d);
  mret (e, t).

Definition after_key (after : option (Z * Z)) (e : event_row) : bool :=
  match after with
  | None => true
  | Some (received, id) =>
      (received <? ev_received_at e)%Z || ((ev_received_at e =? received)%Z && (id <? ev_id e)%Z)
  end.

(** ORDER BY received_at, id *)
Definition page_le (a b : event_row) : bool :=
  (ev_received_at a <? ev_received_at b)%Z
  || ((ev_received_at a =? ev_received_at b)%Z && (ev_id a <=? ev_id b)%Z).
Fixpoint page_insert (x : event_row * telemetry_row) (l : list (event_row * telemetry_row))
  : list (event_row * telemetry_row) :=
  match l with
  | [] => [x]
  | y :: l' => if page_le x.1 y.1 then x :: l else y :: page_insert x l'
  end.
Definition page_sort (l : list (event_row * telemetry_row)) : list (event_row * telemetry_row) :=
  foldr page_insert [] l.

(** store.py: event_telemetry_page *)
Definition event_telemetry_page (since : datetime) (after : option (Z * Z)) (limit : Z) (d : database)
  : list (event_row * telemetry_row) :=
  let bounded_limit := Z.min (Z.max limit 1) _MAX_TELEMETRY_PAGE_SIZE in
  take (Z.to_nat bounded_limit)
    (page_sort (filter (fun x => after_key after x.1 = true) (telemetry_join (_timestamp since) d))).

(** store.py: event_telemetry_rows; each page continues after the last row of
    the previous one. *)
Fixpoint event_telemetry_rows (fuel : nat) (since : datetime) (after : option (Z * Z)) (d : database)
  : option (list (event_row * telemetry_row)) :=
  match fuel with
  | O => None
  | S n =>
      match event_telemetry_page since after _MAX_TELEMETRY_PAGE_SIZE d with
      | [] => Some []
      | page =>
          match list.last page with
          | Some (e, _) =>
              (fun rest => page ++ rest)
                <$> event_telemetry_rows n since (Some (ev_received_at e, ev_id e)) d
          | None => Some []
          end
      end
  end.
