(* ===== verification/StoreOutboxFacts.v ===== *)
(** * Properties of outbox delivery, telemetry purging and export *)

From Stdlib Require Import Sorting.Sorted.
From S2P Require Import Prelude Models Json Store StoreFacts Float Telemetry StoreOutbox.

(** ** Keyset pagination *)

Abbreviation page_row := (event_row * telemetry_row)%type.

Definition key_lt (a b : page_row) : Prop :=
  (ev_received_at a.1 < ev_received_at b.1)%Z \/
  (ev_received_at a.1 = ev_received_at b.1 /\ ev_id a.1 < ev_id b.1)%Z.
Definition key_le (a b : page_row) : Prop := page_le a.1 b.1 = true.

Lemma page_le_spec a b :
  page_le a b = true <-> (ev_received_at a < ev_received_at b)%Z \/
                         (ev_received_at a = ev_received_at b /\ ev_id a <= ev_id b)%Z.
Proof. unfold page_le. rewrite orb_true_iff, andb_true_iff, Z.ltb_lt, Z.eqb_eq, Z.leb_le. done. Qed.

Lemma key_le_trans a b c : key_le a b -> key_le b c -> key_le a c.
Proof. unfold key_le. rewrite !page_le_spec. lia. Qed.
Lemma key_le_total a b : page_le a.1 b.1 = false -> key_le b a.
Proof.
  unfold key_le. intros H. apply not_true_iff_false in H. rewrite page_le_spec in *. lia.
Qed.

Lemma page_insert_elem x y l : y ∈ page_insert x l <-> y = x \/ y ∈ l.
Proof.
  induction l as [|z l IH]; cbn; [by rewrite list_elem_of_singleton, elem_of_nil; naive_solver|].
  destruct (page_le x.1 z.1); [by rewrite elem_of_cons|]. rewrite !elem_of_cons, IH. tauto.
Qed.

Lemma page_insert_sorted x l : StronglySorted key_le l -> StronglySorted key_le (page_insert x l).
Proof.
  induction 1 as [|y l Hl IH Hall]; cbn; [by repeat constructor|].
  destruct (page_le x.1 y.1) eqn:E.
  - constructor; [by constructor|]. constructor; [done|].
    eapply Forall_impl; [|exact Hall]. intros z. by apply key_le_trans.
  - constructor; [done|]. apply list.Forall_forall. intros z [->|Hz]%page_insert_elem.
    + by apply key_le_total.
    + by eapply list.Forall_forall in Hall.
Qed.

Lemma page_sort_sorted l : StronglySorted key_le (page_sort l).
Proof. induction l; cbn; [constructor|by apply page_insert_sorted]. Qed.

Lemma page_sort_elem x l : x ∈ page_sort l <-> x ∈ l.
Proof. induction l as [|y l IH]; cbn; [done|]. by rewrite page_insert_elem, elem_of_cons, IH. Qed.

Lemma page_insert_head x l : Forall (key_le x) l -> page_insert x l = x :: l.
Proof. destruct l as [|y l]; [done|]. intros [H _]%list.Forall_cons. cbn. by rewrite H. Qed.

Lemma filter_page_insert (p : page_row -> bool) x l :
  StronglySorted key_le l ->
  filter (fun x => p x = true) (page_insert x l) =
    if p x then page_insert x (filter (fun x => p x = true) l) else filter (fun x => p x = true) l.
Proof.
  induction 1 as [|y l Hl IH Hall]; cbn [page_insert].
  { rewrite filter_nil. destruct (p x) eqn:E; [by rewrite filter_cons_True|by rewrite filter_cons_False by congruence]. }
  destruct (page_le x.1 y.1) eqn:E.
  - destruct (p x) eqn:Ex; [|by rewrite filter_cons_False by congruence].
    rewrite filter_cons_True by done. rewrite page_insert_head; [done|].
    apply list.Forall_forall. intros z [_ [->|Hz]%elem_of_cons]%list_elem_of_filter; [done|].
    rewrite list.Forall_forall in Hall. by eapply key_le_trans, Hall.
  - destruct (p y) eqn:Ey.
    + rewrite !filter_cons_True by done. rewrite IH. destruct (p x); [|done]. cbn. by rewrite E.
    + by rewrite !filter_cons_False by congruence.
Qed.

Lemma filter_page_sort (p : page_row -> bool) l :
  filter (fun x => p x = true) (page_sort l) = page_sort (filter (fun x => p x = true) l).
Proof.
  induction l as [|x l IH]; [done|]. cbn [page_sort foldr]. fold (page_sort l).
  rewrite filter_page_insert by apply page_sort_sorted. rewrite IH.
  destruct (p x) eqn:E; [by rewrite filter_cons_True|by rewrite filter_cons_False by congruence].
Qed.

(** A sorted list whose rows have distinct events is strictly sorted. *)
Lemma strictly_sorted l :
  StronglySorted key_le l -> NoDup ((fun x : page_row => ev_id x.1) <$> l) -> StronglySorted key_lt l.
Proof.
  induction 1 as [|x l Hl IH Hall]; cbn; [constructor|].
  intros [Hx Hnd]%list.NoDup_cons. constructor; [by apply IH|].
  apply list.Forall_forall. intros y Hy. rewrite list.Forall_forall in Hall.
  specialize (Hall y Hy). unfold key_le in Hall. rewrite page_le_spec in Hall. unfold key_lt.
  assert (ev_id x.1 <> ev_id y.1); [|lia]. intros E. apply Hx. rewrite E.
  by apply (list_elem_of_fmap_2 (fun x : page_row => ev_id x.1)).
Qed.

Lemma page_insert_keys x l :
  Permutation ((fun x : page_row => ev_id x.1) <$> page_insert x l)
    (ev_id x.1 :: ((fun x : page_row => ev_id x.1) <$> l)).
Proof.
  induction l as [|y l IH]; cbn; [done|]. destruct (page_le x.1 y.1); cbn; [done|].
  rewrite IH. apply Permutation_swap.
Qed.

Lemma page_sort_keys l :
  Permutation ((fun x : page_row => ev_id x.1) <$> page_sort l) ((fun x : page_row => ev_id x.1) <$> l).
Proof.
  induction l as [|x l IH]; cbn; [done|]. fold (page_sort l). rewrite page_insert_keys. by constructor.
Qed.

Lemma strict_split l1 x l2 :
  StronglySorted key_lt (l1 ++ x :: l2) ->
  filter (fun y : page_row => after_key (Some (ev_received_at x.1, ev_id x.1)) y.1 = true) (l1 ++ x :: l2) = l2.
Proof.
  intros H. assert (Hlt : forall y, after_key (Some (ev_received_at x.1, ev_id x.1)) y.1 = true <-> key_lt x y).
  { intros y. cbn. unfold key_lt. rewrite orb_true_iff, andb_true_iff, !Z.ltb_lt, Z.eqb_eq. lia. }
  rewrite list.filter_app, (filter_none _ l1); [rewrite app_nil_l|].
  - rewrite filter_cons_False by (rewrite Hlt; unfold key_lt; lia).
    assert (Hall : Forall (key_lt x) l2).
    { clear Hlt. induction l1 as [|z l1 IH]; cbn in H; inversion H; subst; auto. }
    clear H. induction Hall as [|y l2 Hy Hall IH]; [done|].
    rewrite filter_cons_True by (by apply Hlt). by rewrite IH.
  - intros y Hy. rewrite Hlt. clear Hlt. induction l1 as [|z l1 IH]; [by apply elem_of_nil in Hy|].
    cbn in H. inversion H as [|? ? Hs Hall]; subst. apply elem_of_cons in Hy as [->|Hy]; [|by apply IH].
    rewrite list.Forall_forall in Hall.
    assert (Hzx : key_lt z x) by (apply Hall; apply elem_of_app; right; left). unfold key_lt in *. lia.
Qed.

(** The paging loop returns what is left after the given key. *)
Lemma rows_from fuel since after d l1 l2 :
  let l := page_sort (telemetry_join (_timestamp since) d) in
  StronglySorted key_lt l -> l = l1 ++ l2 ->
  filter (fun x : page_row => after_key after x.1 = true) l = l2 ->
  (length l2 < fuel)%nat -> event_telemetry_rows fuel since after d = Some l2.
Proof.
  intros l Hl. revert after l1 l2. induction fuel as [|fuel IH]; intros after l1 l2 Hsplit Hafter Hlen; [lia|].
  cbn [event_telemetry_rows]. unfold event_telemetry_page. rewrite <- filter_page_sort.
  fold l. rewrite Hafter. change (Z.to_nat _) with 100%nat.
  destruct l2 as [|y l2]; [done|].
  destruct (take 100 (y :: l2)) as [|z page _] eqn:Ep using rev_ind; [done|].
  assert (Hpage : y :: l2 = (page ++ [z]) ++ drop 100 (y :: l2)) by (rewrite <- Ep; by rewrite take_drop).
  set (rest := drop 100 (y :: l2)) in *.
  clearbody rest.
  destruct (page ++ [z]) as [|p0 ps] eqn:Ez; [by destruct page|]. rewrite <- Ez, last_snoc.
  rewrite <- Ez in Hpage. destruct z as [e t].
  rewrite (IH (Some (ev_received_at e, ev_id e)) (l1 ++ page ++ [(e, t)]) rest).
  - cbn [mbind option_bind]. by rewrite Hpage.
  - rewrite Hsplit, Hpage. by rewrite <- !app_assoc.
  - assert (Hl2 : l = (l1 ++ page) ++ (e, t) :: rest) by (rewrite Hsplit, Hpage, <- !app_assoc; done).
    rewrite Hl2. rewrite Hl2 in Hl. by apply (strict_split (l1 ++ page) (e, t) rest).
  - assert (length (y :: l2) = length (page ++ [(e, t)]) + length rest)%nat
      by (rewrite Hpage at 1; by rewrite length_app).
    rewrite length_app in H. cbn in *. lia.
Qed.

Lemma telemetry_join_keys since d :
  NoDup (event_ids d) -> NoDup (tl_event_id <$> db_telemetry d) ->
  NoDup ((fun x : page_row => ev_id x.1) <$> telemetry_join since d).
Proof.
  unfold telemetry_join, event_ids. intros He Ht. induction (db_events d) as [|e es IH]; [apply NoDup_nil_2|].
  cbn in He. apply list.NoDup_cons in He as [Hnin He].
  assert (Hrest : forall x : page_row, x ∈ (e0 ← filter (fun e0 => (since <= ev_received_at e0)%Z) es;
     t ← filter (fun t => tl_event_id t = ev_id e0) (db_telemetry d); mret (e0, t)) -> ev_id x.1 <> ev_id e).
  { intros x (e0 & Hx & Hin)%list_elem_of_bind. apply list_elem_of_bind in Hx as (t & Hx & _).
    apply list_elem_of_singleton in Hx as ->. cbn. intros E. apply Hnin. rewrite <- E.
    apply list_elem_of_fmap_2. by apply list_elem_of_filter in Hin as [_ ?]. }
  destruct (decide (since <= ev_received_at e)%Z).
  2: { rewrite filter_cons_False by done. by apply IH. }
  rewrite filter_cons_True by done. cbn [mbind list_bind]. rewrite fmap_app.
  apply list.NoDup_app. split; [|split; [|by apply IH]].
  - clear - Ht. induction (db_telemetry d) as [|t ts IH]; [apply NoDup_nil_2|].
    cbn in Ht. apply list.NoDup_cons in Ht as [Hn Ht].
    destruct (decide (tl_event_id t = ev_id e)) as [E|E].
    + rewrite filter_cons_True by done. cbn. rewrite filter_none; [apply NoDup_singleton|].
      intros t' Ht' E'. apply Hn. rewrite E, <- E'. by apply list_elem_of_fmap_2.
    + rewrite filter_cons_False by done. by apply IH.
  - intros i Hi Hi'. apply list_elem_of_fmap in Hi as (x & -> & Hx).
    apply list_elem_of_fmap in Hi' as (y & Hxy & Hy). apply (Hrest y Hy). rewrite <- Hxy.
    apply list_elem_of_bind in Hx as (t & Hx & _). by apply list_elem_of_singleton in Hx as ->.
Qed.

(** the export reads every event with telemetry since the cutoff exactly
    once, in order of reception, whatever the page boundaries, and the paging
    loop ends: fuel for one page per row is enough. *)
Theorem paging_complete (since : datetime) (d : database)
    (Hevents : NoDup (event_ids d)) (Htelemetry : NoDup (tl_event_id <$> db_telemetry d)) :
  let all := page_sort (telemetry_join (_timestamp since) d) in
  event_telemetry_rows (S (length all)) since None d = Some all /\
  StronglySorted key_lt all /\
  (forall x, x ∈ all <-> x ∈ telemetry_join (_timestamp since) d).
Proof.
  intros all.
  assert (Hstrict : StronglySorted key_lt all).
  { apply strictly_sorted; [apply page_sort_sorted|]. unfold all. rewrite page_sort_keys.
    by apply telemetry_join_keys. }
  split; [|split; [done|intros x; apply page_sort_elem]].
  apply (rows_from _ since None d [] all); [done|done| |lia].
  fold all. clear. induction all as [|x l IH]; [done|]. by rewrite filter_cons_True, IH.
Qed.

Definition sample_telemetry_db : database :=
  {| db_events := (fun i => {| ev_id := i; ev_received_at := 5 - i; ev_decision_at := None;
       ev_relay_activated_at := None; ev_source := "camera"; ev_reason := "no_match"; ev_opened := false;
       ev_idempotency_key := None; ev_authorised_plate := None; ev_observed_plate := None;
       ev_ocr_confidence := float_0 |}) <$> [1; 2; 3]%Z;
     db_claims := []; db_outbox := []; db_acks := [];
     db_telemetry := (fun it => {| tl_event_id := it.1; tl_trace_id := it.2; tl_payload := dumps (JDict []);
       tl_created_at := 9 |}) <$> [(3%Z, "t3"); (1%Z, "t1")] |}.

Lemma paging_complete_witness :
  exists all, event_telemetry_rows 3 (Aware 2) None sample_telemetry_db = Some all /\
    (fun x => ev_id x.1) <$> all = [3; 1]%Z /\ StronglySorted key_lt all.
Proof.
  exists (page_sort (telemetry_join 2 sample_telemetry_db)).
  destruct (paging_complete (Aware 2) sample_telemetry_db) as (Hrun & Hsorted & _).
  - cbn. repeat (constructor; [set_solver|]). constructor.
  - cbn. repeat (constructor; [set_solver|]). constructor.
  - split; [exact Hrun|]. split; [vm_compute; reflexivity|exact Hsorted].
Defined.

(** ** The life of an outbox row

    A row keeps its identity; it leaves the pending state only when it is
    completed, and a completed row stays completed. *)

Definition row_step (ids : list Z) (o o' : outbox_row) : Prop :=
  ob_id o' = ob_id o /\ ob_event_id o' = ob_event_id o /\ ob_created_at o' = ob_created_at o /\
  (is_Some (ob_completed_at o) -> ob_completed_at o' = ob_completed_at o) /\
  (ob_id o ∉ ids -> ob_completed_at o' = ob_completed_at o).

(** [d] extends [d0]: the old rows evolved, new rows follow them. *)
Definition delivery_extends (ids : list Z) (d0 d : database) : Prop :=
  exists old new, db_outbox d = old ++ new /\ Forall2 (row_step ids) (db_outbox d0) old.

Lemma row_step_refl ids o : row_step ids o o.
Proof. by repeat split. Qed.

Lemma row_step_trans ids o1 o2 o3 : row_step ids o1 o2 -> row_step ids o2 o3 -> row_step ids o1 o3.
Proof.
  intros (Hi & He & Hc & Hd & Hp) (Hi' & He' & Hc' & Hd' & Hp').
  split; [congruence|]. split; [congruence|]. split; [congruence|]. split.
  - intros H. specialize (Hd H). rewrite Hd'; [done|by rewrite Hd].
  - intros H. rewrite Hp' by (by rewrite Hi). by apply Hp.
Qed.

Section Extends.
Context (ids : list Z) (d0 : database).
Abbreviation ext := (delivery_extends ids d0).

Lemma ext_same d d' : db_outbox d' = db_outbox d -> ext d -> ext d'.
Proof. intros E (old & new & Hd & Hrows). exists old, new. by rewrite E. Qed.

Lemma ext_map f d : (forall o, row_step ids o (f o)) -> ext d -> ext (set_outbox (f <$> db_outbox d) d).
Proof.
  intros Hf (old & new & Hd & Hrows). exists (f <$> old), (f <$> new). split; [cbn; by rewrite Hd, fmap_app|].
  clear Hd. induction Hrows; cbn; constructor; [by eapply row_step_trans|done].
Qed.

Lemma ext_update p f d : (forall o, p o = true -> row_step ids o (f o)) -> ext d -> ext (update_outbox p f d).
Proof.
  intros Hf. apply ext_map. intros o. destruct (p o) eqn:E; [by apply Hf|apply row_step_refl].
Qed.

Lemma ext_app o d : ext d -> ext (set_outbox (db_outbox d ++ [o]) d).
Proof. intros (old & new & Hd & Hrows). exists old, (new ++ [o]). split; [|done]. cbn. by rewrite Hd, app_assoc. Qed.

Lemma ensure_outbox_ext now id payload : keeps ext (_ensure_outbox now id payload).
Proof.
  intros d Hd. unfold _ensure_outbox. destruct payload; [|done].
  destruct (outbox_of_event id d); [done|by apply ext_app].
Qed.

Lemma insert_event_ext event : keeps ext (_insert_event event).
Proof. intros d Hd. unfold _insert_event. by destruct (duplicate_key event d). Qed.

Lemma ensure_command_ack_ext ack status detail : keeps ext (_ensure_command_ack ack status detail).
Proof. intros d Hd. unfold _ensure_command_ack. destruct ack as [[? ?]|]; [|done]. by destruct (existsb _ _). Qed.

Lemma insert_claim_ext row : keeps ext (insert_claim row).
Proof. by intros d Hd. Qed.

Lemma update_claims_ext p f : keeps ext (modify (update_claims p f)).
Proof. by apply keeps_modify. Qed.

Lemma insert_or_find_ext event find : keeps ext (insert_or_find_event event find).
Proof. apply keeps_try; [apply insert_event_ext|]. keeps_tac. Qed.

Hint Resolve ensure_outbox_ext insert_event_ext ensure_command_ack_ext insert_claim_ext
  update_claims_ext insert_or_find_ext keeps_transaction : gate.

Lemma set_send_state_ext p s : keeps ext (modify (update_outbox p (set_send_state s))).
Proof. apply keeps_modify. intros d. apply ext_update. intros o _. by repeat split. Qed.

Lemma recover_rows_ext now rows : keeps ext (recover_rows now rows).
Proof.
  induction rows as [|c rows IH]; cbn; keeps_tac. unfold recover_one.
  destruct (decode_pending c) as [[[event payload] ack]|]; cbv zeta; keeps_tac.
Qed.

Lemma store_call_ext now c d : ext d -> ext (snd (run_call now c d)).
Proof.
  intros Hd. destruct c; cbn [run_call snd].
  - assert (H : keeps ext (claim_actuation key at_ cutoff mono boot event payload ack))
      by (apply keeps_transaction; keeps_tac).
    specialize (H d Hd). by destruct (claim_actuation _ _ _ _ _ _ _ _ d) as [[?|?] ?].
  - apply keeps_snd; [|done]. unfold mark_actuation_attempt. keeps_tac.
  - apply keeps_snd; [|done]. unfold finalize_actuation. keeps_tac. cbv zeta. apply keeps_transaction. keeps_tac.
  - apply keeps_snd; [|done]. unfold record_terminal_outcome, record_event_with_outbox.
    cbv zeta. keeps_tac; apply keeps_transaction; keeps_tac.
  - apply keeps_snd; [|done]. apply keeps_transaction. keeps_tac.
  - apply keeps_snd; [|done]. apply keeps_transaction. unfold _recover_interrupted_actuations.
    keeps_tac; [apply recover_rows_ext|apply set_send_state_ext].
  - apply keeps_snd; [|done]. apply keeps_transaction, ensure_outbox_ext.
  - apply keeps_snd; [|done]. apply set_send_state_ext.
  - apply keeps_snd; [|done]. apply keeps_transaction, ensure_command_ack_ext.
  - done.
Qed.

(** *** The methods of StoreOutbox *)

Lemma promote_ext id telemetry : keeps ext (_promote_outbox id telemetry).
Proof.
  intros d Hd. unfold _promote_outbox. destruct (outbox_of_event id d) as [o|]; [|done].
  destruct (loads (ob_payload o)) as [j|]; [|done]. destruct (ob_completed_at o); [done|].
  destruct j; try done. apply ext_update; [|done]. intros o' _. by repeat split.
Qed.

Lemma attach_ext now id telemetry : keeps ext (attach_event_telemetry now id telemetry).
Proof.
  unfold attach_event_telemetry. apply keeps_bind; [by intros d Hd; unfold of_result; destruct (_telemetry_payload _)|].
  intros payload. apply keeps_transaction. keeps_tac; try apply promote_ext.
  all: intros d Hd; unfold of_result, modify; try done.
  all: by destruct (_ : result _).
Qed.

Lemma prepare_ext id at_ : keeps ext (prepare_outbox_attempt id at_).
Proof.
  intros d Hd. unfold prepare_outbox_attempt. repeat case_match; simplify_eq; try done.
  apply ext_update; [|by eapply ext_same; [|exact Hd]]. intros row _. by repeat split.
Qed.

Lemma settle_ext id state at_ payload :
  (at_ = None \/ id ∈ ids) -> keeps ext (_set_outbox_delivery_state id state at_ payload).
Proof.
  intros Hid d Hd. unfold _set_outbox_delivery_state.
  destruct (outbox_of_id id d) as [o|]; [|done]. destruct (ob_completed_at o); [done|].
  destruct (rbind _ _) as [[j fallback]|]; [|done]. cbv zeta.
  assert (Hlast : forall p d', db_outbox d' = db_outbox d -> ext (update_outbox
      (fun o' => Z.eqb (ob_id o') id && bool_decide (ob_completed_at o' = None))
      (fun o' => with_completed (_timestamp <$> at_) (with_payload p o')) d')).
  { intros p d' Ed. apply ext_update; [|by eapply ext_same].
    intros o'. rewrite andb_true_iff, Z.eqb_eq, bool_decide_eq_true. intros [E1 E2].
    repeat split; cbn; rewrite E2; [by intros [? ?]|]. intros Hn. destruct Hid as [->|Hid]; [done|]. congruence. }
  repeat case_match; simplify_eq; by apply Hlast.
Qed.

Lemma purge_rows_ext rows acc : ext (snd acc) ->
  ext (snd (fold_left (fun acc row => purge_row row.1 row.2 acc) rows acc)).
Proof.
  revert acc. induction rows as [|[i o] rows IH]; intros acc Hacc; [done|]. cbn. apply IH.
  unfold purge_row. destruct (v2_of_text (ob_payload o)); [|done]. cbn.
  eapply (ext_same (update_outbox _ _ _)); [reflexivity|]. apply ext_update; [|done]. intros o' _. by repeat split.
Qed.

Lemma purge_delivered_ext cutoff : keeps ext (purge_delivered_telemetry cutoff).
Proof.
  intros d Hd. unfold purge_delivered_telemetry.
  pose proof (purge_rows_ext (delivered_rows (_timestamp cutoff) d) (0%Z, d) Hd) as H.
  by destruct (fold_left _ _ _) as [n d'].
Qed.

Lemma bind_row_step controller o o' : bind_row controller o = Ok o' -> row_step ids o o'.
Proof.
  unfold bind_row. destruct (ob_completed_at o) as [c|]; [intros [= <-]; apply row_step_refl|].
  match goal with |- rbind ?r _ = _ -> _ => destruct r as [p|]; [|done] end.
  cbn [rbind]. intros [= <-]. destruct (bound_payload controller p); [by repeat split|apply row_step_refl].
Qed.

Lemma rmap_ext (f : outbox_row -> result outbox_row) rows d :
  (forall o o', f o = Ok o' -> row_step ids o o') -> rmap f (db_outbox d) = Ok rows ->
  ext d -> ext (set_outbox rows d).
Proof.
  intros Hf E (old & new & Hd & Hrows).
  assert (Hall : Forall2 (row_step ids) (db_outbox d) rows).
  { clear Hd. revert rows E. induction (db_outbox d) as [|o os IH]; cbn; intros rows; [by intros [= <-]; constructor|].
    destruct (f o) as [o'|] eqn:Eo; [|done]. cbn. destruct (rmap f os) as [rest|]; [|done].
    intros [= <-]. constructor; [by apply Hf|by apply IH]. }
  rewrite Hd in Hall. apply Forall2_app_inv_l in Hall as (old' & new' & Hold & _ & ->).
  exists old', new'. split; [done|]. clear Hd E. revert old' Hold.
  induction Hrows as [|o1 o2 os1 os2 Ho Hos IH]; intros old'; inversion 1; subst; constructor; [by eapply row_step_trans|auto].
Qed.

Lemma bind_controller_ext controller : keeps ext (bind_pending_outbox_controller controller).
Proof.
  intros d Hd. unfold bind_pending_outbox_controller. destruct (rmap _ _) as [rows|e] eqn:E; [|done].
  eapply rmap_ext; [apply bind_row_step|done|done].
Qed.

Lemma migration_ext name step applied :
  (forall d o o', step d o = Ok o' -> row_step ids o o') -> keeps ext (migration name step applied).
Proof.
  intros Hstep d Hd. unfold migration. destruct (bool_decide _); [done|].
  destruct (rmap _ _) as [rows|e] eqn:E; [|done]. eapply rmap_ext; [apply Hstep|done|done].
Qed.

Lemma migrate_ext applied : keeps ext (_migrate_outbox applied).
Proof.
  apply keeps_transaction. keeps_tac; apply migration_ext; intros d o o'.
  - unfold migrate_payload_v1. destruct (ob_completed_at o) eqn:E; [intros [= <-]; apply row_step_refl|].
    destruct (payload_or_empty _); [|done]. intros [= <-]. by repeat split.
  - unfold migrate_evidence_v2. destruct (payload_or_empty _); [|done]. intros [= <-]. by repeat split.
  - intros [= <-]. unfold migrate_followup. repeat case_match; by repeat split.
Qed.
End Extends.

(** Every call of the store that touches the outbox or the telemetry table. *)
Inductive outbox_call :=
| Base (call : store_call)
| Attach (event_id : Z) (telemetry : EventTelemetry)
| Prepare (item_id : Z) (at_ : datetime)
| Retry (item_id : Z)
| Complete (item_id : Z) (at_ : datetime) (prepared : option (dict json))
| PurgeDelivered (cutoff : datetime)
| PurgeUnqueued (cutoff : datetime)
| BindController (controller_id : string)
| Migrate (applied : list string).

Definition run_outbox_call (now : Z) (c : outbox_call) (d : database) : database :=
  match c with
  | Base call => snd (run_call now call d)
  | Attach id telemetry => snd (attach_event_telemetry now id telemetry d)
  | Prepare id at_ => snd (prepare_outbox_attempt id at_ d)
  | Retry id => snd (mark_outbox_retry id d)
  | Complete id at_ prepared => snd (complete_outbox_item id at_ prepared d)
  | PurgeDelivered cutoff => snd (purge_delivered_telemetry cutoff d)
  | PurgeUnqueued cutoff => snd (purge_unqueued_telemetry cutoff d)
  | BindController id => snd (bind_pending_outbox_controller id d)
  | Migrate applied => snd (_migrate_outbox applied d)
  end.

Fixpoint run_outbox_calls (calls : list (Z * outbox_call)) (d : database) : database :=
  match calls with
  | [] => d
  | (now, c) :: calls' => run_outbox_calls calls' (run_outbox_call now c d)
  end.

(** The items a history completes. *)
Definition completed_ids (calls : list (Z * outbox_call)) : list Z :=
  omap (fun nc => match nc.2 with Complete id _ _ => Some id | _ => None end) calls.

Lemma outbox_call_ext ids d0 now c d :
  (forall id at_ p, c = Complete id at_ p -> id ∈ ids) ->
  delivery_extends ids d0 d -> delivery_extends ids d0 (run_outbox_call now c d).
Proof.
  intros Hc Hd. destruct c as [call|id tel|id at_|id|id at_ pre|cutoff|cutoff|cid|applied]; cbn [run_outbox_call].
  - by apply store_call_ext.
  - apply keeps_snd; [apply attach_ext|done].
  - apply keeps_snd; [apply prepare_ext|done].
  - apply keeps_snd; [apply settle_ext; by left|done].
  - apply keeps_snd; [apply settle_ext; right; by eapply Hc|done].
  - apply keeps_snd; [apply purge_delivered_ext|done].
  - by eapply ext_same; [|exact Hd].
  - apply keeps_snd; [apply bind_controller_ext|done].
  - apply keeps_snd; [apply migrate_ext|done].
Qed.

Lemma outbox_calls_ext ids d0 calls d :
  completed_ids calls ⊆ ids -> delivery_extends ids d0 d ->
  delivery_extends ids d0 (run_outbox_calls calls d).
Proof.
  revert d. induction calls as [|[now c] calls IH]; intros d Hids Hd; [done|]. cbn [run_outbox_calls].
  apply IH.
  - intros i Hi. apply Hids. unfold completed_ids. cbn. destruct c; try exact Hi. by right.
  - apply outbox_call_ext; [|done]. intros id at_ p ->. apply Hids. left.
Qed.

Lemma pending_row_sendable limit after d o :
  o ∈ pending_outbox_rows limit after d -> sendable o = true.
Proof.
  unfold pending_outbox_rows. cbv zeta. intros Hin.
  apply elem_of_take in Hin as (i & Hi & _).
  apply list_elem_of_lookup_2 in Hi. destruct after as [a|].
  - apply elem_of_app in Hi as [Hi|Hi]; apply list_elem_of_filter in Hi as [_ Hi]; by apply list_elem_of_filter in Hi as [? _].
  - by apply list_elem_of_filter in Hi as [? _].
Qed.

(** a queued event is never lost and never delivered twice from the
    queue: in every history of store calls its row keeps its identity, stays
    pending until a completion of that very item, and once completed stays
    completed and is not prepared for sending again. *)
Theorem delivery_lifecycle (calls : list (Z * outbox_call)) (d : database) (o : outbox_row)
    (Ho : o ∈ db_outbox d) :
  exists o', o' ∈ db_outbox (run_outbox_calls calls d) /\
    ob_id o' = ob_id o /\ ob_event_id o' = ob_event_id o /\ ob_created_at o' = ob_created_at o /\
    (ob_id o ∉ completed_ids calls -> ob_completed_at o' = ob_completed_at o) /\
    (is_Some (ob_completed_at o) ->
       ob_completed_at o' = ob_completed_at o /\
       forall limit after, o' ∉ pending_outbox_rows limit after (run_outbox_calls calls d)).
Proof.
  destruct (outbox_calls_ext (completed_ids calls) d calls d) as (old & new & Hd & Hrows); [done|
    exists (db_outbox d), []; split; [by rewrite app_nil_r|]; by apply Forall_Forall2_diag, Forall_true, row_step_refl|].
  apply list_elem_of_lookup in Ho as [i Hi]. destruct (Forall2_lookup_l _ _ _ _ _ Hrows Hi) as (o' & Hi' & Hstep).
  destruct Hstep as (Hid & Hev & Hcr & Hdone & Hkeep). exists o'.
  split; [rewrite Hd; apply elem_of_app; left; by eapply list_elem_of_lookup_2|].
  split; [done|]. split; [done|]. split; [done|]. split; [done|]. intros Hs. specialize (Hdone Hs). split; [done|].
  intros limit after Hin. apply pending_row_sendable in Hin. unfold sendable in Hin. bool_props.
  rewrite Hdone in *. by destruct Hs as [c E]; rewrite E in *.
Qed.

Definition sample_pending : outbox_row :=
  {| ob_id := 1; ob_event_id := 3; ob_payload := dumps (JDict []); ob_created_at := 5;
     ob_completed_at := None; ob_send_state := Ready |}.
Definition sample_outbox_db : database := set_outbox [sample_pending] sample_telemetry_db.
Definition sample_deliveries : list (Z * outbox_call) :=
  [(6%Z, Prepare 1 (Aware 6)); (7%Z, Retry 1); (8%Z, PurgeUnqueued (Aware 100));
   (9%Z, Complete 1 (Aware 9) None); (10%Z, Complete 1 (Aware 10) None);
   (11%Z, PurgeDelivered (Aware 100))].

Lemma delivery_lifecycle_witness :
  ob_completed_at <$> db_outbox (run_outbox_calls sample_deliveries sample_outbox_db) = [Some 9%Z] /\
  exists o', o' ∈ db_outbox (run_outbox_calls (take 3 sample_deliveries) sample_outbox_db) /\
    ob_id o' = 1%Z /\ ob_completed_at o' = None.
Proof.
  split; [vm_compute; reflexivity|].
  destruct (delivery_lifecycle (take 3 sample_deliveries) sample_outbox_db sample_pending)
    as (o' & Hin & Hid & _ & _ & Hkeep & _); [left|].
  exists o'. split; [exact Hin|]. split; [exact Hid|]. apply Hkeep. apply not_elem_of_nil.
Defined.

(** ** Purging *)

(** What [purge_delivered_telemetry] may remove. *)
Definition delivered_before (cutoff : Z) (d : database) (event_id : Z) : Prop :=
  exists t o, t ∈ db_telemetry d /\ tl_event_id t = event_id /\ (tl_created_at t < cutoff)%Z /\
    o ∈ db_outbox d /\ ob_event_id o = event_id /\ ob_completed_at o <> None /\
    exists p, v2_of_text (ob_payload o) = Ok p.

Lemma purge_rows_telemetry rows acc t :
  t ∈ db_telemetry (snd (fold_left (fun acc row => purge_row row.1 row.2 acc) rows acc)) <->
  t ∈ db_telemetry (snd acc) /\
  ~ exists o, (tl_event_id t, o) ∈ rows /\ exists p, v2_of_text (ob_payload o) = Ok p.
Proof.
  revert acc. induction rows as [|[i o] rows IH]; intros acc; cbn [fold_left].
  { split; [|by intros [? _]]. intros H. split; [done|]. intros (o & Hin & _). by apply elem_of_nil in Hin. }
  rewrite IH. unfold purge_row. cbn [fst snd]. destruct (v2_of_text (ob_payload o)) as [p|] eqn:E; cbn [snd].
  - unfold delete_telemetry. cbn [db_telemetry set_telemetry]. rewrite list_elem_of_filter. cbn.
    setoid_rewrite elem_of_cons. split.
    + intros [[Hne Hin] Hno]. split; [done|]. intros (o' & [[= ? ?]|Ho'] & Hp); [congruence|]. eauto.
    + intros [Hin Hno]. split; [split; [|done]|].
      * intros <-. apply Hno. exists o. split; [by left|eauto].
      * intros (o' & Ho' & Hp). apply Hno. eauto.
  - setoid_rewrite elem_of_cons. split; intros [Hin Hno]; split; try done.
    + intros (o' & [[= ? ->]|Ho'] & p & Hp); [congruence|]. eauto.
    + intros (o' & Ho' & Hp). apply Hno. eauto.
Qed.

Lemma delivered_rows_elem cutoff d i o :
  (i, o) ∈ delivered_rows cutoff d <->
  exists t, t ∈ db_telemetry d /\ tl_event_id t = i /\ (tl_created_at t < cutoff)%Z /\
    o ∈ db_outbox d /\ ob_event_id o = i /\ ob_completed_at o <> None.
Proof.
  unfold delivered_rows. rewrite list_elem_of_bind. split.
  - intros (t & Ho & Ht). apply list_elem_of_filter in Ht as [Hc Ht].
    apply list_elem_of_bind in Ho as (o' & Hio & Ho). apply list_elem_of_singleton in Hio as [= -> ->].
    apply list_elem_of_filter in Ho as [[? ?] ?]. by exists t.
  - intros (t & Ht & <- & Hc & Ho & He & Hd). exists t. split; [|by apply list_elem_of_filter].
    apply list_elem_of_bind. exists o. split; [by apply list_elem_of_singleton|]. by apply list_elem_of_filter.
Qed.

Lemma purge_delivered_telemetry_elem cutoff d t :
  t ∈ db_telemetry (snd (purge_delivered_telemetry cutoff d)) <->
  t ∈ db_telemetry d /\ ~ delivered_before (_timestamp cutoff) d (tl_event_id t).
Proof.
  unfold purge_delivered_telemetry.
  pose proof (purge_rows_telemetry (delivered_rows (_timestamp cutoff) d) (0%Z, d) t) as H.
  destruct (fold_left _ _ _) as [n d']. cbn in *. rewrite H. unfold delivered_before.
  setoid_rewrite delivered_rows_elem. naive_solver.
Qed.

(** Two rows of the outbox with the same event are the same row. *)
Lemma outbox_event_unique d o o' :
  db_wf d -> o ∈ db_outbox d -> o' ∈ db_outbox d -> ob_event_id o = ob_event_id o' -> o = o'.
Proof.
  intros Hwf Ho Ho' E. pose proof (wf_outbox_events d Hwf) as Hnd.
  apply list_elem_of_lookup in Ho as [i Hi]. apply list_elem_of_lookup in Ho' as [j Hj].
  assert (i = j) as ->; [|congruence].
  eapply (NoDup_lookup (ob_event_id <$> db_outbox d)); [done| |]; rewrite list_lookup_fmap.
  - by rewrite Hi.
  - rewrite Hj. cbn. by rewrite E.
Qed.

(** the retention purges remove exactly what they may: the delivered
    telemetry older than the cutoff (and the telemetry no outbox row carries),
    and never the telemetry of an event that is still to be delivered. *)
Theorem purge_exact (cutoff : datetime) (d : database) (Hwf : db_wf d) :
  (forall t, t ∈ db_telemetry (snd (purge_delivered_telemetry cutoff d)) <->
     t ∈ db_telemetry d /\ ~ delivered_before (_timestamp cutoff) d (tl_event_id t)) /\
  (forall t, t ∈ db_telemetry (snd (purge_unqueued_telemetry cutoff d)) <->
     t ∈ db_telemetry d /\
     ~ ((tl_created_at t < _timestamp cutoff)%Z /\ tl_event_id t ∉ (ob_event_id <$> db_outbox d))) /\
  (forall t o, t ∈ db_telemetry d -> o ∈ db_outbox d -> ob_event_id o = tl_event_id t ->
     ob_completed_at o = None ->
     t ∈ db_telemetry (snd (purge_delivered_telemetry cutoff d)) /\
     t ∈ db_telemetry (snd (purge_unqueued_telemetry cutoff d))).
Proof.
  assert (Hunq : forall t, t ∈ db_telemetry (snd (purge_unqueued_telemetry cutoff d)) <->
     t ∈ db_telemetry d /\
     ~ ((tl_created_at t < _timestamp cutoff)%Z /\ tl_event_id t ∉ (ob_event_id <$> db_outbox d))).
  { intros t. unfold purge_unqueued_telemetry. cbn [snd db_telemetry set_telemetry].
    rewrite list_elem_of_filter. unfold unqueued.
    rewrite <- outbox_of_event_None, <- not_true_iff_false, andb_true_iff, Z.ltb_lt, bool_decide_eq_true. tauto. }
  split; [apply purge_delivered_telemetry_elem|]. split; [done|]. intros t o Ht Ho He Hp. split.
  - apply purge_delivered_telemetry_elem. split; [done|].
    intros (t' & o' & _ & _ & _ & Ho' & He' & Hc & _). apply Hc.
    rewrite (outbox_event_unique d o' o); [done..|congruence].
  - apply Hunq. split; [done|]. intros [_ Hno]. apply Hno. rewrite <- He. by apply list_elem_of_fmap_2.
Qed.

Lemma sample_outbox_wf : db_wf sample_outbox_db.
Proof.
  split; try (apply (bool_decide_unpack _); vm_compute; exact I). constructor.
Qed.

Lemma purge_exact_witness :
  db_wf sample_outbox_db /\
  exists t, t ∈ db_telemetry (snd (purge_delivered_telemetry (Aware 100) sample_outbox_db)) /\
            t ∈ db_telemetry (snd (purge_unqueued_telemetry (Aware 100) sample_outbox_db)) /\
            tl_event_id t = 3%Z.
Proof.
  split; [apply sample_outbox_wf|].
  destruct (purge_exact (Aware 100) sample_outbox_db sample_outbox_wf) as (_ & _ & H).
  set (t := {| tl_event_id := 3; tl_trace_id := "t3"; tl_payload := dumps (JDict []); tl_created_at := 9 |}).
  exists t. destruct (H t sample_pending) as [H1 H2]; [left|left|reflexivity|reflexivity|].
  split; [exact H1|]. split; [exact H2|reflexivity].
Defined.
