(* ===== verification/HotStream.v ===== *)
(** * The hot-frame buffer: gate_controller/hot_stream.py

    The configuration, the JPEG stream parser, the frame ring with its limits
    and the files a selection is written to.  Whether PIL accepts a frame and
    its SHA-256 digest are arguments; system calls follow a script of outcomes;
    the decoder child and its restarts are in HotStreamChild.v. *)

From Stdlib Require Import Strings.Byte.
From S2P Require Import Prelude Float Text.

#[global] Instance byte_eq_decision : EqDecision byte := Byte.byte_eq_dec.

Abbreviation bytes := (list byte).

Definition MAX_FRAMES : Z := 16.
Definition MAX_FRAME_BYTES : Z := 16 * 1024 * 1024.
Definition MAX_TOTAL_BYTES : Z := 64 * 1024 * 1024.

(** ** Configuration *)

Record HotStreamConfig := {
  hs_enabled : bool;
  hs_output_directory : string;
  hs_sample_fps : pyfloat;
  hs_frame_count : Z;
  hs_selection_count : Z;
  hs_max_frame_bytes : Z;
  hs_max_total_bytes : Z;
  hs_max_age_seconds : pyfloat;
}.

(** hot_stream.py: _boolean *)
Definition _boolean (value : string) : result bool :=
  if String.eqb value "true" then Ok true
  else if String.eqb value "false" then Ok false
  else Err (ValueError "GATE_HOT_STREAM_ENABLED must be true or false").

(** hot_stream.py: _integer *)
Definition _integer (value : string) (minimum maximum : Z) : result Z :=
  match int_of_text value with
  | None => Err (ValueError "hot stream integer configuration is invalid")
  | Some parsed =>
      if ((minimum <=? parsed) && (parsed <=? maximum))%Z then Ok parsed
      else Err (ValueError "hot stream integer configuration is outside the safe range")
  end.

(** hot_stream.py: _number *)
Definition _number (value : string) (minimum maximum : pyfloat) : result pyfloat :=
  match float_of_text value with
  | None => Err (ValueError "hot stream numeric configuration is invalid")
  | Some parsed =>
      if fle minimum parsed && fle parsed maximum then Ok parsed
      else Err (ValueError "hot stream numeric configuration is outside the safe range")
  end.

Definition setting (environment : dict string) (name default_ : string) : string :=
  default default_ (dget name environment).

(** The float 0.1. *)
Definition float_tenth : pyfloat := float_div 1 10.

(** hot_stream.py: load_hot_stream_config *)
Definition load_hot_stream_config (environment : dict string) (upload_root : string)
  : result HotStreamConfig :=
  let env := setting environment in
  rbind (_boolean (env "GATE_HOT_STREAM_ENABLED" "false")) (fun enabled =>
  rbind (_number (env "GATE_HOT_STREAM_SAMPLE_FPS" "5") float_1 (float_of_Z 10)) (fun sample_fps =>
  rbind (_integer (env "GATE_HOT_STREAM_FRAME_COUNT" "8") 1 MAX_FRAMES) (fun frame_count =>
  rbind (_integer (env "GATE_HOT_STREAM_SELECTION_COUNT" "2") 1 3) (fun requested =>
  let selection_count := Z.min requested 2 in
  if (frame_count <? selection_count)%Z
  then Err (ValueError "hot stream selection count exceeds frame count")
  else
    rbind (_integer (env "GATE_HOT_STREAM_MAX_FRAME_BYTES" "8388608") 1 MAX_FRAME_BYTES) (fun max_frame_bytes =>
    rbind (_integer (env "GATE_HOT_STREAM_MAX_TOTAL_BYTES" "50331648") max_frame_bytes MAX_TOTAL_BYTES)
      (fun max_total_bytes =>
    rbind (_number (env "GATE_HOT_STREAM_MAX_AGE_SECONDS" "1") float_tenth (float_of_Z 2)) (fun max_age =>
    Ok {| hs_enabled := enabled; hs_output_directory := path_child upload_root ".hot-stream";
          hs_sample_fps := sample_fps; hs_frame_count := frame_count;
          hs_selection_count := selection_count; hs_max_frame_bytes := max_frame_bytes;
          hs_max_total_bytes := max_total_bytes; hs_max_age_seconds := max_age |}))))))).

(** ** JpegStreamParser *)

Definition SOI : bytes := [xff; xd8; xff].
Definition EOI : bytes := [xff; xd9].

Fixpoint starts_with (pattern l : bytes) : bool :=
  match pattern, l with
  | [], _ => true
  | a :: p, b :: l' => bool_decide (a = b) && starts_with p l'
  | _ :: _, [] => false
  end.

(** [buffer.find(pattern)] *)
Fixpoint find_bytes (pattern l : bytes) : option nat :=
  if starts_with pattern l then Some O
  else match l with [] => None | _ :: l' => S <$> find_bytes pattern l' end.

(** [buffer.find(pattern, start)] *)
Definition find_from (start : nat) (pattern l : bytes) : option nat :=
  (fun i => (start + i)%nat) <$> find_bytes pattern (drop start l).

(** The loop of [feed]: the frames found and the buffer left. *)
Fixpoint feed_loop (fuel : nat) (max_frame_bytes : Z) (buffer : bytes) : list bytes * bytes :=
  match fuel with
  | O => ([], buffer)
  | S fuel =>
      match buffer with
      | [] => ([], [])
      | _ =>
          match find_bytes SOI buffer with
          | None => ([], [])
          | Some start =>
              let buffer := drop start buffer in
              match find_from 3 EOI buffer with
              | None =>
                  ([], if (max_frame_bytes <? Z.of_nat (length buffer))%Z then [] else buffer)
              | Some e =>
                  let frame := take (e + 2) buffer in
                  let '(frames, rest) := feed_loop fuel max_frame_bytes (drop (e + 2) buffer) in
                  (if (Z.of_nat (length frame) <=? max_frame_bytes)%Z then frame :: frames else frames, rest)
              end
          end
      end
  end.

(** hot_stream.py: JpegStreamParser.feed.  Every iteration that goes on removes
    a frame from the buffer, so its length bounds their number. *)
Definition feed (max_frame_bytes : Z) (chunk buffer : bytes) : list bytes * bytes :=
  match chunk with
  | [] => ([], buffer)
  | _ => let buffer := buffer ++ chunk in feed_loop (length buffer) max_frame_bytes buffer
  end.

(** The frames of a whole sequence of chunks. *)
Fixpoint feed_all (max_frame_bytes : Z) (chunks : list bytes) (buffer : bytes) : list bytes * bytes :=
  match chunks with
  | [] => ([], buffer)
  | c :: chunks' =>
      let '(frames, buffer) := feed max_frame_bytes c buffer in
      let '(more, buffer) := feed_all max_frame_bytes chunks' buffer in
      (frames ++ more, buffer)
  end.

(** ** HotFrameRing *)

Section Ring.
(** [hashlib.sha256(frame).digest()] and PIL's part of [_is_decodable_jpeg]. *)
Context {D : Type} `{!EqDecision D} (sha256 : bytes -> D) (pil_accepts : bytes -> bool).
(** [_max_frames], [_max_frame_bytes], [_max_total_bytes] *)
Context (max_frames max_frame_bytes max_total_bytes : Z).

Record hot_frame := {
  hf_captured_at : pyfloat;
  hf_digest : D;
  hf_frame : bytes;
}.

Record HotFrameRing := {
  rg_frames : list hot_frame;
  rg_total : Z;
}.
Definition new_ring : HotFrameRing := {| rg_frames := []; rg_total := 0 |}.

(** hot_stream.py: _is_decodable_jpeg *)
Definition _is_decodable_jpeg (data : bytes) : bool := starts_with SOI data && pil_accepts data.

Definition frame_size (f : hot_frame) : Z := Z.of_nat (length (hf_frame f)).

(** The search for a frame of the same digest: that frame and the others. *)
Fixpoint take_digest (digest : D) (frames : list hot_frame) : option (hot_frame * list hot_frame) :=
  match frames with
  | [] => None
  | f :: frames' =>
      if bool_decide (hf_digest f = digest) then Some (f, frames')
      else (fun r => (r.1, f :: r.2)) <$> take_digest digest frames'
  end.

(** The eviction loop; [popleft] on an empty deque raises IndexError. *)
Fixpoint evict (frames : list hot_frame) (total : Z) : result HotFrameRing :=
  if ((max_frames <? Z.of_nat (length frames)) || (max_total_bytes <? total))%Z then
    match frames with
    | [] => Err IndexError
    | f :: frames' => evict frames' (total - frame_size f)
    end
  else Ok {| rg_frames := frames; rg_total := total |}.

Definition acceptable (frame : bytes) : bool :=
  (0 <? Z.of_nat (length frame))%Z && (Z.of_nat (length frame) <=? max_frame_bytes)%Z
  && _is_decodable_jpeg frame.

(** hot_stream.py: HotFrameRing.add; [captured_at] is the caller's or the
    clock's. *)
Definition add (frame : bytes) (captured_at : pyfloat) : M HotFrameRing bool := fun r =>
  if negb (acceptable frame) then (Ok false, r)
  else
    let digest := sha256 frame in
    match take_digest digest (rg_frames r) with
    | Some (existing, others) =>
        (Ok false, {| rg_frames := others ++ [{| hf_captured_at := captured_at; hf_digest := digest;
                                                 hf_frame := hf_frame existing |}];
                      rg_total := rg_total r |})
    | None =>
        match evict (rg_frames r ++ [{| hf_captured_at := captured_at; hf_digest := digest;
                                        hf_frame := frame |}])
                    (rg_total r + Z.of_nat (length frame)) with
        | Ok r' => (Ok true, r')
        | Err e => (Err e, r)
        end
    end.

Definition fresh (now max_age : pyfloat) (f : hot_frame) : bool :=
  let age := fsub now (hf_captured_at f) in fle float_0 age && fle age max_age.

(** hot_stream.py: HotFrameRing.select *)
Definition select (count : nat) (now max_age : pyfloat) (r : HotFrameRing) : list bytes :=
  take count (hf_frame <$> filter (fun f => fresh now max_age f = true) (rev (rg_frames r))).

(** [round(f)]; NaN and the infinities raise. *)
Definition round_float (f : pyfloat) : result Z :=
  match f with
  | Fin m => Ok (round_half_even m two1074)
  | NaN => Err (ValueError "cannot convert float NaN to integer")
  | _ => Err OverflowError
  end.

Record ring_status := {
  st_ready : bool;
  st_buffered_frames : nat;
  st_latest_frame_age_ms : option Z;
}.

(** hot_stream.py: HotFrameRing.status *)
Definition status (now max_age : pyfloat) (r : HotFrameRing) : result ring_status :=
  rbind (match list.last (rg_frames r) with
         | None => Ok None
         | Some f => rbind (round_float (fmul_const 1000 (fsub now (hf_captured_at f)))) (fun ms => Ok (Some (Z.max 0 ms)))
         end) (fun age_ms =>
  rbind (match age_ms with
         | None => Ok false
         | Some ms => rbind (round_float (fmul_const 1000 max_age)) (fun limit => Ok (ms <=? limit)%Z)
         end) (fun ready =>
  Ok {| st_ready := ready; st_buffered_frames := length (rg_frames r); st_latest_frame_age_ms := age_ms |})).

(** *** Writing a selection out *)

(** What the system does for one file: the random name, the outcome of [open]
    and [fchmod], what each [write] returns (the last one writes all that is
    left), the outcome of [close]. *)
Record frame_io := {
  io_name : string;
  io_open : option exc;
  io_fchmod : option exc;
  io_writes : list (result Z);
  io_close : option exc;
}.
Definition smooth_io (name : string) : frame_io :=
  {| io_name := name; io_open := None; io_fchmod := None; io_writes := []; io_close := None |}.

Definition outcome {S} (e : option exc) : M S unit := match e with Some e => raise e | None => ret tt end.

Definition append_file (target : string) (data : bytes) (files : dict bytes) : dict bytes :=
  dset target (default [] (dget target files) ++ data) files.

(** The [while view] loop. *)
Fixpoint write_all (writes : list (result Z)) (target : string) (view : bytes) : M (dict bytes) unit :=
  match view with
  | [] => ret tt
  | _ =>
      match writes with
      | [] => modify (append_file target view)
      | Err e :: _ => raise e
      | Ok written :: writes' =>
          if (written <=? 0)%Z then raise OSError
          else modify (append_file target (take (Z.to_nat written) view)) ;!
               write_all writes' target (drop (Z.to_nat written) view)
      end
  end.

(** One iteration of the loop of [materialise]; O_EXCL refuses a name in use. *)
Definition write_frame (directory : string) (io : frame_io) (frame : bytes) : M (dict bytes) string :=
  let target := path_child directory (String.append "frame-" (String.append (io_name io) ".jpg")) in
  outcome (io_open io) ;!
  let! taken := gets (dmem target) in
  if taken : bool then raise OSError
  else
    modify (dset target []) ;!
    try_finally (outcome (io_fchmod io) ;! write_all (io_writes io) target frame) (outcome (io_close io)) ;!
    ret target.

(** The loop; an exception carries the paths written so far. *)
Fixpoint write_frames (directory : string) (ios : list frame_io) (frames : list bytes)
    (paths : list string) (files : dict bytes) : (list string * option exc) * dict bytes :=
  match frames with
  | [] => ((paths, None), files)
  | frame :: frames' =>
      match write_frame directory (default (smooth_io "0") (list.head ios)) frame files with
      | (Ok target, files') => write_frames directory (tail ios) frames' (paths ++ [target]) files'
      | (Err e, files') => ((paths, Some e), files')
      end
  end.

(** What [mkdir] and [stat] say of the output directory. *)
Inductive mkdir_outcome := MkdirOk | ParentMissing | MkdirFails (e : exc).
Record directory_view := {
  dv_mkdir : mkdir_outcome;
  dv_stat : option exc;
  dv_is_directory : bool;
  dv_is_symlink : bool;
  dv_owned : bool;
  dv_mode : Z;
}.

(** hot_stream.py: _ensure_private_directory *)
Definition _ensure_private_directory (v : directory_view) : result unit :=
  match dv_mkdir v with
  | ParentMissing => Err (ValueError "hot stream output parent is missing")
  | MkdirFails e => Err e
  | MkdirOk =>
      match dv_stat v with
      | Some e => Err e
      | None =>
          if negb (dv_is_directory v) || dv_is_symlink v || negb (dv_owned v)
             || negb (Z.land (dv_mode v) 63 =? 0)%Z
          then Err (ValueError "hot stream output directory must be owner-only")
          else Ok tt
      end
  end.

(** hot_stream.py: HotFrameRing.materialise *)
Definition materialise (directory : string) (v : directory_view) (ios : list frame_io) (count : nat)
    (now max_age : pyfloat) (r : HotFrameRing) : M (dict bytes) (list string) :=
  let frames := select count now max_age r in
  match frames with
  | [] => ret []
  | _ =>
      of_result (_ensure_private_directory v) ;!
      fun files =>
        match write_frames directory ios frames [] files with
        | ((paths, None), files') => (Ok paths, files')
        | ((paths, Some e), files') => (Err e, fold_left (fun fs p => ddel p fs) paths files')
        end
  end.

(** ** HotStreamBuffer *)

Record hot_stream := {
  hb_buffer : bytes;
  hb_ring : HotFrameRing;
  (** Clock readings taken. *)
  hb_reads : nat;
}.

Fixpoint add_frames (clock : nat -> pyfloat) (frames : list bytes) : M hot_stream unit :=
  match frames with
  | [] => ret tt
  | frame :: frames' =>
      (fun s => match add frame (clock (hb_reads s)) (hb_ring s) with
                | (r, ring) => (r, {| hb_buffer := hb_buffer s; hb_ring := ring; hb_reads := S (hb_reads s) |})
                end) ;!
      add_frames clock frames'
  end.

(** One chunk read from the child in [run_forever]. *)
Definition on_chunk (clock : nat -> pyfloat) (chunk : bytes) : M hot_stream unit := fun s =>
  let '(frames, buffer) := feed max_frame_bytes chunk (hb_buffer s) in
  add_frames clock frames {| hb_buffer := buffer; hb_ring := hb_ring s; hb_reads := hb_reads s |}.

(** A run of the child in [run_forever]: a new parser, the chunks until the end
    of the output. *)
Fixpoint on_chunks (clock : nat -> pyfloat) (chunks : list bytes) : M hot_stream unit :=
  match chunks with
  | [] | [] :: _ => ret tt
  | chunk :: chunks' => on_chunk clock chunk ;! on_chunks clock chunks'
  end.
Definition run_child (clock : nat -> pyfloat) (chunks : list bytes) : M hot_stream unit :=
  modify (fun s => {| hb_buffer := []; hb_ring := hb_ring s; hb_reads := hb_reads s |}) ;!
  on_chunks clock chunks.
End Ring.
