(* ===== verification/HotStreamFacts.v ===== *)
(** * Properties of the hot-frame buffer

    The parser gives back the frames of a stream however it is cut into chunks,
    as long as no cut falls inside a start marker; parser and ring stay within
    the configured memory whatever the stream holds; a selection is written
    completely or not at all, up to the file in progress. *)

From Stdlib Require Import Strings.Byte.
From S2P Require Import Prelude Float Text HotStream.

(** ** Searching for markers *)

Lemma starts_with_app p l r :
  (length p <= length l)%nat -> starts_with p (l ++ r) = starts_with p l.
Proof.
  revert l. induction p as [|a p IH]; intros [|b l]; cbn; try done; [lia|].
  intros H. by rewrite IH by lia.
Qed.

Lemma starts_with_length p l : starts_with p l = true -> (length p <= length l)%nat.
Proof.
  revert l. induction p as [|a p IH]; intros [|b l]; cbn; try done; [lia|].
  intros [_ H]%andb_true_iff. apply IH in H. lia.
Qed.

Lemma find_bytes_length p l i : find_bytes p l = Some i -> (i + length p <= length l)%nat.
Proof.
  revert i. induction l as [|a l IH]; intros i; cbn [find_bytes].
  - destruct (starts_with p []) eqn:E; [|done]. intros [= <-]. by apply starts_with_length in E.
  - destruct (starts_with p (a :: l)) eqn:E.
    + intros [= <-]. by apply starts_with_length in E.
    + intros (j & Hj & ->)%fmap_Some. apply IH in Hj. cbn. lia.
Qed.

Lemma find_bytes_app p l r i : find_bytes p l = Some i -> find_bytes p (l ++ r) = Some i.
Proof.
  revert i. induction l as [|a l IH]; intros i; cbn [find_bytes app].
  - destruct p; [|done]. by destruct r.
  - destruct (starts_with p (a :: l)) eqn:E.
    + intros [= <-]. change (a :: l ++ r) with ((a :: l) ++ r).
      by rewrite starts_with_app, E by (by apply starts_with_length in E).
    + intros (j & Hj & ->)%fmap_Some. pose proof (find_bytes_length _ _ _ Hj).
      change (a :: l ++ r) with ((a :: l) ++ r). rewrite starts_with_app by (cbn; lia).
      rewrite E. by rewrite (IH _ Hj).
Qed.

Lemma find_from_length s p l i :
  find_from s p l = Some i -> (s <= i)%nat /\ (s <= length l -> i + length p <= length l)%nat.
Proof.
  unfold find_from. intros (j & Hj & ->)%fmap_Some. apply find_bytes_length in Hj.
  rewrite length_drop in Hj. lia.
Qed.

Lemma find_from_app s p l r i :
  (s <= length l)%nat -> find_from s p l = Some i -> find_from s p (l ++ r) = Some i.
Proof.
  unfold find_from. intros Hs (j & Hj & ->)%fmap_Some. rewrite drop_app_le by done.
  by rewrite (find_bytes_app _ _ _ _ Hj).
Qed.

Lemma find_bytes_head p l : starts_with p l = true -> find_bytes p l = Some O.
Proof. intros H. destruct l; cbn [find_bytes]; by rewrite H. Qed.

Lemma find_bytes_starts p l i : find_bytes p l = Some i -> starts_with p (drop i l) = true.
Proof.
  revert i. induction l as [|a l IH]; intros i; cbn [find_bytes].
  - destruct (starts_with p []) eqn:E; [|done]. by intros [= <-].
  - destruct (starts_with p (a :: l)) eqn:E; [by intros [= <-]|].
    intros (j & Hj & ->)%fmap_Some. cbn [drop]. by apply IH.
Qed.

(** ** Frames *)

(** A frame: it starts with the start marker and its only end marker is its
    end. *)
Definition is_frame (f : bytes) : Prop :=
  starts_with SOI f = true /\ find_from 3 EOI f = Some (length f - 2)%nat.

(** What the buffer holds between chunks. *)
Definition partial (p : bytes) : Prop :=
  p = [] \/ (starts_with SOI p = true /\ find_from 3 EOI p = None).

Lemma soi_length l : starts_with SOI l = true -> (3 <= length l)%nat.
Proof. apply starts_with_length. Qed.

Lemma is_frame_length f : is_frame f -> (5 <= length f)%nat.
Proof.
  intros [Hs He]. apply find_from_length in He as [H1 H2]. apply soi_length in Hs.
  specialize (H2 Hs). cbn in H2. lia.
Qed.

Lemma feed_loop_partial n max p :
  partial p -> (Z.of_nat (length p) <= max)%Z -> feed_loop n max p = ([], p).
Proof.
  intros Hp Hm. destruct n as [|n]; [done|]. destruct Hp as [->|[Hs He]]; [done|].
  destruct p as [|a p]; [done|]. unfold feed_loop; fold feed_loop.
  rewrite (find_bytes_head _ _ Hs), !drop_0, He.
  destruct (Z.ltb_spec max (Z.of_nat (length (a :: p)))); [lia|done].
Qed.

Lemma feed_loop_frame n max f rest :
  is_frame f -> (Z.of_nat (length f) <= max)%Z ->
  feed_loop (S n) max (f ++ rest) =
    (f :: fst (feed_loop n max rest), snd (feed_loop n max rest)).
Proof.
  intros Hf Hm. pose proof (is_frame_length f Hf) as Hl. destruct Hf as [Hs He].
  assert (Hstart : starts_with SOI (f ++ rest) = true) by (by rewrite starts_with_app by (by apply starts_with_length)).
  destruct f as [|a f]; [cbn in Hl; lia|]. cbn [app]. unfold feed_loop; fold feed_loop.
  change (a :: f ++ rest) with ((a :: f) ++ rest).
  rewrite (find_bytes_head _ _ Hstart), !drop_0.
  rewrite (find_from_app _ _ _ _ _ (soi_length _ Hs) He).
  replace (length (a :: f) - 2 + 2)%nat with (length (a :: f)) by lia.
  rewrite take_app_length, drop_app_length.
  destruct (feed_loop n max rest) as [fs b]. cbn [fst snd].
  destruct (Z.leb_spec (Z.of_nat (length (a :: f))) max); [done|lia].
Qed.

Definition within_limit (max : Z) (f : bytes) : Prop := is_frame f /\ (Z.of_nat (length f) <= max)%Z.

Lemma feed_loop_frames n max gs p :
  Forall (within_limit max) gs -> partial p -> (Z.of_nat (length p) <= max)%Z ->
  (length gs <= n)%nat -> feed_loop n max (concat gs ++ p) = (gs, p).
Proof.
  intros Hgs Hp Hm. revert n. induction Hgs as [|g gs [Hg Hl] _ IH]; intros n Hn.
  { by apply feed_loop_partial. }
  destruct n as [|n]; [cbn in Hn; lia|]. cbn [concat]. rewrite <- app_assoc, feed_loop_frame by done.
  by rewrite IH by (cbn in Hn; lia).
Qed.

(** ** Any chunking gives the frames back *)

(** No cut at [n] falls inside the start marker of a frame. *)
Definition cut_ok (fs : list bytes) (n : nat) : Prop :=
  forall gs f rest, fs = gs ++ f :: rest ->
    n <> (length (concat gs) + 1)%nat /\ n <> (length (concat gs) + 2)%nat.

(** The first [n] bytes of a stream of frames. *)
Lemma split_stream fs n :
  Forall is_frame fs -> (n <= length (concat fs))%nat ->
  exists gs rest q, fs = gs ++ rest /\ take n (concat fs) = concat gs ++ q /\
    drop n (concat fs) = drop (length q) (concat rest) /\ length (concat gs) + length q = n /\
    (q = [] \/ exists f rest', rest = f :: rest' /\ (length q < length f)%nat /\ q = take (length q) f).
Proof.
  revert n. induction fs as [|f fs IH]; intros n Hfs Hn.
  { exists [], [], []. cbn in *. rewrite take_nil, drop_nil. by repeat split; [lia|left]. }
  apply list.Forall_cons in Hfs as [Hf Hfs]. cbn [concat] in *. rewrite length_app in Hn.
  destruct (decide (n < length f)%nat) as [Hlt|Hge].
  - exists [], (f :: fs), (take n f). cbn [concat app length]. rewrite length_take_le by lia.
    rewrite take_app_le by lia. repeat split.
    right. by exists f, fs.
  - destruct (IH (n - length f)%nat Hfs ltac:(lia)) as (gs & rest & q & -> & Ht & Hd & Hl & Hq).
    exists (f :: gs), rest, q. cbn [concat app]. rewrite length_app.
    rewrite take_app_ge, Ht, app_assoc by lia. rewrite drop_app_ge, Hd by lia. by repeat split; [lia|].
Qed.

Lemma prefix_partial f q :
  is_frame f -> (length q < length f)%nat -> q = take (length q) f -> length q <> 1%nat ->
  length q <> 2%nat -> partial q.
Proof.
  intros [Hs He] Hlt Hq H1 H2. destruct (decide (q = [])) as [->|Hne]; [by left|].
  assert (H3 : (3 <= length q)%nat) by (destruct q as [|? [|? [|? ?]]]; cbn in *; lia || done).
  assert (Hf : f = q ++ drop (length q) f) by (rewrite Hq at 1; by rewrite take_drop).
  right. split.
  - rewrite Hf, starts_with_app in Hs by done. done.
  - destruct (find_from 3 EOI q) as [i|] eqn:E; [|done]. pose proof (find_from_length _ _ _ _ E) as [_ Hi].
    apply (find_from_app _ _ _ (drop (length q) f) _ H3) in E. rewrite <- Hf, He in E.
    specialize (Hi H3). cbn in Hi. simplify_eq. lia.
Qed.

Lemma feed_all_frames max chunks fs p :
  Forall (within_limit max) fs -> (0 <= max)%Z -> p ++ concat chunks = concat fs ->
  partial p -> (p = [] \/ exists f rest, fs = f :: rest /\ (length p < length f)%nat) ->
  (forall i, cut_ok fs (length p + length (concat (take i chunks)))) ->
  feed_all max chunks p = (fs, []).
Proof.
  revert fs p. induction chunks as [|c chunks IH]; intros fs p Hfs Hmax Hcat Hp Hpre Hcut.
  - cbn in *. rewrite app_nil_r in Hcat. destruct fs as [|f fs]; [by rewrite Hcat|].
    apply list.Forall_cons in Hfs as [[Hf _] _]. apply is_frame_length in Hf.
    apply (f_equal length) in Hcat. cbn in Hcat. rewrite length_app in Hcat.
    destruct Hpre as [->|(g & r & [= <- <-] & Hlt)]; cbn in *; lia.
  - assert (Hframes : Forall is_frame fs) by (eapply Forall_impl; [|exact Hfs]; by intros f []).
    cbn [feed_all concat] in *.
    destruct (decide (c = [])) as [->|Hc].
    { cbn [feed app] in *. rewrite (IH fs p); try done.
      intros i. specialize (Hcut (S i)). cbn [take concat app] in Hcut. done. }
    destruct (split_stream fs (length p + length c) Hframes) as (gs & rest & q & -> & Ht & Hd & Hl & Hq).
    { rewrite <- Hcat, !length_app. lia. }
    apply list.Forall_app in Hfs as [Hgs Hrest]. apply list.Forall_app in Hframes as [_ Hfr].
    rewrite <- Hcat, app_assoc in Ht, Hd. rewrite <- length_app in Ht, Hd.
    rewrite take_app_length in Ht. rewrite drop_app_length in Hd.
    assert (Hqp : partial q /\ (Z.of_nat (length q) <= max)%Z).
    { destruct Hq as [->|(f & rest' & -> & Hlt & Hq)]; [by split; [left|cbn; lia]|].
      apply list.Forall_cons in Hfr as [Hf _]. apply list.Forall_cons in Hrest as [[_ Hm] _].
      specialize (Hcut 1%nat gs f rest' eq_refl). cbn [take concat] in Hcut. rewrite app_nil_r in Hcut.
      split; [|lia]. apply (prefix_partial f); try done; lia. }
    destruct Hqp as [Hqp Hqm].
    assert (Hfeed : feed max c p = (gs, q)).
    { unfold feed. destruct c as [|b c]; [done|]. rewrite Ht. apply feed_loop_frames; try done.
      rewrite length_app. assert (length gs <= length (concat gs))%nat; [|lia].
      clear -Hgs. induction Hgs as [|g gs [Hg _] _ IHg]; [done|]. apply is_frame_length in Hg.
      cbn. rewrite length_app. lia. }
    rewrite Hfeed. rewrite (IH rest q); try done.
    + rewrite Hd. destruct Hq as [->|(f & rest' & -> & Hlt & Hq)]; [done|].
      cbn [concat]. rewrite drop_app_le by lia. rewrite app_assoc. f_equal.
      rewrite Hq at 1. by rewrite take_drop.
    + destruct Hq as [->|(f & rest' & -> & Hlt & _)]; [by left|right; eauto].
    + intros i hs f r ->. destruct (Hcut (S i) (gs ++ hs) f r ltac:(by rewrite app_assoc)) as [H1 H2].
      cbn [take concat] in H1, H2. rewrite concat_app, !length_app in H1, H2. lia.
Qed.

(** C20: the frames of a stream come back unchanged and in order, however the
    stream is cut into chunks, when no cut falls inside a frame's start marker
    and every frame is within the limit; nothing stays in the buffer. *)
Theorem stream_recovered (max : Z) (fs chunks : list bytes)
    (Hfs : Forall (within_limit max) fs) (Hmax : (0 <= max)%Z) (Hcat : concat chunks = concat fs)
    (Hcut : forall i, cut_ok fs (length (concat (take i chunks)))) :
  feed_all max chunks [] = (fs, []).
Proof. apply feed_all_frames; try done; by left. Qed.

Definition sample_frame : bytes := [xff; xd8; xff; x10; x20; xff; xd9].

Lemma sample_is_frame : within_limit 10 sample_frame.
Proof. split; [done|]. cbn. lia. Qed.

Lemma stream_recovered_witness :
  feed_all 10 [take 3 sample_frame; drop 3 sample_frame ++ take 5 sample_frame; drop 5 sample_frame] []
  = ([sample_frame; sample_frame], []).
Proof.
  apply stream_recovered; [repeat constructor; apply sample_is_frame|lia|reflexivity|].
  intros [|[|[|[|i]]]] [|g1 [|g2 gs]] f r; cbn -[Nat.add]; intros E; simplify_eq; cbn; try lia.
  all: destruct gs; discriminate.
Defined.

Lemma soi_shape f : starts_with SOI f = true -> exists r, f = SOI ++ r.
Proof.
  destruct f as [|a [|b [|c f]]]; cbn; intros H; bool_props; try done. subst. by exists f.
Qed.

Lemma feed_no_start max c b : find_bytes SOI (b ++ c) = None -> feed max c b = ([], if decide (c = []) then b else []).
Proof.
  intros H. unfold feed. destruct c as [|x c]; [done|]. destruct (b ++ x :: c) as [|y l] eqn:E; [by destruct b|].
  cbn [length]. unfold feed_loop; fold feed_loop. by rewrite H.
Qed.

(** A cut inside the start marker loses the frame. *)
Lemma split_marker_loses_frame max f k :
  (k = 1 \/ k = 2)%nat -> is_frame f -> find_bytes SOI (drop k f) = None ->
  feed_all max [take k f; drop k f] [] = ([], []).
Proof.
  intros Hk [Hs _] Hno. apply soi_shape in Hs as [r ->].
  assert (H1 : feed max (take k (SOI ++ r)) [] = ([], [])) by (by destruct Hk as [->| ->]).
  cbn [feed_all]. rewrite H1, feed_no_start by done. by case_decide.
Qed.

(** ** What the parser hands on *)

Lemma find_bytes_take p l i n :
  find_bytes p l = Some i -> (i + length p <= n)%nat -> find_bytes p (take n l) = Some i.
Proof.
  revert i n. induction l as [|a l IH]; intros i n; cbn [find_bytes].
  - rewrite take_nil. cbn [find_bytes]. done.
  - destruct (starts_with p (a :: l)) eqn:E.
    + intros [= <-] Hn. apply find_bytes_head. rewrite <- (take_drop n (a :: l)), starts_with_app in E; [done|].
      apply starts_with_length in E. rewrite take_drop in E. rewrite length_take. lia.
    + intros (j & Hj & ->)%fmap_Some Hn. destruct n as [|n]; [lia|]. cbn [take find_bytes].
      rewrite (IH _ _ Hj) by lia.
      destruct (starts_with p (a :: take n l)) eqn:E'; [|done].
      pose proof (starts_with_length _ _ E') as Hl.
      rewrite <- (take_drop n l), app_comm_cons, starts_with_app in E by done. congruence.
Qed.

Definition sent_on (max : Z) (out : list bytes * bytes) : Prop :=
  Forall (within_limit max) (fst out) /\ partial (snd out) /\
  (Z.of_nat (length (snd out)) <= max)%Z.

Lemma cut_frame buffer e :
  starts_with SOI buffer = true -> find_from 3 EOI buffer = Some e -> is_frame (take (e + 2) buffer).
Proof.
  intros Hs He. pose proof (soi_length _ Hs) as Hl.
  pose proof (find_from_length _ _ _ _ He) as [H3 Hlen]. specialize (Hlen Hl). cbn in Hlen.
  split.
  - rewrite <- (take_drop (e + 2) buffer), starts_with_app in Hs; [done|].
    rewrite length_take. cbn. lia.
  - rewrite length_take_le by lia. replace (e + 2 - 2)%nat with e by lia.
    unfold find_from in *. apply fmap_Some in He as (i & Hi & ->).
    rewrite skipn_firstn_comm. rewrite (find_bytes_take _ _ i); [done|done|]. cbn. lia.
Qed.

Lemma feed_loop_sent fuel max buffer :
  (0 <= max)%Z -> (length buffer <= fuel)%nat -> sent_on max (feed_loop fuel max buffer).
Proof.
  intros Hmax. revert buffer. induction fuel as [|fuel IH]; intros buffer Hf.
  { destruct buffer; [|cbn in Hf; lia]. repeat split; [constructor|by left|done]. }
  assert (Hnil : sent_on max ([], [])) by (repeat split; [constructor|by left|done]).
  destruct buffer as [|a buffer]; [done|]. unfold feed_loop; fold feed_loop.
  destruct (find_bytes SOI (a :: buffer)) as [start|] eqn:Es; [|done].
  apply find_bytes_starts in Es. set (b := drop start (a :: buffer)) in *.
  assert (Hb : (length b <= S fuel)%nat) by (unfold b; rewrite length_drop; lia).
  destruct (find_from 3 EOI b) as [e|] eqn:Ee.
  - specialize (IH (drop (e + 2) b)). rewrite length_drop in IH. specialize (IH ltac:(lia)).
    pose proof (cut_frame b e Es Ee) as Hframe.
    destruct (feed_loop fuel max (drop (e + 2) b)) as [frames rest].
    destruct IH as (Hfr & Hp & Hl). destruct (Z.leb_spec (Z.of_nat (length (take (e + 2) b))) max).
    + split; [|done]. constructor; [by split|done].
    + by split.
  - destruct (Z.ltb_spec max (Z.of_nat (length b))); [done|].
    repeat split; [constructor|by right|done].
Qed.

Lemma feed_sent max chunk buffer :
  (0 <= max)%Z -> partial buffer -> (Z.of_nat (length buffer) <= max)%Z ->
  sent_on max (feed max chunk buffer).
Proof.
  intros Hmax Hp Hl. unfold feed. destruct chunk; [by repeat split|]. by apply feed_loop_sent.
Qed.

(** ** The ring *)

Section RingFacts.
Context {D : Type} `{!EqDecision D} (sha256 : bytes -> D) (pil_accepts : bytes -> bool).
Context (max_frames max_frame_bytes max_total_bytes : Z).
(** What [load_hot_stream_config] guarantees of the limits. *)
Context (Hframes : (1 <= max_frames)%Z) (Hbytes : (1 <= max_frame_bytes)%Z)
  (Htotal : (max_frame_bytes <= max_total_bytes)%Z).

Abbreviation acceptable := (acceptable pil_accepts max_frame_bytes).
Abbreviation ring_add := (add sha256 pil_accepts max_frames max_frame_bytes max_total_bytes).

Definition total_size (frames : list (@hot_frame D)) : Z := fold_right (fun f n => (frame_size f + n)%Z) 0%Z frames.

Definition frame_ok (f : @hot_frame D) : Prop :=
  acceptable (hf_frame f) = true /\ hf_digest f = sha256 (hf_frame f).

(** The ring holds distinct acceptable frames within both limits, and its
    counter is their total size. *)
Record ring_ok (r : @HotFrameRing D) : Prop := {
  ro_total : rg_total r = total_size (rg_frames r);
  ro_count : (Z.of_nat (length (rg_frames r)) <= max_frames)%Z;
  ro_bytes : (rg_total r <= max_total_bytes)%Z;
  ro_frames : Forall frame_ok (rg_frames r);
  ro_distinct : NoDup (hf_digest <$> rg_frames r);
}.

Lemma total_size_app l k : total_size (l ++ k) = (total_size l + total_size k)%Z.
Proof. unfold total_size. induction l as [|f l IH]; cbn; lia. Qed.

Lemma new_ring_ok : ring_ok new_ring.
Proof. split; cbn; try lia; constructor. Qed.

Lemma acceptable_size f : acceptable f = true -> (0 < Z.of_nat (length f) <= max_frame_bytes)%Z.
Proof. unfold HotStream.acceptable. intros H. bool_props. lia. Qed.

Lemma take_digest_Some (d : D) l f others :
  take_digest d l = Some (f, others) ->
  hf_digest f = d /\ exists l1 l2, l = l1 ++ f :: l2 /\ others = l1 ++ l2.
Proof.
  revert others. induction l as [|g l IH]; intros others; cbn; [done|].
  case_bool_decide; [intros [= -> ->]; split; [done|by exists [], others]|].
  intros ([f' o] & Hr & [= -> ->])%fmap_Some. destruct (IH _ Hr) as (? & l1 & l2 & -> & ->).
  split; [done|]. by exists (g :: l1), l2.
Qed.

Lemma take_digest_None (d : D) l : take_digest d l = None -> d ∉ (hf_digest <$> l : list D).
Proof.
  induction l as [|g l IH]; cbn; [intros _ H; by apply elem_of_nil in H|].
  case_bool_decide; [done|]. intros Hr%fmap_None.
  rewrite not_elem_of_cons. split; [congruence|auto].
Qed.

(** Eviction ends with a suffix within the limits and never empties the deque:
    the newest frame alone is within them. *)
Lemma evict_spec frames f total :
  total = total_size (frames ++ [f]) -> (0 < frame_size f <= max_total_bytes)%Z ->
  exists dropped kept,
    frames = dropped ++ kept /\
    evict max_frames max_total_bytes (frames ++ [f]) total =
      Ok {| rg_frames := kept ++ [f]; rg_total := total_size (kept ++ [f]) |} /\
    (Z.of_nat (length (kept ++ [f])) <= max_frames)%Z /\ (total_size (kept ++ [f]) <= max_total_bytes)%Z.
Proof.
  intros -> Hf. induction frames as [|g frames IH].
  - exists [], []. cbn. unfold total_size. cbn.
    destruct (Z.ltb_spec max_frames (Z.of_nat 1)); [lia|]. cbn [orb].
    destruct (Z.ltb_spec max_total_bytes (frame_size f + 0)); [lia|].
    split; [done|]. split; [done|]. lia.
  - cbn [app evict]. destruct (_ || _)%Z eqn:E.
    + destruct IH as (dropped & kept & -> & Hev & Hc & Hb).
      exists (g :: dropped), kept. split; [done|]. split; [|done]. rewrite <- Hev. f_equal.
      unfold total_size. cbn. lia.
    + apply orb_false_iff in E as [Hc%Z.ltb_ge Hb%Z.ltb_ge]. by exists [], (g :: frames).
Qed.

(** [add] never raises and keeps the invariant; a frame it accepts is the newest
    one afterwards. *)
Lemma ring_add_spec frame at_ r :
  ring_ok r -> exists b r', ring_add frame at_ r = (Ok b, r') /\ ring_ok r' /\
    (acceptable frame = true ->
     (hf_digest <$> list.last (rg_frames r')) = Some (sha256 frame)).
Proof.
  intros Hr. unfold add. destruct (acceptable frame) eqn:Ha; cbn [negb]; [|by exists false, r].
  pose proof (acceptable_size _ Ha) as Hs.
  destruct (take_digest _ _) as [[existing others]|] eqn:E.
  - apply take_digest_Some in E as (Hd & l1 & l2 & Hl & ->). eexists false, _. split; [reflexivity|].
    destruct Hr as [Ht Hc Hb Hf Hn]. rewrite Hl in *.
    assert (Hex : frame_ok existing) by (apply list.Forall_app in Hf as [_ Hf]; by apply list.Forall_cons in Hf as [? _]).
    split; [|intros _; cbn; by rewrite last_snoc]. split; cbn.
    + rewrite Ht, !total_size_app. unfold total_size. cbn. unfold frame_size. cbn. lia.
    + rewrite !length_app in *. cbn in *. lia.
    + done.
    + apply list.Forall_app in Hf as [H1 H2]. apply list.Forall_cons in H2 as [_ H2].
      rewrite !list.Forall_app. repeat split; try done. constructor; [|constructor].
      destruct Hex as [Hx1 Hx2]. split; cbn; [done|congruence].
    + rewrite !fmap_app in *. cbn in *. rewrite <- Hd.
      rewrite (Permutation_app_comm _ [hf_digest existing]). cbn. by rewrite Permutation_middle.
  - apply take_digest_None in E. set (f := {| hf_captured_at := at_; hf_digest := _; hf_frame := _ |}).
    destruct Hr as [Ht Hc Hb Hf Hn].
    destruct (evict_spec (rg_frames r) f (rg_total r + Z.of_nat (length frame))) as (dr & kept & Hk & Hev & Hc' & Hb').
    { rewrite total_size_app, Ht. unfold total_size at 3. unfold frame_size. cbn. lia. }
    { unfold frame_size. cbn. lia. }
    rewrite Hev. eexists true, _. split; [reflexivity|].
    split; [|intros _; cbn; by rewrite last_snoc].
    rewrite Hk in *. apply list.Forall_app in Hf as [_ Hf]. rewrite fmap_app in Hn, E.
    apply list.NoDup_app in Hn as (_ & _ & Hn). split; cbn; try done.
    + apply list.Forall_app. by repeat constructor.
    + rewrite fmap_app. apply list.NoDup_app. split; [done|]. split; [|apply NoDup_singleton].
      intros d Hd Hin. cbn in Hin. apply list_elem_of_singleton in Hin as ->.
      apply E, elem_of_app. by right.
Qed.

(** *** The buffer as a whole *)

Definition buffer_ok (s : @hot_stream D) : Prop :=
  ring_ok (hb_ring s) /\ partial (hb_buffer s) /\
  (Z.of_nat (length (hb_buffer s)) <= max_frame_bytes)%Z.

Definition ends_ok {S A} (I : S -> Prop) (out : result A * S) : Prop :=
  match out with (Ok _, s) => I s | (Err _, _) => False end.

Lemma add_frames_ok clock frames s :
  buffer_ok s ->
  ends_ok buffer_ok (add_frames sha256 pil_accepts max_frames max_frame_bytes max_total_bytes clock frames s).
Proof.
  revert s. induction frames as [|f frames IH]; intros s Hs; [exact Hs|].
  cbn. unfold bind. destruct Hs as (Hr & Hp & Hl).
  destruct (ring_add_spec f (clock (hb_reads s)) (hb_ring s) Hr) as (b & r' & -> & Hr' & _).
  by apply IH.
Qed.

Lemma run_child_ok clock chunks s :
  buffer_ok s ->
  ends_ok buffer_ok (run_child sha256 pil_accepts max_frames max_frame_bytes max_total_bytes clock chunks s).
Proof.
  intros (Hr & _ & _). unfold run_child, bind, modify.
  assert (Hs : buffer_ok {| hb_buffer := []; hb_ring := hb_ring s; hb_reads := hb_reads s |})
    by (split; [done|split; [by left|cbn; lia]]).
  revert Hs. generalize {| hb_buffer := []; hb_ring := hb_ring s; hb_reads := hb_reads s |}.
  induction chunks as [|chunk chunks IH]; intros t Ht; [exact Ht|].
  destruct chunk as [|b chunk]; [exact Ht|]. cbn -[on_chunk]. unfold bind, on_chunk.
  destruct Ht as (Hrt & Hp & Hl).
  destruct (feed_sent max_frame_bytes (b :: chunk) (hb_buffer t) ltac:(lia) Hp Hl) as (_ & Hp' & Hl').
  destruct (feed _ _ _) as [frames buffer]. cbn in Hp', Hl'.
  pose proof (add_frames_ok clock frames {| hb_buffer := buffer; hb_ring := hb_ring t; hb_reads := hb_reads t |}
    (conj Hrt (conj Hp' Hl'))) as Hadd.
  destruct (add_frames _ _ _ _ _ _ _ _) as [[[]|e] t']; [by apply IH|done].
Qed.

Lemma select_sound count now max_age r f :
  ring_ok r -> f ∈ select count now max_age r ->
  acceptable f = true /\ exists g, g ∈ rg_frames r /\ hf_frame g = f /\ fresh now max_age g = true.
Proof.
  intros [_ _ _ Hf _] Hin. unfold select in Hin.
  apply elem_of_take in Hin as (i & Hi & _). apply list_elem_of_lookup_2 in Hi.
  apply list_elem_of_fmap in Hi as (g & -> & [Hg Hin]%list_elem_of_filter).
  rewrite rev_alt in Hin. change (g ∈ reverse (rg_frames r)) in Hin. rewrite elem_of_reverse in Hin.
  rewrite list.Forall_forall in Hf. destruct (Hf g Hin) as [Ha _]. eauto.
Qed.
End RingFacts.

(** What the configuration guarantees of the limits. *)
Lemma integer_setting value lo hi n : _integer value lo hi = Ok n -> (lo <= n <= hi)%Z.
Proof. unfold _integer. case_match; [|done]. case_match eqn:E; [|done]. intros [= ->]. bool_props. lia. Qed.

Record limits_ok (c : HotStreamConfig) : Prop := {
  lim_frames : (1 <= hs_frame_count c <= MAX_FRAMES)%Z;
  lim_bytes : (1 <= hs_max_frame_bytes c <= hs_max_total_bytes c)%Z;
  lim_total : (hs_max_total_bytes c <= MAX_TOTAL_BYTES)%Z;
  lim_selection : (1 <= hs_selection_count c <= Z.min 2 (hs_frame_count c))%Z;
}.

Lemma config_limits environment root c : load_hot_stream_config environment root = Ok c -> limits_ok c.
Proof.
  unfold load_hot_stream_config.
  intros (enabled & _ & H)%rbind_ok. apply rbind_ok in H as (fps & _ & H).
  apply rbind_ok in H as (count & Hc%integer_setting & H).
  apply rbind_ok in H as (requested & Hr%integer_setting & H).
  destruct (Z.ltb_spec count (Z.min requested 2)); [done|].
  apply rbind_ok in H as (fb & Hf%integer_setting & H). apply rbind_ok in H as (tb & Ht%integer_setting & H).
  apply rbind_ok in H as (age & _ & [= <-]). split; cbn; lia.
Qed.

(** The stream as the configured buffer sees it: one list of chunks per run of
    the child process. *)
Definition configured_run {D} `{!EqDecision D} (sha256 : bytes -> D) pil_accepts (c : HotStreamConfig) clock
    (chunks : list bytes) : M (@hot_stream D) unit :=
  run_child sha256 pil_accepts (hs_frame_count c) (hs_max_frame_bytes c) (hs_max_total_bytes c) clock chunks.

Fixpoint configured_runs {D} `{!EqDecision D} (sha256 : bytes -> D) pil_accepts (c : HotStreamConfig) clock
    (runs : list (list bytes)) : M (@hot_stream D) unit :=
  match runs with
  | [] => ret tt
  | chunks :: runs' => configured_run sha256 pil_accepts c clock chunks ;!
                       configured_runs sha256 pil_accepts c clock runs'
  end.

Definition new_hot_stream {D} : @hot_stream D := {| hb_buffer := []; hb_ring := new_ring; hb_reads := 0 |}.

(** whatever the camera stream holds and however often the child is
    restarted, with any configuration the loader accepts the buffer raises
    nothing, keeps at most the configured number of distinct frames within the
    configured total (at most 16 frames and 64 MiB), its byte counter is their
    total size, and the parser keeps at most one frame's bytes. *)
Theorem hot_stream_bounded {D} `{!EqDecision D} (sha256 : bytes -> D) pil_accepts environment root
    (c : HotStreamConfig) clock (runs : list (list bytes))
    (Hload : load_hot_stream_config environment root = Ok c) :
  exists s, configured_runs sha256 pil_accepts c clock runs new_hot_stream = (Ok tt, s) /\
    rg_total (hb_ring s) = total_size (rg_frames (hb_ring s)) /\
    (rg_total (hb_ring s) <= hs_max_total_bytes c <= MAX_TOTAL_BYTES)%Z /\
    (Z.of_nat (length (rg_frames (hb_ring s))) <= hs_frame_count c <= MAX_FRAMES)%Z /\
    NoDup (hf_digest <$> rg_frames (hb_ring s)) /\
    (Z.of_nat (length (hb_buffer s)) <= hs_max_frame_bytes c)%Z.
Proof.
  destruct (config_limits _ _ _ Hload) as [Hf Hb Ht _].
  set (I := buffer_ok sha256 pil_accepts (hs_frame_count c) (hs_max_frame_bytes c) (hs_max_total_bytes c)).
  assert (H : forall s, I s -> ends_ok I (configured_runs sha256 pil_accepts c clock runs s)).
  { induction runs as [|chunks runs IH]; intros s Hs; [exact Hs|]. cbn. unfold bind, configured_run.
    pose proof (run_child_ok sha256 pil_accepts (hs_frame_count c) (hs_max_frame_bytes c) (hs_max_total_bytes c)
      ltac:(lia) ltac:(lia) ltac:(lia) clock chunks s Hs) as H1.
    destruct (run_child _ _ _ _ _ _ _ _) as [[[]|e] t]; [by apply IH|done]. }
  assert (H0 : I new_hot_stream).
  { split; [apply new_ring_ok; lia|]. split; [by left|cbn; lia]. }
  specialize (H _ H0). destruct (configured_runs _ _ _ _ _ _) as [[[]|e] s]; [|done].
  destruct H as ([Hs1 Hs2 Hs3 _ Hs5] & _ & Hl). exists s. repeat split; try done; lia.
Qed.

Definition sample_config : HotStreamConfig :=
  {| hs_enabled := false; hs_output_directory := "/srv/.hot-stream"; hs_sample_fps := float_of_Z 5;
     hs_frame_count := 8; hs_selection_count := 2; hs_max_frame_bytes := 8388608;
     hs_max_total_bytes := 50331648; hs_max_age_seconds := float_1 |}.

Lemma sample_config_loads : load_hot_stream_config [] "/srv" = Ok sample_config.
Proof. vm_compute. reflexivity. Qed.

Lemma hot_stream_bounded_witness :
  exists s, configured_runs (D := bytes) (fun f => f) (fun _ => true) sample_config
    (fun n => float_of_Z (Z.of_nat n)) [[sample_frame; sample_frame]; [sample_frame]] new_hot_stream = (Ok tt, s) /\
    (Z.of_nat (length (rg_frames (hb_ring s))) <= hs_frame_count sample_config)%Z.
Proof.
  destruct (hot_stream_bounded (D := bytes) (fun f => f) (fun _ => true) [] "/srv" sample_config
    (fun n => float_of_Z (Z.of_nat n)) [[sample_frame; sample_frame]; [sample_frame]] sample_config_loads)
    as (s & Hs & _ & _ & [Hc _] & _).
  exists s. split; [exact Hs|exact Hc].
Defined.

(** ** Writing a selection out *)

(** Nothing but [target] may have changed, and not even that if it existed. *)
Definition only_new (target : string) (files files' : dict bytes) : Prop :=
  forall p, p <> target \/ dget p files <> None -> dget p files' = dget p files.

Lemma only_new_refl target files : only_new target files files.
Proof. by intros p. Qed.

Lemma write_all_spec writes target view files b res files' :
  dget target files = Some b ->
  write_all writes target view files = (res, files') ->
  (forall p, p <> target -> dget p files' = dget p files) /\
  (forall u, res = Ok u -> dget target files' = Some (b ++ view)).
Proof.
  revert view files b. induction writes as [|w writes IH]; intros view files b Hb.
  - destruct view as [|a view]; cbn; intros [= <- <-]; [by rewrite app_nil_r|].
    unfold append_file. rewrite Hb. cbn. split; [intros; by rewrite dget_dset_ne|].
    intros _ _. by rewrite dget_dset_eq.
  - destruct view as [|a view]; [cbn; intros [= <- <-]; by rewrite app_nil_r|].
    cbn -[take drop]. destruct w as [n|e]; [|by intros [= <- <-]].
    destruct (n <=? 0)%Z; [by intros [= <- <-]|]. unfold bind, modify. intros E.
    eapply (IH _ _ (b ++ take (Z.to_nat n) (a :: view))) in E as [H1 H2].
    + split.
      * intros p Hp. rewrite H1 by done. unfold append_file. by rewrite dget_dset_ne.
      * intros u Hu. rewrite (H2 u Hu). by rewrite <- app_assoc, take_drop.
    + unfold append_file. by rewrite Hb, dget_dset_eq.
Qed.

Lemma write_frame_spec directory io frame files res files' :
  write_frame directory io frame files = (res, files') ->
  exists target, only_new target files files' /\
    forall p, res = Ok p -> p = target /\ dget target files = None /\ dget target files' = Some frame.
Proof.
  unfold write_frame. set (target := path_child _ _). intros E. exists target.
  unfold bind, outcome, try_finally, gets, modify, ret, raise in E.
  destruct (io_open io); [simplify_eq; by split; [apply only_new_refl|]|].
  unfold dmem in E. destruct (dget target files) as [d|] eqn:Ht; cbn in E; [simplify_eq; by split; [apply only_new_refl|]|].
  set (files1 := dset target [] files) in E.
  assert (H1 : dget target files1 = Some []) by apply dget_dset_eq.
  assert (Hfrom : forall files2, (forall p, p <> target -> dget p files2 = dget p files1) -> only_new target files files2).
  { intros files2 H p [Hp|Hp]; [|destruct (decide (p = target)) as [->|Hne]; [done|]];
      (rewrite H by done; unfold files1; by rewrite dget_dset_ne). }
  destruct (io_fchmod io).
  { destruct (io_close io); simplify_eq; split; try done; by apply Hfrom. }
  destruct (write_all (io_writes io) target frame files1) as [r files2] eqn:E2.
  destruct (write_all_spec _ _ _ _ _ _ _ H1 E2) as [Hother Hdone].
  destruct r as [u|e].
  - destruct (io_close io); simplify_eq; (split; [by apply Hfrom|]); [done|].
    intros p [= <-]. rewrite (Hdone u eq_refl). done.
  - destruct (io_close io); simplify_eq; split; try done; by apply Hfrom.
Qed.

(** The files of [paths] hold [frames], are new, and nothing else changed but
    new files among [extra]. *)
Record written (base files : dict bytes) (paths : list string) (frames : list bytes)
    (extra : string -> Prop) : Prop := {
  wr_contents : Forall2 (fun p f => dget p files = Some f) paths frames;
  wr_new : Forall (fun p => dget p base = None) paths;
  wr_distinct : NoDup paths;
  wr_same : forall p, p ∉ paths -> ~ (extra p /\ dget p base = None) -> dget p files = dget p base;
}.

Lemma written_extra base files paths frames target files' :
  written base files paths frames (fun _ => False) -> only_new target files files' ->
  written base files' paths frames (fun p => p = target).
Proof.
  intros [Hc Hn Hd Hs] Ho. split; [|done|done|].
  - eapply Forall2_impl; [|exact Hc]. intros p f Hp. cbn. rewrite Ho; [done|]. right. by rewrite Hp.
  - intros p Hp Hx. destruct (decide (p = target)) as [->|Hne].
    + destruct (dget target base) as [b|] eqn:Eb; [|exfalso; by apply Hx].
      specialize (Hs target Hp ltac:(tauto)). rewrite Ho; [congruence|]. right. by rewrite Hs, Eb.
    + rewrite Ho by (by left). apply Hs; [done|tauto].
Qed.

Lemma write_frames_spec directory base ios frames paths done_ files :
  written base files paths done_ (fun _ => False) ->
  match write_frames directory ios frames paths files with
  | ((paths', None), files') => written base files' paths' (done_ ++ frames) (fun _ => False)
  | ((paths', Some _), files') => exists done' target, written base files' paths' done' (fun p => p = target)
  end.
Proof.
  revert ios paths done_ files. induction frames as [|f frames IH]; intros ios paths done_ files Hw.
  { cbn. by rewrite app_nil_r. }
  cbn [write_frames]. destruct (write_frame _ _ _ _) as [[p|e] files'] eqn:E;
    apply write_frame_spec in E as (target & Ho & Hok).
  - destruct (Hok p eq_refl) as (-> & Hnone & Hsome).
    assert (Hnew : dget target base = None /\ target ∉ paths).
    { assert (Hnin : target ∉ paths).
      { intros Hin. apply list_elem_of_lookup in Hin as [i Hi].
        destruct (Forall2_lookup_l _ _ _ _ _ (wr_contents _ _ _ _ _ Hw) Hi) as (x & _ & Hx). congruence. }
      split; [|done]. rewrite <- (wr_same _ _ _ _ _ Hw target Hnin); [done|tauto]. }
    destruct Hnew as [Hb Hnin].
    replace (done_ ++ f :: frames) with ((done_ ++ [f]) ++ frames) by by rewrite <- app_assoc.
    apply IH. pose proof (written_extra _ _ _ _ _ _ Hw Ho) as [Hc Hn Hd Hs]. split.
    + apply Forall2_app; [done|]. by constructor.
    + apply list.Forall_app. by repeat constructor.
    + apply list.NoDup_app. split; [done|]. split; [|apply NoDup_singleton].
      intros q Hq ->%list_elem_of_singleton. done.
    + intros q [Hq Hqt]%not_elem_of_app _. rewrite list_elem_of_singleton in Hqt.
      apply Hs; [done|]. tauto.
  - exists done_, target. by eapply written_extra.
Qed.

Lemma dget_remove_all paths p (files : dict bytes) :
  dget p (fold_left (fun fs q => ddel q fs) paths files) = if decide (p ∈ paths) then None else dget p files.
Proof.
  revert files. induction paths as [|q paths IH]; intros files; cbn.
  - rewrite decide_False; [done|]. by intros ?%elem_of_nil.
  - rewrite IH. destruct (decide (p ∈ paths)) as [Hin|Hin].
    + by rewrite decide_True by (by right).
    + destruct (decide (p = q)) as [->|Hne].
      * rewrite decide_True by left. apply dget_ddel_eq.
      * rewrite dget_ddel_ne by done. rewrite decide_False; [done|]. by rewrite not_elem_of_cons.
Qed.

(** writing a selection, whatever the system calls do: on success there is
    one new file per selected frame, holding exactly it; on failure every
    completed file is gone again and at most one new name, that of the file in
    progress, may be left behind.  Existing files never change. *)
Theorem materialise_outcome {D} directory v ios count now max_age (r : @HotFrameRing D)
    (files files' : dict bytes) (res : result (list string))
    (Hrun : materialise directory v ios count now max_age r files = (res, files')) :
  (forall p b, dget p files = Some b -> dget p files' = Some b) /\
  match res with
  | Ok paths =>
      Forall2 (fun p f => dget p files' = Some f) paths (select count now max_age r) /\
      NoDup paths /\ Forall (fun p => dget p files = None) paths /\
      (forall p, p ∉ paths -> dget p files' = dget p files)
  | Err _ => exists target, forall p, p <> target -> dget p files' = dget p files
  end.
Proof.
  unfold materialise in Hrun. destruct (select count now max_age r) as [|f frames].
  { injection Hrun as <- <-. repeat split; try done; constructor. }
  unfold bind, of_result in Hrun.
  destruct (_ensure_private_directory v); [|injection Hrun as <- <-; split; [done|by exists EmptyString]].
  pose proof (write_frames_spec directory files ios (f :: frames) [] [] files) as Hw.
  destruct (write_frames _ _ _ _ _) as [[paths [e|]] files1].
  - destruct Hw as (done_ & target & [_ Hn _ Hs]); [split; try done; constructor|].
    injection Hrun as <- <-.
    assert (Hkeep : forall p, p <> target \/ dget p files <> None ->
      dget p (fold_left (fun fs q => ddel q fs) paths files1) = dget p files).
    { intros p Hp. rewrite dget_remove_all. case_decide as Hin.
      - rewrite list.Forall_forall in Hn. by rewrite (Hn p Hin).
      - apply Hs; [done|]. destruct Hp; tauto. }
    split; [|exists target; auto]. intros p b Hb. rewrite Hkeep; [done|]. right. by rewrite Hb.
  - destruct Hw as [Hc Hn Hd Hs]; [split; try done; constructor|]. injection Hrun as <- <-.
    assert (Hsame : forall p, p ∉ paths -> dget p files1 = dget p files) by (intros p Hp; apply Hs; [done|tauto]).
    split; [|done]. intros p b Hb. rewrite Hsame; [done|]. intros Hin.
    rewrite list.Forall_forall in Hn. specialize (Hn p Hin). congruence.
Qed.

Definition private_directory : directory_view :=
  {| dv_mkdir := MkdirOk; dv_stat := None; dv_is_directory := true; dv_is_symlink := false;
     dv_owned := true; dv_mode := 448 |}.
Definition sample_ring : @HotFrameRing bytes :=
  {| rg_frames := [{| hf_captured_at := float_0; hf_digest := sample_frame; hf_frame := sample_frame |}];
     rg_total := 7 |}.

Lemma materialise_outcome_witness :
  dget "/srv/frame-ab.jpg" (snd (materialise "/srv" private_directory [smooth_io "ab"] 2 float_0 float_1 sample_ring []))
  = Some sample_frame.
Proof.
  destruct (materialise_outcome "/srv" private_directory [smooth_io "ab"] 2 float_0 float_1 sample_ring [] _ _
    eq_refl) as [_ [H _]].
  destruct (Forall2_lookup_l _ _ _ 0%nat _ H eq_refl) as (f & Hf & Hd).
  assert (f = sample_frame) as -> by (vm_compute in Hf; injection Hf as <-; reflexivity). exact Hd.
Defined.

(** A write that fails leaves the file in progress on disk: its path is noted
    only once the file is complete. *)
Lemma failed_write_leaves_file :
  let io := {| io_name := "ab"; io_open := None; io_fchmod := None; io_writes := [Ok 3%Z; Err OSError];
               io_close := None |} in
  materialise "/srv" private_directory [io] 2 float_0 float_1 sample_ring []
  = (Err OSError, [("/srv/frame-ab.jpg", SOI)]).
Proof. vm_compute. reflexivity. Qed.
