(* ===== verification/HotStreamChild.v ===== *)
(** * The child of the hot stream: hot_stream.py

    [HotStreamBuffer.run_forever], [_stop_child] and [close] as threads that share
    [_process]: the thread of the worker runs the first, the shutdown calls the
    last once the stop event is set.  The child may exit at any time, and only its own
    exit ends it; each event below is one atomic step.  The last section holds the
    status and the construction of the buffer. *)

From S2P Require Import Prelude Json Float HotStream.

(** ** State *)

(** Where a thread is in [_stop_child]. *)
Inductive stop_point :=
| Entering
| Clearing (process : option nat)
| Polling (child : nat)
| Terminating (child : nat)
| Waiting (child : nat)
| Killing (child : nat)
| WaitingKilled (child : nat)
| Returned
| TimedOut (child : nat).

(** Where the thread of run_forever is. *)
Inductive loop_point :=
| Checking
| Opening
| Storing (child : nat)
| Reading (child : nat)
| Stopping (at_ : stop_point)
| Pausing
| Ended
| Failed (child : nat).

Record supervisor := {
  sv_stop : bool;
  (** [_process] *)
  sv_process : option nat;
  (** Whether each child started is alive. *)
  sv_children : list bool;
  sv_restart_count : nat;
  sv_loop : loop_point;
  (** The calls of [close]. *)
  sv_closers : list stop_point;
  (** Children stored between the two halves of [process = self._process;
      self._process = None] of a close. *)
  sv_dropped : list nat;
}.

Definition start : supervisor :=
  {| sv_stop := false; sv_process := None; sv_children := []; sv_restart_count := 0; sv_loop := Checking;
     sv_closers := []; sv_dropped := [] |}.

Definition alive (s : supervisor) (child : nat) : bool := default false (sv_children s !! child).

Definition set_process (p : option nat) (s : supervisor) : supervisor :=
  {| sv_stop := sv_stop s; sv_process := p; sv_children := sv_children s; sv_restart_count := sv_restart_count s;
     sv_loop := sv_loop s; sv_closers := sv_closers s; sv_dropped := sv_dropped s |}.
Definition set_children (l : list bool) (s : supervisor) : supervisor :=
  {| sv_stop := sv_stop s; sv_process := sv_process s; sv_children := l; sv_restart_count := sv_restart_count s;
     sv_loop := sv_loop s; sv_closers := sv_closers s; sv_dropped := sv_dropped s |}.
Definition set_loop (l : loop_point) (s : supervisor) : supervisor :=
  {| sv_stop := sv_stop s; sv_process := sv_process s; sv_children := sv_children s; sv_restart_count := sv_restart_count s;
     sv_loop := l; sv_closers := sv_closers s; sv_dropped := sv_dropped s |}.
Definition set_closers (l : list stop_point) (s : supervisor) : supervisor :=
  {| sv_stop := sv_stop s; sv_process := sv_process s; sv_children := sv_children s; sv_restart_count := sv_restart_count s;
     sv_loop := sv_loop s; sv_closers := l; sv_dropped := sv_dropped s |}.
Definition set_stop (s : supervisor) : supervisor :=
  {| sv_stop := true; sv_process := sv_process s; sv_children := sv_children s; sv_restart_count := sv_restart_count s;
     sv_loop := sv_loop s; sv_closers := sv_closers s; sv_dropped := sv_dropped s |}.
Definition count_restart (s : supervisor) : supervisor :=
  {| sv_stop := sv_stop s; sv_process := sv_process s; sv_children := sv_children s; sv_restart_count := S (sv_restart_count s);
     sv_loop := sv_loop s; sv_closers := sv_closers s; sv_dropped := sv_dropped s |}.
Definition drop_child (l : list nat) (s : supervisor) : supervisor :=
  {| sv_stop := sv_stop s; sv_process := sv_process s; sv_children := sv_children s; sv_restart_count := sv_restart_count s;
     sv_loop := sv_loop s; sv_closers := sv_closers s; sv_dropped := sv_dropped s ++ l |}.

(** ** Steps *)

(** hot_stream.py: _stop_child, one step from a point; a wait steps when it returns
    or when its second is over. *)
Definition _stop_child (at_ : stop_point) (s : supervisor) : option (stop_point * supervisor) :=
  match at_ with
  | Entering => Some (Clearing (sv_process s), s)
  | Clearing process =>
      let dropped := match sv_process s with
                     | Some child => if bool_decide (process = Some child) then [] else [child]
                     | None => []
                     end in
      Some (match process with None => Returned | Some child => Polling child end, drop_child dropped (set_process None s))
  | Polling child => Some (if alive s child then Terminating child else Returned, s)
  | Terminating child => Some (Waiting child, s)
  | Waiting child => Some (if alive s child then Killing child else Returned, s)
  | Killing child => Some (WaitingKilled child, s)
  | WaitingKilled child => Some (if alive s child then TimedOut child else Returned, s)
  | Returned | TimedOut _ => None
  end.

(** What [Popen] or a read of the child's output does. *)
Inductive outcome := Works | Fails | OutputEnds.

(** hot_stream.py: run_forever, one step of an enabled buffer. *)
Definition run_forever (o : outcome) (s : supervisor) : option supervisor :=
  match sv_loop s with
  | Checking => Some (set_loop (if sv_stop s then Ended else Opening) s)
  | Opening =>
      match o with
      | Works => Some (set_loop (Storing (length (sv_children s))) (set_children (sv_children s ++ [true]) s))
      | _ => Some (set_loop (Stopping Entering) s)
      end
  | Storing child => Some (set_loop (Reading child) (set_process (Some child) s))
  | Reading child =>
      if sv_stop s then Some (set_loop (Stopping Entering) s)
      else match o with Works => Some s | _ => Some (set_loop (Stopping Entering) s) end
  | Stopping Returned => Some (if sv_stop s then set_loop Checking s else set_loop Pausing (count_restart s))
  | Stopping (TimedOut child) => Some (set_loop (Failed child) s)
  | Stopping at_ => (fun r => set_loop (Stopping r.1) r.2) <$> _stop_child at_ s
  | Pausing => Some (set_loop Checking s)
  | Ended | Failed _ => None
  end.

Inductive event :=
| LoopSteps (o : outcome)
| CloserSteps (i : nat)
| CloseCalled
| StopSet
| ChildExits (child : nat).

(** One event, if it can happen; [close] is called once the stop event is set. *)
Definition step (e : event) (s : supervisor) : option supervisor :=
  match e with
  | LoopSteps o => run_forever o s
  | CloserSteps i =>
      match sv_closers s !! i with
      | Some at_ => (fun r => set_closers (<[i := r.1]> (sv_closers r.2)) r.2) <$> _stop_child at_ s
      | None => None
      end
  | CloseCalled => if sv_stop s then Some (set_closers (sv_closers s ++ [Entering]) s) else None
  | StopSet => Some (set_stop s)
  | ChildExits child => Some (set_children (<[child := false]> (sv_children s)) s)
  end.

Fixpoint run (events : list event) (s : supervisor) : option supervisor :=
  match events with
  | [] => Some s
  | e :: events' => match step e s with Some s' => run events' s' | None => None end
  end.

(** ** The buffer *)

Definition FFMPEG_BINARY : string := "/usr/bin/ffmpeg".
Definition LOOPBACK_FLUENT_STREAM : string := "rtsp://127.0.0.1:8554/camera".

(** hot_stream.py: HotStreamBuffer.__init__, the command; [fps] is the rate as
    [format(..., "g")] writes it. *)
Definition child_command (fps : string) : list string :=
  [FFMPEG_BINARY; "-nostdin"; "-hide_banner"; "-loglevel"; "error"; "-rtsp_transport"; "tcp"; "-i"; LOOPBACK_FLUENT_STREAM;
   "-map"; "0:v:0"; "-an"; "-vf"; String.append "fps=" fps; "-q:v"; "3"; "-c:v"; "mjpeg"; "-f"; "image2pipe"; "pipe:1"].
Definition child_environment : dict string := [("LANG", "C"); ("LC_ALL", "C")].

Definition SOURCE_PROFILE : json := JDict [("codec", JStr "h264"); ("width", JInt 640); ("height", JInt 360); ("fps", JInt 10)].

(** hot_stream.py: HotStreamBuffer.status, from the status of the ring *)
Definition buffer_status (config : HotStreamConfig) (ring : ring_status) (restart_count : nat) : dict json :=
  [("enabled", JBool (hs_enabled config)); ("ready", JBool (st_ready ring));
   ("buffered_frames", JInt (Z.of_nat (st_buffered_frames ring)));
   ("latest_frame_age_ms", json_of_option JInt (st_latest_frame_age_ms ring)); ("stream", JStr "fluent");
   ("sample_fps", JFloat (hs_sample_fps config)); ("source_profile", SOURCE_PROFILE);
   ("restart_count", JInt (Z.of_nat restart_count))].
