(* ===== verification/HotStreamChildFacts.v ===== *)
(** * Facts about the child of the hot stream

    In every interleaving of the worker, the calls of close and the exits of
    children at most one child is alive, and none is left behind but one that did
    not die when killed or whose start overlapped a close (HotStreamChild.v). *)

From S2P Require Import Prelude Json Float HotStream HotStreamChild.

(** The child a thread in [_stop_child] still has to end or gave up on. *)
Definition holds (at_ : stop_point) (c : nat) : Prop :=
  match at_ with
  | Clearing (Some p) | Polling p | Terminating p | Waiting p | Killing p | WaitingKilled p | TimedOut p => p = c
  | _ => False
  end.

Definition loop_holds (l : loop_point) (c : nat) : Prop :=
  match l with Storing p | Failed p => p = c | Stopping at_ => holds at_ c | _ => False end.

(** Somebody is responsible for the child, or a close dropped it. *)
Definition accounted (s : supervisor) (c : nat) : Prop :=
  loop_holds (sv_loop s) c \/ sv_process s = Some c \/ (exists at_, at_ ∈ sv_closers s /\ holds at_ c) \/ c ∈ sv_dropped s.

(** Where the loop is while [_process] is set. *)
Definition may_store (l : loop_point) (q : nat) : Prop := l = Reading q \/ l = Stopping Entering \/ l = Stopping (Clearing (Some q)).

Record supervised (s : supervisor) : Prop := {
  sd_closers : sv_stop s = false -> sv_closers s = [];
  sd_dropped : sv_closers s = [] -> sv_dropped s = [];
  sd_process : forall q, sv_process s = Some q -> may_store (sv_loop s) q;
  sd_opening : sv_loop s = Opening -> forall c, alive s c = false;
  sd_accounted : forall c, alive s c = true -> accounted s c;
  sd_last : forall c, alive s c = true -> S c = length (sv_children s);
}.

Lemma supervised_start : supervised start.
Proof. split; try done; intros c H; unfold alive in H; by rewrite lookup_nil in H. Qed.

Lemma alive_lookup s c : alive s c = true -> sv_children s !! c = Some true.
Proof. unfold alive. by destruct (sv_children s !! c) as [[]|]. Qed.

(** ** The stop of a child, for the thread that runs it *)

(** What one step of [_stop_child] keeps. *)
Lemma stop_child_frame at_ s at' s' : _stop_child at_ s = Some (at', s') ->
  sv_stop s' = sv_stop s /\ sv_children s' = sv_children s /\ sv_loop s' = sv_loop s /\ sv_closers s' = sv_closers s /\
  (sv_process s' = sv_process s /\ sv_dropped s' = sv_dropped s \/
   exists p, at_ = Clearing p /\ sv_process s' = None /\
     sv_dropped s' = sv_dropped s ++ match sv_process s with
       | Some child => if bool_decide (p = Some child) then [] else [child] | None => [] end) /\
  (forall c, holds at_ c -> alive s c = true -> holds at' c).
Proof.
  destruct at_ as [|p|p|p|p|p|p| |p]; cbn [_stop_child]; intros [= <- <-]; cbn.
  - repeat (split; [done|]). split; [by left|done].
  - repeat (split; [done|]). split; [right; by exists p|]. by destruct p.
  - repeat (split; [done|]). split; [by left|]. intros c -> ->. done.
  - repeat (split; [done|]). split; [by left|]. by intros c ->.
  - repeat (split; [done|]). split; [by left|]. intros c -> ->. done.
  - repeat (split; [done|]). split; [by left|]. by intros c ->.
  - repeat (split; [done|]). split; [by left|]. intros c -> ->. done.
Qed.

Lemma alive_children s s' c : sv_children s' = sv_children s -> alive s' c = alive s c.
Proof. unfold alive. by intros ->. Qed.

(** The process is cleared only by somebody who holds it from then on, or it is
    dropped. *)
Lemma cleared_accounted at_ s at' s' c : _stop_child at_ s = Some (at', s') -> sv_process s = Some c ->
  sv_process s' = Some c \/ holds at' c \/ c ∈ sv_dropped s'.
Proof.
  intros H Hp. destruct at_ as [|p|p|p|p|p|p| |p]; cbn [_stop_child] in H; try (injection H as <- <-; by left); [|done..].
  rewrite Hp in H. injection H as <- <-. cbn. case_bool_decide as E; [subst p; right; by left|]. right; right.
  apply elem_of_app. right. by left.
Qed.

(** ** Steps of the loop *)

(** The children are dead when the loop may open another. *)
Lemma checking_dead s : supervised s -> sv_loop s = Checking -> sv_stop s = false -> forall c, alive s c = false.
Proof.
  intros [Hc Hd Hp _ Ha _] Hl Hs c. destruct (alive s c) eqn:E; [|done]. destruct (Ha c E) as [H|[H|[(at_ & H & _)|H]]].
  - by rewrite Hl in H.
  - destruct (Hp c H) as [?|[?|?]]; congruence.
  - rewrite (Hc Hs) in H. by apply elem_of_nil in H.
  - rewrite (Hd (Hc Hs)) in H. by apply elem_of_nil in H.
Qed.

(** A state that differs only where the loop is. *)
Lemma move_loop s l : supervised s ->
  (forall q, sv_process s = Some q -> may_store l q) -> (l = Opening -> forall c, alive s c = false) ->
  (forall c, alive s c = true -> loop_holds (sv_loop s) c -> loop_holds l c \/ sv_process s = Some c) ->
  supervised (set_loop l s).
Proof.
  intros [Hc Hd Hp Ho Ha Hl] H1 H2 H3. split; try done. intros c Hal. specialize (Ha c Hal). specialize (H3 c Hal).
  unfold accounted in *. cbn in *. tauto.
Qed.

(** One step of the loop inside [_stop_child]. *)
Lemma loop_stops s at_ at' s' : supervised s -> sv_loop s = Stopping at_ -> _stop_child at_ s = Some (at', s') ->
  supervised (set_loop (Stopping at') s').
Proof.
  intros [Hc Hd Hp Ho Ha Hl] Hloop H. pose proof (stop_child_frame _ _ _ _ H) as (F1 & F2 & F3 & F4 & F5 & F6).
  assert (Hdropped : sv_dropped s' = sv_dropped s).
  { destruct F5 as [[_ F5]|(p & -> & _ & F5)]; [done|]. rewrite F5. destruct (sv_process s) as [q|] eqn:E; [|by rewrite app_nil_r].
    destruct (Hp q eq_refl) as [Hq|[Hq|Hq]]; rewrite Hloop in Hq; try done. injection Hq as ->. by rewrite bool_decide_eq_true_2, app_nil_r by done. }
  split; cbn [set_loop sv_stop sv_closers sv_dropped sv_process sv_loop sv_children].
  - by rewrite F1, F4.
  - by rewrite F4, Hdropped.
  - intros q Hq. destruct F5 as [[F5 _]|(p & _ & F5 & _)]; [|congruence]. rewrite F5 in Hq. pose proof (Hp q Hq) as Hm.
    unfold may_store in Hm. rewrite Hloop in Hm. destruct Hm as [Hm|[Hm|Hm]]; [done| |].
    + injection Hm as ->. cbn in H. injection H as <- _. right; right. by rewrite Hq.
    + injection Hm as ->. cbn in H. injection H as <- <-. cbn in F5. congruence.
  - done.
  - intros c Hal. change (alive s' c = true) in Hal. rewrite (alive_children s s') in Hal by done.
    unfold accounted. cbn [set_loop sv_loop sv_process sv_closers sv_dropped loop_holds]. destruct (Ha c Hal) as [H1|[H1|[H1|H1]]].
    + rewrite Hloop in H1. left. by apply F6.
    + destruct (cleared_accounted _ _ _ _ _ H H1) as [?|[?|?]]; tauto.
    + rewrite F4. tauto.
    + rewrite Hdropped. tauto.
  - intros c Hal. change (alive s' c = true) in Hal. rewrite (alive_children s s') in Hal by done. rewrite F2. by apply Hl.
Qed.

(** One step of a call of close. *)
Lemma closer_stops s i at_ at' s' : supervised s -> sv_closers s !! i = Some at_ -> _stop_child at_ s = Some (at', s') ->
  supervised (set_closers (<[i := at']> (sv_closers s')) s').
Proof.
  intros [Hc Hd Hp Ho Ha Hl] Hi H. pose proof (stop_child_frame _ _ _ _ H) as (F1 & F2 & F3 & F4 & F5 & F6).
  assert (Hne : sv_closers s <> []) by (intros E; by rewrite E, lookup_nil in Hi).
  assert (Hlen : (i < length (sv_closers s))%nat) by by eapply lookup_lt_Some.
  split; cbn [set_closers sv_stop sv_closers sv_dropped sv_process sv_loop sv_children].
  - rewrite F1. intros E. by rewrite (Hc E) in Hne.
  - rewrite F4. intros E. apply (f_equal length) in E. rewrite length_insert in E. cbn in E. lia.
  - intros q Hq. rewrite F3. destruct F5 as [[F5 _]|(p & _ & F5 & _)]; [|congruence]. apply Hp. congruence.
  - rewrite F3. intros Hopen c. change (alive s' c = false). rewrite (alive_children s s') by done. by apply Ho.
  - intros c Hal. change (alive s' c = true) in Hal. rewrite (alive_children s s') in Hal by done.
    unfold accounted. cbn [set_closers sv_loop sv_process sv_closers sv_dropped].
    assert (Hnew : holds at' c -> exists x, x ∈ <[i := at']> (sv_closers s') /\ holds x c).
    { intros Hh. exists at'. split; [|done]. apply list_elem_of_lookup_2 with i. rewrite F4. by apply list_lookup_insert_eq. }
    destruct (Ha c Hal) as [H1|[H1|[(x & Hx & H1)|H1]]].
    + rewrite F3. tauto.
    + destruct (cleared_accounted _ _ _ _ _ H H1) as [?|[?|?]]; tauto.
    + apply list_elem_of_lookup in Hx as (j & Hj). destruct (decide (i = j)) as [<-|Hij].
      * rewrite Hi in Hj. injection Hj as ->. right; right; left. by apply Hnew, F6.
      * right; right; left. exists x. split; [|done]. apply list_elem_of_lookup_2 with j. rewrite F4. by rewrite list_lookup_insert_ne.
    + right; right; right. destruct F5 as [[_ F5]|(p & _ & _ & F5)]; rewrite F5; [done|]. apply elem_of_app. by left.
  - intros c Hal. change (alive s' c = true) in Hal. rewrite (alive_children s s') in Hal by done. rewrite F2. by apply Hl.
Qed.

(** ** Every event *)

Lemma loop_event s o s' : supervised s -> run_forever o s = Some s' -> supervised s'.
Proof.
  intros Hs H. pose proof Hs as [Hc Hd Hp Ho Ha Hl]. unfold run_forever in H. destruct (sv_loop s) as [| |p|p|at_| | |p] eqn:El; try done.
  - injection H as <-. apply move_loop; [done| | |by rewrite El].
    + intros q Hq. destruct (Hp q Hq) as [?|[?|?]]; congruence.
    + destruct (sv_stop s) eqn:E; [done|]. intros _. by apply checking_dead.
  - specialize (Ho eq_refl). destruct o; injection H as <-.
    2,3: apply move_loop; [done|by right; left|done|by rewrite El].
    split; cbn [set_loop set_children sv_stop sv_closers sv_dropped sv_process sv_loop sv_children]; try done.
    + intros q Hq. destruct (Hp q Hq) as [?|[?|?]]; congruence.
    + intros c Hal%alive_lookup. cbn in Hal. left. apply lookup_app_Some in Hal as [Hal|[Hge Hal]].
      * specialize (Ho c). unfold alive in Ho. by rewrite Hal in Ho.
      * apply list_lookup_singleton_Some in Hal as [Hal _]. cbn. lia.
    + intros c Hal%alive_lookup. cbn in Hal. rewrite length_app. cbn. apply lookup_app_Some in Hal as [Hal|[Hge Hal]].
      * specialize (Ho c). unfold alive in Ho. by rewrite Hal in Ho.
      * apply list_lookup_singleton_Some in Hal as [Hal _]. lia.
  - injection H as <-. split; cbn [set_loop set_process sv_stop sv_closers sv_dropped sv_process sv_loop sv_children]; try done.
    + intros q [= <-]. by left.
    + intros c Hal. unfold accounted. cbn [set_loop set_process sv_loop sv_process sv_closers sv_dropped].
      destruct (Ha c Hal) as [H1|[H1|H1]]; [|destruct (Hp c H1) as [?|[?|?]]; congruence|tauto].
      rewrite El in H1. cbn in H1. subst p. tauto.
  - assert (Hleave : supervised (set_loop (Stopping Entering) s)) by (apply move_loop; [done|by right; left|done|by rewrite El]).
    destruct (sv_stop s); [by injection H as <-|]. destruct o; injection H as <-; done.
  - destruct at_ as [|p|p|p|p|p|p| |p]; cbn [run_forever] in H.
    8: { assert (Hback : forall l, (l = Checking \/ l = Pausing) -> supervised (set_loop l s)).
         { intros l Hl'. apply move_loop; [done| |by destruct Hl' as [->| ->]|by rewrite El].
           intros q Hq. destruct (Hp q Hq) as [?|[?|?]]; congruence. }
         injection H as <-. destruct (sv_stop s); [apply Hback; by left|].
         destruct (Hback Pausing) as [B1 B2 B3 B4 B5 B6]; [by right|]. by split. }
    8: { injection H as <-. apply move_loop; [done| |done|].
         - intros q Hq. destruct (Hp q Hq) as [?|[?|?]]; congruence.
         - intros c _ Hh. rewrite El in Hh. by left. }
    all: apply fmap_Some in H as ([at' s1] & H & ->); by eapply loop_stops.
  - injection H as <-. apply move_loop; [done| |done|by rewrite El]. intros q Hq. destruct (Hp q Hq) as [?|[?|?]]; congruence.
Qed.

Lemma alive_exit s c d : alive (set_children (<[d := false]> (sv_children s)) s) c = true -> alive s c = true.
Proof.
  unfold alive. cbn. destruct (decide (c = d)) as [->|Hne]; [|by rewrite list_lookup_insert_ne].
  destruct (decide (d < length (sv_children s))%nat) as [Hlt|Hge]; [by rewrite list_lookup_insert_eq|].
  rewrite list_insert_ge by lia. done.
Qed.

Lemma step_supervised e s s' : supervised s -> step e s = Some s' -> supervised s'.
Proof.
  intros Hs H. pose proof Hs as [Hc Hd Hp Ho Ha Hl]. destruct e as [o|i| | |c]; cbn [step] in H.
  - by eapply loop_event.
  - destruct (sv_closers s !! i) as [at_|] eqn:Ei; [|done]. apply fmap_Some in H as ([at' s1] & H & ->). by eapply closer_stops.
  - destruct (sv_stop s) eqn:E; [|done]. injection H as <-. split; cbn; try done; [congruence| |].
    + intros E'. by apply app_nil in E' as [_ ?].
    + intros c Hal. destruct (Ha c Hal) as [H1|[H1|[(x & Hx & H1)|H1]]]; [by left|by right; left| |by right; right; right].
      right; right; left. exists x. split; [apply elem_of_app; by left|done].
  - injection H as <-. by split.
  - injection H as <-. split; try done.
    + intros Hopen d. specialize (Ho Hopen d). apply not_true_iff_false. intros E%alive_exit. congruence.
    + intros d Hal%alive_exit. exact (Ha d Hal).
    + intros d Hal%alive_exit. cbn. rewrite length_insert. by apply Hl.
Qed.

Lemma run_supervised events : forall s s', supervised s -> run events s = Some s' -> supervised s'.
Proof.
  induction events as [|e events IH]; intros s s' Hs; cbn [run]; [by intros [= <-]|].
  destruct (step e s) as [s1|] eqn:E; [|done]. apply IH. by eapply step_supervised.
Qed.

(** ** The guarantee *)

Definition finished (at_ : stop_point) : bool := match at_ with Returned | TimedOut _ => true | _ => false end.

(** The worker has left run_forever and no call of close is on its way. *)
Definition quiet (s : supervisor) : Prop :=
  (sv_loop s = Ended \/ exists c, sv_loop s = Failed c) /\ forallb finished (sv_closers s) = true.

(** A thread killed the child and gave up waiting for it. *)
Definition given_up (s : supervisor) (c : nat) : Prop := sv_loop s = Failed c \/ TimedOut c ∈ sv_closers s.

Lemma quiet_accounted s c : supervised s -> quiet s -> alive s c = true -> given_up s c \/ c ∈ sv_dropped s.
Proof.
  intros [_ _ Hp _ Ha _] [Hl Hf] Hal. destruct (Ha c Hal) as [H|[H|[(at_ & H & Hh)|H]]]; [| | |by right].
  - destruct Hl as [Hl|[d Hl]]; rewrite Hl in H; [done|]. cbn in H. subst d. by left; left.
  - destruct (Hp c H) as [Hq|[Hq|Hq]]; destruct Hl as [Hl|[d Hl]]; congruence.
  - rewrite forallb_forall in Hf. apply list_elem_of_In in H as Hin. specialize (Hf at_ Hin).
    destruct at_ as [|p|p|p|p|p|p| |p]; try done. cbn in Hh. subst p. left. by right.
Qed.

(** No close, nothing dropped. *)
Lemma run_without_close events : forall s s', supervised s -> sv_closers s = [] -> CloseCalled ∉ events -> run events s = Some s' ->
  sv_dropped s' = [].
Proof.
  induction events as [|e events IH]; intros s s' Hs Hc Hn; cbn [run].
  { intros [= <-]. by apply sd_dropped. }
  apply not_elem_of_cons in Hn as [He Hn]. destruct (step e s) as [s1|] eqn:E; [|done]. apply IH; [by eapply step_supervised| |done].
  destruct e as [o|i| | |c]; cbn [step] in E.
  - unfold run_forever in E. destruct (sv_loop s) as [| |p|p|at_| | |p]; try done;
      try (by destruct o; injection E as <-); try (by injection E as <-).
    + destruct (sv_stop s); [by injection E as <-|]. by destruct o; injection E as <-.
    + destruct at_; try (by injection E as <-; destruct (sv_stop s));
        apply fmap_Some in E as ([at' s2] & E & ->); apply stop_child_frame in E as (_ & _ & _ & E & _); cbn; congruence.
  - rewrite Hc, lookup_nil in E. done.
  - done.
  - by injection E as <-.
  - by injection E as <-.
Qed.


(** ** Interleavings *)

Module Sample.
(** A child is read, ends, is started again and is ended by the worker when the stop
    event is set while a close runs beside it. *)
Definition orderly : list event :=
  [LoopSteps Works; LoopSteps Works; LoopSteps Works; LoopSteps Works; ChildExits 0; LoopSteps OutputEnds]
  ++ repeat (LoopSteps Works) 4
  ++ [LoopSteps Works; LoopSteps Works; LoopSteps Works; LoopSteps Works; LoopSteps Works; StopSet; CloseCalled; CloserSteps 0;
      LoopSteps Works; LoopSteps Works; CloserSteps 0; LoopSteps Works; CloserSteps 0; LoopSteps Works; CloserSteps 0;
      ChildExits 1; CloserSteps 0; LoopSteps Works; LoopSteps Works; LoopSteps Works; LoopSteps Works].

(** The close reads [_process] before the worker stores the child and clears it
    afterwards. *)
Definition overlapping : list event :=
  [LoopSteps Works; StopSet; CloseCalled; CloserSteps 0; LoopSteps Works; LoopSteps Works; CloserSteps 0]
  ++ repeat (LoopSteps Works) 5.

Definition final (events : list event) : supervisor := match run events start with Some s => s | None => start end.
Definition done_with (s : supervisor) : bool :=
  match sv_loop s with Ended | Failed _ => true | _ => false end && forallb finished (sv_closers s).


(** The child is still running when everything is over. *)
Lemma close_drops_child :
  run overlapping start = Some (final overlapping) /\ done_with (final overlapping) = true /\
  sv_children (final overlapping) = [true] /\ sv_dropped (final overlapping) = [0%nat].
Proof. by vm_compute. Qed.
End Sample.
