(* ===== verification/CommandServer.v ===== *)
(** * Remote commands: gate_controller/command_server.py and audio.py

    The direct command executor over the actuation coordinator and the prompt
    player, and the HTTP handler in front of it.  [fromisoformat] (the standard
    library's parser, on the text with a trailing Z replaced) and the subprocess
    that plays a file are arguments.  One command runs at a time here; in the
    program the coordinator's lock and the prompt lock serialise the commands of
    each kind. *)

From S2P Require Import Prelude Models Json Store StoreFacts Float Text Telemetry StoreOutbox Relay.
From S2P Require Import Actuation ActuationStore ActuationGuard ActuationFacts.

Definition MAX_REQUEST_BYTES : Z := 4096.
Definition MAX_COMMAND_LIFETIME : Z := seconds 10.

(** ** What a prompt asks of the store *)

(** The claim [_play_prompt] makes: no cooldown, no pending event. *)
Class PromptOps (St : Type) := {
  so_claim_prompt : string -> datetime -> M St ActuationClaim;
}.

Class PromptLaws (St : Type) `{laws : StoreLaws St} `{!PromptOps St} := {
  law_prompt_harmless k t : harmless (so_claim_prompt k t);
  law_prompt_claim k t s c s' :
    so_claim_prompt k t s = (Ok c, s') -> store_ok s -> ac_status c = "claimed" ->
    ac_idempotency_key c = k /\ ~ seen k s /\ seen k s' /\ issued c s';
}.

(** ** Commands *)

Inductive command_kind := OpenGate | PlayPrompt.

Record command := {
  cmd_controller_id : string;
  cmd_command : command_kind;
  cmd_idempotency_key : string;
  cmd_expires_at : datetime;
  cmd_prompt_key : option string;
}.

(** A response: the "status" and, when present, the "detail". *)
Record response := {
  rs_status : string;
  rs_detail : option string;
}.
Definition respond (status : string) (detail : option string) : response :=
  {| rs_status := status; rs_detail := detail |}.

Section Parse.
(** [datetime.fromisoformat(value.replace("Z", "+00:00"))] *)
Context (fromisoformat : string -> option datetime).

(** command_server.py: _parse_timestamp; [astimezone] raises OverflowError when
    the instant is outside the range of datetimes. *)
Definition _parse_timestamp (value : json) : result datetime :=
  match value with
  | JTime us => Ok (Aware us)
  | JStr s =>
      match fromisoformat s with
      | None => Err (ValueError "expires_at is invalid")
      | Some (Naive _) => Err (ValueError "expires_at must include a timezone")
      | Some (Aware us) =>
          if ((us <? Store.DATETIME_MIN) || (DATETIME_MAX <? us))%Z then Err OverflowError
          else Ok (Aware us)
      end
  | _ => Err (ValueError "expires_at is required")
  end.

(** A JSON value that is a str. *)
Definition json_text (j : json) : option string :=
  match j with JStr s => Some s | _ => None end.

Definition nonempty_text (j : json) : option string :=
  match j with JStr (String a s) => Some (String a s) | _ => None end.

(** [command not in {"open_gate", "play_prompt"}]; a list or dict there is
    unhashable and raises TypeError. *)
Definition command_kind_of (j : json) : result (option command_kind) :=
  match j with
  | JStr "open_gate" => Ok (Some OpenGate)
  | JStr "play_prompt" => Ok (Some PlayPrompt)
  | JList _ | JDict _ => Err TypeError
  | _ => Ok None
  end.

(** command_server.py: DirectCommandExecutor._parse *)
Definition _parse (payload : json) : result (option command) :=
  match payload with
  | JDict p =>
      match nonempty_text (dict_get "controller_id" p) with
      | None => Ok None
      | Some controller_id =>
          rbind (command_kind_of (dict_get "command" p)) (fun kind =>
          match kind, nonempty_text (dict_get "idempotency_key" p) with
          | Some kind, Some key =>
              if negb (is_null (dict_get "prompt_key" p))
                 && negb (bool_decide (is_Some (json_text (dict_get "prompt_key" p))))
              then Ok None
              else match _parse_timestamp (dict_get "expires_at" p) with
                   | Err (ValueError _) => Ok None
                   | Err e => Err e
                   | Ok expires_at =>
                       Ok (Some {| cmd_controller_id := controller_id; cmd_command := kind;
                                   cmd_idempotency_key := key; cmd_expires_at := expires_at;
                                   cmd_prompt_key := json_text (dict_get "prompt_key" p) |})
                   end
          | _, _ => Ok None
          end)
      end
  | _ => Ok None
  end.
End Parse.

(** ** audio.py *)

Section PromptPlayer.
(** The configured prompts, and the outcome of running the player on a file. *)
Context (prompts : dict string) (runner : string -> result bool).

(** audio.py: PromptPlayer.available *)
Definition available : bool := negb (bool_decide (prompts = [])).

(** audio.py: PromptPlayer.play; the second component says whether the player
    was started. *)
Definition play (prompt_key : option string) : result bool * bool :=
  match dget (default EmptyString prompt_key) prompts with
  | None => (Ok false, false)
  | Some path =>
      (match runner path with
       | Ok b => Ok b
       | Err e => if is_Exception e then Ok false else Err e
       end, true)
  end.
End PromptPlayer.

(** ** The executor *)

Record command_world (St : Type) := {
  cw_gate : world St;
  (** Ghost: the keys of the commands that started the player, in order. *)
  cw_played : list string;
}.
Arguments cw_gate {St} _.
Arguments cw_played {St} _.

Definition put_gate {St} (g : world St) (w : command_world St) : command_world St :=
  {| cw_gate := g; cw_played := cw_played w |}.
Definition note_played {St} (key : string) (w : command_world St) : command_world St :=
  {| cw_gate := cw_gate w; cw_played := cw_played w ++ [key] |}.

Section Executor.
Context {St : Type} `{!StoreOps St} `{!PromptOps St}.
Context (wall_clock : nat -> datetime) (mono_clock : nat -> Z).
Context (cooldown : Z) (boot_id : option string) (max_off_attempts : nat).
(** [_controller_id], [_prompt_player] and [_max_command_lifetime]. *)
Context (controller_id : string) (player : option (option string -> result bool * bool)).
Context (max_command_lifetime : Z) (fromisoformat : string -> option datetime).

Definition on_gate {A} (m : M (world St) A) : M (command_world St) A := lift cw_gate put_gate m.

(** command_server.py: DirectCommandExecutor._expiry_inhibition *)
Definition _expiry_inhibition (expires_at : datetime) (now : option datetime)
  : M (world St) (option (string * string)) :=
  let! t := match now with Some t => ret t | None => _clock wall_clock end in
  match dt_sub expires_at t with
  | Err _ => ret (Some ("expired", "invalid_expiry_window"))
  | Ok remaining =>
      if (remaining <=? 0)%Z then ret (Some ("expired", "expired_before_activation"))
      else if (max_command_lifetime <? remaining)%Z then ret (Some ("expired", "invalid_expiry_window"))
      else ret None
  end.

Definition command_key (c : command) : string := String.append "command:" (cmd_idempotency_key c).

(** The prompt player call of [_play_prompt]. *)
Definition run_player (key : string) (prompt_key : option string) : M (command_world St) bool :=
  match player with
  | None => ret false
  | Some play_ =>
      match play_ prompt_key with
      | (r, started) => (if started then modify (note_played key) else ret tt) ;! of_result r
      end
  end.

(** The event of a prompt. *)
Definition prompt_event (key : string) (status : string) (detail : option string)
    (received decided : datetime) : GateEvent :=
  {| ge_source := "remote_command";
     ge_reason := if String.eqb status "completed" then "remote_command" else default EmptyString detail;
     ge_opened := false; ge_idempotency_key := Some key; ge_received_at := received;
     ge_decision_at := Some decided; ge_relay_activated_at := None; ge_authorised_plate := None;
     ge_observed_plate := None; ge_ocr_confidence := float_0 |}.

(** [_play_prompt] once the claim is granted: the expiry is checked again, the
    prompt is played, the claim is finalized. *)
Definition play_claimed (c : command) (claim : ActuationClaim) : M (command_world St) response :=
  let key := command_key c in
  let! inhibition := on_gate (_expiry_inhibition (cmd_expires_at c) None) in
  let! outcome :=
    match inhibition with
    | Some (status, detail) => ret (status, Some detail)
    | None =>
        let! played := run_player key (cmd_prompt_key c) in
        ret (if played : bool then ("completed", None) else ("failed", Some "invalid_prompt"))
    end in
  let! received := on_gate (_clock wall_clock) in
  let! decided := on_gate (_clock wall_clock) in
  let '(status, detail) := outcome in
  try_except
    (on_gate (on_store (so_finalize_actuation claim (prompt_event key status detail received decided)
                          status detail None None false)) ;!
     ret (respond status detail))
    (fun _ => ret (respond "failed" (Some "indeterminate_claim"))).

(** command_server.py: DirectCommandExecutor._play_prompt *)
Definition _play_prompt (c : command) : M (command_world St) response :=
  let key := command_key c in
  let! terminal := on_gate (on_store (so_terminal_outcome key)) in
  match terminal with
  | Some t => ret (respond (to_status t) (to_detail t))
  | None =>
      let! claimed := try_except
        (let! now := on_gate (_clock wall_clock) in
         let! claim := on_gate (on_store (so_claim_prompt key now)) in
         ret (Some claim))
        (fun _ => ret None) in
      match claimed with
      | None => ret (respond "failed" (Some "actuation_inhibit_error"))
      | Some claim =>
          if negb (String.eqb (ac_status claim) "claimed")
          then ret (respond "failed" (Some (ac_status claim)))
          else play_claimed c claim
      end
  end.

(** The event of an open command. *)
Definition open_event (c : command) (received_at : datetime) : GateEvent :=
  {| ge_source := "remote_command"; ge_reason := "remote_command"; ge_opened := false;
     ge_idempotency_key := Some (command_key c); ge_received_at := received_at;
     ge_decision_at := Some received_at; ge_relay_activated_at := None; ge_authorised_plate := None;
     ge_observed_plate := None; ge_ocr_confidence := float_0 |}.

(** The open branch of [execute]. *)
Definition open_gate (c : command) (now : option datetime) : M (command_world St) response :=
  let! received_at := match now with Some t => ret t | None => on_gate (_clock wall_clock) end in
  let! execution := on_gate (actuate wall_clock mono_clock cooldown boot_id max_off_attempts
    (open_event c received_at) None None (Some (_expiry_inhibition (cmd_expires_at c) now)) false false) in
  ret (respond (ae_terminal_status execution) (ae_terminal_detail execution)).

(** command_server.py: DirectCommandExecutor.execute *)
Definition execute (payload : json) (now : option datetime) : M (command_world St) response :=
  let! parsed := of_result (_parse fromisoformat payload) in
  match parsed with
  | None => ret (respond "failed" (Some "invalid_command"))
  | Some c =>
      if negb (String.eqb (cmd_controller_id c) controller_id)
      then ret (respond "failed" (Some "wrong_controller"))
      else match cmd_command c with
           | PlayPrompt => _play_prompt c
           | OpenGate => open_gate c now
           end
  end.

(** ** The HTTP handler *)

Record http_request := {
  rq_path : string;
  (** The Content-Length header. *)
  rq_content_length : option string;
  (** What reading that many bytes of the body and parsing them gives. *)
  rq_body : Z -> text;
}.

(** command_server.py: CommandRequestHandler.do_POST: the HTTP status and body. *)
Definition do_POST (rq : http_request) : M (command_world St) (Z * response) :=
  if negb (String.eqb (rq_path rq) "/commands") then ret (404%Z, respond "failed" (Some "not_found"))
  else match rq_content_length rq ≫= int_of_text with
       | None => ret (400%Z, respond "failed" (Some "invalid_request"))
       | Some length =>
           if ((length <? 0) || (MAX_REQUEST_BYTES <? length))%Z
           then ret (413%Z, respond "failed" (Some "request_too_large"))
           else match loads (rq_body rq length) with
                | Err _ => ret (400%Z, respond "failed" (Some "invalid_request"))
                | Ok payload =>
                    try_except
                      (let! r := execute payload None in ret (200%Z, r))
                      (fun _ => ret (500%Z, respond "failed" (Some "command_execution_error")))
                end
       end.

(** command_server.py: CommandRequestHandler.do_GET *)
Definition do_GET : Z * response := (404%Z, respond "failed" (Some "not_found")).
End Executor.

(** command_server.py: _is_loopback, and the guard of build_command_server. *)
Definition _is_loopback (host : string) : bool := String.eqb host "127.0.0.1" || String.eqb host "::1".
Definition build_command_server (host : string) : result bool :=
  if _is_loopback host then Ok (String.eqb host "::1")
  else Err (ValueError "command server must bind to a loopback address").
