(* ===== verification/CommandServerFacts.v ===== *)
(** * Properties of remote commands

    An open command drives the pin only while it is valid; every command acts at
    most once, whatever is retried, replayed or interrupted; a rejected request
    touches nothing. *)

From S2P Require Import Prelude Models Json Store StoreFacts Relay Actuation ActuationStore.
From S2P Require Import ActuationGuard ActuationFacts Text Telemetry StoreOutbox CommandServer.

(** ** The SQLite store serves prompts *)

#[global] Instance sqlite_prompt_ops : PromptOps sqlite_store := {
  so_claim_prompt key at_ := call (fun _ => claim_actuation key at_ None None None None None None);
}.

#[global] Instance sqlite_prompt_laws : PromptLaws sqlite_store.
Proof.
  assert (Hrow : forall Q k t, keeps (fun s => sq_ok s /\ on_claims (some_row Q) (ls_db s)) (so_claim_prompt k t)).
  { intros Q k t. apply keeps_and; apply (call_keeps _ (fun _ => claim_actuation k t None None None None None None));
      intros now; [apply claim_actuation_wf|apply claim_some]. }
  split.
  - intros k t. split; [|intros; apply Hrow..].
    apply (call_keeps db_wf). intros now. apply claim_actuation_wf.
  - intros k t s c s' [now E]%call_ok _ Hst.
    destruct (claim_claimed_inv _ _ _ _ _ _ _ _ _ _ _ E Hst) as (Hnew & Hk & _ & row & Hd' & Hrk & _ & Hid & _).
    assert (Hrow' : row ∈ db_claims (ls_db s')) by (rewrite Hd'; apply elem_of_app; right; left).
    split; [done|]. split; [by cbn; rewrite some_row_key|]. split; [by exists row|].
    exists row. split; [done|]. split; [done|]. congruence.
Qed.

Lemma on_gate_keeps {St A} (I : world St -> Prop) (m : M (world St) A) :
  keeps I m -> keeps (fun w => I (cw_gate w)) (on_gate m).
Proof. intros Hm. by apply (keeps_lift cw_gate put_gate). Qed.

(** ** Expiry *)

Section Expiry.
Context {St : Type} `{!StoreOps St}.
Context (wall_clock : nat -> datetime) (max_command_lifetime : Z).

(** The command is valid at the [i]th reading of the clock. *)
Definition valid_at (expires_at : datetime) (i : nat) : Prop :=
  exists remaining, dt_sub expires_at (wall_clock i) = Ok remaining /\
    (0 < remaining <= max_command_lifetime)%Z.

(** A reading at or after [start], before the [n]th, at which it was valid. *)
Definition was_valid (expires_at : datetime) (start n : nat) : Prop :=
  exists i, (start <= i < n)%nat /\ valid_at expires_at i.

Lemma expiry_inhibition_reads expires_at start (w : world St) :
  (start <= w_wall w)%nat ->
  exists r n, _expiry_inhibition wall_clock max_command_lifetime expires_at None w = (r, put_wall n w) /\
    (w_wall w <= n)%nat /\ (r = Ok None -> was_valid expires_at start n).
Proof.
  intros Hs. unfold _expiry_inhibition, bind, _clock.
  destruct (dt_sub expires_at (wall_clock (w_wall w))) as [remaining|e] eqn:E; cbn.
  2: { do 2 eexists. split; [done|]. split; [lia|done]. }
  destruct (remaining <=? 0)%Z eqn:E1; [do 2 eexists; split; [done|]; split; [lia|done]|].
  destruct (max_command_lifetime <? remaining)%Z eqn:E2; [do 2 eexists; split; [done|]; split; [lia|done]|].
  do 2 eexists. split; [done|]. split; [lia|]. intros _. exists (w_wall w). split; [lia|].
  exists remaining. split; [done|]. bool_props. lia.
Qed.

Lemma expiry_only_reads expires_at now :
  only_reads (St := St) (_expiry_inhibition wall_clock max_command_lifetime expires_at now).
Proof.
  intros w. unfold _expiry_inhibition, bind, _clock, ret.
  assert (Hsame : put_wall (w_wall w) w = w) by (by destruct w).
  set (t := match now with Some t => t | None => wall_clock (w_wall w) end).
  exists (match dt_sub expires_at t with
          | Err _ => Ok (Some ("expired", "invalid_expiry_window"))
          | Ok r => if (r <=? 0)%Z then Ok (Some ("expired", "expired_before_activation"))
                    else if (max_command_lifetime <? r)%Z then Ok (Some ("expired", "invalid_expiry_window"))
                    else Ok None end), (match now with Some _ => w_wall w | None => S (w_wall w) end).
  destruct now as [now|]; cbn; subst t; rewrite ?Hsame; (destruct (dt_sub _ _) as [r|]; [|done]);
    (destruct (r <=? 0)%Z; [done|]); by destruct (_ <? r)%Z.
Qed.
End Expiry.

(** C6: an open command drives the pin only while it is valid: whenever a call
    of [execute] leaves a new activation behind, the clock was read during that
    call at a moment strictly before the expiry and no more than the allowed
    lifetime ahead of it. *)
Theorem open_only_while_valid {St} {ops : StoreOps St} {pops : PromptOps St}
    wall_clock mono_clock cooldown boot_id max_off_attempts controller_id player lifetime fromisoformat
    (payload : json) (w w' : command_world St) (r : result response)
    (Hrun : execute wall_clock mono_clock cooldown boot_id max_off_attempts controller_id player lifetime
              fromisoformat payload None w = (r, w')) :
  w_energised (cw_gate w') = w_energised (cw_gate w) \/
  exists c, _parse fromisoformat payload = Ok (Some c) /\ cmd_command c = OpenGate /\
    cmd_controller_id c = controller_id /\
    was_valid wall_clock lifetime (cmd_expires_at c) (w_wall (cw_gate w)) (w_wall (cw_gate w')).
Proof.
  revert Hrun. unfold execute, bind at 1, of_result.
  destruct (_parse fromisoformat payload) as [[c|]|e]; [|intros [= _ <-]; by left|intros [= _ <-]; by left].
  destruct (String.eqb_spec (cmd_controller_id c) controller_id) as [Hid|]; cbn [negb]; [|intros [= _ <-]; by left].
  destruct (cmd_command c) eqn:Ekind.
  - unfold open_gate. intros Hrun.
    assert (Hk : keeps (fun w1 => guarded (w_energised (cw_gate w))
        (was_valid wall_clock lifetime (cmd_expires_at c) (w_wall (cw_gate w))) (w_wall (cw_gate w)) (cw_gate w1))
      (open_gate wall_clock mono_clock cooldown boot_id max_off_attempts lifetime c None)).
    { unfold open_gate. keeps_tac.
      - apply (on_gate_keeps (guarded _ _ _)). apply clock_guarded. intros n m (i & ? & ?) ?. exists i. split; [lia|done].
      - apply (on_gate_keeps (guarded _ _ _)). apply actuate_guarded.
        + intros n m (i & ? & ?) ?. exists i. split; [lia|done].
        + intros w1. apply expiry_inhibition_reads. }
    assert (H0 : guarded (w_energised (cw_gate w))
      (was_valid wall_clock lifetime (cmd_expires_at c) (w_wall (cw_gate w))) (w_wall (cw_gate w)) (cw_gate w))
      by (split; [done|by left]).
    pose proof (keeps_state _ _ _ _ _ Hk H0 Hrun) as [_ [H1|H1]]; [by left|right; by exists c].
  - intros Hrun. left.
    assert (Hk : keeps (fun w1 => w_energised (cw_gate w1) = w_energised (cw_gate w))
      (_play_prompt wall_clock player lifetime c)).
    { assert (Hst : forall A (m : M St A), keeps (fun g => w_energised g = w_energised (cw_gate w)) (on_store m))
        by (intros A m g Hg; unfold on_store, lift; by destruct (m (w_store g)) as [[?|?] ?]).
      assert (Hg : forall A (m : M (world St) A), keeps (fun g => w_energised g = w_energised (cw_gate w)) m ->
        keeps (fun w1 => w_energised (cw_gate w1) = w_energised (cw_gate w)) (on_gate m))
        by (intros A m Hm; by apply (on_gate_keeps (fun g => w_energised g = w_energised (cw_gate w)))).
      assert (Hex : forall e, keeps (fun g => w_energised g = w_energised (cw_gate w))
        (_expiry_inhibition (St := St) wall_clock lifetime e None))
        by (intros e g Hgg; destruct (expiry_only_reads wall_clock lifetime e None g) as (r1 & n & ->); by destruct r1).
      unfold _play_prompt, play_claimed, run_player. cbv zeta.
      keeps_tac; try apply Hg; try apply Hst; try apply Hex; try (by intros ? ?); try by apply keeps_modify.
      all: intros ? ?; unfold of_result; by destruct (_ : result bool). }
    exact (keeps_state _ _ _ _ _ Hk eq_refl Hrun).
Qed.

(** ** A claimed key is spent

    A key the store has seen is never energised by a later call. *)

Section Spent.
Context {St : Type} `{laws : StoreLaws St}.
Context (wall_clock : nat -> datetime) (mono_clock : nat -> Z).
Context (cooldown : Z) (boot_id : option string) (max_off_attempts : nat).
Context (k : string).

Definition spent (w : world St) : Prop :=
  store_ok (w_store w) /\ seen k (w_store w) /\ k ∉ (en_key <$> w_energised w).

Lemma on_store_spent {A} (m : M St A) :
  keeps (fun s => store_ok s /\ seen k s) m -> keeps spent (on_store m).
Proof.
  intros Hm w (Hs & Hk & Hn). specialize (Hm _ (conj Hs Hk)). unfold on_store, lift.
  destruct (m (w_store w)) as [[?|?] s']; by destruct Hm.
Qed.

Lemma harmless_spent {A} (m : M St A) : harmless m -> keeps spent (on_store m).
Proof. intros Hm. apply on_store_spent, Hm. Qed.

Lemma finalize_spent c e s d p a r : keeps spent (on_store (so_finalize_actuation c e s d p a r)).
Proof. apply on_store_spent. apply (proj2 (law_seen k)). Qed.

Lemma clock_spent : keeps spent (_clock wall_clock).
Proof. by intros w Hw. Qed.
Lemma monotonic_spent : keeps spent (_monotonic_clock mono_clock).
Proof. by intros w Hw. Qed.
Lemma modify_spent (g : world St -> world St) :
  (forall w, w_store (g w) = w_store w) -> (forall w, w_energised (g w) = w_energised w) -> keeps spent (modify g).
Proof. intros Hs He. apply keeps_modify. intros w. unfold spent. by rewrite Hs, He. Qed.

Hint Resolve harmless_spent finalize_spent clock_spent monotonic_spent harmless_terminal harmless_record
  harmless_ensure harmless_ack harmless_claim harmless_mark harmless_recover : gate.

Lemma trigger_relay_spent key m pre ra rd :
  reads_option pre -> key <> k -> keeps spent (trigger_relay wall_clock max_off_attempts key m pre ra rd).
Proof.
  intros Hpre Hne w Hw. unfold trigger_relay, bind, modify. cbn beta iota.
  destruct (trigger _ _ _ _ _ _ _ _ _ (put_inhibition None w)) as [r w'] eqn:E.
  pose proof (trigger_world w_relay put_relay max_off_attempts (_clock wall_clock) (note_energised key m)
    (check_inhibition <$> pre) spent spent spent) as HT.
  assert (Hig : ignores_relay put_relay (_clock wall_clock) spent) by (split; [done|apply clock_spent]).
  eapply HT in E; [|exact Hig|exact Hig|exact Hig|..|exact Hw].
  - unfold ended in E. destruct r as [res|e]; [by destruct E as [[E _]|[E _]]|by destruct E as [E|[E _]]].
  - intros w1. by do 2 eexists.
  - done.
  - intros w1 (? & ? & Hn). split; [done|]. split; [done|]. cbn. rewrite fmap_app. cbn.
    intros [Hin|Hin%list_elem_of_singleton]%elem_of_app; [done|]. by apply Hne.
  - intros f Hf w1 Hw1 r1 w2. destruct pre as [g|]; [|done]. injection Hf as <-.
    unfold check_inhibition, bind, modify, ret. destruct (Hpre g eq_refl w1) as (r2 & n & ->).
    destruct r2 as [[i|]|e]; by intros [= <- <-].
  - done.
Qed.

Lemma act_on_claim_spent c t m event key payload ack pre ra rd :
  reads_option pre -> key <> k ->
  keeps spent (act_on_claim wall_clock mono_clock cooldown boot_id max_off_attempts c t m event key payload ack pre ra rd).
Proof.
  intros Hpre Hne. unfold act_on_claim, Actuation.finish. cbv zeta.
  keeps_tac; first [by apply trigger_relay_spent|by apply modify_spent].
Qed.

Lemma claim_granted_spent key t event payload ack :
  post spent
    (let! m := _monotonic_clock mono_clock in
     let! c := on_store (so_claim_actuation key t (dt_minus t cooldown) (m - cooldown)%Z boot_id event payload ack) in
     ret (Some (m, c)))
    (fun r w => spent w /\ forall m c, r = Ok (Some (m, c)) -> ac_status c = "claimed" -> key <> k).
Proof.
  intros w r w' Hw. unfold bind. cbn [_monotonic_clock].
  set (m := mono_clock (w_mono w)). set (w1 := put_mono (S (w_mono w)) w).
  destruct (on_store _ w1) as [[c|e] w2] eqn:E;
    pose proof (keeps_state _ _ _ _ _ (harmless_spent _ (harmless_claim _ _ _ _ _ _ _ _)) (Hw : spent w1) E) as H2;
    intros [= <- <-]; (split; [done|]); [|done].
  intros m' c' [= <- <-] Hst ->. unfold on_store, lift in E.
  destruct (so_claim_actuation _ _ _ _ _ _ _ _ (w_store w1)) as [r1 s1] eqn:Ec. injection E as -> _.
  destruct (law_claim _ _ _ _ _ _ _ _ _ _ _ Ec (proj1 Hw) Hst) as (_ & Hnew & _). apply Hnew, Hw.
Qed.

Lemma actuate_spent event payload ack pre ra rd :
  reads_option pre ->
  keeps spent (actuate wall_clock mono_clock cooldown boot_id max_off_attempts event payload ack pre ra rd).
Proof.
  intros Hpre. unfold actuate, replay_terminal, _reconcile_outbox.
  destruct (ge_idempotency_key event) as [[|a s]|]; [apply keeps_raise| |apply keeps_raise].
  set (key := String a s). apply keeps_bind; [auto with gate|]. intros [t|]; [keeps_tac|].
  apply keeps_bind; [keeps_tac|]. intros t.
  eapply triple_bind with (R := fun claimed w => spent w /\
    forall m c, claimed = Some (m, c) -> ac_status c = "claimed" -> key <> k).
  - intros w Hw. unfold try_except. destruct (bind _ _ w) as [r w'] eqn:E.
    destruct (claim_granted_spent key t event payload ack w r w' Hw E) as [H1 H2].
    destruct r as [o|e]; [split; [done|]; intros m c ->; by apply (H2 m c)|]. by destruct (is_Exception e).
  - intros [[m c]|]; [|intros w [? _]; done].
    destruct (String.eqb (ac_status c) "cooldown").
    { eapply triple_of_keeps; [|intros w [? _]; done|auto|auto]. keeps_tac. }
    destruct (String.eqb_spec (ac_status c) "claimed") as [Hc|Hc]; cbn [negb]; [|intros w [? _]; done].
    intros w [Hw Hk]. by apply act_on_claim_spent; [|by eapply Hk|].
Qed.

Lemma restarted_spent w w' : spent w -> restarted w w' -> spent w'.
Proof.
  intros (Hs & Hk & Hn) [Hst _ _ He _]. unfold spent. rewrite He, Hst.
  destruct (keeps_snd _ _ _ (ha_seen _ harmless_recover k) (conj Hs Hk)) as [? ?]. done.
Qed.

Lemma gate_step_spent w l w' :
  gate_step wall_clock mono_clock cooldown boot_id max_off_attempts w l w' -> spent w -> spent w'.
Proof.
  intros Hstep Hw. destruct Hstep as [w event payload ack pre ra rd r w' Hpre E Hr|
    w event payload ack pre ra rd r w1 w' Hpre E Hre|w w' Hre].
  - eapply keeps_state; [by apply actuate_spent|exact Hw|exact E].
  - eapply restarted_spent; [|exact Hre]. eapply keeps_state; [by apply actuate_spent|exact Hw|exact E].
  - by eapply restarted_spent.
Qed.
End Spent.

(** ** Histories of commands *)

Section CommandHistories.
Context {St : Type} `{laws : StoreLaws St} `{!PromptOps St} `{!PromptLaws St}.
Context (wall_clock : nat -> datetime) (mono_clock : nat -> Z).
Context (cooldown : Z) (boot_id : option string) (max_off_attempts : nat).
Context (controller_id : string) (player : option (option string -> result bool * bool)).
Context (lifetime : Z) (fromisoformat : string -> option datetime).

Abbreviation run_execute :=
  (execute wall_clock mono_clock cooldown boot_id max_off_attempts controller_id player lifetime fromisoformat).

Inductive command_label :=
| LCommand (payload : json)
| LCommandCrash (payload : json)
| LGate (l : gate_label).

(** A command that returns or raises an ordinary exception; one during which the
    process dies, and the restart; anything else that happens to the gate. *)
Inductive command_step : command_world St -> command_label -> command_world St -> Prop :=
| cs_execute w payload now r w' :
    run_execute payload now w = (r, w') -> r <> Err BaseExc -> command_step w (LCommand payload) w'
| cs_crash w payload now r w1 g' :
    run_execute payload now w = (r, w1) -> restarted (cw_gate w1) g' ->
    command_step w (LCommandCrash payload) (put_gate g' w1)
| cs_gate w l g' :
    gate_step wall_clock mono_clock cooldown boot_id max_off_attempts (cw_gate w) l g' ->
    command_step w (LGate l) (put_gate g' w).

(** Every prompt was played once, for a key that is spent. *)
Definition prompts_ok (w : command_world St) : Prop :=
  NoDup (cw_played w) /\ Forall (fun k => spent k (cw_gate w)) (cw_played w).
Definition command_ok (w : command_world St) : Prop :=
  gate_ok mono_clock cooldown boot_id (cw_gate w) /\ prompts_ok w.

Context (Hmono : forall i j, (i <= j)%nat -> (mono_clock i <= mono_clock j)%Z).

(** An action on the gate that keeps the spent keys spent. *)
Lemma on_gate_prompts {A} (m : M (world St) A) :
  (forall k, keeps (spent k) m) -> keeps prompts_ok (on_gate m).
Proof.
  intros Hm w [Hnd Hall]. unfold on_gate, lift. destruct (m (cw_gate w)) as [r g'] eqn:E.
  assert (Hall' : Forall (fun k => spent k g') (cw_played w)).
  { eapply Forall_impl; [|exact Hall]. intros k Hk. eapply keeps_state; [apply Hm|exact Hk|exact E]. }
  by destruct r.
Qed.

Lemma on_gate_ok {A} (m : M (world St) A) :
  keeps (gate_ok mono_clock cooldown boot_id) m -> (forall k, keeps (spent k) m) -> keeps command_ok (on_gate m).
Proof.
  intros Hg Hs. apply keeps_and; [|by apply on_gate_prompts].
  by apply (on_gate_keeps (gate_ok mono_clock cooldown boot_id)).
Qed.

Lemma clock_ok : keeps command_ok (on_gate (_clock wall_clock)).
Proof. apply on_gate_ok; [apply clock_keeps_ok|intros k; apply clock_spent]. Qed.

Lemma harmless_ok {A} (m : M St A) : harmless m -> keeps command_ok (on_gate (on_store m)).
Proof. intros Hm. apply on_gate_ok; [by apply harmless_keeps|intros k; by apply harmless_spent]. Qed.

(** The claim of a prompt is open: its key is new. *)
Record prompt_open (c : ActuationClaim) (key : string) (w : command_world St) : Prop := {
  po_ok : command_ok w;
  po_key : ac_idempotency_key c = key;
  po_issued : issued c (w_store (cw_gate w));
  po_seen : seen key (w_store (cw_gate w));
  po_fresh : key ∉ (en_key <$> w_energised (cw_gate w));
}.

Lemma prompt_claimed key :
  post command_ok
    (let! now := on_gate (_clock wall_clock) in
     let! claim := on_gate (on_store (so_claim_prompt key now)) in ret (Some claim))
    (fun r w => command_ok w /\ forall c, r = Ok (Some c) -> ac_status c = "claimed" ->
       prompt_open c key w /\ key ∉ cw_played w).
Proof.
  apply (post_bind _ _ _ (fun _ => command_ok)).
  { eapply post_keeps; [apply clock_ok|done|]. by intros [?|?] w Hw. }
  intros now w r w' Hw. unfold bind.
  destruct (on_gate (on_store (so_claim_prompt key now)) w) as [[c|e] w1] eqn:E;
    pose proof (keeps_state _ _ _ _ _ (harmless_ok _ (law_prompt_harmless key now)) Hw E) as H1;
    intros [= <- <-]; (split; [done|]); [|done].
  intros c' [= <-] Hst. unfold on_gate, on_store, lift in E.
  destruct (so_claim_prompt key now (w_store (cw_gate w))) as [r1 s1] eqn:Ec. injection E as -> <-.
  destruct Hw as [[Hcore _] [Hnd Hall]].
  destruct (law_prompt_claim _ _ _ _ _ Ec (gc_store _ _ _ _ Hcore) Hst) as (Hk & Hnew & Hseen & Hiss).
  split; [split; try done|].
  - cbn. intros (e & -> & He)%list_elem_of_fmap. apply Hnew.
    pose proof (gc_recorded _ _ _ _ Hcore) as Hrec. rewrite list.Forall_forall in Hrec. apply (Hrec e He).
  - cbn. intros Hin. rewrite list.Forall_forall in Hall. apply Hnew, (Hall key Hin).
Qed.

Lemma prompt_finalized c key event status detail :
  post (prompt_open c key)
    (on_gate (on_store (so_finalize_actuation c event status detail None None false))) (fun _ => command_ok).
Proof.
  intros w r w' Hw E.
  pose proof (keeps_state _ _ _ _ _ (on_gate_prompts _ (fun k => finalize_spent k c event status detail None None false))
    (proj2 (po_ok _ _ _ Hw)) E) as Hp.
  split; [|done]. unfold on_gate, lift in E. destruct (on_store _ (cw_gate w)) as [r1 g'] eqn:Eg. injection E as _ <-.
  destruct Hw as [[Hg _] Hk Hi Hs Hf].
  set (m := (fold_right Z.max 0 (en_claim <$> w_energised (cw_gate w)) + cooldown + 1)%Z).
  refine (finalize_fresh mono_clock cooldown boot_id c key m event status detail None None false (cw_gate w) r1 g' _ Eg).
  split; try done. apply list.Forall_forall. intros e He _. subst m.
  assert (en_claim e <= fold_right Z.max 0 (en_claim <$> w_energised (cw_gate w)))%Z; [|lia].
  clear - He. induction He as [e es|e e' es He IH]; cbn; lia.
Qed.

Lemma clock_open_prompt c key : keeps (prompt_open c key) (on_gate (_clock wall_clock)).
Proof. intros w [H1 H2 H3 H4 H5]. split; try done. exact (clock_ok w H1). Qed.

Lemma expiry_open_prompt c key expires :
  keeps (fun w => prompt_open c key w /\ key ∉ cw_played w)
    (on_gate (_expiry_inhibition wall_clock lifetime expires None)).
Proof.
  intros w [[H1 H2 H3 H4 H5] H6]. unfold on_gate, lift.
  destruct (expiry_only_reads wall_clock lifetime expires None (cw_gate w)) as (r & n & ->).
  assert (Hok : command_ok (put_gate (put_wall n (cw_gate w)) w)).
  { destruct H1 as [[Hc Hr] Hp]. split; [|done]. by split; [apply core_wall|eapply remembered_same]. }
  by destruct r.
Qed.

Lemma run_player_open c key prompt_key :
  post (fun w => prompt_open c key w /\ key ∉ cw_played w) (run_player player key prompt_key)
    (fun _ w => prompt_open c key w).
Proof.
  intros w r w' [Hw Hn]. unfold run_player. destruct player as [play_|]; [|by intros [= _ <-]].
  destruct (play_ prompt_key) as [res started]. destruct started; [|by intros [= _ <-]].
  intros [= _ <-]. destruct Hw as [[Hg [Hnd Hall]] Hk Hi Hs Hf]. split; try done. split; [done|].
  split; cbn.
  - apply NoDup_snoc; done.
  - apply list.Forall_app. split; [done|]. apply Forall_singleton. split; [apply Hg|done].
Qed.

Lemma play_claimed_ok cmd claim :
  post (fun w => prompt_open claim (command_key cmd) w /\ command_key cmd ∉ cw_played w)
    (play_claimed wall_clock player lifetime cmd claim) (fun _ => command_ok).
Proof.
  unfold play_claimed. cbv zeta. set (key := command_key cmd).
  apply (post_bind _ _ _ (fun _ w => prompt_open claim key w /\ key ∉ cw_played w)).
  { eapply post_keeps; [apply (expiry_open_prompt claim key)|done|]. intros [?|?] w Hw; [exact Hw|apply Hw]. }
  intros inhibition. apply (post_bind _ _ _ (fun _ w => prompt_open claim key w)).
  { destruct inhibition as [[status detail]|]; [by apply post_ret; intros w []|].
    apply (post_bind _ _ _ (fun _ w => prompt_open claim key w)).
    - eapply post_conseq; [apply (run_player_open claim key)|done|]. intros [?|?] w Hw; [exact Hw|apply Hw].
    - intros played. by apply post_ret. }
  intros [status detail].
  do 2 (apply (post_bind _ _ _ (fun _ w => prompt_open claim key w));
    [eapply post_keeps; [apply (clock_open_prompt claim key)|done|]; intros [?|?] w Hw; [exact Hw|apply Hw]|intros ?]).
  apply post_try with (R := command_ok); [|intros e; by apply post_ret].
  apply (post_bind _ _ _ (fun _ => command_ok)); [|intros ?; by apply post_ret].
  eapply post_conseq; [apply (prompt_finalized claim key)|done|]. intros [?|e] w Hw; [done|]. by destruct (is_Exception e).
Qed.

Lemma play_prompt_ok cmd : post command_ok (_play_prompt wall_clock player lifetime cmd) (fun _ => command_ok).
Proof.
  unfold _play_prompt. cbv zeta. apply (post_bind _ _ _ (fun _ => command_ok)).
  { eapply post_keeps; [apply harmless_ok, harmless_terminal|done|]. by intros [?|?] w Hw. }
  intros [t|]; [by apply post_ret|].
  apply (post_bind _ _ _ (fun claimed w => command_ok w /\ forall c, claimed = Some c -> ac_status c = "claimed" ->
    prompt_open c (command_key cmd) w /\ command_key cmd ∉ cw_played w)).
  { apply (post_try _ _ _ _ command_ok); [|intros e; by apply post_ret].
    eapply post_conseq; [apply prompt_claimed|done|].
    intros [o|e] w [Hw Hc]; [split; [done|]; intros c ->; by apply Hc|]. by destruct (is_Exception e). }
  intros [c|]; [|by apply post_ret; intros w []].
  destruct (String.eqb_spec (ac_status c) "claimed") as [Hc|Hc]; cbn [negb]; [|by apply post_ret; intros w []].
  eapply post_conseq; [apply play_claimed_ok| |done]. intros w [_ H]. by apply H.
Qed.

(** What a command leaves behind; only a call that ends the process may leave
    the process memory behind the pin. *)
Definition executed (r : result response) (w : command_world St) : Prop :=
  prompts_ok w /\ call_post mono_clock cooldown boot_id r (cw_gate w).

Lemma execute_ok payload now : post command_ok (run_execute payload now) executed.
Proof.
  assert (Hdone : forall (r : result response) w, command_ok w -> executed r w) by (intros r w [? ?]; split; [done|by left]).
  unfold execute. apply (post_bind _ _ _ (fun _ => command_ok)).
  { intros w r w' Hw. unfold of_result. intros [= <- <-].
    destruct (_parse fromisoformat payload); [done|by apply Hdone]. }
  intros [c|]; [|apply post_ret; auto]. destruct (negb _); [apply post_ret; auto|].
  destruct (cmd_command c).
  - unfold open_gate. apply (post_bind _ _ _ (fun _ => command_ok)).
    { destruct now as [t|]; [by apply post_ret|]. eapply post_keeps; [apply clock_ok|done|].
      intros [?|?] w Hw; [done|by apply Hdone]. }
    intros received_at.
    assert (Hpre : reads_option (Some (_expiry_inhibition (St := St) wall_clock lifetime (cmd_expires_at c) now)))
      by (intros f [= <-]; apply expiry_only_reads).
    intros w r w' [Hg Hp] E. unfold bind in E.
    destruct (on_gate _ w) as [r1 w1] eqn:E1.
    assert (H1 : prompts_ok w1).
    { eapply keeps_state; [|exact Hp|exact E1]. apply on_gate_prompts. intros k. by apply actuate_spent. }
    unfold on_gate, lift in E1. destruct (actuate _ _ _ _ _ _ _ _ _ _ _ (cw_gate w)) as [r2 g] eqn:Ea.
    injection E1 as <- <-.
    pose proof (actuate_post wall_clock mono_clock cooldown boot_id max_off_attempts Hmono _ None None _ false false
      Hpre _ _ _ Hg Ea) as Hcall.
    destruct r2 as [ex|e]; injection E as <- <-; (split; [done|]); cbn.
    + destruct Hcall as [Hcall|[_ ?]]; [by left|done].
    + destruct Hcall as [Hcall|[Hcall [= ->]]]; [by left|by right].
  - eapply post_conseq; [apply play_prompt_ok|done|auto].
Qed.

Lemma restarted_prompts w g' : prompts_ok w -> restarted (cw_gate w) g' -> prompts_ok (put_gate g' w).
Proof.
  intros [Hnd Hall] Hre. split; [done|]. eapply Forall_impl; [|exact Hall]. intros k Hk.
  eapply (restarted_spent k); [exact Hk|exact Hre].
Qed.

Lemma command_step_ok w l w' : command_ok w -> command_step w l w' -> command_ok w'.
Proof.
  intros Hw Hstep. destruct Hstep as [w payload now r w' E Hr|w payload now r w1 g' E Hre|w l g' Hg].
  - destruct (execute_ok _ _ _ _ _ Hw E) as [Hp [Hg|[_ ->]]]; [by split|done].
  - destruct (execute_ok _ _ _ _ _ Hw E) as [Hp Hg]. split; [|by apply restarted_prompts].
    eapply restarted_ok; [|exact Hre]. by destruct Hg as [[Hg _]|[Hg _]].
  - destruct Hw as [Hok [Hnd Hall]]. split; [by eapply gate_step_ok|]. split; [done|].
    eapply Forall_impl; [|exact Hall]. intros k Hk.
    eapply (gate_step_spent _ _ _ _ _ k); [exact Hg|exact Hk].
Qed.
End CommandHistories.

(** C5: commands act at most once.  In every history of commands, retries,
    replays, other activations, store failures, crashes and restarts, no
    command key starts the prompt player twice, none drives the pin twice, and
    none does both. *)
Theorem commands_act_once {St} {ops : StoreOps St} {laws : StoreLaws St} {pops : PromptOps St}
    {plaws : PromptLaws St} wall_clock mono_clock cooldown boot_id max_off_attempts controller_id player
    lifetime fromisoformat (w w' : command_world St) (ls : list command_label)
    (Hmono : forall i j, (i <= j)%nat -> (mono_clock i <= mono_clock j)%Z)
    (Hfresh : fresh_gate (cw_gate w)) (Hnone : cw_played w = [])
    (Hrun : steps (command_step wall_clock mono_clock cooldown boot_id max_off_attempts controller_id
              player lifetime fromisoformat) w ls w') :
  NoDup (cw_played w' ++ (en_key <$> w_energised (cw_gate w'))).
Proof.
  assert (Hok : command_ok mono_clock cooldown boot_id w').
  { eapply (steps_invariant _ (command_ok mono_clock cooldown boot_id)); [|exact Hrun|].
    - intros a l b. by apply command_step_ok.
    - split; [by apply fresh_gate_ok|]. split; rewrite Hnone; constructor. }
  destruct Hok as [[Hcore _] [Hnd Hall]]. apply list.NoDup_app. split; [done|]. split; [|apply Hcore].
  intros k Hk. rewrite list.Forall_forall in Hall. apply (Hall k Hk).
Qed.

(** ** A concrete controller *)

Definition sample_ticks (n : nat) : datetime := Aware (seconds 1 * Z.of_nat n).
Definition sample_player : option string -> result bool * bool :=
  play [("welcome", "/prompts/welcome.wav")] (fun _ => Ok true).
Abbreviation sample_execute payload :=
  (execute (St := sqlite_store) sample_ticks sample_mono (seconds 20) (Some "boot") 3 "gate-1"
    (Some sample_player) MAX_COMMAND_LIFETIME (fun _ => None) payload None).
Definition sample_command (kind key : string) (expires_at : Z) : json :=
  JDict [("controller_id", JStr "gate-1"); ("command", JStr kind); ("idempotency_key", JStr key);
         ("expires_at", JTime (seconds expires_at)); ("prompt_key", JStr "welcome")].
Definition sample_commands : list json :=
  [sample_command "open_gate" "a" 8; sample_command "open_gate" "a" 8;
   sample_command "play_prompt" "p" 12; sample_command "play_prompt" "p" 12;
   sample_command "open_gate" "p" 16].
Definition sample_start : command_world sqlite_store := {| cw_gate := sample_world []; cw_played := [] |}.
Definition sample_after (payloads : list json) : command_world sqlite_store :=
  fold_left (fun w p => snd (sample_execute p w)) payloads sample_start.

Lemma sample_command_step payload w :
  alive (fst (sample_execute payload w)) = true ->
  command_step sample_ticks sample_mono (seconds 20) (Some "boot") 3 "gate-1" (Some sample_player)
    MAX_COMMAND_LIFETIME (fun _ => None) w (LCommand payload) (snd (sample_execute payload w)).
Proof.
  intros Hr. destruct (sample_execute payload w) as [r w'] eqn:E.
  apply (cs_execute sample_ticks sample_mono (seconds 20) (Some "boot") 3 "gate-1" (Some sample_player)
    MAX_COMMAND_LIFETIME (fun _ => None) w payload None r w' E). by intros ->.
Qed.

Lemma sample_commands_run :
  steps (command_step sample_ticks sample_mono (seconds 20) (Some "boot") 3 "gate-1" (Some sample_player)
    MAX_COMMAND_LIFETIME (fun _ => None)) sample_start (LCommand <$> sample_commands) (sample_after sample_commands).
Proof.
  unfold sample_after, sample_commands. cbn [fold_left fmap list_fmap].
  repeat (eapply steps_cons; [apply sample_command_step; vm_compute; reflexivity|]). apply steps_nil.
Qed.

Lemma commands_act_once_witness :
  cw_played (sample_after sample_commands) = ["command:p"] /\
  (en_key <$> w_energised (cw_gate (sample_after sample_commands))) = ["command:a"] /\
  NoDup (cw_played (sample_after sample_commands) ++
         (en_key <$> w_energised (cw_gate (sample_after sample_commands)))).
Proof.
  split; [vm_compute; reflexivity|]. split; [vm_compute; reflexivity|].
  apply (commands_act_once sample_ticks sample_mono (seconds 20) (Some "boot") 3 "gate-1" (Some sample_player)
    MAX_COMMAND_LIFETIME (fun _ => None) sample_start (sample_after sample_commands) (LCommand <$> sample_commands)).
  - apply sample_mono_le.
  - apply sample_fresh.
  - reflexivity.
  - apply sample_commands_run.
Defined.

Definition sample_open : json := sample_command "open_gate" "a" 8.

Lemma open_only_while_valid_witness :
  length (w_energised (cw_gate (snd (sample_execute sample_open sample_start)))) = 1%nat /\
  exists r w', sample_execute sample_open sample_start = (r, w') /\
    (w_energised (cw_gate w') = w_energised (cw_gate sample_start) \/
     exists c, _parse (fun _ => None) sample_open = Ok (Some c) /\
       was_valid sample_ticks MAX_COMMAND_LIFETIME (cmd_expires_at c) (w_wall (cw_gate sample_start))
         (w_wall (cw_gate w'))).
Proof.
  split; [vm_compute; reflexivity|].
  destruct (sample_execute sample_open sample_start) as [r w'] eqn:E. exists r, w'. split; [reflexivity|].
  destruct (open_only_while_valid sample_ticks sample_mono (seconds 20) (Some "boot") 3 "gate-1" (Some sample_player)
    MAX_COMMAND_LIFETIME (fun _ => None) sample_open sample_start w' r E) as [H|(c & H1 & _ & _ & H2)].
  - left. exact H.
  - right. exists c. split; [exact H1|exact H2].
Defined.

(** what the HTTP handler lets through.  A request that is not a bounded
    POST of JSON to /commands is refused and changes nothing; otherwise the
    executor runs once and its answer (or 500) is the response; the handler
    itself raises nothing but what ends the process. *)
Theorem http_requests {St} {ops : StoreOps St} {pops : PromptOps St} wall_clock mono_clock cooldown
    boot_id max_off_attempts controller_id player lifetime fromisoformat
    (rq : http_request) (w : command_world St) :
  match do_POST wall_clock mono_clock cooldown boot_id max_off_attempts controller_id player lifetime
          fromisoformat rq w with
  | (res, w') =>
      (exists code, code ∈ [400; 404; 413]%Z /\ w' = w /\
         exists detail, res = Ok (code, respond "failed" (Some detail))) \/
      (exists len payload r, rq_path rq = "/commands" /\ (0 <= len <= MAX_REQUEST_BYTES)%Z /\
         loads (rq_body rq len) = Ok payload /\
         execute wall_clock mono_clock cooldown boot_id max_off_attempts controller_id player lifetime
           fromisoformat payload None w = (r, w') /\
         res = match r with
               | Ok resp => Ok (200%Z, resp)
               | Err e => if is_Exception e then Ok (500%Z, respond "failed" (Some "command_execution_error"))
                          else Err e
               end)
  end.
Proof.
  unfold do_POST. destruct (String.eqb_spec (rq_path rq) "/commands") as [Hp|]; cbn [negb].
  2: { left. exists 404%Z. split; [set_solver|]. eauto. }
  destruct (rq_content_length rq ≫= int_of_text) as [len|]; [|left; exists 400%Z; split; [set_solver|]; eauto].
  destruct (_ || _) eqn:El; [left; exists 413%Z; split; [set_solver|]; eauto|].
  apply orb_false_iff in El as [E1 E2]. bool_props.
  destruct (loads (rq_body rq len)) as [payload|] eqn:Eb; [|left; exists 400%Z; split; [set_solver|]; eauto].
  assert (Hcase : forall r w1, execute wall_clock mono_clock cooldown boot_id max_off_attempts controller_id
      player lifetime fromisoformat payload None w = (r, w1) ->
    try_except (let! r := execute wall_clock mono_clock cooldown boot_id max_off_attempts controller_id
      player lifetime fromisoformat payload None in ret (200%Z, r))
      (fun _ => ret (500%Z, respond "failed" (Some "command_execution_error"))) w =
    (match r with
     | Ok resp => Ok (200%Z, resp)
     | Err e => if is_Exception e then Ok (500%Z, respond "failed" (Some "command_execution_error")) else Err e
     end, w1)).
  { intros r w1 Ex. unfold try_except. destruct r as [resp|e].
    - by rewrite (bind_ok _ _ _ _ _ Ex).
    - rewrite (bind_err _ _ _ _ _ Ex). by destruct (is_Exception e). }
  destruct (execute _ _ _ _ _ _ _ _ _ payload None w) as [r w1] eqn:Ex.
  rewrite (Hcase r w1) by done. right. exists len, payload, r.
  split; [done|]. split; [lia|]. by split.
Qed.
