(* ===== verification/Csv.v ===== *)
(** * CSV text as [csv.reader] and [csv.writer] treat it (excel dialect)

    The reader is the state machine of the standard library's parser with the
    dialect's defaults (comma, double quote, doubled quotes, not strict), fed
    with the lines a file opened with [newline=""] yields. *)

From S2P Require Import Prelude.

Definition LF : Z := 10.
Definition CR : Z := 13.
Definition COMMA : Z := 44.
Definition QUOTE : Z := 34.

(** [csv.field_size_limit()] *)
Definition field_limit : nat := Z.to_nat 131072.

(** Lines with their terminators (LF, CR or CR LF). *)
Fixpoint split_lines (line : pystr) (text : pystr) : list pystr :=
  match text with
  | [] => match line with [] => [] | _ => [line] end
  | c :: text' =>
      if (c =? LF)%Z then (line ++ [c]) :: split_lines [] text'
      else if (c =? CR)%Z then
        match text' with
        | d :: text'' => if (d =? LF)%Z then (line ++ [c; d]) :: split_lines [] text''
                         else (line ++ [c]) :: split_lines [] text'
        | [] => [line ++ [c]]
        end
      else split_lines (line ++ [c]) text'
  end.

Inductive csv_state :=
| StartRecord
| StartField
| InField
| InQuotedField
| QuoteInQuotedField
| EatCrnl.

#[global] Instance csv_state_eq_dec : EqDecision csv_state.
Proof. solve_decision. Defined.

Record parser := {
  ps_state : csv_state;
  ps_field : pystr;
  ps_fields : list pystr;
}.

Definition fresh_parser : parser := {| ps_state := StartRecord; ps_field := []; ps_fields := [] |}.

Definition goto (s : csv_state) (p : parser) : parser :=
  {| ps_state := s; ps_field := ps_field p; ps_fields := ps_fields p |}.
Definition save_field (s : csv_state) (p : parser) : parser :=
  {| ps_state := s; ps_field := []; ps_fields := ps_fields p ++ [ps_field p] |}.
Definition add_char (s : csv_state) (c : Z) (p : parser) : result parser :=
  if (field_limit <=? length (ps_field p))%nat then Err CsvError
  else Ok {| ps_state := s; ps_field := ps_field p ++ [c]; ps_fields := ps_fields p |}.

(** A character of the line, or the end of the line. *)
Inductive input := Char (c : Z) | Eol.

Definition is_newline (i : input) : bool :=
  match i with Char c => (c =? LF)%Z || (c =? CR)%Z | Eol => false end.
Definition ends_line (i : input) : bool := match i with Eol => true | _ => is_newline i end.
Definition after_field (i : input) : csv_state := match i with Eol => StartRecord | _ => EatCrnl end.

Definition start_field (i : input) (p : parser) : result parser :=
  match i with
  | Eol => Ok (save_field StartRecord p)
  | Char c =>
      if is_newline i then Ok (save_field EatCrnl p)
      else if (c =? QUOTE)%Z then Ok (goto InQuotedField p)
      else if (c =? COMMA)%Z then Ok (save_field StartField p)
      else add_char InField c p
  end.

Definition process_char (i : input) (p : parser) : result parser :=
  match ps_state p with
  | StartRecord =>
      match i with
      | Eol => Ok p
      | Char _ => if is_newline i then Ok (goto EatCrnl p) else start_field i p
      end
  | StartField => start_field i p
  | InField =>
      match i with
      | Eol => Ok (save_field StartRecord p)
      | Char c =>
          if is_newline i then Ok (save_field EatCrnl p)
          else if (c =? COMMA)%Z then Ok (save_field StartField p)
          else add_char InField c p
      end
  | InQuotedField =>
      match i with
      | Eol => Ok p
      | Char c => if (c =? QUOTE)%Z then Ok (goto QuoteInQuotedField p)
                  else add_char InQuotedField c p
      end
  | QuoteInQuotedField =>
      match i with
      | Eol => Ok (save_field StartRecord p)
      | Char c =>
          if (c =? QUOTE)%Z then add_char InQuotedField c p
          else if (c =? COMMA)%Z then Ok (save_field StartField p)
          else if is_newline i then Ok (save_field EatCrnl p)
          else add_char InField c p
      end
  | EatCrnl =>
      match i with
      | Eol => Ok (goto StartRecord p)
      | Char _ => if is_newline i then Ok p else Err CsvError
      end
  end.

Fixpoint process_line (line : pystr) (p : parser) : result parser :=
  match line with
  | [] => process_char Eol p
  | c :: line' => match process_char (Char c) p with
                  | Ok p' => process_line line' p'
                  | Err e => Err e
                  end
  end.

(** [list(csv.reader(source))]; a record is complete when the parser is back
    in its start state after a line. *)
Fixpoint read_records (lines : list pystr) (p : parser) : result (list (list pystr)) :=
  match lines with
  | [] =>
      if negb (bool_decide (ps_field p = [])) || bool_decide (ps_state p = InQuotedField)
      then Ok [ps_fields p ++ [ps_field p]] else Ok []
  | line :: lines' =>
      match process_line line p with
      | Err e => Err e
      | Ok p' =>
          if bool_decide (ps_state p' = StartRecord)
          then match read_records lines' fresh_parser with
               | Ok records => Ok (ps_fields p' :: records)
               | Err e => Err e
               end
          else read_records lines' p'
      end
  end.

Definition csv_reader (text : pystr) : result (list (list pystr)) :=
  read_records (split_lines [] text) fresh_parser.

(** [csv.writer(target).writerow(row)] with minimal quoting. *)
Definition needs_quotes (only : bool) (field : pystr) : bool :=
  match field with
  | [] => only
  | _ => existsb (fun c => (c =? COMMA) || (c =? QUOTE) || (c =? CR) || (c =? LF))%Z field
  end.
Definition write_field (only : bool) (field : pystr) : pystr :=
  if needs_quotes only field
  then [QUOTE] ++ (field ≫= fun c => if (c =? QUOTE)%Z then [QUOTE; QUOTE] else [c]) ++ [QUOTE]
  else field.
Fixpoint join_fields (fields : list pystr) : pystr :=
  match fields with
  | [] => []
  | [f] => f
  | f :: fields' => f ++ [COMMA] ++ join_fields fields'
  end.
Definition write_row (row : list pystr) : pystr :=
  join_fields (write_field (length row =? 1)%nat <$> row) ++ [CR; LF].
Definition csv_text (rows : list (list pystr)) : pystr := rows ≫= write_row.

(** ** Single-field rows round trip *)

Lemma field_within n : (n <=? 100)%nat = true -> (n <= field_limit)%nat.
Proof. intros H%Nat.leb_le. unfold field_limit. lia. Qed.

(** No separator, quote or line end: written and read back verbatim. *)
Definition plain (field : pystr) : Prop :=
  field <> [] /\ (length field <= field_limit)%nat /\
  Forall (fun c => c <> COMMA /\ c <> QUOTE /\ c <> CR /\ c <> LF) field.

Lemma write_plain field : plain field -> write_row [field] = field ++ [CR; LF].
Proof.
  intros (Hne & _ & Hall). unfold write_row. cbn. unfold write_field.
  assert (needs_quotes true field = false) as ->; [|done].
  destruct field; [done|]. cbn [needs_quotes]. apply not_true_iff_false. rewrite existsb_exists.
  intros (c & Hin%list_elem_of_In & Hc). rewrite list.Forall_forall in Hall. specialize (Hall c Hin).
  rewrite !orb_true_iff, !Z.eqb_eq in Hc. tauto.
Qed.

Lemma split_plain line field rest :
  Forall (fun c => c <> COMMA /\ c <> QUOTE /\ c <> CR /\ c <> LF) field ->
  split_lines line (field ++ [CR; LF] ++ rest) = (line ++ field ++ [CR; LF]) :: split_lines [] rest.
Proof.
  intros Hall. revert line. induction Hall as [|c field (_ & _ & Hcr & Hlf) Hall IH]; intros line; [done|].
  cbn [app split_lines]. rewrite (proj2 (Z.eqb_neq c LF) Hlf), (proj2 (Z.eqb_neq c CR) Hcr).
  rewrite IH. by rewrite <- app_assoc.
Qed.

Lemma process_plain field p :
  Forall (fun c => c <> COMMA /\ c <> QUOTE /\ c <> CR /\ c <> LF) field ->
  ps_state p = InField -> (length (ps_field p) + length field <= field_limit)%nat ->
  process_line (field ++ [CR; LF]) p =
    Ok {| ps_state := StartRecord; ps_field := []; ps_fields := ps_fields p ++ [ps_field p ++ field] |}.
Proof.
  intros Hall. revert p. induction Hall as [|c field (Hc & _ & Hcr & Hlf) Hall IH]; intros p Hp Hlen.
  { cbn. unfold process_char. rewrite Hp. cbn. by rewrite app_nil_r. }
  cbn [app process_line]. unfold process_char at 1. rewrite Hp. cbn [is_newline].
  rewrite (proj2 (Z.eqb_neq c LF) Hlf), (proj2 (Z.eqb_neq c CR) Hcr). cbn [orb].
  rewrite (proj2 (Z.eqb_neq c COMMA) Hc). unfold add_char. cbn in Hlen.
  rewrite (proj2 (Nat.leb_gt field_limit _)) by lia. rewrite IH; cbn; [|done|rewrite length_app; cbn; lia].
  by rewrite <- app_assoc.
Qed.

Lemma process_plain_record field :
  plain field -> process_line (field ++ [CR; LF]) fresh_parser =
    Ok {| ps_state := StartRecord; ps_field := []; ps_fields := [field] |}.
Proof.
  intros (Hne & Hlen & Hall). destruct field as [|c field]; [done|].
  apply list.Forall_cons in Hall as [(Hc & Hq & Hcr & Hlf) Hall].
  cbn [app process_line]. unfold process_char at 1. cbn [fresh_parser ps_state]. unfold start_field. cbn [is_newline].
  rewrite (proj2 (Z.eqb_neq c LF) Hlf), (proj2 (Z.eqb_neq c CR) Hcr). cbn [orb].
  rewrite (proj2 (Z.eqb_neq c QUOTE) Hq), (proj2 (Z.eqb_neq c COMMA) Hc). unfold add_char.
  cbn in Hlen. rewrite (proj2 (Nat.leb_gt field_limit _)) by (cbn; lia).
  rewrite process_plain; cbn; try done; lia.
Qed.

(** Reading what was written gives the rows back. *)
Lemma csv_roundtrip fields :
  Forall plain fields -> csv_reader (csv_text ((fun f => [f]) <$> fields)) = Ok ((fun f => [f]) <$> fields).
Proof.
  unfold csv_reader, csv_text. induction 1 as [|f fields Hf Hall IH]; [done|].
  cbn [fmap list_fmap mbind list_bind]. rewrite write_plain by done. rewrite <- app_assoc.
  rewrite split_plain by apply Hf. cbn [app read_records]. rewrite process_plain_record by done.
  rewrite bool_decide_eq_true_2 by done. cbn [mbind] in IH. by rewrite IH.
Qed.
