(* ===== verification/Processor.v ===== *)
(** * Processing a burst of images: gate_controller/processor.py

    [GateProcessor.process] from the frames of one burst to the decision, the
    actuation and its record, [record_skipped] and the bounded OCR calls.  The
    recogniser, the image measurements and the content hash are arguments or
    plans; so is what other threads do meanwhile (closing the processor, late
    OCR workers).  Readings of the clocks and of the plate cache are functions of
    how often they were taken. *)

From S2P Require Import Prelude Models Json Float Matching Store Telemetry Relay Actuation.

Definition MAX_OCR_FRAMES : nat := 3.
Definition FINAL_INHIBITION_REASONS : list string :=
  ["stale_burst"; "authorisation_error"; "authorisation_revoked"; "decision_timeout"; "processor_closed"].

(** models.py: ProcessingResult *)
Record ProcessingResult := {
  prs_opened : bool;
  prs_reason : string;
  prs_event_id : option Z;
  prs_decision : option MatchDecision;
  prs_telemetry : option EventTelemetry;
}.

Definition outcome (opened : bool) (reason : string) (event_id : option Z)
    (decision : option MatchDecision) : ProcessingResult :=
  {| prs_opened := opened; prs_reason := reason; prs_event_id := event_id; prs_decision := decision;
     prs_telemetry := None |}.

(** ** What the processor asks of the store *)

Class ProcessorOps (St : Type) := {
  so_event_exists : string -> M St bool;
  so_event_id : string -> M St (option Z);
  so_claim_status : string -> M St (option string);
  so_record_event : GateEvent -> option (dict json) -> M St Z;
  so_release : Z -> M St unit;
  so_attach : Z -> EventTelemetry -> M St bool;
}.

(** One attempt to run the recogniser, and what the other threads do meanwhile. *)
Record ocr_run := {
  (** The processor has been closed when the slot is taken. *)
  or_closed_before : bool;
  (** A worker that still held the slot has finished by now. *)
  or_slot_freed : bool;
  (** The processor is closed before the thread starts. *)
  or_closed_mid : bool;
  (** The thread cannot be started. *)
  or_start_error : option exc;
  or_result : result PlateObservation;
  (** The result arrives within the time that is left. *)
  or_in_time : bool;
  (** After the deadline the worker is abandoned; it ends soon all the same. *)
  or_reaped : bool;
}.

(** Nobody closes the processor; the call hangs. *)
Definition hanging_run : ocr_run :=
  {| or_closed_before := false; or_slot_freed := true; or_closed_mid := false; or_start_error := None;
     or_result := Err TimeoutError; or_in_time := false; or_reaped := false |}.

Record processor (St : Type) := {
  pr_gate : world St;
  (** [_BestEffortTrace._trace] of the call in progress. *)
  pr_trace : option ProcessingTrace;
  pr_decision_reads : nat;
  pr_telemetry_reads : nat;
  pr_telemetry_wall_reads : nat;
  pr_authorised_reads : nat;
  pr_closed : bool;
  (** The OCR slot is held by a worker. *)
  pr_slot_held : bool;
  (** The recogniser calls to come. *)
  pr_ocr : list ocr_run;
  (** The [ocr_started] variable of the loop. *)
  pr_ocr_started : bool;
}.
Arguments pr_gate {St} _.
Arguments pr_trace {St} _.
Arguments pr_decision_reads {St} _.
Arguments pr_telemetry_reads {St} _.
Arguments pr_telemetry_wall_reads {St} _.
Arguments pr_authorised_reads {St} _.
Arguments pr_closed {St} _.
Arguments pr_slot_held {St} _.
Arguments pr_ocr {St} _.
Arguments pr_ocr_started {St} _.

Section Updates.
Context {St : Type}.
Implicit Types p : processor St.

Definition set_gate (g : world St) p : processor St :=
  {| pr_gate := g; pr_trace := pr_trace p; pr_decision_reads := pr_decision_reads p;
     pr_telemetry_reads := pr_telemetry_reads p; pr_telemetry_wall_reads := pr_telemetry_wall_reads p;
     pr_authorised_reads := pr_authorised_reads p; pr_closed := pr_closed p;
     pr_slot_held := pr_slot_held p; pr_ocr := pr_ocr p;
     pr_ocr_started := pr_ocr_started p |}.
Definition set_trace (t : option ProcessingTrace) p : processor St :=
  {| pr_gate := pr_gate p; pr_trace := t; pr_decision_reads := pr_decision_reads p;
     pr_telemetry_reads := pr_telemetry_reads p; pr_telemetry_wall_reads := pr_telemetry_wall_reads p;
     pr_authorised_reads := pr_authorised_reads p; pr_closed := pr_closed p;
     pr_slot_held := pr_slot_held p; pr_ocr := pr_ocr p;
     pr_ocr_started := pr_ocr_started p |}.
Definition set_reads (decision telemetry telemetry_wall auth : nat) p : processor St :=
  {| pr_gate := pr_gate p; pr_trace := pr_trace p; pr_decision_reads := decision;
     pr_telemetry_reads := telemetry; pr_telemetry_wall_reads := telemetry_wall;
     pr_authorised_reads := auth; pr_closed := pr_closed p; pr_slot_held := pr_slot_held p;
     pr_ocr := pr_ocr p;
     pr_ocr_started := pr_ocr_started p |}.
Definition set_ocr (closed held : bool) (runs : list ocr_run) p : processor St :=
  {| pr_gate := pr_gate p; pr_trace := pr_trace p; pr_decision_reads := pr_decision_reads p;
     pr_telemetry_reads := pr_telemetry_reads p; pr_telemetry_wall_reads := pr_telemetry_wall_reads p;
     pr_authorised_reads := pr_authorised_reads p; pr_closed := closed; pr_slot_held := held;
     pr_ocr := runs; pr_ocr_started := pr_ocr_started p |}.
Definition set_started (b : bool) p : processor St :=
  {| pr_gate := pr_gate p; pr_trace := pr_trace p; pr_decision_reads := pr_decision_reads p;
     pr_telemetry_reads := pr_telemetry_reads p; pr_telemetry_wall_reads := pr_telemetry_wall_reads p;
     pr_authorised_reads := pr_authorised_reads p; pr_closed := pr_closed p;
     pr_slot_held := pr_slot_held p; pr_ocr := pr_ocr p; pr_ocr_started := b |}.
End Updates.

(** ** Helpers *)

(** processor.py: _is_fresh *)
Definition _is_fresh (now received_at : datetime) (max_age : Z) : bool :=
  match dt_sub now received_at with
  | Err _ => false
  | Ok age => (0 <=? age)%Z && (age <=? max_age)%Z
  end.

(** processor.py: _denied_event *)
Definition _denied_event (key : string) (received_at decision_at : datetime) (reason : string)
    (decision : option MatchDecision) : GateEvent :=
  {| ge_source := "ocr"; ge_reason := reason; ge_opened := false; ge_idempotency_key := Some key;
     ge_received_at := received_at; ge_decision_at := Some decision_at; ge_relay_activated_at := None;
     ge_authorised_plate := decision ≫= md_authorised_plate;
     ge_observed_plate := decision ≫= md_observed_plate;
     ge_ocr_confidence := from_option md_confidence float_0 decision |}.

(** processor.py: _actuation_telemetry *)
Definition _actuation_telemetry (execution : ActuationExecution) : string * bool * string :=
  let reason := ae_reason execution in
  if ae_opened execution then ("claimed", true, "activated")
  else if String.eqb reason "cooldown" then ("cooldown", false, "not_attempted")
  else if String.eqb reason "actuation_inhibit_error" then ("claim_error", false, "not_attempted")
  else if String.eqb reason "relay_latched" then ("claimed", false, "relay_latched")
  else if bool_decide (reason ∈ FINAL_INHIBITION_REASONS) then ("claimed", false, "inhibited")
  else if String.eqb reason "indeterminate_claim" then ("claimed", true, "indeterminate")
  else ("claimed", true, reason).

(** processor.py: _unique_content_candidates *)
Fixpoint unique_from (digest_of : string -> string) (seen_digests : list string) (paths : list string)
  : list (string * string) :=
  match paths with
  | [] => []
  | path :: paths' =>
      let digest := digest_of path in
      if bool_decide (digest ∈ seen_digests) then unique_from digest_of seen_digests paths'
      else (path, digest) :: unique_from digest_of (digest :: seen_digests) paths'
  end.
Definition _unique_content_candidates (digest_of : string -> string) (paths : list string)
  : list (string * string) := unique_from digest_of [] paths.

(** processor.py: _event_key_from_digests; [empty_burst] is the hash of that
    text. *)
Definition _event_key_from_digests (empty_burst : string) (digests : list string) : string :=
  match digests with digest :: _ => digest | [] => empty_burst end.

(** processor.py: _event_key *)
Definition _event_key (digest_of : string -> string) (empty_burst : string) (paths : list string) : string :=
  _event_key_from_digests empty_burst (digest_of <$> take 1 paths).

(** [value or other] of an optional string. *)
Definition or_text (value : option string) (other : string) : string :=
  match value with Some (String a s) => String a s | _ => other end.

(** What callers pass as the trigger. *)
Inductive trigger_input :=
| TriggerNone
| TriggerGiven (t : TriggerTelemetry)
| TriggerDict (d : dict json)
| TriggerOther.

Definition text_or (fallback : string) (j : option json) : string :=
  match j with Some (JStr s) => s | Some _ => EmptyString | None => fallback end.
Definition pyval_of_json (j : json) : pyval :=
  match j with
  | JInt z => VInt z
  | JFloat f => VFloat f
  | JBool b => VBool b
  | JNull => VNone
  | _ => VOther
  end.

(** processor.py: _trigger_telemetry; a field that is not a str compares unequal
    to every known value, as the empty text does. *)
Definition _trigger_telemetry (value : trigger_input) : option TriggerTelemetry :=
  match value with
  | TriggerNone | TriggerOther => None
  | TriggerGiven t => Some t
  | TriggerDict d =>
      Some {| tt_source := text_or "camera_ftp" (dget "source" d);
              tt_event_type := text_or "unverified" (dget "event_type" d);
              tt_correlation := text_or "unverified" (dget "correlation" d);
              tt_rule_id := match dget "rule_id" d with Some (JStr s) => Some s | _ => None end;
              tt_event_at := None;
              tt_delta_ms := pyval_of_json (dict_get "delta_ms" d) |}
  end.

(** The text of an observed plate in telemetry. *)
Definition text_of (s : pystr) : string :=
  String.string_of_list_ascii ((fun c => Ascii.ascii_of_nat (Z.to_nat c)) <$> s).

(** The (connect, read) timeouts of [_recognise]. *)
Definition ocr_timeouts (remaining : pyfloat) : pyfloat * pyfloat :=
  let third := match remaining with Fin m => fround m 3 | f => f end in
  let tenth := float_lit 3602879701896397 (-55) in
  let connect := pymin float_1 (pymax tenth third) in
  let read := pymin (float_lit 2 0) (pymax tenth (fsub remaining connect)) in
  (connect, read).

(** ** The processor *)

Section Processor.
Context {St : Type} `{!StoreOps St} `{!ProcessorOps St}.
(** Clocks, as functions of how often they were read. *)
Context (wall_clock : nat -> datetime) (mono_clock : nat -> Z).
Context (decision_clock telemetry_clock : nat -> pyfloat) (telemetry_wall_clock : nat -> datetime).
(** The identifier of a new trace. *)
Context (trace_id : nat -> string).
(** The coordinator. *)
Context (cooldown : Z) (boot_id : option string) (max_off_attempts : nat).
(** [_authorised()] while the burst is read, and during the inhibition check,
    where it is indexed by the wall-clock readings taken so far, as are the
    decision clock and [_closed] there. *)
Context (authorised : nat -> result (list pystr)).
Context (check_authorised : nat -> result (list pystr)) (check_decision_clock : nat -> pyfloat)
  (check_closed : nat -> bool).
(** [outbox.prepare_payload]; None when there is no outbox. *)
Context (outbox : option (option string -> dict json)).
(** [_max_image_age], [_decision_timeout], [_activation_guard_seconds]. *)
Context (max_image_age : Z) (decision_timeout activation_guard : pyfloat).
(** The content hash of a file, of the empty burst, and [measure_frame_quality]. *)
Context (digest_of : string -> string) (empty_burst : string).
Context (measure : string -> string -> result FrameTelemetry).

Definition gate_action {A} (m : M (world St) A) : M (processor St) A := lift pr_gate set_gate m.
Definition store_action {A} (m : M St A) : M (processor St) A := gate_action (on_store m).
Definition wall : M (processor St) datetime := gate_action (_clock wall_clock).

Definition read_decision : M (processor St) pyfloat := fun p =>
  (Ok (decision_clock (pr_decision_reads p)),
   set_reads (S (pr_decision_reads p)) (pr_telemetry_reads p) (pr_telemetry_wall_reads p)
     (pr_authorised_reads p) p).
Definition read_telemetry : M (processor St) pyfloat := fun p =>
  (Ok (telemetry_clock (pr_telemetry_reads p)),
   set_reads (pr_decision_reads p) (S (pr_telemetry_reads p)) (pr_telemetry_wall_reads p)
     (pr_authorised_reads p) p).
Definition read_authorised : M (processor St) (list pystr) := fun p =>
  (authorised (pr_authorised_reads p),
   set_reads (pr_decision_reads p) (pr_telemetry_reads p) (pr_telemetry_wall_reads p)
     (S (pr_authorised_reads p)) p).

(** *** _BestEffortTrace *)

(** processor.py: _BestEffortTrace._call: the first failure disables the trace.
    A reading of the telemetry clock is taken for every operation. *)
Definition trace_call (operation : pyfloat -> ProcessingTrace -> result ProcessingTrace)
  : M (processor St) unit :=
  let! trace := gets pr_trace in
  match trace with
  | None => ret tt
  | Some t =>
      let! now := read_telemetry in
      modify (set_trace (match operation now t with Ok t' => Some t' | Err _ => None end))
  end.

Definition disable : M (processor St) unit := modify (set_trace None).
Definition trace_mark_burst := trace_call (fun now t => Ok (mark_burst now t)).
Definition trace_set_trigger trigger := trace_call (fun _ t => Ok (set_trigger trigger t)).
Definition trace_seed received started processing :=
  trace_call (fun _ t => seed_upstream received
    (match started with Some s => VFloat s | None => VNone end) processing t).
Definition trace_add_frame frame := trace_call (fun _ t => Ok (add_frame frame t)).
Definition trace_mark_ocr_start := trace_call (fun now t => Ok (mark_ocr_start now t)).
Definition trace_add_ocr_attempt attempt := trace_call (fun now t => add_ocr_attempt now attempt t).
Definition trace_add_ocr_rejection attempt := trace_call (fun _ t => Ok (add_ocr_rejection attempt t)).
Definition trace_mark_decision outcome reason := trace_call (fun now t => Ok (mark_decision now outcome reason t)).
Definition trace_revise_decision outcome reason :=
  trace_call (fun now t => Ok (revise_decision now outcome reason t)).
Definition trace_mark_relay_activation := trace_call (fun now t => Ok (mark_relay_activation now t)).
Definition trace_mark_relay_finished := trace_call (fun now t => Ok (mark_relay_finished now t)).
Definition trace_set_actuation_outcome claim attempted relay :=
  trace_call (fun _ t => Ok (set_actuation_outcome claim attempted relay t)).

(** processor.py: _BestEffortTrace.finish *)
Definition trace_finish : M (processor St) (option EventTelemetry) :=
  let! trace := gets pr_trace in
  match trace with
  | None => ret None
  | Some t =>
      let! now := read_telemetry in
      match Telemetry.finish now t with
      | (Ok e, t') => modify (set_trace (Some t')) ;! ret (Some e)
      | (Err _, _) => disable ;! ret None
      end
  end.

(** processor.py: _new_trace *)
Definition _new_trace : M (processor St) unit :=
  let! mono := read_telemetry in
  modify (fun p =>
    set_reads (pr_decision_reads p) (pr_telemetry_reads p) (S (pr_telemetry_wall_reads p))
      (pr_authorised_reads p)
      (set_trace (Some (new_trace (telemetry_wall_clock (pr_telemetry_wall_reads p)) mono
                          (trace_id (pr_telemetry_wall_reads p)))) p)).

(** The upstream marks of a new trace. *)
Definition seed_trace (received_at : option datetime) (decision_started_at : option pyfloat)
    (processing_started_at : option datetime) : M (processor St) unit :=
  if bool_decide (is_Some received_at) || bool_decide (is_Some decision_started_at)
     || bool_decide (is_Some processing_started_at)
  then trace_seed received_at decision_started_at processing_started_at else ret tt.
Definition burst_mark (decision_started_at : option pyfloat) : M (processor St) unit :=
  match decision_started_at with None => trace_mark_burst | Some _ => ret tt end.

(** *** Recording *)

(** processor.py: _outbox_payload *)
Definition _outbox_payload (paths : list string) (await_telemetry : bool) : option (dict json) :=
  (fun prepare_payload =>
     let payload := prepare_payload (list.head paths) in
     if await_telemetry then dset "_awaiting_telemetry" (JBool true) payload else payload) <$> outbox.

(** processor.py: _record *)
Definition _record (event : GateEvent) (paths : list string) : M (processor St) Z :=
  store_action (so_record_event event (_outbox_payload paths true)).

(** processor.py: _release_outbox_without_telemetry *)
Definition _release_outbox_without_telemetry (event_id : option Z) : M (processor St) unit :=
  match outbox, event_id with
  | Some _, Some id => try_except (store_action (so_release id)) (fun _ => ret tt)
  | _, _ => ret tt
  end.

(** processor.py: _finish_result *)
Definition _finish_result (result : ProcessingResult) : M (processor St) ProcessingResult :=
  let! telemetry := trace_finish in
  match telemetry with
  | None => _release_outbox_without_telemetry (prs_event_id result) ;! ret result
  | Some e =>
      match prs_event_id result with
      | None => ret tt
      | Some id =>
          try_except (store_action (so_attach id e) ;! ret tt)
            (fun _ => _release_outbox_without_telemetry (Some id))
      end ;!
      ret {| prs_opened := prs_opened result; prs_reason := prs_reason result;
             prs_event_id := prs_event_id result; prs_decision := prs_decision result;
             prs_telemetry := Some e |}
  end.

(** [self._store.actuation_claim_status(key) or "duplicate_event"] *)
Definition duplicate_reason (key : string) : M (processor St) string :=
  let! status := store_action (so_claim_status key) in ret (or_text status "duplicate_event").

(** The branch of [record_skipped] for a known key. *)
Definition skipped_duplicate (key : string) (paths : list string) : M (processor St) ProcessingResult :=
  let! event_id := store_action (so_event_id key) in
  match event_id, _outbox_payload paths false with
  | Some id, Some payload => store_action (so_ensure_outbox id payload) ;! ret tt
  | _, _ => ret tt
  end ;!
  let! reason := duplicate_reason key in
  ret (outcome false reason event_id None).

(** processor.py: record_skipped; [reuse] says whether the caller passed a
    trace. *)
Definition record_skipped (paths : list string) (reason : string) (received_at : option datetime)
    (reuse : bool) (idempotency_key : option string) (decision_started_at : option pyfloat)
    (processing_started_at : option datetime) (trigger : trigger_input) : M (processor St) ProcessingResult :=
  let key := or_text idempotency_key (_event_key digest_of empty_burst paths) in
  let! exists_ := store_action (so_event_exists key) in
  if exists_ : bool then skipped_duplicate key paths
  else
    (if reuse then ret tt
     else
       _new_trace ;!
       seed_trace received_at decision_started_at processing_started_at ;!
       burst_mark decision_started_at ;!
       trace_set_trigger (Some (default ftp_fallback_trigger (_trigger_telemetry trigger)))) ;!
    trace_mark_decision "denied" reason ;!
    let! received := match received_at with Some t => ret t | None => wall end in
    let! decided := wall in
    let! event_id := _record (_denied_event key received decided reason None) paths in
    _finish_result (outcome false reason (Some event_id) None).

(** *** OCR *)

Definition next_run : M (processor St) ocr_run := fun p =>
  (Ok (default hanging_run (list.head (pr_ocr p))),
   set_ocr (pr_closed p) (pr_slot_held p) (tail (pr_ocr p)) p).

Definition note_closed (closed : bool) : M (processor St) bool := fun p =>
  (Ok (pr_closed p || closed), set_ocr (pr_closed p || closed) (pr_slot_held p) (pr_ocr p) p).
Definition hold_slot (held : bool) : M (processor St) unit :=
  modify (fun p => set_ocr (pr_closed p) held (pr_ocr p) p).

(** processor.py: _cancel_and_reap_ocr_worker; the slot is released when the
    worker ends. *)
Definition _cancel_and_reap_ocr_worker (run : ocr_run) : M (processor St) unit :=
  hold_slot (negb (or_reaped run)).

(** processor.py: _run_ocr_bounded; [on_start] runs once the slot is taken. *)
Definition _run_ocr_bounded (deadline : pyfloat) (on_start : M (processor St) unit)
  : M (processor St) PlateObservation :=
  let! run := next_run in
  let! closed := note_closed (or_closed_before run) in
  if closed : bool then raise OcrBusy
  else
    let! held := gets pr_slot_held in
    if held && negb (or_slot_freed run) then raise OcrBusy
    else
      hold_slot true ;!
      on_start ;!
      let! closed := note_closed (or_closed_mid run) in
      if closed : bool then hold_slot false ;! raise OcrBusy
      else
        match or_start_error run with
        | Some e => hold_slot false ;! raise e
        | None =>
            let! now := read_decision in
            if fle (fsub deadline now) float_0
            then _cancel_and_reap_ocr_worker run ;! raise OcrDeadlineExceeded
            else if or_in_time run then hold_slot false ;! of_result (or_result run)
            else _cancel_and_reap_ocr_worker run ;! raise OcrDeadlineExceeded
        end.

(** processor.py: _recognise *)
Definition _recognise (deadline : pyfloat) (on_start : M (processor St) unit)
  : M (processor St) PlateObservation :=
  let! now := read_decision in
  if fle (fsub deadline now) float_0 then raise OcrDeadlineExceeded
  else _run_ocr_bounded deadline on_start.

(** What the loop over the frames has established. *)
Record scan := {
  sc_observations : list PlateObservation;
  sc_failure : option string;
  sc_decision : option MatchDecision;
  sc_timed_out : bool;
}.
Definition scan_start : scan :=
  {| sc_observations := []; sc_failure := None; sc_decision := None; sc_timed_out := false |}.
Definition scan_timeout (s : scan) : scan :=
  {| sc_observations := sc_observations s; sc_failure := sc_failure s; sc_decision := sc_decision s;
     sc_timed_out := true |}.
Definition scan_failure (reason : string) (s : scan) : scan :=
  {| sc_observations := sc_observations s; sc_failure := Some reason; sc_decision := sc_decision s;
     sc_timed_out := sc_timed_out s |}.
Definition scan_observe (o : PlateObservation) (plates : list pystr) (s : scan) : scan :=
  let observations := sc_observations s ++ [o] in
  {| sc_observations := observations; sc_failure := sc_failure s;
     sc_decision := Some (decide_access observations plates); sc_timed_out := sc_timed_out s |}.

Definition attempt (sequence : nat) (status : string) : OcrAttemptTelemetry :=
  {| oa_frame_sequence := VInt (Z.of_nat sequence); oa_duration_ms := VInt 0; oa_status := Some status;
     oa_plate := None; oa_confidence := VNone; oa_make := None; oa_colour := None |}.
Definition observed_attempt (sequence : nat) (o : PlateObservation) : OcrAttemptTelemetry :=
  {| oa_frame_sequence := VInt (Z.of_nat sequence); oa_duration_ms := VInt 0;
     oa_status := Some (match po_plate o with Some (_ :: _) => "recognized" | _ => "no_plate" end);
     oa_plate := text_of <$> po_plate o; oa_confidence := VFloat (po_confidence o);
     oa_make := po_make o; oa_colour := po_colour o |}.

Definition with_sequence (sequence : nat) (f : FrameTelemetry) : FrameTelemetry :=
  {| ft_sequence := VInt (Z.of_nat sequence); ft_digest := ft_digest f; ft_width := ft_width f;
     ft_height := ft_height f; ft_sharpness := ft_sharpness f; ft_brightness := ft_brightness f;
     ft_darkness := ft_darkness f; ft_highlight_clipping := ft_highlight_clipping f;
     ft_status := ft_status f |}.

(** [self._decision_timeout - (self._decision_clock() - started) <= 0] *)
Definition time_left (started : pyfloat) : M (processor St) bool :=
  let! now := read_decision in
  ret (negb (fle (fsub decision_timeout (fsub now started)) float_0)).
(** [self._decision_clock() - started >= self._decision_timeout] *)
Definition past_timeout (started : pyfloat) : M (processor St) bool :=
  let! now := read_decision in
  ret (fge (fsub now started) decision_timeout).

(** [mark_ocr_start] of the loop. *)
Definition start_ocr : M (processor St) unit := trace_mark_ocr_start ;! modify (set_started true).

(** The recogniser call of one frame: its observation or its exception. *)
Definition recognise_frame (deadline : pyfloat) : M (processor St) (result PlateObservation) :=
  modify (set_started false) ;!
  try_except (let! o := _recognise deadline start_ocr in ret (Ok o)) (fun e => ret (Err e)).

(** [if ocr_started: trace.add_ocr_attempt(...)] *)
Definition attempt_if_started (a : OcrAttemptTelemetry) : M (processor St) unit :=
  let! started := gets pr_ocr_started in
  if started : bool then trace_add_ocr_attempt a else ret tt.

(** One iteration of the loop: the new state and whether the loop goes on. *)
Definition scan_frame (started deadline : pyfloat) (plates : list pystr) (sequence : nat)
    (path digest : string) (s : scan) : M (processor St) (scan * bool) :=
  let! left_ := time_left started in
  if negb left_ then ret (scan_timeout s, false)
  else
    match measure path digest with
    | Ok quality => trace_add_frame (with_sequence sequence quality)
    | Err _ => disable
    end ;!
    let! left_ := time_left started in
    if negb left_ then ret (scan_timeout s, false)
    else
      let! observed := recognise_frame deadline in
      match observed with
      | Err OcrBusy =>
          trace_add_ocr_rejection (attempt sequence "ocr_busy") ;!
          ret (scan_failure "ocr_busy" s, false)
      | Err OcrDeadlineExceeded =>
          attempt_if_started (attempt sequence "ocr_timeout") ;!
          ret (scan_timeout s, false)
      | Err _ =>
          attempt_if_started (attempt sequence "ocr_error") ;!
          ret (scan_failure "ocr_error" s, true)
      | Ok o =>
          trace_add_ocr_attempt (observed_attempt sequence o) ;!
          let s := scan_observe o plates s in
          let! late := past_timeout started in
          if late : bool then ret (scan_timeout s, false)
          else ret (s, negb (from_option md_allowed false (sc_decision s)))
      end.

(** The loop over the first frames; [done_] says whether a decision already
    allows or a time limit was hit. *)
Fixpoint scan_frames (started deadline : pyfloat) (plates : list pystr) (sequence : nat)
    (frames : list (string * string)) (s : scan) : M (processor St) scan :=
  match frames with
  | [] => ret s
  | (path, digest) :: frames' =>
      let! next := scan_frame started deadline plates sequence path digest s in
      let '(s, go_on) := next in
      if go_on : bool then scan_frames started deadline plates (S sequence) frames' s else ret s
  end.

(** *** Acting on the decision *)

(** processor.py: activation_inhibition of [process] *)
Definition activation_check (decision : MatchDecision) (received_at : datetime)
    (activation_deadline : pyfloat) : M (world St) (option (string * string)) :=
  let! n := gets w_wall in
  if check_closed n then ret (Some ("failed", "processor_closed"))
  else
    let! now := _clock wall_clock in
    if negb (_is_fresh now received_at max_image_age) then ret (Some ("failed", "stale_burst"))
    else
      match check_authorised n with
      | Err _ => ret (Some ("failed", "authorisation_error"))
      | Ok plates =>
          if negb (bool_decide (normalise_plate (of_ascii (default EmptyString (md_authorised_plate decision)))
                                  ∈ normalise_plate <$> plates))
          then ret (Some ("failed", "authorisation_revoked"))
          else if fge (check_decision_clock n) activation_deadline
          then ret (Some ("failed", "decision_timeout"))
          else ret None
      end.

(** The trace marks the relay's reports cause: those logged since [before]. *)
Definition report_marks (before : nat) : M (processor St) unit :=
  let! events := gets (fun p => drop before (rl_log (w_relay (pr_gate p)))) in
  (fix go (events : list relay_event) : M (processor St) unit :=
     match events with
     | [] => ret tt
     | Activated _ :: events' => trace_mark_relay_activation ;! go events'
     | Deactivated _ :: events' => trace_mark_relay_finished ;! go events'
     | _ :: events' => go events'
     end) events.

(** The event of the decision. *)
Definition decision_event (key : string) (received_at decision_at : datetime) (decision : MatchDecision)
    : GateEvent :=
  _denied_event key received_at decision_at (md_reason decision) (Some decision).

(** The actuation of an allowed burst and what is told about it. *)
Definition act (key : string) (paths : list string) (received_at : datetime) (activation_deadline : pyfloat)
    (decision : MatchDecision) (event : GateEvent) : M (processor St) ProcessingResult :=
  let! before := gets (fun p => length (rl_log (w_relay (pr_gate p)))) in
  let! execution := gate_action (actuate wall_clock mono_clock cooldown boot_id max_off_attempts event
    (_outbox_payload paths true) None
    (Some (activation_check decision received_at activation_deadline)) true true) in
  report_marks before ;!
  (if bool_decide (ae_reason execution ∈ FINAL_INHIBITION_REASONS)
   then trace_revise_decision "denied" (ae_reason execution) else ret tt) ;!
  let '(claim, attempted, relay) := _actuation_telemetry execution in
  trace_set_actuation_outcome claim attempted relay ;!
  _finish_result (outcome (ae_opened execution) (ae_reason execution) (ae_event_id execution) (Some decision)).

(** Deny with a reason decided after the scan. *)
Definition deny (key : string) (paths : list string) (received_at decision_at : datetime) (reason : string)
    (decision : MatchDecision) : M (processor St) ProcessingResult :=
  trace_mark_decision "denied" reason ;!
  let! event_id := _record (_denied_event key received_at decision_at reason (Some decision)) paths in
  _finish_result (outcome false reason (Some event_id) (Some decision)).

(** From the decision of the scan on. *)
Definition conclude (key : string) (paths : list string) (received_at : datetime)
    (activation_deadline : pyfloat) (s : scan) (decision : MatchDecision) : M (processor St) ProcessingResult :=
  let! decision_at := wall in
  if sc_timed_out s then deny key paths received_at decision_at "decision_timeout" decision
  else if negb (_is_fresh decision_at received_at max_image_age)
  then deny key paths received_at decision_at "stale_burst" decision
  else if negb (md_allowed decision)
  then deny key paths received_at decision_at
         (if bool_decide (sc_failure s = Some "ocr_error") then "ocr_error" else md_reason decision) decision
  else
    trace_mark_decision "allowed" (md_reason decision) ;!
    let! actuation_at := wall in
    if negb (_is_fresh actuation_at received_at max_image_age) then
      let! event_id := _record (_denied_event key received_at actuation_at "stale_burst" (Some decision)) paths in
      _finish_result (outcome false "stale_burst" (Some event_id) (Some decision))
    else act key paths received_at activation_deadline decision
           (decision_event key received_at decision_at decision).

(** The scan and what follows it. *)
Definition examine (key : string) (frames : list (string * string)) (received_at : datetime)
    (started deadline activation_deadline : pyfloat) (plates : list pystr) : M (processor St) ProcessingResult :=
  let paths := frames.*1 in
  let! s := scan_frames started deadline plates 0 (take MAX_OCR_FRAMES frames) scan_start in
  let! late :=
    if from_option md_allowed false (sc_decision s) then ret false else past_timeout started in
  let s := if late : bool then scan_timeout s else s in
  match sc_decision s with
  | None =>
      record_skipped paths
        (if sc_timed_out s then "decision_timeout" else or_text (sc_failure s) "no_match")
        (Some received_at) true (Some key) None None TriggerNone
  | Some decision => conclude key paths received_at activation_deadline s decision
  end.

(** The branch of [process] for a known key. *)
Definition processed_duplicate (key : string) (paths : list string) : M (processor St) ProcessingResult :=
  match outbox with
  | None => ret tt
  | Some _ =>
      let! terminal := store_action (so_terminal_outcome key) in
      let! event_id := match terminal with
                       | Some t => ret (to_event_id t)
                       | None => store_action (so_event_id key)
                       end in
      match event_id, _outbox_payload paths false with
      | Some id, Some payload => store_action (so_ensure_outbox id payload) ;! ret tt
      | _, _ => ret tt
      end
  end ;!
  let! reason := duplicate_reason key in
  ret (outcome false reason None None).

(** processor.py: process *)
Definition process (paths : list string) (received_at : option datetime)
    (decision_started_at : option pyfloat) (processing_started_at : option datetime)
    (trigger : trigger_input) (idempotency_key : option string) : M (processor St) ProcessingResult :=
  let! started := match decision_started_at with Some s => ret s | None => read_decision end in
  let deadline := fadd started decision_timeout in
  let activation_deadline := fsub deadline activation_guard in
  let frames := _unique_content_candidates digest_of paths in
  let paths := frames.*1 in
  let key := or_text idempotency_key (_event_key_from_digests empty_burst frames.*2) in
  let! exists_ := store_action (so_event_exists key) in
  if exists_ : bool then processed_duplicate key paths
  else
    _new_trace ;!
    trace_set_trigger (_trigger_telemetry trigger) ;!
    seed_trace received_at decision_started_at processing_started_at ;!
    burst_mark decision_started_at ;!
    let! received_at := match received_at with Some t => ret t | None => wall end in
    let! now := wall in
    let skip reason := record_skipped paths reason (Some received_at) true (Some key) None None TriggerNone in
    let! late := past_timeout started in
    if late : bool then skip "decision_timeout"
    else if negb (_is_fresh now received_at max_image_age) then skip "stale_burst"
    else
      let! plates := try_except (let! l := read_authorised in ret (Some l)) (fun _ => ret None) in
      match plates with
      | None => skip "authorisation_error"
      | Some plates => examine key frames received_at started deadline activation_deadline plates
      end.

(** processor.py: close; the recogniser's own close and the joins of its
    threads have no effect on this state. *)
Definition close : M (processor St) unit :=
  modify (fun p => set_ocr true (pr_slot_held p) (pr_ocr p) p).
End Processor.
