(* ===== verification/ProcessorFacts.v ===== *)
(** * Properties of burst processing

    The gate opens for a burst only on the evidence of its own frames and on
    checks made during the call; everything else denies. *)

From S2P Require Import Prelude Models Json Float Matching Store StoreFacts Telemetry StoreOutbox.
From S2P Require Import StoreOutboxFacts Relay Actuation ActuationStore ActuationFacts.
From S2P Require Import ActuationGuard Processor.

Section Safety.
Context {St : Type} `{!StoreOps St} `{!ProcessorOps St}.
Context (wall_clock : nat -> datetime) (mono_clock : nat -> Z).
Context (decision_clock telemetry_clock : nat -> pyfloat) (telemetry_wall_clock : nat -> datetime).
Context (trace_id : nat -> string).
Context (cooldown : Z) (boot_id : option string) (max_off_attempts : nat).
Context (authorised : nat -> result (list pystr)).
Context (check_authorised : nat -> result (list pystr)) (check_decision_clock : nat -> pyfloat)
  (check_closed : nat -> bool).
Context (outbox : option (option string -> dict json)).
Context (max_image_age : Z) (decision_timeout activation_guard : pyfloat).
Context (digest_of : string -> string) (empty_burst : string).
Context (measure : string -> string -> result FrameTelemetry).

(** The inhibition check passes at the [n]th reading of the wall clock. *)
Definition check_passes (decision : MatchDecision) (received_at : datetime) (activation_deadline : pyfloat)
    (n : nat) : Prop :=
  check_closed n = false /\ _is_fresh (wall_clock n) received_at max_image_age = true /\
  (exists plates, check_authorised n = Ok plates /\
     normalise_plate (of_ascii (default EmptyString (md_authorised_plate decision)))
       ∈ normalise_plate <$> plates) /\
  fge (check_decision_clock n) activation_deadline = false.

(** The observations come from the recogniser runs of the call. *)
Definition observed_in (runs : list ocr_run) (observations : list PlateObservation) : Prop :=
  Forall (fun o => exists run, run ∈ runs /\ or_result run = Ok o) observations.

(** Why the pin may have been driven, before the [m]th reading of the wall clock. *)
Definition opening_evidence (runs : list ocr_run) (received_at : datetime) (activation_deadline : pyfloat)
    (start m : nat) : Prop :=
  exists i plates observations n,
    authorised i = Ok plates /\ observed_in runs observations /\
    md_allowed (decide_access observations plates) = true /\
    (start <= n < m)%nat /\
    check_passes (decide_access observations plates) received_at activation_deadline n.

Context (es : list (energisation St)) (start : nat) (runs : list ocr_run).
(** What holds of the evidence at the end; stated for any monotone property. *)
Context (ok : nat -> Prop) (Hok : forall n m, ok n -> (n <= m)%nat -> ok m).

Definition inv (p : processor St) : Prop :=
  guarded es ok start (pr_gate p) /\ pr_ocr p ⊆ runs.

Lemma gate_action_inv {A} (m : M (world St) A) :
  keeps (guarded es ok start) m -> keeps inv (gate_action m).
Proof.
  intros Hm p [Hg Hr]. specialize (Hm _ Hg). unfold gate_action, lift.
  by destruct (m (pr_gate p)) as [[?|?] ?].
Qed.

Lemma store_action_inv {A} (m : M St A) : keeps inv (store_action m).
Proof. apply gate_action_inv, on_store_guarded. Qed.

Lemma wall_inv : keeps inv (wall wall_clock).
Proof. by apply gate_action_inv, clock_guarded. Qed.

Lemma modify_inv f : (forall p : processor St, pr_gate (f p) = pr_gate p) ->
  (forall p, pr_ocr (f p) = pr_ocr p) -> keeps inv (modify f).
Proof. intros Hg Ho. apply keeps_modify. intros p. unfold inv. by rewrite Hg, Ho. Qed.

Lemma read_decision_inv : keeps inv (read_decision decision_clock).
Proof. by intros p Hp. Qed.
Lemma read_telemetry_inv : keeps inv (read_telemetry telemetry_clock).
Proof. by intros p Hp. Qed.

Hint Resolve store_action_inv wall_inv read_decision_inv read_telemetry_inv modify_inv : gate.

Lemma trace_call_inv operation : keeps inv (trace_call telemetry_clock operation).
Proof. unfold trace_call. keeps_tac; by apply modify_inv. Qed.

Lemma trace_finish_inv : keeps inv (trace_finish telemetry_clock).
Proof. unfold trace_finish, disable. keeps_tac; by apply modify_inv. Qed.

Lemma disable_inv : keeps inv disable.
Proof. by apply modify_inv. Qed.

Lemma new_trace_inv : keeps inv (_new_trace telemetry_clock telemetry_wall_clock trace_id).
Proof. unfold _new_trace. keeps_tac; by apply modify_inv. Qed.

Hint Resolve trace_call_inv trace_finish_inv disable_inv new_trace_inv : gate.

Lemma seed_trace_inv r d s : keeps inv (seed_trace telemetry_clock r d s).
Proof. unfold seed_trace, trace_seed. keeps_tac. Qed.
Lemma burst_mark_inv d : keeps inv (burst_mark telemetry_clock d).
Proof. unfold burst_mark, trace_mark_burst. keeps_tac. Qed.

Lemma record_inv event paths : keeps inv (_record outbox event paths).
Proof. apply store_action_inv. Qed.

Lemma finish_result_inv r : keeps inv (_finish_result telemetry_clock outbox r).
Proof. unfold _finish_result, _release_outbox_without_telemetry. keeps_tac. Qed.

Hint Resolve seed_trace_inv burst_mark_inv record_inv finish_result_inv : gate.

Lemma duplicate_reason_inv key : keeps inv (duplicate_reason key).
Proof. unfold duplicate_reason. keeps_tac. Qed.
Hint Resolve duplicate_reason_inv : gate.

Lemma record_skipped_inv paths reason received reuse key started processing trigger :
  keeps inv (record_skipped wall_clock telemetry_clock telemetry_wall_clock trace_id outbox digest_of
    empty_burst paths reason received reuse key started processing trigger).
Proof.
  unfold record_skipped, skipped_duplicate, trace_set_trigger, trace_mark_decision. cbv zeta. keeps_tac.
Qed.

Lemma processed_duplicate_inv key paths : keeps inv (processed_duplicate outbox key paths).
Proof. unfold processed_duplicate. keeps_tac. Qed.

(** *** The scan *)

Lemma next_run_inv :
  triple inv next_run (fun run p => inv p /\ forall o, or_result run = Ok o -> run ∈ runs) inv.
Proof.
  intros p [Hg Hr]. cbn. destruct (pr_ocr p) as [|run l]; cbn.
  - split; [split; [done|set_solver]|done].
  - split; [split; [done|set_solver]|]. intros o _. apply Hr. left.
Qed.

Lemma note_closed_inv b : keeps inv (note_closed b).
Proof. by intros p Hp. Qed.
Lemma hold_slot_inv b : keeps inv (hold_slot b).
Proof. by apply modify_inv. Qed.
Hint Resolve note_closed_inv hold_slot_inv : gate.

Lemma start_ocr_inv : keeps inv (start_ocr telemetry_clock).
Proof. unfold start_ocr, trace_mark_ocr_start. keeps_tac; by apply modify_inv. Qed.

Lemma run_ocr_inv deadline on_start :
  keeps inv on_start ->
  triple inv (_run_ocr_bounded decision_clock deadline on_start)
    (fun o p => inv p /\ exists run, run ∈ runs /\ or_result run = Ok o) inv.
Proof.
  intros Hstart. unfold _run_ocr_bounded, _cancel_and_reap_ocr_worker.
  eapply triple_bind; [apply next_run_inv|]. intros run p [Hp Hrun]. revert p Hp.
  assert (Hraise : forall A (m : M (processor St) A) e (Q : PlateObservation -> processor St -> Prop),
    keeps inv m -> triple inv (m ;! raise e) Q inv)
    by (intros A m e Q Hm; apply (triple_bind _ _ _ (fun _ => inv)); [done|by intros; apply triple_raise]).
  assert (Hno : forall e Q, triple (A := PlateObservation) inv (raise e) Q inv) by (intros; by apply triple_raise).
  apply keeps_then; [apply note_closed_inv|]. intros [|]; [done|].
  apply keeps_then; [by apply keeps_gets|]. intros held. destruct (held && _); [done|].
  apply keeps_then; [apply hold_slot_inv|]. intros _. apply keeps_then; [exact Hstart|]. intros _.
  apply keeps_then; [apply note_closed_inv|]. intros [|]; [apply Hraise, hold_slot_inv|].
  destruct (or_start_error run) as [e|]; [apply Hraise, hold_slot_inv|].
  apply keeps_then; [apply read_decision_inv|]. intros now.
  destruct (fle _ _); [apply Hraise, hold_slot_inv|]. destruct (or_in_time run); [|apply Hraise, hold_slot_inv].
  apply keeps_then; [apply hold_slot_inv|]. intros _ p Hp. unfold of_result.
  destruct (or_result run) as [o|e] eqn:E; [|done]. split; [done|]. exists run. by split; [eapply Hrun|].
Qed.

Lemma recognise_frame_inv deadline :
  triple inv (recognise_frame decision_clock telemetry_clock deadline)
    (fun r p => inv p /\ forall o, r = Ok o -> exists run, run ∈ runs /\ or_result run = Ok o) inv.
Proof.
  unfold recognise_frame. apply keeps_then; [by apply (modify_inv (set_started false))|]. intros _.
  apply (triple_try _ _ _ _ _ inv); [|by intros e; apply triple_ret|done].
  eapply triple_bind with (R := fun o p => inv p /\ exists run, run ∈ runs /\ or_result run = Ok o).
  - unfold _recognise. apply keeps_then; [apply read_decision_inv|]. intros now.
    destruct (fle _ _); [by apply triple_raise|]. apply run_ocr_inv, start_ocr_inv.
  - intros o. apply triple_ret. intros p [Hp Hrun]. split; [done|]. by intros o' [= <-].
Qed.

(** What the scan has established. *)
Definition scan_ok (plates : list pystr) (s : scan) : Prop :=
  observed_in runs (sc_observations s) /\
  forall d, sc_decision s = Some d -> d = decide_access (sc_observations s) plates.

Lemma scan_frame_inv started deadline plates sequence path digest s :
  scan_ok plates s ->
  triple inv (scan_frame decision_clock telemetry_clock decision_timeout measure started deadline plates
    sequence path digest s) (fun next p => inv p /\ scan_ok plates next.1) inv.
Proof.
  intros Hs. unfold scan_frame, time_left, trace_add_frame, trace_add_ocr_rejection, attempt_if_started,
    trace_add_ocr_attempt.
  assert (Hret : forall (b : bool) s', scan_ok plates s' ->
    triple inv (ret (s', b)) (fun next p => inv p /\ scan_ok plates next.1) inv)
    by (intros b s' Hs'; apply triple_ret; done).
  apply keeps_then; [keeps_tac|]. intros [|]; cbn [negb]; [|by apply Hret].
  apply keeps_then; [destruct (measure path digest); auto with gate|]. intros _.
  apply keeps_then; [keeps_tac|]. intros [|]; cbn [negb]; [|by apply Hret].
  eapply triple_bind; [apply recognise_frame_inv|]. intros r p [Hp Hr]. revert p Hp.
  assert (Hmark : forall (m : M (processor St) unit) (b : bool) s', keeps inv m -> scan_ok plates s' ->
    triple inv (m ;! ret (s', b)) (fun next p => inv p /\ scan_ok plates next.1) inv).
  { intros m b s' Hm Hs'. apply keeps_then; [exact Hm|]. intros _. by apply Hret. }
  destruct r as [o|e]; [|destruct e; apply Hmark; first [done|keeps_tac]].
  apply keeps_then; [apply trace_call_inv|]. intros _.
  assert (Hso : scan_ok plates (scan_observe o plates s)).
  { destruct Hs as [Hobs _]. split; cbn; [|by intros d [= <-]].
    apply list.Forall_app. split; [done|]. apply Forall_singleton. by apply Hr. }
  apply keeps_then; [unfold past_timeout; keeps_tac|]. intros [|]; by apply Hret.
Qed.

Lemma scan_frames_inv started deadline plates sequence frames s :
  scan_ok plates s ->
  triple inv (scan_frames decision_clock telemetry_clock decision_timeout measure started deadline plates
    sequence frames s) (fun s' p => inv p /\ scan_ok plates s') inv.
Proof.
  revert sequence s. induction frames as [|[path digest] frames IH]; intros sequence s Hs.
  { apply triple_ret. done. }
  cbn [scan_frames]. eapply triple_bind; [by apply scan_frame_inv|]. intros [s' go_on] p [Hp Hs'].
  revert p Hp. destruct go_on; [by apply IH|by apply triple_ret].
Qed.

(** *** The actuation *)

Lemma activation_check_reads decision received_at activation_deadline (w : world St) :
  (start <= w_wall w)%nat ->
  exists r n, activation_check wall_clock check_authorised check_decision_clock check_closed max_image_age
      decision received_at activation_deadline w = (r, put_wall n w) /\ (w_wall w <= n)%nat /\
    (r = Ok None -> exists i, (start <= i < n)%nat /\ check_passes decision received_at activation_deadline i).
Proof.
  intros Hs. unfold activation_check, bind, gets, _clock, ret.
  assert (Hsame : put_wall (w_wall w) w = w) by (by destruct w).
  destruct (check_closed (w_wall w)) eqn:E1.
  { exists (Ok (Some ("failed", "processor_closed"))), (w_wall w). rewrite Hsame. split; [done|]. split; [lia|done]. }
  destruct (_is_fresh (wall_clock (w_wall w)) received_at max_image_age) eqn:E2; cbn [negb].
  2: { eexists _, (S (w_wall w)). split; [done|]. split; [lia|done]. }
  destruct (check_authorised (w_wall w)) as [plates|] eqn:E3.
  2: { eexists _, (S (w_wall w)). split; [done|]. split; [lia|done]. }
  destruct (bool_decide _) eqn:E4; cbn [negb].
  2: { eexists _, (S (w_wall w)). split; [done|]. split; [lia|done]. }
  destruct (fge _ _) eqn:E5.
  { eexists _, (S (w_wall w)). split; [done|]. split; [lia|done]. }
  eexists _, (S (w_wall w)). split; [done|]. split; [lia|]. intros _. exists (w_wall w). split; [lia|].
  split; [done|]. split; [done|]. split; [|done]. exists plates. split; [done|]. by apply bool_decide_eq_true in E4.
Qed.

Lemma activation_check_only_reads decision received_at activation_deadline :
  only_reads (St := St) (activation_check wall_clock check_authorised check_decision_clock check_closed max_image_age
    decision received_at activation_deadline).
Proof.
  intros w. unfold activation_check, bind, gets, _clock, ret.
  assert (Hsame : put_wall (w_wall w) w = w) by (by destruct w).
  destruct (check_closed (w_wall w)).
  { exists (Ok (Some ("failed", "processor_closed"))), (w_wall w). by rewrite Hsame. }
  repeat (case_match; try by eexists _, (S (w_wall w))).
Qed.

Lemma report_marks_inv before : keeps inv (report_marks telemetry_clock before).
Proof.
  unfold report_marks. apply keeps_bind; [apply keeps_gets|]. intros events.
  induction events as [|[| | | |] events IH]; keeps_tac; apply trace_call_inv.
Qed.
Hint Resolve report_marks_inv record_skipped_inv processed_duplicate_inv : gate.

Lemma act_inv key paths received_at activation_deadline decision event :
  (forall n m, (start <= n < m)%nat -> check_passes decision received_at activation_deadline n -> ok m) ->
  keeps inv (act wall_clock mono_clock telemetry_clock cooldown boot_id max_off_attempts check_authorised
    check_decision_clock check_closed outbox max_image_age key paths received_at activation_deadline decision event).
Proof.
  intros Hpass. unfold act, trace_revise_decision, trace_set_actuation_outcome.
  apply keeps_bind; [apply keeps_gets|]. intros before. apply keeps_bind.
  - apply gate_action_inv, actuate_guarded; [done|]. intros w Hw.
    destruct (activation_check_reads decision received_at activation_deadline w Hw) as (r & n & E & Hn & Hr).
    exists r, n. split; [done|]. split; [done|]. intros Hnone. destruct (Hr Hnone) as (i & Hi & Hp). by eapply Hpass.
  - intros execution. destruct (_actuation_telemetry execution) as [[claim attempted] relay]. keeps_tac.
Qed.

Context (received : datetime) (activation_deadline : pyfloat).
Context (Hevidence : forall m, opening_evidence runs received activation_deadline start m -> ok m).

Lemma conclude_inv key paths s decision plates :
  scan_ok plates s -> sc_decision s = Some decision -> (exists i, authorised i = Ok plates) ->
  keeps inv (conclude wall_clock mono_clock telemetry_clock cooldown boot_id max_off_attempts check_authorised
    check_decision_clock check_closed outbox max_image_age key paths received activation_deadline s decision).
Proof.
  intros [Hobs Hdec] Hd [i Hi]. specialize (Hdec _ Hd).
  unfold conclude, deny, trace_mark_decision. apply keeps_bind; [apply wall_inv|]. intros decision_at.
  destruct (sc_timed_out s); [keeps_tac|]. destruct (negb (_is_fresh _ _ _)); [keeps_tac|].
  destruct (md_allowed decision) eqn:Ha; cbn [negb]; [|keeps_tac].
  apply keeps_bind; [apply trace_call_inv|]. intros _. apply keeps_bind; [apply wall_inv|]. intros actuation_at.
  destruct (negb (_is_fresh _ _ _)); [keeps_tac|]. apply act_inv. intros n m Hn Hp. apply Hevidence.
  exists i, plates, (sc_observations s), n. rewrite <- Hdec. done.
Qed.

Lemma examine_inv key frames started deadline plates :
  (exists i, authorised i = Ok plates) ->
  keeps inv (examine wall_clock mono_clock decision_clock telemetry_clock telemetry_wall_clock trace_id cooldown
    boot_id max_off_attempts check_authorised check_decision_clock check_closed outbox max_image_age
    decision_timeout digest_of empty_burst measure key frames received started deadline activation_deadline plates).
Proof.
  intros Hi. unfold examine. cbv zeta.
  eapply triple_bind; [apply scan_frames_inv; split; [constructor|done]|].
  intros s p [Hp Hs]. revert p Hp. apply keeps_then.
  { destruct (from_option _ _ _); [apply keeps_ret|]. unfold past_timeout. keeps_tac. }
  intros late. assert (Hs' : scan_ok plates (if late : bool then scan_timeout s else s)) by (by destruct late).
  destruct (sc_decision (if late : bool then scan_timeout s else s)) as [decision|] eqn:Ed.
  - by eapply conclude_inv.
  - apply record_skipped_inv.
Qed.
End Safety.

Section ProcessSafety.
Context {St : Type} `{!StoreOps St} `{!ProcessorOps St}.
Context (wall_clock : nat -> datetime) (mono_clock : nat -> Z).
Context (decision_clock telemetry_clock : nat -> pyfloat) (telemetry_wall_clock : nat -> datetime).
Context (trace_id : nat -> string).
Context (cooldown : Z) (boot_id : option string) (max_off_attempts : nat).
Context (authorised : nat -> result (list pystr)).
Context (check_authorised : nat -> result (list pystr)) (check_decision_clock : nat -> pyfloat)
  (check_closed : nat -> bool).
Context (outbox : option (option string -> dict json)).
Context (max_image_age : Z) (decision_timeout activation_guard : pyfloat).
Context (digest_of : string -> string) (empty_burst : string).
Context (measure : string -> string -> result FrameTelemetry).

Abbreviation run_process := (process wall_clock mono_clock decision_clock telemetry_clock telemetry_wall_clock
  trace_id cooldown boot_id max_off_attempts authorised check_authorised check_decision_clock check_closed outbox
  max_image_age decision_timeout activation_guard digest_of empty_burst measure).

(** The evidence of a call whose reception time and start are those given, or
    read from the clocks. *)
Definition call_evidence (runs : list ocr_run) (received_at : option datetime)
    (decision_started_at : option pyfloat) (start m : nat) : Prop :=
  exists received started,
    (received_at = Some received \/ received_at = None /\ exists i, received = wall_clock i) /\
    (decision_started_at = Some started \/ decision_started_at = None /\ exists i, started = decision_clock i) /\
    opening_evidence wall_clock authorised check_authorised check_decision_clock check_closed max_image_age runs
      received (fsub (fadd started decision_timeout) activation_guard) start m.

Lemma process_inv es start runs paths received_at decision_started_at processing_started_at trigger key :
  keeps (inv es start runs (call_evidence runs received_at decision_started_at start))
    (run_process paths received_at decision_started_at processing_started_at trigger key).
Proof.
  set (ok := call_evidence runs received_at decision_started_at start).
  assert (Hok : forall n m, ok n -> (n <= m)%nat -> ok m).
  { intros n m (r & s & Hr & Hs & i & plates & obs & k & H1 & H2 & H3 & H4 & H5) Hle.
    exists r, s. split; [done|]. split; [done|]. exists i, plates, obs, k. repeat (split; [done|]). split; [lia|done]. }
  unfold process, trace_set_trigger. cbv zeta.
  apply (triple_bind _ _ _ (fun started p => inv es start runs ok p /\
    (decision_started_at = Some started \/ decision_started_at = None /\ exists i, started = decision_clock i))).
  { destruct decision_started_at as [s|]; [apply triple_ret; intros p Hp; split; [done|by left]|].
    intros p Hp. split; [done|]. right. eauto. }
  intros started p [Hp Hst]. revert p Hp.
  apply keeps_then; [apply store_action_inv|]. intros [|]; [apply processed_duplicate_inv|].
  apply keeps_then; [apply new_trace_inv|]. intros _. apply keeps_then; [apply trace_call_inv|]. intros _.
  apply keeps_then; [apply seed_trace_inv|]. intros _. apply keeps_then; [apply burst_mark_inv|]. intros _.
  apply (triple_bind _ _ _ (fun received p => inv es start runs ok p /\
    (received_at = Some received \/ received_at = None /\ exists i, received = wall_clock i))).
  { destruct received_at as [r|]; [apply triple_ret; intros p Hp; split; [done|by left]|].
    intros p Hp. pose proof (wall_inv wall_clock es start runs ok Hok p Hp) as H1. cbn in *. split; [done|]. right. eauto. }
  intros received p [Hp Hrec]. revert p Hp.
  apply keeps_then; [by apply wall_inv|]. intros now.
  apply keeps_then; [unfold past_timeout; apply keeps_bind; [apply read_decision_inv|intros; apply keeps_ret]|].
  intros [|]; [by apply record_skipped_inv|]. destruct (negb _); [by apply record_skipped_inv|].
  apply (triple_bind _ _ _ (fun plates p => inv es start runs ok p /\
    forall l, plates = Some l -> exists i, authorised i = Ok l)).
  { intros p Hp. unfold try_except, bind, read_authorised, ret.
    destruct (authorised (pr_authorised_reads p)) as [l|e] eqn:E; [|by destruct (is_Exception e)].
    split; [done|]. intros l' [= <-]. eauto. }
  intros [plates|] p [Hp Hl]; [|revert p Hp Hl; intros p Hp _; by apply record_skipped_inv].
  revert p Hp Hl. intros p Hp Hl. eapply examine_inv; [exact Hok| |by apply Hl|exact Hp].
  intros m Hm. exists received, started. done.
Qed.
End ProcessSafety.

(** C3: the gate opens for a burst only on evidence.  Whenever a call of
    [process] leaves a new activation behind: the decision over observations the
    recogniser made during the call, against plates the cache handed out,
    allows access; and a check made during the call, after the durable marker,
    found the processor open, the image fresh, the plate still authorised and
    the activation deadline not reached. *)
Theorem burst_opens_only_on_evidence {St} {ops : StoreOps St} {pops : ProcessorOps St}
    wall_clock mono_clock decision_clock telemetry_clock telemetry_wall_clock trace_id cooldown boot_id
    max_off_attempts authorised check_authorised check_decision_clock check_closed outbox max_image_age
    decision_timeout activation_guard digest_of empty_burst measure paths received_at decision_started_at
    processing_started_at trigger key (p p' : processor St) r
    (Hrun : process wall_clock mono_clock decision_clock telemetry_clock telemetry_wall_clock trace_id cooldown
       boot_id max_off_attempts authorised check_authorised check_decision_clock check_closed outbox max_image_age
       decision_timeout activation_guard digest_of empty_burst measure paths received_at decision_started_at
       processing_started_at trigger key p = (r, p')) :
  w_energised (pr_gate p') = w_energised (pr_gate p) \/
  exists received started plates observations i n,
    (received_at = Some received \/ received_at = None /\ exists j, received = wall_clock j) /\
    (decision_started_at = Some started \/ decision_started_at = None /\ exists j, started = decision_clock j) /\
    authorised i = Ok plates /\
    Forall (fun o => exists run, run ∈ pr_ocr p /\ or_result run = Ok o) observations /\
    allowed_evidence observations plates (decide_access observations plates) /\
    (w_wall (pr_gate p) <= n < w_wall (pr_gate p'))%nat /\
    check_passes wall_clock check_authorised check_decision_clock check_closed max_image_age
      (decide_access observations plates) received (fsub (fadd started decision_timeout) activation_guard) n.
Proof.
  pose proof (process_inv wall_clock mono_clock decision_clock telemetry_clock telemetry_wall_clock trace_id cooldown
    boot_id max_off_attempts authorised check_authorised check_decision_clock check_closed outbox max_image_age
    decision_timeout activation_guard digest_of empty_burst measure (w_energised (pr_gate p)) (w_wall (pr_gate p))
    (pr_ocr p) paths received_at decision_started_at processing_started_at trigger key) as Hk.
  assert (H0 : inv (w_energised (pr_gate p)) (w_wall (pr_gate p)) (pr_ocr p)
    (call_evidence wall_clock decision_clock authorised check_authorised check_decision_clock check_closed
       max_image_age decision_timeout activation_guard (pr_ocr p) received_at decision_started_at (w_wall (pr_gate p))) p)
    by (split; [split; [lia|by left]|done]).
  pose proof (keeps_state _ _ _ _ _ Hk H0 Hrun) as [[_ [H|H]] _]; [by left|right].
  destruct H as (received & started & Hr & Hs & i & plates & obs & n & Hi & Hobs & Ha & Hn & Hp).
  exists received, started, plates, obs, i, n. repeat (split; [done|]).
  split; [by apply decide_access_evidence|]. done.
Qed.
