(* ===== verification/ProcessorHistory.v ===== *)
(** * Histories of bursts

    The gate invariant of Actuation.v holds through every call of [process] and
    [record_skipped], for any store whose further methods leave the claims
    alone; the SQLite store is such a store. *)

From S2P Require Import Prelude Models Json Float Matching Store StoreFacts Telemetry StoreOutbox.
From S2P Require Import StoreOutboxFacts Relay Actuation ActuationStore ActuationFacts.
From S2P Require Import ActuationGuard Processor ProcessorFacts.

Class ProcessorLaws (St : Type) `{laws : StoreLaws St} `{!ProcessorOps St} := {
  law_event_exists k : harmless (so_event_exists k);
  law_event_id k : harmless (so_event_id k);
  law_claim_status k : harmless (so_claim_status k);
  law_record_event e p : harmless (so_record_event e p);
  law_release i : harmless (so_release i);
  law_attach i t : harmless (so_attach i t);
}.

(** ** The SQLite store *)

#[global] Instance sqlite_processor_ops : ProcessorOps sqlite_store := {
  so_event_exists key := call (fun _ => gets (event_exists key));
  so_event_id key := call (fun _ => gets (event_id key));
  so_claim_status key := call (fun _ => gets (actuation_claim_status key));
  so_record_event event payload := call (fun now => record_event_with_outbox now event payload);
  so_release id := call (fun _ => release_outbox_without_telemetry id);
  so_attach id telemetry := call (fun now => attach_event_telemetry now id telemetry);
}.

(** A method that keeps the table invariant and does not touch the claims. *)
Lemma harmless_call {A} (m : Z -> M database A) :
  (forall now, keeps db_wf (m now)) ->
  (forall now I, keeps (on_claims I) (m now)) -> harmless (call m).
Proof.
  intros Hwf Hc.
  assert (Hrow : forall Q, keeps (fun s => sq_ok s /\ on_claims (some_row Q) (ls_db s)) (call m)).
  { intros Q. apply keeps_and; [by apply (call_keeps db_wf)|]. by apply (call_keeps (on_claims (some_row Q))). }
  split; [by apply (call_keeps db_wf)| | |]; intros; apply Hrow.
Qed.

Lemma gets_harmless {A} (f : database -> A) : harmless (call (fun _ => gets f)).
Proof. apply harmless_call; intros; apply keeps_gets. Qed.

(** Only the telemetry table and the payload and state of outbox rows change. *)
Definition same_tables (d d' : database) : Prop :=
  db_events d' = db_events d /\ db_claims d' = db_claims d /\ db_acks d' = db_acks d /\
  (ob_id <$> db_outbox d') = (ob_id <$> db_outbox d) /\
  (ob_event_id <$> db_outbox d') = (ob_event_id <$> db_outbox d).

Lemma same_tables_wf d d' : same_tables d d' -> db_wf d -> db_wf d'.
Proof.
  intros (He & Hc & Ha & Hi & Ho) [H1 H2 H3 H4 H5 H6 H7 H8].
  split; unfold event_ids, event_keys, claim_ids, claim_keys in *; by rewrite ?He, ?Hc, ?Ha, ?Hi, ?Ho.
Qed.

Lemma same_tables_update p f d :
  (forall o, ob_id (f o) = ob_id o /\ ob_event_id (f o) = ob_event_id o) -> same_tables d (update_outbox p f d).
Proof.
  intros Hf. unfold same_tables, update_outbox. cbn. repeat (split; [done|]).
  split; rewrite <- list_fmap_compose; apply list_fmap_ext; intros i o _; cbn; destruct (p o); (apply Hf || done).
Qed.

Section SameTables.
Context (d0 : database).
Abbreviation same := (same_tables d0).

Lemma same_trans d d' : same d -> same_tables d d' -> same d'.
Proof. unfold same_tables. intros (?&?&?&?&?) (?&?&?&?&?). repeat split; congruence. Qed.

Lemma promote_same id telemetry : keeps same (_promote_outbox id telemetry).
Proof.
  intros d Hd. unfold _promote_outbox. destruct (outbox_of_event id d) as [o|]; [|done].
  destruct (loads (ob_payload o)) as [j|]; [|done]. destruct (ob_completed_at o); [done|].
  destruct j; try done. eapply same_trans; [exact Hd|]. by apply same_tables_update.
Qed.

Lemma attach_same now id telemetry : keeps same (attach_event_telemetry now id telemetry).
Proof.
  unfold attach_event_telemetry. apply keeps_bind; [by intros d Hd; unfold of_result; destruct (_telemetry_payload _)|].
  intros payload. apply keeps_transaction. keeps_tac; try apply promote_same.
  all: intros d Hd; unfold of_result, modify; try done.
  all: by destruct (_ : result _).
Qed.
End SameTables.

Lemma attach_tables now id telemetry d : same_tables d (snd (attach_event_telemetry now id telemetry d)).
Proof. by apply (keeps_snd (same_tables d)); [apply attach_same|]. Qed.

Lemma keeps_of_snd {S A} (I : S -> Prop) (m : M S A) : (forall s, I s -> I (snd (m s))) -> keeps I m.
Proof. intros H s Hs. specialize (H s Hs). by destruct (m s) as [[?|?] ?]. Qed.

#[global] Instance sqlite_processor_laws : ProcessorLaws sqlite_store.
Proof.
  split; intros.
  - apply gets_harmless.
  - apply gets_harmless.
  - apply gets_harmless.
  - apply harmless_call; intros now; [apply record_event_with_outbox_wf|].
    intros I. apply record_event_on_claims.
  - apply harmless_call; intros _; [|intros I; by apply keeps_modify]. apply keeps_modify. intros d.
    apply same_tables_wf. by apply same_tables_update.
  - apply harmless_call; intros now; [|intros I]; apply keeps_of_snd; intros d Hd;
      pose proof (attach_tables now i t d) as Ht; [by eapply same_tables_wf|].
    unfold on_claims. by destruct Ht as (_ & -> & _).
Qed.

(** ** The gate invariant *)

Section ProcessorInvariant.
Context {St : Type} `{laws : StoreLaws St} `{!ProcessorOps St} `{!ProcessorLaws St}.
Context (wall_clock : nat -> datetime) (mono_clock : nat -> Z).
Context (decision_clock telemetry_clock : nat -> pyfloat) (telemetry_wall_clock : nat -> datetime).
Context (trace_id : nat -> string).
Context (cooldown : Z) (boot_id : option string) (max_off_attempts : nat).
Context (authorised : nat -> result (list pystr)).
Context (check_authorised : nat -> result (list pystr)) (check_decision_clock : nat -> pyfloat)
  (check_closed : nat -> bool).
Context (outbox : option (option string -> dict json)).
Context (max_image_age : Z) (decision_timeout activation_guard : pyfloat).
Context (digest_of : string -> string) (empty_burst : string).
Context (measure : string -> string -> result FrameTelemetry).
Context (Hmono : forall i j, (i <= j)%nat -> (mono_clock i <= mono_clock j)%Z).

Definition gate_fine (p : processor St) : Prop := gate_ok mono_clock cooldown boot_id (pr_gate p).
Definition ends {A} (r : result A) (p : processor St) : Prop :=
  call_post mono_clock cooldown boot_id r (pr_gate p).

Lemma gate_action_fine {A} (m : M (world St) A) :
  keeps (gate_ok mono_clock cooldown boot_id) m -> keeps gate_fine (gate_action m).
Proof.
  intros Hm p Hp. specialize (Hm _ Hp). unfold gate_action, lift. by destruct (m (pr_gate p)) as [[?|?] ?].
Qed.

Lemma store_action_fine {A} (m : M St A) : harmless m -> keeps gate_fine (store_action m).
Proof. intros Hm. by apply gate_action_fine, harmless_keeps. Qed.

Lemma wall_fine : keeps gate_fine (wall wall_clock).
Proof. apply gate_action_fine, clock_keeps_ok. Qed.

Lemma modify_fine f : (forall p : processor St, pr_gate (f p) = pr_gate p) -> keeps gate_fine (modify f).
Proof. intros Hg. apply keeps_modify. intros p. unfold gate_fine. by rewrite Hg. Qed.

(** An action that leaves the gate alone. *)
Lemma pure_fine {A} (m : M (processor St) A) : (forall p, pr_gate (snd (m p)) = pr_gate p) -> keeps gate_fine m.
Proof. intros Hm. apply keeps_of_snd. intros p Hp. unfold gate_fine. by rewrite Hm. Qed.

Lemma read_decision_fine : keeps gate_fine (read_decision decision_clock).
Proof. by apply pure_fine. Qed.
Lemma read_authorised_fine : keeps gate_fine (read_authorised authorised).
Proof. by apply pure_fine. Qed.
Lemma trace_call_fine operation : keeps gate_fine (trace_call telemetry_clock operation).
Proof. apply pure_fine. intros p. unfold trace_call, bind, gets. by destruct (pr_trace p). Qed.
Lemma trace_finish_fine : keeps gate_fine (trace_finish telemetry_clock).
Proof.
  apply pure_fine. intros p. unfold trace_finish, bind, gets. destruct (pr_trace p); [|done].
  cbn. by destruct (Telemetry.finish _ _) as [[?|?] ?].
Qed.
Lemma new_trace_fine : keeps gate_fine (_new_trace telemetry_clock telemetry_wall_clock trace_id).
Proof. by apply pure_fine. Qed.
Lemma disable_fine : keeps gate_fine disable.
Proof. by apply modify_fine. Qed.

Hint Resolve store_action_fine wall_fine read_decision_fine read_authorised_fine trace_call_fine
  trace_finish_fine new_trace_fine disable_fine law_event_exists law_event_id law_claim_status
  law_record_event law_release law_attach harmless_terminal harmless_ensure : gate.

Lemma finish_result_fine r : keeps gate_fine (_finish_result telemetry_clock outbox r).
Proof. unfold _finish_result, _release_outbox_without_telemetry. keeps_tac. Qed.
Lemma record_fine event paths : keeps gate_fine (_record outbox event paths).
Proof. apply store_action_fine, law_record_event. Qed.
Lemma duplicate_reason_fine key : keeps gate_fine (duplicate_reason key).
Proof. unfold duplicate_reason. keeps_tac. Qed.
Hint Resolve finish_result_fine record_fine duplicate_reason_fine : gate.

Lemma record_skipped_fine paths reason received reuse key started processing trigger :
  keeps gate_fine (record_skipped wall_clock telemetry_clock telemetry_wall_clock trace_id outbox digest_of
    empty_burst paths reason received reuse key started processing trigger).
Proof.
  unfold record_skipped, skipped_duplicate, trace_set_trigger, trace_mark_decision, seed_trace, trace_seed,
    burst_mark, trace_mark_burst. cbv zeta. keeps_tac.
Qed.

Lemma processed_duplicate_fine key paths : keeps gate_fine (processed_duplicate outbox key paths).
Proof. unfold processed_duplicate. keeps_tac. Qed.

Lemma run_ocr_fine deadline on_start :
  keeps gate_fine on_start -> keeps gate_fine (_run_ocr_bounded (St := St) decision_clock deadline on_start).
Proof.
  intros Hs. unfold _run_ocr_bounded, _cancel_and_reap_ocr_worker, next_run, note_closed, hold_slot.
  keeps_tac; try (by apply modify_fine); apply pure_fine; intros p; unfold of_result; done.
Qed.

Lemma scan_frame_fine started deadline plates sequence path digest s :
  keeps gate_fine (scan_frame (St := St) decision_clock telemetry_clock decision_timeout measure started deadline
    plates sequence path digest s).
Proof.
  unfold scan_frame, time_left, past_timeout, recognise_frame, _recognise, attempt_if_started, trace_add_frame,
    trace_add_ocr_rejection, trace_add_ocr_attempt.
  keeps_tac; try (by apply modify_fine); apply run_ocr_fine; unfold start_ocr, trace_mark_ocr_start;
    keeps_tac; by apply modify_fine.
Qed.

Lemma scan_frames_fine started deadline plates sequence frames s :
  keeps gate_fine (scan_frames (St := St) decision_clock telemetry_clock decision_timeout measure started deadline
    plates sequence frames s).
Proof.
  revert sequence s. induction frames as [|[path digest] frames IH]; intros sequence s; cbn; [apply keeps_ret|].
  apply keeps_bind; [apply scan_frame_fine|]. intros [s' go_on]. destruct go_on; [apply IH|apply keeps_ret].
Qed.

Lemma report_marks_fine before : keeps gate_fine (report_marks (St := St) telemetry_clock before).
Proof.
  unfold report_marks. apply keeps_bind; [apply keeps_gets|]. intros events.
  induction events as [|[| | | |] events IH]; keeps_tac; apply trace_call_fine.
Qed.

(** An action that keeps the gate fine ends well. *)
Lemma fine_ends {A} (m : M (processor St) A) : keeps gate_fine m -> post gate_fine m ends.
Proof. intros Hm. eapply post_keeps; [exact Hm|done|]. intros r p Hp. by left. Qed.

Lemma fine_then {A B} (m : M (processor St) A) (k : A -> M (processor St) B) :
  keeps gate_fine m -> (forall a, post gate_fine (k a) ends) -> post gate_fine (bind m k) ends.
Proof.
  intros Hm Hk. apply (post_bind _ _ _ (fun _ => gate_fine)); [|done].
  eapply post_keeps; [exact Hm|done|]. intros [a|e] p Hp; [done|by left].
Qed.

Lemma act_ends key paths received_at activation_deadline decision event :
  post gate_fine (act wall_clock mono_clock telemetry_clock cooldown boot_id max_off_attempts check_authorised
    check_decision_clock check_closed outbox max_image_age key paths received_at activation_deadline decision event) ends.
Proof.
  unfold act, trace_revise_decision, trace_set_actuation_outcome.
  apply fine_then; [apply keeps_gets|]. intros before.
  apply (post_bind _ _ _ (fun _ => gate_fine)).
  - intros p r p' Hp E. unfold gate_action, lift in E.
    destruct (actuate _ _ _ _ _ _ _ _ _ _ _ (pr_gate p)) as [r1 g] eqn:Ea. injection E as <- <-.
    assert (Hpre : reads_option (Some (activation_check (St := St) wall_clock check_authorised check_decision_clock
      check_closed max_image_age decision received_at activation_deadline)))
      by (intros f [= <-]; apply activation_check_only_reads).
    destruct (actuate_post wall_clock mono_clock cooldown boot_id max_off_attempts Hmono _ _ None _ true true
      Hpre _ _ _ Hp Ea) as [Hg|[Hg ->]]; [destruct r1; [exact Hg|by left]|by right].
  - intros execution. apply fine_ends.
    destruct (_actuation_telemetry execution) as [[claim attempted] relay].
    keeps_tac; first [apply report_marks_fine|apply trace_call_fine].
Qed.

Lemma process_ends paths received_at decision_started_at processing_started_at trigger key :
  post gate_fine (process wall_clock mono_clock decision_clock telemetry_clock telemetry_wall_clock trace_id cooldown
    boot_id max_off_attempts authorised check_authorised check_decision_clock check_closed outbox max_image_age
    decision_timeout activation_guard digest_of empty_burst measure paths received_at decision_started_at
    processing_started_at trigger key) ends.
Proof.
  unfold process. cbv zeta. apply fine_then; [keeps_tac|]. intros started.
  apply fine_then; [keeps_tac|]. intros [|]; [apply fine_ends, processed_duplicate_fine|].
  apply fine_then; [keeps_tac|]. intros _. apply fine_then; [unfold trace_set_trigger; keeps_tac|]. intros _.
  apply fine_then; [unfold seed_trace, trace_seed; keeps_tac|]. intros _.
  apply fine_then; [unfold burst_mark, trace_mark_burst; keeps_tac|]. intros _.
  apply fine_then; [keeps_tac|]. intros received. apply fine_then; [keeps_tac|]. intros now.
  apply fine_then; [unfold past_timeout; keeps_tac|].
  intros [|]; [apply fine_ends, record_skipped_fine|]. destruct (negb _); [apply fine_ends, record_skipped_fine|].
  apply fine_then; [keeps_tac|]. intros [plates|]; [|apply fine_ends, record_skipped_fine].
  unfold examine. cbv zeta. apply fine_then; [apply scan_frames_fine|]. intros s.
  apply fine_then; [destruct (from_option _ _ _); unfold past_timeout; keeps_tac|]. intros late.
  destruct (sc_decision _) as [decision|]; [|apply fine_ends, record_skipped_fine].
  unfold conclude. apply fine_then; [apply wall_fine|]. intros decision_at.
  assert (Hdeny : forall reason, keeps gate_fine
    (deny telemetry_clock outbox (or_text key (_event_key_from_digests empty_burst (_unique_content_candidates digest_of paths).*2))
       (_unique_content_candidates digest_of paths).*1 received decision_at reason decision))
    by (intros reason; unfold deny, trace_mark_decision; keeps_tac).
  destruct (sc_timed_out _); [apply fine_ends, Hdeny|]. destruct (negb (_is_fresh _ _ _)); [apply fine_ends, Hdeny|].
  destruct (negb (md_allowed _)); [apply fine_ends, Hdeny|].
  apply fine_then; [apply trace_call_fine|]. intros _. apply fine_then; [apply wall_fine|]. intros actuation_at.
  destruct (negb (_is_fresh _ _ _)); [apply fine_ends; keeps_tac|apply act_ends].
Qed.
End ProcessorInvariant.

(** ** Histories *)

Section BurstHistories.
Context {St : Type} `{laws : StoreLaws St} `{!ProcessorOps St} `{!ProcessorLaws St}.
Context (wall_clock : nat -> datetime) (mono_clock : nat -> Z).
Context (decision_clock telemetry_clock : nat -> pyfloat) (telemetry_wall_clock : nat -> datetime).
Context (trace_id : nat -> string).
Context (cooldown : Z) (boot_id : option string) (max_off_attempts : nat).
Context (authorised : nat -> result (list pystr)).
Context (check_authorised : nat -> result (list pystr)) (check_decision_clock : nat -> pyfloat)
  (check_closed : nat -> bool).
Context (outbox : option (option string -> dict json)).
Context (max_image_age : Z) (decision_timeout activation_guard : pyfloat).
Context (empty_burst : string).

Inductive burst_label :=
| LProcess (paths : list string)
| LSkip (paths : list string)
| LProcessCrash (paths : list string)
| LOther (l : gate_label).

(** A call of [process] or [record_skipped] that leaves the process running; one
    during which it dies, and the restart; anything else that happens to the
    gate.  The files may have other contents at every call. *)
Inductive burst_step : processor St -> burst_label -> processor St -> Prop :=
| bs_process p digest_of measure paths received started processing trigger key r p' :
    process wall_clock mono_clock decision_clock telemetry_clock telemetry_wall_clock trace_id cooldown boot_id
      max_off_attempts authorised check_authorised check_decision_clock check_closed outbox max_image_age
      decision_timeout activation_guard digest_of empty_burst measure paths received started processing trigger
      key p = (r, p') ->
    r <> Err BaseExc -> burst_step p (LProcess paths) p'
| bs_skip p digest_of paths reason received reuse key started processing trigger r p' :
    record_skipped wall_clock telemetry_clock telemetry_wall_clock trace_id outbox digest_of empty_burst paths
      reason received reuse key started processing trigger p = (r, p') ->
    burst_step p (LSkip paths) p'
| bs_crash p digest_of measure paths received started processing trigger key r p1 p' :
    process wall_clock mono_clock decision_clock telemetry_clock telemetry_wall_clock trace_id cooldown boot_id
      max_off_attempts authorised check_authorised check_decision_clock check_closed outbox max_image_age
      decision_timeout activation_guard digest_of empty_burst measure paths received started processing trigger
      key p = (r, p1) ->
    restarted (pr_gate p1) (pr_gate p') -> burst_step p (LProcessCrash paths) p'
| bs_other p l p' :
    gate_step wall_clock mono_clock cooldown boot_id max_off_attempts (pr_gate p) l (pr_gate p') ->
    burst_step p (LOther l) p'.

Context (Hmono : forall i j, (i <= j)%nat -> (mono_clock i <= mono_clock j)%Z).

Lemma burst_step_fine p l p' :
  gate_fine mono_clock cooldown boot_id p -> burst_step p l p' -> gate_fine mono_clock cooldown boot_id p'.
Proof.
  intros Hp Hstep. destruct Hstep as
    [p digest_of measure paths received started processing trigger key r p' E Hr
    |p digest_of paths reason received reuse key started processing trigger r p' E
    |p digest_of measure paths received started processing trigger key r p1 p' E Hre
    |p l p' Hg].
  - by destruct (process_ends _ _ _ _ _ _ _ _ _ _ _ _ _ _ _ _ _ _ _ _ Hmono _ _ _ _ _ _ _ _ _ Hp E) as [?|[_ ?]].
  - eapply keeps_state; [apply record_skipped_fine|exact Hp|exact E].
  - eapply restarted_ok; [|exact Hre].
    by destruct (process_ends _ _ _ _ _ _ _ _ _ _ _ _ _ _ _ _ _ _ _ _ Hmono _ _ _ _ _ _ _ _ _ Hp E) as [[? _]|[? _]].
  - by eapply gate_step_ok.
Qed.
End BurstHistories.


(** ** A concrete burst *)

Definition sample_run (plate : string) : ocr_run :=
  {| or_closed_before := false; or_slot_freed := true; or_closed_mid := false; or_start_error := None;
     or_result := Ok {| po_plate := Some (of_ascii plate); po_confidence := float_1; po_make := None; po_colour := None |};
     or_in_time := true; or_reaped := true |}.
Definition sample_processor (runs : list ocr_run) : processor sqlite_store :=
  {| pr_gate := sample_world []; pr_trace := None; pr_decision_reads := 0; pr_telemetry_reads := 0;
     pr_telemetry_wall_reads := 0; pr_authorised_reads := 0; pr_closed := false; pr_slot_held := false;
     pr_ocr := runs; pr_ocr_started := false |}.
Definition burst_ticks (n : nat) : datetime := Aware (100000 * Z.of_nat n).
Definition sample_plates (n : nat) : result (list pystr) := Ok [of_ascii "AB12CDE"].
Definition sample_measure (path digest : string) : result FrameTelemetry := Err OSError.

Abbreviation sample_process paths :=
  (process (St := sqlite_store) burst_ticks sample_mono (fun _ => float_0) (fun _ => float_0) burst_ticks
    (fun _ => "trace") (seconds 20) (Some "boot") 3 sample_plates sample_plates (fun _ => float_0) (fun _ => false)
    None (seconds 8) (float_lit 4 0) float_0 (fun path => path) "empty" sample_measure paths None None None
    TriggerNone None).

Abbreviation sample_burst_step :=
  (burst_step (St := sqlite_store) burst_ticks sample_mono (fun _ => float_0) (fun _ => float_0) burst_ticks
    (fun _ => "trace") (seconds 20) (Some "boot") 3 sample_plates sample_plates (fun _ => float_0) (fun _ => false)
    None (seconds 8) (float_lit 4 0) float_0 "empty").

Example sample_bursts :
  let p1 := sample_process ["a.jpg"; "b.jpg"] (sample_processor [sample_run "XX99XXX"; sample_run "AB12CDE"; sample_run "AB12CDE"]) in
  let p2 := sample_process ["a.jpg"] (snd p1) in
  ((fun r => match r with Ok x => (prs_opened x, prs_reason x, prs_event_id x) | Err _ => (false, "", None) end) <$> [fst p1; fst p2],
   en_key <$> w_energised (pr_gate (snd p2))) =
  ([(true, "exact_match", Some 1%Z); (false, "duplicate_event", None)], ["a.jpg"]).
Proof. vm_compute. reflexivity. Qed.

Lemma sample_burst paths p :
  alive (fst (sample_process paths p)) = true -> sample_burst_step p (LProcess paths) (snd (sample_process paths p)).
Proof.
  intros Hr. destruct (sample_process paths p) as [r p'] eqn:E.
  eapply bs_process; [exact E|]. by intros ->.
Qed.

Definition two_bursts : processor sqlite_store :=
  snd (sample_process ["a.jpg"] (snd (sample_process ["a.jpg"] (sample_processor [sample_run "AB12CDE"; sample_run "AB12CDE"])))).

Lemma two_bursts_run :
  steps sample_burst_step (sample_processor [sample_run "AB12CDE"; sample_run "AB12CDE"])
    [LProcess ["a.jpg"]; LProcess ["a.jpg"]] two_bursts.
Proof.
  unfold two_bursts. do 2 (eapply steps_cons; [apply sample_burst; vm_compute; reflexivity|]). apply steps_nil.
Qed.


Lemma burst_opens_only_on_evidence_witness :
  length (w_energised (pr_gate (snd (sample_process ["a.jpg"] (sample_processor [sample_run "AB12CDE"]))))) = 1%nat /\
  exists r p', sample_process ["a.jpg"] (sample_processor [sample_run "AB12CDE"]) = (r, p') /\
    (w_energised (pr_gate p') = [] \/
     exists received plates observations n,
       allowed_evidence observations plates (decide_access observations plates) /\
       (0 <= n < w_wall (pr_gate p'))%nat /\ _is_fresh (burst_ticks n) received (seconds 8) = true).
Proof.
  split; [vm_compute; reflexivity|].
  destruct (sample_process ["a.jpg"] (sample_processor [sample_run "AB12CDE"])) as [r p'] eqn:E. exists r, p'.
  split; [reflexivity|].
  destruct (burst_opens_only_on_evidence _ _ _ _ _ _ _ _ _ _ _ _ _ _ _ _ _ _ _ _ _ _ _ _ _ _ _ p' r E)
    as [H|(received & started & plates & observations & i & n & _ & _ & _ & _ & Hev & Hn & _ & Hfresh & _)].
  - left. exact H.
  - right. exists received, plates, observations, n. split; [exact Hev|]. split; [exact Hn|exact Hfresh].
Defined.
