(* ===== verification/FrameQuality.v ===== *)
(** * Frame quality: gate_controller/images.py

    [measure_frame_quality], which the processor records for each frame, and
    [wait_until_readable].  What PIL decodes of a file is an argument: the
    histogram of its downsampled greyscale and that of the Laplacian's interior. *)

From S2P Require Import Prelude Json Float Telemetry Images.

Definition QUALITY_UNAVAILABLE_DIGEST : string := "0bb92cacc2ca2a3d4d74c0c2a1eac1ff71298bea2f172b80a5d7708ad98ee53d".

(** What PIL makes of a JPEG. *)
Record decoded_image := {
  di_width : Z;
  di_height : Z;
  di_gray_width : Z;
  di_gray_height : Z;
  (** [grayscale.histogram()], and that of the filtered interior. *)
  di_histogram : list Z;
  di_laplacian : list Z;
}.

Record quality_facts := {
  (** _content_digest *)
  qf_digest : result string;
  qf_signature : bool;
  (** [image.format == "JPEG"] *)
  qf_jpeg : result bool;
  qf_decoded : result decoded_image;
}.

(** [sum(weight(value) * count for value, count in enumerate(histogram))], from
    [value] on *)
Fixpoint weighted (weight : Z -> Z) (value : Z) (histogram : list Z) : Z :=
  match histogram with
  | [] => 0
  | count :: histogram' => weight value * count + weighted weight (value + 1) histogram'
  end.
Definition total (histogram : list Z) : Z := weighted (fun _ => 1%Z) 0 histogram.

(** [max(sum(histogram), 1)] *)
Definition pixel_count (histogram : list Z) : Z := Z.max (total histogram) 1.

(** [f / 128] *)
Definition over_128 (f : pyfloat) : pyfloat := match f with Fin m => fround m 128 | f => f end.

(** images.py: _sharpness_proxy *)
Definition _sharpness_proxy (d : decoded_image) : pyfloat :=
  if (di_gray_width d <? 3)%Z || (di_gray_height d <? 3)%Z then float_0
  else
    let mean_deviation := float_div (weighted (fun value => Z.abs (value - 128)) 0 (di_laplacian d)) (pixel_count (di_laplacian d)) in
    pymin (over_128 mean_deviation) float_1.

Definition frame (digest : string) (width height : Z) (sharpness brightness darkness highlight_clipping : pyfloat) (status : string)
  : FrameTelemetry :=
  {| ft_sequence := VInt 0; ft_digest := Some digest; ft_width := VInt width; ft_height := VInt height;
     ft_sharpness := VFloat sharpness; ft_brightness := VFloat brightness; ft_darkness := VFloat darkness;
     ft_highlight_clipping := VFloat highlight_clipping; ft_status := Some status |}.

(** The measurements of a decoded image. *)
Definition measured (digest : string) (d : decoded_image) : FrameTelemetry :=
  let histogram := di_histogram d in
  let count := pixel_count histogram in
  frame digest (di_width d) (di_height d) (_sharpness_proxy d)
    (float_div (weighted id 0 histogram) (255 * count))
    (float_div (total (take 33 histogram)) count) (float_div (total (drop 240 histogram)) count) "ok".

Definition unavailable (digest : string) : FrameTelemetry := frame digest 1 1 float_0 float_0 float_0 float_0 "quality_unavailable".

(** images.py: measure_frame_quality *)
Definition measure_frame_quality (digest : option string) (f : quality_facts) : result FrameTelemetry :=
  rbind (match digest with
         | Some digest => Ok digest
         | None => match qf_digest f with
                   | Err OSError | Err TimeoutError => Ok QUALITY_UNAVAILABLE_DIGEST
                   | r => r
                   end
         end) (fun digest =>
  caught (unavailable digest)
    (if negb (qf_signature f) then Err (ValueError "invalid image signature")
     else
       rbind (qf_jpeg f) (fun jpeg =>
       if negb jpeg then Err (ValueError "invalid image format") else rbind (qf_decoded f) (fun d => Ok (measured digest d))))).

(** images.py: wait_until_readable, with [fuel] polls; [valid] and [monotonic] are
    indexed by the poll, the deadline starts from [started]. *)
Fixpoint wait_loop (fuel poll : nat) (valid : nat -> bool) (monotonic : nat -> pyfloat) (deadline : pyfloat) : option bool :=
  match fuel with
  | O => None
  | S fuel' =>
      if valid poll then Some true
      else if fle deadline (monotonic poll) then Some false
      else wait_loop fuel' (S poll) valid monotonic deadline
  end.
Definition wait_until_readable (fuel : nat) (valid : nat -> bool) (started : pyfloat) (monotonic : nat -> pyfloat) (timeout : pyfloat)
  : option bool :=
  wait_loop fuel 0 valid monotonic (fadd started (pymax timeout float_0)).

(** ** The proxies are ratios *)

(** A division of a part by the whole is rounded to at most one. *)
Lemma round_part p q b : (0 < q)%Z -> (0 <= p <= q * b)%Z -> (0 <= round_half_even p q <= b)%Z.
Proof.
  intros Hq Hp. split; [apply round_half_even_nonneg; lia|]. unfold round_half_even.
  assert (Hd : (p / q <= b)%Z) by (apply Z.div_le_upper_bound; lia).
  destruct (decide (p / q = b)%Z) as [E|Hne]; [|repeat case_match; lia].
  assert (Hm : (p mod q = 0)%Z). { pose proof (Z.div_mod p q ltac:(lia)). pose proof (Z.mod_pos_bound p q Hq). nia. }
  rewrite Hm. destruct (Z.ltb_spec (2 * 0) q); [|lia]. lia.
Qed.

Lemma fround_part p q : (0 < q)%Z -> (0 <= p <= q)%Z -> exists m, fround (p * two1074) q = Fin m /\ (0 <= m <= two1074)%Z.
Proof.
  intros Hq Hp. pose proof two1074_pos as Ht. assert (Hpq : (0 <= p * two1074 <= q * two1074)%Z) by nia.
  assert (Hdiv : (p * two1074 / q <= two1074)%Z) by (apply Z.div_le_upper_bound; lia).
  assert (Hb : (0 <= fround_pos (p * two1074) q <= two1074)%Z).
  { unfold fround_pos. cbv zeta. destruct (Z.leb_spec (Z.log2 (p * two1074 / q) - 52) 0) as [|Hk]; [apply round_part; lia|].
    set (k := (Z.log2 (p * two1074 / q) - 52)%Z) in *. assert (Hle : (k <= 1022)%Z).
    { unfold k. apply Z.log2_le_mono in Hdiv. unfold two1074 in Hdiv at 2. rewrite Z.shiftl_1_l, Z.log2_pow2 in Hdiv by lia. lia. }
    assert (Hsplit : two1074 = (2 ^ (1074 - k) * 2 ^ k)%Z).
    { unfold two1074. rewrite Z.shiftl_1_l, <- Z.pow_add_r by lia. f_equal. lia. }
    assert (Hpow : (0 < 2 ^ k)%Z) by (apply Z.pow_pos_nonneg; lia).
    assert (Hr : (0 <= round_half_even (p * two1074) (q * 2 ^ k) <= 2 ^ (1074 - k))%Z).
    { apply round_part; [apply Z.mul_pos_pos; lia|]. split; [lia|]. transitivity (q * two1074)%Z; [lia|].
      apply Z.eq_le_incl. rewrite Hsplit. ring. }
    split; [apply Z.mul_nonneg_nonneg; lia|]. transitivity (2 ^ (1074 - k) * 2 ^ k)%Z; [apply Z.mul_le_mono_nonneg_r; lia|lia]. }
  unfold fround. destruct (Z.ltb_spec (p * two1074) 0); [lia|]. exists (fround_pos (p * two1074) q). split; [|exact Hb].
  assert (E : overflows (fround_pos (p * two1074) q) = false).
  { unfold overflows. apply Z.leb_gt. rewrite Z.abs_eq by lia. eapply Z.le_lt_trans; [apply Hb|]. unfold two1074.
    rewrite !Z.shiftl_1_l. apply Z.pow_lt_mono_r; lia. }
  by rewrite E.
Qed.

(** A histogram as PIL documents it: a count for each of the 256 values. *)
Definition is_histogram (l : list Z) : Prop := length l = 256%nat /\ Forall (fun n => 0 <= n)%Z l.

Lemma weighted_between weight bound l : forall value, Forall (fun n => 0 <= n)%Z l ->
  (forall v, (value <= v < value + Z.of_nat (length l))%Z -> (0 <= weight v <= bound)%Z) ->
  (0 <= weighted weight value l <= bound * total l)%Z.
Proof.
  assert (Htotal : forall l v, weighted (fun _ => 1%Z) v l = total l).
  { unfold total. intros l'. assert (H : forall v v', weighted (fun _ => 1%Z) v l' = weighted (fun _ => 1%Z) v' l').
    { induction l' as [|n l' IH]; [done|]. intros v v'. cbn [weighted]. by rewrite (IH (v + 1)%Z (v' + 1)%Z). }
    intros v. apply H. }
  induction l as [|n l IH]; intros value Hl Hw; [cbn; lia|]. apply list.Forall_cons in Hl as [Hn Hl].
  specialize (IH (value + 1)%Z Hl). cbn [length] in Hw. unfold total. cbn [weighted]. rewrite Htotal.
  assert (H1 : (0 <= weight value <= bound)%Z) by (apply Hw; lia).
  assert (H2 : (0 <= weighted weight (value + 1) l <= bound * total l)%Z) by (apply IH; intros v Hv; apply Hw; lia). nia.
Qed.

Lemma total_nonneg l : Forall (fun n => 0 <= n)%Z l -> (0 <= total l)%Z.
Proof. intros Hl. pose proof (weighted_between (fun _ => 1%Z) 1 l 0 Hl ltac:(intros; lia)). unfold total in *. lia. Qed.

Lemma weighted_app weight l k : forall value, weighted weight value (l ++ k) = (weighted weight value l + weighted weight (value + Z.of_nat (length l)) k)%Z.
Proof.
  induction l as [|n l IH]; intros value; cbn [app weighted length].
  - by rewrite Z.add_0_r.
  - rewrite IH. replace (value + 1 + Z.of_nat (length l))%Z with (value + Z.of_nat (S (length l)))%Z by lia. lia.
Qed.
Lemma total_app l k : total (l ++ k) = (total l + total k)%Z.
Proof.
  unfold total. rewrite weighted_app. f_equal. generalize (0 + Z.of_nat (length l))%Z as v. intros v. generalize 0%Z. revert v.
  induction k as [|n k IH]; [done|]. intros v w. cbn [weighted]. by rewrite (IH (v + 1)%Z (w + 1)%Z).
Qed.

Lemma part_ratio part l weight : Forall (fun n => 0 <= n)%Z l -> (0 < weight)%Z -> (0 <= part <= weight * total l)%Z ->
  is_ratio (float_div part (weight * pixel_count l)).
Proof.
  intros Hl Hw Hp. pose proof (total_nonneg l Hl). unfold pixel_count. apply fround_part; [nia|]. nia.
Qed.

Lemma share_ratio part l : Forall (fun n => 0 <= n)%Z l -> (0 <= part <= total l)%Z -> is_ratio (float_div part (pixel_count l)).
Proof. intros Hl Hp. pose proof (total_nonneg l Hl). unfold pixel_count. apply fround_part; lia. Qed.

Lemma ratio_unchanged f : is_ratio f -> _ratio (VFloat f) = f.
Proof.
  intros (m & -> & Hm). unfold _ratio, pymin, pymax, float_0, float_1, float_lit, Telemetry.to_float. cbn [isfinite negb flt].
  change (Z.shiftl 1 (0 + 1074)) with two1074. destruct (Z.ltb_spec m 0); [lia|]. cbn [flt]. destruct (Z.ltb_spec two1074 m); [lia|done].
Qed.

Lemma sharpness_ratio d : is_histogram (di_laplacian d) -> is_ratio (_sharpness_proxy d).
Proof.
  intros [Hlen Hl]. assert (H0 : is_ratio float_0) by (exists 0%Z; split; [done|pose proof two1074_pos; lia]).
  unfold _sharpness_proxy. destruct (_ || _); [done|]. cbv zeta. set (part := weighted _ _ _).
  assert (Hpart : (0 <= part <= 128 * total (di_laplacian d))%Z).
  { apply weighted_between; [done|]. rewrite Hlen. intros v Hv. lia. }
  pose proof (total_nonneg _ Hl) as Ht.
  assert (Hmean : exists m, float_div part (pixel_count (di_laplacian d)) = Fin m /\ (0 <= m <= 2 * (128 * two1074) + 1)%Z).
  { apply fround_finite.
    - unfold pixel_count. lia.
    - pose proof two1074_pos. nia.
    - unfold pixel_count. apply Z.div_le_upper_bound; [lia|]. pose proof two1074_pos. nia.
    - apply (bool_decide_unpack _). by vm_compute. }
  destruct Hmean as (m & -> & Hm). unfold over_128.
  destruct (fround_finite m 128 m) as (m' & -> & Hm'); [lia|lia|apply Z.div_le_upper_bound; lia| |].
  { apply (Z.le_lt_trans _ (2 * (2 * (128 * two1074) + 1) + 1)%Z); [lia|]. apply (bool_decide_unpack _). by vm_compute. }
  unfold pymin, float_1, float_lit. cbn [flt]. change (Z.shiftl 1 (0 + 1074)) with two1074.
  pose proof two1074_pos. destruct (Z.ltb_spec two1074 m'); eexists; (split; [reflexivity|lia]).
Qed.

(** ** What is recorded of a frame *)

(** What PIL and hashlib document: histograms of the 256 grey values, digests of 64
    hexadecimal digits. *)
Definition documented (digest : option string) (f : quality_facts) : Prop :=
  (forall d, qf_decoded f = Ok d -> is_histogram (di_histogram d) /\ is_histogram (di_laplacian d)) /\
  (forall s, digest = Some s \/ qf_digest f = Ok s -> sha256_match s = true).

(** The four proxies of a frame. *)
Definition proxies (t : FrameTelemetry) : list pyval :=
  [ft_sharpness t; ft_brightness t; ft_darkness t; ft_highlight_clipping t].

Lemma measured_ratios digest d : is_histogram (di_histogram d) -> is_histogram (di_laplacian d) ->
  Forall (fun v => exists f, v = VFloat f /\ is_ratio f) (proxies (measured digest d)).
Proof.
  intros [Hlen Hl] Hlaplacian. set (l := di_histogram d) in *.
  assert (Hpart : forall a b, l = a ++ b -> (0 <= total a <= total l)%Z /\ (0 <= total b <= total l)%Z).
  { intros a b E. rewrite E in Hl |- *. apply list.Forall_app in Hl as [Ha Hb]. rewrite total_app.
    pose proof (total_nonneg a Ha). pose proof (total_nonneg b Hb). lia. }
  assert (Hw : (0 <= weighted id 0 l <= 255 * total l)%Z).
  { apply weighted_between; [done|]. rewrite Hlen. unfold id. lia. }
  repeat apply List.Forall_cons; [| | | |constructor]; (eexists; split; [reflexivity|]).
  - by apply sharpness_ratio.
  - apply part_ratio; [done|lia|done].
  - apply share_ratio; [done|]. apply (Hpart _ (drop 33 l)). by rewrite take_drop.
  - apply share_ratio; [done|]. apply (Hpart (take 240 l) (drop 240 l)). by rewrite take_drop.
Qed.

(** How the digest of a frame is found. *)
Definition digest_of (digest : option string) (f : quality_facts) (s : string) : Prop :=
  digest = Some s \/
  digest = None /\ (qf_digest f = Ok s \/ (qf_digest f = Err OSError \/ qf_digest f = Err TimeoutError) /\ s = QUALITY_UNAVAILABLE_DIGEST).

(** Everything was read of the image [d]. *)
Definition decodes (f : quality_facts) (d : decoded_image) : Prop :=
  qf_signature f = true /\ qf_jpeg f = Ok true /\ qf_decoded f = Ok d.

Lemma measure_cases digest f t : measure_frame_quality digest f = Ok t ->
  exists s, digest_of digest f s /\
    ((exists d, decodes f d /\ t = measured s d) \/ (t = unavailable s /\ forall d, ~ decodes f d)).
Proof.
  unfold measure_frame_quality, digest_of, decodes. intros H.
  set (found := match digest with Some digest => Ok digest | None => _ end) in H.
  destruct found as [s|e] eqn:E; [|discriminate H]. exists s. split.
  { unfold found in E. destruct digest as [s'|]; [left; congruence|right; split; [done|]].
    destruct (qf_digest f) as [s'|[]] eqn:Ed; simplify_eq; auto. }
  clear E. cbn [rbind] in H. destruct (qf_signature f); cbn [negb] in H.
  2: { right. split; [by apply ok_inj in H|]. by intros d (? & _). }
  destruct (qf_jpeg f) as [[]|e]; cbn [rbind negb] in H.
  - destruct (qf_decoded f) as [d|e]; cbn [rbind] in H.
    + left. exists d. split; [done|]. symmetry. exact (ok_inj _ _ H).
    + right. split; [|by intros d (_ & _ & ?)]. unfold caught in H. destruct (image_caught e); [symmetry; exact (ok_inj _ _ H)|discriminate H].
  - right. split; [symmetry; exact (ok_inj _ _ H)|]. by intros d (_ & ? & _).
  - right. split; [|by intros d (_ & ? & _)]. unfold caught in H. destruct (image_caught e); [symmetry; exact (ok_inj _ _ H)|discriminate H].
Qed.

Lemma wire_unclamped t s : ft_digest t = Some s -> sha256_match s = true ->
  Forall (fun v => exists x, v = VFloat x /\ is_ratio x) (proxies t) ->
  exists w, frame_to_wire t = Some w /\
    Forall2 (fun k v => exists x, v = VFloat x /\ (k, JFloat x) ∈ w) ["sharpness"; "brightness"; "darkness"; "highlight_clipping"] (proxies t).
Proof.
  intros Hs Hmatch Hratios. unfold frame_to_wire. rewrite Hs, Hmatch. eexists. split; [reflexivity|]. unfold proxies in *.
  apply list.Forall_cons in Hratios as [(a & -> & Ha) Hratios]. apply list.Forall_cons in Hratios as [(b & -> & Hb) Hratios].
  apply list.Forall_cons in Hratios as [(c & -> & Hc) Hratios]. apply list.Forall_cons in Hratios as [(e & -> & He) _].
  rewrite !ratio_unchanged by done.
  repeat (apply List.Forall2_cons; [eexists; split; [reflexivity|]; repeat (apply list_elem_of_here || apply list_elem_of_further)|]).
  constructor.
Qed.

(** what the processor records of a frame.  The digest is the one given or that of
    the file; the frame is marked unavailable exactly when the file could not be read
    as a JPEG; and the four quality proxies leave for the service as they were
    measured: each is a ratio already, so the clamping of the wire format changes none. *)
Theorem frame_quality_exact digest f t : documented digest f -> measure_frame_quality digest f = Ok t ->
  exists s, digest_of digest f s /\ ft_digest t = Some s /\
    ((exists d, decodes f d /\ t = measured s d) \/ (t = unavailable s /\ forall d, ~ decodes f d)) /\
    exists w, frame_to_wire t = Some w /\
      Forall2 (fun k v => exists x, v = VFloat x /\ (k, JFloat x) ∈ w) ["sharpness"; "brightness"; "darkness"; "highlight_clipping"] (proxies t).
Proof.
  intros [Hhist Hdigest] H. destruct (measure_cases _ _ _ H) as (s & Hs & Hcases). exists s.
  assert (Hmatch : sha256_match s = true).
  { destruct Hs as [->|[_ [E|[_ ->]]]]; [by apply Hdigest; left|by apply Hdigest; right|by vm_compute]. }
  assert (Ht : ft_digest t = Some s) by (destruct Hcases as [(d & _ & ->)|[-> _]]; done).
  split; [exact Hs|]. split; [exact Ht|]. split; [exact Hcases|]. apply (wire_unclamped _ _ Ht Hmatch).
  destruct Hcases as [(d & (_ & _ & Hd) & ->)|[-> _]].
  - apply Hhist in Hd as [H1 H2]. by apply measured_ratios.
  - repeat apply List.Forall_cons; try constructor; exists float_0; (split; [reflexivity|]); exists 0%Z; (split; [reflexivity|]);
      pose proof two1074_pos; lia.
Qed.

(** ** The wait ends *)

(** One poll at or after the deadline is enough fuel, and the answer is whether the
    image was complete at some poll until then. *)
Lemma wait_terminates valid monotonic deadline n : forall fuel poll, (poll <= n < poll + fuel)%nat ->
  fle deadline (monotonic n) = true -> exists b, wait_loop fuel poll valid monotonic deadline = Some b /\
    (b = true <-> exists p, (poll <= p <= n)%nat /\ valid p = true /\ forall k, (poll <= k < p)%nat -> fle deadline (monotonic k) = false).
Proof.
  induction fuel as [|fuel IH]; intros poll Hpoll Hn; [lia|]. cbn [wait_loop]. destruct (valid poll) eqn:Hv.
  { exists true. split; [done|]. split; [|done]. intros _. exists poll. split; [lia|]. split; [done|]. lia. }
  destruct (fle deadline (monotonic poll)) eqn:Hd.
  { exists false. split; [done|]. split; [done|]. intros (p & Hp & Hvp & Hk). destruct (decide (p = poll)) as [->|]; [congruence|].
    rewrite (Hk poll) in Hd; [done|lia]. }
  assert (poll <> n) by (intros ->; congruence). destruct (IH (S poll)) as (b & Hb & Hiff); [lia|done|]. exists b. split; [done|]. rewrite Hiff.
  split; intros (p & Hp & Hvp & Hk); exists p.
  - split; [lia|]. split; [done|]. intros k Hk'. destruct (decide (k = poll)) as [->|]; [done|]. apply Hk. lia.
  - destruct (decide (p = poll)) as [->|]; [congruence|]. split; [lia|]. split; [done|]. intros k Hk'. apply Hk. lia.
Qed.

(** ** On a concrete frame *)
Module Sample.

Definition digest : string := "0123456789abcdef0123456789abcdef0123456789abcdef0123456789abcdef".

(** Four black, two white and two grey pixels around a flat interior. *)
Definition picture : decoded_image :=
  {| di_width := 4; di_height := 2; di_gray_width := 4; di_gray_height := 3;
     di_histogram := 4%Z :: replicate 127 0%Z ++ [2%Z] ++ replicate 126 0%Z ++ [2%Z]; di_laplacian := replicate 64 0%Z ++ [2%Z] ++ replicate 191 0%Z |}.
Definition facts : quality_facts := {| qf_digest := Ok digest; qf_signature := true; qf_jpeg := Ok true; qf_decoded := Ok picture |}.

Example half_sharp : _sharpness_proxy picture = float_half.
Proof. by vm_compute. Qed.

Lemma frame_quality_exact_witness : exists s, digest_of None facts s /\ ft_digest (measured digest picture) = Some s.
Proof.
  assert (Hd : documented None facts).
  { split.
    - intros d E. change (Ok picture = Ok d) in E. apply ok_inj in E as <-. split; (split; [by vm_compute|apply (bool_decide_unpack _); by vm_compute]).
    - intros s [E|E]; [discriminate E|]. change (Ok digest = Ok s) in E. apply ok_inj in E as <-. by vm_compute. }
  destruct (frame_quality_exact None facts (measured digest picture) Hd ltac:(exact eq_refl)) as (s & Hs & Ht & _).
  exact (ex_intro _ s (conj Hs Ht)).
Defined.

Definition clock_at (n : nat) : pyfloat := float_of_Z (Z.of_nat n).
Example waits_for_the_upload : wait_until_readable 9 (fun n => (3 <=? n)%nat) float_0 clock_at (float_of_Z 5) = Some true.
Proof. by vm_compute. Qed.
Example gives_up : wait_until_readable 9 (fun n => (7 <=? n)%nat) float_0 clock_at (float_of_Z 5) = Some false.
Proof. by vm_compute. Qed.

End Sample.
