(* ===== verification/Shutdown.v ===== *)
(** * The shutdown of the controller: gate_controller/__main__.py

    [_bounded_shutdown_call], [_shutdown_controller] and the close of the hot stream
    before it, over the processor and the relay they act on (Processor.v, Relay.v).
    A call runs in a thread of its own; when it is not over in time, what it has
    done so far is unknown and it goes on by itself. *)

From S2P Require Import Prelude Relay Actuation Processor.

(** What a call returned: [None] is an object that is not a bool. *)
Abbreviation value := (option bool).

Inductive shutdown_call := HotStreamClose | BeginShutdown | ProcessorClose | RelayShutdown.

#[global] Instance shutdown_call_eq_dec : EqDecision shutdown_call.
Proof. solve_decision. Defined.

(** How the join of a call's thread ends. *)
Inductive join (S : Type) :=
| InTime
| StillRunning (so_far : S -> S) (appended : option value).
Arguments InTime {S}.
Arguments StillRunning {S} so_far appended.

Section Shutdown.
Context {St : Type}.

(** The controller, and the calls made. *)
Record shutting_down := { sd_controller : processor St; sd_calls : list shutdown_call }.

Definition relay_of_controller (p : processor St) : relay_state := w_relay (pr_gate p).
Definition put_relay_of_controller (r : relay_state) (p : processor St) : processor St := set_gate (put_relay r (pr_gate p)) p.

(** __main__.py: _bounded_shutdown_call: whether the thread is over, and the
    result it left, which is False when the operation raised. *)
Definition _bounded_shutdown_call {A} (call : shutdown_call) (operation : M (processor St) A) (returned : A -> value)
    (j : join (processor St)) (s : shutting_down) : (bool * option value) * shutting_down :=
  let calls := sd_calls s ++ [call] in
  match j with
  | InTime =>
      match operation (sd_controller s) with
      | (Ok a, p) => ((true, Some (returned a)), {| sd_controller := p; sd_calls := calls |})
      | (Err _, p) => ((true, Some (Some false)), {| sd_controller := p; sd_calls := calls |})
      end
  | StillRunning so_far appended => ((false, appended), {| sd_controller := so_far (sd_controller s); sd_calls := calls |})
  end.

(** The joins of the three calls, and what each call of the relay reads. *)
Record shutdown_environment := {
  se_begin : join (processor St);
  se_close : join (processor St);
  se_relay : join (processor St);
  se_ready : bool * bool;
  se_now : datetime * datetime;
}.

Section Controller.
Context (E : shutdown_environment) (max_off_attempts : nat).

Definition relay_call (ready : bool) (now : datetime) : M (processor St) bool :=
  lift relay_of_controller put_relay_of_controller (begin_shutdown max_off_attempts ready now).

(** __main__.py: _shutdown_controller *)
Definition _shutdown_controller (s : shutting_down) : bool * shutting_down :=
  let '((latch_completed, latch_result), s) :=
    _bounded_shutdown_call BeginShutdown (relay_call (fst (se_ready E)) (fst (se_now E))) Some (se_begin E) s in
  let relay_latched := latch_completed && negb (bool_decide (latch_result = Some (Some false))) in
  if relay_latched then
    let '((processor_completed, _), s) := _bounded_shutdown_call ProcessorClose close (fun _ => None) (se_close E) s in
    let '((relay_completed, relay_safe), s) :=
      _bounded_shutdown_call RelayShutdown (relay_call (snd (se_ready E)) (snd (se_now E))) Some (se_relay E) s in
    (processor_completed && relay_completed && bool_decide (relay_safe = Some (Some true)), s)
  else (false, s).

(** __main__.py: _shutdown_controller_with_hot_stream; what the close raises is
    logged. *)
Definition _shutdown_controller_with_hot_stream (hot_stream : option (result unit)) (s : shutting_down) : bool * shutting_down :=
  _shutdown_controller
    match hot_stream with
    | Some _ => {| sd_controller := sd_controller s; sd_calls := sd_calls s ++ [HotStreamClose] |}
    | None => s
    end.
End Controller.

(** ** What a shutdown reached *)

Lemma deenergized_low n : forall s s', _deenergize_at_boundary n s = (Ok true, s') ->
  rl_pin s' = false /\ rl_latched s' = rl_latched s /\ rl_shutdown_requested s' = rl_shutdown_requested s.
Proof.
  induction n as [|n IH]; intros s s'; [done|]. cbn [_deenergize_at_boundary]. unfold try_except, bind, gpio_off.
  destruct (head (rl_off_plan s)) as [[|drove e]|].
  - by intros [= <-].
  - destruct (is_Exception e); [|done]. intros H. apply IH in H as (H1 & H2 & H3). destruct drove; by rewrite H1, H2, H3.
  - by intros [= <-].
Qed.

(** A shutdown that answers true has latched the controller with the pin low. *)
Definition shut (r : relay_state) : Prop := rl_pin r = false /\ rl_latched r = true /\ rl_shutdown_requested r = true.

Lemma begin_shutdown_shut n ready now s s' : begin_shutdown n ready now s = (Ok true, s') -> shut s'.
Proof.
  unfold begin_shutdown, modify, bind. cbn.
  match goal with |- context [_deenergize_at_boundary n ?x] => destruct (_deenergize_at_boundary n x) as [[[|]|e] s1] eqn:E; [| |done] end.
  - apply deenergized_low in E as (H1 & H2 & H3). unfold _notify_without_waiting, _notify, ret. cbn.
    destruct ready; destruct (rl_active_callback s1); cbn; intros [= <-]; by split.
  - unfold _notify_without_waiting, _notify, ret. cbn. destruct ready; by intros [=].
Qed.

Lemma relay_call_shut n ready now p p' : relay_call n ready now p = (Ok true, p') ->
  shut (relay_of_controller p') /\ pr_closed p' = pr_closed p.
Proof.
  unfold relay_call, lift. destruct (begin_shutdown n ready now (relay_of_controller p)) as [r s] eqn:E. intros [= -> <-].
  apply begin_shutdown_shut in E. by split.
Qed.

Lemma bounded_in_time {A} call (operation : M (processor St) A) returned j s completed result s' :
  _bounded_shutdown_call call operation returned j s = ((completed, result), s') ->
  sd_calls s' = sd_calls s ++ [call] /\
  (completed = true -> j = InTime /\
     ((exists a, operation (sd_controller s) = (Ok a, sd_controller s') /\ result = Some (returned a)) \/
      (exists e, operation (sd_controller s) = (Err e, sd_controller s') /\ result = Some (Some false)))).
Proof.
  unfold _bounded_shutdown_call. destruct j as [|so_far appended].
  - destruct (operation (sd_controller s)) as [[a|e] p]; intros [= <- <- <-]; (split; [done|]); intros _; (split; [done|]);
      [left; by exists a|right; by exists e].
  - by intros [= <- <- <-].
Qed.
End Shutdown.

(** A shutdown first closes the hot stream, whatever that does, then asks the relay
    to latch and goes on only when it did in time; it reports success only when the
    three calls ended in time, and then the pin is low, the relay is latched and has
    seen the request, and the processor accepts no more bursts. *)
Theorem shutdown_reported {St} (E : shutdown_environment (St := St)) n hot_stream s safe s' :
  _shutdown_controller_with_hot_stream E n hot_stream s = (safe, s') ->
  (exists calls, sd_calls s' = sd_calls s ++ (if hot_stream then [HotStreamClose] else []) ++ BeginShutdown :: calls /\
     (calls = [] \/ calls = [ProcessorClose; RelayShutdown] /\ se_begin E = InTime) /\ (safe = true -> calls <> [])) /\
  (safe = true ->
     se_begin E = InTime /\ se_close E = InTime /\ se_relay E = InTime /\
     shut (relay_of_controller (sd_controller s')) /\ pr_closed (sd_controller s') = true).
Proof.
  unfold _shutdown_controller_with_hot_stream. set (s0 := match hot_stream with Some _ => _ | None => s end).
  assert (Hcalls : sd_calls s0 = sd_calls s ++ (if hot_stream then [HotStreamClose] else [])).
  { unfold s0. destruct hot_stream; [done|]. by rewrite app_nil_r. }
  unfold _shutdown_controller. destruct (_bounded_shutdown_call BeginShutdown _ _ _ s0) as [[latched latch] s1] eqn:E1.
  apply bounded_in_time in E1 as [C1 H1]. rewrite Hcalls in C1. destruct (latched && _) eqn:El.
  2: { intros [= <- <-]. split; [|done]. exists []. rewrite C1, <- app_assoc. split; [done|]. split; [by left|done]. }
  apply andb_true_iff in El as [-> _]. destruct (H1 eq_refl) as [J1 _].
  destruct (_bounded_shutdown_call ProcessorClose _ _ _ s1) as [[closed v] s2] eqn:E2. apply bounded_in_time in E2 as [C2 H2].
  destruct (_bounded_shutdown_call RelayShutdown _ _ _ s2) as [[off v'] s3] eqn:E3. apply bounded_in_time in E3 as [C3 H3].
  intros [= <- <-]. rewrite C2, C1 in C3. split.
  { exists [ProcessorClose; RelayShutdown]. rewrite C3, <- !app_assoc. split; [done|]. split; [by right|done]. }
  intros H. rewrite !andb_true_iff in H. destruct H as [[-> ->] Hv]. apply bool_decide_eq_true in Hv. subst v'.
  destruct (H2 eq_refl) as [J2 [(a & Hclose & _)|(e & Hclose & _)]]; [|done]. injection Hclose as _ Hclose.
  destruct (H3 eq_refl) as [J3 [(b & Hrelay & [= <-])|(e & _ & ?)]]; [|done].
  apply relay_call_shut in Hrelay as [Hshut Hclosed]. rewrite Hclosed, <- Hclose. exact (conj J1 (conj J2 (conj J3 (conj Hshut eq_refl)))).
Qed.

(** ** A shutdown *)

Module Sample.
Definition running : processor unit :=
  {| pr_gate := {| w_store := tt; w_relay := ready_relay; w_last_attempt := None; w_wall := 0; w_mono := 0; w_inhibition := None;
                   w_process := 0; w_energised := [] |};
     pr_trace := None; pr_decision_reads := 0; pr_telemetry_reads := 0; pr_telemetry_wall_reads := 0; pr_authorised_reads := 0;
     pr_closed := false; pr_slot_held := false; pr_ocr := []; pr_ocr_started := false |}.
Definition begun : shutting_down := {| sd_controller := running; sd_calls := [] |}.
Definition joins (close : join (processor unit)) : shutdown_environment :=
  {| se_begin := InTime; se_close := close; se_relay := InTime; se_ready := (true, true); se_now := (Aware 0, Aware 1) |}.
Definition outcome (close : join (processor unit)) := _shutdown_controller_with_hot_stream (joins close) 3 (Some (Err OSError)) begun.

(** A shutdown in time, although the hot stream failed to close; one whose processor
    hangs. *)
Lemma shutdown_reported_witness :
  (fst (outcome InTime) = true /\ shut (relay_of_controller (sd_controller (snd (outcome InTime))))) /\
  (fst (outcome (StillRunning id None)) = false /\
   exists calls, sd_calls (snd (outcome (StillRunning id None))) = [HotStreamClose; BeginShutdown] ++ calls).
Proof.
  split.
  - split; [by vm_compute|].
    destruct (shutdown_reported (joins InTime) 3 (Some (Err OSError)) begun _ _ (surjective_pairing _)) as [_ H].
    by destruct H as (_ & _ & _ & H & _).
  - split; [by vm_compute|].
    destruct (shutdown_reported (joins (StillRunning id None)) 3 (Some (Err OSError)) begun _ _ (surjective_pairing _)) as [(calls & H & _) _].
    exists calls. exact H.
Defined.
End Sample.
