(* ===== verification/Authorisation.v ===== *)
(** * Authorised plates: gate_controller/authorisation.py

    The plate cache over a file whose directory entry other processes may
    replace at any time and whose system calls may fail, the snapshot fetcher
    and the refresh worker.  The HTTP client is a parameter: the fetcher takes
    the JSON value [client.get_json] returned or the exception it raised. *)

From stdpp Require Import sorting.
From S2P Require Import Prelude Models Json Matching Store Csv Unicode.

Definition MAX_PLATE_ROWS : nat := 1000.
Definition MAX_NORMALISED_PLATE_LENGTH : nat := 16.

(** ** The file system *)

(** What [Path.stat] reports; [st_mtime_us] is the instant
    [datetime.fromtimestamp(st_mtime)] denotes. *)
Record stat := {
  st_ino : Z;
  st_size : Z;
  st_mtime_ns : Z;
  st_mtime_us : Z;
}.

(** A file: its content is None when it is not UTF-8. *)
Record file := {
  f_stat : stat;
  f_text : option pystr;
}.

(** What happens just before a system call: another process may have put
    another file at the path (or removed it), and the call may fail. *)
Record access := {
  acc_change : option (option file);
  acc_fails : bool;
}.

Record filesystem := {
  fs_file : option file;
  fs_temporary : option pystr;
  fs_script : list access;
}.

(** ** The cache object *)

Record AuthorisedPlateCache := {
  pc_plates : option (list pystr);
  pc_version : option (Z * Z * Z);
  pc_refreshed_at : option datetime;
  pc_last_error : option exc;
  pc_max_staleness : option Z;
}.

Record plate_world := {
  pw_fs : filesystem;
  pw_cache : AuthorisedPlateCache;
}.

Definition set_fs (f : filesystem) (w : plate_world) : plate_world :=
  {| pw_fs := f; pw_cache := pw_cache w |}.
Definition set_cache (c : AuthorisedPlateCache) (w : plate_world) : plate_world :=
  {| pw_fs := pw_fs w; pw_cache := c |}.

Definition set_file (f : option file) (s : filesystem) : filesystem :=
  {| fs_file := f; fs_temporary := fs_temporary s; fs_script := fs_script s |}.
Definition set_temporary (t : option pystr) (s : filesystem) : filesystem :=
  {| fs_file := fs_file s; fs_temporary := t; fs_script := fs_script s |}.

Definition put_plates (plates : list pystr) (c : AuthorisedPlateCache) : AuthorisedPlateCache :=
  {| pc_plates := Some plates; pc_version := pc_version c; pc_refreshed_at := pc_refreshed_at c;
     pc_last_error := pc_last_error c; pc_max_staleness := pc_max_staleness c |}.
Definition put_version (v : Z * Z * Z) (c : AuthorisedPlateCache) : AuthorisedPlateCache :=
  {| pc_plates := pc_plates c; pc_version := Some v; pc_refreshed_at := pc_refreshed_at c;
     pc_last_error := pc_last_error c; pc_max_staleness := pc_max_staleness c |}.
Definition put_refreshed (at_ : datetime) (c : AuthorisedPlateCache) : AuthorisedPlateCache :=
  {| pc_plates := pc_plates c; pc_version := pc_version c; pc_refreshed_at := Some at_;
     pc_last_error := pc_last_error c; pc_max_staleness := pc_max_staleness c |}.
Definition put_error (e : option exc) (c : AuthorisedPlateCache) : AuthorisedPlateCache :=
  {| pc_plates := pc_plates c; pc_version := pc_version c; pc_refreshed_at := pc_refreshed_at c;
     pc_last_error := e; pc_max_staleness := pc_max_staleness c |}.

Definition edit_cache (f : AuthorisedPlateCache -> AuthorisedPlateCache) : M plate_world unit :=
  modify (fun w => set_cache (f (pw_cache w)) w).

(** One system call. *)
Definition syscall : M plate_world unit := fun w =>
  match fs_script (pw_fs w) with
  | [] => (Ok tt, w)
  | a :: script =>
      let s := {| fs_file := default (fs_file (pw_fs w)) (acc_change a);
                  fs_temporary := fs_temporary (pw_fs w); fs_script := script |} in
      (if acc_fails a then Err OSError else Ok tt, set_fs s w)
  end.

(** The file a call finds at the path; FileNotFoundError is an OSError. *)
Definition open_path : M plate_world file :=
  syscall ;!
  let! f := gets (fun w => fs_file (pw_fs w)) in
  match f with Some f => ret f | None => raise OSError end.

(** authorisation.py: AuthorisedPlateCache._file_version *)
Definition _file_version : M plate_world (Z * Z * Z) :=
  let! f := open_path in
  ret (st_ino (f_stat f), st_size (f_stat f), st_mtime_ns (f_stat f)).

(** [text.lower() == "plate"]: no code point outside ASCII has a lower case
    made of these letters. *)
Definition is_plate_header (s : pystr) : bool := bool_decide (ascii_lower <$> strip s = of_ascii "plate").

(** The loop over the rows. *)
Fixpoint plate_rows (width : nat) (rows : list (list pystr)) : result (list pystr) :=
  match rows with
  | [] => Ok []
  | row :: rows' =>
      match row with
      | [] => plate_rows width rows'
      | field :: _ =>
          match strip field with
          | [] => plate_rows width rows'
          | plate =>
              if negb (length row =? width)%nat
              then Err (ValueError "authorised plates CSV has malformed row")
              else rbind (plate_rows width rows') (fun rest => Ok (plate :: rest))
          end
      end
  end.

(** authorisation.py: AuthorisedPlateCache._read_complete_file, on the text. *)
Definition parse_plates (text : pystr) : result (list pystr) :=
  rbind (csv_reader text) (fun rows =>
  match rows with
  | (h :: row) :: rows' =>
      if is_plate_header h then plate_rows (length (h :: row)) rows'
      else Err (ValueError "authorised plates CSV has no plate header")
  | _ => Err (ValueError "authorised plates CSV has no plate header")
  end).

Definition _read_complete_file : M plate_world (list pystr) :=
  let! f := open_path in
  match f_text f with
  | None => raise (ValueError "utf-8")
  | Some text => of_result (parse_plates text)
  end.

(** ** Operations *)

(** authorisation.py: _snapshot_is_stale *)
Definition _snapshot_is_stale (now refreshed_at : datetime) (max_staleness : Z) : bool :=
  match dt_sub now refreshed_at with
  | Err _ => true
  | Ok age => (age <? 0)%Z || (max_staleness <? age)%Z
  end.

Definition snapshot_stale (now : datetime) (c : AuthorisedPlateCache) : bool :=
  match pc_max_staleness c, pc_refreshed_at c with
  | Some m, Some at_ => _snapshot_is_stale now at_ m
  | _, _ => false
  end.

(** authorisation.py: AuthorisedPlateCache.get *)
Definition get (now : datetime) (c : AuthorisedPlateCache) : result (list pystr) :=
  match pc_plates c with
  | None => Err (AuthorisationError "no valid authorised-plates snapshot")
  | Some plates =>
      if snapshot_stale now c then Err (AuthorisationError "authorised-plates snapshot is stale")
      else Ok plates
  end.

(** The guarded part of [reload_local]. *)
Definition read_unchanged : M plate_world (list pystr * (Z * Z * Z)) :=
  let! version := _file_version in
  let! refreshed := _read_complete_file in
  let! again := _file_version in
  if bool_decide (again = version) then ret (refreshed, version)
  else raise (ValueError "authorised plates CSV changed during refresh").

(** [except (OSError, csv.Error, ValueError)] *)
Definition reload_caught (e : exc) : bool :=
  match e with OSError | CsvError | ValueError _ => true | _ => false end.

(** authorisation.py: AuthorisedPlateCache.reload_local *)
Definition reload_local : M plate_world bool := fun w =>
  match read_unchanged w with
  | (Err e, w') =>
      if reload_caught e then (edit_cache (put_error (Some e)) ;! ret false) w' else (Err e, w')
  | (Ok (refreshed, version), w') =>
      (edit_cache (fun c => put_version version (put_plates refreshed c)) ;!
       let! f := open_path in
       let modified_at := Aware (st_mtime_us (f_stat f)) in
       let! previous := gets (fun w => pc_refreshed_at (pw_cache w)) in
       let! newer := of_result (match previous with
                                | None => Ok true
                                | Some at_ => dt_lt at_ modified_at
                                end) in
       (if newer : bool then edit_cache (put_refreshed modified_at) else ret tt) ;!
       edit_cache (put_error None) ;!
       ret true) w'
  end.

(** [tuple(sorted(filter(None, (normalise_plate(value) for value in plates))))] *)
Definition normalised_plates (plates : list pystr) : list string :=
  merge_sort String.le (filter (fun s => s <> EmptyString) (normalise_plate <$> plates)).

Definition plates_text (normalised : list string) : pystr :=
  csv_text ((fun f => [f]) <$> of_ascii "plate" :: (of_ascii <$> normalised)).

(** The [finally] of [replace]: unlink, ignoring a missing file. *)
Definition unlink_temporary : M plate_world unit :=
  let! t := gets (fun w => fs_temporary (pw_fs w)) in
  match t with
  | None => ret tt
  | Some _ => syscall ;! modify (fun w => set_fs (set_temporary None (pw_fs w)) w)
  end.

(** Write and sync the temporary file, rename it over the path, sync the
    directory ([_fsync_directory]). *)
Definition publish (new_stat : stat) (text : pystr) : M plate_world unit :=
  syscall ;!
  modify (fun w => set_fs (set_temporary (Some text) (pw_fs w)) w) ;!
  syscall ;!
  modify (fun w => set_fs (set_temporary None
    (set_file (Some {| f_stat := new_stat; f_text := Some text |}) (pw_fs w))) w) ;!
  syscall.

(** authorisation.py: AuthorisedPlateCache.replace; [new_stat] is what the
    system gives the new file, [now] the clock reading. *)
Definition replace (now : datetime) (new_stat : stat) (plates : list pystr) : M plate_world unit :=
  let normalized := normalised_plates plates in
  syscall ;!
  syscall ;!
  modify (fun w => set_fs (set_temporary (Some []) (pw_fs w)) w) ;!
  try_finally (publish new_stat (plates_text normalized)) unlink_temporary ;!
  edit_cache (put_plates (of_ascii <$> normalized)) ;!
  let! version := _file_version in
  edit_cache (fun c => put_error None (put_refreshed now (put_version version c))).

(** authorisation.py: AuthorisedPlateCache.mark_refresh_error *)
Definition mark_refresh_error (e : exc) : M plate_world unit := edit_cache (put_error (Some e)).

(** authorisation.py: AuthorisedPlateCache.__init__ *)
Definition new_cache (max_staleness : option Z) (s : filesystem) : result unit * plate_world :=
  match reload_local {| pw_fs := s;
                        pw_cache := {| pc_plates := None; pc_version := None; pc_refreshed_at := None;
                                       pc_last_error := None; pc_max_staleness := max_staleness |} |} with
  | (Ok _, w) => (Ok tt, w)
  | (Err e, w) => (Err e, w)
  end.

(** authorisation.py: AuthorisedPlateCache.status *)
Record cache_status := {
  cs_available : bool;
  cs_stale : bool;
  cs_refreshed_at : option datetime;
  cs_last_error : option exc;
}.
Definition status (now : datetime) (c : AuthorisedPlateCache) : cache_status :=
  {| cs_available := bool_decide (is_Some (pc_plates c)); cs_stale := snapshot_stale now c;
     cs_refreshed_at := pc_refreshed_at c; cs_last_error := pc_last_error c |}.

(** ** The snapshot service *)

(** [row["plate"]] of a row that is a dict with a string there. *)
Definition plate_of_row (j : json) : option pystr :=
  match j with
  | JDict d => match dict_get "plate" d with JStr s => Some (of_ascii s) | _ => None end
  | _ => None
  end.

(** [not isinstance(rows, list) or any(not isinstance(row, dict) or ...)] *)
Fixpoint well_formed_rows (rows : list json) : bool :=
  match rows with
  | [] => true
  | row :: rows' => bool_decide (is_Some (plate_of_row row)) && well_formed_rows rows'
  end.

(** authorisation.py: CloudflarePlateFetcher.__call__ *)
Definition fetch_plates (controller_id : string) (reply : result json) : result json :=
  rbind reply (fun payload =>
  match payload with
  | JDict p =>
      if match dict_get "controller_id" p with JStr s => String.eqb s controller_id | _ => false end then
        match dict_get "plates" p with
        | JList rows =>
            if (MAX_PLATE_ROWS <? length rows)%nat || negb (well_formed_rows rows)
            then Err (AuthorisationError "Cloudflare plates returned invalid JSON")
            else if existsb (fun plate => MAX_NORMALISED_PLATE_LENGTH <? String.length (normalise_plate plate))%nat
                      (omap plate_of_row rows)
            then Err (AuthorisationError "Cloudflare plates exceeded the normalized plate length limit")
            else Ok (JList rows)
        | _ => Err (AuthorisationError "Cloudflare plates returned invalid JSON")
        end
      else Err (AuthorisationError "Cloudflare plates returned a snapshot for another controller")
  | _ => Err (AuthorisationError "Cloudflare plates returned a snapshot for another controller")
  end).

(** authorisation.py: AuthorisationRefreshWorker.run_once; [rows] is what the
    fetcher returned or raised. *)
Definition run_once (now : datetime) (new_stat : stat) (rows : result json) : M plate_world bool :=
  try_except
    (let! rows := of_result rows in
     match rows with
     | JList l =>
         if well_formed_rows l then replace now new_stat (omap plate_of_row l) ;! ret true
         else raise (AuthorisationError "authorised plate refresh was malformed")
     | _ => raise (AuthorisationError "authorised plate refresh was malformed")
     end)
    (fun e => mark_refresh_error e ;! ret false).

(** ** Snapshots round trip *)

Lemma of_ascii_length s : length (of_ascii s) = String.length s.
Proof. unfold of_ascii. rewrite length_fmap. by induction s; cbn; [|f_equal]. Qed.

Lemma plate_char_plain a :
  plate_char a = true ->
  let c := Z.of_nat (Ascii.nat_of_ascii a) in
  is_space c = false /\ c <> COMMA /\ c <> QUOTE /\ c <> CR /\ c <> LF.
Proof. destruct a as [[] [] [] [] [] [] [] []]; vm_compute; intros H; try discriminate H; repeat split; discriminate. Qed.

Lemma lstrip_plain s : Forall (fun c => is_space c = false) s -> lstrip s = s.
Proof. destruct s as [|c s]; [done|]. intros [H _]%list.Forall_cons. cbn. by rewrite H. Qed.

Lemma strip_plain s : Forall (fun c => is_space c = false) s -> strip s = s.
Proof.
  intros H. unfold strip. rewrite (lstrip_plain s) by done. rewrite lstrip_plain, rev_involutive; [done|].
  by apply Forall_rev.
Qed.

(** A normalised plate that is short enough to be written and read verbatim. *)
Definition storable (s : string) : Prop :=
  s <> EmptyString /\ Forall (fun a => plate_char a = true) (String.list_ascii_of_string s) /\
  (String.length s <= field_limit)%nat.

Lemma storable_chars s :
  storable s -> Forall (fun c => is_space c = false /\ c <> COMMA /\ c <> QUOTE /\ c <> CR /\ c <> LF) (of_ascii s).
Proof.
  intros (_ & H & _). unfold of_ascii. apply Forall_fmap. eapply Forall_impl; [|exact H].
  intros a Ha. by apply plate_char_plain.
Qed.

Lemma storable_plain s : storable s -> plain (of_ascii s) /\ strip (of_ascii s) = of_ascii s /\ of_ascii s <> [].
Proof.
  intros Hs. pose proof (storable_chars s Hs) as Hc. destruct Hs as (Hne & _ & Hlen).
  assert (Hn : of_ascii s <> []) by (by destruct s). repeat split; try done.
  - by rewrite of_ascii_length.
  - eapply Forall_impl; [|exact Hc]. cbn. tauto.
  - apply strip_plain. eapply Forall_impl; [|exact Hc]. cbn. tauto.
Qed.

Lemma plate_rows_storable l :
  Forall storable l -> plate_rows 1 ((fun f => [f]) <$> (of_ascii <$> l)) = Ok (of_ascii <$> l).
Proof.
  induction 1 as [|s l Hs Hl IH]; [done|]. cbn [fmap list_fmap plate_rows].
  destruct (storable_plain s Hs) as (_ & Hstrip & Hn). rewrite Hstrip.
  destruct (of_ascii s) eqn:E; [done|]. cbn [length Nat.eqb negb]. cbn [fmap list_fmap] in IH. by rewrite IH.
Qed.

Lemma parse_plates_text l : Forall storable l -> parse_plates (plates_text l) = Ok (of_ascii <$> l).
Proof.
  intros Hl. unfold parse_plates, plates_text. rewrite csv_roundtrip.
  - cbn [rbind fmap list_fmap]. assert (is_plate_header (of_ascii "plate") = true) as -> by (vm_compute; reflexivity).
    by apply plate_rows_storable.
  - constructor.
    + split; [done|]. split; [by apply field_within|]. repeat constructor; done.
    + apply Forall_fmap. eapply Forall_impl; [|exact Hl]. intros s Hs. by apply storable_plain.
Qed.

Lemma normalised_plates_storable plates :
  Forall (fun p => String.length (normalise_plate p) <= field_limit)%nat plates ->
  Forall storable (normalised_plates plates).
Proof.
  intros H. unfold normalised_plates. rewrite merge_sort_Permutation.
  apply list.Forall_forall. intros s [Hne Hin]%list_elem_of_filter.
  apply list_elem_of_fmap in Hin as (p & -> & Hp). split; [done|].
  split; [apply normalise_plate_chars|]. by rewrite list.Forall_forall in H; apply H.
Qed.

(** a snapshot survives a restart: reading back the file [replace] writes
    gives exactly the plates it put in the cache, sorted, normalised, without
    blanks, and every plate of the reply is among them. *)
Theorem snapshot_roundtrip (plates : list pystr)
    (Hlen : Forall (fun p => String.length (normalise_plate p) <= field_limit)%nat plates) :
  parse_plates (plates_text (normalised_plates plates)) = Ok (of_ascii <$> normalised_plates plates) /\
  Sorted String.le (normalised_plates plates) /\
  (forall s, s ∈ normalised_plates plates <-> s <> EmptyString /\ exists p, p ∈ plates /\ s = normalise_plate p).
Proof.
  split; [by apply parse_plates_text, normalised_plates_storable|].
  split; [apply Sorted_merge_sort, _|]. intros s. unfold normalised_plates.
  rewrite merge_sort_Permutation, list_elem_of_filter, list_elem_of_fmap. naive_solver.
Qed.

Lemma snapshot_roundtrip_witness :
  parse_plates (plates_text ["AB12CDE"; "ZZ9"]) = Ok [of_ascii "AB12CDE"; of_ascii "ZZ9"].
Proof.
  destruct (snapshot_roundtrip [of_ascii "zz-9"; of_ascii " ! "; of_ascii "ab12 cde"]) as [H _].
  - repeat (apply list.Forall_cons; split); try apply list.Forall_nil; try exact I.
    all: apply field_within; vm_compute; reflexivity.
  - exact H.
Defined.

(** ** Refreshing *)

(** The plates of a reply as the cache holds them. *)
Definition snapshot_of (rows : list json) : list pystr :=
  of_ascii <$> normalised_plates (omap plate_of_row rows).

Section CacheFrame.
Context (I : AuthorisedPlateCache -> Prop).
Abbreviation cached := (fun w => I (pw_cache w)).

Lemma syscall_cached : keeps cached syscall.
Proof. intros w Hw. unfold syscall. destruct (fs_script (pw_fs w)) as [|a l]; [done|]. by destruct (acc_fails a). Qed.

Lemma set_fs_cached f : keeps cached (modify (fun w => set_fs (f (pw_fs w)) w)).
Proof. by apply keeps_modify. Qed.

Lemma edit_cached f : (forall c, I c -> I (f c)) -> keeps cached (edit_cache f).
Proof. intros Hf. apply keeps_modify. intros w. apply Hf. Qed.

Lemma of_result_cached {A} (r : result A) : keeps cached (of_result r).
Proof. intros w Hw. unfold of_result. by destruct r. Qed.

Hint Resolve syscall_cached set_fs_cached of_result_cached : gate.

Lemma open_path_cached : keeps cached open_path.
Proof. unfold open_path. keeps_tac. Qed.
Hint Resolve open_path_cached : gate.

Lemma file_version_cached : keeps cached _file_version.
Proof. unfold _file_version. keeps_tac. Qed.
Hint Resolve file_version_cached : gate.

Lemma read_complete_cached : keeps cached _read_complete_file.
Proof. unfold _read_complete_file. keeps_tac. Qed.
Hint Resolve read_complete_cached : gate.

Lemma read_unchanged_cached : keeps cached read_unchanged.
Proof. unfold read_unchanged. keeps_tac. Qed.

Lemma publish_cached st text : keeps cached (try_finally (publish st text) unlink_temporary).
Proof. unfold publish, unlink_temporary. keeps_tac; by apply keeps_modify. Qed.
End CacheFrame.

(** System calls raise OSError only. *)
Definition only_OSError {A} (m : M plate_world A) : Prop :=
  forall w, match m w with (Err e, _) => e = OSError | _ => True end.

Lemma only_bind {A B} (m : M plate_world A) (k : A -> M plate_world B) :
  only_OSError m -> (forall a, only_OSError (k a)) -> only_OSError (bind m k).
Proof.
  intros Hm Hk w. specialize (Hm w). unfold bind. destruct (m w) as [[a|e] w']; [apply Hk|done].
Qed.

Lemma only_finally {A} (m : M plate_world A) f :
  only_OSError m -> only_OSError f -> only_OSError (try_finally m f).
Proof.
  intros Hm Hf w. specialize (Hm w). unfold try_finally. destruct (m w) as [r w'].
  specialize (Hf w'). by destruct (f w') as [[?|?] ?].
Qed.

Lemma only_syscall : only_OSError syscall.
Proof. intros w. unfold syscall. destruct (fs_script (pw_fs w)) as [|a l]; [done|]. by destruct (acc_fails a). Qed.

Lemma only_open : only_OSError open_path.
Proof.
  unfold open_path. repeat (apply only_bind; [try apply only_syscall; done|intros ?]).
  by intros w; destruct a0.
Qed.

Lemma only_version : only_OSError _file_version.
Proof. apply only_bind; [apply only_open|done]. Qed.

Lemma only_publish st text : only_OSError (try_finally (publish st text) unlink_temporary).
Proof.
  unfold publish, unlink_temporary.
  apply only_finally; repeat (apply only_bind; [try apply only_syscall; done|intros ?]); [apply only_syscall|].
  destruct a; [|done]. by apply only_bind; [apply only_syscall|].
Qed.

Lemma replace_cache now st plates c0 :
  post (fun w => pw_cache w = c0) (replace now st plates) (fun r w =>
    let snapshot := of_ascii <$> normalised_plates plates in
    match r with
    | Ok _ => exists v, pw_cache w = {| pc_plates := Some snapshot; pc_version := Some v;
                pc_refreshed_at := Some now; pc_last_error := None; pc_max_staleness := pc_max_staleness c0 |}
    | Err e => e = OSError /\ (pw_cache w = c0 \/ pw_cache w = put_plates snapshot c0)
    end).
Proof.
  unfold replace. cbv zeta.
  assert (Hstep : forall A (m : M plate_world A), only_OSError m -> (forall I, keeps (fun w => I (pw_cache w)) m) ->
    forall c, c = c0 \/ c = put_plates (of_ascii <$> normalised_plates plates) c0 ->
    post (fun w => pw_cache w = c) m (fun r w => match r with
      | Ok _ => pw_cache w = c
      | Err e => e = OSError /\ (pw_cache w = c0 \/
                   pw_cache w = put_plates (of_ascii <$> normalised_plates plates) c0) end)).
  { intros A m Hos Hk c Hc w r w' Hw E. specialize (Hos w). rewrite E in Hos.
    assert (Hw' : pw_cache w' = c) by (apply (keeps_state _ m r w w' (Hk (fun x => x = c)) Hw E)).
    destruct r; [done|]. split; [done|]. rewrite Hw'. tauto. }
  eapply (post_bind _ _ _ (fun _ w => pw_cache w = c0)); [apply Hstep; [apply only_syscall|intros; apply syscall_cached|by left]|intros _].
  eapply (post_bind _ _ _ (fun _ w => pw_cache w = c0)); [apply Hstep; [apply only_syscall|intros; apply syscall_cached|by left]|intros _].
  eapply (post_bind _ _ _ (fun _ w => pw_cache w = c0)); [by apply post_modify|intros _].
  eapply (post_bind _ _ _ (fun _ w => pw_cache w = c0)); [apply Hstep; [apply only_publish|intros; apply publish_cached|by left]|intros _].
  eapply (post_bind _ _ _ (fun _ w => pw_cache w = put_plates (of_ascii <$> normalised_plates plates) c0)).
  { apply post_modify. cbn. by intros w ->. }
  intros _. eapply (post_bind _ _ _ (fun _ w => pw_cache w = put_plates (of_ascii <$> normalised_plates plates) c0));
    [apply Hstep; [apply only_version|intros; apply file_version_cached|by right]|].
  intros v. apply post_modify. cbn. intros w ->. by exists v.
Qed.

(** No other process touches the path. *)
Definition quiet (s : filesystem) : Prop := Forall (fun a => acc_change a = None) (fs_script s).

Lemma syscall_quiet w r w' :
  syscall w = (r, w') -> quiet (pw_fs w) ->
  quiet (pw_fs w') /\ fs_file (pw_fs w') = fs_file (pw_fs w) /\
  fs_temporary (pw_fs w') = fs_temporary (pw_fs w).
Proof.
  unfold syscall, quiet. intros E Hq.
  destruct (fs_script (pw_fs w)) as [|a l] eqn:El; [injection E as <- <-; by rewrite El|].
  apply list.Forall_cons in Hq as [Ha Hl]. injection E as _ <-. cbn. by rewrite Ha.
Qed.

(** Left alone, a successful [replace] leaves the snapshot on disk and no
    temporary file. *)
Lemma replace_file now st plates w w' :
  quiet (pw_fs w) -> replace now st plates w = (Ok tt, w') ->
  fs_file (pw_fs w') = Some {| f_stat := st; f_text := Some (plates_text (normalised_plates plates)) |} /\
  fs_temporary (pw_fs w') = None.
Proof.
  intros Hq. unfold replace. cbv zeta. intros (u1 & w1 & E1 & E)%bind_inv.
  destruct (syscall_quiet _ _ _ E1 Hq) as (Hq1 & _).
  apply bind_inv in E as (u2 & w2 & E2 & E).
  destruct (syscall_quiet _ _ _ E2 Hq1) as (Hq2 & _).
  apply bind_inv in E as (u3 & w3 & [= _ <-] & E).
  apply bind_inv in E as (u4 & w4 & E4 & E).
  assert (H4 : quiet (pw_fs w4) /\ fs_file (pw_fs w4) =
    Some {| f_stat := st; f_text := Some (plates_text (normalised_plates plates)) |} /\
    fs_temporary (pw_fs w4) = None).
  { clear E. unfold try_finally in E4. destruct (publish st _ _) as [[u|e] wp] eqn:Ep.
    2: { by destruct (unlink_temporary wp) as [[?|?] ?]. }
    unfold publish in Ep. apply bind_inv in Ep as (v1 & x1 & F1 & Ep).
    destruct (syscall_quiet _ _ _ F1 Hq2) as (Hx1 & _).
    apply bind_inv in Ep as (v2 & x2 & [= _ <-] & Ep). apply bind_inv in Ep as (v3 & x3 & F3 & Ep).
    destruct (syscall_quiet _ _ _ F3 Hx1) as (Hx3 & _).
    apply bind_inv in Ep as (v4 & x4 & [= _ <-] & Ep).
    destruct (syscall_quiet _ _ _ Ep Hx3) as (Hp & Hf & Ht).
    cbn in Hf, Ht. unfold unlink_temporary, bind, gets in E4. cbn in E4. rewrite Ht in E4. injection E4 as _ <-. done. }
  clear E1 E2 E4. apply bind_inv in E as (u5 & w5 & [= _ <-] & E).
  apply bind_inv in E as (v & w6 & E6 & E). injection E as <-. cbn [pw_fs set_cache].
  unfold _file_version, open_path in E6. apply bind_inv in E6 as (f & w7 & E7 & [= _ <-]).
  apply bind_inv in E7 as (u & w8 & E8 & E7). destruct H4 as (Hq4 & Hf4 & Ht4).
  destruct (syscall_quiet _ _ _ E8 Hq4) as (_ & Hf & Ht). cbn in Hf, Ht. rewrite Hf4 in Hf. rewrite Ht4 in Ht.
  apply bind_inv in E7 as (g & w9 & [= <- <-] & E7). rewrite Hf in E7. by injection E7 as <- <-.
Qed.

Lemma existsb_false_elem {A} (p : A -> bool) (l : list A) x : existsb p l = false -> x ∈ l -> p x = false.
Proof.
  intros H Hx. apply not_true_iff_false. intros Hp. apply not_true_iff_false in H. apply H.
  apply existsb_exists. exists x. by rewrite list_elem_of_In in Hx.
Qed.

(** What the fetcher lets through. *)
Lemma fetch_plates_inv controller_id reply :
  match fetch_plates controller_id reply with
  | Ok j => exists rows, j = JList rows /\ (length rows <= MAX_PLATE_ROWS)%nat /\ well_formed_rows rows = true /\
      Forall (fun p => String.length (normalise_plate p) <= MAX_NORMALISED_PLATE_LENGTH)%nat (omap plate_of_row rows)
  | Err e => reply = Err e \/ exists msg, e = AuthorisationError msg
  end.
Proof.
  unfold fetch_plates. destruct reply as [p|]; [|by left]. cbn [rbind]. destruct p; try (right; by eexists).
  destruct (match dict_get "controller_id" d with JStr _ => _ | _ => _ end); [|right; by eexists].
  destruct (dict_get "plates" d) as [| | | | | |rows|]; try (right; by eexists).
  destruct (_ || _) eqn:Eb; [right; by eexists|]. apply orb_false_iff in Eb as [El Ew]. bool_props.
  destruct (existsb _ _) eqn:Ex; [right; by eexists|]. exists rows. apply Nat.ltb_ge in El.
  split; [done|]. split; [done|]. split; [done|]. apply list.Forall_forall. intros p Hp.
  pose proof (existsb_false_elem _ _ p Ex Hp) as H. by apply Nat.ltb_ge in H.
Qed.

(** a refresh is all or nothing for the times that matter and never
    raises.  On success the cache holds exactly the plates of the reply, its
    age restarts, and the file (if nobody else writes it) holds them too with no
    temporary left; on failure the time of the last refresh is unchanged, so the
    old age limit still applies, and the plates are the old ones or the complete
    new ones, never a mixture. *)
Theorem refresh_outcome (now : datetime) (st : stat) (controller_id : string) (reply : result json)
    (w : plate_world) (Hreply : forall e, reply = Err e -> is_Exception e = true) :
  exists b w', run_once now st (fetch_plates controller_id reply) w = (Ok b, w') /\
    pc_max_staleness (pw_cache w') = pc_max_staleness (pw_cache w) /\
    (b = true -> exists rows, fetch_plates controller_id reply = Ok (JList rows) /\
       (length rows <= MAX_PLATE_ROWS)%nat /\
       pc_plates (pw_cache w') = Some (snapshot_of rows) /\
       pc_refreshed_at (pw_cache w') = Some now /\ pc_last_error (pw_cache w') = None /\
       (quiet (pw_fs w) -> fs_temporary (pw_fs w') = None /\
          exists f, fs_file (pw_fs w') = Some f /\ f_stat f = st /\
            f_text f = Some (plates_text (normalised_plates (omap plate_of_row rows))))) /\
    (b = false -> is_Some (pc_last_error (pw_cache w')) /\
       pc_refreshed_at (pw_cache w') = pc_refreshed_at (pw_cache w) /\
       (pc_plates (pw_cache w') = pc_plates (pw_cache w) \/
        exists rows, fetch_plates controller_id reply = Ok (JList rows) /\
          pc_plates (pw_cache w') = Some (snapshot_of rows))).
Proof.
  pose proof (fetch_plates_inv controller_id reply) as Hinv.
  destruct (fetch_plates controller_id reply) as [j|e] eqn:Ef.
  - destruct Hinv as (rows & -> & Hlen & Hwf & _).
    unfold run_once, try_except. cbn [of_result bind]. rewrite Hwf. unfold bind at 1.
    destruct (replace now st (omap plate_of_row rows) w) as [[[]|e] w1] eqn:Er;
      pose proof (replace_cache now st (omap plate_of_row rows) (pw_cache w) w _ w1 eq_refl Er) as Hr; cbn in Hr.
    + destruct Hr as [v Hv]. exists true, w1. split; [done|]. rewrite Hv. cbn. split; [done|]. split; [|done].
      intros _. exists rows. do 5 (split; [done|]). intros Hq.
      destruct (replace_file _ _ _ _ _ Hq Er) as [Hf Ht]. split; [done|]. eexists. by split; [exact Hf|].
    + destruct Hr as [-> Hc]. cbn. exists false, (set_cache (put_error (Some OSError) (pw_cache w1)) w1).
      split; [done|]. cbn. destruct Hc as [->| ->]; cbn; (split; [done|]; split; [done|]; intros _; split; [eauto|];
        split; [done|]); [by left|]. right. by exists rows.
  - unfold run_once, try_except. cbn.
    assert (He : is_Exception e = true).
    { destruct Hinv as [->|[msg ->]]; [by apply Hreply|done]. }
    rewrite He. exists false, (set_cache (put_error (Some e) (pw_cache w)) w). split; [done|]. cbn.
    split; [done|]. split; [done|]. intros _. split; [eauto|]. split; [done|]. by left.
Qed.

(** ** Histories of the cache *)

Inductive cache_op :=
| OpReload
| OpRefresh (now : datetime) (st : stat) (reply : result json).

Definition run_cache_op (controller_id : string) (op : cache_op) (w : plate_world) : plate_world :=
  match op with
  | OpReload => snd (reload_local w)
  | OpRefresh now st reply => snd (run_once now st (fetch_plates controller_id reply) w)
  end.

(** The plates are those of a complete, well-formed snapshot. *)
Definition complete_snapshot (c : AuthorisedPlateCache) : Prop :=
  forall plates, pc_plates c = Some plates -> exists text, parse_plates text = Ok plates.

Lemma read_unchanged_parsed w plates v w' :
  read_unchanged w = (Ok (plates, v), w') -> exists text, parse_plates text = Ok plates.
Proof.
  unfold read_unchanged. intros (v1 & w1 & _ & E)%bind_inv. apply bind_inv in E as (ps & w2 & E2 & E).
  apply bind_inv in E as (v2 & w3 & _ & E). destruct (bool_decide _); [|done]. injection E as <- <- <-.
  unfold _read_complete_file in E2. apply bind_inv in E2 as (f & w4 & _ & E2).
  destruct (f_text f) as [text|]; [|done]. exists text. by injection E2.
Qed.

Lemma reload_complete w : complete_snapshot (pw_cache w) -> complete_snapshot (pw_cache (snd (reload_local w))).
Proof.
  intros Hw. unfold reload_local. destruct (read_unchanged w) as [[[ps v]|e] w1] eqn:E.
  - destruct (read_unchanged_parsed _ _ _ _ E) as [text Ht].
    assert (H : keeps (fun w => pc_plates (pw_cache w) = Some ps) (
       let! f := open_path in
       let modified_at := Aware (st_mtime_us (f_stat f)) in
       let! previous := gets (fun w => pc_refreshed_at (pw_cache w)) in
       let! newer := of_result (match previous with None => Ok true | Some at_ => dt_lt at_ modified_at end) in
       (if newer : bool then edit_cache (put_refreshed modified_at) else ret tt) ;!
       edit_cache (put_error None) ;! ret true)).
    { cbv zeta. keeps_tac; try (by apply (edit_cached (fun c => pc_plates c = Some ps))).
      - apply (open_path_cached (fun c => pc_plates c = Some ps)).
      - apply (of_result_cached (fun c => pc_plates c = Some ps)). }
    pose proof (keeps_snd _ _ (set_cache (put_version v (put_plates ps (pw_cache w1))) w1) H eq_refl) as H2.
    intros p Hp. exists text. cut (Some p = Some ps); [intros [= ->]; done|]. rewrite <- Hp. exact H2.
  - destruct (reload_caught e); cbn; pose proof (keeps_state _ _ _ _ _ (read_unchanged_cached complete_snapshot) Hw E) as H1; exact H1.
Qed.

Lemma refresh_complete now st controller_id reply w :
  complete_snapshot (pw_cache w) ->
  complete_snapshot (pw_cache (snd (run_once now st (fetch_plates controller_id reply) w))).
Proof.
  intros Hw. unfold run_once, try_except. pose proof (fetch_plates_inv controller_id reply) as Hinv.
  destruct (fetch_plates controller_id reply) as [j|e] eqn:Ef; cbn; [|by destruct (is_Exception e)].
  destruct Hinv as (rows & -> & _ & -> & Hshort).
  assert (Hnew : exists text, parse_plates text = Ok (snapshot_of rows)).
  { exists (plates_text (normalised_plates (omap plate_of_row rows))). apply parse_plates_text, normalised_plates_storable.
    eapply Forall_impl; [|exact Hshort]. cbn. intros p Hp. apply field_within, Nat.leb_le.
    unfold MAX_NORMALISED_PLATE_LENGTH in Hp. lia. }
  unfold bind at 1. destruct (replace now st (omap plate_of_row rows) w) as [[[]|e] w1] eqn:Er;
    pose proof (replace_cache now st (omap plate_of_row rows) (pw_cache w) w _ w1 eq_refl Er) as Hr; cbn in Hr.
  - destruct Hr as [v Hv]. cbn. rewrite Hv. intros p [= <-]. exact Hnew.
  - destruct Hr as [-> Hc]. cbn. intros p. destruct Hc as [->| ->]; [apply Hw|]. intros [= <-]. exact Hnew.
Qed.

Lemma cache_ops_complete controller_id ops w :
  complete_snapshot (pw_cache w) ->
  complete_snapshot (pw_cache (fold_left (fun w op => run_cache_op controller_id op w) ops w)).
Proof.
  revert w. induction ops as [|op ops IH]; intros w Hw; [done|]. apply IH.
  destruct op; [by apply reload_complete|by apply refresh_complete].
Qed.


Definition sample_stat : stat := {| st_ino := 7; st_size := 20; st_mtime_ns := 1000; st_mtime_us := 1 |}.
Definition sample_reply : result json :=
  Ok (JDict [("controller_id", JStr "gate-1");
             ("plates", JList [JDict [("plate", JStr "ab 12 cde")]; JDict [("plate", JStr "")]])]).
Definition empty_cache (limit : option Z) : AuthorisedPlateCache :=
  {| pc_plates := None; pc_version := None; pc_refreshed_at := None; pc_last_error := None;
     pc_max_staleness := limit |}.

Lemma refresh_outcome_witness :
  exists w', run_once (Aware 5) sample_stat (fetch_plates "gate-1" sample_reply)
      {| pw_fs := {| fs_file := None; fs_temporary := None; fs_script := [] |};
         pw_cache := empty_cache (Some 60%Z) |} = (Ok true, w') /\
    pc_plates (pw_cache w') = Some [of_ascii "AB12CDE"] /\ pc_refreshed_at (pw_cache w') = Some (Aware 5).
Proof.
  destruct (refresh_outcome (Aware 5) sample_stat "gate-1" sample_reply
    {| pw_fs := {| fs_file := None; fs_temporary := None; fs_script := [] |};
       pw_cache := empty_cache (Some 60%Z) |}) as (b & w' & Hrun & _ & Ht & _).
  - intros e H. discriminate H.
  - assert (b = true) as -> by (vm_compute in Hrun; injection Hrun as <- _; reflexivity).
    exists w'. split; [exact Hrun|]. destruct (Ht eq_refl) as (rows & Hrows & _ & Hp & Hr & _).
    split; [|exact Hr]. rewrite Hp. vm_compute in Hrows. injection Hrows as <-. vm_compute. reflexivity.
Defined.

(** A system call that fails after the new plates are in place leaves them
    without a refresh time: no age limit applies to them until the next
    successful refresh. *)
Lemma unstamped_snapshot_never_stale :
  let script := replicate 5 {| acc_change := None; acc_fails := false |} ++
                [{| acc_change := None; acc_fails := true |}] in
  let w := snd (run_once (Aware 5) sample_stat (fetch_plates "gate-1" sample_reply)
                  {| pw_fs := {| fs_file := None; fs_temporary := None; fs_script := script |};
                     pw_cache := empty_cache (Some 60%Z) |}) in
  forall now, get now (pw_cache w) = Ok [of_ascii "AB12CDE"].
Proof. vm_compute. reflexivity. Qed.
