(* ===== verification/Worker.v ===== *)
(** * Ingest and burst scheduling: gate_controller/worker.py

    The completed-upload handler, the burst collector, the bounded queue between
    the main thread and the burst processor, the startup reconciler and the main
    loop of [run_worker] with its shutdown.

    Three threads share this state: the main thread, the watchdog observer and
    the burst processor.  Each section the source runs under a lock is one
    action; between them the main thread has yield points, where the plan of the
    state says what the other threads do.  An action of another thread runs as a
    whole: what it does outside its locks (reports, unlinks) touches nothing the
    main thread reads.  Every reading of a clock, of the file system, of a
    callback's outcome consumes one index of the environment's answers, so the
    environment may change at any time. *)

From S2P Require Import Prelude Float Text Images.

Definition DEFAULT_MAX_BURST_CANDIDATES : nat := 8.
Definition MAX_BURST_CANDIDATES : nat := 16.
Definition MAX_STARTUP_ENTRIES : nat := 128.

(** ** State *)

(** A value of [_retry_at]. *)
Record candidate := {
  cd_first_seen : pyfloat;
  cd_retry_at : pyfloat;
  cd_attempts : nat;
  cd_received_at : datetime;
}.

(** The item [flush_due] emits with all the details [run_worker] asks for. *)
Record burst := {
  bu_paths : list string;
  bu_received_at : option datetime;
  bu_decision_started_at : pyfloat;
  bu_processing_started_at : datetime;
  bu_identity : option string;
}.

(** BurstCollector *)
Record collector := {
  co_pending : list string;
  co_received_at : option datetime;
  co_idempotency_key : option string;
  co_first_seen : option pyfloat;
  co_deadline : option pyfloat;
}.
Definition new_collector : collector :=
  {| co_pending := []; co_received_at := None; co_idempotency_key := None;
     co_first_seen := None; co_deadline := None |}.

(** BoundedBurstQueue; [None] in the queue is the end marker.  Ghost: every
    burst put, handed to the processor, and handed back as dropped. *)
Record burst_queue := {
  bq_items : list (option burst);
  bq_stopping : bool;
  bq_accepted : list burst;
  bq_taken : list burst;
  bq_dropped : list burst;
}.
Definition new_queue : burst_queue :=
  {| bq_items := []; bq_stopping := false; bq_accepted := []; bq_taken := []; bq_dropped := [] |}.

(** A call of a skip callback. *)
Record report := {
  rp_paths : list string;
  rp_reason : string;
  rp_received_at : option datetime;
  rp_timing : option (pyfloat * datetime);
}.

(** What the callbacks and the file system were told, in order. *)
Record journal := {
  jn_removed : list string;
  jn_reports : list report;
  jn_emitted : list burst;
  jn_errors : list (list string);
  jn_shutdowns : nat;
}.
Definition new_journal : journal :=
  {| jn_removed := []; jn_reports := []; jn_emitted := []; jn_errors := []; jn_shutdowns := 0 |}.

(** What another thread does at a yield point. *)
Inductive action :=
(** The observer reports a closed, moved or created entry. *)
| Observed (path : string) (is_directory : bool)
(** The burst processor takes the next item or finishes the one in hand. *)
| Processed
(** A background worker ends, normally or with an exception. *)
| Exited (name : string) (outcome : option exc).

Record worker := {
  wk_reads : nat;
  (** [_retry_at] of the handler. *)
  wk_retry : dict candidate;
  wk_collector : collector;
  wk_queue : burst_queue;
  (** The burst being processed; whether the processor's loop has ended. *)
  wk_in_hand : option burst;
  wk_processor_done : bool;
  (** Whether the observer's thread is alive. *)
  wk_observer_alive : bool;
  (** [stop_event] and the queue of worker failures. *)
  wk_stop : bool;
  wk_failures : list (string * option exc);
  wk_plan : list (list action);
  wk_journal : journal;
}.

Definition set_reads (n : nat) (w : worker) : worker :=
  {| wk_reads := n; wk_retry := wk_retry w; wk_collector := wk_collector w; wk_queue := wk_queue w;
     wk_in_hand := wk_in_hand w; wk_processor_done := wk_processor_done w;
     wk_observer_alive := wk_observer_alive w; wk_stop := wk_stop w; wk_failures := wk_failures w;
     wk_plan := wk_plan w; wk_journal := wk_journal w |}.
Definition set_retry (d : dict candidate) (w : worker) : worker :=
  {| wk_reads := wk_reads w; wk_retry := d; wk_collector := wk_collector w; wk_queue := wk_queue w;
     wk_in_hand := wk_in_hand w; wk_processor_done := wk_processor_done w;
     wk_observer_alive := wk_observer_alive w; wk_stop := wk_stop w; wk_failures := wk_failures w;
     wk_plan := wk_plan w; wk_journal := wk_journal w |}.
Definition set_collector (c : collector) (w : worker) : worker :=
  {| wk_reads := wk_reads w; wk_retry := wk_retry w; wk_collector := c; wk_queue := wk_queue w;
     wk_in_hand := wk_in_hand w; wk_processor_done := wk_processor_done w;
     wk_observer_alive := wk_observer_alive w; wk_stop := wk_stop w; wk_failures := wk_failures w;
     wk_plan := wk_plan w; wk_journal := wk_journal w |}.
Definition set_queue (q : burst_queue) (w : worker) : worker :=
  {| wk_reads := wk_reads w; wk_retry := wk_retry w; wk_collector := wk_collector w; wk_queue := q;
     wk_in_hand := wk_in_hand w; wk_processor_done := wk_processor_done w;
     wk_observer_alive := wk_observer_alive w; wk_stop := wk_stop w; wk_failures := wk_failures w;
     wk_plan := wk_plan w; wk_journal := wk_journal w |}.
Definition set_hand (h : option burst) (d : bool) (w : worker) : worker :=
  {| wk_reads := wk_reads w; wk_retry := wk_retry w; wk_collector := wk_collector w; wk_queue := wk_queue w;
     wk_in_hand := h; wk_processor_done := d;
     wk_observer_alive := wk_observer_alive w; wk_stop := wk_stop w; wk_failures := wk_failures w;
     wk_plan := wk_plan w; wk_journal := wk_journal w |}.
Definition set_observer (b : bool) (w : worker) : worker :=
  {| wk_reads := wk_reads w; wk_retry := wk_retry w; wk_collector := wk_collector w; wk_queue := wk_queue w;
     wk_in_hand := wk_in_hand w; wk_processor_done := wk_processor_done w;
     wk_observer_alive := b; wk_stop := wk_stop w; wk_failures := wk_failures w;
     wk_plan := wk_plan w; wk_journal := wk_journal w |}.
Definition set_stop (b : bool) (f : list (string * option exc)) (w : worker) : worker :=
  {| wk_reads := wk_reads w; wk_retry := wk_retry w; wk_collector := wk_collector w; wk_queue := wk_queue w;
     wk_in_hand := wk_in_hand w; wk_processor_done := wk_processor_done w;
     wk_observer_alive := wk_observer_alive w; wk_stop := b; wk_failures := f;
     wk_plan := wk_plan w; wk_journal := wk_journal w |}.
Definition set_plan (p : list (list action)) (w : worker) : worker :=
  {| wk_reads := wk_reads w; wk_retry := wk_retry w; wk_collector := wk_collector w; wk_queue := wk_queue w;
     wk_in_hand := wk_in_hand w; wk_processor_done := wk_processor_done w;
     wk_observer_alive := wk_observer_alive w; wk_stop := wk_stop w; wk_failures := wk_failures w;
     wk_plan := p; wk_journal := wk_journal w |}.
Definition set_journal (j : journal) (w : worker) : worker :=
  {| wk_reads := wk_reads w; wk_retry := wk_retry w; wk_collector := wk_collector w; wk_queue := wk_queue w;
     wk_in_hand := wk_in_hand w; wk_processor_done := wk_processor_done w;
     wk_observer_alive := wk_observer_alive w; wk_stop := wk_stop w; wk_failures := wk_failures w;
     wk_plan := wk_plan w; wk_journal := j |}.

Definition new_worker : worker :=
  {| wk_reads := 0; wk_retry := []; wk_collector := new_collector; wk_queue := new_queue;
     wk_in_hand := None; wk_processor_done := false; wk_observer_alive := true; wk_stop := false;
     wk_failures := []; wk_plan := []; wk_journal := new_journal |}.

(** The next answer of the environment. *)
Definition read {A} (f : nat -> A) : M worker A := fun w => (Ok (f (wk_reads w)), set_reads (S (wk_reads w)) w).
Definition call_out {A} (f : nat -> result A) : M worker A := let! r := read f in of_result r.

Definition note (f : journal -> journal) : M worker unit := modify (fun w => set_journal (f (wk_journal w)) w).
Definition note_removed (p : string) (j : journal) : journal :=
  {| jn_removed := jn_removed j ++ [p]; jn_reports := jn_reports j; jn_emitted := jn_emitted j;
     jn_errors := jn_errors j; jn_shutdowns := jn_shutdowns j |}.
Definition note_report (r : report) (j : journal) : journal :=
  {| jn_removed := jn_removed j; jn_reports := jn_reports j ++ [r]; jn_emitted := jn_emitted j;
     jn_errors := jn_errors j; jn_shutdowns := jn_shutdowns j |}.
Definition note_emitted (b : burst) (j : journal) : journal :=
  {| jn_removed := jn_removed j; jn_reports := jn_reports j; jn_emitted := jn_emitted j ++ [b];
     jn_errors := jn_errors j; jn_shutdowns := jn_shutdowns j |}.
Definition note_error (paths : list string) (j : journal) : journal :=
  {| jn_removed := jn_removed j; jn_reports := jn_reports j; jn_emitted := jn_emitted j;
     jn_errors := jn_errors j ++ [paths]; jn_shutdowns := jn_shutdowns j |}.
Definition note_shutdown (j : journal) : journal :=
  {| jn_removed := jn_removed j; jn_reports := jn_reports j; jn_emitted := jn_emitted j;
     jn_errors := jn_errors j; jn_shutdowns := S (jn_shutdowns j) |}.

(** worker.py: _remove_upload; an unlink that fails is only logged. *)
Definition _remove_upload (path : string) : M worker unit := note (note_removed path).
Fixpoint _remove_uploads (paths : list string) : M worker unit :=
  match paths with
  | [] => ret tt
  | p :: paths' => _remove_upload p ;! _remove_uploads paths'
  end.

Section Threads.
(** The clocks, the file system, the callbacks' outcomes. *)
Context (clock epoch_clock : nat -> pyfloat) (arrival_clock wall_clock : nat -> datetime).
Context (facts : nat -> string -> image_facts) (resolve : nat -> string -> string).
Context (on_skipped on_timed_skipped : option (nat -> result unit)).
Context (hot_frames : option (nat -> result (list string))).
Context (emit : nat -> result unit) (on_error trigger_resolver : option (nat -> result unit)).
(** The limits and windows [run_worker] hands to its parts. *)
Context (quiet_window retry_interval max_age max_image_age : pyfloat).
Context (max_attempts max_candidates max_pending_candidates max_pending : nat).
Context (max_candidate_bytes : Z) (ignored_roots : list string).

(** ** Reports *)

(** worker.py: report_pre_ocr_skip of run_worker *)
Definition report_pre_ocr_skip (paths : list string) (reason : string) : M worker unit :=
  match on_skipped with
  | None => ret tt
  | Some callback =>
      note (note_report {| rp_paths := paths; rp_reason := reason; rp_received_at := None; rp_timing := None |}) ;!
      call_out callback
  end.

(** worker.py: report_dropped of run_worker; the items always carry the timing. *)
Definition report_dropped (item : burst) (reason : string) : M worker unit :=
  let entry timing := note_report {| rp_paths := bu_paths item; rp_reason := reason;
                                     rp_received_at := bu_received_at item; rp_timing := timing |} in
  match on_timed_skipped, on_skipped with
  | Some callback, _ =>
      note (entry (Some (bu_decision_started_at item, bu_processing_started_at item))) ;! call_out callback
  | None, Some callback => note (entry None) ;! call_out callback
  | None, None => ret tt
  end.

(** worker.py: CompletedImageHandler._reject *)
Definition _reject (path : string) (reason : string) : M worker unit :=
  try_finally (report_pre_ocr_skip [path] reason) (_remove_upload path).
Fixpoint reject_all (paths : list string) (reason : string) : M worker unit :=
  match paths with
  | [] => ret tt
  | p :: paths' => _reject p reason ;! reject_all paths' reason
  end.

(** ** The observer's thread *)

(** The loop that drops the oldest candidates over the limit. *)
Fixpoint coalesce (d : dict candidate) : list string * dict candidate :=
  match d with
  | [] => ([], [])
  | (p, c) :: d' =>
      if (max_pending_candidates <? length d)%nat
      then let '(dropped, kept) := coalesce d' in (p :: dropped, kept)
      else ([], d)
  end.

Definition is_jpeg_name (path : string) : bool :=
  bool_decide (lower_text (path_suffix path) ∈ [".jpg"; ".jpeg"]).

(** worker.py: CompletedImageHandler.ignores *)
Definition ignores (path : string) : M worker bool :=
  let! resolved := read (fun n => resolve n path) in
  ret (existsb (fun root => within root resolved) ignored_roots).

(** worker.py: CompletedImageHandler.schedule_candidate *)
Definition schedule_candidate (path : string) (is_directory : bool) : M worker unit :=
  if is_directory then ret tt
  else
    let! ignored := ignores path in
    if ignored || negb (is_jpeg_name path) then ret tt
    else
      let! now := read clock in
      let! d := gets wk_retry in
      let! c := match dget path d with
                | Some c => ret c
                | None => let! observed := read arrival_clock in
                          ret {| cd_first_seen := now; cd_retry_at := now; cd_attempts := 0;
                                 cd_received_at := observed |}
                end in
      let '(dropped, kept) := coalesce (ddel path d ++ [(path, c)]) in
      modify (set_retry kept) ;!
      reject_all dropped "candidate_coalesced".

(** ** The processor's thread *)

(** worker.py: _resolve_trigger *)
Definition _resolve_trigger : M worker unit :=
  match trigger_resolver with
  | None => ret tt
  | Some f => try_except (call_out f) (fun _ => ret tt)
  end.

(** worker.py: _report_processing_error *)
Definition _report_processing_error (paths : list string) : M worker unit :=
  match on_error with
  | None => ret tt
  | Some f => note (note_error paths) ;! try_except (call_out f) (fun _ => ret tt)
  end.

(** The body of the loop of [_process_bursts] for one burst. *)
Definition process_burst (b : burst) : M worker unit :=
  try_finally
    (try_except (_resolve_trigger ;! note (note_emitted b) ;! call_out emit)
       (fun _ => _report_processing_error (bu_paths b)))
    (_remove_uploads (bu_paths b)).

(** worker.py: _supervise_worker, when its target has ended. *)
Definition _supervise_worker (name : string) (outcome : option exc) (w : worker) : worker :=
  if wk_stop w then w else set_stop true (wk_failures w ++ [(name, outcome)]) w.

Definition with_items (items : list (option burst)) (q : burst_queue) : burst_queue :=
  {| bq_items := items; bq_stopping := bq_stopping q; bq_accepted := bq_accepted q;
     bq_taken := bq_taken q; bq_dropped := bq_dropped q |}.
Definition take_item (b : burst) (items : list (option burst)) (q : burst_queue) : burst_queue :=
  {| bq_items := items; bq_stopping := bq_stopping q; bq_accepted := bq_accepted q;
     bq_taken := bq_taken q ++ [b]; bq_dropped := bq_dropped q |}.

(** worker.py: _process_bursts, one step: take the next item or finish the burst
    in hand.  With nothing to take it waits. *)
Definition _process_bursts (w : worker) : worker :=
  if wk_processor_done w then w
  else
    match wk_in_hand w with
    | Some b =>
        match process_burst b (set_hand None false w) with
        | (Ok _, w') => w'
        | (Err e, w') => _supervise_worker "GateBurstProcessor" (Some e) (set_hand None true w')
        end
    | None =>
        match bq_items (wk_queue w) with
        | [] => w
        | None :: items =>
            _supervise_worker "GateBurstProcessor" None
              (set_hand None true (set_queue (with_items items (wk_queue w)) w))
        | Some b :: items => set_hand (Some b) false (set_queue (take_item b items (wk_queue w)) w)
        end
    end.

Definition act (a : action) (w : worker) : worker :=
  match a with
  | Observed path is_directory =>
      if wk_observer_alive w then
        match schedule_candidate path is_directory w with
        | (Ok _, w') => w'
        | (Err _, w') => set_observer false w'
        end
      else w
  | Processed => _process_bursts w
  | Exited name outcome => _supervise_worker name outcome w
  end.

Definition yield_point : M worker unit := fun w =>
  match wk_plan w with
  | [] => (Ok tt, w)
  | actions :: plan => (Ok tt, fold_left (fun w a => act a w) actions (set_plan plan w))
  end.

(** ** BoundedBurstQueue *)

Definition on_queue (f : burst_queue -> burst_queue) : M worker unit :=
  modify (fun w => set_queue (f (wk_queue w)) w).
Definition drop_item (b : burst) (items : list (option burst)) (q : burst_queue) : burst_queue :=
  {| bq_items := items; bq_stopping := bq_stopping q; bq_accepted := bq_accepted q;
     bq_taken := bq_taken q; bq_dropped := bq_dropped q ++ [b] |}.
Definition accept_item (b : burst) (items : list (option burst)) (q : burst_queue) : burst_queue :=
  {| bq_items := items; bq_stopping := bq_stopping q; bq_accepted := bq_accepted q ++ [b];
     bq_taken := bq_taken q; bq_dropped := bq_dropped q |}.
Definition refuse_item (b : burst) (q : burst_queue) : burst_queue :=
  {| bq_items := bq_items q; bq_stopping := bq_stopping q; bq_accepted := bq_accepted q ++ [b];
     bq_taken := bq_taken q; bq_dropped := bq_dropped q ++ [b] |}.
Definition stop_queue (q : burst_queue) : burst_queue :=
  {| bq_items := bq_items q; bq_stopping := true; bq_accepted := bq_accepted q;
     bq_taken := bq_taken q; bq_dropped := bq_dropped q |}.

(** [self._queue.get_nowait()], [None] when it is empty. *)
Definition get_nowait : M worker (option burst) :=
  let! q := gets wk_queue in
  match bq_items q with
  | [] => ret None
  | None :: items => on_queue (with_items items) ;! ret None
  | Some b :: items => on_queue (drop_item b items) ;! ret (Some b)
  end.

Definition full (q : burst_queue) : bool := (max_pending <=? length (bq_items q))%nat.

(** worker.py: BoundedBurstQueue.put; the processor does not take the lock, so it
    may take items between the test and the removal. *)
Definition put (item : burst) : M worker (option burst) :=
  let! q := gets wk_queue in
  if bq_stopping q then on_queue (refuse_item item) ;! ret (Some item)
  else
    let! dropped := (if full q then yield_point ;! get_nowait else ret None) in
    let! q := gets wk_queue in
    if full q then raise (RuntimeError "queue.Full")
    else on_queue (accept_item item (bq_items q ++ [Some item])) ;! ret dropped.

(** The draining loop of [stop]. *)
Fixpoint drain (fuel : nat) : M worker (list burst) :=
  match fuel with
  | O => ret []
  | S fuel =>
      yield_point ;!
      let! q := gets wk_queue in
      match bq_items q with
      | [] => ret []
      | _ => let! b := get_nowait in let! rest := drain fuel in
             ret (match b with Some b => b :: rest | None => rest end)
      end
  end.

(** worker.py: BoundedBurstQueue.stop; the queue only shrinks while it drains. *)
Definition stop : M worker (list burst) :=
  let! q := gets wk_queue in
  if bq_stopping q then ret []
  else
    on_queue stop_queue ;!
    let! dropped := drain (S (length (bq_items q))) in
    let! q := gets wk_queue in
    if full q then raise (RuntimeError "queue.Full")
    else on_queue (with_items (bq_items q ++ [None])) ;! ret dropped.

(** worker.py: enqueue of run_worker *)
Definition enqueue (item : burst) : M worker unit :=
  let! dropped := put item in
  match dropped with
  | None => ret tt
  | Some b => try_finally (report_dropped b "queue_coalesced") (_remove_uploads (bu_paths b))
  end.

(** ** BurstCollector *)

Definition on_collector (f : collector -> collector) : M worker unit :=
  modify (fun w => set_collector (f (wk_collector w)) w).
Definition with_received (t : option datetime) (c : collector) : collector :=
  {| co_pending := co_pending c; co_received_at := t; co_idempotency_key := co_idempotency_key c;
     co_first_seen := co_first_seen c; co_deadline := co_deadline c |}.
Definition with_first_seen (m : option pyfloat) (c : collector) : collector :=
  {| co_pending := co_pending c; co_received_at := co_received_at c;
     co_idempotency_key := co_idempotency_key c; co_first_seen := m; co_deadline := co_deadline c |}.
Definition with_key (k : option string) (c : collector) : collector :=
  {| co_pending := co_pending c; co_received_at := co_received_at c; co_idempotency_key := k;
     co_first_seen := co_first_seen c; co_deadline := co_deadline c |}.
Definition with_pending (l : list string) (c : collector) : collector :=
  {| co_pending := l; co_received_at := co_received_at c; co_idempotency_key := co_idempotency_key c;
     co_first_seen := co_first_seen c; co_deadline := co_deadline c |}.
Definition with_deadline (d : option pyfloat) (c : collector) : collector :=
  {| co_pending := co_pending c; co_received_at := co_received_at c;
     co_idempotency_key := co_idempotency_key c; co_first_seen := co_first_seen c; co_deadline := d |}.

(** [list.remove]: the first occurrence. *)
Fixpoint remove_first (p : string) (l : list string) : list string :=
  match l with
  | [] => []
  | q :: l' => if bool_decide (q = p) then l' else q :: remove_first p l'
  end.

(** The first candidate of a burst: its time, the moment, its content key. *)
Definition start_burst (path : string) (received_at : option datetime) : M worker unit :=
  let! t := match received_at with Some t => ret t | None => read arrival_clock end in
  on_collector (with_received (Some t)) ;!
  let! seen := read clock in
  on_collector (with_first_seen (Some seen)) ;!
  let! digest := read (fun n => content_digest (facts n path)) in
  match digest with
  | Ok k => on_collector (with_key (Some k))
  | Err OSError => on_collector (with_key None)
  | Err e => raise e
  end.

(** A further candidate: the burst keeps the earliest time. *)
Definition join_burst (received_at : option datetime) : M worker unit :=
  match received_at with
  | None => ret tt
  | Some t =>
      let! c := gets wk_collector in
      match co_received_at c with
      | None => raise TypeError
      | Some r => let! earlier := of_result (dt_lt t r) in
                  if earlier : bool then on_collector (with_received (Some t)) else ret tt
      end
  end.

(** worker.py: BurstCollector.add *)
Definition add (path : string) (received_at : option datetime) : M worker bool :=
  yield_point ;!
  let! c := gets wk_collector in
  let first_candidate := bool_decide (co_pending c = []) in
  (if first_candidate then start_burst path received_at else join_burst received_at) ;!
  let pending := remove_first path (co_pending c) ++ [path] in
  let '(dropped, pending) := if (max_candidates <? length pending)%nat
                             then (take 1 pending, drop 1 pending) else ([], pending) in
  on_collector (with_pending pending) ;!
  let! now := read clock in
  on_collector (with_deadline (Some (fadd now quiet_window))) ;!
  _remove_uploads dropped ;!
  ret first_candidate.

(** worker.py: BurstCollector.remaining_capacity *)
Definition remaining_capacity (c : collector) : nat := max_candidates - length (co_pending c).

(** [ranked] with the first pending candidate in front, when it is ranked. *)
Definition prefer_first (pending ranked : list string) : list string :=
  match pending with
  | p :: _ => if bool_decide (p ∈ ranked) then p :: filter (fun q => q <> p) ranked else ranked
  | [] => ranked
  end.

(** worker.py: BurstCollector.flush_due; the log line is not modelled. *)
Definition flush_due : M worker bool :=
  yield_point ;!
  let! decision_started_at := read clock in
  let! c := gets wk_collector in
  match co_deadline c with
  | None => ret false
  | Some deadline =>
      if flt decision_started_at deadline then ret false
      else
        let! processing_started_at := read wall_clock in
        modify (set_collector new_collector) ;!
        let! ranked := call_out (fun n => rank_images (Some max_candidate_bytes) (facts n) (co_pending c)) in
        let ranked := prefer_first (co_pending c) ranked in
        _remove_uploads (filter (fun p => p ∉ ranked) (co_pending c)) ;!
        match ranked with
        | [] => ret false
        | _ => enqueue {| bu_paths := ranked; bu_received_at := co_received_at c;
                          bu_decision_started_at := decision_started_at;
                          bu_processing_started_at := processing_started_at;
                          bu_identity := co_idempotency_key c |} ;!
               ret true
        end
  end.

(** ** CompletedImageHandler, the main thread's side *)

Definition pop_candidate (path : string) : M worker unit :=
  yield_point ;! modify (fun w => set_retry (ddel path (wk_retry w)) w).

(** worker.py: CompletedImageHandler._too_large *)
Definition _too_large (path : string) : M worker bool :=
  let! size := read (fun n => im_size (facts n path)) in
  match size with
  | Ok s => ret (max_candidate_bytes <? s)%Z
  | Err OSError => ret false
  | Err e => raise e
  end.

(** The loop over the selected hot frames; on an exception the frames not added
    are removed. *)
Fixpoint add_hot (paths rest : list string) (received_at : datetime) : M worker unit :=
  match paths with
  | [] => _remove_uploads rest
  | p :: paths' => fun w =>
      match add p (Some received_at) w with
      | (Ok _, w') => add_hot paths' rest received_at w'
      | (Err e, w') => if is_Exception e then _remove_uploads (p :: paths' ++ rest) w' else (Err e, w')
      end
  end.

(** worker.py: CompletedImageHandler._add_hot_frames *)
Definition _add_hot_frames (received_at : datetime) : M worker unit :=
  match hot_frames with
  | None => ret tt
  | Some select =>
      let! selected := try_except (let! l := call_out select in ret (Some l)) (fun _ => ret None) in
      match selected with
      | None => ret tt
      | Some selected =>
          yield_point ;!
          let! c := gets wk_collector in
          let capacity := Nat.min 2 (remaining_capacity c) in
          add_hot (take capacity selected) (drop capacity selected) received_at
      end
  end.

(** A candidate that is not readable yet is tried again later. *)
Definition postpone (path : string) (c : candidate) : M worker unit :=
  yield_point ;!
  let! d := gets wk_retry in
  if dmem path d then
    let! now := read clock in
    modify (set_retry (dset path {| cd_first_seen := cd_first_seen c; cd_retry_at := fadd now retry_interval;
                                    cd_attempts := S (cd_attempts c); cd_received_at := cd_received_at c |} d))
  else ret tt.

(** The body of the loop of [retry_pending]: whether the candidate completed.
    [wait_until_readable] with a zero timeout probes the image once. *)
Definition retry_candidate (now : pyfloat) (path : string) (c : candidate) : M worker bool :=
  let! gone :=
    if (max_attempts <=? cd_attempts c)%nat || fge (fsub now (cd_first_seen c)) max_age then ret true
    else let! exists_ := read (fun n => im_exists (facts n path)) in ret (negb exists_) in
  if gone : bool then pop_candidate path ;! _reject path "upload_incomplete" ;! ret false
  else
    let! large := _too_large path in
    if large : bool then pop_candidate path ;! _reject path "image_too_large" ;! ret false
    else
      let! readable := call_out (fun n => _is_valid_image (facts n path)) in
      if readable : bool then
        let! first_candidate := add path (Some (cd_received_at c)) in
        pop_candidate path ;!
        (if first_candidate : bool then _add_hot_frames (cd_received_at c) else ret tt) ;!
        ret true
      else postpone path c ;! ret false.

Fixpoint retry_due (now : pyfloat) (due : list string) : M worker nat :=
  match due with
  | [] => ret O
  | path :: due' =>
      yield_point ;!
      let! d := gets wk_retry in
      let! completed := match dget path d with
                        | None => ret false
                        | Some c => retry_candidate now path c
                        end in
      let! rest := retry_due now due' in
      ret (if completed : bool then S rest else rest)
  end.

(** worker.py: CompletedImageHandler.retry_pending *)
Definition retry_pending : M worker nat :=
  let! now := read clock in
  yield_point ;!
  let! due := gets (fun w => (filter (fun x => fle (cd_retry_at x.2) now = true) (wk_retry w)).*1) in
  retry_due now due.

(** ** StartupReconciler *)

(** A directory tree as [os.scandir] walks it: a file with what [stat] says of
    its modification time, a directory with its entries unless it cannot be
    opened. *)
Inductive entry :=
| File (path : string) (mtime : result pyfloat)
| Directory (children : option (list entry)).

(** [_next_entry]: the innermost directory first, exhausted ones closed. *)
Fixpoint _next_entry (stack : list (list entry)) : option (entry * list (list entry)) :=
  match stack with
  | [] => None
  | [] :: stack' => _next_entry stack'
  | (e :: es) :: stack' => Some (e, es :: stack')
  end.

(** One file of [run_batch]. *)
Definition reconcile_file (path : string) (mtime : result pyfloat) : M worker unit :=
  if negb (is_jpeg_name path) then ret tt
  else
    let! now := read epoch_clock in
    let! stale := match mtime with
                  | Ok m => let age := fsub now m in ret (flt age float_0 || flt max_image_age age)
                  | Err OSError => ret true
                  | Err e => raise e
                  end in
    if stale : bool then try_finally (report_pre_ocr_skip [path] "stale_startup") (_remove_upload path)
    else yield_point ;! schedule_candidate path false.

(** worker.py: StartupReconciler.run_batch; the open directories are passed
    along, [false] says that the walk is over. *)
Fixpoint run_batch (max_entries : nat) (stack : list (list entry)) : M worker (bool * list (list entry)) :=
  match max_entries with
  | O => ret (true, stack)
  | S n =>
      match _next_entry stack with
      | None => ret (false, [])
      | Some (Directory None, _) => raise OSError
      | Some (Directory (Some children), stack') => run_batch n (children :: stack')
      | Some (File path mtime, stack') => reconcile_file path mtime ;! run_batch n stack'
      end
  end.

(** ** run_worker *)

(** The [while not stop_event.is_set()] loop: the number of iterations before a
    KeyboardInterrupt ends it.  [BaseExc] is that interrupt. *)
Fixpoint main_loop (polls : nat) (reconciling : bool) (stack : list (list entry)) : M worker unit :=
  yield_point ;!
  let! stopping := gets wk_stop in
  if stopping : bool then ret tt
  else
    let! alive := gets wk_observer_alive in
    if negb alive then raise (RuntimeError "critical worker watchdog Observer exited unexpectedly")
    else
      let! next := (if reconciling then run_batch MAX_STARTUP_ENTRIES stack else ret (false, stack)) in
      retry_pending ;!
      flush_due ;!
      match polls with
      | O => raise BaseExc
      | S polls => main_loop polls next.1 next.2
      end.

(** The loop over what [stop] hands back. *)
Fixpoint report_stopped (dropped : list burst) : M worker unit :=
  match dropped with
  | [] => ret tt
  | b :: dropped' =>
      try_finally (report_dropped b "service_stopping") (_remove_uploads (bu_paths b)) ;!
      report_stopped dropped'
  end.

(** [processing_thread.join()]: the processor runs until its loop has ended. *)
Fixpoint join_processor (steps : nat) (w : worker) : worker :=
  match steps with
  | O => w
  | S n => if wk_processor_done w then w else join_processor n (_process_bursts w)
  end.

(** The [finally] clause; [shutdown] is the callback.  Two steps of the processor
    are enough: it finishes the burst in hand and takes the end marker. *)
Definition finalise (shutdown : option (nat -> result unit)) (processing_started : bool) : M worker unit :=
  modify (fun w => set_stop true (wk_failures w) w) ;!
  (if processing_started then
     let! dropped := stop in
     report_stopped dropped ;!
     modify (join_processor 2)
   else ret tt) ;!
  match shutdown with
  | None => ret tt
  | Some callback => note note_shutdown ;! call_out callback
  end.

(** The failure of a worker, raised after the shutdown. *)
Definition raise_failures : M worker unit :=
  let! failures := gets wk_failures in
  match failures with
  | [] => ret tt
  | (name, None) :: _ => raise (RuntimeError (String.append "critical worker exited unexpectedly: " name))
  | (name, Some _) :: _ => raise (RuntimeError (String.append "critical worker failed: " name))
  end.

(** [except KeyboardInterrupt: pass] *)
Definition until_interrupt (m : M worker unit) : M worker unit := fun w =>
  match m w with
  | (Err BaseExc, w') => (Ok tt, w')
  | out => out
  end.

(** worker.py: run_worker, once the parts are built; [tree] is what [scandir] of
    the watched directory yields. *)
Definition run_worker (shutdown : option (nat -> result unit)) (polls : nat) (tree : list entry)
  : M worker unit := fun w =>
  match run_batch MAX_STARTUP_ENTRIES [tree] w with
  | (Err e, w') =>
      (try_finally (until_interrupt (raise e)) (finalise shutdown false) ;! raise_failures) w'
  | (Ok next, w') =>
      (try_finally (until_interrupt (main_loop polls next.1 next.2)) (finalise shutdown true) ;!
       raise_failures) w'
  end.
End Threads.
