(* ===== verification/WorkerFacts.v ===== *)
(** * Properties of ingest and burst scheduling

    No burst is lost, duplicated or reordered by the queue; no accepted upload
    is forgotten, and the lists keep their limits.  WorkerRuns.v has the bursts' contents,
    the startup walk and the stop. *)

From S2P Require Import Prelude Float Text Images Worker.

(** ** Steps that move no upload and no burst *)

(** Only environment readings, reports and removals happened. *)
Record quiet (w w' : worker) : Prop := {
  qt_retry : wk_retry w' = wk_retry w;
  qt_collector : wk_collector w' = wk_collector w;
  qt_queue : wk_queue w' = wk_queue w;
  qt_hand : wk_in_hand w' = wk_in_hand w;
  qt_done : wk_processor_done w' = wk_processor_done w;
  qt_emitted : jn_emitted (wk_journal w') = jn_emitted (wk_journal w);
  qt_removed : jn_removed (wk_journal w) ⊆ jn_removed (wk_journal w');
}.

#[global] Instance quiet_preorder : PreOrder quiet.
Proof.
  split.
  - intros w. by split.
  - intros w1 w2 w3 [] []. split; try congruence. by etrans.
Qed.

(** [m] moves nothing, whether it returns or raises. *)
Definition quietly {A} (m : M worker A) : Prop := forall w0, keeps (quiet w0) m.

(** A predicate the quiet steps keep. *)
Class Unmoved (I : worker -> Prop) : Prop := unmoved : forall w w', quiet w w' -> I w -> I w'.

Lemma quietly_keeps {A} (m : M worker A) I `{!Unmoved I} : quietly m -> keeps I m.
Proof.
  intros Hm w Hw. specialize (Hm w w (reflexivity w)).
  destruct (m w) as [[a|e] w']; by eapply unmoved.
Qed.

Lemma quiet_trans_keeps {A} (m : M worker A) :
  (forall w, quiet w (snd (m w))) -> quietly m.
Proof.
  intros H w0 w Hw. specialize (H w). destruct (m w) as [[a|e] w']; cbn in H; by etrans.
Qed.

Lemma read_quiet {A} (f : nat -> A) : quietly (read f).
Proof. apply quiet_trans_keeps. by intros w. Qed.

Lemma note_quiet f :
  (forall j, jn_emitted (f j) = jn_emitted j) -> (forall j, jn_removed j ⊆ jn_removed (f j)) ->
  quietly (note f).
Proof. intros He Hr. apply quiet_trans_keeps. intros w. by split; cbn. Qed.

Lemma call_out_quiet {A} (f : nat -> result A) : quietly (call_out f).
Proof. intros w0. apply keeps_bind; [apply read_quiet|]. intros [a|e]; [apply keeps_ret|apply keeps_raise]. Qed.

Lemma remove_upload_quiet p : quietly (_remove_upload p).
Proof. apply note_quiet; [done|]. intros j. cbn. apply subseteq_app_l || (intros x Hx; apply elem_of_app; by left). Qed.

Lemma remove_uploads_quiet ps : quietly (_remove_uploads ps).
Proof.
  induction ps as [|p ps IH]; intros w0; cbn; [apply keeps_ret|].
  apply keeps_bind; [apply remove_upload_quiet|]. intros _. apply IH.
Qed.

Lemma report_quiet r : quietly (note (note_report r)).
Proof. by apply note_quiet. Qed.
Lemma error_quiet l : quietly (note (note_error l)).
Proof. by apply note_quiet. Qed.

(** The removed paths are noted. *)
Lemma remove_uploads_spec ps w :
  exists w', _remove_uploads ps w = (Ok tt, w') /\ quiet w w' /\
    forall p, p ∈ ps -> p ∈ jn_removed (wk_journal w').
Proof.
  revert w. induction ps as [|q ps IH]; intros w.
  { exists w. repeat split; try done. intros p Hp. by apply elem_of_nil in Hp. }
  pose proof (remove_upload_quiet q w w (reflexivity w)) as Hq.
  set (w1 := set_journal (note_removed q (wk_journal w)) w).
  change (quiet w w1) in Hq. destruct (IH w1) as (w2 & E & Hq2 & Hr).
  exists w2. split; [exact E|]. split; [by etrans|].
  intros p [->|Hp]%elem_of_cons; [|by apply Hr].
  apply (qt_removed _ _ Hq2). cbn. apply elem_of_app. right. by left.
Qed.

Ltac quiet_tac := intros ?; repeat (keeps_step || (apply read_quiet || apply call_out_quiet
  || apply remove_upload_quiet || apply remove_uploads_quiet || apply report_quiet || apply error_quiet)).

Lemma prefer_first_elem pending ranked p : p ∈ prefer_first pending ranked <-> p ∈ ranked.
Proof.
  unfold prefer_first. destruct pending as [|q pending]; [done|]. case_bool_decide as H; [|done].
  rewrite elem_of_cons, list_elem_of_filter. destruct (decide (p = q)) as [->|]; naive_solver.
Qed.

Section Facts.
Context (clock epoch_clock : nat -> pyfloat) (arrival_clock wall_clock : nat -> datetime).
Context (facts : nat -> string -> image_facts) (resolve : nat -> string -> string).
Context (on_skipped on_timed_skipped : option (nat -> result unit)).
Context (hot_frames : option (nat -> result (list string))).
Context (emit : nat -> result unit) (on_error trigger_resolver : option (nat -> result unit)).
Context (quiet_window retry_interval max_age max_image_age : pyfloat).
Context (max_attempts max_candidates max_pending_candidates max_pending : nat).
Context (max_candidate_bytes : Z) (ignored_roots : list string).
(** What the constructors check. *)
Context (Hcandidates : (1 <= max_candidates)%nat) (Hpending : (1 <= max_pending)%nat).

Abbreviation report_pre_ocr_skip := (report_pre_ocr_skip on_skipped).
Abbreviation report_dropped := (report_dropped on_skipped on_timed_skipped).
Abbreviation _reject := (_reject on_skipped).
Abbreviation reject_all := (reject_all on_skipped).
Abbreviation schedule_candidate :=
  (schedule_candidate clock arrival_clock resolve on_skipped max_pending_candidates ignored_roots).
Abbreviation process_burst := (process_burst emit on_error trigger_resolver).
Abbreviation _process_bursts := (_process_bursts emit on_error trigger_resolver).
Abbreviation act := (act clock arrival_clock resolve on_skipped emit on_error trigger_resolver
  max_pending_candidates ignored_roots).
Abbreviation yield_point := (yield_point clock arrival_clock resolve on_skipped emit on_error trigger_resolver
  max_pending_candidates ignored_roots).
Abbreviation put := (put clock arrival_clock resolve on_skipped emit on_error trigger_resolver
  max_pending_candidates max_pending ignored_roots).
Abbreviation enqueue := (enqueue clock arrival_clock resolve on_skipped on_timed_skipped emit on_error
  trigger_resolver max_pending_candidates max_pending ignored_roots).
Abbreviation drain := (drain clock arrival_clock resolve on_skipped emit on_error trigger_resolver
  max_pending_candidates ignored_roots).
Abbreviation stop := (stop clock arrival_clock resolve on_skipped emit on_error trigger_resolver
  max_pending_candidates max_pending ignored_roots).
Abbreviation report_stopped := (report_stopped on_skipped on_timed_skipped).
Abbreviation add := (add clock arrival_clock facts resolve on_skipped emit on_error trigger_resolver
  quiet_window max_candidates max_pending_candidates ignored_roots).
Abbreviation flush_due := (flush_due clock arrival_clock wall_clock facts resolve on_skipped on_timed_skipped
  emit on_error trigger_resolver max_pending_candidates max_pending max_candidate_bytes ignored_roots).
Abbreviation retry_pending := (retry_pending clock arrival_clock facts resolve on_skipped hot_frames emit
  on_error trigger_resolver quiet_window retry_interval max_age max_attempts max_candidates
  max_pending_candidates max_candidate_bytes ignored_roots).
Abbreviation run_batch := (run_batch clock epoch_clock arrival_clock resolve on_skipped emit on_error
  trigger_resolver max_image_age max_pending_candidates ignored_roots).

Lemma report_pre_ocr_skip_quiet ps r : quietly (report_pre_ocr_skip ps r).
Proof. unfold Worker.report_pre_ocr_skip. quiet_tac. Qed.

Lemma report_dropped_quiet b r : quietly (report_dropped b r).
Proof. unfold Worker.report_dropped. quiet_tac. Qed.

(** Whatever the report does, the uploads are removed. *)
Lemma report_then_remove (m : M worker unit) ps w r w' :
  quietly m -> try_finally m (_remove_uploads ps) w = (r, w') ->
  quiet w w' /\ forall p, p ∈ ps -> p ∈ jn_removed (wk_journal w').
Proof.
  intros Hm. unfold try_finally. specialize (Hm w w (reflexivity w)).
  destruct (m w) as [r1 w1]. destruct (remove_uploads_spec ps w1) as (w2 & -> & Hq & Hr).
  intros [= <- <-]. split; [|done]. by destruct r1; etrans.
Qed.

Lemma reject_spec path reason w r w' :
  _reject path reason w = (r, w') -> quiet w w' /\ path ∈ jn_removed (wk_journal w').
Proof.
  intros E. change (try_finally (report_pre_ocr_skip [path] reason) (_remove_uploads [path]) w = (r, w')) in E.
  apply report_then_remove in E as [Hq Hr]; [|apply report_pre_ocr_skip_quiet].
  split; [done|]. apply Hr. by left.
Qed.

(** ** The invariants *)

Record bounded (w : worker) : Prop := {
  bd_retry : (length (wk_retry w) <= max_pending_candidates)%nat;
  bd_pending : (length (co_pending (wk_collector w)) <= max_candidates)%nat;
  bd_items : (length (bq_items (wk_queue w)) <= max_pending)%nat;
}.

(** The bursts still in the queue. *)
Definition waiting (w : worker) : list burst := omap id (bq_items (wk_queue w)).
Definition in_hand (w : worker) : list burst := option_list (wk_in_hand w).

(** Every burst put was taken, dropped or still waits; the order of those that
    were not dropped is kept; what was taken was emitted once, but for the burst
    in hand and one whose processing was cut short by the end of the thread. *)
Record queue_ok (w : worker) : Prop := {
  qo_split : bq_accepted (wk_queue w) ≡ₚ
    bq_taken (wk_queue w) ++ bq_dropped (wk_queue w) ++ waiting w;
  qo_order : bq_taken (wk_queue w) ++ waiting w `sublist_of` bq_accepted (wk_queue w);
  qo_marker : bq_stopping (wk_queue w) = false -> Forall is_Some (bq_items (wk_queue w));
  qo_emitted : jn_emitted (wk_journal w) `sublist_of` bq_taken (wk_queue w);
  qo_in_hand : wk_processor_done w = false ->
    bq_taken (wk_queue w) = jn_emitted (wk_journal w) ++ in_hand w;
  qo_ended : wk_processor_done w = true -> wk_in_hand w = None;
}.

(** Where an upload is: waiting to complete, in the burst being collected, in a
    queued burst, in the burst in hand, or removed. *)
Definition tracked (p : string) (w : worker) : Prop :=
  p ∈ (wk_retry w).*1 \/ p ∈ co_pending (wk_collector w) \/
  (exists b, b ∈ waiting w /\ p ∈ bu_paths b) \/ (exists b, b ∈ in_hand w /\ p ∈ bu_paths b) \/
  p ∈ jn_removed (wk_journal w).

#[local] Instance bounded_unmoved : Unmoved bounded.
Proof. intros w w' [Hr Hc Hq _ _ _ _] [H1 H2 H3]. split; congruence. Qed.

#[local] Instance queue_ok_unmoved : Unmoved queue_ok.
Proof.
  intros w w' [_ _ Hq Hh Hd He _] [H1 H2 H3 H4 H5 H6].
  unfold waiting, in_hand in *. split; unfold waiting, in_hand; rewrite ?Hq, ?Hh, ?Hd, ?He; done.
Qed.

#[local] Instance tracked_unmoved p : Unmoved (tracked p).
Proof.
  intros w w' [Hr Hc Hq Hh _ _ Hrm]. unfold tracked, waiting, in_hand. rewrite Hr, Hc, Hq, Hh.
  intros [H|[H|[H|[H|H]]]]; auto 10.
Qed.

(** ** What another thread may do *)

Record moved (w w' : worker) : Prop := {
  mv_bounded : bounded w';
  mv_collector : wk_collector w' = wk_collector w;
  mv_items : exists k, bq_items (wk_queue w') = drop k (bq_items (wk_queue w));
  mv_stopping : bq_stopping (wk_queue w') = bq_stopping (wk_queue w);
  mv_tracked : forall p, tracked p w -> tracked p w';
  mv_queue : queue_ok w -> queue_ok w';
}.

Lemma quiet_moved w w' : bounded w -> quiet w w' -> moved w w'.
Proof.
  intros Hb Hq. pose proof Hq as [Hr Hc Hqu _ _ _ _]. split.
  - by eapply unmoved.
  - done.
  - exists 0%nat. by rewrite drop_0, Hqu.
  - by rewrite Hqu.
  - intros p. by apply tracked_unmoved.
  - by apply queue_ok_unmoved.
Qed.

Lemma moved_trans w1 w2 w3 : moved w1 w2 -> moved w2 w3 -> moved w1 w3.
Proof.
  intros [_ c1 [k1 i1] s1 t1 q1] [b2 c2 [k2 i2] s2 t2 q2]. split; try congruence; auto.
  exists (k1 + k2)%nat. by rewrite i2, i1, drop_drop.
Qed.

Lemma coalesce_spec d :
  coalesce max_pending_candidates d =
    ((take (length d - max_pending_candidates) d).*1, drop (length d - max_pending_candidates) d).
Proof.
  induction d as [|[p c] d IH]; [done|]. cbn [coalesce].
  destruct (Nat.ltb_spec max_pending_candidates (length ((p, c) :: d))) as [H|H].
  - rewrite IH. cbn [length] in *.
    by replace (S (length d) - max_pending_candidates)%nat with (S (length d - max_pending_candidates)) by lia.
  - by replace (length ((p, c) :: d) - max_pending_candidates)%nat with 0%nat by (cbn in *; lia).
Qed.

Lemma length_ddel {V} p (d : dict V) : (length (ddel p d) <= length d)%nat.
Proof. apply length_filter. Qed.

Lemma ddel_keys {V} p q (d : dict V) : q ∈ d.*1 -> q = p \/ q ∈ (ddel p d).*1.
Proof.
  intros (x & -> & Hx)%list_elem_of_fmap. destruct (decide (x.1 = p)); [by left|right].
  apply list_elem_of_fmap_2. by apply list_elem_of_filter.
Qed.

Lemma tracked_retry d p w :
  tracked p w -> (forall q, q ∈ (wk_retry w).*1 -> q ∈ d.*1) -> tracked p (set_retry d w).
Proof. unfold tracked, waiting, in_hand. cbn. intros [H|H] Hd; auto. Qed.

(** The section of [schedule_candidate] and the rejections after it: at most one
    candidate is dropped, and it is removed whatever its report does. *)
Lemma coalesced_spec path c w w2 r w' :
  bounded w -> quiet w w2 ->
  (let '(dropped, kept) := coalesce max_pending_candidates (ddel path (wk_retry w) ++ [(path, c)]) in
   modify (set_retry kept) ;! reject_all dropped "candidate_coalesced") w2 = (r, w') ->
  exists kept, (length kept <= max_pending_candidates)%nat /\ quiet (set_retry kept w2) w' /\
    forall p, p = path \/ p ∈ (wk_retry w).*1 -> p ∈ kept.*1 \/ p ∈ jn_removed (wk_journal w').
Proof.
  intros Hb Hq2. rewrite coalesce_spec. set (l := ddel path (wk_retry w) ++ [(path, c)]).
  set (k := (length l - max_pending_candidates)%nat). unfold bind, modify.
  set (w3 := set_retry (drop k l) w2). intros E.
  pose proof (length_ddel path (wk_retry w)). pose proof (bd_retry w Hb).
  assert (Hk : (k <= 1)%nat) by (unfold k, l; rewrite length_app; cbn; lia).
  assert (Hrej : quiet w3 w' /\ forall p, p ∈ (take k l).*1 -> p ∈ jn_removed (wk_journal w')).
  { destruct (take k l) as [|x [|y rest]] eqn:Et; cbn in E.
    - injection E as _ <-. split; [done|]. intros p Hp. by apply elem_of_nil in Hp.
    - unfold bind in E. destruct (_reject x.1 _ w3) as [r4 w4] eqn:E4.
      apply reject_spec in E4 as [Hq4 Hr4].
      assert (w' = w4) as -> by (destruct r4; by injection E as _ <-).
      split; [done|]. intros p ->%list_elem_of_singleton. done.
    - apply (f_equal length) in Et. rewrite length_take in Et. cbn in Et. lia. }
  destruct Hrej as [Hq Hrm]. exists (drop k l). split; [rewrite length_drop; unfold k; lia|].
  split; [done|]. intros p Hp. assert (Hl : p ∈ l.*1).
  { unfold l. rewrite fmap_app. apply elem_of_app. destruct Hp as [->|Hp]; [right; left|].
    destruct (ddel_keys path p _ Hp) as [->|Hd]; [right; left|by left]. }
  rewrite <- (take_drop k l), fmap_app in Hl. apply elem_of_app in Hl as [Hl|Hl]; [right; auto|by left].
Qed.

Lemma coalesced_moved path c w w2 r w' :
  bounded w -> quiet w w2 ->
  (let '(dropped, kept) := coalesce max_pending_candidates (ddel path (wk_retry w) ++ [(path, c)]) in
   modify (set_retry kept) ;! reject_all dropped "candidate_coalesced") w2 = (r, w') ->
  moved w w' /\ tracked path w'.
Proof.
  intros Hb Hq2 E. destruct (coalesced_spec _ _ _ _ _ _ Hb Hq2 E) as (kept & Hl & Hq & Hcov).
  assert (Hb3 : bounded (set_retry kept w2)).
  { assert (Hb2 : bounded w2) by (by eapply unmoved). destruct Hb2 as [_ H2 H3]. by split. }
  pose proof (quiet_moved _ w' Hb3 Hq) as Hm. pose proof Hq2 as [Hr2 Hc2 Hqu2 Hh2 Hd2 He2 Hrm2].
  assert (Hkeys : forall p, p = path \/ p ∈ (wk_retry w).*1 -> tracked p w').
  { intros p Hp. destruct (Hcov p Hp) as [H|H]; [apply (mv_tracked _ _ Hm); by left|].
    right. right. right. by right. }
  split; [|apply Hkeys; by left].
  split; [by apply Hm| | | | |].
  - by rewrite (mv_collector _ _ Hm).
  - exists 0%nat. rewrite drop_0, (qt_queue _ _ Hq). cbn. by rewrite Hqu2.
  - rewrite (mv_stopping _ _ Hm). cbn. by rewrite Hqu2.
  - intros p [Hp|Hp]; [apply Hkeys; by right|]. apply (mv_tracked _ _ Hm). right. revert Hp.
    unfold waiting, in_hand. cbn. rewrite Hc2, Hqu2, Hh2. intros [H|[H|[H|H]]]; auto 10.
  - intros Ho. apply (mv_queue _ _ Hm). apply (queue_ok_unmoved w w2 Hq2) in Ho.
    destruct Ho. by split.
Qed.

(** The observer's report of an entry; an accepted upload is tracked. *)
Lemma schedule_spec path is_directory w r w' :
  bounded w -> schedule_candidate path is_directory w = (r, w') ->
  moved w w' /\
  (is_directory = false -> is_jpeg_name path = true ->
   existsb (fun root => within root (resolve (wk_reads w) path)) ignored_roots = false -> tracked path w').
Proof.
  intros Hb. assert (Hrefl : moved w w) by by apply quiet_moved.
  unfold Worker.schedule_candidate. destruct is_directory; [by intros [= _ <-]|].
  unfold ignores, bind at 1 2. set (w0 := set_reads (S (wk_reads w)) w).
  assert (Hq0 : quiet w w0) by by split.
  cbn beta iota delta [read ret fst snd]. fold w0.
  destruct (existsb _ _); cbn [orb]; [intros [= _ <-]; by split; [apply quiet_moved|]|].
  destruct (is_jpeg_name path); cbn [negb]; [|intros [= _ <-]; by split; [apply quiet_moved|]].
  unfold bind at 1. cbn [read]. unfold bind at 1, gets at 1. cbn [wk_retry set_reads w0].
  set (w1 := set_reads _ w0).
  assert (Hend : moved w w' /\ tracked path w' -> moved w w' /\ (false = false -> true = true -> false = false -> tracked path w'))
    by tauto.
  destruct (dget path (wk_retry w)) as [c|]; unfold bind at 1; cbn [ret read]; intros E; apply Hend;
    (eapply coalesced_moved; [exact Hb| |exact E]; by split).
Qed.

Lemma schedule_moved path is_directory w r w' :
  bounded w -> schedule_candidate path is_directory w = (r, w') -> moved w w'.
Proof. intros Hb E. by eapply schedule_spec. Qed.

(** *** The processor *)

(** Like [quiet], up to the emissions. *)
Record processed (w w' : worker) : Prop := {
  pr_retry : wk_retry w' = wk_retry w;
  pr_collector : wk_collector w' = wk_collector w;
  pr_queue : wk_queue w' = wk_queue w;
  pr_hand : wk_in_hand w' = wk_in_hand w;
  pr_done : wk_processor_done w' = wk_processor_done w;
  pr_removed : jn_removed (wk_journal w) ⊆ jn_removed (wk_journal w');
}.

Lemma quiet_processed w w' : quiet w w' -> processed w w'.
Proof. intros []. by split. Qed.

Lemma processed_trans w1 w2 w3 : processed w1 w2 -> processed w2 w3 -> processed w1 w3.
Proof. intros [] []. split; try congruence. by etrans. Qed.

Lemma resolve_trigger_spec w r w' :
  _resolve_trigger trigger_resolver w = (r, w') ->
  quiet w w' /\ match r with Ok _ => True | Err e => is_Exception e = false end.
Proof.
  unfold _resolve_trigger. destruct trigger_resolver as [f|]; [|by intros [= <- <-]].
  unfold try_except. pose proof (call_out_quiet f w w (reflexivity w)) as Hq.
  destruct (call_out f w) as [[[]|e] w1]; [by intros [= <- <-]|].
  destruct (is_Exception e) eqn:Ee; by intros [= <- <-].
Qed.

Lemma report_error_quiet paths : quietly (_report_processing_error on_error paths).
Proof. unfold _report_processing_error. quiet_tac. Qed.

(** The guarded part of [process_burst]. *)
Lemma emission_spec b w r w' :
  try_except (_resolve_trigger trigger_resolver ;! note (note_emitted b) ;! call_out emit)
    (fun _ => _report_processing_error on_error (bu_paths b)) w = (r, w') ->
  processed w w' /\
  (jn_emitted (wk_journal w') = jn_emitted (wk_journal w) ++ [b] \/
   (exists e, r = Err e) /\ jn_emitted (wk_journal w') = jn_emitted (wk_journal w)).
Proof.
  unfold try_except, bind. destruct (_resolve_trigger _ w) as [[[]|e] w1] eqn:E1;
    apply resolve_trigger_spec in E1 as [Hq1 He1].
  - set (w2 := set_journal (note_emitted b (wk_journal w1)) w1).
    pose proof (call_out_quiet emit w2 w2 (reflexivity w2)) as Hq3.
    change (note (note_emitted b) w1) with (Ok tt, w2). cbn beta iota.
    assert (Hp2 : processed w w2) by (destruct Hq1; by split).
    assert (He2 : forall w3, quiet w2 w3 -> processed w w3 /\
      jn_emitted (wk_journal w3) = jn_emitted (wk_journal w) ++ [b]).
    { intros w3 Hq. split; [by eapply processed_trans, quiet_processed|].
      rewrite (qt_emitted _ _ Hq). cbn. by rewrite (qt_emitted _ _ Hq1). }
    destruct (call_out emit w2) as [[[]|e] w3].
    + intros [= <- <-]. destruct (He2 w3 Hq3). auto.
    + destruct (is_Exception e); [|intros [= <- <-]; destruct (He2 w3 Hq3); auto].
      intros E4. pose proof (report_error_quiet (bu_paths b) w2 w3 Hq3) as Hq4. rewrite E4 in Hq4.
      assert (Hq : quiet w2 w') by (by destruct r). destruct (He2 w' Hq). auto.
  - rewrite He1. intros [= <- <-]. split; [by apply quiet_processed|].
    right. split; [eauto|]. by rewrite (qt_emitted _ _ Hq1).
Qed.

Lemma process_burst_spec b w r w' :
  process_burst b w = (r, w') ->
  processed w w' /\ (forall p, p ∈ bu_paths b -> p ∈ jn_removed (wk_journal w')) /\
  (jn_emitted (wk_journal w') = jn_emitted (wk_journal w) ++ [b] \/
   (exists e, r = Err e) /\ jn_emitted (wk_journal w') = jn_emitted (wk_journal w)).
Proof.
  unfold Worker.process_burst, try_finally at 1.
  destruct (try_except _ _ w) as [r1 w1] eqn:E1. apply emission_spec in E1 as [Hp Hem].
  destruct (remove_uploads_spec (bu_paths b) w1) as (w2 & -> & Hq & Hrm). intros [= <- <-].
  split; [by eapply processed_trans, quiet_processed|]. split; [done|]. by rewrite (qt_emitted _ _ Hq).
Qed.

Lemma supervise_unmoved name outcome w : quiet w (_supervise_worker name outcome w).
Proof. unfold _supervise_worker. by destruct (wk_stop w). Qed.

(** The burst in hand is done with. *)
Lemma finished_moved b w r w1 done_ :
  bounded w -> wk_in_hand w = Some b -> wk_processor_done w = false ->
  process_burst b (set_hand None false w) = (r, w1) -> (r = Ok tt -> done_ = false) ->
  (forall e, r = Err e -> done_ = true) -> moved w (set_hand None done_ w1).
Proof.
  intros [Hb1 Hb2 Hb3] Hh Hd E Hok Herr. apply process_burst_spec in E as ([Hr Hc Hq _ _ Hrm] & Hpaths & Hem).
  cbn in *. split; cbn.
  - split; cbn; congruence.
  - done.
  - exists 0%nat. by rewrite drop_0, Hq.
  - by rewrite Hq.
  - intros p. unfold tracked, waiting, in_hand. cbn. rewrite Hr, Hc, Hq, Hh. cbn.
    intros [H|[H|[H|[(x & Hx & H)|H]]]]; auto 10.
    apply list_elem_of_singleton in Hx as ->. auto 10.
  - intros [H1 H2 H3 H4 H5 H6]. specialize (H5 Hd). unfold in_hand in H5. rewrite Hh in H5. cbn in H5.
    unfold waiting in *. split; unfold waiting, in_hand; cbn; rewrite ?Hq; try done.
    + destruct Hem as [->|[_ ->]]; [by rewrite H5|done].
    + intros ->. destruct Hem as [->|[[e ->] _]]; [by rewrite app_nil_r, H5|].
      by specialize (Herr e eq_refl).
Qed.

(** The next burst is taken. *)
Lemma taken_moved b items w :
  bounded w -> wk_in_hand w = None -> wk_processor_done w = false ->
  bq_items (wk_queue w) = Some b :: items ->
  moved w (set_hand (Some b) false (set_queue (take_item b items (wk_queue w)) w)).
Proof.
  intros [Hb1 Hb2 Hb3] Hh Hd Hi. rewrite Hi in Hb3. cbn in Hb3. split; cbn.
  - split; cbn; try done. lia.
  - done.
  - exists 1%nat. by rewrite Hi.
  - done.
  - intros p. unfold tracked, waiting, in_hand. cbn. rewrite Hh, Hi. cbn.
    intros [H|[H|[(x & [->|Hx]%elem_of_cons & H)|[(x & Hx & H)|H]]]]; auto 10.
    + right. right. right. left. exists b. split; [left|done].
    + eauto 10.
    + by apply elem_of_nil in Hx.
  - intros [H1 H2 H3 H4 H5 H6]. unfold waiting in *. rewrite Hi in *. cbn in *.
    split; unfold waiting, in_hand; cbn; try done.
    + rewrite H1. rewrite <- app_assoc. cbn. apply Permutation_app_head. by rewrite Permutation_middle.
    + by rewrite <- app_assoc.
    + intros Hs. specialize (H3 Hs). by apply list.Forall_cons in H3 as [_ ?].
    + by apply sublist_inserts_r.
    + intros _. rewrite (H5 Hd). unfold in_hand. rewrite Hh. cbn. by rewrite app_nil_r.
Qed.

(** The end marker ends the loop. *)
Lemma ended_moved items w :
  bounded w -> wk_in_hand w = None -> bq_items (wk_queue w) = None :: items ->
  moved w (set_hand None true (set_queue (with_items items (wk_queue w)) w)).
Proof.
  intros [Hb1 Hb2 Hb3] Hh Hi. rewrite Hi in Hb3. cbn in Hb3. split; cbn.
  - split; cbn; try done. lia.
  - done.
  - exists 1%nat. by rewrite Hi.
  - done.
  - intros p. unfold tracked, waiting, in_hand. cbn. rewrite Hh, Hi. cbn. done.
  - intros [H1 H2 H3 H4 H5 H6]. unfold waiting in *. rewrite Hi in *. cbn in *.
    split; unfold waiting, in_hand; cbn; try done.
    intros Hs. specialize (H3 Hs). by apply list.Forall_cons in H3 as [[? ?] _].
Qed.

Lemma process_step_moved w : bounded w -> moved w (_process_bursts w).
Proof.
  intros Hb. assert (Hrefl : moved w w) by (by apply quiet_moved). unfold Worker._process_bursts.
  destruct (wk_processor_done w) eqn:Hd; [done|]. destruct (wk_in_hand w) as [b|] eqn:Hh.
  - destruct (process_burst b (set_hand None false w)) as [r w1] eqn:E.
    assert (Hm : moved w (set_hand None (match r with Ok _ => false | Err _ => true end) w1))
      by (eapply finished_moved; [done..|by intros ->|by intros e ->]).
    destruct r as [[]|e].
    + assert (set_hand None false w1 = w1) as <-; [|done].
      apply process_burst_spec in E as ([_ _ _ H1 H2 _] & _). cbn in H1, H2. destruct w1; cbn in *. by rewrite H1, H2.
    + eapply moved_trans; [exact Hm|]. apply quiet_moved; [apply Hm|apply supervise_unmoved].
  - destruct (bq_items (wk_queue w)) as [|[b|] items] eqn:Hi; [done|by apply taken_moved|].
    eapply moved_trans; [by apply ended_moved|]. apply quiet_moved; [by apply ended_moved|apply supervise_unmoved].
Qed.

Lemma act_moved a w : bounded w -> moved w (act a w).
Proof.
  intros Hb. destruct a as [path is_directory| |name outcome]; cbn.
  - destruct (wk_observer_alive w); [|by apply quiet_moved].
    destruct (schedule_candidate path is_directory w) as [[[]|e] w'] eqn:E; apply schedule_moved in E; try done.
    eapply moved_trans; [exact E|]. apply quiet_moved; [apply E|by split].
  - by apply process_step_moved.
  - apply quiet_moved; [done|apply supervise_unmoved].
Qed.

Lemma yield_spec w : bounded w -> exists w', yield_point w = (Ok tt, w') /\ moved w w'.
Proof.
  intros Hb. unfold Worker.yield_point. destruct (wk_plan w) as [|actions plan].
  { exists w. split; [done|by apply quiet_moved]. }
  eexists. split; [reflexivity|].
  assert (H0 : moved w (set_plan plan w)) by (apply quiet_moved; [done|by split]).
  revert H0. generalize (set_plan plan w). induction actions as [|a actions IH]; intros w1 H1; [done|].
  cbn. apply IH. eapply moved_trans; [exact H1|]. apply act_moved, H1.
Qed.

(** ** The main thread *)

Section Uploads.
(** The uploads followed. *)
Context (followed : string -> Prop).

(** Every followed upload is somewhere, except perhaps those of [loose], which
    the main thread is holding. *)
Record good (loose : list string) (w : worker) : Prop := {
  gd_bounded : bounded w;
  gd_queue : queue_ok w;
  gd_tracked : forall p, followed p -> tracked p w \/ p ∈ loose;
}.

Definition sound (w : worker) : Prop := bounded w /\ queue_ok w.

Lemma good_sound loose w : good loose w -> sound w.
Proof. intros []. by split. Qed.
Hint Resolve good_sound : gate.

Lemma good_weaken loose loose' w : loose ⊆ loose' -> good loose w -> good loose' w.
Proof. intros H [H1 H2 H3]. split; try done. intros p Hp. destruct (H3 p Hp); auto. Qed.

#[local] Instance good_unmoved loose : Unmoved (good loose).
Proof.
  intros w w' Hq [H1 H2 H3]. split.
  - by eapply unmoved.
  - by eapply queue_ok_unmoved.
  - intros p Hp. destruct (H3 p Hp); [left; by eapply tracked_unmoved|by right].
Qed.

#[local] Instance sound_unmoved : Unmoved sound.
Proof. intros w w' Hq [H1 H2]. split; by eapply unmoved || by eapply queue_ok_unmoved. Qed.

Lemma good_moved loose w w' : moved w w' -> good loose w -> good loose w'.
Proof.
  intros [Hb _ _ _ Ht Hq] [H1 H2 H3]. split; [done|auto|].
  intros p Hp. destruct (H3 p Hp); auto.
Qed.

Lemma yield_keeps loose : keeps (good loose) yield_point.
Proof.
  intros w Hw. destruct (yield_spec w (gd_bounded _ _ Hw)) as (w' & -> & Hm). by eapply good_moved.
Qed.

(** A yield also keeps what is pending in the collector. *)
Lemma yield_keeps_pending loose p :
  keeps (fun w => good loose w /\ p ∈ co_pending (wk_collector w)) yield_point.
Proof.
  intros w [Hw Hp]. destruct (yield_spec w (gd_bounded _ _ Hw)) as (w' & -> & Hm).
  split; [by eapply good_moved|]. by rewrite (mv_collector _ _ Hm).
Qed.

Lemma quietly_good {A} (m : M worker A) loose : quietly m -> triple (good loose) m (fun _ => good loose) sound.
Proof.
  intros Hm. eapply triple_conseq; [by apply (quietly_keeps m (good loose))|done..|].
  intros w. apply good_sound.
Qed.

Lemma removed_good ps loose w w' :
  quiet w w' -> (forall p, p ∈ ps -> p ∈ jn_removed (wk_journal w')) -> good (ps ++ loose) w -> good loose w'.
Proof.
  intros Hq Hr Hw. apply (unmoved w w' Hq) in Hw. destruct Hw as [H1 H2 H3]. split; try done.
  intros p Hp. destruct (H3 p Hp) as [H|[H|H]%elem_of_app]; [by left| |by right].
  left. right. right. right. right. by apply Hr.
Qed.

Lemma remove_uploads_good ps loose :
  triple (good (ps ++ loose)) (_remove_uploads ps) (fun _ => good loose) sound.
Proof.
  intros w Hw. destruct (remove_uploads_spec ps w) as (w' & -> & Hq & Hr). by eapply removed_good.
Qed.

Lemma report_remove_good (m : M worker unit) ps loose :
  quietly m -> triple (good (ps ++ loose)) (try_finally m (_remove_uploads ps)) (fun _ => good loose) sound.
Proof.
  intros Hm w Hw. destruct (try_finally _ _ w) as [r w'] eqn:E.
  apply report_then_remove in E as [Hq Hr]; [|done].
  assert (good loose w') by (by eapply removed_good). destruct r; [done|by eapply good_sound].
Qed.

Lemma reject_good path reason loose :
  triple (good (path :: loose)) (_reject path reason) (fun _ => good loose) sound.
Proof. apply (report_remove_good _ [path]), report_pre_ocr_skip_quiet. Qed.

(** Popping a candidate leaves its upload in the main thread's hands. *)
Lemma retry_set_good d loose loose' w :
  (length d <= max_pending_candidates)%nat ->
  (forall p, p ∈ (wk_retry w).*1 -> p ∈ d.*1 \/ p ∈ loose') -> loose ⊆ loose' ->
  good loose w -> good loose' (set_retry d w).
Proof.
  intros Hl Hd Hs [[H1 H2 H3] [Q1 Q2 Q3 Q4 Q5 Q6] Ht]. split; [by split|by split|].
  intros p Hp. destruct (Ht p Hp) as [[H|H]|H]; [|by left; right|right; by apply Hs].
  destruct (Hd p H); [left; by left|by right].
Qed.

Lemma pop_candidate_good path loose :
  triple (good loose)
    (pop_candidate clock arrival_clock resolve on_skipped emit on_error trigger_resolver
       max_pending_candidates ignored_roots path)
    (fun _ => good (path :: loose)) sound.
Proof.
  apply (triple_bind (A := unit) _ _ _ (fun _ => good loose)).
  { eapply (triple_of_keeps (good loose)); [apply yield_keeps|done..|intros w; apply good_sound]. }
  intros _. apply triple_modify. intros w Hw. apply (retry_set_good _ loose); try done.
  - etrans; [apply length_ddel|]. apply Hw.
  - intros p Hp. destruct (ddel_keys path p _ Hp) as [->|H]; [right; left|by left].
  - by apply list_subseteq_cons_r || (intros x Hx; by right).
Qed.

(** *** The queue *)

Definition burst_paths (b : option burst) : list string := from_option bu_paths [] b.

Lemma waiting_items_good items q' loose loose' w :
  good loose w -> (length items <= max_pending)%nat ->
  bq_items q' = items -> queue_ok (set_queue q' w) ->
  (forall b, b ∈ waiting w -> b ∈ omap id items \/ bu_paths b ⊆ loose') -> loose ⊆ loose' ->
  good loose' (set_queue q' w).
Proof.
  intros [[H1 H2 H3] _ Ht] Hl Hq Ho Hw Hs. split; [split; cbn; by rewrite ?Hq|done|].
  intros p Hp. destruct (Ht p Hp) as [[H|[H|[(b & Hb & Hin)|[H|H]]]]|H].
  - left. by left.
  - left. right. by left.
  - destruct (Hw b Hb) as [H|H]; [|right; by apply H].
    left. right. right. left. exists b. unfold waiting. cbn. by rewrite Hq.
  - left. right. right. right. by left.
  - left. right. right. right. by right.
  - right. by apply Hs.
Qed.

Lemma get_nowait_spec loose w :
  good loose w -> exists b w', get_nowait w = (Ok b, w') /\ good (burst_paths b ++ loose) w' /\
    bq_items (wk_queue w') = tail (bq_items (wk_queue w)) /\
    bq_stopping (wk_queue w') = bq_stopping (wk_queue w) /\ wk_plan w' = wk_plan w.
Proof.
  intros Hw. unfold get_nowait, bind, gets, on_queue, modify, ret.
  destruct (bq_items (wk_queue w)) as [|[b|] items] eqn:Hi.
  - exists None, w. rewrite Hi. done.
  - eexists (Some b), _. split; [reflexivity|]. split; [|done].
    pose proof (bd_items _ (gd_bounded _ _ Hw)) as Hl. rewrite Hi in Hl. cbn in Hl.
    apply (waiting_items_good items _ loose); try done; [lia| | |].
    + destruct (gd_queue _ _ Hw) as [Q1 Q2 Q3 Q4 Q5 Q6]. unfold waiting in *. rewrite Hi in *. cbn in *.
      split; unfold waiting; cbn; try done.
      * rewrite Q1. by rewrite <- app_assoc.
      * etrans; [|exact Q2]. apply sublist_app; [done|]. by apply sublist_cons.
      * intros Hs. specialize (Q3 Hs). by apply list.Forall_cons in Q3 as [_ ?].
    + unfold waiting. rewrite Hi. cbn. intros x [->|Hx]%elem_of_cons; [|by left].
      right. intros p Hp. apply elem_of_app. by left.
    + cbn. by intros p Hp; apply elem_of_app; right.
  - eexists None, _. split; [reflexivity|]. split; [|done].
    pose proof (bd_items _ (gd_bounded _ _ Hw)) as Hl. rewrite Hi in Hl. cbn in Hl.
    apply (waiting_items_good items _ loose); try done; [lia| |].
    + destruct (gd_queue _ _ Hw) as [Q1 Q2 Q3 Q4 Q5 Q6]. unfold waiting in *. rewrite Hi in *. cbn in *.
      split; unfold waiting; cbn; try done.
      intros Hs. specialize (Q3 Hs). by apply list.Forall_cons in Q3 as [_ ?].
    + unfold waiting. rewrite Hi. cbn. by left.
Qed.

Lemma accept_good item loose loose' w :
  good loose w -> (length (bq_items (wk_queue w)) < max_pending)%nat ->
  (forall p, p ∈ loose -> p ∈ bu_paths item \/ p ∈ loose') ->
  good loose' (set_queue (accept_item item (bq_items (wk_queue w) ++ [Some item]) (wk_queue w)) w).
Proof.
  intros [[H1 H2 H3] [Q1 Q2 Q3 Q4 Q5 Q6] Ht] Hl Hloose.
  assert (Hwait : omap id (bq_items (wk_queue w) ++ [Some item]) = waiting w ++ [item]) by by rewrite omap_app.
  split.
  - split; cbn; try done. rewrite length_app. cbn. lia.
  - split; unfold waiting, in_hand; cbn; rewrite ?Hwait; try done.
    + rewrite Q1, !app_assoc. done.
    + rewrite app_assoc. by apply sublist_app.
    + intros Hs. apply list.Forall_app. split; [by apply Q3|]. by repeat constructor.
  - intros p Hp. unfold tracked, waiting. cbn. rewrite Hwait. setoid_rewrite elem_of_app.
    destruct (Ht p Hp) as [[H|[H|[(b & Hb & Hin)|[H|H]]]]|H]; [left; auto..| |left; auto|left; auto 10|].
    + left. right. right. left. eauto.
    + destruct (Hloose p H) as [Hi|Hi]; [|by right]. left. right. right. left.
      exists item. split; [right; left|done].
Qed.

Lemma refuse_good item loose w :
  good loose w -> good loose (set_queue (refuse_item item (wk_queue w)) w).
Proof.
  intros [[H1 H2 H3] [Q1 Q2 Q3 Q4 Q5 Q6] Ht]. split; [by split| |done].
  split; unfold waiting, in_hand in *; cbn; try done.
  - rewrite Q1. rewrite <- !app_assoc. do 2 f_equiv. by rewrite Permutation_app_comm.
  - by apply sublist_inserts_r.
Qed.

(** [put] never blocks and never raises: at most the oldest waiting burst comes
    back, and the queue holds the new one unless it is stopping. *)
Lemma put_spec item loose w :
  good (bu_paths item ++ loose) w ->
  exists d w', put item w = (Ok d, w') /\ good (burst_paths d ++ loose) w' /\
    list.last (bq_accepted (wk_queue w')) = Some item.
Proof.
  intros Hw. unfold Worker.put. unfold bind at 1, gets at 1.
  destruct (bq_stopping (wk_queue w)) eqn:Hs.
  { unfold bind, on_queue, modify, ret. eexists (Some item), _. split; [reflexivity|].
    split; [by apply refuse_good|by apply last_snoc]. }
  assert (Hdrop : exists d w1,
    (if full max_pending (wk_queue w) then yield_point ;! get_nowait else ret None) w = (Ok d, w1) /\
    good (burst_paths d ++ bu_paths item ++ loose) w1 /\
    full max_pending (wk_queue w1) = false).
  { destruct (full max_pending (wk_queue w)) eqn:Hfull; [|by exists None, w].
    destruct (yield_spec w (gd_bounded _ _ Hw)) as (w0 & E0 & Hm).
    destruct (get_nowait_spec _ w0 (good_moved _ _ _ Hm Hw)) as (d & w1 & E1 & Hg & Hi & _).
    exists d, w1. unfold bind. rewrite E0. split; [done|]. split; [done|].
    unfold full. rewrite Hi. apply Nat.leb_gt. pose proof (bd_items _ (mv_bounded _ _ Hm)).
    destruct (bq_items (wk_queue w0)); cbn in *; lia. }
  destruct Hdrop as (d & w1 & E1 & Hg & Hfull). unfold bind at 1. rewrite E1.
  unfold bind at 1, gets. rewrite Hfull. unfold bind, on_queue, modify, ret.
  eexists d, _. split; [reflexivity|]. split.
  - apply (accept_good item _ _ _ Hg); [by apply Nat.leb_gt in Hfull|].
    intros p. rewrite !elem_of_app. tauto.
  - cbn. by rewrite last_snoc.
Qed.

Lemma enqueue_good item loose :
  triple (good (bu_paths item ++ loose)) (enqueue item) (fun _ => good loose) sound.
Proof.
  intros w Hw. unfold Worker.enqueue, bind. destruct (put_spec item loose w Hw) as (d & w' & -> & Hg & _).
  destruct d as [b|]; [|done].
  apply (report_remove_good (report_dropped b "queue_coalesced") (bu_paths b) loose); [|done].
  apply report_dropped_quiet.
Qed.

Definition all_paths (bs : list burst) : list string := bs ≫= bu_paths.

(** Draining returns with the queue empty. *)
Lemma drain_spec n loose w :
  good loose w -> (length (bq_items (wk_queue w)) < n)%nat ->
  exists l w', drain n w = (Ok l, w') /\ good (all_paths l ++ loose) w' /\
    bq_items (wk_queue w') = [] /\ bq_stopping (wk_queue w') = bq_stopping (wk_queue w).
Proof.
  revert w loose. induction n as [|n IH]; intros w loose Hw Hn; [lia|].
  cbn -[all_paths]. unfold bind at 1.
  destruct (yield_spec w (gd_bounded _ _ Hw)) as (w0 & -> & Hm). pose proof (good_moved _ _ _ Hm Hw) as Hw0.
  destruct Hm as [_ _ [k Hk] Hst _ _]. unfold bind at 1, gets.
  assert (Hl : (length (bq_items (wk_queue w0)) <= length (bq_items (wk_queue w)))%nat)
    by (rewrite Hk, length_drop; lia).
  destruct (bq_items (wk_queue w0)) as [|x items] eqn:Hi; [by exists [], w0|].
  destruct (get_nowait_spec loose w0 Hw0) as (b & w1 & E1 & Hg & Hi1 & Hs1 & _). unfold bind at 1. rewrite E1.
  rewrite Hi in Hi1. cbn in Hi1.
  destruct (IH w1 (burst_paths b ++ loose) Hg) as (l & w2 & E2 & Hg2 & Hi2 & Hs2).
  { rewrite Hi1. cbn in Hl. lia. }
  unfold bind. rewrite E2. exists (match b with Some b => b :: l | None => l end), w2.
  split; [done|]. split; [|split; [done|congruence]].
  eapply good_weaken; [|exact Hg2]. intros p. unfold all_paths.
  destruct b as [b|]; cbn; rewrite !elem_of_app; tauto.
Qed.

(** [stop] hands back what was waiting and leaves the end marker alone in the
    queue. *)
Lemma stop_spec loose w :
  good loose w -> bq_stopping (wk_queue w) = false ->
  exists l w', stop w = (Ok l, w') /\ good (all_paths l ++ loose) w' /\
    bq_items (wk_queue w') = [None] /\ bq_stopping (wk_queue w') = true.
Proof.
  intros Hw Hs. unfold Worker.stop. unfold bind at 1, gets at 1. rewrite Hs.
  unfold bind at 1, on_queue at 1, modify at 1. set (w0 := set_queue (stop_queue (wk_queue w)) w).
  assert (Hw0 : good loose w0).
  { destruct Hw as [[H1 H2 H3] [Q1 Q2 Q3 Q4 Q5 Q6] Ht]. split; [by split|by split|done]. }
  destruct (drain_spec (S (length (bq_items (wk_queue w)))) loose w0 Hw0) as (l & w1 & E1 & Hg & Hi & Hs1);
    [cbn; lia|].
  unfold bind at 1. rewrite E1. unfold bind at 1, gets, full. rewrite Hi. cbn [length].
  destruct (Nat.leb_spec max_pending 0); [lia|]. unfold bind, on_queue, modify, ret.
  eexists l, _. split; [reflexivity|]. split; [|by cbn; rewrite ?Hi].
  cbn in Hs1. apply (waiting_items_good [None] _ (all_paths l ++ loose)); try done.
  - destruct (gd_queue _ _ Hg) as [Q1 Q2 Q3 Q4 Q5 Q6]. unfold waiting in *. rewrite Hi in *.
    split; unfold waiting; cbn; try done. by rewrite Hs1.
  - unfold waiting. rewrite Hi. cbn. by intros b ?%elem_of_nil.
Qed.

Lemma report_stopped_good dropped loose :
  triple (good (all_paths dropped ++ loose)) (report_stopped dropped) (fun _ => good loose) sound.
Proof.
  induction dropped as [|b dropped IH]; cbn -[all_paths]; [by apply triple_ret|].
  apply (triple_bind (A := unit) _ _ _ (fun _ => good (all_paths dropped ++ loose))); [|done].
  change (all_paths (b :: dropped)) with (bu_paths b ++ all_paths dropped). rewrite <- app_assoc.
  apply report_remove_good, report_dropped_quiet.
Qed.

(** *** The collector *)

Lemma collector_good c loose loose' w :
  good loose w -> (length (co_pending c) <= max_candidates)%nat ->
  (forall p, p ∈ co_pending (wk_collector w) -> p ∈ co_pending c \/ p ∈ loose') -> loose ⊆ loose' ->
  good loose' (set_collector c w).
Proof.
  intros [[H1 H2 H3] [Q1 Q2 Q3 Q4 Q5 Q6] Ht] Hl Hc Hs. split; [by split|by split|].
  intros p Hp. destruct (Ht p Hp) as [[H|[H|H]]|H]; [left; by left| |left; right; by right|right; by apply Hs].
  destruct (Hc p H); [left; right; by left|by right].
Qed.

(** The uploads are good and the pending list is as it was read. *)
Definition collecting loose pending (w : worker) : Prop :=
  good loose w /\ co_pending (wk_collector w) = pending.

#[local] Instance collecting_unmoved loose pending : Unmoved (collecting loose pending).
Proof.
  intros w w' Hq [Hw Hp]. split; [by eapply good_unmoved|]. by rewrite (qt_collector _ _ Hq).
Qed.

Lemma on_collector_keeps f loose pending :
  (forall c, co_pending (f c) = co_pending c) -> keeps (collecting loose pending) (on_collector f).
Proof.
  intros Hf. apply keeps_modify. intros w [Hw Hp]. split; [|cbn; by rewrite Hf].
  apply (collector_good _ loose); try done.
  - rewrite Hf. apply Hw.
  - intros p Hin. left. by rewrite Hf.
Qed.

Lemma read_keeps {A} (f : nat -> A) I `{!Unmoved I} : keeps I (read f).
Proof. apply quietly_keeps; [done|apply read_quiet]. Qed.

Hint Resolve on_collector_keeps : gate.

Lemma start_burst_keeps path received loose pending :
  keeps (collecting loose pending) (start_burst clock arrival_clock facts path received).
Proof.
  unfold start_burst. apply keeps_bind; [destruct received; [apply keeps_ret|apply read_keeps, _]|]. intros t.
  apply keeps_bind; [by apply on_collector_keeps|]. intros _.
  apply keeps_bind; [apply read_keeps, _|]. intros m.
  apply keeps_bind; [by apply on_collector_keeps|]. intros _.
  apply keeps_bind; [apply read_keeps, _|]. intros [k|[]]; solve [apply keeps_raise | by apply on_collector_keeps].
Qed.

Lemma join_burst_keeps received loose pending : keeps (collecting loose pending) (join_burst received).
Proof.
  unfold join_burst. destruct received as [t|]; [|apply keeps_ret]. apply keeps_bind; [apply keeps_gets|]. intros c.
  destruct (co_received_at c) as [r|]; [|apply keeps_raise].
  apply keeps_bind; [intros w; by destruct (dt_lt t r)|]. intros []; [by apply on_collector_keeps|apply keeps_ret].
Qed.

Lemma elem_of_remove_first p q l : p ∈ l -> p = q \/ p ∈ remove_first q l.
Proof.
  induction l as [|x l IH]; cbn; [by intros ?%elem_of_nil|]. intros [->|H]%elem_of_cons; case_bool_decide as Hx; subst; auto.
  - right. left.
  - destruct (IH H); [by left|right; by right].
Qed.

Lemma length_remove_first q l : (length (remove_first q l) <= length l)%nat.
Proof. induction l as [|x l IH]; cbn; [lia|]. case_bool_decide; cbn; lia. Qed.

(** The pending list after an addition. *)
Lemma append_pending path pending dropped kept :
  (length pending <= max_candidates)%nat ->
  (let l := remove_first path pending ++ [path] in
   if (max_candidates <? length l)%nat then (take 1 l, drop 1 l) else ([], l)) = (dropped, kept) ->
  (length kept <= max_candidates)%nat /\ path ∈ kept /\
  forall p, p ∈ pending -> p ∈ kept \/ p ∈ dropped.
Proof.
  intros Hl. set (l := remove_first path pending ++ [path]). cbv zeta.
  assert (Hlen : (length l <= S max_candidates)%nat).
  { pose proof (length_remove_first path pending). unfold l. rewrite length_app. cbn. lia. }
  assert (Hin : forall p, p ∈ pending -> p ∈ l).
  { intros p Hp. apply elem_of_app. destruct (elem_of_remove_first p path _ Hp) as [->|]; [right; left|by left]. }
  destruct (Nat.ltb_spec max_candidates (length l)) as [H|H]; intros [= <- <-].
  - rewrite length_drop. split; [lia|]. split.
    + unfold l. destruct (remove_first path pending) as [|x r] eqn:E; cbn in *; [unfold l in H; cbn in H; lia|].
      apply elem_of_app. right. left.
    + intros p Hp%Hin. rewrite <- (take_drop 1 l) in Hp. apply elem_of_app in Hp. tauto.
  - split; [done|]. split; [apply elem_of_app; right; left|auto].
Qed.

Lemma add_good path received loose :
  triple (good loose) (add path received)
    (fun _ w => good loose w /\ path ∈ co_pending (wk_collector w)) (good loose).
Proof.
  unfold Worker.add. apply keeps_then; [apply yield_keeps|]. intros [].
  apply (triple_bind (A := collector) _ _ _ (fun c => collecting loose (co_pending c))).
  { apply triple_gets. by split. }
  intros c. apply (triple_bind (A := unit) _ _ _ (fun _ => collecting loose (co_pending c))).
  { eapply triple_of_keeps; [|done..|by intros w []].
    destruct (bool_decide _); [apply start_burst_keeps|apply join_burst_keeps]. }
  intros []. destruct (if (max_candidates <? _)%nat then _ else _) as [dropped kept] eqn:E.
  apply (triple_bind (A := unit) _ _ _ (fun _ w => good (dropped ++ loose) w /\ path ∈ co_pending (wk_collector w))).
  { apply triple_modify. intros w [Hw Hp].
    assert (Hb : (length (co_pending c) <= max_candidates)%nat) by (rewrite <- Hp; apply Hw).
    destruct (append_pending path _ _ _ Hb E) as (Hk & Hin & Hcov). split; [|done].
    apply (collector_good _ loose); try done.
    - intros p Hpp. rewrite Hp in Hpp. destruct (Hcov p Hpp); [by left|right; apply elem_of_app; by left].
    - intros p Hpp. apply elem_of_app. by right. }
  intros []. intros w [Hw Hin].
  unfold bind at 1. cbn [read]. set (w1 := set_reads _ w).
  unfold bind at 1, on_collector, modify.
  set (w2 := set_collector _ w1).
  assert (Hw2 : good (dropped ++ loose) w2).
  { apply (collector_good _ (dropped ++ loose)); try done.
    - apply (good_unmoved _ w); [by split|done].
    - apply Hw.
    - by left. }
  unfold bind. destruct (remove_uploads_spec dropped w2) as (w3 & -> & Hq & Hr). split.
  - by eapply removed_good.
  - by rewrite (qt_collector _ _ Hq).
Qed.

(** *** Flushing a burst *)

Lemma flush_good loose :
  triple (good loose) flush_due (fun _ => good loose) sound.
Proof.
  unfold Worker.flush_due.
  apply (triple_bind (A := unit) _ _ _ (fun _ => good loose)).
  { eapply (triple_of_keeps (good loose)); [apply yield_keeps|done..|intros w; apply good_sound]. }
  intros []. apply (triple_bind (A := pyfloat) _ _ _ (fun _ => good loose)); [by apply quietly_good, read_quiet|].
  intros started. apply (triple_bind (A := collector) _ _ _ (fun c => collecting loose (co_pending c))).
  { apply triple_gets. by split. }
  intros c. destruct (co_deadline c) as [deadline|]; [|apply triple_ret; by intros w []].
  destruct (flt started deadline); [apply triple_ret; by intros w []|].
  apply (triple_bind (A := datetime) _ _ _ (fun _ => collecting loose (co_pending c))).
  { eapply triple_of_keeps; [apply read_keeps, _|done..|intros w [Hw _]; by eapply good_sound]. }
  intros processing. apply (triple_bind (A := unit) _ _ _ (fun _ => good (co_pending c ++ loose))).
  { apply triple_modify. intros w [Hw Hp]. apply (collector_good _ loose); try done; cbn; [lia| |].
    - intros p Hin. right. apply elem_of_app. left. by rewrite <- Hp.
    - intros p Hin. apply elem_of_app. by right. }
  intros []. apply (triple_bind (A := list string) _ _ _ (fun _ => good (co_pending c ++ loose)));
    [by apply quietly_good, call_out_quiet|].
  intros ranked0. set (ranked := prefer_first (co_pending c) ranked0).
  set (rest := filter (fun p => p ∉ ranked) (co_pending c)).
  apply (triple_bind (A := unit) _ _ _ (fun _ => good (ranked ++ loose))).
  { eapply triple_conseq; [apply (remove_uploads_good rest (ranked ++ loose))| |done..].
    intros w. apply good_weaken. intros p. rewrite !elem_of_app. unfold rest. rewrite list_elem_of_filter.
    destruct (decide (p ∈ ranked)); tauto. }
  intros []. destruct ranked as [|p ranked']; [by apply triple_ret|].
  apply (triple_bind (A := unit) _ _ _ (fun _ => good loose)); [|intros []; by apply triple_ret].
  eapply triple_conseq; [by apply enqueue_good|done..].
Qed.

(** *** Completing candidates *)

Abbreviation pop_candidate := (pop_candidate clock arrival_clock resolve on_skipped emit on_error
  trigger_resolver max_pending_candidates ignored_roots).
Abbreviation add_hot := (add_hot clock arrival_clock facts resolve on_skipped emit on_error trigger_resolver
  quiet_window max_candidates max_pending_candidates ignored_roots).
Abbreviation _add_hot_frames := (_add_hot_frames clock arrival_clock facts resolve on_skipped hot_frames emit
  on_error trigger_resolver quiet_window max_candidates max_pending_candidates ignored_roots).
Abbreviation retry_candidate := (retry_candidate clock arrival_clock facts resolve on_skipped hot_frames emit
  on_error trigger_resolver quiet_window retry_interval max_age max_attempts max_candidates
  max_pending_candidates max_candidate_bytes ignored_roots).
Abbreviation retry_due := (retry_due clock arrival_clock facts resolve on_skipped hot_frames emit on_error
  trigger_resolver quiet_window retry_interval max_age max_attempts max_candidates max_pending_candidates
  max_candidate_bytes ignored_roots).

(** An action that keeps [good loose] and raises in sound states. *)
Definition safe {A} loose (m : M worker A) : Prop := triple (good loose) m (fun _ => good loose) sound.

Lemma safe_bind {A B} loose (m : M worker A) (k : A -> M worker B) :
  safe loose m -> (forall a, safe loose (k a)) -> safe loose (bind m k).
Proof. intros Hm Hk. by apply (triple_bind _ _ _ (fun _ => good loose)). Qed.

Lemma safe_ret {A} loose (a : A) : safe loose (ret a).
Proof. by apply triple_ret. Qed.

Lemma safe_raise {A} loose e : safe loose (raise (A := A) e).
Proof. apply triple_raise. intros w. apply good_sound. Qed.

Lemma safe_quiet {A} loose (m : M worker A) : quietly m -> safe loose m.
Proof. apply quietly_good. Qed.

Lemma safe_yield loose : safe loose yield_point.
Proof. eapply (triple_of_keeps (good loose)); [apply yield_keeps|done..|intros w; apply good_sound]. Qed.

Lemma safe_gets {A} loose (f : worker -> A) : safe loose (gets f).
Proof. by apply triple_gets. Qed.

Hint Resolve safe_ret safe_raise safe_yield safe_gets : gate.

Lemma remove_more_safe loose ps : safe loose (_remove_uploads ps).
Proof.
  eapply triple_conseq; [apply (remove_uploads_good ps loose)| |done..].
  intros w. apply good_weaken. intros p Hp. apply elem_of_app. by right.
Qed.

Lemma add_hot_safe loose paths rest received : safe loose (add_hot paths rest received).
Proof.
  induction paths as [|p paths IH]; cbn; [apply remove_more_safe|].
  intros w Hw. pose proof (add_good p (Some received) loose w Hw) as Ha.
  destruct (add p (Some received) w) as [[b|e] w1]; [by apply IH, Ha|].
  destruct (is_Exception e); [|by eapply good_sound].
  exact (remove_more_safe loose (p :: paths ++ rest) w1 Ha).
Qed.

Lemma add_hot_frames_safe loose received : safe loose (_add_hot_frames received).
Proof.
  unfold Worker._add_hot_frames. destruct hot_frames as [select|]; [|apply safe_ret].
  apply safe_bind.
  { apply safe_quiet. intros w0. apply keeps_try; [|intros e; apply keeps_ret].
    apply keeps_bind; [apply call_out_quiet|]. intros l. apply keeps_ret. }
  intros [selected|]; [|apply safe_ret]. apply safe_bind; [apply safe_yield|]. intros [].
  apply safe_bind; [apply safe_gets|]. intros c. apply add_hot_safe.
Qed.

Lemma pop_reject_safe loose path reason : safe loose (pop_candidate path ;! _reject path reason ;! ret false).
Proof.
  apply (triple_bind (A := unit) _ _ _ (fun _ => good (path :: loose))); [apply pop_candidate_good|]. intros [].
  apply (triple_bind (A := unit) _ _ _ (fun _ => good loose)); [apply reject_good|]. intros []. apply safe_ret.
Qed.

(** A completed candidate leaves the waiting list for the burst. *)
Lemma pop_added_safe loose path :
  triple (fun w => good loose w /\ path ∈ co_pending (wk_collector w)) (pop_candidate path)
    (fun _ => good loose) sound.
Proof.
  apply (triple_bind (A := unit) _ _ _ (fun _ w => good loose w /\ path ∈ co_pending (wk_collector w))).
  { eapply triple_of_keeps; [apply (yield_keeps_pending loose path)|done..|intros w [Hw _]; by eapply good_sound]. }
  intros []. apply triple_modify. intros w [Hw Hp].
  assert (H : good (path :: loose) (set_retry (ddel path (wk_retry w)) w)).
  { apply (retry_set_good _ loose); try done.
    - etrans; [apply length_ddel|]. apply Hw.
    - intros p Hin. destruct (ddel_keys path p _ Hin) as [->|H]; [right; left|by left].
    - intros x Hx. by right. }
  destruct H as [H1 H2 H3]. split; try done.
  intros p Hf. destruct (H3 p Hf) as [H|[->|H]%elem_of_cons]; [by left| |by right].
  left. right. by left.
Qed.

Lemma postpone_safe loose path c :
  safe loose (postpone clock arrival_clock resolve on_skipped emit on_error trigger_resolver
    retry_interval max_pending_candidates ignored_roots path c).
Proof.
  unfold postpone. apply safe_bind; [apply safe_yield|]. intros []. intros w Hw.
  unfold bind at 1, gets. destruct (dmem path (wk_retry w)) eqn:Hm; [|exact Hw].
  unfold bind. cbn [read]. unfold modify.
  apply (retry_set_good _ loose); try done.
  - assert (Hl : length (dset path {| cd_first_seen := cd_first_seen c;
        cd_retry_at := fadd (clock (wk_reads w)) retry_interval; cd_attempts := S (cd_attempts c);
        cd_received_at := cd_received_at c |} (wk_retry w)) = length (wk_retry w)).
    { pose proof (f_equal length (dset_keys path {| cd_first_seen := cd_first_seen c;
        cd_retry_at := fadd (clock (wk_reads w)) retry_interval; cd_attempts := S (cd_attempts c);
        cd_received_at := cd_received_at c |} (wk_retry w))) as Hk.
      rewrite !length_fmap in Hk. rewrite Hk, decide_True, length_fmap; [done|].
      unfold dmem in Hm. apply bool_decide_eq_true in Hm as [x Hx].
      apply list_elem_of_fmap. exists (path, x). split; [done|]. by apply dget_In. }
    rewrite Hl. apply Hw.
  - intros p Hp. left. cbn in Hp. rewrite dset_keys. case_decide; [done|]. apply elem_of_app. by left.
  - apply (good_unmoved loose w); [by split|done].
Qed.

Lemma too_large_quiet path : quietly (_too_large facts max_candidate_bytes path).
Proof. unfold _too_large. quiet_tac. Qed.

Lemma retry_candidate_safe loose now path c : safe loose (retry_candidate now path c).
Proof.
  unfold Worker.retry_candidate. apply safe_bind.
  { apply safe_quiet. destruct (_ || _); quiet_tac. }
  intros [|]; [apply pop_reject_safe|].
  apply safe_bind; [apply safe_quiet, too_large_quiet|]. intros [|]; [apply pop_reject_safe|].
  apply safe_bind; [apply safe_quiet, call_out_quiet|]. intros [|].
  - apply (triple_bind (A := bool) _ _ _ (fun _ w => good loose w /\ path ∈ co_pending (wk_collector w))).
    { eapply triple_conseq; [apply add_good|done..|intros w; apply good_sound]. }
    intros first. apply (triple_bind (A := unit) _ _ _ (fun _ => good loose)); [apply pop_added_safe|].
    intros []. apply safe_bind; [|intros []; apply safe_ret].
    destruct first; [apply add_hot_frames_safe|apply safe_ret].
  - apply safe_bind; [apply postpone_safe|]. intros []. apply safe_ret.
Qed.

Lemma retry_pending_safe loose : safe loose retry_pending.
Proof.
  unfold Worker.retry_pending. apply safe_bind; [apply safe_quiet, read_quiet|]. intros now.
  apply safe_bind; [apply safe_yield|]. intros []. apply safe_bind; [apply safe_gets|]. intros due.
  induction due as [|path due IH]; cbn; [apply safe_ret|].
  apply safe_bind; [apply safe_yield|]. intros []. apply safe_bind; [apply safe_gets|]. intros d.
  apply safe_bind; [destruct (dget path d); [apply retry_candidate_safe|apply safe_ret]|]. intros completed.
  apply safe_bind; [exact IH|]. intros n. apply safe_ret.
Qed.

(** *** The startup walk *)

Lemma schedule_safe loose path is_directory : safe loose (schedule_candidate path is_directory).
Proof.
  intros w Hw. destruct (schedule_candidate path is_directory w) as [r w'] eqn:E.
  apply schedule_moved in E; [|apply Hw]. assert (good loose w') by (by eapply good_moved).
  destruct r; [done|by eapply good_sound].
Qed.

Lemma remove_file_safe loose path reason :
  safe loose (try_finally (report_pre_ocr_skip [path] reason) (_remove_upload path)).
Proof.
  eapply triple_conseq; [apply (reject_good path reason loose)| |done..].
  intros w. apply good_weaken. intros p Hp. by right.
Qed.

Lemma reconcile_file_safe loose path mtime :
  safe loose (reconcile_file clock epoch_clock arrival_clock resolve on_skipped emit on_error
    trigger_resolver max_image_age max_pending_candidates ignored_roots path mtime).
Proof.
  unfold reconcile_file. destruct (negb (is_jpeg_name path)); [apply safe_ret|].
  apply safe_bind; [apply safe_quiet, read_quiet|]. intros now.
  apply safe_bind; [apply safe_quiet; destruct mtime as [m|[]]; quiet_tac|]. intros [|].
  - apply remove_file_safe.
  - apply safe_bind; [apply safe_yield|]. intros []. apply schedule_safe.
Qed.

Lemma run_batch_safe loose n stack : safe loose (run_batch n stack).
Proof.
  revert stack. induction n as [|n IH]; intros stack; cbn; [apply safe_ret|].
  destruct (_next_entry stack) as [[[path mtime|[children|]] stack']|]; [|apply IH|apply safe_raise|apply safe_ret].
  apply safe_bind; [apply reconcile_file_safe|]. intros []. apply IH.
Qed.

Lemma good_nil_moved w w' : moved w w' -> good [] w -> good [] w'.
Proof. apply good_moved. Qed.
End Uploads.

(** ** Histories *)

(** An operation of the main thread. *)
Inductive operation :=
| RetryPending
| FlushDue
| RunBatch (max_entries : nat) (stack : list (list entry))
| StopQueue.

Definition run_operation (o : operation) : M worker unit :=
  match o with
  | RetryPending => retry_pending ;! ret tt
  | FlushDue => flush_due ;! ret tt
  | RunBatch n stack => run_batch n stack ;! ret tt
  | StopQueue => let! dropped := stop in report_stopped dropped
  end.

(** A step is an action of another thread, or an operation of the main thread
    with the plan of what happens at its yield points; the label says whether
    the operation returned. *)
Inductive step_label :=
| Other (a : action)
| Main (o : operation) (plan : list (list action)) (returned : bool).

Inductive worker_step : worker -> step_label -> worker -> Prop :=
| step_other w a : worker_step w (Other a) (act a w)
| step_main w o plan r w' :
    run_operation o (set_plan plan w) = (r, w') ->
    worker_step w (Main o plan (match r with Ok _ => true | Err _ => false end)) w'.

Definition returns (l : step_label) : Prop :=
  match l with Main _ _ returned => returned = true | Other _ => True end.

Lemma operation_safe followed o : safe followed [] (run_operation o).
Proof.
  destruct o as [| |n stack|]; cbn.
  - apply safe_bind; [apply retry_pending_safe|]. intros n. apply safe_ret.
  - apply safe_bind; [apply flush_good|]. intros b. apply safe_ret.
  - apply safe_bind; [apply run_batch_safe|]. intros x. apply safe_ret.
  - intros w Hw. unfold bind. destruct (bq_stopping (wk_queue w)) eqn:Hs.
    + unfold Worker.stop, bind at 1, gets. rewrite Hs. exact Hw.
    + destruct (stop_spec followed [] w Hw Hs) as (l & w' & -> & Hg & _).
      exact (report_stopped_good followed l [] w' Hg).
Qed.

Lemma step_good followed w l w' : good followed [] w -> worker_step w l w' -> returns l -> good followed [] w'.
Proof.
  intros Hw Hstep Hl. destruct Hstep as [w a|w o plan r w' E].
  - eapply good_nil_moved; [apply act_moved, Hw|done].
  - assert (Hp : good followed [] (set_plan plan w)) by (by eapply (good_unmoved followed [] w); [split|]).
    pose proof (operation_safe followed o _ Hp) as H. rewrite E in H. by destruct r.
Qed.

Lemma step_sound w l w' : sound w -> worker_step w l w' -> sound w'.
Proof.
  intros Hw Hstep. assert (Hg : good (fun _ => False) [] w) by (destruct Hw; by split).
  destruct Hstep as [w a|w o plan r w' E].
  - apply (good_sound (fun _ => False) []). eapply good_nil_moved; [apply act_moved, Hg|done].
  - assert (Hp : good (fun _ => False) [] (set_plan plan w))
      by (by eapply (good_unmoved (fun _ => False) [] w); [split|]).
    pose proof (operation_safe _ o _ Hp) as H. rewrite E in H. destruct r; [by eapply good_sound|done].
Qed.

Lemma new_worker_sound : sound new_worker.
Proof. split; [split; cbn; lia|]. by split. Qed.

(** C16: in every history of uploads, retries, flushes, startup batches,
    processor steps, failing callbacks and stops, under every interleaving: each
    burst put in the queue is taken, dropped or still waiting, exactly once; the
    bursts that are not dropped are taken in the order they were put; while the
    processor runs, the bursts it took are those it emitted, in order, and the
    one in hand; the queue never exceeds its bound. *)
Theorem bursts_conserved ls w (Hrun : steps worker_step new_worker ls w) :
  bq_accepted (wk_queue w) ≡ₚ bq_taken (wk_queue w) ++ bq_dropped (wk_queue w) ++ waiting w /\
  bq_taken (wk_queue w) ++ waiting w `sublist_of` bq_accepted (wk_queue w) /\
  jn_emitted (wk_journal w) `sublist_of` bq_taken (wk_queue w) /\
  (wk_processor_done w = false -> bq_taken (wk_queue w) = jn_emitted (wk_journal w) ++ in_hand w) /\
  (length (bq_items (wk_queue w)) <= max_pending)%nat.
Proof.
  assert (Hs : sound w).
  { eapply (steps_invariant _ sound); [|exact Hrun|apply new_worker_sound]. intros a l b. apply step_sound. }
  destruct Hs as [[_ _ Hb] [H1 H2 _ H4 H5 _]]. done.
Qed.

(** C17: no accepted upload is forgotten.  Once the observer has accepted a JPEG
    outside the ignored directories, then as long as the main thread's
    operations return, the upload is waiting to complete, in the burst being
    collected, in a queued burst or the one in hand, or it has been removed; and
    the waiting lists stay within their limits. *)
Theorem uploads_accounted path ls0 w0 ls w
    (Hreach : steps worker_step new_worker ls0 w0) (Halive : wk_observer_alive w0 = true)
    (Hname : is_jpeg_name path = true)
    (Houtside : existsb (fun root => within root (resolve (wk_reads w0) path)) ignored_roots = false)
    (Hrun : steps worker_step (act (Observed path false) w0) ls w) (Hreturns : Forall returns ls) :
  tracked path w /\
  (length (wk_retry w) <= max_pending_candidates)%nat /\
  (length (co_pending (wk_collector w)) <= max_candidates)%nat /\
  (length (bq_items (wk_queue w)) <= max_pending)%nat.
Proof.
  assert (Hs0 : sound w0).
  { eapply (steps_invariant _ sound); [|exact Hreach|apply new_worker_sound]. intros a l b. apply step_sound. }
  assert (Hg : good (fun p => p = path) [] (act (Observed path false) w0)).
  { pose proof (act_moved (Observed path false) w0 (proj1 Hs0)) as Hm.
    split; [apply Hm|by apply Hm, Hs0|]. intros p ->. left. unfold act. rewrite Halive.
    destruct (schedule_candidate path false w0) as [r w1] eqn:E.
    destruct (schedule_spec _ _ _ _ _ (proj1 Hs0) E) as [_ Ht]. specialize (Ht eq_refl Hname Houtside).
    by destruct r. }
  assert (Hw : good (fun p => p = path) [] w).
  { clear Hreach Halive Houtside Hs0. revert Hg. induction Hrun as [w1|w1 l w2 ls w3 Hstep _ IH]; intros Hg; [done|].
    apply list.Forall_cons in Hreturns as [Hl Hls]. apply IH; [done|]. by eapply step_good. }
  destruct Hw as [[H1 H2 H3] _ Ht]. destruct (Ht path eq_refl) as [H|H]; [done|by apply elem_of_nil in H].
Qed.
End Facts.
