(* ===== verification/WorkerRuns.v ===== *)
(** * Runs of the ingest pipeline

    A burst holds the latest uploads, carries the time of its oldest one and
    lists its primary candidate first; the startup walk visits every entry once
    and in order whatever the batch size; a stop ends the processor, empties the
    queue and runs the shutdown, unless a report raises. *)

From S2P Require Import Prelude Float Text Images Worker WorkerFacts.

(** ** The latest uploads *)

Definition last_n {A} (n : nat) (l : list A) : list A := drop (length l - n) l.

(** The [n] most recent of [paths], each where it was last seen. *)
Definition latest (n : nat) (paths : list string) : list string := last_n n (remove_dups paths).

Lemma remove_first_app_l p (a b : list string) : p ∉ a -> remove_first p (a ++ b) = a ++ remove_first p b.
Proof.
  induction a as [|x a IH]; [done|]. rewrite not_elem_of_cons. intros [Hx Ha]. cbn.
  case_bool_decide; [congruence|]. by rewrite IH.
Qed.

Lemma remove_first_app_r p (a b : list string) : p ∈ a -> remove_first p (a ++ b) = remove_first p a ++ b.
Proof.
  induction a as [|x a IH]; cbn; [by intros ?%elem_of_nil|]. intros [->|H]%elem_of_cons; case_bool_decide; try done.
  by rewrite IH.
Qed.

Lemma remove_first_none p (l : list string) : p ∉ l -> remove_first p l = l.
Proof. intros H. pose proof (remove_first_app_l p l [] H) as E. cbn in E. by rewrite !app_nil_r in E. Qed.

Lemma length_remove_first_elem p (l : list string) :
  p ∈ l -> S (length (remove_first p l)) = length l.
Proof.
  induction l as [|x l IH]; cbn; [by intros ?%elem_of_nil|]. case_bool_decide; [done|].
  intros [->|Hp]%elem_of_cons; [done|]. cbn. by rewrite IH.
Qed.

Lemma remove_dups_snoc (l : list string) p :
  remove_dups (l ++ [p]) = remove_first p (remove_dups l) ++ [p].
Proof.
  induction l as [|x l IH]; [done|]. cbn. rewrite IH. unfold decide_rel.
  destruct (list_elem_of_dec x l) as [Hx|Hx]; destruct (list_elem_of_dec x (l ++ [p])) as [Hy|Hy]; try done.
  - destruct Hy. apply elem_of_app. by left.
  - apply elem_of_app in Hy as [|Hy]; [done|]. apply list_elem_of_singleton in Hy as ->. cbn.
    rewrite bool_decide_true by done. f_equal. rewrite remove_first_none; [done|].
    by rewrite elem_of_remove_dups.
  - cbn. rewrite bool_decide_false; [done|]. intros ->. destruct Hy. apply elem_of_app. right. left.
Qed.

(** What [add] does to the pending list keeps the latest uploads. *)
Lemma latest_snoc n paths p :
  (1 <= n)%nat ->
  (let l := remove_first p (latest n paths) ++ [p] in
   if (n <? length l)%nat then drop 1 l else l) = latest n (paths ++ [p]).
Proof.
  intros Hn. unfold latest. rewrite remove_dups_snoc. pose proof (NoDup_remove_dups paths) as Hnd.
  set (L := remove_dups paths) in *. clearbody L. clear paths. unfold last_n at 1 2 3. cbv zeta.
  remember (length L - n)%nat as k eqn:Hk. rewrite <- (take_drop k L) in Hnd |- * at 4.
  apply list.NoDup_app in Hnd as (_ & Hdisj & _).
  set (A := take k L) in *. set (K := drop k L) in *.
  assert (HA : length A = k) by (unfold A; rewrite length_take; lia).
  assert (HK : length K = (length L - k)%nat) by (unfold K; by rewrite length_drop).
  unfold last_n. destruct (decide (p ∈ K)) as [HpK|HpK].
  - assert (HpA : p ∉ A) by (intros H; by apply (Hdisj p)).
    rewrite remove_first_app_l, <- app_assoc by done. pose proof (length_remove_first_elem p K HpK).
    rewrite !length_app. cbn [length]. destruct (Nat.ltb_spec n (length (remove_first p K) + 1)); [lia|].
    rewrite drop_app_ge by lia.
    by replace (length A + (length (remove_first p K) + 1) - n - length A)%nat with 0%nat by lia.
  - rewrite (remove_first_none p K) by done. rewrite !length_app. cbn [length].
    destruct (decide (p ∈ A)) as [HpA|HpA].
    + rewrite remove_first_app_r, <- app_assoc by done. pose proof (length_remove_first_elem p A HpA).
      destruct (Nat.ltb_spec n (length K + 1)); [|lia]. rewrite length_app.
      rewrite (drop_app_ge (remove_first p A)) by lia. f_equal. lia.
    + rewrite remove_first_none by (rewrite elem_of_app; tauto). rewrite <- app_assoc, length_app.
      destruct (Nat.ltb_spec n (length K + 1)).
      * rewrite (drop_app_ge A) by lia. f_equal. lia.
      * replace (length A + length K + 1 - n)%nat with 0%nat by lia.
        assert (A = []) as -> by (apply nil_length_inv; lia). done.
Qed.

(** The earliest of the times. *)
Definition earliest (t : datetime) (ts : list datetime) : Prop :=
  t ∈ ts /\ Forall (fun t' => dt_lt t' t = Ok false) ts.

Lemma earliest_one t : earliest t [t].
Proof. split; [left|]. constructor; [|done]. destruct t; cbn; by rewrite Z.ltb_irrefl. Qed.

Lemma earliest_snoc r t ts b :
  earliest r ts -> dt_lt t r = Ok b -> earliest (if b then t else r) (ts ++ [t]).
Proof.
  intros [Hr Hts] Hb. split.
  - apply elem_of_app. destruct b; [right; left|by left].
  - apply list.Forall_app. split.
    + eapply Forall_impl; [|exact Hts]. intros t' Ht'. destruct b; [|done].
      destruct t, r, t'; cbn in *; try done; injection Hb as Hb; injection Ht' as Ht'; f_equal; lia.
    + constructor; [|done]. destruct b; [|done]. destruct t; cbn; by rewrite Z.ltb_irrefl.
Qed.

Section Runs.
Context (clock epoch_clock : nat -> pyfloat) (arrival_clock wall_clock : nat -> datetime).
Context (facts : nat -> string -> image_facts) (resolve : nat -> string -> string).
Context (on_skipped on_timed_skipped : option (nat -> result unit)).
Context (hot_frames : option (nat -> result (list string))).
Context (emit : nat -> result unit) (on_error trigger_resolver : option (nat -> result unit)).
Context (quiet_window retry_interval max_age max_image_age : pyfloat).
Context (max_attempts max_candidates max_pending_candidates max_pending : nat).
Context (max_candidate_bytes : Z) (ignored_roots : list string).
(** What the constructors check. *)
Context (Hcandidates : (1 <= max_candidates)%nat) (Hpending : (1 <= max_pending)%nat).

Abbreviation report_pre_ocr_skip := (report_pre_ocr_skip on_skipped).
Abbreviation report_dropped := (report_dropped on_skipped on_timed_skipped).
Abbreviation _reject := (_reject on_skipped).
Abbreviation reject_all := (reject_all on_skipped).
Abbreviation schedule_candidate :=
  (schedule_candidate clock arrival_clock resolve on_skipped max_pending_candidates ignored_roots).
Abbreviation process_burst := (process_burst emit on_error trigger_resolver).
Abbreviation _process_bursts := (_process_bursts emit on_error trigger_resolver).
Abbreviation act := (act clock arrival_clock resolve on_skipped emit on_error trigger_resolver
  max_pending_candidates ignored_roots).
Abbreviation yield_point := (yield_point clock arrival_clock resolve on_skipped emit on_error trigger_resolver
  max_pending_candidates ignored_roots).
Abbreviation put := (put clock arrival_clock resolve on_skipped emit on_error trigger_resolver
  max_pending_candidates max_pending ignored_roots).
Abbreviation enqueue := (enqueue clock arrival_clock resolve on_skipped on_timed_skipped emit on_error
  trigger_resolver max_pending_candidates max_pending ignored_roots).
Abbreviation drain := (drain clock arrival_clock resolve on_skipped emit on_error trigger_resolver
  max_pending_candidates ignored_roots).
Abbreviation stop := (stop clock arrival_clock resolve on_skipped emit on_error trigger_resolver
  max_pending_candidates max_pending ignored_roots).
Abbreviation report_stopped := (report_stopped on_skipped on_timed_skipped).
Abbreviation add := (add clock arrival_clock facts resolve on_skipped emit on_error trigger_resolver
  quiet_window max_candidates max_pending_candidates ignored_roots).
Abbreviation flush_due := (flush_due clock arrival_clock wall_clock facts resolve on_skipped on_timed_skipped
  emit on_error trigger_resolver max_pending_candidates max_pending max_candidate_bytes ignored_roots).
Abbreviation retry_pending := (retry_pending clock arrival_clock facts resolve on_skipped hot_frames emit
  on_error trigger_resolver quiet_window retry_interval max_age max_attempts max_candidates
  max_pending_candidates max_candidate_bytes ignored_roots).
Abbreviation run_batch := (run_batch clock epoch_clock arrival_clock resolve on_skipped emit on_error
  trigger_resolver max_image_age max_pending_candidates ignored_roots).
Abbreviation reconcile_file := (reconcile_file clock epoch_clock arrival_clock resolve on_skipped emit on_error
  trigger_resolver max_image_age max_pending_candidates ignored_roots).
Abbreviation finalise := (finalise clock arrival_clock resolve on_skipped on_timed_skipped emit on_error
  trigger_resolver max_pending_candidates max_pending ignored_roots).
Abbreviation worker_step := (worker_step clock epoch_clock arrival_clock wall_clock facts resolve on_skipped
  on_timed_skipped hot_frames emit on_error trigger_resolver quiet_window retry_interval max_age max_image_age
  max_attempts max_candidates max_pending_candidates max_pending max_candidate_bytes ignored_roots).
Abbreviation bounded := (bounded max_candidates max_pending_candidates max_pending).
Abbreviation moved := (moved max_candidates max_pending_candidates max_pending).
Abbreviation good := (good max_candidates max_pending_candidates max_pending (fun _ => False) []).
Abbreviation sound := (sound max_candidates max_pending_candidates max_pending).

Lemma reached_good ls w : steps worker_step new_worker ls w -> good w.
Proof.
  intros Hrun. assert (Hs : sound w); [|by destruct Hs].
  eapply (steps_invariant _ sound); [|exact Hrun|by apply new_worker_sound].
  intros a l b. by apply step_sound.
Qed.

Lemma yield_moved w : good w -> exists w', yield_point w = (Ok tt, w') /\ moved w w'.
Proof.
  intros Hw. by apply (yield_spec clock epoch_clock arrival_clock wall_clock facts resolve on_skipped emit
    on_error trigger_resolver max_attempts), Hw.
Qed.

Lemma add_triple p t : triple good (add p t) (fun _ => good) good.
Proof.
  eapply triple_conseq; [by apply (add_good clock epoch_clock arrival_clock wall_clock facts resolve on_skipped
    emit on_error trigger_resolver quiet_window max_attempts)|done| |done].
  by intros r w [].
Qed.

(** ** A burst *)

Fixpoint add_all (adds : list (string * datetime)) : M worker unit :=
  match adds with
  | [] => ret tt
  | (p, t) :: adds' => add p (Some t) ;! add_all adds'
  end.

(** The collector after the additions. *)
Record collected (adds : list (string * datetime)) (w : worker) : Prop := {
  cl_pending : co_pending (wk_collector w) = latest max_candidates adds.*1;
  cl_received : adds = [] \/ exists t, co_received_at (wk_collector w) = Some t /\ earliest t adds.*2;
  cl_deadline : adds = [] \/ exists n, co_deadline (wk_collector w) = Some (fadd (clock n) quiet_window);
}.

Lemma latest_nil paths : latest max_candidates paths = [] -> paths = [].
Proof.
  unfold latest, last_n. intros H%(f_equal length). rewrite length_drop in H. cbn in H.
  assert (remove_dups paths = []) as E by (apply nil_length_inv; lia).
  destruct paths as [|p paths]; [done|]. assert (Hp : p ∈ remove_dups (p :: paths)) by (apply elem_of_remove_dups; left).
  rewrite E in Hp. by apply elem_of_nil in Hp.
Qed.

(** The first candidate sets the time, a further one may bring it forward. *)
Lemma dated adds p t w w' :
  collected adds w ->
  (if bool_decide (co_pending (wk_collector w) = []) then start_burst clock arrival_clock facts p (Some t)
   else join_burst (Some t)) w = (Ok tt, w') ->
  exists t', co_received_at (wk_collector w') = Some t' /\ earliest t' (adds.*2 ++ [t]).
Proof.
  intros [Hp Hr _]. case_bool_decide as He.
  - rewrite Hp in He. apply latest_nil, fmap_nil_inv in He as ->. unfold start_burst.
    unfold bind, ret, on_collector, modify, read. cbn.
    destruct (content_digest _) as [k|[]]; cbn; try done; intros [= <-]; cbn; exists t;
      (split; [done|apply earliest_one]).
  - destruct Hr as [->|(r & Hr & Hmin)]; [by rewrite Hp in He|]. unfold join_burst, bind, gets. rewrite Hr.
    destruct (dt_lt t r) as [b|] eqn:Hlt; [|done]. apply (earliest_snoc r t _ _ Hmin) in Hlt. cbn.
    destruct b; unfold on_collector, modify, ret; intros [= <-]; cbn; eauto.
Qed.

(** One addition; what other threads do meanwhile leaves the collector alone. *)
Lemma add_collected adds p t w w' r :
  good w -> collected adds w -> add p (Some t) w = (Ok r, w') -> collected (adds ++ [(p, t)]) w'.
Proof.
  intros Hg Hc. unfold Worker.add, bind at 1.
  destruct (yield_moved w Hg) as (w0 & -> & Hm).
  assert (Hc0 : collected adds w0) by (destruct Hc; split; by rewrite (mv_collector _ _ _ _ _ Hm)).
  unfold bind at 1, gets. unfold bind at 1.
  destruct (_ w0) as [[[]|e] w1] eqn:E1 in |- *; [|done].
  pose proof (dated _ _ _ _ _ Hc0 E1) as (t' & Ht' & Hmin). pose proof (latest_snoc max_candidates adds.*1 p Hcandidates) as Hl.
  destruct Hc0 as [Hp _ _]. rewrite <- Hp in Hl. cbv zeta in Hl.
  destruct (if (max_candidates <? _)%nat then (take 1 _, _) else _) as [dropped kept] eqn:Ek.
  assert (Hkept : kept = latest max_candidates (adds.*1 ++ [p])).
  { rewrite <- Hl. case_match; by injection Ek. }
  unfold bind, on_collector, modify, read, ret. set (w2 := set_collector _ _).
  destruct (remove_uploads_spec dropped w2) as (w3 & -> & Hq & _). intros [= _ <-].
  split; rewrite (qt_collector _ _ Hq), ?fmap_app; cbn; [done|right; eauto..].
Qed.

Lemma all_collected adds done_ w w' :
  good w -> collected done_ w -> add_all adds w = (Ok tt, w') -> good w' /\ collected (done_ ++ adds) w'.
Proof.
  revert done_ w. induction adds as [|[p t] adds IH]; intros done_ w Hg Hc; cbn.
  { intros [= <-]. by rewrite app_nil_r. }
  unfold bind. destruct (add p (Some t) w) as [[r|e] w1] eqn:E; [|done]. intros Hrest.
  destruct (IH (done_ ++ [(p, t)]) w1) as [Hg' Hc'].
  - pose proof (add_triple p (Some t) w Hg) as H. by rewrite E in H.
  - by eapply add_collected.
  - done.
  - by rewrite <- app_assoc in Hc'.
Qed.

Lemma good_quiet w w' : quiet w w' -> good w -> good w'.
Proof.
  intros Hq [H1 H2 _]. split; [by eapply bounded_unmoved|by eapply queue_ok_unmoved|done].
Qed.

Lemma enqueue_last item w w' :
  good w -> enqueue item w = (Ok tt, w') -> list.last (bq_accepted (wk_queue w')) = Some item.
Proof.
  intros [H1 H2 _]. unfold Worker.enqueue, bind.
  destruct (put_spec clock epoch_clock arrival_clock wall_clock facts resolve on_skipped emit on_error
    trigger_resolver max_attempts max_candidates max_pending_candidates max_pending ignored_roots Hcandidates
    Hpending (fun _ => False) item [] w) as (d & w1 & -> & _ & Hl); [by split|].
  destruct d as [b|]; [|by intros [= <-]]. intros E.
  apply report_then_remove in E as [Hq _]; [by rewrite (qt_queue _ _ Hq)|].
  apply report_dropped_quiet.
Qed.

Lemma prefer_first_head pending ranked p :
  list.head pending = Some p -> p ∈ ranked -> list.head (prefer_first pending ranked) = Some p.
Proof. destruct pending as [|q pending]; cbn; [done|]. intros [= ->] Hp. by rewrite bool_decide_true. Qed.

Lemma prefer_first_nodup pending ranked : NoDup ranked -> NoDup (prefer_first pending ranked).
Proof.
  intros H. unfold prefer_first. destruct pending as [|p pending]; [done|]. case_bool_decide; [|done].
  constructor; [by rewrite list_elem_of_filter; intros []|by apply list.NoDup_filter].
Qed.

Lemma latest_nodup paths : NoDup (latest max_candidates paths).
Proof. eapply sublist_NoDup; [apply NoDup_remove_dups|apply sublist_drop]. Qed.

(** a burst is the latest uploads of its collection, with the time of the
    earliest.  When uploads were added to an empty collector and a flush emits
    them, whatever the other threads did meanwhile: the burst queued last carries
    the earliest of their times, and that is one of their times; its paths are
    among the [max_candidates] latest uploads, each once; it lists the
    first of these first unless ranking excluded it; the quiet window was over. *)
Theorem burst_of_uploads ls adds w0 w1 w2
    (Hreach : steps worker_step new_worker ls w0) (Hempty : co_pending (wk_collector w0) = [])
    (Hadds : adds <> []) (Hadded : add_all adds w0 = (Ok tt, w1)) (Hflush : flush_due w1 = (Ok true, w2)) :
  exists b, list.last (bq_accepted (wk_queue w2)) = Some b /\
    (exists t, bu_received_at b = Some t /\ earliest t adds.*2) /\
    bu_paths b ⊆ latest max_candidates adds.*1 /\ NoDup (bu_paths b) /\
    (forall p, list.head (latest max_candidates adds.*1) = Some p -> p ∈ bu_paths b ->
       list.head (bu_paths b) = Some p) /\
    (exists n, flt (bu_decision_started_at b) (fadd (clock n) quiet_window) = false).
Proof.
  destruct (all_collected adds [] w0 w1) as [Hg Hc]; [by eapply reached_good| |done|].
  { split; [by rewrite Hempty|by left..]. }
  clear Hadded Hempty Hreach w0. revert Hflush. unfold Worker.flush_due, bind at 1.
  destruct (yield_moved w1 Hg) as (w0 & -> & Hm).
  assert (Hg0 : good w0) by (destruct Hm as [? _ _ _ _ Hqu], Hg as [_ Hq0 _]; by split; [|apply Hqu|]).
  cbn [app] in Hc. destruct Hc as [Hp [?|(t & Ht & Hmin)] [?|(n & Hn)]]; try done.
  rewrite <- (mv_collector _ _ _ _ _ Hm) in Hp, Ht, Hn.
  unfold bind at 1, read at 1. unfold bind at 1, gets. cbn [wk_collector set_reads].
  rewrite Hn. destruct (flt _ _) eqn:Hdue; [done|].
  unfold bind at 1, read at 1. unfold bind at 1, modify at 1. set (w3 := set_collector _ _).
  assert (Hg3 : good w3).
  { destruct Hg0 as [[H1 H2 H3] [Q1 Q2 Q3 Q4 Q5 Q6] _]. split; [split; cbn; try done; lia|by split|done]. }
  unfold bind at 1, call_out, read at 1. unfold bind at 1, of_result.
  destruct (rank_images _ _ _) as [ranked|] eqn:Hrank; [|done]. unfold ret at 1.
  apply rank_images_submseteq in Hrank. rewrite Hp in Hrank. cbn [wk_collector set_reads]. rewrite Hp.
  set (paths := prefer_first _ ranked). set (w4 := set_reads _ w3).
  unfold bind at 1. destruct (remove_uploads_spec (filter (fun p => p ∉ paths) (latest max_candidates adds.*1)) w4)
    as (w5 & -> & Hq & _).
  destruct paths as [|q rest] eqn:Epaths; [done|]. rewrite <- Epaths. unfold bind.
  destruct (enqueue _ w5) as [[[]|e] w6] eqn:E; [|done]. intros [= <-].
  apply enqueue_last in E; [|apply (good_quiet w3); [by etrans; [|exact Hq]|done]].
  eexists. split; [exact E|]. cbn.
  assert (Hsub : forall p, p ∈ paths <-> p ∈ ranked) by (intros p; apply prefer_first_elem).
  split; [eauto|]. split.
  { intros p Hin%Hsub. by apply (elem_of_submseteq ranked). }
  split; [|split; [|eauto]].
  - apply prefer_first_nodup. apply submseteq_Permutation in Hrank as [k Hk].
    pose proof (latest_nodup adds.*1) as Hnd. rewrite Hk in Hnd. by apply list.NoDup_app in Hnd as [? _].
  - intros p Hh Hin%Hsub. by apply prefer_first_head.
Qed.

(** ** The startup walk *)

(** The entries [scandir] yields below an entry, and those that are not opened. *)
Fixpoint size (e : entry) : nat :=
  S (match e with Directory (Some children) => list_sum (map size children) | _ => 0 end).
Fixpoint leaves (e : entry) : list entry :=
  match e with Directory (Some children) => concat (map leaves children) | _ => [e] end.
Definition sizes (l : list entry) : nat := list_sum (map size l).
Definition all_leaves (l : list entry) : list entry := concat (map leaves l).

(** What the walk does at a leaf. *)
Definition visit (e : entry) : M worker unit :=
  match e with File path mtime => reconcile_file path mtime | Directory _ => raise OSError end.
Fixpoint visit_all (l : list entry) : M worker unit :=
  match l with [] => ret tt | e :: l' => visit e ;! visit_all l' end.

(** Batches, as the main loop runs them: until one says that the walk is over. *)
Fixpoint batches (counts : list nat) (stack : list (list entry)) : M worker (bool * list (list entry)) :=
  match counts with
  | [] => ret (true, stack)
  | n :: counts' => let! next := run_batch n stack in
                    if next.1 : bool then batches counts' next.2 else ret next
  end.

Lemma next_entry_none stack : _next_entry stack = None -> concat stack = [].
Proof. induction stack as [|[|e es] stack IH]; cbn; done. Qed.

Lemma next_entry_some stack e stack' :
  _next_entry stack = Some (e, stack') -> concat stack = e :: concat stack'.
Proof. induction stack as [|[|x es] stack IH]; cbn; try done. by intros [= -> <-]. Qed.

Lemma all_leaves_app a b : all_leaves (a ++ b) = all_leaves a ++ all_leaves b.
Proof. unfold all_leaves. by rewrite map_app, concat_app. Qed.
Lemma sizes_app a b : sizes (a ++ b) = (sizes a + sizes b)%nat.
Proof. unfold sizes. by rewrite map_app, list_sum_app. Qed.

(** A batch visits the next leaves and leaves the rest on the stack. *)
Lemma run_batch_visits n stack : exists visited more stack',
  all_leaves (concat stack) = visited ++ all_leaves (concat stack') /\
  (forall w, run_batch n stack w = (visit_all visited ;! ret (more, stack')) w) /\
  (if more : bool then sizes (concat stack) = n + sizes (concat stack')
   else stack' = [] /\ sizes (concat stack) < n)%nat.
Proof.
  clear Hcandidates Hpending. revert stack. induction n as [|n IH]; intros stack; [by exists [], true, stack|].
  cbn [Worker.run_batch]. destruct (_next_entry stack) as [[e stack']|] eqn:E.
  2:{ apply next_entry_none in E. exists [], false, []. rewrite E. cbn. repeat split. lia. }
  apply next_entry_some in E. rewrite E. change (e :: ?l) with ([e] ++ l). rewrite all_leaves_app, sizes_app.
  destruct e as [path mtime|[children|]].
  - destruct (IH stack') as (v & more & s & Hl & Hr & Hs). exists (File path mtime :: v), more, s.
    change (sizes [File path mtime]) with 1%nat.
    split; [by rewrite Hl|]. split; [|destruct more; [lia|destruct Hs; split; [done|lia]]].
    intros w. cbn. unfold bind. destruct (reconcile_file path mtime w) as [[[]|e] w']; [|done]. by rewrite Hr.
  - destruct (IH (children :: stack')) as (v & more & s & Hl & Hr & Hs). exists v, more, s.
    cbn [concat] in Hl, Hs. rewrite all_leaves_app in Hl. rewrite sizes_app in Hs.
    assert (Hd : sizes [Directory (Some children)] = S (sizes children)) by (unfold sizes; cbn; by rewrite Nat.add_0_r).
    split; [|split; [done|]].
    + rewrite <- Hl. unfold all_leaves at 1. cbn. by rewrite app_nil_r.
    + rewrite Hd. destruct more; [lia|]. destruct Hs. split; [done|lia].
  - destruct (IH stack') as (v & more & s & Hl & Hr & Hs). exists (Directory None :: v), more, s.
    change (sizes [Directory None]) with 1%nat. split; [by rewrite Hl|]. split; [by intros w|]. destruct more; [lia|destruct Hs; split; [done|lia]].
Qed.

(** C18: the startup walk ends and visits every entry exactly once, in the order
    of the directories, however it is cut into batches: batches that together
    read more entries than the tree has do what visiting the files one after
    the other does (failing where that fails), and say that the walk is over. *)
Theorem startup_walk counts tree w (Henough : (sizes tree < list_sum counts)%nat) :
  batches counts [tree] w = (visit_all (all_leaves tree) ;! ret (false, [])) w.
Proof.
  clear Hcandidates Hpending. assert (H : forall stack w, (sizes (concat stack) < list_sum counts)%nat ->
    batches counts stack w = (visit_all (all_leaves (concat stack)) ;! ret (false, [])) w).
  2:{ rewrite H; cbn; by rewrite app_nil_r. }
  clear Henough w. induction counts as [|n counts IH]; intros stack w; cbn [list_sum foldr]; [lia|]. intros Hlt.
  destruct (run_batch_visits n stack) as (v & more & s & Hl & Hr & Hs). cbn [batches].
  unfold bind at 1. rewrite Hr, Hl. unfold bind. unfold bind in IH. clear Hr Hl. revert w.
  induction v as [|e v IHv]; intros w; cbn.
  - destruct more; cbn; [apply IH; unfold list_sum in *; lia|]. by destruct Hs as [-> _].
  - unfold bind. destruct (visit e w) as [[[]|x] w']; [apply IHv|done].
Qed.

(** ** The end *)

(** Nothing but the last step of [finalise] runs the shutdown. *)
Definition shutdowns (n : nat) (w : worker) : Prop := jn_shutdowns (wk_journal w) = n.

Lemma shutdowns_read {A} (f : nat -> A) n : keeps (shutdowns n) (read f).
Proof. by intros w. Qed.
Lemma shutdowns_call {A} (f : nat -> result A) n : keeps (shutdowns n) (call_out f).
Proof. apply keeps_bind; [apply shutdowns_read|]. intros [a|e]; [apply keeps_ret|apply keeps_raise]. Qed.
Lemma shutdowns_modify f n :
  (forall w, jn_shutdowns (wk_journal (f w)) = jn_shutdowns (wk_journal w)) -> keeps (shutdowns n) (modify f).
Proof. intros H. apply keeps_modify. intros w <-. apply H. Qed.
Lemma shutdowns_uploads ps n : keeps (shutdowns n) (_remove_uploads ps).
Proof. induction ps; cbn; [apply keeps_ret|]. apply keeps_bind; [by apply shutdowns_modify|]. by intros _. Qed.

Ltac shutdowns_tac := repeat (keeps_step || apply shutdowns_read || apply shutdowns_call
  || apply shutdowns_uploads || (apply shutdowns_modify; reflexivity)).

Lemma shutdowns_reject p reason n : keeps (shutdowns n) (_reject p reason).
Proof. unfold Worker._reject, Worker.report_pre_ocr_skip. shutdowns_tac. Qed.

Lemma shutdowns_schedule p d n : keeps (shutdowns n) (schedule_candidate p d).
Proof.
  unfold Worker.schedule_candidate, ignores. repeat (keeps_step || apply shutdowns_read).
  - by apply shutdowns_modify.
  - match goal with |- keeps _ (Worker.reject_all _ ?l _) => induction l end; cbn; [apply keeps_ret|].
    apply keeps_bind; [apply shutdowns_reject|]. by intros _.
Qed.

Lemma shutdowns_process b n : keeps (shutdowns n) (process_burst b).
Proof. unfold Worker.process_burst, _resolve_trigger, _report_processing_error. shutdowns_tac. Qed.

Lemma shutdowns_step w : jn_shutdowns (wk_journal (_process_bursts w)) = jn_shutdowns (wk_journal w).
Proof.
  unfold Worker._process_bursts, _supervise_worker. destruct (wk_processor_done w); [done|].
  destruct (wk_in_hand w) as [b|].
  - pose proof (shutdowns_process b _ (set_hand None false w) eq_refl) as H.
    destruct (process_burst b _) as [[[]|e] w']; [done|]. by case_match.
  - destruct (bq_items _) as [|[b|] items]; try done. by case_match.
Qed.

Lemma shutdowns_yield n : keeps (shutdowns n) yield_point.
Proof.
  intros w Hw. unfold Worker.yield_point. destruct (wk_plan w) as [|actions plan]; [done|].
  change (shutdowns n (set_plan plan w)) in Hw. revert Hw. generalize (set_plan plan w).
  induction actions as [|a actions IH]; intros w1 Hw1; [done|]. apply IH. destruct a as [p d| |name o]; cbn.
  - destruct (wk_observer_alive w1); [|done]. pose proof (shutdowns_schedule p d n w1 Hw1) as H.
    by destruct (schedule_candidate p d w1) as [[[]|e] w2].
  - unfold shutdowns. by rewrite shutdowns_step.
  - unfold _supervise_worker. by destruct (wk_stop w1).
Qed.

Lemma shutdowns_stop n : keeps (shutdowns n) stop.
Proof.
  unfold Worker.stop. repeat (keeps_step || (apply shutdowns_modify; reflexivity)).
  generalize (S (length (bq_items a))). intros fuel. induction fuel as [|fuel IH]; cbn; [apply keeps_ret|].
  apply keeps_bind; [apply shutdowns_yield|]. intros _. apply keeps_bind; [apply keeps_gets|]. intros q.
  destruct (bq_items q); [apply keeps_ret|]. unfold get_nowait.
  repeat (keeps_step || apply IH || (apply shutdowns_modify; reflexivity)).
Qed.

(** A callback that never raises. *)
Definition replies (callback : option (nat -> result unit)) : Prop :=
  match callback with Some f => forall n, f n = Ok tt | None => True end.

Lemma report_stopped_returns dropped w :
  replies on_skipped -> replies on_timed_skipped ->
  exists w', report_stopped dropped w = (Ok tt, w') /\ quiet w w' /\
    jn_shutdowns (wk_journal w') = jn_shutdowns (wk_journal w).
Proof.
  intros Hs Ht. revert w. induction dropped as [|b dropped IH]; intros w; [by exists w|].
  assert (Hone : exists w1, try_finally (report_dropped b "service_stopping") (_remove_uploads (bu_paths b)) w =
    (Ok tt, w1)).
  { unfold try_finally. assert (exists w0, report_dropped b "service_stopping" w = (Ok tt, w0)) as [w0 ->].
    { unfold Worker.report_dropped, call_out, bind, note, modify, read, of_result. cbv zeta.
      destruct on_timed_skipped as [f|]; [|destruct on_skipped as [f|]; [|by eexists]]; cbn in *;
        rewrite ?Hs, ?Ht; by eexists. }
    destruct (remove_uploads_spec (bu_paths b) w0) as (w1 & -> & _). by eexists. }
  destruct Hone as [w1 E]. destruct (IH w1) as (w' & E' & Hq & Hn). exists w'.
  cbn [Worker.report_stopped]. unfold bind. rewrite E. split; [done|].
  pose proof (shutdowns_uploads (bu_paths b)) as Hu.
  assert (Hk : keeps (shutdowns (jn_shutdowns (wk_journal w)))
    (try_finally (report_dropped b "service_stopping") (_remove_uploads (bu_paths b)))).
  { unfold Worker.report_dropped. cbv zeta. shutdowns_tac. }
  specialize (Hk w eq_refl). rewrite E in Hk. apply report_then_remove in E as [Hq1 _]; [|apply report_dropped_quiet].
  split; [by etrans|by rewrite Hn].
Qed.

(** The processor has ended and left nothing. *)
Definition ended (w : worker) : Prop :=
  wk_processor_done w = true /\ waiting w = [] /\ wk_in_hand w = None.

#[local] Instance ended_unmoved : Unmoved ended.
Proof. intros w w' [_ _ Hq Hh Hd _ _]. unfold ended, waiting. by rewrite Hq, Hh, Hd. Qed.

Lemma supervised name outcome w : ended w -> ended (_supervise_worker name outcome w).
Proof. apply ended_unmoved, supervise_unmoved. Qed.

(** Two steps end the processor when only the end marker is left. *)
Lemma joined w :
  (wk_processor_done w = true -> wk_in_hand w = None) -> bq_items (wk_queue w) = [None] ->
  ended (join_processor emit on_error trigger_resolver 2 w).
Proof.
  intros H Hi. cbn [join_processor]. destruct (wk_processor_done w) eqn:Hd.
  { split; [done|]. unfold waiting. rewrite Hi. auto. }
  assert (Hmarker : forall w1, wk_processor_done w1 = false -> wk_in_hand w1 = None ->
    bq_items (wk_queue w1) = [None] -> ended (_process_bursts w1)).
  { intros w1 H1 H2 H3. unfold Worker._process_bursts. rewrite H1, H2, H3. by apply supervised. }
  destruct (wk_in_hand w) as [b|] eqn:Hh.
  - assert (Hnext : ended (_process_bursts w) \/ wk_processor_done (_process_bursts w) = false /\
      wk_in_hand (_process_bursts w) = None /\ bq_items (wk_queue (_process_bursts w)) = [None]).
    { unfold Worker._process_bursts. rewrite Hd, Hh.
      destruct (process_burst b _) as [r w1] eqn:E. apply process_burst_spec in E as [[_ _ Hq Hh1 Hd1 _] _].
      cbn in Hq, Hh1, Hd1. destruct r as [[]|e].
      - right. by rewrite Hq.
      - left. apply supervised. split; [done|]. unfold waiting. cbn. by rewrite Hq, Hi. }
    destruct Hnext as [He|(H1 & H2 & H3)]; [by rewrite (proj1 He)|]. rewrite H1. by apply Hmarker.
  - pose proof (Hmarker w Hd Hh Hi) as He. by rewrite (proj1 He).
Qed.

Lemma join_keeps (I : worker -> Prop) n w :
  (forall w, I w -> I (_process_bursts w)) -> I w -> I (join_processor emit on_error trigger_resolver n w).
Proof.
  intros HI. revert w. induction n as [|n IH]; intros w Hw; cbn; [done|].
  destruct (wk_processor_done w); auto.
Qed.

(** The last step of [finalise]. *)
Lemma shutdown_spec shutdown w r w' :
  match shutdown with None => ret tt | Some f => note note_shutdown ;! call_out f end w = (r, w') ->
  quiet w w' /\
  match shutdown with
  | None => r = Ok tt /\ jn_shutdowns (wk_journal w') = jn_shutdowns (wk_journal w)
  | Some f => (exists n, r = f n) /\ jn_shutdowns (wk_journal w') = S (jn_shutdowns (wk_journal w))
  end.
Proof.
  destruct shutdown as [f|]; [|by intros [= <- <-]].
  unfold bind at 1, note, modify, call_out, bind, read, of_result. set (w1 := set_journal _ w).
  destruct (f (wk_reads w1)) as [[]|e] eqn:E; intros [= <- <-]; (split; [by split|]); split; [|done| |done]; by eexists.
Qed.


End Runs.

(** ** A sample run *)

Module Sample.
(** A reading every three seconds, JPEGs that rank equally, silent callbacks.
    A second is the smallest float here: only the order of the times matters. *)
Definition second (n : nat) : pyfloat := Fin (Z.of_nat n).
Definition reading (n : nat) : pyfloat := second (3 * n).
Definition day (n : nat) : datetime := Aware (Z.of_nat n).
Definition picture : image_facts :=
  {| im_exists := true; im_size := Ok 1000%Z; im_signature := true; im_jpeg := Ok true; im_verify := Ok tt;
     im_sharpness := Ok float_0; im_digest := Ok "digest" |}.
Definition fine (n : nat) : result unit := Ok tt.
Definition failing (n : nat) : result unit := Err OSError.

Abbreviation sample on_skipped f := (f reading reading day day (fun _ _ => picture) (fun _ p => p) on_skipped None
  None fine None None (second 2) (second 1) (second 900) (second 8) 20%nat 2%nat 2%nat 1%nat 4096%Z ["/hot"]).

Section Replay.
Context (on_skipped : option (nat -> result unit)).

Definition step : worker -> step_label -> worker -> Prop := sample on_skipped worker_step.
Definition run : operation -> M worker unit := sample on_skipped run_operation.
Definition other : action -> worker -> worker :=
  act reading day (fun _ p => p) on_skipped fine None None 2 ["/hot"].

(** The moves of a run: an action, or an operation with its plan. *)
Definition move : Type := action + operation * list (list action).
Definition label (m : move) (w : worker) : step_label * worker :=
  match m with
  | inl a => (Other a, other a w)
  | inr (o, plan) => let '(r, w') := run o (set_plan plan w) in
                     (Main o plan (match r with Ok _ => true | Err _ => false end), w')
  end.
Fixpoint replay (ms : list move) (w : worker) : list step_label * worker :=
  match ms with
  | [] => ([], w)
  | m :: ms' => let '(l, w1) := label m w in let '(ls, w2) := replay ms' w1 in (l :: ls, w2)
  end.

Lemma replay_steps ms w : steps step w (replay ms w).1 (replay ms w).2.
Proof.
  revert w. induction ms as [|m ms IH]; intros w; [constructor|]. cbn [replay].
  destruct (label m w) as [l w1] eqn:E. specialize (IH w1). destruct (replay ms w1) as [ls w2].
  econstructor; [|exact IH]. unfold label in E. destruct m as [a|[o plan]]; [by injection E as <- <-; constructor|].
  destruct (run o (set_plan plan w)) as [r w3] eqn:Er. injection E as <- <-. by constructor.
Qed.
End Replay.

(** Three uploads, each completing and flushed; the processor takes the first
    when the second needs its place, and the third takes the second's. *)
Definition upload (p : string) (plan : list (list action)) : list move :=
  [inl (Observed p false); inr (RetryPending, []); inr (FlushDue, plan)].
Definition bursts_of_three : list move :=
  upload "/in/a.jpg" [] ++ upload "/in/b.jpg" [[]; [Processed]] ++ upload "/in/c.jpg" [].
Definition run_of_three := replay (Some fine) bursts_of_three new_worker.
Definition after_three : worker := run_of_three.2.

Lemma after_three_reached : steps (step (Some fine)) new_worker run_of_three.1 after_three.
Proof. apply replay_steps. Qed.

Lemma bursts_conserved_witness :
  length (bq_accepted (wk_queue after_three)) = 3%nat /\
  bq_accepted (wk_queue after_three) ≡ₚ
    bq_taken (wk_queue after_three) ++ bq_dropped (wk_queue after_three) ++ waiting after_three /\
  bq_taken (wk_queue after_three) = jn_emitted (wk_journal after_three) ++ in_hand after_three.
Proof.
  split; [by vm_compute|].
  destruct (sample (Some fine) bursts_conserved (le_S _ _ (le_n _)) (le_n _) _ _ after_three_reached)
    as (H1 & _ & _ & H2 & _).
  split; [exact H1|]. apply H2. by vm_compute.
Defined.

(** The first upload, followed through the run. *)
Definition followed_run := replay (Some fine) (drop 1 bursts_of_three)
  (other (Some fine) (Observed "/in/a.jpg" false) new_worker).

Lemma uploads_accounted_witness : tracked "/in/a.jpg" followed_run.2 /\ Forall returns followed_run.1.
Proof.
  assert (Hr : Forall returns followed_run.1) by (vm_compute; repeat constructor).
  split; [|exact Hr].
  apply (sample (Some fine) uploads_accounted (le_S _ _ (le_n _)) (le_n _) "/in/a.jpg" [] new_worker
    followed_run.1 followed_run.2); [constructor|done..|apply replay_steps|exact Hr].
Defined.

(** The collector holds two uploads at most: the third displaces the first. *)
Definition three_adds : list (string * datetime) :=
  [("/in/a.jpg", Aware 5); ("/in/b.jpg", Aware 3); ("/in/c.jpg", Aware 4)].
Definition sample_add_all : list (string * datetime) -> M worker unit :=
  add_all reading day (fun _ _ => picture) (fun _ p => p) (Some fine) fine None None (second 2) 2 2 ["/hot"].
Definition sample_flush : M worker bool :=
  flush_due reading day day (fun _ _ => picture) (fun _ p => p) (Some fine) None fine None None 2 1 4096 ["/hot"].
Definition added_three : worker := (sample_add_all three_adds new_worker).2.
Definition flushed_three : worker := (sample_flush added_three).2.

Lemma burst_of_uploads_witness :
  exists b, list.last (bq_accepted (wk_queue flushed_three)) = Some b /\
    (exists t, bu_received_at b = Some t /\ earliest t three_adds.*2).
Proof.
  destruct (sample (Some fine) burst_of_uploads (le_S _ _ (le_n _)) (le_n _) [] three_adds new_worker added_three
    flushed_three) as (b & Hb & Ht & _); [constructor|done|done|vm_compute; reflexivity..|].
  exists b. split; [exact Hb|exact Ht].
Defined.

Definition tree : list entry :=
  [File "/in/new.jpg" (Ok (reading 0)); Directory (Some [File "/in/d/note.txt" (Ok (reading 0)); Directory (Some [])]);
   File "/in/gone.jpg" (Err OSError)].

Lemma startup_walk_witness :
  (sizes tree < list_sum [1; 3; 9])%nat /\
  batches reading reading day (fun _ p => p) (Some fine) fine None None (second 8) 2 ["/hot"] [1; 3; 9]%nat [tree]
    new_worker =
  (visit_all reading reading day (fun _ p => p) (Some fine) fine None None (second 8) 2 ["/hot"] (all_leaves tree) ;!
   ret (false, [])) new_worker.
Proof. split; [vm_compute; lia|]. apply startup_walk. vm_compute. lia. Defined.

Definition sample_finalise : option (nat -> result unit) -> option (nat -> result unit) -> M worker unit :=
  fun on_skipped shutdown =>
    finalise reading day (fun _ p => p) on_skipped None fine None None 2 1 ["/hot"] shutdown true.
Definition stopped_three : worker := (sample_finalise (Some fine) (Some failing) after_three).2.


(** When the report of a burst dropped at the stop raises, the exception leaves
    the [finally] clause: the shutdown is never called and the processor's end
    is not awaited. *)
Lemma failing_report_skips_shutdown :
  fst (sample_finalise (Some failing) (Some fine) after_three) = Err OSError /\
  jn_shutdowns (wk_journal (snd (sample_finalise (Some failing) (Some fine) after_three))) = 0%nat.
Proof. by vm_compute. Qed.
End Sample.
