(* ===== verification/Outbox.v ===== *)
(** * Event delivery: gate_controller/outbox.py

    The evidence spool with its files, the transmitted payload and its
    idempotency key, the two senders, the retention worker and the outbox
    worker.  SHA-256, PIL and the network are arguments; every system call, clock
    reading and request consumes one index of the environment's answers; the
    calls of the store fail as its list of faults says. *)

From Stdlib Require Import Strings.Byte DecimalString.
From S2P Require Import Prelude Json Float Text Base64 CloudflareClient AtomicFile Store StoreOutbox ActuationStore.

Definition LOCAL_IMAGE_PATH_KEY : string := "_local_image_path".
Definition MAX_OUTBOX_IMAGE_BYTES : Z := 512 * 1024.

Definition EvidenceSpoolError (msg : string) : exc := RuntimeError msg.
Definition OutboxSyncError (msg : string) : exc := RuntimeError msg.

(** ** Encoding the evidence *)

Section Encoding.
(** A decoded image and what PIL does with it. *)
Context {image : Type} (save : image -> Z -> result bytes) (width height : image -> Z)
  (resize : image -> Z -> Z -> result image).

(** [int(n * 0.8)]; 0.8 is the float 3602879701896397 / 2^52. *)
Definition float_eight_tenths : pyfloat := Fin (3602879701896397 * 2 ^ 1022).
Definition shrink (n : Z) : Z :=
  match fmul_const n float_eight_tenths with Fin m => Z.quot m two1074 | _ => 0 end.

(** The loop over the qualities. *)
Fixpoint first_bounded (working : image) (qualities : list Z) : result (option bytes) :=
  match qualities with
  | [] => Ok None
  | quality :: qualities' =>
      rbind (save working quality) (fun encoded =>
      if (Z.of_nat (length encoded) <=? MAX_OUTBOX_IMAGE_BYTES)%Z then Ok (Some encoded)
      else first_bounded working qualities')
  end.

(** outbox.py: _bounded_jpeg, for the remaining rounds. *)
Fixpoint _bounded_jpeg (rounds : nat) (working : image) : result (option bytes) :=
  match rounds with
  | O => Ok None
  | S rounds' =>
      rbind (first_bounded working [82; 70; 58; 46]%Z) (fun encoded =>
      match encoded with
      | Some e => Ok (Some e)
      | None =>
          let w := Z.max 1 (shrink (width working)) in
          let h := Z.max 1 (shrink (height working)) in
          if bool_decide (w = width working /\ h = height working) then Ok None
          else rbind (resize working w h) (_bounded_jpeg rounds')
      end)
  end.

(** The source file: whether it is a file with the JPEG marker, what opening it
    says of its format, the image turned upright, in RGB, within the limits. *)
Record source_view := {
  sv_is_file : bool;
  sv_signature : bool;
  sv_jpeg : result bool;
  sv_prepared : result image;
}.

(** outbox.py: _normalise_jpeg *)
Definition _normalise_jpeg (v : source_view) : result (option bytes) :=
  if negb (sv_is_file v) || negb (sv_signature v) then Ok None
  else
    rbind (sv_jpeg v) (fun jpeg =>
    if negb jpeg then Ok None else rbind (sv_prepared v) (_bounded_jpeg 4)).
End Encoding.

(** ** The evidence spool *)

Abbreviation spool := (directory bytes).

Section Spool.
Context (sha256 : bytes -> string).
(** What a system call answers, and how many bytes a failing [write] leaves; the
    name [mkstemp] finds; PIL's verdict on the file's bytes. *)
Context (io : nat -> result unit) (partial : nat -> nat) (temporary_name : nat -> string).
Context (normalise : nat -> string -> result (option bytes)).
Context (pil_is_jpeg : bytes -> result bool) (pil_verify : bytes -> result unit).

Abbreviation system_call := (AtomicFile.system_call io).
Abbreviation unlink := (AtomicFile.unlink io).

Definition is_hex (a : ascii) : bool := bool_decide (a ∈ list_ascii_of_string "0123456789abcdef").
Definition evidence_name (digest : string) : string := String.append digest ".jpg".

(** outbox.py: EvidenceSpool._path *)
Definition _path (digest : string) : result string :=
  if bool_decide (String.length digest = 64%nat) && forallb is_hex (list_ascii_of_string digest)
  then Ok (evidence_name digest)
  else Err (EvidenceSpoolError "invalid evidence digest").

(** The [try] of [stage]: fchmod and fdopen, the writing, the replacement, chmod and
    the fsync of the directory. *)
Definition write_evidence (temporary destination : string) (encoded : bytes) : M spool unit :=
  write_atomically io (fun n => take (partial n)) [] (system_call ;! system_call) system_call (ret tt)
    (system_call ;! _fsync_directory io) temporary destination encoded.

(** outbox.py: EvidenceSpool.stage *)
Definition stage (source_path : string) : M spool string :=
  let! prepared := read (fun n => normalise n source_path) in
  let! encoded := match prepared with
                  | Ok (Some encoded) => ret encoded
                  | Ok None => raise (EvidenceSpoolError "could not prepare JPEG evidence")
                  | Err e => raise (if is_Exception e then EvidenceSpoolError "could not prepare JPEG evidence"
                                    else e)
                  end in
  let digest := sha256 encoded in
  system_call ;! modify (fun s => {| sl_reads := sl_reads s; sl_root := true; sl_files := sl_files s |}) ;!
  system_call ;!
  system_call ;!
  let! name := read temporary_name in
  let temporary := String.append ".tmp-" name in
  on_files (dset temporary []) ;!
  write_evidence temporary (evidence_name digest) encoded ;!
  ret digest.

(** PIL's check of the loaded bytes. *)
Definition decodable (encoded : bytes) : result unit :=
  let corrupt e := Err (if is_Exception e then EvidenceSpoolError "evidence is corrupt" else e) in
  match pil_is_jpeg encoded with
  | Ok true => match pil_verify encoded with Ok _ => Ok tt | Err e => corrupt e end
  | Ok false => Err (EvidenceSpoolError "evidence is not JPEG")
  | Err e => corrupt e
  end.

(** outbox.py: EvidenceSpool.load *)
Definition load (digest : string) : M spool bytes :=
  let! path := of_result (_path digest) in
  let unavailable := EvidenceSpoolError "evidence is unavailable" in
  let! answer := read io in
  let! files := gets sl_files in
  let! encoded := match answer, dget path files with
                  | Err OSError, _ => raise unavailable
                  | Err e, _ => raise e
                  | Ok _, None => raise unavailable
                  | Ok _, Some content => ret (take (Z.to_nat (MAX_OUTBOX_IMAGE_BYTES + 1)) content)
                  end in
  if (MAX_OUTBOX_IMAGE_BYTES <? Z.of_nat (length encoded))%Z
  then raise (EvidenceSpoolError "evidence exceeds the upload limit")
  else if negb (String.eqb (sha256 encoded) digest) then raise (EvidenceSpoolError "evidence digest mismatch")
  else of_result (decodable encoded) ;! ret encoded.

(** An OSError of [unlink] becomes an EvidenceSpoolError. *)
Definition remove_evidence (name message : string) : M spool unit := fun s =>
  match unlink name s with
  | (Err OSError, s') => (Err (EvidenceSpoolError message), s')
  | out => out
  end.

(** outbox.py: EvidenceSpool.delete *)
Definition delete (digest : string) : M spool unit := fun s =>
  match _path digest with
  | Err e => (Err e, s)
  | Ok path => remove_evidence path "could not delete evidence" s
  end.

(** [path.stem] of a name with the suffix [.jpg] *)
Definition jpg_stem (name : string) : string := String.substring 0 (String.length name - 4) name.
Definition is_orphan (pending : gset string) (name : string) : bool :=
  String.prefix ".tmp-" name
  || (String.eqb (path_suffix name) ".jpg" && bool_decide (jpg_stem name ∉ pending)).

Fixpoint cleanup_entries (pending : gset string) (names : list string) : M spool unit :=
  match names with
  | [] => ret tt
  | name :: names' =>
      (if is_orphan pending name then remove_evidence name "could not clean evidence" else ret tt) ;!
      cleanup_entries pending names'
  end.

(** outbox.py: EvidenceSpool.cleanup *)
Definition cleanup (pending : gset string) : M spool unit :=
  let! s := gets id in
  if sl_root s then cleanup_entries pending (sl_files s).*1 else ret tt.
End Spool.

(** ** The transmitted payload *)

Section Payload.
Context (sha256 : bytes -> string).
(** [str] of a list, an object or a float. *)
Context (str_other : json -> string).

(** [f"{value}"] *)
Definition format_value (j : json) : string :=
  match j with
  | JStr s => s
  | JInt z => NilZero.string_of_int (Z.to_int z)
  | JBool b => if b then "True" else "False"
  | JNull => "None"
  | _ => str_other j
  end.

(** outbox.py: _prepare_outbox_payload *)
Definition _prepare_outbox_payload (payload : dict json) (controller_id : string)
    (evidence_bytes : option bytes) : result (dict json) :=
  let legacy_path := dict_get LOCAL_IMAGE_PATH_KEY payload in
  let transmitted := ddel LOCAL_IMAGE_PATH_KEY payload in
  let transmitted := if negb (is_null legacy_path) && negb (dmem "image_sha256" transmitted)
                     then dsetdefault "image_status" (JStr "legacy_evidence_unavailable") transmitted
                     else transmitted in
  let transmitted := dsetdefault "controller_id" (JStr controller_id) transmitted in
  let image_digest := dict_get "image_sha256" transmitted in
  match evidence_bytes with
  | Some bytes =>
      let actual_digest := sha256 bytes in
      match image_digest with
      | JStr digest =>
          if negb (String.eqb digest actual_digest)
          then Err (OutboxSyncError "evidence bytes do not match the queued digest")
          else if (MAX_OUTBOX_IMAGE_BYTES <? Z.of_nat (length bytes))%Z
          then Err (OutboxSyncError "evidence exceeds the upload limit")
          else Ok (dset "image"
                     (JDict [("filename", JStr (evidence_name digest)); ("content_type", JStr "image/jpeg");
                             ("data_base64", JStr (b64encode bytes)); ("sha256", JStr digest)]) transmitted)
      | _ => Err (OutboxSyncError "evidence bytes do not match the queued digest")
      end
  | None => if is_null image_digest then Ok transmitted
            else Err (OutboxSyncError "queued evidence bytes are unavailable")
  end.

(** The text whose digest is the key. *)
Definition idempotency_text (payload : dict json) : result string :=
  rbind (dict_item "controller_id" payload) (fun controller =>
  rbind (dict_item "event_id" payload) (fun event =>
  Ok (String.append (format_value controller) (String.append ":" (format_value event))))).

(** outbox.py: _outbox_idempotency_key *)
Definition _outbox_idempotency_key (payload : dict json) : result string :=
  rbind (idempotency_text payload) (fun text => Ok (sha256 (list_byte_of_string text))).

(** outbox.py: _is_ingest_acknowledgement *)
Definition _is_ingest_acknowledgement (value : json) : bool :=
  match value with
  | JDict d => match dict_get "eventId" d, dict_get "inserted" d with
               | JInt _, JBool _ => true
               | _, _ => false
               end
  | _ => false
  end.

(** ** Senders *)

Record request := {
  rq_target : string;
  rq_payload : dict json;
  rq_key : string;
  rq_bearer : option string;
}.

(** What a sender does with a payload and its evidence: its result and the
    requests it made.  The law: it returns only when the one request it made
    carries the prepared payload under its key and the server confirmed it. *)
Class Sender (confirmed : nat -> request -> Prop) := {
  sender_controller : string;
  sender_call : nat -> dict json -> option bytes -> result unit * list request;
  sender_sound : forall n payload evidence,
    fst (sender_call n payload evidence) = Ok tt ->
    exists rq, snd (sender_call n payload evidence) = [rq] /\ confirmed n rq /\
      _prepare_outbox_payload payload sender_controller evidence = Ok (rq_payload rq) /\
      _outbox_idempotency_key (rq_payload rq) = Ok (rq_key rq);
}.

(** Both senders build their request the same way. *)
Definition build_request (target : string) (bearer : option string) (controller_id : string)
    (payload : dict json) (evidence : option bytes) : result request :=
  rbind (_prepare_outbox_payload payload controller_id evidence) (fun transmitted =>
  rbind (_outbox_idempotency_key transmitted) (fun key =>
  Ok {| rq_target := target; rq_payload := transmitted; rq_key := key; rq_bearer := bearer |})).

Section Http.
(** [session.post]: the status code. *)
Context (post : nat -> request -> result Z).
Context (url controller_id : string) (bearer_token : option string).

(** outbox.py: HttpOutboxSender.__call__; an empty token sends no header. *)
Definition http_send (n : nat) (payload : dict json) (evidence : option bytes) : result unit * list request :=
  let bearer := match bearer_token with Some EmptyString => None | b => b end in
  match build_request url bearer controller_id payload evidence with
  | Err e => (Err e, [])
  | Ok rq =>
      (rbind (post n rq) (fun status =>
         if ((200 <=? status) && (status <? 300))%Z then Ok tt
         else Err (OutboxSyncError "outbox endpoint returned an HTTP error")), [rq])
  end.

Definition http_confirmed (n : nat) (rq : request) : Prop :=
  exists status, post n rq = Ok status /\ (200 <= status < 300)%Z.
End Http.

Section Cloudflare.
(** [session.post] of the client, and [json.loads]. *)
Context (post : nat -> request -> result response) (parse : bytes -> result json).
Context (base_url controller_id : string).

(** outbox.py: CloudflareOutboxSender.__call__ *)
Definition cloudflare_send (n : nat) (payload : dict json) (evidence : option bytes)
  : result unit * list request :=
  match build_request (String.append base_url "/api/controller/events") None controller_id payload evidence with
  | Err e => (Err e, [])
  | Ok rq =>
      (match post_json parse (post n rq) true 4096 with
       | Ok (Some acknowledgement) =>
           if _is_ingest_acknowledgement acknowledgement then Ok tt
           else Err (OutboxSyncError "outbox endpoint did not confirm ingest")
       | Ok None => Err (OutboxSyncError "outbox endpoint did not confirm ingest")
       | Err HTTPError => Err (OutboxSyncError "outbox endpoint returned an HTTP error")
       | Err e => Err e
       end, [rq])
  end.

(** A reply outside 3xx, 4xx and 5xx, of at most 4096 bytes, whose body
    acknowledges the event. *)
Definition cloudflare_confirmed (n : nat) (rq : request) : Prop :=
  exists reply body acknowledgement,
    post n rq = Ok reply /\ ~ (300 <= rs_status reply < 600)%Z /\ body_of reply = Ok body /\
    (Z.of_nat (length body) <= 4096)%Z /\ parse body = Ok acknowledgement /\
    _is_ingest_acknowledgement acknowledgement = true.
End Cloudflare.

#[global] Program Instance http_sender post url controller_id bearer_token : Sender (http_confirmed post) := {
  sender_controller := controller_id;
  sender_call := http_send post url controller_id bearer_token;
}.
Next Obligation.
  intros post url controller bearer n payload evidence. unfold http_send, build_request.
  set (b := match bearer with Some EmptyString => None | b => b end).
  destruct (_prepare_outbox_payload _ _ _) as [transmitted|] eqn:Et; [|done]. cbn.
  destruct (_outbox_idempotency_key _) as [key|] eqn:Ek; [|done]. cbn. set (rq := {| rq_target := _ |}).
  destruct (post n rq) as [status|] eqn:Ep; [|done]. cbn. destruct (_ && _) eqn:Es; [|done]. bool_props.
  intros _. exists rq. repeat split; [|done..]. by exists status.
Qed.

#[global] Program Instance cloudflare_sender post parse base_url controller_id
  : Sender (cloudflare_confirmed post parse) := {
  sender_controller := controller_id;
  sender_call := cloudflare_send post parse base_url controller_id;
}.
Next Obligation.
  intros post parse base controller n payload evidence. unfold cloudflare_send, build_request.
  destruct (_prepare_outbox_payload _ _ _) as [transmitted|] eqn:Et; [|done]. cbn.
  destruct (_outbox_idempotency_key _) as [key|] eqn:Ek; [|done]. cbn. set (rq := {| rq_target := _ |}).
  destruct (post_json parse (post n rq) true 4096) as [[a|]|e] eqn:Ep; cbn; [|by intros [=]|by destruct e; intros [=]]. destruct (_is_ingest_acknowledgement a) eqn:Ea; [|done].
  intros _. exists rq. repeat split; [|done..]. apply post_json_ok in Ep as (reply & body & H1 & H2 & H3 & H4 & H5).
  by exists reply, body, a.
Qed.
End Payload.
#[global] Arguments sender_call {_ _ _ _} _ _ _.
#[global] Arguments sender_controller {_ _ _ _}.
#[global] Arguments sender_sound {_ _ _ _}.

(** ** The workers *)

Record outbox := {
  ow_store : sqlite_store;
  ow_spool : spool;
  (** Readings of the clock and calls of the sender. *)
  ow_reads : nat;
  (** [_last_item_id], [_last_retention_at] *)
  ow_last_item : option Z;
  ow_last_retention : option datetime;
  (** Ghost: the items attempted and the requests made with their number. *)
  ow_attempts : list Z;
  ow_requests : list (nat * request);
}.

Definition set_store (s : sqlite_store) (w : outbox) : outbox :=
  {| ow_store := s; ow_spool := ow_spool w; ow_reads := ow_reads w; ow_last_item := ow_last_item w;
     ow_last_retention := ow_last_retention w; ow_attempts := ow_attempts w; ow_requests := ow_requests w |}.
Definition set_spool (s : spool) (w : outbox) : outbox :=
  {| ow_store := ow_store w; ow_spool := s; ow_reads := ow_reads w; ow_last_item := ow_last_item w;
     ow_last_retention := ow_last_retention w; ow_attempts := ow_attempts w; ow_requests := ow_requests w |}.
Definition set_last_retention (t : datetime) (w : outbox) : outbox :=
  {| ow_store := ow_store w; ow_spool := ow_spool w; ow_reads := ow_reads w; ow_last_item := ow_last_item w;
     ow_last_retention := Some t; ow_attempts := ow_attempts w; ow_requests := ow_requests w |}.
Definition attempted (id : Z) (w : outbox) : outbox :=
  {| ow_store := ow_store w; ow_spool := ow_spool w; ow_reads := ow_reads w; ow_last_item := Some id;
     ow_last_retention := ow_last_retention w; ow_attempts := ow_attempts w ++ [id];
     ow_requests := ow_requests w |}.

Definition on_store {A} (m : Z -> M database A) : M outbox A := lift ow_store set_store (call m).
Definition on_spool {A} (m : M spool A) : M outbox A := lift ow_spool set_spool m.

(** [datetime - timedelta(days=n)] *)
Definition days_before (n : Z) (t : datetime) : datetime := dt_minus t (n * seconds 86400).

(** outbox.py: the check of the retention setting in both constructors *)
Definition valid_retention (days : Z) : bool := (1 <=? days)%Z && (days <=? 3650)%Z.

Section Workers.
Context (sha256 : bytes -> string) (str_other : json -> string).
Context (io : nat -> result unit) (partial : nat -> nat) (temporary_name : nat -> string).
Context (normalise : nat -> string -> result (option bytes)).
Context (pil_is_jpeg : bytes -> result bool) (pil_verify : bytes -> result unit).
Context (clock : nat -> datetime).
Context {confirmed : nat -> request -> Prop} `{!Sender sha256 str_other confirmed}.
(** The constructor's settings; the senders are built with the same
    [controller_id]. *)
Context (controller_id : string) (retention_days : Z).

Definition ask_clock : M outbox datetime := fun w =>
  (Ok (clock (ow_reads w)),
   {| ow_store := ow_store w; ow_spool := ow_spool w; ow_reads := S (ow_reads w);
      ow_last_item := ow_last_item w; ow_last_retention := ow_last_retention w;
      ow_attempts := ow_attempts w; ow_requests := ow_requests w |}).

(** [self._send(payload)] or [self._send(payload, evidence)] *)
Definition _send (payload : dict json) (evidence : option bytes) : M outbox unit := fun w =>
  let '(r, requests) := sender_call (ow_reads w) payload evidence in
  (r, {| ow_store := ow_store w; ow_spool := ow_spool w; ow_reads := S (ow_reads w);
         ow_last_item := ow_last_item w; ow_last_retention := ow_last_retention w;
         ow_attempts := ow_attempts w;
         ow_requests := ow_requests w ++ map (pair (ow_reads w)) requests |}).

(** A purge of [TelemetryRetentionWorker.run_once]; what it raises is ignored. *)
Definition purged (m : M database Z) : M outbox Z :=
  try_except (on_store (fun _ => m)) (fun _ => ret 0%Z).

(** outbox.py: TelemetryRetentionWorker.run_once *)
Definition retention_run_once : M outbox Z :=
  let! now := ask_clock in
  let cutoff := days_before retention_days now in
  let! delivered := purged (purge_delivered_telemetry cutoff) in
  let! unqueued := purged (purge_unqueued_telemetry cutoff) in
  ret (delivered + unqueued)%Z.

(** outbox.py: OutboxWorker.__init__, once the settings are checked *)
Definition start_outbox : M outbox unit :=
  try_except
    (on_store (fun _ => bind_pending_outbox_controller controller_id) ;!
     let! pending := on_store (fun _ => gets pending_evidence_digests) in
     on_spool (cleanup io pending))
    (fun _ => ret tt).

(** outbox.py: OutboxWorker.prepare_payload *)
Definition prepare_payload (image_path : option string) : M outbox (dict json) :=
  let payload := [("event_id", JNull); ("controller_id", JStr controller_id)] in
  match image_path with
  | None => ret payload
  | Some path =>
      try_except
        (let! digest := on_spool (stage sha256 io partial temporary_name normalise path) in
         ret (dset "image_sha256" (JStr digest) payload))
        (fun _ => ret (dset "image_status" (JStr "unavailable_before_queue") payload))
  end.

(** outbox.py: OutboxWorker.enqueue *)
Definition enqueue (event_id : Z) : M outbox Z :=
  let! payload := prepare_payload None in
  on_store (fun now => queue_outbox now event_id payload).

(** [self._evidence_spool.load(image_digest)]; what is not a string raises. *)
Definition load_evidence (image_digest : json) : M outbox bytes :=
  match image_digest with
  | JStr digest => on_spool (load sha256 io pil_is_jpeg pil_verify digest)
  | _ => raise TypeError
  end.

(** The first [try] of the loop: what is sent, [None] when the item is skipped.
    The log lines read the telemetry of the payload, which the store removed or wrote as
    an object of objects, so they cannot raise. *)
Definition attempt (item_id : Z) : M outbox (option (dict json)) :=
  let! at_ := ask_clock in
  let! payload := on_store (fun _ => prepare_outbox_attempt item_id at_) in
  match payload with
  | None => ret None
  | Some p =>
      let image_digest := dict_get "image_sha256" p in
      (if is_null image_digest then _send p None
       else let! evidence := load_evidence image_digest in _send p (Some evidence)) ;!
      ret (Some p)
  end.

(** The second [try]: whether the completion was stored. *)
Definition complete (item_id : Z) (payload : dict json) : M outbox bool :=
  try_except
    (let! at_ := ask_clock in
     on_store (fun _ => complete_outbox_item item_id at_ (Some payload)) ;! ret true)
    (fun _ => ret false).

(** The evidence of a delivered item goes when no other pending item needs it;
    the query is outside the [try]. *)
Definition release_evidence (image_digest : json) : M outbox unit :=
  match image_digest with
  | JStr digest =>
      let! pending := on_store (fun _ => gets pending_evidence_digests) in
      if bool_decide (digest ∈ pending) then ret tt
      else try_except (on_spool (delete io digest)) (fun _ => ret tt)
  | _ => ret tt
  end.

(** One iteration of the loop of [run_once]: how many items it delivered. *)
Definition deliver (item_id : Z) : M outbox nat :=
  modify (attempted item_id) ;!
  let! outcome :=
    try_except (let! p := attempt item_id in ret (inl p))
      (fun _ => try_except (on_store (fun _ => mark_outbox_retry item_id)) (fun _ => ret tt) ;! ret (inr tt)) in
  match outcome with
  | inr _ | inl None => ret O
  | inl (Some payload) =>
      let! stored := complete item_id payload in
      if stored : bool then release_evidence (dict_get "image_sha256" payload) ;! ret 1%nat else ret O
  end.

Fixpoint deliver_all (items : list Z) : M outbox nat :=
  match items with
  | [] => ret O
  | id :: items' => let! n := deliver id in let! rest := deliver_all items' in ret (n + rest)%nat
  end.

(** outbox.py: OutboxWorker._run_retention; times of one kind are compared. *)
Definition _run_retention (now : datetime) : M outbox unit :=
  let! last := gets ow_last_retention in
  let! recent := match last with
                 | None => ret false
                 | Some t => let! d := of_result (dt_sub now t) in ret (d <? seconds 3600)%Z
                 end in
  if recent : bool then ret tt
  else
    modify (set_last_retention now) ;!
    try_except (on_store (fun _ => purge_delivered_telemetry (days_before retention_days now)) ;! ret tt)
      (fun _ => ret tt).

Definition BATCH : nat := 20.

(** outbox.py: OutboxWorker.run_once *)
Definition run_once : M outbox nat :=
  let! now := ask_clock in
  _run_retention now ;!
  let! last := gets ow_last_item in
  let! items := on_store (fun _ d => (pending_outbox_items BATCH last d, d)) in
  deliver_all items.*1.
End Workers.
