(* ===== verification/OutboxFacts.v ===== *)
(** * Properties of event delivery

    An item is only completed after the server confirmed a request that carries
    its payload; no pending item is starved by others; the transmitted evidence
    is the queued one; staged evidence stays loadable until it is released. *)

From Stdlib Require Import Strings.Byte Sorted.
From S2P Require Import Prelude Json Float Text Base64 CloudflareClient Store StoreFacts StoreOutbox.
From S2P Require Import StoreOutboxFacts ActuationStore Outbox.

(** ** What a call does to the rows *)

Definition is_object (o : outbox_row) : Prop := exists p, ob_payload o = Json (JDict p).

(** Only the item's row may change, while it is pending; when it is completed
    its payload is one of [P]. *)
Record touched (item : Z) (P : dict json -> Prop) (o o' : outbox_row) : Prop := {
  tc_id : ob_id o' = ob_id o;
  tc_state : ob_send_state o' = ob_send_state o;
  tc_other : ob_id o <> item -> o' = o;
  tc_completed : ob_completed_at o <> None -> o' = o;
  tc_allowed : ob_completed_at o' <> None -> ob_completed_at o <> None \/
    exists p, ob_payload o' = Json (JDict p) /\ P p;
  tc_object : is_object o -> is_object o';
}.

Definition touches (item : Z) (P : dict json -> Prop) (d d' : database) : Prop :=
  Forall2 (touched item P) (db_outbox d) (db_outbox d').

Lemma touched_refl item P o : touched item P o o.
Proof. split; auto. Qed.

Lemma touched_trans item P o1 o2 o3 : touched item P o1 o2 -> touched item P o2 o3 -> touched item P o1 o3.
Proof.
  intros [i1 s1 o1' c1 a1 b1] [i2 s2 o2' c2 a2 b2]. split; [congruence|congruence| | | |auto].
  - intros H. pose proof (o1' H). subst. auto.
  - intros H. pose proof (c1 H). subst. auto.
  - intros H. destruct (a2 H) as [H2|H2]; [|auto]. pose proof (c2 H2). subst. auto.
Qed.

Lemma touched_mono item (P Q : dict json -> Prop) o o' :
  (forall p, P p -> Q p) -> touched item P o o' -> touched item Q o o'.
Proof. intros HPQ []. split; try done. intros H. destruct (tc_allowed0 H) as [|(p & ? & ?)]; eauto. Qed.

#[global] Instance touches_preorder item P : PreOrder (touches item P).
Proof.
  split.
  - intros d. unfold touches. induction (db_outbox d) as [|o l IH]; constructor; [apply touched_refl|exact IH].
  - intros d1 d2 d3 H12 H23. unfold touches in *. revert H23. generalize (db_outbox d3). clear d3.
    induction H12 as [|o1 o2 l1 l2 H H12 IH]; intros l3 H23; inversion H23; subst; constructor;
      [by eapply touched_trans|by apply IH].
Qed.

Lemma touches_mono item (P Q : dict json -> Prop) d d' :
  (forall p, P p -> Q p) -> touches item P d d' -> touches item Q d d'.
Proof. intros HPQ H. eapply Forall2_impl; [|exact H]. intros o o'. by apply touched_mono. Qed.

Lemma touches_update item P f d d' :
  db_outbox d' = db_outbox (update_outbox (fun o => Z.eqb (ob_id o) item && bool_decide (ob_completed_at o = None)) f d) ->
  (forall o, ob_id (f o) = ob_id o /\ ob_send_state (f o) = ob_send_state o /\ is_object (f o) /\
     (ob_completed_at (f o) <> None -> ob_completed_at o <> None \/
        exists p, ob_payload (f o) = Json (JDict p) /\ P p)) ->
  touches item P d d'.
Proof.
  intros E Hf. unfold touches. rewrite E. clear E. cbn. induction (db_outbox d) as [|o l IH]; cbn; constructor; [|done].
  destruct (_ && _) eqn:E; [|apply touched_refl]. bool_props. apply Z.eqb_eq in H.
  destruct (Hf o) as (H1 & H2 & H3 & H4). split; try done.
Qed.

Lemma prepare_touches item at_ P d : touches item P d (snd (prepare_outbox_attempt item at_ d)).
Proof.
  unfold prepare_outbox_attempt. repeat case_match; cbn [snd]; try done.
  eapply touches_update; [reflexivity|]. intros o'. repeat split; [by eexists|by left].
Qed.

Lemma settle_touches item state at_ prepared (P : dict json -> Prop) d :
  (at_ <> None -> exists p, prepared = Some p /\ P p) ->
  touches item P d (snd (_set_outbox_delivery_state item state at_ prepared d)).
Proof.
  intros Hp. unfold _set_outbox_delivery_state.
  destruct (outbox_of_id item d) as [o|]; [|done]. destruct (ob_completed_at o); [done|].
  destruct (rbind _ _) as [[j fallback]|]; [|done]. cbv zeta.
  assert (Hlast : forall p d', db_outbox d' = db_outbox d -> (at_ <> None -> P p) ->
    touches item P d (update_outbox
      (fun o' => Z.eqb (ob_id o') item && bool_decide (ob_completed_at o' = None))
      (fun o' => with_completed (_timestamp <$> at_) (with_payload (dumps (JDict p)) o')) d')).
  { intros p d' Ed HP. eapply (touches_update item P _ d); [cbn; by rewrite Ed|].
    intros o'. repeat split; [by eexists|]. cbn. intros Hc. right. exists p. split; [done|].
    apply HP. by destruct at_. }
  destruct prepared as [q|].
  - assert (HP : at_ <> None -> P q) by (intros H; destruct (Hp H) as (? & [= <-] & ?); done).
    repeat case_match; simplify_eq; cbn [snd]; (apply Hlast; [reflexivity|auto]).
  - assert (HP : forall p, at_ <> None -> P p) by (intros p H; by destruct (Hp H) as (? & ? & ?)).
    repeat case_match; simplify_eq; cbn [snd]; (apply Hlast; [reflexivity|auto]).
Qed.

(** *** Purging leaves the rows where they are *)

Definition same_delivery (o o' : outbox_row) : Prop :=
  ob_id o' = ob_id o /\ ob_completed_at o' = ob_completed_at o /\ ob_send_state o' = ob_send_state o /\
  (is_object o -> is_object o').
Definition retained (d d' : database) : Prop := Forall2 same_delivery (db_outbox d) (db_outbox d').

#[global] Instance retained_preorder : PreOrder retained.
Proof.
  split.
  - intros d. unfold retained. induction (db_outbox d) as [|o l IH]; constructor; [by repeat split|exact IH].
  - intros d1 d2 d3 H12 H23. unfold retained in *. revert H23. generalize (db_outbox d3). clear d3.
    induction H12 as [|o1 o2 l1 l2 (i1 & c1 & s1 & b1) H12 IH]; intros l3 H23;
      inversion H23 as [|? o3 ? ? (i2 & c2 & s2 & b2)]; subst; constructor; [|by apply IH].
    repeat split; [congruence..|auto].
Qed.

Lemma purge_row_retained event_id o acc : retained (snd acc) (snd (purge_row event_id o acc)).
Proof.
  unfold purge_row. destruct (v2_of_text (ob_payload o)) as [p|]; [|done]. unfold retained. cbn.
  induction (db_outbox (snd acc)) as [|x l IH]; cbn; constructor; [|exact IH].
  destruct (_ && _); repeat split; [|done]. by eexists.
Qed.

Lemma purge_retained cutoff d : retained d (snd (purge_delivered_telemetry cutoff d)).
Proof.
  unfold purge_delivered_telemetry. generalize (delivered_rows (_timestamp cutoff) d). intros rows.
  assert (H : forall acc, retained (snd acc) (snd (fold_left (fun acc row => purge_row row.1 row.2 acc) rows acc))).
  { induction rows as [|row rows IH]; intros acc; [done|]. cbn. etrans; [apply purge_row_retained|apply IH]. }
  specialize (H (0%Z, d)). by destruct (fold_left _ _ _).
Qed.

(** ** Deliveries *)

Abbreviation db w := (ls_db (ow_store w)).

Section Deliveries.
Context (sha256 : bytes -> string) (str_other : json -> string).
Context (io : nat -> result unit) (partial : nat -> nat) (temporary_name : nat -> string).
Context (normalise : nat -> string -> result (option bytes)).
Context (pil_is_jpeg : bytes -> result bool) (pil_verify : bytes -> result unit).
Context (clock : nat -> datetime).
Context {confirmed : nat -> request -> Prop} `{Hsender : !Sender sha256 str_other confirmed}.
Context (controller_id : string) (retention_days : Z).

Abbreviation attempt := (attempt sha256 str_other io pil_is_jpeg pil_verify clock).
Abbreviation complete := (complete clock).
Abbreviation release_evidence := (release_evidence io).
Abbreviation deliver := (deliver sha256 str_other io pil_is_jpeg pil_verify clock).
Abbreviation deliver_all := (deliver_all sha256 str_other io pil_is_jpeg pil_verify clock).
Abbreviation run_once := (run_once sha256 str_other io pil_is_jpeg pil_verify clock retention_days).

(** Some confirmed request of [requests] carries the payload. *)
Definition carried (requests : list (nat * request)) (p : dict json) : Prop :=
  exists n rq evidence, (n, rq) ∈ requests /\ confirmed n rq /\
    _prepare_outbox_payload sha256 p (sender_controller (Sender := Hsender)) evidence = Ok (rq_payload rq).

(** What the worker does on the way: requests are made, rows of the item may
    change. *)
Record advanced (item : Z) (w w' : outbox) : Prop := {
  ad_requests : exists new, ow_requests w' = ow_requests w ++ new /\ touches item (carried new) (db w) (db w');
  ad_attempts : ow_attempts w' = ow_attempts w;
  ad_last : ow_last_item w' = ow_last_item w;
  ad_retention : ow_last_retention w' = ow_last_retention w;
  ad_faults : ls_faults (ow_store w) = [] -> ls_faults (ow_store w') = [];
}.

Lemma carried_app l1 l2 p : carried l1 p \/ carried l2 p -> carried (l1 ++ l2) p.
Proof.
  intros [(n & rq & e & Hin & H)|(n & rq & e & Hin & H)]; exists n, rq, e; (split; [|exact H]);
    apply elem_of_app; auto.
Qed.

Lemma advanced_refl item w : advanced item w w.
Proof. split; try done. exists []. by rewrite app_nil_r. Qed.

Lemma advanced_trans item w1 w2 w3 : advanced item w1 w2 -> advanced item w2 w3 -> advanced item w1 w3.
Proof.
  intros [(n1 & E1 & T1) a1 l1 t1 f1] [(n2 & E2 & T2) a2 l2 t2 f2]. split; [|congruence..|auto].
  exists (n1 ++ n2). split; [by rewrite E2, E1, app_assoc|].
  etrans; [eapply touches_mono, T1|eapply touches_mono, T2]; intros p ?; apply carried_app; auto.
Qed.

(** An action that only advances. *)
Definition advances {A} (item : Z) (m : M outbox A) : Prop := forall w0, keeps (advanced item w0) m.

Lemma advances_snd {A} item (m : M outbox A) :
  (forall w, advanced item w (snd (m w))) -> advances item m.
Proof. intros H w0 w Hw. specialize (H w). destruct (m w) as [[a|e] w']; by eapply advanced_trans. Qed.

Lemma advances_same {A} item (m : M outbox A) :
  (forall w, ow_store (snd (m w)) = ow_store w /\ ow_requests (snd (m w)) = ow_requests w /\
     ow_attempts (snd (m w)) = ow_attempts w /\ ow_last_item (snd (m w)) = ow_last_item w /\
     ow_last_retention (snd (m w)) = ow_last_retention w) ->
  advances item m.
Proof.
  intros H. apply advances_snd. intros w. destruct (H w) as (H1 & H2 & H3 & H4 & H5).
  split; rewrite ?H1; try done. exists []. by rewrite app_nil_r, H2.
Qed.

Lemma on_spool_advances {A} item (m : M spool A) : advances item (on_spool m).
Proof. apply advances_same. intros w. unfold on_spool, lift. by destruct (m _). Qed.

Lemma clock_advances item : advances item (ask_clock clock).
Proof. by apply advances_same. Qed.

(** A call of the store may have no effect, or its own. *)
Lemma on_store_cases {A} (m : Z -> M database A) w r w' :
  on_store m w = (r, w') ->
  ow_requests w' = ow_requests w /\ ow_attempts w' = ow_attempts w /\ ow_last_item w' = ow_last_item w /\
  ow_last_retention w' = ow_last_retention w /\
  (ls_faults (ow_store w) = [] -> ls_faults (ow_store w') = []) /\
  exists now, db w' = db w \/ db w' = snd (m now (db w)).
Proof.
  unfold on_store, lift, call. intros E.
  assert (Hf : forall l : list fault, l = [] -> tail l = []) by by intros ? ->.
  destruct (list.head _) as [[|e|e]|]; [destruct (m _ _) as [x d] eqn:Em|idtac|
    destruct (m _ _) as [[x|x] d] eqn:Em|destruct (m _ _) as [x d] eqn:Em]; injection E as _ <-; cbn;
    (repeat split; [auto|]); eexists; try (right; by rewrite Em); by left.
  Unshelve. exact 0%Z.
Qed.

Lemma on_store_advances {A} item (m : Z -> M database A) :
  (forall now d, touches item (fun _ => False) d (snd (m now d))) -> advances item (on_store m).
Proof.
  intros Hm. apply advances_snd. intros w. destruct (on_store m w) as [r w'] eqn:E.
  apply on_store_cases in E as (Hr & Ha & Hl & Ht & Hf & now & Hd). split; try done. exists [].
  rewrite app_nil_r. split; [done|]. cbn [snd]. destruct Hd as [->| ->]; [done|].
  eapply touches_mono; [|apply Hm]. done.
Qed.

Lemma send_advances item p evidence : advances item (_send sha256 str_other p evidence).
Proof.
  apply advances_snd. intros w. unfold _send. destruct (sender_call _ _ _) as [r rs].
  split; try done. eexists. split; [reflexivity|done].
Qed.

(** A send that returns was confirmed. *)
Lemma send_carried p evidence w w' :
  _send sha256 str_other p evidence w = (Ok tt, w') ->
  exists new, ow_requests w' = ow_requests w ++ new /\ db w' = db w /\ carried new p.
Proof.
  unfold _send. pose proof (sender_sound (Sender := Hsender) (ow_reads w) p evidence) as Hs.
  destruct (sender_call _ _ _) as [r rs]. cbn in Hs. intros [= -> <-].
  destruct (Hs eq_refl) as (rq & -> & Hc & Hp & _). exists [(ow_reads w, rq)]. repeat split.
  exists (ow_reads w), rq, evidence. split; [by left|done].
Qed.

(** A confirmed request made since [w0] carries the payload. *)
Definition carried_since (w0 w : outbox) (p : dict json) : Prop :=
  exists new, ow_requests w = ow_requests w0 ++ new /\ carried new p.

Lemma carried_since_advanced item w0 w w' p :
  carried_since w0 w p -> advanced item w w' -> carried_since w0 w' p.
Proof.
  intros (n1 & E1 & H) [(n2 & E2 & _) _ _ _ _]. exists (n1 ++ n2). split; [by rewrite E2, E1, app_assoc|].
  apply carried_app. by left.
Qed.

Lemma load_evidence_advances item j :
  advances item (load_evidence sha256 io pil_is_jpeg pil_verify j).
Proof.
  unfold load_evidence. destruct j as [| | | |s| | |]; [| | | |apply on_spool_advances| | |]; intros w0; apply keeps_raise.
Qed.

Lemma attempt_triple item w0 :
  triple (advanced item w0) (attempt item)
    (fun r w => advanced item w0 w /\ match r with Some p => carried_since w0 w p | None => True end)
    (advanced item w0).
Proof.
  unfold Outbox.attempt. apply keeps_then; [apply clock_advances|]. intros at_.
  apply keeps_then; [apply on_store_advances; intros _ d; apply prepare_touches|].
  intros [p|]; [|by apply triple_ret]. apply (triple_bind (A := unit) _ _ _ (fun _ w => advanced item w0 w /\ carried_since w0 w p));
    [|intros _; by apply triple_ret].
  assert (Hsend : forall e, triple (advanced item w0) (_send sha256 str_other p e)
    (fun _ w => advanced item w0 w /\ carried_since w0 w p) (advanced item w0)).
  { intros e w Hw. pose proof (send_advances item p e w0 w Hw) as Ha.
    destruct (_send _ _ _ _ w) as [[[]|x] w'] eqn:E; [|done]. split; [done|].
    apply send_carried in E as (new & En & _ & Hc). destruct Hw as [(n0 & E0 & _) _ _ _ _].
    exists (n0 ++ new). split; [by rewrite En, E0, app_assoc|]. apply carried_app. by right. }
  destruct (is_null _); [apply Hsend|]. apply keeps_then; [apply load_evidence_advances|].
  intros bytes. apply Hsend.
Qed.

(** A completion is stored for a payload that was carried. *)
Lemma complete_advances item w0 p w :
  advanced item w0 w -> carried_since w0 w p -> advanced item w0 (snd (complete item p w)).
Proof.
  intros Hw Hc. unfold Outbox.complete, try_except, bind at 1, ask_clock. set (w1 := {| ow_store := _ |}).
  assert (Hw1 : advanced item w0 w1) by by destruct Hw. assert (Hc1 : carried_since w0 w1 p) by done.
  clearbody w1. unfold bind, ret. destruct (on_store _ w1) as [r w2] eqn:E.
  assert (H2 : advanced item w0 w2); [|by destruct r as [|e]; cbn; [|destruct (is_Exception e)]].
  apply on_store_cases in E as (Hr & Ha & Hl & Hrt & Hf & now & Hd). destruct Hw1 as [(n & En & Ht) ha hl hrt hf].
  split; [|congruence..|auto]. exists n. split; [by rewrite Hr|].
  destruct Hc1 as (n' & En' & Hp). rewrite En in En'. apply app_inv_head in En' as <-.
  destruct Hd as [->| ->]; [done|]. etrans; [exact Ht|]. apply settle_touches. intros _. by exists p.
Qed.

Lemma release_advances item j : advances item (release_evidence j).
Proof.
  intros w0. unfold Outbox.release_evidence. destruct j as [| | | |s| | |]; [apply keeps_ret..| |apply keeps_ret|apply keeps_ret|apply keeps_ret].
  apply keeps_bind; [by apply on_store_advances|]. intros pending. case_bool_decide; [apply keeps_ret|].
  apply keeps_try; [apply on_spool_advances|]. intros ?. apply keeps_ret.
Qed.

Lemma deliver_advances item w : advanced item (attempted item w) (snd (deliver item w)).
Proof.
  set (w0 := attempted item w). unfold Outbox.deliver, bind at 1, modify. fold w0.
  apply (keeps_snd (advanced item w0)); [|apply advanced_refl].
  apply (triple_bind (A := option (dict json) + unit) _ _ _ (fun r w => advanced item w0 w /\
    match r with inl (Some p) => carried_since w0 w p | _ => True end)).
  - apply (triple_try _ _ _ _ _ (advanced item w0)); [| |done].
    + eapply triple_bind; [apply attempt_triple|]. intros [p|]; apply triple_ret; done.
    + intros e. apply keeps_then.
      * apply keeps_try; [apply on_store_advances; intros _ d; apply settle_touches; done|].
        intros ?. apply keeps_ret.
      * intros []. by apply triple_ret.
  - intros [[p|]|]; [|by apply triple_ret; intros ? []..]. intros w1 [Hw1 Hc].
    pose proof (complete_advances item w0 p w1 Hw1 Hc) as Hw2. unfold bind at 1.
    destruct (complete item p w1) as [[stored|e] w2]; cbn in Hw2; [|done].
    assert (Hk : keeps (advanced item w0) (if stored : bool
      then release_evidence (dict_get "image_sha256" p) ;! ret 1%nat else ret O)).
    { destruct stored; [|apply keeps_ret]. apply keeps_bind; [apply release_advances|]. intros []. apply keeps_ret. }
    by apply Hk.
Qed.

(** *** A run *)

(** The purge of the retention step. *)
Definition retain (now : datetime) : M outbox unit :=
  modify (set_last_retention now) ;!
  try_except (on_store (fun _ => purge_delivered_telemetry (days_before retention_days now)) ;! ret tt)
    (fun _ => ret tt).

Lemma run_retention_cases now w :
  _run_retention retention_days now w = retain now w \/ exists r, _run_retention retention_days now w = (r, w).
Proof.
  unfold _run_retention, retain, bind, gets, of_result, ret. destruct (ow_last_retention w) as [t|]; [|by left].
  destruct (dt_sub now t) as [d|e]; [|right; by eexists]. destruct (_ <? _)%Z; [right; by eexists|by left].
Qed.

(** Whatever happens, the retention step only purges. *)
Lemma run_retention_spec now w :
  let w' := snd (_run_retention retention_days now w) in
  retained (db w) (db w') /\ ow_requests w' = ow_requests w /\ ow_attempts w' = ow_attempts w /\
  ow_last_item w' = ow_last_item w /\ (ls_faults (ow_store w) = [] -> ls_faults (ow_store w') = []).
Proof.
  destruct (run_retention_cases now w) as [->|[r ->]]; [|by repeat split]. cbv zeta.
  unfold retain, bind at 1, modify, try_except, bind, ret. set (w1 := set_last_retention now w).
  destruct (on_store _ w1) as [r w2] eqn:E. apply on_store_cases in E as (Hr & Ha & Hl & Hrt & Hf & n & Hd).
  assert (H2 : retained (db w) (db w2)) by (destruct Hd as [->| ->]; [done|apply purge_retained]).
  change (ow_requests w1) with (ow_requests w) in Hr. change (ow_attempts w1) with (ow_attempts w) in Ha.
  change (ow_last_item w1) with (ow_last_item w) in Hl. change (ow_store w1) with (ow_store w) in Hf.
  destruct r as [a|e]; [done|]. by destruct (is_Exception e).
Qed.

(** Every completed row was completed before, or a confirmed request made since
    carried its payload. *)
Definition accounted (w0 w : outbox) : Prop :=
  forall o, o ∈ db_outbox (db w) -> ob_completed_at o <> None ->
    (exists o0, o0 ∈ db_outbox (db w0) /\ ob_id o0 = ob_id o /\ ob_completed_at o0 <> None) \/
    exists p, ob_payload o = Json (JDict p) /\ carried_since w0 w p.

Lemma accounted_deliver w0 item w :
  (exists new, ow_requests w = ow_requests w0 ++ new) -> accounted w0 w -> accounted w0 (snd (deliver item w)) /\
  (exists new, ow_requests (snd (deliver item w)) = ow_requests w0 ++ new).
Proof.
  intros [n0 E0] Hw. destruct (deliver_advances item w) as [(new & En & Ht) _ _ _ _].
  set (w' := snd (deliver item w)) in *. cbn in En, Ht.
  split; [|exists (n0 ++ new); by rewrite En, E0, app_assoc]. intros o' Ho' Hc.
  apply list_elem_of_lookup_1 in Ho' as [i Hi].
  apply (Forall2_lookup_r _ _ _ _ _ Ht) in Hi as (o & Ho & [_ _ _ Hsame Hallowed _]).
  apply list_elem_of_lookup_2 in Ho. destruct (Hallowed Hc) as [Hold|(p & Hp & Hcar)].
  - rewrite (Hsame Hold) in *. destruct (Hw o Ho Hold) as [|(p & Hp & n1 & E1 & H1)]; [by left|].
    right. exists p. split; [done|]. exists (n1 ++ new). split; [by rewrite En, E1, app_assoc|].
    apply carried_app. by left.
  - right. exists p. split; [done|]. exists (n0 ++ new). split; [by rewrite En, E0, app_assoc|].
    apply carried_app. by right.
Qed.

Lemma accounted_all w0 items w :
  (exists new, ow_requests w = ow_requests w0 ++ new) -> accounted w0 w -> accounted w0 (snd (deliver_all items w)).
Proof.
  revert w. induction items as [|i items IH]; intros w Hn Hw; [done|]. cbn [Outbox.deliver_all].
  destruct (accounted_deliver w0 i w Hn Hw) as [H1 H2]. unfold bind at 1.
  destruct (deliver i w) as [[n|e] w1]; cbn in *; [|done]. specialize (IH w1 H2 H1). unfold bind, ret.
  by destruct (deliver_all items w1) as [[m|e] w2].
Qed.

(** C21: an event is only marked delivered after the server confirmed it.
    Whatever the store, the network, the file system and PIL do during one run
    of the worker, and whether or not the run raises: a row that is completed
    afterwards was completed before, or the run made a request that the server
    confirmed and that carries exactly the payload stored in the row. *)
Theorem completed_means_confirmed w r w' o (Hrun : run_once w = (r, w'))
    (Ho : o ∈ db_outbox (db w')) (Hcompleted : ob_completed_at o <> None) :
  (exists o0, o0 ∈ db_outbox (db w) /\ ob_id o0 = ob_id o /\ ob_completed_at o0 <> None) \/
  (exists payload new n rq evidence,
    ob_payload o = Json (JDict payload) /\ ow_requests w' = ow_requests w ++ new /\
    (n, rq) ∈ new /\ confirmed n rq /\
    _prepare_outbox_payload sha256 payload (sender_controller (Sender := Hsender)) evidence = Ok (rq_payload rq)).
Proof.
  assert (Hall : accounted w w').
  { revert Hrun. unfold Outbox.run_once, bind at 1, ask_clock. set (w1 := {| ow_store := _ |}).
    pose proof (run_retention_spec (clock (ow_reads w)) w1) as Hret. cbv zeta in Hret. unfold bind at 1.
    destruct (_run_retention _ _ w1) as [rr w2]. cbn [snd] in Hret. destruct Hret as (Hd & Hq & _).
    assert (H2 : forall w3, db w3 = db w2 -> ow_requests w3 = ow_requests w2 -> accounted w w3).
    { intros w3 E3 _ x Hx Hc. left. rewrite E3 in Hx. apply list_elem_of_lookup_1 in Hx as [i Hi].
      apply (Forall2_lookup_r _ _ _ _ _ Hd) in Hi as (x0 & Hx0 & Hid & Hcc & _).
      apply list_elem_of_lookup_2 in Hx0. exists x0. split; [exact Hx0|]. split; [done|congruence]. }
    destruct rr as [[]|e]; [|intros [= _ <-]; by apply H2]. unfold bind at 1, gets, bind.
    destruct (on_store _ w2) as [[items|e] w3] eqn:E; apply on_store_cases in E as (Hr & _ & _ & _ & _ & n & Hs);
      (assert (E3 : db w3 = db w2) by by destruct Hs); [|intros [= _ <-]; by apply H2].
    intros E. assert (Hw : accounted w (snd (deliver_all items.*1 w3))).
    { apply accounted_all; [exists []; rewrite Hr, Hq; by rewrite app_nil_r|by apply H2]. }
    by rewrite E in Hw. }
  destruct (Hall o Ho Hcompleted) as [|(p & Hp & new & En & n & rq & e & H)]; [by left|].
  right. by exists p, new, n, rq, e.
Qed.
End Deliveries.
