(* ===== verification/OutboxProgress.v ===== *)
(** * No event is starved

    The worker resumes after the item it attempted last and wraps around, so
    items that keep failing do not keep the others from being attempted. *)

From Stdlib Require Import Strings.Byte Sorted.
From S2P Require Import Prelude Json Text Base64 AtomicFile Store StoreOutbox StoreOutboxFacts ActuationStore Outbox OutboxFacts.

Open Scope Z_scope.

(** ** Rotations of an increasing list *)

(** The elements after [last] first. *)
Definition rotate (last : option Z) (l : list Z) : list Z :=
  match last with
  | None => l
  | Some a => filter (fun i => a < i) l ++ filter (fun i => ~ a < i) l
  end.

(** [l'] is [l] without some elements of [gone]. *)
Inductive thinned (gone : list Z) : list Z -> list Z -> Prop :=
| thinned_nil : thinned gone [] []
| thinned_keep x l l' : thinned gone l l' -> thinned gone (x :: l) (x :: l')
| thinned_drop x l l' : x ∈ gone -> thinned gone l l' -> thinned gone (x :: l) l'.

Lemma thinned_refl gone l : thinned gone l l.
Proof. induction l; by constructor. Qed.

Lemma thinned_trans g1 g2 l1 l2 l3 : thinned g1 l1 l2 -> thinned g2 l2 l3 -> thinned (g1 ++ g2) l1 l3.
Proof.
  intros H. revert l3. induction H as [|x l l' H IH|x l l' Hx H IH]; intros l3 H3.
  - inversion H3. constructor.
  - inversion H3 as [|? ? l3' H3'|? ? ? Hx H3']; subst; [constructor; auto|].
    apply thinned_drop; [apply elem_of_app; by right|auto].
  - apply thinned_drop; [apply elem_of_app; by left|auto].
Qed.

Lemma thinned_app gone l1 l1' l2 l2' : thinned gone l1 l1' -> thinned gone l2 l2' -> thinned gone (l1 ++ l2) (l1' ++ l2').
Proof. induction 1 as [|x l l' _ IH|x l l' Hx _ IH]; intros H2; cbn; [done|constructor; auto|apply thinned_drop; auto]. Qed.

Lemma filter_all (P : Z -> Prop) `{!forall x, Decision (P x)} l : Forall P l -> filter P l = l.
Proof. induction 1 as [|x l Hx _ IH]; [done|]. by rewrite filter_cons_True, IH. Qed.

Lemma filter_rejects (P : Z -> Prop) `{!forall x, Decision (P x)} l : Forall (fun x => ~ P x) l -> filter P l = [].
Proof. induction 1 as [|x l Hx _ IH]; [done|]. by rewrite filter_cons_False, IH. Qed.

Lemma thinned_filter gone (P : Z -> Prop) `{!forall x, Decision (P x)} l l' :
  thinned gone l l' -> thinned gone (filter P l) (filter P l').
Proof.
  induction 1 as [|x l l' _ IH|x l l' Hx _ IH]; [constructor| |].
  - rewrite !filter_cons. destruct (decide (P x)); [by constructor|done].
  - rewrite filter_cons. destruct (decide (P x)); [by apply thinned_drop|done].
Qed.

Lemma thinned_rotate gone last l l' : thinned gone l l' -> thinned gone (rotate last l) (rotate last l').
Proof. destruct last; [|done]. intros H. apply thinned_app; by apply thinned_filter. Qed.

(** What is not gone stays where it was. *)
Lemma thinned_front gone keep rest l :
  (forall x, x ∈ keep -> x ∉ gone) -> thinned gone (keep ++ rest) l -> exists rest', l = keep ++ rest'.
Proof.
  revert l. induction keep as [|x keep IH]; intros l Hk H; [by exists l|]. cbn in H.
  inversion H as [|? ? l' H'|? ? ? Hx H']; subst.
  - destruct (IH l') as [rest' ->]; [|done|by exists rest']. intros y Hy. apply Hk. by right.
  - exfalso. apply (Hk x); [by left|done].
Qed.

Lemma thinned_sublist gone l l' : thinned gone l l' -> l' `sublist_of` l.
Proof. induction 1; by constructor. Qed.

Lemma sorted_sublist (l l' : list Z) : l' `sublist_of` l -> StronglySorted Z.lt l -> StronglySorted Z.lt l'.
Proof.
  induction 1 as [|x l' l Hsub IH|x l' l Hsub IH]; intros Hs; [done|inversion Hs as [|? ? Hl Hx]; subst..].
  - constructor; [by apply IH|]. rewrite list.Forall_forall in Hx |- *. intros y Hy.
    apply Hx. by eapply elem_of_submseteq; [exact Hy|apply sublist_submseteq].
  - by apply IH.
Qed.

(** An increasing list cut at one of its elements. *)
Lemma cut_at (a b : list Z) x :
  StronglySorted Z.lt (a ++ x :: b) ->
  filter (fun i => x < i) (a ++ x :: b) = b /\ filter (fun i => ~ x < i) (a ++ x :: b) = a ++ [x].
Proof.
  intros Hs. assert (Ha : Forall (fun i => i < x) a /\ Forall (fun i => x < i) b).
  { induction a as [|y a IH]; cbn in Hs; inversion Hs as [|? ? Hs' Hy]; subst; [by split|].
    destruct (IH Hs') as [H1 H2]. split; [|done]. constructor; [|done].
    apply list.Forall_app in Hy as [_ Hy]. by apply list.Forall_cons in Hy as [? _]. }
  destruct Ha as [Ha Hb]. rewrite !list.filter_app, !filter_cons, decide_False, decide_True by lia.
  rewrite (filter_rejects (fun i => x < i) a), (filter_all (fun i => x < i) b), (filter_all (fun i => ~ x < i) a),
    (filter_rejects (fun i => ~ x < i) b); [done|..];
    (eapply Forall_impl; [|eassumption]); cbn; lia.
Qed.

(** A rotation puts the end of the list in front. *)
Lemma rotate_cut last l :
  StronglySorted Z.lt l -> exists hi lo, rotate last l = hi ++ lo /\ l = lo ++ hi.
Proof.
  destruct last as [c|]; [|exists l, []; cbn; by rewrite app_nil_r]. intros Hs. cbn.
  exists (filter (fun i => c < i) l), (filter (fun i => ~ c < i) l). split; [done|].
  induction Hs as [|y l Hs IH Hy]; [done|]. rewrite !filter_cons. destruct (decide (c < y)).
  - rewrite decide_False by tauto. rewrite (filter_all (fun i => c < i) l), (filter_rejects (fun i => ~ c < i) l); [done|..];
      (eapply Forall_impl; [|exact Hy]); cbn; lia.
  - rewrite decide_True by done. cbn. by f_equal.
Qed.

(** Rotating after the last element of a prefix of a rotation brings the rest to
    the front. *)
Lemma rotate_next last l a x rest :
  StronglySorted Z.lt l -> rotate last l = (a ++ [x]) ++ rest -> rotate (Some x) l = rest ++ a ++ [x].
Proof.
  intros Hs E. destruct (rotate_cut last l Hs) as (hi & lo & Er & ->). rewrite Er in E. clear Er.
  apply app_eq_app in E as [k [[-> ->]|[Hk ->]]].
  - rewrite <- !app_assoc in *. rewrite (app_assoc lo a) in *. cbn [app] in *.
    destruct (cut_at _ _ _ Hs) as [H1 H2]. cbn [rotate]. rewrite H1, H2. by rewrite <- !app_assoc.
  - destruct k as [|y k _] using rev_ind; [rewrite app_nil_r in Hk; subst hi; cbn in *|].
    + rewrite app_assoc in Hs |- *. destruct (cut_at _ _ _ Hs) as [H1 H2]. cbn [rotate]. by rewrite H1, H2.
    + rewrite app_assoc in Hk. apply app_inj_tail in Hk as [-> ->]. rewrite <- !app_assoc in *. cbn [app] in *.
      destruct (cut_at _ _ _ Hs) as [H1 H2]. cbn [rotate]. rewrite H1, H2. by rewrite <- !app_assoc.
Qed.

(** ** The items a run sees *)

Definition sendable_ids (d : database) : list Z := ob_id <$> filter (fun o => sendable o = true) (db_outbox d).

Lemma fmap_filter_ids (P : Z -> Prop) `{!forall x, Decision (P x)} (Q : outbox_row -> Prop)
    `{!forall o, Decision (Q o)} (l : list outbox_row) :
  (forall o, Q o <-> P (ob_id o)) -> ob_id <$> filter Q l = filter P (ob_id <$> l).
Proof.
  intros HQ. induction l as [|o l IH]; [done|]. rewrite fmap_cons, !filter_cons. specialize (HQ o).
  destruct (decide (P (ob_id o))), (decide (Q o)); try tauto; rewrite ?fmap_cons; by rewrite IH.
Qed.

Lemma pending_ids n last d : ob_id <$> pending_outbox_rows n last d = take n (rotate last (sendable_ids d)).
Proof.
  unfold pending_outbox_rows, sendable_ids. rewrite list.fmap_take. f_equal. destruct last as [a|]; [|done].
  unfold rotate. rewrite fmap_app. set (rows := filter _ (db_outbox d)).
  rewrite (fmap_filter_ids (fun i => a < i) _ rows) by (intros ?; reflexivity).
  by rewrite (fmap_filter_ids (fun i => ~ a < i) _ rows) by (intros ?; reflexivity).
Qed.

Lemma load_rows_objects rows :
  Forall is_object rows -> exists items, load_rows rows = Ok items /\ items.*1 = ob_id <$> rows.
Proof.
  induction 1 as [|o rows [p Hp] _ (items & Hl & Hi)]; [by exists []|].
  exists ((ob_id o, JDict p) :: items). cbn. rewrite Hp. cbn. rewrite Hl. cbn. by rewrite Hi.
Qed.

Lemma touched_sendable item P o o' : touched item P o o' ->
  (ob_id o <> item -> sendable o' = sendable o) /\ (sendable o' = true -> sendable o = true).
Proof.
  intros [_ Hs Hother Hc _ _]. split; [by intros ?%Hother; subst|]. unfold sendable. rewrite Hs.
  destruct (ob_completed_at o) as [t|] eqn:E; [rewrite Hc by done; by rewrite E|].
  intros H. apply andb_true_iff in H as [_ H]. by rewrite H.
Qed.

Lemma touches_thinned item P d d' : touches item P d d' -> thinned [item] (sendable_ids d) (sendable_ids d').
Proof.
  unfold touches, sendable_ids. induction 1 as [|o o' l l' Ho _ IH]; [constructor|].
  pose proof (touched_sendable _ _ _ _ Ho) as [H1 H2]. pose proof (tc_id _ _ _ _ Ho) as Hid.
  rewrite !filter_cons. destruct (decide (sendable o = true)) as [Hs|Hs], (decide (sendable o' = true)) as [Hs'|Hs'];
    cbn; rewrite ?Hid; try done; [by constructor| |tauto].
  apply thinned_drop; [|done]. destruct (decide (ob_id o = item)) as [->|Hne]; [by left|].
  rewrite H1 in Hs' by done. done.
Qed.

Lemma touches_objects item P d d' : touches item P d d' -> Forall is_object (db_outbox d) -> Forall is_object (db_outbox d').
Proof.
  unfold touches. induction 1 as [|o o' l l' Ho _ IH]; [done|]. rewrite !list.Forall_cons.
  intros [H1 H2]. split; [by apply (tc_object _ _ _ _ Ho)|auto].
Qed.

Lemma retained_ids d d' : retained d d' -> sendable_ids d' = sendable_ids d.
Proof.
  unfold retained, sendable_ids. induction 1 as [|o o' l l' (Hi & Hc & Hs & _) _ IH]; [done|].
  rewrite !filter_cons. assert (sendable o' = sendable o) as -> by (unfold sendable; by rewrite Hc, Hs).
  case_decide; cbn; by rewrite ?IH, ?Hi.
Qed.

Lemma retained_objects d d' : retained d d' -> Forall is_object (db_outbox d) -> Forall is_object (db_outbox d').
Proof.
  unfold retained. induction 1 as [|o o' l l' (_ & _ & _ & Ho) _ IH]; [done|]. rewrite !list.Forall_cons.
  intros [H1 H2]. auto.
Qed.

(** ** Actions that return *)

(** The exceptions [except Exception] catches. *)
Definition ordinary {A} (r : result A) : Prop := r <> Err BaseExc.
Definition no_faults (w : outbox) : Prop := ls_faults (ow_store w) = [].

(** While the store works, an action raises only what [except Exception]
    catches; an action that always returns. *)
Definition tame {A} (m : M outbox A) : Prop :=
  forall w, no_faults w -> no_faults (snd (m w)) /\ ordinary (fst (m w)).
Definition total {A} (m : M outbox A) : Prop :=
  forall w, no_faults w -> exists a w', m w = (Ok a, w') /\ no_faults w'.

Lemma total_tame {A} (m : M outbox A) : total m -> tame m.
Proof. intros H w Hw. destruct (H w Hw) as (a & w' & -> & Hw'). by split. Qed.

Lemma total_ret {A} (a : A) : total (ret a).
Proof. intros w Hw. by exists a, w. Qed.

Lemma total_gets {A} (f : outbox -> A) : total (gets f).
Proof. intros w Hw. by exists (f w), w. Qed.

Lemma total_bind {A B} (m : M outbox A) (k : A -> M outbox B) : total m -> (forall a, total (k a)) -> total (bind m k).
Proof. intros Hm Hk w Hw. destruct (Hm w Hw) as (a & w1 & E & H1). unfold bind. rewrite E. by apply Hk. Qed.

Lemma tame_bind {A B} (m : M outbox A) (k : A -> M outbox B) : tame m -> (forall a, tame (k a)) -> tame (bind m k).
Proof.
  intros Hm Hk w Hw. destruct (Hm w Hw) as [H1 H2]. unfold bind.
  destruct (m w) as [[a|e] w1]; [by apply Hk|]. split; [done|]. cbn in *. intros [= ->]. by apply H2.
Qed.

Lemma tame_raise {A} e : e <> BaseExc -> tame (raise (A := A) e).
Proof. intros He w Hw. split; [done|]. cbn. by intros [= ?]. Qed.

Lemma total_try {A} (m : M outbox A) h : tame m -> (forall e, total (h e)) -> total (try_except m h).
Proof.
  intros Hm Hh w Hw. destruct (Hm w Hw) as [H1 H2]. unfold try_except.
  destruct (m w) as [[a|e] w1]; cbn in *; [by exists a, w1|].
  assert (is_Exception e = true) as -> by by destruct e. by apply Hh.
Qed.

(** A call of a working store. *)
Lemma store_works {A} (m : Z -> M database A) w :
  no_faults w -> exists now, on_store m w =
    (fst (m now (db w)), set_store {| ls_db := snd (m now (db w)); ls_now := tail (ls_now (ow_store w)); ls_faults := [] |} w).
Proof.
  intros Hf. unfold on_store, lift, call. rewrite Hf. cbn. eexists. by destruct (m _ (db w)) as [r d] eqn:E; rewrite E.
Qed.

Lemma store_tame {A} (m : Z -> M database A) : (forall now d, ordinary (fst (m now d))) -> tame (on_store m).
Proof. intros H w Hw. destruct (store_works m w Hw) as [now ->]. by split; [|apply H]. Qed.

Lemma store_total {A} (m : Z -> M database A) :
  (forall now d, exists a d', m now d = (Ok a, d')) -> total (on_store m).
Proof.
  intros H w Hw. destruct (store_works m w Hw) as [now E]. destruct (H now (db w)) as (a & d & Em).
  rewrite E, Em. by eexists _, _.
Qed.

Lemma spool_tame {A} (m : M spool A) : (forall s, ordinary (fst (m s))) -> tame (on_spool m).
Proof. intros H w Hw. unfold on_spool, lift. specialize (H (ow_spool w)). by destruct (m _). Qed.

Lemma rbind_ordinary {A B} (r : result A) (k : A -> result B) :
  ordinary r -> (forall a, ordinary (k a)) -> ordinary (rbind r k).
Proof. intros Hr Hk. destruct r as [a|e]; [apply Hk|]. cbn. intros [= ->]. by apply Hr. Qed.

Lemma v2_ordinary t : ordinary (v2_of_text t).
Proof. destruct t as [[]|]; by intros [=]. Qed.

Lemma prepare_ordinary item at_ d : ordinary (fst (prepare_outbox_attempt item at_ d)).
Proof.
  unfold prepare_outbox_attempt. destruct (outbox_of_id item d) as [o|]; [|by intros [=]].
  destruct (sendable o); [|by intros [=]]. pose proof (v2_ordinary (ob_payload o)) as Hv.
  destruct (v2_of_text (ob_payload o)) as [f|e]; [|intros [= ->]; by apply Hv].
  repeat case_match; by intros [=].
Qed.

Lemma settle_ordinary item state at_ prepared d : ordinary (fst (_set_outbox_delivery_state item state at_ prepared d)).
Proof.
  unfold _set_outbox_delivery_state. destruct (outbox_of_id item d) as [o|]; [|by intros [=]].
  destruct (ob_completed_at o); [by intros [=]|].
  assert (Ho : ordinary (rbind match prepared with Some p => Ok (JDict p) | None => loads (ob_payload o) end
    (fun j => rbind (_v2_outbox_payload j) (fun f => Ok (j, f))))).
  { apply rbind_ordinary; [destruct prepared; [by intros [=]|destruct (ob_payload o); by intros [=]]|].
    intros j. destruct j; by intros [=]. }
  destruct (rbind _ _) as [[j f]|e]; [|intros [= ->]; by apply Ho]. cbv zeta. repeat case_match; by intros [=].
Qed.

Lemma path_ordinary digest : ordinary (_path digest).
Proof. unfold _path, EvidenceSpoolError. case_match; by intros [=]. Qed.

Section Progress.
Context (sha256 : bytes -> string) (str_other : json -> string).
Context (io : nat -> result unit) (partial : nat -> nat) (temporary_name : nat -> string).
Context (normalise : nat -> string -> result (option bytes)).
Context (pil_is_jpeg : bytes -> result bool) (pil_verify : bytes -> result unit).
Context (clock : nat -> datetime).
Context {confirmed : nat -> request -> Prop} `{Hsender : !Sender sha256 str_other confirmed}.
Context (controller_id : string) (retention_days : Z).
(** Nothing raises outside [Exception]; the clock tells aware times. *)
Context (Hio : forall n, ordinary (io n)).
Context (Hjpeg : forall b, ordinary (pil_is_jpeg b)) (Hverify : forall b, ordinary (pil_verify b)).
Context (Hsends : forall n p e, ordinary (fst (sender_call (Sender := Hsender) n p e))).
Context (Haware : forall n, exists us, clock n = Aware us).

Abbreviation attempt := (attempt sha256 str_other io pil_is_jpeg pil_verify clock).
Abbreviation complete := (complete clock).
Abbreviation release_evidence := (release_evidence io).
Abbreviation deliver := (deliver sha256 str_other io pil_is_jpeg pil_verify clock).
Abbreviation deliver_all := (deliver_all sha256 str_other io pil_is_jpeg pil_verify clock).
Abbreviation run_once := (run_once sha256 str_other io pil_is_jpeg pil_verify clock retention_days).

Lemma clock_total : total (ask_clock clock).
Proof. intros w Hw. by eexists _, _. Qed.

Lemma load_tame digest : tame (on_spool (load sha256 io pil_is_jpeg pil_verify digest)).
Proof.
  apply spool_tame. intros s. unfold load, bind, of_result, read, gets.
  destruct (_path digest) as [path|e] eqn:Ep; cbn.
  2:{ pose proof (path_ordinary digest) as Hp. rewrite Ep in Hp. intros [= ->]. by apply Hp. }
  pose proof (Hio (sl_reads s)) as Hi. destruct (io (sl_reads s)) as [[]|e] eqn:Ei.
  - destruct (dget path (sl_files s)) as [content|]; cbn; [|by intros [=]].
    set (encoded := take _ content). destruct (_ <? _); [by intros [=]|].
    destruct (negb _); [by intros [=]|]. unfold decodable.
    pose proof (Hjpeg encoded) as Hj. pose proof (Hverify encoded) as Hv.
    destruct (pil_is_jpeg encoded) as [[]|e]; cbn; [destruct (pil_verify encoded) as [[]|e]; cbn| |].
    + by intros [=].
    + destruct (is_Exception e) eqn:Ee; intros [= ->]; by apply Hv.
    + by intros [=].
    + destruct (is_Exception e) eqn:Ee; intros [= ->]; by apply Hj.
  - destruct e; by intros [=].
Qed.

Lemma send_tame p e : tame (_send sha256 str_other p e).
Proof.
  intros w Hw. unfold _send. pose proof (Hsends (ow_reads w) p e) as H. by destruct (sender_call _ _ _) as [r rs].
Qed.

Lemma attempt_tame item : tame (attempt item).
Proof.
  unfold Outbox.attempt. apply tame_bind; [apply total_tame, clock_total|]. intros at_.
  apply tame_bind; [apply store_tame; intros _ d; apply prepare_ordinary|].
  intros [p|]; [|apply total_tame, total_ret]. apply tame_bind; [|intros ?; apply total_tame, total_ret].
  destruct (is_null _); [apply send_tame|]. apply tame_bind; [|intros b; apply send_tame].
  unfold load_evidence. destruct (dict_get _ _) as [| | | |s| | |]; try (by apply tame_raise). apply load_tame.
Qed.

Lemma system_call_ordinary (s : spool) : ordinary (fst (system_call io s)).
Proof. unfold system_call, bind, read, of_result. apply Hio. Qed.

Lemma delete_tame digest : tame (on_spool (delete io digest)).
Proof.
  apply spool_tame. intros s. unfold delete. destruct (_path digest) as [path|e] eqn:Ep.
  2:{ pose proof (path_ordinary digest) as Hp. rewrite Ep in Hp. intros [= ->]. by apply Hp. }
  unfold remove_evidence, unlink, bind. pose proof (system_call_ordinary s) as H.
  destruct (system_call io s) as [[[]|e] s']; cbn; [by intros [=]|]. by destruct e.
Qed.

Lemma deliver_total item : total (deliver item).
Proof.
  unfold Outbox.deliver. apply total_bind; [intros w Hw; by eexists _, _|]. intros [].
  apply (total_bind (A := option (dict json) + unit)).
  { apply total_try; [apply tame_bind; [apply attempt_tame|intros ?; apply total_tame, total_ret]|].
    intros e. apply total_bind; [|intros ?; apply total_ret].
    apply total_try; [apply store_tame; intros _ d; apply settle_ordinary|intros ?; apply total_ret]. }
  intros [[p|]|]; [|apply total_ret..]. apply (total_bind (A := bool)).
  { apply total_try; [|intros ?; apply total_ret]. apply tame_bind; [apply total_tame, clock_total|]. intros at_.
    apply tame_bind; [apply store_tame; intros _ d; apply settle_ordinary|]. intros ?. apply total_tame, total_ret. }
  intros [|]; [|apply total_ret]. apply (total_bind (A := unit)); [|intros ?; apply total_ret].
  unfold Outbox.release_evidence. destruct (dict_get _ _) as [| | | |s| | |]; try apply total_ret.
  apply total_bind; [apply store_total; intros _ d; by eexists _, _|]. intros pending.
  case_bool_decide; [apply total_ret|]. apply total_try; [apply delete_tame|intros ?; apply total_ret].
Qed.

(** ** Rounds *)

Definition aware (t : option datetime) : Prop := match t with Some (Naive _) => False | _ => True end.

(** The store works, the stored payloads are objects, the rows are in the order
    of their ids, the retention time is aware. *)
Record working (w : outbox) : Prop := {
  wg_faults : no_faults w;
  wg_objects : Forall is_object (db_outbox (db w));
  wg_sorted : StronglySorted Z.lt (sendable_ids (db w));
  wg_aware : aware (ow_last_retention w);
}.

(** What a sequence of deliveries leaves. *)
Record delivered (items : list Z) (w w' : outbox) : Prop := {
  dl_faults : no_faults w';
  dl_objects : Forall is_object (db_outbox (db w'));
  dl_attempts : ow_attempts w' = ow_attempts w ++ items;
  dl_last : ow_last_item w' = match list.last items with Some x => Some x | None => ow_last_item w end;
  dl_retention : ow_last_retention w' = ow_last_retention w;
  dl_thinned : thinned items (sendable_ids (db w)) (sendable_ids (db w'));
}.

Lemma deliver_delivered item w :
  no_faults w -> Forall is_object (db_outbox (db w)) -> exists n w', deliver item w = (Ok n, w') /\ delivered [item] w w'.
Proof.
  intros Hf Ho. destruct (deliver_total item w Hf) as (n & w' & E & Hf'). exists n, w'. split; [done|].
  pose proof (deliver_advances sha256 str_other io pil_is_jpeg pil_verify clock item w) as Ha. rewrite E in Ha.
  destruct Ha as [(new & _ & Ht) Hat Hl Hr _]. cbn [snd] in *.
  split; [done|by eapply touches_objects|exact Hat|exact Hl|exact Hr|by eapply touches_thinned].
Qed.

Lemma all_delivered items w :
  no_faults w -> Forall is_object (db_outbox (db w)) ->
  exists n w', deliver_all items w = (Ok n, w') /\ delivered items w w'.
Proof.
  revert w. induction items as [|i items IH]; intros w Hf Ho.
  { exists O, w. split; [done|]. split; try done; [by rewrite app_nil_r|apply thinned_refl]. }
  destruct (deliver_delivered i w Hf Ho) as (n & w1 & E1 & [f1 o1 a1 l1 r1 t1]).
  destruct (IH w1 f1 o1) as (m & w2 & E2 & [f2 o2 a2 l2 r2 t2]).
  exists (n + m)%nat, w2. cbn [Outbox.deliver_all]. unfold bind, ret. rewrite E1, E2. split; [done|].
  split; [done|done| | |congruence|exact (thinned_trans [i] items _ _ _ t1 t2)].
  - by rewrite a2, a1, <- app_assoc.
  - rewrite l2, l1. destruct items as [|j items]; [done|].
    change (list.last (i :: j :: items)) with (list.last (j :: items)).
    destruct (list.last (j :: items)) eqn:E; [done|]. by apply last_None in E.
Qed.

Lemma retention_working us w :
  working w -> exists w', _run_retention retention_days (Aware us) w = (Ok tt, w') /\ working w' /\
    sendable_ids (db w') = sendable_ids (db w) /\ ow_attempts w' = ow_attempts w /\ ow_last_item w' = ow_last_item w.
Proof.
  intros [Hf Ho Hs Ha]. pose proof (run_retention_spec retention_days (Aware us) w) as Hspec. cbv zeta in Hspec.
  assert (Hret : exists w', _run_retention retention_days (Aware us) w = (Ok tt, w') /\ aware (ow_last_retention w')).
  { assert (Hgo : exists w', retain retention_days (Aware us) w = (Ok tt, w') /\ aware (ow_last_retention w')).
    { unfold retain, bind at 1, modify, try_except, bind, ret. set (w1 := set_last_retention _ w).
      assert (Hf1 : no_faults w1) by done.
      destruct (store_works (fun _ => purge_delivered_telemetry (days_before retention_days (Aware us))) w1 Hf1) as [now ->].
      unfold purge_delivered_telemetry at 1. destruct (fold_left _ _ _) as [k d]. by eexists. }
    unfold _run_retention, bind, gets, of_result, ret.
    destruct (ow_last_retention w) as [[t|t]|] eqn:El; [|done|exact Hgo]. cbn [dt_sub].
    destruct (_ <? _); [exists w; by rewrite El|exact Hgo]. }
  destruct Hret as (w' & E & Haw). rewrite E in Hspec. destruct Hspec as (Hd & _ & Hat & Hl & Hf').
  exists w'. split; [done|]. cbn [snd] in *. split; [|split; [by apply retained_ids|done]].
  split; [by apply Hf'|by eapply retained_objects|by rewrite (retained_ids _ _ Hd)|done].
Qed.

(** One run attempts the next [BATCH] items of the rotation. *)
Lemma run_once_round w :
  working w -> exists n w', run_once w = (Ok n, w') /\ working w' /\
    let batch := take BATCH (rotate (ow_last_item w) (sendable_ids (db w))) in
    ow_attempts w' = ow_attempts w ++ batch /\
    ow_last_item w' = match list.last batch with Some x => Some x | None => ow_last_item w end /\
    thinned batch (sendable_ids (db w)) (sendable_ids (db w')).
Proof.
  intros Hw. unfold Outbox.run_once, bind at 1, ask_clock. set (w0 := {| ow_store := _ |}).
  assert (Hw0 : working w0) by by destruct Hw. destruct (Haware (ow_reads w)) as [us ->].
  destruct (retention_working us w0 Hw0) as (w1 & E1 & [f1 o1 s1 r1] & Hs1 & Ha1 & Hl1).
  change (db w0) with (db w) in Hs1. change (ow_attempts w0) with (ow_attempts w) in Ha1.
  change (ow_last_item w0) with (ow_last_item w) in Hl1.
  unfold bind at 1. rewrite E1. unfold bind at 1, gets. unfold bind.
  destruct (store_works (fun _ d => (pending_outbox_items BATCH (ow_last_item w1) d, d)) w1 f1) as [now ->]. cbn [fst snd].
  unfold pending_outbox_items.
  destruct (load_rows_objects (pending_outbox_rows BATCH (ow_last_item w1) (db w1))) as (items & -> & Hitems).
  { rewrite list.Forall_forall in o1 |- *. intros o Ho. apply o1. unfold pending_outbox_rows in Ho.
    apply elem_of_take in Ho as (i & Hi & _). apply list_elem_of_lookup_2 in Hi.
    destruct (ow_last_item w1); [apply elem_of_app in Hi as [Hi|Hi]; apply list_elem_of_filter in Hi as [_ Hi]|];
      by apply list_elem_of_filter in Hi as [_ Hi]. }
  rewrite pending_ids in Hitems. rewrite Hitems, Hl1, Hs1.
  set (batch := take BATCH _). set (w2 := set_store _ w1).
  destruct (all_delivered batch w2) as (n & w' & E & [f2 o2 a2 l2 r2 t2]); [done|done|].
  exists n, w'. split; [done|]. change (db w2) with (db w1) in t2. rewrite Hs1 in t2.
  split; [|split; [by rewrite a2, <- Ha1|split; [by rewrite l2, <- Hl1|done]]].
  split; [done|done| |by rewrite r2]. eapply sorted_sublist; [by eapply thinned_sublist|by rewrite <- Hs1].
Qed.

(** Rounds one after the other, stopping at the first that raises. *)
Fixpoint rounds (k : nat) : M outbox unit :=
  match k with O => ret tt | S k' => run_once ;! rounds k' end.

Lemma sorted_nodup (l : list Z) : StronglySorted Z.lt l -> NoDup l.
Proof.
  induction 1 as [|x l _ IH Hx]; constructor; [|done]. rewrite list.Forall_forall in Hx.
  intros Hin. specialize (Hx _ Hin). lia.
Qed.

Lemma rotate_perm last l : rotate last l ≡ₚ l.
Proof. destruct last; [|done]. apply filter_app_complement. Qed.

Lemma rounds_attempt k todo extra w :
  working w -> rotate (ow_last_item w) (sendable_ids (db w)) = todo ++ extra -> (length todo <= BATCH * k)%nat ->
  exists w', rounds k w = (Ok tt, w') /\ working w' /\
    exists new, ow_attempts w' = ow_attempts w ++ new /\ todo ⊆ new.
Proof.
  revert todo extra w. induction k as [|k IH]; intros todo extra w Hw Hrot Hlen.
  { exists w. split; [done|]. split; [done|]. exists []. rewrite app_nil_r. split; [done|].
    assert (todo = []) as -> by (apply nil_length_inv; lia). done. }
  destruct (run_once_round w Hw) as (n & w1 & E1 & Hw1 & Ha1 & Hl1 & Ht1). cbv zeta in *.
  rewrite Hrot in Ha1, Hl1, Ht1. set (batch := take BATCH (todo ++ extra)) in *.
  assert (Hnext : exists extra', rotate (ow_last_item w1) (sendable_ids (db w1)) =
    drop BATCH todo ++ extra').
  { destruct todo as [|t0 todo']; [by eexists|]. set (todo := t0 :: todo') in *.
    pose proof (wg_sorted _ Hw) as Hsorted. set (rest := drop BATCH (todo ++ extra)).
    assert (Hcut : rotate (ow_last_item w) (sendable_ids (db w)) = batch ++ rest)
      by (by rewrite Hrot; symmetry; apply take_drop).
    destruct batch as [|x b _] eqn:Eb using rev_ind; [by unfold todo in Eb|].
    rewrite list.last_app in Hl1. cbn in Hl1. rewrite Hl1.
    pose proof (rotate_next _ _ _ _ _ Hsorted Hcut) as Hr. apply (thinned_rotate _ (Some x)) in Ht1. rewrite Hr in Ht1.
    apply thinned_front in Ht1 as [rest' ->].
    - exists (drop (BATCH - length todo) extra ++ rest'). unfold rest. by rewrite drop_app, <- app_assoc.
    - intros y Hy Hb. assert (Hnd : NoDup ((b ++ [x]) ++ rest)).
      { rewrite <- Hcut, rotate_perm. by apply sorted_nodup. }
      apply list.NoDup_app in Hnd as (_ & Hdisj & _). by apply (Hdisj y). }
  destruct Hnext as [extra' Hnext]. destruct (IH (drop BATCH todo) extra' w1 Hw1 Hnext) as (w' & E & Hw' & new & Ha & Hsub).
  { rewrite length_drop. lia. }
  exists w'. cbn [rounds]. unfold bind. rewrite E1. split; [done|]. split; [done|].
  exists (batch ++ new). split; [by rewrite Ha, Ha1, app_assoc|]. intros i Hi. apply elem_of_app.
  rewrite <- (take_drop BATCH todo) in Hi. apply elem_of_app in Hi as [Hi|Hi]; [left|by right; apply Hsub].
  unfold batch. rewrite take_app. apply elem_of_app. by left.
Qed.

(** C22: no event is starved.  While the store works and nothing raises outside
    [Exception], whatever the network, the file system and PIL answer, runs of
    the worker return; and within ⌈n / 20⌉ runs each of the [n] items that were
    ready to be sent is attempted, however often others fail. *)
Theorem no_item_starves k w (Hw : working w) (Hk : (length (sendable_ids (db w)) <= BATCH * k)%nat) :
  exists w' new, rounds k w = (Ok tt, w') /\ working w' /\ ow_attempts w' = ow_attempts w ++ new /\
    forall o, o ∈ db_outbox (db w) -> sendable o = true -> ob_id o ∈ new.
Proof.
  pose proof (rotate_perm (ow_last_item w) (sendable_ids (db w))) as Hp.
  destruct (rounds_attempt k (rotate (ow_last_item w) (sendable_ids (db w))) [] w Hw) as (w' & E & Hw' & new & Ha & Hsub).
  { by rewrite app_nil_r. }
  { by rewrite Hp. }
  exists w', new. repeat (split; [done|]). intros o Ho Hs. apply Hsub. rewrite Hp. apply list_elem_of_fmap_2.
  by apply list_elem_of_filter.
Qed.
End Progress.

(** The senders raise what the endpoint raises, or exceptions of their own. *)
Lemma build_request_ordinary sha256 str_other target bearer controller p e :
  ordinary (build_request sha256 str_other target bearer controller p e).
Proof.
  unfold build_request, _outbox_idempotency_key, idempotency_text, dict_item.
  destruct (_prepare_outbox_payload _ _ _ _) as [t|x] eqn:E; cbn.
  - by destruct (dget "controller_id" t); cbn; [destruct (dget "event_id" t)|].
  - revert E. unfold _prepare_outbox_payload. intros E [= ->]. revert E. cbv zeta. by repeat case_match.
Qed.

Lemma http_send_ordinary sha256 str_other reply url controller bearer n p e :
  (forall rq, ordinary (reply n rq)) -> ordinary (fst (http_send sha256 str_other reply url controller bearer n p e)).
Proof.
  intros Hr. unfold http_send. set (b := match bearer with Some EmptyString => None | b => b end).
  pose proof (build_request_ordinary sha256 str_other url b controller p e) as Hb.
  destruct (build_request _ _ _ _ _ _ _) as [rq|x]; [|by intros [= ->]; by apply Hb]. cbn.
  specialize (Hr rq). destruct (reply n rq) as [status|x]; cbn; [by destruct (_ && _)|by intros [= ->]; by apply Hr].
Qed.

(** ** Two events and an endpoint *)

Module Sample.
Definition controller : string := "gate".
Definition payload (event : Z) : dict json := [("event_id", JInt event); ("controller_id", JStr controller)].
Definition row (event : Z) : outbox_row :=
  {| ob_id := event; ob_event_id := event; ob_payload := Json (JDict (payload event)); ob_created_at := 0;
     ob_completed_at := None; ob_send_state := Ready |}.
Definition initial : outbox :=
  {| ow_store := {| ls_db := set_outbox [row 1; row 2] empty_database; ls_now := []; ls_faults := [] |};
     ow_spool := {| sl_reads := 0; sl_root := true; sl_files := [] |}; ow_reads := 0; ow_last_item := Some 1%Z;
     ow_last_retention := None; ow_attempts := []; ow_requests := [] |}.
Definition sha256 (b : bytes) : string := "key".
Definition str_other (j : json) : string := "".
Definition io (n : nat) : result unit := Ok tt.
Definition clock (n : nat) : datetime := Aware (seconds (Z.of_nat n)).
(** The endpoint answers the first request with an error. *)
Definition reply (n : nat) (rq : request) : result Z := Ok (if (n <=? 3)%nat then 503 else 200)%Z.
#[export] Instance sender : Sender sha256 str_other (http_confirmed reply) :=
  http_sender sha256 str_other reply "https://example/ingest" controller None.
Abbreviation run := (run_once sha256 str_other io (fun _ => Ok true) (fun _ => Ok tt) clock 30).
Definition after_run : outbox := Eval vm_compute in snd (run initial).
Definition delivered_row : outbox_row := Eval vm_compute in
  default (row 0) (list.head (db_outbox (ls_db (ow_store after_run)))).

(** One run: the second item fails, the first is delivered. *)
Example run_delivers_one : run initial = (Ok 1%nat, after_run) /\ ow_attempts after_run = [2; 1]%Z.
Proof. split; vm_compute; reflexivity. Qed.

Lemma no_item_starves_witness :
  working initial /\
  exists w', rounds sha256 str_other io (fun _ => Ok true) (fun _ => Ok tt) clock 30 1 initial = (Ok tt, w') /\
    working w'.
Proof.
  assert (Hw : working initial).
  { split; [done|repeat constructor; by eexists|repeat constructor|exact I]. }
  split; [exact Hw|].
  destruct (no_item_starves sha256 str_other io (fun _ => Ok true) (fun _ => Ok tt) clock 30) with (k := 1%nat) (w := initial)
    as (w' & new & H1 & H2 & _).
  - done.
  - done.
  - done.
  - intros n p e. by apply http_send_ordinary.
  - intros n. by eexists.
  - exact Hw.
  - apply Nat.leb_le. vm_compute. reflexivity.
  - exists w'. split; [exact H1|exact H2].
Defined.

Lemma completed_means_confirmed_witness :
  delivered_row ∈ db_outbox (ls_db (ow_store after_run)) /\
  exists n rq, (n, rq) ∈ ow_requests after_run /\ http_confirmed reply n rq.
Proof.
  assert (Hin : delivered_row ∈ db_outbox (ls_db (ow_store after_run))) by (left; reflexivity).
  split; [exact Hin|].
  destruct (completed_means_confirmed sha256 str_other io (fun _ => Ok true) (fun _ => Ok tt) clock 30
    initial (Ok 1%nat) after_run delivered_row) as [(o & Ho & Hid & Hc)|(p & new & n & rq & e & _ & Hn & Hin' & Hcon & _)].
  - vm_compute. reflexivity.
  - exact Hin.
  - discriminate.
  - exfalso. revert Ho Hc. cbn. rewrite !elem_of_cons, elem_of_nil. by intros [->|[->|[]]].
  - exists n, rq. rewrite Hn. split; [exact Hin'|exact Hcon].
Defined.
End Sample.
