(* ===== verification/EvidenceFacts.v ===== *)
(** * Properties of the evidence

    What is transmitted is the queued evidence; the idempotency key tells events
    and controllers apart; staged evidence stays loadable until it is
    released, whatever the file system does. *)

From Stdlib Require Import Strings.Byte DecimalString DecimalZ.
From S2P Require Import Prelude Json Float Text Base64 AtomicFile Store StoreOutbox Outbox.

(** ** The transmitted payload *)

Lemma dget_dsetdefault k k' v d :
  dget k (dsetdefault k' v d) =
  match dget k d with Some x => Some x | None => if decide (k = k') then Some v else None end.
Proof.
  unfold dsetdefault. destruct (decide (k = k')) as [->|Hne].
  - destruct (dget k' d) as [x|] eqn:E; [by rewrite E|]. by rewrite dget_dset_eq.
  - assert (E : dget k (match dget k' d with Some _ => d | None => dset k' v d end) = dget k d)
      by (destruct (dget k' d); [done|by apply dget_dset_ne]).
    rewrite E. by destruct (dget k d).
Qed.

(** The payload before the evidence is added. *)
Definition addressed (controller : string) (payload : dict json) : dict json :=
  let transmitted := ddel LOCAL_IMAGE_PATH_KEY payload in
  dsetdefault "controller_id" (JStr controller)
    (if negb (is_null (dict_get LOCAL_IMAGE_PATH_KEY payload)) && negb (dmem "image_sha256" transmitted)
     then dsetdefault "image_status" (JStr "legacy_evidence_unavailable") transmitted else transmitted).

Lemma dget_addressed controller payload k v :
  k <> LOCAL_IMAGE_PATH_KEY -> dget k payload = Some v -> dget k (addressed controller payload) = Some v.
Proof.
  intros Hk H. assert (Hd : dget k (ddel LOCAL_IMAGE_PATH_KEY payload) = Some v) by (by rewrite dget_ddel_ne).
  unfold addressed. rewrite dget_dsetdefault. by destruct (_ && _); rewrite ?dget_dsetdefault, Hd.
Qed.

Lemma addressed_digest controller payload :
  dget "image_sha256" (addressed controller payload) = dget "image_sha256" payload.
Proof.
  unfold addressed. rewrite dget_dsetdefault.
  assert (Hd : dget "image_sha256" (ddel LOCAL_IMAGE_PATH_KEY payload) = dget "image_sha256" payload)
    by by rewrite dget_ddel_ne.
  destruct (_ && _); rewrite ?dget_dsetdefault, Hd; by destruct (dget "image_sha256" payload).
Qed.

Lemma addressed_local controller payload : dget LOCAL_IMAGE_PATH_KEY (addressed controller payload) = None.
Proof.
  unfold addressed. rewrite dget_dsetdefault. destruct (_ && _); by rewrite ?dget_dsetdefault, dget_ddel_eq.
Qed.

(** the evidence goes out intact.  A payload prepared with bytes was queued
    for exactly these bytes (their digest is the queued one), they are within
    the limit, the base64 text sent decodes to them, and nothing else the payload
    says is changed; the local path never leaves the controller, and
    the controller is named. *)
Theorem transmitted_evidence sha256 payload controller bytes transmitted
    (Hprepared : _prepare_outbox_payload sha256 payload controller (Some bytes) = Ok transmitted) :
  dget "image_sha256" payload = Some (JStr (sha256 bytes)) /\
  (Z.of_nat (length bytes) <= MAX_OUTBOX_IMAGE_BYTES)%Z /\
  (exists image encoded, dget "image" transmitted = Some (JDict image) /\
     dget "sha256" image = Some (JStr (sha256 bytes)) /\
     dget "data_base64" image = Some (JStr encoded) /\ b64decode encoded = Some bytes) /\
  (forall k v, k ∉ ["image"; LOCAL_IMAGE_PATH_KEY] -> dget k payload = Some v -> dget k transmitted = Some v) /\
  dget LOCAL_IMAGE_PATH_KEY transmitted = None /\ is_Some (dget "controller_id" transmitted).
Proof.
  revert Hprepared. unfold _prepare_outbox_payload. cbv zeta.
  change (dsetdefault "controller_id" (JStr controller)
    (if negb (is_null (dict_get LOCAL_IMAGE_PATH_KEY payload)) &&
        negb (dmem "image_sha256" (ddel LOCAL_IMAGE_PATH_KEY payload))
     then dsetdefault "image_status" (JStr "legacy_evidence_unavailable") (ddel LOCAL_IMAGE_PATH_KEY payload)
     else ddel LOCAL_IMAGE_PATH_KEY payload)) with (addressed controller payload).
  unfold dict_get at 1. rewrite addressed_digest.
  destruct (dget "image_sha256" payload) as [[| | | |digest| | |]|] eqn:Ed; cbn [from_option id]; try done.
  destruct (String.eqb_spec digest (sha256 bytes)) as [->|]; cbn [negb]; [|done].
  destruct (_ <? _)%Z eqn:El; [done|]. bool_props. intros [= <-]. split; [done|]. split; [done|].
  split; [|split; [|split]].
  - eexists _, _. rewrite dget_dset_eq. split; [reflexivity|]. split; [reflexivity|]. split; [reflexivity|].
    apply b64_roundtrip.
  - intros k v Hk Hv. rewrite !not_elem_of_cons in Hk. destruct Hk as (H1 & H2 & _).
    rewrite dget_dset_ne by done. by apply dget_addressed.
  - rewrite dget_dset_ne by done. apply addressed_local.
  - rewrite dget_dset_ne by done. unfold addressed. rewrite dget_dsetdefault.
    destruct (dget "controller_id" _); [by eexists|]. rewrite decide_True by done. by eexists.
Qed.

Lemma transmitted_evidence_witness :
  exists transmitted, _prepare_outbox_payload (fun _ => "d1") [("event_id", JInt 7); ("image_sha256", JStr "d1")] "gate"
    (Some [xff; xd8; xff; x00]) = Ok transmitted /\ dget "event_id" transmitted = Some (JInt 7).
Proof.
  eexists. split; [reflexivity|].
  eapply (transmitted_evidence (fun _ => "d1") [("event_id", JInt 7); ("image_sha256", JStr "d1")] "gate"
    [xff; xd8; xff; x00]); [reflexivity| |reflexivity].
  rewrite !not_elem_of_cons. repeat split; [discriminate..|by intros ?%elem_of_nil].
Defined.

(** ** The idempotency key *)

Fixpoint has (a : ascii) (s : string) : bool :=
  match s with EmptyString => false | String b s' => bool_decide (a = b) || has a s' end.

Lemma has_app a s t : has a (String.append s t) = has a s || has a t.
Proof. induction s as [|b s IH]; [done|].
  change (bool_decide (a = b) || has a (String.append s t) = bool_decide (a = b) || has a s || has a t).
  by rewrite IH, orb_assoc. Qed.

Lemma split_at_last a s1 t1 s2 t2 :
  has a t1 = false -> has a t2 = false ->
  String.append s1 (String a t1) = String.append s2 (String a t2) -> s1 = s2 /\ t1 = t2.
Proof.
  intros H1 H2. revert s2. induction s1 as [|b s1 IH]; intros [|c s2] E; injection E.
  - done.
  - intros E' E0. subst c. change (t1 = String.append s2 (String a t2)) in E'. subst t1.
    rewrite has_app in H1. cbn in H1. rewrite bool_decide_true, orb_true_r in H1 by done. done.
  - intros E' E0. subst b. change (String.append s1 (String a t1) = t2) in E'. subst t2.
    rewrite has_app in H2. cbn in H2. rewrite bool_decide_true, orb_true_r in H2 by done. done.
  - intros E' E0. subst c. apply IH in E' as [-> ->]. done.
Qed.

Lemma digits_no_colon u : has ":" (NilEmpty.string_of_uint u) = false.
Proof. induction u; cbn; try done; rewrite IHu; by rewrite orb_false_r. Qed.

Lemma decimal_no_colon z : has ":" (NilZero.string_of_int (Z.to_int z)) = false.
Proof.
  assert (H : forall u, has ":" (NilZero.string_of_uint u) = false).
  { intros u. unfold NilZero.string_of_uint. destruct u; try apply digits_no_colon; done. }
  destruct (Z.to_int z) as [u|u]; cbn; rewrite H; done.
Qed.

Lemma decimal_injective z z' :
  NilZero.string_of_int (Z.to_int z) = NilZero.string_of_int (Z.to_int z') -> z = z'.
Proof.
  intros E. assert (Hz : forall y, NilZero.int_of_string (NilZero.string_of_int (Z.to_int y)) = Some (Z.to_int y)).
  { intros y. apply NilZero.isi; unfold Z.to_int; destruct y; try done; intros [= H];
      by apply DecimalPos.Unsigned.to_uint_nonnil in H. }
  apply (f_equal NilZero.int_of_string) in E. rewrite !Hz in E. injection E as E.
  rewrite <- (DecimalZ.of_to z), <- (DecimalZ.of_to z'). by rewrite E.
Qed.

(** the idempotency key identifies the event: two payloads of numbered
    events whose keys are digests of the same text are for the same event of
    the same controller. *)
Theorem idempotency_text_injective str_other p q controller controller' event event' text
    (Hp : dget "controller_id" p = Some (JStr controller)) (Hpe : dget "event_id" p = Some (JInt event))
    (Hq : dget "controller_id" q = Some (JStr controller')) (Hqe : dget "event_id" q = Some (JInt event'))
    (Htext : idempotency_text str_other p = Ok text) (Htext' : idempotency_text str_other q = Ok text) :
  controller = controller' /\ event = event'.
Proof.
  unfold idempotency_text, dict_item in *. rewrite Hp, Hpe in Htext. rewrite Hq, Hqe in Htext'. cbn in *.
  injection Htext as <-. injection Htext' as E.
  apply split_at_last in E as [-> E]; [|apply decimal_no_colon..]. by apply decimal_injective in E.
Qed.

Lemma idempotency_text_injective_witness :
  exists text, idempotency_text (fun _ => "") [("controller_id", JStr "a:1"); ("event_id", JInt (-2))] = Ok text /\
    "a:1" = "a:1" /\ (-2 = -2)%Z.
Proof.
  exists "a:1:-2". split; [reflexivity|].
  apply (idempotency_text_injective (fun _ => "") [("controller_id", JStr "a:1"); ("event_id", JInt (-2))]
    [("event_id", JInt (-2)); ("controller_id", JStr "a:1")] "a:1" "a:1" (-2) (-2) "a:1:-2"); reflexivity.
Defined.

(** ** The encoder *)

Section Encoder.
Context {image : Type} (save : image -> Z -> result bytes) (width height : image -> Z)
  (resize : image -> Z -> Z -> result image).

(** An encoding within the upload limit. *)
Definition encoding (e : bytes) : Prop :=
  (Z.of_nat (length e) <= MAX_OUTBOX_IMAGE_BYTES)%Z /\ exists i q, save i q = Ok e.

Lemma first_bounded_encoding i qs e : first_bounded save i qs = Ok (Some e) -> encoding e.
Proof.
  induction qs as [|q qs IH]; cbn; [done|]. destruct (save i q) as [b|] eqn:E; cbn; [|done].
  destruct (_ <=? _)%Z eqn:El; [|done]. bool_props. intros [= <-]. split; [done|by exists i, q].
Qed.

Lemma bounded_jpeg_encoding n i e : _bounded_jpeg save width height resize n i = Ok (Some e) -> encoding e.
Proof.
  revert i. induction n as [|n IH]; intros i; cbn [_bounded_jpeg]; [done|].
  destruct (first_bounded save i _) as [[b|]|] eqn:E; cbn; [| |done].
  - intros [= <-]. by apply first_bounded_encoding in E.
  - case_bool_decide; [done|]. destruct (resize _ _ _) as [i'|]; [apply IH|done].
Qed.

Lemma normalise_encoding v e : _normalise_jpeg save width height resize v = Ok (Some e) -> encoding e.
Proof.
  unfold _normalise_jpeg. destruct (_ || _); [done|]. destruct (sv_jpeg v) as [[]|]; cbn [rbind negb]; try done.
  destruct (sv_prepared v) as [i|]; [apply bounded_jpeg_encoding|done].
Qed.
End Encoder.

(** ** The spool *)

Lemma jpg_stem_evidence digest : jpg_stem (evidence_name digest) = digest.
Proof.
  unfold jpg_stem, evidence_name.
  assert (Hlen : forall s, String.length (String.append s ".jpg") = (String.length s + 4)%nat).
  { induction s as [|a s IH]; [done|]. cbn. by rewrite <- IH. }
  rewrite Hlen, Nat.add_sub. induction digest as [|a s IH]; [done|].
  change (String a (String.substring 0 (String.length s) (String.append s ".jpg")) = String a s). by rewrite IH.
Qed.

Lemma evidence_name_inj d d' : evidence_name d = evidence_name d' -> d = d'.
Proof. intros E. apply (f_equal jpg_stem) in E. by rewrite !jpg_stem_evidence in E. Qed.

Section Evidence.
Context (sha256 : bytes -> string).
Context (io : nat -> result unit) (partial : nat -> nat) (temporary_name : nat -> string).
Context {image : Type} (save : image -> Z -> result bytes) (width height : image -> Z)
  (resize : image -> Z -> Z -> result image) (view : nat -> string -> @source_view image).
Context (pil_is_jpeg : bytes -> result bool) (pil_verify : bytes -> result unit).
(** A hexadecimal digest has 64 lower-case digits; PIL accepts what it saved. *)
Context (Hhex : forall b, _path (sha256 b) = Ok (evidence_name (sha256 b))).
Context (Hsaved : forall i q e, save i q = Ok e -> pil_is_jpeg e = Ok true /\ pil_verify e = Ok tt).

Definition normalise (n : nat) (source : string) : result (option bytes) :=
  _normalise_jpeg save width height resize (view n source).

Abbreviation stage := (stage sha256 io partial temporary_name normalise).
Abbreviation load := (load sha256 io pil_is_jpeg pil_verify).

(** The evidence of a digest is in its file. *)
Definition stored (digest : string) (s : spool) : Prop :=
  exists e, dget (evidence_name digest) (sl_files s) = Some e /\ sha256 e = digest /\ encoding save e.

Lemma temporary_not_evidence name b : String.append ".tmp-" name <> evidence_name (sha256 b).
Proof.
  intros E. pose proof (Hhex b) as H. unfold _path in H.
  destruct (bool_decide _ && forallb _ _) eqn:Ed; [|done]. bool_props.
  unfold evidence_name in E. destruct (sha256 b) as [|a s]; [done|]. injection E as E0 _. subst a. done.
Qed.

Lemma stored_files digest f s s' :
  (forall e, dget (evidence_name digest) (sl_files s) = Some e -> dget (evidence_name digest) (f (sl_files s)) = Some e) ->
  sl_files s' = f (sl_files s) -> stored digest s -> stored digest s'.
Proof. intros Hf E (e & He & H). exists e. rewrite E. split; [by apply Hf|done]. Qed.

Lemma system_call_stored digest : keeps (stored digest) (system_call io).
Proof. intros s (e & He & H). unfold system_call, bind, read, of_result. destruct (io _); by exists e. Qed.

Lemma read_stored {A} digest (f : nat -> A) : keeps (stored digest) (read f).
Proof. intros s (e & He & H). by exists e. Qed.

Lemma on_files_stored digest f :
  (forall files, dget (evidence_name digest) (f files) = dget (evidence_name digest) files) ->
  keeps (stored digest) (on_files f).
Proof. intros Hf. apply keeps_modify. intros s. apply (stored_files _ f); [|done]. intros e. by rewrite Hf. Qed.

Hint Resolve system_call_stored read_stored on_files_stored : evidence.
Ltac evidence := keeps_tac; eauto with evidence.

Lemma dset_temporary b name (content : bytes) (files : dict bytes) :
  dget (evidence_name (sha256 b)) (dset (String.append ".tmp-" name) content files)
  = dget (evidence_name (sha256 b)) files.
Proof. apply dget_dset_ne. intros E. by apply (temporary_not_evidence name b), eq_sym. Qed.

Lemma ddel_temporary b name (files : dict bytes) :
  dget (evidence_name (sha256 b)) (ddel (String.append ".tmp-" name) files) = dget (evidence_name (sha256 b)) files.
Proof. apply dget_ddel_ne. intros E. by apply (temporary_not_evidence name b), eq_sym. Qed.

Hint Resolve dset_temporary ddel_temporary : evidence.

Lemma unlink_stored digest name :
  name <> evidence_name digest -> keeps (stored digest) (unlink io name).
Proof.
  intros Hne. unfold unlink. apply keeps_bind; [apply system_call_stored|]. intros _. apply on_files_stored.
  intros files. by apply dget_ddel_ne.
Qed.

Lemma stored_set b name c s s' :
  sl_files s' = dset (String.append ".tmp-" name) c (sl_files s) -> stored (sha256 b) s -> stored (sha256 b) s'.
Proof. intros E. eapply (stored_files _ (dset _ _)), E. intros e. by rewrite dset_temporary. Qed.

Lemma stored_del b name s s' :
  sl_files s' = ddel (String.append ".tmp-" name) (sl_files s) -> stored (sha256 b) s -> stored (sha256 b) s'.
Proof. intros E. eapply (stored_files _ (ddel _)), E. intros e. by rewrite ddel_temporary. Qed.

Lemma stored_same digest s s' : sl_files s' = sl_files s -> stored digest s -> stored digest s'.
Proof. intros E. by eapply (stored_files _ id), E. Qed.

(** Staging anything keeps the evidence that is there, and leaves its own. *)
Lemma system_call_keeps (P : spool -> Prop) :
  (forall s s', sl_files s' = sl_files s -> P s -> P s') -> keeps P (system_call io ;! _fsync_directory io).
Proof.
  intros HP. pose proof (system_call_reads io P HP) as H. apply keeps_bind; [exact H|]. intros [].
  unfold _fsync_directory. apply keeps_bind; [exact H|]. intros []. by apply keeps_finally.
Qed.

(** Writing evidence makes [Q] of [P], for the properties of the files the
    temporary file does not matter to. *)
Lemma write_evidence_spec (P Q : spool -> Prop) name encoded :
  (forall s s', sl_files s' = sl_files s -> P s -> P s') -> (forall s s', sl_files s' = sl_files s -> Q s -> Q s') ->
  (forall c s s', sl_files s' = dset (String.append ".tmp-" name) c (sl_files s) -> P s -> P s') ->
  (forall s s', sl_files s' = ddel (String.append ".tmp-" name) (sl_files s) -> P s -> P s') ->
  (forall s s', sl_files s' = ddel (String.append ".tmp-" name) (sl_files s) -> Q s -> Q s') ->
  (forall s s', sl_files s' = ddel (String.append ".tmp-" name) (dset (evidence_name (sha256 encoded)) encoded (sl_files s)) ->
     P s -> Q s') ->
  (forall s, Q s -> P s) ->
  triple P (write_evidence io partial (String.append ".tmp-" name) (evidence_name (sha256 encoded)) encoded)
    (fun _ => Q) P.
Proof.
  intros HP HQ Hset Hdel HdelQ Hrep HQP. unfold write_evidence. apply write_atomically_spec; try done.
  - intros s s' E Hd. rewrite Hd in E. cbn in E. by apply Hrep.
  - pose proof (system_call_reads io P HP). by apply keeps_bind.
  - by apply system_call_reads.
  - by apply triple_ret; auto.
  - by apply system_call_keeps.
Qed.

Lemma write_stored b name encoded :
  encoding save encoded ->
  keeps (stored (sha256 b)) (write_evidence io partial (String.append ".tmp-" name) (evidence_name (sha256 encoded)) encoded).
Proof.
  intros He. apply write_evidence_spec; [apply stored_same|apply stored_same|apply stored_set|apply stored_del|apply stored_del| |done].
  intros s s' E (e & Hf & Hs & Henc). unfold stored. rewrite E, ddel_temporary.
  destruct (decide (sha256 b = sha256 encoded)) as [->|Hne].
  - exists encoded. by rewrite dget_dset_eq.
  - exists e. by rewrite dget_dset_ne by (by intros ?%evidence_name_inj).
Qed.

Lemma write_stores name encoded :
  encoding save encoded ->
  triple (fun _ => True) (write_evidence io partial (String.append ".tmp-" name) (evidence_name (sha256 encoded)) encoded)
    (fun _ => stored (sha256 encoded)) (fun _ => True).
Proof.
  intros He. apply write_evidence_spec; [done|apply stored_same|done|done|apply stored_del| |done].
  intros s s' E _. exists encoded. by rewrite E, ddel_temporary, dget_dset_eq.
Qed.

Definition staging (encoded : bytes) : M spool string :=
  system_call io ;! modify (fun s => {| sl_reads := sl_reads s; sl_root := true; sl_files := sl_files s |}) ;!
  system_call io ;! system_call io ;!
  let! name := read temporary_name in
  let temporary := String.append ".tmp-" name in
  on_files (dset temporary []) ;!
  write_evidence io partial temporary (evidence_name (sha256 encoded)) encoded ;!
  ret (sha256 encoded).

(** Staging is [staging] of an encoding, or raises. *)
Lemma stage_cases source s :
  (exists e s0, stage source s = staging e s0 /\ encoding save e /\ sl_files s0 = sl_files s) \/
  exists x s0, stage source s = (Err x, s0) /\ sl_files s0 = sl_files s.
Proof.
  unfold Outbox.stage. erewrite bind_ok by reflexivity. destruct (normalise (sl_reads s) source) as [[e|]|x] eqn:E.
  - left. eexists e, _. split; [reflexivity|]. split; [by eapply normalise_encoding|done].
  - right. eexists _, _. by split; [reflexivity|].
  - right. eexists _, _. by split; [reflexivity|].
Qed.

Lemma stage_stored b source : keeps (stored (sha256 b)) (stage source).
Proof.
  intros s Hs. destruct (stage_cases source s) as [(e & s0 & -> & He & Es)|(x & s0 & -> & Es)];
    apply (stored_same _ _ s0) in Hs; [|exact Es|exact Hs|exact Es].
  assert (H : keeps (stored (sha256 b)) (staging e)); [|by apply H]. unfold staging. evidence.
  - apply keeps_modify. by intros s1 (y & H); exists y.
  - by apply write_stored.
Qed.

Lemma staged_stored source s digest s' :
  stage source s = (Ok digest, s') -> exists b, digest = sha256 b /\ stored digest s'.
Proof.
  destruct (stage_cases source s) as [(e & s0 & -> & He & _)|(x & s0 & -> & _)]; [|done]. intros E. exists e.
  assert (H : triple (fun _ => True) (staging e) (fun d s => d = sha256 e /\ stored d s) (fun _ => True)).
  { unfold staging. do 6 (apply (triple_bind _ _ _ (fun _ _ => True)); [by intros ? _; case_match; case_match|intros ?]).
    eapply triple_bind; [by apply write_stores|]. intros ?. by apply triple_ret. }
  specialize (H s0 I). by rewrite E in H.
Qed.

Lemma remove_stored digest name msg :
  name <> evidence_name digest -> keeps (stored digest) (remove_evidence io name msg).
Proof.
  intros Hne s Hs. pose proof (unlink_stored digest name Hne s Hs) as H. unfold remove_evidence.
  destruct (unlink io name s) as [[a|[]] s']; exact H.
Qed.

Lemma not_orphan b pending : sha256 b ∈ pending -> is_orphan pending (evidence_name (sha256 b)) = false.
Proof.
  intros Hin. unfold is_orphan. rewrite jpg_stem_evidence, bool_decide_eq_false_2, andb_false_r by auto.
  rewrite orb_false_r. pose proof (Hhex b) as H. unfold _path in H.
  destruct (bool_decide _ && forallb _ _) eqn:Ed; [|done]. bool_props.
  unfold evidence_name. destruct (sha256 b) as [|a s]; [done|]. cbn in *. bool_props.
  change (String.prefix ".tmp-" (String a (String.append s ".jpg")) = false). cbn [String.prefix].
  by destruct (Ascii.ascii_dec "." a) as [<-|].
Qed.

Lemma cleanup_stored b pending names :
  sha256 b ∈ pending -> keeps (stored (sha256 b)) (cleanup_entries io pending names).
Proof.
  intros Hin. induction names as [|n names IH]; cbn [cleanup_entries]; [apply keeps_ret|].
  apply keeps_bind; [|intros _; exact IH]. destruct (is_orphan pending n) eqn:En; [|apply keeps_ret]. apply remove_stored. intros ->.
  by rewrite not_orphan in En.
Qed.

(** What the worker asks of the spool. *)
Inductive spool_op := Stage (source : string) | Load (digest : string) | Delete (digest : string)
  | Cleanup (pending : gset string).
Definition spool_run (op : spool_op) : M spool unit :=
  match op with
  | Stage source => stage source ;! ret tt
  | Load digest => load digest ;! ret tt
  | Delete digest => delete io digest
  | Cleanup pending => cleanup io pending
  end.
(** The operations that leave the evidence of [digest] alone. *)
Definition spares (digest : string) (op : spool_op) : Prop :=
  match op with Delete d => d <> digest | Cleanup pending => digest ∈ pending | _ => True end.
Definition spool_history (ops : list spool_op) (s : spool) : spool :=
  fold_left (fun s op => snd (spool_run op s)) ops s.

Lemma load_same digest s : sl_files (snd (load digest s)) = sl_files s.
Proof.
  unfold Outbox.load, bind, of_result, read, gets, raise, ret. destruct (_path digest); [|done].
  destruct (io _) as [[]|[]]; cbn; try done. destruct (dget _ _); cbn; [|done]. destruct (_ <? _)%Z; [done|].
  destruct (negb _); [done|]. by destruct (decodable _ _ _).
Qed.

Lemma spool_run_stored b op : spares (sha256 b) op -> keeps (stored (sha256 b)) (spool_run op).
Proof.
  destruct op as [source|d|d|pending]; cbn [spares spool_run]; intros H.
  - evidence. apply stage_stored.
  - evidence. intros s (e & He & Hs). pose proof (load_same d s) as E.
    destruct (load d s) as [r s']. cbn in E. by destruct r; exists e; rewrite E.
  - intros s Hs. unfold delete. destruct (_path d) as [path|x] eqn:Ep; [|done].
    apply remove_stored; [|done]. unfold _path in Ep. destruct (_ && _); [|done]. injection Ep as <-.
    by intros ?%evidence_name_inj.
  - unfold cleanup. evidence. by apply cleanup_stored.
Qed.

Lemma history_stored b ops s :
  Forall (spares (sha256 b)) ops -> stored (sha256 b) s -> stored (sha256 b) (spool_history ops s).
Proof.
  intros Hops. revert s. induction Hops as [|op ops Hop _ IH]; intros s Hs; [done|]. apply IH.
  by apply keeps_snd; [apply spool_run_stored|].
Qed.

Lemma load_stored b s :
  stored (sha256 b) s -> io (sl_reads s) = Ok tt ->
  exists e, fst (load (sha256 b) s) = Ok e /\ sha256 e = sha256 b /\ encoding save e.
Proof.
  intros (e & He & Hd & Henc) Hio. exists e. split; [|done]. pose proof Henc as [Hl (i & q & Hq)].
  unfold Outbox.load, bind, of_result, read, gets, raise, ret. rewrite Hhex, Hio. cbn. rewrite He, take_ge by lia.
  assert (E : (MAX_OUTBOX_IMAGE_BYTES <? Z.of_nat (length e))%Z = false) by (apply Z.ltb_ge; lia).
  rewrite E, Hd, String.eqb_refl. cbn. unfold decodable. by destruct (Hsaved i q e Hq) as [-> ->].
Qed.

(** C23: evidence is not lost while it is pending.  Once [stage] has returned a
    digest, the file of that digest loads again, whatever is staged, loaded,
    deleted and cleaned up afterwards, in any order and whichever of these calls
    fail part-way, as long as the digest itself is not deleted and the clean-ups know
    it is pending: when the read succeeds, [load] returns an encoding within the
    upload limit whose digest it is. *)
Theorem evidence_survives source s digest s1 ops
    (Hstage : stage source s = (Ok digest, s1)) (Hops : Forall (spares digest) ops)
    (Hio : io (sl_reads (spool_history ops s1)) = Ok tt) :
  exists e, fst (load digest (spool_history ops s1)) = Ok e /\ sha256 e = digest /\
    (Z.of_nat (length e) <= MAX_OUTBOX_IMAGE_BYTES)%Z /\ exists i q, save i q = Ok e.
Proof.
  apply staged_stored in Hstage as (b & -> & Hs). apply (history_stored b ops) in Hs; [|done].
  by destruct (load_stored b _ Hs Hio) as (e & H1 & H2 & []); exists e.
Qed.
End Evidence.

(** ** A spool that works *)

Module Sample.
Definition digest_of (a : ascii) : string := string_of_list_ascii (repeat a 64).
Definition sha256 (b : bytes) : string := digest_of (if bool_decide (b = []) then "0" else "f")%char.
Definition jpeg : bytes := [xff; xd8; xff; xd9].
Definition view (n : nat) (source : string) : @source_view unit :=
  {| sv_is_file := true; sv_signature := true; sv_jpeg := Ok true; sv_prepared := Ok tt |}.
Definition io (n : nat) : result unit := Ok tt.
Abbreviation sample_stage := (stage sha256 io (fun _ => 2%nat) (fun _ => "x")
  (normalise (fun _ _ => Ok jpeg) (fun _ => 4) (fun _ => 3) (fun _ _ _ => Ok tt) view)%Z).
Definition empty : spool := {| sl_reads := 0; sl_root := false; sl_files := [] |}.
Definition staged : spool := Eval vm_compute in snd (sample_stage "a.jpg" empty).
Definition later : list spool_op :=
  [Load (digest_of "f"); Stage "b.jpg"; Delete (digest_of "0"); Cleanup {[digest_of "f"]}].

Lemma evidence_survives_witness :
  sample_stage "a.jpg" empty = (Ok (digest_of "f"), staged) /\
  exists e, fst (load sha256 io (fun _ => Ok true) (fun _ => Ok tt) (digest_of "f")
    (spool_history sha256 io (fun _ => 2%nat) (fun _ => "x") (fun _ _ => Ok jpeg) (fun _ => 4%Z) (fun _ => 3%Z)
       (fun _ _ _ => Ok tt) view (fun _ => Ok true) (fun _ => Ok tt) later staged)) = Ok e /\
    sha256 e = digest_of "f".
Proof.
  split; [vm_compute; reflexivity|].
  destruct (evidence_survives sha256 io (fun _ => 2%nat) (fun _ => "x") (fun _ _ => Ok jpeg) (fun _ => 4%Z) (fun _ => 3%Z)
    (fun _ _ _ => Ok tt) view (fun _ => Ok true) (fun _ => Ok tt)) with (source := "a.jpg") (s := empty)
    (digest := digest_of "f") (s1 := staged) (ops := later) as (e & H1 & H2 & _).
  - intros b. unfold sha256. by case_bool_decide; vm_compute.
  - done.
  - vm_compute; reflexivity.
  - unfold later. constructor; [exact I|]. constructor; [exact I|].
    constructor; [intros E; vm_compute in E; discriminate E|]. constructor; [|constructor]. cbn [spares]. set_solver.
  - reflexivity.
  - exists e. split; [exact H1|exact H2].
Defined.
End Sample.
