(* ===== verification/Reolink.v ===== *)
(** * Camera triggers: gate_controller/reolink_events.py

    The webhook configuration, the sanitised event of a payload, the correlator
    of triggers and uploads, the endpoint, the bounded body read and the
    number of connection slots; the server's threads are in ReolinkServer.v.  SHA-256 of the canonical dump, json.loads,
    fromisoformat and ip_address are arguments; characters are 8-bit, so that
    [lower] differs from Python's only on characters the patterns replace. *)

From Stdlib Require Import Strings.Byte.
From S2P Require Import Prelude Json Float Text Base64 Store Telemetry.

Definition REOLINK_WEBHOOK_PATH : string := "/reolink/events".
Definition MAX_REOLINK_WEBHOOK_BODY_BYTES : Z := 4096.
Definition MAX_REOLINK_BODY_READ_BYTES : Z := 1024.
Definition MAX_REOLINK_WEBHOOK_FIELD_LENGTH : nat := 128.
Definition MIN_REOLINK_WEBHOOK_SECRET_LENGTH : nat := 20.
Definition MAX_REOLINK_WEBHOOK_SECRET_LENGTH : nat := 128.
Definition MAX_REOLINK_EVENTS : Z := 64.
Definition MAX_REOLINK_EVENT_TTL : Z := seconds 60.
Definition MAX_REOLINK_CORRELATION_WINDOW : Z := seconds 15.
Definition MAX_REOLINK_CONCURRENT_CONNECTIONS : Z := 4.

Definition chars (s : string) : list ascii := list_ascii_of_string s.

(** ** Configuration *)

Record ReolinkWebhookConfig := {
  wc_enabled : bool;
  wc_host : string;
  wc_port : Z;
  wc_secret : option string;
}.

(** What [ipaddress] says of a literal. *)
Record address := {
  ad_version : Z;
  ad_is_unspecified : bool;
  ad_is_private : bool;
  ad_is_loopback : bool;
  ad_text : string;
}.

Definition between (lo n hi : nat) : bool := (lo <=? n)%nat && (n <=? hi)%nat.

Definition valid_secret (secret : string) : bool :=
  between MIN_REOLINK_WEBHOOK_SECRET_LENGTH (String.length secret) MAX_REOLINK_WEBHOOK_SECRET_LENGTH
  && forallb (fun c => between 33 (nat_of_ascii c) 126) (chars secret).

(** reolink_events.py: load_reolink_webhook_config *)
Definition load_reolink_webhook_config (ip_address : string -> option address) (environment : dict string)
  : result ReolinkWebhookConfig :=
  let disabled := {| wc_enabled := false; wc_host := "0.0.0.0"; wc_port := 8766; wc_secret := None |} in
  match dget "GATE_REOLINK_WEBHOOK_SECRET" environment with
  | None | Some EmptyString => Ok disabled
  | Some secret =>
      if negb (valid_secret secret)
      then Err (ValueError "GATE_REOLINK_WEBHOOK_SECRET must be 20-128 printable non-space characters")
      else
        match ip_address (default "0.0.0.0" (dget "GATE_REOLINK_WEBHOOK_HOST" environment)) with
        | None => Err (ValueError "GATE_REOLINK_WEBHOOK_HOST must be an IP literal")
        | Some address =>
            if negb (ad_version address =? 4)%Z
            then Err (ValueError "GATE_REOLINK_WEBHOOK_HOST must be an IPv4 literal")
            else if negb (ad_is_unspecified address || ad_is_private address || ad_is_loopback address)
            then Err (ValueError "GATE_REOLINK_WEBHOOK_HOST must be private or unspecified")
            else
              match int_of_text (default "8766" (dget "GATE_REOLINK_WEBHOOK_PORT" environment)) with
              | None => Err (ValueError "GATE_REOLINK_WEBHOOK_PORT must be an integer")
              | Some port =>
                  if negb ((1024 <=? port)%Z && (port <=? 65535)%Z)
                  then Err (ValueError "GATE_REOLINK_WEBHOOK_PORT must be between 1024 and 65535")
                  else Ok {| wc_enabled := true; wc_host := ad_text address; wc_port := port;
                             wc_secret := Some secret |}
              end
        end
  end.

(** ** Events of a payload *)

Record SanitizedCameraEvent := {
  ce_event_id : string;
  ce_event_type : string;
  ce_rule_id : option string;
  ce_received_at : datetime;
  ce_event_at : option datetime;
}.

#[global] Instance SanitizedCameraEvent_eq_dec : EqDecision SanitizedCameraEvent.
Proof. solve_decision. Defined.

Definition InvalidReolinkWebhook (msg : string) : exc := ValueError msg.
Definition UnauthorizedReolinkWebhook (msg : string) : exc := AuthorisationError msg.

(** reolink_events.py: _bounded_string *)
Definition _bounded_string (value : json) (required : bool) : result (option string) :=
  match value with
  | JNull => if required then Err (InvalidReolinkWebhook "invalid bounded field") else Ok None
  | JStr s =>
      if (required && String.eqb s "")
         || (MAX_REOLINK_WEBHOOK_FIELD_LENGTH <? String.length s)%nat
         || existsb (fun c => nat_of_ascii c <? 32)%nat (chars s)
      then Err (InvalidReolinkWebhook "invalid bounded field")
      else Ok (match s with EmptyString => None | _ => Some s end)
  | _ => Err (InvalidReolinkWebhook "invalid bounded field")
  end.

Definition is_rule_character (c : ascii) : bool :=
  let n := nat_of_ascii c in between 97 n 122 || between 48 n 57.
Definition underscore : ascii := "_"%char.

(** [_RULE_CHARACTER.sub("_", s)]: a run of other characters becomes one
    underscore; [inside] when the run has begun. *)
Fixpoint rule_sub (inside : bool) (l : list ascii) : list ascii :=
  match l with
  | [] => []
  | c :: l' =>
      if is_rule_character c then c :: rule_sub false l'
      else if inside then rule_sub true l' else underscore :: rule_sub true l'
  end.

(** [.strip("_")] *)
Fixpoint strip_left (l : list ascii) : list ascii :=
  match l with c :: l' => if bool_decide (c = underscore) then strip_left l' else l | [] => [] end.
Definition strip_underscores (l : list ascii) : list ascii := rev (strip_left (rev (strip_left l))).

Definition normal_text (s : string) : list ascii := rule_sub false (chars (lower_text s)).

(** [" ".join(value.lower() for value in values if value)] *)
Definition joined (values : list (option string)) : string :=
  String.concat " " (lower_text <$> omap id values).

(** reolink_events.py: _event_type *)
Definition _event_type (values : list (option string)) : string :=
  let normalized := normal_text (joined values) in
  let outer_type := strip_underscores (normal_text (default "" (default None (list.head values)))) in
  if bool_decide (string_of_list_ascii outer_type ∈ ["test"; "manual"; "manual_test"]) then "manual_test"
  else if contains (chars "line_cross") normalized then "line_crossing"
  else if contains (chars "vehicle") normalized || contains (chars "car") normalized then "vehicle"
  else "other".

(** reolink_events.py: _rule_id *)
Definition _rule_id (value : option string) : option string :=
  match value with
  | None | Some EmptyString => None
  | Some v =>
      match take 64 (strip_underscores (normal_text v)) with
      | [] => None
      | l => Some (string_of_list_ascii l)
      end
  end.

(** [value.replace("Z", "+00:00")] *)
Definition replace_zulu (s : string) : string :=
  string_of_list_ascii (flat_map (fun c => if bool_decide (c = "Z"%char) then chars "+00:00" else [c]) (chars s)).

(** [a or b] *)
Definition or_else {A} (a b : option A) : option A := match a with Some _ => a | None => b end.

Section Sanitise.
(** [fromisoformat] gives the instant of a text with an offset; it may lie
    outside the years 1 to 9999 of UTC. *)
Context (fromisoformat : string -> option datetime) (sha256_of_dump : json -> string).

(** [parsed.astimezone(timezone.utc)] *)
Definition astimezone_utc (us : Z) : result datetime :=
  if ((DATETIME_MIN <=? us) && (us <=? DATETIME_MAX))%Z then Ok (Aware us) else Err OverflowError.

(** reolink_events.py: _parse_event_time *)
Definition _parse_event_time (value : option string) : result (option datetime) :=
  match value with
  | None | Some EmptyString => Ok None
  | Some v =>
      match fromisoformat (replace_zulu v) with
      | None | Some (Naive _) => Ok None
      | Some (Aware us) => rbind (astimezone_utc us) (fun at_ => Ok (Some at_))
      end
  end.

Definition is_ascii (s : string) : bool := forallb (fun c => nat_of_ascii c <? 128)%nat (chars s).

(** [hmac.compare_digest] of two strings *)
Definition compare_digest (a b : string) : result bool :=
  if is_ascii a && is_ascii b then Ok (String.eqb a b) else Err TypeError.

(** The object whose dump identifies the event. *)
Definition identity (alarm_time fallback_time channel outer_type : option string) (event_type rule_id : string)
    (received_at : datetime) : json :=
  let opt := json_of_option JStr in
  JDict [("alarm_time", opt (or_else alarm_time fallback_time)); ("channel", opt channel);
         ("event_type", JStr event_type); ("outer_type", opt outer_type);
         ("received_at", match or_else alarm_time fallback_time with
                         | Some _ => JNull
                         | None => JTime (_as_utc received_at)
                         end);
         ("rule_id", JStr rule_id)].

(** The secret of a payload is checked before anything else of it. *)
Definition authenticate (payload : json) (secret : string) : result (dict json) :=
  match payload with
  | JDict d =>
      match dict_get "secret" d with
      | JStr supplied =>
          rbind (compare_digest supplied secret) (fun same =>
          if same then Ok d else Err (UnauthorizedReolinkWebhook "invalid secret"))
      | _ => Err (UnauthorizedReolinkWebhook "invalid secret")
      end
  | _ => Err (InvalidReolinkWebhook "payload must be an object")
  end.

(** reolink_events.py: _sanitize_event *)
Definition _sanitize_event (payload : json) (secret : string) (received_at : datetime)
  : result SanitizedCameraEvent :=
  rbind (authenticate payload secret) (fun payload =>
  match dict_get "alarm" payload with
  | JDict alarm =>
      rbind (_bounded_string (dict_get "type" alarm) true) (fun alarm_type =>
      rbind (_bounded_string (dict_get "type" payload) false) (fun outer_type =>
      rbind (_bounded_string (dict_get "name" alarm) false) (fun name =>
      rbind (_bounded_string (dict_get "message" alarm) false) (fun message =>
      rbind (_bounded_string (dict_get "channel" alarm) false) (fun channel =>
      rbind (_bounded_string (dict_get "alarmTime" alarm) false) (fun alarm_time =>
      rbind (_bounded_string (dict_get "time" alarm) false) (fun fallback_time =>
      rbind (_parse_event_time alarm_time) (fun at_ =>
      rbind (match at_ with Some _ => Ok at_ | None => _parse_event_time fallback_time end) (fun event_at =>
      let event_type := _event_type [outer_type; alarm_type; name; message] in
      let rule_id := default (String.append "reolink_" event_type) (or_else (_rule_id name) (_rule_id alarm_type)) in
      Ok {| ce_event_id := sha256_of_dump (identity alarm_time fallback_time channel outer_type event_type
                                             rule_id received_at);
            ce_event_type := event_type; ce_rule_id := Some rule_id; ce_received_at := received_at;
            ce_event_at := event_at |})))))))))
  | _ => Err (InvalidReolinkWebhook "alarm must be an object")
  end).
End Sanitise.

(** ** The correlator *)

(** Durations are whole microseconds; [_max_seen] is twice [_max_events]. *)
Record correlator := {
  co_ttl : Z;
  co_window : Z;
  co_max_events : Z;
  co_events : list SanitizedCameraEvent;
  (** The ordered dictionary of the ids seen. *)
  co_seen : list (string * Z);
}.
Definition _max_seen (c : correlator) : Z := (co_max_events c * 2)%Z.
Definition set_events (l : list SanitizedCameraEvent) (c : correlator) : correlator :=
  {| co_ttl := co_ttl c; co_window := co_window c; co_max_events := co_max_events c; co_events := l;
     co_seen := co_seen c |}.
Definition set_seen (l : list (string * Z)) (c : correlator) : correlator :=
  {| co_ttl := co_ttl c; co_window := co_window c; co_max_events := co_max_events c; co_events := co_events c;
     co_seen := l |}.

(** reolink_events.py: ReolinkEventCorrelator.__init__ *)
Definition new_correlator (ttl window max_events : Z) : result correlator :=
  if negb ((0 <? ttl) && (ttl <=? MAX_REOLINK_EVENT_TTL))%Z
  then Err (ValueError "event TTL exceeds the safe range")
  else if negb ((0 <? window) && (window <=? Z.min ttl MAX_REOLINK_CORRELATION_WINDOW))%Z
  then Err (ValueError "correlation window exceeds the safe range")
  else if negb ((1 <=? max_events) && (max_events <=? MAX_REOLINK_EVENTS))%Z
  then Err (ValueError "event capacity exceeds the safe range")
  else Ok {| co_ttl := ttl; co_window := window; co_max_events := max_events; co_events := []; co_seen := [] |}.

(** [while len(l) > limit: l.popleft()] *)
Definition keep_last {A} (limit : Z) (l : list A) : list A := drop (length l - Z.to_nat limit) l.

(** reolink_events.py: ReolinkEventCorrelator._prune; an id is seen once, so
    popping it is dropping its entry. *)
Definition _prune (now : Z) (c : correlator) : correlator :=
  set_seen (filter (fun s => now - snd s <=? co_ttl c = true)%Z (co_seen c))
    (set_events (filter (fun e => now - _as_utc (ce_received_at e) <=? co_ttl c = true)%Z (co_events c)) c).

(** The ages a trigger may have. *)
Definition stale (now at_ : Z) (c : correlator) : bool :=
  let age := (now - at_)%Z in (co_ttl c <? age)%Z || (age <? - co_window c)%Z.

Definition pending_count (c : correlator) : nat := length (co_events c).
Definition dedup_count (c : correlator) : nat := length (co_seen c).

(** reolink_events.py: ReolinkEventCorrelator.record *)
Definition record (event : SanitizedCameraEvent) (now : datetime) : M correlator string :=
  let now := _as_utc now in
  let received_at := _as_utc (ce_received_at event) in
  modify (_prune now) ;!
  let! c := gets id in
  if stale now received_at c then ret "stale"
  else if match ce_event_at event with Some at_ => stale now (_as_utc at_) c | None => false end
  then ret "stale"
  else if bool_decide (ce_event_id event ∈ (co_seen c).*1) then ret "duplicate"
  else
    modify (fun c => set_seen (keep_last (_max_seen c) (co_seen c ++ [(ce_event_id event, received_at)])) c) ;!
    modify (fun c => set_events (keep_last (co_max_events c) (co_events c ++ [event])) c) ;!
    ret "accepted".

(** The distances of the pending events to an upload; a naive time of an event
    cannot be subtracted. *)
Fixpoint distances (received_at : datetime) (events : list SanitizedCameraEvent)
  : result (list (Z * SanitizedCameraEvent)) :=
  match events with
  | [] => Ok []
  | e :: events' =>
      rbind (dt_sub (ce_received_at e) received_at) (fun d =>
      rbind (distances received_at events') (fun l => Ok ((Z.abs d, e) :: l)))
  end.

(** The key of [min]: distance, time, id. *)
Definition nearer (a b : Z * SanitizedCameraEvent) : bool :=
  let ta := _as_utc (ce_received_at (snd a)) in
  let tb := _as_utc (ce_received_at (snd b)) in
  (fst a <? fst b)%Z
  || ((fst a =? fst b)%Z
      && ((ta <? tb)%Z || ((ta =? tb)%Z && String.ltb (ce_event_id (snd a)) (ce_event_id (snd b))))).

(** [min(candidates, key=...)]: the first of the least. *)
Definition nearest (first : Z * SanitizedCameraEvent) (l : list (Z * SanitizedCameraEvent)) : Z * SanitizedCameraEvent :=
  fold_left (fun best x => if nearer x best then x else best) l first.

(** [deque.remove]: the first equal element. *)
Fixpoint remove_event (e : SanitizedCameraEvent) (l : list SanitizedCameraEvent) : list SanitizedCameraEvent :=
  match l with
  | [] => []
  | x :: l' => if bool_decide (x = e) then l' else x :: remove_event e l'
  end.

(** [delta.total_seconds() * 1000] *)
Definition milliseconds (us : Z) : pyfloat := fmul_const 1000 (float_div us 1000000).

Definition matched_trigger (distance : Z) (matched : SanitizedCameraEvent) : TriggerTelemetry :=
  {| tt_source := "reolink_webhook"; tt_event_type := ce_event_type matched; tt_correlation := "matched";
     tt_rule_id := ce_rule_id matched; tt_event_at := ce_event_at matched;
     tt_delta_ms := VFloat (milliseconds distance) |}.

(** The event [correlate] matches and takes out, with its distance. *)
Definition take_match (received_at now : datetime) : M correlator (option (Z * SanitizedCameraEvent)) :=
  let received_at := Aware (_as_utc received_at) in
  modify (_prune (_as_utc now)) ;!
  let! c := gets id in
  let! all := of_result (distances received_at (co_events c)) in
  match filter (fun x => fst x <=? co_window c = true)%Z all with
  | [] => ret None
  | first :: rest =>
      let matched := nearest first rest in
      modify (fun c => set_events (remove_event (snd matched) (co_events c)) c) ;!
      ret (Some matched)
  end.

(** reolink_events.py: ReolinkEventCorrelator.correlate *)
Definition correlate (received_at now : datetime) : M correlator TriggerTelemetry :=
  let! m := take_match received_at now in
  ret (match m with Some (d, e) => matched_trigger d e | None => ftp_fallback_trigger end).

(** ** The endpoint *)

(** reolink_events.py: _header *)
Definition _header (headers : list (string * string)) (name : string) : option string :=
  snd <$> find_row (fun h => String.eqb (lower_text (fst h)) (lower_text name)) headers.

(** [.split(";", 1)[0].strip().lower()] *)
Fixpoint until_semicolon (l : list ascii) : list ascii :=
  match l with
  | [] => []
  | c :: l' => if bool_decide (c = ";"%char) then [] else c :: until_semicolon l'
  end.
Definition media_type (value : string) : string :=
  lower_text (string_of_list_ascii (strip (until_semicolon (chars value)))).

Section Endpoint.
Context (fromisoformat : string -> option datetime) (sha256_of_dump : json -> string).
(** [json.loads(body.decode("utf-8"))]; None for the three errors caught. *)
Context (parse : bytes -> option json).
Context (secret : string).

(** What follows the headers, for the announced length. *)
Definition handle_body (body : bytes) (content_length : Z) (received_at : datetime) : M correlator Z :=
  if negb (Z.of_nat (length body) =? content_length)%Z then ret 400%Z
  else
    match parse body with
    | None => ret 400%Z
    | Some payload =>
        let received_at := Aware (_as_utc received_at) in
        match _sanitize_event fromisoformat sha256_of_dump payload secret received_at with
        | Err (AuthorisationError _) => ret 401%Z
        | Err (ValueError _) => ret 400%Z
        | Err e => raise e
        | Ok event =>
            let! outcome := record event received_at in
            ret (if String.eqb outcome "accepted" then 202
                 else if String.eqb outcome "duplicate" then 200 else 422)%Z
        end
    end.

(** reolink_events.py: ReolinkWebhookEndpoint.handle *)
Definition handle (method path : string) (headers : list (string * string)) (read_body : Z -> result bytes)
    (received_at : datetime) : M correlator Z :=
  if negb (String.eqb path REOLINK_WEBHOOK_PATH) then ret 404%Z
  else if negb (String.eqb method "POST") then ret 405%Z
  else if negb (String.eqb (media_type (default "" (_header headers "Content-Type"))) "application/json")
  then ret 415%Z
  else
    match match _header headers "Content-Length" with
          | None => Some 0%Z
          | Some raw => int_of_text raw
          end with
    | None => ret 400%Z
    | Some content_length =>
        if (content_length <=? 0)%Z then ret 411%Z
        else if (MAX_REOLINK_WEBHOOK_BODY_BYTES <? content_length)%Z then ret 413%Z
        else
          match read_body content_length with
          | Err e => if is_Exception e then ret 400%Z else raise e
          | Ok body => handle_body body content_length received_at
          end
    end.
End Endpoint.

(** ** The body of a request *)

(** The clock's readings and what each read returns. *)
Record connection := {
  cn_clock : list Z;
  cn_reads : list (result bytes);
}.
Definition next_reading : M connection Z := fun c =>
  (Ok (default 0%Z (list.head (cn_clock c))), {| cn_clock := tail (cn_clock c); cn_reads := cn_reads c |}).
(** [read1(n)] returns at most [n] bytes. *)
Definition read_one (n : Z) : M connection bytes := fun c =>
  (match list.head (cn_reads c) with Some (Ok b) => Ok (take (Z.to_nat n) b) | Some (Err e) => Err e | None => Ok [] end,
   {| cn_clock := cn_clock c; cn_reads := tail (cn_reads c) |}).

Definition BODY_DEADLINE : Z := seconds 1.

(** The loop of [_read_body]; every round but the last reads a byte, so
    [remaining] rounds and one more are enough. *)
Fixpoint read_rounds (fuel : nat) (deadline remaining : Z) (content : bytes) : M connection bytes :=
  match fuel with
  | O => ret content
  | S fuel' =>
      if (remaining =? 0)%Z then ret content
      else
        let! before := next_reading in
        if (deadline - before <=? 0)%Z then raise TimeoutError
        else
          let! chunk := read_one (Z.min remaining MAX_REOLINK_BODY_READ_BYTES) in
          let! after := next_reading in
          if (deadline <? after)%Z then raise TimeoutError
          else if bool_decide (chunk = []) then ret content
          else
            let chunk := take (Z.to_nat remaining) chunk in
            read_rounds fuel' deadline (remaining - Z.of_nat (length chunk)) (content ++ chunk)
  end.

(** reolink_events.py: _ReolinkRequestHandler._read_body *)
Definition _read_body (content_length : Z) : M connection bytes :=
  let! start := next_reading in
  read_rounds (S (Z.to_nat content_length)) (start + BODY_DEADLINE)%Z content_length [].

(** ** The connection slots *)

(** reolink_events.py: BoundedReolinkHTTPServer.__init__, the slots *)
Definition new_slots (capacity : option Z) : result Z :=
  let capacity := default MAX_REOLINK_CONCURRENT_CONNECTIONS capacity in
  if negb ((1 <=? capacity) && (capacity <=? MAX_REOLINK_CONCURRENT_CONNECTIONS))%Z
  then Err (ValueError "concurrent webhook capacity exceeds the safe range")
  else Ok capacity.
