(* ===== verification/ReolinkHistory.v ===== *)
(** * Histories of the camera triggers

    What the correlator promises over any sequence of recorded webhooks and
    correlated uploads, with any clock. *)

From Stdlib Require Import Strings.Byte.
From S2P Require Import Prelude Json Store Telemetry Base64 Reolink ReolinkFacts.

(** ** One correlation *)

(** A pending event that has not expired. *)
Definition fresh (now : Z) (c : correlator) (e : SanitizedCameraEvent) : Prop :=
  e ∈ co_events c /\ (now - _as_utc (ce_received_at e) <= co_ttl c)%Z.

(** Its distance to an upload. *)
Definition distance (e : SanitizedCameraEvent) (received_at : datetime) : Z :=
  Z.abs (_as_utc (ce_received_at e) - _as_utc received_at).

Lemma distances_spec at_ l all :
  distances (Aware at_) l = Ok all -> all = (fun e => (distance e (Aware at_), e)) <$> l.
Proof.
  revert all. induction l as [|e l IH]; intros all; cbn; [by intros [= <-]|].
  intros (d & Hd & H)%rbind_ok. apply rbind_ok in H as (all' & Ha & [= <-]). rewrite (IH all' Ha).
  f_equal. unfold distance. destruct (ce_received_at e); [|done]. cbn in *. by injection Hd as <-.
Qed.

Lemma nearer_le a b : nearer a b = true -> (fst a <= fst b)%Z.
Proof. unfold nearer. intros [H|[H _]%andb_prop]%orb_prop; lia. Qed.

Lemma not_nearer_ge a b : nearer a b = false -> (fst b <= fst a)%Z.
Proof. unfold nearer. intros [H _]%orb_false_iff. lia. Qed.

Lemma nearest_spec first l :
  nearest first l ∈ first :: l /\ forall x, x ∈ first :: l -> (fst (nearest first l) <= fst x)%Z.
Proof.
  revert first. induction l as [|y l IH]; intros first; cbn.
  - split; [by left|]. intros x [->|H]%elem_of_cons; [done|]. by apply elem_of_nil in H.
  - destruct (IH (if nearer y first then y else first)) as [Hin Hle]. fold (nearest (if nearer y first then y else first) l).
    split.
    + rewrite !elem_of_cons in *. destruct (nearer y first); naive_solver.
    + assert (H0 : (fst (nearest (if nearer y first then y else first) l) <= fst first /\
        fst (nearest (if nearer y first then y else first) l) <= fst y)%Z).
      { specialize (Hle _ (list_elem_of_here _ _)). destruct (nearer y first) eqn:E; [apply nearer_le in E|apply not_nearer_ge in E]; lia. }
      intros x. rewrite !elem_of_cons. intros [->|[->|Hx]]; [lia..|]. apply Hle. by right.
Qed.

Lemma remove_event_perm e l : e ∈ l -> l ≡ₚ e :: remove_event e l.
Proof.
  induction l as [|x l IH]; cbn; [by intros ?%elem_of_nil|]. intros Hin. case_bool_decide as E; [by subst|].
  apply elem_of_cons in Hin as [->|Hin]; [done|]. rewrite (IH Hin) at 1. apply Permutation_swap.
Qed.

Lemma prune_fresh now c e : e ∈ co_events (_prune now c) <-> fresh now c e.
Proof. unfold _prune, fresh. cbn. rewrite list_elem_of_filter, Z.leb_le. tauto. Qed.

(** an upload is matched with the nearest trigger.  [correlate] takes out of the
    pending triggers one that has not expired and lies within the window of the
    upload, at least as near as every other such trigger, and reports exactly
    this one; when there is none it reports the FTP fallback and takes none. *)
Theorem correlate_nearest received_at now c t c' (Hrun : correlate received_at now c = (Ok t, c')) :
  (exists e, fresh (_as_utc now) c e /\ (distance e received_at <= co_window c)%Z /\
     (forall e', fresh (_as_utc now) c e' -> (distance e received_at <= distance e' received_at)%Z) /\
     t = matched_trigger (distance e received_at) e /\
     co_events (_prune (_as_utc now) c) ≡ₚ e :: co_events c') \/
  (t = ftp_fallback_trigger /\ c' = _prune (_as_utc now) c /\
   forall e, fresh (_as_utc now) c e -> (co_window c < distance e received_at)%Z).
Proof.
  revert Hrun. unfold correlate, take_match, bind, modify, gets, of_result, id, ret. set (c1 := _prune (_as_utc now) c).
  change (co_window c1) with (co_window c). destruct (distances _ (co_events c1)) as [all|] eqn:Ed; [|done].
  apply distances_spec in Ed. set (near := fun x => _). destruct (filter near all) as [|first rest] eqn:Ef.
  - intros [= <- <-]. right. split; [done|]. split; [done|]. intros e He. apply prune_fresh in He.
    destruct (Z.ltb_spec (co_window c) (distance e received_at)) as [|Hle]; [done|]. exfalso.
    assert (Hin : (distance e received_at, e) ∈ filter near all).
    { apply list_elem_of_filter. split; [by apply Z.leb_le|]. rewrite Ed. apply list_elem_of_fmap. by exists e. }
    rewrite Ef in Hin. by apply elem_of_nil in Hin.
  - destruct (nearest_spec first rest) as [Hin Hle]. rewrite <- Ef in Hin, Hle. set (m := nearest first rest) in *.
    apply list_elem_of_filter in Hin as [Hn Hin]. unfold near in Hn. apply Z.leb_le in Hn.
    rewrite Ed in Hin. apply list_elem_of_fmap in Hin as (e & Em & He). rewrite Em in *. cbn [fst snd] in *.
    change (distance e (Aware (_as_utc received_at))) with (distance e received_at) in *.
    intros [= <- <-]. left. exists e. split; [by apply prune_fresh|]. split; [done|]. split.
    + intros e' He'. apply prune_fresh in He'.
      destruct (Z.le_gt_cases (distance e' received_at) (co_window c)) as [Hw|Hw]; [|lia].
      apply (Hle (distance e' received_at, e')). apply list_elem_of_filter. split; [by apply Z.leb_le|].
      rewrite Ed. apply list_elem_of_fmap. by exists e'.
    + split; [done|]. cbn. by apply remove_event_perm.
Qed.

(** ** Histories *)

Inductive trigger_op :=
| ORecord (event : SanitizedCameraEvent) (now : datetime)
| OCorrelate (received_at now : datetime).

Inductive trigger_out :=
| Answered (event : SanitizedCameraEvent) (answer : string)
| Matched (received_at now : datetime) (event : SanitizedCameraEvent)
| Unmatched.

(** One call; a correlation that raises matches nothing. *)
Definition run_op (op : trigger_op) (c : correlator) : trigger_out * correlator :=
  match op with
  | ORecord event now => match record event now c with
                         | (Ok answer, c') => (Answered event answer, c')
                         | (Err _, c') => (Unmatched, c')
                         end
  | OCorrelate received_at now => match take_match received_at now c with
                                  | (Ok (Some (_, e)), c') => (Matched received_at now e, c')
                                  | (_, c') => (Unmatched, c')
                                  end
  end.

Fixpoint history (ops : list trigger_op) (c : correlator) : list trigger_out * correlator :=
  match ops with
  | [] => ([], c)
  | op :: ops' => let (o, c1) := run_op op c in let (log, c2) := history ops' c1 in (o :: log, c2)
  end.

Definition accepted_of (o : trigger_out) : option SanitizedCameraEvent :=
  match o with Answered e answer => if String.eqb answer "accepted" then Some e else None | _ => None end.
Definition matched_of (o : trigger_out) : option SanitizedCameraEvent :=
  match o with Matched _ _ e => Some e | _ => None end.
Definition accepted (log : list trigger_out) : list SanitizedCameraEvent := omap accepted_of log.
Definition matched (log : list trigger_out) : list SanitizedCameraEvent := omap matched_of log.

(** Bounded tables. *)
Record bounded (c : correlator) : Prop := {
  bd_events : (Z.of_nat (length (co_events c)) <= co_max_events c)%Z;
  bd_seen : (Z.of_nat (length (co_seen c)) <= _max_seen c)%Z;
  bd_ids : NoDup (co_seen c).*1;
  bd_max : (1 <= co_max_events c)%Z;
}.

Definition settings (c : correlator) : Z * Z * Z := (co_ttl c, co_window c, co_max_events c).

Lemma keep_last_length {A} limit (l : list A) :
  (0 <= limit)%Z -> (Z.of_nat (length (keep_last limit l)) <= limit)%Z.
Proof. intros H. unfold keep_last. rewrite length_drop. lia. Qed.

Lemma keep_last_suffix {A} limit (l : list A) : exists k, l = k ++ keep_last limit l.
Proof. exists (take (length l - Z.to_nat limit) l). symmetry. apply take_drop. Qed.

Lemma submseteq_suffix {A} (k l : list A) : l ⊆+ k ++ l.
Proof. apply submseteq_inserts_l. reflexivity. Qed.

Lemma filter_keys_nodup {A} (P : string * A -> Prop) `{!forall x, Decision (P x)} l :
  NoDup l.*1 -> NoDup (filter P l).*1.
Proof. intros Hn. eapply sublist_NoDup; [exact Hn|]. apply fmap_sublist, sublist_filter. Qed.

Lemma prune_bounded now c : bounded c -> bounded (_prune now c).
Proof.
  intros [H1 H2 H3 H4]. unfold _prune. split; cbn; [| |by apply filter_keys_nodup|done].
  - etrans; [|exact H1]. apply Nat2Z.inj_le, sublist_length, sublist_filter.
  - etrans; [|exact H2]. apply Nat2Z.inj_le, sublist_length, sublist_filter.
Qed.

(** What one call does: the tables stay bounded, the matched and the pending
    events come from the pending and the accepted ones. *)
Lemma run_op_spec op c o c' :
  bounded c -> run_op op c = (o, c') ->
  bounded c' /\ settings c' = settings c /\
  option_list (matched_of o) ++ co_events c' ⊆+ co_events c ++ option_list (accepted_of o) /\
  match o with
  | Matched at_ now e => (distance e at_ <= co_window c)%Z /\ (_as_utc now - _as_utc (ce_received_at e) <= co_ttl c)%Z
  | _ => True
  end.
Proof.
  intros Hb. pose proof Hb as [_ _ _ Hmax]. destruct op as [e now|at_ now]; cbn [run_op].
  - unfold record, bind, modify, gets, ret, id. set (c1 := _prune (_as_utc now) c).
    assert (H1 : bounded c1) by by apply prune_bounded.
    assert (Hsub : co_events c1 ⊆+ co_events c) by apply sublist_submseteq, sublist_filter.
    assert (Hno : forall answer, answer <> "accepted" -> (Answered e answer, c1) = (o, c') ->
      bounded c' /\ settings c' = settings c /\
      option_list (matched_of o) ++ co_events c' ⊆+ co_events c ++ option_list (accepted_of o) /\
      match o with Matched at_ now e => (distance e at_ <= co_window c)%Z /\ (_as_utc now - _as_utc (ce_received_at e) <= co_ttl c)%Z | _ => True end).
    { intros answer Ha [= <- <-]. cbn [matched_of accepted_of]. apply String.eqb_neq in Ha. rewrite Ha, app_nil_r. done. }
    destruct (stale _ _ c1); [by apply Hno|]. destruct (match ce_event_at e with Some _ => _ | None => _ end); [by apply Hno|].
    case_bool_decide as Hseen; [by apply Hno|]. clear Hno. intros [= <- <-]. destruct H1 as [He Hs Hn _].
    split; [|split; [done|split; [|done]]].
    + assert (0 <= _max_seen c1)%Z by (unfold _max_seen; change (co_max_events c1) with (co_max_events c); lia).
      split; cbn [co_events co_seen co_max_events set_events set_seen]; [apply keep_last_length; change (co_max_events c1) with (co_max_events c); lia| | |done].
      * by apply keep_last_length.
      * destruct (keep_last_suffix (_max_seen c1) (co_seen c1 ++ [(ce_event_id e, _as_utc (ce_received_at e))])) as [k Ek].
        assert (Hd : NoDup (co_seen c1 ++ [(ce_event_id e, _as_utc (ce_received_at e))]).*1).
        { rewrite fmap_app. apply list.NoDup_app. split; [done|]. split; [|apply NoDup_singleton].
          intros x Hx ->%list_elem_of_singleton. done. }
        rewrite Ek, fmap_app in Hd. by apply list.NoDup_app in Hd as (_ & _ & ?).
    + change (keep_last (co_max_events c1) (co_events c1 ++ [e]) ⊆+ co_events c ++ [e]).
      destruct (keep_last_suffix (co_max_events c1) (co_events c1 ++ [e])) as [k Ek].
      etrans; [apply submseteq_suffix with (k := k)|]. rewrite <- Ek. by apply submseteq_app.
  - unfold take_match, bind, modify, gets, of_result, ret, id. set (c1 := _prune (_as_utc now) c).
    assert (H1 : bounded c1) by by apply prune_bounded.
    assert (Hsub : co_events c1 ⊆+ co_events c) by apply sublist_submseteq, sublist_filter.
    destruct (distances _ (co_events c1)) as [all|] eqn:Ed;
      [|intros [= <- <-]; cbn; rewrite app_nil_r; done].
    apply distances_spec in Ed. destruct (filter _ all) as [|first rest] eqn:Ef;
      [intros [= <- <-]; cbn; rewrite app_nil_r; done|].
    destruct (nearest_spec first rest) as [Hin _]. rewrite <- Ef in Hin. destruct (nearest first rest) as [d e].
    apply list_elem_of_filter in Hin as [Hw Hin]. rewrite Ed in Hin. apply list_elem_of_fmap in Hin as (e' & [= -> ->] & He).
    apply Z.leb_le in Hw. intros [= <- <-]. pose proof He as Hp. apply prune_fresh in Hp as [_ Hage].
    pose proof (remove_event_perm e' (co_events c1) He) as Hperm. split; [|split; [done|split; [|done]]].
    + destruct H1 as [B1 B2 B3 B4]. split; cbn [co_events co_seen co_max_events set_events snd]; try done.
      etrans; [|exact B1]. rewrite Hperm. cbn. lia.
    + rewrite app_nil_r. change (e' :: remove_event e' (co_events c1) ⊆+ co_events c). by rewrite <- Hperm.
Qed.

(** C25: every accepted trigger opens at most one upload's story.  Over any
    history of a new correlator, with any clock: the matched triggers are
    accepted ones, each accepted trigger is matched at most once; a trigger is
    only matched within the window of the upload and before it expires; and the
    tables keep their limits. *)
Theorem triggers_matched_once ttl window max_events c0 ops log c
    (Hnew : new_correlator ttl window max_events = Ok c0) (Hrun : history ops c0 = (log, c)) :
  matched log ⊆+ accepted log /\
  (forall at_ now e, Matched at_ now e ∈ log ->
     (distance e at_ <= window)%Z /\ (_as_utc now - _as_utc (ce_received_at e) <= ttl)%Z) /\
  (Z.of_nat (length (co_events c)) <= max_events)%Z /\ (Z.of_nat (length (co_seen c)) <= 2 * max_events)%Z.
Proof.
  assert (Hb : bounded c0 /\ settings c0 = (ttl, window, max_events) /\ co_events c0 = []).
  { revert Hnew. unfold new_correlator. do 3 (case_match; [done|]). intros [= <-]. bool_props.
    split; [|done]. split; unfold _max_seen; cbn; [lia|lia|constructor|lia]. }
  clear Hnew. destruct Hb as (Hb & Hset & Hempty).
  assert (H : bounded c /\ settings c = settings c0 /\ matched log ++ co_events c ⊆+ co_events c0 ++ accepted log /\
    forall at_ now e, Matched at_ now e ∈ log ->
      (distance e at_ <= co_window c0)%Z /\ (_as_utc now - _as_utc (ce_received_at e) <= co_ttl c0)%Z).
  { clear Hset Hempty. revert c0 log Hb Hrun. induction ops as [|op ops IH]; intros c0 log Hb; cbn [history].
    - intros [= <- <-]. cbn. rewrite app_nil_r. do 3 (split; [done|]). by intros at_ now e ?%elem_of_nil.
    - destruct (run_op op c0) as [o c1] eqn:E1. destruct (history ops c1) as [log' c2] eqn:E2. intros [= <- <-].
      apply run_op_spec in E1 as (Hb1 & Hs1 & Hsub & Ho); [|done]. destruct (IH c1 log' Hb1 E2) as (H1 & H2 & H3 & H4).
      split; [done|]. split; [by rewrite H2|]. split.
      + assert (Hm : matched (o :: log') = option_list (matched_of o) ++ matched log') by (unfold matched; cbn; by destruct (matched_of o)).
        assert (Ha : accepted (o :: log') = option_list (accepted_of o) ++ accepted log') by (unfold accepted; cbn; by destruct (accepted_of o)).
        rewrite Hm, Ha, <- app_assoc. etrans; [apply submseteq_app; [reflexivity|exact H3]|].
        rewrite !app_assoc. by apply submseteq_app.
      + injection Hs1 as Et Ew Em. intros at_ now e [<-|Hin]%elem_of_cons; [done|]. rewrite <- Et, <- Ew. by apply (H4 _ _ _ Hin). }
  destruct H as ([B1 B2 _ _] & Hs & Hsub & Hall). rewrite Hset in Hs. injection Hset as Et Ew Em. injection Hs as Et' Ew' Em'.
  rewrite Hempty in Hsub. split; [|split; [|split]].
  - etrans; [|exact Hsub]. by apply submseteq_inserts_r.
  - rewrite <- Et, <- Ew. exact Hall.
  - lia.
  - unfold _max_seen in B2. lia.
Qed.

(** ** Replays *)

(** The id was seen at [t] and at most [n] later ids are remembered. *)
Definition remembered (key : string) (t : Z) (n : nat) (c : correlator) : Prop :=
  exists l1 l2, co_seen c = l1 ++ (key, t) :: l2 /\ (length l2 <= n)%nat.

Lemma keep_last_keeps {A} limit (l1 : list A) x l2 :
  (Z.of_nat (length l2) < limit)%Z -> exists l1', keep_last limit (l1 ++ x :: l2) = l1' ++ x :: l2.
Proof.
  intros H. unfold keep_last. rewrite length_app. cbn [length].
  exists (drop (length l1 + S (length l2) - Z.to_nat limit) l1). rewrite drop_app_le by lia. done.
Qed.

Lemma remembered_prune key t n now c :
  (now - t <= co_ttl c)%Z -> remembered key t n c -> remembered key t n (_prune now c).
Proof.
  intros Ht (l1 & l2 & E & Hl). unfold remembered, _prune. cbn. rewrite E, list.filter_app, filter_cons_True by (cbn; lia).
  eexists _, _. split; [reflexivity|]. etrans; [apply length_filter|done].
Qed.

Definition op_now (op : trigger_op) : datetime := match op with ORecord _ now | OCorrelate _ now => now end.

Lemma run_op_remembers key t n op c o c' :
  run_op op c = (o, c') -> (_as_utc (op_now op) - t <= co_ttl c)%Z -> remembered key t n c ->
  (Z.of_nat (n + length (option_list (accepted_of o))) < _max_seen c)%Z ->
  settings c' = settings c /\ remembered key t (n + length (option_list (accepted_of o))) c'.
Proof.
  intros E Ht Hr. apply (remembered_prune _ _ _ _ _ Ht) in Hr. revert E. destruct op as [e now|at_ now]; cbn [run_op op_now] in *.
  - unfold record, bind, modify, gets, ret, id. set (c1 := _prune (_as_utc now) c) in *.
    assert (Hno : forall answer, answer <> "accepted" -> (Answered e answer, c1) = (o, c') ->
      (Z.of_nat (n + length (option_list (accepted_of o))) < _max_seen c)%Z ->
      settings c' = settings c /\ remembered key t (n + length (option_list (accepted_of o))) c').
    { intros answer Ha [= <- <-] _. cbn. apply String.eqb_neq in Ha. rewrite Ha. cbn. by rewrite Nat.add_0_r. }
    destruct (stale _ _ c1); [by apply Hno|]. destruct (match ce_event_at e with Some _ => _ | None => _ end); [by apply Hno|].
    case_bool_decide; [by apply Hno|]. clear Hno. intros [= <- <-]. cbn [accepted_of String.eqb option_list length].
    intros Hmax. split; [done|]. destruct Hr as (l1 & l2 & E & Hl). unfold remembered.
    match goal with |- exists l1 l2, ?s = _ /\ _ =>
      change s with (keep_last (_max_seen c) (co_seen c1 ++ [(ce_event_id e, _as_utc (ce_received_at e))])) end.
    rewrite E, <- app_assoc, <- app_comm_cons. cbn in Hmax. destruct (keep_last_keeps (_max_seen c) l1 (key, t) (l2 ++ [(ce_event_id e, _as_utc (ce_received_at e))])) as [l1' ->].
    { rewrite length_app. cbn. lia. }
    eexists _, _. split; [reflexivity|]. rewrite length_app. cbn. lia.
  - unfold take_match, bind, modify, gets, of_result, ret, id. set (c1 := _prune (_as_utc now) c) in *.
    assert (Hdone : forall o0 c2, co_seen c2 = co_seen c1 -> settings c2 = settings c -> accepted_of o0 = None -> (o0, c2) = (o, c') ->
      (Z.of_nat (n + length (option_list (accepted_of o))) < _max_seen c)%Z ->
      settings c' = settings c /\ remembered key t (n + length (option_list (accepted_of o))) c').
    { intros o0 c2 Hs Hset Ho [= <- <-] _. rewrite Ho. cbn. rewrite Nat.add_0_r. split; [done|].
      unfold remembered. by rewrite Hs. }
    destruct (distances _ _) as [all|]; [|by apply Hdone]. destruct (filter _ all) as [|first rest]; [by apply Hdone|].
    destruct (nearest first rest) as [d e]. by apply Hdone.
Qed.

Lemma history_remembers key t n ops c log c' :
  history ops c = (log, c') -> Forall (fun op => (_as_utc (op_now op) - t <= co_ttl c)%Z) ops -> remembered key t n c ->
  (Z.of_nat (n + length (accepted log)) < _max_seen c)%Z ->
  settings c' = settings c /\ remembered key t (n + length (accepted log)) c'.
Proof.
  revert n c log. induction ops as [|op ops IH]; intros n c log; cbn [history].
  - intros [= <- <-] _ Hr _. cbn. by rewrite Nat.add_0_r.
  - destruct (run_op op c) as [o c1] eqn:E1. destruct (history ops c1) as [log' c2] eqn:E2. intros [= <- <-].
    intros [Ht Hts]%list.Forall_cons Hr Hn.
    assert (Ha : accepted (o :: log') = option_list (accepted_of o) ++ accepted log') by (unfold accepted; cbn; by destruct (accepted_of o)).
    rewrite Ha, length_app, Nat.add_assoc in Hn |- *.
    destruct (run_op_remembers key t n op c o c1 E1 Ht Hr) as [Hs Hr1]; [lia|]. injection Hs as Et Ew Em.
    rewrite <- Et in Hts. assert (Hmax : _max_seen c1 = _max_seen c) by (unfold _max_seen; by rewrite Em).
    rewrite <- Hmax in Hn. destruct (IH _ c1 log' E2 Hts Hr1 Hn) as [Hs2 Hr2]. split; [|done].
    rewrite Hs2. unfold settings. by rewrite Et, Ew, Em.
Qed.

(** a webhook cannot be replayed.  After a trigger was accepted, no trigger
    with its id is accepted again while the first is within its time to live and
    fewer than twice [max_events] others were accepted since, whatever
    else is recorded and correlated, in any order. *)
Theorem replay_refused e now0 c0 c1 ops log c2 e' now answer c3
    (Hfirst : record e now0 c0 = (Ok "accepted", c1)) (Hrun : history ops c1 = (log, c2))
    (Hage : Forall (fun op => (_as_utc (op_now op) - _as_utc (ce_received_at e) <= co_ttl c0)%Z) ops)
    (Hnow : (_as_utc now - _as_utc (ce_received_at e) <= co_ttl c0)%Z)
    (Hothers : (Z.of_nat (length (accepted log)) < 2 * co_max_events c0)%Z)
    (Hid : ce_event_id e' = ce_event_id e) (Hagain : record e' now c2 = (Ok answer, c3)) :
  answer <> "accepted" /\ co_events c3 = co_events (_prune (_as_utc now) c2).
Proof.
  assert (H1 : settings c1 = settings c0 /\ remembered (ce_event_id e) (_as_utc (ce_received_at e)) 0 c1).
  { revert Hfirst. unfold record, bind, modify, gets, ret, id. set (c := _prune (_as_utc now0) c0).
    destruct (stale _ _ c); [done|]. destruct (match ce_event_at e with Some _ => _ | None => _ end); [done|].
    case_bool_decide; [done|]. intros [= <-]. split; [done|]. unfold remembered.
    match goal with |- exists l1 l2, ?s = _ /\ _ =>
      change s with (keep_last (_max_seen c) (co_seen c ++ [(ce_event_id e, _as_utc (ce_received_at e))])) end.
    destruct (keep_last_keeps (_max_seen c) (co_seen c) (ce_event_id e, _as_utc (ce_received_at e)) []) as [l1 ->].
    { unfold _max_seen. change (co_max_events c) with (co_max_events c0). cbn. lia. }
    by exists l1, []. }
  destruct H1 as [Hs1 Hr1]. injection Hs1 as Et Ew Em.
  rewrite <- Et in Hage. assert (Hn : (Z.of_nat (0 + length (accepted log)) < _max_seen c1)%Z).
  { unfold _max_seen. rewrite Em. cbn. lia. }
  destruct (history_remembers _ _ _ _ _ _ _ Hrun Hage Hr1 Hn) as [Hs2 Hr2].
  injection Hs2 as Et2 Ew2 Em2. apply (remembered_prune _ _ _ (_as_utc now)) in Hr2; [|by rewrite Et2, Et].
  revert Hagain. unfold record, bind, modify, gets, ret, id. set (c := _prune (_as_utc now) c2) in *.
  destruct (stale _ _ c); [by intros [= <- <-]|]. destruct (match ce_event_at e' with Some _ => _ | None => _ end); [by intros [= <- <-]|].
  case_bool_decide as Hseen; [by intros [= <- <-]|]. exfalso. apply Hseen. destruct Hr2 as (l1 & l2 & -> & _).
  rewrite Hid, fmap_app, fmap_cons. apply elem_of_app. right. by left.
Qed.

(** ** A camera and its webhooks *)

Module Sample.
Definition secret : string := "aaaaaaaaaaaaaaaaaaaaaaaa".
Definition payload (s : string) (time : string) : json :=
  JDict [("secret", JStr s);
         ("alarm", JDict [("type", JStr "VEHICLE"); ("name", JStr "Driveway Line-Cross"); ("alarmTime", JStr time)])].
(** A parser of one instant, an identity that shows the time, one body. *)
Definition fromisoformat (s : string) : option datetime :=
  if String.eqb s "0001-01-01T00:00:00+14:00" then Some (Aware (DATETIME_MIN - seconds 50400))
  else if String.eqb s "2024-05-01T12:00:00+00:00" then Some (Aware 1714564800000000) else None.
Definition digest (j : json) : string :=
  match j with JDict d => match dict_get "alarm_time" d with JStr s => s | _ => "" end | _ => "" end.
Definition parse (j : json) (body : Base64.bytes) : option json := Some j.
Definition at_ (n : Z) : datetime := Aware (1714564800000000 + n).
Definition empty : correlator := Eval vm_compute in
  match new_correlator (seconds 15) (seconds 5) 4 with
  | Ok c => c
  | Err _ => {| co_ttl := 0; co_window := 0; co_max_events := 0; co_events := []; co_seen := [] |}
  end.
Definition post (j : json) (n : Z) : M correlator Z :=
  handle fromisoformat digest (parse j) secret "POST" "/reolink/events"
    [("content-type", "application/json; charset=utf-8"); ("Content-Length", "2")] (fun _ => Ok [Byte.x7b; Byte.x7d]) (at_ n).
Definition after_post : correlator := Eval vm_compute in snd (post (payload secret "2024-05-01T12:00:00Z") 1000000 empty).
Definition event : SanitizedCameraEvent := Eval vm_compute in
  match _sanitize_event fromisoformat digest (payload secret "2024-05-01T12:00:00Z") secret (at_ 1000000) with
  | Ok e => e
  | Err _ => {| ce_event_id := ""; ce_event_type := ""; ce_rule_id := None; ce_received_at := at_ 0; ce_event_at := None |}
  end.

Example event_rule : ce_rule_id event = Some "driveway_line_cross" /\ ce_event_type event = "line_crossing".
Proof. split; reflexivity. Qed.

Lemma webhook_authenticated_witness :
  post (payload secret "2024-05-01T12:00:00Z") 1000000 empty = (Ok 202%Z, after_post) /\ after_post <> empty /\
  exists e, ce_event_id e = "2024-05-01T12:00:00Z" /\ record e (at_ 1000000) empty = (Ok "accepted", after_post).
Proof.
  assert (E : post (payload secret "2024-05-01T12:00:00Z") 1000000 empty = (Ok 202%Z, after_post)) by (vm_compute; reflexivity).
  split; [exact E|]. split; [discriminate|].
  destruct (webhook_authenticated fromisoformat digest (parse (payload secret "2024-05-01T12:00:00Z")) secret _ _ _ _ _ _ _ _ E)
    as [[Hc _]|(p & e & outcome & Ha & Hr & Ho)]; [discriminate|].
  destruct Ha as [_ _ (n & body & _ & _ & _ & Hp) _ He]. injection Hp as <-.
  exists e. split; [vm_compute in He; injection He as <-; reflexivity|].
  rewrite !elem_of_cons, elem_of_nil in Ho. destruct Ho as [[= ->]|[[=]|[[=]|[]]]]. exact Hr.
Defined.

Lemma matched_trigger_reported_witness :
  _sanitize_event fromisoformat digest (payload secret "2024-05-01T12:00:00Z") secret (at_ 1000000) = Ok event /\
  exists rule ms, dget "rule_id" (trigger_to_wire (matched_trigger (seconds 2) event)) = Some (JStr rule) /\ (0 <= ms)%Z.
Proof.
  assert (E : _sanitize_event fromisoformat digest (payload secret "2024-05-01T12:00:00Z") secret (at_ 1000000) = Ok event)
    by (vm_compute; reflexivity).
  split; [exact E|].
  destruct (matched_trigger_reported fromisoformat digest _ _ _ _ (seconds 2) E) as (rule & ms & _ & Hms & ->);
    [split; vm_compute; discriminate|].
  exists rule, ms. split; [reflexivity|apply Hms].
Defined.

Lemma correlate_nearest_witness :
  exists t c', correlate (at_ 2000000) (at_ 3000000) after_post = (Ok t, c') /\
    exists e, fresh (_as_utc (at_ 3000000)) after_post e /\ t = matched_trigger (distance e (at_ 2000000)) e.
Proof.
  eexists _, _. split; [vm_compute; reflexivity|].
  destruct (correlate_nearest (at_ 2000000) (at_ 3000000) after_post _ _ eq_refl) as [(e & He & _ & _ & Ht & _)|(_ & _ & H)].
  - exists e. split; [exact He|exact Ht].
  - exfalso. assert (Hf : fresh (_as_utc (at_ 3000000)) after_post event) by (split; [left|vm_compute; discriminate]).
    apply H in Hf. vm_compute in Hf. discriminate Hf.
Defined.

(** Two webhooks, a replay, two uploads. *)
Definition other : SanitizedCameraEvent :=
  {| ce_event_id := "x"; ce_event_type := "vehicle"; ce_rule_id := Some "x"; ce_received_at := at_ 1500000; ce_event_at := None |}.
Definition ops : list trigger_op :=
  [ORecord other (at_ 1500000); ORecord event (at_ 1600000); OCorrelate (at_ 2000000) (at_ 2500000);
   OCorrelate (at_ 2100000) (at_ 2600000); OCorrelate (at_ 2200000) (at_ 2700000)].
Definition log : list trigger_out := Eval vm_compute in fst (history ops after_post).
Definition final : correlator := Eval vm_compute in snd (history ops after_post).

Example log_answers :
  log = [Answered other "accepted"; Answered event "duplicate"; Matched (at_ 2000000) (at_ 2500000) other;
         Matched (at_ 2100000) (at_ 2600000) event; Unmatched].
Proof. reflexivity. Qed.

Lemma triggers_matched_once_witness :
  history (ORecord event (at_ 1000000) :: ops) empty = (Answered event "accepted" :: log, final) /\
  matched log ⊆+ [event; other].
Proof.
  assert (E : history (ORecord event (at_ 1000000) :: ops) empty = (Answered event "accepted" :: log, final))
    by (vm_compute; reflexivity).
  split; [exact E|].
  destruct (triggers_matched_once (seconds 15) (seconds 5) 4 empty _ _ _ eq_refl E) as [H _]. exact H.
Defined.

Lemma replay_refused_witness :
  record event (at_ 1000000) empty = (Ok "accepted", after_post) /\
  "stale" <> "accepted" /\ co_events final = [].
Proof.
  split; [vm_compute; reflexivity|].
  destruct (replay_refused event (at_ 1000000) empty after_post ops log final event (at_ 3000000) "duplicate" final)
    as [_ H]; [vm_compute; reflexivity|vm_compute; reflexivity| |vm_compute; discriminate|vm_compute; reflexivity|
               reflexivity|vm_compute; reflexivity|].
  - repeat constructor; vm_compute; discriminate.
  - split; [discriminate|exact H].
Defined.

(** A secret that is not ASCII is not refused with 401: the comparison raises, the
    request is not answered. *)
Lemma unicode_secret_raises c :
  fst (post (payload (String (ascii_of_nat 233) "") "2024-05-01T12:00:00Z") 1000000 c) = Err TypeError.
Proof. reflexivity. Qed.

(** An alarm time whose UTC instant is before year 1 raises as well. *)
Lemma early_alarm_time_raises c :
  fst (post (payload secret "0001-01-01T00:00:00+14:00") 1000000 c) = Err OverflowError.
Proof. vm_compute. reflexivity. Qed.
End Sample.
