(* ===== verification/ReolinkServer.v ===== *)
(** * The webhook server's threads: gate_controller/reolink_events.py

    [ReolinkWebhookWorker.run_forever] accepts connections one at a time, each served
    by a thread of its own while a slot is free, under a deadline kept by a timer
    thread ([_ReolinkRequestHandler.handle], [_expire_request]).  The blocks under
    [_request_deadline_lock] are one step each, and so is every other access to what the threads
    share; a thread of socketserver calls [finish_request], and [shutdown_request] when
    that ends in any way. *)

From S2P Require Import Prelude Reolink.

(** ** State *)

(** Where the thread of a connection is. *)
Inductive handler_point :=
| Accepted
| SettingUp
| Arming
| Serving
| Ending
| Cancelling
| ShuttingDown
| Releasing
| Gone.

(** Where the deadline timer is. *)
Inductive timer_point :=
| NoTimer
| Counting
| Expiring
| Marking
| Cutting
| Closing
| TimerOver
| Cancelled.

Inductive side := HandlerSide | TimerSide.

#[global] Instance side_eq_dec : EqDecision side.
Proof. solve_decision. Defined.
#[global] Instance handler_point_eq_dec : EqDecision handler_point.
Proof. solve_decision. Defined.
#[global] Instance timer_point_eq_dec : EqDecision timer_point.
Proof. solve_decision. Defined.

Record request := {
  rq_handler : handler_point;
  rq_timer : timer_point;
  (** [_request_deadline_active] *)
  rq_active : bool;
  rq_close_connection : bool;
  (** The socket is not closed; the timer has shut it down. *)
  rq_open : bool;
  rq_cut : bool;
  (** Who cleared [_request_deadline_active] first. *)
  rq_winner : option side;
}.

(** Where the thread of run_forever is. *)
Inductive server_point :=
| Checking
| Polling
| Starting (i : nat)
| Refusing (i : nat)
| ClosingServer
| Over.

#[global] Instance server_point_eq_dec : EqDecision server_point.
Proof. solve_decision. Defined.

Record server := {
  sv_point : server_point;
  sv_stop : bool;
  (** The value of [_connection_slots], and whether a release went above it. *)
  sv_free : nat;
  sv_capacity : nat;
  sv_overflow : bool;
  sv_requests : list request;
}.

Definition new_request (p : handler_point) : request :=
  {| rq_handler := p; rq_timer := NoTimer; rq_active := false; rq_close_connection := false; rq_open := true; rq_cut := false;
     rq_winner := None |}.

(** A server whose slots [new_slots] allows. *)
Definition new_server (capacity : option Z) : result server :=
  rbind (new_slots capacity) (fun slots =>
  let n := Z.to_nat slots in
  Ok {| sv_point := Checking; sv_stop := false; sv_free := n; sv_capacity := n; sv_overflow := false; sv_requests := [] |}).

Definition set_point (p : server_point) (s : server) : server :=
  {| sv_point := p; sv_stop := sv_stop s; sv_free := sv_free s; sv_capacity := sv_capacity s; sv_overflow := sv_overflow s;
     sv_requests := sv_requests s |}.
Definition set_stop (s : server) : server :=
  {| sv_point := sv_point s; sv_stop := true; sv_free := sv_free s; sv_capacity := sv_capacity s; sv_overflow := sv_overflow s;
     sv_requests := sv_requests s |}.
Definition set_requests (l : list request) (s : server) : server :=
  {| sv_point := sv_point s; sv_stop := sv_stop s; sv_free := sv_free s; sv_capacity := sv_capacity s; sv_overflow := sv_overflow s;
     sv_requests := l |}.
Definition take_slot (s : server) : server :=
  {| sv_point := sv_point s; sv_stop := sv_stop s; sv_free := pred (sv_free s); sv_capacity := sv_capacity s;
     sv_overflow := sv_overflow s; sv_requests := sv_requests s |}.

(** [_connection_slots.release()], which raises when every slot is free *)
Definition release_slot (s : server) : server :=
  let full := (sv_capacity s <=? sv_free s)%nat in
  {| sv_point := sv_point s; sv_stop := sv_stop s; sv_free := if full then sv_free s else S (sv_free s); sv_capacity := sv_capacity s;
     sv_overflow := sv_overflow s || full; sv_requests := sv_requests s |}.

Definition with_handler (p : handler_point) (r : request) : request :=
  {| rq_handler := p; rq_timer := rq_timer r; rq_active := rq_active r; rq_close_connection := rq_close_connection r;
     rq_open := rq_open r; rq_cut := rq_cut r; rq_winner := rq_winner r |}.
Definition with_timer (p : timer_point) (r : request) : request :=
  {| rq_handler := rq_handler r; rq_timer := p; rq_active := rq_active r; rq_close_connection := rq_close_connection r;
     rq_open := rq_open r; rq_cut := rq_cut r; rq_winner := rq_winner r |}.
Definition set_active (r : request) : request :=
  {| rq_handler := rq_handler r; rq_timer := rq_timer r; rq_active := true; rq_close_connection := rq_close_connection r;
     rq_open := rq_open r; rq_cut := rq_cut r; rq_winner := rq_winner r |}.
Definition clear_active (who : side) (r : request) : request :=
  {| rq_handler := rq_handler r; rq_timer := rq_timer r; rq_active := false; rq_close_connection := rq_close_connection r;
     rq_open := rq_open r; rq_cut := rq_cut r; rq_winner := if rq_active r then Some who else rq_winner r |}.
Definition mark_close (r : request) : request :=
  {| rq_handler := rq_handler r; rq_timer := rq_timer r; rq_active := rq_active r; rq_close_connection := true;
     rq_open := rq_open r; rq_cut := rq_cut r; rq_winner := rq_winner r |}.
Definition cut_socket (r : request) : request :=
  {| rq_handler := rq_handler r; rq_timer := rq_timer r; rq_active := rq_active r; rq_close_connection := rq_close_connection r;
     rq_open := rq_open r; rq_cut := rq_cut r || rq_open r; rq_winner := rq_winner r |}.
Definition close_socket (r : request) : request :=
  {| rq_handler := rq_handler r; rq_timer := rq_timer r; rq_active := rq_active r; rq_close_connection := rq_close_connection r;
     rq_open := false; rq_cut := rq_cut r; rq_winner := rq_winner r |}.

(** ** Steps *)

(** reolink_events.py: _ReolinkRequestHandler.setup and handle, one step of the
    thread; [raises] says whether the call of this step raises. *)
Definition handle (raises : bool) (r : request) : option request :=
  match rq_handler r with
  | SettingUp => Some (with_handler (if raises then ShuttingDown else Arming) r)
  | Arming =>
      let r := set_active r in
      Some (if raises then with_handler ShuttingDown r else with_handler Serving (with_timer Counting r))
  | Serving => Some (with_handler Ending r)
  | Ending => Some (with_handler Cancelling (clear_active HandlerSide r))
  | Cancelling => Some (with_handler ShuttingDown (if decide (rq_timer r = Counting) then with_timer Cancelled r else r))
  | ShuttingDown => Some (with_handler Releasing (close_socket r))
  | Accepted | Releasing | Gone => None
  end.

(** reolink_events.py: _ReolinkRequestHandler._expire_request, one step, from the end
    of the interval on *)
Definition _expire_request (r : request) : option request :=
  match rq_timer r with
  | Counting => Some (with_timer Expiring r)
  | Expiring => Some (if rq_active r then with_timer Marking (clear_active TimerSide r) else with_timer TimerOver r)
  | Marking => Some (with_timer Cutting (mark_close r))
  | Cutting => Some (with_timer Closing (cut_socket r))
  | Closing => Some (with_timer TimerOver (close_socket r))
  | NoTimer | TimerOver | Cancelled => None
  end.

Inductive event :=
| StopSet
| ServerSteps (raises : bool)
(** A client connects, or the poll of a quarter of a second is over. *)
| Connects
| NobodyConnects
| HandlerSteps (i : nat) (raises : bool)
| TimerSteps (i : nat).

(** reolink_events.py: process_request, once a client has connected; without a free slot the
    request is shut down at once. *)
Definition accept_client (s : server) : server :=
  let i := length (sv_requests s) in
  if (sv_free s =? 0)%nat then set_point Checking (set_requests (sv_requests s ++ [close_socket (new_request Gone)]) s)
  else set_point (Starting i) (take_slot (set_requests (sv_requests s ++ [new_request Accepted]) s)).

Definition on_request (i : nat) (f : request -> option request) (s : server) : option server :=
  match sv_requests s !! i with
  | Some r => (fun r' => set_requests (<[i := r']> (sv_requests s)) s) <$> f r
  | None => None
  end.

(** reolink_events.py: ReolinkWebhookWorker.run_forever, one step; [raises] says whether the thread
    of a connection cannot be started. *)
Definition run_forever (raises : bool) (s : server) : option server :=
  match sv_point s with
  | Checking => Some (set_point (if sv_stop s then ClosingServer else Polling) s)
  | Starting i =>
      if raises then set_point (Refusing i) <$> (release_slot <$> on_request i (fun r => Some (with_handler Gone r)) s)
      else set_point Checking <$> on_request i (fun r => Some (with_handler SettingUp r)) s
  | Refusing i => set_point Checking <$> on_request i (fun r => Some (close_socket r)) s
  | ClosingServer => Some (set_point Over s)
  | Polling | Over => None
  end.

(** reolink_events.py: process_request_thread, one step *)
Definition process_request_thread (i : nat) (raises : bool) (s : server) : option server :=
  match rq_handler <$> sv_requests s !! i with
  | Some Releasing => release_slot <$> on_request i (fun r => Some (with_handler Gone r)) s
  | _ => on_request i (handle raises) s
  end.

Definition step (e : event) (s : server) : option server :=
  match e with
  | StopSet => Some (set_stop s)
  | ServerSteps raises => run_forever raises s
  | Connects => if decide (sv_point s = Polling) then Some (accept_client s) else None
  | NobodyConnects => if decide (sv_point s = Polling) then Some (set_point Checking s) else None
  | HandlerSteps i raises => process_request_thread i raises s
  | TimerSteps i => on_request i _expire_request s
  end.

Fixpoint run (events : list event) (s : server) : option server :=
  match events with
  | [] => Some s
  | e :: events' => match step e s with Some s' => run events' s' | None => None end
  end.
