(* ===== verification/ReolinkServerFacts.v ===== *)
(** * Facts about the webhook server's threads

    In every interleaving of the server, the threads of the connections and their
    timers the slots are accounted for, a deadline cuts only a request still under way,
    and no socket is left open (ReolinkServer.v). *)

From S2P Require Import Prelude Reolink ReolinkServer.

(** ** One request *)

(** The timer has found the request under way and is at work on its socket. *)
Definition at_work (t : timer_point) : bool := match t with Marking | Cutting | Closing => true | _ => false end.

(** What holds of a request at every time, by where its thread is and where its timer is. *)
Definition handler_consistent (r : request) : bool :=
  match rq_handler r with
  | Accepted | SettingUp | Arming => bool_decide (rq_timer r = NoTimer) && negb (rq_active r) && bool_decide (rq_winner r = None) && rq_open r
  | Serving | Ending => negb (bool_decide (rq_timer r = NoTimer) || bool_decide (rq_timer r = Cancelled))
                        && negb (bool_decide (rq_winner r = Some HandlerSide))
  | Cancelling | ShuttingDown => bool_decide (rq_timer r = NoTimer) || negb (rq_active r)
  | Releasing => (bool_decide (rq_timer r = NoTimer) || negb (rq_active r)) && negb (rq_open r)
  | Gone => bool_decide (rq_timer r = NoTimer) || negb (rq_active r) && negb (rq_open r)
  end.
Definition timer_consistent (r : request) : bool :=
  match rq_timer r with
  | NoTimer => bool_decide (rq_winner r = None)
  | Counting | Expiring => if rq_active r then bool_decide (rq_winner r = None) else bool_decide (rq_winner r = Some HandlerSide)
  | Cancelled => bool_decide (rq_winner r = Some HandlerSide) && negb (rq_active r)
  | Marking => bool_decide (rq_winner r = Some TimerSide) && negb (rq_active r)
  | Cutting | Closing => bool_decide (rq_winner r = Some TimerSide) && negb (rq_active r) && rq_close_connection r
  | TimerOver => match rq_winner r with
                 | Some TimerSide => negb (rq_active r) && rq_close_connection r && negb (rq_open r)
                 | Some HandlerSide => negb (rq_active r)
                 | None => false
                 end
  end.
Definition untouched (r : request) : bool := negb (rq_close_connection r || rq_cut r).
Definition consistent (r : request) : bool :=
  handler_consistent r && timer_consistent r && (untouched r || bool_decide (rq_winner r = Some TimerSide)).

(** Case analysis over everything a request holds. *)
Ltac by_cases r :=
  destruct r as [[] t [] c o k w]; cbn in *; try discriminate;
  destruct t; cbn in *; try discriminate; destruct w as [[]|]; cbn in *; try discriminate;
  destruct c, o, k; cbn in *; try discriminate; try done.

Lemma handle_consistent raises r r' : consistent r = true -> handle raises r = Some r' -> consistent r' = true.
Proof. intros H E. destruct raises; by_cases r; injection E as <-; done. Qed.

Lemma expire_consistent r r' : consistent r = true -> _expire_request r = Some r' -> consistent r' = true.
Proof. intros H E. by_cases r; injection E as <-; done. Qed.

(** ** The slots *)

(** A request holds a slot until its thread gives it back. *)
Definition holds_slot (r : request) : bool := negb (bool_decide (rq_handler r = Gone)).
Definition serving (l : list request) : nat := length (filter (fun r => holds_slot r = true) l).

Lemma serving_app l r : serving (l ++ [r]) = (serving l + Nat.b2n (holds_slot r))%nat.
Proof. unfold serving. rewrite list.filter_app, length_app. f_equal. rewrite list.filter_cons, list.filter_nil. by destruct (holds_slot r). Qed.

Lemma serving_insert l i r r' : l !! i = Some r ->
  (serving (<[i := r']> l) + Nat.b2n (holds_slot r) = serving l + Nat.b2n (holds_slot r'))%nat.
Proof.
  revert i. induction l as [|x l IH]; intros [|i] H; try done.
  - injection H as ->. change (<[0%nat := r']> (r :: l)) with (r' :: l). unfold serving. rewrite !list.filter_cons.
    destruct (holds_slot r), (holds_slot r'); repeat case_decide; cbn [length Nat.b2n]; try done; lia.
  - specialize (IH i H). change (<[S i := r']> (x :: l)) with (x :: <[i := r']> l). unfold serving in *.
    rewrite !list.filter_cons. case_decide; cbn [length]; lia.
Qed.

Record served (s : server) : Prop := {
  sv_slots : (sv_free s + serving (sv_requests s) = sv_capacity s)%nat;
  sv_no_overflow : sv_overflow s = false;
  sv_consistent : Forall (fun r => consistent r = true) (sv_requests s);
  (** Only the request being started waits for its thread, and only the one whose
      thread could not be started is left open. *)
  sv_accepted : forall i r, sv_requests s !! i = Some r -> rq_handler r = Accepted -> sv_point s = Starting i;
  sv_starting : forall i, sv_point s = Starting i -> rq_handler <$> sv_requests s !! i = Some Accepted;
  sv_refusing : forall i, sv_point s = Refusing i -> rq_handler <$> sv_requests s !! i = Some Gone;
  sv_left_open : forall i r, sv_requests s !! i = Some r -> rq_handler r = Gone -> rq_open r = true -> sv_point s = Refusing i;
}.

Lemma new_server_served capacity s : new_server capacity = Ok s -> served s /\ (1 <= sv_capacity s <= 4)%nat /\ sv_requests s = [].
Proof.
  unfold new_server, new_slots. set (n := default _ _). destruct (Z.leb_spec 1 n), (Z.leb_spec n MAX_REOLINK_CONCURRENT_CONNECTIONS); try discriminate.
  cbn. intros [= <-]. cbn. unfold MAX_REOLINK_CONCURRENT_CONNECTIONS in *. split; [|split; [lia|done]].
  split; cbn; try done; try lia; intros i r H; try discriminate H; by rewrite lookup_nil in H.
Qed.

(** One request changes, and with it where the server is and the slots. *)
Lemma served_put s s' i r r' : served s -> sv_requests s !! i = Some r -> sv_requests s' = <[i := r']> (sv_requests s) ->
  sv_capacity s' = sv_capacity s -> sv_overflow s' = false ->
  (sv_free s' + Nat.b2n (holds_slot r') = sv_free s + Nat.b2n (holds_slot r))%nat ->
  consistent r' = true -> rq_handler r' <> Accepted ->
  sv_point s' <> Starting i -> (rq_handler r' = Gone -> rq_open r' = true -> sv_point s' = Refusing i) ->
  (sv_point s' = Refusing i -> rq_handler r' = Gone) ->
  (forall j, j <> i -> (sv_point s = Starting j <-> sv_point s' = Starting j) /\ (sv_point s = Refusing j <-> sv_point s' = Refusing j)) ->
  served s'.
Proof.
  intros [H1 H2 H3 H4 H5 H6 H7] Hr E Hcap Hov Hfree Hc Ha Hs Ho Hg Hp. pose proof (lookup_lt_Some _ _ _ Hr) as Hi.
  assert (Hat : forall j q, <[i := r']> (sv_requests s) !! j = Some q -> j = i /\ q = r' \/ j <> i /\ sv_requests s !! j = Some q).
  { intros j q Hq. destruct (decide (j = i)) as [->|]; [|right; by rewrite list_lookup_insert_ne in Hq].
    rewrite list_lookup_insert_eq in Hq by done. left. by injection Hq as <-. }
  split.
  - rewrite E, Hcap. pose proof (serving_insert _ _ _ r' Hr). lia.
  - done.
  - rewrite E. by apply Forall_insert.
  - rewrite E. intros j q [[-> ->]|[Hj Hq]]%Hat Hq'; [done|]. apply (Hp j Hj). by apply (H4 j q).
  - rewrite E. intros j Hj. destruct (decide (j = i)) as [->|Hne]; [done|]. rewrite list_lookup_insert_ne by done. by apply H5, (Hp j Hne).
  - rewrite E. intros j Hj. destruct (decide (j = i)) as [->|Hne]; [rewrite list_lookup_insert_eq by done; cbn; f_equal; by apply Hg|].
    rewrite list_lookup_insert_ne by done. by apply H6, (Hp j Hne).
  - rewrite E. intros j q [[-> ->]|[Hj Hq]]%Hat Hq' Hq''; [by apply Ho|]. apply (Hp j Hj). by apply (H7 j q).
Qed.

(** The server only moves on. *)
Lemma served_point s p : served s -> (forall i, sv_point s <> Starting i /\ sv_point s <> Refusing i) ->
  (forall i, p <> Starting i /\ p <> Refusing i) -> served (set_point p s).
Proof.
  intros [H1 H2 H3 H4 H5 H6 H7] Hs Hp. split; cbn; try done.
  - intros i r Hr Ha. by destruct (Hs i) as [? _]; destruct H; apply (H4 i r).
  - intros i Hi. by destruct (Hp i) as [? _].
  - intros i Hi. by destruct (Hp i) as [_ ?].
  - intros i r Hr Hg Ho. by destruct (Hs i) as [_ ?]; destruct H; apply (H7 i r).
Qed.
Lemma served_stop s : served s -> served (set_stop s).
Proof. intros [H1 H2 H3 H4 H5 H6 H7]. by split. Qed.

Lemma served_accept s : served s -> sv_point s = Polling -> served (accept_client s).
Proof.
  intros [H1 H2 H3 H4 H5 H6 H7] Hp. unfold accept_client. set (l := sv_requests s) in *.
  assert (Hlast : forall (r : request), (l ++ [r]) !! length l = Some r) by (intros r; by apply list_lookup_middle).
  assert (Hat : forall j q r, (l ++ [r]) !! j = Some q -> l !! j = Some q \/ j = length l /\ q = r).
  { intros j q r [Hj|[Hj Hq]]%lookup_app_Some; [by left|]. apply list_lookup_singleton_Some in Hq as [? <-]. right. split; [lia|done]. }
  destruct (Nat.eqb_spec (sv_free s) 0) as [E|E].
  - split; cbn [set_point set_requests sv_free sv_capacity sv_overflow sv_requests sv_point]; try done.
    + fold l. rewrite serving_app. change (holds_slot (close_socket (new_request Gone))) with false. cbn [Nat.b2n]. lia.
    + apply list.Forall_app. split; [done|]. by repeat constructor.
    + intros i r [Hi|[-> ->]]%Hat Ha; [|done]. pose proof (H4 i r Hi Ha). congruence.
    + intros i r [Hi|[-> ->]]%Hat Ha Ho; [|done]. pose proof (H7 i r Hi Ha Ho). congruence.
  - split; cbn [set_point take_slot set_requests sv_free sv_capacity sv_overflow sv_requests sv_point]; try done.
    + fold l. rewrite serving_app. change (holds_slot (new_request Accepted)) with true. cbn [Nat.b2n]. lia.
    + apply list.Forall_app. split; [done|]. by repeat constructor.
    + intros i r [Hi|[-> ->]]%Hat Ha; [|done]. pose proof (H4 i r Hi Ha). congruence.
    + intros i [= <-]. by rewrite Hlast.
    + intros i r [Hi|[-> ->]]%Hat Ha Ho; [|done]. pose proof (H7 i r Hi Ha Ho). congruence.
Qed.

Lemma on_request_some i f s s' : on_request i f s = Some s' ->
  exists r r', sv_requests s !! i = Some r /\ f r = Some r' /\ s' = set_requests (<[i := r']> (sv_requests s)) s.
Proof. unfold on_request. destruct (sv_requests s !! i) as [r|]; [|done]. intros (r' & E & ->)%fmap_Some. eauto. Qed.

(** A slot that is held can be given back. *)
Lemma release_held s i r : served s -> sv_requests s !! i = Some r -> holds_slot r = true -> (sv_free s < sv_capacity s)%nat.
Proof.
  intros H Hr Hh. pose proof (sv_slots s H). pose proof (serving_insert _ _ _ (new_request Gone) Hr) as Hi. rewrite Hh in Hi.
  change (holds_slot (new_request Gone)) with false in Hi. cbn [Nat.b2n] in Hi. lia.
Qed.

(** ** Every step *)

(** What a step of the thread of a request does to it. *)
Lemma handle_shape raises r r' : handle raises r = Some r' ->
  rq_handler r <> Accepted /\ rq_handler r <> Gone /\ rq_handler r' <> Accepted /\ rq_handler r' <> Gone.
Proof. destruct r as [[] t a c o k w]; intros [= <-]; cbn; try (destruct raises); by destruct (decide (t = Counting)). Qed.
Lemma expire_shape r r' : _expire_request r = Some r' ->
  rq_handler r' = rq_handler r /\ rq_timer r <> NoTimer /\ (rq_open r' = true -> rq_open r = true).
Proof. destruct r as [h [] a c o k w]; intros [= <-]; cbn; try (destruct a); done. Qed.

Lemma holds_slot_not_gone r : rq_handler r <> Gone -> holds_slot r = true.
Proof. intros H. unfold holds_slot. by rewrite bool_decide_eq_false_2. Qed.

(** A request at whose thread or timer something happens is neither being started nor
    refused. *)
Lemma moving_request s i r : served s -> sv_requests s !! i = Some r -> rq_handler r <> Accepted -> sv_point s <> Starting i.
Proof. intros H Hr Ha Hs. pose proof (sv_starting s H i Hs) as E. rewrite Hr in E. cbn in E. congruence. Qed.

Lemma served_inner s i r r' : served s -> sv_requests s !! i = Some r -> consistent r' = true ->
  rq_handler r <> Accepted -> rq_handler r' <> Accepted -> (rq_handler r' = Gone <-> rq_handler r = Gone) ->
  (rq_open r' = true -> rq_open r = true) -> served (set_requests (<[i := r']> (sv_requests s)) s).
Proof.
  intros H Hr Hc Ha Ha' Hg Ho. apply (served_put s _ i r r'); try done.
  - exact (sv_no_overflow s H).
  - unfold holds_slot. by rewrite (bool_decide_ext _ _ Hg).
  - exact (moving_request s i r H Hr Ha).
  - intros Hg' Ho'. apply (sv_left_open s H i r); tauto.
  - intros Hi. apply Hg. pose proof (sv_refusing s H i Hi) as E. rewrite Hr in E. cbn in E. congruence.
Qed.

Lemma consistent_at s i r : served s -> sv_requests s !! i = Some r -> consistent r = true.
Proof. intros H Hr. exact (Forall_lookup_1 _ _ _ _ (sv_consistent s H) Hr). Qed.

(** A thread that ends gives its slot back. *)
Lemma served_release s i r p : served s -> sv_requests s !! i = Some r -> holds_slot r = true -> consistent (with_handler Gone r) = true ->
  (p = sv_point s /\ rq_handler r <> Accepted /\ rq_open r = false \/ sv_point s = Starting i /\ p = Refusing i) ->
  served (set_point p (release_slot (set_requests (<[i := with_handler Gone r]> (sv_requests s)) s))).
Proof.
  intros H Hr Hh Hc Hp. pose proof (release_held s i r H Hr Hh) as Hfree.
  assert (E : (sv_capacity s <=? sv_free s)%nat = false) by (apply Nat.leb_gt; lia).
  apply (served_put s _ i r (with_handler Gone r)); try done; cbn [set_point release_slot set_requests sv_free sv_capacity sv_overflow sv_point]; rewrite ?E.
  - by rewrite (sv_no_overflow s H).
  - rewrite Hh. change (holds_slot (with_handler Gone r)) with false. cbn [Nat.b2n]. lia.
  - destruct Hp as [(-> & Ha & _)|[_ ->]]; [exact (moving_request s i r H Hr Ha)|done].
  - destruct Hp as [(-> & _ & Ho)|[_ ->]]; [|done]. cbn. intros _ Ho'. congruence.
  - intros j Hj. destruct Hp as [(-> & _)|[-> ->]]; [done|]. split; split; congruence.
Qed.

Lemma served_handler s s' i raises : served s -> process_request_thread i raises s = Some s' -> served s'.
Proof.
  intros H. unfold process_request_thread. destruct (sv_requests s !! i) as [r|] eqn:Hr; cbn [fmap option_fmap option_map].
  2: { unfold on_request. by rewrite Hr. }
  pose proof (consistent_at s i r H Hr) as Hc. destruct (decide (rq_handler r = Releasing)) as [E|E].
  - rewrite E. intros (s1 & Hs & ->)%fmap_Some. apply on_request_some in Hs as (q & q' & Hq & [= <-] & ->).
    assert (q = r) as -> by congruence. assert (Ho : rq_open r = false) by (clear - Hc E; by_cases r).
    apply (served_release s i r (sv_point s)); [done|done|by apply holds_slot_not_gone; congruence|clear - Hc E; by_cases r|].
    left. split; [done|]. split; [congruence|done].
  - intros Hs. assert (Hon : on_request i (handle raises) s = Some s') by (destruct (rq_handler r); done).
    apply on_request_some in Hon as (q & q' & Hq & Hh & ->). assert (q = r) as -> by congruence.
    pose proof (handle_shape _ _ _ Hh) as (H1 & H2 & H3 & H4).
    apply (served_inner s i r q'); [done|done|by eapply handle_consistent|done|done|done|].
    clear - Hh. destruct r as [[] t a c [] k w]; try discriminate Hh; try done; injection Hh as <-; try (destruct raises);
      try (by destruct (decide (t = Counting))); done.
Qed.

Lemma served_timer s s' i : served s -> on_request i _expire_request s = Some s' -> served s'.
Proof.
  intros H Hs. apply on_request_some in Hs as (r & r' & Hr & He & ->). pose proof (consistent_at s i r H Hr) as Hc.
  pose proof (expire_shape _ _ He) as (E & Ht & Ho).
  assert (Ha : rq_handler r <> Accepted). { intros Ea. clear - Hc Ea Ht. by_cases r. }
  apply (served_inner s i r r'); [done|done|by eapply expire_consistent|done|congruence|by rewrite E|done].
Qed.

Lemma served_server s s' raises : served s -> run_forever raises s = Some s' -> served s'.
Proof.
  intros H. unfold run_forever. destruct (sv_point s) as [| |i|i| |] eqn:Hp; try done.
  - intros [= <-]. apply served_point; [done|by rewrite Hp|by destruct (sv_stop s)].
  - pose proof (sv_starting s H i Hp) as Hi. destruct (sv_requests s !! i) as [r|] eqn:Hr; [|done]. injection Hi as Hi.
    pose proof (consistent_at s i r H Hr) as Hc.
    destruct raises.
    + intros (s2 & (s1 & Hs & ->)%fmap_Some & ->)%fmap_Some. apply on_request_some in Hs as (q & q' & Hq & [= <-] & ->).
      assert (q = r) as -> by congruence.
      apply (served_release s i r (Refusing i)); [done|done|by apply holds_slot_not_gone; congruence|clear - Hc Hi; by_cases r|by right].
    + intros (s1 & Hs & ->)%fmap_Some. apply on_request_some in Hs as (q & q' & Hq & [= <-] & ->). assert (q = r) as -> by congruence.
      apply (served_put s _ i r (with_handler SettingUp r)); try done.
      * exact (sv_no_overflow s H).
      * by rewrite (holds_slot_not_gone r), (holds_slot_not_gone (with_handler SettingUp r)) by (try rewrite Hi; done).
      * clear - Hc Hi. by_cases r.
      * intros j Hj. rewrite Hp. split; split; try done; congruence.
  - pose proof (sv_refusing s H i Hp) as Hi. destruct (sv_requests s !! i) as [r|] eqn:Hr; [|done]. injection Hi as Hi.
    pose proof (consistent_at s i r H Hr) as Hc. intros (s1 & Hs & ->)%fmap_Some. apply on_request_some in Hs as (q & q' & Hq & [= <-] & ->).
    assert (q = r) as -> by congruence. apply (served_put s _ i r (close_socket r)); try done.
    + exact (sv_no_overflow s H).
    + clear - Hc Hi. by_cases r.
    + cbn. by rewrite Hi.
    + intros j Hj. rewrite Hp. split; split; try done; congruence.
  - intros [= <-]. apply served_point; [done|by rewrite Hp|done].
Qed.

Lemma step_served e s s' : served s -> step e s = Some s' -> served s'.
Proof.
  intros H. destruct e as [|raises| | |i raises|i]; cbn [step].
  - intros [= <-]. by apply served_stop.
  - by apply served_server.
  - case_decide as Hp; [|done]. intros [= <-]. by apply served_accept.
  - case_decide as Hp; [|done]. intros [= <-]. apply served_point; [done|by rewrite Hp|done].
  - by apply served_handler.
  - by apply served_timer.
Qed.

Lemma run_served events : forall s s', served s -> run events s = Some s' -> served s' /\ sv_capacity s' = sv_capacity s.
Proof.
  assert (Hcap : forall e s s', step e s = Some s' -> sv_capacity s' = sv_capacity s).
  { intros e s s'. destruct e as [|raises| | |i raises|i]; cbn [step].
    - by intros [= <-].
    - unfold run_forever. destruct (sv_point s); try done; try (by intros [= <-]); [destruct raises|]; intros H;
        repeat match goal with Hf : _ <$> _ = Some _ |- _ => apply fmap_Some in Hf as (? & H & ->) end; apply on_request_some in H as (? & ? & _ & _ & ->); done.
    - case_decide; [|done]. intros [= <-]. unfold accept_client. by case_match.
    - case_decide; [|done]. by intros [= <-].
    - unfold process_request_thread. intros H.
      assert (Hs : (exists s1 f, on_request i f s = Some s1 /\ sv_capacity s' = sv_capacity s1)).
      { destruct (rq_handler <$> sv_requests s !! i) as [[]|]; try (by exists s', (handle raises)).
        apply fmap_Some in H as (s1 & H & ->). by eexists s1, _. }
      destruct Hs as (s1 & f & Hs & ->). by apply on_request_some in Hs as (? & ? & _ & _ & ->).
    - intros H. by apply on_request_some in H as (? & ? & _ & _ & ->). }
  induction events as [|e events IH]; intros s s' H Hrun; [by injection Hrun as <-|]. cbn [run] in Hrun.
  destruct (step e s) as [s1|] eqn:E; [|done]. destruct (IH s1 s' (step_served _ _ _ H E) Hrun) as [H1 H2].
  split; [done|]. by rewrite H2, (Hcap _ _ _ E).
Qed.

(** ** The deadline *)

(** The timer of a request under way closes its socket in at most five steps. *)
Lemma deadline_closes s i r : sv_requests s !! i = Some r -> consistent r = true -> rq_handler r = Serving ->
  exists n s' r', (n <= 5)%nat /\ run (repeat (TimerSteps i) n) s = Some s' /\ sv_requests s' !! i = Some r' /\
    rq_open r' = false /\ rq_close_connection r' = true.
Proof.
  intros Hr Hc Hh. pose proof (lookup_lt_Some _ _ _ Hr) as Hi.
  assert (Hstep : forall s q q', sv_requests s !! i = Some q -> _expire_request q = Some q' ->
    step (TimerSteps i) s = Some (set_requests (<[i := q']> (sv_requests s)) s)).
  { intros s1 q q' Hq E. cbn [step]. unfold on_request. rewrite Hq, E. done. }
  assert (Hrun : forall n s q, sv_requests s !! i = Some q -> match Nat.iter n (fun o => o ≫= _expire_request) (Some q) with
    | Some q' => exists s', run (repeat (TimerSteps i) n) s = Some s' /\ sv_requests s' !! i = Some q' | None => True end).
  { induction n as [|n IH]; intros s1 q Hq; [by exists s1|]. rewrite Nat.iter_succ_r. cbn [mbind option_bind].
    destruct (_expire_request q) as [q'|] eqn:E.
    - specialize (IH (set_requests (<[i := q']> (sv_requests s1)) s1) q'). cbn [set_requests sv_requests] in IH.
      rewrite list_lookup_insert_eq in IH by (by apply lookup_lt_Some in Hq). specialize (IH eq_refl). case_match; [|done].
      destruct IH as (s' & Hs & Hl). exists s'. split; [|exact Hl].
      change (match step (TimerSteps i) s1 with Some s2 => run (repeat (TimerSteps i) n) s2 | None => None end = Some s').
      rewrite (Hstep _ _ _ Hq E). exact Hs.
    - assert (E0 : forall k, Nat.iter k (fun o => o ≫= _expire_request) None = None) by (intros k; induction k as [|k IHk]; [done|by rewrite Nat.iter_succ, IHk]).
      by rewrite E0. }
  assert (Hn : exists n q', (n <= 5)%nat /\ Nat.iter n (fun o => o ≫= _expire_request) (Some r) = Some q' /\ rq_open q' = false /\ rq_close_connection q' = true).
  { clear - Hc Hh. by_cases r;
      match goal with |- context [rq_timer] => idtac | |- context [{| rq_handler := _; rq_timer := ?t |}] =>
        let n := match t with Counting => constr:(5%nat) | Expiring => constr:(4%nat) | Marking => constr:(3%nat)
                 | Cutting => constr:(2%nat) | Closing => constr:(1%nat) | _ => constr:(0%nat) end in
        exists n; eexists; (split; [lia|]); (split; [reflexivity|done]) end. }
  destruct Hn as (n & q' & Hn & Hq & Ho & Hcl). specialize (Hrun n s r Hr). rewrite Hq in Hrun. destruct Hrun as (s' & Hs & Hl).
  by exists n, s', q'.
Qed.

(** Nothing is going on any more. *)
Definition idle (s : server) : Prop := sv_point s = Over /\ Forall (fun r => rq_handler r = Gone) (sv_requests s).

(** C39: in every interleaving of the server, the threads of the connections and
    their timers, at most four requests are served at a time, every slot is given back
    exactly once, a deadline touches only a connection whose request it found under
    way, and it closes the socket of such a request within five steps of its own; when
    the server is over and the threads are gone all slots are free and all sockets
    closed. *)
Theorem webhook_requests_accounted capacity s0 events s : new_server capacity = Ok s0 -> run events s0 = Some s ->
  (sv_free s + serving (sv_requests s) = sv_capacity s /\ sv_capacity s <= 4)%nat /\ sv_overflow s = false /\
  Forall (fun r => rq_winner r <> Some TimerSide -> rq_close_connection r = false /\ rq_cut r = false /\ at_work (rq_timer r) = false)
    (sv_requests s) /\
  (forall i r, sv_requests s !! i = Some r -> rq_handler r = Serving -> exists n s' r', (n <= 5)%nat /\
     run (repeat (TimerSteps i) n) s = Some s' /\ sv_requests s' !! i = Some r' /\ rq_open r' = false /\ rq_close_connection r' = true) /\
  (idle s -> sv_free s = sv_capacity s /\ Forall (fun r => rq_open r = false) (sv_requests s)).
Proof.
  intros H0 Hrun. apply new_server_served in H0 as (H0 & Hcap & _). destruct (run_served _ _ _ H0 Hrun) as [H E].
  pose proof (sv_slots s H) as Hslots. split; [lia|]. split; [exact (sv_no_overflow s H)|]. split; [|split].
  - eapply list.Forall_impl; [exact (sv_consistent s H)|]. intros r Hc Hw. by_cases r.
  - intros i r Hr Hh. exact (deadline_closes s i r Hr (consistent_at s i r H Hr) Hh).
  - intros [Hp Hg]. split.
    + assert (Hz : serving (sv_requests s) = 0%nat).
      { clear - Hg. induction Hg as [|r l Hr _ IH]; [done|]. unfold serving in *. rewrite list.filter_cons. case_decide as Hh; [|done].
        unfold holds_slot in Hh. rewrite Hr in Hh. discriminate Hh. }
      lia.
    + apply Forall_lookup_2. intros i r Hr. pose proof (Forall_lookup_1 _ _ _ _ Hg Hr) as Hgone. destruct (rq_open r) eqn:Ho; [|done].
      pose proof (sv_left_open s H i r Hr Hgone Ho). congruence.
Qed.

(** ** Interleavings *)

Module Sample.
Definition started (i : nat) : list event := [ServerSteps false; Connects; ServerSteps false; HandlerSteps i false; HandlerSteps i false].
(** The thread of a request from the end of its service on. *)
Definition finishes (i : nat) : list event := repeat (HandlerSteps i false) 5.

(** One slot: the second client is refused, the first request overruns its deadline and is
    cut, the third one ends in time and its timer is cancelled. *)
Definition history : list event :=
  started 0 ++ [ServerSteps false; Connects] ++ repeat (TimerSteps 0) 5 ++ finishes 0 ++ started 2 ++ finishes 2
  ++ [StopSet; ServerSteps false; ServerSteps false].

Definition one_slot : server :=
  {| sv_point := Checking; sv_stop := false; sv_free := 1; sv_capacity := 1; sv_overflow := false; sv_requests := [] |}.
Abbreviation final := (default one_slot (run history one_slot)).

Example outcomes : (fun r => (rq_cut r, rq_winner r, rq_timer r)) <$> sv_requests final =
  [(true, Some TimerSide, TimerOver); (false, None, NoTimer); (false, Some HandlerSide, Cancelled)].
Proof. by vm_compute. Qed.

(** The end of a request and the end of its interval may overlap: whoever takes the
    lock first wins, and a timer that comes second touches nothing. *)
Example late_timer :
  option_map (fun s => (fun r => (rq_cut r, rq_close_connection r, rq_timer r)) <$> sv_requests s)
    (run (started 0 ++ [TimerSteps 0; HandlerSteps 0 false; HandlerSteps 0 false; TimerSteps 0] ++ repeat (HandlerSteps 0 false) 3) one_slot)
  = Some [(false, false, TimerOver)].
Proof. by vm_compute. Qed.

Lemma webhook_requests_accounted_witness : sv_free final = 1%nat /\ Forall (fun r => rq_open r = false) (sv_requests final).
Proof.
  destruct (webhook_requests_accounted (Some 1%Z) one_slot history final ltac:(exact eq_refl) ltac:(by vm_compute)) as (_ & _ & _ & _ & H).
  destruct H as [H1 H2].
  - split; [by vm_compute|]. apply (bool_decide_unpack _). by vm_compute.
  - split; [exact H1|exact H2].
Defined.
End Sample.
