(* ===== verification/StoreMigration.v ===== *)
(** * Opening the local store: gate_controller/store.py

    [LocalStore._migrate]: the tables and the columns that an older file lacks, the import
    of the legacy log, the migrations of the outbox (StoreOutbox.v); and
    [create_telemetry_snapshot], the copy an export reads.  The schema statements are
    committed one by one, the changes of rows are one transaction.  A file is its rows, its
    columns and the names in schema_migrations; [fromisoformat] and the text SQLite
    gives a real are arguments. *)

From S2P Require Import Prelude Models Json Float Text Telemetry Reolink Store StoreOutbox.

(** ** Columns *)

(** The affinities of the columns that matter here. *)
Inductive affinity := RealAffinity | TextAffinity.

#[global] Instance affinity_eq_dec : EqDecision affinity.
Proof. solve_decision. Defined.

(** The columns of actuation_claims in CREATE TABLE that a migration may add. *)
Definition created_columns : list (string * affinity) :=
  [("terminal_status", TextAffinity); ("terminal_detail", TextAffinity); ("activation_attempt_at", TextAffinity);
   ("activation_monotonic", RealAffinity); ("boot_id", TextAffinity); ("pending_event", TextAffinity);
   ("pending_outbox_payload", TextAffinity); ("pending_command_id", TextAffinity); ("pending_command_created_at", TextAffinity)].

(** The names of the loop of ALTER TABLE, in its order. *)
Definition added_names : list string :=
  ["terminal_status"; "terminal_detail"; "activation_attempt_at"; "activation_monotonic"; "boot_id"; "pending_event";
   "pending_outbox_payload"; "pending_command_id"; "pending_command_created_at"].

(** What SQLite stores in the log table of an old controller. *)
Inductive sql_value := SNull | SInt (z : Z) | SReal (f : pyfloat) | SText (s : string) | SBlob.

Record legacy_log := {
  lg_columns : list string;
  (** [SELECT timestamp, gate_opened FROM log] *)
  lg_rows : list (sql_value * sql_value);
}.

Record store_file := {
  fl_database : database;
  (** [PRAGMA table_info] of actuation_claims and of outbox, when the tables are there. *)
  fl_claim_columns : option (list (string * affinity));
  fl_outbox_columns : option (list string);
  fl_applied : list string;
  fl_log : option legacy_log;
}.

Definition with_database (d : database) (f : store_file) : store_file :=
  {| fl_database := d; fl_claim_columns := fl_claim_columns f; fl_outbox_columns := fl_outbox_columns f; fl_applied := fl_applied f;
     fl_log := fl_log f |}.
Definition with_claim_columns (l : list (string * affinity)) (f : store_file) : store_file :=
  {| fl_database := fl_database f; fl_claim_columns := Some l; fl_outbox_columns := fl_outbox_columns f; fl_applied := fl_applied f;
     fl_log := fl_log f |}.
Definition with_outbox_columns (l : list string) (f : store_file) : store_file :=
  {| fl_database := fl_database f; fl_claim_columns := fl_claim_columns f; fl_outbox_columns := Some l; fl_applied := fl_applied f;
     fl_log := fl_log f |}.
Definition with_applied (l : list string) (f : store_file) : store_file :=
  {| fl_database := fl_database f; fl_claim_columns := fl_claim_columns f; fl_outbox_columns := fl_outbox_columns f; fl_applied := l;
     fl_log := fl_log f |}.

(** [CREATE TABLE IF NOT EXISTS] *)
Definition create_tables (f : store_file) : store_file :=
  let f := match fl_claim_columns f with Some _ => f | None => with_claim_columns created_columns f end in
  match fl_outbox_columns f with Some _ => f | None => with_outbox_columns ["send_state"] f end.

(** A row whose column was added holds NULL there. *)
Definition null_column (name : string) (c : claim_row) : claim_row :=
  let keep {A} (column : string) (v : option A) : option A := if String.eqb name column then None else v in
  {| cl_id := cl_id c; cl_idempotency_key := cl_idempotency_key c; cl_claimed_at := cl_claimed_at c; cl_state := cl_state c;
     cl_event_id := cl_event_id c; cl_terminal_status := keep "terminal_status" (cl_terminal_status c);
     cl_terminal_detail := keep "terminal_detail" (cl_terminal_detail c);
     cl_activation_attempt_at := keep "activation_attempt_at" (cl_activation_attempt_at c);
     cl_activation_monotonic := keep "activation_monotonic" (cl_activation_monotonic c); cl_boot_id := keep "boot_id" (cl_boot_id c);
     cl_pending_event := keep "pending_event" (cl_pending_event c);
     cl_pending_outbox_payload := keep "pending_outbox_payload" (cl_pending_outbox_payload c);
     cl_pending_command_id := keep "pending_command_id" (cl_pending_command_id c);
     cl_pending_command_created_at := keep "pending_command_created_at" (cl_pending_command_created_at c) |}.

(** [ALTER TABLE actuation_claims ADD COLUMN {name} TEXT], unless [columns], read before
    the loop, has it *)
Definition add_claim_column (columns : list string) (f : store_file) (name : string) : store_file :=
  if bool_decide (name ∈ columns) then f
  else
    with_database (set_claims (null_column name <$> db_claims (fl_database f)) (fl_database f))
      (with_claim_columns (default [] (fl_claim_columns f) ++ [(name, TextAffinity)]) f).
Definition add_claim_columns (f : store_file) : store_file :=
  foldl (add_claim_column (default [] (fl_claim_columns f)).*1) f added_names.

(** [ALTER TABLE outbox ADD COLUMN send_state TEXT NOT NULL DEFAULT 'ready'] *)
Definition add_send_state (f : store_file) : store_file :=
  let columns := default [] (fl_outbox_columns f) in
  if bool_decide ("send_state" ∈ columns) then f
  else
    with_database (set_outbox (set_send_state Ready <$> db_outbox (fl_database f)) (fl_database f))
      (with_outbox_columns (columns ++ ["send_state"]) f).

(** The tables and the columns, the statements before the rows. *)
Definition upgraded (f : store_file) : store_file := add_send_state (add_claim_columns (create_tables f)).

(** ** The legacy log *)

(** store.py: _legacy_true *)
Definition _legacy_true (value : sql_value) : bool :=
  match value with
  | SInt z => negb (z =? 0)%Z
  | SReal f => bool_decide (f <> float_0)
  | SText s => bool_decide (lower_text (String.string_of_list_ascii (strip (String.list_ascii_of_string s))) ∈ ["1"; "true"; "yes"; "y"; "on"])
  | SNull | SBlob => false
  end.

Section Legacy.
Context (fromisoformat : string -> option datetime).

(** store.py: _parse_timestamp; a value that is not text has no [replace], and
    that of bytes takes no text. *)
Definition _parse_timestamp (value : sql_value) : result Z :=
  match value with
  | SText s =>
      match fromisoformat (replace_zulu s) with
      | Some (Naive us) => Ok us
      | Some (Aware us) => rbind (astimezone_utc us) (fun _ => Ok us)
      | None => Ok DATETIME_MIN
      end
  | SBlob => Err TypeError
  | SNull | SInt _ | SReal _ => Ok DATETIME_MIN
  end.

(** store.py: _legacy_log_exists *)
Definition _legacy_log_exists (f : store_file) : bool :=
  match fl_log f with
  | Some log => bool_decide ("timestamp" ∈ lg_columns log) && bool_decide ("gate_opened" ∈ lg_columns log)
  | None => false
  end.

Definition legacy_event (id received_at : Z) (opened : bool) : event_row :=
  {| ev_id := id; ev_received_at := received_at; ev_decision_at := None; ev_relay_activated_at := None; ev_source := "legacy";
     ev_reason := "legacy_log_import"; ev_opened := opened; ev_idempotency_key := None; ev_authorised_plate := None;
     ev_observed_plate := None; ev_ocr_confidence := float_0 |}.

(** store.py: _import_legacy_log *)
Fixpoint _import_legacy_log (rows : list (sql_value * sql_value)) : M database unit :=
  match rows with
  | [] => ret tt
  | (timestamp, opened) :: rows' =>
      match _parse_timestamp timestamp with
      | Err e => raise e
      | Ok received_at =>
          modify (fun d => set_events (db_events d ++ [legacy_event (next_rowid (ev_id <$> db_events d)) received_at (_legacy_true opened)]) d) ;!
          _import_legacy_log rows'
      end
  end.

(** The import and its name in schema_migrations, [INSERT OR IGNORE]. *)
Definition import_once (f : store_file) : M database (list string) :=
  let applied := fl_applied f in
  if bool_decide ("legacy_log_import" ∈ applied) then ret applied
  else
    (if _legacy_log_exists f then _import_legacy_log (default [] (lg_rows <$> fl_log f)) else ret tt) ;!
    ret (applied ++ ["legacy_log_import"]).

(** The changes of rows, one transaction with the names they add. *)
Definition migrate_rows (f : store_file) : M database (list string) :=
  transaction (let! applied := import_once f in _migrate_outbox applied).

(** store.py: LocalStore._migrate *)
Definition _migrate (f : store_file) : result unit * store_file :=
  match migrate_rows (upgraded f) (fl_database (upgraded f)) with
  | (Ok applied, d) => (Ok tt, with_applied applied (with_database d (upgraded f)))
  | (Err e, d) => (Err e, with_database d (upgraded f))
  end.
End Legacy.

(** ** The cooldown on an upgraded file *)

Section Cooldown.
(** The text SQLite gives a real stored in a TEXT column, or compared with one. *)
Context (text_of_real : Z -> string).

(** [activation_monotonic >= ?] by the affinity of the column: a TEXT column holds
    texts, and gives its affinity to the number it is compared with. *)
Definition column_ge (a : affinity) (column : option Z) (bound : Z) : bool :=
  match a, column with
  | RealAffinity, _ => ge_opt column bound
  | TextAffinity, Some v => String.leb (text_of_real bound) (text_of_real v)
  | TextAffinity, None => false
  end.

Definition affinity_of (name : string) (f : store_file) : affinity :=
  default RealAffinity (dget name (default [] (fl_claim_columns f))).

(** The first query of [_was_opened_since], on a file. *)
Definition attempted_since (f : store_file) (monotonic_cutoff : Z) (boot_id : string) : bool :=
  existsb (fun c => bool_decide (cl_boot_id c = Some boot_id)
                    && column_ge (affinity_of "activation_monotonic" f) (cl_activation_monotonic c) monotonic_cutoff)
    (db_claims (fl_database f)).
End Cooldown.

(** ** create_telemetry_snapshot *)

Definition _SNAPSHOT_PAGES_PER_STEP : Z := 16.
Definition _SNAPSHOT_BUSY_TIMEOUT : Z := 250000.
Definition _SNAPSHOT_BUSY_SLICE_MS : Z := 10.

(** One step of [source.backup]: it is done, or the callback reads the clock, or it raises by itself. *)
Inductive backup_step := Done | Progress (now : Z) | Raises (e : exc).

(** store.py: apply_remaining_budget, the busy timeout it sets in milliseconds *)
Definition apply_remaining_budget (deadline now : Z) : result Z :=
  let remaining_ms := (Z.max 0 (deadline - now) / 1000)%Z in
  if (remaining_ms <=? 0)%Z then Err TimeoutError else Ok (Z.min remaining_ms _SNAPSHOT_BUSY_SLICE_MS).

(** The backup: the timeouts set on the way and how it ends; [None] while the steps given do not end it. *)
Fixpoint backup (deadline : Z) (steps : list backup_step) : list Z * option (result unit) :=
  match steps with
  | [] => ([], None)
  | Done :: _ => ([], Some (Ok tt))
  | Raises e :: _ => ([], Some (Err e))
  | Progress now :: steps' =>
      match apply_remaining_budget deadline now with
      | Err e => ([], Some (Err e))
      | Ok timeout => let (timeouts, r) := backup deadline steps' in (timeout :: timeouts, r)
      end
  end.

(** store.py: create_telemetry_snapshot, once both connections are open; [started] and [first] are
    its first two readings of the clock. *)
Definition create_telemetry_snapshot (started first : Z) (steps : list backup_step) : list Z * option (result unit) :=
  let deadline := (started + _SNAPSHOT_BUSY_TIMEOUT)%Z in
  match apply_remaining_budget deadline first with
  | Err e => ([], Some (Err e))
  | Ok timeout => let (timeouts, r) := backup deadline steps in (timeout :: timeouts, r)
  end.
