(* ===== verification/StoreMigrationFacts.v ===== *)
(** * Facts about opening the local store

    Opening a file twice changes nothing more, the legacy log is imported once and
    completely or not at all, and a snapshot stays within its budget; the comparison
    of the cooldown is one of numbers only on a file created by this version
    (StoreMigration.v). *)

From S2P Require Import Prelude Models Json Float Text Telemetry Reolink Store StoreFacts StoreOutbox StoreMigration.

(** ** Columns *)

(** The names the loop adds, in order. *)
Definition missing (columns : list string) : list string := filter (fun n => bool_decide (n ∈ columns) = false) added_names.

Lemma add_columns_spec columns names : forall f,
  fl_claim_columns (foldl (add_claim_column columns) f names) =
    match filter (fun n => bool_decide (n ∈ columns) = false) names with
    | [] => fl_claim_columns f
    | l => Some (default [] (fl_claim_columns f) ++ ((fun n => (n, TextAffinity)) <$> l))
    end.
Proof.
  induction names as [|n names IH]; intros f; [done|]. cbn [foldl]. rewrite IH, list.filter_cons. unfold add_claim_column.
  destruct (bool_decide (n ∈ columns)) eqn:E; case_decide as Hd; try done. cbn [with_database with_claim_columns fl_claim_columns].
  destruct (filter _ names); cbn; [done|]. by rewrite <- app_assoc.
Qed.

(** What the schema step leaves alone. *)
Lemma add_columns_frame columns names : forall f f', foldl (add_claim_column columns) f names = f' ->
  fl_outbox_columns f' = fl_outbox_columns f /\ fl_applied f' = fl_applied f /\ fl_log f' = fl_log f /\
  db_events (fl_database f') = db_events (fl_database f) /\ db_outbox (fl_database f') = db_outbox (fl_database f) /\
  (cl_idempotency_key <$> db_claims (fl_database f')) = cl_idempotency_key <$> db_claims (fl_database f).
Proof.
  induction names as [|n names IH]; intros f f' H; [by subst|]. cbn [foldl] in H. destruct (IH _ _ H) as (H1 & H2 & H3 & H4 & H5 & H6).
  unfold add_claim_column in *. destruct (bool_decide _); [done|].
  cbn [with_database with_claim_columns fl_outbox_columns fl_applied fl_log fl_database set_claims db_events db_outbox db_claims] in *.
  repeat (split; [done|]). rewrite H6. rewrite <- list_fmap_compose. by apply list_fmap_ext.
Qed.

(** Nothing is missing, so the schema step changes nothing. *)
Definition complete (f : store_file) : Prop :=
  (exists l, fl_claim_columns f = Some l /\ Forall (fun n => n ∈ l.*1) added_names) /\
  (exists l, fl_outbox_columns f = Some l /\ "send_state" ∈ l).

Lemma upgraded_complete f : complete (upgraded f).
Proof.
  unfold upgraded. set (g := create_tables f). assert (Hg : is_Some (fl_claim_columns g) /\ is_Some (fl_outbox_columns g)).
  { unfold g, create_tables. destruct f as [d [c|] [o|] a l]; cbn; split; by eexists. }
  destruct Hg as [[c Hc] [o Ho]]. split.
  - assert (E : fl_claim_columns (add_send_state (add_claim_columns g)) = fl_claim_columns (add_claim_columns g)).
    { unfold add_send_state. by destruct (bool_decide _). }
    rewrite E. unfold add_claim_columns. rewrite add_columns_spec, Hc. cbn [default]. change (filter _ added_names) with (missing c.*1).
    assert (Hin : forall n, n ∈ added_names -> n ∈ c.*1 \/ n ∈ missing c.*1).
    { intros n Hn. destruct (decide (n ∈ c.*1)) as [|Hne]; [by left|]. right. apply list_elem_of_filter. by rewrite bool_decide_eq_false. }
    destruct (missing c.*1) as [|m ms].
    + exists c. split; [done|]. apply list.Forall_forall. intros n Hn. destruct (Hin n Hn) as [|Hnil]; [done|]. by apply elem_of_nil in Hnil.
    + eexists. split; [reflexivity|]. apply list.Forall_forall. intros n Hn. rewrite fmap_app, elem_of_app.
      destruct (Hin n Hn) as [|Hm]; [by left|]. right. rewrite <- list_fmap_compose. apply list_elem_of_fmap. by exists n.
  - unfold add_send_state. set (h := add_claim_columns g). destruct (bool_decide _) eqn:E.
    + apply bool_decide_eq_true in E. destruct (fl_outbox_columns h) as [l|]; [by exists l|]. by apply elem_of_nil in E.
    + cbn. eexists. split; [reflexivity|]. apply elem_of_app. right. by apply list_elem_of_here.
Qed.

Lemma upgraded_noop f : complete f -> upgraded f = f.
Proof.
  intros [(c & Hc & Hn) (o & Ho & Hs)]. unfold upgraded. assert (E : create_tables f = f) by (unfold create_tables; by rewrite Hc, Ho).
  rewrite E. assert (E2 : add_claim_columns f = f).
  { unfold add_claim_columns. rewrite Hc. cbn [default]. clear - Hn. induction Hn as [|n names Hn _ IH]; [done|]. cbn [foldl].
    unfold add_claim_column at 2. by rewrite bool_decide_eq_true_2. }
  rewrite E2. unfold add_send_state. rewrite Ho. cbn [default]. by rewrite bool_decide_eq_true_2.
Qed.

Lemma upgraded_frame f : fl_applied (upgraded f) = fl_applied f /\ fl_log (upgraded f) = fl_log f /\
  db_events (fl_database (upgraded f)) = db_events (fl_database f) /\
  (cl_idempotency_key <$> db_claims (fl_database (upgraded f))) = cl_idempotency_key <$> db_claims (fl_database f) /\
  (ob_payload <$> db_outbox (fl_database (upgraded f))) = ob_payload <$> db_outbox (fl_database f).
Proof.
  unfold upgraded. set (g := create_tables f). assert (Hg : fl_database g = fl_database f /\ fl_applied g = fl_applied f /\ fl_log g = fl_log f).
  { unfold g, create_tables. by destruct f as [d [c|] [o|] a l]. }
  destruct Hg as (G1 & G2 & G3). destruct (add_columns_frame _ added_names g (add_claim_columns g) eq_refl) as (_ & H2 & H3 & H4 & H5 & H6).
  rewrite G1, G2, G3 in *. revert H2 H3 H4 H5 H6. generalize (add_claim_columns g) as h. intros h H2 H3 H4 H5 H6.
  unfold add_send_state. destruct (bool_decide _).
  - repeat (split; [done|]). by rewrite H5.
  - cbn [with_database with_outbox_columns fl_applied fl_log fl_database set_outbox db_events db_claims db_outbox].
    repeat (split; [done|]). rewrite <- list_fmap_compose, <- H5. by apply list_fmap_ext.
Qed.

(** ** Rows *)

Section Rows.
Context (fromisoformat : string -> option datetime).

(** The event a row of the log becomes. *)
Definition imports (row : sql_value * sql_value) (e : event_row) : Prop :=
  _parse_timestamp fromisoformat row.1 = Ok (ev_received_at e) /\ ev_opened e = _legacy_true row.2 /\
  ev_source e = "legacy" /\ ev_reason e = "legacy_log_import" /\ ev_idempotency_key e = None /\ ev_relay_activated_at e = None.

(** The database with the next event of the log. *)
Definition append_legacy (received_at : Z) (opened : bool) (d : database) : database :=
  set_events (db_events d ++ [legacy_event (next_rowid (ev_id <$> db_events d)) received_at opened]) d.

Lemma import_cons timestamp opened rows d : _import_legacy_log fromisoformat ((timestamp, opened) :: rows) d =
  match _parse_timestamp fromisoformat timestamp with
  | Err e => (Err e, d)
  | Ok received_at => _import_legacy_log fromisoformat rows (append_legacy received_at (_legacy_true opened) d)
  end.
Proof. cbn [_import_legacy_log]. by destruct (_parse_timestamp fromisoformat timestamp). Qed.

Lemma legacy_event_imports timestamp opened id received_at : _parse_timestamp fromisoformat timestamp = Ok received_at ->
  imports (timestamp, opened) (legacy_event id received_at (_legacy_true opened)).
Proof. intros E. unfold imports. cbn [fst snd legacy_event ev_received_at ev_opened ev_source ev_reason ev_idempotency_key ev_relay_activated_at]. auto 10. Qed.

Lemma import_rows rows : forall d u d', _import_legacy_log fromisoformat rows d = (Ok u, d') ->
  exists new, db_events d' = db_events d ++ new /\ Forall2 imports rows new /\ db_claims d' = db_claims d.
Proof.
  induction rows as [|[timestamp opened] rows IH]; intros d u d' H.
  - injection H as _ <-. exists []. by rewrite app_nil_r.
  - rewrite import_cons in H. destruct (_parse_timestamp fromisoformat timestamp) as [at_|e] eqn:E; [|discriminate H].
    apply IH in H as (new & E1 & E2 & E3). eexists (_ :: new). split.
    + rewrite E1. unfold append_legacy at 1. cbn [set_events db_events]. by rewrite <- app_assoc.
    + split; [|exact E3]. apply List.Forall2_cons; [|exact E2]. exact (legacy_event_imports _ _ _ _ E).
Qed.

(** The three migrations of the outbox, once applied. *)
Definition outbox_names : list string := ["outbox_payload_v1"; "outbox_evidence_v2"; "outbox_incompatible_followup_v3"].

Lemma migration_applies name step applied d l d' : migration name step applied d = (Ok l, d') ->
  applied ⊆ l /\ name ∈ l /\ db_events d' = db_events d /\ db_claims d' = db_claims d.
Proof.
  unfold migration. destruct (bool_decide (name ∈ applied)) eqn:E.
  - apply bool_decide_eq_true in E. by intros [= <- <-].
  - destruct (rmap _ _); [|done]. intros [= <- <-]. split; [set_solver|]. split; [set_solver|done].
Qed.

Lemma migration_noop name step applied d : name ∈ applied -> migration name step applied d = (Ok applied, d).
Proof. intros H. unfold migration. by rewrite bool_decide_eq_true_2. Qed.

Lemma outbox_applies applied d l d' : _migrate_outbox applied d = (Ok l, d') ->
  applied ⊆ l /\ outbox_names ⊆ l /\ db_events d' = db_events d /\ db_claims d' = db_claims d.
Proof.
  unfold _migrate_outbox, transaction, bind. destruct (migration "outbox_payload_v1" _ applied d) as [[l1|e] d1] eqn:E1; [|done].
  destruct (migration "outbox_evidence_v2" _ l1 d1) as [[l2|e] d2] eqn:E2; [|done].
  destruct (migration "outbox_incompatible_followup_v3" _ l2 d2) as [[l3|e] d3] eqn:E3; [|done]. intros [= <- <-].
  apply migration_applies in E1 as (A1 & B1 & C1 & D1). apply migration_applies in E2 as (A2 & B2 & C2 & D2).
  apply migration_applies in E3 as (A3 & B3 & C3 & D3). split; [set_solver|]. split; [unfold outbox_names; set_solver|]. split; congruence.
Qed.

Lemma outbox_noop applied d : outbox_names ⊆ applied -> _migrate_outbox applied d = (Ok applied, d).
Proof.
  intros H. unfold _migrate_outbox, transaction, bind. unfold outbox_names in H.
  rewrite (migration_noop "outbox_payload_v1") by set_solver. rewrite (migration_noop "outbox_evidence_v2") by set_solver.
  by rewrite (migration_noop "outbox_incompatible_followup_v3") by set_solver.
Qed.

(** The rows to import: those of a log with both columns, unless they were imported. *)
Definition to_import (f : store_file) : list (sql_value * sql_value) :=
  if bool_decide ("legacy_log_import" ∈ fl_applied f) then []
  else if _legacy_log_exists f then default [] (lg_rows <$> fl_log f) else [].

Lemma import_once_spec f d l d' : import_once fromisoformat f d = (Ok l, d') ->
  fl_applied f ⊆ l /\ "legacy_log_import" ∈ l /\ db_claims d' = db_claims d /\
  exists new, db_events d' = db_events d ++ new /\ Forall2 imports (to_import f) new.
Proof.
  unfold import_once, to_import. destruct (bool_decide ("legacy_log_import" ∈ fl_applied f)) eqn:E.
  - apply bool_decide_eq_true in E. intros [= <- <-]. split; [done|]. split; [done|]. split; [done|]. exists []. by rewrite app_nil_r.
  - unfold bind at 1. destruct (_legacy_log_exists f).
    + destruct (_import_legacy_log _ _ d) as [[u|e] d1] eqn:Ei; [|done]. intros [= <- <-]. apply import_rows in Ei as (new & E1 & E2 & E3).
      split; [set_solver|]. split; [set_solver|]. split; [done|]. by exists new.
    + intros [= <- <-]. split; [set_solver|]. split; [set_solver|]. split; [done|]. exists []. by rewrite app_nil_r.
Qed.

Lemma migrate_rows_spec f l d d' : migrate_rows fromisoformat f d = (Ok l, d') ->
  fl_applied f ⊆ l /\ "legacy_log_import" :: outbox_names ⊆ l /\ db_claims d' = db_claims d /\
  exists new, db_events d' = db_events d ++ new /\ Forall2 imports (to_import f) new.
Proof.
  unfold migrate_rows, transaction, bind. destruct (import_once fromisoformat f d) as [[l1|e] d1] eqn:E1; [|done].
  destruct (_migrate_outbox l1 d1) as [[l2|e] d2] eqn:E2; [|done]. intros [= <- <-].
  apply import_once_spec in E1 as (A1 & B1 & C1 & new & E1 & F1). apply outbox_applies in E2 as (A2 & B2 & C2 & D2).
  split; [set_solver|]. split; [set_solver|]. split; [congruence|]. exists new. split; [congruence|done].
Qed.

Lemma migrate_rows_noop f d : "legacy_log_import" :: outbox_names ⊆ fl_applied f -> migrate_rows fromisoformat f d = (Ok (fl_applied f), d).
Proof.
  intros H. unfold migrate_rows, transaction, import_once. unfold bind at 1. rewrite bool_decide_eq_true_2 by set_solver. cbn [ret].
  by rewrite outbox_noop by set_solver.
Qed.
End Rows.

(** A file with nothing to migrate. *)
Lemma opened_again fromisoformat f l d : complete (with_applied l (with_database d f)) -> "legacy_log_import" :: outbox_names ⊆ l ->
  _migrate fromisoformat (with_applied l (with_database d f)) = (Ok tt, with_applied l (with_database d f)).
Proof.
  intros Hc Hl. set (f' := with_applied l (with_database d f)) in *. unfold _migrate.
  rewrite upgraded_noop by done.
  by rewrite migrate_rows_noop.
Qed.

Lemma transaction_failed {A} (m : M database A) d e d' : transaction m d = (Err e, d') -> d' = d.
Proof. unfold transaction. destruct (m d) as [[a|e'] d1]; intros H; [discriminate H|]. by apply pair_equal_spec in H as [_ <-]. Qed.

Lemma with_same_database f : with_database (fl_database f) f = f.
Proof. by destruct f. Qed.

Lemma complete_rows f l d : complete f -> complete (with_applied l (with_database d f)).
Proof. intros [H1 H2]. by split. Qed.
Lemma to_import_same f g : fl_applied f = fl_applied g -> fl_log f = fl_log g -> to_import f = to_import g.
Proof. intros E1 E2. unfold to_import, _legacy_log_exists. by rewrite E1, E2. Qed.

Lemma migrate_cases fromisoformat f r f' : _migrate fromisoformat f = (r, f') ->
  (exists l d, r = Ok tt /\ f' = with_applied l (with_database d (upgraded f)) /\
     migrate_rows fromisoformat (upgraded f) (fl_database (upgraded f)) = (Ok l, d)) \/
  (exists e, r = Err e /\ f' = upgraded f).
Proof.
  unfold _migrate. generalize (upgraded f) as g. intros g.
  destruct (migrate_rows fromisoformat g (fl_database g)) as [[l|e] d] eqn:E; intros H; apply pair_equal_spec in H as [<- <-].
  - left. by exists l, d.
  - right. exists e. unfold migrate_rows in E. apply transaction_failed in E. subst d. by rewrite with_same_database.
Qed.


(** ** The cooldown on an upgraded file *)

(** A file that this version created compares the attempts as numbers, as
    [monotonic_recent] does. *)
Lemma created_file_compares_numbers text_of_real f cutoff boot_id : fl_claim_columns f = None ->
  attempted_since text_of_real (upgraded f) cutoff boot_id =
    existsb (fun c => bool_decide (cl_boot_id c = Some boot_id) && ge_opt (cl_activation_monotonic c) cutoff) (db_claims (fl_database (upgraded f))).
Proof.
  intros H. unfold attempted_since. assert (E : affinity_of "activation_monotonic" (upgraded f) = RealAffinity).
  { destruct f as [d c [o|] a l]; cbn [fl_claim_columns] in H; subst c; unfold upgraded, affinity_of, add_send_state.
    - destruct (bool_decide _); vm_compute; reflexivity.
    - vm_compute. reflexivity. }
  rewrite E. reflexivity.
Qed.

(** ** The snapshot *)

Lemma budget_between deadline now timeout : apply_remaining_budget deadline now = Ok timeout ->
  (1 <= timeout <= _SNAPSHOT_BUSY_SLICE_MS)%Z /\ (now + timeout * 1000 <= deadline)%Z.
Proof.
  unfold apply_remaining_budget. destruct (Z.leb_spec (Z.max 0 (deadline - now) / 1000) 0); [done|]. intros [= <-].
  unfold _SNAPSHOT_BUSY_SLICE_MS. pose proof (Z.mul_div_le (Z.max 0 (deadline - now)) 1000 ltac:(lia)). lia.
Qed.

Lemma backup_bounded deadline steps : forall timeouts r, backup deadline steps = (timeouts, r) ->
  Forall (fun t => 1 <= t <= _SNAPSHOT_BUSY_SLICE_MS)%Z timeouts /\
  (r = Some (Ok tt) -> exists readings rest, steps = (Progress <$> readings) ++ Done :: rest /\
     Forall2 (fun now t => now + t * 1000 <= deadline)%Z readings timeouts).
Proof.
  induction steps as [|[|now|e] steps IH]; intros timeouts r H; cbn [backup] in H.
  - injection H as <- <-. by split.
  - injection H as <- <-. split; [done|]. intros _. by exists [], steps.
  - destruct (apply_remaining_budget deadline now) as [t|e] eqn:E; [|injection H as <- <-; by split].
    destruct (backup deadline steps) as [ts r'] eqn:Eb. injection H as <- <-. apply budget_between in E as [Ht Hn].
    destruct (IH ts r' eq_refl) as [H1 H2]. split; [by apply List.Forall_cons|]. intros Hr.
    destruct (H2 Hr) as (readings & rest & -> & Hf). exists (now :: readings), rest. split; [done|]. by apply List.Forall2_cons.
  - injection H as <- <-. by split.
Qed.

(** a snapshot never waits longer for a busy database than one to ten
    milliseconds at a time, each wait within the quarter of a second it has; it
    succeeds only when the backup was done while time was left, and the first reading of the clock with
    less than a millisecond left ends it with a timeout. *)
Theorem snapshot_within_budget started first steps timeouts r : create_telemetry_snapshot started first steps = (timeouts, r) ->
  Forall (fun t => 1 <= t <= _SNAPSHOT_BUSY_SLICE_MS)%Z timeouts /\
  (r = Some (Ok tt) -> exists readings rest, steps = (Progress <$> readings) ++ Done :: rest /\
     Forall2 (fun now t => now + t * 1000 <= started + _SNAPSHOT_BUSY_TIMEOUT)%Z (first :: readings) timeouts) /\
  (forall readings late rest, steps = (Progress <$> readings) ++ Progress late :: rest ->
     Forall (fun now => now + 1000 <= started + _SNAPSHOT_BUSY_TIMEOUT)%Z (first :: readings) ->
     (started + _SNAPSHOT_BUSY_TIMEOUT < late + 1000)%Z -> r = Some (Err TimeoutError)).
Proof.
  unfold create_telemetry_snapshot. set (deadline := (started + _SNAPSHOT_BUSY_TIMEOUT)%Z). intros H.
  destruct (apply_remaining_budget deadline first) as [t|e] eqn:E.
  - destruct (backup deadline steps) as [ts r'] eqn:Eb. injection H as <- <-. pose proof (budget_between _ _ _ E) as [Ht Hn].
    destruct (backup_bounded _ _ _ _ Eb) as [H1 H2]. split; [by apply List.Forall_cons|]. split.
    + intros Hr. destruct (H2 Hr) as (readings & rest & -> & Hf). exists readings, rest. split; [done|]. by apply List.Forall2_cons.
    + intros readings late rest -> Hf Hlate. apply list.Forall_cons in Hf as [_ Hf]. clear -Eb Hf Hlate. revert ts Eb.
      induction readings as [|now readings IH]; intros ts Eb; cbn [fmap list_fmap app backup] in Eb.
      * unfold apply_remaining_budget in Eb. destruct (Z.leb_spec (Z.max 0 (deadline - late) / 1000) 0) as [|Hl]; [by injection Eb as _ <-|].
        assert (Z.max 0 (deadline - late) / 1000 < 1)%Z by (apply Z.div_lt_upper_bound; lia). lia.
      * apply list.Forall_cons in Hf as [Hnow Hf]. unfold apply_remaining_budget in Eb at 1.
        destruct (Z.leb_spec (Z.max 0 (deadline - now) / 1000) 0) as [Hl|Hl].
        { assert (1 <= Z.max 0 (deadline - now) / 1000)%Z by (apply Z.div_le_lower_bound; lia). lia. }
        destruct (backup deadline ((Progress <$> readings) ++ Progress late :: rest)) as [ts' r''] eqn:Er. injection Eb as _ <-. by apply (IH Hf ts').
  - injection H as <- <-. split; [done|]. split; [intros Hr; by destruct e|]. intros readings late rest _ Hf _.
    apply list.Forall_cons in Hf as [Hf _]. unfold apply_remaining_budget in E.
    destruct (Z.leb_spec (Z.max 0 (deadline - first) / 1000) 0) as [Hl|Hl]; [|done].
    assert (1 <= Z.max 0 (deadline - first) / 1000)%Z by (apply Z.div_le_lower_bound; lia). lia.
Qed.

(** ** Files *)
Module Sample.
Definition parse_time (s : string) : option datetime := if String.eqb s "2023-05-01T10:00:00" then Some (Naive 1000000) else None.

(** The file of an old controller: its log, and claims without the newer columns. *)
Definition old_file : store_file :=
  {| fl_database := empty_database; fl_claim_columns := Some [("idempotency_key", TextAffinity)]; fl_outbox_columns := Some [];
     fl_applied := [];
     fl_log := Some {| lg_columns := ["timestamp"; "gate_opened"];
                       lg_rows := [(SText "2023-05-01T10:00:00", SText "Yes "); (SInt 5, SInt 0); (SNull, SReal float_1)] |} |}.

Definition opened_file : store_file := snd (_migrate parse_time old_file).

Example imported : (fun e => (ev_id e, ev_received_at e, ev_opened e)) <$> db_events (fl_database opened_file) =
  [(1, 1000000, true); (2, DATETIME_MIN, false); (3, DATETIME_MIN, true)]%Z.
Proof. by vm_compute. Qed.


(** A blob as the time of a log row, or a time before the year 1, keeps the store from
    opening. *)
Example blob_timestamp : fst (_migrate parse_time {| fl_database := empty_database; fl_claim_columns := None; fl_outbox_columns := None;
    fl_applied := []; fl_log := Some {| lg_columns := ["timestamp"; "gate_opened"]; lg_rows := [(SBlob, SInt 1)] |} |}) = Err TypeError.
Proof. by vm_compute. Qed.

(** On an upgraded file the attempts are compared as texts: one at 1000.5 s is not seen
    by a cooldown that began at 999.5 s. *)
Definition attempt : claim_row :=
  {| cl_id := 1; cl_idempotency_key := "key"; cl_claimed_at := 0; cl_state := Finalized; cl_event_id := None; cl_terminal_status := None;
     cl_terminal_detail := None; cl_activation_attempt_at := Some 5%Z; cl_activation_monotonic := Some 1000500000%Z; cl_boot_id := Some "boot";
     cl_pending_event := None; cl_pending_outbox_payload := None; cl_pending_command_id := None; cl_pending_command_created_at := None |}.
Definition text_sample (us : Z) : string := if (us =? 1000500000)%Z then "1000.5" else "999.5".

Lemma upgraded_misses_attempt :
  let f := with_database (set_claims [attempt] (fl_database opened_file)) opened_file in
  affinity_of "activation_monotonic" f = TextAffinity /\ attempted_since text_sample f 999500000 "boot" = false /\
  monotonic_recent (fl_database f) 999500000 "boot" = true.
Proof. by vm_compute. Qed.

Lemma snapshot_within_budget_witness :
  create_telemetry_snapshot 0 1000 [Progress 245000; Progress 249500] = ([10; 5]%Z, Some (Err TimeoutError)) /\
  Forall (fun t => 1 <= t <= _SNAPSHOT_BUSY_SLICE_MS)%Z [10; 5]%Z.
Proof.
  assert (E : create_telemetry_snapshot 0 1000 [Progress 245000; Progress 249500] = ([10; 5]%Z, Some (Err TimeoutError))) by (by vm_compute).
  exact (conj E (proj1 (snapshot_within_budget _ _ _ _ _ E))).
Defined.
End Sample.
