(* ===== verification/Settings.v ===== *)
(** * The settings of the controller: runtime.py and gate_controller/__main__.py

    What the environment of the process means: the service URLs and credentials, the
    limits and intervals, and the background workers they call for; the construction of
    the service client (cloudflare_client.py).  [urlparse] and [ip_address] are
    arguments; environment text is ASCII for [strip], [int] and [float], and a path is
    its text. *)

From S2P Require Import Prelude Json Float Text Telemetry HotStream Reolink.

(** What the program reads of [urlparse(url)]. *)
Record parsed_url := { pu_scheme : string; pu_hostname : option string }.

Definition strip_text (s : string) : string := String.string_of_list_ascii (strip (String.list_ascii_of_string s)).

(** [url.rstrip("/")] *)
Fixpoint drop_slashes (l : list ascii) : list ascii :=
  match l with a :: l' => if bool_decide (a = "/"%char) then drop_slashes l' else l | [] => [] end.
Definition rstrip_slashes (s : string) : string :=
  String.string_of_list_ascii (rev (drop_slashes (rev (String.list_ascii_of_string s)))).

(** A text that is given and not empty. *)
Definition given (s : option string) : option string :=
  match s with Some EmptyString | None => None | Some t => Some t end.

(** ** runtime.py *)

Definition MINIMUM_PYTHON : Z * Z := (3, 10)%Z.

(** runtime.py: require_python_version *)
Definition require_python_version (version : Z * Z) : result unit :=
  let below := (version.1 <? MINIMUM_PYTHON.1)%Z || (version.1 =? MINIMUM_PYTHON.1)%Z && (version.2 <? MINIMUM_PYTHON.2)%Z in
  if below then Err (RuntimeError "Gate Controller requires Python 3.10 or newer") else Ok tt.

Section Urls.
Context (urlparse : string -> result parsed_url).

(** runtime.py: require_https_service_url *)
Definition require_https_service_url (url name : string) : result string :=
  rbind (urlparse url) (fun parsed =>
  if negb (String.eqb (lower_text (pu_scheme parsed)) "https") || bool_decide (given (pu_hostname parsed) = None)
  then Err (ValueError (String.append name " must be an absolute HTTPS URL"))
  else Ok (rstrip_slashes url)).

(** runtime.py: require_https_or_loopback_service_url *)
Definition require_https_or_loopback_service_url (url name : string) : result string :=
  let refused := Err (ValueError (String.append name " must be an absolute HTTPS or loopback HTTP URL")) in
  rbind (urlparse url) (fun parsed =>
  match given (pu_hostname parsed) with
  | None => refused
  | Some hostname =>
      let scheme := lower_text (pu_scheme parsed) in
      let is_loopback := bool_decide (lower_text hostname ∈ ["localhost"; "127.0.0.1"; "::1"]) in
      if negb (String.eqb scheme "https") && negb (String.eqb scheme "http" && is_loopback) then refused
      else Ok (rstrip_slashes url)
  end).

(** ** cloudflare_client.py *)

(** A number of [_require_bounded_timeout] that is finite and positive. *)
Definition positive_number (value : json) : bool :=
  match value with JInt z => (0 <? z)%Z | JFloat f => isfinite f && flt float_0 f | _ => false end.

(** cloudflare_client.py: _require_bounded_timeout; [None] is no tuple. *)
Definition _require_bounded_timeout (timeout : option (list json)) : result (list json) :=
  match timeout with
  | Some ([_; _] as values) =>
      if forallb positive_number values then Ok values
      else Err (ValueError "Cloudflare service timeout must be a finite positive (connect, read) tuple")
  | _ => Err (ValueError "Cloudflare service timeout must be a finite positive (connect, read) tuple")
  end.

Record service_client := {
  sc_base_url : string;
  sc_client_id : string;
  sc_client_secret : string;
  sc_timeout : list json;
}.

(** cloudflare_client.py: CloudflareServiceClient.__init__ *)
Definition CloudflareServiceClient (base_url client_id client_secret : string) (timeout : option (list json)) : result service_client :=
  rbind (require_https_or_loopback_service_url base_url "GATE_CLOUDFLARE_API_URL") (fun base_url =>
  rbind (_require_bounded_timeout timeout) (fun timeout =>
  Ok {| sc_base_url := base_url; sc_client_id := client_id; sc_client_secret := client_secret; sc_timeout := timeout |})).

(** cloudflare_client.py: _service_url *)
Definition _service_url (client : service_client) (path : string) : result string :=
  if String.prefix "/" path then Ok (String.append (sc_base_url client) path)
  else Err (ValueError "Cloudflare service request path must be an absolute path").

(** cloudflare_client.py: _headers *)
Definition _headers (client : service_client) (additional_headers : dict string) : dict string :=
  dupdate [("CF-Access-Client-Id", sc_client_id client); ("CF-Access-Client-Secret", sc_client_secret client);
           ("User-Agent", "gate-controller/1")] additional_headers.

(** cloudflare_client.py: CloudflareStatusReporter.heartbeat, the request it posts *)
Definition heartbeat_request (controller_id : string) (status : dict json) : string * json :=
  ("/api/controller/status", JDict (dset "controller_id" (JStr controller_id) status)).

(** outbox.py: HttpOutboxSender.__init__, the headers *)
Definition http_headers (bearer_token : option string) : dict string :=
  match given bearer_token with Some token => [("Authorization", String.append "Bearer " token)] | None => [] end.
End Urls.

(** ** __main__.py: values *)

(** worker.py: the limits *)
Definition DEFAULT_MAX_BURST_CANDIDATES : string := "8".
Definition DEFAULT_MAX_CANDIDATE_BYTES : string := "8388608".
Definition MAX_BURST_CANDIDATES : Z := 16.
Definition MAX_CANDIDATE_BYTES : Z := 16 * 1024 * 1024.

Definition MIN_QUIET_WINDOW_SECONDS : pyfloat := float_tenth.
Definition MAX_QUIET_WINDOW_SECONDS : pyfloat := float_of_Z 2.
Definition DEFAULT_QUIET_WINDOW_SECONDS : pyfloat := float_div 2 10.

(** __main__.py: _quiet_window; the argument error is raised as ValueError. *)
Definition _quiet_window (value : string) : result pyfloat :=
  let refused := Err (ValueError "quiet window must be between 0.1 and 2 seconds") in
  match float_of_text value with
  | None => refused
  | Some seconds =>
      if negb (isfinite seconds) || negb (fle MIN_QUIET_WINDOW_SECONDS seconds && fle seconds MAX_QUIET_WINDOW_SECONDS)
      then refused else Ok seconds
  end.

(** __main__.py: _telemetry_retention_days *)
Definition _telemetry_retention_days (environment : dict string) : result Z :=
  let refused := Err (ValueError "GATE_TELEMETRY_RETENTION_DAYS must be an integer between 1 and 3650") in
  match int_of_text (setting environment "GATE_TELEMETRY_RETENTION_DAYS" "30") with
  | None => refused
  | Some days => if negb ((1 <=? days) && (days <=? 3650))%Z then refused else Ok days
  end.

(** __main__.py: _configured_prompts *)
Definition _configured_prompts (environment : dict string) : dict string :=
  omap (fun kv => (fun path => (kv.1, path)) <$> given (dget kv.2 environment))
    [("arrival", "GATE_PROMPT_ARRIVAL"); ("access_denied", "GATE_PROMPT_ACCESS_DENIED")].

(** __main__.py: image_runtime_limits *)
Definition image_runtime_limits (environment : dict string) : result (Z * Z) :=
  match int_of_text (setting environment "GATE_MAX_BURST_CANDIDATES" DEFAULT_MAX_BURST_CANDIDATES) with
  | None => Err (ValueError "image runtime limits must be integers")
  | Some max_candidates =>
      match int_of_text (setting environment "GATE_MAX_CANDIDATE_IMAGE_BYTES" DEFAULT_MAX_CANDIDATE_BYTES) with
      | None => Err (ValueError "image runtime limits must be integers")
      | Some max_bytes =>
          if ((max_candidates <=? 0) || (max_bytes <=? 0))%Z
          then Err (ValueError "image runtime limits must be greater than zero")
          else if ((MAX_BURST_CANDIDATES <? max_candidates) || (MAX_CANDIDATE_BYTES <? max_bytes))%Z
          then Err (ValueError "image runtime limits exceed the safe maximum")
          else Ok (max_candidates, max_bytes)
      end
  end.

(** __main__.py: default_runtime_paths *)
Definition default_runtime_paths (environment : dict string) : string * string :=
  (setting environment "GATE_AUTHORISED_PLATES" "/var/lib/gate-controller/authorised_licence_plates.csv",
   setting environment "GATE_DATABASE" "/var/lib/gate-controller/gate-controller.db").

(** [(environment.get(variable) or "").strip()], not empty *)
Definition configured (environment : dict string) (variable : string) : bool :=
  negb (String.eqb (strip_text (default EmptyString (dget variable environment))) EmptyString).

Definition CLOUDFLARE_VARIABLES : list string :=
  ["GATE_CLOUDFLARE_API_URL"; "GATE_CLOUDFLARE_ACCESS_CLIENT_ID"; "GATE_CLOUDFLARE_ACCESS_CLIENT_SECRET"].

(** __main__.py: _cloudflare_configured *)
Definition _cloudflare_configured (environment : dict string) : result bool :=
  if existsb (configured environment) ["SUPABASE_URL"; "SUPABASE_SERVICE_ROLE_KEY"]
  then Err (ValueError "legacy Supabase credentials must not be present in the active controller environment")
  else
    let values := configured environment <$> CLOUDFLARE_VARIABLES in
    if existsb id values && negb (forallb id values)
    then Err (ValueError "GATE_CLOUDFLARE_API_URL, GATE_CLOUDFLARE_ACCESS_CLIENT_ID, and GATE_CLOUDFLARE_ACCESS_CLIENT_SECRET must be configured together")
    else Ok (forallb id values).

(** [float(text)] *)
Definition to_float (s : string) : result pyfloat :=
  match float_of_text s with Some f => Ok f | None => Err (ValueError "could not convert string to float") end.

(** [timedelta(seconds=f)] in microseconds *)
Definition MAX_TIMEDELTA_DAYS : Z := 999999999.
Definition DAY : Z := 86400 * 1000000.
Definition timedelta_seconds (f : pyfloat) : result Z :=
  match f with
  | NaN => Err (ValueError "cannot convert float NaN to integer")
  | PosInf | NegInf => Err OverflowError
  | Fin m =>
      let us := timedelta_us m in
      if ((- MAX_TIMEDELTA_DAYS * DAY <=? us) && (us <? (MAX_TIMEDELTA_DAYS + 1) * DAY))%Z then Ok us else Err OverflowError
  end.

(** ** processor.py: the timeouts *)

Definition DEFAULT_ACTIVATION_GUARD_SECONDS : pyfloat := float_tenth.

(** [f / 10] *)
Definition tenth (f : pyfloat) : pyfloat := match f with Fin m => fround m 10 | f => f end.

(** processor.py: GateProcessor.__init__, the guard used *)
Definition activation_guard (decision_timeout : pyfloat) (activation_guard_seconds : option pyfloat) : result pyfloat :=
  if negb (isfinite decision_timeout) || fle decision_timeout float_0
  then Err (ValueError "decision timeout must be finite and greater than zero")
  else
    let guard := default (pymin DEFAULT_ACTIVATION_GUARD_SECONDS (tenth decision_timeout)) activation_guard_seconds in
    if negb (isfinite guard) || negb (fle float_0 guard && flt guard decision_timeout)
    then Err (ValueError "activation guard must be finite, non-negative, and below the decision timeout")
    else Ok guard.

(** ** __main__.py: the background workers *)

Inductive sender :=
| ToCloudflare (client : service_client)
| ToUrl (url : string) (headers : dict string).

(** A worker and what it is built with; the store, the relay and the caches are
    those of the process. *)
Inductive background_worker :=
| CommandServer (controller_id : string) (prompts : dict string)
| Outbox (send : sender) (controller_id : string) (retention_days : Z)
| PlateRefresh (client : service_client) (controller_id : string) (poll_interval : pyfloat)
| Heartbeat (client : service_client) (controller_id : string) (stale_seconds : pyfloat) (authorised : bool)
| TelemetryRetention (retention_days : Z)
| ReolinkWebhook (config : ReolinkWebhookConfig)
| HotStream (config : HotStreamConfig).

Section Workers.
Context (urlparse : string -> result parsed_url) (ip_address : string -> option address).

(** __main__.py: _is_loopback_host *)
Definition _is_loopback_host (hostname : string) : bool :=
  String.eqb hostname "localhost" || match ip_address hostname with Some a => ad_is_loopback a | None => false end.

(** __main__.py: _validated_outbox_token *)
Definition _validated_outbox_token (url : string) (token : option string) : result string :=
  let token := strip_text (default EmptyString token) in
  if String.eqb token EmptyString then Err (ValueError "GATE_OUTBOX_BEARER_TOKEN is required when GATE_OUTBOX_URL is set")
  else
    rbind (urlparse url) (fun parsed =>
    match given (pu_hostname parsed) with
    | None => Err (ValueError "GATE_OUTBOX_URL must be an absolute HTTPS URL")
    | Some hostname =>
        if String.eqb (pu_scheme parsed) "https" then Ok token
        else if String.eqb (pu_scheme parsed) "http" && _is_loopback_host hostname then Ok token
        else Err (ValueError "GATE_OUTBOX_URL must use HTTPS except for explicit loopback URLs")
    end).

(** [environment[variable].strip()] of a variable known to be there *)
Definition stripped (environment : dict string) (variable : string) : string :=
  strip_text (default EmptyString (dget variable environment)).

(** The workers of build_background_workers with the Cloudflare service. *)
Definition cloudflare_workers (environment : dict string) (authorised : bool) (controller_id : string)
    (camera_stale_seconds : pyfloat) (retention_days : Z) : result (list background_worker) :=
  rbind (CloudflareServiceClient urlparse (stripped environment "GATE_CLOUDFLARE_API_URL")
           (stripped environment "GATE_CLOUDFLARE_ACCESS_CLIENT_ID") (stripped environment "GATE_CLOUDFLARE_ACCESS_CLIENT_SECRET")
           (Some [JInt 2; JInt 4])) (fun client =>
  rbind (if authorised then
           rbind (to_float (setting environment "GATE_AUTHORISATION_REFRESH_SECONDS" "30")) (fun poll_interval =>
           Ok [PlateRefresh client controller_id poll_interval])
         else Ok []) (fun refresh =>
  Ok (Outbox (ToCloudflare client) controller_id retention_days :: refresh ++
      [Heartbeat client controller_id camera_stale_seconds authorised]))).

(** Those without it. *)
Definition local_workers (environment : dict string) (controller_id : string) (retention_days : Z) : result (list background_worker) :=
  let outbox_url := strip_text (default EmptyString (dget "GATE_OUTBOX_URL" environment)) in
  if String.eqb outbox_url EmptyString then Ok [TelemetryRetention retention_days]
  else
    rbind (_validated_outbox_token outbox_url (dget "GATE_OUTBOX_BEARER_TOKEN" environment)) (fun bearer_token =>
    Ok [Outbox (ToUrl outbox_url (http_headers (Some bearer_token))) controller_id retention_days]).

(** __main__.py: build_background_workers; [coordinator] and [authorised] say
    whether they are given. *)
Definition build_background_workers (environment : dict string) (coordinator authorised : bool) : result (list background_worker) :=
  let prompts := _configured_prompts environment in
  rbind (to_float (setting environment "GATE_CAMERA_STALE_SECONDS" "60")) (fun camera_stale_seconds =>
  if fle camera_stale_seconds float_0 then Err (ValueError "GATE_CAMERA_STALE_SECONDS must be greater than zero")
  else
    rbind (_telemetry_retention_days environment) (fun retention_days =>
    let controller_id := default "primary" (given (dget "GATE_CONTROLLER_ID" environment)) in
    let commands := if coordinator then [CommandServer controller_id prompts] else [] in
    rbind (_cloudflare_configured environment) (fun cloudflare =>
    rbind (if cloudflare : bool then cloudflare_workers environment authorised controller_id camera_stale_seconds retention_days
           else local_workers environment controller_id retention_days) (fun workers =>
    Ok (commands ++ workers))))).

(** __main__.py: build_reolink_trigger_pipeline, the workers *)
Definition build_reolink_trigger_pipeline (environment : dict string) : result (list background_worker) :=
  rbind (load_reolink_webhook_config ip_address environment) (fun config =>
  Ok (if wc_enabled config then [ReolinkWebhook config] else [])).

(** ** __main__.py: main *)

Record controller_settings := {
  cs_max_image_age : Z;
  cs_decision_timeout : pyfloat;
  cs_activation_guard : pyfloat;
  cs_max_burst_candidates : Z;
  cs_max_candidate_bytes : Z;
  cs_hot_stream : option HotStreamConfig;
  cs_max_staleness : option Z;
  cs_workers : list background_worker;
}.

(** What main builds from the environment, in its order, once the arguments and the
    token are there and the store is open. *)
Definition controller_setup (environment : dict string) (directory : string) : result controller_settings :=
  rbind (to_float (setting environment "GATE_MAX_IMAGE_AGE_SECONDS" "8")) (fun max_image_age =>
  rbind (to_float (setting environment "GATE_DECISION_TIMEOUT_SECONDS" "4")) (fun decision_timeout =>
  rbind (image_runtime_limits environment) (fun limits =>
  rbind (load_hot_stream_config environment directory) (fun hot_stream_config =>
  let hot_stream := if hs_enabled hot_stream_config then Some hot_stream_config else None in
  rbind (rbind (to_float (setting environment "GATE_AUTHORISATION_MAX_STALENESS_SECONDS" "300")) timedelta_seconds) (fun staleness =>
  rbind (_cloudflare_configured environment) (fun cloud =>
  let max_staleness := if cloud : bool then Some staleness else None in
  rbind (build_background_workers environment true true) (fun workers =>
  rbind (build_reolink_trigger_pipeline environment) (fun trigger_workers =>
  rbind (timedelta_seconds max_image_age) (fun max_image_age =>
  rbind (activation_guard decision_timeout None) (fun guard =>
  Ok {| cs_max_image_age := max_image_age; cs_decision_timeout := decision_timeout; cs_activation_guard := guard;
        cs_max_burst_candidates := limits.1; cs_max_candidate_bytes := limits.2;
        cs_hot_stream := hot_stream; cs_max_staleness := max_staleness;
        cs_workers := workers ++ trigger_workers ++ match hot_stream with Some config => [HotStream config] | None => [] end |})))))))))).

(** main up to run_worker: the Python version, the database and plates paths, the
    quiet window and the token of the recogniser come first. *)
Definition startup (version : Z * Z) (environment : dict string) (directory quiet_window : option string)
  : result (string * (string * string) * pyfloat * controller_settings) :=
  rbind (require_python_version version) (fun _ =>
  let paths := default_runtime_paths environment in
  let directory := default (setting environment "GATE_WATCH_DIRECTORY" "/home/ftp-user") directory in
  rbind (match quiet_window with None => Ok DEFAULT_QUIET_WINDOW_SECONDS | Some value => _quiet_window value end) (fun quiet_window =>
  match given (dget "PLATE_RECOGNIZER_API_TOKEN" environment) with
  | None => Err BaseExc
  | Some token =>
      rbind (controller_setup environment directory) (fun settings => Ok (token, paths, quiet_window, settings))
  end)).
End Workers.
