(* ===== verification/SettingsFacts.v ===== *)
(** * Facts about the settings

    What the workers built from an environment may do: nothing is sent but to HTTPS
    or to the machine itself and with credentials, telemetry is always bounded; the
    limits of a controller that starts (Settings.v). *)

From S2P Require Import Prelude Json Float Text Telemetry HotStream Reolink Settings.

Section Facts.
Context (urlparse : string -> result parsed_url) (ip_address : string -> option address).

(** The host is the machine itself. *)
Definition loopback_host (hostname : string) : Prop :=
  lower_text hostname ∈ ["localhost"; "127.0.0.1"; "::1"] \/ exists a, ip_address hostname = Some a /\ ad_is_loopback a = true.

(** A request to the URL does not leave the machine unencrypted. *)
Definition private_url (url : string) : Prop :=
  exists parsed hostname, urlparse url = Ok parsed /\ pu_hostname parsed = Some hostname /\ hostname <> EmptyString /\
    (lower_text (pu_scheme parsed) = "https" \/ lower_text (pu_scheme parsed) = "http" /\ loopback_host hostname).

Definition private_client (client : service_client) : Prop :=
  (exists url, sc_base_url client = rstrip_slashes url /\ private_url url) /\
  sc_client_id client <> EmptyString /\ sc_client_secret client <> EmptyString.

Definition private_sender (s : sender) : Prop :=
  match s with
  | ToCloudflare client => private_client client
  | ToUrl url headers => private_url url /\ exists token, token <> EmptyString /\ headers = [("Authorization", String.append "Bearer " token)]
  end.

(** What a worker sends to. *)
Definition private_worker (w : background_worker) : Prop :=
  match w with
  | Outbox send _ _ => private_sender send
  | PlateRefresh client _ _ | Heartbeat client _ _ _ => private_client client
  | _ => True
  end.

(** The days a worker keeps delivered telemetry. *)
Definition retention_of (w : background_worker) : option Z :=
  match w with Outbox _ _ days | TelemetryRetention days => Some days | _ => None end.

Lemma given_some s t : given s = Some t -> s = Some t /\ t <> EmptyString.
Proof. destruct s as [[|a u]|]; try done. by intros [= <-]. Qed.

Lemma service_url_private url name base : require_https_or_loopback_service_url urlparse url name = Ok base ->
  base = rstrip_slashes url /\ private_url url.
Proof.
  intros H. apply rbind_ok in H as (parsed & Hp & H). destruct (given (pu_hostname parsed)) as [hostname|] eqn:Eh; [|done].
  apply given_some in Eh as [Eh Hne]. cbv zeta in H. destruct (negb _ && negb _) eqn:E; [done|]. injection H as <-. split; [done|].
  exists parsed, hostname. split; [done|]. split; [done|]. split; [done|].
  apply andb_false_iff in E as [E|E]; apply negb_false_iff in E; [left; by apply String.eqb_eq|right].
  apply andb_true_iff in E as [E1 E2]. split; [by apply String.eqb_eq|]. left. by apply bool_decide_eq_true in E2.
Qed.

Lemma client_private url id secret timeout client : id <> EmptyString -> secret <> EmptyString ->
  CloudflareServiceClient urlparse url id secret timeout = Ok client -> private_client client.
Proof.
  intros Hi Hs H. apply rbind_ok in H as (base & Hb & H). apply rbind_ok in H as (t & _ & [= <-]).
  apply service_url_private in Hb as [-> Hu]. split; [by exists url|done].
Qed.

Lemma token_private url token t : _validated_outbox_token urlparse ip_address url token = Ok t -> t <> EmptyString /\ private_url url.
Proof.
  unfold _validated_outbox_token. destruct (String.eqb_spec (strip_text (default EmptyString token)) EmptyString) as [|Hne]; [done|].
  intros H. apply rbind_ok in H as (parsed & Hp & H). destruct (given (pu_hostname parsed)) as [hostname|] eqn:Eh; [|done].
  apply given_some in Eh as [Eh Hh]. destruct (String.eqb_spec (pu_scheme parsed) "https") as [Es|_].
  - injection H as <-. split; [done|]. exists parsed, hostname. rewrite Es. repeat (split; [done|]). by left.
  - destruct (_ && _) eqn:E; [|done]. injection H as <-. split; [done|]. apply andb_true_iff in E as [E1 E2].
    apply String.eqb_eq in E1. exists parsed, hostname. rewrite E1. repeat (split; [done|]). right. split; [done|].
    unfold _is_loopback_host in E2. apply orb_true_iff in E2 as [E2|E2].
    + apply String.eqb_eq in E2 as ->. left. by vm_compute; left.
    + right. destruct (ip_address hostname) as [a|]; [|done]. by exists a.
Qed.

Lemma configured_stripped environment variable : configured environment variable = true -> stripped environment variable <> EmptyString.
Proof. unfold configured, stripped. by destruct (String.eqb_spec (strip_text (default EmptyString (dget variable environment))) EmptyString). Qed.

Lemma cloudflare_all environment : _cloudflare_configured environment = Ok true ->
  forall variable, variable ∈ CLOUDFLARE_VARIABLES -> stripped environment variable <> EmptyString.
Proof.
  unfold _cloudflare_configured. destruct (existsb _ _); [done|]. cbv zeta. destruct (_ && _); [done|].
  intros [= H] variable Hin. cbn [forallb] in H. unfold id in H. rewrite !andb_true_iff in H. destruct H as (H1 & H2 & H3 & _).
  apply configured_stripped. repeat (apply elem_of_cons in Hin as [->|Hin]; [done|]). by apply elem_of_nil in Hin.
Qed.

(** The workers for each way of delivery. *)
Lemma cloudflare_workers_private environment authorised controller_id stale days workers :
  _cloudflare_configured environment = Ok true ->
  cloudflare_workers urlparse environment authorised controller_id stale days = Ok workers ->
  Forall private_worker workers /\ omap retention_of workers = [days].
Proof.
  intros Hcloud H. pose proof (cloudflare_all environment Hcloud) as Hall. apply rbind_ok in H as (client & Hc & H). apply client_private in Hc; [|apply Hall; unfold CLOUDFLARE_VARIABLES; set_solver..].
  apply rbind_ok in H as (refresh & Hr & [= <-]). destruct authorised.
  - apply rbind_ok in Hr as (poll & _ & [= <-]). split; [|done]. by repeat (apply List.Forall_cons; [done|]).
  - injection Hr as <-. split; [|done]. by repeat (apply List.Forall_cons; [done|]).
Qed.

Lemma local_workers_private environment controller_id days workers :
  local_workers urlparse ip_address environment controller_id days = Ok workers ->
  Forall private_worker workers /\ omap retention_of workers = [days].
Proof.
  unfold local_workers. cbv zeta. destruct (String.eqb _ _); [intros [= <-]; split; [by repeat constructor|done]|].
  intros H. apply rbind_ok in H as (token & Ht & [= <-]). apply token_private in Ht as [Hne Hu].
  split; [|done]. apply List.Forall_cons; [|constructor]. split; [done|]. exists token. split; [done|].
  unfold http_headers. by destruct token.
Qed.

Lemma retention_days_bounded environment days : _telemetry_retention_days environment = Ok days -> (1 <= days <= 3650)%Z.
Proof.
  unfold _telemetry_retention_days. destruct (int_of_text _) as [n|]; [|done]. destruct (negb _) eqn:E; [done|]. intros [= <-]. lia.
Qed.

(** The workers of the local prompt: with the relay commands first. *)
Lemma background_workers_private environment coordinator authorised workers :
  build_background_workers urlparse ip_address environment coordinator authorised = Ok workers ->
  Forall private_worker workers /\ exists days, (1 <= days <= 3650)%Z /\ omap retention_of workers = [days].
Proof.
  unfold build_background_workers. cbv zeta. intros H. apply rbind_ok in H as (stale & _ & H). destruct (fle _ _); [done|].
  apply rbind_ok in H as (days & Hd & H). apply retention_days_bounded in Hd. apply rbind_ok in H as (cloudflare & Hc & H).
  apply rbind_ok in H as (ws & Hw & [= <-]).
  assert (Hws : Forall private_worker ws /\ omap retention_of ws = [days]).
  { destruct cloudflare; [by eapply cloudflare_workers_private|by eapply local_workers_private]. }
  destruct Hws as [Hp Hr]. split; [|exists days; split; [done|]].
  - apply list.Forall_app. split; [|done]. destruct coordinator; by repeat constructor.
  - rewrite omap_app, Hr. by destruct coordinator.
Qed.

(** ** The limits of a controller that starts *)

Definition finite_between (lo hi f : pyfloat) : Prop := isfinite f = true /\ fle lo f = true /\ fle f hi = true.

Lemma number_between lo hi text f : isfinite lo = true -> isfinite hi = true -> _number text lo hi = Ok f -> finite_between lo hi f.
Proof.
  unfold _number, finite_between. destruct (float_of_text text) as [g|]; [|done]. destruct (_ && _) eqn:E; [|done]. intros Hl Hh [= <-].
  apply andb_true_iff in E as [E1 E2]. split; [|done]. destruct g, lo, hi; done.
Qed.
Lemma integer_between lo hi text n : _integer text lo hi = Ok n -> (lo <= n <= hi)%Z.
Proof. unfold _integer. destruct (int_of_text text) as [m|]; [|done]. destruct (_ && _) eqn:E; [|done]. intros [= <-]. lia. Qed.

Lemma quiet_window_between text f : _quiet_window text = Ok f -> finite_between MIN_QUIET_WINDOW_SECONDS MAX_QUIET_WINDOW_SECONDS f.
Proof.
  unfold _quiet_window, finite_between. destruct (float_of_text text) as [g|]; [|discriminate].
  destruct (negb (isfinite g) || _) eqn:E; [discriminate|]. intros [= <-].
  apply orb_false_iff in E as [E1 E2]. apply negb_false_iff in E1, E2. apply andb_true_iff in E2 as [E2 E3].
  exact (conj E1 (conj E2 E3)).
Qed.

Lemma limits_between environment l : image_runtime_limits environment = Ok l ->
  (1 <= l.1 <= MAX_BURST_CANDIDATES)%Z /\ (1 <= l.2 <= MAX_CANDIDATE_BYTES)%Z.
Proof.
  unfold image_runtime_limits. destruct (int_of_text _) as [a|]; [|done]. destruct (int_of_text _) as [b|]; [|done].
  destruct ((a <=? 0)%Z || _) eqn:E1; [done|]. destruct ((MAX_BURST_CANDIDATES <? a)%Z || _) eqn:E2; [done|]. intros [= <-]. cbn [fst snd]. lia.
Qed.

(** The limits of the hot stream. *)
Definition bounded_stream (c : HotStreamConfig) : Prop :=
  finite_between float_1 (float_of_Z 10) (hs_sample_fps c) /\ (1 <= hs_selection_count c <= 2)%Z /\
  (hs_selection_count c <= hs_frame_count c <= MAX_FRAMES)%Z /\ (1 <= hs_max_frame_bytes c <= MAX_FRAME_BYTES)%Z /\
  (hs_max_frame_bytes c <= hs_max_total_bytes c <= MAX_TOTAL_BYTES)%Z /\ finite_between float_tenth (float_of_Z 2) (hs_max_age_seconds c).

Lemma stream_bounded environment root c : load_hot_stream_config environment root = Ok c -> bounded_stream c.
Proof.
  unfold load_hot_stream_config. cbv zeta. intros H. apply rbind_ok in H as (enabled & _ & H).
  apply rbind_ok in H as (fps & Hf & H). apply number_between in Hf; [|by vm_compute..].
  apply rbind_ok in H as (frames & Hn & H). apply integer_between in Hn.
  apply rbind_ok in H as (requested & Hq & H). apply integer_between in Hq.
  destruct (_ <? _)%Z eqn:Es; [done|]. apply rbind_ok in H as (bytes & Hb & H). apply integer_between in Hb.
  apply rbind_ok in H as (total & Ht & H). apply integer_between in Ht. apply rbind_ok in H as (age & Ha & [= <-]).
  apply number_between in Ha; [|by vm_compute..]. unfold bounded_stream. cbn [hs_sample_fps hs_selection_count hs_frame_count hs_max_frame_bytes hs_max_total_bytes hs_max_age_seconds].
  split; [exact Hf|]. split; [lia|]. split; [lia|]. split; [lia|]. split; [lia|exact Ha].
Qed.

(** ** The start *)

Lemma setup_bounded environment directory settings : controller_setup urlparse ip_address environment directory = Ok settings ->
  (1 <= cs_max_burst_candidates settings <= MAX_BURST_CANDIDATES)%Z /\ (1 <= cs_max_candidate_bytes settings <= MAX_CANDIDATE_BYTES)%Z /\
  (forall c, cs_hot_stream settings = Some c -> bounded_stream c) /\
  (isfinite (cs_decision_timeout settings) = true /\ flt (cs_activation_guard settings) (cs_decision_timeout settings) = true /\
   fle float_0 (cs_activation_guard settings) = true) /\
  Forall private_worker (cs_workers settings) /\ exists days, (1 <= days <= 3650)%Z /\ omap retention_of (cs_workers settings) = [days].
Proof.
  intros H. unfold controller_setup in H. apply rbind_ok in H as (age & _ & H). apply rbind_ok in H as (timeout & _ & H).
  apply rbind_ok in H as (limits & Hl & H). apply limits_between in Hl as [Hl1 Hl2].
  apply rbind_ok in H as (stream & Hs & H). apply stream_bounded in Hs. cbv zeta in H.
  apply rbind_ok in H as (staleness & _ & H). apply rbind_ok in H as (cloud & _ & H).
  apply rbind_ok in H as (workers & Hw & H). apply background_workers_private in Hw as [Hw (days & Hd & Hr)].
  apply rbind_ok in H as (triggers & Ht & H). apply rbind_ok in H as (age_us & _ & H). apply rbind_ok in H as (guard & Hg & [= <-]).
  cbn [cs_max_burst_candidates cs_max_candidate_bytes cs_hot_stream cs_decision_timeout cs_activation_guard cs_workers].
  assert (Htriggers : Forall private_worker triggers /\ omap retention_of triggers = []).
  { apply rbind_ok in Ht as (config & _ & [= <-]). destruct (wc_enabled config); (split; [|done]); [apply List.Forall_cons; [done|]|]; constructor. }
  destruct Htriggers as [Tp Tr].
  split; [exact Hl1|]. split; [exact Hl2|]. split; [destruct (hs_enabled stream); [by intros c [= <-]|discriminate]|]. split.
  { unfold activation_guard in Hg. destruct (negb (isfinite timeout) || _) eqn:E1; [discriminate|]. cbv zeta in Hg.
    destruct (negb (isfinite _) || _) eqn:E2 in Hg; [discriminate|]. injection Hg as Hg. rewrite Hg in E2.
    apply orb_false_iff in E1 as [E1 _], E2 as [_ E2]. apply negb_false_iff in E1, E2. apply andb_true_iff in E2 as [E2 E3]. exact (conj E1 (conj E3 E2)). }
  split; [apply list.Forall_app; split; [exact Hw|]; apply list.Forall_app; split; [exact Tp|]|exists days; split; [exact Hd|]].
  - destruct (hs_enabled stream); [apply List.Forall_cons; [done|]|]; constructor.
  - rewrite !omap_app, Hr, Tr. by destruct (hs_enabled stream).
Qed.

(** Plates are refreshed only from the service, and then they have an age limit. *)
Definition refreshes (w : background_worker) : bool := match w with PlateRefresh _ _ _ => true | _ => false end.

Lemma local_never_refreshes environment controller_id days workers :
  local_workers urlparse ip_address environment controller_id days = Ok workers -> existsb refreshes workers = false.
Proof.
  unfold local_workers. cbv zeta. destruct (String.eqb _ _); [by intros [= <-]|].
  intros H. by apply rbind_ok in H as (token & _ & [= <-]).
Qed.

Lemma setup_limits_age environment directory settings : controller_setup urlparse ip_address environment directory = Ok settings ->
  existsb refreshes (cs_workers settings) = true -> is_Some (cs_max_staleness settings).
Proof.
  intros H. unfold controller_setup in H. apply rbind_ok in H as (age & _ & H). apply rbind_ok in H as (timeout & _ & H).
  apply rbind_ok in H as (limits & _ & H). apply rbind_ok in H as (stream & _ & H). cbv zeta in H.
  apply rbind_ok in H as (staleness & _ & H). apply rbind_ok in H as (cloud & Hcloud & H).
  apply rbind_ok in H as (workers & Hw & H). apply rbind_ok in H as (triggers & Ht & H).
  apply rbind_ok in H as (age_us & _ & H). apply rbind_ok in H as (guard & _ & [= <-]). cbn [cs_workers cs_max_staleness].
  destruct cloud; [by eexists|]. rewrite !existsb_app. intros Hr. exfalso.
  assert (Hworkers : existsb refreshes workers = false).
  { unfold build_background_workers in Hw. cbv zeta in Hw. apply rbind_ok in Hw as (stale & _ & Hw). destruct (fle _ _); [done|].
    apply rbind_ok in Hw as (days & _ & Hw). rewrite Hcloud in Hw. cbn [rbind] in Hw. apply rbind_ok in Hw as (ws & Hl & [= <-]).
    apply local_never_refreshes in Hl. exact Hl. }
  assert (Htriggers : existsb refreshes triggers = false).
  { apply rbind_ok in Ht as (config & _ & [= <-]). by destruct (wc_enabled config). }
  rewrite Hworkers, Htriggers in Hr. by destruct (hs_enabled stream).
Qed.
End Facts.


(** ** An environment *)

Module Sample.
Definition parse_sample (url : string) : result parsed_url :=
  if String.prefix "https://gate.example" url then Ok {| pu_scheme := "https"; pu_hostname := Some "gate.example" |}
  else if String.prefix "http://localhost" url then Ok {| pu_scheme := "http"; pu_hostname := Some "localhost" |}
  else Ok {| pu_scheme := "http"; pu_hostname := Some "gate.example" |}.

Definition cloud : dict string :=
  [("PLATE_RECOGNIZER_API_TOKEN", "token"); ("GATE_CLOUDFLARE_API_URL", " https://gate.example/ "); ("GATE_CLOUDFLARE_ACCESS_CLIENT_ID", "id");
   ("GATE_CLOUDFLARE_ACCESS_CLIENT_SECRET", "secret"); ("GATE_HOT_STREAM_ENABLED", "true"); ("GATE_PROMPT_ARRIVAL", "/prompts/a.wav")].
Abbreviation run environment := (startup parse_sample (fun _ => None) (3, 11)%Z environment None None).

Definition client : service_client :=
  {| sc_base_url := "https://gate.example"; sc_client_id := "id"; sc_client_secret := "secret"; sc_timeout := [JInt 2; JInt 4] |}.

Definition expected_workers : list background_worker :=
  [CommandServer "primary" [("arrival", "/prompts/a.wav")]; Outbox (ToCloudflare client) "primary" 30;
   PlateRefresh client "primary" (float_of_Z 30); Heartbeat client "primary" (float_of_Z 60) true].


(** Plain HTTP to another machine is refused, to this one it is not. *)
Lemma plain_http_refused :
  build_background_workers parse_sample (fun _ => None)
    [("GATE_OUTBOX_URL", "http://gate.example/events"); ("GATE_OUTBOX_BEARER_TOKEN", "t")] true true
  = Err (ValueError "GATE_OUTBOX_URL must use HTTPS except for explicit loopback URLs") /\
  build_background_workers parse_sample (fun _ => None)
    [("GATE_OUTBOX_URL", "http://localhost/events"); ("GATE_OUTBOX_BEARER_TOKEN", " t ")] false true
  = Ok [Outbox (ToUrl "http://localhost/events" [("Authorization", "Bearer t")]) "primary" 30].
Proof. split; by vm_compute. Qed.
End Sample.
