(* ===== verification/MediaToken.v ===== *)
(** * Media session tokens: gate_media_auth/token.py

    The base64url parts with their canonical form, the JSON parts without
    duplicate keys and the claims of a short-lived token.  HMAC-SHA256 and the
    JSON parser are arguments; a parsed object keeps its pairs as written, with
    duplicates. *)

From Stdlib Require Import Strings.Byte.
From S2P Require Import Prelude Json Base64.

#[export] Instance token_byte_eq_dec : EqDecision byte := Byte.byte_eq_dec.

Definition invalid_token : exc := ValueError "invalid token".

Definition in_range (lo n hi : nat) : bool := (lo <=? n)%nat && (n <=? hi)%nat.
Definition is_alphanumeric (c : ascii) : bool :=
  let n := nat_of_ascii c in in_range 65 n 90 || in_range 97 n 122 || in_range 48 n 57.

(** [_TOKEN_PART.fullmatch] *)
Definition _TOKEN_PART (s : string) : bool :=
  negb (String.eqb s "")
  && forallb (fun c => is_alphanumeric c || bool_decide (c = "_"%char) || bool_decide (c = "-"%char))
       (list_ascii_of_string s).

(** [_BOUNDED_ID.fullmatch] *)
Definition _BOUNDED_ID (s : string) : bool :=
  match list_ascii_of_string s with
  | [] => false
  | c :: l =>
      is_alphanumeric c && (length l <=? 127)%nat
      && forallb (fun c => is_alphanumeric c || bool_decide (c ∈ ["."; "_"; ":"; "@"; "-"]%char)) l
  end.

Definition _CLAIM_KEYS : list string := ["v"; "sub"; "controller"; "path"; "actions"; "iat"; "exp"; "nonce"].
Definition _HEADER_KEYS : list string := ["alg"; "typ"].
Definition _MAX_SESSION_SECONDS : Z := 60.

(** [set(d) == keys] *)
Definition same_keys {V} (d : dict V) (keys : list string) : bool :=
  forallb (fun k => bool_decide (k ∈ d.*1)) keys && forallb (fun k => bool_decide (k ∈ keys)) d.*1.

(** [s.split(".")] *)
Fixpoint split_dots (s : string) : list string :=
  match s with
  | EmptyString => [EmptyString]
  | String c s' =>
      if bool_decide (c = "."%char) then EmptyString :: split_dots s'
      else match split_dots s' with part :: parts => String c part :: parts | [] => [String c EmptyString] end
  end.

(** ** base64url *)

(** The two alphabets differ in two characters. *)
Definition to_url (c : ascii) : ascii :=
  if bool_decide (c = "+"%char) then "-"%char else if bool_decide (c = "/"%char) then "_"%char else c.
Definition from_url (c : ascii) : ascii :=
  if bool_decide (c = "-"%char) then "+"%char else if bool_decide (c = "_"%char) then "/"%char else c.
Definition map_text (f : ascii -> ascii) (s : string) : string :=
  string_of_list_ascii (f <$> list_ascii_of_string s).

(** [.rstrip(b"=")] *)
Fixpoint rstrip_pads (s : string) : string :=
  match s with
  | EmptyString => EmptyString
  | String c s' =>
      match rstrip_pads s' with
      | EmptyString => if bool_decide (c = pad) then EmptyString else String c EmptyString
      | r => String c r
      end
  end.

(** ["=" * (-len(value) % 4)] *)
Definition pads (n : nat) : string := string_of_list_ascii (repeat pad (Z.to_nat ((- Z.of_nat n) mod 4))).

(** [urlsafe_b64encode(b).rstrip(b"=")] *)
Definition canonical (b : bytes) : string := rstrip_pads (map_text to_url (b64encode b)).

(** token.py: _decode_base64url *)
Definition _decode_base64url (value : string) : result bytes :=
  if negb (_TOKEN_PART value) || (String.length value mod 4 =? 1)%nat then Err invalid_token
  else
    match b64decode (map_text from_url (String.append value (pads (String.length value)))) with
    | None => Err invalid_token
    | Some decoded => if String.eqb value (canonical decoded) then Ok decoded else Err invalid_token
    end.

(** ** JSON without duplicate keys *)

Fixpoint has_duplicates (l : list string) : bool :=
  match l with [] => false | k :: l' => bool_decide (k ∈ l') || has_duplicates l' end.

(** token.py: _unique_object, at every object of the value *)
Fixpoint _unique_object (j : json) : bool :=
  match j with
  | JList l => forallb _unique_object l
  | JDict d => negb (has_duplicates d.*1) && forallb (fun kv => _unique_object (snd kv)) d
  | _ => true
  end.

Section Token.
(** HMAC-SHA256, and [json.loads(body.decode("utf-8"))] as the pairs read. *)
Context (hmac : string -> string -> bytes) (parse : bytes -> result json).

(** [json.loads] with the hook *)
Definition loads_unique (body : bytes) : result json :=
  rbind (parse body) (fun j => if _unique_object j then Ok j else Err (ValueError "duplicate JSON key")).

(** token.py: _decode_json_part; a ValueError covers the three decoding errors. *)
Definition _decode_json_part (value : string) : result json :=
  match rbind (_decode_base64url value) loads_unique with
  | Err (ValueError _) | Err TypeError => Err invalid_token
  | r => r
  end.

(** token.py: _is_int *)
Definition _is_int (j : json) : option Z := match j with JInt z => Some z | _ => None end.

(** token.py: _is_bounded_id *)
Definition _is_bounded_id (j : json) : bool := match j with JStr s => _BOUNDED_ID s | _ => false end.

(** [value == 1], with [isinstance(value, bool)] excluded; 1.0 equals 1 *)
Definition is_one (j : json) : bool :=
  match j with JInt z => (z =? 1)%Z | JFloat f => bool_decide (f = float_1) | _ => false end.

Definition is_text (j : json) (s : string) : bool := match j with JStr t => String.eqb t s | _ => false end.
Definition is_read (j : json) : bool := match j with JList [a] => is_text a "read" | _ => false end.

(** token.py: _validate_claims *)
Definition _validate_claims (claims : dict json) (now : Z) (controller : string) : result unit :=
  if negb (is_one (dict_get "v" claims)) then Err invalid_token
  else if negb (_is_bounded_id (dict_get "sub" claims)) || negb (_is_bounded_id (dict_get "nonce" claims))
  then Err invalid_token
  else if negb (is_text (dict_get "controller" claims) controller) || negb (is_text (dict_get "path" claims) "gate")
  then Err invalid_token
  else if negb (is_read (dict_get "actions" claims)) then Err invalid_token
  else
    match _is_int (dict_get "iat" claims), _is_int (dict_get "exp" claims) with
    | Some issued_at, Some expires_at =>
        if (now <? issued_at)%Z || (expires_at <=? now)%Z || (expires_at <=? issued_at)%Z then Err invalid_token
        else if (_MAX_SESSION_SECONDS <? expires_at - issued_at)%Z then Err invalid_token
        else Ok tt
    | _, _ => Err invalid_token
    end.

(** token.py: validate_media_token *)
Definition validate_media_token (token secret : string) (now : Z) (controller : string) : result (dict json) :=
  if String.eqb secret "" then Err invalid_token
  else
    match split_dots token with
    | [h; c; s] =>
        if negb (_TOKEN_PART h && _TOKEN_PART c && _TOKEN_PART s) then Err invalid_token
        else
          let expected := hmac secret (String.append h (String "." c)) in
          rbind (_decode_base64url s) (fun supplied =>
          if negb (bool_decide (supplied = expected)) then Err invalid_token
          else
            rbind (_decode_json_part h) (fun header =>
            rbind (_decode_json_part c) (fun claims =>
            match header with
            | JDict hd =>
                if negb (same_keys hd _HEADER_KEYS)
                   || negb (is_text (dict_get "alg" hd) "HS256" && is_text (dict_get "typ" hd) "JWT")
                then Err invalid_token
                else
                  match claims with
                  | JDict d =>
                      if negb (same_keys d _CLAIM_KEYS) then Err invalid_token
                      else rbind (_validate_claims d now controller) (fun _ => Ok d)
                  | _ => Err invalid_token
                  end
            | _ => Err invalid_token
            end)))
    | _ => Err invalid_token
    end.
End Token.

(** ** What an accepted token says *)

(** The claims grant one viewer a read of the gate's stream for at most a minute. *)
Record granted (claims : dict json) (now : Z) (controller : string) : Prop := {
  gr_keys : same_keys claims _CLAIM_KEYS = true;
  gr_version : is_one (dict_get "v" claims) = true;
  gr_who : exists who nonce, dget "sub" claims = Some (JStr who) /\ dget "nonce" claims = Some (JStr nonce) /\
    _BOUNDED_ID who = true /\ _BOUNDED_ID nonce = true;
  gr_what : dget "controller" claims = Some (JStr controller) /\ dget "path" claims = Some (JStr "gate") /\
    dget "actions" claims = Some (JList [JStr "read"]);
  gr_when : exists issued expires, dget "iat" claims = Some (JInt issued) /\ dget "exp" claims = Some (JInt expires) /\
    (issued <= now < expires)%Z /\ (expires <= issued + _MAX_SESSION_SECONDS)%Z;
}.

Lemma is_text_spec j s : is_text j s = true -> j = JStr s.
Proof. unfold is_text. destruct j; try done. by intros ->%String.eqb_eq. Qed.

Lemma dict_get_text k s d : dict_get k d = JStr s -> dget k d = Some (JStr s).
Proof. unfold dict_get. by destruct (dget k d); cbn; [intros ->|]. Qed.

Lemma dict_get_some k j d : j <> JNull -> dict_get k d = j -> dget k d = Some j.
Proof. unfold dict_get. intros Hj. destruct (dget k d); cbn; [by intros ->|by intros <-]. Qed.

Lemma bounded_id_spec j : _is_bounded_id j = true -> exists s, j = JStr s /\ _BOUNDED_ID s = true.
Proof. destruct j as [| | | |s| | |]; try done. by exists s. Qed.

Lemma validate_claims_granted claims now controller :
  same_keys claims _CLAIM_KEYS = true ->
  _validate_claims claims now controller = Ok tt <-> granted claims now controller.
Proof.
  intros Hkeys. split.
  - unfold _validate_claims. destruct (is_one _) eqn:Ev; cbn [negb]; [|done].
    destruct (_is_bounded_id (dict_get "sub" claims)) eqn:Es; cbn [negb orb]; [|done].
    destruct (_is_bounded_id (dict_get "nonce" claims)) eqn:En; cbn [negb]; [|done].
    destruct (is_text (dict_get "controller" claims) controller) eqn:Ec; cbn [negb orb]; [|done].
    destruct (is_text (dict_get "path" claims) "gate") eqn:Ep; cbn [negb]; [|done].
    destruct (is_read _) eqn:Ea; cbn [negb]; [|done].
    destruct (dict_get "iat" claims) as [| |i| | | | |] eqn:Ei; cbn [_is_int]; try done.
    destruct (dict_get "exp" claims) as [| |x| | | | |] eqn:Ex; cbn [_is_int]; try done.
    destruct ((now <? i)%Z || _ || _) eqn:Et; [done|]. destruct (_MAX_SESSION_SECONDS <? _)%Z eqn:El; [done|]. intros _.
    apply bounded_id_spec in Es as (who & Es & ?), En as (nonce & En & ?). apply is_text_spec in Ec, Ep.
    split; [done|done| | |].
    + exists who, nonce. auto using dict_get_text.
    + split; [by apply dict_get_text|]. split; [by apply dict_get_text|]. apply dict_get_some; [done|].
      revert Ea. unfold is_read. destruct (dict_get "actions" claims) as [| | | | | |[|a [|]]|]; try done.
      by intros ->%is_text_spec.
    + exists i, x. split; [by apply dict_get_some|]. split; [by apply dict_get_some|]. rewrite !orb_false_iff in Et. lia.
  - intros [_ Hv (who & nonce & Hs & Hn & Hws & Hwn) (Hc & Hp & Ha) (i & x & Hi & Hx & Ht & Hl)].
    unfold _validate_claims, dict_get in *. rewrite Hs, Hn, Hc, Hp, Ha, Hi, Hx, Hv. cbn. rewrite Hws, Hwn, String.eqb_refl. cbn.
    assert (E1 : (now <? i)%Z || (x <=? now)%Z || (x <=? i)%Z = false) by (rewrite !orb_false_iff; lia).
    assert (E2 : (_MAX_SESSION_SECONDS <? x - i)%Z = false) by (apply Z.ltb_ge; lia).
    by rewrite E1, E2.
Qed.

(** ** base64url round trip *)

Definition url_char (c : ascii) : bool := is_alphanumeric c || bool_decide (c = "_"%char) || bool_decide (c = "-"%char).

Lemma sextet_elem n : (0 <= n < 64)%Z -> sextet n ∈ alphabet.
Proof.
  intros H. unfold sextet. apply list_elem_of_lookup_2 with (i := Z.to_nat n).
  destruct (lookup_lt_is_Some_2 alphabet (Z.to_nat n)) as [c Hc]; [change (length alphabet) with 64%nat; lia|].
  rewrite Hc. f_equal. symmetry. by apply nth_lookup_Some.
Qed.

Lemma alphabet_ok : forallb (fun c => url_char (to_url c) && bool_decide (from_url (to_url c) = c)
  && negb (bool_decide (to_url c = pad))) alphabet = true.
Proof. by vm_compute. Qed.

Lemma alphabet_spec c : c ∈ alphabet -> url_char (to_url c) = true /\ from_url (to_url c) = c /\ to_url c <> pad.
Proof.
  intros Hc. pose proof alphabet_ok as H. rewrite forallb_forall in H.
  specialize (H c (proj1 (list_elem_of_In _ _) Hc)). bool_props. done.
Qed.

(** An encoding is sextets and the padding of their number. *)
Record padded (t : list ascii) (l : list ascii) : Prop := {
  pd_text : t = l ++ repeat pad (Z.to_nat ((- Z.of_nat (length l)) mod 4));
  pd_chars : Forall (fun c => c ∈ alphabet) l;
  pd_length : (length l mod 4 <> 1)%nat;
}.

Ltac sextets := repeat (apply List.Forall_cons; [apply sextet_elem; octets|]).

Lemma b64encode_padded b : exists l, padded (list_ascii_of_string (b64encode b)) l /\ (b <> [] -> l <> []).
Proof.
  revert b. fix IH 1. intros [|x [|y [|z b]]]; cbn [b64encode].
  - exists []. by split.
  - pose proof (octet_range x). exists [sextet (octet x / 4); sextet (octet x mod 4 * 16)]. split; [split|done]; [done| |done].
    sextets. constructor.
  - pose proof (octet_range x). pose proof (octet_range y).
    exists [sextet (octet x / 4); sextet (octet x mod 4 * 16 + octet y / 16); sextet (octet y mod 16 * 4)].
    split; [split|done]; [done| |done]. sextets. constructor.
  - pose proof (octet_range x). pose proof (octet_range y). pose proof (octet_range z).
    destruct (IH b) as (l & [Ht Hc Hl] & _). eexists (_ :: _ :: _ :: _ :: l). split; [split|done].
    + cbn [list_ascii_of_string]. rewrite Ht. cbn [app]. do 5 f_equal. cbn [length].
      replace (- Z.of_nat (S (S (S (S (length l))))))%Z with (- Z.of_nat (length l) + (-1) * 4)%Z by lia.
      by rewrite Z.mod_add by lia.
    + sextets. done.
    + cbn [length]. replace (S (S (S (S (length l))))) with (length l + 1 * 4)%nat by lia. by rewrite Nat.Div0.mod_add.
Qed.

Lemma rstrip_pads_app l n : Forall (fun c => c <> pad) l ->
  rstrip_pads (string_of_list_ascii (l ++ repeat pad n)) = string_of_list_ascii l.
Proof.
  induction 1 as [|c l Hc Hl IH]; cbn.
  - induction n as [|n IH]; cbn; [done|]. rewrite IH. by rewrite bool_decide_true.
  - rewrite IH. destruct (string_of_list_ascii l); [|done]. by rewrite bool_decide_false.
Qed.

Lemma string_of_app k l : string_of_list_ascii (k ++ l) = String.append (string_of_list_ascii k) (string_of_list_ascii l).
Proof.
  induction k as [|c k IH]; [done|].
  change (String c (string_of_list_ascii (k ++ l)) = String c (String.append (string_of_list_ascii k) (string_of_list_ascii l))).
  by rewrite IH.
Qed.

Lemma list_ascii_app s t : list_ascii_of_string (String.append s t) = list_ascii_of_string s ++ list_ascii_of_string t.
Proof.
  induction s as [|c s IH]; [done|].
  change (c :: list_ascii_of_string (String.append s t) = c :: list_ascii_of_string s ++ list_ascii_of_string t). by rewrite IH.
Qed.

Lemma string_length_list s : String.length s = length (list_ascii_of_string s).
Proof. induction s as [|c s IH]; cbn; [done|]. by rewrite IH. Qed.

Lemma fmap_repeat {A B} (f : A -> B) x n : f <$> repeat x n = repeat (f x) n.
Proof. induction n as [|n IH]; cbn; [done|]. by f_equal. Qed.

Lemma canonical_chars b : exists l, padded (list_ascii_of_string (b64encode b)) l /\ (b <> [] -> l <> []) /\
  canonical b = string_of_list_ascii (to_url <$> l).
Proof.
  destruct (b64encode_padded b) as (l & Hp & Hne). exists l. split; [done|]. split; [done|]. destruct Hp as [Ht Hc Hl].
  unfold canonical, map_text. rewrite Ht, fmap_app, fmap_repeat. change (to_url pad) with pad.
  rewrite rstrip_pads_app; [done|]. apply list.Forall_fmap. eapply Forall_impl; [|exact Hc].
  intros c Hin. by apply alphabet_spec in Hin as (_ & _ & ?).
Qed.

Lemma token_part_spec s :
  _TOKEN_PART s = true <-> s <> "" /\ Forall (fun c => url_char c = true) (list_ascii_of_string s).
Proof.
  unfold _TOKEN_PART. rewrite andb_true_iff, negb_true_iff, String.eqb_neq. rewrite forallb_forall, list.Forall_forall.
  setoid_rewrite list_elem_of_In. done.
Qed.

Lemma canonical_part b : b <> [] -> _TOKEN_PART (canonical b) = true.
Proof.
  intros Hb. destruct (canonical_chars b) as (l & [_ Hc _] & Hne & ->). specialize (Hne Hb). apply token_part_spec. split.
  - by destruct l.
  - rewrite list_ascii_of_string_of_list_ascii. apply list.Forall_fmap. eapply Forall_impl; [|exact Hc].
    intros c Hin. by apply alphabet_spec in Hin as (? & _).
Qed.

(** Decoding the canonical text gives the bytes, and only the canonical text does. *)
Lemma decode_canonical b : b <> [] -> _decode_base64url (canonical b) = Ok b.
Proof.
  intros Hb. unfold _decode_base64url. rewrite canonical_part by done.
  destruct (canonical_chars b) as (l & [Ht Hc Hl] & _ & Hcan). rewrite Hcan. cbn [negb orb].
  rewrite !string_length_list, list_ascii_of_string_of_list_ascii, length_fmap.
  destruct (Nat.eqb_spec (length l mod 4) 1) as [|_]; [done|].
  assert (Hback : map_text from_url (String.append (string_of_list_ascii (to_url <$> l)) (pads (length l))) = b64encode b).
  { unfold map_text, pads. rewrite list_ascii_app, !list_ascii_of_string_of_list_ascii, fmap_app, fmap_repeat.
    change (from_url pad) with pad. rewrite <- list_fmap_compose.
    assert (E : (from_url ∘ to_url) <$> l = l).
    { clear - Hc. induction Hc as [|c l Hin _ IH]; [done|]. rewrite fmap_cons, IH. f_equal. by apply alphabet_spec in Hin as (_ & ? & _). }
    rewrite E, <- Ht. apply string_of_list_ascii_of_string. }
  rewrite Hback, b64_roundtrip, <- Hcan, String.eqb_refl. done.
Qed.

Lemma decode_ok v b : _decode_base64url v = Ok b -> v = canonical b /\ b <> [].
Proof.
  unfold _decode_base64url. destruct (_TOKEN_PART v) eqn:Ep; cbn [negb orb]; [|done]. destruct (_ =? 1)%nat; [done|].
  destruct (b64decode _) as [d|]; [|done]. destruct (String.eqb_spec v (canonical d)) as [Ev|]; [|done]. intros [= ->].
  split; [done|]. intros ->. subst v. done.
Qed.

(** ** The tokens that are accepted *)

Lemma split_dots_plain s : Forall (fun c => url_char c = true) (list_ascii_of_string s) -> split_dots s = [s].
Proof.
  induction s as [|c s IH]; [done|]. cbn [list_ascii_of_string]. intros [Hc Hs]%list.Forall_cons. cbn [split_dots].
  rewrite bool_decide_false by (by intros ->). by rewrite IH.
Qed.

Lemma split_dots_cons p s : Forall (fun c => url_char c = true) (list_ascii_of_string p) ->
  split_dots (String.append p (String "." s)) = p :: split_dots s.
Proof.
  induction p as [|c p IH]; [done|]. cbn [list_ascii_of_string]. intros [Hc Hp]%list.Forall_cons.
  change (String.append (String c p) (String "." s)) with (String c (String.append p (String "." s))). cbn [split_dots].
  rewrite bool_decide_false by (by intros ->). by rewrite IH.
Qed.

Fixpoint join_dots (parts : list string) : string :=
  match parts with
  | [] => EmptyString
  | [p] => p
  | p :: parts' => String.append p (String "." (join_dots parts'))
  end.

Lemma split_dots_join s : join_dots (split_dots s) = s /\ split_dots s <> [].
Proof.
  induction s as [|c s [IH Hne]]; [done|]. cbn [split_dots]. case_bool_decide as Hc.
  - subst c. destruct (split_dots s) as [|p ps]; [done|]. split; [|done]. cbn [join_dots] in *. by rewrite IH.
  - destruct (split_dots s) as [|p ps]; [done|]. split; [|done]. destruct ps as [|q ps]; cbn [join_dots] in *; by rewrite <- IH.
Qed.

Section Accepted.
Context (hmac : string -> string -> bytes) (parse : bytes -> result json).
Context (Hmac : forall key text, hmac key text <> []).

Definition signed_part (header claims : bytes) : string :=
  String.append (canonical header) (String "." (canonical claims)).

(** The compact token of a header and of claims: the web service's. *)
Definition issue (secret : string) (header claims : bytes) : string :=
  let signed := signed_part header claims in String.append signed (String "." (canonical (hmac secret signed))).

(** The header of an HS256 token. *)
Definition hs256 (j : json) : Prop :=
  exists d, j = JDict d /\ same_keys d _HEADER_KEYS = true /\ dget "alg" d = Some (JStr "HS256") /\ dget "typ" d = Some (JStr "JWT").

Lemma decode_json_ok v j : _decode_json_part parse v = Ok j -> exists b, v = canonical b /\ b <> [] /\ loads_unique parse b = Ok j.
Proof.
  unfold _decode_json_part. destruct (_decode_base64url v) as [b|e] eqn:E; cbn.
  - apply decode_ok in E as [-> Hb]. intros H. exists b. split; [done|]. split; [done|]. by destruct (loads_unique parse b) as [|[]].
  - by destruct e.
Qed.

Lemma append_assoc s t u : String.append (String.append s t) u = String.append s (String.append t u).
Proof. induction s as [|c s IH]; [done|]. change (String c (String.append (String.append s t) u) = String c (String.append s (String.append t u))). by rewrite IH. Qed.

(** The form of an accepted token. *)
Definition well_issued (token secret : string) (now : Z) (controller : string) (claims : dict json) : Prop :=
  secret <> "" /\ exists header body j, header <> [] /\ body <> [] /\ token = issue secret header body /\
    loads_unique parse header = Ok j /\ hs256 j /\
    loads_unique parse body = Ok (JDict claims) /\ granted claims now controller.

Lemma validated_form token secret now controller claims :
  validate_media_token hmac parse token secret now controller = Ok claims -> well_issued token secret now controller claims.
Proof.
  unfold validate_media_token. destruct (String.eqb_spec secret "") as [|Hs]; [done|].
  pose proof (proj1 (split_dots_join token)) as Hj. destruct (split_dots token) as [|h [|c [|s [|]]]]; try done.
  cbn [join_dots] in Hj. destruct (_ && _ && _); cbn [negb]; [|done].
  intros (supplied & Hd & E)%rbind_ok. apply decode_ok in Hd as [-> _]. case_bool_decide as Hsig; cbn [negb] in E; [subst supplied|done].
  apply rbind_ok in E as (j & Hh & E). apply rbind_ok in E as (jc & Hc & E).
  apply decode_json_ok in Hh as (hb & -> & Hhb & Hh). apply decode_json_ok in Hc as (cb & -> & Hcb & Hc).
  destruct j as [| | | | | | |hd]; try done. destruct (same_keys hd _HEADER_KEYS) eqn:Hk; cbn [negb orb] in E; [|done].
  destruct (is_text (dict_get "alg" hd) "HS256") eqn:Ha; cbn [negb orb andb] in E; [|done].
  destruct (is_text (dict_get "typ" hd) "JWT") eqn:Ht; cbn [negb] in E; [|done].
  destruct jc as [| | | | | | |d]; try done. destruct (same_keys d _CLAIM_KEYS) eqn:Hck; cbn [negb] in E; [|done].
  apply rbind_ok in E as ([] & Hv & [= ->]). apply validate_claims_granted in Hv; [|done].
  split; [done|]. exists hb, cb, (JDict hd). split; [done|]. split; [done|]. split; [|split; [done|split; [|done]]].
  + rewrite <- Hj. unfold issue, signed_part. cbv zeta. by rewrite append_assoc.
  + exists hd. split; [done|]. split; [done|]. split; apply dict_get_text; by apply is_text_spec.
Qed.

Lemma validated_granted token secret now controller claims :
  validate_media_token hmac parse token secret now controller = Ok claims -> granted claims now controller.
Proof. by intros (_ & h & b & j & _ & _ & _ & _ & _ & _ & H)%validated_form. Qed.

Lemma issued_valid token secret now controller claims :
  well_issued token secret now controller claims ->
  validate_media_token hmac parse token secret now controller = Ok claims.
Proof.
  intros (Hs & hb & cb & j & Hhb & Hcb & -> & Hh & (hd & -> & Hk & Ha & Ht) & Hc & Hg).
  unfold validate_media_token. destruct (String.eqb_spec secret "") as [|_]; [done|].
  pose proof (canonical_part hb Hhb) as Ph. pose proof (canonical_part cb Hcb) as Pc.
  set (sig := hmac secret (signed_part hb cb)). pose proof (canonical_part sig (Hmac _ _)) as Ps.
  assert (Hsplit : split_dots (issue secret hb cb) = [canonical hb; canonical cb; canonical sig]).
  { unfold issue. cbv zeta. fold sig. unfold signed_part. rewrite append_assoc.
    change (String.append (String "." (canonical cb)) (String "." (canonical sig)))
      with (String "." (String.append (canonical cb) (String "." (canonical sig)))).
    apply token_part_spec in Ph as [_ Ph], Pc as [_ Pc], Ps as [_ Ps].
    by rewrite split_dots_cons, split_dots_cons, split_dots_plain. }
  rewrite Hsplit, Ph, Pc, Ps. cbn [andb negb]. rewrite decode_canonical by apply Hmac. cbn [rbind].
  fold (signed_part hb cb). fold sig. rewrite bool_decide_true by done. cbn [negb].
  unfold _decode_json_part. rewrite !decode_canonical by done. cbn [rbind]. rewrite Hh, Hc. cbn [rbind]. rewrite Hk.
  unfold dict_get. rewrite Ha, Ht. cbn. rewrite (gr_keys _ _ _ Hg). cbn [negb].
  assert (Hv : _validate_claims claims now controller = Ok tt) by (apply validate_claims_granted; [apply Hg|done]).
  by rewrite Hv.
Qed.

(** C26: exactly the signed, fresh tokens of this service are accepted.  A text is
    accepted with some claims when and only when it is the one canonical compact form,
    signed with the (non-empty) secret, of an HS256 header and of JSON claims without
    duplicate keys that grant the read at this instant: no other spelling of a
    token, no other key and no other moment passes. *)
Theorem validate_media_token_exact token secret now controller claims :
  validate_media_token hmac parse token secret now controller = Ok claims <->
  well_issued token secret now controller claims.
Proof. split; [apply validated_form|apply issued_valid]. Qed.
End Accepted.
