(* ===== verification/MediaAuth.v ===== *)
(** * Media authorisation: gate_media_auth/__main__.py

    The body of an authorisation request, the decision for local RTSP and for
    viewers, and the POST handler.  The HTTP methods around it are in
    MediaServices.v. *)

From Stdlib Require Import Strings.Byte.
From S2P Require Import Prelude Json Text Base64 MediaToken.

Definition LOOPBACK_HOST : string := "127.0.0.1".
Definition MAX_REQUEST_BYTES : Z := 8 * 1024.
Definition _ALLOWED_FIELDS : list string :=
  ["user"; "password"; "token"; "ip"; "action"; "path"; "protocol"; "id"; "query"; "userAgent"].

(** [payload[field]] of a payload of texts *)
Definition text_field (k : string) (payload : dict json) : string :=
  match dict_get k payload with JStr s => s | _ => "" end.

(** __main__.py: _allows_local_rtsp *)
Definition _allows_local_rtsp (payload : dict json) : bool :=
  let field k := text_field k payload in
  if negb (String.eqb (field "protocol") "rtsp") || negb (String.eqb (field "ip") LOOPBACK_HOST) then false
  else if existsb (fun k => negb (String.eqb (field k) "")) ["user"; "password"; "token"; "query"] then false
  else bool_decide ((field "action", field "path") ∈ [("read", "camera"); ("read", "clear"); ("publish", "gate")]).

(** A leading ["Bearer "] is dropped. *)
Definition bearer (token : string) : string :=
  if String.prefix "Bearer " token then drop_text 7 token else token.

Section Auth.
Context (hmac : string -> string -> bytes) (parse : bytes -> result json).

(** __main__.py: _allows_viewer_read; a TokenValidationError is a ValueError. *)
Definition _allows_viewer_read (payload : dict json) (secret : string) (now : Z) : result bool :=
  match dict_get "token" payload with
  | JStr t =>
      if String.eqb t "" then Ok false
      else
        let token := bearer t in
        if String.eqb token "" then Ok false
        else if negb (is_text (dict_get "action" payload) "read") || negb (is_text (dict_get "path" payload) "gate")
        then Ok false
        else if dmem "protocol" payload && negb (is_text (dict_get "protocol" payload) "webrtc") then Ok false
        else
          match validate_media_token hmac parse token secret now "primary" with
          | Ok _ => Ok true
          | Err (ValueError _) => Ok false
          | Err e => Err e
          end
  | _ => Ok false
  end.

Definition is_string (j : json) : bool := match j with JStr _ => true | _ => false end.

(** __main__.py: _allows_request *)
Definition _allows_request (payload : dict json) (secret : string) (now : Z) : result bool :=
  if existsb (fun k => negb (is_string (dict_get k payload))) payload.*1 then Ok false
  else if _allows_local_rtsp payload then Ok true
  else _allows_viewer_read payload secret now.

(** __main__.py: authorize_body *)
Definition authorize_body (body : bytes) (secret : string) (now : Z) : result Z :=
  if (MAX_REQUEST_BYTES <? Z.of_nat (length body))%Z then Ok 401%Z
  else
    match loads_unique parse body with
    | Err (ValueError _) => Ok 401%Z
    | Err e => Err e
    | Ok (JDict payload) =>
        if negb (same_keys payload _ALLOWED_FIELDS) then Ok 401%Z
        else rbind (_allows_request payload secret now) (fun allowed => Ok (if allowed then 200 else 401)%Z)
    | Ok _ => Ok 401%Z
    end.

(** __main__.py: _read_body; [rfile_read] is what the connection gives. *)
Definition _read_body (content_length : option string) (rfile_read : Z -> result bytes) : result (option bytes) :=
  match int_of_text (default "" content_length) with
  | None => Ok None
  | Some n =>
      if ((n <? 0) || (MAX_REQUEST_BYTES <? n))%Z then Ok None
      else
        match rfile_read n with
        | Ok body => Ok (if (Z.of_nat (length body) =? n)%Z then Some body else None)
        | Err OSError | Err TimeoutError => Ok None
        | Err e => Err e
        end
  end.

(** __main__.py: _MediaAuthHandler.do_POST: the status of the answer. *)
Definition do_POST (path : string) (content_length : option string) (rfile_read : Z -> result bytes)
    (secret : string) (now : Z) : result Z :=
  if negb (String.eqb path "/auth") then Ok 401%Z
  else
    rbind (_read_body content_length rfile_read) (fun body =>
    match body with
    | None => Ok 401%Z
    | Some body => authorize_body body secret now
    end).

(** ** What is allowed *)

(** A request of MediaMTX on this machine without credentials, for a stream it
    may move. *)
Record local_rtsp (payload : dict json) : Prop := {
  lr_protocol : dget "protocol" payload = Some (JStr "rtsp");
  lr_ip : dget "ip" payload = Some (JStr LOOPBACK_HOST);
  lr_credentials : Forall (fun k => dget k payload = Some (JStr "")) ["user"; "password"; "token"; "query"];
  lr_move : exists action path, dget "action" payload = Some (JStr action) /\ dget "path" payload = Some (JStr path) /\
    (action, path) ∈ [("read", "camera"); ("read", "clear"); ("publish", "gate")];
}.

(** A WebRTC read of the gate's stream with a token that is accepted now. *)
Record viewer_read (payload : dict json) (secret : string) (now : Z) : Prop := {
  vr_protocol : dget "protocol" payload = Some (JStr "webrtc");
  vr_move : dget "action" payload = Some (JStr "read") /\ dget "path" payload = Some (JStr "gate");
  vr_token : exists t claims, dget "token" payload = Some (JStr t) /\
    validate_media_token hmac parse (bearer t) secret now "primary" = Ok claims /\ granted claims now "primary";
}.

Lemma all_strings payload k :
  existsb (fun k => negb (is_string (dict_get k payload))) payload.*1 = false -> k ∈ payload.*1 ->
  dget k payload = Some (JStr (text_field k payload)).
Proof.
  intros H Hk. assert (Hs : is_string (dict_get k payload) = true).
  { destruct (is_string (dict_get k payload)) eqn:E; [done|]. exfalso.
    assert (Hx : existsb (fun k => negb (is_string (dict_get k payload))) payload.*1 = true).
    { apply existsb_exists. exists k. rewrite E. split; [by apply list_elem_of_In|done]. }
    congruence. }
  unfold text_field, dict_get in *. destruct (dget k payload) as [[| | | |s| | |]|]; try done.
Qed.

Lemma same_keys_elem (d : dict json) ks k : same_keys d ks = true -> k ∈ ks -> k ∈ d.*1.
Proof.
  unfold same_keys. intros [H _]%andb_prop Hk. rewrite forallb_forall in H.
  apply list_elem_of_In in Hk. specialize (H k Hk). by bool_props.
Qed.

(** An authorisation request that is allowed. *)
Definition allowed (body : bytes) (secret : string) (now : Z) : Prop :=
  exists payload, loads_unique parse body = Ok (JDict payload) /\
    (Z.of_nat (length body) <= MAX_REQUEST_BYTES)%Z /\ same_keys payload _ALLOWED_FIELDS = true /\
    Forall (fun k => is_string (dict_get k payload) = true) payload.*1 /\
    (local_rtsp payload \/ viewer_read payload secret now).

Lemma not_existsb_strings payload :
  existsb (fun k => negb (is_string (dict_get k payload))) payload.*1 = false <->
  Forall (fun k => is_string (dict_get k payload) = true) payload.*1.
Proof.
  rewrite list.Forall_forall. split.
  - intros H k Hk. pose proof (all_strings payload k H Hk) as E. unfold dict_get. by rewrite E.
  - intros H. apply not_true_iff_false. intros (k & Hk & Hn)%existsb_exists. apply list_elem_of_In in Hk.
    by rewrite (H k Hk) in Hn.
Qed.

Lemma allowed_form body secret now : authorize_body body secret now = Ok 200%Z -> allowed body secret now.
Proof.
  unfold authorize_body, allowed. destruct (_ <? _)%Z eqn:El; [done|]. bool_props.
  destruct (loads_unique parse body) as [[| | | | | | |payload]|[]]; try done.
  destruct (same_keys payload _ALLOWED_FIELDS) eqn:Hk; cbn [negb]; [|done].
  intros ([] & Ha & E)%rbind_ok; [clear E|done]. exists payload. do 3 (split; [done|]).
  revert Ha. unfold _allows_request. destruct (existsb _ payload.*1) eqn:Hs; [done|].
  intros Ha. split; [by apply not_existsb_strings|]. revert Ha.
  assert (Hf : forall k, bool_decide (k ∈ _ALLOWED_FIELDS) = true -> dget k payload = Some (JStr (text_field k payload))).
  { intros k Hin. bool_props. apply all_strings; [done|]. by eapply same_keys_elem. }
  destruct (_allows_local_rtsp payload) eqn:Elocal.
  - intros _. left. revert Elocal. unfold _allows_local_rtsp.
    destruct (String.eqb_spec (text_field "protocol" payload) "rtsp") as [Ep|]; cbn [negb orb]; [|done].
    destruct (String.eqb_spec (text_field "ip" payload) LOOPBACK_HOST) as [Ei|]; cbn [negb]; [|done].
    destruct (existsb _ ["user"; _; _; _]) eqn:Ec; [done|]. intros Hmove. bool_props. split.
    + by rewrite Hf, Ep.
    + by rewrite Hf, Ei.
    + cbn [existsb] in Ec. rewrite !orb_false_iff, !negb_false_iff, !String.eqb_eq in Ec.
      destruct Ec as (E1 & E2 & E3 & E4 & _).
      repeat (apply List.Forall_cons; [rewrite Hf by done; by f_equal; f_equal|]). constructor.
    + eexists _, _. split; [by apply Hf|]. split; [by apply Hf|]. done.
  - unfold _allows_viewer_read. destruct (dict_get "token" payload) as [| | | |t| | |] eqn:Et; try done.
    destruct (String.eqb t ""); [done|]. destruct (String.eqb (bearer t) ""); [done|].
    destruct (is_text (dict_get "action" payload) "read") eqn:Ea; cbn [negb orb]; [|done].
    destruct (is_text (dict_get "path" payload) "gate") eqn:Ep; cbn [negb]; [|done].
    assert (Hp : dmem "protocol" payload = true).
    { unfold dmem. apply bool_decide_eq_true. rewrite Hf by done. by eexists. }
    rewrite Hp. cbn [andb]. destruct (is_text (dict_get "protocol" payload) "webrtc") eqn:Er; cbn [negb]; [|done].
    destruct (validate_media_token _ _ _ _ _ _) as [claims|[]] eqn:Ev; try done. intros _. right.
    apply is_text_spec in Ea, Ep, Er. split; [by apply dict_get_text|split; by apply dict_get_text|].
    exists t, claims. split; [by apply dict_get_text|]. split; [done|]. by eapply validated_granted.
Qed.

Lemma form_allowed body secret now : allowed body secret now -> authorize_body body secret now = Ok 200%Z.
Proof.
  intros (payload & Hp & Hl & Hk & Hs & Hwho). unfold authorize_body. rewrite Hp, Hk. cbn [negb].
  assert (El : (MAX_REQUEST_BYTES <? Z.of_nat (length body))%Z = false) by (apply Z.ltb_ge; done). rewrite El.
  unfold _allows_request. apply not_existsb_strings in Hs. rewrite Hs.
  destruct (_allows_local_rtsp payload) eqn:Elocal; [done|]. destruct Hwho as [[Hpr Hip Hc (a & p & Ha & Hpa & Hm)]|Hv].
  - exfalso. revert Elocal. unfold _allows_local_rtsp, text_field, dict_get. rewrite Hpr, Hip, Ha, Hpa. cbn.
    rewrite !list.Forall_cons in Hc. destruct Hc as (-> & -> & -> & -> & _). cbn. by rewrite bool_decide_true.
  - destruct Hv as [Hpr [Ha Hpa] (t & claims & Ht & Hv & _)]. unfold _allows_viewer_read, dict_get. rewrite Ht, Ha, Hpa, Hpr. cbn.
    assert (Hne : String.eqb (bearer t) "" = false).
    { apply String.eqb_neq. intros E. rewrite E in Hv. unfold validate_media_token in Hv. by destruct (String.eqb secret ""). }
    assert (Hne' : String.eqb t "" = false) by (apply String.eqb_neq; by intros ->).
    rewrite Hne, Hne', Hv. cbn. by rewrite andb_false_r.
Qed.

(** C27: who may see the camera.  A request is allowed when and only when its body
    is a JSON object of at most 8 KiB with exactly the ten documented text fields and
    it is either MediaMTX itself moving one of its own streams over RTSP on the
    loopback without any credentials, or a WebRTC read of the gate's stream with
    a token that is valid at this instant. *)
Theorem allowed_only_local_or_token body secret now :
  authorize_body body secret now = Ok 200%Z <-> allowed body secret now.
Proof. split; [apply allowed_form|apply form_allowed]. Qed.
End Auth.

(** ** A viewer's session *)

Module Sample.
Definition hmac (key text : string) : bytes := x2a :: list_byte_of_string (String.append key text).
Definition header : bytes := list_byte_of_string "header".
Definition body : bytes := list_byte_of_string "claims".
Definition header_json : json := JDict [("alg", JStr "HS256"); ("typ", JStr "JWT")].
Definition claims : dict json :=
  [("v", JInt 1); ("sub", JStr "viewer-1"); ("controller", JStr "primary"); ("path", JStr "gate");
   ("actions", JList [JStr "read"]); ("iat", JInt 100); ("exp", JInt 160); ("nonce", JStr "n0")].
Definition payload (token : string) : dict json :=
  [("user", JStr ""); ("password", JStr ""); ("token", JStr token); ("ip", JStr "10.0.0.9"); ("action", JStr "read");
   ("path", JStr "gate"); ("protocol", JStr "webrtc"); ("id", JStr "1"); ("query", JStr ""); ("userAgent", JStr "ua")].
Definition token : string := Eval vm_compute in issue hmac "key" header body.
Definition request : bytes := list_byte_of_string "request".
Definition parse (b : bytes) : result json :=
  if bool_decide (b = header) then Ok header_json
  else if bool_decide (b = body) then Ok (JDict claims)
  else if bool_decide (b = request) then Ok (JDict (payload (String.append "Bearer " token)))
  else Err (ValueError "json").

Example request_allowed : do_POST hmac parse "/auth" (Some "7") (fun _ => Ok request) "key" 159 = Ok 200%Z.
Proof. vm_compute. reflexivity. Qed.
Example request_expired : do_POST hmac parse "/auth" (Some "7") (fun _ => Ok request) "key" 160 = Ok 401%Z.
Proof. vm_compute. reflexivity. Qed.

Lemma validate_media_token_exact_witness :
  (forall key text, hmac key text <> []) /\ validate_media_token hmac parse token "key" 120 "primary" = Ok claims.
Proof.
  assert (H : forall key text, hmac key text <> []) by (intros key text; discriminate).
  split; [exact H|]. apply (validate_media_token_exact hmac parse H token "key" 120 "primary" claims).
  split; [discriminate|]. exists header, body, header_json. split; [discriminate|]. split; [discriminate|].
  split; [vm_compute; reflexivity|]. split; [vm_compute; reflexivity|]. split.
  - eexists. split; [reflexivity|]. split; [vm_compute; reflexivity|]. split; reflexivity.
  - split; [vm_compute; reflexivity|]. split; [vm_compute; reflexivity|reflexivity| |repeat split|].
    + exists "viewer-1", "n0". split; [reflexivity|]. split; [reflexivity|]. split; vm_compute; reflexivity.
    + exists 100%Z, 160%Z. split; [reflexivity|]. split; [reflexivity|]. unfold _MAX_SESSION_SECONDS. lia.
Defined.
End Sample.
