(* ===== verification/Ocr.v ===== *)
(** * The recogniser client: gate_controller/ocr.py

    The reply's checks and the shared session.  A call of [recognise] is its
    sequence of atomic steps: the sections under the lock, the creation and the
    closing of a session, the request.  Calls, [abandon_in_flight] and [close]
    interleave between these steps.  The reply of a request and the outcome of the
    creation are inputs. *)

From S2P Require Import Prelude Models Json Float Matching.

Definition OcrResponseError (msg : string) : exc := RuntimeError msg.

(** ** The reply *)

Record ocr_response := {
  rp_status : Z;
  rp_json : result json;
}.

(** ocr.py: _optional_string *)
Definition _optional_string (value : json) (key : string) : option string :=
  match value with
  | JDict d => match dict_get key d with JStr s => Some s | _ => None end
  | _ => None
  end.

(** [isinstance(score, bool) or not isinstance(score, (int, float)) or
    not isfinite(score) or not 0 <= score <= 1], then [float(score)]; [isfinite] of
    an integer no float can hold raises. *)
Definition _confidence (score : json) : result pyfloat :=
  let invalid := Err (OcrResponseError "OCR service response has invalid confidence") in
  match score with
  | JInt z =>
      if negb (isfinite (float_of_Z z)) then Err OverflowError
      else if ((0 <=? z) && (z <=? 1))%Z then Ok (float_of_Z z) else invalid
  | JFloat f => if negb (isfinite f) || negb (fle float_0 f && fle f float_1) then invalid else Ok f
  | _ => invalid
  end.

(** The first result. *)
Definition observation_of (first_result : dict json) : result PlateObservation :=
  match dict_get "plate" first_result with
  | JStr plate =>
      if String.eqb (normalise_plate (of_ascii plate)) ""
      then Err (OcrResponseError "OCR service response has no usable plate")
      else
        rbind (_confidence (dict_get "score" first_result)) (fun score =>
        let vehicle := default (JDict []) (dget "vehicle" first_result) in
        Ok {| po_plate := Some (of_ascii (normalise_plate (of_ascii plate))); po_confidence := score;
              po_make := _optional_string vehicle "make"; po_colour := _optional_string vehicle "color" |})
  | _ => Err (OcrResponseError "OCR service response has no usable plate")
  end.

(** ocr.py: recognise, from the response on. *)
Definition read_response (r : ocr_response) : result PlateObservation :=
  if negb ((200 <=? rp_status r) && (rp_status r <? 300))%Z
  then Err (OcrResponseError "OCR service returned an HTTP error")
  else
    match rp_json r with
    | Err e => Err (if is_Exception e then OcrResponseError "OCR service returned invalid JSON" else e)
    | Ok (JDict payload) =>
        match dict_get "results" payload with
        | JList [] => Ok {| po_plate := None; po_confidence := float_0; po_make := None; po_colour := None |}
        | JList (JDict first_result :: _) => observation_of first_result
        | JList _ => Err (OcrResponseError "OCR service response has invalid result")
        | _ => Err (OcrResponseError "OCR service response has invalid results")
        end
    | Ok _ => Err (OcrResponseError "OCR service returned a non-object payload")
    end.

(** ** The shared session *)

(** Sessions are numbered in the order of their creation. *)
Record client := {
  oc_session : option nat;
  oc_generation : nat;
  oc_closed : bool;
}.

(** ocr.py: PlateRecognizerClient.__init__ *)
Definition new_client (session : option nat) : client :=
  {| oc_session := session; oc_generation := 0; oc_closed := false |}.

(** The steps of one [recognise], by what comes next. *)
Inductive call :=
| Start
| Entered (generation : nat) (session : option nat)
| Created (generation : nat) (session : nat)
| Discarding (session : nat) (next : call)
| Posting (session : nat)
| Finished (r : result PlateObservation).

Definition client_is_closed : call := Finished (Err (RuntimeError "OCR client is closed")).
Definition abandoned : call := Finished (Err (OcrResponseError "OCR request was abandoned")).

(** The first section under the lock. *)
Definition enter (c : client) : call :=
  if oc_closed c then client_is_closed else Entered (oc_generation c) (oc_session c).

(** The section after a session was created. *)
Definition install (generation created : nat) (c : client) : call * client :=
  if oc_closed c then (Discarding created client_is_closed, c)
  else if negb (generation =? oc_generation c)%nat then (Discarding created abandoned, c)
  else
    match oc_session c with
    | None => (Entered generation (Some created),
               {| oc_session := Some created; oc_generation := oc_generation c; oc_closed := oc_closed c |})
    | Some s => (Discarding created (Entered generation (Some s)), c)
    end.

(** The last section before the request. *)
Definition admit_request (generation session : nat) (c : client) : call :=
  if oc_closed c then client_is_closed
  else if negb (generation =? oc_generation c)%nat then abandoned
  else Posting session.

(** ocr.py: abandon_in_flight, the section under the lock: the session to close. *)
Definition abandon_in_flight (c : client) : option nat * client :=
  (oc_session c, {| oc_session := None; oc_generation := S (oc_generation c); oc_closed := oc_closed c |}).

(** ocr.py: close, the section under the lock *)
Definition close (c : client) : option nat * client :=
  if oc_closed c then (None, c)
  else (oc_session c, {| oc_session := None; oc_generation := S (oc_generation c); oc_closed := true |}).

(** ** The system *)

Record system := {
  sy_client : client;
  sy_calls : list call;
  (** Sessions numbered below [sy_created] exist; those detached by [abandon_in_flight]
      or [close] and not closed yet; those closed. *)
  sy_created : nat;
  sy_detached : list nat;
  sy_closed : list nat;
}.

Definition set_call (i : nat) (k : call) (s : system) : system :=
  {| sy_client := sy_client s; sy_calls := <[i := k]> (sy_calls s); sy_created := sy_created s;
     sy_detached := sy_detached s; sy_closed := sy_closed s |}.
Definition set_client (c : client) (s : system) : system :=
  {| sy_client := c; sy_calls := sy_calls s; sy_created := sy_created s; sy_detached := sy_detached s;
     sy_closed := sy_closed s |}.

(** What happens next. *)
Inductive ocr_action :=
| NewCall
| StepCall (i : nat) (creation : result unit) (file : result unit) (reply : result ocr_response)
| Abandon
| Close
| CloseDetached.

(** The next step of call [i]; closing a session ignores what it raises. *)
Definition step_call (i : nat) (creation file : result unit) (reply : result ocr_response) (s : system) : system :=
  match sy_calls s !! i with
  | Some Start => set_call i (enter (sy_client s)) s
  | Some (Entered generation None) =>
      match creation with
      | Ok _ =>
          let s' := set_call i (Created generation (sy_created s)) s in
          {| sy_client := sy_client s'; sy_calls := sy_calls s'; sy_created := S (sy_created s');
             sy_detached := sy_detached s'; sy_closed := sy_closed s' |}
      | Err e => set_call i (Finished (Err e)) s
      end
  | Some (Created generation created) =>
      let (k, c) := install generation created (sy_client s) in set_call i k (set_client c s)
  | Some (Discarding created next) =>
      let s' := set_call i next s in
      {| sy_client := sy_client s'; sy_calls := sy_calls s'; sy_created := sy_created s';
         sy_detached := sy_detached s'; sy_closed := created :: sy_closed s' |}
  | Some (Entered generation (Some session)) => set_call i (admit_request generation session (sy_client s)) s
  | Some (Posting session) => set_call i (Finished (rbind file (fun _ => rbind reply read_response))) s
  | Some (Finished _) | None => s
  end.

(** A detached session is closed after its section. *)
Definition detach (r : option nat * client) (s : system) : system :=
  {| sy_client := snd r; sy_calls := sy_calls s; sy_created := sy_created s;
     sy_detached := option_list (fst r) ++ sy_detached s; sy_closed := sy_closed s |}.

Definition act (a : ocr_action) (s : system) : system :=
  match a with
  | NewCall => {| sy_client := sy_client s; sy_calls := sy_calls s ++ [Start]; sy_created := sy_created s;
                  sy_detached := sy_detached s; sy_closed := sy_closed s |}
  | StepCall i creation file reply => step_call i creation file reply s
  | Abandon => detach (abandon_in_flight (sy_client s)) s
  | Close => detach (close (sy_client s)) s
  | CloseDetached =>
      match sy_detached s with
      | x :: l => {| sy_client := sy_client s; sy_calls := sy_calls s; sy_created := sy_created s;
                     sy_detached := l; sy_closed := x :: sy_closed s |}
      | [] => s
      end
  end.

Definition run (actions : list ocr_action) (s : system) : system := fold_left (fun s a => act a s) actions s.

(** A client constructed with a session of its caller or without. *)
Definition initial (own : bool) : system :=
  {| sy_client := new_client (if own then Some O else None); sy_calls := []; sy_created := if own then 1 else 0;
     sy_detached := []; sy_closed := [] |}.
