(* ===== verification/OcrFacts.v ===== *)
(** * Properties of the recogniser client

    No session leaks, an abandoned call never sends its request, and only checked
    observations come out of a reply. *)

From S2P Require Import Prelude Models Json Float Matching Ocr.

(** ** Sessions *)

(** The session a call still has to install or close. *)
Definition holds (k : call) : option nat :=
  match k with Created _ x | Discarding x _ => Some x | _ => None end.

(** Someone will close the session, or has. *)
Definition covered (s : system) (x : nat) : Prop :=
  x ∈ sy_closed s \/ x ∈ sy_detached s \/ oc_session (sy_client s) = Some x \/
  exists i k, sy_calls s !! i = Some k /\ holds k = Some x.

Record accounted (s : system) : Prop := {
  ac_covered : forall x, (x < sy_created s)%nat -> covered s x;
  ac_closed : oc_closed (sy_client s) = true -> oc_session (sy_client s) = None;
}.

(** A step of call [i] keeps what the other calls hold. *)
Lemma covered_call i k k' s s' x :
  sy_calls s !! i = Some k -> sy_calls s' = <[i := k']> (sy_calls s) ->
  (x ∈ sy_closed s -> x ∈ sy_closed s') -> sy_detached s' = sy_detached s ->
  (oc_session (sy_client s) = Some x -> oc_session (sy_client s') = Some x) ->
  (holds k = Some x -> covered s' x) -> covered s x -> covered s' x.
Proof.
  intros Hk Hcalls Hcl Hd Hse Hh [H|[H|[H|(j & kj & Hj & Hx)]]].
  - left. auto.
  - right; left. by rewrite Hd.
  - right; right; left. auto.
  - destruct (decide (j = i)) as [->|Hne].
    + rewrite Hk in Hj. injection Hj as <-. auto.
    + right; right; right. exists j, kj. by rewrite Hcalls, list_lookup_insert_ne.
Qed.

Lemma inserted (l : list call) i k k' : l !! i = Some k -> <[i := k']> l !! i = Some k'.
Proof. intros H. apply list_lookup_insert_eq. by apply lookup_lt_Some in H. Qed.

Lemma install_cases gen x c :
  (exists next, install gen x c = (Discarding x next, c)) \/
  (oc_closed c = false /\ oc_session c = None /\
   install gen x c = (Entered gen (Some x), {| oc_session := Some x; oc_generation := oc_generation c; oc_closed := oc_closed c |})).
Proof.
  unfold install. destruct (oc_closed c) eqn:Ec; [left; by eexists|]. destruct (negb _); [left; by eexists|].
  destruct (oc_session c) as [y|] eqn:Es; [left; by eexists|by right].
Qed.

Lemma step_call_accounted i creation file reply s : accounted s -> accounted (step_call i creation file reply s).
Proof.
  intros [Hc Hcl]. unfold step_call. destruct (sy_calls s !! i) as [k|] eqn:Ek; [|done].
  assert (Hset : forall k', holds k = None -> accounted (set_call i k' s)).
  { intros k' Hh. split; [|done]. intros x Hx. eapply (covered_call i k k' s); try done; [|by apply Hc]. by rewrite Hh. }
  destruct k as [|g [x|]|g x|x next|x|r]; [by apply Hset|by apply Hset| | | |by apply Hset|done].
  - destruct creation as [[]|e]; [|by apply Hset]. split; [|done]. intros y Hy. change (y < S (sy_created s))%nat in Hy.
    destruct (decide (y = sy_created s)) as [->|Hne].
    + right; right; right. exists i, (Created g (sy_created s)). split; [|done]. cbn. by eapply inserted.
    + eapply (covered_call i _ (Created g (sy_created s)) s); try done. apply Hc. lia.
  - destruct (install_cases g x (sy_client s)) as [[next ->]|(Hop & Hno & ->)].
    + split; [|done]. intros y Hy. eapply (covered_call i _ (Discarding x next) s); try done; [|by apply Hc].
      intros [= <-]. right; right; right. exists i, (Discarding x next). split; [|done]. cbn. by eapply inserted.
    + split; [|by cbn; rewrite Hop]. intros y Hy. eapply (covered_call i _ (Entered g (Some x)) s); try done; [| |by apply Hc].
      * by rewrite Hno.
      * intros [= <-]. by right; right; left.
  - split; [|done]. intros y Hy. eapply (covered_call i _ next s); try done; [| |by apply Hc].
    + intros H. by right.
    + intros [= <-]. left. by left.
Qed.

Lemma detach_accounted r s :
  accounted s -> (fst r = oc_session (sy_client s) /\ oc_session (snd r) = None \/ r = (None, sy_client s)) ->
  accounted (detach r s).
Proof.
  intros [Hc Hcl] [[Hf Hn]| ->]; unfold detach; [|split; [|done]]; [|by intros x Hx; apply Hc]. split; [|by cbn].
  intros x Hx. destruct (Hc x Hx) as [H|[H|[H|H]]].
  - by left.
  - right; left. cbn. apply elem_of_app. by right.
  - right; left. cbn. rewrite Hf, H. by left.
  - by right; right; right.
Qed.

Lemma act_accounted a s : accounted s -> accounted (act a s).
Proof.
  intros Hs. destruct a as [|i cr f r| | |]; cbn [act].
  - destruct Hs as [Hc Hcl]. split; [|done]. intros x Hx. destruct (Hc x Hx) as [H|[H|[H|(j & k & Hj & Hk)]]].
    + by left.
    + by right; left.
    + by right; right; left.
    + right; right; right. exists j, k. split; [|done]. cbn. apply lookup_app_l_Some. done.
  - by apply step_call_accounted.
  - apply detach_accounted; [done|]. by left.
  - apply detach_accounted; [done|]. unfold close. destruct (oc_closed _); [by right|by left].
  - destruct Hs as [Hc Hcl]. destruct (sy_detached s) as [|y l] eqn:Ed; [by split|]. split; [|done].
    intros x Hx. destruct (Hc x Hx) as [H|[H|H]]; [left; by right| |by right; right].
    rewrite Ed in H. apply elem_of_cons in H as [->|H]; [left; by left|right; by left].
Qed.

Lemma run_accounted actions s : accounted s -> accounted (run actions s).
Proof. revert s. induction actions as [|a l IH]; intros s Hs; [done|]. apply IH. by apply act_accounted. Qed.

Lemma initial_accounted own : accounted (initial own).
Proof.
  split; [|done]. destruct own; intros x Hx; cbn in Hx; [|lia]. right; right; left. cbn. f_equal. lia.
Qed.

Definition finished (k : call) : Prop := match k with Finished _ => True | _ => False end.


(** ** Abandoned calls *)

(** The call read a generation before [n]. *)
Fixpoint behind (n : nat) (k : call) : Prop :=
  match k with
  | Entered g _ | Created g _ => g < n
  | Discarding _ next => behind n next
  | Finished _ => True
  | Start | Posting _ => False
  end.

Lemma behind_step n k i creation file reply s k' :
  behind n k -> (n <= oc_generation (sy_client s))%nat -> sy_calls s !! i = Some k ->
  sy_calls (step_call i creation file reply s) !! i = Some k' -> behind n k'.
Proof.
  intros Hb Hn Hk. unfold step_call. rewrite Hk.
  assert (Hset : forall k0, sy_calls (set_call i k0 s) !! i = Some k' -> k' = k0).
  { intros k0. cbn. rewrite (inserted _ _ _ k0 Hk). congruence. }
  destruct k as [|g [x|]|g x|x next|x|r]; cbn in Hb; try done.
  - intros ->%Hset. unfold admit_request. destruct (oc_closed _); [done|]. by destruct (Nat.eqb_spec g (oc_generation (sy_client s))); [lia|].
  - destruct creation; [|by intros ->%Hset]. cbn. rewrite (inserted _ _ _ _ Hk). by intros [= <-].
  - unfold install. destruct (oc_closed _); [|destruct (Nat.eqb_spec g (oc_generation (sy_client s))); [lia|]];
      cbn; rewrite (inserted _ _ _ _ Hk); by intros [= <-].
  - cbn. rewrite (inserted _ _ _ _ Hk). by intros [= <-].
  - rewrite Hk. by intros [= <-].
Qed.

Lemma step_call_other i j creation file reply s : i <> j -> sy_calls (step_call i creation file reply s) !! j = sy_calls s !! j.
Proof.
  intros Hne. unfold step_call. destruct (sy_calls s !! i) as [[|g [x|]|g x|x next|x|r]|]; try done; cbn;
    try by rewrite list_lookup_insert_ne.
  - destruct creation; cbn; by rewrite list_lookup_insert_ne.
  - destruct (install _ _ _) as [k c]. cbn. by rewrite list_lookup_insert_ne.
Qed.

Lemma step_call_generation i creation file reply s :
  oc_generation (sy_client (step_call i creation file reply s)) = oc_generation (sy_client s).
Proof.
  unfold step_call. destruct (sy_calls s !! i) as [[|g [x|]|g x|x next|x|r]|]; try done; [by destruct creation|].
  destruct (install_cases g x (sy_client s)) as [[next ->]|(_ & _ & ->)]; done.
Qed.

Lemma act_generation a s : (oc_generation (sy_client s) <= oc_generation (sy_client (act a s)))%nat.
Proof.
  destruct a as [|i cr f r| | |]; cbn [act]; [done|by rewrite step_call_generation|cbn; lia| |by destruct (sy_detached s)].
  unfold close. destruct (oc_closed _); cbn; lia.
Qed.

(** A call that is behind stays behind. *)
Lemma act_behind n i k a s :
  behind n k -> (n <= oc_generation (sy_client s))%nat -> sy_calls s !! i = Some k ->
  exists k', sy_calls (act a s) !! i = Some k' /\ behind n k'.
Proof.
  intros Hb Hn Hk. destruct a as [|j cr f r| | |]; cbn [act].
  - exists k. split; [|done]. cbn. by apply lookup_app_l_Some.
  - destruct (decide (j = i)) as [->|Hne]; [|exists k; by rewrite step_call_other].
    assert (Hl : i < length (sy_calls (step_call i cr f r s))).
    { apply lookup_lt_Some in Hk as Hl. unfold step_call.
      destruct (sy_calls s !! i) as [[|g [x|]|g x|x next|x|r']|]; try done; cbn; rewrite ?length_insert; try done.
      - destruct cr; cbn; by rewrite length_insert.
      - destruct (install _ _ _); cbn; by rewrite length_insert. }
    apply lookup_lt_is_Some_2 in Hl as [k' Hk']. exists k'. split; [done|]. by eapply behind_step.
  - by exists k.
  - by exists k.
  - exists k. by destruct (sy_detached s).
Qed.

Lemma run_behind n i k actions s :
  behind n k -> (n <= oc_generation (sy_client s))%nat -> sy_calls s !! i = Some k ->
  exists k', sy_calls (run actions s) !! i = Some k' /\ behind n k'.
Proof.
  revert s k. induction actions as [|a l IH]; intros s k Hb Hn Hk; [by exists k|].
  destruct (act_behind n i k a s Hb Hn Hk) as (k' & Hk' & Hb'). apply (IH (act a s) k' Hb'); [|done].
  etrans; [exact Hn|apply act_generation].
Qed.

(** What a call has read of the generation; after a discard it ends or goes on. *)
Definition up_to (n : nat) (k : call) : Prop :=
  match k with
  | Entered g _ | Created g _ | Discarding _ (Entered g _) => g <= n
  | Discarding _ (Finished _) => True
  | Discarding _ _ => False
  | _ => True
  end.

Lemma up_to_mono n m k : (n <= m)%nat -> up_to n k -> up_to m k.
Proof. intros H. destruct k as [| | |x [| | | | |]| |]; cbn; lia || auto. Qed.

Lemma act_up_to a s :
  Forall (up_to (oc_generation (sy_client s))) (sy_calls s) ->
  Forall (up_to (oc_generation (sy_client (act a s)))) (sy_calls (act a s)).
Proof.
  intros H. pose proof (act_generation a s) as Hg.
  assert (Hmono : Forall (up_to (oc_generation (sy_client (act a s)))) (sy_calls s)).
  { eapply Forall_impl; [|exact H]. intros k. by apply up_to_mono. }
  destruct a as [|i cr f r| | |]; cbn [act] in *; [|clear Hmono|done|done|by destruct (sy_detached s)].
  - cbn. by apply list.Forall_app; split; [|apply List.Forall_cons].
  - rewrite step_call_generation. unfold step_call. destruct (sy_calls s !! i) as [k|] eqn:Ek; [|done].
    assert (Hk : up_to (oc_generation (sy_client s)) k) by (rewrite list.Forall_forall in H; apply H; by eapply list_elem_of_lookup_2).
    assert (Hset : forall k', up_to (oc_generation (sy_client s)) k' ->
      Forall (up_to (oc_generation (sy_client s))) (<[i := k']> (sy_calls s))) by (intros k' Hk'; by apply Forall_insert).
    destruct k as [|g [x|]|g x|x next|x|r']; cbn in Hk; try done; cbn.
    + apply Hset. unfold enter. by destruct (oc_closed _); cbn; [|lia].
    + apply Hset. unfold admit_request. destruct (oc_closed _); [done|]. by destruct (negb _).
    + destruct cr; cbn; by apply Hset.
    + unfold install. destruct (oc_closed _); [|destruct (negb _); [|destruct (oc_session _)]]; cbn; by apply Hset.
    + apply Hset. by destruct next.
    + by apply Hset.
Qed.

Lemma run_up_to actions own :
  Forall (up_to (oc_generation (sy_client (run actions (initial own))))) (sy_calls (run actions (initial own))).
Proof.
  assert (H : forall s, Forall (up_to (oc_generation (sy_client s))) (sy_calls s) ->
    Forall (up_to (oc_generation (sy_client (run actions s)))) (sy_calls (run actions s))).
  { induction actions as [|a l IH]; intros s Hs; [done|]. apply IH. by apply act_up_to. }
  apply H. constructor.
Qed.

(** The call has begun and not yet sent its request. *)
Definition in_flight (k : call) : Prop := match k with Entered _ _ | Created _ _ | Discarding _ _ => True | _ => False end.

(** an abandoned request is not sent.  When a call is abandoned, or the client
    closed, after the call read the shared state and before it sends its
    request, then the request is never sent, whatever the other calls do and in
    whatever order the steps fall. *)
Theorem abandoned_calls_stop own before i k stop after session
    (Hcall : sy_calls (run before (initial own)) !! i = Some k) (Hflight : in_flight k)
    (Hstop : stop = Abandon \/ stop = Close /\ oc_closed (sy_client (run before (initial own))) = false) :
  sy_calls (run (stop :: after) (run before (initial own))) !! i <> Some (Posting session).
Proof.
  pose proof (run_up_to before own) as Hup. set (s := run before (initial own)) in *.
  rewrite list.Forall_forall in Hup. specialize (Hup k (list_elem_of_lookup_2 _ _ _ Hcall)).
  assert (Hgen : oc_generation (sy_client (act stop s)) = S (oc_generation (sy_client s))).
  { destruct Hstop as [->|[-> Hc]]; [done|]. cbn. unfold close. by rewrite Hc. }
  assert (Hsame : sy_calls (act stop s) !! i = Some k) by (by destruct Hstop as [->|[-> _]]).
  assert (Hb : behind (S (oc_generation (sy_client s))) k).
  { clear -Hup Hflight. destruct k as [| | |x [| | | | |]| |]; cbn in *; try done; lia. }
  change (run (stop :: after) s) with (run after (act stop s)).
  destruct (run_behind _ i k after (act stop s) Hb ltac:(rewrite Hgen; lia) Hsame) as (k' & -> & Hb').
  by intros [= ->].
Qed.

(** ** Observations *)

(** only checked observations come out of a reply: of a 2xx reply that is a JSON
    object with a list of results.  Without a result there is no plate and no
    confidence; otherwise the plate is the normal form, not empty, of the text
    of the first result, and the confidence is a number between 0 and 1. *)
Theorem observations_checked r o (Hread : read_response r = Ok o) :
  (200 <= rp_status r < 300)%Z /\ exists payload results, rp_json r = Ok (JDict payload) /\
    dget "results" payload = Some (JList results) /\
    match results with
    | [] => po_plate o = None /\ po_confidence o = float_0
    | first :: _ => exists d plate, first = JDict d /\ dget "plate" d = Some (JStr plate) /\
        normalise_plate (of_ascii plate) <> "" /\ po_plate o = Some (of_ascii (normalise_plate (of_ascii plate))) /\
        isfinite (po_confidence o) = true /\ fle float_0 (po_confidence o) = true /\ fle (po_confidence o) float_1 = true
    end.
Proof.
  revert Hread. unfold read_response. destruct (_ && _) eqn:Es; cbn [negb]; [|done]. bool_props.
  destruct (rp_json r) as [[| | | | | | |payload]|e] eqn:Ej; try done.
  assert (Hres : forall l, dict_get "results" payload = JList l -> dget "results" payload = Some (JList l)).
  { intros l. unfold dict_get. by destruct (dget "results" payload); cbn; [intros ->|]. }
  destruct (dict_get "results" payload) as [| | | | | |l|] eqn:Er; try done. specialize (Hres l eq_refl).
  intros Ho. split; [lia|]. exists payload, l. split; [done|]. split; [done|]. destruct l as [|first l]; [by injection Ho as <-|].
  destruct first as [| | | | | | |d]; try done. unfold observation_of, dict_get in Ho.
  destruct (dget "plate" d) as [[| | | |plate| | |]|] eqn:Ep; cbn in Ho; try done.
  destruct (String.eqb_spec (normalise_plate (of_ascii plate)) "") as [|Hne]; [done|].
  apply rbind_ok in Ho as (score & Hs & [= <-]). exists d, plate. do 4 (split; [done|]). cbn [po_confidence].
  revert Hs. unfold _confidence. destruct (default JNull _) as [| |z|f| | | |]; try done.
  - destruct (isfinite (float_of_Z z)) eqn:Ef; cbn [negb]; [|done]. destruct (_ && _) eqn:Ez; [|done]. bool_props.
    intros [= <-]. split; [done|]. assert (Hz : z = 0%Z \/ z = 1%Z) by lia.
    destruct Hz as [-> | ->]; split; vm_compute; reflexivity.
  - destruct (isfinite f) eqn:Ef; cbn [negb orb]; [|done]. destruct (fle float_0 f) eqn:E0; cbn [negb andb]; [|done].
    destruct (fle f float_1) eqn:E1; cbn [negb]; [|done]. by intros [= <-].
Qed.

(** ** Two calls, a timeout and a shutdown *)

Module Sample.
Definition reply : ocr_response :=
  {| rp_status := 200;
     rp_json := Ok (JDict [("results", JList [JDict [("plate", JStr "12-d 345"); ("score", JFloat float_1);
                                                      ("vehicle", JDict [("make", JStr "Ford")])]])]) |}.
Definition next (i : nat) : ocr_action := StepCall i (Ok tt) (Ok tt) (Ok reply).
(** The first call has created its session when it is abandoned. *)
Definition begun : list ocr_action := [NewCall; NewCall; next 0; next 0].
Definition rest : list ocr_action :=
  [next 1; next 1; next 0; next 1; next 0; next 1; next 1; Close; CloseDetached].
Definition final : system := Eval vm_compute in run (begun ++ Abandon :: rest) (initial false).

Example reply_observed :
  read_response reply = Ok {| po_plate := Some (of_ascii "12D345"); po_confidence := float_1; po_make := Some "Ford"; po_colour := None |}.
Proof. reflexivity. Qed.
Example final_calls : sy_calls final = [abandoned; Finished (read_response reply)] /\ sy_closed final = [1%nat; 0%nat].
Proof. split; reflexivity. Qed.


Lemma abandoned_calls_stop_witness :
  sy_calls (run begun (initial false)) !! 0%nat = Some (Created 0 0) /\
  sy_calls (run (Abandon :: rest) (run begun (initial false))) !! 0%nat <> Some (Posting 0).
Proof.
  assert (E : sy_calls (run begun (initial false)) !! 0%nat = Some (Created 0 0)) by (vm_compute; reflexivity).
  split; [exact E|]. apply (abandoned_calls_stop false begun 0 (Created 0 0) Abandon rest 0); [exact E|exact I|left; reflexivity].
Defined.

Lemma observations_checked_witness :
  exists o, read_response reply = Ok o /\ fle float_0 (po_confidence o) = true.
Proof.
  eexists. split; [reflexivity|].
  destruct (observations_checked reply _ eq_refl) as (_ & p & l & Hp & Hl & H).
  injection Hp as <-. injection Hl as <-. destruct H as (d & plate & _ & _ & _ & _ & _ & H & _). exact H.
Defined.
End Sample.
