(* ===== verification/TelemetryExport.v ===== *)
(** * The telemetry export: gate_controller/telemetry_export.py

    The allow-listed rows, the JSON and CSV documents, the check of the output
    path and the atomic write.  A document is the sequence of its pieces: raw
    text, a JSON dump, a CSV row.  The copy of the live database is an
    argument; what [resolve] and [samefile] say of paths may change between two
    checks. *)

From S2P Require Import Prelude Json Text AtomicFile Store StoreOutbox.

Definition _TOP_LEVEL_KEYS : list string :=
  ["trace_id"; "taxonomy_version"; "stage_durations"; "frames"; "ocr_attempts"; "decision"; "actuation"; "delivery"].
Definition _DURATION_KEYS : list string :=
  ["capture_to_burst_ms"; "burst_to_ocr_ms"; "ocr_ms"; "decision_ms"; "decision_to_relay_ms"; "end_to_end_ms"; "delivery_lag_ms"].
Definition _NESTED_KEYS (key : string) : list string :=
  if String.eqb key "stage_durations" then _DURATION_KEYS
  else if String.eqb key "frames"
  then ["sequence"; "digest"; "width"; "height"; "sharpness"; "brightness"; "darkness"; "highlight_clipping"; "status"]
  else if String.eqb key "ocr_attempts"
  then ["frame_sequence"; "duration_ms"; "status"; "plate"; "confidence"; "make"; "colour"]
  else if String.eqb key "decision" then ["outcome"; "reason"]
  else if String.eqb key "actuation" then ["claim"; "attempted"; "relay_outcome"]
  else if String.eqb key "delivery" then ["outbox_attempt"; "state"]
  else [].
Definition _CSV_FIELDS : list string :=
  ["event_id"; "received_at"; "source"; "reason"; "opened"; "observed_plate"; "authorised_plate"; "ocr_confidence";
   "telemetry_created_at"; "trace_id"; "taxonomy_version"] ++ _DURATION_KEYS ++
  ["frame_count"; "ocr_attempt_count"; "decision_outcome"; "decision_reason"; "actuation_claim"; "actuation_attempted";
   "relay_outcome"; "outbox_attempt"; "delivery_state"].
Definition _DATABASE_SIDECARS : list string := [EmptyString; "-wal"; "-shm"; "-journal"].

(** ** Rows *)

(** store.py: _event_telemetry_export_row *)
Definition export_row (row : event_row * telemetry_row) : dict json :=
  let (e, t) := row in
  let optional := json_of_option JStr in
  let telemetry := match loads (tl_payload t) with Ok (JDict d) => d | _ => [] end in
  [("event_id", JInt (ev_id e)); ("received_at", JTime (ev_received_at e));
   ("decision_at", json_of_option JTime (ev_decision_at e));
   ("relay_activated_at", json_of_option JTime (ev_relay_activated_at e));
   ("source", JStr (ev_source e)); ("reason", JStr (ev_reason e)); ("opened", JBool (ev_opened e));
   ("authorised_plate", optional (ev_authorised_plate e)); ("observed_plate", optional (ev_observed_plate e));
   ("ocr_confidence", JFloat (ev_ocr_confidence e)); ("telemetry_created_at", JTime (tl_created_at t));
   ("telemetry", JDict telemetry)].

(** telemetry_export.py: _scalar *)
Definition _scalar (value : json) : bool := match value with JList _ | JDict _ => false | _ => true end.

(** The comprehension over [allowed]. *)
Definition select_scalars (allowed : list string) (value : dict json) : dict json :=
  omap (fun key => match dget key value with
                   | Some v => if _scalar v then Some (key, v) else None
                   | None => None
                   end) allowed.

(** telemetry_export.py: _allowlisted_dict *)
Definition _allowlisted_dict (value : option json) (allowed : list string) : dict json :=
  match value with Some (JDict d) => select_scalars allowed d | _ => [] end.

(** The first eight items that are objects, reduced. *)
Definition safe_items (value : option json) (allowed : list string) : json :=
  match value with
  | Some (JList items) =>
      JList (omap (fun item => match item with
                               | JDict _ => Some (JDict (_allowlisted_dict (Some item) allowed))
                               | _ => None
                               end) (take 8 items))
  | _ => JList []
  end.

(** telemetry_export.py: _safe_telemetry *)
Definition _safe_telemetry (value : json) : dict json :=
  let telemetry := match value with JDict d => d | _ => [] end in
  omap (fun key =>
          if bool_decide (key ∈ ["trace_id"; "taxonomy_version"]) then
            match dget key telemetry with
            | Some v => if _scalar v then Some (key, v) else None
            | None => None
            end
          else if bool_decide (key ∈ ["frames"; "ocr_attempts"])
          then Some (key, safe_items (dget key telemetry) (_NESTED_KEYS key))
          else Some (key, JDict (_allowlisted_dict (dget key telemetry) (_NESTED_KEYS key))))
       _TOP_LEVEL_KEYS.

Definition truth (j : json) : bool :=
  match j with
  | JNull => false
  | JBool b => b
  | JInt z => negb (z =? 0)%Z
  | JFloat f => negb (bool_decide (f = float_0))
  | JStr s => negb (String.eqb s EmptyString)
  | JTime _ => true
  | JList l => negb (bool_decide (length l = 0%nat))
  | JDict d => negb (bool_decide (length d = 0%nat))
  end.

(** telemetry_export.py: _safe_row *)
Definition _safe_row (row : dict json) : dict json :=
  let item k := (k, dict_get k row) in
  [item "event_id"; item "received_at"; item "decision_at"; item "relay_activated_at"; item "source"; item "reason";
   ("opened", JBool (truth (dict_get "opened" row))); item "authorised_plate"; item "observed_plate";
   item "ocr_confidence"; item "telemetry_created_at"; ("telemetry", JDict (_safe_telemetry (dict_get "telemetry" row)))].

Definition dict_of (j : json) : dict json := match j with JDict d => d | _ => [] end.
Definition length_of (j : json) : json := JInt (match j with JList l => Z.of_nat (length l) | _ => 0 end).

(** telemetry_export.py: _csv_row *)
Definition _csv_row (row : dict json) : dict json :=
  let telemetry := dict_of (dict_get "telemetry" row) in
  let durations := dict_of (dict_get "stage_durations" telemetry) in
  let decision := dict_of (dict_get "decision" telemetry) in
  let actuation := dict_of (dict_get "actuation" telemetry) in
  let delivery := dict_of (dict_get "delivery" telemetry) in
  let flattened := omap (fun key => (fun v => (key, v)) <$> dget key row) _CSV_FIELDS in
  dupdate (dupdate flattened ((fun key => (key, dict_get key durations)) <$> _DURATION_KEYS))
    [("trace_id", dict_get "trace_id" telemetry); ("taxonomy_version", dict_get "taxonomy_version" telemetry);
     ("frame_count", length_of (dict_get "frames" telemetry));
     ("ocr_attempt_count", length_of (dict_get "ocr_attempts" telemetry));
     ("decision_outcome", dict_get "outcome" decision); ("decision_reason", dict_get "reason" decision);
     ("actuation_claim", dict_get "claim" actuation); ("actuation_attempted", dict_get "attempted" actuation);
     ("relay_outcome", dict_get "relay_outcome" actuation); ("outbox_attempt", dict_get "outbox_attempt" delivery);
     ("delivery_state", dict_get "state" delivery)].

(** ** Documents *)

Inductive piece :=
| Raw (s : string)
| Dump (row : dict json)
| Line (cells : list json).
Definition document : Type := list piece.

Inductive export_format := FormatJson | FormatCsv.
Definition format_of (s : string) : option export_format :=
  if String.eqb s "json" then Some FormatJson else if String.eqb s "csv" then Some FormatCsv else None.

(** The loop of the JSON document from row [count] on. *)
Fixpoint json_rows (count : nat) (rows : list (dict json)) : document :=
  match rows with
  | [] => []
  | row :: rows' =>
      [Raw (match count with O => EmptyString | _ => "," end); Raw (String "010" "  "); Dump (_safe_row row)]
      ++ json_rows (S count) rows'
  end.

(** [DictWriter.writerow]: the fields in order, an absent one empty. *)
Definition writerow (row : dict json) : piece := Line ((fun f => default (JStr EmptyString) (dget f row)) <$> _CSV_FIELDS).

(** telemetry_export.py: _write *)
Definition _write (format : export_format) (rows : list (dict json)) : document * nat :=
  match format with
  | FormatJson =>
      ([Raw "["] ++ json_rows 0 rows
       ++ [Raw (match rows with [] => String "]" (String "010" EmptyString) | _ => String "010" (String "]" (String "010" EmptyString)) end)],
       length rows)
  | FormatCsv => (Line (JStr <$> _CSV_FIELDS) :: ((fun row => writerow (_csv_row (_safe_row row))) <$> rows), length rows)
  end.

(** ** The output path *)

(** What the file system says of paths at one moment. *)
Record path_view := {
  pv_resolve : string -> string;
  pv_samefile : string -> string -> result bool;
}.

(** telemetry_export.py: _database_paths; the paths of a set, in some order. *)
Definition _database_paths (v : path_view) (absolute : string) : list string :=
  base ← [absolute; pv_resolve v absolute]; suffix ← _DATABASE_SIDECARS; [String.append base suffix].

(** telemetry_export.py: _validate_output_path, for an absolute candidate *)
Fixpoint _validate_output_path (v : path_view) (candidate : string) (protected_paths : list string) : result unit :=
  match protected_paths with
  | [] => Ok tt
  | protected :: protected_paths' =>
      if String.eqb candidate protected || String.eqb (pv_resolve v candidate) (pv_resolve v protected)
      then Err (ValueError "telemetry output must not target the live database or sidecars")
      else
        match pv_samefile v candidate protected with
        | Ok true => Err (ValueError "telemetry output must not alias the live database or sidecars")
        | Err OSError | Ok false => _validate_output_path v candidate protected_paths'
        | Err e => Err e
        end
  end.

Section Exporting.
Context (io : nat -> result unit) (partial : nat -> nat) (temporary_name : nat -> string).
Context (view : nat -> path_view).

Abbreviation call := (AtomicFile.system_call io).

Definition check_output (output : string) (protected_paths : list string) : M (directory document) unit :=
  let! v := read view in of_result (_validate_output_path v output protected_paths).

(** telemetry_export.py: _atomic_write; [temporary_name] is the path of the file
    [mkstemp] creates. *)
Definition _atomic_write (output : string) (content : document) (count : nat) (protected_paths : list string)
  : M (directory document) nat :=
  call ;!
  let! temporary := read temporary_name in
  (on_files (dset temporary []) ;!
   write_atomically io (fun n => take (partial n)) [] (call ;! call) call (check_output output protected_paths)
     (call ;! _fsync_directory io) temporary output content) ;!
  ret count.

(** telemetry_export.py: _snapshot_rows; one page per row and one more are enough. *)
Definition _snapshot_rows (since : datetime) (d : database) : list (event_row * telemetry_row) :=
  default [] (event_telemetry_rows (S (length (telemetry_join (_timestamp since) d))) since None d).

(** telemetry_export.py: export_telemetry; the rows are read while they are
    written, from a copy nobody else changes. *)
Definition export_telemetry (database_path : string) (snapshot : result database) (format : string) (since : datetime)
    (output : option string) : M (directory document) nat :=
  match output with
  | None => raise (ValueError "an explicit telemetry export output path is required")
  | Some output =>
      match format_of format, since with
      | None, _ => raise (ValueError "telemetry export format must be json or csv")
      | Some _, Naive _ => raise (ValueError "telemetry export since timestamp must include a timezone")
      | Some format, Aware _ =>
          let! v := read view in
          let protected_paths := _database_paths v database_path in
          check_output output protected_paths ;!
          call ;!
          try_finally
            (let! d := of_result snapshot in
             let (content, count) := _write format (export_row <$> _snapshot_rows since d) in
             _atomic_write output content count protected_paths)
            call
      end
  end.
End Exporting.
