(* ===== verification/ExportFacts.v ===== *)
(** * Theorems about the telemetry export

    What an export writes (TelemetryExport.v): all the rows since the cutoff, once
    and in order, reduced to the allow-listed scalars, in one file that appears at
    once or not at all. *)

From S2P Require Import Prelude Json Text AtomicFile Store StoreFacts StoreOutbox StoreOutboxFacts TelemetryExport.

(** ** The allow-list *)

(** Every entry has an allowed key and a scalar value. *)
Definition scalars_of (allowed : list string) (d : dict json) : Prop :=
  forall k v, (k, v) ∈ d -> k ∈ allowed /\ _scalar v = true.

(** A reduced telemetry: allow-listed keys; scalars, objects of allow-listed
    scalars, or at most eight such objects. *)
Definition safe_entry (k : string) (v : json) : Prop :=
  match v with
  | JDict d => k ∈ ["stage_durations"; "decision"; "actuation"; "delivery"] /\ scalars_of (_NESTED_KEYS k) d
  | JList l =>
      k ∈ ["frames"; "ocr_attempts"] /\ (length l <= 8)%nat /\
      forall j, j ∈ l -> exists d, j = JDict d /\ scalars_of (_NESTED_KEYS k) d
  | _ => k ∈ ["trace_id"; "taxonomy_version"]
  end.
Definition safe_telemetry (d : dict json) : Prop := forall k v, (k, v) ∈ d -> safe_entry k v.

Definition _ROW_KEYS : list string :=
  ["event_id"; "received_at"; "decision_at"; "relay_activated_at"; "source"; "reason"; "opened"; "authorised_plate";
   "observed_plate"; "ocr_confidence"; "telemetry_created_at"; "telemetry"].

(** A row of the export: the fixed keys, scalars except for the reduced telemetry. *)
Definition safe_row (row : dict json) : Prop :=
  row.*1 = _ROW_KEYS /\
  forall k v, (k, v) ∈ row ->
    if String.eqb k "telemetry" then exists d, v = JDict d /\ safe_telemetry d else _scalar v = true.

Definition safe_piece (p : piece) : Prop :=
  match p with
  | Raw _ => True
  | Dump row => safe_row row
  | Line cells => length cells = length _CSV_FIELDS /\ Forall (fun c => _scalar c = true) cells
  end.

Lemma omap_length {A B} (f : A -> option B) (l : list A) : (length (omap f l) <= length l)%nat.
Proof. induction l as [|x l IH]; [done|]. cbn. destruct (f x); cbn; lia. Qed.

Lemma select_scalars_of allowed d : scalars_of allowed (select_scalars allowed d).
Proof.
  intros k v H. unfold select_scalars in H. apply list_elem_of_omap in H as (k' & Hk & H).
  destruct (dget k' d) as [w|]; [|done]. destruct (_scalar w) eqn:E; [|done]. by simplify_eq.
Qed.

Lemma allowlisted_of value allowed : scalars_of allowed (_allowlisted_dict value allowed).
Proof.
  unfold _allowlisted_dict. repeat case_match; try (by intros k v ?%elem_of_nil). apply select_scalars_of.
Qed.

Lemma safe_items_of value allowed :
  exists l, safe_items value allowed = JList l /\ (length l <= 8)%nat /\
    forall j, j ∈ l -> exists d, j = JDict d /\ scalars_of allowed d.
Proof.
  assert (Hnil : exists l, JList [] = JList l /\ (length l <= 8)%nat /\
    forall j, j ∈ l -> exists d, j = JDict d /\ scalars_of allowed d).
  { exists []. repeat split; [cbn; lia|]. by intros j ?%elem_of_nil. }
  unfold safe_items. repeat case_match; try exact Hnil. eexists. split; [done|]. split.
  - etrans; [apply omap_length|]. rewrite length_take. lia.
  - intros i Hi. apply list_elem_of_omap in Hi as (x & _ & Hx). destruct x; try done. simplify_eq.
    eexists. split; [done|]. apply select_scalars_of.
Qed.

Lemma safe_telemetry_of value : safe_telemetry (_safe_telemetry value).
Proof.
  intros k v H. apply list_elem_of_omap in H as (k' & Hk & H).
  case_bool_decide as H1; [|case_bool_decide as H2].
  - destruct (dget _ _) as [w|]; [|done]. destruct (_scalar w) eqn:E; [|done]. simplify_eq. by destruct v.
  - simplify_eq. destruct (safe_items_of (dget k (match value with JDict d => d | _ => [] end)) (_NESTED_KEYS k))
      as (l & -> & Hl). done.
  - simplify_eq. split; [|apply allowlisted_of]. unfold _TOP_LEVEL_KEYS in Hk. set_solver.
Qed.

(** Scalar values are closed under the operations on dictionaries. *)
Definition scalar_dict (d : dict json) : Prop := forall k v, dget k d = Some v -> _scalar v = true.

Lemma dict_get_scalar k d : scalar_dict d -> _scalar (dict_get k d) = true.
Proof. intros H. unfold dict_get. destruct (dget k d) as [v|] eqn:E; [exact (H k v E)|done]. Qed.

Lemma dset_scalar k v d : _scalar v = true -> scalar_dict d -> scalar_dict (dset k v d).
Proof. intros Hv Hd k' v'. rewrite dget_dset. case_decide; [by intros [= <-]|apply Hd]. Qed.

Lemma dupdate_scalar d e : scalar_dict d -> (forall k v, (k, v) ∈ e -> _scalar v = true) -> scalar_dict (dupdate d e).
Proof.
  unfold dupdate. revert d. induction e as [|[k v] e IH]; [done|]. intros d Hd He. cbn. apply IH.
  - apply dset_scalar; [|done]. apply (He k). left.
  - intros k' v' H. apply (He k'). by right.
Qed.

Lemma scalars_of_scalar allowed d : scalars_of allowed d -> scalar_dict d.
Proof. intros H k v Hk. by destruct (H k v (dget_In _ _ _ Hk)). Qed.

(** An object of the reduced telemetry holds scalars. *)
Lemma telemetry_object_scalar d k : safe_telemetry d -> scalar_dict (dict_of (dict_get k d)).
Proof.
  intros H. unfold dict_get. destruct (dget k d) as [v|] eqn:E; [|done]. specialize (H k v (dget_In _ _ _ E)).
  destruct v; try done. cbn. by eapply scalars_of_scalar, H.
Qed.

Lemma telemetry_scalar d k : safe_telemetry d -> k ∈ ["trace_id"; "taxonomy_version"] -> _scalar (dict_get k d) = true.
Proof.
  intros H Hk. unfold dict_get. destruct (dget k d) as [v|] eqn:E; [|done]. specialize (H k v (dget_In _ _ _ E)).
  destruct v; try done; destruct H as [H _]; set_solver.
Qed.

(** A row of the store holds scalars but for its telemetry. *)
Lemma export_row_scalar x k : k <> "telemetry" -> _scalar (dict_get k (export_row x)) = true.
Proof.
  intros Hk. destruct x as [e t]. unfold dict_get. cbn [export_row dget fst snd].
  repeat (destruct (String.eqb _ _) eqn:? || destruct (decide _)); try done;
    cbn; try (by destruct (_ : option _)); done.
Qed.

Lemma safe_row_of x : safe_row (_safe_row (export_row x)).
Proof.
  split; [done|]. intros k v H. unfold _safe_row in H.
  repeat (apply elem_of_cons in H as [[= -> ->]|H]); [..|by apply elem_of_nil in H];
    cbn [String.eqb Ascii.eqb Bool.eqb]; try (by apply export_row_scalar); [done|].
  eexists. split; [done|apply safe_telemetry_of].
Qed.

(** A cell of the CSV document. *)
Lemma csv_cell_scalar row f : safe_row row -> _scalar (default (JStr EmptyString) (dget f (_csv_row row))) = true.
Proof.
  intros [Hkeys Hrow].
  assert (Ht : safe_telemetry (dict_of (dict_get "telemetry" row))).
  { unfold dict_get. destruct (dget "telemetry" row) as [v|] eqn:E; [|by intros k v ?%elem_of_nil].
    specialize (Hrow _ _ (dget_In _ _ _ E)). cbn in Hrow. by destruct Hrow as (d & -> & Hd). }
  assert (Hd : scalar_dict (_csv_row row)); [|by destruct (dget f _) as [v|] eqn:E; [exact (Hd f v E)|]].
  unfold _csv_row. apply dupdate_scalar; [apply dupdate_scalar|].
  - intros k v E%dget_In. apply list_elem_of_omap in E as (k' & Hk & E).
    destruct (dget k' row) as [w|] eqn:Ew; [|done]. simplify_eq/=. specialize (Hrow k v (dget_In _ _ _ Ew)).
    destruct (String.eqb_spec k "telemetry") as [->|]; [|done].
    exfalso. revert Hk. vm_compute. clear. intros Hk. repeat (apply elem_of_cons in Hk as [Hk|Hk]; [done|]). by apply elem_of_nil in Hk.
  - intros k v E. apply list_elem_of_fmap in E as (k' & [= -> ->] & _). by apply dict_get_scalar, telemetry_object_scalar.
  - intros k v E. repeat (apply elem_of_cons in E as [[= -> ->]|E]); [..|by apply elem_of_nil in E];
      try (by apply dict_get_scalar, telemetry_object_scalar); try (by apply telemetry_scalar; [|set_solver]);
      by unfold length_of.
Qed.

Lemma json_rows_safe n rows : Forall safe_piece (json_rows n (export_row <$> rows)).
Proof.
  revert n. induction rows as [|x rows IH]; intros n; [constructor|]. cbn.
  do 3 (apply List.Forall_cons; [try done; apply safe_row_of|]). apply IH.
Qed.

(** nothing but allow-listed scalars leaves the device: in every format, every row
    of the document carries exactly the fixed columns, scalars, and a telemetry
    reduced to the allow-listed keys with at most eight frames and attempts. *)
Theorem export_allowlisted format rows : Forall safe_piece (_write format (export_row <$> rows)).1.
Proof.
  destruct format; cbn [_write fst].
  - apply List.Forall_cons; [done|]. apply list.Forall_app. split; [apply json_rows_safe|]. by apply List.Forall_cons.
  - apply List.Forall_cons.
    { split; [done|]. apply list.Forall_fmap. by apply list.Forall_true. }
    apply list.Forall_forall. intros p Hp.
    apply list_elem_of_fmap in Hp as (row & -> & Hrow). apply list_elem_of_fmap in Hrow as (x & -> & _).
    split; [done|]. apply list.Forall_forall. intros c Hc. unfold writerow in Hc. 
    apply list_elem_of_fmap in Hc as (f & -> & _). apply csv_cell_scalar, safe_row_of.
Qed.

Lemma write_count format rows : (_write format rows).2 = length rows.
Proof. by destruct format. Qed.

(** ** The atomic write *)

Section Publishing.
Context (io : nat -> result unit) (partial : nat -> nat) (temporary_name : nat -> string) (view : nat -> path_view).
Context (s0 : directory document) (output : string).
Context (Htemporary : forall k, temporary_name k <> output).

Lemma check_output_keeps paths : leaves_files (check_output view output paths).
Proof.
  intros I HI s Hs. unfold check_output, bind, read, of_result.
  destruct (_validate_output_path _ _ _); by apply (HI s).
Qed.

Lemma atomic_write_spec doc count paths :
  triple (untouched temporary_name s0 output)
    (_atomic_write io partial temporary_name view output doc count paths)
    (fun n s => n = count /\ published temporary_name s0 output doc s) (either temporary_name s0 output doc).
Proof.
  unfold _atomic_write. pose proof (untouched_same temporary_name s0 output) as Hu.
  apply (triple_bind (A := unit) _ _ _ (fun _ => untouched temporary_name s0 output)).
  { eapply triple_conseq; [by apply (system_call_reads io _ Hu)|done|done|by left]. }
  intros _. eapply (triple_bind (A := string)); [by apply triple_read|]. intros name.
  apply triple_pure. intros [k ->].
  apply (triple_bind (A := unit) _ _ _ (fun _ => published temporary_name s0 output doc)).
  2: { intros _. by apply triple_ret. }
  apply create_and_replace; [done|..]; auto using check_output_keeps with gate.
Qed.
End Publishing.

(** ** The export *)

(** The document of an export: all rows since the cutoff, in order of reception. *)
Definition whole_document (snapshot : result database) (format : string) (since : datetime) (n : nat) (doc : document)
  : Prop :=
  exists d f us, snapshot = Ok d /\ format_of format = Some f /\ since = Aware us /\
    let rows := page_sort (telemetry_join us d) in
    doc = (_write f (export_row <$> rows)).1 /\ n = length rows.

Lemma snapshot_rows_all since d :
  NoDup (event_ids d) -> NoDup (tl_event_id <$> db_telemetry d) ->
  _snapshot_rows since d = page_sort (telemetry_join (_timestamp since) d).
Proof.
  intros He Ht. unfold _snapshot_rows. destruct (paging_complete since d He Ht) as [H _].
  replace (length (page_sort (telemetry_join (_timestamp since) d))) with (length (telemetry_join (_timestamp since) d))
    in H; [by rewrite H|].
  pose proof (Permutation_length (page_sort_keys (telemetry_join (_timestamp since) d))) as E.
  by rewrite !length_fmap in E.
Qed.

Lemma validate_refuses v output paths : output ∈ paths -> exists e, _validate_output_path v output paths = Err e.
Proof.
  intros H. induction paths as [|p paths IH]; [by apply elem_of_nil in H|]. cbn.
  apply elem_of_cons in H as [->|H]; [rewrite String.eqb_refl; by eexists|].
  destruct (String.eqb output p); cbn [orb]; [by eexists|]. destruct (IH H) as [e He].
  destruct (String.eqb _ _); [by eexists|]. destruct (pv_samefile v output p) as [[]|[]]; eauto.
Qed.

(** How an export ends, from a state [s0]. *)
Section Ending.
Context (temporary_name : nat -> string) (snapshot : result database) (format : string) (since : datetime).
Context (output : string) (s0 : directory document).

Definition exported (n : nat) (s : directory document) : Prop :=
  exists doc, published temporary_name s0 output doc s /\ whole_document snapshot format since n doc.
Definition failed (s : directory document) : Prop :=
  untouched temporary_name s0 output s \/ exists n, exported n s.

Lemma exported_same n s s' : sl_files s' = sl_files s -> exported n s -> exported n s'.
Proof. intros E (doc & H & Hw). exists doc. split; [by apply (published_same _ _ _ _ s)|done]. Qed.

Lemma failed_same s s' : sl_files s' = sl_files s -> failed s -> failed s'.
Proof. unfold failed. intros E [H|[n H]]; [left; by eapply untouched_same|right; exists n; by eapply exported_same]. Qed.

Lemma untouched_failed s : untouched temporary_name s0 output s -> failed s.
Proof. by left. Qed.

Lemma export_spec io partial view database_path :
  (forall k, temporary_name k <> output) ->
  (forall d, snapshot = Ok d -> NoDup (event_ids d) /\ NoDup (tl_event_id <$> db_telemetry d)) ->
  triple (untouched temporary_name s0 output)
    (export_telemetry io partial temporary_name view database_path snapshot format since (Some output)) exported failed.
Proof.
  intros Htemporary Hsnapshot. pose proof (untouched_same temporary_name s0 output) as Hu. pose proof failed_same as Hf.
  unfold export_telemetry. destruct (format_of format) as [f|] eqn:Ef; [destruct since as [us|us] eqn:Es|];
    try (apply triple_raise; exact untouched_failed).
  eapply (triple_bind (A := path_view)); [by apply triple_read|]. intros v.
  apply triple_pure. intros [k ->].
  apply (triple_bind (A := unit) _ _ _ (fun _ => untouched temporary_name s0 output)).
  { eapply triple_conseq; [by apply (check_output_keeps view output _ (untouched temporary_name s0 output))|done|done|exact untouched_failed]. }
  intros _. apply (triple_bind (A := unit) _ _ _ (fun _ => untouched temporary_name s0 output)).
  { eapply triple_conseq; [by apply (system_call_reads io (untouched temporary_name s0 output))|done|done|exact untouched_failed]. }
  intros _. apply triple_finally.
  2: { intros n. apply triple_weak; [apply system_call_reads; exact (exported_same n)|]. intros s1 H. right. by exists n. }
  2: { by apply system_call_reads. }
  destruct snapshot as [d|e] eqn:Ed; [|apply triple_raise; exact untouched_failed].
  intros s1 Hs1. unfold bind at 1, of_result. destruct (Hsnapshot d eq_refl) as [He Ht].
  rewrite (snapshot_rows_all _ d He Ht).
  set (rows := page_sort (telemetry_join (_timestamp (Aware us)) d)).
  assert (Hw : whole_document snapshot format since (_write f (export_row <$> rows)).2
    (_write f (export_row <$> rows)).1).
  { exists d, f, us. rewrite write_count, length_fmap. by repeat split. }
  destruct (_write f (export_row <$> rows)) as [doc count].
  pose proof (atomic_write_spec io partial temporary_name view s0 output Htemporary doc count
    (_database_paths (view k) database_path) s1 Hs1) as H.
  destruct (_atomic_write _ _ _ _ _ _ _ _ s1) as [[n|e] s2].
  - destruct H as [-> H]. by exists doc.
  - destruct H as [H|H]; [by left|right]. by exists count, doc.
Qed.
End Ending.

(** C29: an export either fails, and then the output is the old file or the whole new
    document, or reports the number of rows of the whole document now in the
    output; whatever system call fails, no other file changes and neither does the
    output when it is the database or one of its side files. *)
Theorem export_all_or_nothing (io : nat -> result unit) (partial : nat -> nat) (temporary_name : nat -> string)
    (view : nat -> path_view) (database_path : string) (snapshot : result database) (format : string)
    (since : datetime) (output : string) (s s' : directory document) (r : result nat)
    (Htemporary : forall k, temporary_name k <> output)
    (Hsnapshot : forall d, snapshot = Ok d -> NoDup (event_ids d) /\ NoDup (tl_event_id <$> db_telemetry d))
    (Hrun : export_telemetry io partial temporary_name view database_path snapshot format since (Some output) s = (r, s')) :
  match r with
  | Ok n => exists doc, dget output (sl_files s') = Some doc /\ whole_document snapshot format since n doc
  | Err _ =>
      dget output (sl_files s') = dget output (sl_files s) \/
      exists n doc, dget output (sl_files s') = Some doc /\ whole_document snapshot format since n doc
  end /\
  (forall p, p <> output -> (forall k, p <> temporary_name k) -> dget p (sl_files s') = dget p (sl_files s)) /\
  (output ∈ _database_paths (view (sl_reads s)) database_path -> sl_files s' = sl_files s).
Proof.
  pose proof (export_spec temporary_name snapshot format since output s io partial view database_path Htemporary
    Hsnapshot) as H.
  assert (Hs : untouched temporary_name s output s) by done. specialize (H s Hs). rewrite Hrun in H.
  split; [|split].
  - destruct r as [n|e]; [by destruct H as (doc & [_ ?] & ?); exists doc|].
    destruct H as [[_ ?]|(n & doc & [_ ?] & ?)]; [by left|right; by exists n, doc].
  - destruct r as [n|e]; [by destruct H as (doc & [? _] & ?)|]. by destruct H as [[? _]|(n & doc & [? _] & ?)].
  - intros Hout. clear H. revert Hrun. unfold export_telemetry.
    destruct (format_of format); [destruct since|]; try (by intros [= <- <-]).
    destruct (validate_refuses (view (S (sl_reads s))) _ _ Hout) as [x Hx].
    unfold check_output, bind, read, of_result. cbn [sl_reads]. rewrite Hx. by intros [= <- <-].
Qed.

(** An export of two rows to a file beside the database. *)
Module Sample.
Definition view (_ : nat) : path_view := {| pv_resolve := fun p => p; pv_samefile := fun _ _ => Err OSError |}.
Definition start : directory document :=
  {| sl_reads := 0; sl_root := true; sl_files := [("/data/gate.db", [Raw "sqlite"]); ("/data/export.csv", [Raw "old"])] |}.
Definition run (output : string) : result nat * directory document :=
  Eval vm_compute in export_telemetry (fun _ => Ok tt) (fun _ => 0%nat) (fun _ => "/data/.telemetry-a.tmp") view
    "/data/gate.db" (Ok sample_telemetry_db) "csv" (Aware 2) (Some output) start.

Lemma export_all_or_nothing_witness :
  fst (run "/data/export.csv") = Ok 2%nat /\
  dget "/data/gate.db" (sl_files (snd (run "/data/export.csv"))) = Some [Raw "sqlite"] /\
  (exists doc, dget "/data/export.csv" (sl_files (snd (run "/data/export.csv"))) = Some doc /\
    whole_document (Ok sample_telemetry_db) "csv" (Aware 2) 2 doc).
Proof.
  destruct (export_all_or_nothing (fun _ => Ok tt) (fun _ => 0%nat) (fun _ => "/data/.telemetry-a.tmp") view
    "/data/gate.db" (Ok sample_telemetry_db) "csv" (Aware 2) "/data/export.csv" start
    (snd (run "/data/export.csv")) (Ok 2%nat)) as (Hdoc & Hothers & _).
  - done.
  - intros d [= <-]. cbn. split; repeat (constructor; [set_solver|]); constructor.
  - vm_compute. reflexivity.
  - split; [vm_compute; reflexivity|]. split; [|exact Hdoc].
    rewrite Hothers by done. reflexivity.
Defined.
End Sample.
