(* ===== verification/Capabilities.v ===== *)
(** * Media capabilities: gate_media_auth/capabilities.py and
    gate_controller/media_capabilities.py

    The sidecar publishes what the media gateway can do as a small JSON file; the
    controller reads the file and reports it.  The writer's snapshot, its atomic
    write and the readiness it derives from the gateway's answer come first, then
    the reader.  [json.loads] of decoded bytes and [json.dumps] are arguments;
    environment values are ASCII text. *)

From S2P Require Import Prelude Json Float Text Base64 AtomicFile MediaToken.

(** ** The writer *)

Definition _MAX_GATEWAY_API_BYTES : Z := 64 * 1024.
Definition _MAX_GATEWAY_PATHS : nat := 64.
Definition _MAX_TRACKS : nat := 16.
Definition _VIDEO_TRACKS : list string :=
  ["AV1"; "VP9"; "VP8"; "H265"; "H264"; "MPEG-4 Video"; "MPEG-1/2 Video"; "M-JPEG"].
Definition _AUDIO_TRACKS : list string :=
  ["Opus"; "FLAC"; "Vorbis"; "MPEG-4 Audio"; "MPEG-4 Audio LATM"; "MPEG-1/2 Audio"; "AC-3"; "Speex"; "G726"; "G722";
   "G711"; "LPCM"].
Definition _WEBRTC_AUDIO_TRACKS : list string := ["Opus"; "G722"; "G711"].
Definition _MEDIA_TRACKS : list string := _VIDEO_TRACKS ++ _AUDIO_TRACKS.

(** capabilities.py: _capability *)
Definition _capability (configured ready verified : bool) (reason : string) : dict json :=
  [("configured", JBool configured); ("ready", JBool ready); ("verified", JBool verified); ("reason", JStr reason)].

(** capabilities.py: _reason *)
Definition _reason (configured ready verified : bool) : string :=
  if negb configured then "not_configured"
  else if negb ready then "gateway_unhealthy"
  else if verified then "ready" else "hardware_unverified".

(** capabilities.py: _enabled *)
Definition _enabled (value : option string) : bool :=
  match value with
  | Some s => String.eqb (String.string_of_list_ascii (lower_char <$> strip (String.list_ascii_of_string s))) "true"
  | None => false
  end.

(** The readiness of the gateway: {"video": ..., "listen": ...} *)
Definition readiness (video listen : bool) : json := JDict [("video", JBool video); ("listen", JBool listen)].

(** capabilities.py: _unready_gateway *)
Definition _unready_gateway : json := readiness false false.

(** capabilities.py: _validated_gateway_readiness *)
Definition _validated_gateway_readiness (value : json) : bool * bool :=
  match value with
  | JDict d =>
      if negb (same_keys d ["video"; "listen"]) then (false, false)
      else match dict_get "video" d, dict_get "listen" d with
           | JBool video, JBool listen => (video, listen)
           | _, _ => (false, false)
           end
  | _ => (false, false)
  end.

(** capabilities.py: default_capabilities *)
Definition default_capabilities (now : Z) : dict json :=
  [("observed_at", JInt now);
   ("media", JDict
      [("video", JDict (_capability false false false "not_configured"));
       ("listen", JDict (_capability false false false "not_configured"));
       ("talkback", JDict (_capability false false false "hardware_unverified"))])].

(** capabilities.py: capability_snapshot *)
Definition capability_snapshot (environment : dict string) (gateway_readiness : json) (now : Z) : dict json :=
  let (video_available, listen_available) := _validated_gateway_readiness gateway_readiness in
  let setting key := _enabled (dget key environment) in
  let video_configured := setting "GATE_MEDIA_VIDEO_CONFIGURED" in
  let listen_configured := setting "GATE_MEDIA_LISTEN_CONFIGURED" in
  let talkback_configured := setting "GATE_MEDIA_TALKBACK_CONFIGURED" in
  let video_ready := video_configured && video_available in
  let listen_ready := listen_configured && listen_available in
  let video_verified := video_ready && setting "GATE_MEDIA_VIDEO_VERIFIED" in
  let listen_verified := listen_ready && setting "GATE_MEDIA_LISTEN_VERIFIED" in
  [("observed_at", JInt now);
   ("media", JDict
      [("video", JDict (_capability video_configured video_ready video_verified
                          (_reason video_configured video_ready video_verified)));
       ("listen", JDict (_capability listen_configured listen_ready listen_verified
                           (_reason listen_configured listen_ready listen_verified)));
       ("talkback", JDict (_capability talkback_configured false false "hardware_unverified"))])].

Definition is_true (j : json) : bool := match j with JBool b => b | _ => false end.
Definition track_in (tracks : list string) (j : json) : bool :=
  match j with JStr t => bool_decide (t ∈ tracks) | _ => false end.

(** [isinstance(item, dict) and item.get("name") == "gate"] *)
Definition gate_items (items : list json) : list (dict json) :=
  omap (fun item => match item with
                    | JDict d => if is_text (dict_get "name" d) "gate" then Some d else None
                    | _ => None
                    end) items.

Section Writer.
Context (parse : bytes -> result json).

(** capabilities.py: gateway_status_readiness *)
Definition gateway_status_readiness (body : bytes) : result json :=
  if bool_decide (body = []) || (_MAX_GATEWAY_API_BYTES <? Z.of_nat (length body))%Z then Ok _unready_gateway
  else
    match loads_unique parse body with
    | Err (ValueError _) => Ok _unready_gateway
    | Err e => Err e
    | Ok (JDict payload) =>
        match dict_get "items" payload with
        | JList items =>
            if (_MAX_GATEWAY_PATHS <? length items)%nat then Ok _unready_gateway
            else
              match gate_items items with
              | [gate_path] =>
                  if negb (is_true (dict_get "ready" gate_path)) && negb (is_true (dict_get "available" gate_path))
                  then Ok _unready_gateway
                  else
                    match dict_get "tracks" gate_path with
                    | JList tracks =>
                        if negb ((0 <? length tracks) && (length tracks <=? _MAX_TRACKS))%nat
                           || negb (forallb (track_in _MEDIA_TRACKS) tracks)
                        then Ok _unready_gateway
                        else Ok (readiness (existsb (track_in _VIDEO_TRACKS) tracks)
                                   (existsb (track_in _WEBRTC_AUDIO_TRACKS) tracks))
                    | _ => Ok _unready_gateway
                    end
              | _ => Ok _unready_gateway
              end
        | _ => Ok _unready_gateway
        end
    | Ok _ => Ok _unready_gateway
    end.

(** What the gateway's API answers. *)
Record gateway_reply := {
  gr_status : Z;
  gr_content_length : option string;
  gr_read : Z -> result bytes;
}.

(** capabilities.py: _gateway_is_ready; a URLError is an OSError. *)
Definition _gateway_is_ready (opener : result gateway_reply) : result json :=
  match
    rbind opener (fun response =>
      if negb (gr_status response =? 200)%Z then Ok _unready_gateway
      else
        match gr_content_length response with
        | None => rbind (gr_read response (_MAX_GATEWAY_API_BYTES + 1)) gateway_status_readiness
        | Some text =>
            match int_of_text text with
            | None => Err (ValueError "invalid literal for int()")
            | Some n =>
                if (_MAX_GATEWAY_API_BYTES <? n)%Z then Ok _unready_gateway
                else rbind (gr_read response (_MAX_GATEWAY_API_BYTES + 1)) gateway_status_readiness
            end
        end)
  with
  | Err OSError | Err TimeoutError | Err HTTPError | Err TypeError | Err (ValueError _) => Ok _unready_gateway
  | r => r
  end.

(** [json.dumps(..., sort_keys=True)] writes the keys of every object in order. *)
Fixpoint insert_pair (kv : string * json) (d : dict json) : dict json :=
  match d with
  | [] => [kv]
  | kv' :: d' => if String.leb kv.1 kv'.1 then kv :: d else kv' :: insert_pair kv d'
  end.
Fixpoint sort_keys (j : json) : json :=
  match j with
  | JList l => JList (sort_keys <$> l)
  | JDict d => JDict (foldr insert_pair [] ((fun kv => (kv.1, sort_keys kv.2)) <$> d))
  | _ => j
  end.

Section Publisher.
(** The bytes of the dump; what system calls answer, what a failing write leaves,
    the names [mkstemp] gives, the answers of the gateway and of the clock. *)
Context (encode : json -> bytes).
Context (io : nat -> result unit) (partial : nat -> nat) (temporary_name : nat -> string).
Context (opener : nat -> result gateway_reply) (clock : nat -> Z).

Abbreviation call := (AtomicFile.system_call io).

(** [except OSError: pass]; a TimeoutError is an OSError. *)
Definition ignoring_os_errors (m : M (directory bytes) unit) : M (directory bytes) unit := fun s =>
  match m s with
  | (Err OSError, s') | (Err TimeoutError, s') => (Ok tt, s')
  | r => r
  end.

(** capabilities.py: _fsync_directory *)
Definition _fsync_directory_if_possible : M (directory bytes) unit := fun s =>
  match call s with
  | (Ok _, s') => try_finally (ignoring_os_errors call) call s'
  | (Err OSError, s') | (Err TimeoutError, s') => (Ok tt, s')
  | (Err e, s') => (Err e, s')
  end.

(** capabilities.py: write_capabilities *)
Definition write_capabilities (target : string) (capabilities : dict json) : M (directory bytes) unit :=
  call ;!
  call ;!
  let! temporary := read temporary_name in
  on_files (dset temporary []) ;!
  write_atomically io (fun n => take (partial n)) [] call call call _fsync_directory_if_possible temporary target
    (encode (sort_keys (JDict capabilities))).

(** capabilities.py: MediaHealthPublisher.publish_once *)
Definition publish_once (target : string) (environment : dict string) : M (directory bytes) unit :=
  let! reply := read opener in
  let! ready := of_result (_gateway_is_ready reply) in
  let! now := read clock in
  write_capabilities target (capability_snapshot environment ready now).

(** capabilities.py: the body of the loop of MediaHealthPublisher._run *)
Definition publish_round (target : string) (environment : dict string) : M (directory bytes) unit :=
  ignoring_os_errors (publish_once target environment).
End Publisher.
End Writer.

(** ** The reader *)

Definition _REASONS : list string := ["not_configured"; "gateway_unhealthy"; "hardware_unverified"; "ready"].
Definition _FEATURES : list string := ["video"; "listen"; "talkback"].
Definition _MAX_CAPABILITIES_BYTES : Z := 8 * 1024.

(** media_capabilities.py: _false_capability *)
Definition _false_capability (reason : string) : dict json := _capability false false false reason.

(** media_capabilities.py: _unavailable *)
Definition _unavailable (reason : string) : dict json :=
  [("video", JDict (_false_capability reason)); ("listen", JDict (_false_capability reason));
   ("talkback", JDict (_false_capability "hardware_unverified"))].

Definition invalid_capability : exc := ValueError "invalid media capability".
Definition incoherent_capability : exc := ValueError "incoherent media capability".

(** [reason not in _REASONS]; lists and objects are not hashable. *)
Definition known_reason (reason : json) : result (option string) :=
  match reason with
  | JStr s => Ok (if bool_decide (s ∈ _REASONS) then Some s else None)
  | JList _ | JDict _ => Err TypeError
  | _ => Ok None
  end.

(** The checks of the flags against each other and the reason. *)
Definition coherent (feature : string) (configured ready verified : bool) (reason : string) : result unit :=
  if ready && negb configured || verified && negb ready then Err incoherent_capability
  else if String.eqb reason "not_configured" && (configured || ready || verified) then Err incoherent_capability
  else if String.eqb reason "gateway_unhealthy" && (ready || verified) then Err incoherent_capability
  else if String.eqb reason "hardware_unverified" && verified then Err incoherent_capability
  else if String.eqb reason "ready" && negb (configured && ready && verified) then Err incoherent_capability
  else if negb (String.eqb feature "talkback") && negb (String.eqb reason (_reason configured ready verified))
  then Err (ValueError "noncanonical media capability")
  else Ok tt.

(** media_capabilities.py: _parse_capability *)
Definition _parse_capability (feature : string) (value : json) : result (dict json) :=
  match value with
  | JDict d =>
      if negb (same_keys d ["configured"; "ready"; "verified"; "reason"]) then Err invalid_capability
      else
        match dict_get "configured" d, dict_get "ready" d, dict_get "verified" d with
        | JBool configured, JBool ready, JBool verified =>
            rbind (known_reason (dict_get "reason" d)) (fun known =>
            match known with
            | None => Err invalid_capability
            | Some reason =>
                rbind (coherent feature configured ready verified reason) (fun _ =>
                Ok (_capability configured ready verified reason))
            end)
        | _, _, _ => Err invalid_capability
        end
  | _ => Err invalid_capability
  end.

(** media_capabilities.py: validated_media_capabilities *)
Definition validated_media_capabilities (value : json) : dict json :=
  match value with
  | JDict d =>
      if negb (same_keys d _FEATURES) then _unavailable "gateway_unhealthy"
      else
        match _parse_capability "video" (dict_get "video" d), _parse_capability "listen" (dict_get "listen" d),
              _parse_capability "talkback" (dict_get "talkback" d) with
        | Ok video, Ok listen, Ok talkback =>
            [("video", JDict video); ("listen", JDict listen);
             ("talkback", JDict (_capability (is_true (dict_get "configured" talkback)) false false
                                   "hardware_unverified"))]
        | _, _, _ => _unavailable "gateway_unhealthy"
        end
  | _ => _unavailable "gateway_unhealthy"
  end.

(** Comparison of an integer with a float, exact as in Python. *)
Definition int_float (z : Z) : pyfloat := Fin (z * two1074).

Inductive opening := NotFound | OpenFails (e : exc) | Opened.
Record file_stat := { fs_regular : bool; fs_size : Z }.

(** [except (OSError, TypeError, ValueError)] *)
Definition is_file_error (e : exc) : bool :=
  match e with OSError | TimeoutError | TypeError | ValueError _ => true | _ => false end.
(** [except (UnicodeDecodeError, TypeError, ValueError, KeyError, JSONDecodeError)] *)
Definition is_content_error (e : exc) : bool :=
  match e with TypeError | ValueError _ | KeyError => true | _ => false end.

Section Reader.
Context (parse : bytes -> result json).

(** What one [os.read] asks for at most. *)
Definition CHUNK : nat := Z.to_nat 4096.

(** The loop of _read_exact from the [n]-th read on, with [fuel] rounds;
    [os_read n] is what the file has to give, cut at the size asked for. *)
Fixpoint read_exact_from (fuel n remaining : nat) (os_read : nat -> result bytes) : result bytes :=
  match fuel with
  | O => Err (RuntimeError "fuel")
  | S fuel' =>
      match remaining with
      | O =>
          rbind (os_read n) (fun more =>
          match more with [] => Ok [] | _ => Err (ValueError "capability file grew while reading") end)
      | _ =>
          rbind (os_read n) (fun answer =>
          match take (Nat.min remaining CHUNK) answer with
          | [] => Err (ValueError "capability file changed while reading")
          | chunk => rbind (read_exact_from fuel' (S n) (remaining - length chunk) os_read) (fun rest => Ok (chunk ++ rest))
          end)
      end
  end.

(** media_capabilities.py: _read_exact; every round but the last reads a byte. *)
Definition _read_exact (size : nat) (os_read : nat -> result bytes) : result bytes :=
  read_exact_from (S size) 0 size os_read.

(** The second [try]: decoding, the timestamp, the media object. *)
Definition decode_snapshot (max_age_seconds current_time : pyfloat) (body : bytes) : result (dict json) :=
  rbind (loads_unique parse body) (fun decoded =>
  match decoded with
  | JDict d =>
      if negb (same_keys d ["observed_at"; "media"]) then Err (ValueError "invalid media snapshot")
      else
        match dict_get "observed_at" d with
        | JInt observed_at =>
            if flt current_time (int_float observed_at)
               || flt (int_float observed_at) (fsub current_time max_age_seconds)
            then Err (ValueError "invalid media timestamp")
            else Ok (validated_media_capabilities (dict_get "media" d))
        | _ => Err (ValueError "invalid media timestamp")
        end
  | _ => Err (ValueError "invalid media snapshot")
  end).

(** [except caught: return _unavailable("gateway_unhealthy")] *)
Definition unhealthy_on (caught : exc -> bool) (r : result (dict json)) : result (dict json) :=
  match r with
  | Err e => if caught e then Ok (_unavailable "gateway_unhealthy") else Err e
  | _ => r
  end.

(** media_capabilities.py: read_media_capabilities *)
Definition read_media_capabilities (opened : opening) (metadata : result file_stat) (os_read : nat -> result bytes)
    (close : result unit) (max_age_seconds current_time : pyfloat) : result (dict json) :=
  match opened with
  | NotFound => Ok (_unavailable "not_configured")
  | OpenFails e => unhealthy_on is_file_error (Err e)
  | Opened =>
      match
        rbind metadata (fun m =>
          if negb (fs_regular m) || (fs_size m <=? 0)%Z || (_MAX_CAPABILITIES_BYTES <? fs_size m)%Z
          then Err (ValueError "invalid capability file")
          else _read_exact (Z.to_nat (fs_size m)) os_read)
      with
      | Err e => rbind close (fun _ => unhealthy_on is_file_error (Err e))
      | Ok body =>
          rbind close (fun _ => unhealthy_on is_content_error (decode_snapshot max_age_seconds current_time body))
      end
  end.
End Reader.
