(* ===== verification/CapabilitiesFacts.v ===== *)
(** * Theorems about the media capabilities

    A published snapshot is read back exactly; whatever file the reader finds, it
    reports a coherent state, and readiness only from a fresh snapshot that says
    so (Capabilities.v). *)

From Stdlib Require Import Strings.Byte.
From S2P Require Import Prelude Json Float Text Base64 AtomicFile MediaToken Capabilities.

(** ** Reading a file to its end *)

(** [os.read] on a file that holds [content]. *)
Definition reads_of (content : bytes) (n : nat) : result bytes := Ok (drop (CHUNK * n) content).

Lemma CHUNK_pos : (0 < CHUNK)%nat.
Proof. unfold CHUNK. lia. Qed.

Lemma read_exact_whole fuel n content :
  (length content - CHUNK * n < fuel)%nat ->
  read_exact_from fuel n (length content - CHUNK * n) (reads_of content) = Ok (drop (CHUNK * n) content).
Proof.
  revert n. pose proof CHUNK_pos as Hpos. unfold reads_of.
  induction fuel as [|fuel IH]; [lia|]. intros n Hfuel. cbn [read_exact_from].
  destruct (length content - CHUNK * n)%nat as [|r] eqn:Er.
  - cbn [rbind]. rewrite !drop_ge by lia. done.
  - cbn [rbind]. assert (Hlen : length (drop (CHUNK * n) content) = S r) by (rewrite length_drop; lia).
    assert (Hchunk : length (take (Nat.min (S r) CHUNK) (drop (CHUNK * n) content)) = Nat.min (S r) CHUNK)
      by (rewrite length_take; lia).
    pose proof (take_drop (Nat.min (S r) CHUNK) (drop (CHUNK * n) content)) as Hsplit.
    assert (Hrest : drop (CHUNK * S n) content = drop (Nat.min (S r) CHUNK) (drop (CHUNK * n) content)).
    { destruct (le_lt_dec (S r) CHUNK) as [Hle|Hlt].
      - rewrite Nat.min_l by lia. rewrite (drop_ge (drop _ _)) by lia. apply drop_ge. rewrite Nat.mul_succ_r. lia.
      - rewrite Nat.min_r, drop_drop by lia. f_equal. lia. }
    destruct (take _ _) as [|c chunk] eqn:Ec; [cbn [length] in Hchunk; lia|]. rewrite Hchunk.
    replace (S r - Nat.min (S r) CHUNK)%nat with (length content - CHUNK * S n)%nat by lia.
    rewrite IH by lia. cbn [rbind]. by rewrite Hrest, Hsplit.
Qed.

Lemma read_exact_content content : _read_exact (length content) (reads_of content) = Ok content.
Proof.
  unfold _read_exact. pose proof (read_exact_whole (S (length content)) 0 content) as H.
  rewrite Nat.mul_0_r, Nat.sub_0_r in H. apply H. lia.
Qed.

(** ** What the reader reports *)

(** A capability whose flags agree with each other and with its reason. *)
Definition coherent_capability (d : dict json) (configured ready verified : bool) : Prop :=
  d = _capability configured ready verified (_reason configured ready verified) /\
  (ready = true -> configured = true) /\ (verified = true -> ready = true).

(** A media object as the heartbeat reports it: two coherent capabilities and a
    talkback that is never ready. *)
Record reported (media : dict json) (video_ready listen_ready : bool) : Prop := {
  rp_video : exists configured verified d,
    dget "video" media = Some (JDict d) /\
    (coherent_capability d configured video_ready verified \/ d = _false_capability "gateway_unhealthy" /\ video_ready = false);
  rp_listen : exists configured verified d,
    dget "listen" media = Some (JDict d) /\
    (coherent_capability d configured listen_ready verified \/ d = _false_capability "gateway_unhealthy" /\ listen_ready = false);
  rp_talkback : exists configured,
    dget "talkback" media = Some (JDict (_capability configured false false "hardware_unverified"));
  rp_keys : media.*1 = _FEATURES;
}.

(** What a fresh snapshot in the file says of a feature. *)
Definition says_ready (d : dict json) (feature : string) : Prop :=
  exists media f, dict_get "media" d = JDict media /\ dict_get feature media = JDict f /\
    dict_get "ready" f = JBool true /\ dict_get "configured" f = JBool true.

Lemma parse_capability_coherent feature value d :
  feature <> "talkback" -> _parse_capability feature value = Ok d ->
  exists configured ready verified, coherent_capability d configured ready verified /\
    exists f, value = JDict f /\ dict_get "ready" f = JBool ready /\ dict_get "configured" f = JBool configured.
Proof.
  intros Hf. unfold _parse_capability. destruct value as [| | | | | | |f]; try done.
  destruct (negb (same_keys _ _)); [done|].
  destruct (dict_get "configured" f) as [|configured| | | | | |] eqn:Ec; try done.
  destruct (dict_get "ready" f) as [|ready| | | | | |] eqn:Er; try done.
  destruct (dict_get "verified" f) as [|verified| | | | | |] eqn:Ev; try done.
  intros H. apply rbind_ok in H as (known & Hk & H). destruct known as [reason|]; [|done].
  apply rbind_ok in H as ([] & Hc & [= <-]). exists configured, ready, verified. split; [|by exists f].
  unfold coherent in Hc. rewrite (proj2 (String.eqb_neq _ _) Hf) in Hc. cbn [negb andb] in Hc.
  destruct (ready && negb configured || verified && negb ready) eqn:E1; [done|].
  repeat (case_match; [done|]). apply orb_false_iff in E1 as [E1 E2].
  assert (reason = _reason configured ready verified) as -> by
    (apply String.eqb_eq; by destruct (String.eqb reason (_reason configured ready verified))).
  repeat split; [by destruct ready, configured|by destruct verified, ready].
Qed.

Lemma unavailable_unhealthy : reported (_unavailable "gateway_unhealthy") false false.
Proof.
  split; [exists false, false..|by exists false|done]; exists (_false_capability "gateway_unhealthy");
    (split; [done|by right]).
Qed.

Lemma unavailable_absent : reported (_unavailable "not_configured") false false.
Proof.
  split; [exists false, false..|by exists false|done]; exists (_false_capability "not_configured");
    (split; [done|left; by repeat split]).
Qed.

Lemma validated_reported value :
  exists video listen, reported (validated_media_capabilities value) video listen /\
    (video = true -> exists media f, value = JDict media /\ dict_get "video" media = JDict f /\
      dict_get "ready" f = JBool true /\ dict_get "configured" f = JBool true) /\
    (listen = true -> exists media f, value = JDict media /\ dict_get "listen" media = JDict f /\
      dict_get "ready" f = JBool true /\ dict_get "configured" f = JBool true).
Proof.
  assert (Hbad : forall P Q : Prop, exists video listen, reported (_unavailable "gateway_unhealthy") video listen /\
    (video = true -> P) /\ (listen = true -> Q)).
  { intros P Q. exists false, false. split; [exact unavailable_unhealthy|done]. }
  unfold validated_media_capabilities.
  destruct value as [| | | | | | |media]; try apply Hbad. destruct (negb _); [apply Hbad|].
  destruct (_parse_capability "video" _) as [v|] eqn:Ev; [|apply Hbad].
  destruct (_parse_capability "listen" _) as [l|] eqn:El; [|apply Hbad].
  destruct (_parse_capability "talkback" _) as [t|] eqn:Et; [|apply Hbad].
  clear Hbad. apply parse_capability_coherent in Ev as (vc & vr & vv & Hv & fv & Efv & Hvr & Hvc); [|done].
  apply parse_capability_coherent in El as (lc & lr & lv & Hl & fl & Efl & Hlr & Hlc); [|done].
  exists vr, lr. split; [|split].
  - split; [by exists vc, vv, v; split; [|left]|by exists lc, lv, l; split; [|left]|by eexists|done].
  - intros ->. exists media, fv. split; [done|]. split; [done|]. split; [done|]. rewrite Hvc. f_equal. by apply Hv.
  - intros ->. exists media, fl. split; [done|]. split; [done|]. split; [done|]. rewrite Hlc. f_equal. by apply Hl.
Qed.

(** The fuel is enough: the loop ends with the bytes asked for or one of the
    errors the caller handles. *)
Lemma read_exact_ends fuel n remaining os_read :
  (remaining < fuel)%nat -> (forall n e, os_read n = Err e -> is_file_error e = true) ->
  match read_exact_from fuel n remaining os_read with
  | Ok body => length body = remaining
  | Err e => is_file_error e = true
  end.
Proof.
  intros Hfuel Hread. pose proof CHUNK_pos as Hpos. revert n remaining Hfuel.
  induction fuel as [|fuel IH]; [lia|]. intros n remaining Hfuel. cbn [read_exact_from].
  destruct remaining as [|r]; destruct (os_read n) as [answer|e] eqn:Ea; cbn [rbind]; [|by apply (Hread n)| |by apply (Hread n)].
  - by destruct answer.
  - destruct (take _ _) as [|c chunk] eqn:Ec; [done|].
    assert (Hc : (length (c :: chunk) <= Nat.min (S r) CHUNK)%nat) by (rewrite <- Ec, length_take; lia).
    pose proof (IH (S n) (S r - length (c :: chunk))%nat) as H. cbn [length] in *.
    destruct (read_exact_from fuel _ _ _) as [rest|e]; cbn [rbind]; [|apply H; lia].
    cbn [length app]. rewrite length_app. specialize (H ltac:(lia)). lia.
Qed.

(** The body the reader decodes, if it gets that far. *)
Lemma body_read metadata os_read r :
  (forall e, metadata = Err e -> is_file_error e = true) -> (forall n e, os_read n = Err e -> is_file_error e = true) ->
  r = rbind metadata (fun m =>
      if negb (fs_regular m) || (fs_size m <=? 0)%Z || (_MAX_CAPABILITIES_BYTES <? fs_size m)%Z
      then Err (ValueError "invalid capability file") else _read_exact (Z.to_nat (fs_size m)) os_read) ->
  match r with Ok body => (Z.of_nat (length body) <= _MAX_CAPABILITIES_BYTES)%Z | Err e => is_file_error e = true end.
Proof.
  intros Hm Hr ->. destruct metadata as [m|e]; cbn [rbind]; [|by apply Hm].
  destruct (_ || _) eqn:E; [done|]. apply orb_false_iff in E as [_ E]. apply Z.ltb_ge in E.
  pose proof (read_exact_ends (S (Z.to_nat (fs_size m))) 0 _ _ (Nat.lt_succ_diag_r _) Hr) as H. unfold _read_exact.
  destruct (read_exact_from _ _ _ _); [|done]. rewrite H. change _MAX_CAPABILITIES_BYTES with 8192%Z in *. lia.
Qed.

Definition fresh_at (max_age_seconds current_time : pyfloat) (observed_at : Z) : Prop :=
  flt current_time (int_float observed_at) = false /\
  flt (int_float observed_at) (fsub current_time max_age_seconds) = false.

(** A status that claims readiness rests on a fresh snapshot that says so. *)
Definition supported parse (max_age_seconds current_time : pyfloat) (video listen : bool) : Prop :=
  video || listen = true ->
  exists body d observed_at,
    (Z.of_nat (length body) <= _MAX_CAPABILITIES_BYTES)%Z /\ loads_unique parse body = Ok (JDict d) /\
    dict_get "observed_at" d = JInt observed_at /\ fresh_at max_age_seconds current_time observed_at /\
    (video = true -> says_ready d "video") /\ (listen = true -> says_ready d "listen").

Lemma loads_unique_error parse body e :
  (forall b e, parse b = Err e -> is_content_error e = true) -> loads_unique parse body = Err e -> is_content_error e = true.
Proof.
  intros Hp. unfold loads_unique. destruct (parse body) as [j|x] eqn:E; cbn [rbind]; [|intros [= <-]; by apply (Hp body)].
  destruct (_unique_object j); [done|by intros [= <-]].
Qed.

Lemma decode_reported parse max_age_seconds current_time body :
  (forall b e, parse b = Err e -> is_content_error e = true) ->
  (Z.of_nat (length body) <= _MAX_CAPABILITIES_BYTES)%Z ->
  exists media video listen,
    unhealthy_on is_content_error (decode_snapshot parse max_age_seconds current_time body) = Ok media /\
    reported media video listen /\ supported parse max_age_seconds current_time video listen.
Proof.
  intros Hparse Hbody.
  assert (Hbad : forall e, is_content_error e = true -> exists media video listen,
    unhealthy_on is_content_error (Err e) = Ok media /\ reported media video listen /\
    supported parse max_age_seconds current_time video listen).
  { intros e He. exists (_unavailable "gateway_unhealthy"), false, false. cbn. rewrite He.
    split; [done|]. split; [exact unavailable_unhealthy|by intros [=]]. }
  unfold decode_snapshot. destruct (loads_unique parse body) as [j|e] eqn:Ej; cbn [rbind];
    [|apply Hbad; by apply (loads_unique_error parse body)].
  destruct j as [| | | | | | |d]; try by apply Hbad. destruct (negb _); [by apply Hbad|].
  destruct (dict_get "observed_at" d) as [| |t| | | | |] eqn:Et; try by apply Hbad.
  destruct (_ || _) eqn:Ef; [by apply Hbad|]. apply orb_false_iff in Ef as [Hf1 Hf2]. clear Hbad.
  destruct (validated_reported (dict_get "media" d)) as (video & listen & Hr & Hv & Hl).
  exists (validated_media_capabilities (dict_get "media" d)), video, listen. split; [done|]. split; [done|].
  intros _. exists body, d, t. do 3 (split; [done|]). split; [by split|]. unfold says_ready.
  split; intros H; [destruct (Hv H) as (m & f & ? & ?)|destruct (Hl H) as (m & f & ? & ?)]; by exists m, f.
Qed.


(** ** From the sidecar to the heartbeat *)

Lemma leaves_files_ignoring (m : M (directory bytes) unit) : leaves_files m -> leaves_files (ignoring_os_errors m).
Proof.
  intros Hm I HI s Hs. specialize (Hm I HI s Hs). unfold ignoring_os_errors. by destruct (m s) as [[[]|[]] s'].
Qed.

Lemma leaves_files_fsync_if_possible io : leaves_files (_fsync_directory_if_possible io).
Proof.
  intros I HI s Hs. pose proof (leaves_files_call io I HI s Hs) as H. unfold _fsync_directory_if_possible.
  destruct (AtomicFile.system_call io s) as [[[]|[]] s']; try exact H.
  apply (leaves_files_finally (C := bytes)); [| |exact HI|exact H]; auto using leaves_files_ignoring with gate.
Qed.

(** The write of the snapshot replaces the target or leaves it. *)
Lemma write_capabilities_spec encode io partial temporary_name s0 target capabilities :
  (forall k, temporary_name k <> target) ->
  triple (untouched temporary_name s0 target)
    (write_capabilities encode io partial temporary_name target capabilities)
    (fun _ => published temporary_name s0 target (encode (sort_keys (JDict capabilities))))
    (either temporary_name s0 target (encode (sort_keys (JDict capabilities)))).
Proof.
  intros Hnames. pose proof (untouched_same temporary_name s0 target) as Hu.
  assert (Hcall : triple (untouched temporary_name s0 target) (AtomicFile.system_call io)
    (fun _ => untouched temporary_name s0 target) (either temporary_name s0 target (encode (sort_keys (JDict capabilities))))).
  { eapply triple_conseq; [by apply (system_call_reads io _ Hu)|done|done|by left]. }
  unfold write_capabilities. apply (triple_bind (A := unit) _ _ _ (fun _ => untouched temporary_name s0 target)); [exact Hcall|].
  intros _. apply (triple_bind (A := unit) _ _ _ (fun _ => untouched temporary_name s0 target)); [exact Hcall|].
  intros _. eapply (triple_bind (A := string)); [by apply triple_read|]. intros name. apply triple_pure. intros [k ->].
  apply create_and_replace; [done|..]; auto using leaves_files_fsync_if_possible with gate.
Qed.

(** What a snapshot says of the media. *)
Definition media_of (snapshot : dict json) : dict json :=
  match dict_get "media" snapshot with JDict d => d | _ => [] end.

Lemma snapshot_decodes parse environment ready now max_age_seconds current_time body :
  parse body = Ok (sort_keys (JDict (capability_snapshot environment ready now))) ->
  fresh_at max_age_seconds current_time now ->
  decode_snapshot parse max_age_seconds current_time body = Ok (media_of (capability_snapshot environment ready now)).
Proof.
  intros Hparse [Hf1 Hf2]. unfold decode_snapshot, loads_unique. rewrite Hparse. cbn [rbind].
  unfold capability_snapshot. destruct (_validated_gateway_readiness ready) as [va la].
  destruct (_enabled (dget "GATE_MEDIA_VIDEO_CONFIGURED" environment)), (_enabled (dget "GATE_MEDIA_LISTEN_CONFIGURED" environment)),
    (_enabled (dget "GATE_MEDIA_TALKBACK_CONFIGURED" environment)), va, la,
    (_enabled (dget "GATE_MEDIA_VIDEO_VERIFIED" environment)), (_enabled (dget "GATE_MEDIA_LISTEN_VERIFIED" environment));
    lazy -[flt fsub int_float Z.mul]; by rewrite Hf1, Hf2.
Qed.

(** A snapshot that was published is what the controller reads: when the
    publication returns, the target holds the dump of the whole snapshot, and reading it
    before it is too old gives exactly its media object, feature by feature.  A
    publication that fails leaves the old file or the whole new one.  The parser
    undoes the dump of this snapshot. *)
Theorem published_capabilities_read (parse : bytes -> result json) (encode : json -> bytes) (io : nat -> result unit)
    (partial : nat -> nat) (temporary_name : nat -> string) (opener : nat -> result gateway_reply) (clock : nat -> Z)
    (target : string) (environment : dict string) (max_age_seconds current_time : pyfloat) (s s' : directory bytes)
    (r : result unit) (ready : json)
    (Htemporary : forall k, temporary_name k <> target)
    (Hready : _gateway_is_ready parse (opener (sl_reads s)) = Ok ready)
    (Hparse : let dump := sort_keys (JDict (capability_snapshot environment ready (clock (S (sl_reads s))))) in
       parse (encode dump) = Ok dump /\ encode dump <> [] /\
       (Z.of_nat (length (encode dump)) <= _MAX_CAPABILITIES_BYTES)%Z)
    (Hfresh : fresh_at max_age_seconds current_time (clock (S (sl_reads s))))
    (Hrun : publish_once parse encode io partial temporary_name opener clock target environment s = (r, s')) :
  let snapshot := capability_snapshot environment ready (clock (S (sl_reads s))) in
  let body := encode (sort_keys (JDict snapshot)) in
  (r = Ok tt -> dget target (sl_files s') = Some body) /\
  (dget target (sl_files s') = dget target (sl_files s) \/ dget target (sl_files s') = Some body) /\
  (forall p, p <> target -> (forall k, p <> temporary_name k) -> dget p (sl_files s') = dget p (sl_files s)) /\
  read_media_capabilities parse Opened (Ok {| fs_regular := true; fs_size := Z.of_nat (length body) |}) (reads_of body)
    (Ok tt) max_age_seconds current_time = Ok (media_of snapshot).
Proof.
  intros snapshot body. destruct Hparse as (Hdump & Hne & Hlen). fold snapshot in Hdump, Hne, Hlen. fold body in Hdump, Hne, Hlen.
  assert (Hfile : match r with Ok _ => published temporary_name s target body s' | Err _ => either temporary_name s target body s' end).
  { revert Hrun. unfold publish_once, bind, read, of_result. cbn [sl_reads]. rewrite Hready. cbn [sl_reads sl_root sl_files].
    set (s1 := {| sl_reads := S (S (sl_reads s)); sl_root := sl_root s; sl_files := sl_files s |}). intros Hrun.
    pose proof (write_capabilities_spec encode io partial temporary_name s target snapshot Htemporary s1) as H.
    fold body in H. specialize (H ltac:(done)). fold snapshot in Hrun. rewrite Hrun in H. by destruct r. }
  split; [|split; [|split]].
  - intros ->. by destruct Hfile.
  - destruct r; [right; by destruct Hfile|]. destruct Hfile as [[_ ?]|[_ ?]]; [by left|by right].
  - destruct r; [by destruct Hfile|]. by destruct Hfile as [[? _]|[? _]].
  - cbn [read_media_capabilities rbind fs_regular fs_size negb orb].
    destruct (Z.leb_spec (Z.of_nat (length body)) 0); [destruct body; [done|cbn [length] in *; lia]|].
    rewrite (proj2 (Z.ltb_ge _ _) Hlen). cbn [orb]. rewrite Nat2Z.id, read_exact_content. cbn [rbind].
    unfold snapshot. by rewrite (snapshot_decodes parse environment ready (clock (S (sl_reads s)))) by done.
Qed.

(** ** Concrete runs *)

Module Sample.
Definition environment : dict string :=
  [("GATE_MEDIA_VIDEO_CONFIGURED", "true"); ("GATE_MEDIA_VIDEO_VERIFIED", " True "); ("GATE_MEDIA_LISTEN_CONFIGURED", "true")].
Definition gateway : json :=
  JDict [("items", JList [JDict [("name", JStr "gate"); ("ready", JBool true); ("tracks", JList [JStr "H264"])]])].
Definition status_body : bytes := [x01].
Definition ready : json := Eval vm_compute in readiness true false.
Definition snapshot : dict json := Eval vm_compute in capability_snapshot environment ready 1000.
Definition parse (b : bytes) : result json :=
  match b with
  | [x01] => Ok gateway
  | [x02] => Ok (sort_keys (JDict snapshot))
  | _ => Err (ValueError "not JSON")
  end.
Definition encode (_ : json) : bytes := [x02].
Definition opener (_ : nat) : result gateway_reply :=
  Ok {| gr_status := 200; gr_content_length := Some "64"; gr_read := fun _ => Ok status_body |}.
Definition start : directory bytes := {| sl_reads := 0; sl_root := true; sl_files := [] |}.
Definition publish : result unit * directory bytes :=
  publish_once parse encode (fun _ => Ok tt) (fun _ => O) (fun _ => "capabilities.tmp") opener (fun _ => 1000%Z)
    "capabilities.json" environment start.
Definition now : pyfloat := float_of_Z 1020.
Definition max_age : pyfloat := float_of_Z 30.

Lemma published_capabilities_read_witness :
  fst publish = Ok tt /\ dget "capabilities.json" (sl_files (snd publish)) = Some [x02] /\
  read_media_capabilities parse Opened (Ok {| fs_regular := true; fs_size := 1 |}) (reads_of [x02]) (Ok tt) max_age now
    = Ok (media_of snapshot).
Proof.
  destruct (published_capabilities_read parse encode (fun _ => Ok tt) (fun _ => O) (fun _ => "capabilities.tmp") opener
    (fun _ => 1000%Z) "capabilities.json" environment max_age now start (snd publish) (Ok tt) ready) as (Hfile & _ & _ & Hread).
  - done.
  - vm_compute. reflexivity.
  - split; [vm_compute; reflexivity|]. split; [done|]. vm_compute. done.
  - split; vm_compute; reflexivity.
  - vm_compute. reflexivity.
  - split; [vm_compute; reflexivity|]. split; [exact (Hfile eq_refl)|exact Hread].
Defined.


(** The reader does not handle what json.loads raises for deeply nested text: the
    documented boundary lets a RecursionError, a RuntimeError, through. *)
Lemma recursion_escapes :
  read_media_capabilities (fun _ => Err (RuntimeError "maximum recursion depth exceeded")) Opened
    (Ok {| fs_regular := true; fs_size := 1 |}) (reads_of [x5b]) (Ok tt) max_age now
  = Err (RuntimeError "maximum recursion depth exceeded").
Proof. vm_compute. reflexivity. Qed.
End Sample.
