(* ===== verification/MediaConfig.v ===== *)
(** * Media configuration: gate_media_config.py

    The trusted environment files of the media services: their bounded, owner-only
    reading, the assignments, the validation of the three environments, the
    migration of a combined gateway file and the checksum map.  Values are Unicode
    text.  [ipaddress.ip_address], [urlsplit] and the decimal digits of the Unicode
    database are arguments. *)

From Stdlib Require Import Strings.Byte.
From S2P Require Import Prelude Json Text Base64 Unicode AtomicFile MediaToken.

(** A MediaConfigError is a ValueError. *)
Definition MediaConfigError (msg : string) : exc := ValueError msg.

Definition PINNED_MEDIAMTX_VERSION : string := "1.19.3".
Definition _MAX_CONFIG_BYTES : Z := 16 * 1024.
Definition _MAX_CHECKSUM_BYTES : Z := 64 * 1024.

Definition _BOOLEAN_AUTH_KEYS : list string :=
  ["GATE_MEDIA_VIDEO_CONFIGURED"; "GATE_MEDIA_VIDEO_VERIFIED"; "GATE_MEDIA_LISTEN_CONFIGURED"; "GATE_MEDIA_LISTEN_VERIFIED";
   "GATE_MEDIA_TALKBACK_CONFIGURED"].
Definition _AUTH_KEYS : list string := "GATE_MEDIA_HMAC_SECRET" :: _BOOLEAN_AUTH_KEYS.
Definition _GATEWAY_STATIC_KEY_ORDER : list string :=
  ["MTX_PATHS_CAMERA_SOURCE"; "MTX_PATHS_CLEAR_SOURCE"; "MTX_WEBRTCLOCALUDPADDRESS"; "MTX_WEBRTCLOCALTCPADDRESS";
   "MTX_WEBRTCADDITIONALHOSTS"; "MTX_WEBRTCICESERVERS2_0_CLIENTONLY"].
Definition _RUNTIME_TURN_KEY_ORDER : list string :=
  ["MTX_WEBRTCICESERVERS2_0_URL"; "MTX_WEBRTCICESERVERS2_0_USERNAME"; "MTX_WEBRTCICESERVERS2_0_PASSWORD"].
Definition _GATEWAY_KEYS : list string := _GATEWAY_STATIC_KEY_ORDER ++ _RUNTIME_TURN_KEY_ORDER.
Definition _LEGACY_GATEWAY_SOURCE_KEY : string := "MTX_PATHS_GATE_SOURCE".
Definition _TURN_KEYS : list string := ["TURN_KEY_ID"; "TURN_KEY_API_TOKEN"].

(** The values of an environment by key. *)
Abbreviation variables := (dict pystr).

(** [values[key]] once the key is known to be there. *)
Definition value_of (key : string) (values : variables) : pystr := default [] (dget key values).

(** [{key: values[key] for key in order}] *)
Definition select (order : list string) (values : variables) : variables := (fun key => (key, value_of key values)) <$> order.

(** ** Patterns *)

(** [_KEY.fullmatch] *)
Definition _KEY (key : pystr) : bool :=
  match key with
  | c :: _ => is_upper c && forallb (fun c => is_upper c || is_digit c || (c =? 95)%Z) key
  | [] => false
  end.

(** [_TURN_KEY_ID.fullmatch] *)
Definition _TURN_KEY_ID (s : pystr) : bool :=
  (1 <=? length s)%nat && (length s <=? 128)%nat && forallb (fun c => is_alnum c || in_text "_-" c) s.

(** The parts of a TURN URL. *)
Record turn_url := { tu_scheme : pystr; tu_host : pystr; tu_port : pystr; tu_transport : option pystr }.

(** The host in brackets or before the next colon, and what follows that colon. *)
Definition split_turn_host (s : pystr) : option (pystr * pystr) :=
  match s with
  | 91%Z :: s' =>
      match partition_text 93 s' with
      | Some (inner, 58%Z :: rest) =>
          if negb (bool_decide (inner = [])) && forallb (fun c => is_digit c || in_text "ABCDEFabcdef:." c) inner
          then Some (91%Z :: inner ++ [93%Z], rest) else None
      | _ => None
      end
  | _ =>
      match partition_text 58 s with
      | Some (host, rest) =>
          if negb (bool_decide (host = [])) && forallb (fun c => is_alnum c || in_text ".-" c) host then Some (host, rest) else None
      | None => None
      end
  end.

(** [_TURN_URL.fullmatch], for a class of digits. *)
Definition match_turn_url (digit : Z -> bool) (url : pystr) : option turn_url :=
  match partition_text 58 url with
  | None => None
  | Some (scheme, rest) =>
      if negb (bool_decide (scheme ∈ [of_ascii "turn"; of_ascii "turns"])) then None
      else
        match split_turn_host rest with
        | None => None
        | Some (host, rest) =>
            let '(port, transport) := match partition_text 63 rest with
                                      | Some (port, query) => (port, Some query)
                                      | None => (rest, None)
                                      end in
            if negb ((1 <=? length port)%nat && (length port <=? 5)%nat && forallb digit port) then None
            else
              match transport with
              | None => Some {| tu_scheme := scheme; tu_host := host; tu_port := port; tu_transport := None |}
              | Some query =>
                  if bool_decide (query = of_ascii "transport=udp") || bool_decide (query = of_ascii "transport=tcp")
                  then Some {| tu_scheme := scheme; tu_host := host; tu_port := port; tu_transport := Some (drop 10 query) |}
                  else None
              end
        end
  end.
Definition _TURN_URL : pystr -> option turn_url := match_turn_url is_digit.

(** [re.fullmatch(r"[a-f0-9]{64}", checksum)] *)
Definition is_sha256 (s : pystr) : bool := (length s =? 64)%nat && forallb (fun c => is_digit c || in_text "abcdef" c) s.

(** A label of a host name. *)
Definition is_label (label : pystr) : bool :=
  match label with
  | [] => false
  | c :: _ => (length label <=? 63)%nat && is_alnum c && is_alnum (List.last label 0%Z)
              && forallb (fun c => is_alnum c || (c =? 45)%Z) label
  end.

(** ** Assignments *)

(** One line of parse_trusted_environment. *)
Definition parse_assignment (values : variables) (line : pystr) : result variables :=
  if bool_decide (line = []) || negb (is_word line) then Err (MediaConfigError "environment has whitespace or an empty line")
  else
    let invalid := MediaConfigError "environment has an invalid assignment" in
    match partition_text 61 line with
    | None => Err invalid
    | Some (key, value) =>
        if negb (_KEY key) || bool_decide (value = []) then Err invalid
        else if dmem (to_string key) values then Err (MediaConfigError "environment has a duplicate assignment")
        else Ok (dset (to_string key) value values)
    end.
Definition parse_lines (lines : list pystr) (values : variables) : result variables :=
  fold_left (fun r line => rbind r (fun values => parse_assignment values line)) lines (Ok values).

(** parse_trusted_environment, once the file is read. *)
Definition parse_environment (body : bytes) : result variables :=
  match utf8_decode body with
  | Err _ => Err (MediaConfigError "environment must be UTF-8")
  | Ok text =>
      if bool_decide (13%Z ∈ text) || negb (bool_decide (list.last text = Some 10%Z))
      then Err (MediaConfigError "environment must use newline-terminated assignments")
      else parse_lines (splitlines text).*1 []
  end.

(** gate_media_config.py: _serialize_environment *)
Definition assignment (values : variables) (key : string) : pystr := of_ascii key ++ 61%Z :: value_of key values.
Definition _serialize_environment (values : variables) (order : list string) : result bytes :=
  if negb (forallb (fun key => dmem key values) order) then Err KeyError
  else utf8_encode (unlines (assignment values <$> order)).

(** ** The checksum map *)

(** One line of the map, with the targets seen and the matches so far. *)
Definition checksum_line (version architecture : string) (state : list string * list pystr) (line : pystr)
  : result (list string * list pystr) :=
  match line with
  | [] | 35%Z :: _ => Ok state
  | _ =>
      match split_on 32 line with
      | [row_version; row_architecture; checksum] =>
          if bool_decide ([] ∈ [row_version; row_architecture; checksum]) then Err (MediaConfigError "checksum map has an invalid row")
          else if negb (bool_decide (row_version = of_ascii PINNED_MEDIAMTX_VERSION))
          then Err (MediaConfigError "checksum map contains an unpinned version")
          else if negb (bool_decide (row_architecture ∈ [of_ascii "arm64"; of_ascii "armv7"]))
          then Err (MediaConfigError "checksum map has an invalid architecture")
          else if negb (is_sha256 checksum) then Err (MediaConfigError "checksum map has an invalid SHA-256")
          else
            let target := to_string row_architecture in
            if bool_decide (target ∈ state.1) then Err (MediaConfigError "checksum map has a duplicate target")
            else Ok (state.1 ++ [target],
                     if bool_decide (row_version = of_ascii version /\ target = architecture) then state.2 ++ [checksum] else state.2)
      | _ => Err (MediaConfigError "checksum map has an invalid row")
      end
  end.

(** lookup_checksum_from_fd, once the file is read. *)
Definition lookup_checksum (version architecture : string) (body : bytes) : result pystr :=
  if existsb (fun b => 128 <=? octet b)%Z body then Err (MediaConfigError "checksum map must be ASCII")
  else
    rbind (fold_left (fun r line => rbind r (fun state => checksum_line version architecture state line))
             (splitlines (octet <$> body)).*1 (Ok ([], [])))
      (fun state => match state.2 with
                    | [checksum] => Ok checksum
                    | _ => Err (MediaConfigError "checksum map has no exact approved target")
                    end).

(** ** Validation *)

(** What the standard library says of an IP address and of a URL. *)
Record address := {
  ip_text : pystr;
  is_unspecified : bool;
  is_loopback : bool;
  is_multicast : bool;
  is_link_local : bool;
  is_reserved : bool;
  is_private : bool;
}.
Record split_url := {
  su_scheme : pystr;
  su_hostname : option pystr;
  su_port : result (option Z);
  su_path : pystr;
  su_fragment : pystr;
  su_with_path : pystr -> pystr;
}.

(** An address other machines cannot reach. *)
Definition unreachable (a : address) : bool :=
  is_unspecified a || is_loopback a || is_multicast a || is_link_local a || is_reserved a.

Section Validation.
Context (ip_address : pystr -> option address) (urlsplit : pystr -> result split_url) (decimal_digit : Z -> option Z).

(** gate_media_config.py: _validate_effective_values *)
Definition _validate_effective_values (values : variables) : result unit :=
  if existsb (fun kv => bool_decide (kv.2 = []) || negb (is_word (of_ascii kv.1)) || negb (is_word kv.2)) values
  then Err (MediaConfigError "effective environment values are invalid")
  else Ok tt.

(** The byte length of a value is within bounds; encoding may raise. *)
Definition bounded_bytes (minimum maximum : Z) (value : pystr) : result bool :=
  rbind (utf8_encode value) (fun b =>
    Ok ((minimum <=? Z.of_nat (length b)) && (Z.of_nat (length b) <=? maximum))%Z).

(** gate_media_config.py: validate_auth_environment *)
Definition validate_auth_environment (values : variables) : result variables :=
  rbind (_validate_effective_values values) (fun _ =>
  if negb (same_keys values _AUTH_KEYS) then Err (MediaConfigError "auth environment has missing or forbidden keys")
  else
    rbind (bounded_bytes 32 256 (value_of "GATE_MEDIA_HMAC_SECRET" values)) (fun bounded =>
    if negb bounded then Err (MediaConfigError "HMAC secret must be 32 to 256 bytes")
    else
      let is_flag key := bool_decide (value_of key values ∈ [of_ascii "true"; of_ascii "false"]) in
      let set key := bool_decide (value_of key values = of_ascii "true") in
      if negb (forallb is_flag _BOOLEAN_AUTH_KEYS) then Err (MediaConfigError "capability flags must be exact booleans")
      else if set "GATE_MEDIA_VIDEO_VERIFIED" && negb (set "GATE_MEDIA_VIDEO_CONFIGURED")
      then Err (MediaConfigError "verified video must be configured")
      else if set "GATE_MEDIA_LISTEN_VERIFIED" && negb (set "GATE_MEDIA_LISTEN_CONFIGURED")
      then Err (MediaConfigError "verified listen must be configured")
      else Ok values)).

(** gate_media_config.py: _validate_host *)
Definition _validate_host (host : pystr) (allow_private : bool) : result unit :=
  let invalid := MediaConfigError "network host is invalid" in
  match ip_address host with
  | None =>
      if bool_decide (ascii_lower <$> host = of_ascii "localhost") || (253 <? length host)%nat
         || negb (forallb is_label (split_on 46 host))
      then Err invalid else Ok tt
  | Some a => if unreachable a || negb allow_private && is_private a then Err invalid else Ok tt
  end.

(** gate_media_config.py: _validate_rtsp_source *)
Definition _validate_rtsp_source (value : pystr) : result unit :=
  let invalid := MediaConfigError "gateway source is not a valid RTSP URL" in
  match urlsplit value with
  | Err (ValueError _) => Err invalid
  | Err e => Err e
  | Ok parsed =>
      match su_port parsed with
      | Err (ValueError _) => Err invalid
      | Err e => Err e
      | Ok port =>
          let hostname := default [] (su_hostname parsed) in
          if negb (bool_decide (su_scheme parsed ∈ [of_ascii "rtsp"; of_ascii "rtsps"])) || bool_decide (hostname = [])
             || negb (bool_decide (su_fragment parsed = [])) || bool_decide (su_path parsed = [])
             || bool_decide (su_path parsed = of_ascii "/")
             || match port with Some p => negb ((1 <=? p) && (p <=? 65535))%Z | None => false end
          then Err invalid
          else _validate_host hostname true
      end
  end.

(** The host and the port of an ICE listener as written. *)
Definition split_ice_bind (value : pystr) : option (pystr * pystr) :=
  match value with
  | 91%Z :: rest =>
      match partition_text 93 rest with
      | Some (host, 58%Z :: port) =>
          if negb (bool_decide (host = [])) && (1 <=? length port)%nat && (length port <=? 5)%nat
             && forallb (fun c => bool_decide (is_Some (decimal_digit c))) port
          then Some (host, port) else None
      | _ => None
      end
  | _ =>
      match rpartition_text 58 value with
      | Some (host, port) => if bool_decide (58%Z ∈ host) then None else Some (host, port)
      | None => None
      end
  end.

(** gate_media_config.py: _parse_ice_bind *)
Definition _parse_ice_bind (value : pystr) : result (pystr * Z) :=
  let invalid := MediaConfigError "ICE bind must be an exact IP and port" in
  match split_ice_bind value with
  | None => Err invalid
  | Some (host, port_text) =>
      match ip_address host, int_of_pystr decimal_digit port_text with
      | Some a, Some port =>
          if negb ((1 <=? port) && (port <=? 65535))%Z || unreachable a
          then Err (MediaConfigError "ICE bind is not remotely reachable") else Ok (ip_text a, port)
      | _, _ => Err invalid
      end
  end.

(** gate_media_config.py: validate_gateway_static_environment *)
Definition validate_gateway_static_environment (values : variables) : result variables :=
  rbind (_validate_effective_values values) (fun _ =>
  if negb (same_keys values _GATEWAY_STATIC_KEY_ORDER)
  then Err (MediaConfigError "static gateway environment has missing or forbidden keys")
  else
    let value key := value_of key values in
    rbind (_validate_rtsp_source (value "MTX_PATHS_CAMERA_SOURCE")) (fun _ =>
    rbind (_validate_rtsp_source (value "MTX_PATHS_CLEAR_SOURCE")) (fun _ =>
    if bool_decide (value "MTX_PATHS_CAMERA_SOURCE" = value "MTX_PATHS_CLEAR_SOURCE")
    then Err (MediaConfigError "fluent and clear camera sources must be distinct")
    else
      rbind (_parse_ice_bind (value "MTX_WEBRTCLOCALUDPADDRESS")) (fun udp =>
      rbind (_parse_ice_bind (value "MTX_WEBRTCLOCALTCPADDRESS")) (fun tcp =>
      if negb (bool_decide (udp.1 = tcp.1)) then Err (MediaConfigError "ICE listeners must use the same reachable address")
      else
        let advertised_host := value "MTX_WEBRTCADDITIONALHOSTS" in
        match ip_address advertised_host with
        | None => Err (MediaConfigError "advertised ICE host must be one exact IP")
        | Some a =>
            if negb (bool_decide (ip_text a = advertised_host)) || unreachable a || negb (bool_decide (advertised_host = udp.1))
            then Err (MediaConfigError "advertised ICE host must match the listener address")
            else if negb (bool_decide (value "MTX_WEBRTCICESERVERS2_0_CLIENTONLY" = of_ascii "false"))
            then Err (MediaConfigError "TURN must be available to MediaMTX and clients")
            else Ok values
        end))))).

(** gate_media_config.py: _validate_turn_url *)
Definition _validate_turn_url (value : pystr) : result unit :=
  let invalid := MediaConfigError "TURN URL is invalid" in
  match _TURN_URL value with
  | None => Err invalid
  | Some u =>
      let host := match tu_host u with 91%Z :: inner => removelast inner | h => h end in
      match digits_value ascii_digit 0 false (tu_port u) with
      | Some port => if negb ((1 <=? port) && (port <=? 65535))%Z then Err invalid else _validate_host host true
      | None => Err invalid
      end
  end.

(** gate_media_config.py: validate_runtime_turn_environment *)
Definition validate_runtime_turn_environment (values : variables) : result variables :=
  rbind (_validate_effective_values values) (fun _ =>
  if negb (same_keys values _RUNTIME_TURN_KEY_ORDER)
  then Err (MediaConfigError "runtime TURN environment has missing or forbidden keys")
  else
    rbind (_validate_turn_url (value_of "MTX_WEBRTCICESERVERS2_0_URL" values)) (fun _ =>
    rbind (bounded_bytes 1 256 (value_of "MTX_WEBRTCICESERVERS2_0_USERNAME" values)) (fun username =>
    if negb username then Err (MediaConfigError "TURN credentials must be 1 to 256 bytes")
    else
      rbind (bounded_bytes 1 256 (value_of "MTX_WEBRTCICESERVERS2_0_PASSWORD" values)) (fun password =>
      if negb password then Err (MediaConfigError "TURN credentials must be 1 to 256 bytes") else Ok values)))).

(** gate_media_config.py: validate_gateway_environment *)
Definition validate_gateway_environment (values : variables) : result variables :=
  rbind (_validate_effective_values values) (fun _ =>
  if negb (same_keys values _GATEWAY_KEYS) then Err (MediaConfigError "gateway environment has missing or forbidden keys")
  else
    rbind (validate_gateway_static_environment (select _GATEWAY_STATIC_KEY_ORDER values)) (fun _ =>
    rbind (validate_runtime_turn_environment (select _RUNTIME_TURN_KEY_ORDER values)) (fun _ => Ok values))).

(** gate_media_config.py: validate_split_gateway_environment *)
Definition validate_split_gateway_environment (static_values runtime_turn_values : variables) : result variables :=
  rbind (validate_gateway_static_environment static_values) (fun selected =>
  rbind (validate_runtime_turn_environment runtime_turn_values) (fun runtime =>
  validate_gateway_environment (dupdate selected runtime))).

(** gate_media_config.py: validate_turn_environment *)
Definition validate_turn_environment (values : variables) : result variables :=
  rbind (_validate_effective_values values) (fun _ =>
  if negb (same_keys values _TURN_KEYS) then Err (MediaConfigError "TURN environment has missing or forbidden keys")
  else if negb (_TURN_KEY_ID (value_of "TURN_KEY_ID" values)) then Err (MediaConfigError "TURN key ID has an invalid format")
  else
    rbind (bounded_bytes 0 256 (value_of "TURN_KEY_ID" values)) (fun key_id =>
    rbind (bounded_bytes 0 256 (value_of "TURN_KEY_API_TOKEN" values)) (fun api_token =>
    if negb (key_id && api_token) then Err (MediaConfigError "TURN credential values must be at most 256 bytes")
    else Ok values))).

(** gate_media_config.py: relevant_auth_environment, relevant_gateway_environment *)
Definition relevant (values : variables) : variables :=
  filter (fun kv => String.prefix "GATE_MEDIA_" kv.1 || String.prefix "MTX_" kv.1 = true) values.

(** ** Migration of the keys *)

(** gate_media_config.py: _migrate_legacy_source_key *)
Definition _migrate_legacy_source_key (values : variables) : result (variables * bool) :=
  match dget _LEGACY_GATEWAY_SOURCE_KEY values, dget "MTX_PATHS_CAMERA_SOURCE" values with
  | Some _, Some _ => Err (MediaConfigError "gateway environment has conflicting source keys")
  | None, _ => Ok (values, false)
  | Some source, None => Ok (dset "MTX_PATHS_CAMERA_SOURCE" source (ddel _LEGACY_GATEWAY_SOURCE_KEY values), true)
  end.

Definition ends_in_sub (path : pystr) : bool := bool_decide (rev (of_ascii "_sub") `prefix_of` rev path).

(** gate_media_config.py: _migrate_clear_source_key *)
Definition _migrate_clear_source_key (values : variables) : result (variables * bool) :=
  if dmem "MTX_PATHS_CLEAR_SOURCE" values then Ok (values, false)
  else
    match dget "MTX_PATHS_CAMERA_SOURCE" values with
    | None => Ok (values, false)
    | Some fluent =>
        rbind (urlsplit fluent) (fun parsed =>
        let path := su_path parsed in
        if negb (ends_in_sub path) then Err (MediaConfigError "clear camera source cannot be derived safely")
        else Ok (dset "MTX_PATHS_CLEAR_SOURCE" (su_with_path parsed (take (length path - 4) path ++ of_ascii "_main")) values, true))
    end.
End Validation.
