(* ===== verification/MediaFiles.v ===== *)
(** * Trusted files of the media configuration: gate_media_config.py

    Opening, reading and replacing the owner-only files, the split of a combined
    gateway file in two, and the commands.  Files are the bytes under their path;
    nobody else writes them meanwhile, while every system call may fail, a read may
    be short and a write partial. *)

From Stdlib Require Import Strings.Byte.
From S2P Require Import Prelude Json Text Base64 Unicode AtomicFile MediaToken MediaConfig.

(** ** What the system tells *)

Record metadata := {
  md_directory : bool;
  md_regular : bool;
  md_owned : bool;
  md_mode : Z;
  md_size : Z;
}.
Record file_environment := {
  fe_io : nat -> result unit;
  fe_stat : nat -> Z -> metadata;
  fe_short : nat -> nat;
  fe_partial : nat -> bytes -> bytes;
  fe_name : nat -> string;
}.

(** A path as [os.path.split(os.path.abspath(path))] gives it. *)
Record trusted_path := { tp_parent : string; tp_name : string }.
Definition place (p : trusted_path) : string := path_child (tp_parent p) (tp_name p).

(** Mode bits 022 and mode 600. *)
Definition GROUP_OTHER_WRITE : Z := 18.
Definition OWNER_ONLY : Z := 384.

Definition owner_controlled (m : metadata) : bool :=
  md_directory m && md_owned m && (Z.land (md_mode m) GROUP_OTHER_WRITE =? 0)%Z.
Definition owner_only (m : metadata) : bool := md_regular m && md_owned m && (md_mode m =? OWNER_ONLY)%Z.

Definition CHUNK : nat := Z.to_nat 4096.

Section Files.
Context (E : file_environment).

Definition call : M (directory bytes) unit := AtomicFile.system_call (fe_io E).

(** [os.fstat(descriptor)] of something of this size *)
Definition fstat (size : Z) : M (directory bytes) metadata := call ;! read (fun k => fe_stat E k size).
Definition file_size (p : trusted_path) : M (directory bytes) Z :=
  gets (fun s => Z.of_nat (length (default [] (dget (place p) (sl_files s))))).

(** [os.open(name, ..., dir_fd=parent_descriptor)] of a file to read *)
Definition open_file (p : trusted_path) : M (directory bytes) unit :=
  call ;!
  let! files := gets sl_files in
  match dget (place p) files with Some _ => ret tt | None => raise OSError end.

Definition check_directory : M (directory bytes) unit :=
  let! m := fstat 0 in
  if owner_controlled m then ret tt else raise (MediaConfigError "trusted file directory is not owner-controlled").

(** gate_media_config.py: _open_trusted_file *)
Definition _open_trusted_file (p : trusted_path) (maximum_bytes : Z) : M (directory bytes) unit :=
  if bool_decide (tp_name p = EmptyString) then raise (MediaConfigError "trusted file path is invalid")
  else
    os_error_as (MediaConfigError "trusted file directory is inaccessible") call ;!
    try_finally
      (check_directory ;!
       os_error_as (MediaConfigError "trusted file is inaccessible") (open_file p))
      call ;!
    on_error
      (let! size := file_size p in
       let! m := fstat size in
       if owner_only m && (0 <? md_size m)%Z && (md_size m <=? maximum_bytes)%Z then ret tt
       else raise (MediaConfigError "trusted file must be owner-only and bounded"))
      call.

(** The loop of _read_regular_file, with [fuel] rounds; [rest] is what the file has
    left. *)
Fixpoint read_chunks (fuel remaining : nat) (rest : bytes) : M (directory bytes) bytes :=
  let changed := MediaConfigError "trusted file changed while reading" in
  match fuel with
  | O => raise (RuntimeError "fuel")
  | S fuel' =>
      match remaining with
      | O => call ;! match rest with [] => ret [] | _ => raise changed end
      | _ =>
          call ;!
          let! short := read (fe_short E) in
          match take (Nat.min (Nat.min remaining CHUNK) (S short)) rest with
          | [] => raise changed
          | chunk =>
              let! more := read_chunks fuel' (remaining - length chunk) (drop (length chunk) rest) in
              ret (chunk ++ more)
          end
      end
  end.

(** gate_media_config.py: _read_regular_file; every round but the last reads a
    byte. *)
Definition _read_regular_file (p : trusted_path) (maximum_bytes : Z) : M (directory bytes) bytes :=
  let! size := file_size p in
  let! m := fstat size in
  if negb (md_regular m) || (md_size m <=? 0)%Z || (maximum_bytes <? md_size m)%Z
  then raise (MediaConfigError "trusted file is not a bounded regular file")
  else
    call ;!
    let! files := gets sl_files in
    read_chunks (S (Z.to_nat (md_size m))) (Z.to_nat (md_size m)) (default [] (dget (place p) files)).

(** gate_media_config.py: parse_trusted_environment *)
Definition parse_trusted_environment (p : trusted_path) : M (directory bytes) variables :=
  _open_trusted_file p _MAX_CONFIG_BYTES ;!
  let! body := try_finally (_read_regular_file p _MAX_CONFIG_BYTES) call in
  of_result (parse_environment body).

(** gate_media_config.py: lookup_checksum_from_fd *)
Definition lookup_checksum_from_fd (p : trusted_path) (version architecture : string) : M (directory bytes) pystr :=
  if negb (String.eqb version PINNED_MEDIAMTX_VERSION) || negb (bool_decide (architecture ∈ ["arm64"; "armv7"]))
  then raise (MediaConfigError "unsupported MediaMTX release target")
  else let! body := _read_regular_file p _MAX_CHECKSUM_BYTES in of_result (lookup_checksum version architecture body).

(** gate_media_config.py: lookup_trusted_checksum *)
Definition lookup_trusted_checksum (p : trusted_path) (version architecture : string) : M (directory bytes) pystr :=
  if negb (String.eqb version PINNED_MEDIAMTX_VERSION) then raise (MediaConfigError "MediaMTX version is not pinned")
  else
    _open_trusted_file p _MAX_CHECKSUM_BYTES ;!
    try_finally (lookup_checksum_from_fd p version architecture) call.

(** gate_media_config.py: _trusted_file_has_content *)
Definition _trusted_file_has_content (p : trusted_path) : M (directory bytes) bool :=
  call ;!
  let! files := gets sl_files in
  match dget (place p) files with
  | None => ret false
  | Some content =>
      let! m := read (fun k => fe_stat E k (Z.of_nat (length content))) in
      if negb (owner_only m) || (_MAX_CONFIG_BYTES <? md_size m)%Z
      then raise (MediaConfigError "trusted file must be owner-only and bounded")
      else ret (0 <? md_size m)%Z
  end.

(** ** Replacing a file *)

(** [os.open(temporary, O_CREAT | O_EXCL, ...)] *)
Definition create (temporary : string) : M (directory bytes) unit :=
  call ;!
  let! files := gets sl_files in
  if dmem temporary files then raise OSError else on_files (dset temporary []).

(** From fchmod to the close of the new file. *)
Definition fill (temporary : string) (body : bytes) : M (directory bytes) unit :=
  call ;! write_file (fe_io E) (fe_partial E) temporary body ;! call ;! call.

(** The [finally]; [opened] while the new file's descriptor is open. *)
Definition finish (opened : bool) (temporary : string) : M (directory bytes) unit :=
  (if opened then call else ret tt) ;! AtomicFile.unlink (fe_io E) temporary ;! call.

(** [m], and the [finally] if it raises. *)
Definition guarded (m finally : M (directory bytes) unit) : M (directory bytes) unit := on_error m finally.

Definition temporary_place (p : trusted_path) (kind suffix : string) : string :=
  path_child (tp_parent p) (String.append "." (String.append (tp_name p) (String.append kind suffix))).

(** The replacement both media programs make: the directory is opened, checked,
    the new file written beside the old one, and renamed over it. *)
Definition replace_environment (check : M (directory bytes) unit) (error : exc) (p : trusted_path) (body : bytes)
  : M (directory bytes) unit :=
  let! suffix := read (fe_name E) in
  let temporary := temporary_place p ".new." suffix in
  os_error_as error call ;!
  guarded (os_error_as error (check ;! create temporary)) (finish false temporary) ;!
  guarded (os_error_as error (fill temporary body)) (finish true temporary) ;!
  try_finally (os_error_as error (replace_file (fe_io E) [] temporary (place p) ;! call)) (finish false temporary).

(** gate_media_config.py: _atomic_write_environment *)
Definition _atomic_write_environment (p : trusted_path) (body : bytes) : M (directory bytes) unit :=
  if bool_decide (tp_name p = EmptyString) || bool_decide (body = []) || (_MAX_CONFIG_BYTES <? Z.of_nat (length body))%Z
  then raise (MediaConfigError "environment update is invalid")
  else replace_environment check_directory (MediaConfigError "environment could not be atomically updated") p body.

(** ** Migration *)

Section Migration.
Context (ip_address : pystr -> option address) (urlsplit : pystr -> result split_url) (decimal_digit : Z -> option Z).

Definition write_values (p : trusted_path) (values : variables) (order : list string) : M (directory bytes) unit :=
  let! body := of_result (_serialize_environment values order) in _atomic_write_environment p body.

(** migrate_gateway_environments on a combined file. *)
Definition split_combined (gateway_path runtime_turn_path : trusted_path) (gateway_values : variables) : M (directory bytes) unit :=
  of_result (validate_gateway_environment ip_address urlsplit decimal_digit gateway_values) ;!
  let static_values := select _GATEWAY_STATIC_KEY_ORDER gateway_values in
  let! has_content := _trusted_file_has_content runtime_turn_path in
  let! runtime_values :=
    if has_content : bool then
      let! values := parse_trusted_environment runtime_turn_path in
      of_result (validate_runtime_turn_environment ip_address values)
    else
      let runtime_values := select _RUNTIME_TURN_KEY_ORDER gateway_values in
      write_values runtime_turn_path runtime_values _RUNTIME_TURN_KEY_ORDER ;! ret runtime_values in
  of_result (validate_split_gateway_environment ip_address urlsplit decimal_digit static_values runtime_values) ;!
  write_values gateway_path static_values _GATEWAY_STATIC_KEY_ORDER.

(** migrate_gateway_environments on a file already split; [migrated] when a key was
    renamed or derived. *)
Definition check_split (gateway_path runtime_turn_path : trusted_path) (gateway_values : variables) (migrated : bool)
  : M (directory bytes) unit :=
  let! static_values := of_result (validate_gateway_static_environment ip_address urlsplit decimal_digit gateway_values) in
  let! has_content := _trusted_file_has_content runtime_turn_path in
  (if has_content : bool then
     let! values := parse_trusted_environment runtime_turn_path in
     of_result (validate_split_gateway_environment ip_address urlsplit decimal_digit static_values values) ;! ret tt
   else ret tt) ;!
  if migrated then write_values gateway_path static_values _GATEWAY_STATIC_KEY_ORDER else ret tt.

(** gate_media_config.py: migrate_gateway_environments *)
Definition migrate_gateway_environments (gateway_path runtime_turn_path : trusted_path) : M (directory bytes) unit :=
  let! gateway_values := parse_trusted_environment gateway_path in
  let! (gateway_values, source_key_migrated) := of_result (_migrate_legacy_source_key gateway_values) in
  let! (gateway_values, clear_source_migrated) := of_result (_migrate_clear_source_key urlsplit gateway_values) in
  if same_keys gateway_values _GATEWAY_KEYS then split_combined gateway_path runtime_turn_path gateway_values
  else if negb (same_keys gateway_values _GATEWAY_STATIC_KEY_ORDER)
  then raise (MediaConfigError "gateway environment has missing or forbidden keys")
  else check_split gateway_path runtime_turn_path gateway_values (source_key_migrated || clear_source_migrated).

(** ** The program *)

Inductive command :=
| Checksum (map : trusted_path) (version architecture : string)
| Environment (auth gateway runtime_turn : trusted_path)
| SplitGateway (gateway runtime_turn : trusted_path)
| Turn (env : trusted_path).

(** The [try] of main; what it prints on the standard output. *)
Definition run_command (arguments : command) : M (directory bytes) (option pystr) :=
  match arguments with
  | Checksum map version architecture => let! checksum := lookup_trusted_checksum map version architecture in ret (Some checksum)
  | Environment auth gateway runtime_turn =>
      let! auth_values := parse_trusted_environment auth in
      of_result (validate_auth_environment auth_values) ;!
      let! static_values := parse_trusted_environment gateway in
      let! runtime_values := parse_trusted_environment runtime_turn in
      of_result (validate_split_gateway_environment ip_address urlsplit decimal_digit static_values runtime_values) ;!
      ret None
  | Turn env =>
      let! values := parse_trusted_environment env in of_result (validate_turn_environment values) ;! ret None
  | SplitGateway gateway runtime_turn => migrate_gateway_environments gateway runtime_turn ;! ret None
  end.

(** gate_media_config.py: main, after the arguments are parsed; the exit status and
    the output. *)
Definition main (arguments : command) : M (directory bytes) (Z * option pystr) := fun s =>
  match run_command arguments s with
  | (Ok printed, s') => (Ok (0%Z, printed), s')
  | (Err (ValueError _), s') | (Err OSError, s') | (Err TimeoutError, s') | (Err TypeError, s') => (Ok (1%Z, None), s')
  | (Err e, s') => (Err e, s')
  end.
End Migration.
End Files.
