(* ===== verification/MediaConfigFacts.v ===== *)
(** * Facts about the media configuration

    What is serialised parses back to the same values; what the parser and the
    validators accept (MediaConfig.v). *)

From Stdlib Require Import Strings.Byte.
From S2P Require Import Prelude Json Text Base64 Unicode MediaToken MediaConfig.

(** ** Dictionaries of variables *)

Lemma dset_new {V} k (v : V) d : k ∉ d.*1 -> dset k v d = d ++ [(k, v)].
Proof.
  induction d as [|[k1 v1] d IH]; [done|]. cbn. intros [Hne Hin]%not_elem_of_cons. rewrite decide_False by done. by rewrite IH.
Qed.

Lemma dget_select order values key :
  dget key (select order values) = if decide (key ∈ order) then Some (value_of key values) else None.
Proof. apply (dget_graph (fun k => value_of k values)). Qed.

Lemma value_of_select order values key : key ∈ order -> value_of key (select order values) = value_of key values.
Proof. intros H. unfold value_of at 1. rewrite dget_select, decide_True by done. done. Qed.

Lemma select_select order values : select order (select order values) = select order values.
Proof. apply (graph_ext (fun k => value_of k (select order values)) (fun k => value_of k values)). apply value_of_select. Qed.

Lemma select_keys order values : (select order values).*1 = order.
Proof. unfold select. rewrite <- list_fmap_compose. apply list_fmap_id. Qed.

Lemma value_of_elem key values : dmem key values = true -> (key, value_of key values) ∈ values.
Proof.
  unfold dmem, value_of. intros H%bool_decide_eq_true. destruct (dget key values) as [v|] eqn:E; [by apply dget_In|by destruct H].
Qed.

(** ** Parsing what was serialised *)

(** A key of the environment files. *)
Definition is_key (key : string) : bool := _KEY (of_ascii key).

(** The keys the program writes are keys. *)
Lemma written_keys : forallb is_key (_GATEWAY_STATIC_KEY_ORDER ++ _RUNTIME_TURN_KEY_ORDER) = true.
Proof. by vm_compute. Qed.

Lemma to_string_of_ascii s : to_string (of_ascii s) = s.
Proof.
  unfold to_string, of_ascii. rewrite <- list_fmap_compose. rewrite <- (string_of_list_ascii_of_string s) at 2. f_equal.
  rewrite <- list_fmap_id. apply list_fmap_ext. intros i a _. cbn. by rewrite Nat2Z.id, ascii_nat_embedding.
Qed.

Lemma key_chars key : is_key key = true -> Forall (fun c => c <> 61%Z /\ is_space c = false /\ is_char c /\ is_surrogate c = false) (of_ascii key).
Proof.
  unfold is_key, _KEY. destruct (of_ascii key) as [|c l]; [done|]. intros H%andb_true_iff. destruct H as [_ H].
  rewrite forallb_forall in H. apply list.Forall_forall. intros a Ha%list_elem_of_In. specialize (H a Ha).
  unfold is_upper, is_digit, is_space, is_char, is_surrogate in *. lia.
Qed.

(** A value as the parser accepts it. *)
Definition is_value (v : pystr) : Prop := v <> [] /\ is_word v = true /\ Forall is_char v.

Lemma assignment_line values key : is_key key = true -> is_value (value_of key values) ->
  is_word (assignment values key) = true /\ Forall is_char (assignment values key).
Proof.
  intros Hk (_ & Hw & Hc). pose proof (key_chars key Hk) as H. unfold assignment, is_word. rewrite forallb_app. cbn [forallb].
  rewrite list.Forall_app, list.Forall_cons. unfold is_word in Hw. rewrite Hw. split.
  - rewrite andb_true_r. apply forallb_forall. intros c Hc'%list_elem_of_In.
    rewrite list.Forall_forall in H. by destruct (H c Hc') as (_ & -> & _).
  - split; [|split; [unfold is_char; lia|done]]. eapply List.Forall_impl; [|exact H]. by intros c (_ & _ & ? & _).
Qed.

Lemma parse_assignment_of values acc key : is_key key = true -> is_value (value_of key values) -> key ∉ acc.*1 ->
  parse_assignment acc (assignment values key) = Ok (acc ++ [(key, value_of key values)]).
Proof.
  intros Hk Hv Hin. destruct (assignment_line values key Hk Hv) as [Hw _]. destruct Hv as (Hne & _ & _).
  unfold parse_assignment. rewrite Hw. rewrite bool_decide_eq_false_2 by (unfold assignment; by destruct (of_ascii key)).
  cbn [orb negb]. unfold assignment. rewrite partition_text_first.
  2: { eapply List.Forall_impl; [|exact (key_chars key Hk)]. by intros c []. }
  change (_KEY (of_ascii key)) with (is_key key). rewrite Hk, bool_decide_eq_false_2 by done. cbn [orb negb].
  rewrite to_string_of_ascii. unfold dmem. rewrite bool_decide_eq_false_2.
  2: { rewrite (proj2 (dget_None key acc) Hin). by intros []. }
  by rewrite dset_new.
Qed.

Lemma parse_assignments values order : forall acc,
  Forall (fun key => is_key key = true /\ is_value (value_of key values)) order -> NoDup (acc.*1 ++ order) ->
  parse_lines (assignment values <$> order) acc = Ok (acc ++ select order values).
Proof.
  induction order as [|key order IH]; intros acc Hall Hnd.
  { cbn. by rewrite app_nil_r. }
  apply list.Forall_cons in Hall as [[Hk Hv] Hall]. unfold parse_lines. cbn [fmap list_fmap fold_left rbind].
  rewrite parse_assignment_of; [|done|done|].
  2: { apply list.NoDup_app in Hnd as (_ & H & _). intros Hin. by apply (H key Hin), list_elem_of_here. }
  change (parse_lines (assignment values <$> order) (acc ++ [(key, value_of key values)]) = Ok (acc ++ select (key :: order) values)).
  rewrite IH; [by rewrite <- app_assoc|done|]. by rewrite fmap_app, <- app_assoc.
Qed.

(** What is written parses back to the selected values. *)
Lemma parse_serialized values order body :
  order <> [] -> NoDup order -> Forall (fun key => is_key key = true /\ is_value (value_of key values)) order ->
  _serialize_environment values order = Ok body -> parse_environment body = Ok (select order values).
Proof.
  intros Hne Hnd Hall. unfold _serialize_environment. destruct (forallb (fun key => dmem key values) order); [|done]. cbn [negb]. intros Henc.
  assert (Hlines : Forall (fun line => is_word line = true /\ Forall is_char line) (assignment values <$> order)).
  { apply list.Forall_fmap. eapply List.Forall_impl; [|exact Hall]. intros key [Hk Hv]. by apply assignment_line. }
  assert (Hchars : Forall is_char (unlines (assignment values <$> order))).
  { unfold unlines. apply list.Forall_bind. eapply List.Forall_impl; [|exact Hlines]. intros line [_ H]. apply list.Forall_app.
    split; [done|]. constructor; [unfold is_char; lia|constructor]. }
  unfold parse_environment. rewrite (utf8_roundtrip _ _ Hchars Henc).
  assert (Hcr : 13%Z ∉ unlines (assignment values <$> order)).
  { unfold unlines. intros (line & Hc & Hl)%list_elem_of_bind. rewrite list.Forall_forall in Hlines.
    destruct (Hlines line Hl) as [Hw _]. apply elem_of_app in Hc as [Hc|Hc%list_elem_of_singleton]; [|done].
    unfold is_word in Hw. rewrite forallb_forall in Hw. apply list_elem_of_In in Hc. by specialize (Hw 13%Z Hc). }
  assert (Hlast : list.last (unlines (assignment values <$> order)) = Some 10%Z).
  { destruct (exists_last Hne) as (front & key & ->). rewrite fmap_app. unfold unlines. rewrite bind_app. cbn [mbind list_bind fmap list_fmap].
    by rewrite app_nil_r, !app_assoc, last_snoc. }
  rewrite bool_decide_eq_false_2 by done. rewrite bool_decide_eq_true_2 by done. cbn [orb negb].
  rewrite splitlines_unlines.
  2: { eapply List.Forall_impl; [|exact Hlines]. intros line [Hw _]. by apply word_no_break. }
  rewrite <- list_fmap_compose. change (compose fst (fun line : pystr => (line, [10%Z]))) with (@id pystr). rewrite list_fmap_id.
  by rewrite (parse_assignments values order []).
Qed.

(** ** What the parser accepts *)

Lemma of_ascii_to_string s : Forall (fun c => 0 <= c < 256)%Z s -> of_ascii (to_string s) = s.
Proof.
  intros H. unfold of_ascii, to_string. rewrite list_ascii_of_string_of_list_ascii, <- list_fmap_compose.
  rewrite <- (list_fmap_id s) at 2. apply list_fmap_ext. intros i c Hc. cbn. apply list_elem_of_lookup_2 in Hc.
  rewrite list.Forall_forall in H. specialize (H c Hc). rewrite nat_ascii_embedding by lia. apply Z2Nat.id. lia.
Qed.

Lemma key_bytes key : _KEY key = true -> Forall (fun c => 0 <= c < 256)%Z key.
Proof.
  intros H. unfold _KEY in H. destruct key as [|c l]; [constructor|].
  apply andb_true_iff in H as [_ H]. rewrite forallb_forall in H. apply list.Forall_forall. intros a Ha%list_elem_of_In.
  specialize (H a Ha). unfold is_upper, is_digit in H. lia.
Qed.

Lemma key_of_text key : _KEY key = true -> is_key (to_string key) = true.
Proof. intros H. unfold is_key. by rewrite of_ascii_to_string by by apply key_bytes. Qed.

Lemma partition_text_split c s k rest : partition_text c s = Some (k, rest) -> s = k ++ c :: rest.
Proof.
  revert k. induction s as [|a s IH]; intros k; cbn; [done|]. destruct (Z.eqb_spec a c) as [->|]; [by intros [= <- <-]|].
  destruct (partition_text c s) as [[k' rest']|]; [|done]. cbn. intros [= <- <-]. by rewrite (IH k').
Qed.

(** The values of a parsed environment. *)
Definition well_formed (values : variables) : Prop :=
  NoDup values.*1 /\ Forall (fun kv => is_key kv.1 = true /\ is_value kv.2) values.

Lemma parse_assignment_well_formed acc line acc' :
  Forall is_char line -> well_formed acc -> parse_assignment acc line = Ok acc' -> well_formed acc'.
Proof.
  intros Hline [Hnd Hall]. unfold parse_assignment. destruct (_ || _) eqn:E; [done|]. apply orb_false_iff in E as [_ Hw].
  apply negb_false_iff in Hw. destruct (partition_text 61 line) as [[key value]|] eqn:Ep; [|done].
  apply partition_text_split in Ep. destruct (_KEY key) eqn:Ek; [|done]. cbn [negb orb].
  case_bool_decide as Hne; [done|]. destruct (dmem (to_string key) acc) eqn:Em; [done|]. intros [= <-].
  assert (Hnew : to_string key ∉ acc.*1).
  { apply dget_None. unfold dmem in Em. apply bool_decide_eq_false in Em. destruct (dget _ acc); [|done]. by destruct Em. }
  rewrite dset_new by done. split.
  - rewrite fmap_app. apply list.NoDup_app. split; [done|]. split; [|apply list.NoDup_cons; split; [by intros ?%elem_of_nil|constructor]].
    intros k Hk Hin%list_elem_of_singleton. cbn in Hin. by subst.
  - apply list.Forall_app. split; [done|]. constructor; [|constructor]. cbn. split; [by apply key_of_text|].
    subst line. unfold is_word in Hw. rewrite forallb_app in Hw. cbn [forallb] in Hw.
    apply andb_true_iff in Hw as [_ Hw]. apply andb_true_iff in Hw as [_ Hw].
    apply list.Forall_app in Hline as [_ Hline]. apply list.Forall_cons in Hline as [_ Hline]. done.
Qed.

Lemma parse_lines_well_formed lines : forall acc values,
  Forall (Forall is_char) lines -> well_formed acc -> parse_lines lines acc = Ok values -> well_formed values.
Proof.
  unfold parse_lines. induction lines as [|line lines IH]; intros acc values Hl Hacc; [by intros [= <-]|].
  apply list.Forall_cons in Hl as [Hline Hl]. cbn [fold_left rbind].
  destruct (parse_assignment acc line) as [acc'|e] eqn:Ea.
  - apply IH; [done|]. by eapply parse_assignment_well_formed.
  - clear. intros H. exfalso. revert H. induction lines as [|line' lines IH]; [done|]. cbn [fold_left rbind]. exact IH.
Qed.

Lemma splitlines_chars text : Forall is_char text -> Forall (Forall is_char) (splitlines text).*1.
Proof.
  revert text. fix IH 1. intros [|c s] H; [constructor|]. apply list.Forall_cons in H as [Hc Hs]. cbn [splitlines].
  pose proof (IH s Hs) as Hrec. destruct (is_break c).
  - destruct s as [|d s']; [apply List.Forall_cons; constructor|]. pose proof Hs as Hs'. apply list.Forall_cons in Hs' as [_ Hs'].
    destruct ((c =? 13) && (d =? 10))%Z; cbn [fmap list_fmap fst]; apply List.Forall_cons; auto; constructor.
  - destruct (splitlines s) as [|[line ending] lines]; cbn [fmap list_fmap fst] in *.
    { apply List.Forall_cons; [by apply List.Forall_cons|constructor]. }
    apply list.Forall_cons in Hrec as [H1 H2]. constructor; [by constructor|done].
Qed.

(** A parsed environment has distinct keys of the right form and nonempty values
    without whitespace. *)
Lemma parse_environment_well_formed body values : parse_environment body = Ok values -> well_formed values.
Proof.
  unfold parse_environment. destruct (utf8_decode body) as [text|e] eqn:Ed; [|done]. destruct (_ || _); [done|].
  apply utf8_decode_faithful in Ed as (Hc & _). apply parse_lines_well_formed; [by apply splitlines_chars|].
  split; [constructor|constructor].
Qed.

(** ** Validated environments *)

Lemma effective_words values : _validate_effective_values values = Ok tt ->
  Forall (fun kv => kv.2 <> [] /\ is_word kv.2 = true) values.
Proof.
  unfold _validate_effective_values. destruct (existsb _ values) eqn:E; [done|]. intros _. apply list.Forall_forall. intros kv Hkv.
  rewrite <- not_true_iff_false, existsb_exists in E. apply list_elem_of_In in Hkv.
  destruct (decide (kv.2 = [])) as [Hn|Hn].
  - exfalso. apply E. exists kv. split; [done|]. by rewrite bool_decide_eq_true_2.
  - split; [done|]. destruct (is_word kv.2) eqn:Ew; [done|]. exfalso. apply E. exists kv. split; [done|]. rewrite Ew. by rewrite orb_true_r.
Qed.

Lemma same_keys_mem {V} (d : dict V) keys key : same_keys d keys = true -> key ∈ keys -> dmem key d = true.
Proof.
  unfold same_keys. intros H Hk. apply andb_true_iff in H as [H _]. rewrite forallb_forall in H.
  apply list_elem_of_In in Hk. specialize (H key Hk). apply bool_decide_eq_true in H. unfold dmem. apply bool_decide_eq_true.
  destruct (dget key d) eqn:E; [by eexists|]. by apply dget_None in E.
Qed.

Lemma select_same_keys order values : same_keys (select order values) order = true.
Proof.
  unfold same_keys. rewrite select_keys. apply andb_true_iff. split; apply forallb_forall; intros k Hk%list_elem_of_In; by apply bool_decide_eq_true.
Qed.
