(* ===== verification/MediaFilesFacts.v ===== *)
(** * Facts about the trusted files

    Reading leaves the files alone and returns exactly the content; replacing a file
    leaves the old or the new content (MediaFiles.v).  The migration is in
    MediaMigration.v. *)

From Stdlib Require Import Strings.Byte.
From S2P Require Import Prelude Json Text Base64 Unicode AtomicFile MediaToken MediaConfig MediaFiles MediaConfigFacts.

(** ** Reading leaves the files alone *)

Section Leaves.
Context {C : Type}.

Lemma leaves_files_raise {A} e : leaves_files (raise (S := directory C) (A := A) e).
Proof. intros I HI. apply keeps_raise. Qed.
Lemma leaves_files_gets {A} (f : directory C -> A) : leaves_files (gets f).
Proof. intros I HI. apply keeps_gets. Qed.
Lemma leaves_files_of_result {A} (r : result A) : leaves_files (of_result (S := directory C) r).
Proof. intros I HI s Hs. by destruct r. Qed.
Lemma leaves_files_read {A} (f : nat -> A) : leaves_files (C := C) (read f).
Proof. intros I HI s Hs. by apply (HI s). Qed.
Lemma leaves_files_os_error {A} e (m : M (directory C) A) : leaves_files m -> leaves_files (os_error_as e m).
Proof. intros H I HI s Hs. specialize (H I HI s Hs). unfold os_error_as. by destruct (m s) as [[a|x] s']. Qed.
Lemma leaves_files_on_error {A} (m : M (directory C) A) f : leaves_files m -> leaves_files f -> leaves_files (on_error m f).
Proof.
  intros Hm Hf I HI s Hs. specialize (Hm I HI s Hs). unfold on_error. destruct (m s) as [[a|x] s']; [done|].
  specialize (Hf I HI s' Hm). by destruct (f s') as [[]].
Qed.

(** The files after a run that leaves them alone. *)
Lemma leaves_files_run {A} (m : M (directory C) A) s r s' : leaves_files m -> m s = (r, s') -> sl_files s' = sl_files s.
Proof.
  intros Hm E. set (I := fun x : directory C => sl_files x = sl_files s).
  change (I s'). eapply (keeps_state I); [apply Hm|done|exact E]. unfold I. by intros s1 s2 ->.
Qed.
End Leaves.
#[export] Hint Resolve leaves_files_raise leaves_files_gets leaves_files_of_result leaves_files_read leaves_files_os_error
  leaves_files_on_error : gate.

Ltac leaves_step :=
  match goal with
  | |- forall _, _ => intros ?
  | |- leaves_files (bind _ _) => apply leaves_files_bind
  | |- leaves_files (try_finally _ _) => apply leaves_files_finally
  | |- leaves_files (on_error _ _) => apply leaves_files_on_error
  | |- leaves_files (os_error_as _ _) => apply leaves_files_os_error
  | |- leaves_files (let _ := _ in _) => cbv zeta
  | |- leaves_files (match ?x with _ => _ end) => destruct x
  end.
Ltac leaves_tac := repeat (leaves_step || solve [eauto with gate]).

Section Facts.
Context (E : file_environment).

Lemma call_leaves : leaves_files (call E).
Proof. apply leaves_files_call. Qed.
#[local] Hint Resolve call_leaves : gate.
Lemma fstat_leaves n : leaves_files (fstat E n).
Proof. unfold fstat. leaves_tac. Qed.
Lemma check_directory_leaves : leaves_files (check_directory E).
Proof. unfold check_directory, fstat. leaves_tac. Qed.
#[local] Hint Resolve fstat_leaves check_directory_leaves : gate.
Lemma open_leaves p n : leaves_files (_open_trusted_file E p n).
Proof. unfold _open_trusted_file, open_file, file_size. leaves_tac. Qed.
Lemma read_chunks_leaves fuel : forall remaining rest, leaves_files (read_chunks E fuel remaining rest).
Proof. induction fuel as [|fuel IH]; intros remaining rest; cbn [read_chunks]; leaves_tac. Qed.
#[local] Hint Resolve open_leaves read_chunks_leaves : gate.
Lemma read_regular_leaves p n : leaves_files (_read_regular_file E p n).
Proof. unfold _read_regular_file, file_size. leaves_tac. Qed.
#[local] Hint Resolve read_regular_leaves : gate.
Lemma parse_trusted_leaves p : leaves_files (parse_trusted_environment E p).
Proof. unfold parse_trusted_environment. leaves_tac. Qed.
Lemma has_content_leaves p : leaves_files (_trusted_file_has_content E p).
Proof. unfold _trusted_file_has_content. leaves_tac. Qed.
#[local] Hint Resolve parse_trusted_leaves has_content_leaves : gate.
Lemma lookup_leaves p version architecture : leaves_files (lookup_trusted_checksum E p version architecture).
Proof. unfold lookup_trusted_checksum, lookup_checksum_from_fd. leaves_tac. Qed.

(** ** Reading returns the content *)

Definition stored (p : trusted_path) (s : directory bytes) : option bytes := dget (place p) (sl_files s).

Lemma take_then_drop {A} n (l : list A) : take n l ++ drop (length (take n l)) l = l.
Proof.
  destruct (decide (n <= length l)%nat).
  - rewrite length_take, Nat.min_l by lia. apply take_drop.
  - rewrite take_ge by lia. rewrite drop_all. apply app_nil_r.
Qed.

Lemma read_chunks_exact fuel : forall remaining rest s body s',
  read_chunks E fuel remaining rest s = (Ok body, s') -> body = rest.
Proof.
  induction fuel as [|fuel IH]; intros remaining rest s body s'; cbn [read_chunks]; [done|]. destruct remaining as [|remaining].
  - intros H. apply bind_inv in H as (u & s1 & _ & H). destruct rest; [by injection H as <- _|done].
  - intros H. apply bind_inv in H as (u & s1 & _ & H). apply bind_inv in H as (short & s2 & _ & H).
    destruct (take (Nat.min (Nat.min (S remaining) CHUNK) (S short)) rest) as [|b chunk] eqn:Et; [done|].
    apply bind_inv in H as (more & s3 & Hm & H). apply IH in Hm. injection H as <- _. subst more.
    change ((b :: chunk) ++ drop (length (b :: chunk)) rest = rest). rewrite <- Et. apply take_then_drop.
Qed.

(** A round for every byte left and one more are enough: more make no difference. *)
Lemma read_chunks_fuel f : forall g remaining rest s, (remaining < f)%nat -> (remaining < g)%nat ->
  read_chunks E f remaining rest s = read_chunks E g remaining rest s.
Proof.
  induction f as [|f IH]; intros [|g] remaining rest s Hf Hg; [lia..|]. cbn [read_chunks]. destruct remaining as [|remaining]; [done|].
  unfold bind at 1 4. destruct (call E s) as [[u|e] s1]; [|done].
  unfold bind at 1 3. destruct (read (fe_short E) s1) as [[short|e] s2]; [|done].
  destruct (take _ rest) as [|b chunk] eqn:Et; [done|]. unfold bind. rewrite (IH g); [done| |]; cbn [length]; lia.
Qed.

Lemma read_regular_exact p n s body s' :
  _read_regular_file E p n s = (Ok body, s') -> body = default [] (stored p s).
Proof.
  unfold _read_regular_file. intros H. apply bind_inv in H as (size & s1 & H1 & H). injection H1 as _ <-.
  apply bind_inv in H as (m & s2 & H2 & H). apply leaves_files_run in H2; [|apply fstat_leaves].
  destruct (_ || _); [done|]. apply bind_inv in H as (u & s3 & H3 & H). apply leaves_files_run in H3; [|apply call_leaves].
  apply bind_inv in H as (files & s4 & H4 & H). injection H4 as <- <-. apply read_chunks_exact in H as ->.
  unfold stored. by rewrite H3, H2.
Qed.

(** The values of a file. *)
Definition environment_at (p : trusted_path) (s : directory bytes) (values : variables) : Prop :=
  exists body, stored p s = Some body /\ parse_environment body = Ok values.

Lemma finally_ok {S A} (m : M S A) f s a s' : try_finally m f s = (Ok a, s') -> exists s1, m s = (Ok a, s1).
Proof. unfold try_finally. destruct (m s) as [r s1]. destruct (f s1) as [[u|e] s2]; [|done]. intros [= -> <-]. by exists s1. Qed.

Lemma parse_empty : parse_environment [] = Err (MediaConfigError "environment must use newline-terminated assignments").
Proof. by vm_compute. Qed.

(** Parsing a file gives the values of its content. *)
Lemma parse_trusted_values p s values s' :
  parse_trusted_environment E p s = (Ok values, s') -> environment_at p s values /\ sl_files s' = sl_files s.
Proof.
  intros H. split; [|by eapply leaves_files_run; [apply parse_trusted_leaves|]].
  unfold parse_trusted_environment in H. apply bind_inv in H as (u & s1 & H1 & H). apply leaves_files_run in H1; [|apply open_leaves].
  apply bind_inv in H as (body & s2 & H2 & H). apply finally_ok in H2 as [s3 H2]. apply read_regular_exact in H2 as ->.
  injection H as H _. unfold stored in *. rewrite H1 in H. unfold environment_at, stored.
  destruct (dget (place p) (sl_files s)) as [body|]; [by exists body|]. cbn [default] in H. by rewrite parse_empty in H.
Qed.

(** ** Replacing a file *)

Definition temporaries (p : trusted_path) (k : nat) : string := temporary_place p ".new." (fe_name E k).

Lemma append_length a b : String.length (String.append a b) = (String.length a + String.length b)%nat.
Proof. induction a as [|c a IH]; [done|]. change (S (String.length (String.append a b)) = S (String.length a + String.length b)). by rewrite IH. Qed.

Lemma temporary_not_place p kind suffix : temporary_place p kind suffix <> place p.
Proof.
  unfold temporary_place, place, path_child. intros H. apply (f_equal String.length) in H. revert H.
  rewrite !append_length. cbn [String.length]. rewrite ?append_length. lia.
Qed.

Section Replace.
Context (p : trusted_path) (s0 : directory bytes) (body : bytes).
Abbreviation untouched := (untouched (temporaries p) s0 (place p)).
Abbreviation published := (published (temporaries p) s0 (place p) body).
Abbreviation either := (either (temporaries p) s0 (place p) body).

Lemma untouched_leaves {A} (m : M (directory bytes) A) : leaves_files m -> keeps untouched m.
Proof. intros H. apply H. apply untouched_same. Qed.
Lemma either_leaves {A} (m : M (directory bytes) A) : leaves_files m -> keeps either m.
Proof. intros H. apply H. apply either_same. Qed.

Context (k : nat).
Abbreviation temporary := (temporaries p k).

Lemma untouched_set c s s' : sl_files s' = dset temporary c (sl_files s) -> untouched s -> untouched s'.
Proof.
  intros Es [Ho Hd]. split; [by eapply others_set|]. rewrite Es, dget_dset_ne; [done|]. intros H. by apply (temporary_not_place p ".new." (fe_name E k)).
Qed.
Lemma untouched_del s s' : sl_files s' = ddel temporary (sl_files s) -> untouched s -> untouched s'.
Proof.
  intros Es [Ho Hd]. split; [by eapply others_del|]. rewrite Es, dget_ddel_ne; [done|]. intros H. by apply (temporary_not_place p ".new." (fe_name E k)).
Qed.
Lemma published_del s s' : sl_files s' = ddel temporary (sl_files s) -> published s -> published s'.
Proof.
  intros Es [Ho Hd]. split; [by eapply others_del|]. rewrite Es, dget_ddel_ne; [done|]. intros H. by apply (temporary_not_place p ".new." (fe_name E k)).
Qed.

Lemma finish_keeps (R : directory bytes -> Prop) opened :
  (forall s s', sl_files s' = sl_files s -> R s -> R s') ->
  (forall s s', sl_files s' = ddel temporary (sl_files s) -> R s -> R s') -> keeps R (finish E opened temporary).
Proof.
  intros H1 H2. assert (Hcall : keeps R (call E)) by by apply call_leaves.
  unfold finish. apply keeps_bind; [destruct opened; [done|apply keeps_ret]|intros _].
  apply keeps_bind; [|done]. by apply unlink_spec.
Qed.
Lemma finish_untouched opened : keeps untouched (finish E opened temporary).
Proof. apply finish_keeps; [apply untouched_same|apply untouched_del]. Qed.
Lemma finish_published opened : keeps published (finish E opened temporary).
Proof. apply finish_keeps; [apply published_same|apply published_del]. Qed.

Lemma triple_os_error {S A} P e (m : M S A) Q F : triple P m Q F -> triple P (os_error_as e m) Q F.
Proof. intros H s Hs. specialize (H s Hs). unfold os_error_as. by destruct (m s) as [[a|x] s']. Qed.
Lemma triple_on_error {S A} P (m : M S A) f Q F G : triple P m Q G -> keeps G f -> (forall s, G s -> F s) -> triple P (on_error m f) Q F.
Proof.
  intros Hm Hf HF s Hs. specialize (Hm s Hs). unfold on_error. destruct (m s) as [[a|x] s']; [done|].
  specialize (Hf s' Hm). destruct (f s') as [[u|y] s'']; by apply HF.
Qed.

(** The new file is complete beside the old one. *)
Definition ready (s : directory bytes) : Prop := untouched s /\ dget temporary (sl_files s) = Some body.

Lemma create_spec (check : M (directory bytes) unit) : leaves_files check -> triple untouched (check ;! create E temporary) (fun _ => untouched) untouched.
Proof.
  intros Hcheck. apply keeps_bind; [by apply untouched_leaves|intros _]. unfold create. apply keeps_bind; [apply untouched_leaves, call_leaves|intros _].
  apply keeps_bind; [apply keeps_gets|intros files]. apply keeps_if; [apply keeps_raise|]. apply keeps_modify. intros s. by apply (untouched_set []).
Qed.

Lemma ready_call : triple ready (call E) (fun _ => ready) untouched.
Proof.
  eapply triple_conseq; [apply (call_leaves ready)|done|done|by intros s []].
  intros s s' Es [Hu Ht]. split; [by eapply untouched_same|by rewrite Es].
Qed.

Lemma fill_spec : triple untouched (fill E temporary body) (fun _ => ready) untouched.
Proof.
  unfold fill. apply (triple_bind (A := unit) _ _ _ (fun _ => untouched)); [apply untouched_leaves, call_leaves|intros _].
  apply (triple_bind (A := unit) _ _ _ (fun _ => ready)).
  - intros s Hs. unfold write_file, AtomicFile.system_call, read, bind, of_result, on_files, modify.
    destruct (fe_io E (sl_reads s)) as [[]|x] eqn:Eio; cbn.
    + split; [by apply (untouched_set body s)|apply dget_dset_eq].
    + rewrite Eio. by apply (untouched_set (fe_partial E (sl_reads s) body) s).
  - intros _. apply (triple_bind (A := unit) _ _ _ (fun _ => ready)); [apply ready_call|intros _; apply ready_call].
Qed.

Lemma rename_spec : triple ready (replace_file (fe_io E) [] temporary (place p) ;! call E) (fun _ => published) either.
Proof.
  apply (triple_bind (A := unit) _ _ _ (fun _ => published)).
  - unfold replace_file. apply (triple_bind (A := unit) _ _ _ (fun _ => ready)).
    { eapply triple_conseq; [exact ready_call|done|done|by left]. }
    intros _. apply triple_modify. intros s [[Ho Hd] Ht]. rewrite Ht. cbn [default].
    assert (Hne : place p <> temporary) by (intros H; by apply (temporary_not_place p ".new." (fe_name E k))).
    split; cbn [set_files sl_files]; [|by rewrite dget_ddel_ne, dget_dset_eq].
    intros q Hq Hk. cbn [set_files sl_files]. rewrite dget_ddel_ne, dget_dset_ne by done. by apply Ho.
  - intros _. eapply triple_conseq; [apply (call_leaves published), published_same|done|done|by right].
Qed.
End Replace.

(** Replacing a file: the new content, or the old one after a failure; only the
    temporary file besides. *)
Lemma replace_spec p s0 body check error : leaves_files check ->
  triple (untouched (temporaries p) s0 (place p)) (replace_environment E check error p body)
    (fun _ => published (temporaries p) s0 (place p) body) (either (temporaries p) s0 (place p) body).
Proof.
  intros Hcheck. unfold replace_environment. set (U := untouched (temporaries p) s0 (place p)).
  eapply (triple_bind (A := string)); [apply triple_read; apply untouched_same|]. intros suffix. apply triple_pure. intros [k ->].
  change (temporary_place p ".new." (fe_name E k)) with (temporaries p k).
  assert (HU : forall s, U s -> either (temporaries p) s0 (place p) body s) by by left.
  apply (triple_bind (A := unit) _ _ _ (fun _ => U)).
  { apply triple_os_error. eapply triple_conseq; [apply (call_leaves U), untouched_same|done|done|done]. }
  intros _. apply (triple_bind (A := unit) _ _ _ (fun _ => U)).
  { eapply triple_on_error; [apply triple_os_error; by apply create_spec|apply finish_untouched|done]. }
  intros _. apply (triple_bind (A := unit) _ _ _ (fun _ => ready p s0 body k)).
  { eapply triple_on_error; [apply triple_os_error, fill_spec|apply finish_untouched|done]. }
  intros _. apply triple_finally; [apply triple_os_error, rename_spec| |].
  - intros _. eapply triple_conseq; [apply finish_published|done|done|by right].
  - intros s [Hs|Hs]; [pose proof (finish_untouched p s0 k false s Hs) as H|pose proof (finish_published p s0 body k false s Hs) as H]; revert H;
      destruct (finish E false (temporaries p k) s) as [[]]; intros H; [by left|by left|by right|by right].
Qed.

Lemma write_environment_spec p s0 body :
  triple (untouched (temporaries p) s0 (place p)) (_atomic_write_environment E p body)
    (fun _ => published (temporaries p) s0 (place p) body) (either (temporaries p) s0 (place p) body).
Proof.
  unfold _atomic_write_environment. destruct (_ || _); [apply triple_raise; by left|]. apply replace_spec, check_directory_leaves.
Qed.
End Facts.
