(* ===== verification/MediaMigration.v ===== *)
(** * The migration of the gateway environment

    Splitting a combined file in two never loses the TURN credentials, whatever
    fails on the way (MediaFiles.v, MediaFilesFacts.v). *)

From Stdlib Require Import Strings.Byte.
From S2P Require Import Prelude Json Text Base64 Unicode AtomicFile MediaToken MediaConfig MediaFiles MediaConfigFacts MediaFilesFacts.

(** Values are Unicode text. *)
Definition texts (values : variables) : Prop := Forall (fun kv => Forall is_char kv.2) values.

Lemma Forall_dset {V} (P : string * V -> Prop) k v d : Forall P d -> P (k, v) -> Forall P (dset k v d).
Proof.
  intros Hd Hv. induction Hd as [|[k1 v1] d H1 Hd IH]; cbn [dset]; [by repeat constructor|].
  case_decide; by constructor.
Qed.
Lemma Forall_ddel {V} (P : string * V -> Prop) k d : Forall P d -> Forall P (ddel k d).
Proof.
  intros Hd. apply list.Forall_forall. intros kv Hkv. unfold ddel in Hkv. apply list_elem_of_filter in Hkv as [_ Hkv].
  by eapply list.Forall_forall.
Qed.

Lemma value_chars key values : texts values -> Forall is_char (value_of key values).
Proof.
  intros H. unfold value_of. destruct (dget key values) as [v|] eqn:E; [|constructor]. apply dget_In in E.
  unfold texts in H. rewrite list.Forall_forall in H. exact (H _ E).
Qed.

Lemma well_formed_texts values : well_formed values -> texts values.
Proof. intros [_ H]. eapply List.Forall_impl; [|exact H]. by intros kv (_ & _ & _ & ?). Qed.

Section Migration.
Context (E : file_environment).
Context (ip_address : pystr -> option address) (urlsplit : pystr -> result split_url) (decimal_digit : Z -> option Z).

(** The values with the keys of today. *)
Definition migrated_values (values : variables) : result variables :=
  rbind (_migrate_legacy_source_key values) (fun p => rbind (_migrate_clear_source_key urlsplit p.1) (fun q => Ok q.1)).

(** The library gives Unicode text. *)
Definition urls_are_text : Prop :=
  forall url parsed path, urlsplit url = Ok parsed -> Forall is_char path -> Forall is_char (su_with_path parsed path).

Lemma urlsplit_paths values w : urls_are_text -> (forall url parsed, urlsplit url = Ok parsed -> Forall is_char (su_path parsed)) ->
  texts values -> migrated_values values = Ok w -> texts w.
Proof.
  intros Hurl Hpath Hv H. apply rbind_ok in H as ([v1 b1] & H1 & H). apply rbind_ok in H as ([v2 b2] & H2 & [= <-]). cbn [fst] in *.
  assert (Hv1 : texts v1).
  { unfold _migrate_legacy_source_key in H1. destruct (dget _LEGACY_GATEWAY_SOURCE_KEY values) as [source|] eqn:Es; [|by injection H1 as <- _].
    destruct (dget "MTX_PATHS_CAMERA_SOURCE" values); [done|]. injection H1 as <- _.
    apply Forall_dset; [by apply Forall_ddel|]. cbn [snd]. pose proof (value_chars _LEGACY_GATEWAY_SOURCE_KEY values Hv) as Hc.
    unfold value_of in Hc. by rewrite Es in Hc. }
  unfold _migrate_clear_source_key in H2. destruct (dmem _ v1); [by injection H2 as <- _|].
  destruct (dget "MTX_PATHS_CAMERA_SOURCE" v1) as [fluent|]; [|by injection H2 as <- _].
  apply rbind_ok in H2 as (parsed & Hp & H2). destruct (ends_in_sub (su_path parsed)); [|done]. injection H2 as <- _.
  apply Forall_dset; [done|]. cbn [snd]. eapply Hurl; [exact Hp|]. apply list.Forall_app. split.
  - apply list.Forall_take. by eapply Hpath.
  - apply (bool_decide_unpack _). by vm_compute.
Qed.

(** The values of a validated environment. *)
Lemma validated_values order values : texts values -> _validate_effective_values values = Ok tt -> same_keys values order = true ->
  forallb is_key order = true ->
  forall keys, keys ⊆ order -> Forall (fun key => is_key key = true /\ is_value (value_of key values)) keys.
Proof.
  intros Ht Hv Hs Hk keys Hkeys. apply effective_words in Hv. apply list.Forall_forall. intros key Hkey. apply Hkeys in Hkey.
  split; [rewrite forallb_forall in Hk; by apply Hk, list_elem_of_In|].
  pose proof (value_of_elem key values (same_keys_mem _ _ _ Hs Hkey)) as Hin.
  rewrite list.Forall_forall in Hv. destruct (Hv _ Hin) as [Hne Hw]. split; [done|]. split; [done|]. by apply value_chars.
Qed.

(** Writing values to a file: they are there, or the file is as before when it fails;
    other files are the same. *)
Lemma write_values_run p values order s r s' :
  order <> [] -> NoDup order -> Forall (fun key => is_key key = true /\ is_value (value_of key values)) order ->
  write_values E p values order s = (r, s') ->
  (forall q, q <> place p -> (forall k, q <> temporaries E p k) -> dget q (sl_files s') = dget q (sl_files s)) /\
  match r with
  | Ok _ => environment_at p s' (select order values)
  | Err _ => stored p s' = stored p s \/ environment_at p s' (select order values)
  end.
Proof.
  intros Hne Hnd Hall. unfold write_values, bind, of_result. destruct (_serialize_environment values order) as [body|e] eqn:Es.
  2: { intros [= <- <-]. split; [done|by left]. }
  pose proof (parse_serialized values order body Hne Hnd Hall Es) as Hparse.
  intros H. pose proof (write_environment_spec E p s body s ltac:(by split)) as Hw. rewrite H in Hw.
  assert (Hpub : published (temporaries E p) s (place p) body s' -> environment_at p s' (select order values)) by (intros [_ Hd]; by exists body).
  destruct r as [u|e].
  - split; [by destruct Hw|by apply Hpub].
  - destruct Hw as [[Ho Hd]|Hw]; [split; [done|by left]|]. split; [by destruct Hw|right; by apply Hpub].
Qed.

Context (g r : trusted_path).

(** Neither file is the other or a temporary file of the other. *)
Definition apart : Prop :=
  place g <> place r /\ (forall k, place g <> temporaries E r k) /\ (forall k, place r <> temporaries E g k).

(** The file has no content. *)
Definition without_content (s : directory bytes) : Prop := stored r s = None \/ stored r s = Some [].

(** The credentials are still in the combined file, or both files are split and
    validated. *)
Definition still_combined (w : variables) (s s' : directory bytes) : Prop :=
  stored g s' = stored g s /\
  (stored r s' = stored r s \/ without_content s /\ environment_at r s' (select _RUNTIME_TURN_KEY_ORDER w)).
Definition split_up (w : variables) (s s' : directory bytes) : Prop :=
  environment_at g s' (select _GATEWAY_STATIC_KEY_ORDER w) /\
  exists runtime whole, environment_at r s' runtime /\
    (stored r s' = stored r s \/ without_content s /\ runtime = select _RUNTIME_TURN_KEY_ORDER w) /\
    validate_split_gateway_environment ip_address urlsplit decimal_digit (select _GATEWAY_STATIC_KEY_ORDER w) runtime = Ok whole.

Lemma same_files_combined w s s' : sl_files s' = sl_files s -> still_combined w s s'.
Proof. intros H. unfold still_combined, stored. rewrite H. split; [done|by left]. Qed.

Context (Hapart : apart) (Hsize : forall k n, md_size (fe_stat E k n) = n).

Lemma has_content_run s b s' : _trusted_file_has_content E r s = (Ok b, s') -> b = false -> without_content s.
Proof.
  unfold _trusted_file_has_content. intros H ->. apply bind_inv in H as (u & s1 & H1 & H).
  apply leaves_files_run in H1; [|apply call_leaves]. unfold bind at 1, gets in H. unfold without_content, stored. rewrite H1 in H.
  destruct (dget (place r) (sl_files s)) as [content|]; [right|by left]. apply bind_inv in H as (m & s2 & H2 & H).
  unfold read in H2. injection H2 as <- <-. destruct (_ || _); [done|]. injection H as H _. rewrite Hsize in H.
  apply Z.ltb_ge in H. destruct content; [done|]. cbn [length] in H. lia.
Qed.

(** The values of the runtime file during the split: those it has, or those of the
    combined file, written. *)
Lemma runtime_values_run w s b o s' :
  Forall (fun key => is_key key = true /\ is_value (value_of key w)) _RUNTIME_TURN_KEY_ORDER -> (b = false -> without_content s) ->
  (if b : bool then
     let! values := parse_trusted_environment E r in of_result (validate_runtime_turn_environment ip_address values)
   else
     write_values E r (select _RUNTIME_TURN_KEY_ORDER w) _RUNTIME_TURN_KEY_ORDER ;! ret (select _RUNTIME_TURN_KEY_ORDER w)) s = (o, s') ->
  stored g s' = stored g s /\ (stored r s' = stored r s \/ without_content s /\ environment_at r s' (select _RUNTIME_TURN_KEY_ORDER w)) /\
  forall runtime, o = Ok runtime -> environment_at r s' runtime /\ (stored r s' = stored r s \/ runtime = select _RUNTIME_TURN_KEY_ORDER w).
Proof.
  intros Hall Hb. destruct b.
  - assert (Hl : leaves_files (let! values := parse_trusted_environment E r in of_result (validate_runtime_turn_environment ip_address values))).
    { apply leaves_files_bind; [apply parse_trusted_leaves|intros v; apply leaves_files_of_result]. }
    intros H. pose proof (leaves_files_run _ _ _ _ Hl H) as Hf. unfold stored, environment_at, stored. rewrite Hf.
    split; [done|]. split; [by left|]. intros runtime ->. apply bind_inv in H as (values & s1 & H1 & H).
    apply parse_trusted_values in H1 as [(body & Hb1 & Hb2) _]. injection H as H _.
    assert (values = runtime) as ->.
    { revert H. unfold validate_runtime_turn_environment. destruct (_validate_effective_values values); [|done]. cbn [rbind].
      destruct (same_keys values _); [|done]. cbn [negb]. destruct (_validate_turn_url _ _); [|done]. cbn [rbind].
      destruct (bounded_bytes _ _ _) as [[|]|]; [|done..]. cbn [rbind negb]. destruct (bounded_bytes _ _ _) as [[|]|]; [|done..]. cbn. by intros [= ->]. }
    split; [by exists body|by left].
  - intros H. unfold bind in H. destruct (write_values E r _ _ s) as [res s1] eqn:Ew.
    assert (Hall' : Forall (fun key => is_key key = true /\ is_value (value_of key (select _RUNTIME_TURN_KEY_ORDER w))) _RUNTIME_TURN_KEY_ORDER).
    { apply list.Forall_forall. intros key Hkey. rewrite list.Forall_forall in Hall. rewrite value_of_select by done. by apply Hall. }
    apply write_values_run in Ew as [Ho Hw]; [|done|apply (bool_decide_unpack _); by vm_compute|done]. rewrite select_select in Hw.
    destruct Hapart as (H1 & H2 & H3).
    assert (Hg : stored g s1 = stored g s) by (apply Ho; [done|apply H2]).
    destruct res as [u|e]; injection H as <- <-; split; try done.
    + split; [right; by split; [apply Hb|]|]. intros runtime [= <-]. split; [done|by right].
    + split; [|done]. destruct Hw; [by left|right; by split; [apply Hb|]].
Qed.

(** The outcome of an attempt to split the file. *)
Definition migrated (w : variables) (s : directory bytes) (m : M (directory bytes) unit) : Prop :=
  match m s with (Ok _, s') => split_up w s s' | (Err _, s') => still_combined w s s' \/ split_up w s s' end.

Lemma write_gateway_run w s s2 runtime whole r' s' :
  Forall (fun key => is_key key = true /\ is_value (value_of key w)) _GATEWAY_STATIC_KEY_ORDER ->
  stored g s2 = stored g s -> (stored r s2 = stored r s \/ without_content s /\ environment_at r s2 (select _RUNTIME_TURN_KEY_ORDER w)) ->
  environment_at r s2 runtime -> (stored r s2 = stored r s \/ without_content s /\ runtime = select _RUNTIME_TURN_KEY_ORDER w) ->
  validate_split_gateway_environment ip_address urlsplit decimal_digit (select _GATEWAY_STATIC_KEY_ORDER w) runtime = Ok whole ->
  write_values E g (select _GATEWAY_STATIC_KEY_ORDER w) _GATEWAY_STATIC_KEY_ORDER s2 = (r', s') ->
  match r' with Ok _ => split_up w s s' | Err _ => still_combined w s s' \/ split_up w s s' end.
Proof.
  intros Hall Hg2 Hr2 Hrt Hrun Hval Hw.
  assert (Hall' : Forall (fun key => is_key key = true /\ is_value (value_of key (select _GATEWAY_STATIC_KEY_ORDER w))) _GATEWAY_STATIC_KEY_ORDER).
  { apply list.Forall_forall. intros key Hkey. rewrite list.Forall_forall in Hall. rewrite value_of_select by done. by apply Hall. }
  apply write_values_run in Hw as [Ho Hw]; [|done|apply (bool_decide_unpack _); by vm_compute|done]. rewrite select_select in Hw.
  destruct Hapart as (H1 & H2 & H3). assert (Hr : stored r s' = stored r s2) by (apply Ho; [by apply not_eq_sym|apply H3]).
  assert (Hsplit : environment_at g s' (select _GATEWAY_STATIC_KEY_ORDER w) -> split_up w s s').
  { intros He. split; [done|]. exists runtime, whole. unfold environment_at. rewrite Hr. split; [done|]. by split. }
  destruct r' as [u|e]; [by apply Hsplit|]. destruct Hw as [Hw|Hw]; [left|right; by apply Hsplit].
  split; [by rewrite Hw|]. unfold environment_at. by rewrite Hr.
Qed.

Lemma split_combined_run w s : texts w -> same_keys w _GATEWAY_KEYS = true ->
  migrated w s (split_combined E ip_address urlsplit decimal_digit g r w).
Proof.
  intros Ht Hkeys. unfold migrated, split_combined, bind at 1, of_result at 1.
  destruct (validate_gateway_environment ip_address urlsplit decimal_digit w) as [w'|e] eqn:Ev; [|left; by apply same_files_combined].
  assert (Heff : _validate_effective_values w = Ok tt).
  { unfold validate_gateway_environment in Ev. by destruct (_validate_effective_values w) as [[]|]. }
  assert (Hvals : forall keys, keys ⊆ _GATEWAY_KEYS -> Forall (fun key => is_key key = true /\ is_value (value_of key w)) keys).
  { apply (validated_values _GATEWAY_KEYS); [done|done|done|exact written_keys]. }
  cbv zeta. unfold bind at 1. destruct (_trusted_file_has_content E r s) as [[b|e] s1] eqn:Eh.
  2: { left. apply same_files_combined. by eapply leaves_files_run; [apply has_content_leaves|]. }
  pose proof (leaves_files_run _ _ _ _ (has_content_leaves E r) Eh) as Hf1. pose proof (has_content_run s b s1 Eh) as Hb.
  unfold bind at 1.
  match goal with |- context [match ?m s1 with _ => _ end] => destruct (m s1) as [o s2] eqn:Er end.
  assert (Hb1 : b = false -> without_content s1).
  { intros Hb0. specialize (Hb Hb0). unfold without_content, stored in *. by rewrite Hf1. }
  apply runtime_values_run in Er as (Hg2 & Hr2 & Ho); [|apply Hvals; unfold _GATEWAY_KEYS; intros k Hk; apply elem_of_app; by right|done].
  unfold without_content, stored in Hg2, Hr2, Ho. rewrite Hf1 in Hg2, Hr2, Ho.
  destruct o as [runtime|e]; [|left; by split]. destruct (Ho runtime eq_refl) as [Hrt Hrun].
  unfold bind at 1, of_result at 1.
  destruct (validate_split_gateway_environment ip_address urlsplit decimal_digit (select _GATEWAY_STATIC_KEY_ORDER w) runtime) as [whole|e] eqn:Es;
    [|left; by split].
  destruct (write_values E g _ _ s2) as [r' s'] eqn:Ew.
  eapply (write_gateway_run w s s2 runtime whole r' s'); try done.
  - apply Hvals. unfold _GATEWAY_KEYS. intros k Hk. apply elem_of_app. by left.
  - destruct Hrun as [Hrun|Hrun]; [by left|]. destruct Hr2 as [Hr2|[Hr2 _]]; [by left|by right].
Qed.

Lemma environment_at_unique p s v v' : environment_at p s v -> environment_at p s v' -> v = v'.
Proof. intros (b & H1 & H2) (b' & H1' & H2'). congruence. Qed.

Lemma migrate_run v w s :
  environment_at g s v -> migrated_values v = Ok w -> texts w -> same_keys w _GATEWAY_KEYS = true ->
  migrated w s (migrate_gateway_environments E ip_address urlsplit decimal_digit g r).
Proof.
  intros Hat Hm Ht Hkeys. unfold migrated, migrate_gateway_environments, bind at 1.
  destruct (parse_trusted_environment E g s) as [[v'|e] s1] eqn:Ep.
  2: { left. apply same_files_combined. by eapply leaves_files_run; [apply parse_trusted_leaves|]. }
  apply parse_trusted_values in Ep as [Hat' Hf]. pose proof (environment_at_unique g s v v' Hat Hat') as <-.
  unfold bind at 1, of_result at 1. unfold migrated_values in Hm.
  apply rbind_ok in Hm as ([v1 b1] & H1 & Hm). rewrite H1. cbn [fst] in Hm. apply rbind_ok in Hm as ([v2 b2] & H2 & [= Hw]). cbn [fst] in Hw. subst v2.
  unfold bind at 1, of_result at 1. rewrite H2, Hkeys.
  pose proof (split_combined_run w s1 Ht Hkeys) as Hs. unfold migrated in Hs.
  assert (Hsame : forall s', (still_combined w s1 s' -> still_combined w s s') /\ (split_up w s1 s' -> split_up w s s')).
  { intros s'. unfold still_combined, split_up, without_content, stored. by rewrite Hf. }
  destruct (split_combined _ _ _ _ g r w s1) as [[u|e] s']; destruct (Hsame s') as [Ha Hb]; [by apply Hb|].
  destruct Hs; [left; by apply Ha|right; by apply Hb].
Qed.
End Migration.

(** C34: splitting a combined gateway file never loses the TURN credentials: whatever
    fails, either the gateway file is as it was, with the credentials, or it holds exactly
    the static values and the runtime file parses to credentials that validate with
    them; a runtime file with content is never overwritten, otherwise it receives the
    credentials of the gateway file.  A migration that returns has split the file. *)
Theorem migration_keeps_credentials E ip_address urlsplit decimal_digit g r v w s :
  urls_are_text urlsplit -> (forall url parsed, urlsplit url = Ok parsed -> Forall is_char (su_path parsed)) ->
  apart E g r -> (forall k n, md_size (fe_stat E k n) = n) ->
  environment_at g s v -> migrated_values urlsplit v = Ok w -> same_keys w _GATEWAY_KEYS = true ->
  match migrate_gateway_environments E ip_address urlsplit decimal_digit g r s with
  | (Ok _, s') => split_up ip_address urlsplit decimal_digit g r w s s'
  | (Err _, s') => still_combined g r w s s' \/ split_up ip_address urlsplit decimal_digit g r w s s'
  end.
Proof.
  intros Hurl Hpath Hapart Hsize Hat Hm Hkeys.
  assert (Ht : texts w).
  { eapply (urlsplit_paths urlsplit v); [done|done| |done]. destruct Hat as (body & _ & Hp). by eapply well_formed_texts, parse_environment_well_formed. }
  by apply (migrate_run E ip_address urlsplit decimal_digit g r Hapart Hsize v w s).
Qed.

(** ** A migration *)

Module Sample.
Definition origin : pystr := of_ascii "rtsp://cam".
Definition split_sample (url : pystr) : result split_url :=
  if bool_decide (take 10 url = origin) && forallb (fun c => (0 <=? c) && (c <=? 0x10FFFF))%Z url then
    Ok {| su_scheme := of_ascii "rtsp"; su_hostname := Some (of_ascii "cam"); su_port := Ok None; su_path := drop 10 url;
          su_fragment := []; su_with_path := fun path => origin ++ path |}
  else Err (ValueError "url").
Definition address_sample (host : pystr) : option address :=
  if bool_decide (host = of_ascii "192.168.1.10") then
    Some {| ip_text := host; is_unspecified := false; is_loopback := false; is_multicast := false; is_link_local := false;
            is_reserved := false; is_private := true |}
  else None.

Definition gateway : trusted_path := {| tp_parent := "/etc"; tp_name := "gate-media-gateway.env" |}.
Definition runtime : trusted_path := {| tp_parent := "/var/lib/gate-media"; tp_name := "turn.env" |}.

Definition combined : bytes := list_byte_of_string
"MTX_PATHS_GATE_SOURCE=rtsp://cam/live_sub
MTX_WEBRTCLOCALUDPADDRESS=192.168.1.10:8189
MTX_WEBRTCLOCALTCPADDRESS=192.168.1.10:8189
MTX_WEBRTCADDITIONALHOSTS=192.168.1.10
MTX_WEBRTCICESERVERS2_0_CLIENTONLY=false
MTX_WEBRTCICESERVERS2_0_URL=turn:turn.example:3478?transport=udp
MTX_WEBRTCICESERVERS2_0_USERNAME=user
MTX_WEBRTCICESERVERS2_0_PASSWORD=secret
".

(** Every call succeeds but the one consumed as answer [n]. *)
Definition failing (n : nat) : file_environment :=
  {| fe_io := fun k => if (k =? n)%nat then Err OSError else Ok tt;
     fe_stat := fun _ size => {| md_directory := true; md_regular := true; md_owned := true; md_mode := if (size =? 0)%Z then 448 else 384;
                                 md_size := size |};
     fe_short := fun _ => 99%nat; fe_partial := fun _ b => take 5 b; fe_name := fun _ => "1.abcdef" |}.
Definition start : directory bytes := {| sl_reads := 0; sl_root := true; sl_files := [(place gateway, combined)] |}.

Definition run (n : nat) := migrate_gateway_environments (failing n) address_sample split_sample ascii_digit gateway runtime start.
Definition legacy_values : variables := match parse_environment combined with Ok v => v | Err _ => [] end.
Definition values : variables := match migrated_values split_sample legacy_values with Ok w => w | Err _ => [] end.

(** One run splits the file, another fails while it writes the gateway file. *)
Lemma migration_keeps_credentials_witness :
  fst (run 1000) = Ok tt /\ split_up address_sample split_sample ascii_digit gateway runtime values start (snd (run 1000)) /\
  (exists e, fst (run 38) = Err e) /\
  (still_combined gateway runtime values start (snd (run 38)) \/
   split_up address_sample split_sample ascii_digit gateway runtime values start (snd (run 38))).
Proof.
  assert (H : forall n, match run n with
    | (Ok _, s') => split_up address_sample split_sample ascii_digit gateway runtime values start s'
    | (Err _, s') => still_combined gateway runtime values start s' \/
        split_up address_sample split_sample ascii_digit gateway runtime values start s' end).
  { intros n. unfold run.
    apply (migration_keeps_credentials (failing n) address_sample split_sample ascii_digit gateway runtime legacy_values values start).
    - intros url parsed path. unfold split_sample. destruct (_ && _) eqn:E; [|done]. intros [= <-] Hp. cbn [su_with_path].
      change (Forall is_char (origin ++ path)). apply list.Forall_app. split; [|done]. apply (bool_decide_unpack _). by vm_compute.
    - intros url parsed. unfold split_sample. destruct (_ && _) eqn:E; [|done]. intros [= <-]. cbn [su_path].
      apply andb_true_iff in E as [_ E]. rewrite forallb_forall in E. apply list.Forall_drop, list.Forall_forall.
      intros c Hc%list_elem_of_In. specialize (E c Hc). unfold is_char. lia.
    - by repeat split.
    - done.
    - exists combined. split; by vm_compute.
    - by vm_compute.
    - by vm_compute. }
  assert (H1 := H 1000%nat). assert (H2 := H 38%nat). clear H.
  assert (E1 : fst (run 1000) = Ok tt) by by vm_compute.
  split; [done|]. revert H1. destruct (run 1000) as [r1 s1]. cbn [fst snd] in *. subst r1. intros H1. split; [done|].
  assert (E3 : match fst (run 38) with Ok _ => False | Err _ => True end) by by vm_compute.
  destruct (run 38) as [[u|e] s2]; cbn [fst snd] in *; [done|]. split; [by eexists|done].
Defined.

(** A vertical tab ends an assignment as a newline does. *)
Lemma vertical_tab_separates :
  parse_environment (list_byte_of_string (String.append "A=1" (String.append (String (Ascii.ascii_of_nat 11) EmptyString) (String.append "B=2"
    (String (Ascii.ascii_of_nat 10) EmptyString))))) = Ok [("A", of_ascii "1"); ("B", of_ascii "2")].
Proof. by vm_compute. Qed.

(** The port of an unbracketed listener is what [int] accepts. *)
Lemma lenient_port : _parse_ice_bind address_sample ascii_digit (of_ascii "192.168.1.10:+8_189") = Ok (of_ascii "192.168.1.10", 8189%Z).
Proof. by vm_compute. Qed.
End Sample.
