(* ===== verification/MediaServices.v ===== *)
(** * The media services: gate_media_auth, gate_media_gateway, gate_media_transcoder

    The HTTP handler of the authorisation sidecar around its decision (MediaAuth.v)
    and what its [main] starts, and the two processes that validate or fix their
    arguments before they replace themselves: the gateway with MediaMTX and the
    transcoder with FFmpeg.  argparse and the sockets are not modelled. *)

From Stdlib Require Import Strings.Byte.
From S2P Require Import Prelude Json Text Base64 Unicode MediaToken MediaAuth MediaConfig MediaFiles MediaConfigFacts MediaMigration.

(** ** gate_media_auth/__main__.py *)

(** What [_respond] sends. *)
Record auth_response := {
  ar_status : Z;
  (** The headers but the length of the body. *)
  ar_headers : list (string * string);
  ar_content_length : nat;
  ar_body : string;
}.

(** [json.dumps({"request_id": token}, separators=(",", ":"))] of a hexadecimal token *)
Definition quote_mark : string := String (Ascii.ascii_of_nat 34) EmptyString.
Definition quoted (s : string) : string := String.append quote_mark (String.append s quote_mark).
Definition response_body (token : string) : string :=
  String.append "{" (String.append (quoted "request_id") (String.append ":" (String.append (quoted token) "}"))).

(** __main__.py: _MediaAuthHandler._respond; [token] is [secrets.token_hex(8)]. *)
Definition _respond (token : string) (status : Z) : auth_response :=
  let body := response_body token in
  {| ar_status := status;
     ar_headers := [("Content-Type", "application/json"); ("Cache-Control", "no-store")];
     ar_content_length := String.length body;
     ar_body := body |}.

(** A request as http.server parses it; one it cannot parse, and a method without a handler, goes to [send_error]. *)
Inductive auth_request :=
| Post (path : string) (content_length : option string) (rfile_read : Z -> result bytes)
| Get
| Put
| Delete
| Unsupported.

Section Handler.
Context (hmac : string -> string -> bytes) (parse : bytes -> result json).

(** __main__.py: do_POST, do_GET, do_PUT, do_DELETE, send_error *)
Definition answer (request : auth_request) (secret : string) (now : Z) (token : string) : result auth_response :=
  match request with
  | Post path content_length rfile_read => rbind (do_POST hmac parse path content_length rfile_read secret now) (fun status => Ok (_respond token status))
  | Get | Put | Delete | Unsupported => Ok (_respond token 401)
  end.
End Handler.

(** __main__.py: main, the sidecar it starts; [Err BaseExc] is the exit of parser.error. *)
Record sidecar := {
  si_address : string * Z;
  si_environment : variables;
  si_capabilities : string;
}.

(** A MediaConfigError, which is a ValueError, as is the error of an encoding. *)
Definition is_media_error (e : exc) : bool :=
  match e with ValueError msg => negb (String.eqb msg "surrogates not allowed") | _ => false end.

Definition DEFAULT_PORT : Z := 9189.
Definition CAPABILITIES : string := "/run/gate-media/capabilities.json".

Definition start_sidecar (host : option string) (port : option Z) (environ : variables) : result sidecar :=
  let host := default LOOPBACK_HOST host in
  let port := default DEFAULT_PORT port in
  if negb (String.eqb host LOOPBACK_HOST) then Err BaseExc
  else if negb ((1 <=? port)%Z && (port <=? 65535)%Z) then Err BaseExc
  else
    match validate_auth_environment (relevant environ) with
    | Err e => if is_media_error e then Err BaseExc else Err e
    | Ok environment => Ok {| si_address := (host, port); si_environment := environment; si_capabilities := CAPABILITIES |}
    end.

(** ** gate_media_gateway/__main__.py *)

(** What a process does in the end: it becomes another program, or exits with a code. *)
Inductive launch :=
| Execs (program : string) (argv : list string) (environ : variables)
| Exits (code : Z).

Section Gateway.
Context (ip_address : pystr -> option address) (urlsplit : pystr -> result split_url) (decimal_digit : Z -> option Z).
(** How [os.execve] fails, when it does. *)
Context (execve_fails : option exc).

(** [except (MediaConfigError, OSError, TypeError, ValueError)] *)
Definition gateway_error (e : exc) : bool := is_OSError e || match e with ValueError _ | TypeError => true | _ => false end.

(** gate_media_gateway/__main__.py: main *)
Definition gateway_main (arguments : list string) (environ : variables) : result launch :=
  match arguments with
  | [binary; config] =>
      if negb (String.prefix "/" binary && String.prefix "/" config) then Ok (Exits 1)
      else
        match rbind (validate_gateway_environment ip_address urlsplit decimal_digit (relevant environ)) (fun _ =>
                match execve_fails with Some e => Err e | None => Ok tt end) with
        | Ok _ => Ok (Execs binary [binary; config] environ)
        | Err e => if gateway_error e then Ok (Exits 1) else Err e
        end
  | _ => Ok (Exits 1)
  end.
End Gateway.

(** ** gate_media_transcoder/__main__.py *)

Definition TRANSCODER_BINARY : string := "/usr/bin/ffmpeg".
Definition FFMPEG_COMMAND : list string :=
  [TRANSCODER_BINARY; "-nostdin"; "-hide_banner"; "-loglevel"; "warning"; "-rtsp_transport"; "tcp"; "-i"; "rtsp://127.0.0.1:8554/camera";
   "-map"; "0:v:0"; "-map"; "0:a:0?"; "-c:v"; "copy"; "-c:a"; "libopus"; "-application"; "lowdelay"; "-frame_duration"; "20"; "-b:a"; "24k";
   "-vbr"; "constrained"; "-f"; "rtsp"; "-rtsp_transport"; "tcp"; "rtsp://127.0.0.1:8554/gate"].

(** gate_media_transcoder/__main__.py: main *)
Definition transcoder_main : launch := Execs TRANSCODER_BINARY FFMPEG_COMMAND [("LANG", of_ascii "C"); ("LC_ALL", of_ascii "C")].

(** ** What the services do *)

(** every answer of the sidecar is 200 or 401 and carries nothing but an
    opaque token; it is 200 exactly for a POST to /auth whose body was read whole and is
    allowed. *)
Theorem answers_opaque hmac parse request secret now token r : answer hmac parse request secret now token = Ok r ->
  ar_body r = response_body token /\ ar_content_length r = String.length (ar_body r) /\ (ar_status r = 200 \/ ar_status r = 401)%Z /\
  (ar_status r = 200%Z <-> exists content_length read body, request = Post "/auth" content_length read /\
     _read_body content_length read = Ok (Some body) /\ allowed hmac parse body secret now).
Proof.
  assert (Hno : forall P : Prop, ~ P -> (401 = 200 <-> P)%Z) by (intros P HP; split; [discriminate|done]).
  destruct request as [path content_length read| | | |]; cbn [answer]; intros H;
    try (apply ok_inj in H as <-; split; [done|]; split; [done|]; split; [by right|]; apply Hno; by intros (? & ? & ? & ? & _)).
  apply rbind_ok in H as (status & Hs & H). apply ok_inj in H as <-. split; [done|]. split; [done|]. cbn [_respond ar_status].
  unfold do_POST in Hs. destruct (String.eqb_spec path "/auth") as [->|Hp]; cbn [negb] in Hs.
  2: { apply ok_inj in Hs as <-. split; [by right|]. apply Hno. by intros (? & ? & ? & [= ?] & _). }
  apply rbind_ok in Hs as ([body|] & Hb & Hs).
  2: { apply ok_inj in Hs as <-. split; [by right|]. apply Hno. intros (cl & rd & body & [= <- <-] & Hb' & _). congruence. }
  assert (Hstatus : status = 200%Z \/ status = 401%Z).
  { revert Hs. unfold authorize_body. destruct (_ <? _)%Z; [intros [= <-]; by right|].
    destruct (loads_unique parse body) as [[| | | | | | |payload]|[]]; try done; try (intros [= <-]; by right).
    destruct (negb _); [intros [= <-]; by right|]. intros ([] & _ & [= <-])%rbind_ok; [by left|by right]. }
  split; [exact Hstatus|]. split.
  - intros ->. exists content_length, read, body. split; [done|]. split; [exact Hb|]. by apply allowed_form.
  - intros (cl & rd & body' & [= <- <-] & Hb' & Ha). assert (body' = body) as -> by congruence. apply form_allowed in Ha. congruence.
Qed.

(** The sidecar serves the machine itself, with a secret of 32 to 256 bytes. *)
Lemma sidecar_local host port environ s : start_sidecar host port environ = Ok s ->
  fst (si_address s) = LOOPBACK_HOST /\ (1 <= snd (si_address s) <= 65535)%Z /\
  validate_auth_environment (relevant environ) = Ok (si_environment s).
Proof.
  unfold start_sidecar. destruct (String.eqb_spec (default LOOPBACK_HOST host) LOOPBACK_HOST) as [E|]; [|done]. cbn [negb].
  destruct (Z.leb_spec 1 (default DEFAULT_PORT port)), (Z.leb_spec (default DEFAULT_PORT port) 65535); try done. cbn [andb negb].
  destruct (validate_auth_environment (relevant environ)) as [e|e]; [|by destruct (is_media_error e)].
  intros H1. apply ok_inj in H1 as <-. cbn [si_address si_environment fst snd]. split; [exact E|]. split; [lia|done].
Qed.

(** The settings MediaMTX may find in the environment. *)
Definition gateway_setting (key : string) : bool := String.prefix "GATE_MEDIA_" key || String.prefix "MTX_" key.

Lemma relevant_elem environ k v : (k, v) ∈ relevant environ <-> (k, v) ∈ environ /\ gateway_setting k = true.
Proof. unfold relevant. rewrite list_elem_of_filter. cbn [fst]. tauto. Qed.

Lemma gateway_environment_parts ip_address urlsplit decimal_digit values v :
  validate_gateway_environment ip_address urlsplit decimal_digit values = Ok v ->
  Forall (fun kv => kv.2 <> [] /\ is_word kv.2 = true) values /\ same_keys values _GATEWAY_KEYS = true /\
  (exists settings, validate_gateway_static_environment ip_address urlsplit decimal_digit (select _GATEWAY_STATIC_KEY_ORDER values) = Ok settings) /\
  (exists credentials, validate_runtime_turn_environment ip_address (select _RUNTIME_TURN_KEY_ORDER values) = Ok credentials).
Proof.
  unfold validate_gateway_environment. intros ([] & He & H)%rbind_ok. destruct (same_keys values _GATEWAY_KEYS) eqn:Ek; [|done].
  cbn [negb] in H. apply rbind_ok in H as (settings & Hs & H). apply rbind_ok in H as (credentials & Hc & _).
  split; [by apply effective_words|]. split; [done|]. split; by eexists.
Qed.

(** the gateway process becomes MediaMTX only with two absolute paths and an
    environment each of whose MTX_ and GATE_MEDIA_ settings is a known key with a validated
    value, none of the keys missing; every expected failure is the exit code 1. *)
Theorem gateway_validated ip_address urlsplit decimal_digit execve_fails arguments environ :
  match gateway_main ip_address urlsplit decimal_digit execve_fails arguments environ with
  | Ok (Execs program argv environ') =>
      (exists binary config, arguments = [binary; config] /\ argv = [binary; config] /\ program = binary /\
         String.prefix "/" binary = true /\ String.prefix "/" config = true) /\
      environ' = environ /\ execve_fails = None /\
      (forall k v, (k, v) ∈ environ -> gateway_setting k = true -> k ∈ _GATEWAY_KEYS /\ v <> [] /\ is_word v = true) /\
      (forall k, k ∈ _GATEWAY_KEYS -> k ∈ environ.*1) /\
      (exists settings, validate_gateway_static_environment ip_address urlsplit decimal_digit (select _GATEWAY_STATIC_KEY_ORDER (relevant environ)) = Ok settings) /\
      (exists credentials, validate_runtime_turn_environment ip_address (select _RUNTIME_TURN_KEY_ORDER (relevant environ)) = Ok credentials)
  | Ok (Exits code) => code = 1%Z
  | Err e => gateway_error e = false
  end.
Proof.
  unfold gateway_main. destruct arguments as [|binary [|config [|]]]; try reflexivity.
  destruct (String.prefix "/" binary) eqn:Eb; [|reflexivity]. destruct (String.prefix "/" config) eqn:Ec; [|reflexivity]. cbn [andb negb].
  destruct (rbind _ _) as [u|e] eqn:E; [|destruct (gateway_error e) eqn:Eg; [reflexivity|exact Eg]].
  apply rbind_ok in E as (v & Hv & Hx). apply gateway_environment_parts in Hv as (Hw & Hk & Hs & Hc).
  split; [by exists binary, config|]. split; [done|]. split; [by destruct execve_fails|]. split.
  - intros k w Hkw Hset. assert (Hin : (k, w) ∈ relevant environ) by (by apply relevant_elem). split.
    + unfold same_keys in Hk. apply andb_true_iff in Hk as [_ Hk]. rewrite forallb_forall in Hk.
      specialize (Hk k). rewrite bool_decide_eq_true in Hk. apply Hk, list_elem_of_In, list_elem_of_fmap. by exists (k, w).
    + rewrite list.Forall_forall in Hw. exact (Hw (k, w) Hin).
  - split; [|by split]. intros k Hin. unfold same_keys in Hk. apply andb_true_iff in Hk as [Hk _]. rewrite forallb_forall in Hk.
    apply list_elem_of_In in Hin. specialize (Hk k Hin). apply bool_decide_eq_true in Hk.
    apply list_elem_of_fmap in Hk as ([k' w] & -> & Hkw). apply relevant_elem in Hkw as [Hkw _]. apply list_elem_of_fmap. by exists (k', w).
Qed.

(** ** Runs *)

Module Sample.
Definition secret : pystr := of_ascii "0123456789abcdef0123456789abcdef".
Definition environ : variables :=
  ("PATH", of_ascii "/bin") :: ("GATE_MEDIA_HMAC_SECRET", secret) :: ((fun k => (k, of_ascii "false")) <$> _BOOLEAN_AUTH_KEYS).

Example sidecar_starts : match start_sidecar None None environ with Ok s => si_address s = ("127.0.0.1", 9189%Z) | Err _ => False end.
Proof. by vm_compute. Qed.
Example sidecar_refuses_override : start_sidecar None None (("MTX_RTSPADDRESS", of_ascii ":8554") :: environ) = Err BaseExc.
Proof. by vm_compute. Qed.

(** A gateway with an environment that is missing everything exits with 1. *)
Example gateway_refuses : gateway_main (fun _ => None) (fun _ => Err (ValueError "url")) (fun _ => None) None ["/usr/bin/mediamtx"; "/etc/mediamtx.yml"] environ
  = Ok (Exits 1).
Proof. by vm_compute. Qed.

(** With the settings a migration leaves it becomes MediaMTX; one more MTX_ setting stops it. *)
Example gateway_starts :
  let environ := ("PATH", of_ascii "/bin") :: MediaMigration.Sample.values in
  let run environ := gateway_main MediaMigration.Sample.address_sample MediaMigration.Sample.split_sample ascii_digit None
                       ["/usr/bin/mediamtx"; "/etc/mediamtx.yml"] environ in
  run environ = Ok (Execs "/usr/bin/mediamtx" ["/usr/bin/mediamtx"; "/etc/mediamtx.yml"] environ) /\
  run (("MTX_API", of_ascii "yes") :: environ) = Ok (Exits 1).
Proof. by vm_compute. Qed.

Lemma answers_opaque_witness : exists r,
  answer MediaAuth.Sample.hmac MediaAuth.Sample.parse (Post "/auth" (Some "7") (fun _ => Ok MediaAuth.Sample.request)) "key" 159 "00ff" = Ok r /\
  (ar_status r = 200 \/ ar_status r = 401)%Z.
Proof.
  set (request := Post "/auth" (Some "7") (fun _ => Ok MediaAuth.Sample.request)).
  assert (E : answer MediaAuth.Sample.hmac MediaAuth.Sample.parse request "key" 159 "00ff" = Ok (_respond "00ff" 200)) by (by vm_compute).
  exists (_respond "00ff" 200). split; [exact E|]. exact (proj1 (proj2 (proj2 (answers_opaque _ _ _ _ _ _ _ E)))).
Defined.
End Sample.
