(* ===== verification/TurnRefresh.v ===== *)
(** * The TURN refresh: deployment/gate_media_turn_refresh.py

    The choice of a relay among the ICE servers Cloudflare returns, the staged
    runtime environment, and the transaction that activates it and restores the
    previous one.  Credentials are Unicode text and may hold lone surrogates, as
    [json.loads] gives them.  systemd, HTTP and [json.loads] are arguments. *)

From Stdlib Require Import Strings.Byte.
From S2P Require Import Prelude Json Text Base64 Unicode AtomicFile MediaToken MediaConfig MediaFiles.

Definition MAX_RESPONSE_BYTES : Z := 64 * 1024.
Definition GATEWAY_HEALTH_CHECK_ATTEMPTS : nat := 3.
Definition CLOUDFLARE_TURN_ENDPOINT (key_id : pystr) : pystr :=
  of_ascii "https://rtc.live.cloudflare.com/v1/turn/keys/" ++ key_id ++ of_ascii "/credentials/generate-ice-servers".

(** What [json.loads] returns; numbers and booleans are not told apart. *)
Inductive payload :=
| PNull
| PText (s : pystr)
| PList (l : list payload)
| PDict (d : list (pystr * payload))
| POther.

(** [d.get(key)] *)
Fixpoint payload_get (key : pystr) (d : list (pystr * payload)) : payload :=
  match d with
  | [] => PNull
  | (k, v) :: d' => if bool_decide (k = key) then v else payload_get key d'
  end.

(** ** The response *)

Definition USER_AGENT : string := "gate-mate-turn-refresh/1.0".
Record turn_request := { rq_url : pystr; rq_headers : dict pystr; rq_body : json }.

Section Response.
Context (urlopen : turn_request -> result (Z * bytes)) (parse : pystr -> result payload).

(** gate_media_turn_refresh.py: fetch_ice_servers *)
Definition fetch_ice_servers (key_id api_token : pystr) : result payload :=
  let request := {| rq_url := CLOUDFLARE_TURN_ENDPOINT key_id;
                    rq_headers := [("Authorization", of_ascii "Bearer " ++ api_token); ("Content-Type", of_ascii "application/json");
                                   ("Accept", of_ascii "application/json"); ("User-Agent", of_ascii USER_AGENT)];
                    rq_body := JDict [("ttl", JInt 86400); ("customIdentifier", JStr "gate-mate-pi")] |} in
  match urlopen request with
  | Err HTTPError | Err OSError | Err TimeoutError => Err (TurnRefreshError "TURN credential request failed")
  | Err e => Err e
  | Ok (status, content) =>
      if negb (status =? 201)%Z then Err (TurnRefreshError "TURN credential request was not created")
      else if (MAX_RESPONSE_BYTES <? Z.of_nat (length content))%Z then Err (TurnRefreshError "TURN credential response is too large")
      else
        match rbind (utf8_decode content) parse with
        | Err (ValueError _) => Err (TurnRefreshError "TURN credential response is not JSON")
        | r => r
        end
  end.
End Response.

(** ** The choice of a relay *)

(** gate_media_turn_refresh.py: _valid_credential_value; encoding may raise. *)
Definition _valid_credential_value (value : pystr) : result bool :=
  rbind (bounded_bytes 1 256 value) (fun bounded => Ok (bounded && is_word value)).

(** gate_media_turn_refresh.py: _turn_preference, without the URL *)
Definition _turn_preference (scheme : pystr) (port : Z) (transport : pystr) : Z :=
  if bool_decide (scheme = of_ascii "turns") && (port =? 5349)%Z && bool_decide (transport = of_ascii "tcp") then 0
  else if bool_decide (scheme = of_ascii "turn") && (port =? 3478)%Z && bool_decide (transport = of_ascii "udp") then 1
  else if bool_decide (scheme = of_ascii "turn") && (port =? 3478)%Z && bool_decide (transport = of_ascii "tcp") then 2
  else 3.

Record candidate := { cd_preference : Z; cd_url : pystr; cd_username : pystr; cd_credential : pystr }.

(** Comparison of strings and of candidates, as tuples. *)
Fixpoint text_compare (a b : pystr) : comparison :=
  match a, b with
  | [], [] => Eq
  | [], _ => Lt
  | _, [] => Gt
  | x :: a', y :: b' => match (x ?= y)%Z with Eq => text_compare a' b' | c => c end
  end.
Definition lexicographic (c d : comparison) : comparison := match c with Eq => d | _ => c end.
Definition candidate_compare (a b : candidate) : comparison :=
  lexicographic (cd_preference a ?= cd_preference b)%Z
    (lexicographic (text_compare (cd_url a) (cd_url b))
       (lexicographic (text_compare (cd_username a) (cd_username b)) (text_compare (cd_credential a) (cd_credential b)))).

(** [min(candidates)]: the first of the least ones. *)
Definition lesser (a b : candidate) : candidate := match candidate_compare b a with Lt => b | _ => a end.
Definition least (first : candidate) (rest : list candidate) : candidate := fold_left lesser rest first.

Section Selection.
Context (decimal_digit : Z -> option Z).

(** gate_media_turn_refresh.py: _parse_turn_url *)
Definition _parse_turn_url (url : pystr) : option (pystr * Z * pystr) :=
  match match_turn_url (fun c => bool_decide (is_Some (decimal_digit c))) url with
  | Some {| tu_scheme := scheme; tu_port := port_text; tu_transport := Some transport |} =>
      match digits_value decimal_digit 0 false port_text with
      | Some port =>
          if negb ((1 <=? port) && (port <=? 65535))%Z || (port =? 53)%Z
             || bool_decide (scheme = of_ascii "turns") && negb (bool_decide (transport = of_ascii "tcp"))
          then None else Some (scheme, port, transport)
      | None => None
      end
  | _ => None
  end.

Definition candidate_of (username credential url : pystr) : option candidate :=
  (fun parsed => {| cd_preference := _turn_preference parsed.1.1 parsed.1.2 parsed.2; cd_url := url;
                    cd_username := username; cd_credential := credential |}) <$> _parse_turn_url url.

Definition text_urls (l : list payload) : option (list pystr) := mapM (fun p => match p with PText s => Some s | _ => None end) l.

(** The candidates of one server. *)
Definition server_candidates (server : payload) : result (list candidate) :=
  match server with
  | PDict d =>
      match payload_get (of_ascii "urls") d with
      | PList [] => Err (TurnRefreshError "TURN credential response has invalid ICE URLs")
      | PList l =>
          match text_urls l with
          | None => Err (TurnRefreshError "TURN credential response has invalid ICE URLs")
          | Some urls =>
              let invalid := Err (TurnRefreshError "TURN credential response has invalid authentication") in
              match payload_get (of_ascii "username") d, payload_get (of_ascii "credential") d with
              | PNull, PNull => Ok []
              | PText username, PText credential =>
                  rbind (_valid_credential_value username) (fun valid =>
                  if negb valid then invalid
                  else
                    rbind (_valid_credential_value credential) (fun valid =>
                    if negb valid then invalid else Ok (omap (candidate_of username credential) urls)))
              | _, _ => invalid
              end
          end
      | _ => Err (TurnRefreshError "TURN credential response has invalid ICE URLs")
      end
  | _ => Err (TurnRefreshError "TURN credential response has an invalid ICE server")
  end.

Fixpoint all_candidates (servers : list payload) : result (list candidate) :=
  match servers with
  | [] => Ok []
  | server :: servers' =>
      rbind (server_candidates server) (fun these => rbind (all_candidates servers') (fun others => Ok (these ++ others)))
  end.

(** gate_media_turn_refresh.py: select_turn_credentials *)
Definition select_turn_credentials (response : payload) : result (pystr * pystr * pystr) :=
  match response with
  | PDict [(key, servers)] =>
      if negb (bool_decide (key = of_ascii "iceServers"))
      then Err (TurnRefreshError "TURN credential response has an invalid top-level shape")
      else
        match servers with
        | PList ((_ :: _) as l) =>
            rbind (all_candidates l) (fun candidates =>
            match candidates with
            | [] => Err (TurnRefreshError "TURN credential response has no usable authenticated relay")
            | first :: rest => let best := least first rest in Ok (cd_url best, cd_username best, cd_credential best)
            end)
        | _ => Err (TurnRefreshError "TURN credential response has no ICE servers")
        end
  | _ => Err (TurnRefreshError "TURN credential response has an invalid top-level shape")
  end.
End Selection.

(** ** The runtime environment *)

Definition turn_values (url username password : pystr) : variables :=
  [("MTX_WEBRTCICESERVERS2_0_URL", url); ("MTX_WEBRTCICESERVERS2_0_USERNAME", username); ("MTX_WEBRTCICESERVERS2_0_PASSWORD", password)].

(** gate_media_turn_refresh.py: _initial_turn_values *)
Definition _initial_turn_values (url username password : pystr) : result bytes :=
  utf8_encode (unlines (assignment (turn_values url username password) <$> _RUNTIME_TURN_KEY_ORDER)).

(** One line of _replace_turn_values: the line to write, and the key replaced. *)
Definition replace_line (values : variables) (line : pystr) : pystr * option string :=
  match partition_text 61 line with
  | Some (key, _) =>
      match find_row (fun k => bool_decide (of_ascii k = key)) _RUNTIME_TURN_KEY_ORDER with
      | Some k => (assignment values k ++ [10%Z], Some k)
      | None => (line, None)
      end
  | None => (line, None)
  end.

(** gate_media_turn_refresh.py: _replace_turn_values *)
Definition _replace_turn_values (previous : bytes) (url username password : pystr) : result bytes :=
  match utf8_decode previous with
  | Err _ => Err (TurnRefreshError "runtime TURN environment is not UTF-8")
  | Ok text =>
      let output := replace_line (turn_values url username password) <$> ((fun l => l.1 ++ l.2) <$> splitlines text) in
      let replaced := omap snd output in
      if negb (forallb (fun k => bool_decide (k ∈ replaced)) _RUNTIME_TURN_KEY_ORDER)
      then Err (TurnRefreshError "runtime TURN environment has incomplete values")
      else utf8_encode (mjoin output.*1)
  end.

(** ** The transaction *)

Inductive service_event :=
| Restarted (environment : option bytes) (succeeded : bool)
| Checked (active : option bool)
| Stopped (succeeded : bool)
| Slept.

Record refresh_world := { rw_dir : directory bytes; rw_log : list service_event }.
Definition set_rw_dir (d : directory bytes) (w : refresh_world) : refresh_world := {| rw_dir := d; rw_log := rw_log w |}.
Definition add_service_event (e : service_event) (w : refresh_world) : refresh_world :=
  {| rw_dir := rw_dir w; rw_log := rw_log w ++ [e] |}.

Record refresh_paths := { rp_turn : trusted_path; rp_auth : trusted_path; rp_gateway : trusted_path; rp_runtime : trusted_path }.

Section Refresh.
Context (E : file_environment).
(** The return code of a systemctl call, or that it failed or timed out. *)
Context (systemctl : nat -> option Z).
Context (ip_address : pystr -> option address) (urlsplit : pystr -> result split_url) (decimal_digit : Z -> option Z).
Context (urlopen : turn_request -> result (Z * bytes)) (parse : pystr -> result payload).
Context (paths : refresh_paths).

Definition on_disk {A} (m : M (directory bytes) A) : M refresh_world A := lift rw_dir set_rw_dir m.
Definition log_event (e : service_event) : M refresh_world unit := modify (add_service_event e).

(** gate_media_turn_refresh.py: SystemdGatewayService._run *)
Definition _run : M refresh_world (option Z) := on_disk (read systemctl).

(** gate_media_turn_refresh.py: SystemdGatewayService.is_active *)
Definition is_active : M refresh_world bool :=
  let! returncode := _run in
  match returncode with
  | Some 0%Z => log_event (Checked (Some true)) ;! ret true
  | Some 3%Z => log_event (Checked (Some false)) ;! ret false
  | _ => log_event (Checked None) ;! raise (TurnRefreshError "gateway service state could not be determined")
  end.

(** gate_media_turn_refresh.py: SystemdGatewayService.restart; the log keeps the
    runtime environment the gateway is restarted with. *)
Definition restart : M refresh_world bool :=
  let! returncode := _run in
  let! environment := gets (fun w => dget (place (rp_runtime paths)) (sl_files (rw_dir w))) in
  let succeeded := bool_decide (returncode = Some 0%Z) in
  log_event (Restarted environment succeeded) ;! ret succeeded.

(** gate_media_turn_refresh.py: SystemdGatewayService.stop, which nothing calls *)
Definition stop : M refresh_world bool :=
  let! returncode := _run in
  let succeeded := bool_decide (returncode = Some 0%Z) in log_event (Stopped succeeded) ;! ret succeeded.

(** gate_media_turn_refresh.py: _gateway_is_healthy *)
Fixpoint healthy_for (attempts : nat) : M refresh_world bool :=
  match attempts with
  | O => ret true
  | S attempts' => fun w =>
      match is_active w with
      | (Err (TurnRefreshError _), w') => (Ok false, w')
      | (Err e, w') => (Err e, w')
      | (Ok false, w') => (Ok false, w')
      | (Ok true, w') => ((match attempts' with O => ret tt | _ => log_event Slept end) ;! healthy_for attempts') w'
      end
  end.
Definition _gateway_is_healthy : M refresh_world bool := healthy_for GATEWAY_HEALTH_CHECK_ATTEMPTS.

(** [except (MediaConfigError, OSError, TypeError, ValueError) as error: raise
    TurnRefreshError(msg)] *)
Definition is_config_error (e : exc) : bool :=
  match e with ValueError _ | OSError | TimeoutError | TypeError => true | _ => false end.
Definition as_refresh_error {S A} (caught : exc -> bool) (msg : string) (m : M S A) : M S A := fun s =>
  match m s with
  | (Err e, s') => (Err (if caught e then TurnRefreshError msg else e), s')
  | r => r
  end.

(** gate_media_turn_refresh.py: _load_turn_environment *)
Definition _load_turn_environment : M (directory bytes) variables :=
  as_refresh_error is_config_error "TURN secret environment is invalid"
    (let! values := parse_trusted_environment E (rp_turn paths) in of_result (validate_turn_environment values)).

(** gate_media_turn_refresh.py: _validate_complete_media_environment *)
Definition _validate_complete_media_environment (runtime_turn_path : trusted_path) : M (directory bytes) unit :=
  as_refresh_error is_config_error "current media environments are invalid"
    (let! auth := parse_trusted_environment E (rp_auth paths) in
     of_result (validate_auth_environment auth) ;!
     let! static_values := parse_trusted_environment E (rp_gateway paths) in
     let! runtime_values := parse_trusted_environment E runtime_turn_path in
     of_result (validate_split_gateway_environment ip_address urlsplit decimal_digit static_values runtime_values) ;!
     ret tt).

(** gate_media_turn_refresh.py: _validate_bootstrap_media_environment *)
Definition _validate_bootstrap_media_environment : M (directory bytes) unit :=
  as_refresh_error is_config_error "current media environments are invalid"
    (let! auth := parse_trusted_environment E (rp_auth paths) in
     of_result (validate_auth_environment auth) ;!
     let! static_values := parse_trusted_environment E (rp_gateway paths) in
     of_result (validate_gateway_static_environment ip_address urlsplit decimal_digit static_values) ;!
     ret tt).

(** gate_media_turn_refresh.py: _atomic_write_environment *)
Definition _atomic_write_environment (p : trusted_path) (body : bytes) : M (directory bytes) unit :=
  replace_environment E (ret tt) (TurnRefreshError "runtime TURN environment could not be atomically updated") p body.

(** gate_media_turn_refresh.py: _validate_staged_media_environment *)
Definition _validate_staged_media_environment (staged_runtime_turn : bytes) : M (directory bytes) unit :=
  let! suffix := read (fe_name E) in
  let staged_path := {| tp_parent := tp_parent (rp_runtime paths);
                        tp_name := String.append "." (String.append (tp_name (rp_runtime paths)) (String.append ".validate." suffix)) |} in
  try_finally
    (as_refresh_error (fun e => is_OSError e || match e with TurnRefreshError _ => true | _ => false end)
       "staged media environments are invalid"
       (_atomic_write_environment staged_path staged_runtime_turn ;! _validate_complete_media_environment staged_path))
    (AtomicFile.unlink (fe_io E) (place staged_path)).

(** gate_media_turn_refresh.py: _read_environment_bytes *)
Definition _read_environment_bytes (p : trusted_path) : M (directory bytes) bytes :=
  as_refresh_error is_config_error "runtime TURN environment cannot be read"
    (open_file E p ;!
     let! files := gets sl_files in
     let body := default [] (dget (place p) files) in
     of_result (utf8_decode body) ;!
     ret body).

(** gate_media_turn_refresh.py: _empty_runtime_environment_is_trusted *)
Definition _empty_runtime_environment_is_trusted (p : trusted_path) : M (directory bytes) bool := fun s =>
  let untrusted := TurnRefreshError "empty runtime TURN environment is not trusted" in
  match open_file E p s with
  | (Err e, s') => if is_OSError e then (Ok false, s') else (Err e, s')
  | (Ok _, s') =>
      (let! size := file_size p in
       let! m := read (fun k => fe_stat E k size) in
       if negb (md_regular m) || negb (md_size m =? 0)%Z then ret false
       else
         os_error_as untrusted (call E) ;!
         guarded
           (os_error_as untrusted
              (let! parent := fstat E 0 in
               (if owner_controlled parent then ret tt else raise untrusted) ;!
               open_file E p))
           (call E) ;!
         try_finally
           (os_error_as untrusted
              (let! size := file_size p in
               let! opened := fstat E size in
               if negb (owner_only opened) || negb (md_size opened =? 0)%Z then raise untrusted
               else
                 call E ;!
                 let! files := gets sl_files in
                 if bool_decide (default [] (dget (place p) files) = []) then ret tt else raise untrusted))
           (call E ;! call E) ;!
         ret true) s'
  end.

(** The environment in place and, when it is not empty, its content. *)
Definition previous_environment : M (directory bytes) (bool * bytes) :=
  let! bootstrap := _empty_runtime_environment_is_trusted (rp_runtime paths) in
  if bootstrap : bool then _validate_bootstrap_media_environment ;! ret (true, [])
  else
    _validate_complete_media_environment (rp_runtime paths) ;!
    let! previous := _read_environment_bytes (rp_runtime paths) in
    ret (false, previous).

(** [service.restart() and _gateway_is_healthy(service, sleep)] *)
Definition restart_and_check : M refresh_world bool :=
  let! restarted := restart in if restarted : bool then _gateway_is_healthy else ret false.

(** The switch to the staged environment, and back. *)
Definition switch_over (staged previous : bytes) : M refresh_world unit :=
  let! was_active := is_active in
  on_disk (_atomic_write_environment (rp_runtime paths) staged) ;!
  if negb was_active then ret tt
  else
    let! healthy := restart_and_check in
    if healthy : bool then ret tt
    else
      on_disk (_atomic_write_environment (rp_runtime paths) previous) ;!
      let! healthy := restart_and_check in
      if healthy : bool then raise (TurnRefreshError "new TURN configuration failed; previous configuration was restored")
      else raise (TurnRefreshError "new TURN configuration failed and gateway rollback did not restart").

(** gate_media_turn_refresh.py: refresh_turn_credentials *)
Definition refresh_turn_credentials : M refresh_world unit :=
  let! secrets := on_disk _load_turn_environment in
  let! (bootstrap, previous) := on_disk previous_environment in
  let! response := of_result (fetch_ice_servers urlopen parse (value_of "TURN_KEY_ID" secrets) (value_of "TURN_KEY_API_TOKEN" secrets)) in
  let! (server, password) := of_result (select_turn_credentials decimal_digit response) in
  let (url, username) := (server : pystr * pystr) in
  let! staged := of_result (if bootstrap : bool then _initial_turn_values url username password
                            else _replace_turn_values previous url username password) in
  on_disk (_validate_staged_media_environment staged) ;!
  switch_over staged previous.

(** gate_media_turn_refresh.py: main, after the arguments are parsed *)
Definition main (validate_turn_environment_only : bool) : M refresh_world Z := fun w =>
  match (if validate_turn_environment_only then on_disk _load_turn_environment ;! ret tt else refresh_turn_credentials) w with
  | (Ok _, w') => (Ok 0%Z, w')
  | (Err (TurnRefreshError _), w') => (Ok 1%Z, w')
  | (Err e, w') => (Err e, w')
  end.
End Refresh.
