(* ===== verification/TurnRefreshFacts.v ===== *)
(** * Facts about the TURN refresh

    The relay chosen is a preferred one of the response, and a staged environment
    carries its credentials in one line each (TurnRefresh.v).  The transaction is in
    TurnTransaction.v. *)

From Stdlib Require Import Strings.Byte.
From S2P Require Import Prelude Json Text Base64 Unicode AtomicFile MediaToken MediaConfig MediaFiles MediaConfigFacts.
From S2P Require Import MediaFilesFacts TurnRefresh.

(** ** The choice *)

Lemma lesser_cases a b : lesser a b = a \/ lesser a b = b.
Proof. unfold lesser. destruct (candidate_compare b a); auto. Qed.

Lemma least_elem first rest : least first rest ∈ first :: rest.
Proof.
  revert first. induction rest as [|c rest IH]; intros first; [by left|]. unfold least. cbn [fold_left]. fold (least (lesser first c) rest).
  specialize (IH (lesser first c)). apply elem_of_cons in IH as [->|IH]; [|by right; right].
  destruct (lesser_cases first c) as [->| ->]; [by left|by right; left].
Qed.

Lemma lesser_preference a b : (cd_preference (lesser a b) <= cd_preference a)%Z /\ (cd_preference (lesser a b) <= cd_preference b)%Z.
Proof.
  unfold lesser, candidate_compare. destruct (Z.compare_spec (cd_preference b) (cd_preference a)); cbn [lexicographic];
    [|lia|lia]. destruct (lexicographic _ _); lia.
Qed.

Lemma least_preference first rest c : c ∈ first :: rest -> (cd_preference (least first rest) <= cd_preference c)%Z.
Proof.
  revert first c. induction rest as [|d rest IH]; intros first c Hc.
  { apply list_elem_of_singleton in Hc as ->. done. }
  unfold least. cbn [fold_left]. fold (least (lesser first d) rest). destruct (lesser_preference first d) as [H1 H2].
  apply elem_of_cons in Hc as [->|Hc]; [|apply elem_of_cons in Hc as [->|Hc]].
  - etrans; [apply IH; left|done].
  - etrans; [apply IH; left|done].
  - apply IH. by right.
Qed.

Section Selection.
Context (decimal_digit : Z -> option Z).

(** A server of the response with this URL and these credentials. *)
Definition offers (server : payload) (url username credential : pystr) : Prop :=
  exists d l, server = PDict d /\ payload_get (of_ascii "urls") d = PList l /\ PText url ∈ l /\
    payload_get (of_ascii "username") d = PText username /\ payload_get (of_ascii "credential") d = PText credential.

Lemma text_urls_elem l urls url : text_urls l = Some urls -> (url ∈ urls <-> PText url ∈ l).
Proof.
  revert urls. induction l as [|p l IH]; intros urls; cbn.
  - intros [= <-]. by rewrite !elem_of_nil.
  - intros H. apply bind_Some in H as (s & Hs & H). apply bind_Some in H as (urls' & Hu & [= <-]).
    destruct p as [|s'| | |]; try done. injection Hs as <-. rewrite !elem_of_cons, (IH urls' Hu). naive_solver.
Qed.

Lemma valid_credential value : _valid_credential_value value = Ok true ->
  is_word value = true /\ exists b, utf8_encode value = Ok b /\ (1 <= Z.of_nat (length b) <= 256)%Z.
Proof.
  unfold _valid_credential_value, bounded_bytes. destruct (utf8_encode value) as [b|]; [|done]. cbn.
  intros [= H]. apply andb_true_iff in H as [H1 H2]. split; [done|]. exists b. split; [done|]. lia.
Qed.

Lemma server_candidates_spec server l : server_candidates decimal_digit server = Ok l ->
  forall c, c ∈ l -> offers server (cd_url c) (cd_username c) (cd_credential c) /\
    candidate_of decimal_digit (cd_username c) (cd_credential c) (cd_url c) = Some c /\
    _valid_credential_value (cd_username c) = Ok true /\ _valid_credential_value (cd_credential c) = Ok true.
Proof.
  unfold server_candidates. destruct server as [| | |d|]; try done. destruct (payload_get (of_ascii "urls") d) as [| |us| |] eqn:Eu; try done.
  destruct us as [|u us]; [done|]. destruct (text_urls (u :: us)) as [urls|] eqn:Et; [|done].
  destruct (payload_get (of_ascii "username") d) as [|username| | |] eqn:En; try (by destruct (payload_get (of_ascii "credential") d)).
  { destruct (payload_get (of_ascii "credential") d); try done. intros [= <-] c Hc. by apply elem_of_nil in Hc. }
  destruct (payload_get (of_ascii "credential") d) as [|credential| | |] eqn:Ec; try done.
  intros H. apply rbind_ok in H as (v1 & H1 & H). destruct v1; [|done]. cbn [negb] in H.
  apply rbind_ok in H as (v2 & H2 & H). destruct v2; [|done]. cbn [negb] in H. injection H as <-.
  intros c Hc. apply list_elem_of_omap in Hc as (url & Hurl & Hc). pose proof Hc as Hc'. unfold candidate_of in Hc.
  destruct (_parse_turn_url decimal_digit url) as [parsed|]; [|done]. injection Hc as <-. cbn [cd_url cd_username cd_credential].
  split; [|done]. exists d, (u :: us). split; [done|]. split; [done|]. split; [by apply (text_urls_elem _ urls)|done].
Qed.

Lemma all_candidates_spec servers l : all_candidates decimal_digit servers = Ok l ->
  forall c, c ∈ l -> exists server, server ∈ servers /\ offers server (cd_url c) (cd_username c) (cd_credential c) /\
    candidate_of decimal_digit (cd_username c) (cd_credential c) (cd_url c) = Some c /\
    _valid_credential_value (cd_username c) = Ok true /\ _valid_credential_value (cd_credential c) = Ok true.
Proof.
  revert l. induction servers as [|server servers IH]; intros l; cbn [all_candidates]; [intros [= <-] c Hc; by apply elem_of_nil in Hc|].
  intros H. apply rbind_ok in H as (these & H1 & H). apply rbind_ok in H as (others & H2 & [= <-]). intros c Hc.
  apply elem_of_app in Hc as [Hc|Hc].
  - exists server. split; [by left|]. by apply (server_candidates_spec server these).
  - destruct (IH others H2 c Hc) as (s & Hs & Hrest). exists s. split; [by right|done].
Qed.

(** Every usable URL of an authenticated server is a candidate. *)
Lemma all_candidates_complete servers l server url username credential parsed :
  all_candidates decimal_digit servers = Ok l -> server ∈ servers -> offers server url username credential ->
  _parse_turn_url decimal_digit url = Some parsed ->
  {| cd_preference := _turn_preference parsed.1.1 parsed.1.2 parsed.2; cd_url := url; cd_username := username; cd_credential := credential |} ∈ l.
Proof.
  intros Hall Hin (d & us & -> & Hu & Hurl & Hn & Hc) Hp. revert l Hall. induction servers as [|s servers IH]; intros l; [by apply elem_of_nil in Hin|].
  cbn [all_candidates]. intros H. apply rbind_ok in H as (these & H1 & H). apply rbind_ok in H as (others & H2 & [= <-]).
  apply elem_of_app. apply elem_of_cons in Hin as [<-|Hin]; [left|right; by apply IH].
  unfold server_candidates in H1. rewrite Hu, Hn, Hc in H1. destruct us as [|u us]; [done|].
  destruct (text_urls (u :: us)) as [urls|] eqn:Et; [|done].
  apply rbind_ok in H1 as (v1 & _ & H1). destruct v1; [|done]. cbn [negb] in H1.
  apply rbind_ok in H1 as (v2 & _ & H1). destruct v2; [|done]. cbn [negb] in H1. injection H1 as <-.
  apply list_elem_of_omap. exists url. split; [by apply (text_urls_elem _ urls) in Hurl|]. unfold candidate_of. by rewrite Hp.
Qed.

(** The relay selected is the least candidate. *)
Lemma select_least response url username credential :
  select_turn_credentials decimal_digit response = Ok (url, username, credential) ->
  exists servers first rest, response = PDict [(of_ascii "iceServers", PList servers)] /\
    all_candidates decimal_digit servers = Ok (first :: rest) /\
    (url, username, credential) = (cd_url (least first rest), cd_username (least first rest), cd_credential (least first rest)).
Proof.
  unfold select_turn_credentials. destruct response as [| | |d|]; try done. destruct d as [|[key servers] [|]]; try done.
  case_bool_decide as Hkey; [|done]. subst key. cbn [negb]. destruct servers as [| |l| |]; try done. destruct l as [|s0 l]; [done|].
  intros H. apply rbind_ok in H as (candidates & Hc & H). destruct candidates as [|first rest]; [done|]. injection H as <- <- <-.
  by exists (s0 :: l), first, rest.
Qed.

(** It is offered by a server, usable, and its credentials are valid. *)
Lemma selected_offered response url username credential :
  select_turn_credentials decimal_digit response = Ok (url, username, credential) ->
  exists servers server, response = PDict [(of_ascii "iceServers", PList servers)] /\ server ∈ servers /\
    offers server url username credential /\ is_Some (_parse_turn_url decimal_digit url) /\
    _valid_credential_value username = Ok true /\ _valid_credential_value credential = Ok true.
Proof.
  intros (servers & first & rest & -> & Hc & [= -> -> ->])%select_least.
  destruct (all_candidates_spec servers _ Hc (least first rest) (least_elem first rest)) as (server & Hs & Ho & Hcand & Hv1 & Hv2).
  exists servers, server. split; [done|]. split; [done|]. split; [done|]. split; [|done].
  unfold candidate_of in Hcand. destruct (_parse_turn_url decimal_digit (cd_url (least first rest))); [by eexists|done].
Qed.
End Selection.

(** The relay selected is offered by a server of the response with exactly the
    returned credentials, which are one to 256 bytes without whitespace, on a valid port
    other than 53 and over TCP when it is TLS, and no usable relay of the response is
    preferred to it. *)
Theorem selected_relay_preferred decimal_digit response url username credential :
  select_turn_credentials decimal_digit response = Ok (url, username, credential) ->
  exists servers parsed, response = PDict [(of_ascii "iceServers", PList servers)] /\
    (exists server, server ∈ servers /\ offers server url username credential) /\
    _parse_turn_url decimal_digit url = Some parsed /\
    (is_word username = true /\ exists b, utf8_encode username = Ok b /\ (1 <= Z.of_nat (length b) <= 256)%Z) /\
    (is_word credential = true /\ exists b, utf8_encode credential = Ok b /\ (1 <= Z.of_nat (length b) <= 256)%Z) /\
    forall server url' username' credential' parsed',
      server ∈ servers -> offers server url' username' credential' -> _parse_turn_url decimal_digit url' = Some parsed' ->
      (_turn_preference parsed.1.1 parsed.1.2 parsed.2 <= _turn_preference parsed'.1.1 parsed'.1.2 parsed'.2)%Z.
Proof.
  intros Hselect. destruct (selected_offered decimal_digit response url username credential Hselect) as (servers & server & -> & Hs & Ho & [parsed Hp] & Hv1 & Hv2).
  apply select_least in Hselect as (servers' & first & rest & [= <-] & Hc & Hbest).
  exists servers, parsed. split; [done|]. split; [by exists server|]. split; [done|]. split; [by apply valid_credential|].
  split; [by apply valid_credential|]. intros server' url' username' credential' parsed' Hs' Ho' Hp'.
  pose proof (all_candidates_complete decimal_digit _ _ _ _ _ _ _ Hc Hs' Ho' Hp') as Hin. apply (least_preference first rest) in Hin.
  destruct (all_candidates_spec decimal_digit servers _ Hc (least first rest) (least_elem first rest)) as (? & _ & _ & Hcand & _).
  injection Hbest as -> -> ->. unfold candidate_of in Hcand. rewrite Hp in Hcand. injection Hcand as Hcand. cbn [cd_preference] in Hin.
  rewrite <- Hcand in Hin at 1. exact Hin.
Qed.

(** ** The new environment *)

Definition carries (values : variables) (url username password : pystr) : Prop :=
  forall key, key ∈ _RUNTIME_TURN_KEY_ORDER -> value_of key values = value_of key (turn_values url username password).

Lemma runtime_keys_are_keys : forallb is_key _RUNTIME_TURN_KEY_ORDER = true.
Proof. by vm_compute. Qed.

(** The line of a replaced variable is an assignment of the new value. *)
Lemma replaced_line values line out k : replace_line values line = (out, Some k) -> out = assignment values k ++ [10%Z] /\ k ∈ _RUNTIME_TURN_KEY_ORDER.
Proof.
  unfold replace_line. destruct (partition_text 61 line) as [[key value]|]; [|done].
  destruct (find_row _ _) as [k'|] eqn:Ef; [|done]. intros [= <- <-]. split; [done|]. by apply find_row_Some in Ef as [? _].
Qed.

(** What the parser reads from one line. *)
Lemma parse_assignment_line acc line acc' : parse_assignment acc line = Ok acc' ->
  exists key value, partition_text 61 line = Some (key, value) /\ _KEY key = true /\ to_string key ∉ acc.*1 /\
    acc' = acc ++ [(to_string key, value)].
Proof.
  unfold parse_assignment. destruct (_ || _); [done|]. destruct (partition_text 61 line) as [[key value]|] eqn:Ep; [|done].
  destruct (_KEY key) eqn:Ek; [|done]. cbn [negb orb]. case_bool_decide; [done|]. destruct (dmem (to_string key) acc) eqn:Em; [done|].
  intros [= <-]. exists key, value.
  assert (Hnew : to_string key ∉ acc.*1).
  { apply dget_None. unfold dmem in Em. apply bool_decide_eq_false in Em. destruct (dget _ acc); [|done]. by destruct Em. }
  split; [done|]. split; [done|]. split; [done|]. by rewrite dset_new.
Qed.

Lemma parse_lines_keys lines : forall acc values, parse_lines lines acc = Ok values ->
  exists keys, values.*1 = acc.*1 ++ keys /\
    Forall2 (fun line k => exists key value, partition_text 61 line = Some (key, value) /\ _KEY key = true /\ to_string key = k) lines keys.
Proof.
  unfold parse_lines. induction lines as [|line lines IH]; intros acc values; cbn [fold_left].
  { intros [= <-]. exists []. by rewrite app_nil_r. }
  cbn [rbind]. destruct (parse_assignment acc line) as [acc'|e] eqn:Ea.
  - apply parse_assignment_line in Ea as (key & value & Hp & Hk & _ & ->). intros H. destruct (IH _ _ H) as (keys & Hkeys & Hall).
    exists (to_string key :: keys). split; [by rewrite Hkeys, fmap_app, <- app_assoc|]. constructor; [by exists key, value|done].
  - clear. intros H. exfalso. revert H. induction lines as [|line' lines IH]; [done|]. cbn [fold_left rbind]. exact IH.
Qed.

(** A line of the previous environment with its ending is replaced by the new
    assignment of its variable. *)
Lemma replace_known_line values line ending key value k :
  partition_text 61 line = Some (key, value) -> _KEY key = true -> to_string key = k -> k ∈ _RUNTIME_TURN_KEY_ORDER ->
  replace_line values (line ++ ending) = (assignment values k ++ [10%Z], Some k).
Proof.
  intros Hp Hk Hks Hin. unfold replace_line. apply partition_text_split in Hp as Hline. rewrite Hline, <- app_assoc. cbn [app].
  rewrite partition_text_first.
  2: { pose proof (key_of_text key Hk) as H. apply key_chars in H. rewrite of_ascii_to_string in H.
       - eapply List.Forall_impl; [|exact H]. by intros c [].
       - by apply key_bytes. }
  assert (Hkey : of_ascii k = key).
  { rewrite <- Hks. by apply of_ascii_to_string, key_bytes. }
  rewrite <- Hkey. repeat (apply elem_of_cons in Hin as [->|Hin]; [done|]). by apply elem_of_nil in Hin.
Qed.

Lemma unlines_join {A} (f : A -> pystr) ks : unlines (f <$> ks) = mjoin ((fun k => f k ++ [10%Z]) <$> ks).
Proof.
  induction ks as [|k ks IH]; [done|]. cbn [fmap list_fmap]. change (unlines (f k :: (f <$> ks))) with ((f k ++ [10%Z]) ++ unlines (f <$> ks)).
  by rewrite IH.
Qed.

(** The values of the environment with the new credentials. *)
Lemma replaced_values previous v url username password staged :
  parse_environment previous = Ok v -> same_keys v _RUNTIME_TURN_KEY_ORDER = true -> NoDup v.*1 ->
  (forall key, key ∈ _RUNTIME_TURN_KEY_ORDER -> is_value (value_of key (turn_values url username password))) ->
  _replace_turn_values previous url username password = Ok staged ->
  parse_environment staged = Ok (select v.*1 (turn_values url username password)).
Proof.
  intros Hprev Hkeys Hnd Hvals. unfold parse_environment in Hprev. unfold _replace_turn_values.
  destruct (utf8_decode previous) as [text|e]; [|done]. destruct (_ || _); [done|].
  apply parse_lines_keys in Hprev as (keys & Hk & Hall). cbn [fmap list_fmap app] in Hk. subst keys.
  set (values := turn_values url username password) in *.
  assert (Hin : forall k, k ∈ v.*1 -> k ∈ _RUNTIME_TURN_KEY_ORDER).
  { intros k Hk. unfold same_keys in Hkeys. apply andb_true_iff in Hkeys as [_ H]. rewrite forallb_forall in H.
    apply list_elem_of_In in Hk. specialize (H k Hk). by apply bool_decide_eq_true in H. }
  assert (Hout : (replace_line values <$> ((fun l => l.1 ++ l.2) <$> splitlines text)).*1 = (fun k => assignment values k ++ [10%Z]) <$> v.*1).
  { revert Hall Hin. generalize v.*1. clear. intros keys. generalize (splitlines text). intros lines. revert keys.
    induction lines as [|[line ending] lines IH]; intros keys Hall Hin; inversion Hall as [|? k ? keys' (key & value & Hp & Hk & Hks) Hall']; subst; [done|].
    cbn [fmap list_fmap fst snd].
    rewrite (replace_known_line values line ending key value (to_string key) Hp Hk eq_refl (Hin _ (list_elem_of_here _ _))).
    cbn [fst]. f_equal. apply IH; [done|]. intros k Hk'. apply Hin. by right. }
  destruct (negb _); [done|]. rewrite Hout. intros Henc.
  apply (parse_serialized values v.*1 staged).
  - intros Hn. apply fmap_nil_inv in Hn. subst v. by vm_compute in Hkeys.
  - done.
  - apply list.Forall_forall. intros k Hk. split; [|by apply Hvals, Hin].
    pose proof runtime_keys_are_keys as H. rewrite forallb_forall in H. by apply H, list_elem_of_In, Hin.
  - unfold _serialize_environment.
    assert (Hmem : forallb (fun key => dmem key values) v.*1 = true).
    { apply forallb_forall. intros k Hk%list_elem_of_In. specialize (Hin k Hk).
      repeat (apply elem_of_cons in Hin as [->|Hin]; [by vm_compute|]). by apply elem_of_nil in Hin. }
    rewrite Hmem. cbn [negb]. rewrite <- Henc. f_equal. by rewrite unlines_join.
Qed.

(** ** The values selected *)

Lemma is_word_app a b : is_word (a ++ b) = is_word a && is_word b.
Proof. apply forallb_app. Qed.

Lemma class_word (class : Z -> bool) s : (forall c, class c = true -> is_space c = false) -> forallb class s = true -> is_word s = true.
Proof.
  unfold is_word. rewrite !forallb_forall. intros Hc Hs c Hin. by rewrite (Hc c (Hs c Hin)).
Qed.

Lemma in_text_not_space allowed c : is_word (of_ascii allowed) = true -> in_text allowed c = true -> is_space c = false.
Proof.
  unfold in_text, is_word. intros Hw Hc%bool_decide_eq_true. rewrite forallb_forall in Hw. apply list_elem_of_In in Hc.
  by apply negb_true_iff, Hw.
Qed.
Lemma alnum_not_space c : is_alnum c = true -> is_space c = false.
Proof. unfold is_alnum, is_upper, is_lower, is_digit, is_space. lia. Qed.

Lemma turn_host_word s host rest : split_turn_host s = Some (host, rest) -> is_word rest = true -> is_word s = true.
Proof.
  assert (Hplain : forall t, match partition_text 58 t with
      | Some (h, r) => if negb (bool_decide (h = [])) && forallb (fun c => is_alnum c || in_text ".-" c) h then Some (h, r) else None
      | None => None end = Some (host, rest) -> is_word rest = true -> is_word t = true).
  { intros t. destruct (partition_text 58 t) as [[h r]|] eqn:Ep; [|done]. destruct (_ && _) eqn:Ec; [|done]. intros [= -> ->] Hr.
    apply partition_text_split in Ep as ->. apply andb_true_iff in Ec as [_ Ec]. rewrite is_word_app.
    rewrite (class_word _ _ (fun c H => match proj1 (orb_true_iff _ _) H with
       or_introl H => alnum_not_space c H | or_intror H => in_text_not_space ".-" c eq_refl H end) Ec). exact Hr. }
  unfold split_turn_host. destruct s as [|c s']; [apply Hplain|]. destruct (decide (c = 91%Z)) as [->|Hne].
  2: { intros H. apply Hplain. rewrite <- H. destruct c as [|p|p]; try done. repeat (destruct p as [p|p|]; try done). }
  destruct (partition_text 93 s') as [[inner r]|] eqn:Ep; [|done]. destruct r as [|d r]; [done|].
  destruct (decide (d = 58%Z)) as [->|Hd]; [|destruct d as [|p|p]; try done; repeat (destruct p as [p|p|]; try done)].
  destruct (_ && _) eqn:Ec; [|done]. intros [= <- <-] Hr. apply partition_text_split in Ep as ->. apply andb_true_iff in Ec as [_ Ec].
  change (is_word (91%Z :: inner ++ 93%Z :: 58%Z :: r)) with (is_word (inner ++ 93%Z :: 58%Z :: r)). rewrite is_word_app.
  rewrite (class_word _ _ (fun c H => match proj1 (orb_true_iff _ _) H with
     or_introl H => alnum_not_space c (proj2 (orb_true_iff _ _) (or_intror H)) | or_intror H => in_text_not_space "ABCDEFabcdef:." c eq_refl H end) Ec).
  exact Hr.
Qed.

Lemma turn_url_word digit url u : (forall c, digit c = true -> is_space c = false) -> match_turn_url digit url = Some u -> is_word url = true.
Proof.
  intros Hdigit. unfold match_turn_url. destruct (partition_text 58 url) as [[scheme rest]|] eqn:Ep; [|done].
  case_bool_decide as Hs; [|done]. cbn [negb]. destruct (split_turn_host rest) as [[host tail]|] eqn:Eh; [|done].
  apply partition_text_split in Ep as ->. assert (Hscheme : is_word scheme = true).
  { apply elem_of_cons in Hs as [->|Hs]; [done|]. by apply list_elem_of_singleton in Hs as ->. }
  intros H. rewrite is_word_app, Hscheme. cbn [andb]. change (is_word (58%Z :: rest)) with (is_word rest).
  apply (turn_host_word _ _ _ Eh). destruct (partition_text 63 tail) as [[port query]|] eqn:Eq.
  - apply partition_text_split in Eq as ->. destruct (_ && _) eqn:Ed in H; [|done]. apply andb_true_iff in Ed as [_ Ed]. cbn [negb] in H.
    rewrite is_word_app, (class_word _ _ Hdigit Ed). cbn [andb]. change (is_word (63%Z :: query)) with (is_word query).
    case_bool_decide as H1; [by rewrite H1|]. case_bool_decide as H2; [by rewrite H2|done].
  - destruct (_ && _) eqn:Ed in H; [|done]. apply andb_true_iff in Ed as [_ Ed]. by apply (class_word _ _ Hdigit).
Qed.

(** Every text of a response is Unicode. *)
Fixpoint all_text (p : payload) : Prop :=
  match p with
  | PText s => Forall is_char s
  | PList l => fold_right (fun q P => all_text q /\ P) True l
  | PDict d => fold_right (fun kv P => all_text kv.2 /\ P) True d
  | _ => True
  end.

Lemma all_text_list l q : all_text (PList l) -> q ∈ l -> all_text q.
Proof.
  cbn [all_text]. induction l as [|p l IH]; cbn [fold_right]; [by intros _ ?%elem_of_nil|]. intros [Hp Hl] [->|Hq]%elem_of_cons; [done|by apply IH].
Qed.
Lemma all_text_get d key : all_text (PDict d) -> all_text (payload_get key d).
Proof.
  cbn [all_text]. induction d as [|[k v] d IH]; cbn [fold_right payload_get]; [done|]. intros [Hv Hd]. cbn in Hv.
  case_bool_decide; [done|by apply IH].
Qed.

Lemma offers_text server url username credential : all_text server -> offers server url username credential ->
  Forall is_char url /\ Forall is_char username /\ Forall is_char credential.
Proof.
  intros Hs (d & l & -> & Hu & Hin & Hn & Hc).
  pose proof (all_text_get d (of_ascii "urls") Hs) as H1. rewrite Hu in H1. apply (all_text_list l _ H1) in Hin.
  pose proof (all_text_get d (of_ascii "username") Hs) as H2. rewrite Hn in H2.
  pose proof (all_text_get d (of_ascii "credential") Hs) as H3. rewrite Hc in H3. done.
Qed.

(** The credentials selected can be written as environment values. *)
Lemma selected_values decimal_digit response url username credential :
  (forall c, is_Some (decimal_digit c) -> is_space c = false) -> all_text response ->
  select_turn_credentials decimal_digit response = Ok (url, username, credential) ->
  forall key, key ∈ _RUNTIME_TURN_KEY_ORDER -> is_value (value_of key (turn_values url username credential)).
Proof.
  intros Hdigit Htext (servers & server & -> & Hs & Ho & [parsed Hp] & Hv1 & Hv2)%selected_offered.
  destruct Htext as [Htext _]. apply (all_text_list servers server Htext) in Hs. destruct (offers_text _ _ _ _ Hs Ho) as (T1 & T2 & T3).
  assert (Hcred : forall c, _valid_credential_value c = Ok true -> Forall is_char c -> is_value c).
  { intros c (Hw & b & Hb & Hlen)%valid_credential Hc. split; [|done]. intros ->. injection Hb as <-. cbn in Hlen. lia. }
  assert (Hurl : is_value url).
  { unfold _parse_turn_url in Hp. destruct (match_turn_url _ url) as [u|] eqn:Em; [|done].
    split; [by intros ->|]. split; [|done]. eapply turn_url_word; [|exact Em]. intros c Hc%bool_decide_eq_true. by apply Hdigit. }
  intros key Hkey. repeat (apply elem_of_cons in Hkey as [->|Hkey]; [by auto|]). by apply elem_of_nil in Hkey.
Qed.

(** The environment written where there was none. *)
Lemma initial_values url username password staged :
  (forall key, key ∈ _RUNTIME_TURN_KEY_ORDER -> is_value (value_of key (turn_values url username password))) ->
  _initial_turn_values url username password = Ok staged ->
  parse_environment staged = Ok (select _RUNTIME_TURN_KEY_ORDER (turn_values url username password)).
Proof.
  intros Hvals Hs. apply (parse_serialized (turn_values url username password)); [done|apply (bool_decide_unpack _); by vm_compute| |exact Hs].
  apply list.Forall_forall. intros key Hkey. split; [|by apply Hvals].
  pose proof runtime_keys_are_keys as H. rewrite forallb_forall in H. by apply H, list_elem_of_In.
Qed.

Lemma carries_select order url username password : _RUNTIME_TURN_KEY_ORDER ⊆ order ->
  carries (select order (turn_values url username password)) url username password.
Proof. intros Ho key Hkey. apply value_of_select. by apply Ho. Qed.

(** ** A response *)

Module Sample.
Definition relays : payload := PList
  [PDict [(of_ascii "urls", PList [PText (of_ascii "stun:stun.example:3478")])];
   PDict [(of_ascii "urls", PList [PText (of_ascii "turn:turn.example:3478?transport=udp"); PText (of_ascii "turns:turn.example:5349?transport=tcp")]);
          (of_ascii "username", PText (of_ascii "new")); (of_ascii "credential", PText (of_ascii "fresh"))]].

(** TLS is preferred although it is offered last. *)
Definition chosen : pystr := of_ascii "turns:turn.example:5349?transport=tcp".
Lemma selected_relay_preferred_witness :
  select_turn_credentials ascii_digit (PDict [(of_ascii "iceServers", relays)]) = Ok (chosen, of_ascii "new", of_ascii "fresh") /\
  exists servers parsed, PDict [(of_ascii "iceServers", relays)] = PDict [(of_ascii "iceServers", PList servers)] /\
    (exists server, server ∈ servers /\ offers server chosen (of_ascii "new") (of_ascii "fresh")) /\
    _parse_turn_url ascii_digit chosen = Some parsed.
Proof.
  assert (H : select_turn_credentials ascii_digit (PDict [(of_ascii "iceServers", relays)]) = Ok (chosen, of_ascii "new", of_ascii "fresh"))
    by by vm_compute.
  split; [done|]. destruct (selected_relay_preferred ascii_digit _ _ _ _ H) as (servers & parsed & H1 & H2 & H3 & _). by exists servers, parsed.
Defined.
End Sample.
