(* ===== verification/TurnTransaction.v ===== *)
(** * The transaction of the TURN refresh

    The runtime environment is the previous one or a validated one that carries the
    new credentials, whatever fails, and the outcome tells which (TurnRefresh.v,
    TurnRefreshFacts.v). *)

From Stdlib Require Import Strings.Byte.
From S2P Require Import Prelude Json Text Base64 Unicode AtomicFile MediaToken MediaConfig MediaFiles MediaConfigFacts.
From S2P Require Import MediaFilesFacts TurnRefresh TurnRefreshFacts.

Section Transaction.
Context (E : file_environment) (systemctl : nat -> option Z).
Context (ip_address : pystr -> option address) (urlsplit : pystr -> result split_url) (decimal_digit : Z -> option Z).
Context (urlopen : turn_request -> result (Z * bytes)) (parse : pystr -> result payload).
Context (paths : refresh_paths).
Abbreviation runtime := (rp_runtime paths).

(** ** The files used on the way *)

Definition staged_path (k : nat) : trusted_path :=
  {| tp_parent := tp_parent runtime;
     tp_name := String.append "." (String.append (tp_name runtime) (String.append ".validate." (fe_name E k))) |}.
Definition scratch (q : string) : Prop :=
  (exists k, q = temporaries E runtime k) \/ exists k, q = place (staged_path k) \/ exists j, q = temporaries E (staged_path k) j.

(** The other environments are none of the files written. *)
Definition apart : Prop :=
  forall p, p ∈ [rp_turn paths; rp_auth paths; rp_gateway paths] -> place p <> place runtime /\ ~ scratch (place p).

Lemma runtime_not_scratch : ~ scratch (place runtime).
Proof.
  intros [[k H]|(k & [H|[j H]])].
  - by apply (temporary_not_place runtime ".new." (fe_name E k)).
  - revert H. unfold place, path_child, staged_path. cbn [tp_parent tp_name]. intros H. apply (f_equal String.length) in H. revert H.
    rewrite !append_length. cbn [String.length]. rewrite ?append_length. cbn [String.length]. lia.
  - revert H. unfold temporaries, temporary_place, place, path_child, staged_path. cbn [tp_parent tp_name]. intros H.
    apply (f_equal String.length) in H. revert H. rewrite ?append_length. cbn [String.length]. rewrite ?append_length. cbn [String.length]. rewrite ?append_length. lia.
Qed.

(** Only these files differ. *)
Definition only_scratch (s s' : directory bytes) : Prop := forall q, ~ scratch q -> dget q (sl_files s') = dget q (sl_files s).
Definition only_runtime (s s' : directory bytes) : Prop :=
  forall q, q <> place runtime -> ~ scratch q -> dget q (sl_files s') = dget q (sl_files s).

Lemma same_only_scratch s s' : sl_files s' = sl_files s -> only_scratch s s'.
Proof. by intros H q _; rewrite H. Qed.
Lemma only_scratch_runtime s s' : only_scratch s s' -> only_runtime s s' /\ stored runtime s' = stored runtime s.
Proof. intros H. split; [by intros q _ Hq; apply H|apply H, runtime_not_scratch]. Qed.
Lemma only_scratch_trans s1 s2 s3 : only_scratch s1 s2 -> only_scratch s2 s3 -> only_scratch s1 s3.
Proof. intros H1 H2 q Hq. by rewrite H2, H1. Qed.
Lemma only_runtime_trans s1 s2 s3 : only_runtime s1 s2 -> only_runtime s2 s3 -> only_runtime s1 s3.
Proof. intros H1 H2 q Hq Hs. by rewrite H2, H1. Qed.

(** ** Validation *)

Lemma leaves_files_as {A} caught msg (m : M (directory bytes) A) : leaves_files m -> leaves_files (as_refresh_error caught msg m).
Proof. intros H I HI s Hs. specialize (H I HI s Hs). unfold as_refresh_error. by destruct (m s) as [[a|x] s']. Qed.
Lemma as_ok {S A} caught msg (m : M S A) s a s' : as_refresh_error caught msg m s = (Ok a, s') -> m s = (Ok a, s').
Proof. unfold as_refresh_error. by destruct (m s) as [[b|x] s'']. Qed.
#[local] Hint Resolve leaves_files_as call_leaves fstat_leaves parse_trusted_leaves : gate.

Abbreviation complete := (_validate_complete_media_environment E ip_address urlsplit decimal_digit paths).

(** The environment in a file is valid with the gateway's. *)
Definition valid_with_gateway (s : directory bytes) (v : variables) : Prop :=
  exists g whole, environment_at (rp_gateway paths) s g /\ validate_split_gateway_environment ip_address urlsplit decimal_digit g v = Ok whole.

Lemma complete_leaves p : leaves_files (complete p).
Proof. unfold _validate_complete_media_environment. apply leaves_files_as. leaves_tac. Qed.

Lemma environment_at_same p s s' v : sl_files s' = sl_files s -> environment_at p s' v -> environment_at p s v.
Proof. unfold environment_at, stored. by intros ->. Qed.

Lemma complete_run p s u s' : complete p s = (Ok u, s') -> exists v, environment_at p s v /\ valid_with_gateway s v.
Proof.
  intros H%as_ok. apply bind_inv in H as (auth & s1 & H1 & H). apply parse_trusted_values in H1 as [_ F1].
  apply bind_inv in H as (u1 & s2 & H2 & H). injection H2 as _ <-.
  apply bind_inv in H as (g & s2 & H2 & H). apply parse_trusted_values in H2 as [Hg F2].
  apply bind_inv in H as (v & s3 & H3 & H). apply parse_trusted_values in H3 as [Hv F3].
  apply bind_inv in H as (whole & s4 & H4 & H). injection H4 as Hw _. apply environment_at_same with (s := s) in Hg; [|done].
  exists v. split; [by apply (environment_at_same _ s s2); [congruence|]|]. by exists g, whole.
Qed.

Lemma load_run s secrets s' : _load_turn_environment E paths s = (Ok secrets, s') -> environment_at (rp_turn paths) s secrets.
Proof.
  intros H%as_ok. apply bind_inv in H as (v & s1 & H1 & H). apply parse_trusted_values in H1 as [Hv _]. injection H as H _.
  assert (v = secrets) as <-; [|done]. revert H. unfold validate_turn_environment. destruct (_validate_effective_values v); [|done].
  cbn [rbind]. destruct (same_keys v _); [|done]. cbn [negb]. destruct (_TURN_KEY_ID _); [|done]. cbn [negb].
  destruct (bounded_bytes _ _ _) as [key_id|]; [|done]. cbn [rbind]. destruct (bounded_bytes _ _ _) as [token|]; [|done]. cbn [rbind].
  destruct (key_id && token); [|done]. cbn [negb]. by intros [= ->].
Qed.
Lemma load_leaves : leaves_files (_load_turn_environment E paths).
Proof. unfold _load_turn_environment. apply leaves_files_as. leaves_tac. Qed.

Lemma finally_run {S A} (m : M S A) f s r s' : try_finally m f s = (r, s') ->
  exists rm s1 rf, m s = (rm, s1) /\ f s1 = (rf, s') /\ forall a, r = Ok a -> rm = Ok a.
Proof.
  unfold try_finally. destruct (m s) as [rm s1]. destruct (f s1) as [rf s2] eqn:Ef. intros H. exists rm, s1, rf.
  destruct rf as [u|e]; injection H as <- <-; by repeat split.
Qed.
Lemma as_run {S A} caught msg (m : M S A) s r s' : as_refresh_error caught msg m s = (r, s') ->
  exists rm, m s = (rm, s') /\ forall a, r = Ok a -> rm = Ok a.
Proof. unfold as_refresh_error. destruct (m s) as [[a|x] s1]; intros [= <- <-]; by eexists. Qed.

(** Writing an environment: the new content or, after a failure, perhaps the old. *)
Lemma write_run p body s r s' : _atomic_write_environment E p body s = (r, s') ->
  (forall q, q <> place p -> (forall k, q <> temporaries E p k) -> dget q (sl_files s') = dget q (sl_files s)) /\
  (stored p s' = Some body \/ stored p s' = stored p s /\ exists e, r = Err e).
Proof.
  intros H. assert (Hstart : untouched (temporaries E p) s (place p) s) by done.
  pose proof (replace_spec E p s body (ret tt) (TurnRefreshError "runtime TURN environment could not be atomically updated")
    (leaves_files_ret tt) s Hstart) as Hw.
  unfold _atomic_write_environment in H. rewrite H in Hw. destruct r as [u|e].
  - destruct Hw as [Ho Hp]. split; [done|by left].
  - destruct Hw as [[Ho Hp]|[Ho Hp]]; (split; [done|]); [right; split; [done|by exists e]|by left].
Qed.

Lemma unlink_scratch q s r s' : scratch q -> AtomicFile.unlink (fe_io E) q s = (r, s') -> only_scratch s s'.
Proof.
  intros Hq H. eapply (keeps_state (only_scratch s)); [|by apply same_only_scratch|exact H].
  apply unlink_spec; unfold only_scratch; intros s1 s2 Es Hs p Hp; rewrite Es; [by apply Hs|].
  rewrite dget_ddel_ne; [by apply Hs|]. by intros ->.
Qed.

(** Staging the new environment writes only scratch files, and it ends normally only
    when it is valid. *)
Lemma staged_run staged s r s' : apart ->
  _validate_staged_media_environment E ip_address urlsplit decimal_digit paths staged s = (r, s') ->
  only_scratch s s' /\ forall u, r = Ok u -> exists v, parse_environment staged = Ok v /\ valid_with_gateway s v.
Proof.
  intros Hapart. unfold _validate_staged_media_environment, bind at 1, read.
  set (k := sl_reads s). set (s1 := {| sl_reads := S k; sl_root := sl_root s; sl_files := sl_files s |}).
  fold (staged_path k). set (p := staged_path k).
  intros (r1 & s3 & rf & H & Hun & Hr)%finally_run. apply unlink_scratch in Hun; [|right; exists k; by left].
  apply as_run in H as (r2 & H & Hr2). unfold bind in H.
  assert (Hscratch : forall q, ~ scratch q -> q <> place p /\ forall j, q <> temporaries E p j).
  { intros q Hq. split; [intros ->; apply Hq; right; exists k; by left|]. intros j ->. apply Hq. right. exists k. right. by exists j. }
  destruct (_atomic_write_environment E p staged s1) as [rw s2] eqn:Ew. apply write_run in Ew as [Ho Hp].
  assert (H2 : only_scratch s s2) by (intros q Hq; destruct (Hscratch q Hq); by apply Ho).
  destruct rw as [u|e].
  2: { injection H as <- <-. split; [by eapply only_scratch_trans|]. intros u ->. by specialize (Hr2 u (Hr u eq_refl)). }
  assert (F3 : sl_files s3 = sl_files s2) by by eapply leaves_files_run; [apply complete_leaves|].
  split; [eapply only_scratch_trans; [exact H2|]; eapply only_scratch_trans; [by apply same_only_scratch|done]|].
  intros u' ->. specialize (Hr2 u' (Hr u' eq_refl)). subst r2. apply complete_run in H as (v & (body & Hb & Hv) & (g & whole & (gb & Hgb & Hgp) & Hg)).
  destruct Hp as [Hp|[_ [e He]]]; [|done]. assert (body = staged) as -> by congruence. exists v. split; [done|].
  exists g, whole. split; [|done]. exists gb. split; [|done]. unfold stored in *. rewrite <- Hgb. symmetry. apply H2.
  apply (Hapart (rp_gateway paths)). by right; right; left.
Qed.

(** ** The environment in place *)

Lemma read_bytes_run p s body s' : _read_environment_bytes E p s = (Ok body, s') -> stored p s = Some body.
Proof.
  intros H%as_ok. apply bind_inv in H as (u & s1 & H1 & H). unfold open_file in H1. apply bind_inv in H1 as (u1 & s2 & H1 & H2).
  apply leaves_files_run in H1; [|apply call_leaves]. unfold bind, gets in H2. rewrite H1 in H2. fold (stored p s) in H2.
  destruct (stored p s) as [b|] eqn:Es; [|done]. injection H2 as _ <-. unfold bind, gets, of_result in H. rewrite H1 in H.
  fold (stored p s) in H. rewrite Es in H. cbn [default] in H.
  case_match; [by injection H as <- _|done].
Qed.

Lemma open_file_leaves p : leaves_files (open_file E p).
Proof. unfold open_file. leaves_tac. Qed.
#[local] Hint Resolve open_file_leaves : gate.
Lemma read_bytes_leaves p : leaves_files (_read_environment_bytes E p).
Proof. unfold _read_environment_bytes. apply leaves_files_as. leaves_tac. Qed.
Lemma guarded_leaves (m f : M (directory bytes) unit) : leaves_files m -> leaves_files f -> leaves_files (guarded m f).
Proof. unfold guarded. auto with gate. Qed.
#[local] Hint Resolve guarded_leaves : gate.

Lemma trusted_leaves p : leaves_files (_empty_runtime_environment_is_trusted E p).
Proof.
  intros I HI s Hs. unfold _empty_runtime_environment_is_trusted. pose proof (open_file_leaves p I HI s Hs) as H.
  destruct (open_file E p s) as [[u|e] s1]; [|by destruct (is_OSError e)]. revert s1 H.
  match goal with |- forall s1, I s1 -> match ?m s1 with _ => _ end => assert (Hm : leaves_files m) end.
  { unfold file_size, guarded. leaves_tac. }
  intros s1 H1. exact (Hm I HI s1 H1).
Qed.

Lemma open_file_run p s u s' : open_file E p s = (Ok u, s') -> is_Some (stored p s).
Proof.
  intros H. unfold open_file in H. apply bind_inv in H as (u1 & s2 & H1 & H2). apply leaves_files_run in H1; [|apply call_leaves].
  unfold bind, gets in H2. rewrite H1 in H2. fold (stored p s) in H2. destruct (stored p s); [by eexists|done].
Qed.

(** The empty environment that is trusted is there and empty. *)
Lemma trusted_run p s b s' : _empty_runtime_environment_is_trusted E p s = (Ok b, s') -> b = true -> stored p s = Some [].
Proof.
  intros H ->. unfold _empty_runtime_environment_is_trusted in H. destruct (open_file E p s) as [[u|e] s1] eqn:Eo.
  2: { by destruct (is_OSError e). }
  pose proof (leaves_files_run _ _ _ _ (open_file_leaves p) Eo) as F1. apply open_file_run in Eo as [content Hc].
  apply bind_inv in H as (size & s2 & H2 & H). injection H2 as _ <-. apply bind_inv in H as (m & s3 & H3 & H).
  injection H3 as _ <-. destruct (_ || _); [done|].
  apply bind_inv in H as (u1 & s4 & H4 & H). apply leaves_files_run in H4; [|auto with gate].
  apply bind_inv in H as (u2 & s5 & H5 & H). apply leaves_files_run in H5; [|apply guarded_leaves; leaves_tac].
  apply bind_inv in H as (u3 & s6 & H6 & H). apply finally_ok in H6 as [s7 H6]. unfold os_error_as in H6.
  match type of H6 with match ?m s5 with _ => _ end = _ => destruct (m s5) as [[a|e] s8] eqn:Eb; [|done] end. clear H6.
  apply bind_inv in Eb as (size2 & s9 & H9 & Eb). injection H9 as _ <-. apply bind_inv in Eb as (opened & s10 & H10 & Eb).
  apply leaves_files_run in H10; [|apply fstat_leaves]. destruct (_ || _) in Eb; [done|].
  apply bind_inv in Eb as (u4 & s11 & H11 & Eb). apply leaves_files_run in H11; [|apply call_leaves]. unfold bind, gets in Eb.
  case_bool_decide as Hempty; [|done]. cbn [sl_files] in *. rewrite H11, H10, H5, H4 in Hempty. cbn [sl_files] in Hempty.
  rewrite F1 in Hempty. fold (stored p s) in Hempty. rewrite Hc in Hempty |- *. cbn [default] in Hempty. by f_equal.
Qed.

Lemma previous_leaves : leaves_files (previous_environment E ip_address urlsplit decimal_digit paths).
Proof.
  unfold previous_environment, _validate_bootstrap_media_environment.
  apply leaves_files_bind; [apply trusted_leaves|intros []].
  - apply leaves_files_bind; [apply leaves_files_as; leaves_tac|intros _; apply leaves_files_ret].
  - apply leaves_files_bind; [apply complete_leaves|intros _]. apply leaves_files_bind; [apply read_bytes_leaves|intros; apply leaves_files_ret].
Qed.

(** The previous content is the one stored; it has valid values unless it is empty. *)
Lemma previous_run s b previous s' : previous_environment E ip_address urlsplit decimal_digit paths s = (Ok (b, previous), s') ->
  stored runtime s = Some previous /\ (b = false -> exists v, parse_environment previous = Ok v /\ valid_with_gateway s v).
Proof.
  unfold previous_environment. intros H. apply bind_inv in H as (bootstrap & s1 & H1 & H).
  pose proof (leaves_files_run _ _ _ _ (trusted_leaves _) H1) as F1. destruct bootstrap.
  - apply bind_inv in H as (u & s2 & _ & H). injection H as <- <- _. split; [by apply (trusted_run _ _ true s1)|done].
  - apply bind_inv in H as (u & s2 & H2 & H). pose proof (leaves_files_run _ _ _ _ (complete_leaves _) H2) as F2.
    apply bind_inv in H as (content & s3 & H3 & H). injection H as <- <- _. apply read_bytes_run in H3. unfold stored in H3. rewrite F2, F1 in H3.
    split; [done|]. intros _. apply complete_run in H2 as (v & (body & Hb & Hv) & (g & whole & Hg & Hw)). unfold stored in Hb. rewrite F1 in Hb.
    exists v. assert (body = content) as -> by congruence. split; [done|]. exists g, whole. split; [|done].
    by apply (environment_at_same _ s s1).
Qed.

(** ** The service *)

(** What a run of the service operations adds to the log, the files left alone. *)
Definition serviced (w w' : refresh_world) (events : list service_event) : Prop :=
  sl_files (rw_dir w') = sl_files (rw_dir w) /\ rw_log w' = rw_log w ++ events.

Lemma serviced_app w1 w2 w3 l1 l2 : serviced w1 w2 l1 -> serviced w2 w3 l2 -> serviced w1 w3 (l1 ++ l2).
Proof. intros [F1 L1] [F2 L2]. split; [congruence|]. by rewrite L2, L1, app_assoc. Qed.

Lemma on_disk_run {A} (m : M (directory bytes) A) w r w' : on_disk m w = (r, w') ->
  exists d', m (rw_dir w) = (r, d') /\ w' = set_rw_dir d' w.
Proof. unfold on_disk, lift. destruct (m (rw_dir w)) as [r1 d']. intros [= <- <-]. by exists d'. Qed.

Lemma is_active_run w r w' : is_active systemctl w = (r, w') ->
  exists active, serviced w w' [Checked active] /\
    match r with Ok b => active = Some b | Err e => e = TurnRefreshError "gateway service state could not be determined" end.
Proof.
  unfold is_active, _run, on_disk, lift, bind, read, log_event, modify, ret, raise. cbn.
  destruct (systemctl _) as [code|]; [destruct (decide (code = 0%Z)) as [->|H0]; [|destruct (decide (code = 3%Z)) as [->|H3]]|].
  1, 2: intros [= <- <-]; (eexists; split; [by split|done]).
  1: assert (Hcode : forall X (a b c : X), match code with 0%Z => a | 3%Z => b | _ => c end = c)
    by (intros; destruct code as [|[[]|[]|]|]; done).
  1: rewrite Hcode. 1, 2: intros [= <- <-]; (eexists; split; [by split|done]).
Qed.

Lemma restart_run w r w' : restart systemctl paths w = (r, w') ->
  exists b, r = Ok b /\ serviced w w' [Restarted (stored runtime (rw_dir w)) b].
Proof.
  unfold restart, _run, on_disk, lift, bind, read, log_event, modify, gets, ret. cbn. intros [= <- <-].
  eexists. split; [done|]. by split.
Qed.

(** The checks of a gateway found healthy. *)
Fixpoint healthy_checks (attempts : nat) : list service_event :=
  match attempts with
  | O => []
  | S O => [Checked (Some true)]
  | S attempts' => Checked (Some true) :: Slept :: healthy_checks attempts'
  end.

Lemma healthy_run n : forall w r w', healthy_for systemctl n w = (r, w') ->
  exists events b, r = Ok b /\ serviced w w' events /\ (b = true -> events = healthy_checks n).
Proof.
  induction n as [|n IH]; intros w r w'; cbn [healthy_for].
  { intros [= <- <-]. exists [], true. split; [done|]. split; [|done]. split; [done|by rewrite app_nil_r]. }
  destruct (is_active systemctl w) as [o w1] eqn:Ea. apply is_active_run in Ea as (active & Hs & Hb).
  destruct o as [[]|e]; subst.
  - unfold bind. destruct n as [|n].
    + intros [= <- <-]. by exists [Checked (Some true)], true.
    + unfold log_event, modify. intros H. apply IH in H as (events & b & -> & Hs2 & He).
      exists ([Checked (Some true); Slept] ++ events), b. split; [done|]. split.
      * eapply serviced_app; [|exact Hs2]. destruct Hs as [F L]. split; [exact F|]. cbn. by rewrite L, <- app_assoc.
      * intros Hr. by rewrite (He Hr).
  - intros [= <- <-]. by eexists _, false.
  - intros [= <- <-]. by eexists _, false.
Qed.

(** A restart after which the gateway was found healthy. *)
Definition healthy_restart (environment : option bytes) : list service_event :=
  Restarted environment true :: healthy_checks GATEWAY_HEALTH_CHECK_ATTEMPTS.

Lemma restart_and_check_run w r w' : restart_and_check systemctl paths w = (r, w') ->
  exists events b, r = Ok b /\ serviced w w' events /\ (b = true -> events = healthy_restart (stored runtime (rw_dir w))).
Proof.
  unfold restart_and_check. unfold bind. destruct (restart systemctl paths w) as [o w1] eqn:Er.
  apply restart_run in Er as (b & -> & Hs). destruct b.
  - intros H. apply healthy_run in H as (events & b & -> & Hs2 & He). eexists _, b. split; [done|]. split; [by eapply serviced_app|].
    intros Hr. by rewrite (He Hr).
  - intros [= <- <-]. by eexists _, false.
Qed.

(** ** Errors of a write *)

(** System calls fail with [OSError]. *)
Definition only_os_errors : Prop := forall k e, fe_io E k = Err e -> is_OSError e = true.

Definition raises {S A} (P : exc -> Prop) (m : M S A) : Prop := forall s e s', m s = (Err e, s') -> P e.

Lemma raises_bind {S A B} P (m : M S A) (k : A -> M S B) : raises P m -> (forall a, raises P (k a)) -> raises P (bind m k).
Proof. intros Hm Hk s e s'. unfold bind. destruct (m s) as [[a|x] s1] eqn:Em; [apply Hk|intros [= <- <-]; by eapply Hm]. Qed.
Lemma raises_finally {S A} P (m : M S A) f : raises P m -> raises P f -> raises P (try_finally m f).
Proof.
  intros Hm Hf s e s'. unfold try_finally. destruct (m s) as [r s1] eqn:Em. destruct (f s1) as [[u|x] s2] eqn:Ef; intros [= H <-].
  - subst r. by eapply Hm.
  - subst x. by eapply Hf.
Qed.
Lemma raises_on_error {S A} P (m : M S A) f : raises P m -> raises P f -> raises P (on_error m f).
Proof.
  intros Hm Hf s e s'. unfold on_error. destruct (m s) as [[a|x] s1] eqn:Em; [done|]. destruct (f s1) as [[u|y] s2] eqn:Ef; intros [= <- <-].
  - by eapply Hm.
  - by eapply Hf.
Qed.
Lemma raises_os_error {S A} (P : exc -> Prop) error (m : M S A) : P error -> raises P m -> raises P (os_error_as error m).
Proof.
  intros He Hm s e s'. unfold os_error_as. destruct (m s) as [[a|x] s1] eqn:Em; [done|]. specialize (Hm _ _ _ Em).
  destruct (is_OSError x); by intros [= <- <-].
Qed.

Definition write_error (e : exc) : Prop :=
  is_OSError e = true \/ e = TurnRefreshError "runtime TURN environment could not be atomically updated".

Lemma raises_call : only_os_errors -> raises write_error (call E).
Proof.
  intros Hio s e s'. unfold call, AtomicFile.system_call, bind, read, of_result. intros [= H _]. left. by eapply Hio.
Qed.

Ltac raises_step :=
  match goal with
  | |- forall _, _ => intros ?
  | |- raises _ (bind _ _) => apply raises_bind
  | |- raises _ (try_finally _ _) => apply raises_finally
  | |- raises _ (on_error _ _) => apply raises_on_error
  | |- raises _ (os_error_as _ _) => apply raises_os_error; [by right|]
  | |- raises _ (if ?b then _ else _) => destruct b
  | |- raises _ (raise OSError) => by intros ? ? ? [= <- _]; left
  | |- raises _ (AtomicFile.unlink _ _) => unfold AtomicFile.unlink
  | |- raises _ (replace_file _ _ _ _) => unfold replace_file
  | |- raises _ (call E) => by apply raises_call
  | |- raises _ (AtomicFile.system_call (fe_io E)) => by apply raises_call
  end.

Lemma raises_write p body : only_os_errors -> raises write_error (_atomic_write_environment E p body).
Proof.
  intros Hio. unfold _atomic_write_environment, replace_environment, guarded, create, fill, finish.
  repeat (raises_step || (intros ? ? ?; discriminate)).
  intros s e s'. unfold write_file. destruct (fe_io E (sl_reads s)) as [u|x] eqn:Eio.
  - apply raises_bind; [by apply raises_call|done].
  - apply (raises_bind write_error (on_files _) (fun _ => call E)); [done|]. intros _. by apply raises_call.
Qed.

(** ** The switch *)

Definition restored : exc := TurnRefreshError "new TURN configuration failed; previous configuration was restored".

Lemma write_not_restored e : write_error e -> e <> restored.
Proof. intros [H| ->]; [by intros ->|done]. Qed.

(** What the switch to [staged] may end in. *)
Definition switched (staged previous : bytes) (w w' : refresh_world) (r : result unit) (events : list service_event) : Prop :=
  only_runtime (rw_dir w) (rw_dir w') /\ (rw_log w' = rw_log w ++ events /\ events <> []) /\
  match r with
  | Ok _ =>
      stored runtime (rw_dir w') = Some staged /\
      (events = [Checked (Some false)] \/ events = Checked (Some true) :: healthy_restart (Some staged))
  | Err e =>
      (stored runtime (rw_dir w') = Some previous \/ stored runtime (rw_dir w') = Some staged) /\
      (e = restored -> stored runtime (rw_dir w') = Some previous /\
         exists tried, events = Checked (Some true) :: tried ++ healthy_restart (Some previous))
  end.

Lemma write_runtime_run body w r w' : on_disk (_atomic_write_environment E runtime body) w = (r, w') ->
  only_runtime (rw_dir w) (rw_dir w') /\ rw_log w' = rw_log w /\
  (stored runtime (rw_dir w') = Some body \/ stored runtime (rw_dir w') = stored runtime (rw_dir w) /\ exists e, r = Err e).
Proof.
  intros (d' & Hw & ->)%on_disk_run. apply write_run in Hw as [Ho Hr]. split; [|by split].
  intros q Hq Hs. apply Ho; [done|]. intros k ->. apply Hs. left. by exists k.
Qed.

Lemma serviced_runtime w w' events : serviced w w' events ->
  only_runtime (rw_dir w) (rw_dir w') /\ stored runtime (rw_dir w') = stored runtime (rw_dir w) /\ rw_log w' = rw_log w ++ events.
Proof. intros [F L]. unfold only_runtime, stored. rewrite F. by split. Qed.

(** After a failed switch. *)
Lemma restore_run staged previous tried w0 w1 w r w' : only_os_errors ->
  only_runtime (rw_dir w0) (rw_dir w1) -> rw_log w1 = rw_log w0 ++ Checked (Some true) :: tried ->
  stored runtime (rw_dir w1) = Some staged -> w = w1 ->
  (on_disk (_atomic_write_environment E runtime previous) ;!
   let! healthy := restart_and_check systemctl paths in
   if healthy : bool then raise restored
   else raise (TurnRefreshError "new TURN configuration failed and gateway rollback did not restart")) w = (r, w') ->
  exists events, switched staged previous w0 w' r events.
Proof.
  intros Hio Ho1 L1 R1 -> H. unfold bind at 1 in H. destruct (on_disk _ w1) as [o w2] eqn:Ew.
  pose proof Ew as Hdisk. apply write_runtime_run in Ew as (Ho2 & L2 & R2). destruct o as [u|e].
  - destruct R2 as [R2|[_ [? ?]]]; [|done]. unfold bind in H. destruct (restart_and_check systemctl paths w2) as [o w3] eqn:Er.
    apply restart_and_check_run in Er as (events & b & -> & Hs & Hb). apply serviced_runtime in Hs as (Ho3 & R3 & L3).
    rewrite R2 in Hb, R3. exists (Checked (Some true) :: tried ++ events). unfold switched.
    assert (Hdone : only_runtime (rw_dir w0) (rw_dir w3) /\ rw_log w3 = rw_log w0 ++ Checked (Some true) :: tried ++ events).
    { split; [by eapply only_runtime_trans; [|eapply only_runtime_trans]|]. by rewrite L3, L2, L1, <- app_assoc. }
    destruct Hdone as [Ho L]. destruct b; injection H as <- <-; (split; [done|]); (split; [by split|]); (split; [by left|]); [|done].
    intros _. split; [done|]. exists tried. by rewrite Hb.
  - injection H as <- <-. exists (Checked (Some true) :: tried). split; [by eapply only_runtime_trans|]. split; [by rewrite L2|].
    apply on_disk_run in Hdisk as (d' & Hd & _). apply raises_write in Hd; [|done]. apply write_not_restored in Hd. split; [|done].
    destruct R2 as [R2|[R2 _]]; [by left|right; by rewrite R2].
Qed.

Lemma switch_over_run staged previous w r w' : only_os_errors -> stored runtime (rw_dir w) = Some previous ->
  switch_over E systemctl paths staged previous w = (r, w') -> exists events, switched staged previous w w' r events.
Proof.
  intros Hio Hprev. unfold switch_over. intros H. unfold bind at 1 in H. destruct (is_active systemctl w) as [o w1] eqn:Ea.
  apply is_active_run in Ea as (active & Hs & Ho). apply serviced_runtime in Hs as (O1 & R1 & L1). destruct o as [was_active|e].
  2: { subst e. injection H as <- <-. exists [Checked active]. split; [done|]. split; [by split|]. split; [left; congruence|done]. }
  subst active. unfold bind at 1 in H. destruct (on_disk _ w1) as [o w2] eqn:Ew.
  pose proof Ew as Hdisk. apply write_runtime_run in Ew as (O2 & L2 & R2).
  assert (O12 : only_runtime (rw_dir w) (rw_dir w2)) by by eapply only_runtime_trans.
  assert (L12 : rw_log w2 = rw_log w ++ [Checked (Some was_active)]) by congruence. destruct o as [u|e].
  2: { injection H as <- <-. apply on_disk_run in Hdisk as (d' & Hd & _). apply raises_write in Hd; [|done]. apply write_not_restored in Hd.
       exists [Checked (Some was_active)]. split; [done|]. split; [by split|]. split; [|done].
       destruct R2 as [R2|[R2 _]]; [by right|left; congruence]. }
  destruct R2 as [R2|[_ [? ?]]]; [|done]. destruct was_active; cbn [negb] in H.
  2: { injection H as <- <-. exists [Checked (Some false)]. split; [done|]. split; [by split|]. split; [done|by left]. }
  unfold bind at 1 in H. destruct (restart_and_check systemctl paths w2) as [o w3] eqn:Er.
  apply restart_and_check_run in Er as (tried & b & -> & Hs & Hb). apply serviced_runtime in Hs as (O3 & R3 & L3).
  assert (O13 : only_runtime (rw_dir w) (rw_dir w3)) by by eapply only_runtime_trans.
  assert (L13 : rw_log w3 = rw_log w ++ Checked (Some true) :: tried) by by rewrite L3, L12, <- app_assoc.
  destruct b.
  - injection H as <- <-. exists (Checked (Some true) :: tried). split; [done|]. split; [by split|]. split; [congruence|].
    right. by rewrite Hb, R2.
  - eapply (restore_run staged previous tried w w3 w3); try done. congruence.
Qed.

(** ** The whole refresh *)

(** An environment that may be put in place: its values carry the credentials of the
    relay selected from the response to a request with the secrets of the TURN file,
    and they are valid with the gateway's. *)
Definition earned (s : directory bytes) (staged : bytes) : Prop :=
  exists secrets response url username credential v,
    environment_at (rp_turn paths) s secrets /\
    fetch_ice_servers urlopen parse (value_of "TURN_KEY_ID" secrets) (value_of "TURN_KEY_API_TOKEN" secrets) = Ok response /\
    select_turn_credentials decimal_digit response = Ok (url, username, credential) /\
    parse_environment staged = Ok v /\ carries v url username credential /\ valid_with_gateway s v.

Lemma valid_keys s v : valid_with_gateway s v -> same_keys v _RUNTIME_TURN_KEY_ORDER = true.
Proof.
  intros (g & whole & _ & H). unfold validate_split_gateway_environment in H. apply rbind_ok in H as (selected & _ & H).
  apply rbind_ok in H as (run & H & _). unfold validate_runtime_turn_environment in H. apply rbind_ok in H as (u & _ & H).
  by destruct (same_keys v _RUNTIME_TURN_KEY_ORDER).
Qed.

Context (Hparse : forall text response, parse text = Ok response -> all_text response).
Context (Hdigit : forall c, is_Some (decimal_digit c) -> is_space c = false).

Lemma fetch_text key token response : fetch_ice_servers urlopen parse key token = Ok response -> all_text response.
Proof.
  unfold fetch_ice_servers. destruct (urlopen _) as [[status content]|[]]; try done.
  destruct (negb _); [done|]. destruct (_ <? _)%Z; [done|]. destruct (rbind (utf8_decode content) parse) as [p|[]] eqn:Er; try done.
  intros [= <-]. apply rbind_ok in Er as (text & _ & Er). by eapply Hparse.
Qed.

(** The environment built from the selection carries it. *)
Lemma staged_carries s b previous response url username credential staged :
  all_text response -> select_turn_credentials decimal_digit response = Ok (url, username, credential) ->
  (b = false -> exists v, parse_environment previous = Ok v /\ valid_with_gateway s v) ->
  (if b : bool then _initial_turn_values url username credential else _replace_turn_values previous url username credential) = Ok staged ->
  exists v, parse_environment staged = Ok v /\ carries v url username credential.
Proof.
  intros Htext Hselect Hprev Hstaged. pose proof (selected_values _ _ _ _ _ Hdigit Htext Hselect) as Hvals. destruct b.
  - eexists. split; [by apply initial_values|]. by apply carries_select.
  - destruct (Hprev eq_refl) as (v & Hv & Hg). apply valid_keys in Hg. eexists. split.
    + eapply replaced_values; [exact Hv|exact Hg| |exact Hvals|exact Hstaged]. by apply parse_environment_well_formed in Hv as [? _].
    + apply carries_select. intros key Hkey. pose proof (same_keys_mem v _ key Hg Hkey) as Hm. unfold dmem in Hm.
      apply bool_decide_eq_true in Hm. destruct (decide (key ∈ v.*1)) as [|Hn]; [done|]. apply dget_None in Hn. rewrite Hn in Hm. by destruct Hm.
Qed.

(** What a refresh may end in. *)
Definition refreshed (w w' : refresh_world) (r : result unit) (events : list service_event) : Prop :=
  only_runtime (rw_dir w) (rw_dir w') /\ rw_log w' = rw_log w ++ events /\
  (stored runtime (rw_dir w') = stored runtime (rw_dir w) \/
   exists staged, earned (rw_dir w) staged /\ stored runtime (rw_dir w') = Some staged) /\
  match r with
  | Ok _ =>
      exists staged, earned (rw_dir w) staged /\ stored runtime (rw_dir w') = Some staged /\
        (events = [Checked (Some false)] \/ events = Checked (Some true) :: healthy_restart (Some staged))
  | Err e =>
      (events = [] -> stored runtime (rw_dir w') = stored runtime (rw_dir w)) /\
      (e = restored -> events <> [] -> stored runtime (rw_dir w') = stored runtime (rw_dir w) /\
         exists previous tried, stored runtime (rw_dir w) = Some previous /\
           events = Checked (Some true) :: tried ++ healthy_restart (Some previous))
  end.

(** A failure before the service is asked. *)
Lemma refused w w' e : only_scratch (rw_dir w) (rw_dir w') -> rw_log w' = rw_log w -> refreshed w w' (Err e) [].
Proof.
  intros [Ho Hr]%only_scratch_runtime L. split; [done|]. split; [by rewrite L, app_nil_r|]. split; [by left|]. by split.
Qed.

(** The switch to an environment that was validated. *)
Lemma switch_refreshed staged previous w w1 r w' : only_os_errors -> earned (rw_dir w) staged ->
  only_scratch (rw_dir w) (rw_dir w1) -> rw_log w1 = rw_log w -> stored runtime (rw_dir w) = Some previous ->
  switch_over E systemctl paths staged previous w1 = (r, w') -> exists events, refreshed w w' r events.
Proof.
  intros Hio He [Ho Hr]%only_scratch_runtime L Hp H.
  apply switch_over_run in H as (events & Ho2 & [L2 Hne] & Hcase); [|done|congruence]. exists events.
  split; [by eapply only_runtime_trans|]. split; [congruence|]. destruct r as [u|e].
  - destruct Hcase as [R Hev]. split; [right; by exists staged|]. by exists staged.
  - destruct Hcase as [R Hrestored]. split; [destruct R; [left; congruence|right; by exists staged]|]. split; [done|].
    intros E1 _. destruct (Hrestored E1) as (R1 & tried & Hev). split; [congruence|]. by exists previous, tried.
Qed.

Lemma refresh_run w r w' : apart -> only_os_errors ->
  refresh_turn_credentials E systemctl ip_address urlsplit decimal_digit urlopen parse paths w = (r, w') ->
  exists events, refreshed w w' r events.
Proof.
  intros Hapart Hio. unfold refresh_turn_credentials. intros H. unfold bind at 1 in H.
  destruct (on_disk (_load_turn_environment E paths) w) as [o w1] eqn:E1. apply on_disk_run in E1 as (d1 & E1 & ->).
  pose proof (leaves_files_run _ _ _ _ load_leaves E1) as F1.
  destruct o as [secrets|e]; [|injection H as <- <-; eexists; apply refused; [by apply same_only_scratch|done]].
  apply load_run in E1. unfold bind at 1 in H.
  destruct (on_disk (previous_environment _ _ _ _ _) _) as [o w2] eqn:E2. apply on_disk_run in E2 as (d2 & E2 & ->).
  pose proof (leaves_files_run _ _ _ _ previous_leaves E2) as F2. cbn [rw_dir set_rw_dir] in F2, E2. rewrite F1 in F2.
  destruct o as [[bootstrap previous]|e]; [|injection H as <- <-; eexists; apply refused; [by apply same_only_scratch|done]].
  apply previous_run in E2 as [P1 P2]. unfold stored in P1. rewrite F1 in P1. unfold bind at 1, of_result at 1 in H.
  assert (Hrefused : forall e, exists events, refreshed w (set_rw_dir d2 (set_rw_dir d1 w)) (Err e) events).
  { intros e. eexists. apply refused; [by apply same_only_scratch|done]. }
  destruct (fetch_ice_servers _ _ _ _) as [response|e] eqn:E3; [|by injection H as <- <-]. unfold bind at 1, of_result at 1 in H.
  destruct (select_turn_credentials _ _) as [[[url username] credential]|e] eqn:E4; [|by injection H as <- <-].
  unfold bind at 1, of_result at 1 in H.
  match type of H with match ?m with _ => _ end = _ => destruct m as [staged|e] eqn:E5 end; [|by injection H as <- <-].
  apply (staged_carries d1 _ _ response) in E5 as (v & Hv & Hcarries); [|by eapply fetch_text|done|done].
  unfold bind at 1 in H. destruct (on_disk (_validate_staged_media_environment _ _ _ _ _ _) _) as [o w3] eqn:E6.
  apply on_disk_run in E6 as (d3 & E6 & ->). apply staged_run in E6 as [Ho6 Hvalid]; [|done]. cbn [rw_dir set_rw_dir] in Ho6, Hvalid.
  assert (Ho : only_scratch (rw_dir w) d3) by (eapply only_scratch_trans; [by apply same_only_scratch|done]).
  destruct o as [u|e]; [|injection H as <- <-; eexists; by apply refused].
  destruct (Hvalid u eq_refl) as (v' & Hv' & g & whole & Hg & Hwhole). assert (v' = v) as -> by congruence.
  eapply switch_refreshed; [done| | | |exact P1|exact H]; [|exact Ho|done].
  exists secrets, response, url, username, credential, v. repeat (split; [done|]). exists g, whole. split; [|done].
  by apply (environment_at_same _ _ d2).
Qed.
End Transaction.


(** ** Runs of the refresh *)

Module Sample.
Definition address_sample (host : pystr) : option address :=
  if bool_decide (host = of_ascii "192.168.1.10") then
    Some {| ip_text := host; is_unspecified := false; is_loopback := false; is_multicast := false; is_link_local := false;
            is_reserved := false; is_private := true |}
  else None.
Definition split_sample (url : pystr) : result split_url :=
  if bool_decide (take 10 url = of_ascii "rtsp://cam") then
    Ok {| su_scheme := of_ascii "rtsp"; su_hostname := Some (of_ascii "cam"); su_port := Ok None; su_path := drop 10 url;
          su_fragment := []; su_with_path := fun path => path |}
  else Err (ValueError "url").

Definition response_text : bytes := list_byte_of_string "servers".
Definition parse_sample (text : pystr) : result payload :=
  if bool_decide (text = of_ascii "servers") then Ok (PDict [(of_ascii "iceServers", TurnRefreshFacts.Sample.relays)]) else Err (ValueError "JSON").
Definition urlopen_sample (request : turn_request) : result (Z * bytes) := Ok (201%Z, response_text).

Definition etc (name : string) : trusted_path := {| tp_parent := "/etc/gate"; tp_name := name |}.
Definition paths : refresh_paths :=
  {| rp_turn := etc "turn-key.env"; rp_auth := etc "auth.env"; rp_gateway := etc "gateway.env";
     rp_runtime := {| tp_parent := "/var/lib/gate"; tp_name := "turn.env" |} |}.

Definition turn_file : bytes := list_byte_of_string "TURN_KEY_ID=key
TURN_KEY_API_TOKEN=token
".
Definition auth_file : bytes := list_byte_of_string "GATE_MEDIA_HMAC_SECRET=0123456789abcdef0123456789abcdef
GATE_MEDIA_VIDEO_CONFIGURED=true
GATE_MEDIA_VIDEO_VERIFIED=true
GATE_MEDIA_LISTEN_CONFIGURED=false
GATE_MEDIA_LISTEN_VERIFIED=false
GATE_MEDIA_TALKBACK_CONFIGURED=false
".
Definition gateway_file : bytes := list_byte_of_string "MTX_PATHS_CAMERA_SOURCE=rtsp://cam/sub
MTX_PATHS_CLEAR_SOURCE=rtsp://cam/main
MTX_WEBRTCLOCALUDPADDRESS=192.168.1.10:8189
MTX_WEBRTCLOCALTCPADDRESS=192.168.1.10:8189
MTX_WEBRTCADDITIONALHOSTS=192.168.1.10
MTX_WEBRTCICESERVERS2_0_CLIENTONLY=false
".
Definition runtime_file (username password : string) : bytes := list_byte_of_string
  (String.append "MTX_WEBRTCICESERVERS2_0_URL=turns:turn.example:5349?transport=tcp
MTX_WEBRTCICESERVERS2_0_USERNAME=" (String.append username (String.append "
MTX_WEBRTCICESERVERS2_0_PASSWORD=" (String.append password "
")))).

Definition system : file_environment :=
  {| fe_io := fun _ => Ok tt;
     fe_stat := fun _ size => {| md_directory := true; md_regular := true; md_owned := true; md_mode := if (size =? 0)%Z then 448 else 384;
                                 md_size := size |};
     fe_short := fun _ => 99%nat; fe_partial := fun _ b => take 5 b; fe_name := fun _ => "7.0123456789abcdef" |}.
Definition start : refresh_world :=
  {| rw_dir := {| sl_reads := 0; sl_root := true;
       sl_files := [(place (rp_turn paths), turn_file); (place (rp_auth paths), auth_file); (place (rp_gateway paths), gateway_file);
                    (place (rp_runtime paths), runtime_file "old" "stale")] |};
     rw_log := [] |}.

(** The systemctl call answered at [n] fails. *)
Definition run (n : nat) := refresh_turn_credentials system (fun k => if (k =? n)%nat then Some 1%Z else Some 0%Z)
  address_sample split_sample ascii_digit urlopen_sample parse_sample paths start.

Lemma sample_apart : apart system paths.
Proof.
  intros p Hp. repeat (apply elem_of_cons in Hp as [->|Hp]; [split; [done|]; intros [[k H]|(k & [H|[j H]])]; done|]).
  by apply elem_of_nil in Hp.
Qed.
Lemma system_errors : only_os_errors system.
Proof. by intros k e. Qed.
Lemma sample_text text response : parse_sample text = Ok response -> all_text response.
Proof.
  unfold parse_sample. destruct (bool_decide _); [|done]. intros [= <-]. cbn [all_text fold_right TurnRefreshFacts.Sample.relays snd].
  repeat split; apply (bool_decide_unpack _); by vm_compute.
Qed.
Lemma ascii_not_space c : is_Some (ascii_digit c) -> is_space c = false.
Proof. unfold ascii_digit. intros [d H]. destruct (is_digit c) eqn:Ec; [|done]. unfold is_digit in Ec. unfold is_space. lia. Qed.

Abbreviation outcome_of n :=
  (exists events, refreshed system address_sample split_sample ascii_digit urlopen_sample parse_sample paths start (snd (run n)) (fst (run n)) events).


(** A lone surrogate in a user name is an encoding error, which [main] does not
    turn into an exit status. *)
Definition surrogate_relay : payload := PDict
  [(of_ascii "urls", PList [PText (of_ascii "turn:turn.example:3478?transport=udp")]); (of_ascii "username", PText [0xD800%Z]);
   (of_ascii "credential", PText (of_ascii "fresh"))].
Lemma surrogate_escapes :
  exists message, fst (main system (fun _ => Some 0%Z) address_sample split_sample ascii_digit urlopen_sample
    (fun _ => Ok (PDict [(of_ascii "iceServers", PList [surrogate_relay])])) paths false start) = Err (ValueError message).
Proof. eexists. by vm_compute. Qed.
End Sample.
