(* ===== verification/UpdatePolicy.v ===== *)
(** * The update policy: the pure part of deployment/gate_controller_updater.py

    The configuration read from the environment, what the answers of the GitHub
    API say, the decision to install, the releases to prune, the environment of
    the commands.  Everything here is ASCII text; [json.loads] and the HTTP client
    are arguments. *)

From Stdlib Require Import Strings.Byte DecimalString Sorting.Sorted.
From stdpp Require Import sorting.
From S2P Require Import Prelude Json Text Base64 MediaToken.

Definition CI_WORKFLOW_PATH : string := ".github/workflows/ci.yml".
Definition GITHUB_API_ROOT : string := "https://api.github.com".
Definition MAX_API_RESPONSE_BYTES : Z := 5 * 1024 * 1024.
Definition BUILD_USER : string := "gate-controller-build".
Definition LEGACY_COMMAND_SERVICE : string := "gate-command-server.service".

Definition chars_of (s : string) : list ascii := list_ascii_of_string s.
Definition is_one_of (allowed : string) (c : ascii) : bool := bool_decide (c ∈ chars_of allowed).

(** [SHA_PATTERN.fullmatch] *)
Definition is_hex_digit (c : ascii) : bool := is_one_of "0123456789abcdef" c.
Definition SHA_PATTERN (s : string) : bool := (String.length s =? 40)%nat && forallb is_hex_digit (chars_of s).

(** [[A-Za-z0-9_.-]+] *)
Definition is_name (l : list ascii) : bool :=
  negb (bool_decide (l = [])) && forallb (fun c => is_alphanumeric c || is_one_of "_.-" c) l.

(** The text before the first [c] and after it. *)
Fixpoint partition_at (c : ascii) (l : list ascii) : option (list ascii * list ascii) :=
  match l with
  | [] => None
  | a :: l' => if decide (a = c) then Some ([], l')
               else (fun p => (a :: p.1, p.2)) <$> partition_at c l'
  end.

(** [REPOSITORY_PATTERN.fullmatch] *)
Definition REPOSITORY_PATTERN (s : string) : bool :=
  match partition_at "/" (chars_of s) with
  | Some (owner, name) => is_name owner && is_name name
  | None => false
  end.

(** [BRANCH_PATTERN.fullmatch] *)
Definition BRANCH_PATTERN (s : string) : bool :=
  match chars_of s with
  | [] => false
  | c :: l => is_alphanumeric c && (length l <=? 127)%nat && forallb (fun c => is_alphanumeric c || is_one_of "._/-" c) l
  end.

Definition ends_with (suffix l : list ascii) : bool := bool_decide (rev suffix `prefix_of` rev l).

(** The test of the name of a systemd service: [[A-Za-z0-9_.@-]+\.service] *)
Definition is_service_name (s : string) : bool :=
  let l := chars_of s in
  ends_with (chars_of ".service") l && (8 <? length l)%nat
  && forallb (fun c => is_alphanumeric c || is_one_of "_.@-" c) (take (length l - 8) l).

(** ** Configuration *)

Record UpdateConfig := {
  repository : string;
  branch : string;
  install_root : string;
  service_name : string;
  keep_releases : Z;
  request_timeout_seconds : Z;
  command_timeout_seconds : Z;
  health_seconds : Z;
  github_token : option string;
}.

Definition releases_root (c : UpdateConfig) : string := path_child (install_root c) "releases".
Definition pending_activation_path (c : UpdateConfig) : string := path_child (install_root c) "pending-activation.json".

Definition decimal_text (n : Z) : string := NilEmpty.string_of_int (Z.to_int n).

(** gate_controller_updater.py: _bounded_integer *)
Definition _bounded_integer (values : dict string) (name : string) (default_ minimum maximum : Z) : result Z :=
  match (match dget name values with Some text => int_of_text text | None => Some default_ end) with
  | None => Err (ValueError (String.append name " must be an integer"))
  | Some value =>
      if ((minimum <=? value) && (value <=? maximum))%Z then Ok value
      else Err (ValueError (String.append name (String.append " must be between "
             (String.append (decimal_text minimum) (String.append " and " (decimal_text maximum))))))
  end.

(** The branch is valid. *)
Definition is_branch (s : string) : bool :=
  BRANCH_PATTERN s && negb (contains (chars_of "..") (chars_of s)) && negb (ends_with (chars_of "/") (chars_of s))
  && negb (contains (chars_of "//") (chars_of s)).

(** gate_controller_updater.py: UpdateConfig.from_mapping; once the root is the
    fixed one the tests on it hold. *)
Definition from_mapping (values : dict string) : result UpdateConfig :=
  let value name default_ := default default_ (dget name values) in
  let repository := value "GATE_UPDATE_REPOSITORY" "ciaran-finnegan/gate-controller" in
  if negb (REPOSITORY_PATTERN repository) then Err (ValueError "GATE_UPDATE_REPOSITORY must be owner/repository")
  else
  let branch := value "GATE_UPDATE_BRANCH" "master" in
  if negb (is_branch branch) then Err (ValueError "GATE_UPDATE_BRANCH is invalid")
  else
  let root_text := value "GATE_UPDATE_ROOT" "/opt/gate-controller-deploy" in
  if negb (String.eqb root_text "/opt/gate-controller-deploy")
  then Err (ValueError "GATE_UPDATE_ROOT is fixed by the installed systemd units")
  else
  rbind (_bounded_integer values "GATE_UPDATE_KEEP_RELEASES" 3 3 8) (fun keep_releases =>
  rbind (_bounded_integer values "GATE_UPDATE_REQUEST_TIMEOUT_SECONDS" 20 5 120) (fun request_timeout =>
  rbind (_bounded_integer values "GATE_UPDATE_COMMAND_TIMEOUT_SECONDS" 900 60 3600) (fun command_timeout =>
  rbind (_bounded_integer values "GATE_UPDATE_HEALTH_SECONDS" 15 5 120) (fun health_seconds =>
  let service_name := value "GATE_UPDATE_SERVICE" "file-monitor.service" in
  if negb (is_service_name service_name) then Err (ValueError "GATE_UPDATE_SERVICE must be a systemd service name")
  else Ok {| repository := repository; branch := branch; install_root := root_text; service_name := service_name;
             keep_releases := keep_releases; request_timeout_seconds := request_timeout;
             command_timeout_seconds := command_timeout; health_seconds := health_seconds;
             github_token := match dget "GITHUB_TOKEN" values with
                             | Some t => if String.eqb t EmptyString then None else Some t
                             | None => None
                             end |})))).

(** ** What the answers of GitHub say *)

Definition text_of (j : json) : option string := match j with JStr s => Some s | _ => None end.

(** gate_controller_updater.py: read_main_sha *)
Definition read_main_sha (payload : json) : result string :=
  match payload with
  | JDict d =>
      match dict_get "sha" d with
      | JStr sha => if SHA_PATTERN sha then Ok sha else Err (ValueError "branch commit response did not contain a valid SHA")
      | _ => Err (ValueError "branch commit response did not contain a valid SHA")
      end
  | _ => Err (ValueError "branch commit response must be an object")
  end.

(** The condition on one workflow run. *)
Definition is_successful_run (sha branch : string) (run : json) : bool :=
  match run with
  | JDict d =>
      is_text (dict_get "head_sha" d) sha && is_text (dict_get "head_branch" d) branch
      && is_text (dict_get "event" d) "push" && is_text (dict_get "status" d) "completed"
      && is_text (dict_get "conclusion" d) "success"
      && (is_text (dict_get "path" d) CI_WORKFLOW_PATH
          || is_text (dict_get "path" d) (String.append CI_WORKFLOW_PATH (String.append "@" branch)))
  | _ => false
  end.

(** gate_controller_updater.py: has_successful_ci_run *)
Definition has_successful_ci_run (payload : json) (sha branch : string) : result bool :=
  if negb (SHA_PATTERN sha) then Err (ValueError "candidate SHA is invalid")
  else
    match payload with
    | JDict d =>
        match dict_get "workflow_runs" d with
        | JList runs => Ok (existsb (is_successful_run sha branch) runs)
        | _ => Err (ValueError "workflow response did not contain a run list")
        end
    | _ => Err (ValueError "workflow response must be an object")
    end.

Inductive UpdateDecision := NO_CHANGE | DEFER | INSTALL.

(** gate_controller_updater.py: decide_update *)
Definition decide_update (current_sha : option string) (main_payload runs_payload : json) (branch : string)
  : result UpdateDecision :=
  rbind (read_main_sha main_payload) (fun candidate_sha =>
  if bool_decide (current_sha = Some candidate_sha) then Ok NO_CHANGE
  else rbind (has_successful_ci_run runs_payload candidate_sha branch) (fun successful =>
       Ok (if successful : bool then INSTALL else DEFER))).

(** ** Pruning *)

Record ReleaseEntry := { sha : string; modified_at : Z }.

(** [sorted(..., key=modified_at, reverse=True)], which is stable. *)
Fixpoint insert_entry (e : ReleaseEntry) (l : list ReleaseEntry) : list ReleaseEntry :=
  match l with
  | [] => [e]
  | e' :: l' => if (modified_at e' <=? modified_at e)%Z then e :: l else e' :: insert_entry e l'
  end.
Definition newest_first (l : list ReleaseEntry) : list ReleaseEntry := foldr insert_entry [] l.

(** gate_controller_updater.py: releases_to_prune *)
Definition releases_to_prune (entries : list ReleaseEntry) (current_sha : string) (keep : Z) : result (list string) :=
  if (keep <? 3)%Z then Err (ValueError "the active release and two rollback releases are required")
  else if negb (SHA_PATTERN current_sha) then Err (ValueError "current release SHA is invalid")
  else
    let inactive := newest_first (filter (fun e => sha e <> current_sha) entries) in
    let retained_inactive := Z.max 0 (keep - 1) in
    Ok (sha <$> drop (Z.to_nat retained_inactive) inactive).

(** ** Requests *)

(** gate_controller_updater.py: _github_headers *)
Definition _github_headers (token : option string) : dict string :=
  let headers := [("Accept", "application/vnd.github+json"); ("User-Agent", "gate-controller-updater/1");
                  ("X-GitHub-Api-Version", "2026-03-10")] in
  match token with
  | Some t => if String.eqb t EmptyString then headers else dset "Authorization" (String.append "Bearer " t) headers
  | None => headers
  end.

(** [urllib.parse.quote(s, safe="")] *)
Definition hex_digit (n : nat) : ascii := nth n (chars_of "0123456789ABCDEF") "0"%char.
Definition quote_char (c : ascii) : list ascii :=
  if is_alphanumeric c || is_one_of "_.-~" c then [c]
  else let n := nat_of_ascii c in ["%"%char; hex_digit (n / 16); hex_digit (n mod 16)].
Definition quote (s : string) : string := string_of_list_ascii (chars_of s ≫= quote_char).

Section Requests.
(** The reply to a request for a URL with headers and a timeout, and
    [json.loads(content)]. *)
Context (urlopen : string -> dict string -> Z -> result bytes) (parse : bytes -> result json).

(** gate_controller_updater.py: _github_json; a response is cut one byte past the
    limit. *)
Definition _github_json (c : UpdateConfig) (endpoint : string) : result json :=
  let url := String.append GITHUB_API_ROOT (String.append "/repos/" (String.append (repository c) (String.append "/" endpoint))) in
  match urlopen url (_github_headers (github_token c)) (request_timeout_seconds c) with
  | Err HTTPError | Err TimeoutError => Err (UpdateError "GitHub API request deferred")
  | Err e => Err e
  | Ok content =>
      if (MAX_API_RESPONSE_BYTES <? Z.of_nat (length content))%Z
      then Err (UpdateError "GitHub API response exceeded the size limit")
      else
        match parse content with
        | Err (ValueError _) => Err (UpdateError "GitHub API returned malformed JSON")
        | r => r
        end
  end.

(** gate_controller_updater.py: _main_commit_payload *)
Definition _main_commit_payload (c : UpdateConfig) : result json :=
  rbind (_github_json c (String.append "git/ref/heads/" (quote (branch c)))) (fun payload =>
  match payload with
  | JDict d =>
      if negb (is_text (dict_get "ref" d) (String.append "refs/heads/" (branch c)))
      then Err (UpdateError "GitHub API returned a mismatched branch ref")
      else
        match dict_get "object" d with
        | JDict target =>
            if negb (is_text (dict_get "type" target) "commit")
            then Err (UpdateError "GitHub branch ref did not target a commit")
            else
              match dict_get "sha" target with
              | JStr sha =>
                  if SHA_PATTERN sha then Ok (JDict [("sha", JStr sha)])
                  else Err (UpdateError "GitHub branch ref did not contain a valid commit SHA")
              | _ => Err (UpdateError "GitHub branch ref did not contain a valid commit SHA")
              end
        | _ => Err (UpdateError "GitHub branch ref did not target a commit")
        end
  | _ => Err (UpdateError "GitHub API returned a mismatched branch ref")
  end).

(** gate_controller_updater.py: _workflow_runs_payload *)
Definition _workflow_runs_payload (c : UpdateConfig) (sha : string) : result json :=
  let query := String.concat "&"
    [String.append "branch=" (quote (branch c)); "event=push"; "status=completed";
     String.append "head_sha=" (quote sha); "per_page=20"] in
  _github_json c (String.append "actions/workflows/ci.yml/runs?" query).
End Requests.

(** ** The environment of commands *)

Definition is_git_config (name : string) : bool := String.prefix "GIT_CONFIG_" name.

(** gate_controller_updater.py: _command_environment *)
Definition _command_environment (environ : dict string) (c : UpdateConfig) (include_git_auth : bool) : dict string :=
  let environment := ddel "GH_TOKEN" (ddel "GITHUB_TOKEN" environ) in
  let environment := filter (fun kv => is_git_config kv.1 = false) environment in
  let environment := dupdate environment
    [("GIT_TERMINAL_PROMPT", "0"); ("PIP_DISABLE_PIP_VERSION_CHECK", "1"); ("PIP_NO_CACHE_DIR", "1");
     ("PYTHONDONTWRITEBYTECODE", "1")] in
  match include_git_auth, github_token c with
  | true, Some token =>
      if String.eqb token EmptyString then environment
      else
        let git_credentials := b64encode (list_byte_of_string (String.append "x-access-token:" token)) in
        dupdate environment
          [("GIT_CONFIG_COUNT", "1"); ("GIT_CONFIG_KEY_0", "http.https://github.com/.extraheader");
           ("GIT_CONFIG_VALUE_0", String.append "Authorization: Basic " git_credentials)]
  | _, _ => environment
  end.

(** ** The order of pruning *)

Definition no_newer (a b : ReleaseEntry) : Prop := (modified_at b <= modified_at a)%Z.

Lemma insert_entry_perm e l : insert_entry e l ≡ₚ e :: l.
Proof.
  induction l as [|e' l IH]; cbn [insert_entry]; [done|]. destruct (modified_at e' <=? modified_at e)%Z; [done|].
  rewrite IH. constructor.
Qed.
Lemma newest_first_perm l : newest_first l ≡ₚ l.
Proof. induction l as [|e l IH]; cbn; [done|]. by rewrite insert_entry_perm, IH. Qed.

Lemma insert_entry_sorted e l : StronglySorted no_newer l -> StronglySorted no_newer (insert_entry e l).
Proof.
  induction 1 as [|e' l Hs IH Hf]; cbn [insert_entry]; [by repeat constructor|].
  destruct (Z.leb_spec (modified_at e') (modified_at e)) as [Hle|Hlt].
  - constructor; [by constructor|]. constructor; [done|]. eapply List.Forall_impl; [|exact Hf]. unfold no_newer. lia.
  - constructor; [done|]. rewrite insert_entry_perm. constructor; [unfold no_newer; lia|done].
Qed.
Lemma newest_first_sorted l : StronglySorted no_newer (newest_first l).
Proof. induction l as [|e l IH]; cbn; [constructor|by apply insert_entry_sorted]. Qed.

Lemma prune_entries entries current keep stale :
  releases_to_prune entries current keep = Ok stale ->
  stale = sha <$> drop (Z.to_nat (keep - 1)) (newest_first (filter (fun e => sha e <> current) entries)).
Proof.
  unfold releases_to_prune. destruct (Z.ltb_spec keep 3); [done|]. destruct (negb _); [done|]. intros [= <-].
  by rewrite Z.max_r by lia.
Qed.

Lemma prune_spares_current entries current keep stale :
  releases_to_prune entries current keep = Ok stale -> current ∉ stale.
Proof.
  intros ->%prune_entries (e & -> & He)%list_elem_of_fmap. apply subseteq_drop in He.
  rewrite newest_first_perm in He. by apply list_elem_of_filter in He as [? _].
Qed.

(** The releases to prune are the oldest of those other than the current one: the
    newest [keep - 1] others are retained, the current release never goes, and
    only fewer than three releases to keep or a malformed current SHA is refused. *)
Theorem prune_oldest entries current keep :
  match releases_to_prune entries current keep with
  | Ok stale => exists retained removed,
      retained ++ removed ≡ₚ filter (fun e => sha e <> current) entries /\ stale = sha <$> removed /\
      length retained = (Z.to_nat (keep - 1) `min` length (filter (fun e => sha e <> current) entries))%nat /\
      (forall a b, a ∈ retained -> b ∈ removed -> (modified_at b <= modified_at a)%Z) /\ current ∉ stale
  | Err e => (exists msg, e = ValueError msg) /\ ((keep < 3)%Z \/ SHA_PATTERN current = false)
  end.
Proof.
  destruct (releases_to_prune entries current keep) as [stale|e] eqn:Er.
  - pose proof (prune_spares_current _ _ _ _ Er) as Hc. apply prune_entries in Er.
    set (others := filter _ entries) in *. set (n := Z.to_nat (keep - 1)) in *.
    exists (take n (newest_first others)), (drop n (newest_first others)). rewrite take_drop.
    split; [apply newest_first_perm|]. split; [done|]. rewrite length_take, (Permutation_length (newest_first_perm others)).
    split; [done|]. split; [|done]. intros a b Ha Hb. pose proof (newest_first_sorted others) as Hs.
    rewrite <- (take_drop n (newest_first others)) in Hs. by eapply (StronglySorted_app_1_elem_of no_newer).
  - revert Er. unfold releases_to_prune. destruct (Z.ltb_spec keep 3) as [Hk|Hk]; [intros [= <-]; split; [by eexists|by left]|].
    destruct (SHA_PATTERN current) eqn:Es; [done|]. intros [= <-]. split; [by eexists|by right].
Qed.

(** ** The environment of commands *)

Definition fixed_environment : dict string :=
  [("GIT_TERMINAL_PROMPT", "0"); ("PIP_DISABLE_PIP_VERSION_CHECK", "1"); ("PIP_NO_CACHE_DIR", "1");
   ("PYTHONDONTWRITEBYTECODE", "1")].
Definition git_credentials (token : string) : dict string :=
  [("GIT_CONFIG_COUNT", "1"); ("GIT_CONFIG_KEY_0", "http.https://github.com/.extraheader");
   ("GIT_CONFIG_VALUE_0", String.append "Authorization: Basic "
      (b64encode (list_byte_of_string (String.append "x-access-token:" token))))].
Definition given_token (c : UpdateConfig) (include_git_auth : bool) : option string :=
  if include_git_auth then
    match github_token c with Some t => if String.eqb t EmptyString then None else Some t | None => None end
  else None.

Lemma dget_filter_other {V} (P : string -> bool) k (d : dict V) :
  dget k (filter (fun kv => P kv.1 = false) d) = if P k then None else dget k d.
Proof.
  induction d as [|[k1 v1] d IH]; [by destruct (P k)|].
  destruct (P k1) eqn:E1.
  - rewrite filter_cons_False by (cbn; congruence). rewrite IH. cbn [dget]. case_decide as Hk; [|done]. subst. by rewrite E1.
  - rewrite filter_cons_True by done. cbn [dget]. rewrite IH. case_decide as Hk; [|done]. subst. by rewrite E1.
Qed.

Lemma dget_dupdate {V} k (d e : dict V) : NoDup e.*1 ->
  dget k (dupdate d e) = match dget k e with Some v => Some v | None => dget k d end.
Proof.
  revert d. induction e as [|[k1 v1] e IH]; intros d He; [done|]. cbn in He. apply list.NoDup_cons in He as [Hn He].
  change (dupdate d ((k1, v1) :: e)) with (dupdate (dset k1 v1 d) e). rewrite IH by done. cbn [dget].
  rewrite dget_dset. case_decide as Hk; [|done]. subst. by rewrite (proj2 (dget_None k1 e) Hn).
Qed.

(** What a command sees of every variable: never the updater's tokens nor an
    inherited Git configuration, the fixed settings, the credentials only with
    [include_git_auth] and a token, and every other variable as it was. *)
Theorem command_environment_exact environ c include_git_auth name :
  dget name (_command_environment environ c include_git_auth) =
    match dget name (match given_token c include_git_auth with Some t => git_credentials t | None => [] end) with
    | Some v => Some v
    | None =>
        match dget name fixed_environment with
        | Some v => Some v
        | None => if is_git_config name || bool_decide (name ∈ ["GITHUB_TOKEN"; "GH_TOKEN"]) then None else dget name environ
        end
    end.
Proof.
  unfold _command_environment.
  assert (Hbase : dget name (filter (fun kv : string * string => is_git_config kv.1 = false) (ddel "GH_TOKEN" (ddel "GITHUB_TOKEN" environ))) =
    (if is_git_config name || bool_decide (name ∈ ["GITHUB_TOKEN"; "GH_TOKEN"]) then None else dget name environ)).
  { rewrite (dget_filter_other is_git_config). destruct (is_git_config name); [done|]. cbn [orb].
    destruct (decide (name = "GH_TOKEN")) as [->|H1]; [by rewrite dget_ddel_eq|]. rewrite dget_ddel_ne by done.
    destruct (decide (name = "GITHUB_TOKEN")) as [->|H2]; [by rewrite dget_ddel_eq|]. rewrite dget_ddel_ne by done.
    rewrite bool_decide_eq_false_2; [done|]. by rewrite !elem_of_cons, elem_of_nil; intros [|[|]]. }
  assert (Hfixed : forall d : dict string, dget name (dupdate d fixed_environment) =
    match dget name fixed_environment with Some v => Some v | None => dget name d end).
  { intros d. apply dget_dupdate. apply (bool_decide_unpack _). vm_compute. done. }
  fold fixed_environment. unfold given_token.
  destruct include_git_auth; [|by rewrite Hfixed, Hbase].
  destruct (github_token c) as [t|]; [|by rewrite Hfixed, Hbase].
  destruct (String.eqb t EmptyString); [by rewrite Hfixed, Hbase|].
  fold (git_credentials t). rewrite dget_dupdate; [by rewrite Hfixed, Hbase|].
  cbn [git_credentials fmap list_fmap fst]. apply (bool_decide_unpack _). vm_compute. done.
Qed.

(** ** Configuration *)

Lemma bounded_integer_result values name d lo hi :
  match _bounded_integer values name d lo hi with
  | Ok n => (lo <= n <= hi)%Z
  | Err e => exists msg, e = ValueError msg
  end.
Proof.
  unfold _bounded_integer. destruct (match dget name values with Some _ => _ | None => _ end) as [n|]; [|by eexists].
  destruct (Z.leb_spec lo n), (Z.leb_spec n hi); cbn [andb]; first [by eexists|done].
Qed.

(** A configuration is within its documented limits, or refused with a
    ValueError: the repository and the branch are well formed, the root is the fixed
    one, and the numbers are in their ranges. *)
Theorem configuration_bounded values :
  match from_mapping values with
  | Ok c =>
      REPOSITORY_PATTERN (repository c) = true /\ is_branch (branch c) = true /\
      install_root c = "/opt/gate-controller-deploy" /\ is_service_name (service_name c) = true /\
      (3 <= keep_releases c <= 8)%Z /\ (5 <= request_timeout_seconds c <= 120)%Z /\
      (60 <= command_timeout_seconds c <= 3600)%Z /\ (5 <= health_seconds c <= 120)%Z /\
      github_token c <> Some EmptyString
  | Err e => exists msg, e = ValueError msg
  end.
Proof.
  unfold from_mapping. cbv zeta. destruct (REPOSITORY_PATTERN _) eqn:Erep; [|by eexists]. cbn [negb].
  destruct (is_branch _) eqn:Ebr; [|by eexists]. cbn [negb].
  destruct (String.eqb_spec (default "/opt/gate-controller-deploy" (dget "GATE_UPDATE_ROOT" values)) "/opt/gate-controller-deploy") as [Hroot|];
    [|by eexists]. cbn [negb].
  pose proof (bounded_integer_result values "GATE_UPDATE_KEEP_RELEASES" 3 3 8) as H1.
  destruct (_bounded_integer values "GATE_UPDATE_KEEP_RELEASES" 3 3 8); [|done].
  pose proof (bounded_integer_result values "GATE_UPDATE_REQUEST_TIMEOUT_SECONDS" 20 5 120) as H2.
  cbn [rbind]. destruct (_bounded_integer values "GATE_UPDATE_REQUEST_TIMEOUT_SECONDS" 20 5 120); [|done].
  pose proof (bounded_integer_result values "GATE_UPDATE_COMMAND_TIMEOUT_SECONDS" 900 60 3600) as H3.
  cbn [rbind]. destruct (_bounded_integer values "GATE_UPDATE_COMMAND_TIMEOUT_SECONDS" 900 60 3600); [|done].
  pose proof (bounded_integer_result values "GATE_UPDATE_HEALTH_SECONDS" 15 5 120) as H4.
  cbn [rbind]. destruct (_bounded_integer values "GATE_UPDATE_HEALTH_SECONDS" 15 5 120); [|done].
  cbn [rbind]. destruct (is_service_name _) eqn:Esv; [|by eexists]. cbn [negb].
  cbn [repository branch install_root service_name keep_releases request_timeout_seconds command_timeout_seconds health_seconds github_token].
  repeat (split; [done|]). destruct (dget "GITHUB_TOKEN" values) as [t|]; [|done]. by destruct (String.eqb_spec t EmptyString); [|intros [=]].
Qed.
