(* ===== verification/Status.v ===== *)
(** * The status of the controller: gate_controller/__main__.py and control_plane.py

    The document the heartbeat sends, built from the parts' own reports, and the
    heartbeat.  [datetime.fromisoformat] and [isoformat], [str] of an error and the file
    system below the releases are arguments. *)

From S2P Require Import Prelude Json Float Text Telemetry Relay Reolink Authorisation HotStream HotStreamChild Settings UpdatePolicy.

Definition MANAGED_RELEASES_ROOT : string := "/opt/gate-controller-deploy/releases".

Section Status.
Context (fromisoformat : string -> option datetime) (isoformat : datetime -> string) (error_text : exc -> string).
(** [path.resolve(strict=True)], [is_symlink] and [is_dir]. *)
Context (resolve : string -> option string) (is_symlink is_dir : string -> bool).

(** [observed_at.astimezone(timezone.utc)], naive times taken as UTC *)
Definition observed_utc (observed_at : datetime) : result Z :=
  match observed_at with
  | Naive us => Ok us
  | Aware us => rbind (astimezone_utc us) (fun _ => Ok us)
  end.

(** __main__.py: _camera_is_fresh, at the instant [now] *)
Definition _camera_is_fresh (timestamp : option string) (now : Z) (stale_seconds : pyfloat) : result bool :=
  match given timestamp with
  | None => Ok false
  | Some text =>
      match fromisoformat (replace_zulu text) with
      | None => Ok false
      | Some observed_at =>
          rbind (observed_utc observed_at) (fun observed =>
          let age := (now - observed)%Z in
          if (0 <=? age)%Z then rbind (timedelta_seconds stale_seconds) (fun limit => Ok (age <=? limit)%Z) else Ok false)
      end
  end.

(** The report where there is no hot stream. *)
Definition default_stream_status : dict json :=
  [("enabled", JBool false); ("ready", JBool false); ("stream", JStr "fluent"); ("sample_fps", JFloat (float_of_Z 5));
   ("source_profile", SOURCE_PROFILE); ("latest_frame_age_ms", JNull); ("buffered_frames", JInt 0); ("restart_count", JInt 0)].

(** __main__.py: _hot_stream_status, of what [status()] returns *)
Definition _hot_stream_status (hot_stream : option (result json)) : result (dict json) :=
  match hot_stream with
  | None => Ok default_stream_status
  | Some (Err e) => if is_Exception e then Ok default_stream_status else Err e
  | Some (Ok (JDict measured)) => Ok ((fun kv => (kv.1, default kv.2 (dget kv.1 measured))) <$> default_stream_status)
  | Some (Ok _) => Ok default_stream_status
  end.

(** __main__.py: _relay_status; [None] is a relay without a status. *)
Definition _relay_status (relay : option relay_state) : dict json :=
  match relay with
  | None => [("ready", JNull); ("last_outcome", JNull); ("last_outcome_at", JNull)]
  | Some s =>
      match Relay.status s with
      | (ready, last_outcome, last_outcome_at) =>
          [("ready", JBool ready); ("last_outcome", JStr last_outcome); ("last_outcome_at", JStr (isoformat last_outcome_at))]
      end
  end.

(** __main__.py: _managed_release_sha *)
Definition _managed_release_sha (module_path releases_root : string) : option string :=
  match resolve module_path, resolve releases_root with
  | Some resolved_module, Some resolved_releases =>
      if within resolved_releases resolved_module then
        match drop (length (path_parts resolved_releases)) (path_parts resolved_module) with
        | release_sha :: _ :: _ =>
            let release := path_child resolved_releases release_sha in
            if negb (SHA_PATTERN release_sha) || is_symlink release || negb (is_dir release) then None else Some release_sha
        | _ => None
        end
      else None
  | _, _ => None
  end.

(** The document of [AuthorisedPlateCache.status]. *)
Definition authorisation_status (s : cache_status) : dict json :=
  [("available", JBool (cs_available s)); ("stale", JBool (cs_stale s));
   ("refreshed_at", json_of_option (fun t => JStr (isoformat t)) (cs_refreshed_at s));
   ("last_error", json_of_option (fun e => JStr (error_text e)) (cs_last_error s))].

(** What the parts report when the status is built. *)
Record reports := {
  rp_now : Z;
  rp_latest_path : option string;
  rp_received_at : option string;
  (** [Path(camera_directory).is_dir()], when there is a camera directory. *)
  rp_camera_directory : option (result bool);
  rp_queue_depth : result nat;
  rp_audio_available : bool;
  rp_relay : option relay_state;
  rp_media : result (dict json);
  rp_hot_stream : option (result json);
  rp_authorised : option cache_status;
  rp_module_path : string;
}.

Definition json_text (s : option string) : json := json_of_option JStr s.

(** __main__.py: _controller_status *)
Definition _controller_status (stale_seconds : pyfloat) (r : reports) : result (dict json) :=
  rbind (_camera_is_fresh (rp_received_at r) (rp_now r) stale_seconds) (fun camera_upload_recent =>
  rbind (match rp_camera_directory r with None => Ok false | Some there => there end) (fun camera_upload_ready =>
  rbind (rp_queue_depth r) (fun queue_depth =>
  rbind (rp_media r) (fun media =>
  rbind (_hot_stream_status (rp_hot_stream r)) (fun hot_stream =>
  Ok ([("last_seen_at", JStr (isoformat (Aware (rp_now r)))); ("latest_camera_image", json_text (rp_latest_path r));
       ("last_camera_upload_at", json_text (rp_received_at r)); ("queue_depth", JInt (Z.of_nat queue_depth));
       ("audio_available", JBool (rp_audio_available r)); ("camera_configured", JBool (bool_decide (is_Some (rp_camera_directory r))));
       ("camera_upload_ready", JBool camera_upload_ready); ("camera_upload_recent", JBool camera_upload_recent);
       ("camera_connection_probed", JBool false); ("camera_connected", JNull); ("relay", JDict (_relay_status (rp_relay r)));
       ("media", JDict media);
       ("recognition", JDict [("hot_stream", JDict hot_stream);
                              ("local_shadow", JDict [("mode", JStr "disabled"); ("ready", JBool false)])])]
      ++ match _managed_release_sha (rp_module_path r) MANAGED_RELEASES_ROOT with
         | Some release_sha => [("software", JDict [("release_sha", JStr release_sha)])]
         | None => []
         end
      ++ match rp_authorised r with Some s => [("authorisation", JDict (authorisation_status s))] | None => [] end)))))).

(** control_plane.py: HeartbeatWorker.run_once, with the client's [post_json] *)
Definition heartbeat_once (controller_id : string) (post : string * json -> result unit) (status : result (dict json)) : result bool :=
  match rbind status (fun document => post (heartbeat_request controller_id document)) with
  | Ok _ => Ok true
  | Err e => if is_Exception e then Ok false else Err e
  end.
End Status.

(** ** What a heartbeat says *)

Section Facts.
Context (fromisoformat : string -> option datetime) (isoformat : datetime -> string) (error_text : exc -> string).
Context (resolve : string -> option string) (is_symlink is_dir : string -> bool).

(** An upload of the last [stale_seconds] seconds, none of the future. *)
Definition received_recently (r : reports) (stale_seconds : pyfloat) : Prop :=
  exists text observed limit, rp_received_at r = Some text /\
    (fromisoformat (replace_zulu text) = Some (Aware observed) \/ fromisoformat (replace_zulu text) = Some (Naive observed)) /\
    timedelta_seconds stale_seconds = Ok limit /\ (0 <= rp_now r - observed <= limit)%Z.

(** A release of that commit that holds the module. *)
Definition release_of_module (r : reports) (sha : string) : Prop :=
  exists root module rest, resolve MANAGED_RELEASES_ROOT = Some root /\ resolve (rp_module_path r) = Some module /\
    path_parts module = path_parts root ++ sha :: rest /\ rest <> [] /\ SHA_PATTERN sha = true /\
    is_dir (path_child root sha) = true /\ is_symlink (path_child root sha) = false.

Lemma fresh_recently r stale recent : _camera_is_fresh fromisoformat (rp_received_at r) (rp_now r) stale = Ok recent ->
  recent = true -> received_recently r stale.
Proof.
  unfold _camera_is_fresh. destruct (given (rp_received_at r)) as [text|] eqn:Eg; [|intros [= <-]; done].
  destruct (rp_received_at r) as [[|a t]|] eqn:Er; try done. injection Eg as <-.
  destruct (fromisoformat _) as [observed_at|] eqn:Ef; [|intros [= <-]; done].
  intros H ->. apply rbind_ok in H as (observed & Ho & H). cbv zeta in H. destruct (0 <=? _)%Z eqn:Ea; [|done].
  apply rbind_ok in H as (limit & Hl & [= H]). exists (String a t), observed, limit. split; [done|].
  split; [|split; [done|lia]]. unfold observed_utc in Ho. destruct observed_at as [us|us].
  - apply rbind_ok in Ho as (x & _ & [= ->]). by left.
  - injection Ho as ->. by right.
Qed.

Lemma release_sha_exact r sha : _managed_release_sha resolve is_symlink is_dir (rp_module_path r) MANAGED_RELEASES_ROOT = Some sha ->
  release_of_module r sha.
Proof.
  unfold _managed_release_sha. destruct (resolve (rp_module_path r)) as [m|] eqn:Em; [|done].
  destruct (resolve MANAGED_RELEASES_ROOT) as [root|] eqn:Er; [|done]. destruct (within root m) eqn:Ew; [|done].
  apply bool_decide_eq_true in Ew as [rest Hrest]. rewrite Hrest, drop_app_length. destruct rest as [|s [|x rest]]; [done|done|].
  cbv zeta. destruct (_ || _) eqn:Ec; [done|]. intros [= ->]. rewrite !orb_false_iff, !negb_false_iff in Ec. destruct Ec as [[E1 E2] E3].
  by exists root, m, (x :: rest).
Qed.

(** The report on the stream has the same parts whatever the buffer says, and is
    ready only when the buffer says so. *)
Lemma stream_status_exact hot_stream d : _hot_stream_status hot_stream = Ok d ->
  d.*1 = default_stream_status.*1 /\
  (dict_get "ready" d = JBool true -> exists measured, hot_stream = Some (Ok (JDict measured)) /\ dget "ready" measured = Some (JBool true)).
Proof.
  assert (Hdefault : default_stream_status.*1 = default_stream_status.*1 /\
    (dict_get "ready" default_stream_status = JBool true -> exists measured,
       hot_stream = Some (Ok (JDict measured)) /\ dget "ready" measured = Some (JBool true))) by by split; [|intros [=]].
  unfold _hot_stream_status. destruct hot_stream as [[[| | | | | | |measured]|e]|];
    try (by intros H; apply ok_inj in H as <-).
  - intros H. apply ok_inj in H as <-. split; [by rewrite <- list_fmap_compose|].
    unfold dict_get. cbn [default_stream_status fmap list_fmap dget]. cbn. intros H. exists measured. split; [done|].
    destruct (dget "ready" measured) as [j|]; [by rewrite <- H|done].
  - destruct (is_Exception e); [|done]. intros H. by apply ok_inj in H as <-.
Qed.

(** The buffer's own report goes out unchanged. *)
Lemma buffer_reported config ring restarts d :
  _hot_stream_status (Some (Ok (JDict (buffer_status config ring restarts)))) = Ok d ->
  forall key, key ∈ default_stream_status.*1 -> dict_get key d = dict_get key (buffer_status config ring restarts).
Proof.
  intros H. apply ok_inj in H as <-. intros key Hkey.
  repeat (apply elem_of_cons in Hkey as [->|Hkey]; [reflexivity|]). by apply elem_of_nil in Hkey.
Qed.

(** What a status document says. *)
Definition truthful (r : reports) (stale_seconds : pyfloat) (d : dict json) : Prop :=
  (dict_get "camera_upload_recent" d = JBool true -> received_recently r stale_seconds) /\
  (dict_get "camera_upload_ready" d = JBool true -> rp_camera_directory r = Some (Ok true)) /\
  (exists media, rp_media r = Ok media /\ dict_get "media" d = JDict media) /\
  (exists n, rp_queue_depth r = Ok n /\ dict_get "queue_depth" d = JInt (Z.of_nat n)) /\
  (exists stream, dict_get "recognition" d =
       JDict [("hot_stream", JDict stream); ("local_shadow", JDict [("mode", JStr "disabled"); ("ready", JBool false)])] /\
     stream.*1 = default_stream_status.*1 /\
     (dict_get "ready" stream = JBool true -> exists measured, rp_hot_stream r = Some (Ok (JDict measured)) /\ dget "ready" measured = Some (JBool true))) /\
  (dict_get "software" d = JNull \/ exists sha, dict_get "software" d = JDict [("release_sha", JStr sha)] /\ release_of_module r sha) /\
  dict_get "relay" d = JDict (_relay_status isoformat (rp_relay r)).

Lemma status_truthful r stale d :
  _controller_status fromisoformat isoformat error_text resolve is_symlink is_dir stale r = Ok d -> truthful r stale d.
Proof.
  unfold _controller_status. intros H. apply rbind_ok in H as (recent & Hrecent & H). apply rbind_ok in H as (ready & Hready & H).
  apply rbind_ok in H as (depth & Hdepth & H). apply rbind_ok in H as (media & Hmedia & H). apply rbind_ok in H as (stream & Hstream & H).
  apply ok_inj in H. pose proof (stream_status_exact _ _ Hstream) as [Hkeys Hsr].
  assert (E1 : dict_get "camera_upload_recent" d = JBool recent) by (subst d; reflexivity).
  assert (E2 : dict_get "camera_upload_ready" d = JBool ready) by (subst d; reflexivity).
  assert (E3 : dict_get "media" d = JDict media) by (subst d; reflexivity).
  assert (E4 : dict_get "queue_depth" d = JInt (Z.of_nat depth)) by (subst d; reflexivity).
  assert (E5 : dict_get "relay" d = JDict (_relay_status isoformat (rp_relay r))) by (subst d; reflexivity).
  assert (E6 : dict_get "recognition" d =
    JDict [("hot_stream", JDict stream); ("local_shadow", JDict [("mode", JStr "disabled"); ("ready", JBool false)])]) by (subst d; reflexivity).
  split; [rewrite E1; intros [= ->]; by eapply fresh_recently|].
  split; [rewrite E2; intros [= ->]; destruct (rp_camera_directory r); [by f_equal|done]|].
  split; [by exists media|]. split; [by exists depth|]. split; [by exists stream|]. split; [|done].
  destruct (_managed_release_sha resolve is_symlink is_dir (rp_module_path r) MANAGED_RELEASES_ROOT) as [sha|] eqn:Es; [right|left].
  - exists sha. split; [subst d; reflexivity|by apply release_sha_exact].
  - subst d. by destruct (rp_authorised r).
Qed.
End Facts.


(** ** Heartbeats *)

Module Sample.
Definition parse_time (s : string) : option datetime := if String.eqb s "then" then Some (Aware (seconds 100)) else None.
Definition release : string := "0123456789abcdef0123456789abcdef01234567".
Definition module_path : string := path_child (path_child MANAGED_RELEASES_ROOT release) "gate_controller/__main__.py".
Definition idle : reports :=
  {| rp_now := seconds 130; rp_latest_path := Some "/home/ftp/a.jpg"; rp_received_at := Some "then"; rp_camera_directory := Some (Ok true);
     rp_queue_depth := Ok 2%nat; rp_audio_available := true; rp_relay := None; rp_media := Ok []; rp_hot_stream := None;
     rp_authorised := None; rp_module_path := module_path |}.
Definition posts (request : string * json) : result unit := if String.eqb request.1 "/api/controller/status" then Ok tt else Err OSError.
Definition beat (stale : pyfloat) : result bool :=
  heartbeat_once "primary" posts
    (_controller_status parse_time (fun _ => "now") (fun _ => "error") Some (fun _ => false) (fun _ => true) stale idle).


(** A limit that is not a number is accepted at the start, and no heartbeat succeeds
    after the first upload. *)
Lemma nan_limit_silences :
  (exists workers, build_background_workers (fun _ => Err (ValueError "url")) (fun _ => None) [("GATE_CAMERA_STALE_SECONDS", "nan")] true true = Ok workers) /\
  beat NaN = Ok false.
Proof. split; [eexists; vm_compute; reflexivity|by vm_compute]. Qed.
End Sample.
