(* ===== verification/Updater.v ===== *)
(** * The release updater: deployment/gate_controller_updater.py

    The directory of releases, the link to the current one and the durable record
    of a pending activation, as one run of the updater changes them through
    commands and system calls that may fail at any point.  An exception outside
    [Exception] stands for the death of the process.  The answers of the system and
    of commands are arguments, indexed by the number of answers consumed; commands
    leave a trace. *)

From Stdlib Require Import Strings.Byte.
From S2P Require Import Prelude Json Text Base64 AtomicFile MediaToken UpdatePolicy.

(** ** State *)

(** A path below the releases directory, or one elsewhere. *)
Inductive path :=
| Release (name : string)
| Elsewhere (name : string).
Definition name_of (p : path) : string := match p with Release n | Elsewhere n => n end.
#[export] Instance path_eq_dec : EqDecision path := ltac:(solve_decision).

(** An entry of the releases directory; a link is kept with what it resolves to. *)
Inductive node :=
| Directory (modified : Z)
| Link (target : option path)
| File.

(** What is at the place of the link to the current release. *)
Inductive entry :=
| LinkTo (target : path)
| NotALink.

Inductive event :=
| Ran (arguments : list string) (cwd : option string) (user : option string) (git_auth : bool) (output : option string)
| Queried (state service : string) (answer : option bool)
| Slept
| Switched (target : path)
| Renamed (staging release : string)
| Removed (release : string).

Record deployment := {
  dp_dir : directory text;
  dp_links : dict entry;
  dp_releases : dict node;
  dp_log : list event;
}.

Definition set_dir (x : directory text) (d : deployment) : deployment :=
  {| dp_dir := x; dp_links := dp_links d; dp_releases := dp_releases d; dp_log := dp_log d |}.
Definition set_links (x : dict entry) (d : deployment) : deployment :=
  {| dp_dir := dp_dir d; dp_links := x; dp_releases := dp_releases d; dp_log := dp_log d |}.
Definition set_releases (x : dict node) (d : deployment) : deployment :=
  {| dp_dir := dp_dir d; dp_links := dp_links d; dp_releases := x; dp_log := dp_log d |}.
Definition add_event (e : event) (d : deployment) : deployment :=
  {| dp_dir := dp_dir d; dp_links := dp_links d; dp_releases := dp_releases d; dp_log := dp_log d ++ [e] |}.

Record PendingActivation := {
  candidate_sha : string;
  previous_sha : string;
  legacy_command_enabled : option bool;
  legacy_command_active : option bool;
}.
Record LegacyCommandState := { enabled : bool; active : bool }.

Definition PENDING : string := "pending-activation.json".

(** What a command gives: its exit status and output, or OSError or a timeout. *)
Record completed_process := { returncode : Z; stdout : string; stderr : string }.

(** What the code asks of the system: the outcome of a system call and of a command,
    whether a file inside a release exists, the part of a temporary name that is
    made up, the time of a new directory, whether a path is irregular or a removal
    incomplete. *)
Record environment := {
  env_io : nat -> result unit;
  env_command : nat -> result completed_process;
  env_present : nat -> bool;
  env_name : nat -> string;
  env_time : nat -> Z;
  env_keeps : nat -> bool;
  env_pid : string;
  env_executable : string;
}.

Section Updater.
Context (E : environment) (c : UpdateConfig).

Definition io := env_io E.
Definition on_dir {A} (m : M (directory text) A) : M deployment A := lift dp_dir set_dir m.
Definition call : M deployment unit := on_dir (AtomicFile.system_call io).
Definition ask {A} (f : nat -> A) : M deployment A := on_dir (read f).
Definition record (e : event) : M deployment unit := modify (add_event e).
Definition on_releases (f : dict node -> dict node) : M deployment unit :=
  modify (fun d => set_releases (f (dp_releases d)) d).
Definition on_links (f : dict entry -> dict entry) : M deployment unit :=
  modify (fun d => set_links (f (dp_links d)) d).

(** [try: m  except Exception as error: ...], the error kept as a value. *)
Definition attempt {A} (m : M deployment A) : M deployment (A + exc) :=
  try_except (let! a := m in ret (inl a)) (fun e => ret (inr e)).

(** ** Commands *)

Definition releases_path (name : string) : string := path_child (releases_root c) name.

(** gate_controller_updater.py: _run_command *)
Definition _run_command (arguments : list string) (cwd : option string) (git_auth : bool) (user : option string)
  : M deployment string :=
  let! answer := ask (env_command E) in
  match answer with
  | Ok completed =>
      if (returncode completed =? 0)%Z then
        let output := string_of_list_ascii (strip (chars_of (stdout completed))) in
        record (Ran arguments cwd user git_auth (Some output)) ;! ret output
      else
        record (Ran arguments cwd user git_auth None) ;!
        raise (UpdateError (String.append "command failed: " (String.concat " " arguments)))
  | Err e =>
      record (Ran arguments cwd user git_auth None) ;!
      raise (if is_OSError e then UpdateError (String.append "command failed: " (String.concat " " arguments)) else e)
  end.

Definition build_command (arguments : list string) (cwd : option string) : M deployment unit :=
  _run_command arguments cwd false (Some BUILD_USER) ;! ret tt.
Definition root_command (arguments : list string) : M deployment unit :=
  _run_command arguments None false None ;! ret tt.

(** gate_controller_updater.py: verify_release *)
Definition verify_release (release : string) : M deployment unit :=
  let python := path_child release ".venv/bin/python" in
  let! present := ask (env_present E) in
  (if present : bool then ret tt
   else
     build_command [env_executable E; "-m"; "venv"; path_child release ".venv"] None ;!
     build_command [python; "-m"; "pip"; "install"; "--disable-pip-version-check"; "--no-input"; "-r";
                    path_child release "requirements.txt"] (Some release)) ;!
  build_command [python; "-m"; "unittest"; "discover"; "-s"; "tests"; "-v"] (Some release) ;!
  build_command [python; "-m"; "compileall"; "-q"; "gate_controller"; "deployment"; "tests"; "scripts"] (Some release) ;!
  build_command ["/bin/sh"; "-n"; "file_monitor.sh"] (Some release) ;!
  build_command ["/bin/bash"; "-n"; "deployment/install.sh"] (Some release).

(** [os.rename(staging, destination)] *)
Definition rename (staging destination : string) : M deployment unit :=
  call ;!
  let! releases := gets dp_releases in
  match dget destination releases, dget staging releases with
  | None, Some n => on_releases (fun r => ddel staging (dset destination n r)) ;! record (Renamed staging destination)
  | _, _ => raise OSError
  end.

(** The [try] of stage_release. *)
Definition fill_staging (sha staging : string) : M deployment unit :=
  let place := releases_path staging in
  root_command ["chown"; String.append BUILD_USER (String.append ":" BUILD_USER); place] ;!
  build_command ["git"; "init"; "--quiet"; place] None ;!
  build_command ["git"; "-C"; place; "remote"; "add"; "origin";
                 String.append "https://github.com/" (String.append (repository c) ".git")] None ;!
  _run_command ["git"; "-C"; place; "fetch"; "--quiet"; "--depth=1"; "--no-tags"; "origin"; sha] None true
    (Some BUILD_USER) ;!
  build_command ["git"; "-C"; place; "checkout"; "--quiet"; "--detach"; "FETCH_HEAD"] None ;!
  let! fetched_sha := _run_command ["git"; "-C"; place; "rev-parse"; "HEAD"] None false (Some BUILD_USER) in
  (if String.eqb fetched_sha sha then ret tt
   else raise (UpdateError "Git fetched a different commit than requested")) ;!
  call ;!
  verify_release place ;!
  root_command ["chown"; "-R"; "root:root"; place] ;!
  call ;!
  rename staging sha ;!
  on_dir (_fsync_directory io).

(** [shutil.rmtree(staging, ignore_errors=True)] *)
Definition discard (staging : string) : M deployment unit :=
  let! kept := ask (env_keeps E) in
  if kept : bool then ret tt else on_releases (ddel staging).

(** [path.exists()] and [path.is_dir() and not path.is_symlink()] *)
Definition resolves (releases : dict node) (p : path) : option path :=
  match p with
  | Elsewhere n => Some (Elsewhere n)
  | Release n =>
      match dget n releases with
      | Some (Directory _) | Some File => Some (Release n)
      | Some (Link (Some (Release m))) =>
          match dget m releases with Some (Directory _) | Some File => Some (Release m) | _ => None end
      | Some (Link t) => t
      | None => None
      end
  end.
Definition is_directory (releases : dict node) (name : string) : bool :=
  match dget name releases with Some (Directory _) => true | _ => false end.

(** gate_controller_updater.py: stage_release; the release by its name *)
Definition stage_release (sha : string) : M deployment string :=
  if negb (SHA_PATTERN sha) then raise (UpdateError "refusing to stage an invalid SHA")
  else
    call ;!
    call ;!
    let! releases := gets dp_releases in
    if bool_decide (is_Some (resolves releases (Release sha))) then
      if negb (is_directory releases sha) then raise (UpdateError "candidate release path is not a managed directory")
      else verify_release (releases_path sha) ;! ret sha
    else
      call ;!
      let! suffix := ask (env_name E) in
      let! modified := ask (env_time E) in
      let staging := String.append ".staging-" (String.append sha (String.append "-" suffix)) in
      on_releases (dset staging (Directory modified)) ;!
      try_except (fill_staging sha staging ;! ret sha) (fun e => discard staging ;! raise e).

(** ** Links and records *)

(** [os.replace(temporary, link)] of _atomic_symlink *)
Definition replace_link (temporary link : string) : M deployment unit :=
  call ;!
  let! links := gets dp_links in
  match dget temporary links with
  | Some (LinkTo p) => on_links (fun l => ddel temporary (dset link (LinkTo p) l)) ;! record (Switched p)
  | Some NotALink => on_links (fun l => ddel temporary (dset link NotALink l))
  | None => raise OSError
  end.

(** gate_controller_updater.py: _atomic_symlink *)
Definition _atomic_symlink (target : path) (link : string) : M deployment unit :=
  let temporary := String.append "." (String.append link (String.append "." (env_pid E))) in
  let unlink := call ;! on_links (ddel temporary) in
  unlink ;!
  try_finally
    (call ;! on_links (dset temporary (LinkTo target)) ;!
     replace_link temporary link ;!
     on_dir (_fsync_directory io))
    unlink.

Definition CURRENT : string := "current".

(** gate_controller_updater.py: discover_current_sha *)
Definition discover_current_sha : M deployment (option string) :=
  call ;!
  let! links := gets dp_links in
  match dget CURRENT links with
  | None => ret None
  | Some NotALink => raise (ValueError "current release path is not a symlink")
  | Some (LinkTo p) =>
      let broken := ValueError "current release symlink is broken" in
      os_error_as broken (call ;! call) ;!
      let! releases := gets dp_releases in
      match resolves releases p with
      | None => raise broken
      | Some (Elsewhere _) => raise (ValueError "current release is outside the managed release directory")
      | Some (Release name) =>
          if negb (SHA_PATTERN name)
          then raise (ValueError "current release is outside the managed release directory")
          else call ;!
               if is_directory releases name then ret (Some name)
               else raise (ValueError "current release target is not a directory")
      end
  end.

(** gate_controller_updater.py: _managed_release_path *)
Definition _managed_release_path (sha : string) : M deployment path :=
  os_error_as (ActivationError "pending activation release is unavailable")
    (call ;!
     call ;!
     let! releases := gets dp_releases in
     if negb (is_directory releases sha)
     then raise (ActivationError "pending activation references an unmanaged release")
     else call ;! ret (Release sha)).

(** [config.current_link.resolve(strict=True)] *)
Definition resolve_current : M deployment path :=
  call ;!
  let! links := gets dp_links in
  let! releases := gets dp_releases in
  match dget CURRENT links with
  | None => raise OSError
  | Some NotALink => ret (Elsewhere CURRENT)
  | Some (LinkTo p) => match resolves releases p with Some q => ret q | None => raise OSError end
  end.

(** ** systemd *)

Definition normalised_output (s : string) : string := lower_text (string_of_list_ascii (strip (chars_of s))).

Definition confirmed_not_present (state : string) : list string :=
  if String.eqb state "is-enabled" then ["disabled"; "indirect"; "masked"; "not-found"; "static"]
  else if String.eqb state "is-active" then ["failed"; "inactive"; "not-found"] else [].

(** What _systemctl_is concludes from a finished command. *)
Definition unit_state (state service : string) (completed : completed_process) : option bool :=
  if (returncode completed =? 0)%Z then Some true
  else
    let result := normalised_output (stdout completed) in
    let diagnostic := normalised_output (stderr completed) in
    if bool_decide (result ∈ confirmed_not_present state) then Some false
    else
      let missing := String.append "failed to get unit file state for " (String.append service ": no such file or directory") in
      if String.eqb state "is-enabled" && String.eqb diagnostic missing then Some false else None.

(** gate_controller_updater.py: _systemctl_is *)
Definition _systemctl_is (state service : string) : M deployment bool :=
  let undetermined := UpdateError (String.append "could not determine whether " (String.append service
                        (String.append " is " state))) in
  let! answer := ask (env_command E) in
  match answer with
  | Ok completed =>
      let concluded := unit_state state service completed in
      record (Queried state service concluded) ;!
      match concluded with Some b => ret b | None => raise undetermined end
  | Err e => record (Queried state service None) ;! raise (if is_OSError e then undetermined else e)
  end.

(** gate_controller_updater.py: _legacy_command_state *)
Definition _legacy_command_state : M deployment LegacyCommandState :=
  let! e := _systemctl_is "is-enabled" LEGACY_COMMAND_SERVICE in
  let! a := _systemctl_is "is-active" LEGACY_COMMAND_SERVICE in
  ret {| enabled := e; active := a |}.

(** gate_controller_updater.py: _retire_legacy_command_service *)
Definition _retire_legacy_command_service (state : option LegacyCommandState) : M deployment LegacyCommandState :=
  let! state := match state with Some s => ret s | None => _legacy_command_state end in
  if enabled state || active state
  then root_command ["systemctl"; "disable"; "--now"; LEGACY_COMMAND_SERVICE] ;! ret state
  else ret state.

(** gate_controller_updater.py: _previous_release_expects_legacy_command_service *)
Definition _previous_release_expects_legacy_command_service : M deployment bool := call ;! ask (env_present E).

(** gate_controller_updater.py: _restore_legacy_command_service *)
Definition _restore_legacy_command_service (pending : PendingActivation) : M deployment unit :=
  match legacy_command_enabled pending, legacy_command_active pending with
  | Some was_enabled, Some was_active =>
      let! expects := _previous_release_expects_legacy_command_service in
      if negb expects then ret tt
      else
        (if was_enabled : bool then root_command ["systemctl"; "enable"; LEGACY_COMMAND_SERVICE] else ret tt) ;!
        (if was_active : bool then root_command ["systemctl"; "restart"; LEGACY_COMMAND_SERVICE] else ret tt)
  | _, _ => ret tt
  end.

(** gate_controller_updater.py: _service_is_active *)
Definition _service_is_active : M deployment bool := _systemctl_is "is-active" (service_name c).

(** The health checks of _restart_and_confirm. *)
Fixpoint confirm_active (checks : nat) : M deployment unit :=
  match checks with
  | O => ret tt
  | S checks' =>
      call ;!
      record Slept ;!
      let! running := _service_is_active in
      if running : bool then confirm_active checks'
      else raise (UpdateError (String.append (service_name c) " did not remain active during health check"))
  end.

(** gate_controller_updater.py: _restart_and_confirm *)
Definition _restart_and_confirm : M deployment unit :=
  root_command ["systemctl"; "restart"; service_name c] ;!
  confirm_active (Z.to_nat (health_seconds c)).

(** ** The record of a pending activation *)

Definition pending_payload (p : PendingActivation) : json :=
  JDict [("candidate", JStr (candidate_sha p)); ("legacy_command_active", json_of_option JBool (legacy_command_active p));
         ("legacy_command_enabled", json_of_option JBool (legacy_command_enabled p));
         ("previous", JStr (previous_sha p)); ("version", JInt 2)].

(** gate_controller_updater.py: _atomic_write *)
Definition _atomic_write (name : string) (content : text) : M (directory text) unit :=
  AtomicFile.system_call io ;!
  AtomicFile.system_call io ;!
  let! suffix := read (env_name E) in
  let temporary := String.append "." (String.append name (String.append "." suffix)) in
  on_files (dset temporary Malformed) ;!
  write_atomically io (fun _ _ => Malformed) Malformed (AtomicFile.system_call io) (ret tt) (AtomicFile.system_call io)
    (_fsync_directory io) temporary name content.

(** gate_controller_updater.py: _write_pending_activation *)
Definition _write_pending_activation (release previous : path) (state : LegacyCommandState)
  : M deployment PendingActivation :=
  let pending := {| candidate_sha := name_of release; previous_sha := name_of previous;
                    legacy_command_enabled := Some (enabled state); legacy_command_active := Some (active state) |} in
  on_dir (_atomic_write PENDING (dumps (pending_payload pending))) ;!
  ret pending.

(** [fields_for_version.get(version)]: True and 1.0 are 1; lists and objects are not
    hashable. *)
Definition version_number (version : json) : result (option Z) :=
  match version with
  | JInt z => Ok (Some z)
  | JBool b => Ok (Some (if b then 1 else 0)%Z)
  | JFloat f => Ok (if bool_decide (f = float_1) then Some 1%Z else if bool_decide (f = float_lit 1 1) then Some 2%Z else None)
  | JList _ | JDict _ => Err TypeError
  | _ => Ok None
  end.
Definition fields_for_version (version : option Z) : option (list string) :=
  match version with
  | Some 1%Z => Some ["candidate"; "previous"; "version"]
  | Some 2%Z => Some ["candidate"; "legacy_command_active"; "legacy_command_enabled"; "previous"; "version"]
  | _ => None
  end.

(** The checks on the parsed record. *)
Definition pending_of_payload (payload : json) : result PendingActivation :=
  let unexpected := ActivationError "pending activation record has unexpected fields" in
  let d := match payload with JDict d => d | _ => [] end in
  match payload with
  | JDict _ =>
      rbind (version_number (dict_get "version" d)) (fun version =>
      match fields_for_version version with
      | None => Err unexpected
      | Some fields =>
          if negb (same_keys d fields) then Err unexpected
          else
            let invalid := ActivationError "pending activation release SHAs are invalid" in
            match dict_get "candidate" d, dict_get "previous" d with
            | JStr candidate, JStr previous =>
                if negb (SHA_PATTERN candidate) || negb (SHA_PATTERN previous) || String.eqb candidate previous
                then Err invalid
                else if bool_decide (version = Some 2%Z) then
                  match dict_get "legacy_command_enabled" d, dict_get "legacy_command_active" d with
                  | JBool e, JBool a => Ok {| candidate_sha := candidate; previous_sha := previous;
                                              legacy_command_enabled := Some e; legacy_command_active := Some a |}
                  | _, _ => Err (ActivationError "pending activation legacy command state is invalid")
                  end
                else Ok {| candidate_sha := candidate; previous_sha := previous;
                           legacy_command_enabled := None; legacy_command_active := None |}
            | _, _ => Err invalid
            end
      end)
  | _ => Err unexpected
  end.

(** gate_controller_updater.py: _read_pending_activation *)
Definition _read_pending_activation : M deployment (option PendingActivation) :=
  call ;!
  let! files := gets (fun d => sl_files (dp_dir d)) in
  match dget PENDING files with
  | None => ret None
  | Some content =>
      let! irregular := ask (env_keeps E) in
      if irregular : bool then raise (ActivationError "pending activation record is not a regular file")
      else
        let malformed := ActivationError "pending activation record is malformed" in
        os_error_as malformed call ;!
        match loads content with
        | Err _ => raise malformed
        | Ok payload =>
            let! pending := of_result (pending_of_payload payload) in
            _managed_release_path (candidate_sha pending) ;!
            _managed_release_path (previous_sha pending) ;!
            ret (Some pending)
        end
  end.

(** gate_controller_updater.py: _clear_pending_activation *)
Definition _clear_pending_activation : M deployment unit :=
  call ;!
  let! files := gets (fun d => sl_files (dp_dir d)) in
  match dget PENDING files with
  | None => raise OSError
  | Some _ => on_dir (on_files (ddel PENDING) ;! _fsync_directory io)
  end.

(** ** Reconciliation and activation *)

(** The handler of reconcile_pending_activation. *)
Definition roll_back_candidate (pending : PendingActivation) : M deployment string :=
  let! previous := _managed_release_path (previous_sha pending) in
  let! restored := attempt (_atomic_symlink previous CURRENT ;! _restart_and_confirm ;!
                            _restore_legacy_command_service pending) in
  match restored with
  | inr _ => raise (ActivationError "pending candidate failed health check; rollback also failed")
  | inl _ =>
      _clear_pending_activation ;!
      raise (ActivationError "pending candidate failed health check and was rolled back")
  end.

(** The record with the state of the legacy service, written when an older version of
    the updater left it out. *)
Definition upgraded_record (pending : PendingActivation) : M deployment PendingActivation :=
  match legacy_command_enabled pending with
  | Some _ => ret pending
  | None =>
      let! candidate := _managed_release_path (candidate_sha pending) in
      let! previous := _managed_release_path (previous_sha pending) in
      let! state := _legacy_command_state in
      _write_pending_activation candidate previous state
  end.

(** The [try] of reconcile_pending_activation and what follows it. *)
Definition confirm_candidate (pending : PendingActivation) : M deployment string :=
  let! upgraded := attempt (upgraded_record pending) in
  match upgraded with
  | inr _ => roll_back_candidate pending
  | inl pending =>
      let! confirmed := attempt (_retire_legacy_command_service None ;! _restart_and_confirm) in
      match confirmed with
      | inr _ => roll_back_candidate pending
      | inl _ => _clear_pending_activation ;! ret (candidate_sha pending)
      end
  end.

(** gate_controller_updater.py: reconcile_pending_activation *)
Definition reconcile_pending_activation : M deployment (option string) :=
  let! pending := _read_pending_activation in
  let! current_sha := discover_current_sha in
  match pending with
  | None => ret current_sha
  | Some pending =>
      if bool_decide (current_sha = Some (previous_sha pending)) then
        _managed_release_path (previous_sha pending) ;!
        _restart_and_confirm ;!
        _restore_legacy_command_service pending ;!
        _clear_pending_activation ;!
        ret (Some (previous_sha pending))
      else if negb (bool_decide (current_sha = Some (candidate_sha pending)))
      then raise (ActivationError "current release does not match pending candidate")
      else let! confirmed := confirm_candidate pending in ret (Some confirmed)
  end.

(** The inner [try] of activate_release. *)
Definition roll_back (release previous : path) (pending : PendingActivation) : M deployment unit :=
  let! current_sha := discover_current_sha in
  (if bool_decide (current_sha = Some (name_of release)) then _atomic_symlink previous CURRENT
   else if bool_decide (current_sha = Some (name_of previous)) then ret tt
   else raise (ActivationError "activation failure left current at an unrelated release")) ;!
  _restart_and_confirm ;!
  _restore_legacy_command_service pending ;!
  _clear_pending_activation.

(** The [try] of activate_release once the record is written. *)
Definition switch_to (release : path) (pending : PendingActivation) : M deployment unit :=
  _retire_legacy_command_service
    (Some {| enabled := default false (legacy_command_enabled pending);
             active := default false (legacy_command_active pending) |}) ;!
  _atomic_symlink release CURRENT ;!
  _restart_and_confirm ;!
  _clear_pending_activation.

(** gate_controller_updater.py: activate_release *)
Definition activate_release (release previous : path) : M deployment unit :=
  let! legacy_command_state := _legacy_command_state in
  let! written := attempt (_write_pending_activation release previous legacy_command_state) in
  match written with
  | inr _ => raise (ActivationError "candidate activation failed before recording rollback state")
  | inl pending =>
      let! switched := attempt (switch_to release pending) in
      match switched with
      | inl _ => ret tt
      | inr _ =>
          let! rolled_back := attempt (roll_back release previous pending) in
          match rolled_back with
          | inl _ => raise (ActivationError "candidate activation failed")
          | inr _ => raise (ActivationError "candidate activation failed; rollback also failed")
          end
      end
  end.

(** ** Pruning and one run *)

(** gate_controller_updater.py: _release_entries *)
Definition _release_entries : M deployment (list ReleaseEntry) :=
  call ;!
  let! releases := gets dp_releases in
  ret (omap (fun kv : string * node => match snd kv with
                        | Directory modified => if SHA_PATTERN (fst kv) then Some {| sha := fst kv; modified_at := modified |} else None
                        | _ => None
                        end) releases).

(** [shutil.rmtree(release)]; a failing removal may leave the directory. *)
Definition remove_release (name : string) : M deployment unit :=
  call ;!
  let! releases := gets dp_releases in
  match dget name releases with
  | Some (Link _) => raise (UpdateError "refusing to remove an unmanaged release path")
  | _ =>
      let! kept := ask (env_keeps E) in
      if kept : bool then raise OSError
      else on_releases (ddel name) ;! record (Removed name)
  end.

Fixpoint remove_releases (names : list string) : M deployment unit :=
  match names with
  | [] => ret tt
  | name :: names' => remove_release name ;! remove_releases names'
  end.

(** gate_controller_updater.py: prune_releases *)
Definition prune_releases (current_sha : string) : M deployment unit :=
  let! entries := _release_entries in
  let! stale := of_result (releases_to_prune entries current_sha (keep_releases c)) in
  remove_releases stale.

Section Run.
(** The replies of the HTTP client during this run. *)
Context (urlopen : nat -> string -> dict string -> Z -> result bytes) (parse : bytes -> result json).

Definition main_commit_payload : M deployment json :=
  let! reply := ask urlopen in of_result (_main_commit_payload reply parse c).
Definition workflow_runs_payload (sha : string) : M deployment json :=
  let! reply := ask urlopen in of_result (_workflow_runs_payload reply parse c sha).

(** The body of the second [try] of run_once. *)
Definition update (current_sha : string) : M deployment Z :=
  let! main_payload := main_commit_payload in
  let! candidate_sha := of_result (read_main_sha main_payload) in
  if String.eqb candidate_sha current_sha then ret 0%Z
  else
    let! runs_payload := workflow_runs_payload candidate_sha in
    let! decision := of_result (decide_update (Some current_sha) main_payload runs_payload (branch c)) in
    match decision with
    | DEFER => ret 0%Z
    | _ =>
        let! candidate := stage_release candidate_sha in
        let! previous := resolve_current in
        activate_release (Release candidate) previous ;!
        let! pruned := attempt (prune_releases candidate_sha) in
        match pruned with
        | inr (UpdateError _) | inr (ActivationError _) | inr OSError | inr TimeoutError | inl _ => ret 0%Z
        | inr e => raise e
        end
    end.

(** gate_controller_updater.py: run_once *)
Definition run_once : M deployment Z := fun d =>
  match reconcile_pending_activation d with
  | (Err (UpdateError _), d') | (Err (ActivationError _), d') | (Err (ValueError _), d')
  | (Err OSError, d') | (Err TimeoutError, d') => (Ok 1%Z, d')
  | (Err e, d') => (Err e, d')
  | (Ok None, d') => (Ok 1%Z, d')
  | (Ok (Some current_sha), d') =>
      match update current_sha d' with
      | (Err (ActivationError _), d'') => (Ok 1%Z, d'')
      | (Err (UpdateError _), d'') | (Err (ValueError _), d'')
      | (Err OSError, d'') | (Err TimeoutError, d'') => (Ok 0%Z, d'')
      | r => r
      end
  end.
End Run.
End Updater.

(** gate_controller_updater.py: main; [os.geteuid()] and [os.environ] are arguments. *)
Definition main (E : environment) (euid : Z) (environ : dict string)
    (urlopen : nat -> string -> dict string -> Z -> result bytes) (parse : bytes -> result json) : M deployment Z :=
  if negb (euid =? 0)%Z then ret 1%Z
  else match from_mapping environ with
       | Err (ValueError _) => ret 1%Z
       | Err e => raise e
       | Ok c => run_once E c urlopen parse
       end.
