(* ===== verification/UpdaterFacts.v ===== *)
(** * Theorems about the release updater

    What each operation of Updater.v may change of the link, the record and the
    releases, and the trace it leaves; the transaction of an activation; the
    soundness of the deployment in every history of runs, failures and crashes. *)

From Stdlib Require Import Strings.Byte.
From S2P Require Import Prelude Json Text Base64 AtomicFile MediaToken UpdatePolicy Updater.

(** ** Operations that leave the deployment alone *)

Definition current_link (d : deployment) : option entry := dget CURRENT (dp_links d).
Definition pending_file (d : deployment) : option text := dget PENDING (sl_files (dp_dir d)).

Definition is_quiet (e : event) : bool :=
  match e with Switched _ | Renamed _ _ | Removed _ => false | _ => true end.

(** The trace grew. *)
Definition grown (d d' : deployment) : Prop := exists l, dp_log d' = dp_log d ++ l.

(** Neither the link, the record nor the releases changed. *)
Record calm (d d' : deployment) : Prop := {
  cm_link : current_link d' = current_link d;
  cm_pending : pending_file d' = pending_file d;
  cm_releases : dp_releases d' = dp_releases d;
  cm_log : exists l, dp_log d' = dp_log d ++ l /\ Forall (fun e => is_quiet e = true) l;
}.

#[export] Instance calm_refl : Reflexive calm.
Proof. intros d. split; try done. exists []. by rewrite app_nil_r. Qed.

#[export] Instance calm_trans : Transitive calm.
Proof.
  intros d1 d2 d3 [L1 P1 R1 (l1 & G1 & Q1)] [L2 P2 R2 (l2 & G2 & Q2)]. split; try congruence.
  exists (l1 ++ l2). split; [by rewrite G2, G1, app_assoc|]. by apply list.Forall_app.
Qed.

Definition quiet {A} (m : M deployment A) : Prop := forall d, calm d (snd (m d)).

Lemma quiet_ret {A} (a : A) : quiet (ret a).
Proof. intros d. reflexivity. Qed.
Lemma quiet_raise {A} e : quiet (raise (A := A) e).
Proof. intros d. reflexivity. Qed.
Lemma quiet_gets {A} (f : deployment -> A) : quiet (gets f).
Proof. intros d. reflexivity. Qed.
Lemma quiet_of_result {A} (r : result A) : quiet (of_result r).
Proof. intros d. reflexivity. Qed.
Lemma quiet_bind {A B} (m : M deployment A) (k : A -> M deployment B) : quiet m -> (forall a, quiet (k a)) -> quiet (bind m k).
Proof.
  intros Hm Hk d. specialize (Hm d). unfold bind. destruct (m d) as [[a|e] d']; [|done]. etrans; [exact Hm|apply Hk].
Qed.
Lemma quiet_try {A} (m : M deployment A) h : quiet m -> (forall e, quiet (h e)) -> quiet (try_except m h).
Proof.
  intros Hm Hh d. specialize (Hm d). unfold try_except. destruct (m d) as [[a|e] d']; [done|].
  destruct (is_Exception e); [|done]. etrans; [exact Hm|apply Hh].
Qed.
Lemma quiet_attempt {A} (m : M deployment A) : quiet m -> quiet (attempt m).
Proof. intros H. apply quiet_try; [apply quiet_bind; [done|intros a; apply quiet_ret]|intros e; apply quiet_ret]. Qed.
Lemma quiet_os_error {A} e (m : M deployment A) : quiet m -> quiet (os_error_as e m).
Proof. intros H d. specialize (H d). unfold os_error_as. by destruct (m d) as [[a|x] d']. Qed.
Lemma quiet_if {A} (b : bool) (m n : M deployment A) : quiet m -> quiet n -> quiet (if b then m else n).
Proof. by destruct b. Qed.
Lemma quiet_record e : is_quiet e = true -> quiet (record e).
Proof. intros He d. split; try done. exists [e]. split; [done|]. by apply List.Forall_cons. Qed.
Lemma quiet_on_dir {A} (m : M (directory text) A) :
  (forall s, dget PENDING (sl_files (snd (m s))) = dget PENDING (sl_files s)) -> quiet (on_dir m).
Proof.
  intros H d. unfold on_dir, lift. specialize (H (dp_dir d)). destruct (m (dp_dir d)) as [r s]. split; try done.
  exists []. by rewrite app_nil_r.
Qed.
#[export] Hint Resolve quiet_ret quiet_raise quiet_gets quiet_of_result quiet_bind quiet_attempt quiet_os_error quiet_if : gate.

(** Prove that a composed action is quiet. *)
Ltac quiet_step :=
  match goal with
  | |- forall _, _ => intros ?
  | |- quiet (bind _ _) => apply quiet_bind
  | |- quiet (if _ then _ else _) => apply quiet_if
  | |- quiet (match ?x with _ => _ end) => destruct x
  | |- quiet (os_error_as _ _) => apply quiet_os_error
  | |- quiet (attempt _) => apply quiet_attempt
  | |- quiet (record _) => by apply quiet_record
  end.
Ltac quiet_tac := repeat (quiet_step || solve [eauto with gate]).

Section Facts.
Context (E : environment) (c : UpdateConfig).
Abbreviation io := (env_io E).

Lemma quiet_call : quiet (call E).
Proof.
  apply quiet_on_dir. intros s. unfold AtomicFile.system_call, bind, read, of_result. by destruct (Updater.io E _).
Qed.
Lemma quiet_ask {A} (f : nat -> A) : quiet (ask f).
Proof. by apply quiet_on_dir. Qed.
Lemma quiet_fsync : quiet (on_dir (_fsync_directory (Updater.io E))).
Proof.
  apply quiet_on_dir. intros s. set (I := fun s' : directory text => dget PENDING (sl_files s') = dget PENDING (sl_files s)).
  apply (keeps_snd I); [|done]. apply leaves_files_fsync. unfold I. by intros s1 s2 ->.
Qed.
#[local] Hint Resolve quiet_call quiet_ask quiet_fsync : gate.

Lemma run_command_quiet arguments cwd git_auth user : quiet (_run_command E arguments cwd git_auth user).
Proof. unfold _run_command. quiet_tac. Qed.
#[local] Hint Resolve run_command_quiet : gate.

Lemma build_command_quiet arguments cwd : quiet (build_command E arguments cwd).
Proof. unfold build_command. quiet_tac. Qed.
Lemma root_command_quiet arguments : quiet (root_command E arguments).
Proof. unfold root_command. quiet_tac. Qed.
#[local] Hint Resolve build_command_quiet root_command_quiet : gate.

Lemma verify_release_quiet release : quiet (verify_release E release).
Proof. unfold verify_release. quiet_tac. Qed.

Lemma systemctl_quiet state service : quiet (_systemctl_is E state service).
Proof. unfold _systemctl_is. quiet_tac. Qed.
#[local] Hint Resolve verify_release_quiet systemctl_quiet : gate.

Lemma legacy_state_quiet : quiet (_legacy_command_state E).
Proof. unfold _legacy_command_state. quiet_tac. Qed.
#[local] Hint Resolve legacy_state_quiet : gate.

Lemma retire_quiet state : quiet (_retire_legacy_command_service E state).
Proof. unfold _retire_legacy_command_service. quiet_tac. Qed.

Lemma restore_quiet pending : quiet (_restore_legacy_command_service E pending).
Proof. unfold _restore_legacy_command_service, _previous_release_expects_legacy_command_service. quiet_tac. Qed.

Lemma confirm_active_quiet n : quiet (confirm_active E c n).
Proof. induction n as [|n IH]; cbn [confirm_active]; unfold _service_is_active; quiet_tac. Qed.
#[local] Hint Resolve retire_quiet restore_quiet confirm_active_quiet : gate.

Lemma restart_quiet : quiet (_restart_and_confirm E c).
Proof. unfold _restart_and_confirm. quiet_tac. Qed.

Lemma discover_quiet : quiet (discover_current_sha E).
Proof. unfold discover_current_sha. quiet_tac. Qed.

Lemma managed_quiet sha : quiet (_managed_release_path E sha).
Proof. unfold _managed_release_path. quiet_tac. Qed.
#[local] Hint Resolve restart_quiet discover_quiet managed_quiet : gate.

Lemma resolve_current_quiet : quiet (resolve_current E).
Proof. unfold resolve_current. quiet_tac. Qed.

Lemma read_pending_quiet : quiet (_read_pending_activation E).
Proof. unfold _read_pending_activation. quiet_tac. Qed.

(** ** The operations that change the deployment *)

(** The link after the events of a trace. *)
Definition linked (p : path) (l : list event) : path :=
  fold_left (fun p e => match e with Switched q => q | _ => p end) l p.

Lemma linked_app p l k : linked p (l ++ k) = linked (linked p l) k.
Proof. apply fold_left_app. Qed.

Lemma linked_quiet p l : Forall (fun e => is_quiet e = true) l -> linked p l = p.
Proof. induction 1 as [|e l He Hl IH]; [done|]. by destruct e. Qed.

Lemma temporary_record_name k : String.append "." (String.append PENDING (String.append "." k)) <> PENDING.
Proof. done. Qed.

(** The atomic write of the record: it is the new one, or unchanged after a failure. *)
Lemma write_record d content r d' :
  on_dir (_atomic_write E PENDING content) d = (r, d') ->
  current_link d' = current_link d /\ dp_releases d' = dp_releases d /\ dp_log d' = dp_log d /\
  match r with
  | Ok _ => pending_file d' = Some content
  | Err _ => pending_file d' = pending_file d \/ pending_file d' = Some content
  end.
Proof.
  set (names := fun k => String.append "." (String.append PENDING (String.append "." (env_name E k)))).
  set (s0 := dp_dir d).
  assert (H : triple (untouched names s0 PENDING) (_atomic_write E PENDING content)
    (fun _ => published names s0 PENDING content) (either names s0 PENDING content)).
  { unfold _atomic_write.
    assert (Hcall : triple (untouched names s0 PENDING) (AtomicFile.system_call (Updater.io E))
      (fun _ => untouched names s0 PENDING) (either names s0 PENDING content)).
    { eapply triple_conseq; [apply (system_call_reads _ (untouched names s0 PENDING)); apply untouched_same|done|done|by left]. }
    apply (triple_bind (A := unit) _ _ _ (fun _ => untouched names s0 PENDING)); [exact Hcall|]. intros _.
    apply (triple_bind (A := unit) _ _ _ (fun _ => untouched names s0 PENDING)); [exact Hcall|]. intros _.
    eapply (triple_bind (A := string)); [apply triple_read; apply untouched_same|]. intros suffix.
    apply triple_pure. intros [k ->].
    apply (create_and_replace (C := text) (Updater.io E) (fun _ _ => Malformed) Malformed names s0 PENDING); auto with gate. }
  unfold on_dir, lift. specialize (H s0 ltac:(done)). fold s0.
  destruct (_atomic_write E PENDING content s0) as [r0 s']. intros [= <- <-]. repeat split; try done.
  unfold pending_file. cbn. destruct r0; [by destruct H|]. destruct H as [[_ H]|[_ H]]; [by left|by right].
Qed.

(** Removing the record. *)
Lemma clear_record d r d' :
  _clear_pending_activation E d = (r, d') ->
  current_link d' = current_link d /\ dp_releases d' = dp_releases d /\ dp_log d' = dp_log d /\
  match r with
  | Ok _ => pending_file d' = None
  | Err _ => pending_file d' = pending_file d \/ pending_file d' = None
  end.
Proof.
  unfold _clear_pending_activation, bind at 1. unfold call at 1, on_dir at 1, lift at 1.
  assert (Hc : sl_files (snd (AtomicFile.system_call (Updater.io E) (dp_dir d))) = sl_files (dp_dir d)).
  { unfold AtomicFile.system_call, bind, read, of_result. by destruct (Updater.io E _). }
  destruct (AtomicFile.system_call _ _) as [[[]|e] s1]; cbn [snd] in Hc.
  2: { intros [= <- <-]. unfold pending_file. cbn. rewrite Hc. repeat split. by left. }
  unfold bind at 1, gets. cbn [set_dir dp_dir]. unfold pending_file. rewrite Hc.
  destruct (dget PENDING (sl_files (dp_dir d))) as [t|] eqn:Et.
  2: { intros [= <- <-]. cbn. rewrite Hc, Et. repeat split. by left. }
  unfold on_dir, lift, bind, on_files, modify. cbn [set_dir dp_dir].
  set (s2 := set_files (ddel PENDING (sl_files s1)) s1).
  assert (Hf : sl_files (snd (_fsync_directory (Updater.io E) s2)) = sl_files s2).
  { set (I := fun s' : directory text => sl_files s' = sl_files s2). apply (keeps_snd I); [|done].
    apply leaves_files_fsync. unfold I. by intros s3 s4 ->. }
  destruct (_fsync_directory _ s2) as [r0 s3]. cbn [snd] in Hf. intros [= <- <-]. cbn. rewrite Hf.
  unfold s2. cbn. rewrite dget_ddel_eq. repeat split. destruct r0; [done|by right].
Qed.

(** The link was replaced, between calm stretches. *)
Record switched (target : path) (d d' : deployment) : Prop := {
  sw_link : current_link d' = Some (LinkTo target);
  sw_pending : pending_file d' = pending_file d;
  sw_releases : dp_releases d' = dp_releases d;
  sw_log : exists l k, dp_log d' = dp_log d ++ l ++ [Switched target] ++ k /\
    Forall (fun e => is_quiet e = true) l /\ Forall (fun e => is_quiet e = true) k;
}.

Lemma switched_calm target d d1 d' : switched target d d1 -> calm d1 d' -> switched target d d'.
Proof.
  intros [L P R (l & k & G & Ql & Qk)] [L' P' R' (k' & G' & Qk')]. split; try congruence.
  exists l, (k ++ k'). split; [by rewrite G', G, <- !app_assoc|]. split; [done|]. by apply list.Forall_app.
Qed.

Lemma quiet_on_links f : (forall l, dget CURRENT (f l) = dget CURRENT l) -> quiet (on_links f).
Proof. intros H d. split; try done; [apply H|]. exists []. by rewrite app_nil_r. Qed.

Lemma calm_of_quiet {A} (m : M deployment A) d : quiet m -> keeps (calm d) m.
Proof. intros H d1 Hd. specialize (H d1). destruct (m d1) as [[a|e] d2]; (etrans; [exact Hd|exact H]). Qed.

Lemma switched_of_quiet {A} (m : M deployment A) target d : quiet m -> keeps (switched target d) m.
Proof. intros H d1 Hd. specialize (H d1). destruct (m d1) as [[a|e] d2]; by eapply switched_calm. Qed.

(** Replacing the link. *)
Lemma switch_link target d r d' :
  _atomic_symlink E target CURRENT d = (r, d') ->
  match r with Ok _ => switched target d d' | Err _ => calm d d' \/ switched target d d' end.
Proof.
  set (failed := fun d1 => calm d d1 \/ switched target d d1).
  assert (H : triple (calm d) (_atomic_symlink E target CURRENT) (fun _ => switched target d) failed).
  2: { intros Hrun. specialize (H d (reflexivity d)). rewrite Hrun in H. by destruct r. }
  unfold _atomic_symlink. set (temporary := String.append "." _).
  assert (Hne : CURRENT <> temporary) by done.
  assert (Hunlink : quiet (call E ;! on_links (ddel temporary))).
  { apply quiet_bind; [apply quiet_call|intros _]. apply quiet_on_links. intros l. by apply dget_ddel_ne. }
  assert (Hcalm : forall A (m : M deployment A), quiet m -> triple (calm d) m (fun _ => calm d) failed).
  { intros A m Hm. eapply triple_conseq; [apply calm_of_quiet; exact Hm|done|done|by left]. }
  apply (triple_bind (A := unit) _ _ _ (fun _ => calm d)); [by apply Hcalm|]. intros _.
  apply triple_finally.
  2: { intros _. eapply triple_conseq; [by apply switched_of_quiet|done|done|by right]. }
  2: { intros d1 [H|H]; [pose proof (calm_of_quiet _ d Hunlink d1 H) as H2|pose proof (switched_of_quiet _ target d Hunlink d1 H) as H2];
       destruct ((call E ;! on_links (ddel temporary)) d1) as [[]]; [by left|by left|by right|by right]. }
  apply (triple_bind (A := unit) _ _ _ (fun _ => calm d)); [apply Hcalm, quiet_call|]. intros _.
  set (ready := fun d1 => calm d d1 /\ dget temporary (dp_links d1) = Some (LinkTo target)).
  apply (triple_bind (A := unit) _ _ _ (fun _ => ready)).
  { apply triple_modify. intros d1 Hd1. split; [|apply dget_dset_eq]. etrans; [exact Hd1|].
    apply (quiet_on_links (dset temporary (LinkTo target))). intros l. by apply dget_dset_ne. }
  intros _. apply (triple_bind (A := unit) _ _ _ (fun _ => switched target d)).
  2: { intros _. eapply triple_conseq; [apply switched_of_quiet, quiet_fsync|done|done|by right]. }
  unfold replace_link. apply (triple_bind (A := unit) _ _ _ (fun _ => ready)).
  { intros d1 [Hd1 Ht]. pose proof (calm_of_quiet _ d quiet_call d1 Hd1) as H.
    assert (Hl : dp_links (snd (call E d1)) = dp_links d1).
    { unfold call, on_dir, lift. by destruct (AtomicFile.system_call _ _). }
    destruct (call E d1) as [[[]|e] d2]; cbn [snd] in Hl; [split; [done|by rewrite Hl]|by left]. }
  intros _ d1 [[L P R (l & G & Q)] Ht]. unfold bind at 1, gets. rewrite Ht. cbn.
  split; cbn; try done; 
    [unfold current_link; cbn [set_links dp_links add_event]; by rewrite dget_ddel_ne, dget_dset_eq|].
  exists l, []. rewrite G, <- !app_assoc. by repeat split.
Qed.

(** ** Confirmation

    The trace of a restart that came up and stayed up for all the health checks. *)
Definition checks_trace (n : nat) : list event :=
  mjoin (replicate n [Slept; Queried "is-active" (service_name c) (Some true)]).
Definition restart_trace (l : list event) : Prop :=
  exists output, l = Ran ["systemctl"; "restart"; service_name c] None None false (Some output)
    :: checks_trace (Z.to_nat (health_seconds c)).

Lemma call_log d : dp_log (snd (call E d)) = dp_log d.
Proof. unfold call, on_dir, lift. by destruct (AtomicFile.system_call _ _). Qed.

Lemma confirm_trace n d d' : confirm_active E c n d = (Ok tt, d') -> dp_log d' = dp_log d ++ checks_trace n.
Proof.
  revert d. induction n as [|n IH]; intros d; cbn [confirm_active].
  - intros [= <-]. by rewrite app_nil_r.
  - unfold bind at 1. pose proof (call_log d) as Hlog. destruct (call E d) as [[[]|e] d1]; [|done]. cbn [snd] in Hlog.
    unfold bind at 1, record, modify, bind at 1, _service_is_active, _systemctl_is, bind at 1, ask, on_dir, lift, read.
    cbn [fst snd]. set (d2 := set_dir _ _). assert (Hlog2 : dp_log d2 = dp_log d ++ [Slept]) by (cbn; by rewrite Hlog).
    destruct (env_command E _) as [completed|e]; [|done].
    unfold bind at 1, record, modify. destruct (unit_state _ _ completed) as [[|]|]; [|done..]. unfold ret.
    intros H. apply IH in H. rewrite H. cbn [dp_log add_event]. rewrite Hlog2. unfold checks_trace. cbn [replicate mjoin list_join].
    by rewrite <- !app_assoc.
Qed.

Lemma restart_confirms d d' :
  _restart_and_confirm E c d = (Ok tt, d') -> exists l, restart_trace l /\ dp_log d' = dp_log d ++ l.
Proof.
  unfold _restart_and_confirm, root_command, _run_command. unfold bind at 1 2 3, ask, on_dir, lift, read. cbn [fst snd].
  set (d1 := set_dir _ d). destruct (env_command E _) as [completed|e]; [|done].
  destruct (returncode completed =? 0)%Z; [|done]. unfold bind, record, modify, ret.
  intros H. apply confirm_trace in H. eexists. split; [by eexists|]. rewrite H. cbn [dp_log add_event]. by rewrite <- app_assoc.
Qed.

(** Errors of queries and of caught calls. *)
Lemma calm_same d d' :
  current_link d' = current_link d -> dp_releases d' = dp_releases d -> dp_log d' = dp_log d ->
  pending_file d' = pending_file d -> calm d d'.
Proof. intros L R G P. split; try done. exists []. by rewrite app_nil_r. Qed.

Lemma attempt_not_Exception {A} (m : M deployment A) d msg d' :
  attempt m d = (Err (ActivationError msg), d') -> False.
Proof.
  unfold attempt, try_except, bind. destruct (m d) as [[a|e] d1]; [done|]. by destruct e.
Qed.

(** The updater's own errors do not come from the system. *)
Definition from_system (e : exc) : bool := match e with UpdateError _ | ActivationError _ => false | _ => true end.

Lemma legacy_state_error msg d d' :
  (forall n e, env_command E n = Err e -> from_system e = true) ->
  _legacy_command_state E d = (Err (ActivationError msg), d') -> False.
Proof.
  intros He. assert (H : forall state d d', _systemctl_is E state LEGACY_COMMAND_SERVICE d = (Err (ActivationError msg), d') -> False).
  { intros state d1 d2. unfold _systemctl_is, bind, ask, on_dir, lift, read, record, modify. cbn [fst snd].
    destruct (env_command E _) as [completed|e] eqn:Ee; [by destruct (unit_state _ _ completed)|].
    specialize (He _ _ Ee). destruct (is_OSError e); [done|]. by destruct e. }
  unfold _legacy_command_state, bind. destruct (_systemctl_is E "is-enabled" _ d) as [[b1|e] d1] eqn:E1.
  - destruct (_systemctl_is E "is-active" _ d1) as [[b2|e] d2] eqn:E2; [done|]. intros [= -> _]. by apply H in E2.
  - intros [= -> _]. by apply H in E1.
Qed.

(** ** A transaction

    From [d0], where the link pointed at [p0], to the candidate or back to the
    previous release. *)
Section Transaction.
Context (candidate previous : string) (p0 : path) (d0 : deployment).

(** The record names the two releases. *)
Definition recorded (d : deployment) : Prop :=
  exists j p, pending_file d = Some (Json j) /\ pending_of_payload j = Ok p /\
    candidate_sha p = candidate /\ previous_sha p = previous.

Record at_release (p : path) (d : deployment) : Prop := {
  at_link : current_link d = Some (LinkTo p);
  at_releases : dp_releases d = dp_releases d0;
  at_log : exists l, dp_log d = dp_log d0 ++ l /\ linked p0 l = p;
  at_pending : pending_file d = None \/ recorded d;
}.

(** The service was restarted and stayed up while the link pointed at [x]. *)
Definition confirmed (x : string) (d : deployment) : Prop :=
  exists before l after, dp_log d = dp_log d0 ++ before ++ l ++ after /\ restart_trace l /\ linked p0 before = Release x.

(** The record is still there, or one of the releases was confirmed. *)
Definition durable (d : deployment) : Prop :=
  recorded d \/ confirmed candidate d \/ confirmed previous d.

(** Somewhere in the transaction. *)
Definition under_way (d : deployment) : Prop :=
  durable d /\ exists x, (x = candidate \/ x = previous) /\ at_release (Release x) d.

Lemma recorded_same d d' : pending_file d' = pending_file d -> recorded d -> recorded d'.
Proof. unfold recorded. by intros ->. Qed.

Lemma confirmed_grown x d d' : grown d d' -> confirmed x d -> confirmed x d'.
Proof.
  intros [k G] (before & l & after & Hl & Ht & Hb). exists before, l, (after ++ k).
  rewrite G, Hl, <- !app_assoc. by repeat split.
Qed.

Lemma calm_grown d d' : calm d d' -> grown d d'.
Proof. intros [_ _ _ (l & H & _)]. by exists l. Qed.
Lemma switched_grown target d d' : switched target d d' -> grown d d'.
Proof. intros [_ _ _ (l & k & H & _)]. by eexists. Qed.
Lemma same_log_grown d d' : dp_log d' = dp_log d -> grown d d'.
Proof. intros H. exists []. by rewrite app_nil_r. Qed.

Lemma at_calm p d d' : calm d d' -> at_release p d -> at_release p d'.
Proof.
  intros [L P R (l & G & Q)] [L0 R0 (k & G0 & K0) P0]. split; try congruence.
  - exists (k ++ l). split; [by rewrite G, G0, app_assoc|]. by rewrite linked_app, K0, linked_quiet.
  - destruct P0 as [P0|P0]; [left; congruence|right; by eapply recorded_same].
Qed.

Lemma at_switched p q d d' : switched q d d' -> at_release p d -> at_release q d'.
Proof.
  intros [L P R (l & k & G & Ql & Qk)] [L0 R0 (m & G0 & K0) P0]. split; try congruence.
  - exists (m ++ l ++ [Switched q] ++ k). split; [by rewrite G, G0, <- !app_assoc|].
    by rewrite !linked_app, (linked_quiet _ k).
  - destruct P0 as [P0|P0]; [left; congruence|right; by eapply recorded_same].
Qed.

Lemma durable_keeps d d' : pending_file d' = pending_file d -> grown d d' -> durable d -> durable d'.
Proof.
  intros P G [H|[H|H]]; [left; by eapply recorded_same|right; left; by eapply confirmed_grown|right; right; by eapply confirmed_grown].
Qed.

(** What the operations do inside a transaction. *)
Definition at_durable (x : string) (d : deployment) : Prop := durable d /\ at_release (Release x) d.

Definition member (x : string) : Prop := x = candidate \/ x = previous.

Lemma quiet_in_transaction {A} (m : M deployment A) x :
  member x -> quiet m -> triple (at_durable x) m (fun _ => at_durable x) under_way.
Proof.
  intros Hx Hm d [Hd Ha]. specialize (Hm d). destruct (m d) as [[a|e] d'];
    (assert (durable d') by (eapply durable_keeps; [apply Hm|by apply calm_grown|done])); cbn [snd] in Hm.
  - split; [done|]. by eapply at_calm.
  - split; [done|]. exists x. split; [done|]. by eapply at_calm.
Qed.

Lemma switch_in_transaction x y :
  member x -> member y ->
  triple (at_durable x) (_atomic_symlink E (Release y) CURRENT) (fun _ => at_durable y) under_way.
Proof.
  intros Hx Hy d [Hd Ha]. destruct (_atomic_symlink E (Release y) CURRENT d) as [r d'] eqn:Er. apply switch_link in Er.
  assert (Hsw : switched (Release y) d d' -> at_durable y d').
  { intros Hs. split; [|by eapply at_switched]. eapply durable_keeps; [apply Hs|by eapply switched_grown|done]. }
  destruct r as [[]|e]; [by apply Hsw|]. destruct Er as [Hc|Hs].
  - split; [eapply durable_keeps; [apply Hc|by apply calm_grown|done]|]. exists x. split; [done|]. by eapply at_calm.
  - destruct (Hsw Hs). split; [done|]. by exists y.
Qed.

Lemma restart_in_transaction x :
  member x ->
  triple (at_durable x) (_restart_and_confirm E c) (fun _ d => at_durable x d /\ confirmed x d) under_way.
Proof.
  intros Hx d Hd. pose proof (quiet_in_transaction _ x Hx restart_quiet d Hd) as H.
  destruct (_restart_and_confirm E c d) as [[[]|e] d'] eqn:Er; [|done]. split; [done|].
  apply restart_confirms in Er as (l & Hl & G). destruct Hd as [_ [_ _ (k & K & Hk) _]].
  exists k, l, []. rewrite G, K, app_nil_r, <- app_assoc. by repeat split.
Qed.

Lemma clear_in_transaction x :
  member x ->
  triple (fun d => at_durable x d /\ confirmed x d) (_clear_pending_activation E)
    (fun _ d => (at_durable x d /\ confirmed x d) /\ pending_file d = None) under_way.
Proof.
  intros Hx d [[Hd [L R G P]] Hc]. destruct (_clear_pending_activation E d) as [r d'] eqn:Er.
  apply clear_record in Er as (L' & R' & G' & Hr).
  assert (Hconf : confirmed x d') by (eapply confirmed_grown; [by apply same_log_grown|done]).
  assert (Hdur : durable d') by (right; destruct Hx as [->| ->]; [by left|by right]).
  assert (Hat : pending_file d' = None \/ pending_file d' = pending_file d -> at_release (Release x) d').
  { intros Hp. split; [congruence|congruence|by rewrite G'|].
    destruct Hp as [Hp|Hp]; [by left|]. destruct P as [P|P]; [left; congruence|right; by eapply recorded_same]. }
  destruct r as [[]|e].
  - split; [|done]. split; [|done]. split; [done|]. apply Hat. by left.
  - split; [done|]. exists x. split; [done|]. apply Hat. destruct Hr; [by right|by left].
Qed.

(** The outcome of a completed move to [x]. *)
Definition settled (x : string) (d : deployment) : Prop :=
  at_release (Release x) d /\ confirmed x d /\ pending_file d = None.

Lemma settled_of x d : (at_durable x d /\ confirmed x d) /\ pending_file d = None -> settled x d.
Proof. by intros [[[_ ?] ?] ?]. Qed.

Context (Hcandidate : is_directory (dp_releases d0) candidate = true).
Context (Hprevious : is_directory (dp_releases d0) previous = true).

Lemma member_candidate : member candidate.
Proof. by left. Qed.
Lemma member_previous : member previous.
Proof. by right. Qed.

Lemma member_directory x : member x -> is_directory (dp_releases d0) x = true.
Proof. by intros [->| ->]. Qed.

Lemma directory_resolves releases x : is_directory releases x = true -> resolves releases (Release x) = Some (Release x).
Proof. unfold is_directory, resolves. by destruct (dget x releases) as [[]|]. Qed.

Lemma calm_call d : calm d (snd (call E d)).
Proof. apply quiet_call. Qed.

(** The link as the updater finds it. *)
Lemma discover_result d d' o : discover_current_sha E d = (Ok o, d') ->
  calm d d' /\
  match current_link d with
  | None => o = None
  | Some (LinkTo p) => exists x, resolves (dp_releases d) p = Some (Release x) /\ o = Some x /\
      is_directory (dp_releases d) x = true /\ SHA_PATTERN x = true
  | Some NotALink => False
  end.
Proof.
  intros H. split; [pose proof (discover_quiet d) as Hq; by rewrite H in Hq|].
  revert H. unfold discover_current_sha, bind at 1. pose proof (calm_call d) as [L1 P1 R1 _].
  destruct (call E d) as [[[]|e] d1]; [|done]. cbn [snd] in *. unfold bind at 1, gets. unfold current_link in *. rewrite L1.
  destruct (dget CURRENT (dp_links d)) as [[p|]|]; [|done|by intros [= <-]].
  unfold bind at 1. assert (Hq : quiet (os_error_as (ValueError "current release symlink is broken") (call E ;! call E))) by quiet_tac.
  specialize (Hq d1). destruct (os_error_as _ _ d1) as [[[]|e] d2]; [|done]. cbn [snd] in Hq. destruct Hq as [_ _ R2 _].
  unfold bind at 1. rewrite R2, R1. destruct (resolves (dp_releases d) p) as [[x|n]|]; [|done..].
  destruct (SHA_PATTERN x) eqn:Esha; [|done]. cbn [negb]. unfold bind at 1. destruct (call E d2) as [[[]|e] d3]; [|done].
  destruct (is_directory (dp_releases d) x) eqn:Edir; [|done]. intros [= <- <-]. by exists x.
Qed.

Lemma discover_in_transaction x :
  member x ->
  triple (at_durable x) (discover_current_sha E) (fun o d => o = Some x /\ at_durable x d) under_way.
Proof.
  intros Hx d Hd. pose proof (quiet_in_transaction _ x Hx discover_quiet d Hd) as H.
  destruct (discover_current_sha E d) as [[o|e] d'] eqn:Er; [|done]. split; [|done].
  apply discover_result in Er as [_ Er]. destruct Hd as [_ [L R _ _]]. rewrite L, R in Er.
  rewrite directory_resolves in Er by by apply member_directory. by destruct Er as (y & [= <-] & -> & _).
Qed.

Lemma switch_to_spec pending :
  triple (at_durable previous) (switch_to E c (Release candidate) pending) (fun _ => settled candidate) under_way.
Proof.
  unfold switch_to. pose proof member_candidate as Hmc. pose proof member_previous as Hmp.
  apply (triple_bind (A := LegacyCommandState) _ _ _ (fun _ => at_durable previous)); [apply quiet_in_transaction; [done|apply retire_quiet]|]. intros _.
  apply (triple_bind (A := unit) _ _ _ (fun _ => at_durable candidate)); [by apply switch_in_transaction|]. intros _.
  apply (triple_bind (A := unit) _ _ _ (fun _ d => at_durable candidate d /\ confirmed candidate d)); [by apply restart_in_transaction|]. intros _.
  eapply triple_conseq; [by apply (clear_in_transaction candidate)|done|by (intros u d; apply settled_of)|done].
Qed.

(** Restarting, restoring the legacy service and removing the record. *)
Lemma confirm_and_clear x pending :
  member x ->
  triple (at_durable x) (_restart_and_confirm E c ;! _restore_legacy_command_service E pending ;! _clear_pending_activation E)
    (fun _ => settled x) under_way.
Proof.
  intros Hx. apply (triple_bind (A := unit) _ _ _ (fun _ d => at_durable x d /\ confirmed x d)); [by apply restart_in_transaction|]. intros _.
  apply (triple_bind (A := unit) _ _ _ (fun _ d => at_durable x d /\ confirmed x d)).
  - intros d [Hd Hc]. pose proof (quiet_in_transaction _ x Hx (restore_quiet pending) d Hd) as H.
    pose proof (restore_quiet pending d) as Hq.
    destruct (_restore_legacy_command_service E pending d) as [[[]|e] d']; [|done].
    split; [done|]. eapply confirmed_grown; [by apply calm_grown|done].
  - intros _. eapply triple_conseq; [by apply (clear_in_transaction x)|done|by (intros u d; apply settled_of)|done].
Qed.

Lemma roll_back_spec pending :
  candidate <> previous ->
  triple under_way (roll_back E c (Release candidate) (Release previous) pending) (fun _ => settled previous) under_way.
Proof.
  intros Hne d (Hdur & x & Hx & Hat). assert (Hd : at_durable x d) by done. clear Hdur Hat. revert d Hd.
  change (triple (at_durable x) (roll_back E c (Release candidate) (Release previous) pending) (fun _ => settled previous) under_way).
  pose proof member_previous as Hmp. unfold roll_back. cbn [name_of].
  eapply (triple_bind (A := option string)); [by apply discover_in_transaction|]. intros o.
  apply (triple_bind (A := unit) _ _ _ (fun _ => at_durable previous)).
  - intros d [-> Hd]. destruct Hx as [->| ->].
    + rewrite bool_decide_eq_true_2 by done. by apply (switch_in_transaction candidate previous); [left|..].
    + rewrite bool_decide_eq_false_2 by congruence. rewrite bool_decide_eq_true_2 by done. done.
  - intros _. by apply confirm_and_clear.
Qed.

Lemma settled_under_way x d : member x -> settled x d -> under_way d.
Proof.
  intros Hx (Ha & Hc & _). split; [|by exists x]. right. destruct Hx as [->| ->]; [by left|by right].
Qed.

Lemma at_durable_under_way x d : member x -> at_durable x d -> under_way d.
Proof. intros Hx [Hd Ha]. split; [done|by exists x]. Qed.

Lemma under_way_quiet {A} (m : M deployment A) : quiet m -> keeps under_way m.
Proof.
  intros Hm d (Hd & x & Hx & Ha). pose proof (quiet_in_transaction m x Hx Hm d (conj Hd Ha)) as H.
  destruct (m d) as [[a|e] d']; [by apply (at_durable_under_way x)|done].
Qed.

Lemma attempt_spec {A} P (m : M deployment A) Q F :
  triple P m Q F -> triple P (attempt m) (fun r d => match r with inl a => Q a d | inr _ => F d end) F.
Proof.
  intros H d Hd. specialize (H d Hd). unfold attempt, try_except, bind. destruct (m d) as [[a|e] d']; [done|].
  by destruct (is_Exception e).
Qed.

Lemma managed_result sha d p d' : _managed_release_path E sha d = (Ok p, d') ->
  p = Release sha /\ is_directory (dp_releases d) sha = true.
Proof.
  unfold _managed_release_path, os_error_as, bind. pose proof (calm_call d) as [_ _ R1 _].
  destruct (call E d) as [[[]|e] d1]; [|by destruct (is_OSError e)]. cbn [snd] in R1.
  pose proof (calm_call d1) as [_ _ R2 _].
  destruct (call E d1) as [[[]|e] d2]; [|by destruct (is_OSError e)]. cbn [snd] in R2. unfold gets. rewrite R2, R1.
  destruct (is_directory (dp_releases d) sha); [|done]. cbn [negb].
  destruct (call E d2) as [[[]|e] d3]; [by intros [= <- <-]|by destruct (is_OSError e)].
Qed.

Lemma managed_spec P F sha :
  (forall d d', calm d d' -> P d -> P d') -> (forall d d', calm d d' -> P d -> F d') ->
  triple P (_managed_release_path E sha) (fun p d => P d /\ p = Release sha) F.
Proof.
  intros HP HF d Hd. pose proof (managed_quiet sha d) as Hq.
  destruct (_managed_release_path E sha d) as [[p|e] d'] eqn:Er; cbn [snd] in Hq; [|by apply (HF d)].
  split; [by apply (HP d)|by apply managed_result in Er as [-> _]].
Qed.

Lemma under_way_calm d d' : calm d d' -> under_way d -> under_way d'.
Proof.
  intros Hc (Hd & x & Hx & Ha). split; [eapply durable_keeps; [apply Hc|by apply calm_grown|done]|].
  exists x. split; [done|]. by eapply at_calm.
Qed.

Lemma at_durable_calm x d d' : calm d d' -> at_durable x d -> at_durable x d'.
Proof. intros Hc [Hd Ha]. split; [eapply durable_keeps; [apply Hc|by apply calm_grown|done]|by eapply at_calm]. Qed.

(** A rollback never returns; it ends at the previous release, confirmed and without
    the record, or under way. *)
Lemma roll_back_candidate_spec pending :
  previous_sha pending = previous ->
  triple under_way (roll_back_candidate E c pending) (fun _ _ => False) under_way.
Proof.
  intros Hpending. unfold roll_back_candidate. rewrite Hpending. pose proof member_previous as Hmp.
  apply (triple_bind (A := path) _ _ _ (fun p d => under_way d /\ p = Release previous)).
  { apply managed_spec; [apply under_way_calm|apply under_way_calm]. }
  intros p. apply triple_pure. intros ->.
  apply (triple_bind (A := unit + exc) _ _ _ (fun r d => match r with
    | inl _ => at_durable previous d /\ confirmed previous d | inr _ => under_way d end)).
  - apply attempt_spec. intros d (Hdur & x & Hx & Hat). revert d Hdur Hat. intros d Hdur Hat.
    assert (Hd : at_durable x d) by done. clear Hdur Hat. revert d Hd.
    change (triple (at_durable x) (_atomic_symlink E (Release previous) CURRENT ;! _restart_and_confirm E c ;!
      _restore_legacy_command_service E pending) (fun _ d => at_durable previous d /\ confirmed previous d) under_way).
    apply (triple_bind (A := unit) _ _ _ (fun _ => at_durable previous)); [by apply switch_in_transaction|]. intros _.
    apply (triple_bind (A := unit) _ _ _ (fun _ d => at_durable previous d /\ confirmed previous d));
      [by apply restart_in_transaction|]. intros _ d [Hd Hc].
    pose proof (restore_quiet pending d) as Hq.
    destruct (_restore_legacy_command_service E pending d) as [[[]|e] d']; cbn [snd] in Hq.
    + split; [by eapply at_durable_calm|]. eapply confirmed_grown; [by apply calm_grown|done].
    + by apply (at_durable_under_way previous), (at_durable_calm _ d).
  - intros [[]|e]; [|by apply triple_raise].
    apply (triple_bind (A := unit) _ _ _ (fun _ => under_way)); [|intros _; by apply triple_raise].
    eapply triple_conseq; [by apply (clear_in_transaction previous)|done| |done].
    intros u d H. by apply (settled_under_way previous), settled_of.
Qed.

(** ** The record *)

Context (Hshas : SHA_PATTERN candidate = true /\ SHA_PATTERN previous = true /\ candidate <> previous).

(** The record reads back as it was written. *)
Lemma pending_payload_reads p e a :
  candidate_sha p = candidate -> previous_sha p = previous ->
  legacy_command_enabled p = Some e -> legacy_command_active p = Some a ->
  pending_of_payload (pending_payload p) = Ok p.
Proof.
  destruct Hshas as (Hc & Hp & Hne). destruct p as [c' p' e' a']. cbn [candidate_sha previous_sha legacy_command_enabled legacy_command_active].
  intros -> -> -> ->. lazy -[SHA_PATTERN String.eqb]. rewrite Hc, Hp. by rewrite (proj2 (String.eqb_neq _ _) Hne).
Qed.

(** Writing the record inside a transaction, or at its start. *)
Lemma write_pending_spec state x P F :
  member x -> (forall d, P d -> at_release (Release x) d) ->
  (forall d d', P d -> at_release (Release x) d' -> current_link d' = current_link d -> dp_releases d' = dp_releases d ->
     dp_log d' = dp_log d -> pending_file d' = pending_file d -> F d') ->
  (forall d, under_way d -> F d) ->
  triple P (_write_pending_activation E (Release candidate) (Release previous) state)
    (fun p d => at_durable x d /\ candidate_sha p = candidate /\ previous_sha p = previous) F.
Proof.
  intros Hx HP HF HU d Hd. unfold _write_pending_activation, bind. cbn [name_of].
  set (p := {| candidate_sha := candidate |}).
  destruct (on_dir (_atomic_write E PENDING (dumps (pending_payload p))) d) as [r d'] eqn:Er.
  apply write_record in Er as (L & R & G & Hr).
  assert (Hrec : pending_file d' = Some (dumps (pending_payload p)) -> at_durable x d').
  { intros Hp. assert (Hrec : recorded d').
    { exists (pending_payload p), p. split; [done|]. split; [by eapply pending_payload_reads|done]. }
    split; [by left|]. destruct (HP d Hd) as [La Ra Ga _]. split; [congruence|congruence|by rewrite G|by right]. }
  destruct r as [[]|e]; [by split; [apply Hrec|]|]. destruct Hr as [Hr|Hr].
  - apply (HF d); try done. destruct (HP d Hd) as [La Ra Ga Pa]. split; [congruence|congruence|by rewrite G|].
    destruct Pa as [Pa|Pa]; [left; congruence|right; by eapply recorded_same].
  - by apply HU, (at_durable_under_way x), Hrec.
Qed.

(** ** Reconciliation *)

Lemma upgraded_record_spec pending x :
  member x -> candidate_sha pending = candidate -> previous_sha pending = previous ->
  triple (at_durable x) (upgraded_record E pending)
    (fun p d => at_durable x d /\ candidate_sha p = candidate /\ previous_sha p = previous) under_way.
Proof.
  intros Hx Hc Hp. unfold upgraded_record. destruct (legacy_command_enabled pending); [by apply triple_ret|].
  rewrite Hc, Hp.
  assert (Hcalm : forall d d', calm d d' -> at_durable x d -> under_way d').
  { intros d d' H Hd. apply (at_durable_under_way x); [done|]. by eapply at_durable_calm. }
  apply (triple_bind (A := path) _ _ _ (fun p d => at_durable x d /\ p = Release candidate)).
  { apply managed_spec; [apply at_durable_calm|done]. }
  intros q. apply triple_pure. intros ->.
  apply (triple_bind (A := path) _ _ _ (fun p d => at_durable x d /\ p = Release previous)).
  { apply managed_spec; [apply at_durable_calm|done]. }
  intros q. apply triple_pure. intros ->.
  apply (triple_bind (A := LegacyCommandState) _ _ _ (fun _ => at_durable x)).
  { by apply quiet_in_transaction, legacy_state_quiet. }
  intros state. apply write_pending_spec; [done|by intros d []| |done].
  intros d d' [Hdur Ha] Ha' L R G P. split; [|by exists x]. eapply durable_keeps; [done|by apply same_log_grown|done].
Qed.

Lemma confirm_candidate_spec pending :
  candidate_sha pending = candidate -> previous_sha pending = previous ->
  triple (at_durable candidate) (confirm_candidate E c pending) (fun o d => o = candidate /\ settled candidate d) under_way.
Proof.
  intros Hc Hp. unfold confirm_candidate. pose proof member_candidate as Hmc.
  apply (triple_bind (A := PendingActivation + exc) _ _ _ (fun r d => match r with
    | inl p => at_durable candidate d /\ candidate_sha p = candidate /\ previous_sha p = previous
    | inr _ => under_way d end)).
  { apply attempt_spec. by apply upgraded_record_spec. }
  intros [p|e].
  2: { eapply triple_conseq; [by apply roll_back_candidate_spec|done|done|done]. }
  apply triple_pure. intros [Hpc Hpp].
  apply (triple_bind (A := unit + exc) _ _ _ (fun r d => match r with
    | inl _ => at_durable candidate d /\ confirmed candidate d | inr _ => under_way d end)).
  { apply attempt_spec. apply (triple_bind (A := LegacyCommandState) _ _ _ (fun _ => at_durable candidate)).
    - by apply quiet_in_transaction, retire_quiet.
    - intros _. by apply restart_in_transaction. }
  intros [[]|e].
  2: { eapply triple_conseq; [by apply roll_back_candidate_spec|done|done|done]. }
  apply (triple_bind (A := unit) _ _ _ (fun _ => settled candidate)).
  - eapply triple_conseq; [by apply (clear_in_transaction candidate)|done| |done]. intros u d. apply settled_of.
  - intros _. by apply triple_ret.
Qed.

(** The rest of a reconciliation once the record and the link are read. *)
Lemma reconcile_in_transaction p x :
  member x -> candidate_sha p = candidate -> previous_sha p = previous ->
  triple (at_durable x)
    (if bool_decide (Some x = Some (previous_sha p)) then
       _managed_release_path E (previous_sha p) ;!
       _restart_and_confirm E c ;!
       _restore_legacy_command_service E p ;!
       _clear_pending_activation E ;!
       ret (Some (previous_sha p))
     else if negb (bool_decide (Some x = Some (candidate_sha p)))
     then raise (ActivationError "current release does not match pending candidate")
     else let! confirmed := confirm_candidate E c p in ret (Some confirmed))
    (fun o d => exists y, member y /\ o = Some y /\ settled y d) under_way.
Proof.
  intros Hx Ec Ep. rewrite Ec, Ep. pose proof member_previous as Hmp.
  case_bool_decide as Hxp; [injection Hxp as ->|].
  - apply (triple_bind (A := path) _ _ _ (fun q d => at_durable previous d /\ q = Release previous)).
    { apply managed_spec; [apply at_durable_calm|]. intros d d' Hc Hd. apply (at_durable_under_way previous); [done|].
      by eapply at_durable_calm. }
    intros q. apply triple_pure. intros ->. intros d Hd. pose proof (confirm_and_clear previous p Hmp d Hd) as H.
    revert H. unfold bind. destruct (_restart_and_confirm E c d) as [[u|e] d1]; [|done].
    destruct (_restore_legacy_command_service E p d1) as [[u'|e] d2]; [|done].
    destruct (_clear_pending_activation E d2) as [[u''|e] d3]; [|done]. intros H. by exists previous.
  - destruct Hx as [->| ->]; [|done]. rewrite bool_decide_eq_true_2 by done. cbn [negb].
    apply (triple_bind (A := string) _ _ _ (fun o d => o = candidate /\ settled candidate d)); [by apply confirm_candidate_spec|].
    intros o d [-> Hs]. exists candidate. split; [by left|done].
Qed.

(** ** Activation *)

(** An activation that did not write the record left the deployment alone. *)
Definition given_up (d : deployment) : Prop := calm d0 d \/ under_way d.

(** The message of an activation that was rolled back. *)
Definition rolled_back (e : exc) : Prop := e = ActivationError "candidate activation failed".

Lemma activate_spec :
  current_link d0 = Some (LinkTo (Release previous)) -> pending_file d0 = None -> p0 = Release previous ->
  match activate_release E c (Release candidate) (Release previous) d0 with
  | (Ok _, d) => settled candidate d
  | (Err e, d) => given_up d /\
      ((forall n e', env_command E n = Err e' -> from_system e' = true) -> rolled_back e -> settled previous d)
  end.
Proof.
  intros Hl Hn Hp0. destruct Hshas as (Sc & Sp & Hne). pose proof member_previous as Hmp.
  assert (Hat : forall d, calm d0 d -> at_release (Release previous) d).
  { intros d [L P R (l & G & Q)]. split; [congruence|done| |left; congruence]. exists l. split; [done|].
    rewrite Hp0. by apply linked_quiet. }
  unfold activate_release, bind at 1. pose proof (legacy_state_quiet d0) as Hq.
  destruct (_legacy_command_state E d0) as [[state|e] d1] eqn:Estate; cbn [snd] in Hq.
  2: { split; [by left|]. intros He ->. by apply (legacy_state_error _ _ _ He) in Estate. }
  unfold bind at 1.
  pose proof (attempt_spec _ _ _ _ (write_pending_spec state previous (calm d0) given_up Hmp Hat
    (fun d d' Hd _ L R G P => or_introl (calm_trans _ _ _ Hd (calm_same _ _ L R G P)))
    (fun d H => or_intror H)) d1 Hq) as Hw.
  destruct (attempt (_write_pending_activation _ _ _ _) d1) as [[[p|e]|e] d2] eqn:Ew;
    [|by split; [|by intros _ [=]]|split; [done|intros _ ->; by apply attempt_not_Exception in Ew]].
  destruct Hw as (Hd & _ & _). unfold bind at 1.
  pose proof (attempt_spec _ _ _ _ (switch_to_spec p) d2 Hd) as Hs.
  destruct (attempt (switch_to E c (Release candidate) p) d2) as [[[[]|e]|e] d3] eqn:Es;
    [exact Hs| |split; [by right|intros _ ->; by apply attempt_not_Exception in Es]].
  unfold bind at 1.
  pose proof (attempt_spec _ _ _ _ (roll_back_spec p Hne) d3 Hs) as Hr.
  destruct (attempt (roll_back _ _ _ _ p) d3) as [[[[]|e']|e'] d4] eqn:Er.
  - split; [right; by apply (settled_under_way previous)|done].
  - split; [by right|by intros _ [=]].
  - split; [by right|intros _ ->; by apply attempt_not_Exception in Er].
Qed.
End Transaction.

(** ** Soundness of the deployment *)

Definition names_record (d : deployment) (p : PendingActivation) : Prop :=
  exists j, pending_file d = Some (Json j) /\ pending_of_payload j = Ok p.

(** The link points at a trusted release that is there, and a record names two such
    releases, one of them the current one. *)
Definition sound (T : string -> Prop) (d : deployment) : Prop :=
  exists x, current_link d = Some (LinkTo (Release x)) /\ T x /\ is_directory (dp_releases d) x = true /\
    SHA_PATTERN x = true /\
    (pending_file d = None \/
     exists p, names_record d p /\ (x = candidate_sha p \/ x = previous_sha p) /\
       Forall (fun y => T y /\ is_directory (dp_releases d) y = true) [candidate_sha p; previous_sha p]).

Lemma pending_shas j p : pending_of_payload j = Ok p ->
  SHA_PATTERN (candidate_sha p) = true /\ SHA_PATTERN (previous_sha p) = true /\ candidate_sha p <> previous_sha p.
Proof.
  unfold pending_of_payload. destruct j as [| | | | | | |d]; try done. intros H. apply rbind_ok in H as (v & _ & H).
  destruct (fields_for_version v); [|done]. destruct (negb (same_keys _ _)); [done|].
  destruct (dict_get "candidate" d) as [| | | |x| | |]; try done. destruct (dict_get "previous" d) as [| | | |y| | |]; try done.
  destruct (SHA_PATTERN x) eqn:Ex; [|done]. destruct (SHA_PATTERN y) eqn:Ey; [|done]. cbn [negb orb] in H.
  destruct (String.eqb_spec x y) as [|Hne]; [done|]. revert H.
  case_bool_decide; [|by intros [= <-]].
  destruct (dict_get "legacy_command_enabled" d); try done. destruct (dict_get "legacy_command_active" d); try done.
  by intros [= <-].
Qed.

Lemma sound_calm T d d' : calm d d' -> sound T d -> sound T d'.
Proof.
  intros [L P R _] (x & Hl & Hx & Hd & Hs & Hp). exists x. unfold names_record. rewrite L, R, P. by repeat split.
Qed.

(** Every state of a transaction between two trusted releases is sound. *)
Lemma under_way_sound T candidate previous p0 d0 d :
  SHA_PATTERN candidate = true -> SHA_PATTERN previous = true ->
  T candidate -> T previous -> is_directory (dp_releases d0) candidate = true -> is_directory (dp_releases d0) previous = true ->
  under_way candidate previous p0 d0 d -> sound T d.
Proof.
  intros Sc Sp Tc Tp Dc Dp (_ & x & Hx & [L R _ P]).
  assert (Hmember : T x /\ is_directory (dp_releases d) x = true /\ SHA_PATTERN x = true) by (rewrite R; by destruct Hx as [->| ->]).
  destruct Hmember as (Tx & Dx & Sx). exists x. do 4 (split; [done|]).
  destruct P as [P|(j & p & Hj & Hp & Ec & Ep)]; [by left|right]. exists p. rewrite Ec, Ep, R. split; [by exists j|].
  split; [done|]. by repeat constructor.
Qed.

(** What reading the record tells. *)
Lemma read_pending_result d o d' : _read_pending_activation E d = (Ok o, d') ->
  calm d d' /\ match o with None => pending_file d = None | Some p => names_record d p end.
Proof.
  intros H. split; [pose proof (read_pending_quiet d) as Hq; by rewrite H in Hq|].
  revert H. unfold _read_pending_activation, bind at 1. pose proof (calm_call d) as [_ P1 _ _].
  destruct (call E d) as [[[]|e] d1]; [|done]. cbn [snd] in P1. unfold bind at 1, gets. unfold pending_file in *. rewrite P1.
  unfold names_record, pending_file.
  destruct (dget PENDING (sl_files (dp_dir d))) as [content|]; [|by intros [= <-]]. unfold bind at 1, ask, on_dir, lift, read. cbn [fst snd].
  destruct (env_keeps E _); [done|]. intros H. apply bind_inv in H as ([] & d2 & _ & H).
  destruct content as [j|]; [|done]. cbn [loads] in H. apply bind_inv in H as (p & d3 & Hp & H).
  apply bind_inv in H as (q1 & d4 & _ & H). apply bind_inv in H as (q2 & d5 & _ & H).
  injection H as [= <- <-]. exists j. split; [done|]. by injection Hp.
Qed.

(** How a call may end, seen from the state [d] before it. *)
Definition ends_in {A} (d : deployment) (Q : A -> deployment -> Prop) (F : deployment -> Prop) (m : M deployment A) : Prop :=
  match m d with (Ok a, d') => Q a d' | (Err _, d') => F d' end.

Lemma ends_bind {A B} d (m : M deployment A) (k : A -> M deployment B) Q F R :
  ends_in d R F m -> (forall a d1, R a d1 -> ends_in d1 Q F (k a)) -> ends_in d Q F (bind m k).
Proof. unfold ends_in, bind. intros Hm Hk. destruct (m d) as [[a|e] d1]; [by apply Hk|done]. Qed.

Lemma ends_triple {A} P d (m : M deployment A) Q F : triple P m Q F -> P d -> ends_in d Q F m.
Proof. intros H Hd. exact (H d Hd). Qed.

(** The start of a reconciliation. *)
Lemma at_start candidate previous x d d' :
  current_link d = Some (LinkTo (Release x)) -> recorded candidate previous d -> calm d d' ->
  at_durable candidate previous (Release x) d x d'.
Proof.
  intros L Hr [L' P' R' (l & G & Q)]. assert (Hr' : recorded candidate previous d') by by eapply recorded_same.
  split; [by left|]. split; [congruence|done| |by right]. exists l. split; [done|]. by apply linked_quiet.
Qed.

(** What a reconciliation leaves: a settled release without a record, or a sound
    deployment. *)
Definition reconciled (d : deployment) (x0 : string) (o : option string) (d' : deployment) : Prop :=
  exists x, o = Some x /\ current_link d' = Some (LinkTo (Release x)) /\ pending_file d' = None /\
    (pending_file d = None /\ calm d d' \/ confirmed (Release x0) d x d').

Lemma reconcile_spec T d x0 :
  sound T d -> current_link d = Some (LinkTo (Release x0)) ->
  ends_in d (fun o d' => reconciled d x0 o d' /\ sound T d' /\ dp_releases d' = dp_releases d)
    (fun d' => sound T d' /\ dp_releases d' = dp_releases d) (reconcile_pending_activation E c).
Proof.
  intros Hsound Hlink. assert (Hquiet : forall d', calm d d' -> sound T d' /\ dp_releases d' = dp_releases d).
  { intros d' Hc. split; [by eapply sound_calm|apply Hc]. }
  unfold reconcile_pending_activation.
  apply (ends_bind (A := option PendingActivation) d _ _ _ _ (fun o d1 => calm d d1 /\
    match o with None => pending_file d = None | Some p => names_record d p end)).
  { unfold ends_in. pose proof (read_pending_quiet d) as Hq. destruct (_read_pending_activation E d) as [[o|e] d1] eqn:Er;
      [by apply read_pending_result|by apply Hquiet]. }
  intros o d1 [Hc1 Ho].
  apply (ends_bind (A := option string) d1 _ _ _ _ (fun cur d2 => calm d d2 /\ cur = Some x0)).
  { unfold ends_in. pose proof (discover_quiet d1) as Hq. destruct (discover_current_sha E d1) as [[cur|e] d2] eqn:Er; cbn [snd] in Hq;
      [|apply Hquiet; by etrans]. split; [by etrans|]. apply discover_result in Er as [_ Er].
    destruct Hc1 as [L1 _ R1 _]. rewrite L1, Hlink, R1 in Er.
    destruct Hsound as (x & Hx & _ & Hd & _). rewrite Hlink in Hx. injection Hx as <-.
    rewrite directory_resolves in Er by done. by destruct Er as (y & [= <-] & -> & _). }
  intros cur d2 [Hc2 ->]. destruct o as [p|].
  2: { split; [|by apply Hquiet]. exists x0. destruct Hc2 as [L2 P2 R2 G2]. split; [done|]. split; [congruence|].
       split; [congruence|]. left. by repeat split. }
  destruct Hsound as (x & Hx & Tx & Dx & Sx & [Hp|(p' & (j & Hj & Hp') & Hin & Hall)]);
    [destruct Ho as (j & Hj & _); congruence|]. rewrite Hlink in Hx. injection Hx as <-.
  destruct Ho as (j' & Hj' & Hp). assert (j' = j) as -> by congruence. assert (p' = p) as -> by congruence. clear Hj' Hp'.
  apply list.Forall_cons in Hall as [[Tc Dc] Hall]. apply list.Forall_cons in Hall as [[Tp Dp] _].
  destruct (pending_shas j p Hp) as (Sc & Sp & Hne).
  assert (Hat : at_durable (candidate_sha p) (previous_sha p) (Release x0) d x0 d2).
  { apply at_start; [done| |done]. by exists j, p. }
  assert (Hend : forall d', under_way (candidate_sha p) (previous_sha p) (Release x0) d d' ->
    sound T d' /\ dp_releases d' = dp_releases d).
  { intros d' Hd'. split; [by apply (under_way_sound T (candidate_sha p) (previous_sha p) (Release x0) d)|]. by destruct Hd' as (_ & y & _ & [_ ? _ _]). }
  pose proof (reconcile_in_transaction (candidate_sha p) (previous_sha p) (Release x0) d (conj Sc (conj Sp Hne)) p x0 Hin
    eq_refl eq_refl d2 Hat) as H.
  unfold ends_in. revert H. match goal with |- match ?m with _ => _ end -> _ => destruct m as [[o|e] d'] end; [|apply Hend].
  intros (y & Hy & -> & Hs). split; [|by eapply Hend, settled_under_way].
  destruct Hs as ([L _ _ _] & Hconf & Hnone). exists y. do 3 (split; [done|]). by right.
Qed.
End Facts.
