(* ===== verification/UpdaterCommands.v ===== *)
(** * The commands of the release updater

    What the updater of Updater.v runs and as whom: code of a release only as the
    build user, the token only for the fetch, as root only chown and systemctl. *)

From Stdlib Require Import Strings.Byte.
From S2P Require Import Prelude Json Text Base64 AtomicFile MediaToken UpdatePolicy Updater UpdaterFacts.

(** ** Lawful commands *)

Definition is_fetch (arguments : list string) : Prop :=
  exists place x, arguments = ["git"; "-C"; place; "fetch"; "--quiet"; "--depth=1"; "--no-tags"; "origin"; x].

Definition lawful_event (e : event) : Prop :=
  match e with
  | Ran arguments cwd (Some user) git_auth _ => user = BUILD_USER /\ (git_auth = true -> is_fetch arguments)
  | Ran arguments cwd None git_auth _ =>
      git_auth = false /\ cwd = None /\ exists command, head arguments = Some command /\ command ∈ ["chown"; "systemctl"]
  | _ => True
  end.

(** The trace grew by lawful events. *)
Definition lawfully (d d' : deployment) : Prop := exists l, dp_log d' = dp_log d ++ l /\ Forall lawful_event l.

#[export] Instance lawfully_refl : Reflexive lawfully.
Proof. intros d. exists []. by rewrite app_nil_r. Qed.
#[export] Instance lawfully_trans : Transitive lawfully.
Proof.
  intros d1 d2 d3 (l1 & H1 & F1) (l2 & H2 & F2). exists (l1 ++ l2). rewrite H2, H1, app_assoc.
  split; [done|]. by apply list.Forall_app.
Qed.

Definition lawful {A} (m : M deployment A) : Prop := forall d, lawfully d (snd (m d)).

Lemma lawful_same {A} (m : M deployment A) : (forall d, dp_log (snd (m d)) = dp_log d) -> lawful m.
Proof. intros H d. exists []. by rewrite app_nil_r. Qed.
Lemma lawful_ret {A} (a : A) : lawful (ret a).
Proof. by apply lawful_same. Qed.
Lemma lawful_raise {A} e : lawful (raise (A := A) e).
Proof. by apply lawful_same. Qed.
Lemma lawful_gets {A} (f : deployment -> A) : lawful (gets f).
Proof. by apply lawful_same. Qed.
Lemma lawful_of_result {A} (r : result A) : lawful (of_result r).
Proof. by apply lawful_same. Qed.
Lemma lawful_on_dir {A} (m : M (directory text) A) : lawful (on_dir m).
Proof. apply lawful_same. intros d. unfold on_dir, lift. by destruct (m (dp_dir d)). Qed.
Lemma lawful_on_releases f : lawful (on_releases f).
Proof. by apply lawful_same. Qed.
Lemma lawful_on_links f : lawful (on_links f).
Proof. by apply lawful_same. Qed.
Lemma lawful_bind {A B} (m : M deployment A) (k : A -> M deployment B) : lawful m -> (forall a, lawful (k a)) -> lawful (bind m k).
Proof.
  intros Hm Hk d. specialize (Hm d). unfold bind. destruct (m d) as [[a|e] d']; [|done]. etrans; [exact Hm|apply Hk].
Qed.
Lemma lawful_try {A} (m : M deployment A) h : lawful m -> (forall e, lawful (h e)) -> lawful (try_except m h).
Proof.
  intros Hm Hh d. specialize (Hm d). unfold try_except. destruct (m d) as [[a|e] d']; [done|].
  destruct (is_Exception e); [|done]. etrans; [exact Hm|apply Hh].
Qed.
Lemma lawful_finally {A} (m : M deployment A) f : lawful m -> lawful f -> lawful (try_finally m f).
Proof.
  intros Hm Hf d. specialize (Hm d). unfold try_finally. destruct (m d) as [r d1]. specialize (Hf d1).
  destruct (f d1) as [[u|e] d2]; (etrans; [exact Hm|exact Hf]).
Qed.
Lemma lawful_attempt {A} (m : M deployment A) : lawful m -> lawful (attempt m).
Proof. intros H. apply lawful_try; [apply lawful_bind; [done|intros a; apply lawful_ret]|intros e; apply lawful_ret]. Qed.
Lemma lawful_os_error {A} e (m : M deployment A) : lawful m -> lawful (os_error_as e m).
Proof. intros H d. specialize (H d). unfold os_error_as. by destruct (m d) as [[a|x] d']. Qed.
Lemma lawful_record e : lawful_event e -> lawful (record e).
Proof. intros He d. exists [e]. split; [done|]. by apply List.Forall_cons. Qed.
#[export] Hint Resolve lawful_ret lawful_raise lawful_gets lawful_of_result lawful_on_dir lawful_on_releases lawful_on_links : lawful.

(** Prove that a composed action is lawful. *)
Ltac lawful_step :=
  match goal with
  | |- forall _, _ => intros ?
  | |- lawful (bind _ _) => apply lawful_bind
  | |- lawful (let _ := _ in _) => cbv zeta
  | |- lawful (match ?x with _ => _ end) => destruct x
  | |- lawful (os_error_as _ _) => apply lawful_os_error
  | |- lawful (attempt _) => apply lawful_attempt
  | |- lawful (try_except _ _) => apply lawful_try
  | |- lawful (try_finally _ _) => apply lawful_finally
  | |- lawful (record _) => by apply lawful_record
  end.
Ltac lawful_tac := repeat (lawful_step || solve [eauto with lawful]).

Section Commands.
Context (E : environment) (c : UpdateConfig).

Lemma call_lawful : lawful (call E).
Proof. apply lawful_on_dir. Qed.
Lemma ask_lawful {A} (f : nat -> A) : lawful (ask f).
Proof. apply lawful_on_dir. Qed.
#[local] Hint Resolve call_lawful ask_lawful : lawful.

Lemma run_command_lawful arguments cwd git_auth user :
  (forall output, lawful_event (Ran arguments cwd user git_auth output)) -> lawful (_run_command E arguments cwd git_auth user).
Proof. intros H. unfold _run_command. repeat (lawful_step || apply lawful_record, H || solve [eauto with lawful]). Qed.
Lemma build_command_lawful arguments cwd : lawful (build_command E arguments cwd).
Proof. unfold build_command. lawful_tac. by apply run_command_lawful. Qed.
Lemma root_command_lawful command arguments : command ∈ ["chown"; "systemctl"] -> lawful (root_command E (command :: arguments)).
Proof.
  intros H. unfold root_command. lawful_tac. apply run_command_lawful. intros output.
  split; [done|]. split; [done|]. by exists command.
Qed.
Lemma chown_lawful arguments : lawful (root_command E ("chown" :: arguments)).
Proof. apply root_command_lawful. apply list_elem_of_here. Qed.
Lemma systemctl_lawful arguments : lawful (root_command E ("systemctl" :: arguments)).
Proof. apply root_command_lawful. apply list_elem_of_further, list_elem_of_here. Qed.
Lemma fetch_lawful place x :
  lawful (_run_command E ["git"; "-C"; place; "fetch"; "--quiet"; "--depth=1"; "--no-tags"; "origin"; x] None true (Some BUILD_USER)).
Proof. apply run_command_lawful. intros output. split; [done|]. intros _. by exists place, x. Qed.
Lemma rev_parse_lawful arguments : lawful (_run_command E arguments None false (Some BUILD_USER)).
Proof. by apply run_command_lawful. Qed.
#[local] Hint Resolve build_command_lawful chown_lawful systemctl_lawful fetch_lawful rev_parse_lawful : lawful.

Lemma verify_release_lawful release : lawful (verify_release E release).
Proof. unfold verify_release. lawful_tac. Qed.
Lemma rename_lawful staging destination : lawful (rename E staging destination).
Proof. unfold rename. lawful_tac. Qed.
Lemma discard_lawful staging : lawful (discard E staging).
Proof. unfold discard. lawful_tac. Qed.
#[local] Hint Resolve verify_release_lawful rename_lawful discard_lawful : lawful.

Lemma fill_staging_lawful x staging : lawful (fill_staging E c x staging).
Proof. unfold fill_staging. lawful_tac. Qed.
#[local] Hint Resolve fill_staging_lawful : lawful.
Lemma stage_release_lawful x : lawful (stage_release E c x).
Proof. unfold stage_release. lawful_tac. Qed.

Lemma atomic_symlink_lawful target link : lawful (_atomic_symlink E target link).
Proof. unfold _atomic_symlink, replace_link. lawful_tac. Qed.
Lemma discover_lawful : lawful (discover_current_sha E).
Proof. unfold discover_current_sha. lawful_tac. Qed.
Lemma managed_lawful x : lawful (_managed_release_path E x).
Proof. unfold _managed_release_path. lawful_tac. Qed.
Lemma resolve_current_lawful : lawful (resolve_current E).
Proof. unfold resolve_current. lawful_tac. Qed.
#[local] Hint Resolve stage_release_lawful atomic_symlink_lawful discover_lawful managed_lawful resolve_current_lawful : lawful.

Lemma systemctl_is_lawful state service : lawful (_systemctl_is E state service).
Proof. unfold _systemctl_is. lawful_tac. Qed.
#[local] Hint Resolve systemctl_is_lawful : lawful.
Lemma legacy_lawful : lawful (_legacy_command_state E).
Proof. unfold _legacy_command_state. lawful_tac. Qed.
#[local] Hint Resolve legacy_lawful : lawful.
Lemma retire_lawful state : lawful (_retire_legacy_command_service E state).
Proof. unfold _retire_legacy_command_service. lawful_tac. Qed.
Lemma restore_lawful pending : lawful (_restore_legacy_command_service E pending).
Proof. unfold _restore_legacy_command_service, _previous_release_expects_legacy_command_service. lawful_tac. Qed.
Lemma confirm_active_lawful n : lawful (confirm_active E c n).
Proof. induction n as [|n IH]; cbn [confirm_active]; unfold _service_is_active; lawful_tac. Qed.
#[local] Hint Resolve confirm_active_lawful : lawful.
Lemma restart_lawful : lawful (_restart_and_confirm E c).
Proof. unfold _restart_and_confirm. lawful_tac. Qed.
#[local] Hint Resolve retire_lawful restore_lawful restart_lawful : lawful.

Lemma write_pending_lawful release previous state : lawful (_write_pending_activation E release previous state).
Proof. unfold _write_pending_activation. lawful_tac. Qed.
Lemma read_pending_lawful : lawful (_read_pending_activation E).
Proof. unfold _read_pending_activation. lawful_tac. Qed.
Lemma clear_pending_lawful : lawful (_clear_pending_activation E).
Proof. unfold _clear_pending_activation. lawful_tac. Qed.
#[local] Hint Resolve write_pending_lawful read_pending_lawful clear_pending_lawful : lawful.

Lemma roll_back_candidate_lawful pending : lawful (roll_back_candidate E c pending).
Proof. unfold roll_back_candidate. lawful_tac. Qed.
#[local] Hint Resolve roll_back_candidate_lawful : lawful.
Lemma confirm_candidate_lawful pending : lawful (confirm_candidate E c pending).
Proof. unfold confirm_candidate, upgraded_record. lawful_tac. Qed.
#[local] Hint Resolve confirm_candidate_lawful : lawful.
Lemma reconcile_lawful : lawful (reconcile_pending_activation E c).
Proof. unfold reconcile_pending_activation. lawful_tac. Qed.
Lemma activate_lawful release previous : lawful (activate_release E c release previous).
Proof. unfold activate_release, switch_to, roll_back. lawful_tac. Qed.
#[local] Hint Resolve reconcile_lawful activate_lawful : lawful.

Lemma remove_releases_lawful names : lawful (remove_releases E names).
Proof. induction names as [|name names IH]; cbn [remove_releases]; unfold remove_release; lawful_tac. Qed.
#[local] Hint Resolve remove_releases_lawful : lawful.
Lemma prune_releases_lawful current : lawful (prune_releases E c current).
Proof. unfold prune_releases, _release_entries. lawful_tac. Qed.
#[local] Hint Resolve prune_releases_lawful : lawful.

Section Run.
Context (urlopen : nat -> string -> dict string -> Z -> result bytes) (parse : bytes -> result json).

Lemma update_lawful current : lawful (update E c urlopen parse current).
Proof. unfold update, main_commit_payload, workflow_runs_payload. lawful_tac. Qed.

Lemma run_once_lawful : lawful (run_once E c urlopen parse).
Proof.
  intros d. unfold run_once. pose proof (reconcile_lawful d) as H.
  destruct (reconcile_pending_activation E c d) as [[[current|]|e] d1]; cbn [snd] in H; [|done|by destruct e].
  etrans; [exact H|]. pose proof (update_lawful current d1) as H1.
  destruct (update E c urlopen parse current d1) as [[z|e] d2]; cbn [snd] in H1; [done|by destruct e].
Qed.
End Run.
End Commands.
