(* ===== verification/UpdaterHistory.v ===== *)
(** * Histories of updater runs

    Staging and pruning change the releases without touching the current one; one
    run, and every history of runs with failures and crashes, leaves the current
    link at a release that was trusted at the start or was approved by CI, fetched as
    that commit and verified (Updater.v, UpdaterFacts.v). *)

From Stdlib Require Import Strings.Byte.
From S2P Require Import Prelude Json Text Base64 AtomicFile MediaToken UpdatePolicy Updater UpdaterFacts UpdaterCommands.

(** ** Growing traces *)

#[export] Instance grown_refl : Reflexive grown.
Proof. intros d. exists []. by rewrite app_nil_r. Qed.
#[export] Instance grown_trans : Transitive grown.
Proof. intros d1 d2 d3 [l1 H1] [l2 H2]. exists (l1 ++ l2). by rewrite H2, H1, app_assoc. Qed.

Lemma grown_elem e d d' : grown d d' -> e ∈ dp_log d -> e ∈ dp_log d'.
Proof. intros [l ->] H. apply elem_of_app. by left. Qed.

(** Inverting a run of a sequence. *)
Ltac run_inv H :=
  match type of H with
  | bind _ _ _ = (Ok _, _) =>
      let a := fresh "a" in let d := fresh "d" in let E := fresh "Hrun" in
      apply bind_inv in H as (a & d & E & H); run_inv H
  | _ => idtac
  end.

Section History.
Context (c : UpdateConfig).

Definition place_of (name : string) : string := releases_path c name.

(** The commands every release must pass. *)
Definition verification (place : string) : list (list string) :=
  let python := path_child place ".venv/bin/python" in
  [[python; "-m"; "unittest"; "discover"; "-s"; "tests"; "-v"];
   [python; "-m"; "compileall"; "-q"; "gate_controller"; "deployment"; "tests"; "scripts"];
   ["/bin/sh"; "-n"; "file_monitor.sh"]; ["/bin/bash"; "-n"; "deployment/install.sh"]].
Definition passed (place : string) (l : list event) : Prop :=
  Forall (fun command => exists output, Ran command (Some place) (Some BUILD_USER) false (Some output) ∈ l) (verification place).

(** The release was built from a directory whose examined-out commit was [x]. *)
Definition fetched (x : string) (l : list event) : Prop :=
  exists staging, Renamed staging x ∈ l /\
    Ran ["git"; "-C"; place_of staging; "rev-parse"; "HEAD"] None (Some BUILD_USER) false (Some x) ∈ l.

(** The verification commands succeeded in the release, or in the directory that
    became it. *)
Definition verified (x : string) (l : list event) : Prop :=
  exists name, (name = x \/ Renamed name x ∈ l) /\ passed (place_of name) l.

Lemma passed_grown place d d' : grown d d' -> passed place (dp_log d) -> passed place (dp_log d').
Proof.
  intros Hg. apply List.Forall_impl. intros command [output H]. exists output. by eapply grown_elem.
Qed.
Lemma fetched_grown x d d' : grown d d' -> fetched x (dp_log d) -> fetched x (dp_log d').
Proof. intros Hg (s & H1 & H2). exists s. split; by eapply grown_elem. Qed.
Lemma verified_grown x d d' : grown d d' -> verified x (dp_log d) -> verified x (dp_log d').
Proof.
  intros Hg (n & Hn & Hp). exists n. split; [destruct Hn as [->|Hn]; [by left|right; by eapply grown_elem]|].
  by eapply passed_grown.
Qed.

(** The link and the record are the same, the releases are still there and the new
    ones were fetched. *)
Record kept (d d' : deployment) : Prop := {
  kp_link : current_link d' = current_link d;
  kp_pending : pending_file d' = pending_file d;
  kp_releases : forall x, SHA_PATTERN x = true -> is_directory (dp_releases d) x = true -> is_directory (dp_releases d') x = true;
  kp_new : forall x, SHA_PATTERN x = true -> is_directory (dp_releases d') x = true ->
    is_directory (dp_releases d) x = true \/ fetched x (dp_log d');
  kp_log : grown d d';
}.

#[local] Instance kept_refl : Reflexive kept.
Proof. intros d. split; auto. reflexivity. Qed.
#[local] Instance kept_trans : Transitive kept.
Proof.
  intros d1 d2 d3 [L1 P1 R1 N1 G1] [L2 P2 R2 N2 G2]. split; [congruence|congruence|auto| |by etrans].
  intros x Hx H. destruct (N2 x Hx H) as [H2|H2]; [|by right].
  destruct (N1 x Hx H2) as [H1|H1]; [by left|right]. by eapply fetched_grown.
Qed.

Lemma kept_calm d d' : calm d d' -> kept d d'.
Proof.
  intros Hc. pose proof (calm_grown d d' Hc) as Hg. destruct Hc as [L P R _].
  split; [done|done|by rewrite R|rewrite R; by left|done].
Qed.

Definition keeping {A} (m : M deployment A) : Prop := forall d, kept d (snd (m d)).

Lemma keeping_quiet {A} (m : M deployment A) : quiet m -> keeping m.
Proof. intros H d. apply kept_calm, H. Qed.
Lemma keeping_bind {A B} (m : M deployment A) (k : A -> M deployment B) :
  keeping m -> (forall a, keeping (k a)) -> keeping (bind m k).
Proof.
  intros Hm Hk d. specialize (Hm d). unfold bind. destruct (m d) as [[a|e] d']; [|done]. etrans; [exact Hm|apply Hk].
Qed.
Lemma keeping_try {A} (m : M deployment A) h : keeping m -> (forall e, keeping (h e)) -> keeping (try_except m h).
Proof.
  intros Hm Hh d. specialize (Hm d). unfold try_except. destruct (m d) as [[a|e] d']; [done|].
  destruct (is_Exception e); [|done]. etrans; [exact Hm|apply Hh].
Qed.

(** ** Staging *)

Section Run.
Context (E : environment).

Lemma run_command_trace arguments cwd git_auth user d output d' :
  _run_command E arguments cwd git_auth user d = (Ok output, d') ->
  calm d d' /\ Ran arguments cwd user git_auth (Some output) ∈ dp_log d'.
Proof.
  intros H. split; [pose proof (run_command_quiet E arguments cwd git_auth user d) as Hq; by rewrite H in Hq|].
  revert H. unfold _run_command, bind, ask, on_dir, lift, read, record, modify, ret. cbn [fst snd].
  destruct (env_command E _) as [completed|e]; [|done]. destruct (returncode completed =? 0)%Z; [|done].
  intros [= <- <-]. cbn. apply elem_of_app. right. by apply list_elem_of_singleton.
Qed.

Lemma build_command_trace arguments cwd u d d' :
  build_command E arguments cwd d = (Ok u, d') ->
  calm d d' /\ exists output, Ran arguments cwd (Some BUILD_USER) false (Some output) ∈ dp_log d'.
Proof.
  unfold build_command. intros H. run_inv H. apply run_command_trace in Hrun as [Hc Hin]. injection H as <- <-. eauto.
Qed.

Lemma quiet_grown {A} (m : M deployment A) d r d' : quiet m -> m d = (r, d') -> grown d d'.
Proof. intros Hq H. specialize (Hq d). rewrite H in Hq. by apply calm_grown. Qed.

Lemma verify_passed place u d d' : verify_release E place d = (Ok u, d') -> passed place (dp_log d').
Proof.
  unfold verify_release. intros H. run_inv H.
  apply build_command_trace in Hrun1 as [_ [o1 T1]], Hrun2 as [C2 [o2 T2]], Hrun3 as [C3 [o3 T3]], H as [C4 [o4 T4]].
  apply calm_grown in C2, C3, C4. unfold passed, verification.
  repeat (apply List.Forall_cons; [eexists|]); [..|constructor];
    [| | |exact T4]; eapply grown_elem; try exact C4; [eapply grown_elem; [exact C3|]; eapply grown_elem; [exact C2|exact T1]|
      eapply grown_elem; [exact C3|exact T2]|exact T3].
Qed.

(** Changes of the releases. *)
Lemma kept_releases d f :
  (forall x, SHA_PATTERN x = true -> is_directory (f (dp_releases d)) x = is_directory (dp_releases d) x) ->
  kept d (set_releases (f (dp_releases d)) d).
Proof.
  intros H. split; try done; cbn.
  - intros x Hx. by rewrite H.
  - intros x Hx. rewrite H by done. by left.
  - exists []. by rewrite app_nil_r.
Qed.

Lemma staging_unmanaged t : SHA_PATTERN (String.append ".staging-" t) = false.
Proof. unfold SHA_PATTERN. cbn. apply andb_false_r. Qed.

Lemma other_directory_dset r y n x : x <> y -> is_directory (dset y n r) x = is_directory r x.
Proof. intros H. unfold is_directory. by rewrite dget_dset_ne by done. Qed.
Lemma other_directory_ddel r y x : x <> y -> is_directory (ddel y r) x = is_directory r x.
Proof. intros H. unfold is_directory. by rewrite dget_ddel_ne by done. Qed.
Lemma unmanaged_ne x y : SHA_PATTERN x = true -> SHA_PATTERN y = false -> x <> y.
Proof. congruence. Qed.

Lemma discard_kept staging d : SHA_PATTERN staging = false -> kept d (snd (discard E staging d)).
Proof.
  intros Hs. pose proof (quiet_ask (env_keeps E) d) as Hq. unfold discard, bind.
  destruct (ask (env_keeps E) d) as [[k|e] d1]; cbn [snd] in Hq; [|by apply kept_calm]. etrans; [by apply kept_calm|].
  destruct k; [reflexivity|]. apply (kept_releases d1 (ddel staging)). intros x Hx. by apply other_directory_ddel, unmanaged_ne.
Qed.

Section Staging.
Context (staging target : string) (d0 : deployment).
Context (Hstaging : SHA_PATTERN staging = false).

Definition building (d : deployment) : Prop := kept d0 d /\ is_directory (dp_releases d) staging = true.
Definition checked_out (d : deployment) : Prop :=
  building d /\
  Ran ["git"; "-C"; place_of staging; "rev-parse"; "HEAD"] None (Some BUILD_USER) false (Some target) ∈ dp_log d.
Definition examined (d : deployment) : Prop := checked_out d /\ passed (place_of staging) (dp_log d).
Definition staged (d : deployment) : Prop :=
  kept d0 d /\ is_directory (dp_releases d) target = true /\ fetched target (dp_log d) /\ verified target (dp_log d).

Lemma building_calm d d' : calm d d' -> building d -> building d'.
Proof. intros Hc [Hk Hd]. split; [etrans; [exact Hk|by apply kept_calm]|]. by rewrite (cm_releases _ _ Hc). Qed.
Lemma checked_out_calm d d' : calm d d' -> checked_out d -> checked_out d'.
Proof. intros Hc [Hb Hr]. split; [by eapply building_calm|]. eapply grown_elem; [by apply calm_grown|done]. Qed.
Lemma examined_calm d d' : calm d d' -> examined d -> examined d'.
Proof. intros Hc [Hb Hr]. split; [by eapply checked_out_calm|]. eapply passed_grown; [by apply calm_grown|done]. Qed.
Lemma staged_calm d d' : calm d d' -> staged d -> staged d'.
Proof.
  intros Hc (Hk & Hd & Hf & Hv). pose proof (calm_grown _ _ Hc) as Hg. split; [etrans; [exact Hk|by apply kept_calm]|].
  rewrite (cm_releases _ _ Hc). split; [done|]. split; [by eapply fetched_grown|by eapply verified_grown].
Qed.

Lemma quiet_then {A} (P : deployment -> Prop) (m : M deployment A) :
  (forall d d', calm d d' -> P d -> P d') -> (forall d, P d -> kept d0 d) -> quiet m ->
  triple P m (fun _ => P) (kept d0).
Proof.
  intros Hc Hk Hq d Hd. specialize (Hq d). destruct (m d) as [[a|e] d']; [by eapply Hc|by eapply Hk, Hc].
Qed.

Lemma building_kept d : building d -> kept d0 d.
Proof. by intros []. Qed.
Lemma checked_out_kept d : checked_out d -> kept d0 d.
Proof. by intros [[]]. Qed.
Lemma examined_kept d : examined d -> kept d0 d.
Proof. by intros [[[]]]. Qed.
Lemma staged_kept d : staged d -> kept d0 d.
Proof. by intros []. Qed.

Lemma staged_rename_spec : triple examined (rename E staging target) (fun _ => staged) (kept d0).
Proof.
  unfold rename. apply (triple_bind (A := unit) _ _ _ (fun _ => examined)).
  { apply quiet_then; [apply examined_calm|apply examined_kept|apply quiet_call]. }
  intros _ d [[[Hk Hd] Hr] Hp]. unfold bind at 1, gets. unfold is_directory in Hd.
  destruct (dget target (dp_releases d)) as [n|] eqn:Et; [done|].
  destruct (dget staging (dp_releases d)) as [n|] eqn:Es; [|done]. cbn.
  set (d' := add_event _ _).
  assert (Hg : grown d d') by by eexists.
  assert (Hin : Renamed staging target ∈ dp_log d') by (apply elem_of_app; right; by apply list_elem_of_singleton).
  assert (Hf : fetched target (dp_log d')) by (exists staging; split; [done|by eapply grown_elem]).
  assert (Hne : target <> staging) by (intros ->; congruence).
  assert (Hreleases : forall x, x <> target -> x <> staging -> is_directory (dp_releases d') x = is_directory (dp_releases d) x).
  { intros x H1 H2. cbn. by rewrite other_directory_ddel, other_directory_dset. }
  split; [|split; [|split; [done|]]].
  - etrans; [exact Hk|]. split; try done.
    + intros x Hx H. destruct (decide (x = target)) as [->|]; [unfold is_directory in H; by rewrite Et in H|].
      rewrite Hreleases; [done..|by apply unmanaged_ne].
    + intros x Hx H. destruct (decide (x = target)) as [->|]; [by right|left].
      rewrite Hreleases in H; [done..|by apply unmanaged_ne].
  - cbn. unfold is_directory. rewrite dget_ddel_ne, dget_dset_eq by done. by destruct n.
  - exists staging. split; [by right|]. by eapply passed_grown.
Qed.

Lemma fill_staging_spec : triple building (fill_staging E c target staging) (fun _ => staged) (kept d0).
Proof.
  assert (Hb : forall A (m : M deployment A), quiet m -> triple building m (fun _ => building) (kept d0)).
  { intros A m. by apply quiet_then; [apply building_calm|apply building_kept]. }
  assert (Hr : forall A (m : M deployment A), quiet m -> triple checked_out m (fun _ => checked_out) (kept d0)).
  { intros A m. by apply quiet_then; [apply checked_out_calm|apply checked_out_kept]. }
  assert (Hc : forall A (m : M deployment A), quiet m -> triple examined m (fun _ => examined) (kept d0)).
  { intros A m. by apply quiet_then; [apply examined_calm|apply examined_kept]. }
  unfold fill_staging. change (releases_path c staging) with (place_of staging).
  apply (triple_bind (A := unit) _ _ _ (fun _ => building)); [by apply Hb, root_command_quiet|]. intros _.
  do 2 (apply (triple_bind (A := unit) _ _ _ (fun _ => building)); [by apply Hb, build_command_quiet|]; intros _).
  apply (triple_bind (A := string) _ _ _ (fun _ => building)); [by apply Hb, run_command_quiet|]. intros _.
  apply (triple_bind (A := unit) _ _ _ (fun _ => building)); [by apply Hb, build_command_quiet|]. intros _.
  apply (triple_bind (A := string) _ _ _ (fun o d => building d /\
    Ran ["git"; "-C"; place_of staging; "rev-parse"; "HEAD"] None (Some BUILD_USER) false (Some o) ∈ dp_log d)).
  { intros d Hd. pose proof (Hb _ _ (run_command_quiet E ["git"; "-C"; place_of staging; "rev-parse"; "HEAD"] None false (Some BUILD_USER)) d Hd) as H.
    destruct (_run_command E _ None false (Some BUILD_USER) d) as [[o|e] d'] eqn:Er; [|done]. split; [done|].
    by apply run_command_trace in Er as [_ ?]. }
  intros o. apply (triple_bind (A := unit) _ _ _ (fun _ => checked_out)).
  { destruct (String.eqb_spec o target) as [->|]; [by apply triple_ret|]. apply triple_raise. intros d [Hd _]. by apply building_kept. }
  intros _. apply (triple_bind (A := unit) _ _ _ (fun _ => checked_out)); [by apply Hr, quiet_call|]. intros _.
  apply (triple_bind (A := unit) _ _ _ (fun _ => examined)).
  { intros d Hd. pose proof (Hr _ _ (verify_release_quiet E (place_of staging)) d Hd) as H.
    destruct (verify_release E (place_of staging) d) as [[u|e] d'] eqn:Ev; [|done]. split; [done|]. by apply verify_passed in Ev. }
  intros _. apply (triple_bind (A := unit) _ _ _ (fun _ => examined)); [by apply Hc, root_command_quiet|]. intros _.
  apply (triple_bind (A := unit) _ _ _ (fun _ => examined)); [by apply Hc, quiet_call|]. intros _.
  apply (triple_bind (A := unit) _ _ _ (fun _ => staged)); [apply staged_rename_spec|]. intros _.
  apply quiet_then; [apply staged_calm|apply staged_kept|apply quiet_fsync].
Qed.
End Staging.

(** A staged release is a verified directory that was there or was fetched. *)
Definition provided (x : string) (d d' : deployment) : Prop :=
  kept d d' /\ is_directory (dp_releases d') x = true /\ verified x (dp_log d') /\
  (is_directory (dp_releases d) x = true \/ fetched x (dp_log d')).

Lemma provided_calm x d0 d d' : calm d0 d -> provided x d d' -> provided x d0 d'.
Proof.
  intros Hc (Hk & Hd & Hv & Hf). split; [etrans; [by apply kept_calm|done]|]. by rewrite <- (cm_releases _ _ Hc).
Qed.

Lemma ends_quiet {A B} d d1 (m : M deployment A) (k : A -> M deployment B) Q F :
  quiet m -> calm d d1 -> (forall d2, calm d d2 -> F d2) -> (forall a d2, calm d d2 -> ends_in d2 Q F (k a)) ->
  ends_in d1 Q F (bind m k).
Proof.
  intros Hm Hc HF Hk. apply (ends_bind (A := A) d1 m k Q F (fun _ => calm d)); [|done].
  unfold ends_in. specialize (Hm d1). destruct (m d1) as [[a|e] d2]; [|apply HF]; by etrans.
Qed.

Lemma stage_release_spec x d :
  ends_in d (fun name d' => name = x /\ SHA_PATTERN x = true /\ provided x d d') (kept d) (stage_release E c x).
Proof.
  unfold stage_release. destruct (SHA_PATTERN x) eqn:Ex; [|unfold ends_in; cbn; reflexivity]. cbn [negb].
  apply (ends_quiet d); [apply quiet_call|reflexivity|apply kept_calm|intros _ d1 C1].
  apply (ends_quiet d); [apply quiet_call|done|apply kept_calm|intros _ d2 C2].
  unfold ends_in at 1, bind at 1, gets. case_bool_decide as Hex.
  - destruct (is_directory (dp_releases d2) x) eqn:Ed; [|by apply kept_calm]. cbn [negb].
    unfold bind. pose proof (verify_release_quiet E (releases_path c x) d2) as Hq.
    destruct (verify_release E (releases_path c x) d2) as [[u|e] d3] eqn:Ev; cbn [snd] in Hq; [|apply kept_calm; by etrans].
    split; [done|]. split; [done|]. apply (provided_calm x d d2); [done|].
    split; [by apply kept_calm|]. rewrite (cm_releases _ _ Hq). split; [done|]. split; [|by left].
    exists x. split; [by left|]. by apply verify_passed in Ev.
  - change (ends_in d2 (fun name d' => name = x /\ true = true /\ provided x d d') (kept d)
      (call E ;! let! suffix := ask (env_name E) in let! modified := ask (env_time E) in
       let staging := String.append ".staging-" (String.append x (String.append "-" suffix)) in
       on_releases (dset staging (Directory modified)) ;!
       try_except (fill_staging E c x staging ;! ret x) (fun e => discard E staging ;! raise e))).
    apply (ends_quiet d); [apply quiet_call|done|apply kept_calm|intros _ d3 C3].
    apply (ends_quiet d); [apply quiet_ask|done|apply kept_calm|intros suffix d4 C4].
    apply (ends_quiet d); [apply quiet_ask|done|apply kept_calm|intros modified d5 C5].
    cbv zeta. set (staging := String.append ".staging-" _).
    assert (Hs : SHA_PATTERN staging = false) by apply staging_unmanaged.
    assert (Hb : building staging d (set_releases (dset staging (Directory modified) (dp_releases d5)) d5)).
    { split; [|cbn; unfold is_directory; by rewrite dget_dset_eq]. etrans; [by apply kept_calm|].
      apply (kept_releases d5 (dset staging (Directory modified))). intros y Hy. by apply other_directory_dset, unmanaged_ne. }
    pose proof (fill_staging_spec staging x d Hs _ Hb) as H.
    unfold ends_in, bind at 1, on_releases, modify, try_except, bind at 1.
    destruct (fill_staging E c x staging _) as [[u|e] d6].
    + destruct H as (Hk & Hd & Hf & Hv). split; [done|]. split; [done|]. split; [done|]. split; [done|]. split; [done|]. by right.
    + destruct (is_Exception e); [|done]. unfold bind. pose proof (discard_kept staging d6 Hs) as Hd.
      destruct (discard E staging d6) as [[u|e'] d7]; change (kept d d7); (etrans; [exact H|exact Hd]).
Qed.

(** ** Pruning *)

(** Only releases of [names] went. *)
Record pruned (names : list string) (d d' : deployment) : Prop := {
  pr_link : current_link d' = current_link d;
  pr_pending : pending_file d' = pending_file d;
  pr_releases : forall x, x ∉ names -> is_directory (dp_releases d') x = is_directory (dp_releases d) x;
  pr_fewer : forall x, is_directory (dp_releases d') x = true -> is_directory (dp_releases d) x = true;
  pr_log : grown d d';
}.

#[local] Instance pruned_refl names : Reflexive (pruned names).
Proof. intros d. split; try done. Qed.
#[local] Instance pruned_trans names : Transitive (pruned names).
Proof.
  intros d1 d2 d3 [L1 P1 R1 F1 G1] [L2 P2 R2 F2 G2]. split; [congruence|congruence| |auto|by etrans].
  intros x Hx. by rewrite R2, R1.
Qed.
Lemma pruned_calm names d d' : calm d d' -> pruned names d d'.
Proof. intros Hc. pose proof (calm_grown d d' Hc) as Hg. destruct Hc as [L P R _]. split; rewrite ?R; auto. Qed.

Lemma remove_release_pruned names name d : name ∈ names -> pruned names d (snd (remove_release E name d)).
Proof.
  intros Hin. pose proof (quiet_call E d) as Hq. unfold remove_release, bind at 1.
  destruct (call E d) as [[u|e] d1]; cbn [snd] in Hq; [|by apply pruned_calm]. etrans; [by apply pruned_calm|].
  unfold bind at 1, gets. clear Hq. assert (H : forall n, match n with Some (Link _) => True | _ =>
    pruned names d1 (snd ((let! kept := ask (env_keeps E) in
      if kept : bool then raise OSError else on_releases (ddel name) ;! record (Removed name)) d1)) end).
  2: { specialize (H (dget name (dp_releases d1))). destruct (dget name (dp_releases d1)) as [[m|t|]|]; done. }
  intros n. assert (H : pruned names d1 (snd ((let! kept := ask (env_keeps E) in
      if kept : bool then raise OSError else on_releases (ddel name) ;! record (Removed name)) d1))).
  2: { by destruct n as [[]|]. }
  pose proof (quiet_ask (env_keeps E) d1) as Hq. unfold bind at 1. destruct (ask (env_keeps E) d1) as [[k|e] d2]; cbn [snd] in Hq; [|by apply pruned_calm].
  etrans; [by apply pruned_calm|]. destruct k; [reflexivity|]. cbn. split; try done; cbn.
  - intros x Hx. apply other_directory_ddel. by intros ->.
  - intros x. unfold is_directory. destruct (decide (x = name)) as [->|Hx]; [by rewrite dget_ddel_eq|by rewrite dget_ddel_ne].
  - by eexists.
Qed.

Lemma remove_releases_pruned names l d : (forall x, x ∈ l -> x ∈ names) -> pruned names d (snd (remove_releases E l d)).
Proof.
  revert d. induction l as [|x l IH]; intros d Hl; [cbn; reflexivity|]. cbn [remove_releases]. unfold bind.
  pose proof (remove_release_pruned names x d (Hl x (list_elem_of_here _ _))) as H.
  destruct (remove_release E x d) as [[u|e] d1]; [|done]. etrans; [exact H|]. apply IH. intros y Hy. apply Hl. by right.
Qed.

(** A release that is the current one is not pruned. *)
Lemma prune_releases_pruned current d : exists names, current ∉ names /\ pruned names d (snd (prune_releases E c current d)).
Proof.
  unfold prune_releases, bind at 1. assert (Hq : quiet (_release_entries E)).
  { unfold _release_entries. apply quiet_bind; [apply quiet_call|intros _]. apply quiet_bind; [apply quiet_gets|intros r; apply quiet_ret]. }
  specialize (Hq d). destruct (_release_entries E d) as [[entries|e] d1]; cbn [snd] in Hq.
  2: { exists []. split; [by intros ?%elem_of_nil|by apply pruned_calm]. }
  unfold bind, of_result. destruct (releases_to_prune entries current (keep_releases c)) as [stale|e] eqn:Ep.
  2: { exists []. split; [by intros ?%elem_of_nil|by apply pruned_calm]. }
  exists stale. split; [by eapply prune_spares_current|]. etrans; [by apply pruned_calm|]. by apply remove_releases_pruned.
Qed.

(** ** One run *)

Lemma lawful_grown {A} (m : M deployment A) d r d' : lawful m -> m d = (r, d') -> grown d d'.
Proof. intros Hm H. destruct (Hm d) as (l & Hl & _). exists l. by rewrite H in Hl. Qed.

Lemma resolve_current_result d x p d' :
  current_link d = Some (LinkTo (Release x)) -> is_directory (dp_releases d) x = true ->
  resolve_current E d = (Ok p, d') -> p = Release x.
Proof.
  intros Hl Hd. unfold resolve_current, bind at 1. pose proof (quiet_call E d) as [L P R _].
  destruct (call E d) as [[u|e] d1]; [|done]. cbn [snd] in L, R. unfold bind, gets. unfold current_link in L, Hl.
  rewrite L, R, Hl. rewrite directory_resolves by done. by intros [= <- <-].
Qed.

Section Update.
Context (urlopen : nat -> string -> dict string -> Z -> result bytes) (parse : bytes -> result json).

(** GitHub reported a successful CI run of the commit on the branch. *)
Definition approved (x : string) : Prop :=
  exists k runs, _workflow_runs_payload (urlopen k) parse c x = Ok runs /\ has_successful_ci_run runs x (branch c) = Ok true.

Definition earned (d d' : deployment) (x : string) : Prop :=
  approved x /\ verified x (dp_log d') /\ (is_directory (dp_releases d) x = true \/ fetched x (dp_log d')).

(** What a run may do to a deployment with trusted releases [T]. *)
Definition advanced (T : string -> Prop) (d d' : deployment) : Prop :=
  sound (fun x => T x \/ earned d d' x) d' /\ grown d d' /\
  forall x, SHA_PATTERN x = true -> is_directory (dp_releases d') x = true ->
    is_directory (dp_releases d) x = true \/ fetched x (dp_log d').

Lemma sound_weaken (T T' : string -> Prop) d : (forall x, T x -> T' x) -> sound T d -> sound T' d.
Proof.
  intros H (x & L & Tx & D & S & P). exists x. split; [done|]. split; [by apply H|]. split; [done|]. split; [done|].
  destruct P as [P|(p & Hp & Hin & Hall)]; [by left|right]. exists p. split; [done|]. split; [done|].
  eapply List.Forall_impl; [|exact Hall]. intros y [Hy Hd]. split; [by apply H|done].
Qed.

Lemma sound_kept T d d' : kept d d' -> sound T d -> sound T d'.
Proof.
  intros [L P R _ _] (x & Hl & Hx & Hd & Hs & Hp). exists x. unfold names_record. rewrite L, P.
  split; [done|]. split; [done|]. split; [by apply R|]. split; [done|].
  destruct Hp as [Hp|(p & (j & Hj & Hp) & Hin & Hall)]; [by left|right]. exists p. split; [by exists j|]. split; [done|].
  destruct (pending_shas j p Hp) as (S1 & S2 & _).
  apply list.Forall_cons in Hall as [[T1 D1] Hall]. apply list.Forall_cons in Hall as [[T2 D2] _]. repeat constructor; auto.
Qed.

Lemma advanced_kept T d d' : sound T d -> kept d d' -> advanced T d d'.
Proof.
  intros Hs Hk. split; [|by split; apply Hk]. apply (sound_weaken T); [by left|]. by eapply sound_kept.
Qed.
Lemma advanced_calm T d d' : sound T d -> calm d d' -> advanced T d d'.
Proof. intros Hs Hc. apply advanced_kept; [done|]. by apply kept_calm. Qed.

(** The candidate is trusted once it is approved and provided. *)
Lemma advanced_pruned T d d1 d' x (names : list string) :
  approved x -> SHA_PATTERN x = true -> provided x d d1 -> grown d1 d' ->
  current_link d' = Some (LinkTo (Release x)) -> pending_file d' = None -> x ∉ names ->
  (forall y, y ∉ names -> is_directory (dp_releases d') y = is_directory (dp_releases d1) y) ->
  (forall y, is_directory (dp_releases d') y = true -> is_directory (dp_releases d1) y = true) ->
  advanced T d d'.
Proof.
  intros Ha Sx (Hk & Dx & Vx & Fx) G L P Hx R F. pose proof (kp_log _ _ Hk) as G0. split; [|split].
  - exists x. split; [done|]. split.
    { right. split; [done|]. split; [by eapply verified_grown|]. destruct Fx; [by left|right; by eapply fetched_grown]. }
    split; [by rewrite R|]. split; [done|]. by left.
  - by etrans.
  - intros y Hy Dy. apply F in Dy. destruct (kp_new _ _ Hk y Hy Dy); [by left|right; by eapply fetched_grown].
Qed.

Lemma advanced_under_way T d d1 d2 d' x cur :
  sound T d -> T cur -> is_directory (dp_releases d) cur = true -> SHA_PATTERN cur = true ->
  approved x -> SHA_PATTERN x = true -> provided x d d1 -> calm d1 d2 ->
  given_up c x cur (Release cur) d2 d' -> advanced T d d'.
Proof.
  intros Hs Tc Dc Sc Ha Sx (Hk & Dx & Vx & Fx) C2 [C|Hu].
  { apply advanced_kept; [done|]. etrans; [exact Hk|]. apply kept_calm. by etrans. }
  pose proof Hu as (_ & y & Hy & [L R (l & G & _) P]).
  assert (G2 : grown d d').
  { etrans; [exact (kp_log _ _ Hk)|]. etrans; [by apply calm_grown|]. by exists l. }
  assert (G1 : grown d1 d') by (etrans; [by apply calm_grown|by exists l]).
  assert (Hc1 : dp_releases d2 = dp_releases d1) by apply C2.
  split; [|split; [done|]].
  - apply (under_way_sound c (fun x => T x \/ earned d d' x) x cur (Release cur) d2); try done.
    + right. split; [done|]. split; [by eapply verified_grown|]. destruct Fx; [by left|right; by eapply fetched_grown].
    + by left.
    + by rewrite Hc1.
    + rewrite Hc1. by apply (kp_releases _ _ Hk).
  - intros z Hz Dz. rewrite R, Hc1 in Dz. destruct (kp_new _ _ Hk z Hz Dz); [by left|right; by eapply fetched_grown].
Qed.

Lemma ends_of_result {A B} d (r : result A) (k : A -> M deployment B) Q F :
  F d -> (forall a, r = Ok a -> ends_in d Q F (k a)) -> ends_in d Q F (bind (of_result r) k).
Proof. intros HF Hk. unfold ends_in, bind, of_result. destruct r as [a|e]; [by apply Hk|done]. Qed.

Lemma decide_install cur main runs br x decision :
  read_main_sha main = Ok x -> String.eqb x cur = false -> decide_update (Some cur) main runs br = Ok decision ->
  decision = DEFER \/ has_successful_ci_run runs x br = Ok true.
Proof.
  intros Hx Hne. unfold decide_update. rewrite Hx. cbn [rbind]. apply String.eqb_neq in Hne.
  rewrite bool_decide_eq_false_2 by congruence. destruct (has_successful_ci_run runs x br) as [[|]|e]; cbn; [by right|by left; congruence|done].
Qed.

Lemma runs_payload_spec x d :
  ends_in d (fun runs d' => calm d d' /\ exists k, _workflow_runs_payload (urlopen k) parse c x = Ok runs) (calm d)
    (workflow_runs_payload c urlopen parse x).
Proof.
  unfold workflow_runs_payload. apply (ends_bind (A := string -> dict string -> Z -> result bytes) d _ _ _ _
    (fun reply d' => calm d d' /\ exists k, reply = urlopen k)).
  - pose proof (quiet_ask urlopen d) as Hq. unfold ends_in. destruct (ask urlopen d) as [[f|e] d'] eqn:Ea; cbn [snd] in Hq; [|done].
    split; [done|]. unfold ask, on_dir, lift, read in Ea. injection Ea as <- _. by eexists.
  - intros reply d' [Hc [k ->]]. unfold ends_in, of_result.
    destruct (_workflow_runs_payload (urlopen k) parse c x) as [runs|e] eqn:Er; [|done]. split; [done|]. by exists k.
Qed.

(** Staging, activating and pruning after the decision to install. *)
Lemma install_advanced T d d2 x cur :
  sound T d -> calm d d2 -> current_link d = Some (LinkTo (Release cur)) -> pending_file d = None -> x <> cur -> approved x ->
  ends_in d2 (fun _ => advanced T d) (advanced T d)
    (let! candidate := stage_release E c x in
     let! previous := resolve_current E in
     activate_release E c (Release candidate) previous ;!
     let! pruned := attempt (prune_releases E c x) in
     match pruned with
     | inr (UpdateError _) | inr (ActivationError _) | inr OSError | inr TimeoutError | inl _ => ret 0%Z
     | inr e => raise e
     end).
Proof.
  intros Hs C2 Hl Hp Hne Ha. pose proof Hs as (cur' & Hl' & Tc & Dc & Sc & _). rewrite Hl in Hl'. injection Hl' as <-.
  apply (ends_bind (A := string) d2 _ _ _ _ (fun name d3 => name = x /\ SHA_PATTERN x = true /\ provided x d d3)).
  { pose proof (stage_release_spec x d2) as H. unfold ends_in in *. destruct (stage_release E c x d2) as [[name|e] d3].
    - destruct H as (-> & Sx & Hp3). split; [done|]. split; [done|]. by eapply provided_calm.
    - apply advanced_kept; [done|]. etrans; [by apply kept_calm|done]. }
  intros name d3 (-> & Sx & Hprov). pose proof Hprov as (Hk & Dx & _).
  apply (ends_bind (A := path) d3 _ _ _ _ (fun p d4 => calm d3 d4 /\ p = Release cur)).
  { pose proof (resolve_current_quiet E d3) as Hq. unfold ends_in. destruct (resolve_current E d3) as [[p|e] d4] eqn:Er; cbn [snd] in Hq.
    - split; [done|]. eapply (resolve_current_result d3); [|by apply (kp_releases _ _ Hk)|exact Er]. rewrite (kp_link _ _ Hk). done.
    - apply advanced_kept; [done|]. etrans; [exact Hk|]. by apply kept_calm. }
  intros p d4 [C4 ->]. pose proof C4 as [L4 P4 R4 _].
  assert (D4 : forall y, SHA_PATTERN y = true -> is_directory (dp_releases d) y = true -> is_directory (dp_releases d4) y = true).
  { intros y Hy Hd. rewrite R4. by apply (kp_releases _ _ Hk). }
  pose proof (activate_spec E c x cur (Release cur) d4 ltac:(by rewrite R4) (D4 _ Sc Dc) (conj Sx (conj Sc Hne))
    ltac:(by rewrite L4, (kp_link _ _ Hk)) ltac:(by rewrite P4, (kp_pending _ _ Hk)) eq_refl) as Hact.
  unfold ends_in, bind at 1.
  destruct (activate_release E c (Release x) (Release cur) d4) as [[u|e] d5].
  2: { destruct Hact as [Hact _]. by eapply (advanced_under_way T d d3 d4 d5 x cur). }
  destruct Hact as ([L5 R5 (l & G5 & _) _] & _ & P5). unfold bind, attempt, try_except, bind.
  destruct (prune_releases_pruned x d5) as (names & Hx & [L6 P6 R6 F6 G6]).
  assert (H6 : advanced T d (snd (prune_releases E c x d5))).
  { apply (advanced_pruned T d d3 _ x names); try done.
    - etrans; [by apply calm_grown|]. etrans; [by exists l|done].
    - by rewrite L6.
    - by rewrite P6.
    - intros y Hy. by rewrite R6, R5, R4.
    - intros y Hy. apply F6 in Hy. by rewrite R5, R4 in Hy. }
  destruct (prune_releases E c x d5) as [[v|e] d6]; cbn [snd] in H6; [done|]. by destruct e.
Qed.

Lemma update_advanced T d cur :
  sound T d -> current_link d = Some (LinkTo (Release cur)) -> pending_file d = None ->
  ends_in d (fun _ => advanced T d) (advanced T d) (update E c urlopen parse cur).
Proof.
  intros Hs Hl Hp. assert (Hcalm : forall d', calm d d' -> advanced T d d') by (intros d'; by apply advanced_calm).
  unfold update. apply (ends_quiet d); [|reflexivity|done|intros main d1 C1].
  { apply quiet_bind; [apply quiet_ask|intros reply; apply quiet_of_result]. }
  apply ends_of_result; [by apply Hcalm|intros x Hx].
  destruct (String.eqb x cur) eqn:Ex; [by apply Hcalm|].
  apply (ends_bind (A := json) d1 _ _ _ _ (fun runs d2 => calm d d2 /\ exists k, _workflow_runs_payload (urlopen k) parse c x = Ok runs)).
  { pose proof (runs_payload_spec x d1) as H. unfold ends_in in *. destruct (workflow_runs_payload c urlopen parse x d1) as [[runs|e] d2].
    - destruct H as [C2 H]. split; [by etrans|done].
    - apply Hcalm. by etrans. }
  intros runs d2 [C2 [k Hk]]. apply ends_of_result; [by apply Hcalm|intros decision Hd].
  pose proof (decide_install _ _ _ _ _ _ Hx Ex Hd) as [->|Hci]; [by apply Hcalm|].
  assert (Ha : approved x) by by exists k, runs. apply String.eqb_neq in Ex.
  destruct decision; [|by apply Hcalm|]; by apply (install_advanced T d d2 x cur).
Qed.

Lemma run_once_advanced T d : sound T d -> advanced T d (snd (run_once E c urlopen parse d)).
Proof.
  intros Hs. pose proof Hs as (x0 & Hl & _). pose proof (reconcile_spec E c T d x0 Hs Hl) as H. unfold ends_in in H.
  pose proof (lawful_grown (reconcile_pending_activation E c) d) as Hg.
  assert (Hadv : forall d1, sound T d1 -> dp_releases d1 = dp_releases d -> grown d d1 -> advanced T d d1).
  { intros d1 S1 R1 G1. split; [by eapply sound_weaken; [|exact S1]; left|]. split; [done|]. intros x _. rewrite R1. by left. }
  unfold run_once. destruct (reconcile_pending_activation E c d) as [r d1]. specialize (Hg r d1 (reconcile_lawful E c) eq_refl).
  destruct r as [[cur|]|e]; [|by destruct H as (_ & ? & ?); apply Hadv|].
  2: { assert (Hd : advanced T d d1) by (destruct H; by apply Hadv). by destruct e. }
  destruct H as ((x & [= <-] & L1 & P1 & _) & S1 & R1).
  pose proof (update_advanced T d1 cur S1 L1 P1) as Hu. unfold ends_in in Hu.
  assert (Hd : advanced T d (snd (update E c urlopen parse cur d1))).
  { assert (Hu' : advanced T d1 (snd (update E c urlopen parse cur d1))) by by destruct (update E c urlopen parse cur d1) as [[]].
    destruct Hu' as (S2 & G2 & N2). unfold earned in *. rewrite R1 in *. split; [done|]. split; [by etrans|done]. }
  by destruct (update E c urlopen parse cur d1) as [[z|[]] d2].
Qed.
End Update.
End Run.

(** ** Histories *)

(** What a run meets: the system and the replies of GitHub; a run may end by the
    death of the process, the next one starts from the deployment it left. *)
Record surroundings := {
  s_environment : environment;
  s_urlopen : nat -> string -> dict string -> Z -> result bytes;
  s_parse : bytes -> result json;
}.
Definition next (d : deployment) (s : surroundings) : deployment :=
  snd (run_once (s_environment s) c (s_urlopen s) (s_parse s) d).
Definition history (d : deployment) (runs : list surroundings) : deployment := fold_left next runs d.

Definition approved_in (runs : list surroundings) (x : string) : Prop :=
  exists s, s ∈ runs /\ approved (s_urlopen s) (s_parse s) x.
Definition earned_in (runs : list surroundings) (d d' : deployment) (x : string) : Prop :=
  approved_in runs x /\ verified x (dp_log d') /\ (is_directory (dp_releases d) x = true \/ fetched x (dp_log d')).

(** The directories of the trusted releases are SHA directories, so a directory that
    is there was there at the beginning or was fetched. *)
Lemma history_advanced T d runs : sound T d ->
  let d' := history d runs in
  sound (fun x => T x \/ earned_in runs d d' x) d' /\ grown d d' /\
  forall x, SHA_PATTERN x = true -> is_directory (dp_releases d') x = true ->
    is_directory (dp_releases d) x = true \/ fetched x (dp_log d').
Proof.
  intros Hs. induction runs as [|s runs IH] using rev_ind; cbv zeta.
  { split; [by apply (sound_weaken T); [left|]|]. split; [reflexivity|]. by left. }
  unfold history. rewrite fold_left_app. cbn [fold_left]. fold (history d runs). cbv zeta in IH.
  destruct IH as (S1 & G1 & N1). set (d1 := history d runs) in *.
  destruct (run_once_advanced (s_environment s) (s_urlopen s) (s_parse s) _ d1 S1) as (S2 & G2 & N2).
  fold (next d1 s) in S2, G2, N2. set (d2 := next d1 s) in *.
  split; [|split; [by etrans|]].
  2: { intros x Hx Hd. destruct (N2 x Hx Hd) as [H|H]; [|by right].
       destruct (N1 x Hx H) as [H1|H1]; [by left|right; by eapply fetched_grown]. }
  assert (Hsha : forall x, earned (s_urlopen s) (s_parse s) d1 d2 x -> SHA_PATTERN x = true).
  { intros x ((k & r & _ & Hr) & _). unfold has_successful_ci_run in Hr. by destruct (SHA_PATTERN x). }
  eapply sound_weaken; [|exact S2]. intros x [[Hx|(Ha & Hv & Hf)]|He]; [by left|right|right].
  - split; [|split; [by eapply verified_grown|]].
    + destruct Ha as (s' & Hin & Ha). exists s'. split; [|done]. apply elem_of_app. by left.
    + destruct Hf; [by left|right; by eapply fetched_grown].
  - pose proof (Hsha x He) as Sx. destruct He as (Ha & Hv & Hf). split; [|split; [done|]].
    + exists s. split; [|done]. apply elem_of_app. right. by apply list_elem_of_singleton.
    + destruct Hf as [Hf|Hf]; [|by right]. destruct (N1 x Sx Hf); [by left|right; by eapply fetched_grown].
Qed.
End History.
