(* ===== verification/UpdaterOutcomes.v ===== *)
(** * What the release updater guarantees

    The outcome of an activation and of a reconciliation, recovery in a healthy
    system, the commands, and the current release in every history of runs
    (UpdaterFacts.v, UpdaterCommands.v, UpdaterHistory.v). *)

From Stdlib Require Import Strings.Byte.
From S2P Require Import Prelude Json Text Base64 AtomicFile MediaToken UpdatePolicy Updater UpdaterFacts UpdaterCommands UpdaterHistory.

(** ** Recovery *)

(** System calls and commands succeed, services are active. *)
Record healthy (E : environment) : Prop := {
  hl_io : forall n, env_io E n = Ok tt;
  hl_command : forall n, exists completed, env_command E n = Ok completed /\ returncode completed = 0%Z;
  hl_keeps : forall n, env_keeps E n = false;
}.

(** The action returns. *)
Definition safe {A} (m : M deployment A) : Prop := forall d, exists a d', m d = (Ok a, d').

Lemma completes_ret {A} (a : A) : safe (ret a).
Proof. intros d. by eexists _, _. Qed.
Lemma completes_gets {A} (f : deployment -> A) : safe (gets f).
Proof. intros d. by eexists _, _. Qed.
Lemma safe_record e : safe (record e).
Proof. intros d. by eexists _, _. Qed.
Lemma safe_ask {A} (f : nat -> A) : safe (ask f).
Proof. intros d. by eexists _, _. Qed.
Lemma completes_bind {A B} (m : M deployment A) (k : A -> M deployment B) : safe m -> (forall a, safe (k a)) -> safe (bind m k).
Proof. intros Hm Hk d. destruct (Hm d) as (a & d1 & E). rewrite (bind_ok m k d a d1 E). apply Hk. Qed.
Lemma safe_if {A} (b : bool) (m n : M deployment A) : safe m -> safe n -> safe (if b then m else n).
Proof. by destruct b. Qed.

Lemma ends_safe {A B} d0 d (m : M deployment A) (k : A -> M deployment B) Q F :
  safe m -> quiet m -> calm d0 d -> (forall a d', m d = (Ok a, d') -> calm d0 d' -> ends_in d' Q F (k a)) -> ends_in d Q F (bind m k).
Proof.
  intros Hs Hq Hc Hk. destruct (Hs d) as (a & d' & E). specialize (Hq d). rewrite E in Hq. cbn [snd] in Hq.
  unfold ends_in. rewrite (bind_ok m k d a d' E). apply Hk; [done|]. by etrans.
Qed.

Section Healthy.
Context (E : environment) (c : UpdateConfig) (Hhealthy : healthy E).

Lemma safe_call : safe (call E).
Proof.
  intros d. unfold call, on_dir, lift, AtomicFile.system_call, bind, read, of_result, Updater.io. rewrite (hl_io _ Hhealthy). by eexists _, _.
Qed.

Lemma safe_run_command arguments cwd git_auth user : safe (_run_command E arguments cwd git_auth user).
Proof.
  intros d. unfold _run_command. unfold bind at 1, ask, on_dir, lift, read. cbn [fst snd].
  match goal with |- context [env_command E ?n] => destruct (hl_command _ Hhealthy n) as (completed & -> & ->) end. by eexists _, _.
Qed.
Lemma safe_root_command arguments : safe (root_command E arguments).
Proof. apply completes_bind; [apply safe_run_command|intros _; apply completes_ret]. Qed.

Lemma systemctl_healthy state service d : exists d', _systemctl_is E state service d = (Ok true, d').
Proof.
  unfold _systemctl_is. unfold bind at 1, ask, on_dir, lift, read. cbn [fst snd].
  match goal with |- context [env_command E ?n] => destruct (hl_command _ Hhealthy n) as (completed & -> & Hc) end.
  unfold unit_state. rewrite Hc. by eexists.
Qed.
Lemma safe_systemctl state service : safe (_systemctl_is E state service).
Proof. intros d. destruct (systemctl_healthy state service d) as [d' H]. by eexists _, _. Qed.

Lemma safe_confirm_active n : safe (confirm_active E c n).
Proof.
  induction n as [|n IH]; cbn [confirm_active]; [apply completes_ret|]. apply completes_bind; [apply safe_call|intros _].
  apply completes_bind; [apply safe_record|intros _]. intros d. unfold _service_is_active.
  destruct (systemctl_healthy "is-active" (service_name c) d) as [d' H]. rewrite (bind_ok _ _ _ _ _ H). apply IH.
Qed.
Lemma safe_restart : safe (_restart_and_confirm E c).
Proof. apply completes_bind; [apply safe_root_command|intros _; apply safe_confirm_active]. Qed.

Lemma safe_restore pending : safe (_restore_legacy_command_service E pending).
Proof.
  unfold _restore_legacy_command_service, _previous_release_expects_legacy_command_service.
  destruct (legacy_command_enabled pending) as [e|], (legacy_command_active pending) as [a|]; try apply completes_ret.
  apply completes_bind; [apply completes_bind; [apply safe_call|intros _; apply safe_ask]|intros expects].
  apply safe_if; [apply completes_ret|]. apply completes_bind; [|intros _]; (apply safe_if; [apply safe_root_command|apply completes_ret]).
Qed.

Lemma safe_retire : safe (_retire_legacy_command_service E None).
Proof.
  unfold _retire_legacy_command_service. apply completes_bind.
  { apply completes_bind; [apply safe_systemctl|intros e]. apply completes_bind; [apply safe_systemctl|intros a; apply completes_ret]. }
  intros state. apply safe_if; [|apply completes_ret]. apply completes_bind; [apply safe_root_command|intros _; apply completes_ret].
Qed.

Lemma os_error_ok {A} e (m : M deployment A) d a d' : m d = (Ok a, d') -> os_error_as e m d = (Ok a, d').
Proof. intros H. unfold os_error_as. by rewrite H. Qed.

Lemma managed_healthy x d : is_directory (dp_releases d) x = true -> exists d', _managed_release_path E x d = (Ok (Release x), d').
Proof.
  intros Hd. destruct (safe_call d) as ([] & d1 & E1). pose proof (quiet_call E d) as [_ _ R1 _]. rewrite E1 in R1. cbn [snd] in R1.
  destruct (safe_call d1) as ([] & d2 & E2). pose proof (quiet_call E d1) as [_ _ R2 _]. rewrite E2 in R2. cbn [snd] in R2.
  destruct (safe_call d2) as ([] & d3 & E3). exists d3. apply os_error_ok.
  rewrite (bind_ok _ _ _ _ _ E1), (bind_ok _ _ _ _ _ E2). unfold bind at 1, gets. rewrite R2, R1, Hd. cbn [negb].
  by rewrite (bind_ok _ _ _ _ _ E3).
Qed.

Lemma ends_managed {B} d0 d x (k : path -> M deployment B) Q F :
  calm d0 d -> is_directory (dp_releases d0) x = true -> (forall d', calm d0 d' -> ends_in d' Q F (k (Release x))) ->
  ends_in d Q F (bind (_managed_release_path E x) k).
Proof.
  intros Hc Hd Hk. destruct (managed_healthy x d) as [d' H]; [by rewrite (cm_releases _ _ Hc)|].
  unfold ends_in. rewrite (bind_ok _ _ _ _ _ H). apply Hk. etrans; [exact Hc|].
  pose proof (managed_quiet E x d) as Hq. by rewrite H in Hq.
Qed.

(** The record as a healthy system reads it. *)
Lemma read_pending_healthy {B} d p (k : option PendingActivation -> M deployment B) Q F :
  names_record d p -> is_directory (dp_releases d) (candidate_sha p) = true -> is_directory (dp_releases d) (previous_sha p) = true ->
  (forall d', calm d d' -> ends_in d' Q F (k (Some p))) -> ends_in d Q F (bind (_read_pending_activation E) k).
Proof.
  intros (j & Hj & Hp) Dc Dp Hk. unfold _read_pending_activation. unfold ends_in. rewrite bind_assoc. fold (@ends_in B).
  apply (ends_safe d d); [apply safe_call|apply quiet_call|reflexivity|]. intros [] d1 _ C1.
  unfold ends_in. rewrite bind_assoc. unfold bind at 1, gets. pose proof (cm_pending _ _ C1) as P1. unfold pending_file in P1, Hj. rewrite P1, Hj.
  rewrite bind_assoc. apply (ends_safe d d1); [apply safe_ask|apply quiet_ask|done|]. intros irregular d2 E2 C2.
  assert (irregular = false) as ->.
  { unfold ask, on_dir, lift, read in E2. cbn in E2. injection E2 as E2 _. by rewrite <- E2, (hl_keeps _ Hhealthy). }
  unfold ends_in. rewrite bind_assoc.
  apply (ends_safe d d2); [|apply quiet_os_error, quiet_call|done|].
  { intros d3. destruct (safe_call d3) as (a & d4 & E4). exists a, d4. by apply os_error_ok. }
  intros [] d3 _ C3. cbn [loads]. unfold ends_in. rewrite Hp. unfold of_result. rewrite bind_assoc. unfold bind at 1.
  rewrite bind_assoc. apply (ends_managed d); [done|done|]. intros d4 C4.
  unfold ends_in. rewrite bind_assoc. apply (ends_managed d); [done|done|]. intros d5 C5. by apply Hk.
Qed.

Lemma discover_healthy d x : current_link d = Some (LinkTo (Release x)) -> is_directory (dp_releases d) x = true -> SHA_PATTERN x = true ->
  exists d', discover_current_sha E d = (Ok (Some x), d').
Proof.
  intros Hl Hd Hs. destruct (safe_call d) as ([] & d1 & E1). pose proof (quiet_call E d) as [L1 _ R1 _]. rewrite E1 in L1, R1. cbn [snd] in L1, R1.
  destruct (safe_call d1) as ([] & d2 & E2). pose proof (quiet_call E d1) as [_ _ R2 _]. rewrite E2 in R2. cbn [snd] in R2.
  destruct (safe_call d2) as ([] & d3 & E3). pose proof (quiet_call E d2) as [_ _ R3 _]. rewrite E3 in R3. cbn [snd] in R3.
  destruct (safe_call d3) as ([] & d4 & E4). exists d4. unfold discover_current_sha. rewrite (bind_ok _ _ _ _ _ E1).
  unfold bind at 1, gets. unfold current_link in L1, Hl. rewrite L1, Hl.
  assert (E23 : os_error_as (ValueError "current release symlink is broken") (call E ;! call E) d1 = (Ok tt, d3)).
  { apply os_error_ok. by rewrite (bind_ok _ _ _ _ _ E2). }
  rewrite (bind_ok _ _ _ _ _ E23). unfold bind at 1. rewrite R3, R2, R1, directory_resolves, Hs by done. cbn [negb].
  by rewrite (bind_ok _ _ _ _ _ E4), Hd.
Qed.

Lemma fsync_healthy (s : directory text) : exists s', _fsync_directory (Updater.io E) s = (Ok tt, s').
Proof.
  assert (H : forall s : directory text, exists s', AtomicFile.system_call (Updater.io E) s = (Ok tt, s')).
  { intros s1. unfold AtomicFile.system_call, bind, read, of_result, Updater.io. rewrite (hl_io _ Hhealthy). by eexists. }
  destruct (H s) as [s1 H1]. destruct (H s1) as [s2 H2]. destruct (H s2) as [s3 H3]. exists s3.
  unfold _fsync_directory. rewrite (bind_ok _ _ _ _ _ H1). unfold try_finally. by rewrite H2, H3.
Qed.

Lemma clear_healthy d : is_Some (pending_file d) -> exists d', _clear_pending_activation E d = (Ok tt, d').
Proof.
  intros [t Ht]. destruct (safe_call d) as ([] & d1 & E1). pose proof (quiet_call E d) as [_ P1 _ _]. rewrite E1 in P1. cbn [snd] in P1.
  unfold _clear_pending_activation. rewrite (bind_ok _ _ _ _ _ E1). unfold bind at 1, gets. unfold pending_file in P1, Ht. rewrite P1, Ht.
  unfold on_dir, lift. unfold bind at 1, on_files, modify. destruct (fsync_healthy (set_files (ddel PENDING (sl_files (dp_dir d1))) (dp_dir d1))) as [s' ->].
  by eexists.
Qed.

(** A healthy system resolves a pending activation in favour of the release the link
    points at. *)
Lemma reconcile_healthy d p x :
  names_record d p -> is_Some (legacy_command_enabled p) -> (x = candidate_sha p \/ x = previous_sha p) ->
  current_link d = Some (LinkTo (Release x)) ->
  is_directory (dp_releases d) (candidate_sha p) = true -> is_directory (dp_releases d) (previous_sha p) = true ->
  ends_in d (fun o _ => o = Some x) (fun _ => False) (reconcile_pending_activation E c).
Proof.
  intros Hn Hv Hx Hl Dc Dp. destruct Hn as (j & Hj & Hp). destruct (pending_shas j p Hp) as (Sc & Sp & _).
  assert (Hxx : is_directory (dp_releases d) x = true /\ SHA_PATTERN x = true) by by destruct Hx as [->| ->]. destruct Hxx as [Dx Sx].
  assert (Hclear : forall d' (o : option string), calm d d' -> o = Some x ->
    ends_in d' (fun o _ => o = Some x) (fun _ => False) (_clear_pending_activation E ;! ret o)).
  { intros d' o C Ho. destruct (clear_healthy d') as [d'' H]; [rewrite (cm_pending _ _ C); by eexists|].
    unfold ends_in. by rewrite (bind_ok _ _ _ _ _ H). }
  unfold reconcile_pending_activation. apply (read_pending_healthy d p); [by exists j|done|done|]. intros d1 C1.
  destruct (discover_healthy d1 x) as [d2 H2]; [by rewrite (cm_link _ _ C1)|by rewrite (cm_releases _ _ C1)|done|].
  pose proof (discover_quiet E d1) as C2. rewrite H2 in C2. cbn [snd] in C2.
  unfold ends_in. rewrite (bind_ok _ _ _ _ _ H2).
  assert (Hc : calm d d2) by by etrans. case_bool_decide as Hxp.
  - apply (ends_managed d); [done|done|]. intros d3 C3.
    apply (ends_safe d); [apply safe_restart|apply restart_quiet|done|]. intros _ d4 _ C4.
    apply (ends_safe d); [apply safe_restore|apply restore_quiet|done|]. intros _ d5 _ C5. by apply Hclear.
  - destruct Hx as [->| ->]; [|done]. rewrite bool_decide_eq_true_2 by done. cbn [negb].
    unfold confirm_candidate. destruct Hv as [e Hv]. unfold upgraded_record. rewrite Hv.
    unfold bind at 1. unfold bind at 1. unfold attempt at 1, try_except at 1, bind at 1, ret at 1 2.
    unfold bind at 1. unfold attempt, try_except.
    assert (Hr : safe (_retire_legacy_command_service E None ;! _restart_and_confirm E c)).
    { apply completes_bind; [apply safe_retire|intros _; apply safe_restart]. }
    assert (Hq : quiet (_retire_legacy_command_service E None ;! _restart_and_confirm E c)).
    { apply quiet_bind; [apply retire_quiet|intros _; apply restart_quiet]. }
    destruct (Hr d2) as ([] & d3 & H3). specialize (Hq d2). rewrite H3 in Hq. cbn [snd] in Hq.
    rewrite (bind_ok _ _ _ _ _ H3). unfold ret at 1.
    assert (Hc3 : calm d d3) by by etrans. pose proof (Hclear d3 (Some (candidate_sha p)) Hc3 eq_refl) as H. revert H.
    unfold ends_in, bind. by destruct (_clear_pending_activation E d3) as [[]].
Qed.
End Healthy.

(** ** The guarantees *)



(** In a healthy system the next reconciliation of a sound deployment whose record
    was written by this version of the updater completes: it returns the release the
    link points at, confirmed by a restart and its health checks when there was a
    record, and the record is gone. *)
Theorem recovery_completes E c T d p x :
  healthy E -> sound T d -> current_link d = Some (LinkTo (Release x)) ->
  names_record d p -> is_Some (legacy_command_enabled p) ->
  exists d', reconcile_pending_activation E c d = (Ok (Some x), d') /\
    current_link d' = Some (LinkTo (Release x)) /\ pending_file d' = None /\ confirmed c (Release x) d x d'.
Proof.
  intros He Hs Hl Hn Hv. pose proof (reconcile_spec E c T d x Hs Hl) as Hr.
  destruct Hs as (x' & Hl' & Tx & Dx & Sx & Hp). rewrite Hl in Hl'. injection Hl' as <-.
  destruct Hp as [Hp|(p' & (j' & Hj' & Hp') & Hin & Hall)]; [destruct Hn as (j & Hj & _); congruence|].
  pose proof Hn as (j & Hj & Hpj). assert (j' = j) as -> by congruence. assert (p' = p) as -> by congruence.
  apply list.Forall_cons in Hall as [[Tc Dc] Hall]. apply list.Forall_cons in Hall as [[Tp Dp] _].
  pose proof (reconcile_healthy E c He d p x Hn Hv Hin Hl Dc Dp) as Ho. unfold ends_in in *.
  destruct (reconcile_pending_activation E c d) as [[o|e] d']; [|done]. subst o. exists d'. split; [done|].
  destruct Hr as ((y & [= <-] & L & P & [[Hnone _]|Hc]) & _); [congruence|done].
Qed.

(** C32: whatever a run meets, code of a release and everything that reads the network
    runs only as the build user, the token is given to the fetch of a commit and to
    no other command, and as root only chown and systemctl run. *)
Theorem commands_confined E c urlopen parse d :
  exists l, dp_log (snd (run_once E c urlopen parse d)) = dp_log d ++ l /\ Forall lawful_event l.
Proof. exact (run_once_lawful E c urlopen parse d). Qed.

(** ** A run of the updater *)

Module Sample.
Definition sha_a : string := "aaaaaaaaaaaaaaaaaaaaaaaaaaaaaaaaaaaaaaaa".
Definition sha_b : string := "bbbbbbbbbbbbbbbbbbbbbbbbbbbbbbbbbbbbbbbb".

Definition config : UpdateConfig :=
  {| repository := "owner/gate"; branch := "master"; install_root := "/opt/gate-controller-deploy";
     service_name := "file-monitor.service"; keep_releases := 3; request_timeout_seconds := 20;
     command_timeout_seconds := 900; health_seconds := 5; github_token := None |}.

(** Every command prints the new commit. *)
Definition good : environment :=
  {| env_io := fun _ => Ok tt; env_command := fun _ => Ok {| returncode := 0; stdout := sha_b; stderr := EmptyString |};
     env_present := fun _ => false; env_name := fun _ => "x"; env_time := fun _ => 7%Z; env_keeps := fun _ => false;
     env_pid := "1"; env_executable := "/usr/bin/python3" |}.

Definition empty_dir : directory text := {| sl_files := []; sl_root := false; sl_reads := 0 |}.
Definition start : deployment :=
  {| dp_dir := empty_dir; dp_links := [(CURRENT, LinkTo (Release sha_a))]; dp_releases := [(sha_a, Directory 1)]; dp_log := [] |}.

Definition main_json : json :=
  JDict [("ref", JStr "refs/heads/master"); ("object", JDict [("type", JStr "commit"); ("sha", JStr sha_b)])].
Definition runs_json : json :=
  JDict [("workflow_runs", JList [JDict [("head_sha", JStr sha_b); ("head_branch", JStr "master"); ("event", JStr "push");
     ("status", JStr "completed"); ("conclusion", JStr "success"); ("path", JStr CI_WORKFLOW_PATH)]])].
Definition github (_ : nat) (url : string) (_ : dict string) (_ : Z) : result bytes :=
  Ok (if contains (chars_of "git/ref") (chars_of url) then [x00] else [x01]).
Definition parsed (content : bytes) : result json := Ok (if decide (content = [x00]) then main_json else runs_json).

(** The command consumed as answer [n] fails. *)
Definition failing (n : nat) : environment :=
  {| env_io := fun _ => Ok tt;
     env_command := fun k => Ok {| returncode := if (k =? n)%nat then 1 else 0; stdout := sha_b; stderr := EmptyString |};
     env_present := fun _ => false; env_name := fun _ => "x"; env_time := fun _ => 7%Z; env_keeps := fun _ => false;
     env_pid := "1"; env_executable := "/usr/bin/python3" |}.
(** The process dies at the system call consumed as answer [n]. *)
Definition dying (n : nat) : environment :=
  {| env_io := fun k => if (k =? n)%nat then Err BaseExc else Ok tt;
     env_command := fun _ => Ok {| returncode := 0; stdout := sha_b; stderr := EmptyString |};
     env_present := fun _ => false; env_name := fun _ => "x"; env_time := fun _ => 7%Z; env_keeps := fun _ => false;
     env_pid := "1"; env_executable := "/usr/bin/python3" |}.
Definition meets (E : environment) : surroundings := {| s_environment := E; s_urlopen := github; s_parse := parsed |}.

Definition both : deployment := set_releases [(sha_a, Directory 1); (sha_b, Directory 2)] start.



(** The deployment the death of the process left is recovered. *)
Definition left_behind : deployment := history config start [meets (dying 60)].
Definition left_record : PendingActivation :=
  {| candidate_sha := sha_b; previous_sha := sha_a; legacy_command_enabled := Some true; legacy_command_active := Some true |}.

Lemma recovery_completes_witness :
  exists d', reconcile_pending_activation good config left_behind = (Ok (Some sha_b), d') /\
    current_link d' = Some (LinkTo (Release sha_b)) /\ pending_file d' = None /\ confirmed config (Release sha_b) left_behind sha_b d'.
Proof.
  assert (Hn : names_record left_behind left_record) by (eexists; by split; vm_compute).
  apply (recovery_completes good config (fun x => x = sha_a \/ x = sha_b) left_behind left_record sha_b).
  - split; [done| |done]. intros n. by eexists.
  - exists sha_b. split; [vm_compute; done|]. split; [by right|]. split; [vm_compute; done|]. split; [vm_compute; done|]. right.
    exists left_record. split; [done|]. split; [by left|].
    apply List.Forall_cons; [split; [by right|vm_compute; done]|]. apply List.Forall_cons; [split; [by left|vm_compute; done]|constructor].
  - vm_compute. done.
  - done.
  - by eexists.
Defined.
End Sample.
