(* ===== verification/Identifiers.v ===== *)
(** * Identities: processor.py, images.py and telemetry.py

    The content digest under which an image is known, as the collector takes it at its
    arrival and the processor takes it again, and the identifier of a trace.  SHA-256,
    [Path.resolve], [UUID] and [uuid4] are arguments; a file is what opening it and each
    read of it give. *)

From Stdlib Require Import Strings.Byte.
From S2P Require Import Prelude Base64 Unicode Models Json Float Telemetry Actuation Processor.

(** ** Content digests *)

(** A file as a call sees it; the reads end with an empty one or an exception, or where the list ends. *)
Record file_reading := {
  rd_opened : result unit;
  rd_reads : list (result bytes);
  (** The text of [path.resolve()]. *)
  rd_resolved : result (list Z);
}.

(** The loop of [digest.update]: the bytes hashed and how the reading ended. *)
Fixpoint digest_chunks (hashed : bytes) (reads : list (result bytes)) : bytes * result unit :=
  match reads with
  | [] | Ok [] :: _ => (hashed, Ok tt)
  | Ok chunk :: reads' => digest_chunks (hashed ++ chunk) reads'
  | Err e :: _ => (hashed, Err e)
  end.

Section Digests.
Context (sha256 : bytes -> string).

(** images.py: _content_digest *)
Definition images_content_digest (f : file_reading) : result string :=
  rbind (rd_opened f) (fun _ =>
  let (hashed, ended) := digest_chunks [] (rd_reads f) in
  rbind ended (fun _ => Ok (sha256 hashed))).

(** The handler of processor.py's _content_digest, after some bytes. *)
Definition missing_digest (f : file_reading) (hashed : bytes) : result string :=
  rbind (rd_resolved f) (fun path =>
  rbind (utf8_encode (of_ascii "missing:" ++ path)) (fun marker => Ok (sha256 (hashed ++ marker)))).

(** processor.py: _content_digest *)
Definition _content_digest (f : file_reading) : result string :=
  let or_missing hashed e := if is_OSError e then missing_digest f hashed else Err e in
  match rd_opened f with
  | Err e => or_missing [] e
  | Ok _ =>
      match digest_chunks [] (rd_reads f) with
      | (hashed, Ok _) => Ok (sha256 hashed)
      | (hashed, Err e) => or_missing hashed e
      end
  end.

(** A file that can be read, in whatever portions. *)
Definition reads_content (f : file_reading) (content : bytes) : Prop :=
  rd_opened f = Ok tt /\ exists chunks rest,
    rd_reads f = (Ok <$> chunks) ++ rest /\ (rest = [] \/ exists rest', rest = Ok [] :: rest') /\
    Forall (fun chunk : bytes => chunk <> []) chunks /\ concat chunks = content.

Lemma digest_all chunks rest hashed : Forall (fun chunk : bytes => chunk <> []) chunks ->
  (rest = [] \/ exists rest', rest = Ok [] :: rest') -> digest_chunks hashed ((Ok <$> chunks) ++ rest) = (hashed ++ concat chunks, Ok tt).
Proof.
  intros Hc Hr. revert hashed. induction Hc as [|chunk chunks Hne _ IH]; intros hashed.
  - rewrite app_nil_r. by destruct Hr as [->|[rest' ->]].
  - cbn [fmap list_fmap app digest_chunks concat]. destruct chunk as [|b chunk]; [done|]. rewrite IH. by rewrite <- app_assoc.
Qed.

(** The collector and the processor know a readable image by the digest of its content. *)
Theorem digests_agree f content : reads_content f content ->
  images_content_digest f = Ok (sha256 content) /\ _content_digest f = Ok (sha256 content).
Proof.
  intros (Ho & chunks & rest & Hreads & Hrest & Hne & <-). unfold images_content_digest, _content_digest.
  rewrite Ho, Hreads, digest_all by done. by split.
Qed.

(** The digests of a call of [process], when all of them can be taken. *)
Definition digest_of (files : string -> file_reading) (path : string) : string :=
  match _content_digest (files path) with Ok digest => digest | Err _ => EmptyString end.

(** Bursts whose first images have the same content have the same key. *)
Theorem same_content_same_key files files' empty_burst p q paths paths' content :
  reads_content (files p) content -> reads_content (files' q) content ->
  _event_key (digest_of files) empty_burst (p :: paths) = _event_key (digest_of files') empty_burst (q :: paths').
Proof.
  intros Hp Hq. unfold _event_key, digest_of. cbn.
  destruct (digests_agree _ _ Hp) as [_ ->], (digests_agree _ _ Hq) as [_ ->]. reflexivity.
Qed.

(** The candidates kept have different contents, and every content has one. *)
Lemma unique_from_spec digest seen paths :
  NoDup (unique_from digest seen paths).*2 /\ (forall d, d ∈ (unique_from digest seen paths).*2 -> d ∉ seen) /\
  (forall p, p ∈ paths -> digest p ∈ seen \/ digest p ∈ (unique_from digest seen paths).*2) /\
  (forall x, x ∈ unique_from digest seen paths -> x.1 ∈ paths /\ x.2 = digest x.1).
Proof.
  revert seen. induction paths as [|p paths IH]; intros seen; cbn [unique_from].
  - split; [constructor|]. split; [by intros d Hd%elem_of_nil|]. split; by intros ? H%elem_of_nil.
  - case_bool_decide as Hin.
    + destruct (IH seen) as (H1 & H2 & H3 & H4). split; [exact H1|]. split; [exact H2|]. split.
      * intros q [->|Hq]%elem_of_cons; [by left|by apply H3].
      * intros x Hx. destruct (H4 x Hx). split; [by right|done].
    + destruct (IH (digest p :: seen)) as (H1 & H2 & H3 & H4). cbn [fmap list_fmap snd]. split; [|split; [|split]].
      * apply list.NoDup_cons. split; [|exact H1]. intros H. apply H2 in H. apply H. by left.
      * intros d [->|Hd]%elem_of_cons; [exact Hin|]. apply H2 in Hd. by intros ?; apply Hd; right.
      * intros q [->|Hq]%elem_of_cons; [by right; left|]. destruct (H3 q Hq) as [[->|H]%elem_of_cons|H];
          [by right; left|by left|by right; right].
      * intros x [->|Hx]%elem_of_cons; [by split; [left|]|]. destruct (H4 x Hx). split; [by right|done].
Qed.
End Digests.

(** ** Traces *)

Section Traces.
(** [UUID(value)]: its version and its text, when it is one. *)
Context (UUID : string -> option (option Z * string)) (uuid4 : string).

(** telemetry.py: _trace_id; [None] is a value that is not a str. *)
Definition _trace_id (value : option string) : string :=
  match value with
  | Some s => match UUID s with Some (Some _, text) => text | _ => uuid4 end
  | None => uuid4
  end.

(** The identifier is the text of a UUID, whatever is given. *)
Lemma trace_id_is_uuid value (is_uuid : string -> Prop) :
  is_uuid uuid4 -> (forall s version text, UUID s = Some (version, text) -> is_uuid text) -> is_uuid (_trace_id value).
Proof.
  intros H4 Hu. destruct value as [s|]; [|done]. cbn. destruct (UUID s) as [[[version|] text]|] eqn:E; [by eapply Hu|done|done].
Qed.
End Traces.

Module Sample.
Definition file (reads : list (result bytes)) (path : list Z) : file_reading :=
  {| rd_opened := Ok tt; rd_reads := reads; rd_resolved := Ok path |}.
Definition sha (b : bytes) : string := String.append "sha:" (String.string_of_list_byte b).
Definition text (s : string) : bytes := String.list_byte_of_string s.

Lemma same_content_same_key_witness :
  _event_key (digest_of sha (fun _ => file [Ok (text "ab"); Ok (text "c"); Ok []] [])) "empty" ["x.jpg"] =
  _event_key (digest_of sha (fun _ => file [Ok (text "abc")] [])) "empty" ["y.jpg"; "z.jpg"].
Proof.
  apply (same_content_same_key sha _ _ "empty" "x.jpg" "y.jpg" [] ["z.jpg"] (text "abc")).
  - split; [done|]. exists [text "ab"; text "c"], [Ok []]. split; [done|]. split; [by right; exists []|].
    split; [repeat constructor; done|reflexivity].
  - split; [done|]. exists [text "abc"], []. split; [done|]. split; [by left|]. split; [repeat constructor; done|reflexivity].
Defined.

(** A file that vanishes while it is read is known by what was read and its path. *)
Example vanished : _content_digest sha (file [Ok (text "ab"); Err OSError] (of_ascii "/u/a.jpg")) = Ok "sha:abmissing:/u/a.jpg".
Proof. vm_compute. reflexivity. Qed.

(** A name that is not UTF-8 has surrogates, which the marker of a missing file cannot
    encode. *)
Example missing_not_utf8 :
  _content_digest sha {| rd_opened := Err OSError; rd_reads := []; rd_resolved := Ok (of_ascii "/u/" ++ [0xDCFF]%Z) |}
  = Err (ValueError "surrogates not allowed").
Proof. vm_compute. reflexivity. Qed.
End Sample.
