(* ===== verification/Loops.v ===== *)
(** * The loops of the background workers

    [run_forever] of the plate refresh (authorisation.py), the retention and the outbox
    worker (outbox.py), the heartbeat (control_plane.py) and the command server
    (command_server.py), and the publisher of the sidecar (gate_media_auth/capabilities.py); under [_supervise_worker] of worker.py.  A round of a loop is
    what its test of the stop event sees and, when it is not set, what the call in the
    loop is given; where the rounds end the loop still runs. *)

From Stdlib Require Import Strings.Byte.
From S2P Require Import Prelude Models Json Float Base64 AtomicFile Store StoreOutbox Telemetry Actuation ActuationStore Authorisation Outbox OutboxFacts OutboxProgress.
From S2P Require Import CommandServer Images Worker Settings Status Capabilities CapabilitiesFacts.

(** ** A polling loop *)

Section Polling.
Context {S I A : Type} (run_once : I -> M S A).

(** [while not stop_event.is_set(): run_once(); stop_event.wait(...)]: whether it was
    left. *)
Fixpoint poll (rounds : list (option I)) : M S bool :=
  match rounds with
  | [] => ret false
  | None :: _ => ret true
  | Some i :: rounds' => run_once i ;! poll rounds'
  end.

Lemma poll_keeps (P : S -> Prop) rounds : (forall i, keeps P (run_once i)) -> keeps P (poll rounds).
Proof.
  intros H. induction rounds as [|[i|] rounds IH]; cbn [poll]; [apply keeps_ret|apply keeps_bind; [apply H|done]|apply keeps_ret].
Qed.

(** A call that raises nothing but the end of the process. *)
Definition quiet_call : Prop := forall i s e s', run_once i s = (Err e, s') -> e = BaseExc.

Lemma poll_ends rounds s e s' : quiet_call -> poll rounds s = (Err e, s') -> e = BaseExc.
Proof.
  intros Hq. revert s. induction rounds as [|[i|] rounds IH]; intros s; cbn [poll]; [done| |done].
  unfold bind. destruct (run_once i s) as [[a|x] s1] eqn:E; [apply IH|]. intros [= <- <-]. by eapply Hq.
Qed.

(** A loop that nobody stops never ends by itself. *)
Lemma poll_stops rounds s s' : poll rounds s = (Ok true, s') -> None ∈ rounds.
Proof.
  revert s. induction rounds as [|[i|] rounds IH]; intros s; cbn [poll]; [done| |by left].
  unfold bind. destruct (run_once i s) as [[a|x] s1]; [|done]. intros H. right. by eapply IH.
Qed.
End Polling.

(** How a [try] may still raise. *)
Lemma try_quiet {S A} (m : M S A) h s e s' : (forall x s1 y s2, h x s1 = (Err y, s2) -> y = BaseExc) ->
  try_except m h s = (Err e, s') -> e = BaseExc.
Proof.
  intros Hh. unfold try_except. destruct (m s) as [[a|x] s1]; [done|]. destruct (is_Exception x) eqn:E; [by apply Hh|].
  intros [= <- _]. by destruct x.
Qed.

(** ** The workers *)

(** authorisation.py: AuthorisationRefreshWorker.run_forever; a round is given the clock, the
    stamp of a written file and the rows or the exception of the fetcher. *)
Definition refresh_run_forever : list (option (datetime * stat * result json)) -> M plate_world bool :=
  poll (fun x => Authorisation.run_once x.1.1 x.1.2 x.2).

Section OutboxLoops.
Context (sha256 : bytes -> string) (str_other : json -> string) (io : nat -> result unit).
Context (pil_is_jpeg : bytes -> result bool) (pil_verify : bytes -> result unit) (clock : nat -> datetime).
Context {confirmed : nat -> request -> Prop} `{!Sender sha256 str_other confirmed} (retention_days : Z).

(** outbox.py: TelemetryRetentionWorker.run_forever *)
Definition retention_run_forever : list (option unit) -> M outbox bool :=
  poll (fun _ => retention_run_once clock retention_days).

(** outbox.py: OutboxWorker.run_forever *)
Definition outbox_run_forever : list (option unit) -> M outbox bool :=
  poll (fun _ => Outbox.run_once sha256 str_other io pil_is_jpeg pil_verify clock retention_days).

Lemma purged_quiet m w e w' : purged m w = (Err e, w') -> e = BaseExc.
Proof. apply try_quiet. by intros. Qed.

Lemma retention_quiet : quiet_call (fun _ : unit => retention_run_once clock retention_days).
Proof.
  intros _ w e w'. unfold retention_run_once, bind at 1, ask_clock. cbv zeta. unfold bind at 1.
  destruct (purged (purge_delivered_telemetry _) _) as [[n|x] w1] eqn:E1; [|intros [= <- _]; by eapply purged_quiet].
  unfold bind. destruct (purged (purge_unqueued_telemetry _) w1) as [[k|x] w2] eqn:E2; [done|]. intros [= <- _]. by eapply purged_quiet.
Qed.
End OutboxLoops.

(** control_plane.py: HeartbeatWorker.run_forever; a round is given the status and what the
    post does. *)
Definition heartbeat_run_forever (controller_id : string)
  : list (option (result (dict json) * (string * json -> result unit))) -> M unit bool :=
  poll (fun x => of_result (heartbeat_once controller_id x.2 x.1)).

(** gate_media_auth/capabilities.py: MediaHealthPublisher._run *)
Definition publisher_run (parse : bytes -> result json) (encode : json -> bytes) (io : nat -> result unit) (partial : nat -> nat)
    (temporary_name : nat -> string) (opener : nat -> result Capabilities.gateway_reply) (clock : nat -> Z) (target : string)
    (environment : dict string) : list (option unit) -> M (directory bytes) bool :=
  poll (fun _ => publish_round parse encode io partial temporary_name opener clock target environment).

(** Only OSErrors are ignored: the publisher ends with any other exception of a round. *)
Lemma publisher_ends parse encode io partial temporary_name opener clock target environment rounds s e s' :
  publisher_run parse encode io partial temporary_name opener clock target environment rounds s = (Err e, s') ->
  e <> OSError /\ e <> TimeoutError.
Proof.
  unfold publisher_run. revert s. induction rounds as [|[i|] rounds IH]; intros s; cbn [poll]; [done| |done].
  unfold bind at 1. destruct (publish_round _ _ _ _ _ _ _ _ _ s) as [[a|x] s1] eqn:E; [apply IH|]. intros [= <- <-].
  unfold publish_round, ignoring_os_errors in E. destruct (publish_once _ _ _ _ _ _ _ _ _ s) as [[u|y] t]; [done|].
  destruct y; try done; by apply pair_equal_spec in E as [[= <-] _].
Qed.

Lemma refresh_quiet : quiet_call (fun x : datetime * stat * result json => Authorisation.run_once x.1.1 x.1.2 x.2).
Proof. intros x w e w'. unfold Authorisation.run_once. apply try_quiet. by intros. Qed.

Lemma heartbeat_quiet controller_id :
  quiet_call (fun x : result (dict json) * (string * json -> result unit) => of_result (S := unit) (heartbeat_once controller_id x.2 x.1)).
Proof.
  intros x s e s'. unfold of_result, heartbeat_once. destruct (rbind _ _) as [|y]; [done|]. destruct (is_Exception y) eqn:E; [done|].
  intros [= <- _]. by destruct y.
Qed.

(** The refresh, the retention and the heartbeat run until they are stopped: no
    exception of theirs, of the store or of the service ends their loops. *)
Theorem pollers_survive clock days controller_id :
  (forall rounds w e w', refresh_run_forever rounds w = (Err e, w') -> e = BaseExc) /\
  (forall rounds w e w', retention_run_forever clock days rounds w = (Err e, w') -> e = BaseExc) /\
  (forall rounds s e s', heartbeat_run_forever controller_id rounds s = (Err e, s') -> e = BaseExc).
Proof.
  split; [|split]; intros rounds s e s'; apply poll_ends; [apply refresh_quiet|apply retention_quiet|apply heartbeat_quiet].
Qed.

(** ** The command server's loop *)

(** A round: whether the stop event is set, and how [handle_request] ends. *)
Record service := {
  sv_handled : nat;
  (** How the loop was left; [None] while it runs. *)
  sv_outcome : option (result unit);
  sv_closed : bool;
}.

Fixpoint serve (rounds : list (bool * result unit)) (handled : nat) : nat * option (result unit) :=
  match rounds with
  | [] => (handled, None)
  | (true, _) :: _ => (handled, Some (Ok tt))
  | (false, Ok _) :: rounds' => serve rounds' (S handled)
  | (false, Err e) :: _ => (handled, Some (Err e))
  end.

(** command_server.py: run_command_server; [bound] is what binding the socket does and
    [closing] its close. *)
Definition run_command_server (host : string) (bound closing : result unit) (rounds : list (bool * result unit)) : result service :=
  rbind (build_command_server host) (fun _ =>
  rbind bound (fun _ =>
  let (handled, left_) := serve rounds 0 in
  Ok {| sv_handled := handled;
        sv_outcome := match left_, closing with Some _, Err e => Some (Err e) | _, _ => left_ end;
        sv_closed := bool_decide (is_Some left_) |})).

Lemma serve_stops rounds : forall handled n, serve rounds handled = (n, Some (Ok tt)) ->
  exists before stop after, rounds = before ++ (true, stop) :: after /\ Forall (fun round => round = (false, Ok tt)) before /\ n = (handled + length before)%nat.
Proof.
  induction rounds as [|[[|] r] rounds IH]; intros handled n; cbn [serve]; [done| |].
  - intros [= <-]. exists [], r, rounds. split; [done|]. split; [constructor|cbn; lia].
  - destruct r as [[]|e]; [|done]. intros H. destruct (IH _ _ H) as (before & stop & after & -> & Hf & ->).
    exists ((false, Ok tt) :: before), stop, after. split; [done|]. split; [by apply List.Forall_cons|cbn; lia].
Qed.

(** The server listens only on the loopback interface; when it ends normally it was stopped
    and had served every request before, and its socket is closed however its loop was
    left. *)
Theorem command_server_ends host bound closing rounds s : run_command_server host bound closing rounds = Ok s ->
  (host = "127.0.0.1" \/ host = "::1") /\ (is_Some (sv_outcome s) -> sv_closed s = true) /\
  (sv_outcome s = Some (Ok tt) -> exists before stop after, rounds = before ++ (true, stop) :: after /\
     Forall (fun round => round = (false, Ok tt)) before /\ sv_handled s = length before).
Proof.
  unfold run_command_server, build_command_server. destruct (_is_loopback host) eqn:Eh; [|done]. cbn [rbind].
  destruct bound as [[]|]; [|done]. cbn [rbind]. destruct (serve rounds 0) as [n left_] eqn:E. intros [= <-].
  cbn [sv_outcome sv_closed sv_handled]. split; [|split].
  - unfold _is_loopback in Eh. apply orb_true_iff in Eh as [H|H]; apply String.eqb_eq in H; [by left|by right].
  - destruct left_, closing; try done; by intros [? [=]].
  - intros H. assert (left_ = Some (Ok tt)) as -> by (by destruct left_, closing). by destruct (serve_stops _ _ _ E) as (b & st & a & ? & ? & ->); exists b, st, a.
Qed.

(** ** Concrete runs *)

Module Sample.
Import OutboxProgress.Sample.

(** An outbox whose store fails when the pending items are read. *)
Definition locked : outbox :=
  {| ow_store := {| ls_db := ls_db (ow_store initial); ls_now := []; ls_faults := [NoFault; FailBefore OperationalError] |};
     ow_spool := ow_spool initial; ow_reads := 0; ow_last_item := None; ow_last_retention := None; ow_attempts := []; ow_requests := [] |}.

(** The reading of the pending items is outside every [try], so that a database that is
    locked ends the loop of the outbox worker, and with it the whole controller. *)
Lemma locked_store_stops_controller :
  fst (outbox_run_forever sha256 str_other io (fun _ => Ok true) (fun _ => Ok tt) clock 30 [Some tt; Some tt] locked) = Err OperationalError /\
  wk_stop (_supervise_worker "OutboxWorker" (Some OperationalError) new_worker) = true.
Proof. split; vm_compute; reflexivity. Qed.

(** The retention worker gets over the same failure. *)
Example retention_goes_on :
  fst (retention_run_forever clock 30 [Some tt; Some tt; None] locked) = Ok true.
Proof. vm_compute. reflexivity. Qed.

(** A deeply nested answer of the gateway makes [json.loads] raise RecursionError, which ends the
    publisher; the capabilities are stale from then on. *)
Definition too_deep (_ : bytes) : result json := Err (RuntimeError "maximum recursion depth exceeded").
Lemma deep_answer_ends_publisher :
  fst (publisher_run too_deep CapabilitiesFacts.Sample.encode (fun _ => Ok tt) (fun _ => O) (fun _ => "capabilities.tmp")
    CapabilitiesFacts.Sample.opener (fun _ => 1000%Z) "capabilities.json" CapabilitiesFacts.Sample.environment [Some tt; Some tt]
    CapabilitiesFacts.Sample.start) = Err (RuntimeError "maximum recursion depth exceeded").
Proof. vm_compute. reflexivity. Qed.

Lemma command_server_ends_witness :
  exists s, run_command_server "127.0.0.1" (Ok tt) (Ok tt) [(false, Ok tt); (true, Ok tt)] = Ok s /\ sv_closed s = true /\ sv_handled s = 1%nat.
Proof.
  eexists. split; [reflexivity|].
  pose proof (command_server_ends "127.0.0.1" (Ok tt) (Ok tt) [(false, Ok tt); (true, Ok tt)]
    {| sv_handled := 1; sv_outcome := Some (Ok tt); sv_closed := true |} ltac:(reflexivity)) as (_ & H & _).
  split; [exact (H ltac:(by eexists))|reflexivity].
Defined.
End Sample.
