(* ===== verification/Controller.v ===== *)
(** * The controller process: gate_controller/__main__.py

    What [main] does around its parts (Settings.v, Worker.v, Processor.v): the checks
    of the constructors it calls, the callbacks it passes to [run_worker] and the latest
    image they keep for the status, and the command telemetry-export.  A burst as the
    processing thread handles it is one call of [process] and, when that raises, one of
    [record_skipped], so that the histories of ProcessorHistory.v are those of the
    process.  argparse is not modelled: a bad argument is the error its type raises. *)

From S2P Require Import Prelude Models Json Float Telemetry Store StoreFacts StoreOutbox StoreOutboxFacts Text Reolink HotStream.
From S2P Require Import Actuation ActuationFacts Processor ProcessorFacts ProcessorHistory Images Worker.
From S2P Require Import Settings SettingsFacts Status AtomicFile TelemetryExport ExportFacts StoreMigration StoreMigrationFacts.

(** ** The constructors *)

(** worker.py: BoundedBurstQueue.__init__ *)
Definition BoundedBurstQueue (max_pending : Z) : result burst_queue :=
  if (max_pending <=? 0)%Z then Err (ValueError "max_pending must be positive") else Ok new_queue.

(** worker.py: BurstCollector.__init__ *)
Definition BurstCollector (max_candidates : Z) : result Worker.collector :=
  if negb ((1 <=? max_candidates) && (max_candidates <=? Settings.MAX_BURST_CANDIDATES))%Z
  then Err (ValueError "max_candidates exceeds the safe range") else Ok new_collector.

(** worker.py: CompletedImageHandler.__init__, its table of candidates *)
Definition CompletedImageHandler (max_candidate_bytes max_pending_candidates : Z) : result (dict candidate) :=
  if negb ((1 <=? max_candidate_bytes) && (max_candidate_bytes <=? MAX_CANDIDATE_BYTES))%Z
  then Err (ValueError "max_candidate_bytes exceeds the safe range")
  else if negb ((1 <=? max_pending_candidates) && (max_pending_candidates <=? Settings.MAX_BURST_CANDIDATES))%Z
  then Err (ValueError "max_pending_candidates exceeds the safe range")
  else Ok [].

(** worker.py: run_worker up to the start of the observer. *)
Definition pipeline_parts (max_pending_bursts max_burst_candidates max_candidate_bytes : Z) : result worker :=
  rbind (BoundedBurstQueue max_pending_bursts) (fun queue =>
  rbind (BurstCollector max_burst_candidates) (fun collector =>
  rbind (CompletedImageHandler max_candidate_bytes max_burst_candidates) (fun retry_at =>
  Ok (set_retry retry_at (set_collector collector (set_queue queue new_worker)))))).

(** outbox.py: the test of TelemetryRetentionWorker.__init__, of any value *)
Definition valid_retention_days (retention_days : json) : bool :=
  match retention_days with JInt n => ((1 <=? n) && (n <=? 3650))%Z | _ => false end.
Definition TelemetryRetentionWorker (retention_days : json) : result json :=
  if valid_retention_days retention_days then Ok retention_days else Err (ValueError "retention_days must be between 1 and 3650").

(** outbox.py: OutboxWorker.__init__, before it touches the store *)
Definition OutboxWorker (telemetry_retention_days : json) : result json :=
  if valid_retention_days telemetry_retention_days then Ok telemetry_retention_days
  else Err (ValueError "telemetry_retention_days must be between 1 and 3650").

(** reolink_events.py: ReolinkWebhookWorker.__init__, the secret of its endpoint *)
Definition ReolinkWebhookWorker (config : ReolinkWebhookConfig) : result string :=
  match wc_enabled config, wc_secret config with
  | true, Some secret => Ok secret
  | _, _ => Err (ValueError "Reolink webhook worker requires enabled configuration")
  end.

(** The constructor of a background worker; the others take anything. *)
Definition construct (w : background_worker) : result unit :=
  match w with
  | Settings.Outbox _ _ days => rbind (OutboxWorker (JInt days)) (fun _ => Ok tt)
  | TelemetryRetention days => rbind (TelemetryRetentionWorker (JInt days)) (fun _ => Ok tt)
  | ReolinkWebhook config => rbind (ReolinkWebhookWorker config) (fun _ => Ok tt)
  | _ => Ok tt
  end.

(** actuation.py: _linux_boot_id, of what reading the file gives; a UnicodeDecodeError
    is not an OSError. *)
Definition _linux_boot_id (read_text : result string) : result (option string) :=
  match read_text with
  | Ok s => Ok (given (Some (strip_text s)))
  | Err e => if is_OSError e then Ok None else Err e
  end.
(** actuation.py: the boot id of ActuationCoordinator.__init__ *)
Definition coordinator_boot_id (boot_id : option string) (read_text : result string) : result (option string) :=
  match boot_id with None => _linux_boot_id read_text | Some _ => Ok boot_id end.

(** ** The callbacks of main *)

Record latest_image := { li_path : option string; li_received_at : option string }.
Record controller (St : Type) := { ct_processor : processor St; ct_latest : latest_image }.
Arguments ct_processor {St} _.
Arguments ct_latest {St} _.

Definition set_processor {St} (p : processor St) (c : controller St) : controller St :=
  {| ct_processor := p; ct_latest := ct_latest c |}.
Definition set_latest {St} (l : latest_image) (c : controller St) : controller St :=
  {| ct_processor := ct_processor c; ct_latest := l |}.

Section Callbacks.
Context {St : Type} `{!StoreOps St} `{!ProcessorOps St}.
Context (isoformat : datetime -> string).
Context (wall_clock : nat -> datetime) (mono_clock : nat -> Z).
Context (decision_clock telemetry_clock : nat -> pyfloat) (telemetry_wall_clock : nat -> datetime).
Context (trace_id : nat -> string).
Context (cooldown : Z) (boot_id : option string) (max_off_attempts : nat).
Context (authorised : nat -> result (list (list Z))).
Context (check_authorised : nat -> result (list (list Z))) (check_decision_clock : nat -> pyfloat) (check_closed : nat -> bool).
Context (outbox : option (option string -> dict json)).
Context (max_image_age : Z) (decision_timeout activation_guard : pyfloat).
Context (empty_burst : string).

Definition on_processor {A} (m : M (processor St) A) : M (controller St) A := lift ct_processor set_processor m.

Section Call.
(** The contents of the files at a call, and the clock of the status. *)
Context (digest_of : string -> string) (measure : string -> string -> result FrameTelemetry) (now : datetime).

(** main: process *)
Definition main_process (paths : list string) (received_at : option datetime) (decision_started_at : option pyfloat)
    (processing_started_at : option datetime) (trigger : trigger_input) (idempotency_key : option string)
  : M (controller St) ProcessingResult :=
  modify (set_latest {| li_path := List.head paths; li_received_at := Some (isoformat (default now received_at)) |}) ;!
  on_processor (Processor.process wall_clock mono_clock decision_clock telemetry_clock telemetry_wall_clock trace_id
    cooldown boot_id max_off_attempts authorised check_authorised check_decision_clock check_closed outbox max_image_age
    decision_timeout activation_guard digest_of empty_burst measure paths received_at decision_started_at
    processing_started_at trigger idempotency_key).

(** main: record_skipped *)
Definition main_record_skipped (paths : list string) (reason : string) (received_at : option datetime)
    (decision_started_at : option pyfloat) (processing_started_at : option datetime) (trigger : trigger_input)
  : M (controller St) ProcessingResult :=
  on_processor (Processor.record_skipped wall_clock telemetry_clock telemetry_wall_clock trace_id outbox digest_of empty_burst
    paths reason received_at false None decision_started_at processing_started_at trigger).

(** main: record_error *)
Definition record_error (paths : list string) (received_at : option datetime) (trigger : trigger_input)
  : M (controller St) unit :=
  try_except (main_record_skipped paths "processing_error" received_at None None trigger ;! ret tt) (fun _ => ret tt).

(** worker.py: _resolve_trigger, of what the correlator does *)
Definition resolve_trigger (correlated : result TriggerTelemetry) : result TriggerTelemetry :=
  match correlated with
  | Ok t => Ok t
  | Err e => if is_Exception e then Ok ftp_fallback_trigger else Err e
  end.

(** One burst in the loop of worker.py's _process_bursts, with these callbacks; the
    resolution lets only exceptions through that the handler does not catch. *)
Definition handle_burst (b : burst) (correlated : result TriggerTelemetry) : M (controller St) unit :=
  let! t := of_result (resolve_trigger correlated) in
  try_except
    (main_process (bu_paths b) (bu_received_at b) (Some (bu_decision_started_at b)) (Some (bu_processing_started_at b))
       (TriggerGiven t) (bu_identity b) ;! ret tt)
    (fun _ => record_error (bu_paths b) (bu_received_at b) (TriggerGiven t)).
End Call.

(** ** Histories of the process *)

Inductive controller_label :=
| CBurst (paths : list string)
| CSkip (paths : list string)
| CElse (l : burst_label).

(** A burst handled to the end, a skip reported by the pipeline, or anything else that
    happens to the processor and the gate: a crash in the middle of a burst with the
    restart, commands, the shutdown. *)
Inductive controller_step : controller St -> controller_label -> controller St -> Prop :=
| cs_burst c digest_of measure now b correlated c' :
    handle_burst digest_of measure now b correlated c = (Ok tt, c') -> controller_step c (CBurst (bu_paths b)) c'
| cs_skip c digest_of paths reason received started processing trigger r c' :
    main_record_skipped digest_of paths reason received started processing trigger c = (r, c') -> controller_step c (CSkip paths) c'
| cs_else c l c' :
    burst_step wall_clock mono_clock decision_clock telemetry_clock telemetry_wall_clock trace_id cooldown boot_id
      max_off_attempts authorised check_authorised check_decision_clock check_closed outbox max_image_age decision_timeout
      activation_guard empty_burst (ct_processor c) l (ct_processor c') ->
    controller_step c (CElse l) c'.

Abbreviation processor_steps :=
  (steps (burst_step wall_clock mono_clock decision_clock telemetry_clock telemetry_wall_clock trace_id cooldown boot_id
     max_off_attempts authorised check_authorised check_decision_clock check_closed outbox max_image_age decision_timeout
     activation_guard empty_burst)).

(** What a label is to the processor: a burst is processed and, when that raises,
    recorded as skipped. *)
Definition burst_labels (l : controller_label) (ls : list burst_label) : Prop :=
  match l with
  | CBurst paths => ls = [LProcess paths] \/ ls = [LProcess paths; LSkip paths]
  | CSkip paths => ls = [LSkip paths]
  | CElse l => ls = [l]
  end.

Lemma on_processor_inv {A} (m : M (processor St) A) c r c' : on_processor m c = (r, c') ->
  m (ct_processor c) = (r, ct_processor c') /\ ct_latest c' = ct_latest c.
Proof. unfold on_processor, lift. destruct (m (ct_processor c)) as [r0 p]. by intros [= <- <-]. Qed.

(** How a [try] may still raise. *)
Lemma try_raises {S A} (m : M S A) h s e s' : try_except m h s = (Err e, s') ->
  is_Exception e = false \/ exists x s1, m s = (Err x, s1) /\ h x s1 = (Err e, s').
Proof.
  unfold try_except. destruct (m s) as [[a|x] s1]; [done|]. destruct (is_Exception x) eqn:E; [|intros [= <- <-]; by left].
  intros H. right. by exists x, s1.
Qed.
Lemma only_base e : is_Exception e = false -> e = BaseExc.
Proof. by destruct e. Qed.

Lemma resolve_trigger_cases correlated :
  (exists t, resolve_trigger correlated = Ok t) \/ resolve_trigger correlated = Err BaseExc.
Proof.
  destruct correlated as [t|e]; [left; by eexists|]. cbn. destruct (is_Exception e) eqn:E; [left; by eexists|right].
  by rewrite (only_base e E).
Qed.

(** A handled burst ends normally unless the process is told to end. *)
Lemma handle_burst_ends digest_of measure now b correlated c e c' :
  handle_burst digest_of measure now b correlated c = (Err e, c') -> e = BaseExc.
Proof.
  unfold handle_burst, bind at 1, of_result. destruct (resolve_trigger_cases correlated) as [[t ->]| ->]; [|by intros [= <- _]].
  intros H. apply try_raises in H as [H|(x & c1 & _ & H)]; [by apply only_base|].
  apply try_raises in H as [H|(y & c2 & _ & H)]; [by apply only_base|done].
Qed.

Lemma burst_is_steps digest_of measure now b correlated c c' :
  handle_burst digest_of measure now b correlated c = (Ok tt, c') ->
  exists ls, burst_labels (CBurst (bu_paths b)) ls /\ processor_steps (ct_processor c) ls (ct_processor c').
Proof.
  unfold handle_burst, bind at 1, of_result. destruct (resolve_trigger_cases correlated) as [[t ->]| ->]; [|done].
  unfold try_except at 1, bind at 1. unfold main_process at 1, bind at 1, modify at 1.
  destruct (on_processor _ _) as [r c1] eqn:Ep. apply on_processor_inv in Ep as [Ep _]. destruct r as [res|x].
  - intros [= <-]. exists [LProcess (bu_paths b)]. split; [by left|]. apply steps_one. by eapply bs_process; [exact Ep|].
  - destruct (is_Exception x) eqn:Ex; [|done]. unfold record_error, try_except, bind at 1, main_record_skipped.
    destruct (on_processor _ c1) as [r2 c2] eqn:Es. apply on_processor_inv in Es as [Es _]. intros H.
    exists [LProcess (bu_paths b); LSkip (bu_paths b)]. split; [by right|].
    assert (ct_processor c' = ct_processor c2) as -> by (destruct r2 as [?|y]; [|destruct (is_Exception y)]; by apply pair_equal_spec in H as [_ <-]).
    eapply steps_cons; [eapply bs_process; [exact Ep|by intros [= ->]]|]. apply steps_one. by eapply bs_skip.
Qed.

(** The histories of the process are histories of its processor: what
    ProcessorHistory.v shows of every history of bursts holds of the daemon. *)
Theorem controller_refines_history c ls c' : steps controller_step c ls c' ->
  exists lss, Forall2 burst_labels ls lss /\ processor_steps (ct_processor c) (concat lss) (ct_processor c').
Proof.
  induction 1 as [c|c l c1 ls c2 Hstep _ (lss & Hl & Hrun)]; [exists []; split; [constructor|constructor]|].
  assert (Hone : exists ls1, burst_labels l ls1 /\ processor_steps (ct_processor c) ls1 (ct_processor c1)).
  { destruct Hstep as [c digest_of measure now b correlated c' H|c digest_of paths reason received started processing trigger r c' H|c l c' H].
    - by eapply burst_is_steps.
    - unfold main_record_skipped in H. apply on_processor_inv in H as [H _]. exists [LSkip paths]. split; [done|]. apply steps_one. by eapply bs_skip.
    - exists [l]. split; [done|]. by apply steps_one. }
  destruct Hone as (ls1 & H1 & H2). exists (ls1 :: lss). split; [by apply List.Forall2_cons|]. cbn [concat]. by eapply steps_app.
Qed.

(** ** The latest image *)

(** After a burst the status names its first image and the time it was received. *)
Lemma burst_is_latest digest_of measure now b t c : 
  ct_latest (snd (handle_burst digest_of measure now b (Ok t) c)) =
    {| li_path := List.head (bu_paths b); li_received_at := Some (isoformat (default now (bu_received_at b))) |}.
Proof.
  unfold handle_burst, bind at 1, of_result, resolve_trigger, try_except at 1, bind at 1, main_process, bind at 1, modify.
  destruct (on_processor _ _) as [r c1] eqn:Ep. apply on_processor_inv in Ep as [_ Ep]. cbn [ct_latest set_latest] in Ep.
  destruct r as [res|x]; [exact Ep|]. destruct (is_Exception x); [|exact Ep].
  unfold record_error, try_except, bind at 1, main_record_skipped. destruct (on_processor _ c1) as [r2 c2] eqn:Es.
  apply on_processor_inv in Es as [_ Es]. rewrite Ep in Es. destruct r2 as [?|y]; [exact Es|]. by destruct (is_Exception y).
Qed.
End Callbacks.

(** The status reports a recent upload exactly when the last burst was received within
    the limit, given that [fromisoformat] reads what [isoformat] writes. *)
Lemma camera_follows_burst (fromisoformat : string -> option datetime) (isoformat : datetime -> string) (us now : Z) (limit : pyfloat) stale :
  isoformat (Aware us) <> EmptyString -> fromisoformat (replace_zulu (isoformat (Aware us))) = Some (Aware us) ->
  (Telemetry.DATETIME_MIN <= us <= DATETIME_MAX)%Z -> timedelta_seconds limit = Ok stale ->
  _camera_is_fresh fromisoformat (Some (isoformat (Aware us))) now limit = Ok ((0 <=? now - us) && (now - us <=? stale))%Z.
Proof.
  intros Hne Hiso Hus Hlimit. unfold _camera_is_fresh. destruct (isoformat (Aware us)) as [|a s] eqn:E; [done|].
  cbn [given]. rewrite Hiso. cbn [observed_utc]. unfold astimezone_utc.
  destruct (Z.leb_spec Telemetry.DATETIME_MIN us), (Z.leb_spec us DATETIME_MAX); try lia. cbn [andb rbind]; cbv zeta.
  destruct (Z.leb_spec 0 (now - us)); [by rewrite Hlimit|reflexivity].
Qed.

(** ** A controller that starts has its parts *)

Section Starting.
Context (urlparse : string -> result parsed_url) (ip_address : string -> option address).

Definition webhook_of (w : background_worker) : option ReolinkWebhookConfig :=
  match w with ReolinkWebhook config => Some config | _ => None end.

Lemma no_webhook_before environment coordinator authorised workers :
  build_background_workers urlparse ip_address environment coordinator authorised = Ok workers -> omap webhook_of workers = [].
Proof.
  unfold build_background_workers. cbv zeta. intros H. apply rbind_ok in H as (stale & _ & H). destruct (fle _ _); [done|].
  apply rbind_ok in H as (days & _ & H). apply rbind_ok in H as (cloudflare & _ & H). apply rbind_ok in H as (ws & Hw & [= <-]).
  rewrite omap_app. assert (omap webhook_of ws = []) as ->; [|by destruct coordinator]. destruct cloudflare.
  - apply rbind_ok in Hw as (client & _ & Hw). apply rbind_ok in Hw as (refresh & Hr & [= <-]). destruct authorised.
    + by apply rbind_ok in Hr as (poll & _ & [= <-]).
    + by injection Hr as <-.
  - unfold local_workers in Hw. cbv zeta in Hw. destruct (String.eqb _ _); [by injection Hw as <-|].
    by apply rbind_ok in Hw as (token & _ & [= <-]).
Qed.

Lemma webhook_config_secret environment config : load_reolink_webhook_config ip_address environment = Ok config ->
  wc_enabled config = true -> exists secret, ReolinkWebhookWorker config = Ok secret.
Proof.
  unfold load_reolink_webhook_config. cbv zeta. destruct (dget _ environment) as [[|a s]|]; [by intros [= <-]| |by intros [= <-]].
  destruct (negb _); [done|]. destruct (ip_address _) as [address|]; [|done]. destruct (negb _); [done|]. destruct (negb _); [done|].
  destruct (int_of_text _); [|done]. destruct (negb _); [done|]. intros [= <-] _. by eexists.
Qed.

Lemma webhooks_enabled environment directory settings : controller_setup urlparse ip_address environment directory = Ok settings ->
  Forall (fun config => exists secret, ReolinkWebhookWorker config = Ok secret) (omap webhook_of (cs_workers settings)).
Proof.
  intros H. unfold controller_setup in H. apply rbind_ok in H as (age & _ & H). apply rbind_ok in H as (timeout & _ & H).
  apply rbind_ok in H as (limits & _ & H). apply rbind_ok in H as (stream & _ & H). cbv zeta in H.
  apply rbind_ok in H as (staleness & _ & H). apply rbind_ok in H as (cloud & _ & H).
  apply rbind_ok in H as (workers & Hw & H). apply no_webhook_before in Hw. apply rbind_ok in H as (triggers & Ht & H).
  apply rbind_ok in H as (age_us & _ & H). apply rbind_ok in H as (guard & _ & [= <-]). cbn [cs_workers].
  rewrite !omap_app, Hw. cbn [app]. apply list.Forall_app. split; [|by destruct (hs_enabled stream); constructor].
  apply rbind_ok in Ht as (config & Hc & [= <-]). destruct (wc_enabled config) eqn:E; [|constructor].
  apply List.Forall_cons; [|constructor]. by eapply webhook_config_secret.
Qed.

Lemma days_construct days : (1 <= days <= 3650)%Z -> valid_retention_days (JInt days) = true.
Proof. intros H. cbn. lia. Qed.

(** The constructors accept what [main] gives them: once the settings are read, neither
    the pipeline nor a worker is refused. *)
Theorem started_parts_accepted environment directory settings :
  controller_setup urlparse ip_address environment directory = Ok settings ->
  pipeline_parts 2 (cs_max_burst_candidates settings) (cs_max_candidate_bytes settings) = Ok new_worker /\
  Forall (fun w => construct w = Ok tt) (cs_workers settings).
Proof.
  intros H. pose proof (webhooks_enabled _ _ _ H) as Hwebhooks. apply setup_bounded in H as (H1 & H2 & _ & _ & _ & days & Hd & Hr). split.
  - unfold pipeline_parts, BoundedBurstQueue, BurstCollector, CompletedImageHandler. cbn [Z.leb Z.compare rbind].
    destruct (Z.leb_spec 1 (cs_max_burst_candidates settings)), (Z.leb_spec (cs_max_burst_candidates settings) Settings.MAX_BURST_CANDIDATES),
      (Z.leb_spec 1 (cs_max_candidate_bytes settings)), (Z.leb_spec (cs_max_candidate_bytes settings) MAX_CANDIDATE_BYTES); try lia. reflexivity.
  - apply list.Forall_forall. intros w Hw.
    assert (Hret : forall n, retention_of w = Some n -> valid_retention_days (JInt n) = true).
    { intros n Hn. assert (n ∈ omap retention_of (cs_workers settings)) as Hin by (apply list_elem_of_omap; by exists w).
      rewrite Hr in Hin. apply list_elem_of_singleton in Hin as ->. by apply days_construct. }
    destruct w as [| send id n | | | n | config |]; try done; cbn [construct].
    + unfold OutboxWorker. by rewrite Hret.
    + unfold TelemetryRetentionWorker. by rewrite Hret.
    + rewrite list.Forall_forall in Hwebhooks. destruct (Hwebhooks config) as [secret E]; [|by rewrite E].
      apply list_elem_of_omap. by exists (ReolinkWebhook config).
Qed.
End Starting.

(** ** The command telemetry-export *)

Section Exporting.
Context (fromisoformat : string -> option datetime).

(** __main__.py: _iso8601 *)
Definition _iso8601 (value : string) : result datetime :=
  match fromisoformat (replace_zulu value) with
  | None => Err (ValueError "must be an ISO8601 timestamp")
  | Some (Naive _) => Err (ValueError "must include a timezone")
  | Some (Aware us) => astimezone_utc us
  end.

Context (io : nat -> result unit) (partial : nat -> nat) (temporary_name : nat -> string) (view : nat -> path_view).

(** What LocalStore(snapshot_path) finds: the copy of the file, opened. *)
Definition snapshot_database (copied : result unit) (f : store_file) : result database :=
  rbind copied (fun _ =>
  match _migrate fromisoformat f with
  | (Ok _, f') => Ok (fl_database f')
  | (Err e, _) => Err e
  end).

(** __main__.py: _run_telemetry_export; [copied] is how the online backup ends. The live
    file is opened, and so migrated, first. *)
Definition _run_telemetry_export (database_path : string) (f : store_file) (copied : result unit) (format since output : string)
    (s : directory document) : (result nat * directory document) * store_file :=
  match format_of format, _iso8601 since with
  | None, _ => ((Err (ValueError "invalid choice"), s), f)
  | Some _, Err e => ((Err e, s), f)
  | Some _, Ok since =>
      match _migrate fromisoformat f with
      | (Err e, f') => ((Err e, s), f')
      | (Ok _, f') =>
          (export_telemetry io partial temporary_name view database_path (snapshot_database copied f') format since (Some output) s, f')
      end
  end.

Lemma migrated_again f f' : _migrate fromisoformat f = (Ok tt, f') -> _migrate fromisoformat f' = (Ok tt, f').
Proof.
  intros H. apply migrate_cases in H as [(l & d & _ & -> & E)|(e & [=] & _)]. apply migrate_rows_spec in E as (_ & B & _).
  apply opened_again; [|exact B]. apply complete_rows, upgraded_complete.
Qed.

(** The command exports the rows of the live database as it is once opened, whole or not
    at all; of the live file it changes only what opening it changes, and when an
    argument is refused nothing. *)
Theorem export_command_exports database_path f copied format since output s r s' f'
    (Htemporary : forall k, temporary_name k <> output)
    (Hrows : NoDup (event_ids (fl_database f')) /\ NoDup (tl_event_id <$> db_telemetry (fl_database f')))
    (Hrun : _run_telemetry_export database_path f copied format since output s = ((r, s'), f')) :
  (f' = f \/ f' = snd (_migrate fromisoformat f)) /\
  match r with
  | Ok n => exists doc us, _iso8601 since = Ok (Aware us) /\ dget output (sl_files s') = Some doc /\
      whole_document (Ok (fl_database f')) format (Aware us) n doc
  | Err _ => dget output (sl_files s') = dget output (sl_files s) \/
      exists n doc us, dget output (sl_files s') = Some doc /\ whole_document (Ok (fl_database f')) format (Aware us) n doc
  end.
Proof.
  unfold _run_telemetry_export in Hrun. destruct (format_of format) as [form|]; [|apply pair_equal_spec in Hrun as [Hrun <-]; injection Hrun as <- <-; by split; left].
  destruct (_iso8601 since) as [t|e] eqn:Et; [|apply pair_equal_spec in Hrun as [Hrun <-]; injection Hrun as <- <-; by split; left].
  destruct (_migrate fromisoformat f) as [[[]|x] g] eqn:Em; apply pair_equal_spec in Hrun as [Hrun <-];
    [|injection Hrun as <- <-; split; [by right|by left]].
  split; [by right|]. apply migrated_again in Em.
  assert (Hsnap : forall d, snapshot_database copied g = Ok d -> d = fl_database g).
  { unfold snapshot_database. rewrite Em. destruct copied as [[]|x]; [by intros d [= <-]|done]. }
  pose proof (export_spec temporary_name (snapshot_database copied g) format t output s io partial view database_path Htemporary) as H.
  specialize (H ltac:(by intros d Hd; rewrite (Hsnap d Hd)) s ltac:(done)). rewrite Hrun in H.
  assert (Hwhole : forall n doc, whole_document (snapshot_database copied g) format t n doc ->
    exists us, t = Aware us /\ whole_document (Ok (fl_database g)) format (Aware us) n doc).
  { intros n doc (d & chosen & us & Hd & Hf & -> & Hdoc). exists us. split; [done|]. rewrite (Hsnap d Hd) in Hdoc. by exists (fl_database g), chosen, us. }
  destruct r as [n|e].
  - destruct H as (doc & [_ Hdoc] & Hw). destruct (Hwhole _ _ Hw) as (us & -> & Hw'). by exists doc, us.
  - destruct H as [[_ H]|(n & doc & [_ Hdoc] & Hw)]; [by left|right]. destruct (Hwhole _ _ Hw) as (us & _ & Hw'). by exists n, doc, us.
Qed.
End Exporting.

(** ** Concrete runs *)

Module Sample.
Definition iso (t : datetime) : string := match t with Aware us => if (us =? 0)%Z then "start" else "later" | Naive _ => "naive" end.
Definition arrived : burst :=
  {| bu_paths := ["a.jpg"]; bu_received_at := Some (Aware 0); bu_decision_started_at := float_0;
     bu_processing_started_at := Aware 0; bu_identity := Some "key" |}.
Definition idle (runs : list ocr_run) : controller ActuationStore.sqlite_store :=
  {| ct_processor := sample_processor runs; ct_latest := {| li_path := None; li_received_at := None |} |}.

Abbreviation handle max_age correlated :=
  (handle_burst (St := ActuationStore.sqlite_store) iso burst_ticks ActuationFacts.sample_mono (fun _ => float_0) (fun _ => float_0) burst_ticks
    (fun _ => "trace") (seconds 20) (Some "boot") 3 sample_plates sample_plates (fun _ => float_0) (fun _ => false)
    None (seconds max_age) (float_lit 4 0) float_0 "empty" (fun path => path) sample_measure (Aware 1) arrived correlated).

Definition seen (x : result unit * controller ActuationStore.sqlite_store) :=
  (fst x, ct_latest (snd x), en_key <$> w_energised (pr_gate (ct_processor (snd x)))).

(** An authorised plate opens the gate under the key of the burst, also when the
    correlator fails; a burst that is too old does not. *)
Example handled :
  seen (handle 8 (Err OSError) (idle [sample_run "AB12CDE"])) =
    (Ok tt, {| li_path := Some "a.jpg"; li_received_at := Some "start" |}, ["key"]) /\
  seen (handle (-1) (Ok ftp_fallback_trigger) (idle [sample_run "AB12CDE"])) =
    (Ok tt, {| li_path := Some "a.jpg"; li_received_at := Some "start" |}, []).
Proof. split; vm_compute; reflexivity. Qed.

Example constructors_refuse : TelemetryRetentionWorker (JBool true) = Err (ValueError "retention_days must be between 1 and 3650") /\
  BurstCollector 17 = Err (ValueError "max_candidates exceeds the safe range") /\ _linux_boot_id (Err OSError) = Ok None.
Proof. by vm_compute. Qed.
End Sample.
