(* ===== verification/PerformanceHarness.v ===== *)
(** * The performance harness: scripts/pi-cloudflare-performance-harness.py

    The two read-only probes of the local media gateway, the host metrics parsed from
    /proc and the report that is written beside its destination and renamed over it.
    The answers of the gateway, the files below /proc, the clocks, [float] of Unicode
    text, the Unicode digits and the JSON text of a report are arguments. *)

From S2P Require Import Prelude Float Base64 Unicode AtomicFile.

Definition MAX_PROC_NET_DEV_BYTES : nat := Nat.pow 2 16.
Definition MAX_NETWORK_INTERFACES : nat := 32.
Definition PATHS_URL : string := "http://127.0.0.1:9997/v3/paths/list".
Definition METRICS_URL : string := "http://127.0.0.1:9998/metrics".
Definition _READ_ONLY_ENDPOINTS : list string := [PATHS_URL; METRICS_URL].

(** ** A probe *)

(** What the other side does, and how reading the body ends. *)
Inductive endpoint_reply :=
| Success (status : Z) (body : result unit)
| Redirection (code : Z) (body : result unit)
| ErrorStatus (code : Z) (body : result unit)
| NoReply (e : exc).

(** What [open] of the opener gives: a response, an HTTPError or another exception. *)
Inductive opened :=
| Response (status : Z) (body : result unit)
| StatusError (code : Z) (body : result unit)
| OpenError (e : exc).

(** _RejectRedirects.redirect_request *)
Definition redirect_request (code : Z) (body : result unit) : opened := StatusError code body.
Definition open_url (r : endpoint_reply) : opened :=
  match r with
  | Success status body => Response status body
  | Redirection code body => redirect_request code body
  | ErrorStatus code body => StatusError code body
  | NoReply e => OpenError e
  end.

Record sample := {
  sp_url : string;
  sp_method : string;
  sp_status_code : option Z;
  sp_error : option string;
  sp_latency_ms : pyfloat;
}.

(** [round(x, 3)]: the nearest multiple of 1/1000, as a float. *)
Definition round_3 (x : pyfloat) : pyfloat :=
  match x with Fin m => float_div (round_half_even (m * 1000) two1074) 1000 | x => x end.

(** The requests sent and the answers consumed. *)
Record probing := { pb_sent : list (string * string); pb_clock : nat; pb_replies : nat }.

Section Harness.
Context (error_text : exc -> string) (perf_counter : nat -> pyfloat) (replies : nat -> endpoint_reply).

Definition read_counter : M probing pyfloat := fun s =>
  (Ok (perf_counter (pb_clock s)), {| pb_sent := pb_sent s; pb_clock := S (pb_clock s); pb_replies := pb_replies s |}).
Definition send (method url : string) : M probing endpoint_reply := fun s =>
  (Ok (replies (pb_replies s)), {| pb_sent := pb_sent s ++ [(method, url)]; pb_clock := pb_clock s; pb_replies := S (pb_replies s) |}).

(** The [try] of measure_request: a status or the text of an error. *)
Definition probe_outcome (r : endpoint_reply) : result (option Z * option string) :=
  match open_url r with
  | Response status (Ok _) => Ok (Some status, None)
  | Response _ (Err e) | OpenError e => if is_OSError e then Ok (None, Some (error_text e)) else Err e
  | StatusError code body => rbind body (fun _ => Ok (Some code, None))
  end.

Definition measure_request (url : string) : M probing sample :=
  if bool_decide (url ∉ _READ_ONLY_ENDPOINTS) then raise (ValueError "performance harness endpoint is not allowlisted")
  else
    let! started := read_counter in
    let! r := send "GET" url in
    let! seen := of_result (probe_outcome r) in
    let! ended := read_counter in
    ret {| sp_url := url; sp_method := "GET"; sp_status_code := seen.1; sp_error := seen.2;
           sp_latency_ms := round_3 (fmul_const 1000 (fsub ended started)) |}.

(** ** Host metrics *)

(** What [open] and [read] of at most so many characters give; the only ValueError
    is a UnicodeDecodeError. *)
Context (read_text : string -> nat -> result (list Z)).
Context (decimal_digit : Z -> option Z) (is_digit_char : Z -> bool) (py_float : list Z -> option pyfloat).

Definition _read_proc_value (path : string) (max_bytes : nat) : result (option (list Z)) :=
  match read_text path (S max_bytes) with
  | Ok content => Ok (if (length content <=? max_bytes)%nat then Some content else None)
  | Err (ValueError _) => Ok None
  | Err e => if is_OSError e then Ok None else Err e
  end.

(** [str.split()]: the runs of characters that are not spaces; [word] is the run in
    progress, backwards. *)
Fixpoint words_from (word s : list Z) : list (list Z) :=
  let ended := match word with [] => [] | _ => [rev word] end in
  match s with
  | [] => ended
  | c :: s' => if is_space c then ended ++ words_from [] s' else words_from (c :: word) s'
  end.
Definition words : list Z -> list (list Z) := words_from [].

Record counters := {
  nc_receive_bytes : Z;
  nc_receive_packets : Z;
  nc_transmit_bytes : Z;
  nc_transmit_packets : Z;
}.

(** The body of the loop of _network_counters; [None] is [continue]. *)
Definition interface_counters (line : list Z) : option (list Z * counters) :=
  match partition_text 58 line with
  | None => None
  | Some (name, values_text) =>
      let interface := strip name in
      let values := words values_text in
      if bool_decide (interface = []) || (64 <? length interface)%nat || negb (length values =? 16)%nat then None
      else
        match mapM (int_of_pystr decimal_digit) values with
        | None => None
        | Some numbers =>
            Some (interface, {| nc_receive_bytes := nth 0 numbers 0%Z; nc_receive_packets := nth 1 numbers 0%Z;
                                nc_transmit_bytes := nth 8 numbers 0%Z; nc_transmit_packets := nth 9 numbers 0%Z |})
        end
  end.
Definition add_interface (acc : gmap (list Z) counters) (line : list Z) : gmap (list Z) counters :=
  match interface_counters line with Some (interface, c) => <[interface := c]> acc | None => acc end.

(** The report sorts its keys, so the order of the interfaces does not show. *)
Definition _network_counters (content : list Z) : gmap (list Z) counters :=
  fold_left add_interface (take MAX_NETWORK_INTERFACES (drop 2 (splitlines content).*1)) ∅.

(** A word of the load averages as a number. *)
Definition float_at (n : nat) (values : list (list Z)) : result pyfloat :=
  match nth_error values n with
  | None => Err IndexError
  | Some w => match py_float w with Some f => Ok f | None => Err (ValueError "could not convert string to float") end
  end.
Definition load_averages (text : list Z) : result (pyfloat * pyfloat * pyfloat) :=
  let values := words text in
  rbind (float_at 0 values) (fun one => rbind (float_at 1 values) (fun five => rbind (float_at 2 values) (fun fifteen =>
  Ok (one, five, fifteen)))).

(** [key.rstrip(c)] *)
Fixpoint lstrip_char (c : Z) (s : list Z) : list Z :=
  match s with a :: s' => if (a =? c)%Z then lstrip_char c s' else s | [] => [] end.
Definition rstrip_char (c : Z) (s : list Z) : list Z := rev (lstrip_char c (rev s)).

(** A line of the comprehension over /proc/meminfo. *)
Definition memory_line (acc : gmap (list Z) Z) (line : list Z) : result (gmap (list Z) Z) :=
  match partition_text 58 line with
  | None => Ok acc
  | Some (key, value) =>
      match words value with
      | [] => Ok acc
      | w :: _ =>
          if forallb is_digit_char w then
            match int_of_pystr decimal_digit w with
            | Some n => Ok (<[rstrip_char 58 key := n]> acc)
            | None => Err (ValueError "invalid literal for int()")
            end
          else Ok acc
      end
  end.
Fixpoint memory_lines (lines : list (list Z)) (acc : gmap (list Z) Z) : result (gmap (list Z) Z) :=
  match lines with
  | [] => Ok acc
  | line :: lines' => rbind (memory_line acc line) (memory_lines lines')
  end.

Record disk_usage := { du_total : Z; du_used : Z; du_free : Z }.
Record host_metrics := {
  hm_disk : disk_usage;
  hm_loadavg : option (pyfloat * pyfloat * pyfloat);
  hm_memory_kib : option (gmap (list Z) Z);
  hm_network : option (gmap (list Z) counters);
}.

(** What is there is parsed. *)
Definition when_read {A} (r : result (option (list Z))) (parse : list Z -> result A) : result (option A) :=
  rbind r (fun content => match content with None => Ok None | Some text => rbind (parse text) (fun a => Ok (Some a)) end).

Definition collect_host_metrics (disk : result disk_usage) : result host_metrics :=
  rbind disk (fun usage =>
  rbind (when_read (_read_proc_value "/proc/loadavg" (Nat.pow 2 20)) load_averages) (fun loadavg =>
  rbind (when_read (_read_proc_value "/proc/meminfo" (Nat.pow 2 20)) (fun text => memory_lines (splitlines text).*1 ∅)) (fun memory =>
  rbind (when_read (_read_proc_value "/proc/net/dev" MAX_PROC_NET_DEV_BYTES) (fun text => Ok (_network_counters text))) (fun network =>
  Ok {| hm_disk := usage; hm_loadavg := loadavg; hm_memory_kib := memory; hm_network := network |})))).

(** ** The report *)

Record summary := {
  sm_generated_at : string;
  sm_samples : list sample;
  sm_host_metrics : host_metrics;
  sm_run_mode : string;
}.

(** [utc_now] is the text of the current time without its offset. *)
Definition build_summary (utc_now : string) (samples : list sample) (run_mode : string) (metrics : host_metrics) : result summary :=
  if bool_decide (run_mode ∉ ["host_metrics_only"; "passive_endpoint_probe"]) then Err (ValueError "invalid performance harness run mode")
  else Ok {| sm_generated_at := String.append utc_now "Z"; sm_samples := samples; sm_host_metrics := metrics; sm_run_mode := run_mode |}.

Section Writing.
Context {C : Type} (io : nat -> result unit) (partial : nat -> C -> C) (empty : C) (dump : summary -> C).

(** The file is created empty before the report goes in; whatever fails, nothing
    removes it. *)
Definition write_json (output temporary : string) (s : summary) : M (directory C) unit :=
  system_call io ;!
  system_call io ;! on_files (dset temporary empty) ;!
  try_finally (write_file io partial temporary (dump s)) (system_call io) ;!
  replace_file io empty temporary output.

(** Everything up to the report. *)
Definition collect (skip_network : bool) (disk : result disk_usage) (utc_now : string) : M probing summary :=
  let! samples := (if skip_network then ret []
                   else let! paths := measure_request PATHS_URL in
                        let! metrics := measure_request METRICS_URL in
                        ret [paths; metrics]) in
  let run_mode := if skip_network then "host_metrics_only" else "passive_endpoint_probe" in
  let! host := of_result (collect_host_metrics disk) in
  of_result (build_summary utc_now samples run_mode host).

Definition main (output temporary : string) (skip_network : bool) (disk : result disk_usage) (utc_now : string)
  : M (probing * directory C) summary :=
  let! s := lift fst (fun p s => (p, snd s)) (collect skip_network disk utc_now) in
  lift snd (fun d s => (fst s, d)) (write_json output temporary s) ;!
  ret s.
End Writing.
End Harness.

(** ** Facts *)

Section Facts.
Context (error_text : exc -> string) (perf_counter : nat -> pyfloat) (replies : nat -> endpoint_reply).
Context (read_text : string -> nat -> result (list Z)).
Context (decimal_digit : Z -> option Z) (is_digit_char : Z -> bool) (py_float : list Z -> option pyfloat).
Context {C : Type} (io : nat -> result unit) (partial : nat -> C -> C) (empty : C) (dump : summary -> C).

(** The requests of a run so far: reads of the two endpoints, in order. *)
Definition read_only (before : list (string * string)) (s : probing) : Prop :=
  exists n, pb_sent s = before ++ take n [("GET", PATHS_URL); ("GET", METRICS_URL)].

Lemma measure_sends url s : url ∈ _READ_ONLY_ENDPOINTS ->
  pb_sent (snd (measure_request error_text perf_counter replies url s)) = pb_sent s ++ [("GET", url)].
Proof.
  intros Hurl. unfold measure_request. rewrite bool_decide_eq_false_2 by tauto.
  unfold bind, read_counter, send, of_result. cbn. by destruct (probe_outcome _ _).
Qed.

Lemma measure_refused url s : url ∉ _READ_ONLY_ENDPOINTS ->
  measure_request error_text perf_counter replies url s = (Err (ValueError "performance harness endpoint is not allowlisted"), s).
Proof. intros Hurl. unfold measure_request. by rewrite bool_decide_eq_true_2. Qed.

Definition collect_run := collect error_text perf_counter replies read_text decimal_digit is_digit_char py_float.

(** Whatever the gateway answers and whatever fails, a run sends at most the two
    reads, and none when the network is skipped. *)
Theorem harness_read_only skip disk now s :
  read_only (pb_sent s) (snd (collect_run skip disk now s)) /\
  (skip = true -> pb_sent (snd (collect_run skip disk now s)) = pb_sent s).
Proof.
  assert (Hrest : forall samples mode (s' : probing), snd ((let! host := of_result (collect_host_metrics read_text decimal_digit is_digit_char py_float disk) in
    of_result (build_summary now samples mode host)) s') = s').
  { intros samples mode s'. unfold bind, of_result. by destruct (collect_host_metrics _ _ _ _ _). }
  unfold collect_run, collect. destruct skip.
  - unfold bind at 1 3, ret at 1 2. cbv zeta. rewrite !Hrest. split; [exists 0%nat; by rewrite app_nil_r|done].
  - split; [|done]. unfold bind at 1 2.
    pose proof (measure_sends PATHS_URL s ltac:(left)) as H1.
    destruct (measure_request _ _ _ PATHS_URL s) as [[a|e] s1]; [|exists 1%nat; exact H1]. cbn [snd] in H1. unfold bind at 1.
    pose proof (measure_sends METRICS_URL s1 ltac:(right; left)) as H2.
    destruct (measure_request _ _ _ METRICS_URL s1) as [[b|e] s2]; cbn [snd] in H2; rewrite H1, <- app_assoc in H2; [|exists 2%nat; exact H2].
    unfold ret. rewrite Hrest. exists 2%nat. exact H2.
Qed.

(** *** The interfaces *)

Lemma interface_named line interface c : interface_counters decimal_digit line = Some (interface, c) ->
  interface <> [] /\ (length interface <= 64)%nat.
Proof.
  unfold interface_counters. destruct (partition_text 58 line) as [[name values]|]; [|done].
  destruct (bool_decide (strip name = []) || _ || _) eqn:E; [done|]. apply orb_false_elim in E as [E _]. apply orb_false_elim in E as [E1 E2].
  apply bool_decide_eq_false in E1. apply Nat.ltb_ge in E2. destruct (mapM _ _); [|done]. by intros [= <- _].
Qed.

Lemma interfaces_bounded lines : forall acc : gmap (list Z) counters,
  (forall i, is_Some (acc !! i) -> i <> [] /\ (length i <= 64)%nat) ->
  let result := fold_left (add_interface decimal_digit) lines acc in
  (size result <= size acc + length lines)%nat /\ forall i, is_Some (result !! i) -> i <> [] /\ (length i <= 64)%nat.
Proof.
  induction lines as [|line lines IH]; intros acc Hacc; cbn [fold_left length].
  - split; [lia|done].
  - cbv zeta. destruct (interface_counters decimal_digit line) as [[interface c]|] eqn:E.
    + assert (add_interface decimal_digit acc line = <[interface := c]> acc) as -> by (unfold add_interface; by rewrite E).
      destruct (IH (<[interface := c]> acc)) as [Hs Hk].
      { intros i Hi. destruct (decide (i = interface)) as [->|Hne]; [by eapply interface_named|].
        rewrite lookup_insert_ne in Hi by done. by apply Hacc. }
      split; [|exact Hk]. rewrite map_size_insert in Hs. destruct (acc !! interface); cbn in Hs; lia.
    + assert (add_interface decimal_digit acc line = acc) as -> by (unfold add_interface; by rewrite E).
      destruct (IH acc Hacc) as [Hs Hk]. split; [lia|exact Hk].
Qed.

(** At most 32 interfaces are reported, whatever the file says, each under a name of
    1 to 64 characters. *)
Theorem network_counters_bounded content :
  (size (_network_counters decimal_digit content) <= MAX_NETWORK_INTERFACES)%nat /\
  forall i, is_Some (_network_counters decimal_digit content !! i) -> i <> [] /\ (length i <= 64)%nat.
Proof.
  destruct (interfaces_bounded (take MAX_NETWORK_INTERFACES (drop 2 (splitlines content).*1)) ∅) as [Hs Hk].
  { intros i [c Hc]. by rewrite lookup_empty in Hc. }
  split; [|exact Hk]. unfold _network_counters. rewrite map_size_empty in Hs.
  etransitivity; [exact Hs|]. rewrite length_take. lia.
Qed.

(** *** The file *)

(** The other files are as they were. *)
Definition beside (output temporary : string) (s s' : directory C) : Prop :=
  forall name, name <> output -> name <> temporary -> dget name (sl_files s') = dget name (sl_files s).

(** The report appears at once or not at all, and no other file changes. *)
Theorem report_at_once output temporary summary s r s' : temporary <> output ->
  write_json io partial empty dump output temporary summary s = (r, s') ->
  beside output temporary s s' /\
  match r with
  | Ok _ => dget output (sl_files s') = Some (dump summary) /\ dget temporary (sl_files s') = None
  | Err _ => dget output (sl_files s') = dget output (sl_files s)
  end.
Proof.
  intros Hne H. unfold write_json, system_call, read, bind, of_result, on_files, set_files, modify, try_finally, write_file, replace_file in H. cbn in H.
  destruct (io (sl_reads s)) as [[]|e0]; cbn in H; [|by injection H as <- <-].
  destruct (io (S (sl_reads s))) as [[]|e1]; cbn in H; [|by injection H as <- <-].
  destruct (io (S (S (sl_reads s)))) as [[]|e2] eqn:E2; cbn in H; rewrite ?E2 in H; cbn in H.
  - destruct (io (S (S (S (sl_reads s))))) as [[]|e3]; cbn in H.
    + destruct (io (S (S (S (S (sl_reads s)))))) as [[]|e4]; cbn in H; injection H as <- <-; unfold set_files, beside; cbn [sl_files].
      * split; [|split].
        -- intros name H1 H2. rewrite dget_ddel_ne, !dget_dset_ne by congruence. done.
        -- rewrite dget_ddel_ne, dget_dset_eq, dget_dset_eq by congruence. done.
        -- apply dget_ddel_eq.
      * split; [intros name H1 H2|]; by rewrite !dget_dset_ne by congruence.
    + injection H as <- <-; unfold set_files, beside; cbn [sl_files]. split; [intros name H1 H2|]; by rewrite !dget_dset_ne by congruence.
  - destruct (io (S (S (S (sl_reads s))))) as [[]|e3]; cbn in H; injection H as <- <-; unfold set_files, beside; cbn [sl_files];
      (split; [intros name H1 H2|]; by rewrite !dget_dset_ne by congruence).
Qed.
End Facts.

(** ** Concrete runs *)

Module Sample.
Definition line (s : string) : list Z := of_ascii s ++ [10%Z].
Definition net_dev : list Z :=
  line "Inter-| Receive" ++ line " face |bytes" ++ line "  eth0: 1 2 0 0 0 0 0 0 30 40 0 0 0 0 0 0" ++ line "bad: 1 2" ++ line "lo: x".
Example one_interface : map_to_list (_network_counters ascii_digit net_dev) =
  [(of_ascii "eth0", {| nc_receive_bytes := 1; nc_receive_packets := 2; nc_transmit_bytes := 30; nc_transmit_packets := 40 |})].
Proof. vm_compute. reflexivity. Qed.
Example thirty_two : size (_network_counters ascii_digit
  (mjoin ((fun n => [Z.of_nat n + 200]%Z ++ line ": 1 2 0 0 0 0 0 0 30 40 0 0 0 0 0 0") <$> seq 0 50))) = 32%nat.
Proof. vm_compute. reflexivity. Qed.
Example rounded_latency : round_3 (float_div 12345678 10000) = float_div 1234568 1000.
Proof. vm_compute. reflexivity. Qed.
Example redirects_are_statuses : probe_outcome (fun _ => "error") (Redirection 302 (Ok tt)) = Ok (Some 302%Z, None).
Proof. reflexivity. Qed.

Definition metrics : host_metrics :=
  {| hm_disk := {| du_total := 3; du_used := 1; du_free := 2 |}; hm_loadavg := None; hm_memory_kib := None; hm_network := None |}.
Definition sample_report : summary :=
  {| sm_generated_at := "now"; sm_samples := []; sm_host_metrics := metrics; sm_run_mode := "host_metrics_only" |}.
Definition fails_at (bad n : nat) : result unit := if (n =? bad)%nat then Err OSError else Ok tt.
Definition dump_mode (s : summary) : string := sm_run_mode s.
Definition folder : directory string := {| sl_reads := 0; sl_root := true; sl_files := [("out.json", "old")] |}.
Definition write (bad : nat) := write_json (fails_at bad) (fun _ _ => "host") "empty" dump_mode "out.json" ".out.json.tmp" sample_report folder.

(** A report that cannot be written leaves its temporary file behind. *)
Example failed_report_leaves_file :
  (fst (write 2), sl_files (snd (write 2))) = (Err OSError, [("out.json", "old"); (".out.json.tmp", "host")]).
Proof. vm_compute. reflexivity. Qed.

Lemma report_at_once_witness : ".out.json.tmp" <> "out.json" /\ dget "out.json" (sl_files (snd (write 9))) = Some "host_metrics_only".
Proof.
  split; [discriminate|].
  exact (proj1 (proj2 (report_at_once (fails_at 9) (fun _ _ => "host") "empty" dump_mode "out.json" ".out.json.tmp" sample_report folder
    (Ok tt) (snd (write 9)) ltac:(discriminate) ltac:(vm_compute; reflexivity)))).
Defined.
End Sample.
